(* ===== verification/_CoqProject ===== *)
-Q . S2P
Prelude.v
PyStr.v
Effects.v
Programs.v
PyDict.v
PyFloat.v
Json.v
Sha256.v
Transitions.v
Values.v
Goals.v
Execution.v
ExecutionObjects.v
History.v
Digests.v
Identity.v
Improvement.v
EvaluationDomain.v
Statistics.v
Calendar.v
ContextDomain.v
Context.v
Memory.v
Gateway.v
GatewayProofs.v
KillSwitch.v
Reconciliation.v
AuditChain.v
Regex.v
Capability.v
Versions.v
Verification.v
Uuids.v
Harness.v
Rows.v
HarnessProofs.v
Isolation.v
Workflow.v
WorkflowProofs.v
Codec.v
Inserts.v
CodecProofs.v
Schema.v
Database.v
RepositoryCore.v
RepositoryRuns.v
RepositoryExecution.v
RepositoryLogic.v
RepositoryCommands.v
RepositoryTenants.v
RepositoryProofs.v
RepositoryVersions.v
RepositoryMemory.v
RepositoryOutbox.v
SqlKillSwitch.v
Outbox.v
RepositorySample.v
Store.v
Application.v
RunCommands.v
ActionCommands.v
EvidenceCommands.v
Machine.v
MachineInvariant.v
StoreLogic.v
RunProofs.v
ActionProofs.v
Platform.v
SamplePlatform.v
Evolution.v
EvolutionProofs.v
Activities.v
EvolutionServices.v
PackCatalogue.v
ExecutionGateway.v
SqlReservations.v
Authority.v
Graders.v
