(* ===== verification/Prelude.v ===== *)
(** * Autonoesis: a verification library

    Autonoesis runs goals for tenants: a goal is accepted with success
    criteria, runs work on it by plans of tasks, tasks propose actions on
    external systems, actions need approvals and pass a governed gateway,
    their effects are captured as evidence, evidence is verified into
    outcomes, and outcomes decide whether runs succeed and goals are
    satisfied.  Runs are driven by durable workflows; new versions of agents
    are evaluated, rolled out and released under separate principals.  This
    library models the Python packages under [src/packages], the workflow
    worker under [src/apps/worker] and the policies under [src/infra] that
    hold this logic, and proves what makes them correct.

    ** How the code is modelled

    This file holds exceptions ([res]: a value or the exception raised), the
    generic lemmas on lists and options, notations and automation.  Python
    values: [PyStr] (strings, UUIDs as numbers, aware and naive datetimes in
    microseconds), [PyDict] (dictionaries in insertion order), [PyFloat]
    (binary64), [Json] ([json.dumps], [json.loads], proved inverse), [Uuids]
    ([str()] and [uuid.UUID()]), [Regex] ([re], UTF-8 decoding), [Calendar]
    ([isoformat] and back), [Sha256] (computed, so digests evaluate; also
    SHA-1 for [uuid5]).  Dataclasses are records with [post_init] and [new]
    for their validation.  Code with effects runs in the monad [M] of
    [Effects]: shared state, clock readings and generated identifiers,
    exceptions, [try]; [wp] is its weakest precondition.  Code that awaits
    ports is written over a record of operations of [M] or, for the gateway,
    as a program of [Programs], whose runs are traces of port calls with
    arbitrary answers.  Code outside [src] (databases, the workflow engine,
    object stores, catalogues, policy engine, model providers) is a parameter.

    ** Domain and services

    - packages/domain: [Transitions], [Values], [Goals] (goals.py),
      [Execution] (tasks and plans, and that the cycle check accepts exactly
      the acyclic plans) and [ExecutionObjects] (execution.py), [Identity]
      (identity.py, assets.py), [Improvement] (with the canary split),
      [EvaluationDomain], [ContextDomain].  [History]: aggregates only advance
      along their tables.  [Digests]: what an action digest and an approval
      bind, and where digests are ambiguous.
    - [Context] (access, freshness, assembly, compression), [Memory] (write
      gate, ledger, store, deletion), [KillSwitch], [Reconciliation],
      [Isolation] (names of a tenant on shared surfaces), [Capability] and
      [Versions] (pack manifests and the order of versions), [Statistics] (the
      confidence gate), [Harness] and [HarnessProofs] (suites, graders and
      what a passed trial proves), [EvolutionServices] (deployment pipeline,
      cost, service levels, trial batches, replay).
    - [Gateway] (runtime-kernel tools.py): [GatewayProofs] shows what precedes
      an external call.  [ExecutionGateway] and [SqlReservations]
      (execution_gateway.py): its adapters in memory, the reservation services
      behind one interface, at most one call per idempotency key, and the
      relational service as a refinement of the one in memory.  [Authority]:
      policies (also infra/policies), delegations, break-glass.  [Graders]:
      grader backends, subject runtimes, the candidate evaluator.
    - [AuditChain] (platform.py): hash chains and what tampering takes.
      [Verification] (verification.py): what a verified outcome is grounded
      in.

    ** The application and its specification

    [Store] is the whole of InMemoryPlatformStore (memory.py).  Over it,
    [Application], [RunCommands], [ActionCommands] and [EvidenceCommands] hold
    all use cases of GoalExecutionApplication (execution.py).  [Machine]
    states what they promise as an abstract machine: [change] relates two
    stores that differ by one legal change, [moves] by any number, [store_ok]
    is the invariant.  [MachineInvariant]: changes forget nothing, keep the
    invariant and touch only their tenant.  [StoreLogic] is a program logic
    over the store and the interface [PortsOk] the ports have to meet: they
    leave the store alone, except that the store may move by changes of the
    machine while the gateway is awaited.  [RunProofs] and [ActionProofs]
    prove the use cases against it; [Platform] collects them into the
    refinement and draws the consequences for every reachable world: satisfied
    goals rest on authoritative evidence, succeeded runs are complete, audit
    trails verify, tenants are kept apart, repeated commands answer alike.
    [SamplePlatform] runs a platform from the draft of a goal to its
    satisfaction and applies the theorems to it.

    [Evolution] and [EvolutionProofs] (evolution.py): what a release rests on,
    over any history of lifecycle operations.  [PackCatalogue] (packs.py):
    the goal types tenants get, and that revocation is final.

    [Workflow] and [WorkflowProofs] (workflows.py, contracts.py): the
    workflows over the events the engine delivers - signals, timeouts, answers
    of activities - in any order: governance, ending, the bound on
    continuations.  [Activities] (activities.py) ties the activities to the
    use cases, and an executed run to its approval.

    ** The relational store

    [Schema] (persistence_schema.py) is the schema as data, [Database] the
    interface of a database with the laws PostgreSQL is relied on for
    (statements, constraints, transactions) and an implementation in memory
    that meets them.  [Codec], [Rows], [Inserts] (persistence_codec.py) are
    records and rows, [CodecProofs] that what is written is read back.
    [RepositoryCore], [RepositoryRuns], [RepositoryExecution] (persistence.py)
    are the operations.  [RepositoryLogic] is their program logic;
    [RepositoryCommands] proves that audit chains verify, [RepositoryTenants]
    that tenants do not interfere, [RepositoryProofs] and [RepositoryVersions]
    reading back and stale saves against the interface [Persisted] of a
    record, [RepositoryMemory] deletion, [RepositoryOutbox] that each event
    has its message.  [Outbox] (outbox.py, envelope.py): relay, writer and
    inbox; [SqlKillSwitch] (kill_switch_store.py).  [RepositorySample] applies
    them.

    ** Bounds and fuel

    Recursion that is not structural carries fuel, with a theorem that it
    suffices: the search for cycles of a plan visits at most one node per task
    (fuel: tasks + 1), the deletion of derived memories one round per edge,
    the approval loop of a workflow one round per event, a chain of
    continuations its limit; the regular expression matcher and the JSON
    parser consume input at every step.  Python integers are [Z].  UUIDs that
    cross a text have 128 bits ([uuid_ok]), datetimes that cross [isoformat]
    lie in the years 1 to 9999.  A LIMIT is a [nat].  Floats are binary64;
    comparison laws are claimed without NaN.

    ** Simplifications

    Transactions are serial: within one transaction no other command runs, and
    interleaving is modelled where the application gives up its transaction
    (between the two transactions of a governed execution, between the port
    calls of gateways).  Rows are typed: a value of another type than its
    field's raises TypeError when it is read, where Python keeps it.  The
    calls of one [asyncio.gather] are taken in order.  LIKE is modelled; the
    quantile of the normal distribution is a parameter.  CPython's recursion
    limit is not modelled: a chain of about a thousand dependencies makes the
    cycle check of a plan raise RecursionError, here it is accepted or refused
    like any other.  Row-level security, advisory locks, tracing and metrics
    change no row and are left out.

    ** Not modelled

    The HTTP interface and the client (routing over the use cases), the
    dispatcher and process of the worker, OIDC and JSON schema validation
    (third-party libraries), signing and plugin loading, object stores,
    read-back and model adapters, child processes, telemetry; the model
    gateway, the environment, intelligence and improvement packages;
    ThresholdGrader; platform_store.py, which forwards each call to the
    repository. *)

From stdpp Require Export base decidable list strings numbers sets.
From Stdlib Require Export Ascii.

Declare Scope py_scope.
Delimit Scope py_scope with py.
Open Scope py_scope.

(** ** Exceptions

    The exception classes the modelled code raises or catches.  [subclass]
    is the class hierarchy the [except] clauses rely on. *)

Inductive exn_kind :=
  | ValueError | InvalidStateTransition | ManifestError
  | EvidenceAdmissionRejected
  | PermissionError | TenantBoundaryViolation | TimeoutError
  | LookupError | KeyError | RecordNotFound
  | RuntimeError | ConcurrencyConflict
  | TypeError | AssertionError | StatisticsError
  | OtherError (name : string).

#[export] Instance exn_kind_eq_dec : EqDecision exn_kind.
Proof. solve_decision. Defined.

(** The direct base class, when it is one of the classes above. *)
Definition exn_base (k : exn_kind) : option exn_kind :=
  match k with
  | InvalidStateTransition | ManifestError | EvidenceAdmissionRejected
  | StatisticsError => Some ValueError
  | TenantBoundaryViolation => Some PermissionError
  | KeyError | RecordNotFound => Some LookupError
  | ConcurrencyConflict => Some RuntimeError
  | _ => None
  end.

(** [type(exc).__name__] *)
Definition class_name (k : exn_kind) : string :=
  match k with
  | ValueError => "ValueError" | InvalidStateTransition => "InvalidStateTransition"
  | ManifestError => "ManifestError" | EvidenceAdmissionRejected => "EvidenceAdmissionRejected"
  | PermissionError => "PermissionError" | TenantBoundaryViolation => "TenantBoundaryViolation"
  | TimeoutError => "TimeoutError" | LookupError => "LookupError" | KeyError => "KeyError"
  | RecordNotFound => "RecordNotFound" | RuntimeError => "RuntimeError"
  | ConcurrencyConflict => "ConcurrencyConflict" | TypeError => "TypeError"
  | AssertionError => "AssertionError" | StatisticsError => "StatisticsError"
  | OtherError name => name
  end.

(** [except K] catches an exception of class [k]. *)
Definition catches (K k : exn_kind) : bool :=
  bool_decide (k = K) || bool_decide (exn_base k = Some K).

Record exn := Exn { exn_class : exn_kind; exn_msg : string }.

#[export] Instance exn_eq_dec : EqDecision exn.
Proof. solve_decision. Defined.

(** ** The error monad: a Python call returns a value or raises *)

Inductive res (A : Type) := Ok (a : A) | Err (e : exn).
Arguments Ok {A} a.
Arguments Err {A} e.

#[export] Instance res_ret : MRet res := fun A a => Ok a.
#[export] Instance res_bind : MBind res :=
  fun A B k m => match m with Ok a => k a | Err e => Err e end.
#[export] Instance res_fmap : FMap res :=
  fun A B f m => match m with Ok a => Ok (f a) | Err e => Err e end.

Definition raise {A} (k : exn_kind) (msg : string) : res A := Err (Exn k msg).

(** [if b: raise k(msg)] *)
Definition raise_if (b : bool) (k : exn_kind) (msg : string) : res unit :=
  if b then raise k msg else Ok tt.

Definition is_ok {A} (m : res A) : bool :=
  match m with Ok _ => true | Err _ => false end.

(** [for x in l: f(x)], stopping at the first exception. *)
Fixpoint for_each {A} (f : A → res unit) (l : list A) : res unit :=
  match l with
  | [] => Ok tt
  | x :: l' => f x ;; for_each f l'
  end.

(** A comprehension whose element expression may raise. *)
Fixpoint mapM_res {A B} (f : A → res B) (l : list A) : res (list B) :=
  match l with
  | [] => Ok []
  | x :: l' => y ← f x; ys ← mapM_res f l'; Ok (y :: ys)
  end.

Section res_laws.
Context {A B : Type}.
Implicit Types (m : res A) (f : A → res B).

Lemma bind_ok m f b : m ≫= f = Ok b ↔ ∃ a, m = Ok a ∧ f a = Ok b.
Proof. destruct m as [a|e]; cbn; split; [eauto|by intros (? & [= ->] & ?)|done|by intros (? & ? & ?)]. Qed.

Lemma bind_err m f e :
  m ≫= f = Err e ↔ m = Err e ∨ ∃ a, m = Ok a ∧ f a = Err e.
Proof.
  destruct m as [a|e']; cbn; split; [eauto| |by intros [= ->]; left|].
  - by intros [?|(? & [= ->] & ?)].
  - by intros [[= ->]|(? & ? & ?)].
Qed.

Lemma is_ok_true m : is_ok m = true ↔ ∃ a, m = Ok a.
Proof. destruct m; cbn; split; [eauto|done|done|by intros [? ?]]. Qed.
End res_laws.

Lemma raise_if_ok b k msg u : raise_if b k msg = Ok u ↔ b = false.
Proof. by destruct b, u; cbn; split. Qed.

Lemma raise_if_err b k msg e :
  raise_if b k msg = Err e ↔ b = true ∧ e = Exn k msg.
Proof. destruct b; cbn; split; [by intros [= <-]|by intros [_ ->]|done|by intros [? _]]. Qed.

(** Statements in sequence: all of them return. *)
Lemma then_ok {B} (m : res unit) (k : res B) b :
  (m ;; k) = Ok b ↔ m = Ok tt ∧ k = Ok b.
Proof. destruct m as [[]|e]; cbn; naive_solver. Qed.

Lemma then_err {B} (m : res unit) (k : res B) e :
  (m ;; k) = Err e ↔ m = Err e ∨ (m = Ok tt ∧ k = Err e).
Proof. destruct m as [[]|e']; cbn; naive_solver. Qed.

Lemma for_each_err {A} (f : A → res unit) l e :
  for_each f l = Err e → ∃ x, x ∈ l ∧ f x = Err e.
Proof.
  induction l as [|x l IH]; cbn; [done|].
  rewrite then_err. intros [H|[_ H]]; [exists x; split; [left|done]|].
  destruct (IH H) as (y & ? & ?). exists y. split; [by right|done].
Qed.

Lemma for_each_ok {A} (f : A → res unit) l u :
  for_each f l = Ok u ↔ Forall (fun x => f x = Ok tt) l.
Proof.
  destruct u. induction l as [|x l IH]; cbn; [by split; auto|].
  destruct (f x) as [[]|e] eqn:E; cbn.
  - rewrite IH. split; [by constructor | by inversion 1].
  - split; [done | inversion 1; congruence].
Qed.

Lemma mapM_res_ok {A B} (f : A → res B) l ys :
  mapM_res f l = Ok ys ↔ Forall2 (fun x y => f x = Ok y) l ys.
Proof.
  revert ys. induction l as [|x l IH]; intros ys; cbn.
  - split; [by intros [= <-]; constructor | by inversion 1].
  - split.
    + intros (y & Hy & H)%bind_ok. apply bind_ok in H as (ys' & Hys & [= <-]).
      constructor; [done | by apply IH].
    + inversion 1 as [|? y ? ys' Hy Hys]; subst.
      rewrite Hy; cbn. by apply IH in Hys as ->.
Qed.

(** ** Record updates

    [r <| f := v |>] is [replace(r, f=v)] before validation.  A record
    declares its eta expansion once ([Settable]); the setter of a field is that
    expansion with the field's projection replaced by the new value. *)

Class Settable (R : Type) := eta_expansion : R → R.

Class Setter {R E : Type} (field : R → E) := set_field : E → R → R.

Ltac build_setter :=
  lazymatch goal with
  | |- @Setter ?R ?E ?field =>
      let inst := lazymatch constr:(@eta_expansion R _) with
                  | @eta_expansion _ ?i => i
                  end in
      let e := eval cbv delta [inst] in inst in
      exact (fun (v : E) (r : R) => ltac:(
        let body := eval cbv beta in (e r) in
        lazymatch body with
        | context C [field r] => let body' := context C [v] in exact body'
        end))
  end.

#[export] Hint Extern 1 (@Setter _ _ _) => build_setter : typeclass_instances.

Notation "r <| f := v |>" := (set_field (field := f) v r)
  (at level 8, left associativity, f constr at level 1, v constr at level 99) : py_scope.

(** ** Automation *)

Create HintDb py discriminated.
Create Rewrite HintDb py.

(** Split every [_ = Ok _] hypothesis along the binds that produced it. *)
Ltac inv_ok :=
  repeat match goal with
  | H : Ok _ = Ok _ |- _ => injection H as H; try subst
  | H : Err _ = Ok _ |- _ => discriminate H
  | H : Ok _ = Err _ |- _ => discriminate H
  | H : raise _ _ = Ok _ |- _ => discriminate H
  | H : mret _ = Ok _ |- _ => injection H as H; try subst
  | H : raise_if _ _ _ = Ok _ |- _ => apply raise_if_ok in H
  | H : _ ≫= _ = Ok _ |- _ =>
      let a := fresh "x" in let Ha := fresh "Hx" in
      apply bind_ok in H as (a & Ha & H)
  | x : unit |- _ => destruct x
  end.

(** Case on the scrutinee of a [match] or [if] in the goal or in [H]. *)
Ltac case_goal :=
  match goal with
  | |- context [match ?x with _ => _ end] => destruct x eqn:?
  end.
Ltac case_in H :=
  match type of H with
  | context [match ?x with _ => _ end] => destruct x eqn:?
  end.

(** ** Lists and booleans *)

(** Python's [any] and [all] over a generator. *)
Definition any {A} (f : A → bool) (l : list A) : bool := existsb f l.
Definition all {A} (f : A → bool) (l : list A) : bool := forallb f l.

(** [len(set(xs)) == len(xs)], the idiom the code uses for uniqueness. *)
Definition unique {A} `{EqDecision A} (l : list A) : bool :=
  bool_decide (NoDup l).

Definition is_some {A} (o : option A) : bool :=
  match o with Some _ => true | None => false end.
Definition is_none {A} (o : option A) : bool := negb (is_some o).

(** [x in xs] *)
Definition mem {A} `{EqDecision A} (x : A) (l : list A) : bool :=
  bool_decide (x ∈ l).

(** [set(xs).issubset(ys)] *)
Definition subset_of {A} `{EqDecision A} (xs ys : list A) : bool :=
  all (fun x => mem x ys) xs.

Lemma any_true {A} (f : A → bool) l : any f l = true ↔ ∃ x, x ∈ l ∧ f x = true.
Proof.
  unfold any. rewrite existsb_exists.
  split; intros (x & Hx & Hf); exists x; split; try done; by apply list_elem_of_In.
Qed.

Lemma any_false {A} (f : A → bool) l : any f l = false ↔ ∀ x, x ∈ l → f x = false.
Proof.
  rewrite <- not_true_iff_false, any_true. split.
  - intros H x Hx. destruct (f x) eqn:E; [|done]. exfalso; eauto.
  - intros H (x & Hx & Hf). by rewrite H in Hf.
Qed.

Lemma all_true {A} (f : A → bool) l : all f l = true ↔ ∀ x, x ∈ l → f x = true.
Proof.
  unfold all. rewrite forallb_forall.
  split; intros H x Hx; apply H; by apply list_elem_of_In.
Qed.

Lemma mem_true {A} `{EqDecision A} (x : A) l : mem x l = true ↔ x ∈ l.
Proof. unfold mem. apply bool_decide_eq_true. Qed.

Lemma mem_false {A} `{EqDecision A} (x : A) l : mem x l = false ↔ x ∉ l.
Proof. unfold mem. apply bool_decide_eq_false. Qed.

Lemma subset_of_true {A} `{EqDecision A} (xs ys : list A) :
  subset_of xs ys = true ↔ xs ⊆ ys.
Proof. unfold subset_of. rewrite all_true. setoid_rewrite mem_true. done. Qed.

Lemma unique_true {A} `{EqDecision A} (l : list A) : unique l = true ↔ NoDup l.
Proof. apply bool_decide_eq_true. Qed.

Lemma unique_false {A} `{EqDecision A} (l : list A) : unique l = false ↔ ¬ NoDup l.
Proof. apply bool_decide_eq_false. Qed.

Lemma elem_of_take_in {A} (x : A) n l : x ∈ take n l → x ∈ l.
Proof. intros H. rewrite <- (take_drop n l). apply elem_of_app. by left. Qed.

Lemma elem_of_drop_in {A} (x : A) n l : x ∈ drop n l → x ∈ l.
Proof. intros H. rewrite <- (take_drop n l). apply elem_of_app. by right. Qed.

(** Membership in a comprehension's [if] clause. *)
Lemma elem_of_list_filter {A} (f : A → bool) x l :
  x ∈ List.filter f l ↔ x ∈ l ∧ f x = true.
Proof. by rewrite !list_elem_of_In, filter_In. Qed.

#[export] Hint Rewrite @any_true @all_true @mem_true @mem_false @any_false
  @subset_of_true @unique_true @unique_false : py.

(** Turn boolean facts into propositions. *)
Ltac bool_hyps :=
  repeat match goal with
  | H : _ && _ = true |- _ => apply andb_true_iff in H as [? ?]
  | H : _ || _ = false |- _ => apply orb_false_iff in H as [? ?]
  | H : negb _ = true |- _ => apply negb_true_iff in H
  | H : negb _ = false |- _ => apply negb_false_iff in H
  | H : bool_decide _ = true |- _ => apply bool_decide_eq_true in H
  | H : bool_decide _ = false |- _ => apply bool_decide_eq_false in H
  | H : mem _ _ = true |- _ => apply mem_true in H
  | H : mem _ _ = false |- _ => apply mem_false in H
  | H : unique _ = true |- _ => apply unique_true in H
  | H : unique _ = false |- _ => apply unique_false in H
  | H : (_ <? _)%Z = _ |- _ => first [apply Z.ltb_lt in H | apply Z.ltb_ge in H]
  | H : (_ <=? _)%Z = _ |- _ => first [apply Z.leb_le in H | apply Z.leb_gt in H]
  | H : (_ =? _)%Z = _ |- _ => first [apply Z.eqb_eq in H | apply Z.eqb_neq in H]
  end.
