(* ===== verification/PyStr.v ===== *)
(** * Python strings, UUIDs and timestamps

    The values of the standard library the modelled code computes with.

    - [str] is [String.string], each character read as the code point of its
      number (0 to 255).  On that range [strip], [isspace], [lower], [len],
      [startswith] and the UTF-8 encoder below are Python's; strings with
      code points above 255 are outside the model.
    - A [UUID] is its 128-bit integer; [uuid_str] is [str(UUID)].
    - A [datetime] is a count of microseconds, with or without a time zone.
      Python compares two aware values by instant and refuses to order an
      aware value and a naive one. *)

From S2P Require Import Prelude.
From Stdlib Require Import ZArith.

Open Scope string_scope.
Open Scope Z_scope.

(** ** Characters *)

Definition ord (c : ascii) : Z := Z.of_nat (nat_of_ascii c).
Definition chr (z : Z) : ascii := ascii_of_nat (Z.to_nat z).

(** [str.isspace] on one code point below 256. *)
Definition is_space (c : ascii) : bool :=
  let n := ord c in
  ((9 <=? n) && (n <=? 13)) || ((28 <=? n) && (n <=? 32)) ||
  (n =? 133) || (n =? 160).

(** [str.lower] on one code point below 256. *)
Definition lower_char (c : ascii) : ascii :=
  let n := ord c in
  if ((65 <=? n) && (n <=? 90)) ||
     ((192 <=? n) && (n <=? 222) && negb (n =? 215))
  then chr (n + 32) else c.

Definition is_digit (c : ascii) : bool := (48 <=? ord c) && (ord c <=? 57).

(** [char in "0123456789abcdef"] *)
Definition is_hex_lower (c : ascii) : bool :=
  is_digit c || ((97 <=? ord c) && (ord c <=? 102)).

(** ** Strings *)

Fixpoint chars (s : string) : list ascii :=
  match s with
  | EmptyString => []
  | String c s' => c :: chars s'
  end.

Fixpoint of_chars (l : list ascii) : string :=
  match l with
  | [] => EmptyString
  | c :: l' => String c (of_chars l')
  end.

Definition len (s : string) : Z := Z.of_nat (String.length s).

Fixpoint lstrip (s : string) : string :=
  match s with
  | String c s' => if is_space c then lstrip s' else s
  | EmptyString => EmptyString
  end.

Fixpoint rstrip (s : string) : string :=
  match s with
  | EmptyString => EmptyString
  | String c s' =>
      match rstrip s' with
      | EmptyString => if is_space c then EmptyString else String c EmptyString
      | r => String c r
      end
  end.

(** [s.strip()] *)
Definition strip (s : string) : string := rstrip (lstrip s).

(** [not s.strip()] *)
Definition blank (s : string) : bool := bool_decide (strip s = "").

(** [not s.strip(c)] for a one-character argument. *)
Definition only_char (c : ascii) (s : string) : bool :=
  all (fun x => bool_decide (x = c)) (chars s).

(** [not s] *)
Definition empty (s : string) : bool := bool_decide (s = "").

Definition lower (s : string) : string := of_chars (lower_char <$> chars s).

(** [s.startswith(p)] *)
Definition startswith (s p : string) : bool := String.prefix p s.

(** [sep.join(l)] *)
Fixpoint join (sep : string) (l : list string) : string :=
  match l with
  | [] => ""
  | [x] => x
  | x :: l' => x +:+ sep +:+ join sep l'
  end.

(** [sub in s] *)
Fixpoint contains (sub s : string) : bool :=
  String.prefix sub s ||
  match s with
  | EmptyString => false
  | String _ s' => contains sub s'
  end.

(** Code point order, Python's [<] on [str]. *)
Fixpoint str_ltb (s t : string) : bool :=
  match s, t with
  | EmptyString, EmptyString => false
  | EmptyString, String _ _ => true
  | String _ _, EmptyString => false
  | String c s', String d t' =>
      if ord c <? ord d then true
      else if ord d <? ord c then false else str_ltb s' t'
  end.

(** [s.encode("utf-8")] as a list of bytes. *)
Definition utf8_char (c : ascii) : list Z :=
  let n := ord c in
  if n <? 128 then [n] else [192 + n / 64; 128 + n mod 64].

Definition utf8 (s : string) : list Z := chars s ≫= utf8_char.

(** ** Numbers as text *)

Definition digit_char (n : Z) : ascii := chr (48 + n).
Definition hex_char (n : Z) : ascii :=
  if n <? 10 then chr (48 + n) else chr (87 + n).

(** The decimal digits of [n >= 0]; [fuel] bounds their number. *)
Fixpoint dec_digits (fuel : nat) (n : Z) (acc : string) : string :=
  match fuel with
  | O => acc
  | S f =>
      let acc' := String (digit_char (n mod 10)) acc in
      if n <? 10 then acc' else dec_digits f (n / 10) acc'
  end.

(** [str(n)] for an integer. *)
Definition int_str (n : Z) : string :=
  let d := dec_digits (S (Z.to_nat (Z.log2 (Z.abs n)))) (Z.abs n) "" in
  if n <? 0 then String "-"%char d else d.

(** [w] hexadecimal digits of [n], most significant first. *)
Fixpoint hex_digits (w : nat) (n : Z) (acc : string) : string :=
  match w with
  | O => acc
  | S w' => hex_digits w' (n / 16) (String (hex_char (n mod 16)) acc)
  end.

(** ** UUIDs *)

Definition uuid := N.

Definition uuid_hex (u : uuid) : string := hex_digits 32 (Z.of_N u) "".

(** [str(u)]: the hexadecimal digits grouped 8-4-4-4-12. *)
Definition uuid_str (u : uuid) : string :=
  let h := uuid_hex u in
  String.substring 0 8 h +:+ "-" +:+ String.substring 8 4 h +:+ "-" +:+
  String.substring 12 4 h +:+ "-" +:+ String.substring 16 4 h +:+ "-" +:+
  String.substring 20 12 h.

Example uuid_str_small :
  uuid_str 1193046%N = "00000000-0000-0000-0000-000000123456".
Proof. vm_compute. reflexivity. Qed.

(** ** Timestamps *)

Inductive datetime := Aware (us : Z) | Naive (us : Z).

#[export] Instance datetime_eq_dec : EqDecision datetime.
Proof. solve_decision. Defined.

(** [d.tzinfo is None] *)
Definition is_naive (d : datetime) : bool :=
  match d with Naive _ => true | Aware _ => false end.

Definition compare_error {A} : res A :=
  raise TypeError "can't compare offset-naive and offset-aware datetimes".

(** [a < b], [a <= b], [a > b], [a >= b] on datetimes. *)
Definition dt_lt (a b : datetime) : res bool :=
  match a, b with
  | Aware x, Aware y | Naive x, Naive y => Ok (x <? y)
  | _, _ => compare_error
  end.
Definition dt_le (a b : datetime) : res bool :=
  match a, b with
  | Aware x, Aware y | Naive x, Naive y => Ok (x <=? y)
  | _, _ => compare_error
  end.
Definition dt_gt (a b : datetime) : res bool := dt_lt b a.
Definition dt_ge (a b : datetime) : res bool := dt_le b a.

(** [d + timedelta] with the delta in microseconds. *)
Definition dt_add (d : datetime) (us : Z) : datetime :=
  match d with Aware x => Aware (x + us) | Naive x => Naive (x + us) end.

(** [a - b] in microseconds. *)
Definition dt_sub (a b : datetime) : res Z :=
  match a, b with
  | Aware x, Aware y | Naive x, Naive y => Ok (x - y)
  | _, _ => raise TypeError "can't subtract offset-naive and offset-aware datetimes"
  end.

Definition seconds (n : Z) : Z := n * 1000000.
Definition days (n : Z) : Z := seconds (n * 86400).

(** ** Digest-shaped strings

    [len(value) != 64 or any(char not in "0123456789abcdef" ...)] *)
Definition not_sha256_hex (s : string) : bool :=
  negb (len s =? 64) || any (fun c => negb (is_hex_lower c)) (chars s).

(** ** Lemmas *)

Lemma of_chars_chars s : of_chars (chars s) = s.
Proof. induction s; cbn; congruence. Qed.

Lemma chars_of_chars l : chars (of_chars l) = l.
Proof. induction l; cbn; congruence. Qed.

Lemma append_cons c s t : String c s +:+ t = String c (s +:+ t).
Proof. reflexivity. Qed.

Lemma append_nil t : "" +:+ t = t.
Proof. reflexivity. Qed.

Lemma chars_app s t : chars (s +:+ t) = (chars s ++ chars t)%list.
Proof. induction s as [|c s IH]; [done|]. rewrite append_cons. cbn. by rewrite IH. Qed.

#[export] Instance chars_inj : Inj (=) (=) chars.
Proof. intros s t H. rewrite <- (of_chars_chars s), H. apply of_chars_chars. Qed.

Lemma length_chars s : length (chars s) = String.length s.
Proof. induction s; cbn; congruence. Qed.

Lemma str_app_assoc (s t u : string) : (s +:+ t) +:+ u = s +:+ (t +:+ u).
Proof. induction s as [|c s IH]; [done|]. by rewrite !append_cons, IH. Qed.

Lemma str_app_nil (s : string) : s +:+ "" = s.
Proof. induction s as [|c s IH]; [done|]. by rewrite append_cons, IH. Qed.

Lemma str_app_inj_l (s t u : string) : s +:+ t = s +:+ u → t = u.
Proof. induction s as [|c s IH]; [done|]. rewrite !append_cons. intros [= H]. auto. Qed.

Lemma str_app_length (s t : string) :
  String.length (s +:+ t) = (String.length s + String.length t)%nat.
Proof. induction s as [|c s IH]; [done|]. rewrite append_cons. cbn. by rewrite IH. Qed.

Lemma ord_range c : 0 <= ord c < 256.
Proof. unfold ord. pose proof (nat_ascii_bounded c). lia. Qed.

Lemma chr_ord c : chr (ord c) = c.
Proof. unfold chr, ord. rewrite Nat2Z.id. apply ascii_nat_embedding. Qed.

Lemma ord_chr z : 0 <= z < 256 → ord (chr z) = z.
Proof.
  intros H. unfold ord, chr. rewrite nat_ascii_embedding; lia.
Qed.

#[export] Instance ord_inj : Inj (=) (=) ord.
Proof. intros c d H. rewrite <- (chr_ord c), H. apply chr_ord. Qed.

Lemma str_ltb_irrefl s : str_ltb s s = false.
Proof. induction s as [|c s IH]; cbn; [done|]. by rewrite Z.ltb_irrefl. Qed.

Lemma str_ltb_trans s t u :
  str_ltb s t = true → str_ltb t u = true → str_ltb s u = true.
Proof.
  revert t u. induction s as [|c s IH]; intros [|d t] [|e u]; cbn; try done.
  destruct (Z.ltb_spec (ord c) (ord d)), (Z.ltb_spec (ord d) (ord e)),
    (Z.ltb_spec (ord d) (ord c)), (Z.ltb_spec (ord e) (ord d)),
    (Z.ltb_spec (ord c) (ord e)), (Z.ltb_spec (ord e) (ord c));
    try done; try lia; eauto.
Qed.

Lemma str_ltb_total s t : str_ltb s t = false → str_ltb t s = false → s = t.
Proof.
  revert t. induction s as [|c s IH]; intros [|d t]; cbn; try done.
  destruct (Z.ltb_spec (ord c) (ord d)), (Z.ltb_spec (ord d) (ord c)); try done.
  intros H1 H2. f_equal; [apply (inj ord); lia | auto].
Qed.

Lemma dt_lt_aware a b : is_naive a = false → is_naive b = false →
  ∃ c, dt_lt a b = Ok c.
Proof. destruct a, b; cbn; eauto; done. Qed.

Lemma dt_lt_le a b : dt_lt a b = Ok true → dt_le b a = Ok false.
Proof.
  destruct a, b; cbn; try done; intros [= H]; f_equal;
    apply Z.leb_gt; by apply Z.ltb_lt.
Qed.
