(* ===== verification/Effects.v ===== *)
(** * Effects: mutable state, the clock and fresh identifiers

    A method that mutates shared objects, reads [datetime.now(UTC)] or calls
    [uuid4()] is a computation of [M S A]: it takes the environment (the whole
    sequence of clock readings and identifiers, so theorems quantify over
    every clock and every generator) and the state, and returns a value or an
    exception together with the state it leaves behind.  As in Python, what a
    method wrote before it raised stays written, unless a [transaction] undoes
    it.

    [wp m Q E s] is the weakest precondition: run from state [s] under any
    environment, [m] returns a value and a state in [Q] or raises in [E]. *)

From S2P Require Import Prelude PyStr.
From Stdlib Require Import ZArith.

Record env := Env { clock : nat → datetime; ids : nat → uuid }.

(** The shared state, and how many readings and identifiers were consumed. *)
Record st (S : Type) := St { data : S; ticks : nat; drawn : nat }.
Arguments St {S} data ticks drawn.
Arguments data {S} _.
Arguments ticks {S} _.
Arguments drawn {S} _.

Definition M (S A : Type) := env → st S → res A * st S.

#[export] Instance M_ret {S} : MRet (M S) := fun A a _ s => (Ok a, s).
#[export] Instance M_bind {S} : MBind (M S) := fun A B k m e s =>
  match m e s with
  | (Ok a, s') => k a e s'
  | (Err x, s') => (Err x, s')
  end.
#[export] Instance M_fmap {S} : FMap (M S) := fun A B f m e s =>
  match m e s with
  | (Ok a, s') => (Ok (f a), s')
  | (Err x, s') => (Err x, s')
  end.

Section operations.
Context {S : Type}.

(** A computation without effects, which may raise. *)
Definition lift {A} (r : res A) : M S A := fun _ s => (r, s).

Definition throw {A} (k : exn_kind) (msg : string) : M S A := lift (raise k msg).

Definition throw_if (b : bool) (k : exn_kind) (msg : string) : M S unit :=
  lift (raise_if b k msg).

Definition get : M S S := fun _ s => (Ok (data s), s).

Definition put (x : S) : M S unit := fun _ s => (Ok tt, St x (ticks s) (drawn s)).

Definition modify (f : S → S) : M S unit :=
  fun _ s => (Ok tt, St (f (data s)) (ticks s) (drawn s)).

(** [datetime.now(UTC)] *)
Definition now : M S datetime := fun e s =>
  (Ok (clock e (ticks s)), St (data s) (Nat.succ (ticks s)) (drawn s)).

(** [uuid4()] *)
Definition uuid4 : M S uuid := fun e s =>
  (Ok (ids e (drawn s)), St (data s) (ticks s) (Nat.succ (drawn s))).

(** [try: m except K: handler] *)
Definition try_except {A} (m : M S A) (K : exn_kind) (handler : exn → M S A) : M S A :=
  fun e s =>
    match m e s with
    | (Err x, s') => if catches K (exn_class x) then handler x e s' else (Err x, s')
    | r => r
    end.

(** [try: m except Exception: handler] *)
Definition try_all {A} (m : M S A) (handler : exn → M S A) : M S A := fun e s =>
  match m e s with
  | (Err x, s') => handler x e s'
  | r => r
  end.

(** A computation that only uses the clock and the generator. *)
Definition embed {A} (m : M unit A) : M S A := fun e s =>
  let '(r, s') := m e (St tt (ticks s) (drawn s)) in (r, St (data s) (ticks s') (drawn s')).

(** A block whose writes are undone when it raises. *)
Definition transaction {A} (m : M S A) : M S A := fun e s =>
  match m e s with
  | (Ok a, s') => (Ok a, s')
  | (Err x, s') => (Err x, St (data s) (ticks s') (drawn s'))
  end.

Fixpoint for_each_m {A} (f : A → M S unit) (l : list A) : M S unit :=
  match l with
  | [] => mret tt
  | x :: l' => f x ;; for_each_m f l'
  end.

Fixpoint mapM_m {A B} (f : A → M S B) (l : list A) : M S (list B) :=
  match l with
  | [] => mret []
  | x :: l' => y ← f x; ys ← mapM_m f l'; mret (y :: ys)
  end.

(** ** Weakest preconditions *)

(** [wpi F] only considers generators whose identifiers are all in [F]; [wp] is
    the case of every generator. *)
Definition wpi (F : uuid → Prop) {A} (m : M S A) (Q : A → S → Prop) (E : exn → S → Prop) (s : S)
    : Prop :=
  ∀ e n k, (∀ j, F (ids e j)) →
    match m e (St s n k) with
    | (Ok a, s') => Q a (data s')
    | (Err x, s') => E x (data s')
    end.

#[local] Notation wp := (wpi (fun _ => True)).


Lemma wp_run {A} (m : M S A) Q E s e n k a s' :
  wp m Q E s → m e (St s n k) = (Ok a, s') → Q a (data s').
Proof. intros H Hm. specialize (H e n k (fun _ => I)). by rewrite Hm in H. Qed.

Lemma wp_run_err {A} (m : M S A) Q E s e n k x s' :
  wp m Q E s → m e (St s n k) = (Err x, s') → E x (data s').
Proof. intros H Hm. specialize (H e n k (fun _ => I)). by rewrite Hm in H. Qed.

Lemma wp_mono F {A} (m : M S A) (Q Q' : A → S → Prop) (E E' : exn → S → Prop) s :
  wpi F m Q E s → (∀ a s', Q a s' → Q' a s') → (∀ x s', E x s' → E' x s') → wpi F m Q' E' s.
Proof. intros H HQ HE e n k HF. specialize (H e n k HF). destruct (m _ _) as [[a|x] s']; auto. Qed.

Lemma wp_and F {A} (m : M S A) (Q Q' : A → S → Prop) (E E' : exn → S → Prop) s :
  wpi F m Q E s → wpi F m Q' E' s →
  wpi F m (fun a s' => Q a s' ∧ Q' a s') (fun x s' => E x s' ∧ E' x s') s.
Proof.
  intros H H' e n k HF. specialize (H e n k HF). specialize (H' e n k HF).
  destruct (m _ _) as [[a|x] s']; auto.
Qed.

Lemma wp_any F {A} (m : M S A) s : wpi F m (fun _ _ => True) (fun _ _ => True) s.
Proof. intros e n k HF. by destruct (m e _) as [[a|x] s']. Qed.

Lemma wp_ret F {A} (a : A) (Q : A → S → Prop) E s : Q a s → wpi F (mret a) Q E s.
Proof. by intros H e n k HF. Qed.

Lemma wp_bind F {A B} (m : M S A) (f : A → M S B) Q E s :
  wpi F m (fun a s' => wpi F (f a) Q E s') E s → wpi F (m ≫= f) Q E s.
Proof.
  intros H e n k HF. specialize (H e n k HF). unfold mbind, M_bind.
  destruct (m e (St s n k)) as [[a|x] s']; [|done].
  destruct s' as [d n' k']. by apply H.
Qed.

Lemma wp_lift F {A} (r : res A) Q E s :
  (∀ a, r = Ok a → Q a s) → (∀ x, r = Err x → E x s) → wpi F (lift r) Q E s.
Proof. intros HQ HE e n k HF. cbn. destruct r; auto. Qed.

Lemma wp_throw F {A} k msg (Q : A → S → Prop) (E : exn → S → Prop) s :
  E (Exn k msg) s → wpi F (throw k msg) Q E s.
Proof. by intros H e n k' HF. Qed.

Lemma wp_throw_if F b k msg (Q : unit → S → Prop) (E : exn → S → Prop) s :
  (b = false → Q tt s) → (b = true → E (Exn k msg) s) → wpi F (throw_if b k msg) Q E s.
Proof. intros HQ HE e n k' HF. destruct b; cbn; auto. Qed.

Lemma wp_get F (Q : S → S → Prop) E s : Q s s → wpi F get Q E s.
Proof. by intros H e n k HF. Qed.

Lemma wp_put F x (Q : unit → S → Prop) E s : Q tt x → wpi F (put x) Q E s.
Proof. by intros H e n k HF. Qed.

Lemma wp_modify F f (Q : unit → S → Prop) E s : Q tt (f s) → wpi F (modify f) Q E s.
Proof. by intros H e n k HF. Qed.

Lemma wp_now F (Q : datetime → S → Prop) E s : (∀ t, Q t s) → wpi F now Q E s.
Proof. intros H e n k HF. apply H. Qed.

Lemma wp_uuid4 F (Q : uuid → S → Prop) E s : (∀ u, F u → Q u s) → wpi F uuid4 Q E s.
Proof. intros H e n k HF. by apply H. Qed.

Lemma wp_uuid4_any (Q : uuid → S → Prop) E s : (∀ u, Q u s) → wp uuid4 Q E s.
Proof. intros H e n k HF. apply H. Qed.

Lemma wp_transaction F {A} (m : M S A) (Q : A → S → Prop) (E : exn → S → Prop) s :
  wpi F m Q (fun x _ => E x s) s → wpi F (transaction m) Q E s.
Proof.
  intros H e n k HF. specialize (H e n k HF). unfold transaction.
  destruct (m e (St s n k)) as [[a|x] s']; done.
Qed.

Lemma wp_try F {A} (m : M S A) K h (Q : A → S → Prop) (E : exn → S → Prop) s :
  wpi F m Q (fun x s' => if catches K (exn_class x) then wpi F (h x) Q E s' else E x s') s →
  wpi F (try_except m K h) Q E s.
Proof.
  intros H e n k HF. specialize (H e n k HF). unfold try_except.
  destruct (m e (St s n k)) as [[a|x] [d n' k']]; [done|]. cbn in H.
  destruct (catches _ _); [by apply H|done].
Qed.

Lemma wp_try_all F {A} (m : M S A) h (Q : A → S → Prop) (E : exn → S → Prop) s :
  wpi F m Q (fun x s' => wpi F (h x) Q E s') s → wpi F (try_all m h) Q E s.
Proof.
  intros H e n k HF. specialize (H e n k HF). unfold try_all.
  destruct (m e (St s n k)) as [[a|x] [d n' k']]; [done|]. by apply H.
Qed.

(** A loop keeps an invariant that its body keeps. *)
Lemma wp_for_each F {A} (f : A → M S unit) (l : list A) (I : S → Prop) (E : exn → S → Prop) s :
  I s → (∀ x s, x ∈ l → I s → wpi F (f x) (fun _ => I) E s) →
  wpi F (for_each_m f l) (fun _ => I) E s.
Proof.
  revert s. induction l as [|x l IH]; intros s Hs Hf; cbn; [by apply wp_ret|].
  apply wp_bind. eapply wp_mono; [apply Hf; [left|done]| |done].
  intros [] s' Hs'. apply IH; [done|]. intros y s'' Hy. apply Hf. by right.
Qed.

Lemma wp_mapM F {A B} (f : A → M S B) (l : list A) (I : S → Prop) (E : exn → S → Prop) s :
  I s → (∀ x s, x ∈ l → I s → wpi F (f x) (fun _ => I) E s) →
  wpi F (mapM_m f l) (fun _ => I) E s.
Proof.
  revert s. induction l as [|x l IH]; intros s Hs Hf; cbn; [by apply wp_ret|].
  apply wp_bind. eapply wp_mono; [apply Hf; [left|done]| |done].
  intros y s' Hs'. apply wp_bind. eapply wp_mono; [apply IH; [done|]| |done].
  - intros z s'' Hz. apply Hf. by right.
  - intros ys s'' Hs''. by apply wp_ret.
Qed.

(** Whatever happens, the state stays in [I]. *)
Definition keeps {A} (I : S → Prop) (m : M S A) : Prop :=
  ∀ s, I s → wp m (fun _ => I) (fun _ => I) s.

Lemma keeps_bind {A B} I (m : M S A) (f : A → M S B) :
  keeps I m → (∀ a, keeps I (f a)) → keeps I (m ≫= f).
Proof.
  intros Hm Hf s Hs. apply wp_bind. eapply wp_mono; [by apply Hm| |done].
  intros a s' Hs'. by apply Hf.
Qed.

Lemma keeps_ret {A} I (a : A) : keeps I (mret a).
Proof. intros s Hs. by apply wp_ret. Qed.

Lemma keeps_lift {A} I (r : res A) : keeps I (lift r).
Proof. intros s Hs. by apply wp_lift. Qed.

Lemma keeps_get I : keeps I get.
Proof. intros s Hs. by apply wp_get. Qed.

Lemma keeps_now I : keeps I now.
Proof. intros s Hs. by apply wp_now. Qed.

Lemma keeps_uuid4 I : keeps I uuid4.
Proof. intros s Hs. by apply wp_uuid4. Qed.

Lemma keeps_transaction {A} I (m : M S A) : keeps I m → keeps I (transaction m).
Proof.
  intros Hm s Hs. apply wp_transaction. eapply wp_mono; [by apply Hm|done|done].
Qed.

Lemma keeps_for_each {A} I (f : A → M S unit) l :
  (∀ x, x ∈ l → keeps I (f x)) → keeps I (for_each_m f l).
Proof. intros Hf s Hs. apply wp_for_each; [done|]. intros x s' Hx. by apply Hf. Qed.

Lemma keeps_mapM {A B} I (f : A → M S B) l :
  (∀ x, x ∈ l → keeps I (f x)) → keeps I (mapM_m f l).
Proof. intros Hf s Hs. apply wp_mapM; [done|]. intros x s' Hx. by apply Hf. Qed.

Lemma keeps_try {A} I (m : M S A) K h :
  keeps I m → (∀ x, keeps I (h x)) → keeps I (try_except m K h).
Proof.
  intros Hm Hh s Hs. apply wp_try. eapply wp_mono; [by apply Hm|done|].
  intros x s' Hs'. case_match; [by apply Hh|done].
Qed.

Lemma run_bind {A B} (m : M S A) (f : A → M S B) e s b s' :
  (m ≫= f) e s = (Ok b, s') ↔ ∃ a s1, m e s = (Ok a, s1) ∧ f a e s1 = (Ok b, s').
Proof.
  unfold mbind, M_bind. destruct (m e s) as [[a|x] s1]; split.
  - eauto.
  - by intros (? & ? & [= <- <-] & ?).
  - done.
  - by intros (? & ? & ? & ?).
Qed.

Lemma run_lift {A} (r : res A) e (s : st S) a s' :
  lift r e s = (Ok a, s') ↔ r = Ok a ∧ s' = s.
Proof. unfold lift. split; [by intros [= -> ->] | by intros [-> ->]]. Qed.
Lemma wp_embed F {A} (m : M unit A) (Q : A → S → Prop) (E : exn → S → Prop) s :
  (∀ a, Q a s) → (∀ x, E x s) → wpi F (embed m) Q E s.
Proof.
  intros HQ HE e n k HF. unfold embed. destruct (m e _) as [[a|x] s']; cbn; auto.
Qed.
End operations.

#[export] Hint Resolve keeps_ret keeps_lift keeps_get keeps_now keeps_uuid4 : py.

Notation wp := (wpi (fun _ => True)).

(** One step of a weakest precondition goal. *)
Ltac wp_step :=
  lazymatch goal with
  | |- wpi _ (mbind _ _) _ _ _ => apply wp_bind
  | |- wpi _ (mret _) _ _ _ => apply wp_ret
  | |- wpi _ (throw_if _ _ _) _ _ _ => apply wp_throw_if
  | |- wpi _ (throw _ _) _ _ _ => apply wp_throw
  | |- wpi _ (lift _) _ _ _ => apply wp_lift
  | |- wpi _ get _ _ _ => apply wp_get
  | |- wpi _ (put _) _ _ _ => apply wp_put
  | |- wpi _ (modify _) _ _ _ => apply wp_modify
  | |- wpi _ now _ _ _ => apply wp_now
  | |- wpi (fun _ => True) uuid4 _ _ _ => apply wp_uuid4_any
  | |- wpi _ uuid4 _ _ _ => apply wp_uuid4
  | |- wpi _ (transaction _) _ _ _ => apply wp_transaction
  | |- wpi _ (try_except _ _ _) _ _ _ => apply wp_try
  | |- wpi _ (try_all _ _) _ _ _ => apply wp_try_all
  | |- wpi _ (embed _) _ _ _ => apply wp_embed
  | |- wpi _ (match ?x with _ => _ end) _ _ _ => destruct x eqn:?
  end.

(** Split the run of a computation that returned. *)
Ltac inv_run :=
  repeat match goal with
  | H : (_ ≫= _) _ _ = (Ok _, _) |- _ =>
      let a := fresh "a" in let s := fresh "s" in let Ha := fresh "Hr" in
      apply run_bind in H as (a & s & Ha & H)
  | H : lift _ _ _ = (Ok _, _) |- _ =>
      let Hs := fresh "Hs" in apply run_lift in H as [H Hs]; try subst
  | H : throw_if _ _ _ _ _ = (Ok _, _) |- _ => unfold throw_if in H
  | H : throw _ _ _ _ = (Ok _, _) |- _ => discriminate H
  | H : mret _ _ _ = (Ok _, _) |- _ => injection H as H; try subst
  | H : get _ _ = (Ok _, _) |- _ => injection H as H; try subst
  | H : now _ _ = (Ok _, _) |- _ => injection H as H; try subst
  | H : uuid4 _ _ = (Ok _, _) |- _ => injection H as H; try subst
  | H : put _ _ _ = (Ok _, _) |- _ => injection H as H; try subst
  | H : modify _ _ _ = (Ok _, _) |- _ => injection H as H; try subst
  | H : raise_if _ _ _ = Ok _ |- _ => apply raise_if_ok in H
  | H : Ok _ = Ok _ |- _ => injection H as H; try subst
  end.
