(* ===== verification/Programs.v ===== *)
(** * Programs that call ports

    Code written against a [Protocol] is a program over the protocol's calls:
    [prog E A] returns a value, raises, or makes a call of [E] and goes on with
    the answer, which is a value or an exception of the callee.  The calls a
    program makes and the answers it gets are its trace ([runs]), so a theorem
    can say that a call is only ever made after others were answered in a
    certain way, for every behaviour of the code behind the protocol.
    [interp] runs a program in [M S], given an implementation of the calls. *)

From S2P Require Import Prelude PyStr Effects.

Open Scope list_scope.

Inductive prog (E : Type → Type) (A : Type) : Type :=
  | Ret (a : A)
  | Raise (x : exn)
  | Call {B : Type} (c : E B) (k : res B → prog E A).
Arguments Ret {E A} a.
Arguments Raise {E A} x.
Arguments Call {E A B} c k.

Section programs.
Context {E : Type → Type}.

#[export] Instance prog_ret : MRet (prog E) := fun A a => Ret a.

#[export] Instance prog_bind : MBind (prog E) := fun A B f =>
  fix bind p :=
    match p with
    | Ret a => f a
    | Raise x => Raise x
    | Call c k => Call c (fun r => bind (k r))
    end.

Definition of_res {A} (r : res A) : prog E A :=
  match r with Ok a => Ret a | Err x => Raise x end.

(** One call; an exception of the callee propagates. *)
Definition call {B} (c : E B) : prog E B := Call c of_res.

(** [try: p except: handler(x)] for the exceptions [caught] selects. *)
Fixpoint try_prog {A} (caught : exn → bool) (p : prog E A) (handler : exn → prog E A)
    : prog E A :=
  match p with
  | Ret a => Ret a
  | Raise x => if caught x then handler x else Raise x
  | Call c k => Call c (fun r => try_prog caught (k r) handler)
  end.

(** ** Traces *)

(** A call with its answer. *)
Definition event : Type := { B : Type & (E B * res B)%type }.
Definition Event {B} (c : E B) (r : res B) : event := existT B (c, r).

Inductive runs {A} : prog E A → list event → res A → Prop :=
  | runs_ret a : runs (Ret a) [] (Ok a)
  | runs_raise x : runs (Raise x) [] (Err x)
  | runs_call {B} (c : E B) k r tr out :
      runs (k r) tr out → runs (Call c k) (Event c r :: tr) out.

Lemma runs_ret_inv {A} (a : A) tr out : runs (Ret a) tr out → tr = [] ∧ out = Ok a.
Proof. by inversion 1. Qed.

Lemma runs_raise_inv {A} x tr (out : res A) : runs (Raise x) tr out → tr = [] ∧ out = Err x.
Proof. by inversion 1. Qed.

Lemma runs_call_inv {A B} (c : E B) k tr (out : res A) :
  runs (Call c k) tr out → ∃ r tr', tr = Event c r :: tr' ∧ runs (k r) tr' out.
Proof.
  intros H.
  refine (match H in runs p tr out
    return match p with
           | Call c k => ∃ r tr', tr = Event c r :: tr' ∧ runs (k r) tr' out
           | _ => True
           end
    with runs_ret _ | runs_raise _ => I | runs_call c k r tr out H => _ end). eauto.
Qed.

Lemma runs_of_res {A} (r : res A) tr out : runs (of_res r) tr out ↔ tr = [] ∧ out = r.
Proof.
  destruct r; cbn; split.
  - by intros [-> ->]%runs_ret_inv.
  - intros [-> ->]. constructor.
  - by intros [-> ->]%runs_raise_inv.
  - intros [-> ->]. constructor.
Qed.

(** A sequence runs its parts one after the other, unless the first raises. *)
Lemma runs_bind {A B} (p : prog E A) (f : A → prog E B) tr out :
  runs (p ≫= f) tr out ↔
  (∃ a tr1 tr2, tr = tr1 ++ tr2 ∧ runs p tr1 (Ok a) ∧ runs (f a) tr2 out) ∨
  (∃ x, out = Err x ∧ runs p tr (Err x)).
Proof.
  split.
  - revert tr. induction p as [a|x|C c k IH]; intros tr H; cbn in H.
    + left. exists a, [], tr. split; [done|]. split; [constructor|done].
    + apply runs_raise_inv in H as [-> ->]. right. exists x. split; [done|constructor].
    + apply runs_call_inv in H as (r & tr' & -> & H).
      destruct (IH r tr' H) as [(a & tr1 & tr2 & -> & H1 & H2)|(x & -> & Hx)].
      * left. exists a, (Event c r :: tr1), tr2. split; [done|]. split; [by constructor|done].
      * right. exists x. split; [done|by constructor].
  - intros [(a & tr1 & tr2 & -> & H1 & H2)|(x & -> & H)].
    + revert tr1 H1. induction p as [a'|x|C c k IH]; intros tr1 H1; cbn.
      * apply runs_ret_inv in H1 as [-> [= ->]]. done.
      * by apply runs_raise_inv in H1 as [_ ?].
      * apply runs_call_inv in H1 as (r & tr' & -> & H1). cbn. constructor. by apply IH.
    + revert tr H. induction p as [a|x'|C c k IH]; intros tr H; cbn.
      * by apply runs_ret_inv in H as [_ ?].
      * apply runs_raise_inv in H as [-> [= ->]]. constructor.
      * apply runs_call_inv in H as (r & tr' & -> & H). constructor. by apply IH.
Qed.

Lemma runs_single {B} (c : E B) tr out :
  runs (call c) tr out ↔ tr = [Event c out].
Proof.
  split.
  - intros (r & tr' & -> & [-> ->]%runs_of_res)%runs_call_inv. done.
  - intros ->. constructor. by apply runs_of_res.
Qed.

(** Running under [try]: the handler takes over after a caught exception. *)
Lemma runs_try {A} caught (p : prog E A) h tr out :
  runs (try_prog caught p h) tr out ↔
  (runs p tr out ∧ (∀ x, out = Err x → caught x = false)) ∨
  (∃ x tr1 tr2, tr = tr1 ++ tr2 ∧ runs p tr1 (Err x) ∧ caught x = true ∧ runs (h x) tr2 out).
Proof.
  split.
  - revert tr. induction p as [a|x|C c k IH]; intros tr H; cbn in H.
    + left. apply runs_ret_inv in H as [-> ->]. split; [constructor|done].
    + destruct (caught x) eqn:Ec.
      * right. exists x, [], tr. split; [done|]. split; [constructor|done].
      * left. apply runs_raise_inv in H as [-> ->]. split; [constructor|]. by intros ? [= <-].
    + apply runs_call_inv in H as (r & tr' & -> & H).
      destruct (IH r tr' H) as [[H1 H2]|(x & tr1 & tr2 & -> & H1 & H2 & H3)].
      * left. split; [by constructor|done].
      * right. exists x, (Event c r :: tr1), tr2. split; [done|]. split; [by constructor|done].
  - intros [[H Hc]|(x & tr1 & tr2 & -> & H1 & Hx & H2)].
    + revert tr H. induction p as [a|x|C c k IH]; intros tr H; cbn; [done| |].
      * apply runs_raise_inv in H as [-> ->]. rewrite (Hc x eq_refl). constructor.
      * apply runs_call_inv in H as (r & tr' & -> & H). constructor. by apply IH.
    + revert tr1 H1. induction p as [a|x'|C c k IH]; intros tr1 H1; cbn.
      * by apply runs_ret_inv in H1 as [_ ?].
      * apply runs_raise_inv in H1 as [-> [= ->]]. by rewrite Hx.
      * apply runs_call_inv in H1 as (r & tr' & -> & H1). cbn. constructor. by apply IH.
Qed.

(** ** Running against an implementation *)

Fixpoint interp {S A} (handle : ∀ B, E B → M S B) (p : prog E A) : M S A :=
  match p with
  | Ret a => mret a
  | Raise x => lift (Err x)
  | Call c k => fun e s => let '(r, s') := handle _ c e s in interp handle (k r) e s'
  end.

(** Every run against an implementation is a run of the trace semantics. *)
Lemma interp_runs {S A} (handle : ∀ B, E B → M S B) (p : prog E A) e s r s' :
  interp handle p e s = (r, s') → ∃ tr, runs p tr r.
Proof.
  revert s. induction p as [a|x|B c k IH]; intros s H; cbn in H.
  - injection H as <- _. eexists. constructor.
  - injection H as <- _. eexists. constructor.
  - destruct (handle B c e s) as [b s1]. destruct (IH b s1 H) as [tr Htr].
    eexists. by constructor.
Qed.

(** The run against an oracle that answers each call by itself. *)
Fixpoint trace_of {A} (answer : ∀ B, E B → res B) (p : prog E A) : list event * res A :=
  match p with
  | Ret a => ([], Ok a)
  | Raise x => ([], Err x)
  | Call c k =>
      let r := answer _ c in
      let '(tr, out) := trace_of answer (k r) in (Event c r :: tr, out)
  end.

Lemma trace_of_runs {A} answer (p : prog E A) :
  runs p (trace_of answer p).1 (trace_of answer p).2.
Proof.
  induction p as [a|x|B c k IH]; cbn; [constructor..|].
  specialize (IH (answer B c)). destruct (trace_of answer (k _)) as [tr out]. by constructor.
Qed.

(** The implementation's calls keep [I], so the program does. *)
Lemma keeps_interp {S A} (I : S → Prop) (handle : ∀ B, E B → M S B) (p : prog E A) :
  (∀ B (c : E B), keeps I (handle B c)) → keeps I (interp handle p).
Proof.
  intros Hh. induction p as [a|x|B c k IH]; intros s Hs.
  - by apply wp_ret.
  - by apply wp_lift.
  - intros e n k' He. cbn. pose proof (Hh B c s Hs e n k' He) as H.
    destruct (handle B c e (St s n k')) as [[b|x] [s1 n1 k1]]; cbn in H; apply (IH _ _ H); exact He.
Qed.
End programs.

#[export] Hint Resolve runs_ret runs_raise : py.

(** Split a run into the calls it made and their answers. *)
Ltac inv_runs :=
  repeat match goal with
  | H : runs (Ret _) _ _ |- _ => apply runs_ret_inv in H as [? H]; try subst
  | H : runs (mret _) _ _ |- _ => apply runs_ret_inv in H as [? H]; try subst
  | H : runs (Raise _) _ _ |- _ => apply runs_raise_inv in H as [? H]; try subst
  | H : runs (of_res _) _ _ |- _ => apply runs_of_res in H as [? H]; try subst
  | H : runs (call _) _ _ |- _ => apply runs_single in H; try subst
  end.
