(* ===== verification/PyDict.v ===== *)
(** * Python dictionaries

    A [dict] keeps insertion order: assigning to a present key keeps its
    place, assigning to a new key appends.  Iteration ([values], [keys]) is in
    that order, which the modelled stores expose through their [list_*]
    operations.  Python's [==] on dictionaries ignores the order: it is the
    [Equiv] instance, and the operations respect it. *)

From S2P Require Import Prelude.

Record dict (K V : Type) := Dict { items : list (K * V) }.
Arguments Dict {K V} items.
Arguments items {K V} d.

Section ops.
Context {K V : Type} `{EqDecision K}.

Fixpoint alist_get (k : K) (l : list (K * V)) : option V :=
  match l with
  | [] => None
  | (k', v) :: l' => if decide (k = k') then Some v else alist_get k l'
  end.

Fixpoint alist_set (k : K) (v : V) (l : list (K * V)) : list (K * V) :=
  match l with
  | [] => [(k, v)]
  | (k', v') :: l' =>
      if decide (k = k') then (k', v) :: l' else (k', v') :: alist_set k v l'
  end.

Fixpoint alist_del (k : K) (l : list (K * V)) : list (K * V) :=
  match l with
  | [] => []
  | (k', v') :: l' => if decide (k = k') then l' else (k', v') :: alist_del k l'
  end.
End ops.

#[export] Instance dict_empty {K V} : Empty (dict K V) := Dict [].
#[export] Instance dict_lookup {K V} `{EqDecision K} : Lookup K V (dict K V) :=
  fun k d => alist_get k (items d).
#[export] Instance dict_insert {K V} `{EqDecision K} : Insert K V (dict K V) :=
  fun k v d => Dict (alist_set k v (items d)).
#[export] Instance dict_delete {K V} `{EqDecision K} : Delete K (dict K V) :=
  fun k d => Dict (alist_del k (items d)).

#[export] Instance dict_eq_dec {K V} `{EqDecision K, EqDecision V} : EqDecision (dict K V).
Proof. solve_decision. Defined.

Definition keys {K V} (d : dict K V) : list K := (items d).*1.
Definition values {K V} (d : dict K V) : list V := (items d).*2.

(** [d.setdefault(k, v)] as a state update. *)
Definition setdefault {K V} `{EqDecision K} (k : K) (v : V) (d : dict K V) : dict K V :=
  match d !! k with Some _ => d | None => <[k:=v]> d end.

(** A dictionary display [{k: v for ...}]: later pairs overwrite earlier ones. *)
Definition dict_of_list {K V} `{EqDecision K} (l : list (K * V)) : dict K V :=
  foldl (fun d kv => <[kv.1:=kv.2]> d) ∅ l.

(** Every reachable dictionary has distinct keys. *)
Definition dict_wf {K V} (d : dict K V) : Prop := NoDup (keys d).

(** Python's [==] on dictionaries. *)
#[export] Instance dict_equiv {K V} `{EqDecision K} : Equiv (dict K V) :=
  fun d1 d2 => ∀ k, d1 !! k = d2 !! k.

Section lemmas.
Context {K V : Type} `{EqDecision K}.
Implicit Types (d : dict K V) (k : K) (v : V).

Lemma dict_lookup_empty k : (∅ : dict K V) !! k = None.
Proof. done. Qed.

Lemma dict_lookup_insert d k v : <[k:=v]> d !! k = Some v.
Proof.
  unfold lookup, insert, dict_lookup, dict_insert; cbn.
  induction (items d) as [|[k' v'] l IH]; cbn; [by rewrite decide_True|].
  case_decide as E; cbn; [by rewrite decide_True|]. by rewrite decide_False.
Qed.

Lemma dict_lookup_insert_ne d k k' v : k ≠ k' → <[k:=v]> d !! k' = d !! k'.
Proof.
  intros Hne. unfold lookup, insert, dict_lookup, dict_insert; cbn.
  induction (items d) as [|[k1 v1] l IH]; cbn; [by rewrite decide_False|].
  case_decide as E; cbn; [subst; by rewrite !decide_False|].
  case_decide; auto.
Qed.

Lemma dict_lookup_insert_Some d k k' v x :
  <[k:=v]> d !! k' = Some x ↔ (k = k' ∧ v = x) ∨ (k ≠ k' ∧ d !! k' = Some x).
Proof.
  destruct (decide (k = k')) as [->|Hne].
  - rewrite dict_lookup_insert. split; [intros [= ->]; by left | intros [[_ ->]|[? _]]; done].
  - rewrite dict_lookup_insert_ne by done. split; [by right | by intros [[? _]|[_ ?]]].
Qed.

Lemma alist_set_keys l k v k' :
  k' ∈ (alist_set k v l).*1 ↔ k' = k ∨ k' ∈ l.*1.
Proof.
  induction l as [|[k1 v1] l IH]; cbn; [by rewrite list_elem_of_singleton; set_solver|].
  case_decide; cbn; set_solver.
Qed.

Lemma dict_insert_wf d k v : dict_wf d → dict_wf (<[k:=v]> d).
Proof.
  unfold dict_wf, keys, insert, dict_insert; cbn.
  induction (items d) as [|[k1 v1] l IH]; cbn; [intros _; apply NoDup_singleton|].
  intros [Hk Hl]%NoDup_cons. case_decide; cbn; apply NoDup_cons; split; auto.
  rewrite alist_set_keys. set_solver.
Qed.

Lemma dict_delete_wf d k : dict_wf d → dict_wf (delete k d).
Proof.
  unfold dict_wf, keys, delete, dict_delete; cbn.
  induction (items d) as [|[k1 v1] l IH]; cbn; [done|].
  intros [Hk Hl]%NoDup_cons. case_decide; cbn; [done|].
  apply NoDup_cons; split; [|auto].
  intros Hin. apply Hk. clear -Hin. induction l as [|[k2 v2] l IH]; cbn in *; [done|].
  case_decide; cbn in *; set_solver.
Qed.

Lemma dict_empty_wf : dict_wf (∅ : dict K V).
Proof. apply NoDup_nil_2. Qed.

Lemma dict_lookup_elem d k v : d !! k = Some v → (k, v) ∈ items d.
Proof.
  unfold lookup, dict_lookup. induction (items d) as [|[k1 v1] l IH]; cbn; [done|].
  case_decide; [intros [= ->]; subst; left | right; auto].
Qed.

Lemma dict_elem_lookup d k v : dict_wf d → (k, v) ∈ items d → d !! k = Some v.
Proof.
  unfold dict_wf, keys, lookup, dict_lookup.
  induction (items d) as [|[k1 v1] l IH]; cbn; [by intros _ ?%not_elem_of_nil|].
  intros [Hk Hl]%NoDup_cons [[= -> ->]|Hin]%elem_of_cons; [by rewrite decide_True|].
  case_decide; [|by auto]. subst. destruct Hk. apply list_elem_of_fmap. by exists (k1, v).
Qed.

Lemma elem_of_values d v : v ∈ values d ↔ ∃ k, (k, v) ∈ items d.
Proof.
  unfold values. rewrite list_elem_of_fmap. split.
  - intros ([k v'] & -> & Hin). eauto.
  - intros (k & Hin). by exists (k, v).
Qed.

Lemma lookup_values d k v : d !! k = Some v → v ∈ values d.
Proof. intros Hl%dict_lookup_elem. apply elem_of_values. eauto. Qed.

Lemma values_lookup d v : dict_wf d → v ∈ values d → ∃ k, d !! k = Some v.
Proof.
  intros Hwf (k & Hin)%elem_of_values. exists k. by apply dict_elem_lookup.
Qed.

Lemma dict_lookup_delete_ne d k k' : k ≠ k' → delete k d !! k' = d !! k'.
Proof.
  intros Hne. unfold lookup, delete, dict_lookup, dict_delete; cbn.
  induction (items d) as [|[k1 v1] l IH]; cbn; [done|].
  case_decide as E; cbn; [subst; by rewrite decide_False|]. case_decide; auto.
Qed.

Lemma dict_lookup_delete d k : dict_wf d → delete k d !! k = None.
Proof.
  unfold dict_wf, keys, lookup, delete, dict_lookup, dict_delete; cbn.
  induction (items d) as [|[k1 v1] l IH]; cbn; [done|].
  intros [Hk Hl]%NoDup_cons. case_decide as E; cbn.
  - subst. clear -Hk. induction l as [|[k2 v2] l IH]; cbn in *; [done|].
    rewrite decide_False by set_solver. set_solver.
  - rewrite decide_False by done. auto.
Qed.

Lemma dict_insert_fresh_items d k v :
  d !! k = None → items (<[k:=v]> d) = (items d ++ [(k, v)])%list.
Proof.
  unfold lookup, insert, dict_lookup, dict_insert; cbn.
  induction (items d) as [|[k1 v1] l IH]; cbn; [done|].
  case_decide; [done|]. intros Hn. by rewrite IH.
Qed.

Lemma values_insert_fresh d k v :
  d !! k = None → values (<[k:=v]> d) = (values d ++ [v])%list.
Proof.
  intros Hn. unfold values. rewrite dict_insert_fresh_items by done.
  by rewrite fmap_app.
Qed.

#[global] Instance dict_equiv_equivalence : Equivalence (≡@{dict K V}).
Proof.
  split.
  - by intros d k.
  - intros d1 d2 Hd k. symmetry. apply Hd.
  - intros d1 d2 d3 H12 H23 k. rewrite (H12 k). apply H23.
Qed.

#[global] Instance dict_lookup_proper k :
  Proper ((≡) ==> (=)) (lookup k : dict K V → option V).
Proof. intros d1 d2 Hd. apply Hd. Qed.

#[global] Instance dict_insert_proper k v :
  Proper ((≡) ==> (≡)) (insert k v : dict K V → dict K V).
Proof.
  intros d1 d2 Hd k'. destruct (decide (k = k')) as [->|Hne].
  - by rewrite !dict_lookup_insert.
  - rewrite !dict_lookup_insert_ne by done. apply Hd.
Qed.
End lemmas.

#[export] Hint Resolve dict_insert_wf dict_delete_wf dict_empty_wf lookup_values : py.
#[export] Hint Rewrite @dict_lookup_insert : py.

(** ** Replacing a present record *)

Section replace.
Context {K V : Type} `{EqDecision K}.
Implicit Types (d : dict K V) (k : K) (v : V).

Lemma values_insert_present d k v v' : d !! k = Some v →
  ∃ l1 l2, values d = (l1 ++ v :: l2)%list ∧ values (<[k:=v']> d) = (l1 ++ v' :: l2)%list.
Proof.
  unfold values, lookup, insert, dict_lookup, dict_insert; cbn.
  induction (items d) as [|[k1 v1] l IH]; cbn; [done|]. case_decide as E.
  - intros [= ->]. by exists [], l.*2.
  - intros (l1 & l2 & -> & E2)%IH. exists (v1 :: l1), l2. cbn. by rewrite E2.
Qed.
End replace.

(** A dictionary filled from a list of records with their own identifiers. *)
Lemma dict_fill_lookup {K V} `{EqDecision K} (id : V → K) (l : list V) (d : dict K V) k x :
  foldl (fun acc y => <[id y := y]> acc) d l !! k = Some x →
  d !! k = Some x ∨ (x ∈ l ∧ id x = k).
Proof.
  revert d. induction l as [|y l IH]; intros d; cbn [foldl]; [by left|].
  intros [Hx|[Hx Hk]]%IH; [|right; split; [by right|done]].
  apply dict_lookup_insert_Some in Hx as [[<- <-]|[_ Hx]]; [right; split; [left|done]|by left].
Qed.

Lemma dict_fill_wf {K V} `{EqDecision K} (id : V → K) (l : list V) (d : dict K V) :
  dict_wf d → dict_wf (foldl (fun acc y => <[id y := y]> acc) d l).
Proof. revert d. induction l as [|y l IH]; intros d Hd; cbn [foldl]; [done|]. by apply IH, dict_insert_wf. Qed.

Lemma dict_fill_other {K V} `{EqDecision K} (id : V → K) (l : list V) (d : dict K V) k :
  (∀ x, x ∈ l → id x ≠ k) → foldl (fun acc y => <[id y := y]> acc) d l !! k = d !! k.
Proof.
  revert d. induction l as [|y l IH]; intros d Hl; cbn [foldl]; [done|].
  rewrite IH by set_solver. apply dict_lookup_insert_ne, Hl. left.
Qed.

Lemma dict_fill_present {K V} `{EqDecision K} (id : V → K) (l : list V) (d : dict K V) k :
  (is_Some (d !! k) ∨ ∃ x, x ∈ l ∧ id x = k) →
  is_Some (foldl (fun acc y => <[id y := y]> acc) d l !! k).
Proof.
  revert d. induction l as [|y l IH]; intros d Hk; cbn [foldl].
  - by destruct Hk as [?|(x & Hx%elem_of_nil & _)].
  - apply IH. destruct (decide (id y = k)) as [<-|Hne].
    + left. rewrite dict_lookup_insert. eauto.
    + destruct Hk as [Hk|(x & [->|Hx]%elem_of_cons & Hid)]; [|done|eauto].
      left. by rewrite dict_lookup_insert_ne.
Qed.

(** Keeping the entries whose key [f] accepts. *)
Lemma dict_filter_lookup {K V} `{EqDecision K} (f : K → bool) (d : dict K V) k :
  (Dict (List.filter (fun kv => f kv.1) (items d)) : dict K V) !! k =
  if f k then d !! k else None.
Proof.
  destruct d as [l]. unfold lookup, dict_lookup. cbn [items].
  induction l as [|[k' v] l IH]; cbn; [by destruct (f k)|].
  destruct (f k') eqn:Ek'; cbn; [|rewrite IH].
  - destruct (decide (k = k')) as [->|]; [by rewrite Ek'|done].
  - destruct (f k) eqn:Ek; [|done]. by destruct (decide (k = k')) as [->|]; [congruence|].
Qed.
