(* ===== verification/PyFloat.v ===== *)
(** * Python floats

    A [float] is an IEEE 754 binary64 number, here [spec_float] of the
    standard library with precision 53 and exponent bound 1024: comparisons,
    arithmetic and the correctly rounded conversions from integers and decimal
    literals are computed exactly, and [float_repr] is the shortest
    representation that reads back to the same number ([float.__repr__]). *)

From S2P Require Import Prelude PyStr.
From Stdlib Require Import ZArith SpecFloat.

Open Scope string_scope.
Open Scope Z_scope.

Notation float := spec_float.

Definition fprec : Z := 53.
Definition femax : Z := 1024.

#[export] Instance spec_float_eq_dec : EqDecision float.
Proof. solve_decision. Defined.

Definition fadd : float → float → float := SFadd fprec femax.
Definition fsub : float → float → float := SFsub fprec femax.
Definition fmul : float → float → float := SFmul fprec femax.
Definition fdiv : float → float → float := SFdiv fprec femax.
Definition fsqrt : float → float := SFsqrt fprec femax.
Definition flt : float → float → bool := SFltb.
Definition fle : float → float → bool := SFleb.
Definition feq : float → float → bool := SFeqb.

Definition fzero : float := S754_zero false.

(** [float(n)] for an integer. *)
Definition of_int (n : Z) : float := binary_normalize fprec femax n 0 false.

(** The float nearest to [num / den], [den > 0]: Python's [int / int] and the
    value of a decimal literal. *)
Definition of_ratio (num : Z) (den : positive) : float :=
  match num with
  | Z0 => fzero
  | Zpos p => fdiv (S754_finite false p 0) (S754_finite false den 0)
  | Zneg p => fdiv (S754_finite true p 0) (S754_finite false den 0)
  end.

(** The literal [m * 10^e]. *)
Definition of_decimal (m e : Z) : float :=
  if 0 <=? e then of_ratio (m * 10 ^ e) 1
  else of_ratio m (Z.to_pos (10 ^ (- e))).

(** [math.isfinite] *)
Definition isfinite (f : float) : bool :=
  match f with S754_zero _ | S754_finite _ _ _ => true | _ => false end.

(** [max(a, b)] and [min(a, b)]: the first argument wins ties. *)
Definition fmax (a b : float) : float := if flt a b then b else a.
Definition fmin (a b : float) : float := if flt b a then b else a.

(** ** [float.__repr__] *)

(** [round_half_even (num / den)] *)
Definition round_half_even (num den : Z) : Z :=
  let q := num / den in
  let r := num mod den in
  if 2 * r <? den then q
  else if den <? 2 * r then q + 1
  else if Z.even q then q else q + 1.

(** The value [p * 2^e] as a fraction. *)
Definition frac (p : positive) (e : Z) : Z * Z :=
  if 0 <=? e then (Zpos p * 2 ^ e, 1) else (Zpos p, 2 ^ (- e)).

(** [10^k <= num / den] *)
Definition ge_pow10 (num den k : Z) : bool :=
  if 0 <=? k then den * 10 ^ k <=? num else den <=? num * 10 ^ (- k).

(** The decimal exponent of [num / den], from an estimate within three. *)
Definition decimal_exponent (num den : Z) : Z :=
  let est := ((Z.log2 num - Z.log2 den) * 30103) / 100000 in
  let fix up (n : nat) (k : Z) : Z :=
    match n with
    | O => k
    | S n' => if ge_pow10 num den (k + 1) then up n' (k + 1) else k
    end in
  up 6%nat (est - 3).

(** [n] correctly rounded significant digits of [num / den]. *)
Definition digits_n (num den k : Z) (n : Z) : Z * Z :=
  let s := n - 1 - k in
  let d := if 0 <=? s then round_half_even (num * 10 ^ s) den
           else round_half_even num (den * 10 ^ (- s)) in
  if d =? 10 ^ n then (10 ^ (n - 1), k + 1) else (d, k).

(** The fewest digits that read back as [p * 2^e]. *)
Definition shortest (p : positive) (e : Z) : Z * Z * Z :=
  let '(num, den) := frac p e in
  let k := decimal_exponent num den in
  let fix go (fuel : nat) (n : Z) : Z * Z * Z :=
    let '(d, k') := digits_n num den k n in
    match fuel with
    | O => (d, k', n)
    | S f =>
        if bool_decide (of_decimal d (k' - n + 1) = S754_finite false p e)
        then (d, k', n) else go f (n + 1)
    end in
  go 16%nat 1.

Definition zeros (n : Z) : string := of_chars (replicate (Z.to_nat n) "0"%char).

Definition exponent_str (k : Z) : string :=
  let d := int_str (Z.abs k) in
  (if k <? 0 then "e-" else "e+") +:+ (if len d <? 2 then "0" else "") +:+ d.

(** Lay out [n] digits [d] with decimal exponent [k]. *)
Definition layout (d k n : Z) : string :=
  let ds := int_str d in
  if (k <? -4) || (15 <? k) then
    String.substring 0 1 ds +:+
    (if n =? 1 then "" else "." +:+ String.substring 1 (Z.to_nat (n - 1)) ds) +:+
    exponent_str k
  else if k <? 0 then "0." +:+ zeros (- k - 1) +:+ ds
  else if n - 1 <=? k then ds +:+ zeros (k - n + 1) +:+ ".0"
  else String.substring 0 (Z.to_nat (k + 1)) ds +:+ "." +:+
       String.substring (Z.to_nat (k + 1)) (Z.to_nat (n - k - 1)) ds.

Definition float_repr (f : float) : string :=
  match f with
  | S754_zero false => "0.0"
  | S754_zero true => "-0.0"
  | S754_infinity false => "inf"
  | S754_infinity true => "-inf"
  | S754_nan => "nan"
  | S754_finite s p e =>
      let '(d, k, n) := shortest p e in
      (if s then "-" else "") +:+ layout d k n
  end.

Example repr_half : float_repr (of_decimal 5 (-1)) = "0.5".
Proof. vm_compute. reflexivity. Qed.
Example repr_tenth_sum :
  float_repr (fadd (of_decimal 1 (-1)) (of_decimal 2 (-1))) = "0.30000000000000004".
Proof. vm_compute. reflexivity. Qed.
Example repr_large : float_repr (of_decimal 15 21) = "1.5e+22".
Proof. vm_compute. reflexivity. Qed.
Example repr_small : float_repr (of_decimal 25 (-7)) = "2.5e-06".
Proof. vm_compute. reflexivity. Qed.

(** ** [format(x, ".nf")] *)

(** The digits of [d / 10^places] for [d >= 0]. *)
Definition fixed_digits (places d : Z) : string :=
  let ds := int_str d in
  let padded := zeros (places + 1 - len ds) +:+ ds in
  let whole := Z.to_nat (len padded - places) in
  if places =? 0 then padded
  else String.substring 0 whole padded +:+ "." +:+
       String.substring whole (Z.to_nat places) padded.

(** [f"{x:.nf}"]: the exact value rounded half to even at [places] decimals. *)
Definition float_fixed (places : Z) (f : float) : string :=
  match f with
  | S754_nan => "nan"
  | S754_infinity s => (if s then "-" else "") +:+ "inf"
  | S754_zero s => (if s then "-" else "") +:+ fixed_digits places 0
  | S754_finite s p e =>
      let '(num, den) := frac p e in
      (if s then "-" else "") +:+ fixed_digits places (round_half_even (num * 10 ^ places) den)
  end.

(** [f"{x:.0%}"] *)
Definition float_percent (f : float) : string := float_fixed 0 (fmul f (of_int 100)) +:+ "%".

Example fixed_third : float_fixed 4 (of_ratio 2 3) = "0.6667".
Proof. vm_compute. reflexivity. Qed.
Example fixed_small : float_fixed 4 (of_decimal 26 (-5)) = "0.0003".
Proof. vm_compute. reflexivity. Qed.
Example fixed_tie : float_fixed 0 (of_decimal 25 (-1)) = "2".
Proof. vm_compute. reflexivity. Qed.
Example percent_95 : float_percent (of_decimal 95 (-2)) = "95%".
Proof. vm_compute. reflexivity. Qed.

(** ** [sum()] of floats

    Since 3.12 the sum of floats is compensated (Neumaier): [c] collects the
    low-order parts the running sum loses. *)

Definition fabs (f : float) : float :=
  match f with
  | S754_zero _ => S754_zero false
  | S754_infinity _ => S754_infinity false
  | S754_finite _ p e => S754_finite false p e
  | S754_nan => S754_nan
  end.

Definition sum_step (acc : float * float) (x : float) : float * float :=
  let '(total, c) := acc in
  let t := fadd total x in
  (t, fadd c (if fle (fabs x) (fabs total) then fadd (fsub total t) x
              else fadd (fsub x t) total)).

(** The result of no float at all is the integer 0, which is [fzero] in the
    arithmetic that follows. *)
Definition float_sum (l : list float) : float :=
  match l with
  | [] => fzero
  | x :: l' =>
      let '(total, c) := foldl sum_step (fadd fzero x, fzero) l' in
      if negb (feq c fzero) && isfinite c then fadd total c else total
  end.

Example sum_tenths : float_sum (replicate 10 (of_decimal 1 (-1))) = of_int 1.
Proof. vm_compute. reflexivity. Qed.

(** ** Comparisons *)

Lemma flt_fle a b : flt a b = true → fle a b = true.
Proof. unfold flt, fle, SFltb, SFleb. by destruct (SFcompare a b) as [[]|]. Qed.

Lemma SFcompare_antisym a b : SFcompare b a = CompOpp <$> SFcompare a b.
Proof.
  unfold SFcompare.
  destruct a as [|[]| |[] p e], b as [|[]| |[] q g]; cbn; try done;
    rewrite (Z.compare_antisym e g); destruct (e ?= g); cbn; try done;
    f_equal; rewrite Pos.compare_cont_antisym; cbn; try done;
    by rewrite CompOpp_involutive.
Qed.

Lemma flt_not_fle a b : flt a b = true → fle b a = false.
Proof.
  unfold flt, fle, SFltb, SFleb. rewrite (SFcompare_antisym a b).
  by destruct (SFcompare a b) as [[]|].
Qed.

(** Numbers - every float but nan - are totally ordered: by sign and kind,
    exponent, mantissa. *)
Definition is_number (f : float) : bool := match f with S754_nan => false | _ => true end.

Definition fkey (f : float) : Z * Z * Z :=
  match f with
  | S754_infinity s => (if s then -2 else 2, 0, 0)
  | S754_finite s p e => if s then (-1, - e, Zneg p) else (1, e, Zpos p)
  | _ => (0, 0, 0)
  end.

Definition lex_le (a b : Z * Z * Z) : Prop :=
  a.1.1 < b.1.1 ∨ a.1.1 = b.1.1 ∧ (a.1.2 < b.1.2 ∨ a.1.2 = b.1.2 ∧ a.2 <= b.2).

Lemma fle_lex a b : is_number a = true → is_number b = true → fle a b = true ↔ lex_le (fkey a) (fkey b).
Proof.
  unfold fle, SFleb, SFcompare, lex_le.
  destruct a as [|[]| |[] p e], b as [|[]| |[] q g]; cbn; intros; try done; try (split; [lia|done]);
    try (split; [done|lia]); change (Pos.compare_cont Eq p q) with (p ?= q)%positive;
    destruct (Z.compare_spec e g); cbn; try (split; [lia|done]); try (split; [done|lia]);
    destruct (Pos.compare_spec p q); cbn; try (split; [lia|done]); split; try done; lia.
Qed.

Lemma fle_number a b : fle a b = true → is_number a = true ∧ is_number b = true.
Proof. unfold fle, SFleb, SFcompare. by destruct a as [|[]| |[]], b as [|[]| |[]]. Qed.

Lemma fle_trans a b c : fle a b = true → fle b c = true → fle a c = true.
Proof.
  intros Hab Hbc. destruct (fle_number _ _ Hab) as [Ha Hb], (fle_number _ _ Hbc) as [_ Hc].
  rewrite fle_lex in * by done. unfold lex_le in *. lia.
Qed.

Lemma fle_refl a : is_number a = true → fle a a = true.
Proof. intros Ha. rewrite fle_lex by done. unfold lex_le. lia. Qed.

Lemma flt_fle_total a b : is_number a = true → is_number b = true → flt a b = false → fle b a = true.
Proof.
  intros Ha Hb. unfold flt, fle, SFltb, SFleb. rewrite (SFcompare_antisym a b).
  destruct (SFcompare a b) as [[]|] eqn:E; try done. unfold SFcompare in E.
  by destruct a as [|[]| |[]], b as [|[]| |[]].
Qed.
