(* ===== verification/Json.v ===== *)
(** * JSON: [json.dumps], [json.loads]

    The part of the standard [json] module the modelled code calls.  A value
    is what [loads] can return: [None], booleans, integers, floats, strings,
    lists, and dictionaries with string keys in insertion order.

    [dumps] is [json.dumps(value, sort_keys=True, ...)] with the separators
    and the [ensure_ascii] flag of the call; [loads] is the decoder.  The
    decoder's fuel is the length of the text plus one: every recursive call
    consumes a character ([loads_dumps] shows it is enough for every text
    the encoder writes).  [\uXXXX] escapes above 255 are outside the string
    model and read as a decoding error. *)

From S2P Require Import Prelude PyStr PyDict PyFloat.
From Stdlib Require Import ZArith SpecFloat.

Open Scope string_scope.
Open Scope Z_scope.

Inductive json :=
  | JNull
  | JBool (b : bool)
  | JInt (n : Z)
  | JFloat (f : float)
  | JStr (s : string)
  | JList (l : list json)
  | JDict (d : list (string * json)).

(** ** Printing *)

(** The keyword arguments of the call to [dumps]. *)
Record style := Style { ensure_ascii : bool; item_sep : string; key_sep : string }.

(** [separators=(",", ":"), ensure_ascii=False] *)
Definition canonical_style : style := Style false "," ":".
(** [separators=(",", ":")] *)
Definition compact_style : style := Style true "," ":".
(** No keyword argument. *)
Definition default_style : style := Style true ", " ": ".

Definition backslash : ascii := chr 92.
Definition dquote : ascii := chr 34.

(** [\u00XX] *)
Definition u_escape (c : ascii) : list ascii :=
  [backslash; "u"%char; "0"%char; "0"%char; hex_char (ord c / 16); hex_char (ord c mod 16)].

Definition escape_char (st : style) (c : ascii) : list ascii :=
  let n := ord c in
  if n =? 34 then [backslash; dquote]
  else if n =? 92 then [backslash; backslash]
  else if n =? 10 then [backslash; "n"%char]
  else if n =? 13 then [backslash; "r"%char]
  else if n =? 9 then [backslash; "t"%char]
  else if n =? 12 then [backslash; "f"%char]
  else if n =? 8 then [backslash; "b"%char]
  else if (n <? 32) || (ensure_ascii st && (126 <? n)) then u_escape c
  else [c].

Definition quote (st : style) (s : string) : string :=
  String dquote (of_chars (chars s ≫= escape_char st)) +:+ String dquote "".

Definition json_float (f : float) : string :=
  match f with
  | S754_nan => "NaN"
  | S754_infinity false => "Infinity"
  | S754_infinity true => "-Infinity"
  | _ => float_repr f
  end.

Fixpoint print (st : style) (v : json) : string :=
  match v with
  | JNull => "null"
  | JBool true => "true"
  | JBool false => "false"
  | JInt n => int_str n
  | JFloat f => json_float f
  | JStr s => quote st s
  | JList l => "[" +:+ join (item_sep st) (List.map (print st) l) +:+ "]"
  | JDict d =>
      "{" +:+ join (item_sep st)
        (List.map (fun kv => quote st kv.1 +:+ key_sep st +:+ print st kv.2) d) +:+ "}"
  end.

(** [sorted(items)] by key. *)
Fixpoint insert_item {A} (kv : string * A) (l : list (string * A)) : list (string * A) :=
  match l with
  | [] => [kv]
  | kv' :: l' => if str_ltb kv'.1 kv.1 then kv' :: insert_item kv l' else kv :: l
  end.

Definition sort_items {A} (l : list (string * A)) : list (string * A) :=
  foldr insert_item [] l.

(** Every dictionary in key order, as [sort_keys=True] visits them. *)
Fixpoint normalize (v : json) : json :=
  match v with
  | JList l => JList (List.map normalize l)
  | JDict d => JDict (sort_items (List.map (fun kv => (kv.1, normalize kv.2)) d))
  | _ => v
  end.

Definition dumps (st : style) (v : json) : string := print st (normalize v).

(** ** Parsing *)

Definition is_ws (c : ascii) : bool :=
  let n := ord c in (n =? 32) || (n =? 9) || (n =? 10) || (n =? 13).

Fixpoint skip_ws (l : list ascii) : list ascii :=
  match l with
  | c :: l' => if is_ws c then skip_ws l' else l
  | [] => []
  end.

Definition hex_value (c : ascii) : option Z :=
  let n := ord c in
  if (48 <=? n) && (n <=? 57) then Some (n - 48)
  else if (97 <=? n) && (n <=? 102) then Some (n - 87)
  else if (65 <=? n) && (n <=? 70) then Some (n - 55)
  else None.

(** The characters of a string literal after its opening quote, up to and
    including the closing one. *)
Fixpoint read_string (l : list ascii) : option (list ascii * list ascii) :=
  match l with
  | [] => None
  | c :: l1 =>
      if ord c =? 34 then Some ([], l1)
      else if ord c =? 92 then
        match l1 with
        | e :: l2 =>
            let simple r := '(s, rest) ← read_string l2; Some (r :: s, rest) in
            let n := ord e in
            if (n =? 34) || (n =? 92) || (n =? 47) then simple e
            else if n =? 110 then simple (chr 10)
            else if n =? 114 then simple (chr 13)
            else if n =? 116 then simple (chr 9)
            else if n =? 102 then simple (chr 12)
            else if n =? 98 then simple (chr 8)
            else if n =? 117 then
              match l2 with
              | h1 :: h2 :: h3 :: h4 :: l3 =>
                  a ← hex_value h1; b ← hex_value h2;
                  x ← hex_value h3; y ← hex_value h4;
                  if (a =? 0) && (b =? 0) then
                    '(s, rest) ← read_string l3; Some (chr (16 * x + y) :: s, rest)
                  else None
              | _ => None
              end
            else None
        | [] => None
        end
      else if ord c <? 32 then None
      else '(s, rest) ← read_string l1; Some (c :: s, rest)
  end.

(** The longest run of digits: its value, its length, the rest. *)
Fixpoint read_digits (l : list ascii) (v n : Z) : Z * Z * list ascii :=
  match l with
  | c :: l' =>
      if is_digit c then read_digits l' (10 * v + (ord c - 48)) (n + 1) else (v, n, l)
  | [] => (v, n, [])
  end.

(** [(\.\d+)?]: the fraction's digits appended to [v], and their number. *)
Definition read_fraction (l : list ascii) (v : Z) : Z * Z * list ascii :=
  match l with
  | c :: l' =>
      if ord c =? 46 then
        let '(v', n, rest) := read_digits l' v 0 in
        if n =? 0 then (v, 0, l) else (v', n, rest)
      else (v, 0, l)
  | [] => (v, 0, l)
  end.

(** [([eE][-+]?\d+)?] *)
Definition read_exponent (l : list ascii) : option Z * list ascii :=
  match l with
  | c :: l1 =>
      if (ord c =? 101) || (ord c =? 69) then
        let '(sign, l2) :=
          match l1 with
          | s :: l2 => if ord s =? 45 then (-1, l2) else if ord s =? 43 then (1, l2) else (1, l1)
          | [] => (1, l1)
          end in
        let '(e, n, rest) := read_digits l2 0 0 in
        if n =? 0 then (None, l) else (Some (sign * e), rest)
      else (None, l)
  | [] => (None, l)
  end.

(** The decoder's number: an integer part with no leading zero, then an
    optional fraction and an optional exponent. *)
Definition read_number (l : list ascii) : option (json * list ascii) :=
  let '(sign, l1) :=
    match l with
    | c :: l' => if ord c =? 45 then (-1, l') else (1, l)
    | [] => (1, l)
    end in
  match l1 with
  | c :: l2 =>
      if is_digit c then
        let '(v, _, l3) := if ord c =? 48 then (0, 1, l2) else read_digits l1 0 0 in
        let '(m, k, l4) := read_fraction l3 v in
        let '(e, l5) := read_exponent l4 in
        if (k =? 0) && is_none e then Some (JInt (sign * v), l3)
        else
          let f := of_decimal m (default 0 e - k) in
          Some (JFloat (if sign =? -1 then SFopp f else f), l5)
      else None
  | [] => None
  end.

(** Match a literal token. *)
Fixpoint expect (tok l : list ascii) : option (list ascii) :=
  match tok, l with
  | [], _ => Some l
  | t :: tok', c :: l' => if ord t =? ord c then expect tok' l' else None
  | _ :: _, [] => None
  end.

Definition literals : list (string * json) := [
  ("null", JNull); ("true", JBool true); ("false", JBool false);
  ("NaN", JFloat S754_nan); ("Infinity", JFloat (S754_infinity false));
  ("-Infinity", JFloat (S754_infinity true))].

Fixpoint read_literal (toks : list (string * json)) (l : list ascii)
    : option (json * list ascii) :=
  match toks with
  | [] => None
  | (t, v) :: toks' =>
      match expect (chars t) l with
      | Some rest => Some (v, rest)
      | None => read_literal toks' l
      end
  end.

Fixpoint read_value (fuel : nat) (l : list ascii) : option (json * list ascii) :=
  match fuel with
  | O => None
  | S f =>
      match l with
      | [] => None
      | c :: l1 =>
          if ord c =? 34 then
            '(s, rest) ← read_string l1; Some (JStr (of_chars s), rest)
          else if ord c =? 91 then
            match skip_ws l1 with
            | c2 :: l2 =>
                if ord c2 =? 93 then Some (JList [], l2)
                else '(vs, rest) ← read_items f (c2 :: l2); Some (JList vs, rest)
            | [] => None
            end
          else if ord c =? 123 then
            match skip_ws l1 with
            | c2 :: l2 =>
                if ord c2 =? 125 then Some (JDict [], l2)
                else
                  '(kvs, rest) ← read_members f (c2 :: l2);
                  Some (JDict (items (dict_of_list kvs)), rest)
            | [] => None
            end
          else
            match read_literal literals l with
            | Some r => Some r
            | None => read_number l
            end
      end
  end
with read_items (fuel : nat) (l : list ascii) : option (list json * list ascii) :=
  match fuel with
  | O => None
  | S f =>
      '(v, rest) ← read_value f l;
      match skip_ws rest with
      | c :: l1 =>
          if ord c =? 44 then
            '(vs, rest') ← read_items f (skip_ws l1); Some (v :: vs, rest')
          else if ord c =? 93 then Some ([v], l1)
          else None
      | [] => None
      end
  end
with read_members (fuel : nat) (l : list ascii)
    : option (list (string * json) * list ascii) :=
  match fuel with
  | O => None
  | S f =>
      match l with
      | c :: l1 =>
          if ord c =? 34 then
            '(k, l2) ← read_string l1;
            match skip_ws l2 with
            | c3 :: l3 =>
                if ord c3 =? 58 then
                  '(v, rest) ← read_value f (skip_ws l3);
                  match skip_ws rest with
                  | c4 :: l4 =>
                      if ord c4 =? 44 then
                        '(kvs, rest') ← read_members f (skip_ws l4);
                        Some ((of_chars k, v) :: kvs, rest')
                      else if ord c4 =? 125 then Some ([(of_chars k, v)], l4)
                      else None
                  | [] => None
                  end
                else None
            | [] => None
            end
          else None
      | [] => None
      end
  end.

(** [json.loads(s)]; [None] is [JSONDecodeError]. *)
Definition loads (s : string) : option json :=
  let l := chars s in
  '(v, rest) ← read_value (S (length l)) (skip_ws l);
  match skip_ws rest with
  | [] => Some v
  | _ => None
  end.

(** A text with ['] standing for the double quote, for examples. *)
Definition dq (s : string) : string :=
  of_chars ((fun c => if ord c =? 39 then dquote else c) <$> chars s).

Example loads_ex :
  loads (dq " {'b': [1, -20, true], 'a':{'x':1.5e1}} ") =
  Some (JDict [("b", JList [JInt 1; JInt (-20); JBool true]);
               ("a", JDict [("x", JFloat (of_int 15))])]).
Proof. vm_compute. reflexivity. Qed.

Example dumps_ex :
  dumps canonical_style (JDict [("b", JInt 1); ("a", JStr "x")]) =
  dq "{'a':'x','b':1}".
Proof. vm_compute. reflexivity. Qed.

(** * The JSON encoder and decoder are inverse

    [loads (dumps st v) = Some (normalize v)] for every value whose
    dictionaries have distinct keys and which holds no float.  It follows that
    the canonical text determines the value up to the order of dictionary
    keys, which is what makes a digest of that text a digest of the value. *)

Open Scope string_scope.
Open Scope list_scope.
Open Scope Z_scope.

(** The values the round trip covers. *)
Fixpoint json_wf (v : json) : Prop :=
  match v with
  | JFloat _ => False
  | JList l => foldr (fun x P => json_wf x ∧ P) True l
  | JDict d => NoDup d.*1 ∧ foldr (fun kv P => json_wf kv.2 ∧ P) True d
  | _ => True
  end.

Section json_induction.
Context (P : json → Prop).
Context (Hnull : P JNull) (Hbool : ∀ b, P (JBool b)) (Hint : ∀ n, P (JInt n)).
Context (Hfloat : ∀ f, P (JFloat f)) (Hstr : ∀ s, P (JStr s)).
Context (Hlist : ∀ l, Forall P l → P (JList l)).
Context (Hdict : ∀ d, Forall (fun kv => P kv.2) d → P (JDict d)).

Fixpoint json_induction (v : json) : P v :=
  match v with
  | JNull => Hnull
  | JBool b => Hbool b
  | JInt n => Hint n
  | JFloat f => Hfloat f
  | JStr s => Hstr s
  | JList l =>
      Hlist l ((fix go l := match l return Forall P l with
                            | [] => Forall_nil_2 _
                            | x :: l' => Forall_cons_2 _ _ _ (json_induction x) (go l')
                            end) l)
  | JDict d =>
      Hdict d ((fix go d := match d return Forall (fun kv => P kv.2) d with
                            | [] => Forall_nil_2 _
                            | kv :: d' =>
                                Forall_cons_2 _ _ _ (json_induction kv.2) (go d')
                            end) d)
  end.
End json_induction.

Lemma json_wf_list l : json_wf (JList l) ↔ Forall json_wf l.
Proof.
  cbn. induction l as [|x l IH]; cbn; [by split; constructor|].
  rewrite list.Forall_cons. by rewrite IH.
Qed.

Lemma json_wf_dict d : json_wf (JDict d) ↔ NoDup d.*1 ∧ Forall (fun kv => json_wf kv.2) d.
Proof.
  cbn. f_equiv. induction d as [|x l IH]; cbn; [by split; constructor|].
  rewrite list.Forall_cons. by rewrite IH.
Qed.

(** ** Strings *)

Lemma read_string_escape st c l :
  read_string (escape_char st c ++ l) =
  '(s, rest) ← read_string l; Some (c :: s, rest).
Proof.
  destruct st as [[] i k], c as [[] [] [] [] [] [] [] []]; reflexivity.
Qed.

Lemma read_string_quoted st l rest :
  read_string ((l ≫= escape_char st) ++ dquote :: rest) = Some (l, rest).
Proof.
  induction l as [|c l IH]; [reflexivity|].
  rewrite bind_cons, <- app_assoc, read_string_escape, IH. done.
Qed.

Lemma chars_quote st s :
  chars (quote st s) = dquote :: (chars s ≫= escape_char st) ++ [dquote].
Proof.
  unfold quote. rewrite append_cons. cbn [chars]. f_equal.
  by rewrite chars_app, chars_of_chars.
Qed.

(** ** Integers *)

(** What may follow a number without being read as part of it. *)
Definition stops (l : list ascii) : Prop :=
  match l with
  | [] => True
  | c :: _ => is_digit c = false ∧ ord c ≠ 46 ∧ ord c ≠ 101 ∧ ord c ≠ 69
  end.

Definition digits_value (v : Z) (ds : list ascii) : Z :=
  foldl (fun v c => 10 * v + (ord c - 48)) v ds.

Lemma read_digits_app ds rest v n :
  Forall (fun c => is_digit c = true) ds → stops rest →
  read_digits (ds ++ rest) v n =
  (digits_value v ds, n + Z.of_nat (length ds), rest).
Proof.
  intros Hds Hstop. revert v n. induction Hds as [|c ds Hc Hds IH]; intros v n; cbn.
  - destruct rest as [|c rest]; cbn; [by rewrite Z.add_0_r|].
    destruct Hstop as [-> _]. by rewrite Z.add_0_r.
  - rewrite Hc, IH. do 2 f_equal. lia.
Qed.

Lemma digit_char_ok n : 0 <= n < 10 →
  is_digit (digit_char n) = true ∧ ord (digit_char n) - 48 = n.
Proof.
  intros H. unfold is_digit, digit_char. rewrite ord_chr by lia. split; [|lia].
  apply andb_true_iff; split; apply Z.leb_le; lia.
Qed.

(** The digits [int_str] writes: their value is the number, and there is no
    leading zero unless the number is zero. *)
Lemma dec_digits_spec fuel n acc :
  0 <= n < 10 ^ Z.of_nat fuel → (0 < fuel)%nat →
  ∃ d ds, chars (dec_digits fuel n acc) = (d :: ds) ++ chars acc ∧
    Forall (fun c => is_digit c = true) (d :: ds) ∧
    digits_value 0 (d :: ds) = n ∧ (ord d = 48 → n = 0 ∧ ds = []).
Proof.
  revert n acc. induction fuel as [|f IH]; intros n acc Hn Hf; [lia|].
  cbn [dec_digits]. destruct (Z.ltb_spec n 10) as [Hlt|Hge].
  - rewrite Z.mod_small by lia. destruct (digit_char_ok n) as [Hd Hv]; [lia|].
    exists (digit_char n), []. split_and!; [done|by repeat constructor|cbn in *; lia|].
    intros H48. split; [lia | done].
  - assert (Hr : 0 <= n mod 10 < 10) by (apply Z.mod_pos_bound; lia).
    destruct (digit_char_ok _ Hr) as [Hd Hv].
    rewrite Nat2Z.inj_succ, Z.pow_succ_r in Hn by lia.
    destruct (IH (n / 10) (String (digit_char (n mod 10)) acc))
      as (d & ds & E & Hall & Hval & Hz).
    { split; [apply Z.div_pos; lia | apply Z.div_lt_upper_bound; lia]. }
    { destruct f; [cbn in Hn; lia | lia]. }
    exists d, (ds ++ [digit_char (n mod 10)]).
    inversion Hall as [|? ? Hd0 Hds]; subst.
    split_and!.
    + rewrite E. cbn. by rewrite <- app_assoc.
    + constructor; [done|]. apply Forall_app. by repeat constructor.
    + unfold digits_value in *. cbn in *. rewrite foldl_app. cbn. rewrite Hval, Hv.
      pose proof (Z.div_mod n 10). lia.
    + intros H48. destruct (Hz H48) as [H0 _].
      pose proof (Z.div_mod n 10). lia.
Qed.

Lemma int_fuel n : 0 <= n → n < 10 ^ Z.of_nat (S (Z.to_nat (Z.log2 n))).
Proof.
  intros Hn. rewrite Nat2Z.inj_succ, Z2Nat.id by apply Z.log2_nonneg.
  apply Z.lt_le_trans with (2 ^ Z.succ (Z.log2 n)).
  - destruct (decide (n = 0)) as [->|]; [cbn; lia|]. apply Z.log2_spec. lia.
  - apply Z.pow_le_mono_l. lia.
Qed.

(** The text of an integer is an optional minus sign and its digits. *)
Lemma int_str_spec n :
  ∃ d ds, chars (int_str n) = (if n <? 0 then ["-"%char] else []) ++ d :: ds ∧
    Forall (fun c => is_digit c = true) (d :: ds) ∧
    digits_value 0 (d :: ds) = Z.abs n ∧ (ord d = 48 → n = 0 ∧ ds = []).
Proof.
  destruct (dec_digits_spec (S (Z.to_nat (Z.log2 (Z.abs n)))) (Z.abs n) "")
    as (d & ds & E & Hall & Hval & Hz).
  { split; [lia | apply int_fuel; lia]. }
  { lia. }
  exists d, ds. unfold int_str. rewrite app_nil_r in E. cbn [chars] in *.
  split_and!; [|done|done|].
  - destruct (n <? 0); cbn [chars]; by rewrite E.
  - intros H48. destruct (Hz H48). split; [lia | done].
Qed.

Lemma read_fraction_stops rest v : stops rest → read_fraction rest v = (v, 0, rest).
Proof.
  destruct rest as [|c rest]; cbn; [done|]. intros (_ & H & _).
  by rewrite (proj2 (Z.eqb_neq _ _) H).
Qed.

Lemma read_exponent_stops rest : stops rest → read_exponent rest = (None, rest).
Proof.
  destruct rest as [|c rest]; cbn; [done|]. intros (_ & _ & H1 & H2).
  by rewrite (proj2 (Z.eqb_neq _ _) H1), (proj2 (Z.eqb_neq _ _) H2).
Qed.

Lemma read_unsigned d ds rest :
  Forall (fun c => is_digit c = true) (d :: ds) → (ord d = 48 → ds = []) →
  stops rest →
  (if ord d =? 48 then (0, 1, ds ++ rest) else read_digits (d :: ds ++ rest) 0 0) =
  (digits_value 0 (d :: ds), Z.of_nat (length (d :: ds)), rest).
Proof.
  intros Hall Hz Hstop. destruct (Z.eqb_spec (ord d) 48) as [E|E].
  - rewrite (Hz E). cbn. by rewrite E.
  - change (d :: ds ++ rest) with ((d :: ds) ++ rest). by rewrite read_digits_app.
Qed.

Lemma read_number_int n rest :
  stops rest → read_number (chars (int_str n) ++ rest) = Some (JInt n, rest).
Proof.
  intros Hstop. destruct (int_str_spec n) as (d & ds & -> & Hall & Hval & Hz).
  assert (Hd : is_digit d = true) by by inversion Hall.
  assert (Hsign : ord d ≠ 45) by (intros E; unfold is_digit in Hd; by rewrite E in Hd).
  unfold read_number. destruct (Z.ltb_spec n 0); cbn [app].
  - change (ord "-"%char =? 45) with true. cbn match. rewrite Hd, read_unsigned
      by naive_solver.
    rewrite Hval, read_fraction_stops, read_exponent_stops by done. cbn.
    do 3 f_equal. lia.
  - rewrite (proj2 (Z.eqb_neq _ _) Hsign). cbn match. rewrite Hd, read_unsigned
      by naive_solver.
    rewrite Hval, read_fraction_stops, read_exponent_stops by done. cbn [Z.eqb is_none is_some negb andb].
    do 3 f_equal. lia.
Qed.

(** ** Values *)

(** The separators of the three styles: a delimiter and optional blanks. *)
Definition style_ok (st : style) : Prop :=
  ∃ b1 b2, chars (item_sep st) = ","%char :: b1 ∧ Forall (fun c => is_ws c = true) b1 ∧
           chars (key_sep st) = ":"%char :: b2 ∧ Forall (fun c => is_ws c = true) b2.

Lemma canonical_style_ok : style_ok canonical_style.
Proof. exists [], []. by repeat split; constructor. Qed.
Lemma compact_style_ok : style_ok compact_style.
Proof. exists [], []. by repeat split; constructor. Qed.
Lemma default_style_ok : style_ok default_style.
Proof. exists [" "%char], [" "%char]. by repeat split; repeat constructor. Qed.

(** The fuel a value needs: one per value and one per list or dict entry. *)
Fixpoint jsize (v : json) : nat :=
  match v with
  | JList l => S (foldr (fun x n => S (jsize x + n)) 0%nat l)
  | JDict d => S (foldr (fun kv n => S (jsize kv.2 + n)) 0%nat d)
  | _ => 1%nat
  end.

Lemma skip_ws_app b c l :
  Forall (fun c => is_ws c = true) b → is_ws c = false → skip_ws (b ++ c :: l) = c :: l.
Proof.
  intros Hb Hc. induction Hb as [|x b Hx Hb IH]; cbn; [by rewrite Hc | by rewrite Hx].
Qed.

(** A printed value starts with a character that is neither a blank nor a
    closing bracket. *)
Definition opens (l : list ascii) : Prop :=
  ∃ c l', l = c :: l' ∧ is_ws c = false ∧ ord c ≠ 93 ∧ ord c ≠ 125.

Lemma opens_digit c : is_digit c = true → is_ws c = false ∧ ord c ≠ 93 ∧ ord c ≠ 125.
Proof.
  unfold is_digit, is_ws. intros [H1%Z.leb_le H2%Z.leb_le]%andb_true_iff.
  split; [|lia]. rewrite !orb_false_iff, !Z.eqb_neq. lia.
Qed.

Lemma print_opens st v : json_wf v → opens (chars (print st v)).
Proof.
  unfold opens.
  destruct v as [|[]|n|f|s|l|d]; cbn [print json_wf]; intros Hwf; try done;
    try (eexists _, _; split; [reflexivity|vm_compute; done]).
  - destruct (int_str_spec n) as (d & ds & -> & Hall & _).
    destruct (n <? 0); cbn [app]; [eexists _, _; split; [reflexivity|vm_compute; done]|].
    exists d, ds. split; [done|]. apply opens_digit. by inversion Hall.
Qed.

Lemma expect_ne t tok c l : ord t ≠ ord c → expect (t :: tok) (c :: l) = None.
Proof. intros H. cbn. by rewrite (proj2 (Z.eqb_neq _ _) H). Qed.

Lemma is_digit_range c : is_digit c = true → 48 <= ord c <= 57.
Proof. unfold is_digit. intros [?%Z.leb_le ?%Z.leb_le]%andb_true_iff. lia. Qed.

Lemma read_literal_int n rest : read_literal literals (chars (int_str n) ++ rest) = None.
Proof.
  destruct (int_str_spec n) as (d & ds & -> & Hall & _).
  assert (Hd : 48 <= ord d <= 57) by (apply is_digit_range; by inversion Hall).
  destruct (n <? 0); cbn [app read_literal literals chars].
  - do 5 rewrite expect_ne by (vm_compute; done).
    change (expect ("-"%char :: ?t) ("-"%char :: ?l)) with (expect t l).
    rewrite expect_ne; [done|]. change (ord "I"%char) with 73. lia.
  - rewrite !expect_ne by
      match goal with |- ord ?c ≠ _ => let z := eval vm_compute in (ord c) in
                                        change (ord c) with z; lia end.
    done.
Qed.

Lemma not_opening_int n rest : ∃ c l, chars (int_str n) ++ rest = c :: l ∧
  ord c ≠ 34 ∧ ord c ≠ 91 ∧ ord c ≠ 123.
Proof.
  destruct (int_str_spec n) as (d & ds & -> & Hall & _).
  destruct (n <? 0); cbn [app]; eexists _, _; (split; [reflexivity|]); [vm_compute; done|].
  inversion Hall as [|? ? Hd _]; subst. unfold is_digit in Hd.
  apply andb_true_iff in Hd as [?%Z.leb_le ?%Z.leb_le]. lia.
Qed.

Lemma read_value_int f n rest :
  stops rest → read_value (S f) (chars (int_str n) ++ rest) = Some (JInt n, rest).
Proof.
  intros Hstop. cbn [read_value].
  destruct (not_opening_int n rest) as (c & l & E & H1 & H2 & H3).
  pose proof (read_literal_int n rest) as Hlit.
  pose proof (read_number_int n rest Hstop) as Hnum. rewrite E in *.
  rewrite (proj2 (Z.eqb_neq _ _) H1), (proj2 (Z.eqb_neq _ _) H2),
    (proj2 (Z.eqb_neq _ _) H3), Hlit. done.
Qed.

Section read_print.
Context (st : style) (Hst : style_ok st).

(** What reading back one value means. *)
Definition reads (v : json) : Prop :=
  ∀ f rest, (jsize v ≤ f)%nat → stops rest →
    read_value f (chars (print st v) ++ rest) = Some (v, rest).

Lemma join_cons_cons {A} sep (g : A → string) x y l :
  chars (join sep (List.map g (x :: y :: l))) =
  chars (g x) ++ chars sep ++ chars (join sep (List.map g (y :: l))).
Proof. cbn [List.map join]. by rewrite !chars_app. Qed.

Lemma read_items_print x l f rest :
  Forall json_wf (x :: l) → Forall reads (x :: l) →
  (foldr (fun x n => S (jsize x + n)) 0%nat (x :: l) ≤ f)%nat →
  read_items f (chars (join (item_sep st) (List.map (print st) (x :: l))) ++
                "]"%char :: rest) = Some (x :: l, rest).
Proof using Hst.
  destruct Hst as (b1 & b2 & E1 & Hb1 & _).
  revert x f. induction l as [|y l IH]; intros x f Hwf Hr Hf;
    inversion Hwf as [|? ? Hx Hwf']; inversion Hr as [|? ? Rx Hr']; subst;
    (destruct f as [|f]; [cbn in Hf; lia|]); cbn [read_items].
  - cbn [List.map join]. rewrite (Rx f) by (cbn in Hf |- *; lia || done). done.
  - rewrite join_cons_cons, <- !app_assoc, E1. cbn [app].
    rewrite (Rx f) by (cbn in Hf |- *; lia || done). cbn [mbind option_bind].
    destruct (print_opens st y) as (c & l' & Ec & Hc & _); [by inversion Hwf'|].
    assert (Hsep : ∃ l'', chars (join (item_sep st) (List.map (print st) (y :: l))) = c :: l'').
    { destruct l; [cbn; eauto|]. rewrite join_cons_cons, Ec. cbn; eauto. }
    destruct Hsep as (l'' & E'').
    change (skip_ws (","%char :: ?z)) with (","%char :: z). cbn match.
    specialize (IH y f Hwf' Hr'). rewrite E'' in IH |- *. cbn [app] in IH |- *.
    cbn [Z.eqb ord]. change (ord ","%char =? 44) with true. cbn match.
    rewrite skip_ws_app by done. rewrite IH by (cbn in Hf |- *; lia). done.
Qed.

Lemma read_members_print kx l f rest :
  Forall (fun kv => json_wf kv.2) (kx :: l) → Forall (fun kv => reads kv.2) (kx :: l) →
  (foldr (fun kv n => S (jsize kv.2 + n)) 0%nat (kx :: l) ≤ f)%nat →
  read_members f (chars (join (item_sep st)
      (List.map (fun kv => quote st kv.1 +:+ key_sep st +:+ print st kv.2) (kx :: l))) ++
                "}"%char :: rest) = Some (kx :: l, rest).
Proof using Hst.
  destruct Hst as (b1 & b2 & E1 & Hb1 & E2 & Hb2).
  revert kx f. induction l as [|ky l IH]; intros [k x] f Hwf Hr Hf;
    inversion Hwf as [|? ? Hx Hwf']; inversion Hr as [|? ? Rx Hr']; subst;
    (destruct f as [|f]; [cbn in Hf; lia|]); cbn [read_members fst snd] in *;
    destruct (print_opens st x Hx) as (cx & lx & Ecx & Hcx & _).
  - cbn [List.map join fst snd]. rewrite !chars_app, chars_quote, E2. cbn [app].
    change (ord dquote =? 34) with true. cbn match.
    rewrite <- !app_assoc. cbn [app]. rewrite read_string_quoted. cbn [mbind option_bind].
    change (skip_ws (":"%char :: ?z)) with (":"%char :: z). cbn match.
    change (ord ":"%char =? 58) with true. cbn match.
    specialize (Rx f ("}"%char :: rest)). rewrite Ecx in Rx |- *. rewrite <- ?app_assoc. cbn [app] in Rx |- *.
    rewrite skip_ws_app by done. rewrite Rx by (cbn in Hf |- *; lia || done).
    cbn. by rewrite of_chars_chars.
  - rewrite join_cons_cons. cbn [fst snd]. rewrite !chars_app, chars_quote, E2, E1. cbn [app].
    change (ord dquote =? 34) with true. cbn match.
    rewrite <- !app_assoc. cbn [app]. rewrite read_string_quoted. cbn [mbind option_bind].
    change (skip_ws (":"%char :: ?z)) with (":"%char :: z). cbn match.
    change (ord ":"%char =? 58) with true. cbn match.
    rewrite <- !app_assoc. cbn [app].
    match goal with |- context [chars (print st x) ++ ?r] => specialize (Rx f r) end.
    rewrite Ecx in Rx |- *. rewrite <- ?app_assoc. cbn [app] in Rx |- *.
    rewrite skip_ws_app by done. rewrite Rx by (cbn in Hf |- *; lia || done).
    cbn [mbind option_bind].
    change (skip_ws (","%char :: ?z)) with (","%char :: z). cbn match.
    change (ord ","%char =? 44) with true. cbn match.
    assert (Hsep : ∃ l'', chars (join (item_sep st)
      (List.map (fun kv => quote st kv.1 +:+ key_sep st +:+ print st kv.2) (ky :: l)))
      = dquote :: l'').
    { destruct l; [cbn [List.map join]|rewrite join_cons_cons];
        rewrite ?chars_app, chars_quote; cbn; eauto. }
    destruct Hsep as (l'' & E''). specialize (IH ky f Hwf' Hr').
    rewrite E'' in IH |- *. cbn [app] in IH |- *.
    rewrite skip_ws_app by done. rewrite IH by (cbn in Hf |- *; lia).
    cbn. by rewrite of_chars_chars.
Qed.
End read_print.

Lemma dict_of_list_items {V} (l : list (string * V)) :
  NoDup l.*1 → items (dict_of_list l) = l.
Proof.
  intros Hnd. unfold dict_of_list.
  enough (∀ d : dict string V, NoDup ((items d ++ l).*1) →
    items (foldl (fun d kv => <[kv.1:=kv.2]> d) d l) = items d ++ l) as H by (rewrite H; done).
  clear Hnd. induction l as [|[k v] l IH]; intros d Hnd; cbn [foldl fst snd]; [by rewrite app_nil_r|].
  assert (Hk : d !! k = None).
  { destruct (d !! k) as [v'|] eqn:E; [|done]. apply dict_lookup_elem in E.
    rewrite fmap_app in Hnd. apply NoDup_app in Hnd as (_ & Hdis & _).
    destruct (Hdis k); [|cbn; left]. apply list_elem_of_fmap. by exists (k, v'). }
  rewrite IH; rewrite dict_insert_fresh_items by done; by rewrite <- app_assoc.
Qed.

Lemma Forall_modus {A} (P Q : A → Prop) (l : list A) :
  Forall (fun x => P x → Q x) l → Forall P l → Forall Q l.
Proof. intros H. induction H; inversion 1; subst; constructor; auto. Qed.

Lemma read_value_print st v : style_ok st → json_wf v → reads st v.
Proof.
  intros Hst. induction v as [|b|n|fl|s|l IH|d IH] using json_induction; intros Hwf f rest Hf Hstop;
    (destruct f as [|f]; [cbn in Hf; lia|]).
  - done.
  - by destruct b.
  - by apply read_value_int.
  - done.
  - cbn [print]. rewrite chars_quote. cbn [app read_value].
    change (ord dquote =? 34) with true. cbn match.
    rewrite <- app_assoc. cbn [app]. rewrite read_string_quoted.
    cbn. by rewrite of_chars_chars.
  - apply json_wf_list in Hwf. destruct l as [|x l]; [reflexivity|].
    cbn [print]. rewrite !chars_app. cbn [chars app read_value].
    change (ord "["%char =? 34) with false. change (ord "["%char =? 91) with true. cbn match.
    pose proof (read_items_print st Hst x l f rest Hwf) as H.
    specialize (H (Forall_modus _ _ _ IH Hwf) ltac:(cbn [jsize] in Hf; lia)).
    destruct (print_opens st x) as (c & lx & Ec & Hc & H93 & _); [by inversion Hwf|].
    assert (∃ l'', chars (join (item_sep st) (List.map (print st) (x :: l))) = c :: l'')
      as [l'' E''].
    { destruct l; [cbn [List.map join]|rewrite join_cons_cons]; rewrite Ec; cbn; eauto. }
    rewrite E'' in H |- *. rewrite <- app_assoc. cbn [app] in H |- *.
    cbn [skip_ws]. rewrite Hc, (proj2 (Z.eqb_neq _ _) H93), H. done.
  - apply json_wf_dict in Hwf as [Hnd Hwf]. destruct d as [|kx d]; [reflexivity|].
    cbn [print]. rewrite !chars_app. cbn [chars app read_value].
    change (ord "{"%char =? 34) with false. change (ord "{"%char =? 91) with false.
    change (ord "{"%char =? 123) with true. cbn match.
    pose proof (read_members_print st Hst kx d f rest Hwf) as H.
    specialize (H (Forall_modus _ _ _ IH Hwf) ltac:(cbn [jsize] in Hf; lia)).
    assert (∃ l'', chars (join (item_sep st)
       (List.map (fun kv => quote st kv.1 +:+ key_sep st +:+ print st kv.2) (kx :: d)))
       = dquote :: l'') as [l'' E''].
    { destruct d; [cbn [List.map join]|rewrite join_cons_cons];
        rewrite ?chars_app, chars_quote; cbn; eauto. }
    rewrite E'' in H |- *. rewrite <- app_assoc. cbn [app] in H |- *.
    change (skip_ws (dquote :: ?z)) with (dquote :: z). cbn match.
    change (ord dquote =? 125) with false. cbn match. rewrite H. cbn [mbind option_bind].
    by rewrite dict_of_list_items.
Qed.

(** The text is at least as long as the fuel its value needs. *)
Lemma print_length st v : style_ok st → json_wf v →
  (jsize v ≤ length (chars (print st v)))%nat.
Proof.
  intros (b1 & b2 & E1 & _ & E2 & _).
  induction v as [|b|n|fl|s|l IH|d IH] using json_induction; intros Hwf; cbn [jsize print].
  - cbn; lia.
  - destruct b; cbn; lia.
  - destruct (int_str_spec n) as (c & ds & -> & _). rewrite length_app. cbn. lia.
  - done.
  - rewrite chars_quote. cbn. lia.
  - apply json_wf_list in Hwf. rewrite !chars_app, !length_app. cbn [chars length].
    enough (foldr (fun x n => S (jsize x + n)) 0 l ≤
      S (length (chars (join (item_sep st) (List.map (print st) l)))))%nat by lia.
    induction l as [|x l IHl]; [cbn; lia|].
    inversion IH; inversion Hwf; subst. destruct l as [|y l].
    + cbn [foldr List.map join]. specialize (H1 H5). lia.
    + rewrite join_cons_cons, !length_app, E1. cbn [foldr] in *.
      specialize (H1 H5). specialize (IHl H2 H6). cbn [length]. lia.
  - apply json_wf_dict in Hwf as [_ Hwf]. rewrite !chars_app, !length_app. cbn [chars length].
    match goal with |- context [List.map ?g _] => set (pr := g) end.
    assert (Hpr : ∀ kv, (length (chars (print st kv.2)) ≤ length (chars (pr kv)))%nat).
    { intros kv. unfold pr. rewrite !chars_app, !length_app. lia. }
    enough (foldr (fun kv n => S (jsize kv.2 + n)) 0 d ≤
      S (length (chars (join (item_sep st) (List.map pr d)))))%nat by lia.
    induction d as [|x l IHl]; [cbn; lia|].
    inversion IH; inversion Hwf; subst. specialize (Hpr x) as Hx. destruct l as [|y l].
    + cbn [foldr List.map join]. specialize (H1 H5). lia.
    + rewrite join_cons_cons, !length_app, E1. cbn [foldr] in *.
      specialize (H1 H5). specialize (IHl H2 H6). cbn [length]. lia.
Qed.

Lemma skip_ws_opens l : opens l → skip_ws l = l.
Proof. intros (c & l' & -> & Hc & _). cbn. by rewrite Hc. Qed.

Lemma loads_print st v : style_ok st → json_wf v → loads (print st v) = Some v.
Proof.
  intros Hst Hwf. unfold loads. rewrite skip_ws_opens by by apply print_opens.
  pose proof (read_value_print st v Hst Hwf
    (S (length (chars (print st v)))) []) as H. rewrite app_nil_r in H.
  rewrite H; [done | | done]. pose proof (print_length st v Hst Hwf). lia.
Qed.

(** ** Normal forms *)

Lemma insert_item_elem {A} (kv x : string * A) l : x ∈ insert_item kv l ↔ x = kv ∨ x ∈ l.
Proof. induction l as [|y l IH]; cbn; [set_solver|]. case_match; set_solver. Qed.

Lemma sort_items_elem {A} (x : string * A) l : x ∈ sort_items l ↔ x ∈ l.
Proof.
  induction l as [|y l IH]; cbn; [done|]. rewrite insert_item_elem, IH. set_solver.
Qed.

Lemma insert_item_perm {A} (kv : string * A) l : insert_item kv l ≡ₚ kv :: l.
Proof.
  induction l as [|y l IH]; cbn; [done|]. case_match; [|done].
  rewrite IH. apply Permutation_swap.
Qed.

Lemma sort_items_perm {A} (l : list (string * A)) : sort_items l ≡ₚ l.
Proof. induction l as [|y l IH]; cbn; [done|]. by rewrite insert_item_perm, IH. Qed.

Lemma normalize_wf v : json_wf v → json_wf (normalize v).
Proof.
  induction v as [|b|n|fl|s|l IH|d IH] using json_induction; try done; intros Hwf; cbn [normalize].
  - apply json_wf_list. apply json_wf_list in Hwf.
    induction l; inversion IH; inversion Hwf; subst; cbn; constructor; auto.
  - apply json_wf_dict in Hwf as [Hnd Hwf]. apply json_wf_dict.
    rewrite !sort_items_perm. split.
    + enough ((List.map (fun kv => (kv.1, normalize kv.2)) d).*1 = d.*1) as -> by done.
      clear. induction d; cbn; congruence.
    + clear Hnd. induction d; inversion IH; inversion Hwf; subst; cbn; constructor; auto.
Qed.

(** The round trip: what [loads] reads from the text [dumps] writes. *)
Lemma loads_dumps st v :
  style_ok st → json_wf v → loads (dumps st v) = Some (normalize v).
Proof. intros Hst Hwf. apply loads_print; [done | by apply normalize_wf]. Qed.

(** Equal texts come from values equal up to key order. *)
Lemma dumps_inj st v w : style_ok st → json_wf v → json_wf w →
  dumps st v = dumps st w → normalize v = normalize w.
Proof.
  intros Hst Hv Hw H. apply (inj Some).
  by rewrite <- (loads_dumps st v), <- (loads_dumps st w), H.
Qed.

(** Sorted keys, at the top level of a dictionary. *)
Fixpoint sorted_keys {A} (l : list (string * A)) : Prop :=
  match l with
  | [] => True
  | x :: l' => Forall (fun y => str_ltb y.1 x.1 = false) l' ∧ sorted_keys l'
  end.

Lemma insert_item_sorted {A} (kv : string * A) l :
  sorted_keys l → sorted_keys (insert_item kv l).
Proof.
  induction l as [|x l IH]; cbn; [by repeat constructor|].
  intros [Hx Hl]. destruct (str_ltb x.1 kv.1) eqn:E; cbn; split; auto.
  - apply list.Forall_forall. intros y [->|Hy]%insert_item_elem.
    + destruct (str_ltb kv.1 x.1) eqn:E'; [|done].
      pose proof (str_ltb_trans _ _ _ E E') as H. by rewrite str_ltb_irrefl in H.
    + rewrite list.Forall_forall in Hx. auto.
  - constructor; [done|]. apply list.Forall_forall. intros y Hy.
    rewrite list.Forall_forall in Hx. specialize (Hx y Hy).
    destruct (str_ltb y.1 kv.1) eqn:E'; [|done].
    destruct (str_ltb kv.1 x.1) eqn:E''.
    + by rewrite (str_ltb_trans _ _ _ E' E'') in Hx.
    + by rewrite (str_ltb_total _ _ E'' E), Hx in E'.
Qed.

Lemma sort_items_sorted {A} (l : list (string * A)) : sorted_keys (sort_items l).
Proof. induction l as [|x l IH]; cbn; [done | by apply insert_item_sorted]. Qed.

Lemma sort_items_id {A} (l : list (string * A)) : sorted_keys l → sort_items l = l.
Proof.
  induction l as [|x l IH]; [done|]. intros [Hx Hl].
  change (sort_items (x :: l)) with (insert_item x (sort_items l)). rewrite IH by done.
  destruct l as [|y l]; [done|]. cbn. inversion Hx as [|? ? Hy _]; subst.
  by rewrite Hy.
Qed.

Lemma normalize_idem v : normalize (normalize v) = normalize v.
Proof.
  induction v as [|b|n|fl|s|l IH|d IH] using json_induction; try done; cbn [normalize]; f_equal.
  - induction IH as [|x l Hx _ IHl]; cbn; [done|]. by rewrite Hx, IHl.
  - rewrite sort_items_id.
    + enough (∀ l : list (string * json), (∀ kv, kv ∈ l → normalize kv.2 = kv.2) →
        List.map (fun kv => (kv.1, normalize kv.2)) l = l) as H.
      { apply H. intros kv Hkv. rewrite sort_items_elem in Hkv.
        assert (∃ kv', kv' ∈ d ∧ kv = (kv'.1, normalize kv'.2)) as (kv' & Hin & ->).
        { clear IH. induction d as [|x d IHd]; cbn in Hkv; [set_solver|].
          apply elem_of_cons in Hkv as [->|Hkv]; [exists x; set_solver|].
          destruct IHd as (? & ? & ?); [done|]. set_solver. }
        rewrite list.Forall_forall in IH. cbn. by apply IH. }
      clear. intros l Hl. induction l as [|[k x] l IHl]; cbn; [done|].
      rewrite IHl by set_solver. f_equal. f_equal. apply (Hl (k, x)). left.
    + enough (∀ l : list (string * json), sorted_keys l →
        sorted_keys (List.map (fun kv => (kv.1, normalize kv.2)) l)) as H
        by apply H, sort_items_sorted.
      clear. induction l as [|x l IHl]; cbn; [done|]. intros [Hx Hl]. split; [|auto].
      clear -Hx. induction Hx; cbn; constructor; auto.
Qed.

Lemma dumps_normalize st v : dumps st (normalize v) = dumps st v.
Proof. unfold dumps. by rewrite normalize_idem. Qed.
