(* ===== verification/Sha256.v ===== *)
(** * SHA-256, [hashlib.sha256]

    The FIPS 180-4 function on lists of bytes, 32-bit words as [Z] with the
    wrap-around written out.  The digests of the modelled code are computed
    with it, so witnesses run the very hash the program runs.  Nothing in
    the library assumes collision resistance: where a property depends on it,
    the theorem names the two inputs that would be the
    collision ([collides]). *)

From S2P Require Import Prelude PyStr.
From Stdlib Require Import ZArith.

Open Scope Z_scope.

Definition mask32 (x : Z) : Z := Z.land x 4294967295.
Definition add32 (x y : Z) : Z := mask32 (x + y).
Definition rotr (n x : Z) : Z :=
  Z.lor (Z.shiftr x n) (mask32 (Z.shiftl x (32 - n))).
Definition shr (n x : Z) : Z := Z.shiftr x n.

Definition ch (x y z : Z) : Z :=
  Z.lxor (Z.land x y) (Z.land (Z.lxor x 4294967295) z).
Definition maj (x y z : Z) : Z :=
  Z.lxor (Z.lxor (Z.land x y) (Z.land x z)) (Z.land y z).
Definition bsig0 (x : Z) : Z := Z.lxor (Z.lxor (rotr 2 x) (rotr 13 x)) (rotr 22 x).
Definition bsig1 (x : Z) : Z := Z.lxor (Z.lxor (rotr 6 x) (rotr 11 x)) (rotr 25 x).
Definition ssig0 (x : Z) : Z := Z.lxor (Z.lxor (rotr 7 x) (rotr 18 x)) (shr 3 x).
Definition ssig1 (x : Z) : Z := Z.lxor (Z.lxor (rotr 17 x) (rotr 19 x)) (shr 10 x).

(** The round constants: the fractional parts of the cube roots of the first 64
    primes. *)
Definition K256 : list Z := [
  1116352408; 1899447441; 3049323471; 3921009573; 961987163; 1508970993;
  2453635748; 2870763221; 3624381080; 310598401; 607225278; 1426881987;
  1925078388; 2162078206; 2614888103; 3248222580; 3835390401; 4022224774;
  264347078; 604807628; 770255983; 1249150122; 1555081692; 1996064986;
  2554220882; 2821834349; 2952996808; 3210313671; 3336571891; 3584528711;
  113926993; 338241895; 666307205; 773529912; 1294757372; 1396182291;
  1695183700; 1986661051; 2177026350; 2456956037; 2730485921; 2820302411;
  3259730800; 3345764771; 3516065817; 3600352804; 4094571909; 275423344;
  430227734; 506948616; 659060556; 883997877; 958139571; 1322822218;
  1537002063; 1747873779; 1955562222; 2024104815; 2227730452; 2361852424;
  2428436474; 2756734187; 3204031479; 3329325298].

Definition H256 : list Z := [
  1779033703; 3144134277; 1013904242; 2773480762;
  1359893119; 2600822924; 528734635; 1541459225].

(** Big-endian bytes of [n] on [w] bytes. *)
Fixpoint be_bytes (w : nat) (n : Z) (acc : list Z) : list Z :=
  match w with
  | O => acc
  | S w' => be_bytes w' (n / 256) (n mod 256 :: acc)
  end.

Definition pad (msg : list Z) : list Z :=
  let n := Z.of_nat (length msg) in
  let zeros := Z.to_nat ((55 - n) mod 64) in
  (msg ++ 128 :: replicate zeros 0 ++ be_bytes 8 (8 * n) [])%list.

Fixpoint words (l : list Z) : list Z :=
  match l with
  | a :: b :: c :: d :: l' =>
      (a * 16777216 + b * 65536 + c * 256 + d) :: words l'
  | _ => []
  end.

(** The message schedule, newest word first; [n] words are still missing. *)
Fixpoint schedule (n : nat) (w : list Z) : list Z :=
  match n with
  | O => w
  | S n' =>
      let at_ i := nth i w 0 in
      let next := add32 (add32 (ssig1 (at_ 1%nat)) (at_ 6%nat))
                        (add32 (ssig0 (at_ 14%nat)) (at_ 15%nat)) in
      schedule n' (next :: w)
  end.

Definition round (s : list Z) (kw : Z * Z) : list Z :=
  match s with
  | [a; b; c; d; e; f; g; h] =>
      let t1 := add32 (add32 h (bsig1 e)) (add32 (ch e f g) (add32 kw.1 kw.2)) in
      let t2 := add32 (bsig0 a) (maj a b c) in
      [add32 t1 t2; a; b; c; add32 d t1; e; f; g]
  | _ => s
  end.

Definition compress (h : list Z) (block : list Z) : list Z :=
  let w := rev (schedule 48 (rev (words block))) in
  zip_with add32 h (foldl round h (zip K256 w)).

Fixpoint blocks (fuel : nat) (l h : list Z) : list Z :=
  match fuel, l with
  | S f, _ :: _ => blocks f (drop 64 l) (compress h (take 64 l))
  | _, _ => h
  end.

(** [sha256(msg).digest()], 32 bytes.  The fuel is one step per byte, and a
    step consumes 64 bytes. *)
Definition sha256 (msg : list Z) : list Z :=
  let p := pad msg in
  blocks (length p) p H256 ≫= fun w => be_bytes 4 w [].

Definition byte_hex (b : Z) : list ascii := [hex_char (b / 16); hex_char (b mod 16)].

(** [sha256(msg).hexdigest()] *)
Definition hexdigest (msg : list Z) : string := of_chars (sha256 msg ≫= byte_hex).

(** [sha256(s.encode("utf-8")).hexdigest()] *)
Definition sha256_hex (s : string) : string := hexdigest (utf8 s).

(** [s] and [t] are a collision of the hash. *)
Definition collides (s t : string) : Prop := s ≠ t ∧ sha256_hex s = sha256_hex t.

Example sha256_abc : sha256_hex "abc"%string =
  "ba7816bf8f01cfea414140de5dae2223b00361a396177a9cb410ff61f20015ad"%string.
Proof. vm_compute. reflexivity. Qed.

(** Two blocks. *)
Example sha256_two_blocks :
  sha256_hex "abcdbcdecdefdefgefghfghighijhijkijkljklmklmnlmnomnopnopq"%string =
  "248d6a61d20638b8e5c026930c3e6039a33ce45964ff2167f6ecedd419db06c1"%string.
Proof. vm_compute. reflexivity. Qed.

(** ** The digest is 64 lower-case hexadecimal characters *)

Lemma be_bytes_length w n acc : length (be_bytes w n acc) = (w + length acc)%nat.
Proof.
  revert n acc. induction w as [|w IH]; intros n acc; cbn; [done|].
  rewrite IH. cbn. lia.
Qed.

Lemma round_length s kw : length s = 8%nat → length (round s kw) = 8%nat.
Proof. destruct s as [|?[|?[|?[|?[|?[|?[|?[|?[|]]]]]]]]]; cbn; auto. Qed.

Lemma compress_length h b : length h = 8%nat → length (compress h b) = 8%nat.
Proof.
  intros Hh. unfold compress. rewrite length_zip_with.
  enough (∀ l s, length s = 8%nat → length (foldl round s l) = 8%nat) as ->; try lia.
  intros l. induction l as [|x l IH]; intros s Hs; cbn; [done|].
  by apply IH, round_length.
Qed.

Lemma blocks_length f l h : length h = 8%nat → length (blocks f l h) = 8%nat.
Proof.
  revert l h. induction f as [|f IH]; intros [|x l] h Hh; cbn; auto.
  by apply IH, compress_length.
Qed.

Lemma be_bytes_range w n acc :
  Forall (fun b => 0 <= b < 256) acc → Forall (fun b => 0 <= b < 256) (be_bytes w n acc).
Proof.
  revert n acc. induction w as [|w IH]; intros n acc H; cbn; [done|].
  apply IH. constructor; [apply Z.mod_pos_bound; lia | done].
Qed.

Lemma bind_length_const {A B} (f : A → list B) k l :
  (∀ x, length (f x) = k) → length (l ≫= f) = (k * length l)%nat.
Proof.
  intros H. induction l as [|x l IH]; cbn; [lia|].
  rewrite length_app, IH, H. lia.
Qed.

Lemma sha256_length msg : length (sha256 msg) = 32%nat.
Proof.
  unfold sha256. rewrite (bind_length_const _ 4).
  - by rewrite blocks_length.
  - intros x. by rewrite be_bytes_length.
Qed.

Lemma sha256_range msg : Forall (fun b => 0 <= b < 256) (sha256 msg).
Proof.
  unfold sha256. apply Forall_bind, Forall_true. intros x. by apply be_bytes_range.
Qed.

Lemma hex_char_ok n : 0 <= n < 16 → is_hex_lower (hex_char n) = true.
Proof.
  intros H. unfold is_hex_lower, is_digit, hex_char.
  destruct (Z.ltb_spec n 10); rewrite ord_chr by lia; apply orb_true_iff;
    [left|right]; apply andb_true_iff; split; apply Z.leb_le; lia.
Qed.

Lemma hexdigest_ok msg : not_sha256_hex (hexdigest msg) = false.
Proof.
  unfold not_sha256_hex, hexdigest, len.
  rewrite <- length_chars, chars_of_chars, (bind_length_const _ 2) by done.
  rewrite sha256_length. cbn [negb orb Z.eqb Z.of_nat].
  apply orb_false_iff. split; [done|].
  apply any_false. intros c Hc. apply negb_false_iff.
  apply list_elem_of_bind in Hc as (b & Hc & Hb).
  pose proof (sha256_range msg) as Hr. rewrite list.Forall_forall in Hr.
  specialize (Hr b Hb). cbn in Hc. unfold byte_hex in Hc.
  assert (0 <= b / 16 < 16) by (split; [apply Z.div_pos | apply Z.div_lt_upper_bound]; lia).
  assert (0 <= b mod 16 < 16) by (apply Z.mod_pos_bound; lia).
  rewrite !elem_of_cons in Hc. destruct Hc as [->|[->|Hc]]; try by apply hex_char_ok.
  by apply not_elem_of_nil in Hc.
Qed.

Lemma sha256_hex_ok s : not_sha256_hex (sha256_hex s) = false.
Proof. apply hexdigest_ok. Qed.

(** Equal digests: equal inputs, or a collision in hand. *)
Lemma sha256_hex_inj s t : sha256_hex s = sha256_hex t → s = t ∨ collides s t.
Proof.
  intros H. destruct (decide (s = t)) as [->|Hne]; [by left | by right].
Qed.

(** Proofs treat the digest as a black box; [vm_compute] still evaluates it. *)
#[global] Opaque sha256_hex.

(** * [uuid.uuid5]

    The name-based identifier of RFC 4122: the first sixteen bytes of the SHA-1
    digest of the name space and the name, with the version and variant bits
    set. *)

Open Scope string_scope.
Open Scope list_scope.
Open Scope Z_scope.

Definition rotl (n x : Z) : Z := Z.lor (mask32 (Z.shiftl x n)) (Z.shiftr x (32 - n)).

(** The message schedule grows from its last sixteen words, newest first. *)
Fixpoint expand1 (n : nat) (w : list Z) : list Z :=
  match n with
  | O => w
  | S n' =>
      let at_ i := nth i w 0 in
      expand1 n'
        (rotl 1 (Z.lxor (Z.lxor (at_ 2%nat) (at_ 7%nat)) (Z.lxor (at_ 13%nat) (at_ 15%nat))) :: w)
  end.

(** The mixing function and the constant of round [t]. *)
Definition mix (t b c d : Z) : Z * Z :=
  if t <? 20 then (Z.lor (Z.land b c) (Z.land (Z.lxor b 4294967295) d), 1518500249)
  else if t <? 40 then (Z.lxor (Z.lxor b c) d, 1859775393)
  else if t <? 60 then
    (Z.lor (Z.lor (Z.land b c) (Z.land b d)) (Z.land c d), 2400959708)
  else (Z.lxor (Z.lxor b c) d, 3395469782).

(** The five registers. *)
Record regs := Regs { r_a : Z; r_b : Z; r_c : Z; r_d : Z; r_e : Z }.

Definition step1 (acc : Z * regs) (w : Z) : Z * regs :=
  let '(t, r) := acc in
  let '(f, k) := mix t (r_b r) (r_c r) (r_d r) in
  (t + 1, Regs (mask32 (rotl 5 (r_a r) + f + r_e r + k + w)) (r_a r) (rotl 30 (r_b r)) (r_c r)
            (r_d r)).

Definition absorb (h : regs) (block : list Z) : regs :=
  let w := rev (expand1 64 (rev (words block))) in
  let '(_, r) := foldl step1 (0, h) w in
  Regs (add32 (r_a h) (r_a r)) (add32 (r_b h) (r_b r)) (add32 (r_c h) (r_c r))
       (add32 (r_d h) (r_d r)) (add32 (r_e h) (r_e r)).

(** One block of 64 bytes per round; [fuel] is the number of bytes. *)
Fixpoint absorb_all (fuel : nat) (l : list Z) (h : regs) : regs :=
  match fuel, l with
  | S f, _ :: _ => absorb_all f (drop 64 l) (absorb h (take 64 l))
  | _, _ => h
  end.

(** [hashlib.sha1(msg).digest()]; both functions pad a message in the same way. *)
Definition sha1 (msg : list Z) : list Z :=
  let p := pad msg in
  let h := absorb_all (length p) p
             (Regs 1732584193 4023233417 2562383102 271733878 3285377520) in
  [r_a h; r_b h; r_c h; r_d h; r_e h] ≫= (fun x => be_bytes 4 x []).

Example sha1_abc : of_chars (sha1 (utf8 "abc") ≫= byte_hex) =
  "a9993e364706816aba3e25717850c26c9cd0d89d".
Proof. vm_compute. reflexivity. Qed.

(** [uuid5(namespace, name)] *)
Definition uuid5 (namespace : uuid) (name : string) : uuid :=
  let digest := take 16 (sha1 (be_bytes 16 (Z.of_N namespace) [] ++ utf8 name)) in
  let n := foldl (fun acc b => 256 * acc + b) 0 digest in
  (* the variant bits, then the version bits *)
  let n := Z.lor (Z.ldiff n (Z.shiftl 49152 48)) (Z.shiftl 32768 48) in
  Z.to_N (Z.lor (Z.ldiff n (Z.shiftl 61440 64)) (Z.shiftl 5 76)).

(** [6ba7b811-9dad-11d1-80b4-00c04fd430c8] *)
Definition NAMESPACE_URL : uuid := 143098242483405524118141958906375844040%N.

Example uuid5_example : uuid_str (uuid5 NAMESPACE_URL "python.org") =
  "7af94e2b-4dd9-50f0-9c9a-8a48519bdef0".
Proof. vm_compute. reflexivity. Qed.

(** Proofs treat the derived identifier as a black box. *)
#[global] Opaque uuid5.
