(* ===== verification/Transitions.v ===== *)
(** * packages/domain: transitions.py

    [require_transition] and the auditable [StateTransition] records, and what
    every state machine of the domain gets from them: a history is a path of
    the transition table ([path]), a state that every path must cross leaves
    its trace in the history ([path_crosses]), and an object in a state with no
    outgoing transition never moves again ([path_terminal]). *)

From S2P Require Import Prelude PyStr.

Open Scope string_scope.
Open Scope list_scope.

(** A [StrEnum]: its members have distinct string values. *)
Class StrEnum (S : Type) := {
  str_enum_eq_dec :: EqDecision S;
  value : S → string;
  value_inj :: Inj (=) (=) value
}.

(** Proves [value_inj] for an enumeration by cases. *)
Ltac solve_enum := intros [] []; vm_compute; congruence.

Definition SYSTEM_ACTOR_ID : uuid := 0%N.

Module StateTransition.
Record t := mk {
  from_status : string;
  to_status : string;
  occurred_at : datetime;
  reason : string;
  actor_id : uuid
}.

#[global] Instance t_eq_dec : EqDecision t.
Proof. solve_decision. Defined.

Definition post_init (x : t) : res unit :=
  raise_if (is_naive (occurred_at x)) ValueError "transition timestamp must be timezone-aware" ;;
  raise_if (blank (reason x)) ValueError "transition reason must not be empty".

Definition new (x : t) : res t := post_init x ;; Ok x.
End StateTransition.

Section transitions.
Context {S : Type} `{StrEnum S}.

(** [now] is the reading of the clock, used when [occurred_at] is [None]. *)
Definition transition_record (current target : S) (actor_id : uuid) (reason : string)
    (occurred_at : option datetime) (now : datetime) : res StateTransition.t :=
  StateTransition.new {|
    StateTransition.from_status := value current;
    StateTransition.to_status := value target;
    StateTransition.occurred_at := default now occurred_at;
    StateTransition.reason := reason;
    StateTransition.actor_id := actor_id |}.

(** [allowed] is the table; a state the table does not mention has no
    successors. *)
Definition require_transition (current target : S) (allowed : S → list S) : res unit :=
  raise_if (negb (mem target (allowed current))) InvalidStateTransition
    ("cannot transition from " +:+ value current +:+ " to " +:+ value target).

(** ** Histories *)

Inductive path (allowed : S → list S) (s0 : S) : list StateTransition.t → S → Prop :=
  | path_start : path allowed s0 [] s0
  | path_step ts s t s' :
      path allowed s0 ts s →
      StateTransition.from_status t = value s →
      StateTransition.to_status t = value s' →
      s' ∈ allowed s →
      path allowed s0 (ts ++ [t]) s'.

(** The history records an entry into [d]. *)
Definition crosses (d : S) (ts : list StateTransition.t) : Prop :=
  ∃ t, t ∈ ts ∧ StateTransition.to_status t = value d.

Lemma require_transition_ok current target allowed u :
  require_transition current target allowed = Ok u ↔ target ∈ allowed current.
Proof.
  unfold require_transition. rewrite raise_if_ok, negb_false_iff. apply mem_true.
Qed.

Lemma require_transition_err current target allowed :
  target ∉ allowed current →
  ∃ msg, require_transition current target allowed = raise InvalidStateTransition msg.
Proof.
  intros Hn%mem_false. unfold require_transition. rewrite Hn. cbn. eauto.
Qed.

Lemma transition_record_ok current target actor reason at_ now t :
  transition_record current target actor reason at_ now = Ok t →
  StateTransition.from_status t = value current ∧
  StateTransition.to_status t = value target ∧
  StateTransition.occurred_at t = default now at_ ∧
  StateTransition.reason t = reason ∧ StateTransition.actor_id t = actor ∧
  is_naive (StateTransition.occurred_at t) = false ∧ blank reason = false.
Proof. unfold transition_record, StateTransition.new, StateTransition.post_init. intros. inv_ok. done. Qed.

Lemma transition_record_aware current target actor reason at_ now :
  is_naive (default now at_) = false → blank reason = false →
  ∃ t, transition_record current target actor reason at_ now = Ok t.
Proof.
  intros Hn Hb. unfold transition_record, StateTransition.new, StateTransition.post_init.
  cbn. rewrite Hn, Hb. cbn. eauto.
Qed.

Lemma crosses_app d ts t : crosses d ts → crosses d (ts ++ [t]).
Proof. intros (x & ? & ?). exists x. set_solver. Qed.

Lemma crosses_last d ts t : StateTransition.to_status t = value d → crosses d (ts ++ [t]).
Proof. intros. exists t. set_solver. Qed.

(** If the states of [C] are only left through [d], a path from [C] to a
    state outside it crosses [d]. *)
Lemma path_crosses (C : S → bool) (d : S) allowed s0 ts s :
  C s0 = true →
  (∀ x y, C x = true → y ∈ allowed x → C y = true ∨ y = d) →
  path allowed s0 ts s → C s = true ∨ crosses d ts.
Proof.
  intros H0 Hedge. induction 1 as [|ts s t s' Hp IH Hfrom Hto Hin]; [by left|].
  destruct IH as [HC|Hd]; [|by right; apply crosses_app].
  destruct (Hedge s s' HC Hin) as [?| ->]; [by left | right; by apply crosses_last].
Qed.

(** Entering [d] is the last thing recorded, or [d] was left again. *)
Lemma path_terminal allowed s0 ts s d :
  allowed d = [] → path allowed s0 ts s → crosses d ts → s = d.
Proof.
  intros Hd. induction 1 as [|ts s t s' Hp IH Hfrom Hto Hin]; intros (x & Hx & Ex).
  - by apply elem_of_nil in Hx.
  - apply elem_of_app in Hx as [Hx|Hx%list_elem_of_singleton].
    + rewrite IH, Hd in Hin by (by exists x). by apply elem_of_nil in Hin.
    + subst. apply (inj value). congruence.
Qed.

Lemma path_last allowed s0 ts t s :
  path allowed s0 (ts ++ [t]) s → StateTransition.to_status t = value s.
Proof.
  remember (ts ++ [t]) as l eqn:E. destruct 1; [by destruct ts|].
  by apply app_inj_2 in E as [-> [= ->]].
Qed.
End transitions.

#[export] Hint Constructors path : py.
