(* ===== verification/Values.v ===== *)
(** * packages/domain: values.py

    The constrained values shared by the aggregates.  Each class is a Module:
    [t] its fields, [post_init] its [__post_init__], [new] the constructor
    call, which is also what [dataclasses.replace] runs.  The [isinstance]
    checks of the source are the types of the fields here. *)

From S2P Require Import Prelude PyStr PyDict PyFloat Json Sha256 Transitions.
From Stdlib Require Import ZArith.

Open Scope string_scope.
Open Scope list_scope.
Open Scope Z_scope.

Module RiskTier.
Inductive t := LOW | MEDIUM | HIGH | CRITICAL.
#[global] Instance t_eq_dec : EqDecision t.
Proof. solve_decision. Defined.
Definition value (x : t) : string :=
  match x with LOW => "low" | MEDIUM => "medium" | HIGH => "high" | CRITICAL => "critical" end.
End RiskTier.

Module BudgetUnit.
Inductive t := COST_UNITS | TOKENS | USD_MICROS.
#[global] Instance t_eq_dec : EqDecision t.
Proof. solve_decision. Defined.
Definition value (x : t) : string :=
  match x with COST_UNITS => "cost_units" | TOKENS => "tokens" | USD_MICROS => "usd_micros" end.
End BudgetUnit.

Module DataClassification.
Inductive t := PUBLIC | INTERNAL | CONFIDENTIAL | RESTRICTED.
#[global] Instance t_eq_dec : EqDecision t.
Proof. solve_decision. Defined.
Definition value (x : t) : string :=
  match x with
  | PUBLIC => "public" | INTERNAL => "internal"
  | CONFIDENTIAL => "confidential" | RESTRICTED => "restricted"
  end.
End DataClassification.

Module ExecutionMode.
Inductive t := AUTONOMOUS | SUPERVISED | HUMAN_ONLY | SHADOW.
#[global] Instance t_eq_dec : EqDecision t.
Proof. solve_decision. Defined.
Definition value (x : t) : string :=
  match x with
  | AUTONOMOUS => "autonomous" | SUPERVISED => "supervised"
  | HUMAN_ONLY => "human_only" | SHADOW => "shadow"
  end.
End ExecutionMode.

Module BudgetAmount.
Record t := mk { amount : Z; unit : BudgetUnit.t }.
#[global] Instance t_eq_dec : EqDecision t.
Proof. solve_decision. Defined.

Definition post_init (x : t) : res Datatypes.unit :=
  raise_if (amount x <? 0) ValueError "budget amount must be a non-negative integer".

Definition new (amount : Z) (unit : BudgetUnit.t) : res t :=
  let x := mk amount unit in post_init x ;; Ok x.
End BudgetAmount.

Module DataPolicy.
Record t := mk {
  maximum_classification : DataClassification.t;
  allowed_regions : list string;
  retention_days : Z
}.

Definition post_init (x : t) : res Datatypes.unit :=
  raise_if (retention_days x <=? 0) ValueError "data retention must be positive" ;;
  raise_if (any blank (allowed_regions x)) ValueError "data policy regions must not be empty" ;;
  raise_if (negb (unique (allowed_regions x))) ValueError "data policy regions must be unique".

Definition new (maximum_classification : DataClassification.t)
    (allowed_regions : list string) (retention_days : Z) : res t :=
  let x := mk maximum_classification allowed_regions retention_days in
  post_init x ;; Ok x.
End DataPolicy.

(** [_validate_json(value, depth=depth)] *)
Fixpoint validate_json (v : json) (depth : Z) : res unit :=
  raise_if (32 <? depth) ValueError "JSON value exceeds maximum nesting depth" ;;
  match v with
  | JNull | JStr _ | JBool _ | JInt _ => Ok tt
  | JFloat f => raise_if (negb (isfinite f)) ValueError "JSON numbers must be finite"
  | JList l =>
      (fix go l := match l with
                   | [] => Ok tt
                   | item :: l' => validate_json item (depth + 1) ;; go l'
                   end) l
  | JDict d =>
      (fix go d := match d with
                   | [] => Ok tt
                   | (key, item) :: d' =>
                       raise_if (empty key) ValueError
                         "JSON object keys must be non-empty strings" ;;
                       validate_json item (depth + 1) ;; go d'
                   end) d
  end.

Module JsonObject.
Record t := mk { canonical : string }.

#[global] Instance t_eq_dec : EqDecision t.
Proof. solve_decision. Defined.

(** [JsonObject(canonical)]: [__post_init__] replaces the text by its normal
    form. *)
Definition new (canonical : string) : res t :=
  parsed ← match loads canonical with
           | Some v => Ok v
           | None => raise ValueError "canonical JSON is invalid"
           end;
  match parsed with
  | JDict _ =>
      validate_json parsed 0 ;;
      let normalized := dumps canonical_style parsed in
      raise_if (1048576 <? Z.of_nat (length (utf8 normalized)))
        ValueError "JSON object exceeds one MiB" ;;
      Ok (mk normalized)
  | _ => raise ValueError "JSON value must be an object"
  end.

Definition from_value (value : list (string * json)) : res t :=
  validate_json (JDict value) 0 ;;
  new (dumps canonical_style (JDict value)).

Definition digest (x : t) : string := sha256_hex (canonical x).

Definition to_value (x : t) : res (list (string * json)) :=
  match loads (canonical x) with
  | Some (JDict d) => Ok d
  | Some _ => raise AssertionError "canonical JSON object decoded to a non-object"
  | None => raise ValueError "canonical JSON is invalid"
  end.
End JsonObject.

(** ** Enumerations as [StrEnum]s *)

#[export] Instance RiskTier_enum : StrEnum RiskTier.t.
Proof. refine {| value := RiskTier.value |}. solve_enum. Defined.
#[export] Instance BudgetUnit_enum : StrEnum BudgetUnit.t.
Proof. refine {| value := BudgetUnit.value |}. solve_enum. Defined.
#[export] Instance DataClassification_enum : StrEnum DataClassification.t.
Proof. refine {| value := DataClassification.value |}. solve_enum. Defined.
#[export] Instance ExecutionMode_enum : StrEnum ExecutionMode.t.
Proof. refine {| value := ExecutionMode.value |}. solve_enum. Defined.

(** ** JSON objects *)

(** The values [validate_json] accepts, as a predicate: everything at most 32
    levels deep, finite numbers and non-empty keys. *)
Fixpoint json_valid (v : json) (depth : Z) : Prop :=
  depth <= 32 ∧
  match v with
  | JFloat f => isfinite f = true
  | JList l => foldr (fun x P => json_valid x (depth + 1) ∧ P) True l
  | JDict d => foldr (fun kv P => kv.1 ≠ "" ∧ json_valid kv.2 (depth + 1) ∧ P) True d
  | _ => True
  end.

Lemma empty_false s : empty s = false ↔ s ≠ "".
Proof. apply bool_decide_eq_false. Qed.

Lemma validate_json_ok v depth u :
  validate_json v depth = Ok u ↔ json_valid v depth.
Proof.
  destruct u. revert depth.
  induction v as [|b|n|fl|s|l IH|d IH] using json_induction; intros depth;
    cbn [validate_json json_valid]; destruct (Z.ltb_spec 32 depth) as [Hd|Hd];
    cbn; try (split; [done | intros [? ?]; lia || done]); try (split; [split; [lia|done]|done]).
  - rewrite raise_if_ok, negb_false_iff. split; [split; [lia|done] | by intros [_ ?]].
  - match goal with |- _ ↔ _ ∧ ?P => transitivity P; [|split; [split; [lia|done]|by intros [_ ?]]] end.
    induction IH as [|x l Hx _ IHl]; cbn; [done|]. rewrite <- IHl, <- Hx.
    destruct (validate_json x (depth + 1)) as [[]|]; cbn; naive_solver.
  - match goal with |- _ ↔ _ ∧ ?P => transitivity P; [|split; [split; [lia|done]|by intros [_ ?]]] end.
    induction IH as [|[k x] d Hx _ IHd]; cbn in *; [done|].
    rewrite <- IHd, <- Hx, <- empty_false. destruct (empty k); cbn; [naive_solver|].
    destruct (validate_json x (depth + 1)) as [[]|]; cbn; naive_solver.
Qed.

Lemma validate_json_err v depth e :
  validate_json v depth = Err e → exn_class e = ValueError.
Proof.
  revert depth e.
  induction v as [|b|n|fl|s|l IH|d IH] using json_induction; intros depth e;
    cbn [validate_json]; destruct (32 <? depth); cbn; try (by intros [= <-]); try done.
  - by intros [_ ->]%raise_if_err.
  - induction IH as [|x l Hx _ IHl]; cbn; [done|].
    intros [H|(? & _ & H)]%bind_err; eauto.
  - induction IH as [|[k x] d Hx _ IHd]; cbn in *; [done|].
    intros [[_ ->]%raise_if_err|(? & _ & H)]%bind_err; [done|].
    apply bind_err in H as [H|(? & _ & H)]; eauto.
Qed.

Lemma json_valid_normalize v depth : json_valid v depth → json_valid (normalize v) depth.
Proof.
  revert depth.
  induction v as [|b|n|fl|s|l IH|d IH] using json_induction; intros depth; try done;
    cbn [json_valid normalize]; intros [Hd Hv]; (split; [done|]).
  - induction IH as [|x l Hx _ IHl]; cbn in *; [done|]. destruct Hv. eauto.
  - assert (∀ l, foldr (fun kv P => kv.1 ≠ "" ∧ json_valid kv.2 (depth + 1) ∧ P) True l ↔
      Forall (fun kv => kv.1 ≠ "" ∧ json_valid kv.2 (depth + 1)) l) as Hfold.
    { intros l. induction l as [|x l IHl]; cbn; [by split; constructor|].
      rewrite list.Forall_cons, IHl. naive_solver. }
    rewrite Hfold in Hv |- *. rewrite sort_items_perm.
    induction IH as [|x d Hx _ IHd]; cbn; [constructor|].
    inversion Hv as [|? ? [? ?] Hv']; subst. constructor; [split; [done|]|]; auto.
Qed.

(** A valid object with distinct keys: [from_value] builds it, the text is its
    canonical form, and [to_value] reads back the same dictionary with sorted
    keys. *)
Lemma from_value_ok d x :
  json_wf (JDict d) → JsonObject.from_value d = Ok x →
  json_valid (JDict d) 0 ∧ JsonObject.canonical x = dumps canonical_style (JDict d).
Proof.
  intros Hwf H. unfold JsonObject.from_value, JsonObject.new in H.
  rewrite loads_dumps in H by (done || apply canonical_style_ok).
  cbn [normalize] in H. inv_ok. apply validate_json_ok in Hx. split; [done|].
  cbn [JsonObject.canonical]. by rewrite <- (dumps_normalize _ (JDict d)).
Qed.

Lemma to_value_canonical x d :
  json_wf (JDict d) → JsonObject.canonical x = dumps canonical_style (JDict d) →
  JsonObject.to_value x = Ok (sort_items (List.map (fun kv => (kv.1, normalize kv.2)) d)).
Proof.
  intros Hwf H. unfold JsonObject.to_value. rewrite H, loads_dumps; [done|apply canonical_style_ok|done].
Qed.

#[export] Hint Resolve canonical_style_ok compact_style_ok default_style_ok : py.

Theorem json_object_round_trip d x :
  json_wf (JDict d) → JsonObject.from_value d = Ok x →
  ∃ d', JsonObject.to_value x = Ok d' ∧ JDict d' = normalize (JDict d) ∧
    dumps canonical_style (JDict d') = JsonObject.canonical x.
Proof.
  intros Hwf H. destruct (from_value_ok d x Hwf H) as [_ Hc].
  eexists. split; [by apply to_value_canonical|]. split; [done|].
  by rewrite Hc, <- (dumps_normalize _ (JDict d)).
Qed.

Lemma json_object_round_trip_witness : ∃ x d',
  JsonObject.from_value [("b", JInt 2); ("a", JList [JNull; JBool true])] = Ok x ∧
  JsonObject.to_value x = Ok d' ∧ d'.*1 = ["a"; "b"].
Proof.
  assert (H : ∃ x, JsonObject.from_value [("b", JInt 2); ("a", JList [JNull; JBool true])] = Ok x)
    by (eexists; vm_compute; reflexivity).
  destruct H as (x & H). exists x.
  destruct (json_object_round_trip [("b", JInt 2); ("a", JList [JNull; JBool true])] x)
    as (d' & H1 & H2 & _); [|exact H|].
  - apply json_wf_dict. split; [apply (bool_decide_unpack _); vm_compute; exact I|].
    repeat constructor.
  - exists d'. split; [exact H|]. split; [exact H1|]. injection H2 as ->. reflexivity.
Defined.
