(* ===== verification/Goals.v ===== *)
(** * packages/domain: goals.py

    Goals, sessions, runs and the execution snapshot a run is bound to.  A
    method that reads the clock takes the reading as [now]; [occurred_at] is
    the optional argument of the source. *)

From S2P Require Import Prelude PyStr PyDict Json Sha256 Transitions Values.
From Stdlib Require Import ZArith.

Open Scope string_scope.
Open Scope list_scope.
Open Scope Z_scope.

Module GoalStatus.
Inductive t := DRAFT | ACTIVE | PAUSED | SATISFIED | FAILED | CANCELLED.
#[global] Instance t_eq_dec : EqDecision t.
Proof. solve_decision. Defined.
Definition value (x : t) : string :=
  match x with
  | DRAFT => "draft" | ACTIVE => "active" | PAUSED => "paused"
  | SATISFIED => "satisfied" | FAILED => "failed" | CANCELLED => "cancelled"
  end.
End GoalStatus.

Module SessionStatus.
Inductive t := OPEN | CLOSED.
#[global] Instance t_eq_dec : EqDecision t.
Proof. solve_decision. Defined.
End SessionStatus.

Module RunStatus.
Inductive t :=
  | PENDING | RUNNING | BLOCKED | AWAITING_EVIDENCE | SUCCEEDED | FAILED | CANCELLED.
#[global] Instance t_eq_dec : EqDecision t.
Proof. solve_decision. Defined.
Definition value (x : t) : string :=
  match x with
  | PENDING => "pending" | RUNNING => "running" | BLOCKED => "blocked"
  | AWAITING_EVIDENCE => "awaiting_evidence" | SUCCEEDED => "succeeded"
  | FAILED => "failed" | CANCELLED => "cancelled"
  end.
End RunStatus.

#[export] Instance GoalStatus_enum : StrEnum GoalStatus.t.
Proof. refine {| value := GoalStatus.value |}. solve_enum. Defined.
#[export] Instance RunStatus_enum : StrEnum RunStatus.t.
Proof. refine {| value := RunStatus.value |}. solve_enum. Defined.

Definition GOAL_TRANSITIONS (s : GoalStatus.t) : list GoalStatus.t :=
  match s with
  | GoalStatus.DRAFT => [GoalStatus.ACTIVE; GoalStatus.CANCELLED]
  | GoalStatus.ACTIVE =>
      [GoalStatus.PAUSED; GoalStatus.SATISFIED; GoalStatus.FAILED; GoalStatus.CANCELLED]
  | GoalStatus.PAUSED => [GoalStatus.ACTIVE; GoalStatus.FAILED; GoalStatus.CANCELLED]
  | _ => []
  end.

Definition RUN_TRANSITIONS (s : RunStatus.t) : list RunStatus.t :=
  match s with
  | RunStatus.PENDING => [RunStatus.RUNNING; RunStatus.CANCELLED]
  | RunStatus.RUNNING =>
      [RunStatus.BLOCKED; RunStatus.AWAITING_EVIDENCE; RunStatus.SUCCEEDED;
       RunStatus.FAILED; RunStatus.CANCELLED]
  | RunStatus.BLOCKED => [RunStatus.RUNNING; RunStatus.FAILED; RunStatus.CANCELLED]
  | RunStatus.AWAITING_EVIDENCE =>
      [RunStatus.SUCCEEDED; RunStatus.FAILED; RunStatus.CANCELLED]
  | _ => []
  end.

Module SubjectRef.
Record t := mk {
  system : string; subject_type : string; subject_id : string; version : option string
}.
#[global] Instance t_eq_dec : EqDecision t.
Proof. solve_decision. Defined.

Definition new (system subject_type subject_id : string) (version : option string) : res t :=
  raise_if (any blank [system; subject_type; subject_id]) ValueError
    "subject system, type, and id must not be empty" ;;
  Ok (mk system subject_type subject_id version).
End SubjectRef.

Module SuccessCriterion.
Record t := mk { criterion_id : string; description : string; evidence_type : string }.

Definition new (criterion_id description evidence_type : string) : res t :=
  raise_if (any blank [criterion_id; description; evidence_type]) ValueError
    "success criterion fields must not be empty" ;;
  Ok (mk criterion_id description evidence_type).
End SuccessCriterion.

Module GoalContract.
Record t := mk {
  tenant_id : uuid;
  goal_type : string;
  statement : string;
  desired_outcome : string;
  subject_refs : list SubjectRef.t;
  success_criteria : list SuccessCriterion.t;
  constraints : list string;
  owner_id : uuid;
  risk_tier : RiskTier.t;
  budget_limit : BudgetAmount.t;
  deadline : datetime;
  input_payload : JsonObject.t;
  delegation_id : option uuid;
  data_policy : DataPolicy.t;
  execution_mode : ExecutionMode.t;
  max_concurrent_runs : Z;
  goal_id : uuid;
  version : Z;
  status : GoalStatus.t;
  created_at : datetime;
  transitions : list StateTransition.t
}.

#[global] Instance eta : Settable t := fun x =>
  mk (tenant_id x) (goal_type x) (statement x) (desired_outcome x) (subject_refs x)
     (success_criteria x) (constraints x) (owner_id x) (risk_tier x) (budget_limit x)
     (deadline x) (input_payload x) (delegation_id x) (data_policy x) (execution_mode x)
     (max_concurrent_runs x) (goal_id x) (version x) (status x) (created_at x) (transitions x).

Definition post_init (g : t) : res unit :=
  raise_if (any blank [goal_type g; statement g; desired_outcome g]) ValueError
    "goal type, statement, and desired outcome must not be empty" ;;
  raise_if (bool_decide (subject_refs g = []) || bool_decide (length (success_criteria g) = 0%nat))
    ValueError "goal requires subjects and success criteria" ;;
  raise_if (BudgetAmount.amount (budget_limit g) <=? 0) ValueError
    "goal budget must be positive" ;;
  raise_if (max_concurrent_runs g <=? 0) ValueError
    "goal concurrent run limit must be positive" ;;
  raise_if (version g <? 1) ValueError "goal version must be positive" ;;
  raise_if (is_naive (deadline g) || is_naive (created_at g)) ValueError
    "goal timestamps must be timezone-aware" ;;
  late ← dt_le (deadline g) (created_at g);
  raise_if late ValueError "goal deadline must be after creation".

Definition new (g : t) : res t := post_init g ;; Ok g.

Definition transition_to (g : t) (target : GoalStatus.t) (actor_id : uuid) (reason : string)
    (occurred_at : option datetime) (now : datetime) : res t :=
  require_transition (status g) target GOAL_TRANSITIONS ;;
  let at_ := default now occurred_at in
  expired ← (if decide (target = GoalStatus.ACTIVE) then dt_ge at_ (deadline g) else Ok false);
  raise_if expired ValueError "expired goal cannot be activated" ;;
  transition ← transition_record (status g) target actor_id reason (Some at_) now;
  new (g <| status := target |> <| version := version g + 1 |>
         <| transitions := transitions g ++ [transition] |>).

Definition assert_run_request_allowed (g : t) (active_run_count : Z)
    (at_ : option datetime) (now : datetime) : res unit :=
  let now := default now at_ in
  raise_if (negb (bool_decide (status g = GoalStatus.ACTIVE))) ValueError
    "run requires an active goal" ;;
  expired ← dt_ge now (deadline g);
  raise_if expired ValueError "run cannot be requested for an expired goal" ;;
  raise_if (max_concurrent_runs g <=? active_run_count) ValueError
    "goal concurrent run limit reached".
End GoalContract.

Module Session.
Record t := mk {
  tenant_id : uuid; actor_id : uuid; channel : string; goal_ids : list uuid;
  session_id : uuid; status : SessionStatus.t; created_at : datetime
}.

Definition close (s : t) : t :=
  if decide (status s = SessionStatus.CLOSED) then s
  else mk (tenant_id s) (actor_id s) (channel s) (goal_ids s) (session_id s)
          SessionStatus.CLOSED (created_at s).
End Session.

Module RunExecutionSnapshot.
Record t := mk {
  plan_id : uuid;
  context_snapshot_id : uuid;
  agent_version_id : uuid;
  skill_versions : list string;
  tool_versions : list string;
  model_route : string;
  policy_version : string
}.
#[global] Instance t_eq_dec : EqDecision t.
Proof. solve_decision. Defined.

(** [name@version] with something besides the at sign. *)
Definition bad_reference (version : string) : bool :=
  negb (contains "@" version) || only_char "@" version.

Definition check_versions (versions : list string) (label : string) : res unit :=
  raise_if (any bad_reference versions) ValueError
    ("run " +:+ label +:+ " versions must use immutable name@version references") ;;
  raise_if (negb (unique versions)) ValueError
    ("run " +:+ label +:+ " versions must be unique").

Definition post_init (s : t) : res unit :=
  raise_if (blank (model_route s) || blank (policy_version s)) ValueError
    "run model route and policy version must not be empty" ;;
  check_versions (skill_versions s) "skill" ;;
  check_versions (tool_versions s) "tool".

Definition new (s : t) : res t := post_init s ;; Ok s.
End RunExecutionSnapshot.

Module Run.
Record t := mk {
  tenant_id : uuid;
  goal_id : uuid;
  agent_version_id : uuid;
  execution_snapshot : option RunExecutionSnapshot.t;
  run_id : uuid;
  status : RunStatus.t;
  optimistic_version : Z;
  created_at : datetime;
  transitions : list StateTransition.t;
  deployment_id : option uuid
}.

#[global] Instance eta : Settable t := fun x =>
  mk (tenant_id x) (goal_id x) (agent_version_id x) (execution_snapshot x) (run_id x)
     (status x) (optimistic_version x) (created_at x) (transitions x) (deployment_id x).

Definition post_init (r : t) : res unit :=
  raise_if (is_naive (created_at r)) ValueError "run creation timestamp must be timezone-aware" ;;
  raise_if (optimistic_version r <? 1) ValueError "run optimistic version must be positive".

Definition new (r : t) : res t := post_init r ;; Ok r.

Definition bind_execution (r : t) (snapshot : RunExecutionSnapshot.t) : res t :=
  raise_if (negb (bool_decide (status r = RunStatus.PENDING))) ValueError
    "execution snapshot can only be bound while run is pending" ;;
  raise_if (match execution_snapshot r with
            | Some s => negb (bool_decide (s = snapshot))
            | None => false
            end) ValueError "run execution snapshot is immutable once bound" ;;
  raise_if (negb (bool_decide
      (RunExecutionSnapshot.agent_version_id snapshot = agent_version_id r))) ValueError
    "run and snapshot agent versions must match" ;;
  new (r <| execution_snapshot := Some snapshot |>).

Definition transition_to (r : t) (target : RunStatus.t) (actor_id : uuid) (reason : string)
    (occurred_at : option datetime) (now : datetime) : res t :=
  require_transition (status r) target RUN_TRANSITIONS ;;
  raise_if (bool_decide (target = RunStatus.RUNNING) && is_none (execution_snapshot r))
    ValueError "run requires a fixed execution snapshot before starting" ;;
  transition ← transition_record (status r) target actor_id reason occurred_at now;
  new (r <| status := target |> <| optimistic_version := optimistic_version r + 1 |>
         <| transitions := transitions r ++ [transition] |>).
End Run.
