(* ===== verification/Execution.v ===== *)
(** * packages/domain: execution.py, tasks and plans

    The statuses of execution objects, [Task], and [Plan] with the depth-first
    search that rejects cyclic task graphs.  The search runs with fuel: one
    more than the number of tasks, which [visit_all_spec] and [plan_accepts_exactly_valid] prove enough. *)

From stdpp Require Import relations.
From S2P Require Import Prelude PyStr PyDict Json Sha256 Transitions Values Goals.
From Stdlib Require Import ZArith.

Open Scope string_scope.
Open Scope list_scope.
Open Scope Z_scope.

Module TaskStatus.
Inductive t := PENDING | READY | RUNNING | BLOCKED | SUCCEEDED | FAILED.
#[global] Instance t_eq_dec : EqDecision t.
Proof. solve_decision. Defined.
Definition value (x : t) : string :=
  match x with
  | PENDING => "pending" | READY => "ready" | RUNNING => "running"
  | BLOCKED => "blocked" | SUCCEEDED => "succeeded" | FAILED => "failed"
  end.
End TaskStatus.

Module RiskLevel.
Inductive t :=
  | L0_COMPUTE | L1_READ | L2_REVERSIBLE_WRITE | L3_HIGH_IMPACT_WRITE | L4_PRIVILEGED.
#[global] Instance t_eq_dec : EqDecision t.
Proof. solve_decision. Defined.
Definition value (x : t) : string :=
  match x with
  | L0_COMPUTE => "l0_compute" | L1_READ => "l1_read"
  | L2_REVERSIBLE_WRITE => "l2_reversible_write"
  | L3_HIGH_IMPACT_WRITE => "l3_high_impact_write" | L4_PRIVILEGED => "l4_privileged"
  end.
End RiskLevel.

Module ActionStatus.
Inductive t :=
  | PROPOSED | AWAITING_APPROVAL | AUTHORIZED | EXECUTING | SUCCEEDED | FAILED
  | DENIED | UNKNOWN.
#[global] Instance t_eq_dec : EqDecision t.
Proof. solve_decision. Defined.
Definition value (x : t) : string :=
  match x with
  | PROPOSED => "proposed" | AWAITING_APPROVAL => "awaiting_approval"
  | AUTHORIZED => "authorized" | EXECUTING => "executing" | SUCCEEDED => "succeeded"
  | FAILED => "failed" | DENIED => "denied" | UNKNOWN => "unknown"
  end.
End ActionStatus.

Module ActionAttemptStatus.
Inductive t := STARTED | SUCCEEDED | FAILED | UNKNOWN.
#[global] Instance t_eq_dec : EqDecision t.
Proof. solve_decision. Defined.
End ActionAttemptStatus.

Module DecisionKind.
Inductive t := EXECUTE | APPROVE | REJECT | ESCALATE | REPLAN.
End DecisionKind.

Module OutcomeStatus.
Inductive t := VERIFIED | NOT_MET | UNKNOWN.
#[global] Instance t_eq_dec : EqDecision t.
Proof. solve_decision. Defined.
Definition value (x : t) : string :=
  match x with VERIFIED => "verified" | NOT_MET => "not_met" | UNKNOWN => "unknown" end.
End OutcomeStatus.

Module ApprovalStatus.
Inductive t := PENDING | APPROVED | REJECTED | EXPIRED.
#[global] Instance t_eq_dec : EqDecision t.
Proof. solve_decision. Defined.
Definition value (x : t) : string :=
  match x with
  | PENDING => "pending" | APPROVED => "approved"
  | REJECTED => "rejected" | EXPIRED => "expired"
  end.
End ApprovalStatus.

Module CompensationCapability.
Inductive t := NONE | AVAILABLE | REQUIRED.
End CompensationCapability.

Module EvidenceCaptureMethod.
Inductive t := AUTHORITATIVE_READBACK | SIGNED_EVENT | SYSTEM_QUERY | HUMAN_ATTESTATION.
#[global] Instance t_eq_dec : EqDecision t.
Proof. solve_decision. Defined.
End EvidenceCaptureMethod.

Module EvidenceIntegrity.
Inductive t := VERIFIED | UNVERIFIED | INVALID.
#[global] Instance t_eq_dec : EqDecision t.
Proof. solve_decision. Defined.
End EvidenceIntegrity.

#[export] Instance TaskStatus_enum : StrEnum TaskStatus.t.
Proof. refine {| value := TaskStatus.value |}. solve_enum. Defined.
#[export] Instance RiskLevel_enum : StrEnum RiskLevel.t.
Proof. refine {| value := RiskLevel.value |}. solve_enum. Defined.
#[export] Instance ActionStatus_enum : StrEnum ActionStatus.t.
Proof. refine {| value := ActionStatus.value |}. solve_enum. Defined.
#[export] Instance OutcomeStatus_enum : StrEnum OutcomeStatus.t.
Proof. refine {| value := OutcomeStatus.value |}. solve_enum. Defined.
#[export] Instance ApprovalStatus_enum : StrEnum ApprovalStatus.t.
Proof. refine {| value := ApprovalStatus.value |}. solve_enum. Defined.

Definition TASK_TRANSITIONS (s : TaskStatus.t) : list TaskStatus.t :=
  match s with
  | TaskStatus.PENDING => [TaskStatus.READY; TaskStatus.BLOCKED]
  | TaskStatus.READY => [TaskStatus.RUNNING; TaskStatus.BLOCKED]
  | TaskStatus.RUNNING => [TaskStatus.BLOCKED; TaskStatus.SUCCEEDED; TaskStatus.FAILED]
  | TaskStatus.BLOCKED => [TaskStatus.READY; TaskStatus.FAILED]
  | _ => []
  end.

Definition ACTION_TRANSITIONS (s : ActionStatus.t) : list ActionStatus.t :=
  match s with
  | ActionStatus.PROPOSED =>
      [ActionStatus.AWAITING_APPROVAL; ActionStatus.AUTHORIZED; ActionStatus.DENIED]
  | ActionStatus.AWAITING_APPROVAL => [ActionStatus.AUTHORIZED; ActionStatus.DENIED]
  | ActionStatus.AUTHORIZED => [ActionStatus.EXECUTING]
  | ActionStatus.EXECUTING =>
      [ActionStatus.SUCCEEDED; ActionStatus.FAILED; ActionStatus.UNKNOWN]
  | ActionStatus.UNKNOWN => [ActionStatus.SUCCEEDED; ActionStatus.FAILED]
  | _ => []
  end.

(** [risk_level in {L2, L3, L4}]: the test written out in [Task],
    [authorize_action_at_execution_time] and [_WRITE_RISKS]. *)
Definition is_write_risk (r : RiskLevel.t) : bool :=
  mem r [RiskLevel.L2_REVERSIBLE_WRITE; RiskLevel.L3_HIGH_IMPACT_WRITE;
         RiskLevel.L4_PRIVILEGED].

Module Task.
Record t := mk {
  tenant_id : uuid;
  run_id : uuid;
  name : string;
  completion_criterion : string;
  depends_on : list uuid;
  preconditions : list string;
  estimated_cost : BudgetAmount.t;
  risk_level : RiskLevel.t;
  compensation : CompensationCapability.t;
  evidence_requirements : list string;
  task_id : uuid;
  status : TaskStatus.t;
  optimistic_version : Z;
  transitions : list StateTransition.t
}.

#[global] Instance eta : Settable t := fun x =>
  mk (tenant_id x) (run_id x) (name x) (completion_criterion x) (depends_on x)
     (preconditions x) (estimated_cost x) (risk_level x) (compensation x)
     (evidence_requirements x) (task_id x) (status x) (optimistic_version x) (transitions x).

Definition post_init (x : t) : res unit :=
  raise_if (blank (name x) || blank (completion_criterion x)) ValueError
    "task name and completion criterion must not be empty" ;;
  raise_if (mem (task_id x) (depends_on x)) ValueError "task cannot depend on itself" ;;
  raise_if (any blank (preconditions x ++ evidence_requirements x)) ValueError
    "task preconditions and evidence requirements must not be empty" ;;
  raise_if (is_write_risk (risk_level x) && bool_decide (evidence_requirements x = []))
    ValueError "write task requires evidence requirements" ;;
  raise_if (optimistic_version x <? 1) ValueError "task optimistic version must be positive".

Definition new (x : t) : res t := post_init x ;; Ok x.

Definition transition_to (x : t) (target : TaskStatus.t) (actor_id : uuid) (reason : string)
    (occurred_at : option datetime) (now : datetime) : res t :=
  require_transition (status x) target TASK_TRANSITIONS ;;
  transition ← transition_record (status x) target actor_id reason occurred_at now;
  new (x <| status := target |> <| optimistic_version := optimistic_version x + 1 |>
         <| transitions := transitions x ++ [transition] |>).
End Task.

(** The two sets [visit] closes over. *)
Record dfs := Dfs { visiting : list uuid; visited : list uuid }.

(** The local function [visit] of [Plan.__post_init__]. *)
Fixpoint visit (fuel : nat) (dependencies : dict uuid (list uuid)) (task_id : uuid) (s : dfs)
    : res dfs :=
  match fuel with
  | O => raise RuntimeError "maximum recursion depth exceeded"
  | S f =>
      if mem task_id (visiting s) then
        raise ValueError "plan task graph must not contain a cycle"
      else if mem task_id (visited s) then Ok s
      else
        deps ← match dependencies !! task_id with
               | Some deps => Ok deps
               | None => raise KeyError (uuid_str task_id)
               end;
        s' ← (fix go (deps : list uuid) (s : dfs) : res dfs :=
                match deps with
                | [] => Ok s
                | dependency :: deps' => s' ← visit f dependencies dependency s; go deps' s'
                end) deps (Dfs (task_id :: visiting s) (visited s));
        Ok (Dfs (list_difference (visiting s') [task_id]) (task_id :: visited s'))
  end.

(** [for task_id in task_ids: visit(task_id)] *)
Fixpoint visit_all (fuel : nat) (dependencies : dict uuid (list uuid)) (task_ids : list uuid)
    (s : dfs) : res dfs :=
  match task_ids with
  | [] => Ok s
  | task_id :: task_ids' =>
      s' ← visit fuel dependencies task_id s; visit_all fuel dependencies task_ids' s'
  end.

Module Plan.
Record t := mk {
  tenant_id : uuid;
  goal_id : uuid;
  run_id : uuid;
  tasks : list Task.t;
  version : Z;
  plan_id : uuid
}.

Definition task_ids (p : t) : list uuid := Task.task_id <$> tasks p.

(** [{task.task_id: task.depends_on for task in self.tasks}] *)
Definition dependencies (p : t) : dict uuid (list uuid) :=
  dict_of_list ((fun task => (Task.task_id task, Task.depends_on task)) <$> tasks p).

Definition check_task (p : t) (task : Task.t) : res unit :=
  raise_if (negb (bool_decide (Task.tenant_id task = tenant_id p)) ||
            negb (bool_decide (Task.run_id task = run_id p))) ValueError
    "plan tasks must share tenant_id and run_id" ;;
  raise_if (negb (subset_of (Task.depends_on task) (task_ids p))) ValueError
    "task dependency must exist in the same plan".

Definition check_acyclic (p : t) : res unit :=
  visit_all (S (length (tasks p))) (dependencies p) (task_ids p) (Dfs [] []) ;; Ok tt.

Definition post_init (p : t) : res unit :=
  raise_if (version p <? 1) ValueError "plan version must be positive" ;;
  raise_if (bool_decide (length (tasks p) = 0%nat)) ValueError
    "plan must contain at least one task" ;;
  raise_if (negb (unique (task_ids p))) ValueError "plan task ids must be unique" ;;
  for_each (check_task p) (tasks p) ;;
  check_acyclic p.

Definition new (p : t) : res t := post_init p ;; Ok p.
End Plan.

(** * The plan's cycle check is correct and terminates

    [visit] keeps the tasks on the current path in [visiting] and finished
    tasks in [visited].  Finished tasks form a topological order ([topo]), so a
    run that ends without an exception proves the graph acyclic; a task on the
    path reaches the task being visited, so the exception is raised only on a
    cycle; and the path is duplicate-free, so fuel above the number of tasks
    never runs out. *)

Open Scope string_scope.
Open Scope list_scope.

Definition cycle_error : exn := Exn ValueError "plan task graph must not contain a cycle".

Section graph.
Context (D : dict uuid (list uuid)).

(** [y] is a dependency of [x]. *)
Definition dep (x y : uuid) : Prop := ∃ deps, D !! x = Some deps ∧ y ∈ deps.

Definition acyclic : Prop := ∀ x, ¬ tc dep x x.

(** Every dependency is a task of the plan. *)
Definition closed : Prop := ∀ x y, dep x y → is_Some (D !! y).

(** Most recently finished first: dependencies come later in the list. *)
Fixpoint topo (l : list uuid) : Prop :=
  match l with
  | [] => True
  | x :: l' => x ∉ l' ∧ (∀ y, dep x y → y ∈ l') ∧ topo l'
  end.

Lemma topo_closed l x y : topo l → x ∈ l → dep x y → y ∈ l.
Proof.
  induction l as [|z l IH]; intros Ht Hx Hd; [set_solver|].
  destruct Ht as (_ & Hz & Ht). apply elem_of_cons in Hx as [->|Hx]; right; eauto.
Qed.

Lemma topo_tc l x y : topo l → x ∈ l → tc dep x y → y ∈ l.
Proof. intros Ht Hx Htc. revert Hx. induction Htc; eauto using topo_closed. Qed.

Lemma topo_no_cycle l x : topo l → x ∈ l → ¬ tc dep x x.
Proof.
  induction l as [|z l IH]; intros Ht Hx Hc; [set_solver|].
  destruct Ht as (Hn & Hz & Ht).
  apply elem_of_cons in Hx as [->|Hx]; [|by apply (IH Ht Hx)].
  inversion Hc as [? ? Hd|? w ? Hd Htc]; subst.
  - apply Hn, Hz, Hd.
  - apply Hn. eapply topo_tc; eauto.
Qed.

(** Finished tasks are in topological order and off the current path. *)
Definition dfs_ok (s : dfs) : Prop :=
  topo (visited s) ∧ ∀ x, x ∈ visiting s → x ∉ visited s.

(** What a successful visit of [xs] does to the two sets. *)
Definition extends (xs : list uuid) (s s' : dfs) : Prop :=
  visiting s' = visiting s ∧ visited s ⊆ visited s' ∧ xs ⊆ visited s' ∧ dfs_ok s'.

(** The body of the recursion over a dependency list. *)
Fixpoint visit_deps (f : nat) (deps : list uuid) (s : dfs) : res dfs :=
  match deps with
  | [] => Ok s
  | d :: deps' => s' ← visit f D d s; visit_deps f deps' s'
  end.

Lemma visit_unfold f x s :
  visit (S f) D x s =
  if mem x (visiting s) then Err cycle_error
  else if mem x (visited s) then Ok s
  else
    deps ← match D !! x with Some deps => Ok deps | None => raise KeyError (uuid_str x) end;
    s' ← visit_deps f deps (Dfs (x :: visiting s) (visited s));
    Ok (Dfs (list_difference (visiting s') [x]) (x :: visited s')).
Proof.
  cbn [visit]. destruct (mem x (visiting s)), (mem x (visited s)); try done.
  destruct (D !! x) as [deps|]; [|done]. cbn [mbind res_bind].
  match goal with |- (?a ≫= _) = (?b ≫= _) => enough (a = b) as -> by done end.
  generalize (Dfs (x :: visiting s) (visited s)). clear.
  induction deps as [|d deps IH]; intros s; cbn; [done|].
  destruct (visit f D d s); cbn; auto.
Qed.

Lemma visit_all_deps f l s : visit_all f D l s = visit_deps f l s.
Proof.
  revert s. induction l as [|x l IH]; intros s; cbn; [done|].
  destruct (visit f D x s); cbn; auto.
Qed.

Lemma list_difference_head x (l : list uuid) :
  x ∉ l → list_difference (x :: l) [x] = l.
Proof.
  intros Hx. cbn. destruct (decide_rel _ x [x]) as [_|Hn]; [|destruct Hn; left].
  induction l as [|y l IH]; cbn; [done|].
  destruct (decide_rel _ y [x]) as [Hy|_]; [set_solver|]. rewrite IH by set_solver. done.
Qed.

Lemma visit_deps_sound f (IH : ∀ x s s', dfs_ok s → visit f D x s = Ok s' → extends [x] s s') :
  ∀ deps s s', dfs_ok s → visit_deps f deps s = Ok s' → extends deps s s'.
Proof.
  induction deps as [|d deps IHd]; intros s s' Hs H; cbn in H.
  - inv_ok. repeat split; [set_solver..|apply Hs|apply Hs].
  - inv_ok. apply IH in Hx as (E1 & E2 & E3 & E4); [|done].
    apply IHd in H as (F1 & F2 & F3 & F4); [|done].
    split_and!; [congruence|set_solver|set_solver|done].
Qed.

Lemma visit_sound f x s s' : dfs_ok s → visit f D x s = Ok s' → extends [x] s s'.
Proof.
  revert x s s'. induction f as [|f IH]; intros x s s' Hs H; [done|].
  rewrite visit_unfold in H.
  destruct (mem x (visiting s)) eqn:Hv; [done|]. apply mem_false in Hv.
  destruct (mem x (visited s)) eqn:Hd.
  { apply mem_true in Hd. inv_ok. split_and!; [done|set_solver..|done]. }
  apply mem_false in Hd.
  destruct (D !! x) as [deps|] eqn:Ex; [|done]. cbn [mbind res_bind] in H. inv_ok.
  apply (visit_deps_sound f IH) in Hx as (E1 & E2 & E3 & [Ht Hdis]); cycle 1.
  { destruct Hs as [? Hs]. split; [done|]. cbn. intros y [->|?]%elem_of_cons; auto. }
  cbn in E1, E2. unfold extends, dfs_ok; cbn. rewrite E1, list_difference_head by done.
  rewrite E1 in Hdis. assert (x ∉ visited x0) by (apply Hdis; left).
  split; [done|]. split; [set_solver|]. split; [set_solver|]. split; [|intros y Hy; set_solver].
  cbn. split; [done|]. split; [|done]. intros y (deps' & E & Hy). set_solver.
Qed.

(** ** No spurious failure *)

(** Each task on the path reaches the next visited one, tasks on the path are
    distinct tasks of the plan. *)
Definition on_path (x : uuid) (s : dfs) : Prop :=
  NoDup (visiting s) ∧ visiting s ⊆ keys D ∧ ∀ v, v ∈ visiting s → tc dep v x.

(** A visit that fails, fails on a cycle. *)
Definition fails_on_cycle {A} (r : res A) : Prop :=
  match r with Ok _ => True | Err e => e = cycle_error ∧ ∃ x, tc dep x x end.

Lemma keys_lookup x : x ∈ keys D ↔ is_Some (D !! x).
Proof.
  unfold keys, lookup, dict_lookup. induction (items D) as [|[k v] l IH]; cbn.
  - split; [by intros ?%elem_of_nil|by intros [? ?]].
  - rewrite elem_of_cons, IH. case_decide; subst; [naive_solver|naive_solver].
Qed.

Lemma visit_complete f x s :
  closed → is_Some (D !! x) → dfs_ok s → on_path x s →
  (length (keys D) + 1 ≤ f + length (visiting s))%nat →
  fails_on_cycle (visit f D x s).
Proof.
  intros Hcl. revert x s. induction f as [|f IH]; intros x s Hx Hs (Hnd & Hsub & Hreach) Hf.
  { pose proof (submseteq_length _ _ (NoDup_submseteq _ _ Hnd Hsub)). lia. }
  rewrite visit_unfold.
  destruct (mem x (visiting s)) eqn:Hv.
  { apply mem_true in Hv. cbn. eauto. }
  apply mem_false in Hv. destruct (mem x (visited s)) eqn:Hd; [done|]. apply mem_false in Hd.
  destruct Hx as [deps Ex]. rewrite Ex. cbn [mbind res_bind].
  assert (Hdeps : ∀ l s', l ⊆ deps → dfs_ok s' → visiting s' = x :: visiting s →
    fails_on_cycle (visit_deps f l s')).
  { induction l as [|d l IHl]; intros s' Hl Hs' Ev; [done|]. cbn [visit_deps].
    assert (Hxd : dep x d) by (exists deps; set_solver).
    assert (Hfd : fails_on_cycle (visit f D d s')).
    { apply IH; [by eapply Hcl|done| |rewrite Ev; cbn; lia].
      unfold on_path. rewrite Ev. split_and!.
      - by constructor.
      - intros y [->|?]%elem_of_cons; [apply keys_lookup; eauto | auto].
      - intros v [->|Hv']%elem_of_cons; [by apply tc_once|].
        eapply tc_transitive; [by apply Hreach | by apply tc_once]. }
    destruct (visit f D d s') as [s''|e] eqn:Ed; [|done]. cbn [mbind res_bind].
    apply visit_sound in Ed as (E1 & _ & _ & Hs''); [|done].
    apply IHl; [set_solver|done|congruence]. }
  specialize (Hdeps deps (Dfs (x :: visiting s) (visited s))).
  destruct (visit_deps f deps _) as [s'|e]; [done|]. cbn. apply Hdeps; [done| |done].
  destruct Hs as [? Hs]. split; [done|]. cbn. intros y [->|?]%elem_of_cons; auto.
Qed.

Lemma visit_all_complete f l s :
  closed → l ⊆ keys D → dfs_ok s → visiting s = [] → (length (keys D) < f)%nat →
  fails_on_cycle (visit_all f D l s).
Proof.
  intros Hcl. revert s. induction l as [|x l IH]; intros s Hl Hs Ev Hf; [done|].
  cbn [visit_all].
  assert (Hx : fails_on_cycle (visit f D x s)).
  { apply visit_complete; [done| |done| |rewrite Ev; cbn; lia].
    - apply keys_lookup. set_solver.
    - unfold on_path. rewrite Ev. split_and!; [constructor|set_solver..]. }
  destruct (visit f D x s) as [s'|e] eqn:E; [|done]. cbn [mbind res_bind].
  apply visit_sound in E as (E1 & _ & _ & Hs'); [|done].
  apply IH; [set_solver|done|congruence|done].
Qed.

(** The whole loop: it always ends with a verdict, and the verdict is right. *)
Lemma visit_all_spec f l :
  closed → l ≡ₚ keys D → (length (keys D) < f)%nat →
  (acyclic ∧ ∃ s, visit_all f D l (Dfs [] []) = Ok s) ∨
  (¬ acyclic ∧ visit_all f D l (Dfs [] []) = Err cycle_error).
Proof.
  intros Hcl Hl Hf.
  pose proof (visit_all_complete f l (Dfs [] []) Hcl) as Hc.
  destruct (visit_all f D l (Dfs [] [])) as [s|e] eqn:E.
  - left. split; [|eauto]. rewrite visit_all_deps in E.
    apply (visit_deps_sound f (visit_sound f)) in E as (_ & _ & Hin & [Ht _]); cycle 1.
    { by split; [|intros ? ?%elem_of_nil]. }
    intros x Hx. apply (topo_no_cycle (visited s) x); [done| |done].
    apply Hin. rewrite Hl. apply keys_lookup.
    inversion Hx as [? ? (? & ? & _)|? ? ? (? & ? & _) _]; subst; eauto.
  - right. destruct Hc as [-> [x Hx]]; [by rewrite Hl| | |done|].
    + by split; [|intros ? ?%elem_of_nil].
    + done.
    + split; [|done]. intros Ha. by apply (Ha x).
Qed.
End graph.

(** ** The validity of a plan *)

(** The dependency relation among the tasks of a plan. *)
Definition task_dep (tasks : list Task.t) (x y : uuid) : Prop :=
  ∃ task, task ∈ tasks ∧ Task.task_id task = x ∧ y ∈ Task.depends_on task.

(** What [Plan.__post_init__] is meant to guarantee. *)
Record plan_valid (p : Plan.t) : Prop := {
  pv_version : (1 ≤ Plan.version p)%Z;
  pv_nonempty : Plan.tasks p ≠ [];
  pv_unique : NoDup (Plan.task_ids p);
  pv_owner : ∀ task, task ∈ Plan.tasks p →
    Task.tenant_id task = Plan.tenant_id p ∧ Task.run_id task = Plan.run_id p;
  pv_closed : ∀ x y, task_dep (Plan.tasks p) x y → y ∈ Plan.task_ids p;
  pv_acyclic : ∀ x, ¬ tc (task_dep (Plan.tasks p)) x x
}.

Section dependencies.
Context {V : Type}.

Lemma dict_of_list_lookup (l : list (uuid * V)) k v :
  NoDup l.*1 → (dict_of_list l !! k = Some v ↔ (k, v) ∈ l).
Proof.
  intros Hnd.
  assert (E : items (dict_of_list l) = l).
  { unfold dict_of_list.
    enough (∀ d : dict uuid V, NoDup ((items d ++ l).*1) →
      items (foldl (fun d kv => <[kv.1:=kv.2]> d) d l) = items d ++ l) as H by (rewrite H; done).
    clear Hnd. induction l as [|[k' v'] l IH]; intros d Hnd; cbn [foldl fst snd];
      [by rewrite app_nil_r|].
    assert (Hk : d !! k' = None).
    { destruct (d !! k') as [v''|] eqn:E; [|done]. apply dict_lookup_elem in E.
      rewrite fmap_app in Hnd. apply NoDup_app in Hnd as (_ & Hdis & _).
      destruct (Hdis k'); [|cbn; left]. apply list_elem_of_fmap. by exists (k', v''). }
    rewrite IH; rewrite dict_insert_fresh_items by done; by rewrite <- app_assoc. }
  split.
  - intros H%dict_lookup_elem. by rewrite E in H.
  - intros H. apply dict_elem_lookup; [|by rewrite E]. unfold dict_wf, keys. by rewrite E.
Qed.
End dependencies.

Section plan.
Context (p : Plan.t) (Hnd : NoDup (Plan.task_ids p)).

Lemma plan_dependencies_lookup x deps :
  Plan.dependencies p !! x = Some deps ↔
  ∃ task, task ∈ Plan.tasks p ∧ Task.task_id task = x ∧ Task.depends_on task = deps.
Proof using Hnd.
  unfold Plan.dependencies. rewrite dict_of_list_lookup; [|by rewrite <- list_fmap_compose].
  rewrite list_elem_of_fmap. naive_solver.
Qed.

Lemma plan_dep x y : dep (Plan.dependencies p) x y ↔ task_dep (Plan.tasks p) x y.
Proof using Hnd.
  unfold dep, task_dep. setoid_rewrite plan_dependencies_lookup. naive_solver.
Qed.

Lemma plan_keys x : x ∈ Plan.task_ids p ↔ x ∈ keys (Plan.dependencies p).
Proof using Hnd.
  rewrite keys_lookup. unfold is_Some. setoid_rewrite plan_dependencies_lookup.
  unfold Plan.task_ids. rewrite list_elem_of_fmap. naive_solver.
Qed.

Lemma plan_keys_perm : Plan.task_ids p ≡ₚ keys (Plan.dependencies p).
Proof using Hnd.
  apply NoDup_Permutation; [done| |apply plan_keys].
  unfold Plan.dependencies, dict_of_list.
  enough (∀ (l : list (uuid * list uuid)) d, dict_wf d →
    dict_wf (foldl (fun d kv => <[kv.1:=kv.2]> d) d l)) as H by apply H, dict_empty_wf.
  induction l as [|kv l IH]; intros d Hd; cbn; [done|]. by apply IH, dict_insert_wf.
Qed.

Lemma plan_acyclic :
  acyclic (Plan.dependencies p) ↔ ∀ x, ¬ tc (task_dep (Plan.tasks p)) x x.
Proof using Hnd.
  assert (E : ∀ x y, tc (dep (Plan.dependencies p)) x y ↔ tc (task_dep (Plan.tasks p)) x y).
  { intros x y. split; induction 1; [|eapply tc_l; [by apply plan_dep|done]| |
      eapply tc_l; [by apply plan_dep|done]]; by apply tc_once, plan_dep. }
  unfold acyclic. by setoid_rewrite E.
Qed.

Lemma check_acyclic_spec :
  (∀ x y, task_dep (Plan.tasks p) x y → y ∈ Plan.task_ids p) →
  ((∀ x, ¬ tc (task_dep (Plan.tasks p)) x x) ∧ Plan.check_acyclic p = Ok tt) ∨
  (¬ (∀ x, ¬ tc (task_dep (Plan.tasks p)) x x) ∧ Plan.check_acyclic p = Err cycle_error).
Proof using Hnd.
  intros Hcl. unfold Plan.check_acyclic. rewrite <- plan_acyclic.
  destruct (visit_all_spec (Plan.dependencies p) (S (length (Plan.tasks p))) (Plan.task_ids p))
    as [[Ha [s ->]]|[Ha ->]]; [| | |by left|by right].
  - intros x y Hd%plan_dep%Hcl. apply keys_lookup. by apply plan_keys.
  - apply plan_keys_perm.
  - rewrite <- plan_keys_perm. unfold Plan.task_ids. rewrite length_fmap. lia.
Qed.
End plan.

Lemma check_task_err p task e :
  Plan.check_task p task = Err e → exn_class e = ValueError.
Proof.
  unfold Plan.check_task.
  by intros [[_ ->]%raise_if_err|(? & _ & [_ ->]%raise_if_err)]%bind_err.
Qed.

Lemma check_task_ok p task :
  Plan.check_task p task = Ok tt ↔
  (Task.tenant_id task = Plan.tenant_id p ∧ Task.run_id task = Plan.run_id p) ∧
  Task.depends_on task ⊆ Plan.task_ids p.
Proof.
  unfold Plan.check_task. rewrite then_ok, !raise_if_ok, orb_false_iff, !negb_false_iff.
  by rewrite subset_of_true, !bool_decide_eq_true.
Qed.

(** The loop over the tasks succeeds exactly on owned tasks with known
    dependencies. *)
Lemma plan_tasks_checked p :
  for_each (Plan.check_task p) (Plan.tasks p) = Ok tt ↔
  (∀ task, task ∈ Plan.tasks p →
    Task.tenant_id task = Plan.tenant_id p ∧ Task.run_id task = Plan.run_id p) ∧
  (∀ x y, task_dep (Plan.tasks p) x y → y ∈ Plan.task_ids p).
Proof.
  rewrite for_each_ok, list.Forall_forall. setoid_rewrite check_task_ok. split.
  - intros H. split; [naive_solver|]. intros x y (task & Ht & _ & Hy).
    by apply (H task Ht).
  - intros [Hown Hcl] task Ht. split; [auto|]. intros y Hy. apply (Hcl (Task.task_id task)).
    by exists task.
Qed.

(** The constructor decides [plan_valid], and rejects with [ValueError]. *)
Lemma plan_new_cases p :
  (plan_valid p ∧ Plan.new p = Ok p) ∨
  (¬ plan_valid p ∧ ∃ msg, Plan.new p = raise ValueError msg).
Proof.
  unfold Plan.new, Plan.post_init.
  destruct (Z.ltb_spec (Plan.version p) 1) as [Hv|Hv]; cbn;
    [right; split; [intros []; lia|eauto]|].
  case_bool_decide as Hne; cbn;
    [apply length_zero_iff_nil in Hne; right; split; [by intros []|eauto]|].
  destruct (unique (Plan.task_ids p)) eqn:Hu; cbn;
    [apply unique_true in Hu|apply unique_false in Hu; right; split; [by intros []|eauto]].
  destruct (for_each _ _) as [[]|[k msg]] eqn:Hf; cbn; cycle 1.
  { right. split; [|apply for_each_err in Hf as (task & _ & He%check_task_err); cbn in He;
      subst; eauto].
    intros Hp. assert (Hok : for_each (Plan.check_task p) (Plan.tasks p) = Ok tt)
      by (apply plan_tasks_checked; split; apply Hp). congruence. }
  apply plan_tasks_checked in Hf as [Hown Hcl].
  destruct (check_acyclic_spec p Hu Hcl) as [[Ha ->]|[Ha ->]]; cbn.
  - left. split; [|done]. constructor; try done. contradict Hne. by rewrite Hne.
  - right. split; [by intros []|]. unfold cycle_error, raise. eauto.
Qed.

(** C39. A Plan is accepted exactly when it has a positive version, at least one task,
    distinct task ids, tasks of its own tenant and run, dependencies inside the plan
    and an acyclic dependency graph; every other plan is refused with a ValueError, so
    the depth-first search always finishes. *)
Theorem plan_accepts_exactly_valid p :
  (plan_valid p ∧ Plan.new p = Ok p) ∨
  (¬ plan_valid p ∧ ∃ msg, Plan.new p = raise ValueError msg).
Proof. apply plan_new_cases. Qed.
