(* ===== verification/ExecutionObjects.v ===== *)
(** * packages/domain: execution.py, actions, approvals, evidence and outcomes

    The objects of a run that carry authority: the [Action] with its digest,
    its attempts, the [ApprovalRequest] that authorizes one digest, the
    [Evidence] captured for it, the [Outcome] verified from evidence and the
    [ActionExecutionEnvelope] handed to the tool gateway. *)

From S2P Require Import Prelude PyStr PyDict Json Sha256 Transitions Values Goals Execution.
From Stdlib Require Import ZArith.

Open Scope string_scope.
Open Scope list_scope.
Open Scope Z_scope.

(** ["\n"] *)
Definition newline : string := String (chr 10) "".

(** The fourteen executable fields an action's digest and an envelope's digest
    are computed over, in order. *)
Definition canonical_fields (tenant_id run_id task_id action_id : uuid)
    (tool_name tool_version operation resource_scope : string) (arguments : JsonObject.t)
    (risk_level : RiskLevel.t) (idempotency_key expected_effect : string)
    (classification : DataClassification.t) (execution_mode : ExecutionMode.t) : list string :=
  [uuid_str tenant_id; uuid_str run_id; uuid_str task_id; uuid_str action_id;
   tool_name; tool_version; operation; resource_scope; JsonObject.canonical arguments;
   RiskLevel.value risk_level; idempotency_key; expected_effect;
   DataClassification.value classification; ExecutionMode.value execution_mode].

Module Action.
Record t := mk {
  tenant_id : uuid;
  run_id : uuid;
  task_id : uuid;
  tool_name : string;
  tool_version : string;
  operation : string;
  resource_scope : string;
  parameters : JsonObject.t;
  risk_level : RiskLevel.t;
  idempotency_key : string;
  expected_effect : string;
  classification : DataClassification.t;
  execution_mode : ExecutionMode.t;
  action_id : uuid;
  status : ActionStatus.t;
  optimistic_version : Z;
  transitions : list StateTransition.t
}.

#[global] Instance eta : Settable t := fun x =>
  mk (tenant_id x) (run_id x) (task_id x) (tool_name x) (tool_version x) (operation x)
     (resource_scope x) (parameters x) (risk_level x) (idempotency_key x) (expected_effect x)
     (classification x) (execution_mode x) (action_id x) (status x) (optimistic_version x)
     (transitions x).

#[global] Instance t_eq_dec : EqDecision t.
Proof. solve_decision. Defined.

Definition post_init (a : t) : res unit :=
  raise_if (any blank [tool_name a; tool_version a; operation a; resource_scope a;
                       idempotency_key a; expected_effect a]) ValueError
    "action identifiers and expected effect must not be empty" ;;
  raise_if (optimistic_version a <? 1) ValueError "action optimistic version must be positive".

Definition new (a : t) : res t := post_init a ;; Ok a.

Definition transition_to (a : t) (target : ActionStatus.t) (actor_id : uuid) (reason : string)
    (occurred_at : option datetime) (now : datetime) : res t :=
  require_transition (status a) target ACTION_TRANSITIONS ;;
  transition ← transition_record (status a) target actor_id reason occurred_at now;
  new (a <| status := target |> <| optimistic_version := optimistic_version a + 1 |>
         <| transitions := transitions a ++ [transition] |>).

Definition parameter_digest (a : t) : string := JsonObject.digest (parameters a).

Definition fields (a : t) : list string :=
  canonical_fields (tenant_id a) (run_id a) (task_id a) (action_id a) (tool_name a)
    (tool_version a) (operation a) (resource_scope a) (parameters a) (risk_level a)
    (idempotency_key a) (expected_effect a) (classification a) (execution_mode a).

Definition canonical_digest (a : t) : string := sha256_hex (join newline (fields a)).
End Action.

Module ActionAttempt.
Record t := mk {
  tenant_id : uuid;
  run_id : uuid;
  action_id : uuid;
  invocation_id : uuid;
  status : ActionAttemptStatus.t;
  idempotency_key : string;
  receipt_ref : string;
  executor_identity : string;
  failure_reason : option string;
  attempt_id : uuid;
  recorded_at : datetime
}.
#[global] Instance t_eq_dec : EqDecision t.
Proof. solve_decision. Defined.

Definition post_init (a : t) : res unit :=
  raise_if (any blank [idempotency_key a; receipt_ref a; executor_identity a]) ValueError
    "action attempt identity, idempotency, and receipt are required" ;;
  raise_if (is_naive (recorded_at a)) ValueError
    "action attempt timestamp must be timezone-aware" ;;
  raise_if (bool_decide (status a = ActionAttemptStatus.FAILED) &&
            match failure_reason a with Some r => blank r | None => true end) ValueError
    "failed action attempt requires a failure reason".

Definition new (a : t) : res t := post_init a ;; Ok a.
End ActionAttempt.

Module ApprovalReview.
Record t := mk {
  actor_id : uuid; principal_id : uuid; approved : bool; reason : string;
  reviewed_at : datetime
}.
#[global] Instance t_eq_dec : EqDecision t.
Proof. solve_decision. Defined.

Definition post_init (r : t) : res unit :=
  raise_if (blank (reason r) || is_naive (reviewed_at r)) ValueError
    "approval review requires a reason and timezone-aware timestamp".

Definition new (actor_id principal_id : uuid) (approved : bool) (reason : string)
    (reviewed_at : datetime) : res t :=
  let r := mk actor_id principal_id approved reason reviewed_at in post_init r ;; Ok r.
End ApprovalReview.

Module ApprovalRequest.
Record t := mk {
  tenant_id : uuid;
  run_id : uuid;
  action_id : uuid;
  action_digest : string;
  tool_version : string;
  operation : string;
  resource_scope : string;
  argument_digest : string;
  policy_version : string;
  impact_summary : string;
  required_role : string;
  expires_at : datetime;
  approval_id : uuid;
  status : ApprovalStatus.t;
  decided_by : option uuid;
  reason : option string;
  created_at : datetime;
  decided_at : option datetime;
  optimistic_version : Z;
  transitions : list StateTransition.t;
  required_reviews : Z;
  reviews : list ApprovalReview.t
}.

#[global] Instance eta : Settable t := fun x =>
  mk (tenant_id x) (run_id x) (action_id x) (action_digest x) (tool_version x) (operation x)
     (resource_scope x) (argument_digest x) (policy_version x) (impact_summary x)
     (required_role x) (expires_at x) (approval_id x) (status x) (decided_by x) (reason x)
     (created_at x) (decided_at x) (optimistic_version x) (transitions x) (required_reviews x)
     (reviews x).

#[global] Instance t_eq_dec : EqDecision t.
Proof. solve_decision. Defined.

Definition principals (a : t) : list uuid := ApprovalReview.principal_id <$> reviews a.

Definition post_init (a : t) : res unit :=
  raise_if (any blank [action_digest a; tool_version a; operation a; resource_scope a;
                       argument_digest a; policy_version a; impact_summary a;
                       required_role a]) ValueError
    "approval binding, impact, and role are required" ;;
  raise_if (is_naive (expires_at a) || is_naive (created_at a)) ValueError
    "approval timestamps must be timezone-aware" ;;
  late ← dt_le (expires_at a) (created_at a);
  raise_if late ValueError "approval expiry must be after creation" ;;
  for_each (fun value => raise_if (not_sha256_hex value) ValueError
              "approval digests must be lowercase SHA-256 values")
    [action_digest a; argument_digest a] ;;
  raise_if (optimistic_version a <? 1) ValueError
    "approval optimistic version must be positive" ;;
  raise_if (negb (mem (required_reviews a) [1; 2])) ValueError
    "approval review count must be one or two" ;;
  raise_if (negb (unique (principals a))) ValueError
    "approval reviews must come from distinct principals".

Definition new (a : t) : res t := post_init a ;; Ok a.

(** [now] is the reading of [datetime.now(UTC)]. *)
Definition decide (a : t) (approver_id : uuid) (approved : bool) (why : string)
    (principal_id : option uuid) (now : datetime) : res t :=
  raise_if (negb (bool_decide (status a = ApprovalStatus.PENDING))) ValueError
    "approval has already been decided" ;;
  raise_if (blank why) ValueError "approval decision requires a reason" ;;
  let reviewer_principal := default approver_id principal_id in
  raise_if (mem reviewer_principal (principals a)) PermissionError
    "the same principal cannot submit two approval reviews" ;;
  expired ← dt_ge now (expires_at a);
  if (expired : bool) then
    transition ← transition_record (status a) ApprovalStatus.EXPIRED approver_id
                   "approval expired before decision" (Some now) now;
    new (a <| status := ApprovalStatus.EXPIRED |> <| decided_at := Some now |>
           <| optimistic_version := optimistic_version a + 1 |>
           <| transitions := transitions a ++ [transition] |>)
  else
    review ← ApprovalReview.new approver_id reviewer_principal approved why now;
    let reviews' := reviews a ++ [review] in
    if approved && (Z.of_nat (length reviews') <? required_reviews a) then
      new (a <| reviews := reviews' |> <| optimistic_version := optimistic_version a + 1 |>)
    else
      let target := if approved then ApprovalStatus.APPROVED else ApprovalStatus.REJECTED in
      transition ← transition_record (status a) target approver_id why (Some now) now;
      new (a <| status := target |> <| decided_by := Some approver_id |>
             <| reason := Some why |> <| decided_at := Some now |>
             <| optimistic_version := optimistic_version a + 1 |>
             <| transitions := transitions a ++ [transition] |>
             <| reviews := reviews' |>).

Definition authorizes (a : t) (action : Action.t) (policy_version' : string)
    (at_ : option datetime) (now : datetime) : res bool :=
  let now := default now at_ in
  if negb (bool_decide (status a = ApprovalStatus.APPROVED)) then Ok false else
  live ← dt_lt now (expires_at a);
  Ok (live &&
      bool_decide (tenant_id a = Action.tenant_id action) &&
      bool_decide (run_id a = Action.run_id action) &&
      bool_decide (action_id a = Action.action_id action) &&
      bool_decide (action_digest a = Action.canonical_digest action) &&
      bool_decide (tool_version a = Action.tool_version action) &&
      bool_decide (operation a = Action.operation action) &&
      bool_decide (resource_scope a = Action.resource_scope action) &&
      bool_decide (argument_digest a = Action.parameter_digest action) &&
      bool_decide (policy_version a = policy_version')).
End ApprovalRequest.

Module DecisionRecord.
Record t := mk {
  tenant_id : uuid;
  run_id : uuid;
  action_id : uuid;
  decision : DecisionKind.t;
  rationale : string;
  policy_version : string;
  actor_id : uuid;
  principal_id : uuid;
  agent_id : string;
  fact_references : list string;
  decision_id : uuid;
  created_at : datetime
}.

Definition post_init (d : t) : res unit :=
  raise_if (blank (rationale d) || blank (policy_version d)) ValueError
    "decision rationale and policy version must not be empty" ;;
  raise_if (blank (agent_id d)) ValueError "agent_id must not be empty" ;;
  raise_if (is_naive (created_at d)) ValueError "created_at must be timezone-aware".

Definition new (d : t) : res t := post_init d ;; Ok d.
End DecisionRecord.

Module Evidence.
Record t := mk {
  tenant_id : uuid;
  run_id : uuid;
  action_id : uuid;
  source : string;
  source_identity : string;
  capture_method : EvidenceCaptureMethod.t;
  reference : string;
  observed_state : string;
  content_digest : string;
  classification : DataClassification.t;
  valid_from : datetime;
  valid_until : datetime;
  integrity : EvidenceIntegrity.t;
  source_reference : string;
  subject_refs : list SubjectRef.t;
  retained_until : option datetime;
  artifact_version_id : option string;
  evidence_id : uuid;
  captured_at : datetime
}.

#[global] Instance eta : Settable t := fun x =>
  mk (tenant_id x) (run_id x) (action_id x) (source x) (source_identity x) (capture_method x)
     (reference x) (observed_state x) (content_digest x) (classification x) (valid_from x)
     (valid_until x) (integrity x) (source_reference x) (subject_refs x) (retained_until x)
     (artifact_version_id x) (evidence_id x) (captured_at x).

#[global] Instance t_eq_dec : EqDecision t.
Proof. solve_decision. Defined.

Definition post_init (e : t) : res unit :=
  raise_if (any blank [source e; source_identity e; reference e; observed_state e]) ValueError
    "evidence source, identity, reference, and state must not be empty" ;;
  raise_if (not_sha256_hex (content_digest e)) ValueError
    "evidence content digest must be a lowercase SHA-256 value" ;;
  raise_if (any is_naive [captured_at e; valid_from e; valid_until e]) ValueError
    "evidence timestamps must be timezone-aware" ;;
  early ← dt_gt (valid_from e) (captured_at e);
  outside ← (if (early : bool) then Ok true else dt_lt (valid_until e) (captured_at e));
  raise_if outside ValueError "evidence capture must fall within its validity interval" ;;
  raise_if (negb (empty (source_reference e)) && blank (source_reference e)) ValueError
    "evidence source reference must not be blank" ;;
  raise_if (negb (unique (subject_refs e))) ValueError
    "evidence subject references must be unique" ;;
  match retained_until e with
  | None => Ok tt
  | Some retained =>
      raise_if (is_naive retained) ValueError
        "evidence retention timestamp must be timezone-aware" ;;
      short ← dt_lt retained (captured_at e);
      raise_if short ValueError "evidence retention cannot end before capture"
  end.

Definition new (e : t) : res t := post_init e ;; Ok e.
End Evidence.

Module Outcome.
Record t := mk {
  tenant_id : uuid;
  goal_id : uuid;
  run_id : uuid;
  criterion_id : string;
  verifier_version : string;
  status : OutcomeStatus.t;
  evidence : list Evidence.t;
  outcome_id : uuid;
  verified_at : option datetime
}.

#[global] Instance t_eq_dec : EqDecision t.
Proof. solve_decision. Defined.

Definition evidence_ids (o : t) : list uuid := Evidence.evidence_id <$> evidence o.

(** The loop body of a VERIFIED outcome's validation. *)
Definition check_item (o : t) (verified : datetime) (item : Evidence.t) : res unit :=
  raise_if (negb (bool_decide (Evidence.tenant_id item = tenant_id o)) ||
            negb (bool_decide (Evidence.run_id item = run_id o))) ValueError
    "outcome evidence must share tenant and run" ;;
  raise_if (negb (bool_decide (Evidence.integrity item = EvidenceIntegrity.VERIFIED)))
    ValueError "verified outcome requires integrity-verified evidence" ;;
  started ← dt_le (Evidence.valid_from item) verified;
  current ← (if (started : bool) then dt_le verified (Evidence.valid_until item) else Ok false);
  raise_if (negb current) ValueError "verified outcome requires currently valid evidence".

Definition post_init (o : t) : res unit :=
  raise_if (blank (criterion_id o) || blank (verifier_version o)) ValueError
    "outcome criterion id and verifier version must not be empty" ;;
  raise_if (negb (unique (evidence_ids o))) ValueError "outcome evidence ids must be unique" ;;
  let verified := bool_decide (status o = OutcomeStatus.VERIFIED) in
  raise_if (verified && bool_decide (evidence o = [])) ValueError
    "verified outcome requires evidence" ;;
  raise_if (verified && is_none (verified_at o)) ValueError
    "verified outcome requires a verification timestamp" ;;
  raise_if (match verified_at o with Some v => is_naive v | None => false end) ValueError
    "outcome verification timestamp must be timezone-aware" ;;
  if verified then
    match verified_at o with
    | None => raise AssertionError ""
    | Some v => for_each (check_item o v) (evidence o)
    end
  else Ok tt.

Definition new (o : t) : res t := post_init o ;; Ok o.
End Outcome.

Module ActionExecutionEnvelope.
Record t := mk {
  invocation_id : uuid;
  tenant_id : uuid;
  run_id : uuid;
  task_id : uuid;
  action_id : uuid;
  actor_id : uuid;
  principal_id : uuid;
  agent_identity : string;
  delegation_ref : string;
  tool_name : string;
  tool_version : string;
  operation : string;
  resource_scope : string;
  arguments : JsonObject.t;
  action_digest : string;
  risk_level : RiskLevel.t;
  idempotency_key : string;
  budget_ref : string;
  approval_id : option uuid;
  policy_version : string;
  expected_effect : string;
  deadline : datetime;
  traceparent : string;
  classification : DataClassification.t;
  execution_mode : ExecutionMode.t
}.

#[global] Instance t_eq_dec : EqDecision t.
Proof. solve_decision. Defined.

Definition fields (e : t) : list string :=
  canonical_fields (tenant_id e) (run_id e) (task_id e) (action_id e) (tool_name e)
    (tool_version e) (operation e) (resource_scope e) (arguments e) (risk_level e)
    (idempotency_key e) (expected_effect e) (classification e) (execution_mode e).

Definition post_init (e : t) : res unit :=
  raise_if (any blank [agent_identity e; delegation_ref e; tool_name e; tool_version e;
                       operation e; resource_scope e; idempotency_key e; budget_ref e;
                       policy_version e; expected_effect e; traceparent e]) ValueError
    "execution envelope identifiers must not be empty" ;;
  raise_if (is_naive (deadline e)) ValueError
    "execution envelope deadline must be timezone-aware" ;;
  raise_if (not_sha256_hex (action_digest e)) ValueError
    "execution envelope action digest must be SHA-256" ;;
  raise_if (negb (bool_decide (sha256_hex (join newline (fields e)) = action_digest e)))
    ValueError "execution envelope digest does not match executable fields".

Definition new (e : t) : res t := post_init e ;; Ok e.

(** [fresh] is the [uuid4()] of the invocation. *)
Definition from_action (fresh : uuid) (action : Action.t) (actor_id principal_id : uuid)
    (agent_identity delegation_ref budget_ref : string) (approval_id : option uuid)
    (policy_version : string) (deadline : datetime) (traceparent : string) : res t :=
  new {|
    invocation_id := fresh;
    tenant_id := Action.tenant_id action;
    run_id := Action.run_id action;
    task_id := Action.task_id action;
    action_id := Action.action_id action;
    actor_id := actor_id;
    principal_id := principal_id;
    agent_identity := agent_identity;
    delegation_ref := delegation_ref;
    tool_name := Action.tool_name action;
    tool_version := Action.tool_version action;
    operation := Action.operation action;
    resource_scope := Action.resource_scope action;
    arguments := Action.parameters action;
    action_digest := Action.canonical_digest action;
    risk_level := Action.risk_level action;
    idempotency_key := Action.idempotency_key action;
    budget_ref := budget_ref;
    approval_id := approval_id;
    policy_version := policy_version;
    expected_effect := Action.expected_effect action;
    deadline := deadline;
    traceparent := traceparent;
    classification := Action.classification action;
    execution_mode := Action.execution_mode action |}.
End ActionExecutionEnvelope.
