(* ===== verification/History.v ===== *)
(** * Histories of the aggregates

    [Goal], [Run], [Task] and [Action] share one contract: a status drawn from
    a transition table, the list of audited transitions that led to it, and a
    version that counts them.  [Aggregate] states the contract, [advances] is
    one legal step of it, and the instances below show that every
    [transition_to] is such a step.  What follows is proved once, against the
    interface: a history is a path of the table, timestamps are aware, terminal
    states are final, and a state that every path crosses is in the history. *)

From S2P Require Import Prelude PyStr Transitions Values Goals Execution ExecutionObjects.
From stdpp Require Import relations.
From Stdlib Require Import ZArith.

Open Scope string_scope.
Open Scope list_scope.
Open Scope Z_scope.

(** What an aggregate exposes. *)
Class Aggregate (A S : Type) `{StrEnum S} := {
  agg_status : A → S;
  agg_version : A → Z;
  agg_transitions : A → list StateTransition.t;
  agg_table : S → list S;
  agg_initial : S
}.

Section aggregate.
Context {A S : Type} `{Aggregate A S}.
Implicit Types (a b : A).

(** A newly created aggregate. *)
Definition newborn a : Prop :=
  agg_status a = agg_initial ∧ agg_version a = 1 ∧ agg_transitions a = [].

(** One audited step of the state machine. *)
Definition advances a b : Prop :=
  ∃ t, agg_transitions b = agg_transitions a ++ [t] ∧
    StateTransition.from_status t = value (agg_status a) ∧
    StateTransition.to_status t = value (agg_status b) ∧
    is_naive (StateTransition.occurred_at t) = false ∧
    blank (StateTransition.reason t) = false ∧
    agg_status b ∈ agg_table (agg_status a) ∧
    agg_version b = agg_version a + 1.

(** The history explains the status and the version. *)
Definition history_ok a : Prop :=
  path agg_table agg_initial (agg_transitions a) (agg_status a) ∧
  agg_version a = 1 + Z.of_nat (length (agg_transitions a)) ∧
  Forall (fun t => is_naive (StateTransition.occurred_at t) = false ∧
                   blank (StateTransition.reason t) = false) (agg_transitions a).

Lemma newborn_history a : newborn a → history_ok a.
Proof.
  intros (Es & Ev & Et). unfold history_ok. rewrite Es, Ev, Et.
  split; [constructor|split; [done|constructor]].
Qed.

Lemma advances_history a b : history_ok a → advances a b → history_ok b.
Proof.
  intros (Hp & Hv & Hf) (t & Et & Hfrom & Hto & Hn & Hr & Hin & Ev).
  unfold history_ok. rewrite Et, Ev, Hv, length_app. cbn [length].
  split; [by econstructor|]. split; [lia|].
  apply Forall_app_2; [done|]. constructor; [done|constructor].
Qed.

Lemma advances_version a b : advances a b → agg_version b = agg_version a + 1.
Proof. by intros (? & _ & _ & _ & _ & _ & _ & ?). Qed.

Lemma advances_status a b : advances a b → agg_status b ∈ agg_table (agg_status a).
Proof. by intros (? & _ & _ & _ & _ & _ & ? & _). Qed.

(** A state without successors is never left. *)
Lemma terminal_stuck a b : agg_table (agg_status a) = [] → ¬ advances a b.
Proof. intros Et Ha%advances_status. rewrite Et in Ha. by apply elem_of_nil in Ha. Qed.

(** If the states of [C] contain the initial one and are only left through
    [d], an aggregate outside [C] has been in [d]. *)
Lemma history_crosses (C : S → bool) (d : S) a :
  C agg_initial = true →
  (∀ x y, C x = true → y ∈ agg_table x → C y = true ∨ y = d) →
  history_ok a → C (agg_status a) = false → crosses d (agg_transitions a).
Proof.
  intros Hinit Hedge (Hp & _ & _) Hn.
  destruct (path_crosses C d agg_table agg_initial _ _ Hinit Hedge Hp); [congruence|done].
Qed.
End aggregate.

#[export] Hint Resolve newborn_history advances_history : py.

#[export] Instance Goal_aggregate : Aggregate GoalContract.t GoalStatus.t := {|
  agg_status := GoalContract.status; agg_version := GoalContract.version;
  agg_transitions := GoalContract.transitions;
  agg_table := GOAL_TRANSITIONS; agg_initial := GoalStatus.DRAFT |}.

#[export] Instance Run_aggregate : Aggregate Run.t RunStatus.t := {|
  agg_status := Run.status; agg_version := Run.optimistic_version;
  agg_transitions := Run.transitions;
  agg_table := RUN_TRANSITIONS; agg_initial := RunStatus.PENDING |}.

#[export] Instance Task_aggregate : Aggregate Task.t TaskStatus.t := {|
  agg_status := Task.status; agg_version := Task.optimistic_version;
  agg_transitions := Task.transitions;
  agg_table := TASK_TRANSITIONS; agg_initial := TaskStatus.PENDING |}.

#[export] Instance Action_aggregate : Aggregate Action.t ActionStatus.t := {|
  agg_status := Action.status; agg_version := Action.optimistic_version;
  agg_transitions := Action.transitions;
  agg_table := ACTION_TRANSITIONS; agg_initial := ActionStatus.PROPOSED |}.

(** The four [transition_to] methods end in the same way. *)
Ltac solve_advances Ht :=
  apply transition_record_ok in Ht as (? & ? & ? & ? & ? & ? & ?);
  eexists; cbn; split; [reflexivity|]; subst; split_and!; done.

Lemma goal_transition_advances g target actor reason at_ now g' :
  GoalContract.transition_to g target actor reason at_ now = Ok g' → advances g g'.
Proof.
  unfold GoalContract.transition_to, GoalContract.new. intros H. inv_ok.
  apply require_transition_ok in Hx. solve_advances Hx2.
Qed.

Lemma run_transition_advances r target actor reason at_ now r' :
  Run.transition_to r target actor reason at_ now = Ok r' → advances r r'.
Proof.
  unfold Run.transition_to, Run.new. intros H. inv_ok.
  apply require_transition_ok in Hx. solve_advances Hx1.
Qed.

Lemma task_transition_advances x target actor reason at_ now x' :
  Task.transition_to x target actor reason at_ now = Ok x' → advances x x'.
Proof.
  unfold Task.transition_to, Task.new. intros H. inv_ok.
  apply require_transition_ok in Hx. solve_advances Hx0.
Qed.

Lemma action_transition_advances a target actor reason at_ now a' :
  Action.transition_to a target actor reason at_ now = Ok a' → advances a a'.
Proof.
  unfold Action.transition_to, Action.new. intros H. inv_ok.
  apply require_transition_ok in Hx. solve_advances Hx0.
Qed.

(** ** Steps

    One call of [transition_to], whatever its arguments.  It is a legal
    advance and touches only the status, the version and the history. *)

Definition goal_step (a b : GoalContract.t) : Prop :=
  ∃ target actor reason at_ now, GoalContract.transition_to a target actor reason at_ now = Ok b.
Definition run_step (a b : Run.t) : Prop :=
  ∃ target actor reason at_ now, Run.transition_to a target actor reason at_ now = Ok b.
Definition task_step (a b : Task.t) : Prop :=
  ∃ target actor reason at_ now, Task.transition_to a target actor reason at_ now = Ok b.
Definition action_step (a b : Action.t) : Prop :=
  ∃ target actor reason at_ now, Action.transition_to a target actor reason at_ now = Ok b.

Lemma goal_step_ok a b : goal_step a b → advances a b ∧
  b = a <| GoalContract.status := GoalContract.status b |>
        <| GoalContract.version := GoalContract.version b |>
        <| GoalContract.transitions := GoalContract.transitions b |>.
Proof.
  intros (target & actor & reason & at_ & now & H).
  split; [by eapply goal_transition_advances|].
  unfold GoalContract.transition_to, GoalContract.new in H. by inv_ok.
Qed.

Lemma run_step_ok a b : run_step a b → advances a b ∧
  b = a <| Run.status := Run.status b |>
        <| Run.optimistic_version := Run.optimistic_version b |>
        <| Run.transitions := Run.transitions b |> ∧
  (Run.status b = RunStatus.RUNNING → Run.execution_snapshot b ≠ None).
Proof.
  intros (target & actor & reason & at_ & now & H).
  split; [by eapply run_transition_advances|].
  unfold Run.transition_to, Run.new in H. inv_ok. split; [done|]. cbn. intros ->.
  rewrite bool_decide_eq_true_2 in Hx0 by done. by destruct (Run.execution_snapshot a).
Qed.

Lemma task_step_ok a b : task_step a b → advances a b ∧
  b = a <| Task.status := Task.status b |>
        <| Task.optimistic_version := Task.optimistic_version b |>
        <| Task.transitions := Task.transitions b |>.
Proof.
  intros (target & actor & reason & at_ & now & H).
  split; [by eapply task_transition_advances|].
  unfold Task.transition_to, Task.new in H. by inv_ok.
Qed.

Lemma action_step_ok a b : action_step a b → advances a b ∧
  b = a <| Action.status := Action.status b |>
        <| Action.optimistic_version := Action.optimistic_version b |>
        <| Action.transitions := Action.transitions b |>.
Proof.
  intros (target & actor & reason & at_ & now & H).
  split; [by eapply action_transition_advances|].
  unfold Action.transition_to, Action.new in H. by inv_ok.
Qed.

(** Several steps: what holds of [rtc R], for a step relation [R] that
    advances. *)
Section steps.
Context {A S : Type} `{Aggregate A S} (R : A → A → Prop) (HR : ∀ a b, R a b → advances a b).

Lemma steps_history a b : rtc R a b → history_ok a → history_ok b.
Proof. induction 1; eauto using advances_history. Qed.

Lemma steps_version a b : rtc R a b → a = b ∨ agg_version a < agg_version b.
Proof.
  induction 1 as [|a b c Hab _ IH]; [by left|right].
  apply HR, advances_version in Hab. destruct IH as [->|]; lia.
Qed.

Lemma steps_terminal a b : rtc R a b → agg_table (agg_status a) = [] → b = a.
Proof.
  intros [->|(c & Hac & _)]%rtc_inv Ht; [done|]. by apply HR, terminal_stuck in Hac.
Qed.
End steps.

Definition task_steps := rtc task_step.
Definition action_steps := rtc action_step.

Lemma task_steps_fields a b : task_steps a b →
  b = a <| Task.status := Task.status b |>
        <| Task.optimistic_version := Task.optimistic_version b |>
        <| Task.transitions := Task.transitions b |>.
Proof.
  induction 1 as [|a b c Hab _ IH]; [by destruct x|].
  apply task_step_ok in Hab as [_ E]. rewrite IH, E at 1. done.
Qed.

Lemma action_steps_fields a b : action_steps a b →
  b = a <| Action.status := Action.status b |>
        <| Action.optimistic_version := Action.optimistic_version b |>
        <| Action.transitions := Action.transitions b |>.
Proof.
  induction 1 as [|a b c Hab _ IH]; [by destruct x|].
  apply action_step_ok in Hab as [_ E]. rewrite IH, E at 1. done.
Qed.
