(* ===== verification/Digests.v ===== *)
(** * Action digests: what they bind

    An approval names an action by [Action.canonical_digest] and the gateway
    receives an envelope that carries the same digest.  This file shows what
    equality of digests means: the fields are joined with newlines, so two
    sets of newline-free fields with the same digest are the same fields, or
    an explicit SHA-256 collision.  A field that contains a newline breaks
    this: two different actions then share a digest without any collision. *)

From S2P Require Import Prelude PyStr PyDict Json Sha256 Transitions Values Goals Execution.
From S2P Require Import ExecutionObjects.
From Stdlib Require Import ZArith.

Open Scope string_scope.
Open Scope list_scope.
Open Scope Z_scope.

(** ** Joined lines *)

(** No line break: the condition under which joining with newlines is
    reversible. *)
Definition one_line (s : string) : Prop := chr 10 ∉ chars s.

#[export] Instance one_line_dec s : Decision (one_line s).
Proof. unfold one_line. apply _. Defined.

Lemma one_line_app s t : one_line (s +:+ t) ↔ one_line s ∧ one_line t.
Proof. unfold one_line. rewrite chars_app. set_solver. Qed.

Lemma split_at_char (c : ascii) (a a' b b' : list ascii) :
  c ∉ a → c ∉ a' → a ++ c :: b = a' ++ c :: b' → a = a' ∧ b = b'.
Proof.
  revert a'. induction a as [|x a IH]; intros [|y a'] Ha Ha'; cbn.
  - by intros [= ->].
  - intros [= -> _]. set_solver.
  - intros [= -> _]. set_solver.
  - intros [= -> E]. destruct (IH a') as [-> ->]; [set_solver|set_solver|done|done].
Qed.

Lemma join_cons x y l : join newline (x :: y :: l) = x +:+ newline +:+ join newline (y :: l).
Proof. reflexivity. Qed.

Lemma join_lines_inj xs ys :
  length xs = length ys → Forall one_line xs → Forall one_line ys →
  join newline xs = join newline ys → xs = ys.
Proof.
  revert ys. induction xs as [|x [|x' xs] IH]; intros ys Hlen Hx Hy E.
  - by destruct ys.
  - destruct ys as [|y [|? ?]]; cbn in *; try done. by rewrite E.
  - destruct ys as [|y [|y' ys]]; try done.
    rewrite !join_cons in E.
    apply list.Forall_cons in Hx as [? ?], Hy as [? ?].
    apply (f_equal chars) in E. rewrite !chars_app in E.
    apply split_at_char in E as [->%(inj chars) E%(inj chars)]; [|done|done].
    f_equal. apply IH; [cbn in *; lia|done|done|done].
Qed.

(** ** The text of a UUID *)

(** A UUID is a 128-bit integer. *)
Definition uuid_ok (u : uuid) : Prop := (u < 2 ^ 128)%N.

Definition hex_val (c : ascii) : Z := if ord c <? 58 then ord c - 48 else ord c - 87.

Lemma hex_char_val n : 0 <= n < 16 → hex_val (hex_char n) = n.
Proof.
  intros Hn. unfold hex_val, hex_char.
  destruct (Z.ltb_spec n 10); rewrite ord_chr by lia; case_match; lia.
Qed.

Fixpoint hex_read (l : list ascii) (acc : Z) : Z :=
  match l with
  | [] => acc
  | c :: l' => hex_read l' (16 * acc + hex_val c)
  end.

Lemma hex_digits_read w n s acc : 0 <= n < 16 ^ Z.of_nat w →
  hex_read (chars (hex_digits w n s)) acc =
  hex_read (chars s) (acc * 16 ^ Z.of_nat w + n).
Proof.
  revert n s acc. induction w as [|w IH]; intros n s acc Hn; cbn [hex_digits].
  - f_equal. cbn in *. lia.
  - rewrite Nat2Z.inj_succ, Z.pow_succ_r in * by lia. rewrite IH.
    + cbn [chars hex_read]. rewrite hex_char_val by (apply Z.mod_pos_bound; lia).
      f_equal. pose proof (Z.div_mod n 16). lia.
    + split; [apply Z.div_pos; lia|apply Z.div_lt_upper_bound; lia].
Qed.

Lemma hex_digits_length w n s :
  String.length (hex_digits w n s) = (w + String.length s)%nat.
Proof.
  revert n s. induction w as [|w IH]; intros n s; cbn [hex_digits]; [done|].
  rewrite IH. cbn. lia.
Qed.

Lemma hex_digits_one_line w n s : 0 <= n → one_line s → one_line (hex_digits w n s).
Proof.
  revert n s. induction w as [|w IH]; intros n s Hn Hs; cbn [hex_digits]; [done|].
  apply IH; [apply Z.div_pos; lia|]. unfold one_line in *. cbn [chars].
  rewrite not_elem_of_cons. split; [|done]. intros E%(f_equal ord).
  pose proof (Z.mod_pos_bound n 16). rewrite ord_chr in E by lia.
  unfold hex_char in E. destruct (Z.ltb_spec (n mod 16) 10); rewrite ord_chr in E by lia; lia.
Qed.

Lemma uuid_hex_inj u v : uuid_ok u → uuid_ok v → uuid_hex u = uuid_hex v → u = v.
Proof.
  unfold uuid_ok, uuid_hex. intros Hu Hv E. apply (f_equal (fun s => hex_read (chars s) 0)) in E.
  change (16 ^ Z.of_nat 32) with (Z.of_N (2 ^ 128)) in *.
  rewrite !hex_digits_read in E by
    (change (16 ^ Z.of_nat 32) with (Z.of_N (2 ^ 128)); lia). cbn in E. lia.
Qed.

Lemma uuid_hex_length u : String.length (uuid_hex u) = 32%nat.
Proof. unfold uuid_hex. by rewrite hex_digits_length. Qed.

(** The 8-4-4-4-12 grouping loses nothing. *)
Definition group (h : string) : string :=
  String.substring 0 8 h +:+ "-" +:+ String.substring 8 4 h +:+ "-" +:+
  String.substring 12 4 h +:+ "-" +:+ String.substring 16 4 h +:+ "-" +:+
  String.substring 20 12 h.

Lemma group_chars h : String.length h = 32%nat →
  chars (group h) = take 8 (chars h) ++ "-"%char :: take 4 (drop 8 (chars h)) ++ "-"%char ::
    take 4 (drop 12 (chars h)) ++ "-"%char :: take 4 (drop 16 (chars h)) ++ "-"%char ::
    take 12 (drop 20 (chars h)).
Proof.
  intros Hh. do 32 (destruct h as [|? h]; [discriminate|]). destruct h; [|discriminate].
  reflexivity.
Qed.

Lemma group_inj h h' : String.length h = 32%nat → String.length h' = 32%nat →
  group h = group h' → h = h'.
Proof.
  intros Hh Hh' E. apply (f_equal chars) in E. rewrite !group_chars in E by done.
  apply (inj chars). rewrite <- !length_chars in *.
  generalize dependent (chars h). generalize dependent (chars h'). clear h h'.
  intros l' Hl' l Hl E.
  do 32 (destruct l as [|? l]; [discriminate|]). destruct l; [|discriminate].
  do 32 (destruct l' as [|? l']; [discriminate|]). destruct l'; [|discriminate].
  cbn in E. congruence.
Qed.

Lemma uuid_str_inj u v : uuid_ok u → uuid_ok v → uuid_str u = uuid_str v → u = v.
Proof.
  intros Hu Hv E. apply uuid_hex_inj; [done..|].
  apply group_inj; [apply uuid_hex_length..|exact E].
Qed.

Lemma uuid_str_one_line u : one_line (uuid_str u).
Proof.
  change (uuid_str u) with (group (uuid_hex u)). unfold one_line.
  rewrite group_chars by apply uuid_hex_length.
  assert (H : one_line (uuid_hex u)) by (apply hex_digits_one_line; [lia|apply not_elem_of_nil]).
  unfold one_line in H. set (l := chars (uuid_hex u)) in *.
  assert (Hsub : ∀ i j, chr 10 ∉ take i (drop j l)).
  { intros i j Hin. apply H. by eapply elem_of_drop_in, elem_of_take_in. }
  pose proof (Hsub 8%nat 0%nat) as H0. rewrite drop_0 in H0.
  repeat (rewrite ?not_elem_of_app, ?not_elem_of_cons; split_and?); auto; discriminate.
Qed.

(** ** What a digest determines *)

(** Two actions that would do the same thing: every field the digest covers. *)
Definition same_executable (a b : Action.t) : Prop :=
  Action.tenant_id a = Action.tenant_id b ∧ Action.run_id a = Action.run_id b ∧
  Action.task_id a = Action.task_id b ∧ Action.action_id a = Action.action_id b ∧
  Action.tool_name a = Action.tool_name b ∧ Action.tool_version a = Action.tool_version b ∧
  Action.operation a = Action.operation b ∧
  Action.resource_scope a = Action.resource_scope b ∧
  Action.parameters a = Action.parameters b ∧ Action.risk_level a = Action.risk_level b ∧
  Action.idempotency_key a = Action.idempotency_key b ∧
  Action.expected_effect a = Action.expected_effect b ∧
  Action.classification a = Action.classification b ∧
  Action.execution_mode a = Action.execution_mode b.

(** The fields of an action are UUIDs and single lines of text. *)
Definition lines_ok (a : Action.t) : Prop :=
  uuid_ok (Action.tenant_id a) ∧ uuid_ok (Action.run_id a) ∧
  uuid_ok (Action.task_id a) ∧ uuid_ok (Action.action_id a) ∧
  Forall one_line [Action.tool_name a; Action.tool_version a; Action.operation a;
    Action.resource_scope a; JsonObject.canonical (Action.parameters a);
    Action.idempotency_key a; Action.expected_effect a].

#[export] Instance lines_ok_dec a : Decision (lines_ok a).
Proof. unfold lines_ok, uuid_ok. apply _. Defined.

Lemma fields_one_line a : lines_ok a → Forall one_line (Action.fields a).
Proof.
  intros (_ & _ & _ & _ & H). repeat (apply list.Forall_cons in H as [? H]).
  unfold Action.fields, canonical_fields.
  repeat apply list.Forall_cons_2; auto using uuid_str_one_line.
  - destruct (Action.risk_level a); vm_compute; set_solver.
  - destruct (Action.classification a); vm_compute; set_solver.
  - destruct (Action.execution_mode a); vm_compute; set_solver.
Qed.

Lemma fields_inj a b : lines_ok a → lines_ok b →
  Action.fields a = Action.fields b → same_executable a b.
Proof.
  intros (? & ? & ? & ? & _) (? & ? & ? & ? & _) E. unfold Action.fields, canonical_fields in E.
  repeat (apply cons_eq_inj in E as [? E]).
  unfold same_executable. split_and!; auto using uuid_str_inj.
  - destruct (Action.parameters a) eqn:Ea, (Action.parameters b) eqn:Eb; cbn in *; congruence.
  - by apply (inj (value (S := RiskLevel.t))).
  - by apply (inj (value (S := DataClassification.t))).
  - by apply (inj (value (S := ExecutionMode.t))).
Qed.

Lemma digest_binds a b : lines_ok a → lines_ok b →
  Action.canonical_digest a = Action.canonical_digest b →
  same_executable a b ∨
  collides (join newline (Action.fields a)) (join newline (Action.fields b)).
Proof.
  intros Ha Hb [E|?]%sha256_hex_inj; [left|by right].
  apply fields_inj; [done..|].
  apply join_lines_inj; auto using fields_one_line.
Qed.

(** What a positive answer of [authorizes] says. *)
Lemma authorizes_true q a pv at_ now :
  ApprovalRequest.authorizes q a pv at_ now = Ok true ↔
  ApprovalRequest.status q = ApprovalStatus.APPROVED ∧
  dt_lt (default now at_) (ApprovalRequest.expires_at q) = Ok true ∧
  ApprovalRequest.tenant_id q = Action.tenant_id a ∧
  ApprovalRequest.run_id q = Action.run_id a ∧
  ApprovalRequest.action_id q = Action.action_id a ∧
  ApprovalRequest.action_digest q = Action.canonical_digest a ∧
  ApprovalRequest.tool_version q = Action.tool_version a ∧
  ApprovalRequest.operation q = Action.operation a ∧
  ApprovalRequest.resource_scope q = Action.resource_scope a ∧
  ApprovalRequest.argument_digest q = Action.parameter_digest a ∧
  ApprovalRequest.policy_version q = pv.
Proof.
  unfold ApprovalRequest.authorizes. case_bool_decide as Hs; cbn [mbind res_bind negb]; [|naive_solver].
  destruct (dt_lt _ _) as [live|e]; cbn [mbind res_bind negb]; [|naive_solver].
  split.
  - intros [= E]. rewrite !andb_true_iff, !bool_decide_eq_true in E.
    destruct_and? E. subst live. auto 12.
  - intros (_ & [= ->] & E). f_equal. rewrite !andb_true_iff, !bool_decide_eq_true. tauto.
Qed.

(** C28. When one approval authorizes two actions whose fields have no line breaks, it
    was not expired, its policy version is the one asked for, and they are the same
    executable action, unless their canonical texts are a SHA-256 collision. *)
Theorem approval_binds_action q x y pv at_ now :
  ApprovalRequest.action_digest q = Action.canonical_digest x →
  lines_ok x → lines_ok y →
  ApprovalRequest.authorizes q y pv at_ now = Ok true →
  dt_lt (default now at_) (ApprovalRequest.expires_at q) = Ok true ∧
  ApprovalRequest.policy_version q = pv ∧
  (same_executable x y ∨
   collides (join newline (Action.fields x)) (join newline (Action.fields y))).
Proof.
  intros Eq Hx Hy (? & ? & ? & ? & ? & Ed & ? & ? & ? & ? & ?)%authorizes_true.
  split_and!; [done..|]. apply digest_binds; [done..|]. congruence.
Qed.

(** A payment of the sample tenant, used to evaluate the definitions. *)
Definition sample_action : Action.t := {|
  Action.tenant_id := 1%N; Action.run_id := 2%N; Action.task_id := 3%N;
  Action.tool_name := "ledger"; Action.tool_version := "1.0.0";
  Action.operation := "post"; Action.resource_scope := "ledger/main";
  Action.parameters := JsonObject.mk "{}"; Action.risk_level := RiskLevel.L2_REVERSIBLE_WRITE;
  Action.idempotency_key := "key-1"; Action.expected_effect := "entry posted";
  Action.classification := DataClassification.INTERNAL;
  Action.execution_mode := ExecutionMode.SUPERVISED; Action.action_id := 4%N;
  Action.status := ActionStatus.PROPOSED; Action.optimistic_version := 1;
  Action.transitions := [] |}.

Definition sample_approval : ApprovalRequest.t := {|
  ApprovalRequest.tenant_id := 1%N; ApprovalRequest.run_id := 2%N;
  ApprovalRequest.action_id := 4%N;
  ApprovalRequest.action_digest := Action.canonical_digest sample_action;
  ApprovalRequest.tool_version := "1.0.0"; ApprovalRequest.operation := "post";
  ApprovalRequest.resource_scope := "ledger/main";
  ApprovalRequest.argument_digest := Action.parameter_digest sample_action;
  ApprovalRequest.policy_version := "policy-1"; ApprovalRequest.impact_summary := "one entry";
  ApprovalRequest.required_role := "approver"; ApprovalRequest.expires_at := Aware 1000;
  ApprovalRequest.approval_id := 5%N; ApprovalRequest.status := ApprovalStatus.APPROVED;
  ApprovalRequest.decided_by := Some 6%N; ApprovalRequest.reason := Some "ok";
  ApprovalRequest.created_at := Aware 0; ApprovalRequest.decided_at := Some (Aware 10);
  ApprovalRequest.optimistic_version := 2; ApprovalRequest.transitions := [];
  ApprovalRequest.required_reviews := 1; ApprovalRequest.reviews := [] |}.

Lemma approval_binds_action_witness :
  dt_lt (Aware 20) (ApprovalRequest.expires_at sample_approval) = Ok true ∧
  ApprovalRequest.policy_version sample_approval = "policy-1" ∧
  (same_executable sample_action sample_action ∨
   collides (join newline (Action.fields sample_action))
     (join newline (Action.fields sample_action))).
Proof.
  apply (approval_binds_action sample_approval sample_action sample_action "policy-1"
           None (Aware 20)).
  - reflexivity.
  - vm_compute. intuition discriminate || (repeat constructor; set_solver).
  - vm_compute. intuition discriminate || (repeat constructor; set_solver).
  - vm_compute. reflexivity.
Defined.

(** Two payments that differ in where the idempotency key ends. *)
Definition split_key : Action.t :=
  sample_action <| Action.idempotency_key := "key-1" |>
                <| Action.expected_effect := "a" +:+ newline +:+ "b" |>.
Definition joined_key : Action.t :=
  sample_action <| Action.idempotency_key := "key-1" +:+ newline +:+ "a" |>
                <| Action.expected_effect := "b" |>.

Theorem digest_ambiguous_with_newlines :
  Action.new split_key = Ok split_key ∧ Action.new joined_key = Ok joined_key ∧
  Action.idempotency_key split_key ≠ Action.idempotency_key joined_key ∧
  Action.canonical_digest split_key = Action.canonical_digest joined_key.
Proof. split_and!; [reflexivity|reflexivity|discriminate|].
  unfold Action.canonical_digest. f_equal. Qed.

(** ** Envelopes *)

(** An envelope that passed validation carries the digest of its own fields. *)
Lemma envelope_new_ok e e' :
  ActionExecutionEnvelope.new e = Ok e' →
  e' = e ∧
  ActionExecutionEnvelope.action_digest e =
    sha256_hex (join newline (ActionExecutionEnvelope.fields e)) ∧
  is_naive (ActionExecutionEnvelope.deadline e) = false.
Proof.
  unfold ActionExecutionEnvelope.new, ActionExecutionEnvelope.post_init.
  intros H. inv_ok. bool_hyps. done.
Qed.

Lemma envelope_new_intro e :
  any blank [ActionExecutionEnvelope.agent_identity e; ActionExecutionEnvelope.delegation_ref e;
    ActionExecutionEnvelope.tool_name e; ActionExecutionEnvelope.tool_version e;
    ActionExecutionEnvelope.operation e; ActionExecutionEnvelope.resource_scope e;
    ActionExecutionEnvelope.idempotency_key e; ActionExecutionEnvelope.budget_ref e;
    ActionExecutionEnvelope.policy_version e; ActionExecutionEnvelope.expected_effect e;
    ActionExecutionEnvelope.traceparent e] = false →
  is_naive (ActionExecutionEnvelope.deadline e) = false →
  ActionExecutionEnvelope.action_digest e =
    sha256_hex (join newline (ActionExecutionEnvelope.fields e)) →
  ActionExecutionEnvelope.new e = Ok e.
Proof.
  unfold ActionExecutionEnvelope.new, ActionExecutionEnvelope.post_init. intros -> -> E.
  rewrite E, sha256_hex_ok, bool_decide_eq_true_2 by reflexivity. reflexivity.
Qed.

(** The envelope of an action repeats the action's executable fields. *)
Lemma envelope_fields fresh a actor principal agent delegation budget approval pv deadline trace e :
  ActionExecutionEnvelope.from_action fresh a actor principal agent delegation budget
    approval pv deadline trace = Ok e →
  ActionExecutionEnvelope.fields e = Action.fields a ∧
  ActionExecutionEnvelope.action_digest e = Action.canonical_digest a ∧
  ActionExecutionEnvelope.approval_id e = approval ∧
  ActionExecutionEnvelope.deadline e = deadline.
Proof.
  unfold ActionExecutionEnvelope.from_action. by intros (-> & _ & _)%envelope_new_ok.
Qed.

Theorem envelope_of_valid_action fresh a actor principal agent delegation budget approval
    pv deadline trace :
  Action.new a = Ok a →
  any blank [agent; delegation; budget; pv; trace] = false →
  is_naive deadline = false →
  ∃ e, ActionExecutionEnvelope.from_action fresh a actor principal agent delegation budget
         approval pv deadline trace = Ok e ∧
    ActionExecutionEnvelope.fields e = Action.fields a ∧
    ActionExecutionEnvelope.action_digest e = Action.canonical_digest a.
Proof.
  unfold Action.new, Action.post_init. intros Ha Hb Hd.
  inv_ok. cbn -[blank] in Hx0, Hb. rewrite !orb_false_iff in Hx0, Hb.
  eexists. split; [apply envelope_new_intro; [|exact Hd|reflexivity]|done].
  destruct_and!. cbn -[blank]. rewrite !orb_false_iff. rewrite orb_false_r in *. tauto.
Qed.

Lemma envelope_of_valid_action_witness : ∃ e,
  ActionExecutionEnvelope.from_action 9%N sample_action 1%N 2%N "agent" "delegation" "budget"
    (Some 5%N) "policy-1" (Aware 100) "trace" = Ok e ∧
  ActionExecutionEnvelope.fields e = Action.fields sample_action ∧
  ActionExecutionEnvelope.action_digest e = Action.canonical_digest sample_action.
Proof. apply envelope_of_valid_action; reflexivity. Defined.

(** * Approvals as a state machine

    [decided q0 q]: [q] is reached from the pending request [q0] by any
    sequence of [ApprovalRequest.decide] calls, each with its own reviewer and
    clock reading.  Rule induction shows the four-eyes guarantee: an approved
    request carries as many approving reviews as it requires, by distinct
    principals, all before the expiry, for the binding it was created with. *)

Open Scope string_scope.
Open Scope list_scope.
Open Scope Z_scope.

(** The fields [decide] never changes: what is approved and under which rule. *)
Definition binding (q : ApprovalRequest.t) :=
  (ApprovalRequest.tenant_id q, ApprovalRequest.run_id q, ApprovalRequest.action_id q,
   ApprovalRequest.action_digest q, ApprovalRequest.tool_version q,
   ApprovalRequest.operation q, ApprovalRequest.resource_scope q,
   ApprovalRequest.argument_digest q, ApprovalRequest.policy_version q,
   ApprovalRequest.required_role q, ApprovalRequest.expires_at q,
   ApprovalRequest.approval_id q, ApprovalRequest.required_reviews q).

(** A request as [request_approval] creates it. *)
Definition requested (q : ApprovalRequest.t) : Prop :=
  ApprovalRequest.new q = Ok q ∧ ApprovalRequest.status q = ApprovalStatus.PENDING ∧
  ApprovalRequest.reviews q = [] ∧ ApprovalRequest.optimistic_version q = 1 ∧
  ApprovalRequest.transitions q = [].

Inductive decided (q0 : ApprovalRequest.t) : ApprovalRequest.t → Prop :=
  | decided_start : decided q0 q0
  | decided_step q q' approver approved why principal now :
      decided q0 q →
      ApprovalRequest.decide q approver approved why principal now = Ok q' →
      decided q0 q'.

(** The three ways [decide] returns. *)
Inductive decision (q q' : ApprovalRequest.t) (principal : uuid) (now : datetime) : bool → Prop :=
  | decision_expired approved :
      dt_ge now (ApprovalRequest.expires_at q) = Ok true →
      ApprovalRequest.status q' = ApprovalStatus.EXPIRED →
      ApprovalRequest.reviews q' = ApprovalRequest.reviews q →
      decision q q' principal now approved
  | decision_partial r :
      dt_ge now (ApprovalRequest.expires_at q) = Ok false →
      ApprovalRequest.status q' = ApprovalStatus.PENDING →
      ApprovalRequest.reviews q' = ApprovalRequest.reviews q ++ [r] →
      ApprovalReview.approved r = true → ApprovalReview.principal_id r = principal →
      ApprovalReview.reviewed_at r = now →
      Z.of_nat (length (ApprovalRequest.reviews q')) < ApprovalRequest.required_reviews q →
      decision q q' principal now true
  | decision_final r (approved : bool) :
      dt_ge now (ApprovalRequest.expires_at q) = Ok false →
      ApprovalRequest.status q' =
        (if approved then ApprovalStatus.APPROVED else ApprovalStatus.REJECTED) →
      ApprovalRequest.reviews q' = ApprovalRequest.reviews q ++ [r] →
      ApprovalReview.approved r = approved → ApprovalReview.principal_id r = principal →
      ApprovalReview.reviewed_at r = now →
      (approved = true →
       ApprovalRequest.required_reviews q ≤ Z.of_nat (length (ApprovalRequest.reviews q'))) →
      decision q q' principal now approved.

Lemma approval_new_ok q q' : ApprovalRequest.new q = Ok q' → q' = q ∧
  NoDup (ApprovalRequest.principals q) ∧ ApprovalRequest.required_reviews q ∈ [1; 2] ∧
  is_naive (ApprovalRequest.expires_at q) = false.
Proof.
  unfold ApprovalRequest.new, ApprovalRequest.post_init. intros H. inv_ok. bool_hyps. done.
Qed.

Lemma review_new_ok actor principal approved why now r :
  ApprovalReview.new actor principal approved why now = Ok r →
  r = ApprovalReview.mk actor principal approved why now.
Proof. unfold ApprovalReview.new. intros H. by inv_ok. Qed.

Lemma decide_ok q q' approver approved why principal now :
  ApprovalRequest.decide q approver approved why principal now = Ok q' →
  ApprovalRequest.status q = ApprovalStatus.PENDING ∧ binding q' = binding q ∧
  ApprovalRequest.optimistic_version q' = ApprovalRequest.optimistic_version q + 1 ∧
  NoDup (ApprovalRequest.principals q') ∧
  default approver principal ∉ ApprovalRequest.principals q ∧
  decision q q' (default approver principal) now approved.
Proof.
  unfold ApprovalRequest.decide. intros H. inv_ok. bool_hyps.
  match goal with H : dt_ge _ _ = Ok ?b |- _ => destruct b end.
  - inv_ok. apply approval_new_ok in H as (-> & Hnd & _ & _).
    split_and!; try done. by apply decision_expired.
  - inv_ok. match goal with H : ApprovalReview.new _ _ _ _ _ = Ok _ |- _ =>
      apply review_new_ok in H as -> end.
    case_match eqn:Eb.
    + bool_hyps. apply approval_new_ok in H as (-> & Hnd & _ & _).
      split_and!; try done. subst approved. by eapply decision_partial.
    + inv_ok. apply approval_new_ok in H as (-> & Hnd & _ & _).
      split_and!; try done. eapply decision_final; try done.
      intros ->. cbn in Eb. by apply Z.ltb_ge in Eb.
Qed.

(** What holds of a request in every state it can reach. *)
Record approval_ok (q0 q : ApprovalRequest.t) : Prop := {
  ao_binding : binding q = binding q0;
  ao_distinct : NoDup (ApprovalRequest.principals q);
  ao_before : Forall (fun r => dt_lt (ApprovalReview.reviewed_at r)
    (ApprovalRequest.expires_at q) = Ok true) (ApprovalRequest.reviews q);
  ao_approving : ApprovalRequest.status q ≠ ApprovalStatus.REJECTED →
    Forall (fun r => ApprovalReview.approved r = true) (ApprovalRequest.reviews q);
  ao_pending : ApprovalRequest.status q = ApprovalStatus.PENDING →
    Z.of_nat (length (ApprovalRequest.reviews q)) < ApprovalRequest.required_reviews q;
  ao_approved : ApprovalRequest.status q = ApprovalStatus.APPROVED →
    Z.of_nat (length (ApprovalRequest.reviews q)) = ApprovalRequest.required_reviews q
}.

Lemma dt_ge_false_lt a b : dt_ge a b = Ok false → dt_lt a b = Ok true.
Proof.
  destruct a, b; cbn; try done; intros [= H]; f_equal; apply Z.ltb_lt; by apply Z.leb_gt in H.
Qed.

Lemma requested_ok q : requested q → approval_ok q q.
Proof.
  intros (Hn & Hs & Hr & _ & _). apply approval_new_ok in Hn as (_ & Hnd & Hreq & _).
  constructor; rewrite ?Hr, ?Hs; try done; try constructor.
  intros _. cbn. rewrite !elem_of_cons in Hreq. destruct Hreq as [->|[->|?%elem_of_nil]]; [lia..|done].
Qed.

Lemma decide_preserves q0 q q' approver approved why principal now :
  approval_ok q0 q →
  ApprovalRequest.decide q approver approved why principal now = Ok q' → approval_ok q0 q'.
Proof.
  intros [Hb Hd Hbef Hap Hpe Ha] (Hs & Eb & _ & Hnd & _ & Hdec)%decide_ok.
  specialize (Hpe Hs). assert (Hap' := Hap ltac:(congruence)).
  assert (Ee : ApprovalRequest.expires_at q' = ApprovalRequest.expires_at q) by (by injection Eb).
  assert (Er : ApprovalRequest.required_reviews q' = ApprovalRequest.required_reviews q)
    by (by injection Eb).
  destruct Hdec as [approved Hx Es Erev|r Hx Es Erev Hr _ Hat Hlen|r approved Hx Es Erev Hr _ Hat Hlen].
  - constructor; rewrite ?Ee, ?Er, ?Erev; try congruence.
  - constructor; rewrite ?Ee, ?Er; try congruence.
    + rewrite Erev. apply Forall_app_2; [done|]. constructor; [|constructor].
      rewrite Hat. by apply dt_ge_false_lt.
    + intros _. rewrite Erev. apply Forall_app_2; [done|]. by constructor; [|constructor].
  - constructor; rewrite ?Ee, ?Er; try congruence.
    + rewrite Erev. apply Forall_app_2; [done|]. constructor; [|constructor].
      rewrite Hat. by apply dt_ge_false_lt.
    + intros Hne. destruct approved; [|congruence].
      rewrite Erev. apply Forall_app_2; [done|]. by constructor; [|constructor].
    + rewrite Es. by destruct approved.
    + intros Ea. destruct approved; [|congruence]. specialize (Hlen eq_refl).
      rewrite Erev, length_app in *. cbn in *. lia.
Qed.

Lemma decided_ok q0 q : requested q0 → decided q0 q → approval_ok q0 q.
Proof. intros Hq. induction 1; eauto using requested_ok, decide_preserves. Qed.

Theorem approval_four_eyes q0 q :
  requested q0 → decided q0 q → ApprovalRequest.status q = ApprovalStatus.APPROVED →
  binding q = binding q0 ∧
  NoDup (ApprovalRequest.principals q) ∧
  Z.of_nat (length (ApprovalRequest.reviews q)) = ApprovalRequest.required_reviews q0 ∧
  Forall (fun r => ApprovalReview.approved r = true ∧
    dt_lt (ApprovalReview.reviewed_at r) (ApprovalRequest.expires_at q0) = Ok true)
    (ApprovalRequest.reviews q).
Proof.
  intros Hq Hd Hs. destruct (decided_ok q0 q Hq Hd) as [Hb Hnd Hbef Hap _ Ha].
  assert (Ee : ApprovalRequest.expires_at q = ApprovalRequest.expires_at q0) by (by injection Hb).
  assert (Er : ApprovalRequest.required_reviews q = ApprovalRequest.required_reviews q0)
    by (by injection Hb).
  split_and!; [done|done|rewrite <- Er; auto|].
  rewrite <- Ee. apply Forall_and. split; [apply Hap; congruence|done].
Qed.

(** A two-person request, approved by two principals. *)
Definition two_person : ApprovalRequest.t :=
  sample_approval <| ApprovalRequest.status := ApprovalStatus.PENDING |>
    <| ApprovalRequest.decided_by := None |> <| ApprovalRequest.reason := None |>
    <| ApprovalRequest.decided_at := None |> <| ApprovalRequest.optimistic_version := 1 |>
    <| ApprovalRequest.required_reviews := 2 |>.

(** The state after a sequence of approving reviews. *)
Fixpoint review_all (q : ApprovalRequest.t) (reviewers : list (uuid * datetime))
    : res ApprovalRequest.t :=
  match reviewers with
  | [] => Ok q
  | (actor, now) :: reviewers' =>
      q' ← ApprovalRequest.decide q actor true "reviewed" None now; review_all q' reviewers'
  end.

Lemma review_all_decided q0 q l q' :
  decided q0 q → review_all q l = Ok q' → decided q0 q'.
Proof.
  revert q. induction l as [|[actor now] l IH]; intros q Hd H; cbn in H; inv_ok; [done|].
  eapply IH; [|done]. by eapply decided_step.
Qed.

Definition two_person_approved : ApprovalRequest.t :=
  match review_all two_person [(7%N, Aware 20); (8%N, Aware 30)] with
  | Ok q => q | Err _ => two_person
  end.

Lemma approval_four_eyes_witness :
  requested two_person ∧
  ApprovalRequest.status two_person_approved = ApprovalStatus.APPROVED ∧
  Z.of_nat (length (ApprovalRequest.reviews two_person_approved)) = 2.
Proof.
  assert (Hr : requested two_person) by (vm_compute; split_and!; reflexivity).
  split; [exact Hr|]. split; [vm_compute; reflexivity|].
  apply (approval_four_eyes two_person two_person_approved Hr).
  - apply (review_all_decided _ two_person [(7%N, Aware 20); (8%N, Aware 30)]);
      [constructor|vm_compute; reflexivity].
  - vm_compute. reflexivity.
Defined.

(** A reviewer cannot be counted twice: the second review of a principal is
    refused, whatever it says. *)
Lemma same_principal_refused q approver approved why principal now :
  ApprovalRequest.status q = ApprovalStatus.PENDING → blank why = false →
  default approver principal ∈ ApprovalRequest.principals q →
  ApprovalRequest.decide q approver approved why principal now =
    raise PermissionError "the same principal cannot submit two approval reviews".
Proof.
  intros Hs Hb Hin%mem_true. unfold ApprovalRequest.decide. rewrite Hs, Hb, Hin. done.
Qed.
