(* ===== verification/Identity.v ===== *)
(** * packages/domain: identity.py and assets.py

    Identities, scoped delegations and emergency authorizations, and the
    versioned agent, skill and tool assets. *)

From S2P Require Import Prelude PyStr PyDict PyFloat Json Transitions.
From Stdlib Require Import ZArith.

Open Scope string_scope.
Open Scope list_scope.
Open Scope Z_scope.

Module IdentityKind.
Inductive t := HUMAN | SERVICE | AGENT.
#[global] Instance t_eq_dec : EqDecision t.
Proof. solve_decision. Defined.
End IdentityKind.

(** [not s] for an optional string. *)
Definition missing (s : option string) : bool :=
  match s with Some s => empty s | None => true end.

Module EnterpriseIdentity.
Record t := mk {
  tenant_id : uuid;
  actor_id : uuid;
  principal_id : uuid;
  subject : string;
  kind : IdentityKind.t;
  service_id : option string;
  agent_id : option string
}.

Definition post_init (x : t) : res unit :=
  raise_if (blank (subject x)) ValueError "identity subject is required" ;;
  raise_if (bool_decide (kind x = IdentityKind.SERVICE) && missing (service_id x)) ValueError
    "service identity requires service_id" ;;
  raise_if (bool_decide (kind x = IdentityKind.AGENT) && missing (agent_id x)) ValueError
    "agent identity requires agent_id".

Definition new (x : t) : res t := post_init x ;; Ok x.
End EnterpriseIdentity.

Module DelegationGrant.
Record t := mk {
  tenant_id : uuid;
  grantor_principal_id : uuid;
  delegate_principal_id : uuid;
  tool_name : string;
  resource_prefix : string;
  purpose : string;
  expires_at : datetime;
  delegation_id : uuid;
  created_at : datetime;
  revoked_at : option datetime
}.

#[global] Instance eta : Settable t := fun x =>
  mk (tenant_id x) (grantor_principal_id x) (delegate_principal_id x) (tool_name x)
     (resource_prefix x) (purpose x) (expires_at x) (delegation_id x) (created_at x)
     (revoked_at x).

Definition post_init (x : t) : res unit :=
  raise_if (any blank [tool_name x; resource_prefix x; purpose x]) ValueError
    "delegation tool, resource scope, and purpose are required" ;;
  raise_if (is_naive (expires_at x) || is_naive (created_at x)) ValueError
    "delegation timestamps must be timezone-aware" ;;
  late ← dt_le (expires_at x) (created_at x);
  raise_if late ValueError "delegation must be short-lived and expire after issuance" ;;
  raise_if (bool_decide (grantor_principal_id x = delegate_principal_id x)) ValueError
    "self-delegation is not permitted".

Definition new (x : t) : res t := post_init x ;; Ok x.

Definition revoke (x : t) (at_ : option datetime) (now : datetime) : res t :=
  new (x <| revoked_at := Some (default now at_) |>).

Definition authorizes (x : t) (tenant principal : uuid) (tool resource purpose' : string)
    (at_ : option datetime) (now : datetime) : res bool :=
  let now := default now at_ in
  if negb (is_none (revoked_at x)) then Ok false else
  live ← dt_lt now (expires_at x);
  Ok (live && bool_decide (tenant = tenant_id x) &&
      bool_decide (principal = delegate_principal_id x) &&
      bool_decide (tool = tool_name x) && startswith resource (resource_prefix x) &&
      bool_decide (purpose' = purpose x)).
End DelegationGrant.

Module TemporaryAuthorization.
Record t := mk {
  tenant_id : uuid;
  principal_id : uuid;
  scope : string;
  reason : string;
  expires_at : datetime;
  authorization_id : uuid;
  created_at : datetime;
  reviewed_by : option uuid;
  reviewed_at : option datetime
}.

#[global] Instance eta : Settable t := fun x =>
  mk (tenant_id x) (principal_id x) (scope x) (reason x) (expires_at x) (authorization_id x)
     (created_at x) (reviewed_by x) (reviewed_at x).

Definition post_init (x : t) : res unit :=
  raise_if (blank (scope x) || blank (reason x)) ValueError
    "temporary authorization scope and reason are required" ;;
  past ← (if is_naive (expires_at x) then Ok true else dt_le (expires_at x) (created_at x));
  raise_if past ValueError "temporary authorization requires a future timezone-aware expiry".

Definition new (x : t) : res t := post_init x ;; Ok x.

Definition review (x : t) (reviewer : uuid) (at_ : option datetime) (now : datetime) : res t :=
  raise_if (bool_decide (reviewer = principal_id x)) ValueError
    "emergency authorization requires independent post-review" ;;
  new (x <| reviewed_by := Some reviewer |> <| reviewed_at := Some (default now at_) |>).
End TemporaryAuthorization.

(** ** assets.py *)

Module AssetStage.
Inductive t := CANDIDATE | STABLE | RETIRED.
#[global] Instance t_eq_dec : EqDecision t.
Proof. solve_decision. Defined.
End AssetStage.

Module SideEffectClass.
Inductive t := COMPUTE | READ | REVERSIBLE_WRITE | HIGH_IMPACT_WRITE | PRIVILEGED.
#[global] Instance t_eq_dec : EqDecision t.
Proof. solve_decision. Defined.
End SideEffectClass.

Module LoopPolicy.
Record t := mk { max_rounds : Z; max_tokens : Z; max_cost_units : Z; timeout_seconds : Z }.

Definition new (x : t) : res t :=
  raise_if (Z.min (Z.min (max_rounds x) (max_tokens x))
              (Z.min (max_cost_units x) (timeout_seconds x)) <=? 0) ValueError
    "agent loop limits must be positive" ;;
  Ok x.
End LoopPolicy.

Module AgentDefinition.
Record t := mk { tenant_id : uuid; name : string; description : string; agent_id : uuid }.
End AgentDefinition.

Module AgentVersion.
Record t := mk {
  tenant_id : uuid;
  agent_id : uuid;
  version : Z;
  instruction : string;
  model_route : string;
  skill_ids : list string;
  tool_ids : list string;
  loop_policy : LoopPolicy.t;
  stage : AssetStage.t;
  agent_version_id : uuid
}.

#[global] Instance eta : Settable t := fun x =>
  mk (tenant_id x) (agent_id x) (version x) (instruction x) (model_route x) (skill_ids x)
     (tool_ids x) (loop_policy x) (stage x) (agent_version_id x).

Definition post_init (x : t) : res unit :=
  raise_if ((version x <? 1) || blank (instruction x) || blank (model_route x)) ValueError
    "agent version, instruction, and model route are required".

Definition new (x : t) : res t := post_init x ;; Ok x.
End AgentVersion.

Module SkillDefinition.
Record t := mk {
  skill_id : string; version : string; input_schema : list (string * json);
  output_schema : list (string * json); executor : string; evaluation_suite_id : string
}.

Definition new (x : t) : res t :=
  raise_if (any blank [skill_id x; version x; executor x; evaluation_suite_id x]) ValueError
    "skill identifiers must not be empty" ;;
  Ok x.
End SkillDefinition.

Module ToolDefinition.
Record t := mk {
  tool_id : string; version : string; input_schema : list (string * json);
  output_schema : list (string * json); adapter : string; side_effect : SideEffectClass.t;
  idempotent : bool; verification : string; compensation : option string
}.

Definition new (x : t) : res t :=
  raise_if (any blank [tool_id x; version x; adapter x; verification x]) ValueError
    "tool identifiers and verification must not be empty" ;;
  raise_if (mem (side_effect x) [SideEffectClass.REVERSIBLE_WRITE;
              SideEffectClass.HIGH_IMPACT_WRITE; SideEffectClass.PRIVILEGED] &&
            negb (idempotent x)) ValueError
    "write tools must declare an idempotent execution contract" ;;
  Ok x.
End ToolDefinition.

(** ** Delegations *)

(** A positive answer: the grant is live, unrevoked and covers the request. *)
Lemma delegation_authorizes_true g tenant principal tool resource purpose at_ now :
  DelegationGrant.authorizes g tenant principal tool resource purpose at_ now = Ok true ↔
  DelegationGrant.revoked_at g = None ∧
  dt_lt (default now at_) (DelegationGrant.expires_at g) = Ok true ∧
  tenant = DelegationGrant.tenant_id g ∧ principal = DelegationGrant.delegate_principal_id g ∧
  tool = DelegationGrant.tool_name g ∧
  startswith resource (DelegationGrant.resource_prefix g) = true ∧
  purpose = DelegationGrant.purpose g.
Proof.
  unfold DelegationGrant.authorizes.
  destruct (DelegationGrant.revoked_at g); cbn; [naive_solver|].
  destruct (dt_lt _ _) as [live|e]; cbn; [|naive_solver]. split.
  - intros [= E]. rewrite !andb_true_iff, !bool_decide_eq_true in E. destruct_and? E.
    subst live. auto 8.
  - intros (_ & [= ->] & E). f_equal. rewrite !andb_true_iff, !bool_decide_eq_true. tauto.
Qed.

Theorem revoked_delegation_never_authorizes g at_ now g' tenant principal tool resource
    purpose at' now' :
  DelegationGrant.revoke g at_ now = Ok g' →
  DelegationGrant.authorizes g' tenant principal tool resource purpose at' now' = Ok false.
Proof.
  unfold DelegationGrant.revoke, DelegationGrant.new. intros H. by inv_ok.
Qed.
