(* ===== verification/Improvement.v ===== *)
(** * packages/domain: improvement.py

    Proposals, candidate versions, deployments with their traffic split,
    observations, shadow measurements and releases. *)

From S2P Require Import Prelude PyStr PyDict PyFloat Json Sha256 Transitions Values Goals.
From S2P Require Import Execution ExecutionObjects History.
From Stdlib Require Import ZArith.

Open Scope string_scope.
Open Scope list_scope.
Open Scope Z_scope.

Module ImprovementTarget.
Inductive t := AGENT_INSTRUCTION | SKILL | PROMPT_ASSET | MODEL_ROUTE.
#[global] Instance t_eq_dec : EqDecision t.
Proof. solve_decision. Defined.
Definition value (x : t) : string :=
  match x with
  | AGENT_INSTRUCTION => "agent_instruction" | SKILL => "skill"
  | PROMPT_ASSET => "prompt_asset" | MODEL_ROUTE => "model_route"
  end.
End ImprovementTarget.

Definition FORBIDDEN_IMPROVEMENT_TARGETS : list string :=
  ["identity"; "delegation"; "tenant_isolation"; "policy_root"; "audit_retention";
   "kill_switch"; "production_code"; "infrastructure"].

Definition require_improvement_target_allowed (raw_target : string) : res unit :=
  raise_if (mem (lower (strip raw_target)) FORBIDDEN_IMPROVEMENT_TARGETS) PermissionError
    ("improvement target is forbidden: " +:+ lower (strip raw_target)).

Module CandidateStatus.
Inductive t := DRAFT | EVALUATING | AWAITING_APPROVAL | APPROVED | REJECTED.
#[global] Instance t_eq_dec : EqDecision t.
Proof. solve_decision. Defined.
Definition value (x : t) : string :=
  match x with
  | DRAFT => "draft" | EVALUATING => "evaluating"
  | AWAITING_APPROVAL => "awaiting_approval" | APPROVED => "approved"
  | REJECTED => "rejected"
  end.
End CandidateStatus.

Module DeploymentStatus.
Inductive t := SHADOW | CANARY | STABLE | FAILED | ROLLED_BACK.
#[global] Instance t_eq_dec : EqDecision t.
Proof. solve_decision. Defined.
Definition value (x : t) : string :=
  match x with
  | SHADOW => "shadow" | CANARY => "canary" | STABLE => "stable"
  | FAILED => "failed" | ROLLED_BACK => "rolled_back"
  end.
End DeploymentStatus.

Module GuardrailOperator.
Inductive t := LT | GT | LTE | GTE.
#[global] Instance t_eq_dec : EqDecision t.
Proof. solve_decision. Defined.
End GuardrailOperator.

#[export] Instance CandidateStatus_enum : StrEnum CandidateStatus.t.
Proof. refine {| value := CandidateStatus.value |}. solve_enum. Defined.
#[export] Instance DeploymentStatus_enum : StrEnum DeploymentStatus.t.
Proof. refine {| value := DeploymentStatus.value |}. solve_enum. Defined.

Definition CANDIDATE_EVALUATION_DECISIONS : list string :=
  ["met"; "not_met"; "insufficient_sample"].

Definition CANDIDATE_TRANSITIONS (s : CandidateStatus.t) : list CandidateStatus.t :=
  match s with
  | CandidateStatus.DRAFT => [CandidateStatus.EVALUATING; CandidateStatus.REJECTED]
  | CandidateStatus.EVALUATING =>
      [CandidateStatus.AWAITING_APPROVAL; CandidateStatus.REJECTED]
  | CandidateStatus.AWAITING_APPROVAL => [CandidateStatus.APPROVED; CandidateStatus.REJECTED]
  | _ => []
  end.

Definition DEPLOYMENT_TRANSITIONS (s : DeploymentStatus.t) : list DeploymentStatus.t :=
  match s with
  | DeploymentStatus.SHADOW =>
      [DeploymentStatus.CANARY; DeploymentStatus.FAILED; DeploymentStatus.ROLLED_BACK]
  | DeploymentStatus.CANARY =>
      [DeploymentStatus.STABLE; DeploymentStatus.FAILED; DeploymentStatus.ROLLED_BACK]
  | DeploymentStatus.STABLE => [DeploymentStatus.ROLLED_BACK]
  | _ => []
  end.

Module CandidateEvaluation.
Record t := mk {
  tenant_id : uuid;
  candidate_id : uuid;
  decision : string;
  trial_ids : list uuid;
  assessment : list (string * json);
  grader_principal_id : string;
  evaluation_id : uuid;
  decided_at : option datetime
}.

Definition post_init (x : t) : res unit :=
  raise_if (negb (mem (decision x) CANDIDATE_EVALUATION_DECISIONS)) ValueError
    "candidate evaluation decision is not a known gate outcome" ;;
  raise_if (bool_decide (trial_ids x = [])) ValueError
    "candidate evaluation must reference at least one Trial" ;;
  raise_if (bool_decide (length (assessment x) = 0%nat)) ValueError
    "candidate evaluation requires the assessment payload" ;;
  raise_if (blank (grader_principal_id x)) ValueError
    "candidate evaluation requires the grading principal".

Definition new (x : t) : res t := post_init x ;; Ok x.
End CandidateEvaluation.

Module ImprovementProposal.
Record t := mk {
  tenant_id : uuid;
  target : ImprovementTarget.t;
  target_version_id : uuid;
  evidence_refs : list string;
  diagnosis : string;
  proposed_change : string;
  validation_suite_id : string;
  rollback_plan : string;
  proposer_id : string;
  proposal_id : uuid
}.

Definition post_init (x : t) : res unit :=
  raise_if (bool_decide (evidence_refs x = [])) ValueError
    "improvement proposal requires evidence" ;;
  raise_if (any blank [diagnosis x; proposed_change x; validation_suite_id x;
                       rollback_plan x; proposer_id x]) ValueError
    "improvement proposal fields must not be empty".

Definition new (x : t) : res t := post_init x ;; Ok x.
End ImprovementProposal.

(** ** The canary split *)

Module TrafficRoute.
Inductive t := STABLE | CANDIDATE.
#[global] Instance t_eq_dec : EqDecision t.
Proof. solve_decision. Defined.
End TrafficRoute.

Module TrafficAllocation.
Record t := mk { salt : string; candidate_percent : Z }.

#[global] Instance eta : Settable t := fun x =>
  mk (salt x) (candidate_percent x).
#[global] Instance t_eq_dec : EqDecision t.
Proof. solve_decision. Defined.

Definition post_init (x : t) : res unit :=
  raise_if (blank (salt x)) ValueError "traffic allocation salt is required" ;;
  raise_if (negb ((1 <=? candidate_percent x) && (candidate_percent x <=? 100))) ValueError
    "traffic allocation percent must be within 1..100".

Definition new (x : t) : res t := post_init x ;; Ok x.

(** [int.from_bytes(bs, "big")] *)
Definition big_endian (bs : list Z) : Z := foldl (fun acc b => 256 * acc + b) 0 bs.

Definition percentile (x : t) (key : string) : Z :=
  big_endian (take 8 (sha256 (utf8 ("canary:" +:+ salt x +:+ ":" +:+ key)))) mod 10000.

(** [assign]; [key] is [str(request_id)]. *)
Definition assign (x : t) (key : string) : TrafficRoute.t :=
  if percentile x key <? candidate_percent x * 100
  then TrafficRoute.CANDIDATE else TrafficRoute.STABLE.
End TrafficAllocation.

Module Deployment.
Record t := mk {
  tenant_id : uuid;
  candidate_id : uuid;
  status : DeploymentStatus.t;
  deployment_id : uuid;
  optimistic_version : Z;
  transitions : list StateTransition.t;
  traffic_allocation : option TrafficAllocation.t
}.

#[global] Instance eta : Settable t := fun x =>
  mk (tenant_id x) (candidate_id x) (status x) (deployment_id x) (optimistic_version x)
     (transitions x) (traffic_allocation x).
#[global] Instance t_eq_dec : EqDecision t.
Proof. solve_decision. Defined.

Definition post_init (x : t) : res unit :=
  raise_if (optimistic_version x <? 1) ValueError
    "deployment optimistic version must be positive".

Definition new (x : t) : res t := post_init x ;; Ok x.

Definition transition_to (x : t) (target : DeploymentStatus.t) (actor_id : uuid)
    (reason : string) (occurred_at : option datetime) (now : datetime) : res t :=
  require_transition (status x) target DEPLOYMENT_TRANSITIONS ;;
  transition ← transition_record (status x) target actor_id reason occurred_at now;
  new (x <| status := target |> <| optimistic_version := optimistic_version x + 1 |>
         <| transitions := transitions x ++ [transition] |>).

Definition enter_canary (x : t) (allocation : TrafficAllocation.t) (actor_id : uuid)
    (reason : string) (occurred_at : option datetime) (now : datetime) : res t :=
  promoted ← transition_to x DeploymentStatus.CANARY actor_id reason occurred_at now;
  new (promoted <| traffic_allocation := Some allocation |>).

Definition assign_request (x : t) (key : string) : res TrafficRoute.t :=
  raise_if (negb (bool_decide (status x = DeploymentStatus.CANARY))) ValueError
    "traffic assignment requires a canary deployment" ;;
  match traffic_allocation x with
  | None => raise ValueError "canary deployment carries no traffic allocation rule"
  | Some allocation => Ok (TrafficAllocation.assign allocation key)
  end.

Definition entered_at (x : t) (s : DeploymentStatus.t) : option datetime :=
  StateTransition.occurred_at <$>
    List.find (fun tr => bool_decide (StateTransition.to_status tr = value s)) (transitions x).
End Deployment.

Module CandidateVersion.
Record t := mk {
  tenant_id : uuid;
  proposal_id : uuid;
  baseline_version_id : uuid;
  artifact_ref : string;
  artifact_digest : string;
  suite_id : string;
  suite_version : string;
  generator_id : string;
  candidate_id : uuid;
  status : CandidateStatus.t;
  optimistic_version : Z;
  transitions : list StateTransition.t;
  grader_principal_id : option string;
  approver_principal_id : option string;
  approval_reason : option string
}.

#[global] Instance eta : Settable t := fun x =>
  mk (tenant_id x) (proposal_id x) (baseline_version_id x) (artifact_ref x)
     (artifact_digest x) (suite_id x) (suite_version x) (generator_id x) (candidate_id x)
     (status x) (optimistic_version x) (transitions x) (grader_principal_id x)
     (approver_principal_id x) (approval_reason x).
#[global] Instance t_eq_dec : EqDecision t.
Proof. solve_decision. Defined.

Definition post_init (x : t) : res unit :=
  raise_if (blank (artifact_ref x) || blank (generator_id x)) ValueError
    "candidate artifact and generator are required" ;;
  raise_if (not_sha256_hex (artifact_digest x)) ValueError
    "candidate artifact digest must be a lowercase sha256 hex digest" ;;
  raise_if (blank (suite_id x) || blank (suite_version x)) ValueError
    "candidate suite id and version are required" ;;
  raise_if (optimistic_version x <? 1) ValueError
    "candidate optimistic version must be positive".

Definition new (x : t) : res t := post_init x ;; Ok x.

Definition transition_to (x : t) (target : CandidateStatus.t) (actor_id : uuid)
    (reason : string) (occurred_at : option datetime) (now : datetime) : res t :=
  require_transition (status x) target CANDIDATE_TRANSITIONS ;;
  transition ← transition_record (status x) target actor_id reason occurred_at now;
  new (x <| status := target |> <| optimistic_version := optimistic_version x + 1 |>
         <| transitions := transitions x ++ [transition] |>).

(** [fresh] is the [uuid4()] of the deployment. *)
Definition begin_deployment (x : t) (actor_id : uuid) (reason : string)
    (fresh : uuid) (now : datetime) : res Deployment.t :=
  raise_if (negb (bool_decide (status x = CandidateStatus.APPROVED))) ValueError
    "only an approved candidate can begin deployment" ;;
  tr ← StateTransition.new {|
    StateTransition.from_status := "approved";
    StateTransition.to_status := DeploymentStatus.value DeploymentStatus.SHADOW;
    StateTransition.occurred_at := now;
    StateTransition.reason := reason;
    StateTransition.actor_id := actor_id |};
  Deployment.new {|
    Deployment.tenant_id := tenant_id x;
    Deployment.candidate_id := candidate_id x;
    Deployment.status := DeploymentStatus.SHADOW;
    Deployment.deployment_id := fresh;
    Deployment.optimistic_version := 1;
    Deployment.transitions := [tr];
    Deployment.traffic_allocation := None |}.

Definition record_evaluation (x : t) (target : CandidateStatus.t) (grader : uuid)
    (now : datetime) : res t :=
  raise_if (bool_decide (uuid_str grader = generator_id x)) PermissionError
    "candidate generator cannot grade its own candidate" ;;
  x' ← transition_to x target grader "evaluation recorded" None now;
  new (x' <| grader_principal_id := Some (uuid_str grader) |>).

Definition record_approval (x : t) (target : CandidateStatus.t) (approver : uuid)
    (reason : string) (now : datetime) : res t :=
  raise_if (blank reason) ValueError "candidate approval requires a recorded rationale" ;;
  raise_if (bool_decide (uuid_str approver = generator_id x) ||
            bool_decide (Some (uuid_str approver) = grader_principal_id x)) PermissionError
    "candidate approval requires an independent principal" ;;
  x' ← transition_to x target approver ("approval recorded: " +:+ strip reason) None now;
  new (x' <| approver_principal_id := Some (uuid_str approver) |>
          <| approval_reason := Some (strip reason) |>).
End CandidateVersion.

Module DeploymentObservation.
Record t := mk {
  tenant_id : uuid;
  deployment_id : uuid;
  stage : DeploymentStatus.t;
  metric : string;
  sample_count : Z;
  breach_count : Z;
  last_value : option float;
  first_sample_at : option datetime;
  last_sample_at : option datetime;
  observation_id : uuid;
  optimistic_version : Z
}.

#[global] Instance eta : Settable t := fun x =>
  mk (tenant_id x) (deployment_id x) (stage x) (metric x) (sample_count x) (breach_count x)
     (last_value x) (first_sample_at x) (last_sample_at x) (observation_id x)
     (optimistic_version x).

Definition post_init (x : t) : res unit :=
  raise_if (blank (metric x)) ValueError "observation metric is required" ;;
  raise_if ((sample_count x <? 0) || (breach_count x <? 0)) ValueError
    "observation counts cannot be negative" ;;
  raise_if (sample_count x <? breach_count x) ValueError
    "breach count cannot exceed sample count".

Definition new (x : t) : res t := post_init x ;; Ok x.
End DeploymentObservation.

Module ShadowMeasurements.
Record t := mk {
  outcome_score : float;
  cost_microunits : Z;
  latency_ms : float;
  security_violations : Z;
  human_corrections : Z;
  external_write_attempts : Z
}.

Definition post_init (x : t) : res unit :=
  raise_if (negb (isfinite (outcome_score x)) ||
            negb (fle (of_int 0) (outcome_score x) && fle (outcome_score x) (of_int 1)))
    ValueError "shadow outcome score must be finite and between zero and one" ;;
  raise_if (negb (isfinite (latency_ms x)) || flt (latency_ms x) (of_int 0)) ValueError
    "shadow latency must be finite and non-negative" ;;
  for_each (fun '(n, label) =>
      raise_if (n <? 0) ValueError ("shadow " +:+ label +:+ " cannot be negative"))
    [(cost_microunits x, "cost"); (security_violations x, "security violations");
     (human_corrections x, "human corrections");
     (external_write_attempts x, "external write attempts")].

Definition new (x : t) : res t := post_init x ;; Ok x.
End ShadowMeasurements.

Module ShadowComparison.
Record t := mk {
  tenant_id : uuid;
  deployment_id : uuid;
  request_ref : string;
  stable_version_id : uuid;
  candidate_version_id : uuid;
  stable : ShadowMeasurements.t;
  candidate : ShadowMeasurements.t;
  observed_at : datetime;
  comparison_id : uuid
}.

Definition new (x : t) : res t :=
  raise_if (blank (request_ref x)) ValueError
    "shadow comparison request reference is required" ;;
  raise_if (is_naive (observed_at x)) ValueError
    "shadow comparison timestamp must be timezone-aware" ;;
  Ok x.
End ShadowComparison.

Module Release.
Record t := mk {
  tenant_id : uuid;
  candidate_id : uuid;
  deployment_id : uuid;
  stable_version_id : uuid;
  previous_stable_version_id : uuid;
  approved_by : uuid;
  release_id : uuid
}.

Definition from_stable_deployment (d : Deployment.t)
    (stable_version_id previous_stable_version_id approved_by fresh : uuid) : res t :=
  raise_if (negb (bool_decide (Deployment.status d = DeploymentStatus.STABLE))) ValueError
    "release requires a stable deployment" ;;
  Ok (mk (Deployment.tenant_id d) (Deployment.candidate_id d) (Deployment.deployment_id d)
         stable_version_id previous_stable_version_id approved_by fresh).
End Release.

(** * Rollouts: candidate and deployment histories, the canary split

    Candidates share the [Aggregate] contract.  A deployment's history opens
    with the record of the approval that started it, followed by a path of the
    deployment table.  The canary split is a deterministic threshold on the
    request's hash: it covers everything at 100 percent and raising the
    percentage only ever moves requests to the candidate. *)

Open Scope string_scope.
Open Scope list_scope.
Open Scope Z_scope.

#[export] Instance Candidate_aggregate : Aggregate CandidateVersion.t CandidateStatus.t := {|
  agg_status := CandidateVersion.status; agg_version := CandidateVersion.optimistic_version;
  agg_transitions := CandidateVersion.transitions;
  agg_table := CANDIDATE_TRANSITIONS; agg_initial := CandidateStatus.DRAFT |}.

Lemma candidate_transition_advances x target actor reason at_ now x' :
  CandidateVersion.transition_to x target actor reason at_ now = Ok x' → advances x x'.
Proof.
  unfold CandidateVersion.transition_to, CandidateVersion.new. intros H. inv_ok.
  apply require_transition_ok in Hx. solve_advances Hx0.
Qed.

(** The fields of a candidate no operation of its life cycle changes. *)
Definition candidate_identity (x : CandidateVersion.t) :=
  (CandidateVersion.tenant_id x, CandidateVersion.proposal_id x,
   CandidateVersion.baseline_version_id x, CandidateVersion.artifact_ref x,
   CandidateVersion.artifact_digest x, CandidateVersion.suite_id x,
   CandidateVersion.suite_version x, CandidateVersion.generator_id x,
   CandidateVersion.candidate_id x).

Lemma candidate_transition_identity x target actor reason at_ now x' :
  CandidateVersion.transition_to x target actor reason at_ now = Ok x' →
  candidate_identity x' = candidate_identity x ∧ CandidateVersion.status x' = target ∧
  CandidateVersion.grader_principal_id x' = CandidateVersion.grader_principal_id x ∧
  CandidateVersion.approver_principal_id x' = CandidateVersion.approver_principal_id x.
Proof. unfold CandidateVersion.transition_to, CandidateVersion.new. intros H. by inv_ok. Qed.

(** Grading and approving are transitions that also name the principal. *)
Lemma record_evaluation_ok x target grader now x' :
  CandidateVersion.record_evaluation x target grader now = Ok x' →
  uuid_str grader ≠ CandidateVersion.generator_id x ∧ advances x x' ∧
  candidate_identity x' = candidate_identity x ∧ CandidateVersion.status x' = target ∧
  CandidateVersion.grader_principal_id x' = Some (uuid_str grader) ∧
  CandidateVersion.approver_principal_id x' = CandidateVersion.approver_principal_id x.
Proof.
  unfold CandidateVersion.record_evaluation, CandidateVersion.new. intros H. inv_ok. bool_hyps.
  match goal with H : CandidateVersion.transition_to _ _ _ _ _ _ = Ok _ |- _ =>
    pose proof (candidate_transition_advances _ _ _ _ _ _ _ H);
    apply candidate_transition_identity in H as (? & ? & ? & ?) end.
  done.
Qed.

Lemma record_approval_ok x target approver reason now x' :
  CandidateVersion.record_approval x target approver reason now = Ok x' →
  uuid_str approver ≠ CandidateVersion.generator_id x ∧
  CandidateVersion.grader_principal_id x ≠ Some (uuid_str approver) ∧ advances x x' ∧
  candidate_identity x' = candidate_identity x ∧ CandidateVersion.status x' = target ∧
  CandidateVersion.grader_principal_id x' = CandidateVersion.grader_principal_id x ∧
  CandidateVersion.approver_principal_id x' = Some (uuid_str approver).
Proof.
  unfold CandidateVersion.record_approval, CandidateVersion.new. intros H. inv_ok. bool_hyps.
  match goal with H : CandidateVersion.transition_to _ _ _ _ _ _ = Ok _ |- _ =>
    pose proof (candidate_transition_advances _ _ _ _ _ _ _ H);
    apply candidate_transition_identity in H as (? & ? & ? & ?) end.
  split_and!; done || congruence.
Qed.

(** ** Deployments *)

Definition deployment_history_ok (d : Deployment.t) : Prop :=
  ∃ start rest, Deployment.transitions d = start :: rest ∧
    StateTransition.from_status start = "approved" ∧
    StateTransition.to_status start = "shadow" ∧
    path DEPLOYMENT_TRANSITIONS DeploymentStatus.SHADOW rest (Deployment.status d) ∧
    Deployment.optimistic_version d = 1 + Z.of_nat (length rest).

Lemma begin_deployment_history x actor reason fresh now d :
  CandidateVersion.begin_deployment x actor reason fresh now = Ok d →
  CandidateVersion.status x = CandidateStatus.APPROVED ∧ deployment_history_ok d ∧
  Deployment.tenant_id d = CandidateVersion.tenant_id x ∧
  Deployment.candidate_id d = CandidateVersion.candidate_id x ∧
  Deployment.status d = DeploymentStatus.SHADOW ∧ Deployment.deployment_id d = fresh.
Proof.
  unfold CandidateVersion.begin_deployment, StateTransition.new, Deployment.new.
  intros H. inv_ok. bool_hyps. split_and!; try done.
  eexists _, []. cbn. split_and!; try done. constructor.
Qed.

Lemma deployment_transition_history d target actor reason at_ now d' :
  deployment_history_ok d →
  Deployment.transition_to d target actor reason at_ now = Ok d' →
  deployment_history_ok d' ∧ Deployment.status d' = target ∧
  Deployment.tenant_id d' = Deployment.tenant_id d ∧
  Deployment.deployment_id d' = Deployment.deployment_id d ∧
  Deployment.candidate_id d' = Deployment.candidate_id d.
Proof.
  intros (start & rest & Et & Ef & Eto & Hp & Hv).
  unfold Deployment.transition_to, Deployment.new. intros H. inv_ok.
  match goal with H : transition_record _ _ _ _ _ _ = Ok _ |- _ =>
    apply transition_record_ok in H as (? & ? & _) end.
  match goal with H : require_transition _ _ _ = Ok _ |- _ =>
    apply require_transition_ok in H end.
  split; [|done]. eexists start, (rest ++ [_]). cbn. rewrite Et. split_and!; try done.
  - by eapply path_step.
  - rewrite length_app. cbn. lia.
Qed.

(** A stable deployment went through CANARY. *)
Lemma stable_crosses_canary d :
  deployment_history_ok d → Deployment.status d = DeploymentStatus.STABLE →
  crosses DeploymentStatus.CANARY (Deployment.transitions d).
Proof.
  intros (start & rest & Et & _ & _ & Hp & _) Hs.
  pose (C := fun s => mem s [DeploymentStatus.SHADOW; DeploymentStatus.FAILED;
                             DeploymentStatus.ROLLED_BACK]).
  assert (Hedge : ∀ x y, C x = true → y ∈ DEPLOYMENT_TRANSITIONS x →
    C y = true ∨ y = DeploymentStatus.CANARY).
  { intros [] []; rewrite <- mem_true; vm_compute; auto. }
  destruct (path_crosses C DeploymentStatus.CANARY DEPLOYMENT_TRANSITIONS
    DeploymentStatus.SHADOW rest _ eq_refl Hedge Hp) as [Hc|(t & Ht & E)].
  - rewrite Hs in Hc. discriminate Hc.
  - exists t. rewrite Et. split; [by right|done].
Qed.

Theorem release_went_through_canary d stable previous approver fresh r :
  deployment_history_ok d →
  Release.from_stable_deployment d stable previous approver fresh = Ok r →
  crosses DeploymentStatus.CANARY (Deployment.transitions d) ∧
  Release.deployment_id r = Deployment.deployment_id d ∧
  Release.tenant_id r = Deployment.tenant_id d.
Proof.
  intros Hh. unfold Release.from_stable_deployment. intros H. inv_ok. bool_hyps.
  split; [by apply stable_crosses_canary|done].
Qed.

(** ** The canary split *)

Lemma percentile_range x key : 0 <= TrafficAllocation.percentile x key < 10000.
Proof. apply Z.mod_pos_bound. lia. Qed.

Theorem canary_split_monotone salt p q key :
  p <= q →
  TrafficAllocation.assign (TrafficAllocation.mk salt p) key = TrafficRoute.CANDIDATE →
  TrafficAllocation.assign (TrafficAllocation.mk salt q) key = TrafficRoute.CANDIDATE ∧
  (∀ key', TrafficAllocation.assign (TrafficAllocation.mk salt 100) key' =
           TrafficRoute.CANDIDATE).
Proof.
  unfold TrafficAllocation.assign. cbn. intros Hpq.
  change (TrafficAllocation.percentile (TrafficAllocation.mk salt q) key)
    with (TrafficAllocation.percentile (TrafficAllocation.mk salt p) key).
  destruct (Z.ltb_spec (TrafficAllocation.percentile (TrafficAllocation.mk salt p) key) (p * 100));
    [intros _|done].
  split; [case_match; [done|bool_hyps; lia]|].
  intros key'. pose proof (percentile_range (TrafficAllocation.mk salt 100) key').
  case_match; [done|bool_hyps; lia].
Qed.

Lemma canary_split_monotone_witness :
  TrafficAllocation.assign (TrafficAllocation.mk "s" 60) "r" = TrafficRoute.CANDIDATE ∧
  (∀ key', TrafficAllocation.assign (TrafficAllocation.mk "s" 100) key' =
           TrafficRoute.CANDIDATE).
Proof.
  apply (canary_split_monotone "s" 50 60 "r"); [lia|vm_compute; reflexivity].
Defined.

(** A deployment driven from approval to stable. *)
Definition sample_deployment : res Deployment.t :=
  d ← Deployment.new (Deployment.mk 1%N 2%N DeploymentStatus.SHADOW 3%N 1
        [StateTransition.mk "approved" "shadow" (Aware 0) "start" 9%N] None);
  d ← Deployment.enter_canary d (TrafficAllocation.mk "s" 10) 9%N "ramp" None (Aware 1);
  Deployment.transition_to d DeploymentStatus.STABLE 9%N "healthy" None (Aware 2).

Lemma release_went_through_canary_witness :
  ∃ d r, sample_deployment = Ok d ∧
    crosses DeploymentStatus.CANARY (Deployment.transitions d) ∧
    Release.deployment_id r = Deployment.deployment_id d ∧
    Release.tenant_id r = Deployment.tenant_id d.
Proof.
  eexists _, _. split; [vm_compute; reflexivity|].
  eapply (release_went_through_canary _ 5%N 4%N 9%N 10%N).
  - eexists _, [_; _]. split; [reflexivity|]. split_and!; [done|done| |done].
    apply (path_step _ _ [_] DeploymentStatus.CANARY); [|done|done|set_solver].
    apply (path_step _ _ [] DeploymentStatus.SHADOW); [constructor|done|done|set_solver].
  - reflexivity.
Defined.
