(* ===== verification/EvaluationDomain.v ===== *)
(** * packages/domain: evaluation.py

    Trajectory steps and rules, cases, suites, trials and grader results with
    the invariants their constructors enforce. *)

From S2P Require Import Prelude PyStr PyDict PyFloat Json Transitions Identity.
From Stdlib Require Import ZArith.

Open Scope string_scope.
Open Scope list_scope.
Open Scope Z_scope.

Module TrialStatus.
Inductive t := PENDING | RUNNING | PASSED | FAILED | INVALID.
#[global] Instance t_eq_dec : EqDecision t.
Proof. solve_decision. Defined.
End TrialStatus.

Module GraderStatus.
Inductive t := PASS | FAIL | UNKNOWN | INVALID.
#[global] Instance t_eq_dec : EqDecision t.
Proof. solve_decision. Defined.
End GraderStatus.

Module GraderKind.
Inductive t := DETERMINISTIC | OUTCOME | TRAJECTORY | LLM | HUMAN.
#[global] Instance t_eq_dec : EqDecision t.
Proof. solve_decision. Defined.
End GraderKind.

Module CaseVisibility.
Inductive t := PUBLIC | HIDDEN | PRODUCTION_REPLAY.
#[global] Instance t_eq_dec : EqDecision t.
Proof. solve_decision. Defined.
End CaseVisibility.

Module TrajectoryStep.
Record t := mk { kind : string; name : string; outcome : string; order : Z }.

Definition new (kind name outcome : string) (order : Z) : res t :=
  raise_if (blank kind || blank name) ValueError "trajectory step requires a kind and a name" ;;
  raise_if (order <? 0) ValueError "trajectory step order cannot be negative" ;;
  Ok (mk kind name outcome order).
End TrajectoryStep.

Module TrajectoryRule.
Record t := mk { rule_type : string; step : string; before : string; after : string }.

Definition post_init (x : t) : res unit :=
  raise_if (negb (mem (rule_type x) ["required"; "forbidden"; "order"])) ValueError
    "trajectory rule type must be one of ['forbidden', 'order', 'required']" ;;
  raise_if (mem (rule_type x) ["required"; "forbidden"] && blank (step x)) ValueError
    (rule_type x +:+ " trajectory rule requires a step name") ;;
  raise_if (bool_decide (rule_type x = "order") && (blank (before x) || blank (after x)))
    ValueError "order trajectory rule requires before and after steps".

Definition new (x : t) : res t := post_init x ;; Ok x.
End TrajectoryRule.

Module EvaluationCase.
Record t := mk {
  case_id : string;
  input_payload : list (string * json);
  expected_outcome : list (string * json);
  tags : list string;
  visibility : CaseVisibility.t;
  weight : float;
  gating : bool
}.

Definition post_init (x : t) : res unit :=
  raise_if (empty (case_id x) || fle (weight x) (of_int 0)) ValueError
    "evaluation case requires an id and positive weight".

Definition new (x : t) : res t := post_init x ;; Ok x.
End EvaluationCase.

Module EvaluationSuite.
Record t := mk {
  suite_id : string; version : string; cases : list EvaluationCase.t; pass_threshold : float
}.

Definition post_init (x : t) : res unit :=
  raise_if (bool_decide (length (cases x) = 0%nat) ||
            negb (fle (of_int 0) (pass_threshold x) && fle (pass_threshold x) (of_int 1)))
    ValueError "evaluation suite requires cases and a valid threshold".

Definition new (x : t) : res t := post_init x ;; Ok x.
End EvaluationSuite.

Module GraderResult.
Record t := mk {
  trial_id : uuid;
  grader_id : string;
  grader_version : string;
  score : option float;
  passed : option bool;
  rationale : string;
  evidence_refs : list string;
  status : option GraderStatus.t;
  kind : GraderKind.t
}.

#[global] Instance eta : Settable t := fun x =>
  mk (trial_id x) (grader_id x) (grader_version x) (score x) (passed x) (rationale x)
     (evidence_refs x) (status x) (kind x).

Definition inferred (x : t) : GraderStatus.t :=
  match passed x with
  | Some true => GraderStatus.PASS
  | Some false => GraderStatus.FAIL
  | None => GraderStatus.UNKNOWN
  end.

(** The constructor fills in a missing status. *)
Definition new (x : t) : res t :=
  raise_if (match score x with
            | Some s => negb (fle (of_int 0) s && fle s (of_int 1))
            | None => false
            end) ValueError "grader score must be between zero and one" ;;
  raise_if (is_none (score x) && is_some (passed x)) ValueError
    "unknown score must have an unknown pass result" ;;
  match status x with
  | None => Ok (x <| status := Some (inferred x) |>)
  | Some s =>
      if mem s [GraderStatus.PASS; GraderStatus.FAIL] && negb (bool_decide (s = inferred x))
      then raise ValueError "grader status conflicts with pass result"
      else if bool_decide (s = GraderStatus.INVALID) && is_some (passed x)
      then raise ValueError "invalid grader result cannot have a pass result"
      else Ok x
  end.
End GraderResult.

Module TrialCaseResult.
Record t := mk {
  case_id : string;
  input_payload : list (string * json);
  output_payload : option (list (string * json));
  subject_executed : bool;
  grader_results : list GraderResult.t;
  evidence_refs : list string;
  executor_id : option string;
  environment_ref : option string;
  model_ref : option string;
  tool_refs : list string;
  random_seed : option Z;
  cost_microunits : Z;
  failure_reason : option string
}.

#[global] Instance eta : Settable t := fun x =>
  mk (case_id x) (input_payload x) (output_payload x) (subject_executed x) (grader_results x)
     (evidence_refs x) (executor_id x) (environment_ref x) (model_ref x) (tool_refs x)
     (random_seed x) (cost_microunits x) (failure_reason x).

Definition post_init (x : t) : res unit :=
  raise_if (cost_microunits x <? 0) ValueError "case cost cannot be negative" ;;
  raise_if (subject_executed x &&
            (is_none (output_payload x) || missing (executor_id x) ||
             bool_decide (evidence_refs x = []) || missing (environment_ref x))) ValueError
    "executed subject requires output, executor, evidence, and environment" ;;
  raise_if (negb (subject_executed x) && missing (failure_reason x)) ValueError
    "unexecuted subject requires a failure reason".

Definition new (x : t) : res t := post_init x ;; Ok x.
End TrialCaseResult.

Module Trial.
Record t := mk {
  tenant_id : uuid;
  suite_id : string;
  suite_version : string;
  subject_version_id : uuid;
  harness_version : string;
  trial_id : uuid;
  status : TrialStatus.t;
  random_seed : option Z;
  case_results : list TrialCaseResult.t;
  total_cost_microunits : Z;
  failure_reason : option string;
  started_at : option datetime;
  completed_at : option datetime;
  candidate_id : option uuid
}.

#[global] Instance eta : Settable t := fun x =>
  mk (tenant_id x) (suite_id x) (suite_version x) (subject_version_id x) (harness_version x)
     (trial_id x) (status x) (random_seed x) (case_results x) (total_cost_microunits x)
     (failure_reason x) (started_at x) (completed_at x) (candidate_id x).

Definition post_init (x : t) : res unit :=
  raise_if (total_cost_microunits x <? 0) ValueError "trial cost cannot be negative" ;;
  raise_if (mem (status x) [TrialStatus.PASSED; TrialStatus.FAILED] &&
            (bool_decide (length (case_results x) = 0%nat) ||
             any (fun r => negb (TrialCaseResult.subject_executed r)) (case_results x)))
    ValueError "a completed trial requires executed subject results" ;;
  raise_if (any (fun r => any (fun g => negb (bool_decide (GraderResult.trial_id g = trial_id x)))
                            (TrialCaseResult.grader_results r)) (case_results x)) ValueError
    "grader result must belong to its containing trial" ;;
  raise_if (bool_decide (status x = TrialStatus.INVALID) && missing (failure_reason x)) ValueError
    "an invalid trial requires a failure reason".

Definition new (x : t) : res t := post_init x ;; Ok x.
End Trial.

(** What a trial that claims a verdict guarantees. *)
Lemma trial_new_ok x x' : Trial.new x = Ok x' → x' = x ∧
  (Trial.status x ∈ [TrialStatus.PASSED; TrialStatus.FAILED] →
   Trial.case_results x ≠ [] ∧
   ∀ r, r ∈ Trial.case_results x → TrialCaseResult.subject_executed r = true) ∧
  (∀ r g, r ∈ Trial.case_results x → g ∈ TrialCaseResult.grader_results r →
   GraderResult.trial_id g = Trial.trial_id x).
Proof.
  unfold Trial.new, Trial.post_init. intros H. inv_ok. split; [done|].
  match goal with H : any _ _ = false |- _ => rename H into Hg end.
  match goal with H : mem _ _ && _ = false |- _ => rename H into Hs end.
  split.
  - intros Hin%mem_true. rewrite Hin in Hs. cbn in Hs. bool_hyps. split.
    + intros E. by rewrite E in *.
    + intros r Hr. match goal with H : any _ _ = false |- _ => rewrite any_false in H;
        specialize (H r Hr); by apply negb_false_iff in H end.
  - intros r g Hr Hgr. rewrite any_false in Hg. specialize (Hg r Hr).
    rewrite any_false in Hg. specialize (Hg g Hgr). by bool_hyps.
Qed.
