(* ===== verification/Statistics.v ===== *)
(** * packages/evaluation: statistics.py

    The confidence gate over repeated trials: the Wilson score interval and
    [TrialConfidenceGate.assess].  The quantile function of the normal
    distribution, [statistics.NormalDist().inv_cdf], is a parameter inside
    (0, 1); outside it raises. *)

From S2P Require Import Prelude PyStr PyFloat Json EvaluationDomain.
From Stdlib Require Import ZArith SpecFloat.

Open Scope string_scope.
Open Scope list_scope.
Open Scope Z_scope.

Module ConfidenceDecision.
Inductive t := MET | NOT_MET | INSUFFICIENT_SAMPLE.
#[global] Instance t_eq_dec : EqDecision t.
Proof. solve_decision. Defined.
Definition value (x : t) : string :=
  match x with
  | MET => "met" | NOT_MET => "not_met" | INSUFFICIENT_SAMPLE => "insufficient_sample"
  end.
End ConfidenceDecision.

Module RepeatedTrialPolicy.
Record t := mk { pass_threshold : float; confidence_level : float; min_valid_trials : Z }.

Definition post_init (p : t) : res unit :=
  raise_if (negb (flt fzero (pass_threshold p) && flt (pass_threshold p) (of_int 1))) ValueError
    "repeated-trial threshold must be between zero and one, exclusive" ;;
  raise_if (negb (flt (of_decimal 5 (-1)) (confidence_level p) &&
                  flt (confidence_level p) (of_int 1))) ValueError
    "confidence level must be between one half and one, exclusive" ;;
  raise_if (min_valid_trials p <? 1) ValueError
    "repeated-trial policy requires at least one valid trial".

Definition new (p : t) : res t := post_init p ;; Ok p.
End RepeatedTrialPolicy.

Module TrialConfidenceAssessment.
Record t := mk {
  policy : RepeatedTrialPolicy.t;
  decision : ConfidenceDecision.t;
  passed_trials : Z;
  failed_trials : Z;
  invalid_trials : Z;
  pass_rate : option float;
  lower_bound : option float;
  upper_bound : option float;
  rationale : string
}.

Definition valid_trials (a : t) : Z := passed_trials a + failed_trials a.
Definition met (a : t) : bool := bool_decide (decision a = ConfidenceDecision.MET).
End TrialConfidenceAssessment.

Section gate.
(** [NormalDist().inv_cdf] inside (0, 1) *)
Context (normal_quantile : float → float).

Definition inv_cdf (p : float) : res float :=
  raise_if (fle p fzero || fle (of_int 1) p) StatisticsError
    "p must be in the range 0.0 < p < 1.0" ;;
  Ok (normal_quantile p).

(** [math.sqrt] *)
Definition math_sqrt (x : float) : res float :=
  raise_if (flt x fzero) ValueError "math domain error" ;; Ok (fsqrt x).

(** [n / m] of integers, [m > 0] *)
Definition int_div (n m : Z) : float := of_ratio n (Z.to_pos m).

Definition wilson_score_interval (passes total : Z) (confidence_level : float)
    : res (float * float) :=
  raise_if (total <=? 0) ValueError "wilson interval requires at least one trial" ;;
  raise_if (negb ((0 <=? passes) && (passes <=? total))) ValueError
    "passes must be between zero and the trial total" ;;
  raise_if (negb (flt (of_decimal 5 (-1)) confidence_level && flt confidence_level (of_int 1)))
    ValueError "confidence level must be between one half and one, exclusive" ;;
  z ← inv_cdf (fadd (of_decimal 5 (-1)) (fdiv confidence_level (of_int 2)));
  let rate := int_div passes total in
  let z_squared := fmul z z in
  let denominator := fadd (of_int 1) (fdiv z_squared (of_int total)) in
  let center := fdiv (fadd rate (fdiv z_squared (of_int (2 * total)))) denominator in
  root ← math_sqrt (fadd (fdiv (fmul rate (fsub (of_int 1) rate)) (of_int total))
                         (fdiv z_squared (of_int (4 * total * total))));
  let spread := fmul (fdiv z denominator) root in
  Ok (fmax fzero (fsub center spread), fmin (of_int 1) (fadd center spread)).

(** ** The gate *)

Definition TERMINAL_STATUSES : list TrialStatus.t :=
  [TrialStatus.PASSED; TrialStatus.FAILED; TrialStatus.INVALID].

(** The loop over the trials, with the identifiers seen so far. *)
Fixpoint check_trials (seen : list uuid) (trials : list Trial.t) : res unit :=
  match trials with
  | [] => Ok tt
  | trial :: rest =>
      raise_if (negb (mem (Trial.status trial) TERMINAL_STATUSES)) ValueError
        "confidence assessment requires terminal trials only" ;;
      raise_if (mem (Trial.trial_id trial) seen) ValueError
        "repeated trials must be distinct: duplicate trial id" ;;
      check_trials (Trial.trial_id trial :: seen) rest
  end.

(** [any(getattr(trial, field) != getattr(reference, field) for trial in trials)] *)
Definition shares {A} `{EqDecision A} (field : Trial.t → A) (name : string) (reference : Trial.t)
    (trials : list Trial.t) : res unit :=
  raise_if (any (fun trial => negb (bool_decide (field trial = field reference))) trials)
    ValueError ("repeated trials must share " +:+ name).

(** [_require_one_subject] *)
Definition require_one_subject (trials : list Trial.t) : res unit :=
  check_trials [] trials ;;
  match trials with
  | [] => Ok tt
  | reference :: _ =>
      shares Trial.tenant_id "tenant_id" reference trials ;;
      shares Trial.suite_id "suite_id" reference trials ;;
      shares Trial.suite_version "suite_version" reference trials ;;
      shares Trial.subject_version_id "subject_version_id" reference trials ;;
      shares Trial.harness_version "harness_version" reference trials
  end.

(** [sum(trial.status is s for trial in trials)] *)
Definition count_status (s : TrialStatus.t) (trials : list Trial.t) : Z :=
  Z.of_nat (length (List.filter (fun trial => bool_decide (Trial.status trial = s)) trials)).

Definition short_sample (valid minimum invalid : Z) : string :=
  int_str valid +:+ " valid trials do not satisfy the minimum sample of " +:+ int_str minimum +:+
  "; " +:+ int_str invalid +:+ " invalid trials cannot close the gap".

(** The comparison of the bounds with the threshold. *)
Definition judge (rate confidence lower upper threshold : float)
    : ConfidenceDecision.t * string :=
  if fle threshold lower then
    (ConfidenceDecision.MET,
     "pass rate " +:+ float_fixed 4 rate +:+ " holds a " +:+ float_percent confidence +:+
     " lower bound of " +:+ float_fixed 4 lower +:+ " at or above threshold " +:+
     float_repr threshold)
  else if flt upper threshold then
    (ConfidenceDecision.NOT_MET,
     "pass rate " +:+ float_fixed 4 rate +:+ " holds a " +:+ float_percent confidence +:+
     " upper bound of " +:+ float_fixed 4 upper +:+ " below threshold " +:+ float_repr threshold)
  else
    (ConfidenceDecision.INSUFFICIENT_SAMPLE,
     "pass rate " +:+ float_fixed 4 rate +:+ " with " +:+ float_percent confidence +:+
     " bounds [" +:+ float_fixed 4 lower +:+ ", " +:+ float_fixed 4 upper +:+
     "] straddles threshold " +:+ float_repr threshold).

Definition assess (policy : RepeatedTrialPolicy.t) (trials : list Trial.t)
    : res TrialConfidenceAssessment.t :=
  require_one_subject trials ;;
  let passed := count_status TrialStatus.PASSED trials in
  let failed := count_status TrialStatus.FAILED trials in
  let invalid := count_status TrialStatus.INVALID trials in
  let valid := passed + failed in
  bounds ← (if valid =? 0 then Ok None
            else b ← wilson_score_interval passed valid
                       (RepeatedTrialPolicy.confidence_level policy);
                 Ok (Some b));
  let rate := if valid =? 0 then None else Some (int_div passed valid) in
  let verdict decision rationale := {|
    TrialConfidenceAssessment.policy := policy;
    TrialConfidenceAssessment.decision := decision;
    TrialConfidenceAssessment.passed_trials := passed;
    TrialConfidenceAssessment.failed_trials := failed;
    TrialConfidenceAssessment.invalid_trials := invalid;
    TrialConfidenceAssessment.pass_rate := rate;
    TrialConfidenceAssessment.lower_bound := fst <$> bounds;
    TrialConfidenceAssessment.upper_bound := snd <$> bounds;
    TrialConfidenceAssessment.rationale := rationale |} in
  if valid <? RepeatedTrialPolicy.min_valid_trials policy then
    Ok (verdict ConfidenceDecision.INSUFFICIENT_SAMPLE
          (short_sample valid (RepeatedTrialPolicy.min_valid_trials policy) invalid))
  else
    match bounds, rate with
    | Some (lower, upper), Some r =>
        let '(decision, rationale) := judge r (RepeatedTrialPolicy.confidence_level policy)
          lower upper (RepeatedTrialPolicy.pass_threshold policy) in
        Ok (verdict decision rationale)
    | _, _ => raise AssertionError ""
    end.
End gate.

(** ** Properties *)

Lemma check_trials_ok seen trials u : check_trials seen trials = Ok u →
  NoDup (Trial.trial_id <$> trials) ∧
  (∀ trial, trial ∈ trials → Trial.status trial ∈ TERMINAL_STATUSES ∧
     Trial.trial_id trial ∉ seen).
Proof.
  revert seen. induction trials as [|x l IH]; intros seen; cbn [check_trials fmap list_fmap].
  { intros _. split; [constructor|]. intros ? Hx. by apply elem_of_nil in Hx. }
  intros H. apply then_ok in H as [Hs H]. apply then_ok in H as [Hid H].
  apply raise_if_ok in Hs, Hid. bool_hyps.
  apply IH in H as [Hnd Hall]. split.
  - constructor; [|done]. intros (y & E & Hy)%list_elem_of_fmap.
    destruct (Hall y Hy) as [_ Hn]. rewrite <- E in Hn. set_solver.
  - intros y [->|Hy]%elem_of_cons; [done|]. destruct (Hall y Hy). split; [done|set_solver].
Qed.

(** A part of accepted trials is accepted. *)
Lemma check_trials_sublist seen l l' u :
  sublist l' l → check_trials seen l = Ok u → check_trials seen l' = Ok tt.
Proof.
  intros Hsub. revert seen u. induction Hsub as [|x l' l Hsub IH|x l' l Hsub IH]; intros seen u;
    cbn [check_trials]; [done| |].
  - intros (H1 & H)%then_ok. apply then_ok in H as (H2 & H). rewrite H1, H2.
    cbn [mbind res_bind]. by eapply IH.
  - intros (_ & H)%then_ok. apply then_ok in H as (_ & H). apply IH in H. revert H.
    generalize (Trial.trial_id x). intros id. clear.
    assert (∀ s1 s2, s1 ⊆ s2 → check_trials s2 l' = Ok tt → check_trials s1 l' = Ok tt) as Hmono.
    { induction l' as [|y l' IH]; intros s1 s2 Hs; cbn [check_trials]; [done|].
      intros (H1 & H)%then_ok. apply then_ok in H as (H2 & H). rewrite H1. cbn [mbind res_bind].
      apply raise_if_ok in H2. bool_hyps. rewrite (proj2 (mem_false _ _)) by set_solver.
      cbn [raise_if mbind res_bind]. eapply IH; [|exact H]. set_solver. }
    apply Hmono. set_solver.
Qed.

Lemma shares_ok {A} `{EqDecision A} (field : Trial.t → A) name reference trials u :
  shares field name reference trials = Ok u ↔ ∀ x, x ∈ trials → field x = field reference.
Proof.
  unfold shares. rewrite raise_if_ok, any_false. split; intros H x Hx.
  - specialize (H x Hx). by bool_hyps.
  - apply negb_false_iff, bool_decide_eq_true. auto.
Qed.

(** The trials an assessment accepts are of one subject. *)
Definition one_subject (trials : list Trial.t) : Prop :=
  ∀ x y, x ∈ trials → y ∈ trials →
    Trial.tenant_id x = Trial.tenant_id y ∧ Trial.suite_id x = Trial.suite_id y ∧
    Trial.suite_version x = Trial.suite_version y ∧
    Trial.subject_version_id x = Trial.subject_version_id y ∧
    Trial.harness_version x = Trial.harness_version y.

Lemma require_one_subject_ok trials u :
  require_one_subject trials = Ok u ↔ check_trials [] trials = Ok tt ∧ one_subject trials.
Proof.
  unfold require_one_subject. rewrite then_ok. destruct u.
  split; (intros [H1 H2]; split; [exact H1|]); destruct trials as [|r l]; try done.
  - intros ? ? Hx. by apply elem_of_nil in Hx.
  - apply then_ok in H2 as [Ha H2]. apply then_ok in H2 as [Hb H2].
    apply then_ok in H2 as [Hc H2]. apply then_ok in H2 as [Hd He].
    rewrite shares_ok in Ha. rewrite shares_ok in Hb. rewrite shares_ok in Hc.
    rewrite shares_ok in Hd. rewrite shares_ok in He. intros x y Hx Hy.
    rewrite (Ha x), (Hb x), (Hc x), (Hd x), (He x) by done.
    rewrite (Ha y), (Hb y), (Hc y), (Hd y), (He y) by done. done.
  - rewrite !then_ok. rewrite !shares_ok.
    split_and!; intros x Hx; apply (H2 x r Hx ltac:(left)).
Qed.

(** The trials that are evidence about the subject. *)
Definition counted (trials : list Trial.t) : list Trial.t :=
  List.filter (fun x => negb (bool_decide (Trial.status x = TrialStatus.INVALID))) trials.

Lemma sublist_counted trials : sublist (counted trials) trials.
Proof.
  unfold counted. induction trials as [|x l IH]; cbn; [constructor|].
  destruct (negb _); by constructor.
Qed.

Lemma require_counted trials :
  require_one_subject trials = Ok tt → require_one_subject (counted trials) = Ok tt.
Proof.
  rewrite !require_one_subject_ok. intros [H1 H2]. split.
  - eapply check_trials_sublist; [apply sublist_counted|done].
  - intros x y Hx Hy. apply H2; [set_unfold in Hx|set_unfold in Hy];
      unfold counted in *; rewrite elem_of_list_filter in *; naive_solver.
Qed.

Lemma count_counted s trials : s ≠ TrialStatus.INVALID →
  count_status s (counted trials) = count_status s trials.
Proof.
  intros Hs. unfold count_status, counted. f_equal.
  induction trials as [|x l IH]; cbn; [done|].
  destruct (bool_decide (Trial.status x = TrialStatus.INVALID)) eqn:E; cbn.
  - rewrite IH. bool_hyps. rewrite bool_decide_false by congruence. done.
  - case_match; cbn; by rewrite IH.
Qed.

Lemma count_valid trials :
  (∀ x, x ∈ trials → Trial.status x ∈ TERMINAL_STATUSES) →
  count_status TrialStatus.PASSED trials + count_status TrialStatus.FAILED trials =
  Z.of_nat (length (counted trials)).
Proof.
  unfold count_status, counted. induction trials as [|x l IH]; intros Ht; cbn; [done|].
  specialize (IH ltac:(intros; apply Ht; by right)).
  assert (Hx : Trial.status x ∈ TERMINAL_STATUSES) by (apply Ht; left).
  destruct (Trial.status x); try (by apply mem_true in Hx); repeat rewrite (bool_decide_true _ eq_refl); repeat rewrite bool_decide_false by done; cbn [negb List.filter length] in *; lia.
Qed.

Section properties.
Context (normal_quantile : float → float).
Notation assess := (assess normal_quantile).

(** What the decision of an assessment rests on. *)
Theorem assessment_decides policy trials a : assess policy trials = Ok a →
  let threshold := RepeatedTrialPolicy.pass_threshold policy in
  let valid := TrialConfidenceAssessment.valid_trials a in
  one_subject trials ∧
  valid = Z.of_nat (length (counted trials)) ∧
  match TrialConfidenceAssessment.decision a with
  | ConfidenceDecision.MET =>
      RepeatedTrialPolicy.min_valid_trials policy <= valid ∧
      ∃ lower, TrialConfidenceAssessment.lower_bound a = Some lower ∧ fle threshold lower = true
  | ConfidenceDecision.NOT_MET =>
      RepeatedTrialPolicy.min_valid_trials policy <= valid ∧
      ∃ upper, TrialConfidenceAssessment.upper_bound a = Some upper ∧ flt upper threshold = true
  | ConfidenceDecision.INSUFFICIENT_SAMPLE =>
      valid < RepeatedTrialPolicy.min_valid_trials policy ∨
      ∃ lower upper, TrialConfidenceAssessment.lower_bound a = Some lower ∧
        TrialConfidenceAssessment.upper_bound a = Some upper ∧
        fle threshold lower = false ∧ flt upper threshold = false
  end.
Proof.
  unfold assess. intros (Hone & H)%then_ok. apply require_one_subject_ok in Hone as [Hterm Hone].
  pose proof (proj2 (check_trials_ok _ _ _ Hterm)) as Ht. cbv zeta in *.
  set (passed := count_status TrialStatus.PASSED trials) in *.
  set (failed := count_status TrialStatus.FAILED trials) in *.
  assert (Hvalid : passed + failed = Z.of_nat (length (counted trials))).
  { apply count_valid. intros x Hx. by apply Ht. }
  split; [done|]. apply bind_ok in H as (bounds & _ & H).
  destruct (Z.ltb_spec (passed + failed) (RepeatedTrialPolicy.min_valid_trials policy)).
  { injection H as <-. cbn. split; [done|]. by left. }
  destruct bounds as [[lower upper]|]; [|done]. destruct (if _ =? 0 then _ else _); [|done].
  unfold judge in H. destruct (fle _ lower) eqn:El; [|destruct (flt upper _) eqn:Eu];
    injection H as <-; cbn; (split; [exact Hvalid|]); eauto 8.
Qed.

(** Invalid trials change nothing but their own count. *)
Theorem invalid_trials_do_not_count policy trials a :
  assess policy trials = Ok a → ∃ a', assess policy (counted trials) = Ok a' ∧
    TrialConfidenceAssessment.decision a' = TrialConfidenceAssessment.decision a ∧
    TrialConfidenceAssessment.passed_trials a' = TrialConfidenceAssessment.passed_trials a ∧
    TrialConfidenceAssessment.failed_trials a' = TrialConfidenceAssessment.failed_trials a ∧
    TrialConfidenceAssessment.pass_rate a' = TrialConfidenceAssessment.pass_rate a ∧
    TrialConfidenceAssessment.lower_bound a' = TrialConfidenceAssessment.lower_bound a ∧
    TrialConfidenceAssessment.upper_bound a' = TrialConfidenceAssessment.upper_bound a.
Proof.
  unfold assess. intros (Hone & H)%then_ok. rewrite (require_counted _ Hone).
  cbn [mbind res_bind]. rewrite !(count_counted _ trials) by done.
  cbv zeta in *.
  apply bind_ok in H as (bounds & Eb & H). rewrite Eb. cbn [mbind res_bind].
  set (valid := _ + _) in *. set (passed := count_status TrialStatus.PASSED trials) in *.
  generalize dependent (if valid =? 0 then None else Some (int_div passed valid)). intros rate H.
  destruct (_ <? _).
  - injection H as <-. eexists. split; [reflexivity|]. by split_and!.
  - destruct bounds as [[lower upper]|]; [|done]. destruct rate as [r|]; [|done].
    destruct (judge _ _ _ _ _) as [decision rationale]. injection H as <-.
    eexists. split; [reflexivity|]. by split_and!.
Qed.
End properties.

(** ** A gate over ten trials *)

Definition sample_trial (i : N) (s : TrialStatus.t) : Trial.t :=
  Trial.mk 7%N "suite" "1" 20%N "2" i s None [] 0 (Some "reason") None None (Some 20%N).

Definition sample_policy : RepeatedTrialPolicy.t :=
  RepeatedTrialPolicy.mk (of_decimal 6 (-1)) (of_decimal 95 (-2)) 10.

(** The quantile of 0.975, which the 95% level asks for. *)
Definition quantile_95 : float → float := fun _ => of_decimal 19599639845400536 (-16).

Definition ten_passes : list Trial.t :=
  (fun i => sample_trial (N.of_nat i) TrialStatus.PASSED) <$> seq 1 10.
Definition with_outages : list Trial.t :=
  ten_passes ++ ((fun i => sample_trial (N.of_nat i) TrialStatus.INVALID) <$> seq 11 5).

Definition decision_of (r : res TrialConfidenceAssessment.t) : option ConfidenceDecision.t :=
  match r with Ok a => Some (TrialConfidenceAssessment.decision a) | Err _ => None end.

Example ten_passes_bounds :
  wilson_score_interval quantile_95 10 10 (of_decimal 95 (-2)) =
  Ok (of_decimal 7224672001371109 (-16), of_int 1).
Proof. vm_compute. reflexivity. Qed.

Lemma assessment_decides_witness : ∃ a, assess quantile_95 sample_policy with_outages = Ok a ∧
  one_subject with_outages ∧ TrialConfidenceAssessment.valid_trials a = 10.
Proof.
  destruct (assess quantile_95 sample_policy with_outages) as [a|] eqn:E; [|vm_compute in E; discriminate E].
  exists a. split; [reflexivity|]. destruct (assessment_decides _ _ _ _ E) as (H1 & H2 & _).
  exact (conj H1 H2).
Defined.

Lemma invalid_trials_do_not_count_witness :
  ∃ a a', assess quantile_95 sample_policy with_outages = Ok a ∧
    assess quantile_95 sample_policy (counted with_outages) = Ok a' ∧
    TrialConfidenceAssessment.decision a' = TrialConfidenceAssessment.decision a.
Proof.
  destruct (assess quantile_95 sample_policy with_outages) as [a|] eqn:E; [|vm_compute in E; discriminate E].
  destruct (invalid_trials_do_not_count _ _ _ _ E) as (a' & E' & Hd & _).
  exists a, a'. exact (conj eq_refl (conj E' Hd)).
Defined.

Example ten_passes_met :
  decision_of (assess quantile_95 sample_policy with_outages) = Some ConfidenceDecision.MET.
Proof. vm_compute. reflexivity. Qed.
