(* ===== verification/Calendar.v ===== *)
(** * [datetime.isoformat]

    Timestamps are microseconds since 1970-01-01T00:00:00; an aware one is
    read in UTC, which is the zone every timestamp the code makes itself has.
    Years outside 1..9999 do not exist in Python and are outside the model. *)

From S2P Require Import Prelude PyStr.
From Stdlib Require Import ZArith.

Open Scope string_scope.
Open Scope Z_scope.

(** The proleptic Gregorian date of a day number, by 400-year eras. *)
Definition civil (z : Z) : Z * Z * Z :=
  let z := z + 719468 in
  let era := z / 146097 in
  let doe := z mod 146097 in
  let yoe := (doe - doe / 1460 + doe / 36524 - doe / 146096) / 365 in
  let doy := doe - (365 * yoe + yoe / 4 - yoe / 100) in
  let mp := (5 * doy + 2) / 153 in
  let day := doy - (153 * mp + 2) / 5 + 1 in
  let month := if mp <? 10 then mp + 3 else mp - 9 in
  (yoe + era * 400 + (if month <=? 2 then 1 else 0), month, day).

(** [n] in [w] decimal digits. *)
Fixpoint padded (w : nat) (n : Z) (acc : string) : string :=
  match w with
  | O => acc
  | S w' => padded w' (n / 10) (String (digit_char (n mod 10)) acc)
  end.

Definition iso_us (us : Z) : string :=
  let '(y, m, d) := civil (us / 86400000000) in
  let t := us mod 86400000000 in
  let micro := t mod 1000000 in
  let secs := t / 1000000 in
  padded 4 y "" +:+ "-" +:+ padded 2 m "" +:+ "-" +:+ padded 2 d "" +:+ "T" +:+
  padded 2 (secs / 3600) "" +:+ ":" +:+ padded 2 (secs / 60 mod 60) "" +:+ ":" +:+
  padded 2 (secs mod 60) "" +:+
  (if micro =? 0 then "" else "." +:+ padded 6 micro "").

Definition isoformat (d : datetime) : string :=
  match d with
  | Aware us => iso_us us +:+ "+00:00"
  | Naive us => iso_us us
  end.

Example iso_epoch : isoformat (Aware 0) = "1970-01-01T00:00:00+00:00".
Proof. vm_compute. reflexivity. Qed.

Example iso_leap : isoformat (Aware 1709210096789012) = "2024-02-29T12:34:56.789012+00:00".
Proof. vm_compute. reflexivity. Qed.

Example iso_before_epoch : isoformat (Naive (-1)) = "1969-12-31T23:59:59.999999".
Proof. vm_compute. reflexivity. Qed.

(** [x.isoformat() if x else None], rendered by callers. *)
Definition isoformat_opt (d : option datetime) : option string := isoformat <$> d.

(** ** [datetime.fromisoformat]

    The layouts [isoformat] writes: a date, ["T"], a time with or without
    microseconds, and the offset of an aware value.  Any other text raises. *)

(** The day number of a proleptic Gregorian date. *)
Definition day_number (y m d : Z) : Z :=
  let y' := if m <=? 2 then y - 1 else y in
  let yoe := y' mod 400 in
  let doy := (153 * ((m + 9) mod 12) + 2) / 5 + d - 1 in
  y' / 400 * 146097 + (yoe * 365 + yoe / 4 - yoe / 100 + doy) - 719468.

Fixpoint digits_value (l : list ascii) (acc : Z) : option Z :=
  match l with
  | [] => Some acc
  | c :: l' => if is_digit c then digits_value l' (10 * acc + (ord c - 48)) else None
  end.

(** [n] characters of [s] from [i] on, read as a number. *)
Definition number_at (s : string) (i n : nat) : option Z :=
  let part := String.substring i n s in
  if bool_decide (String.length part = n) then digits_value (chars part) 0 else None.

Definition char_at (s : string) (i : nat) (c : ascii) : option unit :=
  if bool_decide (String.get i s = Some c) then Some tt else None.

Definition guard (b : bool) : option unit := if b then Some tt else None.

Definition read_iso (s : string) : option datetime :=
  y ← number_at s 0 4; char_at s 4 "-"%char ;;
  m ← number_at s 5 2; char_at s 7 "-"%char ;;
  d ← number_at s 8 2; char_at s 10 "T"%char ;;
  hh ← number_at s 11 2; char_at s 13 ":"%char ;;
  mm ← number_at s 14 2; char_at s 16 ":"%char ;;
  ss ← number_at s 17 2;
  guard ((1 <=? y) && (hh <? 24) && (mm <? 60) && (ss <? 60) &&
         bool_decide (civil (day_number y m d) = (y, m, d))) ;;
  let micros := bool_decide (String.get 19 s = Some "."%char) in
  us ← (if micros then number_at s 20 6 else Some 0);
  let t := ((day_number y m d * 24 + hh) * 60 + mm) * 60000000 + ss * 1000000 + us in
  let stop := if micros then 26%nat else 19%nat in
  if bool_decide (String.length s = stop) then Some (Naive t)
  else
    sign ← (if bool_decide (String.get stop s = Some "+"%char) then Some 1
            else if bool_decide (String.get stop s = Some "-"%char) then Some (-1) else None);
    oh ← number_at s (stop + 1) 2; char_at s (stop + 3) ":"%char ;;
    om ← number_at s (stop + 4) 2;
    guard ((oh <? 24) && (om <? 60) && bool_decide (String.length s = (stop + 6)%nat)) ;;
    Some (Aware (t - sign * (oh * 60 + om) * 60000000)).

Definition fromisoformat (s : string) : res datetime :=
  match read_iso s with
  | Some d => Ok d
  | None => raise ValueError ("Invalid isoformat string: '" +:+ s +:+ "'")
  end.

Example from_iso_leap :
  fromisoformat (isoformat (Aware 1709210096789012)) = Ok (Aware 1709210096789012).
Proof. vm_compute. reflexivity. Qed.

Example from_iso_offset :
  fromisoformat "2024-02-29T12:34:56+02:30" = Ok (Aware 1709201096000000).
Proof. vm_compute. reflexivity. Qed.

(** * [fromisoformat] reads back what [isoformat] writes

    The conversions between day numbers and civil dates are inverse to each
    other, and the texts have fixed positions, so the reader finds every field
    again. *)

Open Scope string_scope.
Open Scope list_scope.
Open Scope Z_scope.

(** ** Dates *)

(** The year of an era a day falls in, and its day of that year. *)
Lemma year_of_era doe : 0 <= doe < 146097 →
  let yoe := (doe - doe / 1460 + doe / 36524 - doe / 146096) / 365 in
  0 <= yoe < 400 ∧ 0 <= doe - (365 * yoe + yoe / 4 - yoe / 100) <= 365.
Proof. intros H. cbv zeta. Z.to_euclidean_division_equations. lia. Qed.

(** The month, from March on, and the day of the month. *)
Lemma month_of_year doy : 0 <= doy <= 365 →
  let mp := (5 * doy + 2) / 153 in
  0 <= mp <= 11 ∧ 1 <= doy - (153 * mp + 2) / 5 + 1 <= 31.
Proof. intros H. cbv zeta. Z.to_euclidean_division_equations. lia. Qed.

(** The civil date of a day is a date, of that day. *)
Lemma civil_spec z : let '(y, m, d) := civil z in
  day_number y m d = z ∧ 1 <= m <= 12 ∧ 1 <= d <= 31.
Proof.
  unfold civil, day_number. cbv zeta.
  pose proof (Z.div_mod (z + 719468) 146097 ltac:(done)) as Hz.
  pose proof (Z.mod_pos_bound (z + 719468) 146097 ltac:(done)) as Hdoe.
  set (era := (z + 719468) / 146097) in *. set (doe := (z + 719468) mod 146097) in *.
  destruct (year_of_era doe Hdoe) as [Hyoe Hdoy].
  set (yoe := (doe - doe / 1460 + doe / 36524 - doe / 146096) / 365) in *.
  set (doy := doe - (365 * yoe + yoe / 4 - yoe / 100)) in *.
  destruct (month_of_year doy Hdoy) as [Hmp Hday]. set (mp := (5 * doy + 2) / 153) in *.
  assert (Hy : (yoe + era * 400) / 400 = era ∧ (yoe + era * 400) mod 400 = yoe).
  { rewrite Z.div_add, Z.mod_add by lia. rewrite Z.div_small, Z.mod_small by lia. lia. }
  assert (Hm : ((if mp <? 10 then mp + 3 else mp - 9) + 9) mod 12 = mp).
  { destruct (Z.ltb_spec mp 10); [replace (mp + 3 + 9) with (mp + 1 * 12) by lia;
      rewrite Z.mod_add by lia|replace (mp - 9 + 9) with mp by lia]; apply Z.mod_small; lia. }
  rewrite Hm. split; [|destruct (Z.ltb_spec mp 10); lia].
  assert (Hy' : (if (if mp <? 10 then mp + 3 else mp - 9) <=? 2
    then yoe + era * 400 + (if (if mp <? 10 then mp + 3 else mp - 9) <=? 2 then 1 else 0) - 1
    else yoe + era * 400 + (if (if mp <? 10 then mp + 3 else mp - 9) <=? 2 then 1 else 0)) =
    yoe + era * 400) by (destruct (_ <=? 2); lia).
  rewrite Hy'. destruct Hy as [-> ->]. lia.
Qed.

(** ** Numbers *)

Lemma is_digit_char k : 0 <= k < 10 → is_digit (digit_char k) = true ∧ ord (digit_char k) - 48 = k.
Proof.
  intros Hk. unfold is_digit, digit_char. rewrite ord_chr by lia. split; [|lia].
  apply andb_true_iff. rewrite !Z.leb_le. lia.
Qed.

Lemma padded_app w n acc : padded w n acc = padded w n "" +:+ acc.
Proof.
  revert n acc. induction w as [|w IH]; intros n acc; cbn [padded]; [by rewrite append_nil|].
  rewrite IH, (IH _ (String _ "")), str_app_assoc. done.
Qed.

Lemma padded_length w n : String.length (padded w n "") = w.
Proof.
  revert n. induction w as [|w IH]; intros n; cbn [padded]; [done|].
  rewrite padded_app, str_app_length, IH. cbn. lia.
Qed.

Lemma digits_value_app l l' acc : digits_value (l ++ l') acc =
  match digits_value l acc with Some v => digits_value l' v | None => None end.
Proof.
  revert acc. induction l as [|c l IH]; intros acc; cbn [digits_value app]; [done|].
  destruct (is_digit c); [apply IH|done].
Qed.

Lemma digits_value_padded w n acc : 0 <= n < 10 ^ Z.of_nat w →
  digits_value (chars (padded w n "")) acc = Some (acc * 10 ^ Z.of_nat w + n).
Proof.
  revert n acc. induction w as [|w IH]; intros n acc Hn; cbn [padded].
  - cbn in *. f_equal. lia.
  - rewrite padded_app, chars_app, digits_value_app. rewrite Nat2Z.inj_succ, Z.pow_succ_r in * by lia.
    pose proof (Z.div_mod n 10 ltac:(lia)). pose proof (Z.mod_pos_bound n 10 ltac:(lia)).
    rewrite IH by (split; [apply Z.div_pos; lia|apply Z.div_lt_upper_bound; lia]).
    cbn [chars digits_value]. destruct (is_digit_char (n mod 10)) as [-> ->]; [lia|].
    f_equal. lia.
Qed.

Lemma substring_app (s t : string) n : String.substring (String.length s) n (s +:+ t) =
  String.substring 0 n t.
Proof. induction s as [|c s IH]; cbn; [done|exact IH]. Qed.

Lemma substring_prefix (s t : string) : String.substring 0 (String.length s) (s +:+ t) = s.
Proof. induction s as [|c s IH]; [by destruct t|exact (f_equal (String c) IH)]. Qed.

Lemma get_app (s t : string) n : String.get (String.length s + n) (s +:+ t) = String.get n t.
Proof. induction s as [|c s IH]; [done|exact IH]. Qed.

(** A field of [w] digits behind [s] and before [t]. *)
Lemma number_at_field s t w n : 0 <= n < 10 ^ Z.of_nat w →
  number_at (s +:+ padded w n "" +:+ t) (String.length s) w = Some n.
Proof.
  intros Hn. unfold number_at. rewrite substring_app.
  pose proof (substring_prefix (padded w n "") t) as Hp. rewrite padded_length in Hp.
  rewrite Hp, padded_length, bool_decide_true by done.
  by rewrite digits_value_padded.
Qed.

Lemma char_at_here s c t : char_at (s +:+ String c t) (String.length s) c = Some ().
Proof.
  unfold char_at. rewrite <- (Nat.add_0_r (String.length s)), get_app.
  by rewrite bool_decide_true.
Qed.

(** ** Texts *)

(** Python has the years 1 to 9999. *)
Definition in_years (us : Z) : bool :=
  let '(y, _, _) := civil (us / 86400000000) in (1 <=? y) && (y <=? 9999).
Definition in_calendar (d : datetime) : bool :=
  match d with Aware us | Naive us => in_years us end.

(** The text of the fields, with what follows. *)
Definition iso_text (y m d hh mm ss : Z) (rest : string) : string :=
  padded 4 y "" +:+ "-" +:+ padded 2 m "" +:+ "-" +:+ padded 2 d "" +:+ "T" +:+
  padded 2 hh "" +:+ ":" +:+ padded 2 mm "" +:+ ":" +:+ padded 2 ss "" +:+ rest.

Section reading.
Context (y m d hh mm ss : Z) (rest : string).
Hypothesis (Hy : 0 <= y < 10000) (Hm : 0 <= m < 100) (Hd : 0 <= d < 100).
Hypothesis (Hh : 0 <= hh < 100) (Hmm : 0 <= mm < 100) (Hs : 0 <= ss < 100).
Notation s := (iso_text y m d hh mm ss rest).

Definition date_part : string := padded 4 y "" +:+ "-" +:+ padded 2 m "" +:+ "-" +:+ padded 2 d "".
Definition time_part : string :=
  date_part +:+ "T" +:+ padded 2 hh "" +:+ ":" +:+ padded 2 mm "" +:+ ":" +:+ padded 2 ss "".

Lemma read_year : number_at s 0 4 = Some y.
Proof. exact (number_at_field "" _ 4 y Hy). Qed.
Lemma read_month : number_at s 5 2 = Some m.
Proof. exact (number_at_field (padded 4 y "" +:+ "-") _ 2 m Hm). Qed.
Lemma read_day : number_at s 8 2 = Some d.
Proof. exact (number_at_field (padded 4 y "" +:+ "-" +:+ padded 2 m "" +:+ "-") _ 2 d Hd). Qed.
Lemma read_hour : number_at s 11 2 = Some hh.
Proof. exact (number_at_field (date_part +:+ "T") _ 2 hh Hh). Qed.
Lemma read_minute : number_at s 14 2 = Some mm.
Proof. exact (number_at_field (date_part +:+ "T" +:+ padded 2 hh "" +:+ ":") _ 2 mm Hmm). Qed.
Lemma read_second : number_at s 17 2 = Some ss.
Proof.
  exact (number_at_field (date_part +:+ "T" +:+ padded 2 hh "" +:+ ":" +:+ padded 2 mm "" +:+ ":")
    _ 2 ss Hs).
Qed.
Lemma read_separators :
  char_at s 4 "-"%char = Some () ∧ char_at s 7 "-"%char = Some () ∧
  char_at s 10 "T"%char = Some () ∧ char_at s 13 ":"%char = Some () ∧
  char_at s 16 ":"%char = Some ().
Proof. split_and!; reflexivity. Qed.
Lemma read_micro micro offset : 0 <= micro < 10 ^ Z.of_nat 6 →
  number_at (iso_text y m d hh mm ss ("." +:+ padded 6 micro "" +:+ offset)) 20 6 = Some micro.
Proof. exact (number_at_field (time_part +:+ ".") offset 6 micro). Qed.
End reading.

Lemma read_zone y m d hh mm ss : let s := iso_text y m d hh mm ss "+00:00" in
  number_at s 20 2 = Some 0 ∧ char_at s 22 ":"%char = Some () ∧ number_at s 23 2 = Some 0.
Proof. split_and!; reflexivity. Qed.

Lemma read_zone_micro y m d hh mm ss micro :
  let s := iso_text y m d hh mm ss ("." +:+ padded 6 micro "" +:+ "+00:00") in
  number_at s 27 2 = Some 0 ∧ char_at s 29 ":"%char = Some () ∧ number_at s 30 2 = Some 0.
Proof. split_and!; reflexivity. Qed.

(** Computes with the offset 00:00. *)
Ltac zone_offset :=
  cbn [mbind option_bind guard andb Z.ltb Z.compare Pos.compare Z.mul Z.add];
  rewrite ?Z.sub_0_r.

(** The clock reading of [us]. *)
Lemma clock_parts us : let t := us mod 86400000000 in let secs := t / 1000000 in
  0 <= secs / 3600 < 24 ∧ 0 <= secs / 60 mod 60 < 60 ∧ 0 <= secs mod 60 < 60 ∧
  0 <= t mod 1000000 < 1000000 ∧
  ((us / 86400000000 * 24 + secs / 3600) * 60 + secs / 60 mod 60) * 60000000 +
    secs mod 60 * 1000000 + t mod 1000000 = us.
Proof. cbv zeta. Z.to_euclidean_division_equations. lia. Qed.

(** Behind the seconds: the microseconds, unless they are zero, and the offset. *)
Definition fraction (micro : Z) : string := if micro =? 0 then "" else "." +:+ padded 6 micro "".

Lemma read_iso_text us offset : in_years us = true → offset = "" ∨ offset = "+00:00" →
  read_iso (iso_us us +:+ offset) =
    Some (if bool_decide (offset = "") then Naive us else Aware us).
Proof.
  unfold in_years, iso_us. pose proof (civil_spec (us / 86400000000)) as Hc.
  destruct (civil (us / 86400000000)) as [[y m] d] eqn:Ec. destruct Hc as (Hn & Hm & Hd).
  intros Hy Ho. bool_hyps. pose proof (clock_parts us) as Hp. cbv zeta in Hp |- *.
  set (t := us mod 86400000000) in *. set (secs := t / 1000000) in *.
  destruct Hp as (Hh & Hmm & Hs & Hu & Ht).
  transitivity (read_iso (iso_text y m d (secs / 3600) (secs / 60 mod 60) (secs mod 60)
    (fraction (t mod 1000000) +:+ offset))).
  { reflexivity. }
  destruct (read_separators y m d (secs / 3600) (secs / 60 mod 60) (secs mod 60)
    (fraction (t mod 1000000) +:+ offset)) as (E1 & E2 & E3 & E4 & E5).
  unfold read_iso.
  rewrite read_year, E1, read_month, E2, read_day, E3, read_hour, E4, read_minute, E5, read_second
    by lia.
  clear E1 E2 E3 E4 E5. cbn [mbind option_bind]. rewrite Hn, Ec, (bool_decide_true ((y, m, d) = _)) by done.
  rewrite !(proj2 (Z.ltb_lt _ _)), !(proj2 (Z.leb_le _ _)) by lia. cbn [andb guard mbind option_bind].
  unfold fraction. destruct (Z.eqb_spec (t mod 1000000) 0) as [E0|E0].
  - rewrite E0 in Ht. destruct Ho as [-> | ->]; rewrite append_nil;
      rewrite !(bool_decide_false (String.get 19 _ = _)) by done; cbn [mbind option_bind].
    + rewrite !bool_decide_true by done. by rewrite Ht.
    + destruct (read_zone y m d (secs / 3600) (secs / 60 mod 60) (secs mod 60)) as (E1 & E2 & E3).
      rewrite bool_decide_false by done. rewrite !bool_decide_true by done.
      cbn [mbind option_bind Nat.add]. rewrite E1, E2, E3. zone_offset. by rewrite Ht.
  - assert (Hf : 0 <= t mod 1000000 < 10 ^ Z.of_nat 6) by (cbn; lia).
    pose proof (read_micro y m d (secs / 3600) (secs / 60 mod 60) (secs mod 60) _ offset Hf) as E1.
    rewrite str_app_assoc, !(bool_decide_true (String.get 19 _ = _)), E1 by (by destruct Ho as [-> | ->]).
    cbn [mbind option_bind Nat.add]. destruct Ho as [-> | ->].
    + rewrite !bool_decide_true by done. by rewrite Ht.
    + destruct (read_zone_micro y m d (secs / 3600) (secs / 60 mod 60) (secs mod 60) (t mod 1000000))
        as (E2 & E3 & E4).
      rewrite bool_decide_false by done. rewrite !bool_decide_true by done.
      cbn [mbind option_bind Nat.add]. rewrite E2, E3, E4. zone_offset. by rewrite Ht.
Qed.

Lemma isoformat_round_trip d : in_calendar d = true → fromisoformat (isoformat d) = Ok d.
Proof.
  unfold fromisoformat, isoformat. destruct d as [us|us]; intros H.
  - by rewrite read_iso_text by auto.
  - rewrite <- (str_app_nil (iso_us us)). by rewrite read_iso_text by auto.
Qed.

Lemma isoformat_inj d d' : in_calendar d = true → in_calendar d' = true →
  isoformat d = isoformat d' → d = d'.
Proof.
  intros H H' E. apply isoformat_round_trip in H, H'. rewrite E in H. congruence.
Qed.

Example last_day : in_calendar (Aware 253402300799999999) = true ∧
  in_calendar (Aware 253402300800000000) = false.
Proof. vm_compute. done. Qed.
