(* ===== verification/ContextDomain.v ===== *)
(** * packages/domain: context.py

    Environment facts, knowledge references, memory records and the context
    snapshot with its content digest.  A [frozenset] is a list whose order no
    definition observes; [sorted] orders it by code point. *)

From S2P Require Import Prelude PyStr PyDict PyFloat Json Sha256 Transitions Values Calendar.
From Stdlib Require Import ZArith.

Open Scope string_scope.
Open Scope list_scope.
Open Scope Z_scope.

Module TrustLevel.
Inductive t := UNTRUSTED | ADVISORY | AUTHORITATIVE.
#[global] Instance t_eq_dec : EqDecision t.
Proof. solve_decision. Defined.
Definition value (x : t) : string :=
  match x with
  | UNTRUSTED => "untrusted" | ADVISORY => "advisory" | AUTHORITATIVE => "authoritative"
  end.
End TrustLevel.

Module FreshnessPolicy.
Inductive t := STRICT | WARN | LAX.
#[global] Instance t_eq_dec : EqDecision t.
Proof. solve_decision. Defined.
Definition value (x : t) : string :=
  match x with STRICT => "strict" | WARN => "warn" | LAX => "lax" end.
End FreshnessPolicy.

Module MemoryStatus.
Inductive t := PROPOSED | STABLE | DELETED.
#[global] Instance t_eq_dec : EqDecision t.
Proof. solve_decision. Defined.
End MemoryStatus.

(** [sorted(xs)] on strings. *)
Definition sorted_strings (l : list string) : list string :=
  (sort_items (List.map (fun s => (s, tt)) l)).*1.

Lemma sorted_strings_elem x l : x ∈ sorted_strings l ↔ x ∈ l.
Proof.
  unfold sorted_strings. rewrite sort_items_perm. change (List.map ?f l) with (f <$> l).
  by rewrite <- list_fmap_compose, list_fmap_id.
Qed.

Module EnvironmentFact.
Record t := mk {
  tenant_id : uuid;
  fact_id : string;
  source : string;
  source_authority : string;
  subject : string;
  value : list (string * json);
  observed_at : datetime;
  valid_until : datetime;
  trust : TrustLevel.t;
  classification : DataClassification.t;
  freshness_policy : FreshnessPolicy.t;
  allowed_roles : list string;
  allowed_purposes : list string;
  visible_fields : list string
}.

#[global] Instance eta : Settable t := fun x =>
  mk (tenant_id x) (fact_id x) (source x) (source_authority x) (subject x) (value x)
     (observed_at x) (valid_until x) (trust x) (classification x) (freshness_policy x)
     (allowed_roles x) (allowed_purposes x) (visible_fields x).

Definition post_init (x : t) : res unit :=
  raise_if (any blank [fact_id x; source x; source_authority x; subject x]) ValueError
    "environment fact identity, authority, and subject are required" ;;
  raise_if (is_naive (observed_at x) || is_naive (valid_until x)) ValueError
    "environment fact timestamps must be timezone-aware" ;;
  ended ← dt_lt (valid_until x) (observed_at x);
  raise_if ended ValueError "environment fact validity cannot end before observation" ;;
  raise_if (negb (bool_decide (visible_fields x = [])) &&
            negb (subset_of (value x).*1 (visible_fields x))) ValueError
    "environment fact contains fields outside its column ACL".

Definition new (x : t) : res t := post_init x ;; Ok x.
End EnvironmentFact.

Module KnowledgeRef.
Record t := mk {
  tenant_id : uuid;
  knowledge_id : string;
  version : string;
  source : string;
  citation : string;
  trust : TrustLevel.t;
  classification : DataClassification.t;
  allowed_roles : list string;
  allowed_purposes : list string
}.
End KnowledgeRef.

Module MemoryRecord.
Record t := mk {
  tenant_id : uuid;
  scope : string;
  content : string;
  provenance : list string;
  confidence : float;
  expires_at : datetime;
  approved_by : uuid;
  classification : DataClassification.t;
  purpose : string;
  contains_pii : bool;
  conflict_keys : list string;
  source_trust : TrustLevel.t;
  status : MemoryStatus.t;
  memory_id : uuid;
  created_at : datetime
}.

#[global] Instance eta : Settable t := fun x =>
  mk (tenant_id x) (scope x) (content x) (provenance x) (confidence x) (expires_at x)
     (approved_by x) (classification x) (purpose x) (contains_pii x) (conflict_keys x)
     (source_trust x) (status x) (memory_id x) (created_at x).

Definition post_init (x : t) : res unit :=
  raise_if (negb (fle (of_int 0) (confidence x) && fle (confidence x) (of_int 1))) ValueError
    "memory confidence must be between zero and one" ;;
  raise_if (bool_decide (provenance x = []) || blank (scope x) || blank (purpose x)) ValueError
    "memory requires provenance, scope, and purpose" ;;
  raise_if (is_naive (expires_at x) || is_naive (created_at x)) ValueError
    "memory timestamps must be timezone-aware" ;;
  late ← dt_le (expires_at x) (created_at x);
  raise_if late ValueError "memory TTL must expire after creation".

Definition new (x : t) : res t := post_init x ;; Ok x.

Definition stabilize (x : t) : res t :=
  raise_if (negb (bool_decide (status x = MemoryStatus.PROPOSED))) ValueError
    "only proposed memory can pass the Write Gate" ;;
  new (x <| status := MemoryStatus.STABLE |>).

Definition mark_deleted (x : t) : res t :=
  if bool_decide (status x = MemoryStatus.DELETED) then Ok x
  else new (x <| status := MemoryStatus.DELETED |>).
End MemoryRecord.

Module ContextSnapshot.
Record t := mk {
  tenant_id : uuid;
  goal_id : uuid;
  run_id : uuid;
  environment_facts : list EnvironmentFact.t;
  knowledge_refs : list KnowledgeRef.t;
  memory_ids : list uuid;
  history_digest : string;
  tool_versions : list string;
  policy_version : string;
  conflicts : list string;
  security_boundaries : list string;
  snapshot_id : uuid;
  created_at : datetime
}.

#[global] Instance eta : Settable t := fun x =>
  mk (tenant_id x) (goal_id x) (run_id x) (environment_facts x) (knowledge_refs x)
     (memory_ids x) (history_digest x) (tool_versions x) (policy_version x) (conflicts x)
     (security_boundaries x) (snapshot_id x) (created_at x).

Definition post_init (x : t) : res unit :=
  raise_if (blank (history_digest x) || blank (policy_version x)) ValueError
    "context snapshot requires history and policy versions" ;;
  raise_if (is_naive (created_at x)) ValueError
    "context snapshot timestamp must be timezone-aware" ;;
  raise_if (any (fun f => negb (bool_decide (EnvironmentFact.tenant_id f = tenant_id x)))
              (environment_facts x)) ValueError
    "cross-tenant environment fact cannot enter a snapshot" ;;
  raise_if (any (fun r => negb (bool_decide (KnowledgeRef.tenant_id r = tenant_id x)))
              (knowledge_refs x)) ValueError
    "cross-tenant knowledge cannot enter a snapshot".

Definition new (x : t) : res t := post_init x ;; Ok x.

Definition strs (l : list string) : json := JList (JStr <$> l).

Definition fact_payload (f : EnvironmentFact.t) : json := JDict [
  ("fact_id", JStr (EnvironmentFact.fact_id f));
  ("source", JStr (EnvironmentFact.source f));
  ("source_authority", JStr (EnvironmentFact.source_authority f));
  ("subject", JStr (EnvironmentFact.subject f));
  ("value", JDict (EnvironmentFact.value f));
  ("observed_at", JStr (isoformat (EnvironmentFact.observed_at f)));
  ("valid_until", JStr (isoformat (EnvironmentFact.valid_until f)));
  ("trust", JStr (TrustLevel.value (EnvironmentFact.trust f)));
  ("classification", JStr (DataClassification.value (EnvironmentFact.classification f)));
  ("freshness_policy", JStr (FreshnessPolicy.value (EnvironmentFact.freshness_policy f)));
  ("allowed_roles", strs (sorted_strings (EnvironmentFact.allowed_roles f)));
  ("allowed_purposes", strs (sorted_strings (EnvironmentFact.allowed_purposes f)));
  ("visible_fields", strs (EnvironmentFact.visible_fields f))].

Definition knowledge_payload (r : KnowledgeRef.t) : json := JDict [
  ("knowledge_id", JStr (KnowledgeRef.knowledge_id r));
  ("version", JStr (KnowledgeRef.version r));
  ("source", JStr (KnowledgeRef.source r));
  ("citation", JStr (KnowledgeRef.citation r));
  ("trust", JStr (TrustLevel.value (KnowledgeRef.trust r)));
  ("classification", JStr (DataClassification.value (KnowledgeRef.classification r)));
  ("allowed_roles", strs (sorted_strings (KnowledgeRef.allowed_roles r)));
  ("allowed_purposes", strs (sorted_strings (KnowledgeRef.allowed_purposes r)))].

Definition payload (x : t) : json := JDict [
  ("tenant_id", JStr (uuid_str (tenant_id x)));
  ("goal_id", JStr (uuid_str (goal_id x)));
  ("run_id", JStr (uuid_str (run_id x)));
  ("environment_facts", JList (fact_payload <$> environment_facts x));
  ("knowledge_refs", JList (knowledge_payload <$> knowledge_refs x));
  ("memory_ids", strs (uuid_str <$> memory_ids x));
  ("history_digest", JStr (history_digest x));
  ("tool_versions", strs (tool_versions x));
  ("policy_version", JStr (policy_version x));
  ("conflicts", strs (conflicts x));
  ("security_boundaries", strs (security_boundaries x))].

Definition content_digest (x : t) : string := sha256_hex (dumps compact_style (payload x)).
End ContextSnapshot.

(** What a snapshot that was built guarantees. *)
Lemma snapshot_new_ok x x' : ContextSnapshot.new x = Ok x' → x' = x ∧
  (∀ f, f ∈ ContextSnapshot.environment_facts x →
    EnvironmentFact.tenant_id f = ContextSnapshot.tenant_id x) ∧
  (∀ r, r ∈ ContextSnapshot.knowledge_refs x →
    KnowledgeRef.tenant_id r = ContextSnapshot.tenant_id x).
Proof.
  unfold ContextSnapshot.new, ContextSnapshot.post_init. intros H. inv_ok.
  split; [done|].
  repeat match goal with H : any _ _ = false |- _ => rewrite any_false in H end.
  split; intros y Hy; match goal with H : ∀ _, y ∈ _ → _ |- _ => fail 1
    | H : ∀ _, _ ∈ ?l → _, Hy : y ∈ ?l |- _ => specialize (H y Hy); by bool_hyps end.
Qed.
