(* ===== verification/Memory.v ===== *)
(** * packages/memory: write gate, ledger, store and deletion

    [MemoryWriteService] talks to its store and its ledger through two
    protocols.  [MemoryStorePort] and [LedgerPort] state what it relies on; its
    theorems are proved against them, and the in-memory classes discharge
    them. *)

From S2P Require Import Prelude PyStr PyDict PyFloat Json Sha256 Effects Transitions Values.
From S2P Require Import ContextDomain Context.
From Stdlib Require Import ZArith.

Open Scope string_scope.
Open Scope list_scope.
Open Scope Z_scope.

Module WriteDecision.
Inductive t := ACCEPT | REJECT | MERGE.
#[global] Instance t_eq_dec : EqDecision t.
Proof. solve_decision. Defined.
End WriteDecision.

Module WriteGateResult.
Record t := mk {
  decision : WriteDecision.t; reason : string; existing_record_id : option uuid
}.
End WriteGateResult.

Definition rejected (reason : string) : WriteGateResult.t :=
  WriteGateResult.mk WriteDecision.REJECT reason None.

(** [min_confidence = 0.3] *)
Definition default_min_confidence : float := of_decimal 3 (-1).

(** The loop over the existing memories. *)
Fixpoint compare_existing (candidate : MemoryRecord.t) (existing : list MemoryRecord.t)
    : WriteGateResult.t :=
  match existing with
  | [] => WriteGateResult.mk WriteDecision.ACCEPT "new memory accepted" None
  | ex :: existing' =>
      if intersects (MemoryRecord.conflict_keys ex) (MemoryRecord.conflict_keys candidate) &&
         negb (bool_decide (MemoryRecord.content ex = MemoryRecord.content candidate))
      then WriteGateResult.mk WriteDecision.REJECT "candidate conflicts with stable memory"
             (Some (MemoryRecord.memory_id ex))
      else if bool_decide (MemoryRecord.provenance ex = MemoryRecord.provenance candidate) &&
              negb (bool_decide (MemoryRecord.memory_id ex = MemoryRecord.memory_id candidate))
      then WriteGateResult.mk WriteDecision.MERGE "merging update from same provenance"
             (Some (MemoryRecord.memory_id ex))
      else compare_existing candidate existing'
  end.

Section memory_ports.
Context {S : Type}.

(** [MemoryWriteGate.evaluate] *)
Definition evaluate (min_confidence : float) (candidate : MemoryRecord.t)
    (existing : list MemoryRecord.t) (approver_roles : list string) : M S WriteGateResult.t :=
  if negb (bool_decide (MemoryRecord.status candidate = MemoryStatus.PROPOSED)) then
    mret (rejected "only observations may enter the gate")
  else if flt (MemoryRecord.confidence candidate) min_confidence then
    mret (rejected "confidence below threshold")
  else if bool_decide (MemoryRecord.source_trust candidate = TrustLevel.UNTRUSTED) ||
          intersects (MemoryRecord.provenance candidate) ["untrusted"; "unknown"] then
    mret (rejected "untrusted provenance")
  else
    t ← now;
    expired ← lift (dt_le (MemoryRecord.expires_at candidate) t);
    if (expired : bool) then mret (rejected "memory TTL has expired")
    else if (MemoryRecord.contains_pii candidate ||
             bool_decide (MemoryRecord.classification candidate = DataClassification.RESTRICTED)) &&
            negb (intersects approver_roles ["privacy_reviewer"; "data_steward"]) then
      mret (rejected "PII requires privacy approval")
    else mret (compare_existing candidate existing).
End memory_ports.

(** ** The ledger *)

Module LedgerEntryKind.
Inductive t := WRITE | MERGE | DELETE.
#[global] Instance t_eq_dec : EqDecision t.
Proof. solve_decision. Defined.
End LedgerEntryKind.

Module LedgerEntry.
Record t := mk {
  entry_id : uuid;
  memory_id : uuid;
  kind : LedgerEntryKind.t;
  tenant_id : uuid;
  actor_id : uuid;
  recorded_at : datetime;
  metadata : list (string * string)
}.
End LedgerEntry.

(** What the service may assume of a store: [view] is what [get] returns,
    [store] either records exactly its argument or changes nothing. *)
Class MemoryStorePort (S : Type) := {
  memory_store : MemoryRecord.t → M S unit;
  memory_get : uuid → M S (option MemoryRecord.t);
  memory_delete : uuid → M S unit;
  memory_view : S → uuid → option MemoryRecord.t;
  memory_store_law : ∀ r s, wp (memory_store r)
    (fun _ s' => memory_view s' (MemoryRecord.memory_id r) = Some r ∧
       ∀ u, u ≠ MemoryRecord.memory_id r → memory_view s' u = memory_view s u)
    (fun _ s' => s' = s) s;
  memory_get_law : ∀ u s, wp (memory_get u) (fun r s' => r = memory_view s u ∧ s' = s)
    (fun _ s' => s' = s) s
}.

(** A ledger appends, and appending does not touch the store's view. *)
Class LedgerPort (S : Type) `{MemoryStorePort S} := {
  ledger_record : LedgerEntry.t → M S unit;
  ledger_view : S → list LedgerEntry.t;
  ledger_record_law : ∀ entry s, wp (ledger_record entry)
    (fun _ s' => ledger_view s' = (ledger_view s ++ [entry])%list ∧
       ∀ u, memory_view s' u = memory_view s u)
    (fun _ s' => ∀ u, memory_view s' u = memory_view s u) s;
  ledger_store_law : ∀ r s, wp (memory_store r)
    (fun _ s' => ledger_view s' = ledger_view s) (fun _ s' => ledger_view s' = ledger_view s) s
}.

Section service.
Context {S : Type} `{LedgerPort S}.

(** [MemoryWriteService.write] *)
Definition write (min_confidence : float) (candidate : MemoryRecord.t) (actor_id : uuid)
    (existing : list MemoryRecord.t) (approver_roles : list string) : M S MemoryRecord.t :=
  decision ← evaluate min_confidence candidate existing approver_roles;
  throw_if (bool_decide (WriteGateResult.decision decision = WriteDecision.REJECT))
    PermissionError (WriteGateResult.reason decision) ;;
  stable ← lift (MemoryRecord.stabilize candidate);
  memory_store stable ;;
  entry_id ← uuid4;
  recorded_at ← now;
  ledger_record {|
    LedgerEntry.entry_id := entry_id;
    LedgerEntry.memory_id := MemoryRecord.memory_id stable;
    LedgerEntry.kind :=
      if bool_decide (WriteGateResult.decision decision = WriteDecision.MERGE)
      then LedgerEntryKind.MERGE else LedgerEntryKind.WRITE;
    LedgerEntry.tenant_id := MemoryRecord.tenant_id stable;
    LedgerEntry.actor_id := actor_id;
    LedgerEntry.recorded_at := recorded_at;
    LedgerEntry.metadata :=
      [("source_memory_id",
        match WriteGateResult.existing_record_id decision with
        | Some u => uuid_str u | None => "" end);
       ("classification", DataClassification.value (MemoryRecord.classification stable))] |} ;;
  mret stable.

(** [DeletionPropagator.cascade_delete] *)
Definition cascade_delete (memory_id actor_id tenant_id : uuid) : M S Z :=
  record ← memory_get memory_id;
  match record with
  | None => mret 0
  | Some _ =>
      memory_delete memory_id ;;
      entry_id ← uuid4;
      recorded_at ← now;
      ledger_record (LedgerEntry.mk entry_id memory_id LedgerEntryKind.DELETE tenant_id actor_id
                       recorded_at []) ;;
      mret 1
  end.

(** ** What passing the gate means *)

(** The conditions a candidate satisfies when it is not rejected, at the
    clock reading [t]. *)
Record admissible (min_confidence : float) (candidate : MemoryRecord.t)
    (existing : list MemoryRecord.t) (roles : list string) (t : datetime) : Prop := {
  ad_proposed : MemoryRecord.status candidate = MemoryStatus.PROPOSED;
  ad_confidence : flt (MemoryRecord.confidence candidate) min_confidence = false;
  ad_trusted : MemoryRecord.source_trust candidate ≠ TrustLevel.UNTRUSTED;
  ad_provenance : "untrusted" ∉ MemoryRecord.provenance candidate ∧
                  "unknown" ∉ MemoryRecord.provenance candidate;
  ad_live : dt_le (MemoryRecord.expires_at candidate) t = Ok false;
  ad_privacy : MemoryRecord.contains_pii candidate = true ∨
    MemoryRecord.classification candidate = DataClassification.RESTRICTED →
    "privacy_reviewer" ∈ roles ∨ "data_steward" ∈ roles
}.

(** No memory that shares a conflict key contradicts an accepted candidate. *)
Lemma compare_existing_accept candidate existing :
  WriteGateResult.decision (compare_existing candidate existing) = WriteDecision.ACCEPT →
  ∀ ex, ex ∈ existing →
    (∃ k, k ∈ MemoryRecord.conflict_keys ex ∧ k ∈ MemoryRecord.conflict_keys candidate) →
    MemoryRecord.content ex = MemoryRecord.content candidate.
Proof.
  induction existing as [|x existing IH]; cbn [compare_existing]; [by intros _ ? ?%elem_of_nil|].
  match goal with |- context [if ?b then _ else _] => destruct b eqn:Ec; [done|] end.
  match goal with |- context [if ?b then _ else _] => destruct b eqn:Em; [done|] end.
  intros Hd ex [->|Hin]%elem_of_cons (k & Hk1 & Hk2); [|eauto].
  destruct (intersects _ _) eqn:Ea; cbn in Ec; [by bool_hyps|].
  unfold intersects in Ea. rewrite any_false in Ea. specialize (Ea k Hk1). by bool_hyps.
Qed.

Lemma intersects_false xs ys y : intersects xs ys = false → y ∈ ys → y ∉ xs.
Proof.
  unfold intersects. rewrite any_false. intros Hi Hy Hx. specialize (Hi y Hx). by bool_hyps.
Qed.

Lemma evaluate_ok min_confidence candidate existing roles (s : S) :
  wp (evaluate min_confidence candidate existing roles)
    (fun d s' => s' = s ∧ (WriteGateResult.decision d ≠ WriteDecision.REJECT →
       d = compare_existing candidate existing ∧
       ∃ t, admissible min_confidence candidate existing roles t))
    (fun _ s' => s' = s) s.
Proof.
  unfold evaluate. case_bool_decide as Hs; cbn [negb]; [|by apply wp_ret].
  destruct (flt _ _) eqn:Hc; [by apply wp_ret|].
  destruct (_ || _) eqn:Ht; [by apply wp_ret|].
  wp_step. wp_step. intros t. wp_step. wp_step; [|done]. intros expired He.
  destruct expired; [by apply wp_ret|]. destruct (_ && _) eqn:Hp; [by apply wp_ret|].
  apply wp_ret. split; [done|]. intros _. split; [done|]. exists t.
  apply orb_false_iff in Ht as [Ht Hi]. bool_hyps.
  constructor; try done.
  - split; apply (intersects_false _ _ _ Hi); set_solver.
  - intros Hpii.
    assert (E : MemoryRecord.contains_pii candidate ||
      bool_decide (MemoryRecord.classification candidate = DataClassification.RESTRICTED) = true).
    { destruct Hpii as [->|Hr]; [done|]. by rewrite (bool_decide_eq_true_2 _ Hr), orb_true_r. }
    rewrite E in Hp. cbn in Hp. bool_hyps. unfold intersects in Hp.
    apply any_true in Hp as (r & Hr & Hm). bool_hyps. set_solver.
Qed.

Theorem memory_write_gate min_confidence candidate actor existing roles (s : S) :
  wp (write min_confidence candidate actor existing roles)
    (fun stable s' =>
       (∃ t, admissible min_confidence candidate existing roles t) ∧
       WriteGateResult.decision (compare_existing candidate existing) ≠ WriteDecision.REJECT ∧
       stable = candidate <| MemoryRecord.status := MemoryStatus.STABLE |> ∧
       memory_view s' (MemoryRecord.memory_id candidate) = Some stable ∧
       (∀ u, u ≠ MemoryRecord.memory_id candidate → memory_view s' u = memory_view s u) ∧
       ∃ entry, ledger_view s' = (ledger_view s ++ [entry])%list ∧
         LedgerEntry.memory_id entry = MemoryRecord.memory_id candidate ∧
         LedgerEntry.tenant_id entry = MemoryRecord.tenant_id candidate ∧
         LedgerEntry.actor_id entry = actor)
    (fun _ s' => ∀ u, u ≠ MemoryRecord.memory_id candidate → memory_view s' u = memory_view s u)
    s.
Proof.
  unfold write. wp_step. eapply wp_mono; [apply evaluate_ok| |by intros ? ? ->].
  intros d s1 [-> Hd]. wp_step. wp_step; [|done]. intros Hr. bool_hyps.
  destruct (Hd Hr) as [Ed Had]. wp_step. wp_step; [|done].
  intros stable Est. unfold MemoryRecord.stabilize, MemoryRecord.new in Est. inv_ok.
  wp_step. eapply wp_mono; [apply wp_and; [apply memory_store_law|apply ledger_store_law]| |].
  2: { intros x s' [-> _]. done. }
  intros [] s2 [[Hv Hne] Hl]. wp_step. wp_step. intros entry_id. wp_step. wp_step. intros at_.
  wp_step. eapply wp_mono; [apply ledger_record_law| |].
  - intros [] s3 [Hl3 Hv3]. wp_step.
    split; [done|]. split; [done|]. split; [done|].
    split; [by rewrite Hv3|]. split; [intros u Hu; rewrite Hv3; auto|].
    eexists. split; [rewrite Hl3, Hl; reflexivity|done].
  - intros x s3 Hv3 u Hu. rewrite Hv3. auto.
Qed.
End service.

(** ** The in-memory store and ledger *)

Record memory_world := MemoryWorld {
  records : dict uuid MemoryRecord.t;
  entries : list LedgerEntry.t
}.

#[export] Instance memory_world_eta : Settable memory_world := fun x =>
  MemoryWorld (records x) (entries x).

Module InMemoryMemoryStore.
Definition store (record : MemoryRecord.t) : M memory_world unit :=
  throw_if (negb (bool_decide (MemoryRecord.status record = MemoryStatus.STABLE)))
    PermissionError "only Write Gate output can enter stable memory" ;;
  modify (fun w => w <| records := <[MemoryRecord.memory_id record := record]> (records w) |>).

Definition get_ (memory_id : uuid) : M memory_world (option MemoryRecord.t) :=
  w ← get; mret (records w !! memory_id).

Definition delete_ (memory_id : uuid) : M memory_world unit :=
  modify (fun w => w <| records := delete memory_id (records w) |>).

(** [results[:limit]] for a non-negative limit. *)
Definition search (tenant_id : uuid) (context : string) (limit : nat)
    : M memory_world (list MemoryRecord.t) :=
  w ← get;
  mret (take limit (List.filter (fun r =>
    bool_decide (MemoryRecord.tenant_id r = tenant_id) &&
    contains (lower context) (lower (MemoryRecord.content r))) (values (records w)))).
End InMemoryMemoryStore.

Module MemoryLedger.
Definition record (entry : LedgerEntry.t) : M memory_world unit :=
  modify (fun w => w <| entries := entries w ++ [entry] |>).

Definition history (memory_id : uuid) : M memory_world (list LedgerEntry.t) :=
  w ← get;
  mret (List.filter (fun e => bool_decide (LedgerEntry.memory_id e = memory_id)) (entries w)).
End MemoryLedger.

#[export] Instance in_memory_store : MemoryStorePort memory_world.
Proof.
  refine {|
    memory_store := InMemoryMemoryStore.store;
    memory_get := InMemoryMemoryStore.get_;
    memory_delete := InMemoryMemoryStore.delete_;
    memory_view := fun w u => records w !! u |}.
  - intros r w. unfold InMemoryMemoryStore.store. wp_step. wp_step; [|done]. intros _.
    wp_step. cbn. rewrite dict_lookup_insert. split; [done|].
    intros u Hu. by rewrite dict_lookup_insert_ne.
  - intros u w. unfold InMemoryMemoryStore.get_. do 3 wp_step. done.
Defined.

#[export] Instance in_memory_ledger : LedgerPort memory_world.
Proof.
  refine {| ledger_record := MemoryLedger.record; ledger_view := entries |}.
  - intros entry w. unfold MemoryLedger.record. by wp_step.
  - intros r w. cbn. unfold InMemoryMemoryStore.store. wp_step. wp_step; [|done]. intros _.
    by wp_step.
Defined.

Theorem search_is_tenant_scoped tenant context limit (w : memory_world) :
  wp (InMemoryMemoryStore.search tenant context limit)
    (fun found w' => w' = w ∧ (length found <= limit)%nat ∧
       ∀ r, r ∈ found → MemoryRecord.tenant_id r = tenant ∧ r ∈ values (records w))
    (fun _ _ => False) w.
Proof.
  unfold InMemoryMemoryStore.search. do 3 wp_step. split; [done|]. split; [rewrite length_take; lia|].
  intros r [Hr Hf]%elem_of_take_in%elem_of_list_filter. by bool_hyps.
Qed.

Definition sample_memory_world : memory_world := MemoryWorld ∅ [].

(** Deleting a memory never asks whose it is: a record of one tenant is
    removed by a call made for another, and the ledger files the deletion
    under the caller's tenant. *)
Definition foreign_memory : MemoryRecord.t := {|
  MemoryRecord.tenant_id := 1%N; MemoryRecord.scope := "run"; MemoryRecord.content := "fact";
  MemoryRecord.provenance := ["run:1"]; MemoryRecord.confidence := of_int 1;
  MemoryRecord.expires_at := Aware (days 1); MemoryRecord.approved_by := 5%N;
  MemoryRecord.classification := DataClassification.INTERNAL;
  MemoryRecord.purpose := "run_context"; MemoryRecord.contains_pii := false;
  MemoryRecord.conflict_keys := []; MemoryRecord.source_trust := TrustLevel.ADVISORY;
  MemoryRecord.status := MemoryStatus.PROPOSED; MemoryRecord.memory_id := 7%N;
  MemoryRecord.created_at := Aware 0 |}.

Definition foreign_delete : res Z * st memory_world :=
  (write default_min_confidence foreign_memory 5%N [] [] ;; cascade_delete 7%N 6%N 2%N)
    sample_env (St sample_memory_world 0 0).

Theorem cascade_delete_crosses_tenants :
  ∃ w t n, foreign_delete = (Ok 1, St w t n) ∧ records w = ∅ ∧
    (LedgerEntry.tenant_id <$> entries w) = [1%N; 2%N].
Proof. eexists _, _, _. split; [vm_compute; reflexivity|]. split; reflexivity. Qed.
