(* ===== verification/Gateway.v ===== *)
(** * packages/runtime-kernel: tools.py, the governed tool gateway

    [GovernedToolGateway.execute] as a program over its nine ports and the
    clock.  The trace theorems below quantify over everything those ports may
    answer: an external execution happens at most once per call, and only
    after every governance check of the gateway was answered positively. *)

From S2P Require Import Prelude PyStr PyDict Json Sha256 Effects Programs Transitions Values Goals.
From S2P Require Import Execution ExecutionObjects History.
From Stdlib Require Import ZArith.

Open Scope string_scope.
Open Scope list_scope.
Open Scope Z_scope.

Module KillSwitchDimension.
Inductive t := PLATFORM | TENANT | AGENT | TOOL | OPERATION | PROVIDER | CAPABILITY_PACK.
#[global] Instance t_eq_dec : EqDecision t.
Proof. solve_decision. Defined.
End KillSwitchDimension.

Module KillSwitchQuery.
Record t := mk {
  tenant_id : option string; agent_id : option string; tool_name : option string;
  operation : option string; provider : option string; capability_pack_id : option string
}.

Definition dimensions (q : t) : list (KillSwitchDimension.t * string) :=
  omap (fun '(d, v) => (fun v => (d, v)) <$> (v : option string))
    [(KillSwitchDimension.PLATFORM, Some "platform");
     (KillSwitchDimension.TENANT, tenant_id q);
     (KillSwitchDimension.AGENT, agent_id q);
     (KillSwitchDimension.TOOL, tool_name q);
     (KillSwitchDimension.OPERATION, operation q);
     (KillSwitchDimension.PROVIDER, provider q);
     (KillSwitchDimension.CAPABILITY_PACK, capability_pack_id q)].
End KillSwitchQuery.

Module AuthorizationContext.
Record t := mk {
  tenant_id : string; actor_id : string; principal_id : string; agent_id : string;
  roles : list string; policy_version : string; delegation_id : option string;
  correlation_id : string; purpose : string
}.
End AuthorizationContext.

Module PolicyDecision.
Record t := mk {
  allowed : bool; requires_approval : bool; reason : string; policy_version : string
}.
End PolicyDecision.

Module ResolvedToolVersion.
Record t := mk {
  tool_name : string;
  version : string;
  provider : string;
  operations : list string;
  resource_prefixes : list string;
  input_schema : list (string * json);
  risk_level : RiskLevel.t;
  credential_scope : string
}.

Definition new (x : t) : res t :=
  raise_if (any blank [tool_name x; version x; provider x; credential_scope x] ||
            bool_decide (operations x = [])) ValueError
    "tool version identity and operations are required" ;;
  Ok x.
End ResolvedToolVersion.

Module CredentialLease.
Record t := mk { reference : string; scope : string; expires_at : datetime }.

Definition new (x : t) : res t :=
  raise_if (blank (reference x) || blank (scope x) || is_naive (expires_at x)) ValueError
    "credential lease must be scoped, referenced, and timezone-aware" ;;
  Ok x.
End CredentialLease.

Module ToolResultStatus.
Inductive t := REJECTED | ACCEPTED | SUCCEEDED | FAILED | UNKNOWN.
#[global] Instance t_eq_dec : EqDecision t.
Proof. solve_decision. Defined.
Definition value (x : t) : string :=
  match x with
  | REJECTED => "rejected" | ACCEPTED => "accepted" | SUCCEEDED => "succeeded"
  | FAILED => "failed" | UNKNOWN => "unknown"
  end.
End ToolResultStatus.

Module ToolReceipt.
Record t := mk {
  external_id : string; status : ToolResultStatus.t; output : list (string * string)
}.
#[global] Instance t_eq_dec : EqDecision t.
Proof. solve_decision. Defined.

Definition accepted (r : t) : bool :=
  mem (status r) [ToolResultStatus.ACCEPTED; ToolResultStatus.SUCCEEDED].
End ToolReceipt.

Module ReservationStatus.
Inductive t := ACQUIRED | CACHED | IN_PROGRESS | UNKNOWN | CONFLICT | BUDGET_EXHAUSTED.
#[global] Instance t_eq_dec : EqDecision t.
Proof. solve_decision. Defined.
End ReservationStatus.

Module ExecutionReservation.
Record t := mk {
  tenant_id : string; run_id : string; action_id : string; tool_name : string;
  tool_version : string; idempotency_key : string; request_digest : string; cost_units : Z
}.
End ExecutionReservation.

Module ReservationDecision.
Record t := mk {
  status : ReservationStatus.t; reservation_id : option string; receipt : option ToolReceipt.t
}.
End ReservationDecision.

Module GatewayAuditRecord.
Record t := mk {
  tenant_id : string; action_id : string; correlation_id : string; event : string;
  status : ToolResultStatus.t; reason : string; request_digest : string;
  external_id : string; occurred_at : datetime
}.
End GatewayAuditRecord.

Module GatewayResult.
Record t := mk { action : Action.t; receipt : ToolReceipt.t; cached : bool }.
End GatewayResult.

(** The calls of the gateway, one constructor per protocol method. *)
Inductive GatewayE : Type → Type :=
  | Clock : GatewayE datetime
  | Resolve (tool_name version : string) : GatewayE ResolvedToolVersion.t
  | Delegate (context : AuthorizationContext.t) (action : Action.t)
      (tool : ResolvedToolVersion.t) : GatewayE bool
  | Validate (schema value : list (string * json)) : GatewayE unit
  | Policy (context : AuthorizationContext.t) (action : Action.t) : GatewayE PolicyDecision.t
  | IsBlocked (query : KillSwitchQuery.t) : GatewayE bool
  | Issue (context : AuthorizationContext.t) (action : Action.t)
      (tool : ResolvedToolVersion.t) : GatewayE CredentialLease.t
  | Reserve (request : ExecutionReservation.t) : GatewayE ReservationDecision.t
  | Complete (tenant_id reservation_id : string) (receipt : ToolReceipt.t) : GatewayE unit
  | Execute (action : Action.t) (tool : ResolvedToolVersion.t) (credential : CredentialLease.t)
      : GatewayE ToolReceipt.t
  | Verify (action : Action.t) (tool : ResolvedToolVersion.t) (receipt : ToolReceipt.t)
      : GatewayE bool
  | Audit (item : GatewayAuditRecord.t) : GatewayE unit.

Notation gw := (prog GatewayE).

Definition gw_raise_if (b : bool) (k : exn_kind) (msg : string) : gw unit :=
  of_res (raise_if b k msg).

(** [action.transition_to(target)] with the default actor and reason. *)
Definition transition (action : Action.t) (target : ActionStatus.t) : gw Action.t :=
  t ← call Clock;
  of_res (Action.transition_to action target SYSTEM_ACTOR_ID "system transition" None t).

Definition record_ (context : AuthorizationContext.t) (result : GatewayResult.t)
    (reason : string) : gw unit :=
  let action := GatewayResult.action result in
  t ← call Clock;
  call (Audit {|
    GatewayAuditRecord.tenant_id := uuid_str (Action.tenant_id action);
    GatewayAuditRecord.action_id := uuid_str (Action.action_id action);
    GatewayAuditRecord.correlation_id := AuthorizationContext.correlation_id context;
    GatewayAuditRecord.event := "tool.execution";
    GatewayAuditRecord.status := ToolReceipt.status (GatewayResult.receipt result);
    GatewayAuditRecord.reason := reason;
    GatewayAuditRecord.request_digest := Action.canonical_digest action;
    GatewayAuditRecord.external_id := ToolReceipt.external_id (GatewayResult.receipt result);
    GatewayAuditRecord.occurred_at := t |}).

Definition reject (context : AuthorizationContext.t) (action : Action.t) (reason : string)
    : gw GatewayResult.t :=
  denied ← transition action ActionStatus.DENIED;
  let result := GatewayResult.mk denied
    (ToolReceipt.mk "" ToolResultStatus.REJECTED [("reason", reason)]) false in
  record_ context result reason ;;
  mret result.

Definition to_executing (action : Action.t) : gw Action.t :=
  authorized ← transition action ActionStatus.AUTHORIZED;
  transition authorized ActionStatus.EXECUTING.

Definition unknown (context : AuthorizationContext.t) (action : Action.t) (reason : string)
    : gw GatewayResult.t :=
  executing ← to_executing action;
  current ← transition executing ActionStatus.UNKNOWN;
  let result := GatewayResult.mk current
    (ToolReceipt.mk "" ToolResultStatus.UNKNOWN [("reason", reason)]) true in
  record_ context result reason ;;
  mret result.

Definition receipt_target (s : ToolResultStatus.t) : ActionStatus.t :=
  match s with
  | ToolResultStatus.SUCCEEDED => ActionStatus.SUCCEEDED
  | ToolResultStatus.FAILED => ActionStatus.FAILED
  | ToolResultStatus.UNKNOWN => ActionStatus.UNKNOWN
  | ToolResultStatus.ACCEPTED => ActionStatus.UNKNOWN
  | ToolResultStatus.REJECTED => ActionStatus.FAILED
  end.

Definition is_open (s : ActionStatus.t) : bool :=
  mem s [ActionStatus.PROPOSED; ActionStatus.AWAITING_APPROVAL].

Definition result_from_receipt (action : Action.t) (receipt : ToolReceipt.t) (cached : bool)
    : gw GatewayResult.t :=
  current ← (if is_open (Action.status action) then to_executing action else mret action);
  final ← transition current (receipt_target (ToolReceipt.status receipt));
  mret (GatewayResult.mk final receipt cached).

Definition approval_is_exact (context : AuthorizationContext.t) (action : Action.t)
    (approval : option ApprovalRequest.t) (decision : PolicyDecision.t) : gw bool :=
  match approval with
  | None => mret false
  | Some approval =>
      if bool_decide (ApprovalRequest.status approval = ApprovalStatus.APPROVED) &&
         is_some (ApprovalRequest.decided_by approval) &&
         negb (blank (ApprovalRequest.required_role approval)) then
        t ← call Clock;
        live ← of_res (dt_gt (ApprovalRequest.expires_at approval) t);
        if (live : bool) && bool_decide (ApprovalRequest.policy_version approval =
                                         PolicyDecision.policy_version decision) then
          t' ← call Clock;
          authorized ← of_res (ApprovalRequest.authorizes approval action
                                 (PolicyDecision.policy_version decision) None t');
          mret ((authorized : bool) &&
                bool_decide (AuthorizationContext.policy_version context =
                             PolicyDecision.policy_version decision))
        else mret false
      else mret false
  end.

(** The [try] around the external call, with its exceptions normalized. *)
Definition egress (executing : Action.t) (tool : ResolvedToolVersion.t)
    (credential : CredentialLease.t) : gw ToolReceipt.t :=
  try_prog (fun _ => true)
    (receipt ← call (Execute executing tool credential);
     match ToolReceipt.status receipt with
     | ToolResultStatus.SUCCEEDED =>
         verified ← call (Verify executing tool receipt);
         mret (if (verified : bool) then receipt
               else ToolReceipt.mk (ToolReceipt.external_id receipt) ToolResultStatus.UNKNOWN
                      (ToolReceipt.output receipt))
     | ToolResultStatus.ACCEPTED =>
         mret (ToolReceipt.mk (ToolReceipt.external_id receipt) ToolResultStatus.ACCEPTED
                 (ToolReceipt.output receipt))
     | _ => mret receipt
     end)
    (fun x =>
       mret (if catches TimeoutError (exn_class x)
             then ToolReceipt.mk "" ToolResultStatus.UNKNOWN [("reason", "egress_timeout")]
             else ToolReceipt.mk "" ToolResultStatus.FAILED
                    [("reason", class_name (exn_class x))])).

(** [execute], after the credential and the reservation were obtained. *)
Definition perform (context : AuthorizationContext.t) (action : Action.t)
    (tool : ResolvedToolVersion.t) (credential : CredentialLease.t)
    (reservation : ReservationDecision.t) : gw GatewayResult.t :=
  match ReservationDecision.status reservation with
  | ReservationStatus.CONFLICT =>
      of_res (raise ValueError "idempotency key was reused with a different request digest")
  | ReservationStatus.BUDGET_EXHAUSTED => reject context action "budget_exhausted"
  | ReservationStatus.IN_PROGRESS | ReservationStatus.UNKNOWN =>
      unknown context action "execution_not_safe_to_retry"
  | ReservationStatus.CACHED =>
      match ReservationDecision.receipt reservation with
      | None => of_res (raise RuntimeError "cached reservation is missing its receipt")
      | Some receipt =>
          result ← result_from_receipt action receipt true;
          record_ context result "idempotency_cache_hit" ;;
          mret result
      end
  | ReservationStatus.ACQUIRED =>
      match ReservationDecision.reservation_id reservation with
      | None => of_res (raise RuntimeError "acquired reservation has no identity")
      | Some reservation_id =>
          executing ← to_executing action;
          receipt ← egress executing tool credential;
          call (Complete (uuid_str (Action.tenant_id action)) reservation_id receipt) ;;
          result ← result_from_receipt executing receipt false;
          record_ context result "external_execution_completed" ;;
          mret result
      end
  end.

Definition reservation_request (action : Action.t) (cost_units : Z) : ExecutionReservation.t := {|
  ExecutionReservation.tenant_id := uuid_str (Action.tenant_id action);
  ExecutionReservation.run_id := uuid_str (Action.run_id action);
  ExecutionReservation.action_id := uuid_str (Action.action_id action);
  ExecutionReservation.tool_name := Action.tool_name action;
  ExecutionReservation.tool_version := Action.tool_version action;
  ExecutionReservation.idempotency_key := Action.idempotency_key action;
  ExecutionReservation.request_digest := Action.canonical_digest action;
  ExecutionReservation.cost_units := cost_units |}.

Definition kill_switch_query (context : AuthorizationContext.t) (action : Action.t)
    (tool : ResolvedToolVersion.t) : KillSwitchQuery.t := {|
  KillSwitchQuery.tenant_id := Some (uuid_str (Action.tenant_id action));
  KillSwitchQuery.agent_id := Some (AuthorizationContext.agent_id context);
  KillSwitchQuery.tool_name := Some (Action.tool_name action);
  KillSwitchQuery.operation := Some (Action.operation action);
  KillSwitchQuery.provider := Some (ResolvedToolVersion.provider tool);
  KillSwitchQuery.capability_pack_id := None |}.

(** [catalog.resolve], [None] when it raises a [LookupError]. *)
Definition resolve (action : Action.t) : gw (option ResolvedToolVersion.t) :=
  try_prog (fun x => catches LookupError (exn_class x))
    (tool ← call (Resolve (Action.tool_name action) (Action.tool_version action));
     mret (Some tool))
    (fun _ => mret None).

(** The schema check, [false] when it raises a [ValueError]. *)
Definition schema_ok (tool : ResolvedToolVersion.t) (action : Action.t) : gw bool :=
  try_prog (fun x => catches ValueError (exn_class x))
    (value ← of_res (JsonObject.to_value (Action.parameters action));
     call (Validate (ResolvedToolVersion.input_schema tool) value) ;;
     mret true)
    (fun _ => mret false).

(** [execute], from the policy decision on. *)
Definition execute_governed (context : AuthorizationContext.t)
    (action : Action.t) (approval : option ApprovalRequest.t) (cost_units : Z)
    (tool : ResolvedToolVersion.t) : gw GatewayResult.t :=
  decision ← call (Policy context action);
  if negb (bool_decide (PolicyDecision.policy_version decision =
                        AuthorizationContext.policy_version context)) then
    reject context action "policy_version_changed"
  else if negb (PolicyDecision.allowed decision) then
    reject context action
      (if empty (PolicyDecision.reason decision) then "policy_denied"
       else PolicyDecision.reason decision)
  else
  blocked ← call (IsBlocked (kill_switch_query context action tool));
  if (blocked : bool) then reject context action "kill_switch_active" else
  exact ← (if PolicyDecision.requires_approval decision
           then approval_is_exact context action approval decision else mret true);
  if negb exact then reject context action "approval_invalid_expired_or_stale" else
  credential ← call (Issue context action tool);
  bad ← (if negb (bool_decide (CredentialLease.scope credential =
                               ResolvedToolVersion.credential_scope tool)) then mret true
         else t ← call Clock; of_res (dt_le (CredentialLease.expires_at credential) t));
  if (bad : bool) then reject context action "credential_scope_or_expiry_invalid" else
  reservation ← call (Reserve (reservation_request action cost_units));
  perform context action tool credential reservation.

(** [GovernedToolGateway.execute] *)
Definition execute (allow_l4 : bool) (context : AuthorizationContext.t) (action : Action.t)
    (approval : option ApprovalRequest.t) (cost_units : Z) : gw GatewayResult.t :=
  gw_raise_if (negb (is_open (Action.status action))) ValueError
    "action is not executable from its current state" ;;
  gw_raise_if (negb (bool_decide (AuthorizationContext.tenant_id context =
                                  uuid_str (Action.tenant_id action)))) PermissionError
    "authorization tenant differs from action tenant" ;;
  gw_raise_if (cost_units <=? 0) ValueError "execution cost must be positive" ;;
  resolved ← resolve action;
  match resolved with
  | None => reject context action "immutable_tool_version_not_found"
  | Some tool =>
      if negb (bool_decide (ResolvedToolVersion.tool_name tool = Action.tool_name action)) ||
         negb (bool_decide (ResolvedToolVersion.version tool = Action.tool_version action)) then
        reject context action "immutable_tool_version_mismatch"
      else
      delegated ← call (Delegate context action tool);
      if negb delegated then reject context action "delegation_denied_or_revoked"
      else if negb (mem (Action.operation action) (ResolvedToolVersion.operations tool)) then
        reject context action "operation_not_allowed"
      else if negb (any (startswith (Action.resource_scope action))
                      (ResolvedToolVersion.resource_prefixes tool)) then
        reject context action "resource_scope_not_allowed"
      else
      valid ← schema_ok tool action;
      if negb valid then reject context action "schema_or_semantic_validation_failed"
      else if negb (bool_decide (Action.risk_level action = ResolvedToolVersion.risk_level tool))
      then reject context action "server_risk_reclassification_changed_digest"
      else if bool_decide (ResolvedToolVersion.risk_level tool = RiskLevel.L4_PRIVILEGED) &&
              negb allow_l4 then reject context action "l4_default_deny"
      else execute_governed context action approval cost_units tool
  end.
