(* ===== verification/GatewayProofs.v ===== *)
(** * The gateway's guarantees, over every behaviour of its ports

    [egress_is_governed]: an external execution is preceded by a positive
    answer of every check and happens at most once.  [success_is_verified]: an
    action only ends as succeeded after a read-back said so, or because an
    earlier reservation of the same request holds a successful receipt.
    [denied_without_egress]: a denied action caused no external call. *)

From S2P Require Import Prelude PyStr PyDict Json Sha256 Effects Programs Transitions Values Goals.
From S2P Require Import Execution ExecutionObjects History Digests Gateway.
From stdpp Require Import relations.
From Stdlib Require Import ZArith.

Open Scope string_scope.
Open Scope list_scope.
Open Scope Z_scope.

(** The arguments of an external execution. *)
Definition is_execute (ev : event (E := GatewayE))
    : option (Action.t * ResolvedToolVersion.t * CredentialLease.t) :=
  match (projT2 ev).1 with
  | Execute action tool credential => Some (action, tool, credential)
  | _ => None
  end.

Definition executions (tr : list event) := omap is_execute tr.

Lemma executions_app tr1 tr2 : executions (tr1 ++ tr2) = executions tr1 ++ executions tr2.
Proof. apply omap_app. Qed.

Lemma executions_in tr ev x : ev ∈ tr → is_execute ev = Some x → x ∈ executions tr.
Proof. intros Hin He. apply list_elem_of_omap. eauto. Qed.

(** ** Programs without external executions *)

Definition quiet {A} (p : gw A) : Prop := ∀ tr out, runs p tr out → executions tr = [].

Lemma quiet_ret {A} (a : A) : quiet (mret a).
Proof. by intros tr out [-> _]%runs_ret_inv. Qed.

Lemma quiet_of_res {A} (r : res A) : quiet (of_res r).
Proof. by intros tr out [-> _]%runs_of_res. Qed.

Lemma quiet_bind {A B} (p : gw A) (f : A → gw B) :
  quiet p → (∀ a, quiet (f a)) → quiet (p ≫= f).
Proof.
  intros Hp Hf tr out [(a & tr1 & tr2 & -> & H1 & H2)|(x & -> & H)]%runs_bind; [|by eapply Hp].
  rewrite executions_app, (Hp _ _ H1), (Hf _ _ _ H2). done.
Qed.

Lemma quiet_try {A} caught (p : gw A) h :
  quiet p → (∀ x, quiet (h x)) → quiet (try_prog caught p h).
Proof.
  intros Hp Hh tr out [[H _]|(x & tr1 & tr2 & -> & H1 & _ & H2)]%runs_try; [by eapply Hp|].
  rewrite executions_app, (Hp _ _ H1), (Hh _ _ _ H2). done.
Qed.

Lemma quiet_call {B} (c : GatewayE B) : (∀ r, is_execute (Event c r) = None) → quiet (call c).
Proof. intros Hc tr out ->%runs_single. cbn. by rewrite Hc. Qed.

(** Decides quietness by the structure of the program. *)
Ltac solve_quiet :=
  repeat first
    [ apply quiet_ret | apply quiet_of_res | apply quiet_call; done
    | apply quiet_bind; [|intros ?] | apply quiet_try; [|intros ?]
    | progress case_match ].

Lemma quiet_transition a s : quiet (transition a s).
Proof. unfold transition. solve_quiet. Qed.

Lemma quiet_to_executing a : quiet (to_executing a).
Proof. unfold to_executing, transition. solve_quiet. Qed.

Lemma quiet_record ctx r reason : quiet (record_ ctx r reason).
Proof. unfold record_. solve_quiet. Qed.

Lemma quiet_reject ctx a reason : quiet (reject ctx a reason).
Proof. unfold reject, transition, record_. solve_quiet. Qed.

Lemma quiet_unknown ctx a reason : quiet (unknown ctx a reason).
Proof. unfold unknown, to_executing, transition, record_. solve_quiet. Qed.

Lemma quiet_result a r c : quiet (result_from_receipt a r c).
Proof. unfold result_from_receipt, to_executing, transition. solve_quiet. Qed.

Lemma quiet_approval ctx a q d : quiet (approval_is_exact ctx a q d).
Proof. unfold approval_is_exact. solve_quiet. Qed.

Lemma quiet_resolve a : quiet (resolve a).
Proof. unfold resolve. solve_quiet. Qed.

Lemma quiet_schema tool a : quiet (schema_ok tool a).
Proof. unfold schema_ok. solve_quiet. Qed.

(** ** Executions after a history *)

(** Every external execution of [p] happens after a history in [P], where [pre]
    is the history before [p] starts. *)
Definition after {A} (P : list event → Action.t * ResolvedToolVersion.t * CredentialLease.t → Prop)
    (pre : list event) (p : gw A) : Prop :=
  ∀ tr out, runs p tr out → (length (executions tr) <= 1)%nat ∧
    ∀ t1 ev t2 x, tr = t1 ++ ev :: t2 → is_execute ev = Some x → P (pre ++ t1) x.

Lemma after_quiet {A} P pre (p : gw A) : quiet p → after P pre p.
Proof.
  intros Hq tr out H. rewrite (Hq _ _ H). split; [cbn; lia|].
  intros t1 ev t2 x -> He. specialize (Hq _ _ H).
  assert (Hin : x ∈ executions (t1 ++ ev :: t2))
    by (eapply executions_in; [apply elem_of_app; right; left|done]).
  rewrite Hq in Hin. by apply elem_of_nil in Hin.
Qed.

(** A quiet step, then a program whose executions are after it. *)
Lemma after_bind {A B} P pre (p : gw A) (f : A → gw B) :
  quiet p → (∀ tr1 a, runs p tr1 (Ok a) → after P (pre ++ tr1) (f a)) → after P pre (p ≫= f).
Proof.
  intros Hq Hf tr out [(a & tr1 & tr2 & -> & H1 & H2)|(x & -> & H)]%runs_bind; cycle 1.
  { by eapply after_quiet. }
  destruct (Hf _ _ H1 _ _ H2) as [Hl Ht]. split; [by rewrite executions_app, (Hq _ _ H1)|].
  intros t1 ev t2 x E He.
  apply app_eq_inv in E as [(l & -> & E)|(l & -> & E)]; [|rewrite app_assoc; eauto].
  destruct l as [|ev' l]; cbn in E.
  - subst. rewrite app_nil_r in *. specialize (Ht [] ev t2 x eq_refl He).
    by rewrite app_nil_r in Ht.
  - injection E as <- _. specialize (Hq _ _ H1).
    assert (Hin : x ∈ executions (t1 ++ ev :: l))
      by (eapply executions_in; [apply elem_of_app; right; left|done]).
    rewrite Hq in Hin. by apply elem_of_nil in Hin.
Qed.

(** ** What must have happened before an external execution *)

(** The answers in the history [tr] that license executing [action] with
    [tool] and [credential]. *)
Record governed (allow_l4 : bool) (ctx : AuthorizationContext.t) (action : Action.t)
    (approval : option ApprovalRequest.t) (cost : Z) (tr : list event)
    (tool : ResolvedToolVersion.t) (credential : CredentialLease.t) : Prop := {
  go_open : is_open (Action.status action) = true;
  go_tenant : AuthorizationContext.tenant_id ctx = uuid_str (Action.tenant_id action);
  go_cost : 0 < cost;
  go_tool : Event (Resolve (Action.tool_name action) (Action.tool_version action)) (Ok tool) ∈ tr ∧
    ResolvedToolVersion.tool_name tool = Action.tool_name action ∧
    ResolvedToolVersion.version tool = Action.tool_version action;
  go_delegated : Event (Delegate ctx action tool) (Ok true) ∈ tr;
  go_operation : Action.operation action ∈ ResolvedToolVersion.operations tool;
  go_scope : ∃ prefix, prefix ∈ ResolvedToolVersion.resource_prefixes tool ∧
    startswith (Action.resource_scope action) prefix = true;
  go_schema : ∃ value, JsonObject.to_value (Action.parameters action) = Ok value ∧
    Event (Validate (ResolvedToolVersion.input_schema tool) value) (Ok tt) ∈ tr;
  go_risk : Action.risk_level action = ResolvedToolVersion.risk_level tool;
  go_l4 : Action.risk_level action = RiskLevel.L4_PRIVILEGED → allow_l4 = true;
  go_policy : ∃ decision, Event (Policy ctx action) (Ok decision) ∈ tr ∧
    PolicyDecision.allowed decision = true ∧
    PolicyDecision.policy_version decision = AuthorizationContext.policy_version ctx ∧
    (PolicyDecision.requires_approval decision = true →
     ∃ q t, approval = Some q ∧ ApprovalRequest.decided_by q ≠ None ∧
       Event Clock (Ok t) ∈ tr ∧
       ApprovalRequest.authorizes q action (PolicyDecision.policy_version decision) None t = Ok true);
  go_kill_switch : Event (IsBlocked (kill_switch_query ctx action tool)) (Ok false) ∈ tr;
  go_credential : Event (Issue ctx action tool) (Ok credential) ∈ tr ∧
    CredentialLease.scope credential = ResolvedToolVersion.credential_scope tool ∧
    ∃ t, Event Clock (Ok t) ∈ tr ∧ dt_le (CredentialLease.expires_at credential) t = Ok false;
  go_reserved : ∃ r, Event (Reserve (reservation_request action cost)) (Ok r) ∈ tr ∧
    ReservationDecision.status r = ReservationStatus.ACQUIRED
}.

(** Facts about a history survive its extension. *)
Lemma in_extended (ev : event (E := GatewayE)) tr1 tr2 : ev ∈ tr1 → ev ∈ tr1 ++ tr2.
Proof. intros. apply elem_of_app. by left. Qed.

Lemma in_answer (ev : event (E := GatewayE)) tr : ev ∈ tr ++ [ev].
Proof. apply elem_of_app. right. left. Qed.

Lemma resolve_some a tr tool : runs (resolve a) tr (Ok (Some tool)) →
  tr = [Event (Resolve (Action.tool_name a) (Action.tool_version a)) (Ok tool)].
Proof.
  intros [[H _]|(x & tr1 & tr2 & -> & _ & _ & H)]%runs_try; [|by apply runs_ret_inv in H as [_ ?]].
  apply runs_bind in H as [(t & tr1 & tr2 & -> & ->%runs_single & [-> [= ->]]%runs_ret_inv)|(? & ? & _)];
    [done|done].
Qed.

Lemma schema_ok_true tool a tr : runs (schema_ok tool a) tr (Ok true) →
  ∃ value, JsonObject.to_value (Action.parameters a) = Ok value ∧
    Event (Validate (ResolvedToolVersion.input_schema tool) value) (Ok tt) ∈ tr.
Proof.
  intros [[H _]|(x & tr1 & tr2 & -> & _ & _ & H)]%runs_try; [|by apply runs_ret_inv in H as [_ ?]].
  apply runs_bind in H as [(v & tr1 & tr2 & -> & [-> Hv]%runs_of_res & H)|(? & ? & _)]; [|done].
  apply runs_bind in H as [([] & tr3 & tr4 & -> & ->%runs_single & _)|(? & ? & _)]; [|done].
  exists v. split; [done|]. left.
Qed.

Lemma approval_exact_true ctx a approval d tr :
  runs (approval_is_exact ctx a approval d) tr (Ok true) →
  ∃ q t, approval = Some q ∧ ApprovalRequest.decided_by q ≠ None ∧ Event Clock (Ok t) ∈ tr ∧
    ApprovalRequest.authorizes q a (PolicyDecision.policy_version d) None t = Ok true.
Proof.
  destruct approval as [q|]; cbn [approval_is_exact]; [|by intros [_ ?]%runs_ret_inv].
  intros H. destruct (_ && _) eqn:Eq; [|by apply runs_ret_inv in H as [_ ?]].
  apply runs_bind in H as [(t & tr1 & tr2 & -> & ->%runs_single & H)|(? & ? & _)]; [|done].
  apply runs_bind in H as [(live & tr3 & tr4 & -> & [-> _]%runs_of_res & H)|(? & ? & _)]; [|done].
  destruct (live && _); [|by apply runs_ret_inv in H as [_ ?]].
  apply runs_bind in H as [(t' & tr5 & tr6 & -> & ->%runs_single & H)|(? & ? & _)]; [|done].
  apply runs_bind in H as [(b & tr7 & tr8 & -> & [-> Hb]%runs_of_res & H)|(? & ? & _)]; [|done].
  apply runs_ret_inv in H as [_ [= E]]. symmetry in E. bool_hyps. subst b.
  exists q, t'. split_and!; [done| |right; left|done].
  by destruct (ApprovalRequest.decided_by q).
Qed.

(** Executions of a trace with a quiet tail are those of its head. *)
Lemma after_app {P : list event → Action.t * ResolvedToolVersion.t * CredentialLease.t → Prop}
    pre tr1 tr2 :
  executions tr2 = [] →
  ((length (executions tr1) <= 1)%nat ∧
   ∀ t1 ev t2 x, tr1 = t1 ++ ev :: t2 → is_execute ev = Some x → P (pre ++ t1) x) →
  (length (executions (tr1 ++ tr2)) <= 1)%nat ∧
  ∀ t1 ev t2 x, tr1 ++ tr2 = t1 ++ ev :: t2 → is_execute ev = Some x → P (pre ++ t1) x.
Proof.
  intros Hq [Hl Ht]. rewrite executions_app, Hq, app_nil_r. split; [done|].
  intros t1 ev t2 x E He.
  assert (Hno : ev ∉ tr2).
  { intros Hin. pose proof (executions_in _ _ _ Hin He) as Hx. rewrite Hq in Hx.
    by apply elem_of_nil in Hx. }
  apply app_eq_inv in E as [(l & -> & E)|(l & -> & E)].
  - destruct l as [|ev' l]; cbn in E; [subst; destruct Hno; left|]. injection E as <- _. eauto.
  - subst. destruct Hno. apply elem_of_app. right. left.
Qed.

Lemma after_try {A} P pre caught (p : gw A) h :
  after P pre p → (∀ x, quiet (h x)) → after P pre (try_prog caught p h).
Proof.
  intros Hp Hh tr out [[H _]|(x & tr1 & tr2 & -> & H1 & _ & H2)]%runs_try; [by eapply Hp|].
  apply after_app; [by eapply Hh|by eapply Hp].
Qed.

Lemma after_then_quiet {A B} P pre (p : gw A) (f : A → gw B) :
  after P pre p → (∀ a, quiet (f a)) → after P pre (p ≫= f).
Proof.
  intros Hp Hf tr out [(a & tr1 & tr2 & -> & H1 & H2)|(x & -> & H)]%runs_bind; [|by eapply Hp].
  apply after_app; [by eapply Hf|by eapply Hp].
Qed.

Lemma after_execute (P : list event → Action.t * ResolvedToolVersion.t * CredentialLease.t → Prop)
    pre a t c : P pre (a, t, c) → after P pre (call (Execute a t c)).
Proof.
  intros Hp tr out ->%runs_single. split; [cbn; lia|].
  intros t1 ev t2 x E He. destruct t1 as [|? t1]; [|by destruct t1].
  injection E as <- _. cbn in He. injection He as <-. by rewrite app_nil_r.
Qed.

Lemma after_egress (P : list event → Action.t * ResolvedToolVersion.t * CredentialLease.t → Prop)
    pre a t c : P pre (a, t, c) → after P pre (egress a t c).
Proof.
  intros Hp. unfold egress. apply after_try; [|intros; solve_quiet].
  apply after_then_quiet; [by apply after_execute|]. intros receipt. solve_quiet.
Qed.

(** [to_executing] moves the status and nothing an execution depends on. *)
Lemma transition_ok a s tr a' : runs (transition a s) tr (Ok a') →
  Action.status a' = s ∧ same_executable a' a ∧ action_step a a'.
Proof.
  intros H. apply runs_bind in H as [(t & tr1 & tr2 & -> & _ & [_ E]%runs_of_res)|(? & ? & _)];
    [|done].
  symmetry in E. assert (Ha : action_step a a') by (by repeat eexists).
  unfold Action.transition_to, Action.new in E. inv_ok. unfold same_executable. cbn. auto 20.
Qed.

Lemma same_executable_trans a b c :
  same_executable a b → same_executable b c → same_executable a c.
Proof. unfold same_executable. intros H1 H2. destruct_and!. split_and!; congruence. Qed.

Lemma to_executing_ok a tr a' : runs (to_executing a) tr (Ok a') →
  Action.status a' = ActionStatus.EXECUTING ∧ same_executable a' a ∧
  action_steps a a'.
Proof.
  intros H. apply runs_bind in H as [(b & tr1 & tr2 & -> & H1 & H2)|(? & ? & _)]; [|done].
  apply transition_ok in H1 as (_ & Hs1 & Ha1). apply transition_ok in H2 as (Hs & Hs2 & Ha2).
  split_and!; [done|by eapply same_executable_trans|]. by eapply rtc_l, rtc_once.
Qed.

(** The history and the arguments of a licensed execution. *)
Definition licensed allow_l4 ctx action approval cost (tr : list event)
    (x : Action.t * ResolvedToolVersion.t * CredentialLease.t) : Prop :=
  let '(executing, tool, credential) := x in
  governed allow_l4 ctx action approval cost tr tool credential ∧
  Action.status executing = ActionStatus.EXECUTING ∧ same_executable executing action.

Lemma governed_mono allow_l4 ctx a q cost tr1 tr2 tool c :
  governed allow_l4 ctx a q cost tr1 tool c → governed allow_l4 ctx a q cost (tr1 ++ tr2) tool c.
Proof.
  intros []. constructor; try done.
  - naive_solver auto using in_extended.
  - by apply in_extended.
  - destruct go_schema0 as (v & ? & ?). exists v. auto using in_extended.
  - destruct go_policy0 as (d & ? & ? & ? & Hq). exists d. split_and!; auto using in_extended.
    intros Hr. destruct (Hq Hr) as (q' & t & ? & ? & ? & ?). exists q', t.
    split_and!; auto using in_extended.
  - by apply in_extended.
  - destruct go_credential0 as (? & ? & t & ? & ?). split_and!; auto using in_extended.
    exists t. auto using in_extended.
  - destruct go_reserved0 as (r & ? & ?). exists r. auto using in_extended.
Qed.

Lemma perform_after allow_l4 ctx a q cost pre tool c r :
  (ReservationDecision.status r = ReservationStatus.ACQUIRED →
   governed allow_l4 ctx a q cost pre tool c) →
  after (licensed allow_l4 ctx a q cost) pre (perform ctx a tool c r).
Proof.
  intros Hg. unfold perform. destruct (ReservationDecision.status r);
    try (apply after_quiet; solve_quiet;
         eauto using quiet_reject, quiet_unknown, quiet_result, quiet_record; fail).
  destruct (ReservationDecision.reservation_id r); [|apply after_quiet, quiet_of_res].
  apply after_bind; [apply quiet_to_executing|]. intros tr1 executing H1.
  apply to_executing_ok in H1 as (? & ? & _).
  apply after_then_quiet.
  - apply after_egress. split; [by apply governed_mono, Hg|done].
  - intros receipt. apply quiet_bind; [by apply quiet_call|]. intros _.
    apply quiet_bind; [apply quiet_result|]. intros res.
    apply quiet_bind; [apply quiet_record|]. intros _. apply quiet_ret.
Qed.

(** The checks that precede the policy decision. *)
Record prechecked (allow_l4 : bool) (ctx : AuthorizationContext.t) (action : Action.t)
    (cost : Z) (tr : list event) (tool : ResolvedToolVersion.t) : Prop := {
  pc_open : is_open (Action.status action) = true;
  pc_tenant : AuthorizationContext.tenant_id ctx = uuid_str (Action.tenant_id action);
  pc_cost : 0 < cost;
  pc_tool : Event (Resolve (Action.tool_name action) (Action.tool_version action)) (Ok tool) ∈ tr ∧
    ResolvedToolVersion.tool_name tool = Action.tool_name action ∧
    ResolvedToolVersion.version tool = Action.tool_version action;
  pc_delegated : Event (Delegate ctx action tool) (Ok true) ∈ tr;
  pc_operation : Action.operation action ∈ ResolvedToolVersion.operations tool;
  pc_scope : ∃ prefix, prefix ∈ ResolvedToolVersion.resource_prefixes tool ∧
    startswith (Action.resource_scope action) prefix = true;
  pc_schema : ∃ value, JsonObject.to_value (Action.parameters action) = Ok value ∧
    Event (Validate (ResolvedToolVersion.input_schema tool) value) (Ok tt) ∈ tr;
  pc_risk : Action.risk_level action = ResolvedToolVersion.risk_level tool;
  pc_l4 : Action.risk_level action = RiskLevel.L4_PRIVILEGED → allow_l4 = true
}.

Lemma execute_governed_after allow_l4 ctx a q cost pre tool :
  prechecked allow_l4 ctx a cost pre tool →
  after (licensed allow_l4 ctx a q cost) pre (execute_governed ctx a q cost tool).
Proof.
  intros Hpre. unfold execute_governed.
  apply after_bind; [by apply quiet_call|]. intros tr1 d ->%runs_single.
  case_bool_decide as Hv; cbn [negb]; [|apply after_quiet, quiet_reject].
  destruct (PolicyDecision.allowed d) eqn:Hal; cbn [negb]; [|apply after_quiet, quiet_reject].
  apply after_bind; [by apply quiet_call|]. intros tr2 blocked ->%runs_single.
  destruct blocked; [apply after_quiet, quiet_reject|].
  apply after_bind; [solve_quiet; apply quiet_approval|]. intros tr3 exact Hex.
  destruct exact; cbn [negb]; [|apply after_quiet, quiet_reject].
  apply after_bind; [by apply quiet_call|]. intros tr4 c ->%runs_single.
  apply after_bind; [solve_quiet|]. intros tr5 bad Hbad.
  destruct bad; [apply after_quiet, quiet_reject|].
  apply after_bind; [by apply quiet_call|]. intros tr6 r ->%runs_single.
  apply perform_after. intros Hr. destruct Hpre. constructor; try done.
  - destruct pc_tool0 as (? & ? & ?). split_and!; [by repeat apply in_extended|done|done].
  - by repeat apply in_extended.
  - destruct pc_schema0 as (v & ? & ?). exists v. split; [done|]. by repeat apply in_extended.
  - exists d. split_and!; [by do 5 apply in_extended; apply in_answer|done|done|].
    intros Hreq. rewrite Hreq in Hex. apply approval_exact_true in Hex as (q' & t & ? & ? & ? & ?).
    exists q', t. split_and!; try done. do 3 apply in_extended. apply elem_of_app. by right.
  - do 4 apply in_extended. apply in_answer.
  - split; [do 2 apply in_extended; apply in_answer|]. revert Hbad.
    case_bool_decide; cbn [negb]; [|by intros [_ ?]%runs_ret_inv]. intros Hbad. split; [done|].
    apply runs_bind in Hbad as [(t & tra & trb & -> & ->%runs_single & [-> Hb]%runs_of_res)|(? & ? & _)];
      [|done].
    exists t. split; [|done]. apply in_extended, elem_of_app. right. left.
  - exists r. split; [apply in_answer|done].
Qed.

Lemma execute_after allow_l4 ctx a q cost :
  after (licensed allow_l4 ctx a q cost) [] (execute allow_l4 ctx a q cost).
Proof.
  unfold execute, gw_raise_if.
  apply after_bind; [apply quiet_of_res|]. intros tr1 [] [-> H1]%runs_of_res.
  apply after_bind; [apply quiet_of_res|]. intros tr2 [] [-> H2]%runs_of_res.
  apply after_bind; [apply quiet_of_res|]. intros tr3 [] [-> H3]%runs_of_res.
  symmetry in H1, H2, H3. rewrite !raise_if_ok in *. bool_hyps.
  apply after_bind; [apply quiet_resolve|]. intros tr4 [tool|] H4;
    [apply resolve_some in H4 as ->|apply after_quiet, quiet_reject].
  destruct (_ || _) eqn:Hn; [apply after_quiet, quiet_reject|]. bool_hyps.
  apply after_bind; [by apply quiet_call|]. intros tr5 dg ->%runs_single.
  destruct dg; cbn [negb]; [|apply after_quiet, quiet_reject].
  destruct (mem _ _) eqn:Hop; cbn [negb]; [|apply after_quiet, quiet_reject].
  destruct (any _ _) eqn:Hsc; cbn [negb]; [|apply after_quiet, quiet_reject].
  apply after_bind; [apply quiet_schema|]. intros tr6 valid Hval.
  destruct valid; cbn [negb]; [|apply after_quiet, quiet_reject].
  apply schema_ok_true in Hval as (v & Hv & Hval).
  case_bool_decide as Hrisk; cbn [negb]; [|apply after_quiet, quiet_reject].
  destruct (_ && _) eqn:Hl4; [apply after_quiet, quiet_reject|].
  apply execute_governed_after. constructor; try done.
  - split_and!; [|done..]. apply in_extended, in_extended. left.
  - apply in_extended, in_answer.
  - by apply mem_true.
  - by apply any_true in Hsc.
  - exists v. split; [done|]. apply elem_of_app. by right.
  - intros E. rewrite <- Hrisk, E in Hl4. cbn in Hl4. by destruct allow_l4.
Qed.

(** C3. Whatever the gateway's ports answer, a call reaches the external tool at most
    once, and only after the tool resolved, the action's tenant, cost, operation,
    resource scope and risk level were checked, delegation, schema, policy, kill
    switch, credential and reservation all allowed it, and, when the policy decision
    requires an approval, a decided approval authorized the action; what is executed
    is the submitted action, in EXECUTING. *)
Theorem egress_is_governed allow_l4 ctx action approval cost tr out :
  runs (execute allow_l4 ctx action approval cost) tr out →
  (length (executions tr) <= 1)%nat ∧
  ∀ before ev later executing tool credential,
    tr = before ++ ev :: later → is_execute ev = Some (executing, tool, credential) →
    governed allow_l4 ctx action approval cost before tool credential ∧
    Action.status executing = ActionStatus.EXECUTING ∧ same_executable executing action.
Proof.
  intros H. destruct (execute_after _ _ _ _ _ _ _ H) as [Hl Ht]. split; [done|].
  intros before ev later executing tool credential E He. exact (Ht _ _ _ _ E He).
Qed.

(** ** Outcomes *)

(** The result of a receipt: the receipt, and the action in its target state. *)
Lemma result_from_receipt_ok a r c tr res : runs (result_from_receipt a r c) tr (Ok res) →
  GatewayResult.receipt res = r ∧ GatewayResult.cached res = c ∧
  Action.status (GatewayResult.action res) = receipt_target (ToolReceipt.status r) ∧
  same_executable (GatewayResult.action res) a ∧
  action_steps a (GatewayResult.action res).
Proof.
  intros H. apply runs_bind in H as [(b & tr1 & tr2 & -> & H1 & H)|(? & ? & _)]; [|done].
  apply runs_bind in H as [(f & tr3 & tr4 & -> & H2 & H)|(? & ? & _)]; [|done].
  apply runs_ret_inv in H as [_ [= ->]]. apply transition_ok in H2 as (? & Hs & Ha). cbn.
  assert (Hb : same_executable b a ∧ action_steps a b).
  { destruct (is_open _); [apply to_executing_ok in H1 as (_ & ? & ?); done|].
    apply runs_ret_inv in H1 as [_ [= ->]]. split; [unfold same_executable; auto 20|constructor]. }
  destruct Hb as [Hb1 Hb2]. split_and!; try done.
  - by eapply same_executable_trans.
  - by eapply rtc_r.
Qed.

(** What the gateway may return for [action]. *)
Inductive verdict (action : Action.t) (tr : list event) (res : GatewayResult.t) : Prop :=
  | verdict_denied :
      Action.status (GatewayResult.action res) = ActionStatus.DENIED →
      ToolReceipt.status (GatewayResult.receipt res) = ToolResultStatus.REJECTED →
      executions tr = [] → verdict action tr res
  | verdict_unknown :
      Action.status (GatewayResult.action res) = ActionStatus.UNKNOWN →
      executions tr = [] → verdict action tr res
  | verdict_cached reservation :
      Action.status (GatewayResult.action res) =
        receipt_target (ToolReceipt.status (GatewayResult.receipt res)) →
      ReservationDecision.status reservation = ReservationStatus.CACHED →
      ReservationDecision.receipt reservation = Some (GatewayResult.receipt res) →
      (∃ request, Event (Reserve request) (Ok reservation) ∈ tr) →
      executions tr = [] → verdict action tr res
  | verdict_executed executing tool credential :
      Action.status (GatewayResult.action res) =
        receipt_target (ToolReceipt.status (GatewayResult.receipt res)) →
      executions tr = [(executing, tool, credential)] →
      (ToolReceipt.status (GatewayResult.receipt res) = ToolResultStatus.SUCCEEDED →
       Event (Execute executing tool credential) (Ok (GatewayResult.receipt res)) ∈ tr ∧
       Event (Verify executing tool (GatewayResult.receipt res)) (Ok true) ∈ tr) →
      verdict action tr res.

(** The verdict of the whole run; the action it returns came from [action] by
    transitions. *)
Definition decides {A} (action : Action.t) (p : gw A) (result : A → GatewayResult.t) : Prop :=
  ∀ tr a, runs p tr (Ok a) → verdict action tr (result a) ∧
    action_steps action (GatewayResult.action (result a)).

(** A quiet step before a verdict changes nothing in it. *)
Lemma verdict_prepend action tr1 tr2 res :
  executions tr1 = [] → verdict action tr2 res → verdict action (tr1 ++ tr2) res.
Proof.
  intros Hq []; [eapply verdict_denied|eapply verdict_unknown|eapply verdict_cached|eapply verdict_executed];
    eauto; rewrite ?executions_app, ?Hq; try done.
  - destruct H2 as [request ?]. exists request. apply elem_of_app. by right.
  - intros Hs. destruct (H1 Hs). split; apply elem_of_app; by right.
Qed.

Lemma decides_bind {A} action (p : gw A) (f : A → gw GatewayResult.t) :
  quiet p → (∀ tr1 a, runs p tr1 (Ok a) → decides action (f a) id) →
  decides action (p ≫= f) id.
Proof.
  intros Hq Hf tr res [(a & tr1 & tr2 & -> & H1 & H2)|(? & ? & _)]%runs_bind; [|done].
  destruct (Hf _ _ H1 _ _ H2). split; [|done]. apply verdict_prepend; [by eapply Hq|done].
Qed.

Lemma decides_reject ctx action reason : decides action (reject ctx action reason) id.
Proof.
  intros tr res H. pose proof (quiet_reject _ _ _ _ _ H) as Hq. unfold reject in H.
  apply runs_bind in H as [(d & tr1 & tr2 & -> & H1 & H)|(? & ? & _)]; [|done].
  apply runs_bind in H as [([] & tr3 & tr4 & -> & H2 & H)|(? & ? & _)]; [|done].
  apply runs_ret_inv in H as [_ [= ->]]. apply transition_ok in H1 as (? & ? & ?).
  split; [by apply verdict_denied|]. by apply rtc_once.
Qed.

Lemma decides_unknown ctx action reason : decides action (unknown ctx action reason) id.
Proof.
  intros tr res H. pose proof (quiet_unknown _ _ _ _ _ H) as Hq. unfold unknown in H.
  apply runs_bind in H as [(d & tr1 & tr2 & -> & H1 & H)|(? & ? & _)]; [|done].
  apply runs_bind in H as [(u & tr3 & tr4 & -> & H2 & H)|(? & ? & _)]; [|done].
  apply runs_bind in H as [([] & tr5 & tr6 & -> & H3 & H)|(? & ? & _)]; [|done].
  apply runs_ret_inv in H as [_ [= ->]].
  apply to_executing_ok in H1 as (_ & _ & ?). apply transition_ok in H2 as (? & _ & ?).
  split; [by apply verdict_unknown|]. by eapply rtc_r.
Qed.

Lemma egress_ok a t c tr receipt : runs (egress a t c) tr (Ok receipt) →
  executions tr = [(a, t, c)] ∧
  (ToolReceipt.status receipt = ToolResultStatus.SUCCEEDED →
   Event (Execute a t c) (Ok receipt) ∈ tr ∧ Event (Verify a t receipt) (Ok true) ∈ tr).
Proof.
  intros [[H _]|(x & tr1 & tr2 & -> & H1 & _ & H2)]%runs_try.
  - apply runs_bind in H as [(r & tr1 & tr2 & -> & ->%runs_single & H)|(? & ? & _)]; [|done].
    destruct (ToolReceipt.status r) eqn:Es.
    all: try (apply runs_ret_inv in H as [-> [= ->]]; cbn in *; split; [done|congruence]).
    apply runs_bind in H as [(v & tr3 & tr4 & -> & ->%runs_single & H)|(? & ? & _)]; [|done].
    apply runs_ret_inv in H as [-> [= ->]]. cbn. split; [done|].
    destruct v; cbn; [|done]. intros _. split; [left|right; left].
  - apply runs_ret_inv in H2 as [-> [= ->]]. rewrite app_nil_r. split.
    + apply runs_bind in H1 as [(r & tr1' & tr2 & -> & ->%runs_single & H)|(? & _ & ->%runs_single)];
        [|done].
      cbn. destruct (ToolReceipt.status r); try (by apply runs_ret_inv in H as [_ ?]).
      apply runs_bind in H as [(v & tr3 & tr4 & -> & ->%runs_single & H)|(? & _ & ->%runs_single)];
        [by apply runs_ret_inv in H as [_ ?]|done].
    + case_match; done.
Qed.

Lemma decides_execution action ctx tool c reservation_id :
  decides action
    (executing ← to_executing action;
     receipt ← egress executing tool c;
     call (Complete (uuid_str (Action.tenant_id action)) reservation_id receipt) ;;
     result ← result_from_receipt executing receipt false;
     record_ ctx result "external_execution_completed" ;;
     mret result) id.
Proof.
  apply decides_bind; [apply quiet_to_executing|]. intros tr1 ex H1 tr res H.
  apply to_executing_ok in H1 as (_ & _ & Hh).
  apply runs_bind in H as [(receipt & tr2 & tr3 & -> & H2 & H)|(? & ? & _)]; [|done].
  apply egress_ok in H2 as [He Hv].
  apply runs_bind in H as [([] & tr4 & tr5 & -> & ->%runs_single & H)|(? & ? & _)]; [|done].
  apply runs_bind in H as [(f & tr6 & tr7 & -> & H3 & H)|(? & ? & _)]; [|done].
  pose proof (quiet_result _ _ _ _ _ H3) as Hq3.
  apply runs_bind in H as [([] & tr8 & tr9 & -> & H4 & H)|(? & ? & _)]; [|done].
  pose proof (quiet_record _ _ _ _ _ H4) as Hq4.
  apply runs_ret_inv in H as [-> [= ->]].
  apply result_from_receipt_ok in H3 as (Er & _ & Es & _ & Hh').
  split; [|by etrans]. eapply verdict_executed.
  - cbn [id]. rewrite Er. exact Es.
  - rewrite !executions_app, He, Hq3, Hq4. done.
  - cbn [id]. rewrite Er. intros Hs. destruct (Hv Hs). split; apply elem_of_app; by left.
Qed.

Lemma decides_cached action ctx receipt tr res :
  runs (result ← result_from_receipt action receipt true;
        record_ ctx result "idempotency_cache_hit" ;; mret result) tr (Ok res) →
  GatewayResult.receipt res = receipt ∧
  Action.status (GatewayResult.action res) = receipt_target (ToolReceipt.status receipt) ∧
  executions tr = [] ∧ action_steps action (GatewayResult.action res).
Proof.
  intros H. apply runs_bind in H as [(f & tr6 & tr7 & -> & H3 & H)|(? & ? & _)]; [|done].
  pose proof (quiet_result _ _ _ _ _ H3) as Hq3.
  apply runs_bind in H as [([] & tr8 & tr9 & -> & H4 & H)|(? & ? & _)]; [|done].
  pose proof (quiet_record _ _ _ _ _ H4) as Hq4.
  apply runs_ret_inv in H as [-> [= ->]].
  apply result_from_receipt_ok in H3 as (Er & _ & Es & _ & Hh').
  split_and!; [done|done|by rewrite !executions_app, Hq3, Hq4|done].
Qed.

Lemma decides_reserve action ctx tool c request :
  decides action (reservation ← call (Reserve request); perform ctx action tool c reservation) id.
Proof.
  intros tr res [(r & tr1 & tr2 & -> & ->%runs_single & H)|(? & ? & _)]%runs_bind; [|done].
  unfold perform in H. destruct (ReservationDecision.status r) eqn:Es.
  - destruct (ReservationDecision.reservation_id r); [|by apply runs_of_res in H as [_ ?]].
    destruct (decides_execution _ _ _ _ _ _ _ H). split; [by apply verdict_prepend|done].
  - destruct (ReservationDecision.receipt r) as [receipt|] eqn:Er; [|by apply runs_of_res in H as [_ ?]].
    apply decides_cached in H as (E1 & E2 & Hq & Hh). split; [|done].
    eapply (verdict_cached _ _ _ r); cbn [id]; rewrite ?E1; try done.
    eexists. left.
  - destruct (decides_unknown _ _ _ _ _ H). split; [by apply verdict_prepend|done].
  - destruct (decides_unknown _ _ _ _ _ H). split; [by apply verdict_prepend|done].
  - by apply runs_of_res in H as [_ ?].
  - destruct (decides_reject _ _ _ _ _ H). split; [by apply verdict_prepend|done].
Qed.

Lemma decides_governed ctx action q cost tool :
  decides action (execute_governed ctx action q cost tool) id.
Proof.
  unfold execute_governed.
  apply decides_bind; [by apply quiet_call|]. intros tr1 d _.
  destruct (negb _); [apply decides_reject|]. destruct (negb _); [apply decides_reject|].
  apply decides_bind; [by apply quiet_call|]. intros tr2 blocked _.
  destruct blocked; [apply decides_reject|].
  apply decides_bind; [solve_quiet; apply quiet_approval|]. intros tr3 exact _.
  destruct (negb _); [apply decides_reject|].
  apply decides_bind; [by apply quiet_call|]. intros tr4 c _.
  apply decides_bind; [solve_quiet|]. intros tr5 bad _.
  destruct bad; [apply decides_reject|]. apply decides_reserve.
Qed.

Lemma execute_decides allow_l4 ctx action approval cost :
  decides action (execute allow_l4 ctx action approval cost) id.
Proof.
  unfold execute, gw_raise_if.
  do 3 (apply decides_bind; [apply quiet_of_res|]; intros ? _ _).
  apply decides_bind; [apply quiet_resolve|]. intros tr4 [tool|] _; [|apply decides_reject].
  destruct (_ || _); [apply decides_reject|].
  apply decides_bind; [by apply quiet_call|]. intros tr5 dg _.
  do 3 (destruct (negb _); [apply decides_reject|]).
  apply decides_bind; [apply quiet_schema|]. intros tr6 valid _.
  do 2 (destruct (negb _); [apply decides_reject|]).
  destruct (_ && _); [apply decides_reject|]. apply decides_governed.
Qed.

Theorem gateway_verdict allow_l4 ctx action approval cost tr res :
  runs (execute allow_l4 ctx action approval cost) tr (Ok res) →
  verdict action tr res ∧ action_steps action (GatewayResult.action res).
Proof. apply execute_decides. Qed.

(** ** A sample gateway *)

Definition sample_tool : ResolvedToolVersion.t := {|
  ResolvedToolVersion.tool_name := "ledger"; ResolvedToolVersion.version := "1.0.0";
  ResolvedToolVersion.provider := "erp"; ResolvedToolVersion.operations := ["post"];
  ResolvedToolVersion.resource_prefixes := ["ledger/"]; ResolvedToolVersion.input_schema := [];
  ResolvedToolVersion.risk_level := RiskLevel.L2_REVERSIBLE_WRITE;
  ResolvedToolVersion.credential_scope := "ledger:write" |}.

Definition sample_context : AuthorizationContext.t := {|
  AuthorizationContext.tenant_id := uuid_str 1%N; AuthorizationContext.actor_id := "actor";
  AuthorizationContext.principal_id := "principal"; AuthorizationContext.agent_id := "agent";
  AuthorizationContext.roles := ["operator"]; AuthorizationContext.policy_version := "policy-1";
  AuthorizationContext.delegation_id := None; AuthorizationContext.correlation_id := "c";
  AuthorizationContext.purpose := "governed_action" |}.

Definition sample_receipt : ToolReceipt.t :=
  ToolReceipt.mk "txn-1" ToolResultStatus.SUCCEEDED [].

(** Ports that allow everything; [verify] is the answer of the read-back. *)
Definition permissive (verify : res bool) (B : Type) (c : GatewayE B) : res B :=
  match c in GatewayE B return res B with
  | Clock => Ok (Aware 20)
  | Resolve _ _ => Ok sample_tool
  | Delegate _ _ _ => Ok true
  | Validate _ _ => Ok tt
  | Policy _ _ => Ok (PolicyDecision.mk true true "" "policy-1")
  | IsBlocked _ => Ok false
  | Issue _ _ _ => Ok (CredentialLease.mk "lease" "ledger:write" (Aware 500))
  | Reserve _ => Ok (ReservationDecision.mk ReservationStatus.ACQUIRED (Some "r-1") None)
  | Complete _ _ _ => Ok tt
  | Execute _ _ _ => Ok sample_receipt
  | Verify _ _ _ => verify
  | Audit _ => Ok tt
  end.

Definition sample_execution (verify : res bool) : list event * res GatewayResult.t :=
  trace_of (permissive verify)
    (execute false sample_context sample_action (Some sample_approval) 5).

Lemma sample_runs verify :
  runs (execute false sample_context sample_action (Some sample_approval) 5)
    (sample_execution verify).1 (sample_execution verify).2.
Proof. exact (trace_of_runs _ _). Qed.

(** The calls of the sample execution before the external one. *)
Definition sample_before : list event := take 12 (sample_execution (Ok true)).1.

Lemma sample_split : ∃ executing tool credential later,
  (sample_execution (Ok true)).1 =
  sample_before ++ Event (Execute executing tool credential) (Ok sample_receipt) :: later.
Proof. do 4 eexists. vm_compute. reflexivity. Qed.

Lemma egress_is_governed_witness :
  ∃ executing tool credential later,
    (sample_execution (Ok true)).1 =
      sample_before ++ Event (Execute executing tool credential) (Ok sample_receipt) :: later ∧
    governed false sample_context sample_action (Some sample_approval) 5 sample_before
      tool credential.
Proof.
  destruct sample_split as (executing & tool & credential & later & E).
  exists executing, tool, credential, later. split; [exact E|].
  destruct (egress_is_governed _ _ _ _ _ _ _ (sample_runs (Ok true))) as [_ Ht].
  exact (proj1 (Ht _ _ _ _ _ _ E eq_refl)).
Defined.

Lemma sample_result : ∃ r, (sample_execution (Ok true)).2 = Ok r ∧
  Action.status (GatewayResult.action r) = ActionStatus.SUCCEEDED.
Proof. eexists. split; vm_compute; reflexivity. Qed.

Lemma gateway_verdict_witness :
  ∃ r, Action.status (GatewayResult.action r) = ActionStatus.SUCCEEDED ∧
    verdict sample_action (sample_execution (Ok true)).1 r.
Proof.
  destruct sample_result as (r & E & Hs). exists r. split; [exact Hs|].
  pose proof (sample_runs (Ok true)) as H. rewrite E in H.
  exact (proj1 (gateway_verdict _ _ _ _ _ _ _ H)).
Defined.

(** The read-back sits in the [try] of the external call, so when it raises
    after the call succeeded, the action is closed as failed, terminally, with
    the external effect in place. *)
Theorem readback_failure_closes_as_failed :
  let raising := sample_execution (Err (Exn (OtherError "ConnectionError") "")) in
  ∃ executing tool credential r,
    Event (Execute executing tool credential) (Ok sample_receipt) ∈ raising.1 ∧
    ToolReceipt.status sample_receipt = ToolResultStatus.SUCCEEDED ∧
    raising.2 = Ok r ∧ Action.status (GatewayResult.action r) = ActionStatus.FAILED ∧
    GatewayResult.receipt r =
      ToolReceipt.mk "" ToolResultStatus.FAILED [("reason", "ConnectionError")].
Proof.
  intros raising. assert (Hn : ∃ executing tool credential, raising.1 !! 12%nat =
    Some (Event (Execute executing tool credential) (Ok sample_receipt)))
    by (do 3 eexists; vm_compute; reflexivity).
  destruct Hn as (executing & tool & credential & Hn). exists executing, tool, credential.
  apply list_elem_of_lookup_2 in Hn. eexists. split; [exact Hn|].
  split; [reflexivity|]. split; [vm_compute; reflexivity|]. split; reflexivity.
Qed.
