(* ===== verification/KillSwitch.v ===== *)
(** * packages/governance: kill_switch.py

    The in-memory kill switch store.  [active_after] is what operators intend:
    a target is blocked from its activation until its deactivation, whatever
    happens to other targets; [blocked_iff_active] shows the store implements
    it for every sequence of operations. *)

From S2P Require Import Prelude PyStr PyDict Json Sha256 Effects Transitions Values Goals.
From S2P Require Import Execution ExecutionObjects History Programs Gateway.
From Stdlib Require Import ZArith.

Open Scope string_scope.
Open Scope list_scope.
Open Scope Z_scope.

Module KillSwitchRecord.
Record t := mk {
  kill_switch_id : uuid;
  dimension : KillSwitchDimension.t;
  target : string;
  reason : string;
  activated_by : string;
  activated_at : datetime;
  deactivated_at : option datetime
}.
End KillSwitchRecord.

Module InMemoryKillSwitchStore.
(** [self._active] *)
Notation active := (dict (KillSwitchDimension.t * string) KillSwitchRecord.t).

Definition is_blocked (query : KillSwitchQuery.t) : M active bool :=
  w ← get;
  mret (any (fun key => is_some (w !! key)) (KillSwitchQuery.dimensions query)).

Definition activate (dimension : KillSwitchDimension.t) (target reason activated_by : string)
    : M active KillSwitchRecord.t :=
  kill_switch_id ← uuid4;
  activated_at ← now;
  let record := KillSwitchRecord.mk kill_switch_id dimension target reason activated_by
                  activated_at None in
  modify (insert (dimension, target) record) ;;
  mret record.

Definition deactivate (dimension : KillSwitchDimension.t) (target : string)
    : M active (option KillSwitchRecord.t) :=
  w ← get;
  let key := (dimension, target) in
  match w !! key with
  | None => mret None
  | Some r =>
      put (delete key w) ;;
      deactivated_at ← now;
      mret (Some (KillSwitchRecord.mk (KillSwitchRecord.kill_switch_id r)
        (KillSwitchRecord.dimension r) (KillSwitchRecord.target r) (KillSwitchRecord.reason r)
        (KillSwitchRecord.activated_by r) (KillSwitchRecord.activated_at r)
        (Some deactivated_at)))
  end.

Definition list_active : M active (list KillSwitchRecord.t) := w ← get; mret (values w).
End InMemoryKillSwitchStore.

(** ** Operation sequences *)

Inductive switch_op :=
  | Activate (dimension : KillSwitchDimension.t) (target reason activated_by : string)
  | Deactivate (dimension : KillSwitchDimension.t) (target : string).

Definition run_op (op : switch_op) : M InMemoryKillSwitchStore.active unit :=
  match op with
  | Activate d t r by_ => InMemoryKillSwitchStore.activate d t r by_ ;; mret tt
  | Deactivate d t => InMemoryKillSwitchStore.deactivate d t ;; mret tt
  end.

(** What the operators asked for: the last operation on a target decides. *)
Definition switches (op : switch_op) (key : KillSwitchDimension.t * string) (was : bool) : bool :=
  match op with
  | Activate d t _ _ => if decide (key = (d, t)) then true else was
  | Deactivate d t => if decide (key = (d, t)) then false else was
  end.

Definition active_after (ops : list switch_op) (key : KillSwitchDimension.t * string) : bool :=
  foldl (fun was op => switches op key was) false ops.

Definition tracks (ops : list switch_op) (w : InMemoryKillSwitchStore.active) : Prop :=
  dict_wf w ∧ ∀ key, is_some (w !! key) = active_after ops key.

Lemma active_after_snoc ops op key :
  active_after (ops ++ [op]) key = switches op key (active_after ops key).
Proof. unfold active_after. by rewrite foldl_app. Qed.

Lemma run_op_tracks op ops w :
  tracks ops w → wp (run_op op) (fun _ => tracks (ops ++ [op])) (fun _ _ => False) w.
Proof.
  intros [Hwf Ht]. destruct op as [d t r by_|d t]; unfold run_op.
  - unfold InMemoryKillSwitchStore.activate. do 3 wp_step. intros u. do 2 wp_step. intros at_.
    do 4 wp_step.
    split; [auto with py|]. intros key. rewrite active_after_snoc, <- Ht. unfold switches.
    destruct (decide (key = (d, t))) as [->|Hne]; [by rewrite dict_lookup_insert|].
    by rewrite dict_lookup_insert_ne.
  - unfold InMemoryKillSwitchStore.deactivate. do 3 wp_step.
    destruct (w !! (d, t)) as [rec|] eqn:E.
    + do 3 wp_step. wp_step. intros at_. do 2 wp_step.
      split; [auto with py|]. intros key. rewrite active_after_snoc, <- Ht. unfold switches.
      destruct (decide (key = (d, t))) as [->|Hne]; [by rewrite dict_lookup_delete|].
      by rewrite dict_lookup_delete_ne.
    + do 2 wp_step. split; [done|]. intros key. rewrite active_after_snoc, <- Ht. unfold switches.
      destruct (decide (key = (d, t))) as [->|Hne]; [by rewrite E|done].
Qed.

Lemma run_ops_track ops done_ w : tracks done_ w →
  wp (for_each_m run_op ops) (fun _ => tracks (done_ ++ ops)) (fun _ _ => False) w.
Proof.
  revert done_ w. induction ops as [|op ops IH]; intros done_ w Hw; cbn [for_each_m].
  - wp_step. by rewrite app_nil_r.
  - wp_step. eapply wp_mono; [by apply run_op_tracks| |done]. intros [] w' Hw'.
    eapply wp_mono; [by apply IH| |done]. intros [] w''. by rewrite <- app_assoc.
Qed.

Theorem blocked_iff_active ops query :
  wp (for_each_m run_op ops ;; InMemoryKillSwitchStore.is_blocked query)
    (fun blocked _ => blocked = true ↔
       ∃ key, key ∈ KillSwitchQuery.dimensions query ∧ active_after ops key = true)
    (fun _ _ => False) ∅.
Proof.
  wp_step. eapply wp_mono; [apply (run_ops_track ops [])| |done].
  { split; [apply dict_empty_wf|done]. }
  intros [] w [_ Ht]. unfold InMemoryKillSwitchStore.is_blocked. do 3 wp_step.
  rewrite any_true. by setoid_rewrite Ht.
Qed.
