(* ===== verification/Reconciliation.v ===== *)
(** * packages/gateways: tool_reconciliation.py

    The timeout watchdog, the three-case reconciliation of actions of unknown
    outcome, and the compensation executor. *)

From S2P Require Import Prelude PyStr PyDict Json Sha256 Effects Transitions Values Goals.
From S2P Require Import Execution ExecutionObjects History Digests.
From Stdlib Require Import ZArith.

Open Scope string_scope.
Open Scope list_scope.
Open Scope Z_scope.

Module ReconciliationResult.
Inductive t := SUCCEEDED | FAILED | STILL_UNKNOWN.
#[global] Instance t_eq_dec : EqDecision t.
Proof. solve_decision. Defined.
End ReconciliationResult.

Module ReconciliationRecord.
Record t := mk {
  reconciliation_id : uuid;
  action_id : uuid;
  result : ReconciliationResult.t;
  evidence_source : string;
  evidence_reference : string;
  observed_state : string;
  escalated : bool;
  resolved_at : datetime
}.
End ReconciliationRecord.

Section operations.
Context {S : Type}.

(** [action.transition_to(target)] with the default actor and reason. *)
Definition transition_now (action : Action.t) (target : ActionStatus.t) : M S Action.t :=
  t ← now;
  lift (Action.transition_to action target SYSTEM_ACTOR_ID "system transition" None t).

(** [TimeoutWatchdog.check] *)
Definition check (action : Action.t) (deadline : option datetime) : M S Action.t :=
  t ← now;
  match deadline with
  | None => mret action
  | Some deadline =>
      late ← lift (dt_gt t deadline);
      if (late : bool) && mem (Action.status action)
           [ActionStatus.PROPOSED; ActionStatus.AUTHORIZED; ActionStatus.EXECUTING]
      then transition_now action ActionStatus.UNKNOWN
      else mret action
  end.

(** [TimeoutWatchdog.with_timeout]: [coro] stands for [asyncio.wait_for] of
    the awaitable, which raises [TimeoutError] at the deadline. *)
Definition with_timeout (coro : M S unit) (on_timeout : option Action.t) : M S (option Action.t) :=
  try_except (coro ;; mret None) TimeoutError (fun _ =>
    match on_timeout with
    | Some action => a ← transition_now action ActionStatus.UNKNOWN; mret (Some a)
    | None => mret None
    end).

Definition record_of (action_id : uuid) (result : ReconciliationResult.t)
    (evidence_source evidence_reference observed_state : string) (escalated : bool)
    : M S ReconciliationRecord.t :=
  reconciliation_id ← uuid4;
  resolved_at ← now;
  mret (ReconciliationRecord.mk reconciliation_id action_id result evidence_source
          evidence_reference observed_state escalated resolved_at).

(** [UnknownReconciler.reconcile]; the two hooks are the methods a subclass
    overrides with its system's queries. *)
Definition reconcile (check_external_effect : Action.t → M S (option string))
    (confirm_no_side_effect : Action.t → M S bool) (action : Action.t)
    (check_external idempotency_check : bool) : M S (Action.t * ReconciliationRecord.t) :=
  throw_if (negb (bool_decide (Action.status action = ActionStatus.UNKNOWN))) ValueError
    "only UNKNOWN actions can be reconciled" ;;
  evidence ← (if check_external then check_external_effect action else mret None);
  match evidence with
  | Some evidence =>
      a ← transition_now action ActionStatus.SUCCEEDED;
      r ← record_of (Action.action_id action) ReconciliationResult.SUCCEEDED "external_system"
            evidence "side_effect_confirmed" false;
      mret (a, r)
  | None =>
      confirmed_absent ← (if idempotency_check then confirm_no_side_effect action else mret false);
      if (confirmed_absent : bool) then
        a ← transition_now action ActionStatus.FAILED;
        r ← record_of (Action.action_id action) ReconciliationResult.FAILED "external_system"
              "idempotency_check" "no_side_effect" false;
        mret (a, r)
      else
        r ← record_of (Action.action_id action) ReconciliationResult.STILL_UNKNOWN "" "" "" true;
        mret (action, r)
  end.

(** [CompensationExecutor.compensate]; the plan's steps are not executed. *)
Definition compensate {A} (action : Action.t) (plan : option A) : M S Action.t :=
  match plan with
  | None => throw ValueError
      ("no compensation plan provided for action " +:+ uuid_str (Action.action_id action))
  | Some _ => transition_now action ActionStatus.FAILED
  end.

(** ** Properties *)

Lemma transition_now_ok F (a : Action.t) target (s : S) :
  wpi F (transition_now a target)
    (fun b s' => s' = s ∧ advances a b ∧ Action.status b = target) (fun _ s' => s' = s) s.
Proof.
  unfold transition_now. do 2 wp_step. intros t. wp_step; [|done].
  intros b Hb. split; [done|]. split; [by eapply action_transition_advances|].
  unfold Action.transition_to, Action.new in Hb. by inv_ok.
Qed.

Lemma transition_now_refused (a : Action.t) target (e : env) (s : st S) :
  target ∉ ACTION_TRANSITIONS (Action.status a) →
  ∃ x, (transition_now a target e s).1 = Err x ∧ exn_class x = InvalidStateTransition.
Proof.
  intros Hn. destruct (require_transition_err _ _ _ Hn) as [msg Hm].
  exists (Exn InvalidStateTransition msg). split; [|done].
  unfold transition_now, lift, mbind, M_bind. cbn -[require_transition].
  unfold Action.transition_to. by rewrite Hm.
Qed.

(** What the verdict of a reconciliation is based on, given what the hooks may
    answer. *)
Definition resolution (effect : option string → Prop) (absent : bool → Prop) (action : Action.t)
    (r : Action.t * ReconciliationRecord.t) : Prop :=
  let '(after, record) := r in
  ReconciliationRecord.action_id record = Action.action_id action ∧
  match ReconciliationRecord.result record with
  | ReconciliationResult.SUCCEEDED =>
      effect (Some (ReconciliationRecord.evidence_reference record)) ∧
      advances action after ∧ Action.status after = ActionStatus.SUCCEEDED
  | ReconciliationResult.FAILED =>
      absent true ∧ advances action after ∧ Action.status after = ActionStatus.FAILED
  | ReconciliationResult.STILL_UNKNOWN =>
      after = action ∧ ReconciliationRecord.escalated record = true
  end.

Theorem reconciliation_needs_confirmation effect absent effect_hook absent_hook action
    check_external idempotency_check (s : S) :
  (∀ s, wp (effect_hook action) (fun r _ => effect r) (fun _ _ => True) s) →
  (∀ s, wp (absent_hook action) (fun r _ => absent r) (fun _ _ => True) s) →
  wp (reconcile effect_hook absent_hook action check_external idempotency_check)
    (fun r _ => Action.status action = ActionStatus.UNKNOWN ∧ resolution effect absent action r)
    (fun _ _ => True) s.
Proof.
  intros Heff Habs. unfold reconcile, record_of. wp_step. wp_step; [|done]. intros Hs. bool_hyps.
  wp_step. eapply wp_mono with (Q := fun r _ => r = None ∨ effect r);
    [|intros evidence s1 He|done].
  { destruct check_external; [|apply wp_ret; by left].
    eapply wp_mono; [apply Heff|by right|done]. }
  assert (Hstep : ∀ target s0, wp (transition_now action target)
    (fun b _ => advances action b ∧ Action.status b = target) (fun _ _ => True) s0).
  { intros target s0. eapply wp_mono; [apply transition_now_ok|by intros b s' (_ & ?)|done]. }
  destruct evidence as [evidence|].
  { wp_step. eapply wp_mono; [apply Hstep|intros b s2 [Hadv Hb]|done].
    do 2 wp_step. wp_step. intros u. do 2 wp_step. intros t. do 2 wp_step.
    destruct He as [He|He]; [done|]. by split. }
  wp_step. eapply wp_mono with (Q := fun r _ => r = true → absent true); [|intros confirmed s2 Hc|done].
  { destruct idempotency_check; [|by apply wp_ret].
    eapply wp_mono; [apply Habs|by intros ? ? ? ->|done]. }
  destruct confirmed.
  - wp_step. eapply wp_mono; [apply Hstep|intros b s3 [Hadv Hb]|done].
    do 3 wp_step. intros u. do 2 wp_step. intros t. do 2 wp_step.
    split; [done|]. cbn. auto.
  - do 3 wp_step. intros u. do 2 wp_step. intros t. by do 2 wp_step.
Qed.

(** [check] tests for actions that were proposed or authorized too, but their
    table has no edge to UNKNOWN: past the deadline they make the watchdog
    raise. *)
Theorem watchdog_raises_before_execution (action : Action.t) (deadline : datetime) (e : env)
    (s : st S) :
  dt_gt (clock e (ticks s)) deadline = Ok true →
  Action.status action = ActionStatus.PROPOSED ∨ Action.status action = ActionStatus.AUTHORIZED →
  ∃ x, (check action (Some deadline) e s).1 = Err x ∧ exn_class x = InvalidStateTransition.
Proof.
  intros Hlate Hs. unfold check. unfold mbind at 1, M_bind at 1. cbn [now].
  unfold mbind at 1, M_bind at 1, lift at 1. rewrite Hlate.
  assert (Hm : mem (Action.status action)
    [ActionStatus.PROPOSED; ActionStatus.AUTHORIZED; ActionStatus.EXECUTING] = true)
    by (apply mem_true; set_solver).
  rewrite Hm. apply transition_now_refused. destruct Hs as [-> | ->]; cbn; set_solver.
Qed.

(** Compensation, meant for an action whose effect has to be undone, raises on
    every action but an executing one or one of unknown outcome: a succeeded
    action cannot be compensated. *)
Theorem compensation_refuses_succeeded {A} (action : Action.t) (plan : A) (e : env) (s : st S) :
  Action.status action = ActionStatus.SUCCEEDED →
  ∃ x, (compensate action (Some plan) e s).1 = Err x ∧ exn_class x = InvalidStateTransition.
Proof. intros Hs. apply transition_now_refused. rewrite Hs. cbn. set_solver. Qed.
End operations.

(** An action whose effect is unknown, and one still proposed. *)
Definition sample_unknown : Action.t := sample_action <| Action.status := ActionStatus.UNKNOWN |>.
Definition sample_clock : env := Env (fun n => Aware (Z.of_nat n + 100)) (fun n => N.of_nat n).

Lemma reconciliation_needs_confirmation_witness :
  wp (reconcile (fun _ => mret (Some "receipt/1")) (fun _ => mret false) sample_unknown true true)
    (fun r _ => Action.status sample_unknown = ActionStatus.UNKNOWN ∧
       resolution (fun r => r = Some "receipt/1") (fun r => r = false) sample_unknown r)
    (fun _ _ => True) tt.
Proof.
  apply reconciliation_needs_confirmation; intros s; by apply wp_ret.
Defined.

Lemma watchdog_raises_before_execution_witness :
  ∃ x, (check sample_action (Some (Aware 5)) sample_clock (St tt 0 0)).1 = Err x ∧
    exn_class x = InvalidStateTransition.
Proof. apply watchdog_raises_before_execution; [reflexivity|left; reflexivity]. Defined.

Lemma compensation_refuses_succeeded_witness :
  ∃ x, (compensate (sample_action <| Action.status := ActionStatus.SUCCEEDED |>) (Some tt)
          sample_clock (St tt 0 0)).1 = Err x ∧ exn_class x = InvalidStateTransition.
Proof. apply compensation_refuses_succeeded. reflexivity. Defined.
