(* ===== verification/AuditChain.v ===== *)
(** * packages/application: platform.py, identities and the audit chain

    Every audit event of a tenant is hashed together with the digest of its
    predecessor.  [link_verifies]: an event appended the way the stores append
    it extends a valid chain to a valid chain.  [audit_chain_tamper_evident]:
    the last digest of a chain determines every event in it, unless two of the
    hashed texts are a SHA-256 collision. *)

From S2P Require Import Prelude PyStr PyDict Json Sha256 Values Goals Calendar.
From Stdlib Require Import ZArith.

Open Scope string_scope.
Open Scope list_scope.
Open Scope Z_scope.

Module IdentityContext.
Record t := mk {
  tenant_id : uuid;
  actor_id : uuid;
  principal_id : uuid;
  roles : list string;
  agent_id : option string;
  subject : option string;
  token_type : string
}.
End IdentityContext.

(** [details] is the dictionary of JSON values the application builds. *)
Module AuditEvent.
Record t := mk {
  tenant_id : uuid;
  actor_id : uuid;
  principal_id : uuid;
  event_type : string;
  object_type : string;
  object_id : string;
  correlation_id : uuid;
  details : list (string * json);
  event_id : uuid;
  sequence : option Z;
  previous_digest : option string;
  event_digest : option string;
  created_at : option datetime
}.

#[global] Instance eta : Settable t := fun x =>
  mk (tenant_id x) (actor_id x) (principal_id x) (event_type x) (object_type x) (object_id x)
     (correlation_id x) (details x) (event_id x) (sequence x) (previous_digest x)
     (event_digest x) (created_at x).

Definition audit_ref (e : t) : option string :=
  (fun digest => "audit://events/" +:+ uuid_str (event_id e) +:+ "?digest=" +:+ digest)
    <$> event_digest e.

Definition payload (e : t) (sequence : Z) (created_at : datetime) : json := JDict [
  ("event_id", JStr (uuid_str (event_id e)));
  ("tenant_id", JStr (uuid_str (tenant_id e)));
  ("actor_id", JStr (uuid_str (actor_id e)));
  ("principal_id", JStr (uuid_str (principal_id e)));
  ("event_type", JStr (event_type e));
  ("object_type", JStr (object_type e));
  ("object_id", JStr (object_id e));
  ("correlation_id", JStr (uuid_str (correlation_id e)));
  ("details", JDict (details e));
  ("sequence", JInt sequence);
  ("created_at", JStr (isoformat created_at))].

(** The text whose digest chains the event. *)
Definition hashed (e : t) (sequence : Z) (previous_digest : string) (created_at : datetime)
    : string :=
  previous_digest +:+ String (chr 10) (dumps compact_style (payload e sequence created_at)).

Definition chained (e : t) (sequence' : Z) (previous_digest' : string) (created_at' : datetime)
    : res t :=
  raise_if ((sequence' <=? 0) || negb (len previous_digest' =? 64) || is_naive created_at')
    ValueError "audit chain metadata is invalid" ;;
  Ok (e <| sequence := Some sequence' |> <| previous_digest := Some previous_digest' |>
        <| event_digest := Some (sha256_hex (hashed e sequence' previous_digest' created_at')) |>
        <| created_at := Some created_at' |>).
End AuditEvent.

(** ["0" * 64] *)
Definition genesis : string := of_chars (repeat "0"%char 64).

(** The loop of [verify_audit_chain]. *)
Fixpoint verify_links (previous_digest : string) (expected_sequence : Z)
    (events : list AuditEvent.t) : res bool :=
  match events with
  | [] => Ok true
  | event :: events' =>
      if negb (bool_decide (AuditEvent.sequence event = Some expected_sequence)) ||
         negb (bool_decide (AuditEvent.previous_digest event = Some previous_digest))
      then Ok false
      else match AuditEvent.created_at event, AuditEvent.event_digest event with
           | Some created_at, Some digest =>
               expected ← AuditEvent.chained event expected_sequence previous_digest created_at;
               if negb (bool_decide (AuditEvent.event_digest expected = Some digest))
               then Ok false
               else verify_links digest (expected_sequence + 1) events'
           | _, _ => Ok false
           end
  end.

Definition verify_audit_chain (events : list AuditEvent.t) : res bool :=
  valid ← verify_links genesis 1 events;
  Ok ((valid : bool) && match events with [] => false | _ => true end).

(** The event [record_audit] appends after the events [previous] of its tenant,
    at the clock reading [now]. *)
Definition next_link (previous : list AuditEvent.t) (audit : AuditEvent.t) (now : datetime)
    : res AuditEvent.t :=
  match last previous with
  | None => AuditEvent.chained audit 1 genesis now
  | Some p =>
      AuditEvent.chained audit (default 0 (AuditEvent.sequence p) + 1)
        (match AuditEvent.event_digest p with
         | Some d => if empty d then genesis else d
         | None => genesis
         end) now
  end.

(** ** Links *)

(** What a verified event says about itself, given its predecessor. *)
Lemma verify_links_cons previous n e l :
  verify_links previous n (e :: l) = Ok true ↔
  ∃ t, AuditEvent.sequence e = Some n ∧ AuditEvent.previous_digest e = Some previous ∧
    AuditEvent.created_at e = Some t ∧ 0 < n ∧ len previous = 64 ∧ is_naive t = false ∧
    AuditEvent.event_digest e = Some (sha256_hex (AuditEvent.hashed e n previous t)) ∧
    verify_links (sha256_hex (AuditEvent.hashed e n previous t)) (n + 1) l = Ok true.
Proof.
  cbn [verify_links]. split.
  - destruct (_ || _) eqn:Eg; [done|].
    apply orb_false_iff in Eg as [Es Ep]. bool_hyps.
    destruct (AuditEvent.created_at e) as [t|] eqn:Ec; [|done].
    destruct (AuditEvent.event_digest e) as [d|] eqn:Ed; [|done].
    unfold AuditEvent.chained. destruct (_ || _) eqn:Ev; [done|]. cbn [raise_if mbind res_bind].
    apply orb_false_iff in Ev as [Ev Hn]. apply orb_false_iff in Ev as [Hp Hl]. bool_hyps.
    cbn [AuditEvent.event_digest]. case_bool_decide as Hd; [|done]. cbn [negb].
    injection Hd as <-. intros Hv. exists t. split_and!; try done; lia.
  - intros (t & Es & Ep & Ec & Hn & Hl & Ht & Ed & Hv).
    rewrite !bool_decide_eq_true_2 by done. cbn [negb orb]. rewrite Ec, Ed.
    unfold AuditEvent.chained. rewrite Ht.
    replace (n <=? 0) with false by (symmetry; lia).
    replace (len previous =? 64) with true by (symmetry; lia).
    cbn [negb orb raise_if mbind res_bind AuditEvent.event_digest].
    case_bool_decide as Hb; [done|]. by destruct Hb.
Qed.

(** The digest and the sequence number the next event has to continue. *)
Definition tip (previous_digest : string) (events : list AuditEvent.t) : string :=
  foldl (fun d e => default d (AuditEvent.event_digest e)) previous_digest events.

Lemma verify_links_app previous n l1 l2 :
  verify_links previous n (l1 ++ l2) = Ok true ↔
  verify_links previous n l1 = Ok true ∧
  verify_links (tip previous l1) (n + Z.of_nat (length l1)) l2 = Ok true.
Proof.
  revert previous n. induction l1 as [|e l1 IH]; intros previous n.
  - cbn [app length tip foldl]. rewrite Z.add_0_r. naive_solver.
  - cbn [app]. rewrite !verify_links_cons. unfold tip. cbn [foldl length]. fold tip. split.
    + intros (t & Es & Ep & Ec & Hn & Hl & Ht & Ed & Hv). apply IH in Hv as [H1 H2].
      split; [eauto 10|]. rewrite Ed. cbn [default].
      by replace (n + Z.of_nat (S (length l1))) with (n + 1 + Z.of_nat (length l1)) by lia.
    + intros [(t & Es & Ep & Ec & Hn & Hl & Ht & Ed & Hv) H2]. exists t.
      split_and!; try done. apply IH. split; [done|]. rewrite Ed in H2. cbn [default] in H2.
      by replace (n + 1 + Z.of_nat (length l1)) with (n + Z.of_nat (S (length l1))) by lia.
Qed.

Lemma sha256_hex_len s : len (sha256_hex s) = 64.
Proof.
  pose proof (sha256_hex_ok s) as H. unfold not_sha256_hex in H.
  apply orb_false_iff in H as [H _]. bool_hyps. lia.
Qed.

Lemma sha256_hex_nonempty s : empty (sha256_hex s) = false.
Proof.
  apply bool_decide_eq_false. intros E. pose proof (sha256_hex_len s) as Hl. by rewrite E in Hl.
Qed.

Lemma chained_links e n previous t e' :
  AuditEvent.chained e n previous t = Ok e' → verify_links previous n [e'] = Ok true.
Proof.
  unfold AuditEvent.chained. intros H. inv_ok.
  apply orb_false_iff in Hx as [Hx Ht]. apply orb_false_iff in Hx as [Hn Hl]. bool_hyps.
  apply verify_links_cons. exists t. split_and!; try done; lia.
Qed.

(** Appending the next link keeps the chain. *)
Lemma link_verifies events audit now e :
  verify_links genesis 1 events = Ok true → next_link events audit now = Ok e →
  verify_links genesis 1 (events ++ [e]) = Ok true.
Proof.
  intros Hv He. apply verify_links_app. split; [done|]. unfold next_link in He.
  destruct events as [|p events _] using rev_ind; [exact (chained_links _ _ _ _ _ He)|].
  rewrite last_snoc in He. apply verify_links_app in Hv as [_ Hp].
  apply verify_links_cons in Hp as (t & Es & _ & _ & _ & _ & _ & Ed & _).
  rewrite Es, Ed in He. cbn [default id] in He.
  rewrite sha256_hex_nonempty in He. apply chained_links in He.
  unfold tip at 1. rewrite foldl_app. cbn [foldl]. rewrite Ed. cbn [default id].
  rewrite length_app. cbn [length].
  by replace (1 + Z.of_nat (length events + 1)) with (1 + Z.of_nat (length events) + 1) by lia.
Qed.

(** ** Tampering *)

(** Two events that record the same fact. *)
Definition same_record (e1 e2 : AuditEvent.t) : Prop :=
  uuid_str (AuditEvent.event_id e1) = uuid_str (AuditEvent.event_id e2) ∧
  uuid_str (AuditEvent.tenant_id e1) = uuid_str (AuditEvent.tenant_id e2) ∧
  uuid_str (AuditEvent.actor_id e1) = uuid_str (AuditEvent.actor_id e2) ∧
  uuid_str (AuditEvent.principal_id e1) = uuid_str (AuditEvent.principal_id e2) ∧
  AuditEvent.event_type e1 = AuditEvent.event_type e2 ∧
  AuditEvent.object_type e1 = AuditEvent.object_type e2 ∧
  AuditEvent.object_id e1 = AuditEvent.object_id e2 ∧
  uuid_str (AuditEvent.correlation_id e1) = uuid_str (AuditEvent.correlation_id e2) ∧
  normalize (JDict (AuditEvent.details e1)) = normalize (JDict (AuditEvent.details e2)) ∧
  AuditEvent.sequence e1 = AuditEvent.sequence e2 ∧
  isoformat <$> AuditEvent.created_at e1 = isoformat <$> AuditEvent.created_at e2.

(** Well-formed details: no dictionary has the same key twice. *)
Definition event_wf (e : AuditEvent.t) : Prop := json_wf (JDict (AuditEvent.details e)).

Definition event_text (e : AuditEvent.t) : string :=
  match AuditEvent.sequence e, AuditEvent.previous_digest e, AuditEvent.created_at e with
  | Some n, Some p, Some t => AuditEvent.hashed e n p t
  | _, _, _ => ""
  end.

Lemma payload_wf e n t : event_wf e → json_wf (AuditEvent.payload e n t).
Proof.
  intros Hwf. apply json_wf_dict. split.
  - apply (bool_decide_unpack _). vm_compute. exact I.
  - repeat (apply list.Forall_cons_2; [first [exact Hwf | exact I]|]). constructor.
Qed.

(** The fields of a payload, in the order of [AuditEvent.payload]. *)
Definition payload_items (a b c d e f g h : string) (details : json) (n : Z) (t : string)
    : list (string * json) :=
  [("event_id", JStr a); ("tenant_id", JStr b); ("actor_id", JStr c); ("principal_id", JStr d);
   ("event_type", JStr e); ("object_type", JStr f); ("object_id", JStr g);
   ("correlation_id", JStr h); ("details", details); ("sequence", JInt n);
   ("created_at", JStr t)].

Lemma payload_items_inj a b c d e f g h j n t a' b' c' d' e' f' g' h' j' n' t' :
  JDict (sort_items (payload_items a b c d e f g h j n t)) =
  JDict (sort_items (payload_items a' b' c' d' e' f' g' h' j' n' t')) →
  a = a' ∧ b = b' ∧ c = c' ∧ d = d' ∧ e = e' ∧ f = f' ∧ g = g' ∧ h = h' ∧ j = j' ∧ n = n' ∧
  t = t'.
Proof. intros H. vm_compute in H. injection H. intros. subst. by split_and!. Qed.

Lemma normalize_payload e n t :
  normalize (AuditEvent.payload e n t) = JDict (sort_items (payload_items
    (uuid_str (AuditEvent.event_id e)) (uuid_str (AuditEvent.tenant_id e))
    (uuid_str (AuditEvent.actor_id e)) (uuid_str (AuditEvent.principal_id e))
    (AuditEvent.event_type e) (AuditEvent.object_type e) (AuditEvent.object_id e)
    (uuid_str (AuditEvent.correlation_id e)) (normalize (JDict (AuditEvent.details e))) n
    (isoformat t))).
Proof. reflexivity. Qed.

Lemma payload_inj e1 e2 n1 n2 t1 t2 :
  normalize (AuditEvent.payload e1 n1 t1) = normalize (AuditEvent.payload e2 n2 t2) →
  AuditEvent.sequence e1 = Some n1 → AuditEvent.sequence e2 = Some n2 →
  AuditEvent.created_at e1 = Some t1 → AuditEvent.created_at e2 = Some t2 →
  same_record e1 e2.
Proof.
  intros H Hn1 Hn2 Ht1 Ht2. unfold same_record. rewrite Hn1, Hn2, Ht1, Ht2. cbn [fmap option_fmap option_map].
  rewrite !normalize_payload in H. apply payload_items_inj in H. 
  destruct H as (? & ? & ? & ? & ? & ? & ? & ? & ? & Hn & Ht).
  repeat (split; [assumption|]). exact (conj (f_equal Some Hn) (f_equal Some Ht)).
Qed.

(** Texts of the same length of digest: equal texts have equal parts. *)
Lemma hashed_inj e1 e2 n1 n2 p1 p2 t1 t2 : len p1 = 64 → len p2 = 64 →
  AuditEvent.hashed e1 n1 p1 t1 = AuditEvent.hashed e2 n2 p2 t2 →
  p1 = p2 ∧ dumps compact_style (AuditEvent.payload e1 n1 t1) =
            dumps compact_style (AuditEvent.payload e2 n2 t2).
Proof.
  unfold AuditEvent.hashed, len. intros H1 H2 E. apply (f_equal chars) in E.
  rewrite !chars_app in E. apply app_inj_1 in E as [E1 E2].
  - split; [by apply (inj chars)|]. apply cons_eq_inj in E2 as [_ E2]. exact (inj chars _ _ E2).
  - rewrite !length_chars. lia.
Qed.

(** C20. Two verified chains of the same length that end in the same digest record the
    same facts in the same order, unless two of their hashed texts are a SHA-256
    collision. *)
Theorem audit_chain_tamper_evident l1 l2 :
  Forall event_wf l1 → Forall event_wf l2 →
  verify_audit_chain l1 = Ok true → verify_audit_chain l2 = Ok true →
  length l1 = length l2 → tip genesis l1 = tip genesis l2 →
  Forall2 same_record l1 l2 ∨
  ∃ e1 e2, e1 ∈ l1 ∧ e2 ∈ l2 ∧ collides (event_text e1) (event_text e2).
Proof.
  intros Hw1 Hw2 Hv1 Hv2.
  assert (Hl : ∀ l, verify_audit_chain l = Ok true → verify_links genesis 1 l = Ok true).
  { intros l H. unfold verify_audit_chain in H. inv_ok. by bool_hyps; subst. }
  apply Hl in Hv1, Hv2. clear Hl. revert l2 Hw2 Hv2.
  induction l1 as [|e1 l1 IH] using rev_ind; intros l2 Hw2 Hv2 Hlen Htip.
  { destruct l2; [left; constructor|done]. }
  destruct l2 as [|e2 l2 _] using rev_ind; [rewrite length_app in Hlen; cbn in Hlen; lia|].
  rewrite !length_app in Hlen. cbn [length] in Hlen.
  apply Forall_app in Hw1 as [Hw1 [Hwe1 _]%list.Forall_cons].
  apply Forall_app in Hw2 as [Hw2 [Hwe2 _]%list.Forall_cons].
  apply verify_links_app in Hv1 as [Hv1 (t1 & Es1 & Ep1 & Ec1 & Hn1 & Hl1 & _ & Ed1 & _)%verify_links_cons].
  apply verify_links_app in Hv2 as [Hv2 (t2 & Es2 & Ep2 & Ec2 & Hn2 & Hl2 & _ & Ed2 & _)%verify_links_cons].
  unfold tip in Htip. rewrite !foldl_app in Htip. cbn [foldl] in Htip.
  rewrite Ed1, Ed2 in Htip. cbn [default id] in Htip.
  apply sha256_hex_inj in Htip as [Htip|Hc].
  - apply hashed_inj in Htip as [Hp Hd]; [|done..].
    apply dumps_inj in Hd;
      [|apply compact_style_ok|apply payload_wf; assumption|apply payload_wf; assumption].
    destruct (IH Hw1 Hv1 l2 Hw2 Hv2) as [Hf|(a & b & Ha & Hb & Hc)]; [lia|done| |].
    + left. apply Forall2_app; [done|]. constructor; [|constructor]. by eapply payload_inj.
    + right. exists a, b. split; [by apply elem_of_app; left|].
      split; [by apply elem_of_app; left|exact Hc].
  - right. exists e1, e2. split; [apply elem_of_app; right; left|].
    split; [apply elem_of_app; right; left|].
    unfold event_text. rewrite Es1, Ep1, Ec1, Es2, Ep2, Ec2. exact Hc.
Qed.

Definition sample_event : AuditEvent.t := {|
  AuditEvent.tenant_id := 1%N; AuditEvent.actor_id := 2%N; AuditEvent.principal_id := 2%N;
  AuditEvent.event_type := "goal.created"; AuditEvent.object_type := "goal";
  AuditEvent.object_id := "g"; AuditEvent.correlation_id := 3%N;
  AuditEvent.details := [("goal_id", JStr "g")]; AuditEvent.event_id := 4%N;
  AuditEvent.sequence := None; AuditEvent.previous_digest := None;
  AuditEvent.event_digest := None; AuditEvent.created_at := None |}.

Definition sample_chain : list AuditEvent.t :=
  match next_link [] sample_event (Aware 10) with Ok e => [e] | Err _ => [] end.

Lemma audit_chain_tamper_evident_witness :
  verify_audit_chain sample_chain = Ok true ∧
  (Forall2 same_record sample_chain sample_chain ∨
   ∃ e1 e2, e1 ∈ sample_chain ∧ e2 ∈ sample_chain ∧ collides (event_text e1) (event_text e2)).
Proof.
  assert (Hv : verify_audit_chain sample_chain = Ok true) by (vm_compute; reflexivity).
  assert (Hw : Forall event_wf sample_chain).
  { unfold sample_chain, next_link. cbn [last]. unfold AuditEvent.chained. cbn [raise_if].
    constructor; [|constructor]. apply json_wf_dict. split.
    - apply (bool_decide_unpack _). vm_compute. exact I.
    - repeat constructor. }
  split; [exact Hv|].
  exact (audit_chain_tamper_evident sample_chain sample_chain Hw Hw Hv Hv eq_refl eq_refl).
Defined.
