(* ===== verification/Regex.v ===== *)
(** * Regular expressions, [re], and the UTF-8 decoder

    A text is a list of code points.  A pattern runs as the set of positions a
    match starting at a position can end at; [ends_spec] shows that this is the
    usual relational meaning of the pattern, so [fullmatch] and [search] answer
    the question Python's matcher answers.  What Python's Unicode tables say
    about code points above 255 is a parameter. *)

From S2P Require Import Prelude PyStr.
From stdpp Require Import relations.
From Stdlib Require Import ZArith.

Open Scope list_scope.
Open Scope Z_scope.

Definition text := list Z.
Definition text_of (s : string) : text := ord <$> chars s.

(** The classes of the code points above 255. *)
Record unicode := Unicode { uni_word : Z → bool; uni_space : Z → bool; uni_decimal : Z → bool }.

(** A table without letters, spaces or digits above 255. *)
Definition latin : unicode :=
  Unicode (fun _ => false) (fun _ => false) (fun _ => false).

Definition cp_in (a b n : Z) : bool := (a <=? n) && (n <=? b).

(** [\w] *)
Definition cp_word (u : unicode) (n : Z) : bool :=
  cp_in 48 57 n || cp_in 65 90 n || (n =? 95) || cp_in 97 122 n ||
  (n =? 170) || (n =? 178) || (n =? 179) || (n =? 181) || (n =? 185) || (n =? 186) ||
  cp_in 188 190 n || cp_in 192 214 n || cp_in 216 246 n || cp_in 248 255 n ||
  ((255 <? n) && uni_word u n).

(** [\s] *)
Definition cp_space (u : unicode) (n : Z) : bool :=
  cp_in 9 13 n || cp_in 28 32 n || (n =? 133) || (n =? 160) ||
  ((255 <? n) && uni_space u n).

(** [\d] *)
Definition cp_digit (u : unicode) (n : Z) : bool :=
  cp_in 48 57 n || ((255 <? n) && uni_decimal u n).

(** ** Patterns *)

Inductive re :=
  | Eps
  | Cls (f : Z → bool)
  | Seq (a b : re)
  | Alt (a b : re)
  | Star (a : re)
  | Boundary.

Definition Opt (a : re) : re := Alt Eps a.
Definition Plus (a : re) : re := Seq a (Star a).

Fixpoint Times (n : nat) (a : re) : re :=
  match n with O => Eps | S n' => Seq a (Times n' a) end.

(** [a{n,n+k}] *)
Fixpoint UpTo (k : nat) (a : re) : re :=
  match k with O => Eps | S k' => Opt (Seq a (UpTo k' a)) end.
Definition Between (n k : nat) (a : re) : re := Seq (Times n a) (UpTo (k - n) a).

Definition Chr (c : ascii) : re := Cls (fun n => n =? ord c).

Fixpoint Lit (s : list ascii) : re :=
  match s with [] => Eps | c :: s' => Seq (Chr c) (Lit s') end.

Definition Str (s : string) : re := Lit (chars s).

Definition OneOf (s : string) : Z → bool := fun n => any (fun c => n =? ord c) (chars s).

(** Letters under [(?i)], with the four case partners outside Latin-1. *)
Definition ci_char (c : ascii) : re :=
  Cls (fun n => (n =? ord (lower_char c)) || ((n <? 256) && (ord (lower_char (chr n)) =? ord (lower_char c)))
    || (bool_decide (lower_char c = "s"%char) && (n =? 383))
    || (bool_decide (lower_char c = "k"%char) && (n =? 8490))
    || (bool_decide (lower_char c = "i"%char) && ((n =? 304) || (n =? 305)))).

Fixpoint ci_lit (s : list ascii) : re :=
  match s with [] => Eps | c :: s' => Seq (ci_char c) (ci_lit s') end.

Section matching.
Context (u : unicode) (s : text).

Definition word_at (i : nat) : bool :=
  match s !! i with Some c => cp_word u c | None => false end.

(** [\b] *)
Definition at_boundary (i : nat) : bool :=
  xorb (match i with O => false | S j => word_at j end) (word_at i).

Definition grow (f : nat → list nat) (l : list nat) : list nat :=
  remove_dups (l ++ (l ≫= f)).

(** Where a match of [r] that starts at [i] can end. *)
Fixpoint ends (r : re) (i : nat) : list nat :=
  match r with
  | Eps => [i]
  | Cls f => match s !! i with Some c => if f c then [S i] else [] | None => [] end
  | Seq a b => remove_dups (ends a i ≫= ends b)
  | Alt a b => remove_dups (ends a i ++ ends b i)
  | Star a => Nat.iter (length s) (grow (ends a)) [i]
  | Boundary => if at_boundary i then [i] else []
  end.

(** [re.fullmatch(r, s) is not None] *)
Definition fullmatch (r : re) : bool := mem (length s) (ends r 0).

(** [re.search(r, s) is not None] *)
Definition search (r : re) : bool :=
  any (fun i => match ends r i with [] => false | _ => true end) (seq 0 (S (length s))).

(** ** Meaning *)

Inductive matches : re → nat → nat → Prop :=
  | m_eps i : matches Eps i i
  | m_cls f i c : s !! i = Some c → f c = true → matches (Cls f) i (S i)
  | m_seq a b i j k : matches a i j → matches b j k → matches (Seq a b) i k
  | m_left a b i j : matches a i j → matches (Alt a b) i j
  | m_right a b i j : matches b i j → matches (Alt a b) i j
  | m_done a i : matches (Star a) i i
  | m_more a i j k : matches a i j → matches (Star a) j k → matches (Star a) i k
  | m_boundary i : at_boundary i = true → matches Boundary i i.

Lemma matches_range r i j : matches r i j → (i <= j <= max i (length s))%nat.
Proof.
  induction 1 as [|f i c Hc _| | | | | |]; try lia. apply lookup_lt_Some in Hc. lia.
Qed.

Lemma grow_mono f l x : x ∈ l → x ∈ grow f l.
Proof. unfold grow. rewrite elem_of_remove_dups. set_solver. Qed.

(** [n] rounds reach what at most [n] steps reach. *)
Lemma iter_grow_sound f n l x : x ∈ Nat.iter n (grow f) l →
  ∃ y, y ∈ l ∧ rtc (fun a b => b ∈ f a) y x.
Proof.
  revert x. induction n as [|n IH]; intros x; cbn; [eauto using rtc_refl|].
  unfold grow at 1. rewrite elem_of_remove_dups, elem_of_app, list_elem_of_bind.
  intros [Hx|(z & Hx & Hz)].
  - by apply IH.
  - destruct (IH z Hz) as (y & Hy & Hr). exists y. split; [done|]. by eapply rtc_r.
Qed.

Lemma iter_grow_complete f n l y x :
  y ∈ l → (∃ m, (m <= n)%nat ∧ nsteps (fun a b => b ∈ f a) m y x) → x ∈ Nat.iter n (grow f) l.
Proof.
  intros Hy (m & Hm & Hs). revert m x Hm Hs.
  induction n as [|n IH]; intros m x Hm Hs.
  - assert (m = 0%nat) as -> by lia. inversion Hs; by subst.
  - cbn. destruct (decide (m <= n)%nat).
    + apply grow_mono. eauto.
    + assert (m = S n) as -> by lia. apply nsteps_inv_r in Hs as (z & Hs & Hz).
      unfold grow. rewrite elem_of_remove_dups, elem_of_app, list_elem_of_bind. right. eauto.
Qed.

(** Steps that move forward inside the text are at most as many as its length. *)
Lemma short_steps (R : nat → nat → Prop) i j :
  (∀ a b, R a b → (a <= b <= max a (length s))%nat) → rtc R i j →
  ∃ m, (m <= length s - i)%nat ∧ nsteps R m i j.
Proof.
  intros HR. induction 1 as [i|i k j Hik Hkj (m & Hm & Hs)].
  - exists 0%nat. split; [lia|constructor].
  - destruct (decide (i = k)) as [->|Hne]; [by exists m|].
    pose proof (HR _ _ Hik). exists (S m). split; [lia|]. by econstructor.
Qed.

Lemma star_rtc a i j : matches (Star a) i j ↔ rtc (matches a) i j.
Proof.
  split.
  - remember (Star a) as r eqn:Er. induction 1; try discriminate Er; injection Er as ->;
      [apply rtc_refl|]. eapply rtc_l; eauto.
  - induction 1; econstructor; eauto.
Qed.

Lemma ends_spec r i j : j ∈ ends r i ↔ matches r i j.
Proof.
  revert i j. induction r as [|f|a IHa b IHb|a IHa b IHb|a IHa|]; intros i j; cbn [ends].
  - rewrite list_elem_of_singleton. split; [intros ->; constructor|by inversion 1].
  - destruct (s !! i) as [c|] eqn:Ec.
    + destruct (f c) eqn:Ef.
      * rewrite list_elem_of_singleton. split; [intros ->; by econstructor|by inversion 1].
      * split; [by intros ?%elem_of_nil|]. inversion 1; congruence.
    + split; [by intros ?%elem_of_nil|]. inversion 1; congruence.
  - rewrite elem_of_remove_dups, list_elem_of_bind. split.
    + intros (k & Hj%IHb & Hk%IHa). by econstructor.
    + inversion 1 as [| |? ? ? k ? Ha Hb| | | | |]; subst. exists k. by rewrite IHa, IHb.
  - rewrite elem_of_remove_dups, elem_of_app, IHa, IHb. split.
    + intros [?|?]; by constructor.
    + inversion 1; subst; auto.
  - rewrite star_rtc.
    assert (Hiff : ∀ x y, y ∈ ends a x ↔ matches a x y) by (intros; apply IHa).
    split.
    + intros (y & ->%list_elem_of_singleton & Hr)%iter_grow_sound.
      eapply rtc_subrel; [|exact Hr]. intros x z. apply Hiff.
    + intros Hr. apply iter_grow_complete with i; [by left|].
      destruct (short_steps _ _ _ (matches_range a) Hr) as (m & Hm & Hs).
      exists m. split; [lia|]. clear -Hs Hiff.
      induction Hs; [constructor|]. econstructor; [by apply Hiff|done].
  - destruct (at_boundary i) eqn:Eb.
    + rewrite list_elem_of_singleton. split; [intros ->; by constructor|by inversion 1].
    + split; [by intros ?%elem_of_nil|]. inversion 1; congruence.
Qed.

Lemma fullmatch_spec r : fullmatch r = true ↔ matches r 0 (length s).
Proof. unfold fullmatch. by rewrite mem_true, ends_spec. Qed.

Lemma search_spec r :
  search r = true ↔ ∃ i j, (i <= length s)%nat ∧ matches r i j.
Proof.
  unfold search. rewrite any_true. split.
  - intros (i & Hi%elem_of_seq & He). destruct (ends r i) as [|j l] eqn:E; [done|].
    exists i, j. split; [lia|]. apply ends_spec. rewrite E. left.
  - intros (i & j & Hi & Hm%ends_spec). exists i. split; [apply elem_of_seq; lia|].
    destruct (ends r i); [by apply elem_of_nil in Hm|done].
Qed.
End matching.

(** ** [bytes.decode("utf-8", errors="replace")] *)

Definition replacement : Z := 65533.
Definition continuation (b : Z) : bool := cp_in 128 191 b.

(** The code point of a well-formed sequence at the front, with its length; an
    ill-formed one is replaced up to its longest prefix that starts a
    well-formed sequence. *)
Definition decode_front (b : Z) (l : list Z) : Z * nat :=
  if b <? 128 then (b, 1%nat)
  else if cp_in 194 223 b then
    match l with
    | c1 :: _ => if continuation c1 then ((b - 192) * 64 + (c1 - 128), 2%nat)
                 else (replacement, 1%nat)
    | [] => (replacement, 1%nat)
    end
  else if cp_in 224 239 b then
    let lo := if b =? 224 then 160 else 128 in
    let hi := if b =? 237 then 159 else 191 in
    match l with
    | c1 :: l' =>
        if cp_in lo hi c1 then
          match l' with
          | c2 :: _ => if continuation c2
                       then ((b - 224) * 4096 + (c1 - 128) * 64 + (c2 - 128), 3%nat)
                       else (replacement, 2%nat)
          | [] => (replacement, 2%nat)
          end
        else (replacement, 1%nat)
    | [] => (replacement, 1%nat)
    end
  else if cp_in 240 244 b then
    let lo := if b =? 240 then 144 else 128 in
    let hi := if b =? 244 then 143 else 191 in
    match l with
    | c1 :: l' =>
        if cp_in lo hi c1 then
          match l' with
          | c2 :: l'' =>
              if continuation c2 then
                match l'' with
                | c3 :: _ => if continuation c3
                             then ((b - 240) * 262144 + (c1 - 128) * 4096 + (c2 - 128) * 64 +
                                   (c3 - 128), 4%nat)
                             else (replacement, 3%nat)
                | [] => (replacement, 3%nat)
                end
              else (replacement, 2%nat)
          | [] => (replacement, 2%nat)
          end
        else (replacement, 1%nat)
    | [] => (replacement, 1%nat)
    end
  else (replacement, 1%nat).

(** Every round consumes at least one byte. *)
Fixpoint decode_from (fuel : nat) (l : list Z) : text :=
  match fuel, l with
  | S f, b :: l' =>
      let '(c, n) := decode_front b l' in c :: decode_from f (drop (n - 1) l')
  | _, _ => []
  end.

Definition decode_utf8 (content : list Z) : text := decode_from (length content) content.

Example decode_mixed :
  decode_utf8 [65; 195; 169; 226; 130; 172; 240; 159; 152; 128; 195; 40; 255]
  = [65; 233; 8364; 128512; 65533; 40; 65533].
Proof. vm_compute. reflexivity. Qed.
