(* ===== verification/Capability.v ===== *)
(** * packages/capability: manifest.py

    Capability pack manifests: the strict parser, the payload that is signed
    and content-addressed, and the semantic-version arithmetic of dependency
    ranges and channels.  The JSON Schema validator ([jsonschema]) is a
    parameter of the operations that call it.  A YAML [true], which Python also
    takes for the integer 1, is read as 1 where an integer is expected. *)

From S2P Require Import Prelude PyStr PyDict PyFloat Json Sha256 Regex.
From Stdlib Require Import ZArith SpecFloat.

Open Scope string_scope.
Open Scope list_scope.
Open Scope Z_scope.

(** ** Text *)

(** [s.partition(c)[0]], which is also [s.split(c, maxsplit=1)[0]]. *)
Fixpoint before (c : ascii) (s : string) : string :=
  match s with
  | EmptyString => EmptyString
  | String d s' => if bool_decide (d = c) then EmptyString else String d (before c s')
  end.

(** [s.partition(c)[2]] *)
Fixpoint after (c : ascii) (s : string) : string :=
  match s with
  | EmptyString => EmptyString
  | String d s' => if bool_decide (d = c) then s' else after c s'
  end.

(** [s.split(c)] and, without its empty items, [s.split()]; [acc] is the item
    being read, reversed. *)
Fixpoint split_when (sep : ascii → bool) (s : list ascii) (acc : list ascii) : list string :=
  match s with
  | [] => [of_chars (rev acc)]
  | c :: s' => if sep c then of_chars (rev acc) :: split_when sep s' []
               else split_when sep s' (c :: acc)
  end.

Definition split_on (c : ascii) (s : string) : list string :=
  split_when (fun d => bool_decide (d = c)) (chars s) [].

Definition split_space (s : string) : list string :=
  List.filter (fun x => negb (empty x)) (split_when is_space (chars s) []).

(** [s.replace("-", "_")] *)
Definition dash_to_underscore (s : string) : string :=
  of_chars ((fun c => if bool_decide (c = "-"%char) then "_"%char else c) <$> chars s).

(** ** Patterns *)

Definition lower_az := cp_in 97 122.
Definition upper_az := cp_in 65 90.
Definition dec09 := cp_in 48 57.
Definition alnum (n : Z) : bool := lower_az n || upper_az n || dec09 n.
Definition digit_re : re := Cls (cp_digit latin).

(** [\d+\.\d+\.\d+(?:-[0-9A-Za-z.-]+)?] *)
Definition SEMVER : re :=
  Seq (Plus digit_re) (Seq (Chr "."%char) (Seq (Plus digit_re) (Seq (Chr "."%char)
    (Seq (Plus digit_re)
      (Opt (Seq (Chr "-"%char) (Plus (Cls (fun n => alnum n || (n =? 46) || (n =? 45)))))))))).

Definition IDENTIFIER : re :=
  Seq (Cls lower_az) (Seq (Star (Cls (fun n => lower_az n || dec09 n)))
    (Star (Seq (Cls (OneOf "._-")) (Plus (Cls (fun n => lower_az n || dec09 n)))))).

Definition ENTRY_POINT : re :=
  Seq (Cls (fun n => alnum n && negb (dec09 n) || (n =? 95)))
    (Seq (Star (Cls (fun n => alnum n || (n =? 95) || (n =? 46))))
      (Seq (Chr ":"%char)
        (Seq (Cls (fun n => alnum n && negb (dec09 n) || (n =? 95)))
          (Star (Cls (fun n => alnum n || (n =? 95))))))).

Definition hex_cls : re := Cls (fun n => dec09 n || cp_in 97 102 n).
Definition SHA256_HEX : re := Times 64 hex_cls.
Definition SIGNATURE_HEX : re := Times 128 hex_cls.

Definition ARTIFACT_URI : re :=
  Seq (Cls lower_az) (Seq (Star (Cls (fun n => lower_az n || dec09 n || OneOf "+.-" n)))
    (Seq (Str "://") (Between 1 400 (Cls (fun n => alnum n || OneOf "._~/-" n))))).

(** [p.fullmatch(s) is not None]; every pattern of the file uses it. *)
Definition matched (p : re) (s : string) : bool := fullmatch latin (text_of s) p.

(** ** Manifests *)

Module GoalTypeManifest.
Record t := mk {
  goal_type : string;
  input_schema : list (string * json);
  agent : string;
  evaluation_suite : string;
  default_policy : string;
  default_budget : Z
}.
End GoalTypeManifest.

(** The operator and the target of a version specification item. *)
Definition split_operator (item : string) : string * string :=
  match item with
  | String ">" (String "=" rest) => (">=", rest)
  | String "<" (String "=" rest) => ("<=", rest)
  | String ">" rest => (">", rest)
  | String "<" rest => ("<", rest)
  | String "=" rest => ("=", rest)
  | _ => ("", item)
  end.

(** [_VERSION_SPEC_ITEM.fullmatch(item)]: its two groups. *)
Definition spec_item (item : string) : option (string * string) :=
  let '(op, target) := split_operator item in
  if matched SEMVER target || bool_decide (target = "*") then Some (op, target) else None.

Module PackDependency.
Record t := mk { pack_id : string; version_spec : string }.
#[global] Instance t_eq_dec : EqDecision t.
Proof. solve_decision. Defined.

Definition new (pack_id version_spec : string) : res t :=
  raise_if (negb (matched IDENTIFIER pack_id)) ManifestError
    "dependency pack_id must be a normalized identifier" ;;
  raise_if (bool_decide (split_space version_spec = []) ||
            negb (all (fun item => is_some (spec_item item)) (split_space version_spec)))
    ManifestError ("dependency version spec is invalid: " +:+ version_spec) ;;
  Ok (mk pack_id version_spec).
End PackDependency.

Module CapabilityPackManifest.
Record t := mk {
  api_version : string;
  pack_id : string;
  version : string;
  python_entry_point : string;
  goal_types : list GoalTypeManifest.t;
  skills : list string;
  tools : list string;
  policies : list string;
  evaluation_suites : list string;
  evaluation_subject : option string;
  artifact_uri : option string;
  artifact_digest : option string;
  signature : option string;
  sbom_ref : option string;
  sbom_digest : option string;
  dependencies : list PackDependency.t
}.
#[global] Instance eta : Settable t := fun x =>
  mk (api_version x) (pack_id x) (version x) (python_entry_point x) (goal_types x) (skills x)
     (tools x) (policies x) (evaluation_suites x) (evaluation_subject x) (artifact_uri x)
     (artifact_digest x) (signature x) (sbom_ref x) (sbom_digest x) (dependencies x).
End CapabilityPackManifest.

(** [_require_identifier(value, field)]; [None] is a missing value. *)
Definition require_identifier (value : option json) (field : string) : res string :=
  match value with
  | Some (JStr s) =>
      raise_if (negb (matched IDENTIFIER s)) ManifestError
        (field +:+ " must be a normalized identifier") ;;
      Ok s
  | _ => raise ManifestError (field +:+ " must be a normalized identifier")
  end.

Definition require_string_list (value : option json) (field : string) : res (list string) :=
  match value with
  | Some (JList l) =>
      result ← mapM_res (fun item => require_identifier (Some item) field) l;
      raise_if (negb (unique result)) ManifestError
        (field +:+ " must not contain duplicates") ;;
      Ok result
  | _ => raise ManifestError (field +:+ " must be a list")
  end.

(** The shape shared by the optional string fields. *)
Definition optional_matching (p : re) (value : option json) (message : string)
    : res (option string) :=
  match value with
  | None | Some JNull => Ok None
  | Some (JStr s) => raise_if (negb (matched p s)) ManifestError message ;; Ok (Some s)
  | Some _ => raise ManifestError message
  end.

Definition required_fields : list string :=
  ["api_version"; "pack_id"; "version"; "python_entry_point"; "goal_types"; "skills"; "tools";
   "policies"; "evaluation_suites"].
Definition allowed_fields : list string :=
  required_fields ++ ["evaluation_subject"; "artifact_uri"; "artifact_digest"; "signature";
                      "sbom_ref"; "sbom_digest"; "dependencies"].
Definition goal_type_fields : list string :=
  ["goal_type"; "input_schema"; "agent"; "evaluation_suite"; "default_policy"; "default_budget"].

Section manifest.
(** [Draft202012Validator.check_schema] *)
Context (check_schema : list (string * json) → res unit).

Definition parse_dependency (item : json) : res PackDependency.t :=
  match item with
  | JDict d =>
      match alist_get "version_spec" d with
      | Some (JStr version_spec) =>
          pack_id ← require_identifier (alist_get "pack_id" d) "dependencies.pack_id";
          PackDependency.new pack_id version_spec
      | _ => raise ManifestError "dependency entries must be objects"
      end
  | _ => raise ManifestError "dependency entries must be objects"
  end.

Definition parse_budget (value : option json) : res Z :=
  let checked n := raise_if (n <=? 0) ManifestError
                     "default_budget must be a positive integer" ;; Ok n in
  match value with
  | Some (JInt n) => checked n
  | Some (JBool b) => checked (if b then 1 else 0)
  | _ => raise ManifestError "default_budget must be a positive integer"
  end.

Definition parse_goal_type (item : json) : res GoalTypeManifest.t :=
  match item with
  | JDict d =>
      raise_if (negb (subset_of (d.*1) goal_type_fields && subset_of goal_type_fields (d.*1)))
        ManifestError "goal type fields are incomplete or unknown" ;;
      match alist_get "input_schema" d with
      | Some (JDict schema) =>
          check_schema schema ;;
          budget ← parse_budget (alist_get "default_budget" d);
          goal_type ← require_identifier (alist_get "goal_type" d) "goal_type";
          agent ← require_identifier (alist_get "agent" d) "agent";
          suite ← require_identifier (alist_get "evaluation_suite" d) "evaluation_suite";
          policy ← require_identifier (alist_get "default_policy" d) "default_policy";
          Ok (GoalTypeManifest.mk goal_type schema agent suite policy budget)
      | _ => raise ManifestError "input_schema must be an object"
      end
  | _ => raise ManifestError "goal type entry must be an object"
  end.

Definition module_root (entry_point : string) : string :=
  before "."%char (before ":"%char entry_point).

Definition parse_manifest (raw : list (string * json)) : res CapabilityPackManifest.t :=
  raise_if (negb (subset_of (raw.*1) allowed_fields) || negb (subset_of required_fields (raw.*1)))
    ManifestError "manifest fields must be a subset of the allowed fields" ;;
  let field name := alist_get name raw in
  raise_if (match field "api_version" with
            | Some (JStr s) => negb (bool_decide (s = "autonoesis/v1alpha1"))
            | _ => true
            end) ManifestError "unsupported capability manifest api_version" ;;
  version ← match field "version" with
            | Some (JStr s) => if matched SEMVER s then Ok s
                               else raise ManifestError "version must use semantic versioning"
            | _ => raise ManifestError "version must use semantic versioning"
            end;
  entry_point ← match field "python_entry_point" with
                | Some (JStr s) => if matched ENTRY_POINT s then Ok s
                    else raise ManifestError "python_entry_point must be module:function"
                | _ => raise ManifestError "python_entry_point must be module:function"
                end;
  pack_id ← require_identifier (field "pack_id") "pack_id";
  let expected_module_root := dash_to_underscore pack_id in
  raise_if (negb (bool_decide (module_root entry_point = expected_module_root)))
    ManifestError "python_entry_point must be owned by the capability pack module" ;;
  evaluation_subject ← optional_matching ENTRY_POINT (field "evaluation_subject")
    "evaluation_subject must be module:function";
  raise_if (match evaluation_subject with
            | Some s => negb (bool_decide (module_root s = expected_module_root))
            | None => false
            end) ManifestError
    "evaluation_subject must be owned by the capability pack module" ;;
  artifact_uri ← optional_matching ARTIFACT_URI (field "artifact_uri")
    "artifact_uri must be a bounded URI with an explicit scheme";
  artifact_digest ← optional_matching SHA256_HEX (field "artifact_digest")
    "artifact_digest must be a lowercase sha256 hex digest";
  signature ← optional_matching SIGNATURE_HEX (field "signature")
    "signature must be a lowercase hex ed25519 signature";
  sbom_ref ← optional_matching ARTIFACT_URI (field "sbom_ref")
    "sbom_ref must be a bounded URI with an explicit scheme";
  sbom_digest ← optional_matching SHA256_HEX (field "sbom_digest")
    "sbom_digest must be a lowercase sha256 hex digest";
  dependencies ← match field "dependencies" with
                 | None => Ok []
                 | Some (JList l) => mapM_res parse_dependency l
                 | Some _ => raise ManifestError "dependencies must be a list"
                 end;
  raise_if (negb (unique (PackDependency.pack_id <$> dependencies))) ManifestError
    "dependencies must be unique per pack" ;;
  goal_types ← match field "goal_types" with
               | Some (JList ((_ :: _) as l)) => mapM_res parse_goal_type l
               | _ => raise ManifestError "goal_types must be a non-empty list"
               end;
  raise_if (negb (unique (GoalTypeManifest.goal_type <$> goal_types))) ManifestError
    "goal types must be unique" ;;
  skills ← require_string_list (field "skills") "skills";
  tools ← require_string_list (field "tools") "tools";
  policies ← require_string_list (field "policies") "policies";
  evaluation_suites ← require_string_list (field "evaluation_suites") "evaluation_suites";
  Ok {|
    CapabilityPackManifest.api_version := "autonoesis/v1alpha1";
    CapabilityPackManifest.pack_id := pack_id;
    CapabilityPackManifest.version := version;
    CapabilityPackManifest.python_entry_point := entry_point;
    CapabilityPackManifest.goal_types := goal_types;
    CapabilityPackManifest.skills := skills;
    CapabilityPackManifest.tools := tools;
    CapabilityPackManifest.policies := policies;
    CapabilityPackManifest.evaluation_suites := evaluation_suites;
    CapabilityPackManifest.evaluation_subject := evaluation_subject;
    CapabilityPackManifest.artifact_uri := artifact_uri;
    CapabilityPackManifest.artifact_digest := artifact_digest;
    CapabilityPackManifest.signature := signature;
    CapabilityPackManifest.sbom_ref := sbom_ref;
    CapabilityPackManifest.sbom_digest := sbom_digest;
    CapabilityPackManifest.dependencies := dependencies |}.
End manifest.

(** [validate_payload] over [Draft202012Validator(schema).iter_errors]: the
    errors as their paths and messages; the least path is reported. *)
Section validate.
Context (schema_error : list (string * json) → list (string * json) → option string).

(** [schema_error schema payload] is the message of the first error in path
    order, if there is one. *)
Definition validate_payload (goal_type : GoalTypeManifest.t) (payload : list (string * json))
    : res unit :=
  match schema_error (GoalTypeManifest.input_schema goal_type) payload with
  | Some message => raise ManifestError ("goal input is invalid: " +:+ message)
  | None => Ok tt
  end.
End validate.

(** ** Payloads and digests *)

Definition str_list (l : list string) : json := JList (JStr <$> l).

Definition goal_type_payload (item : GoalTypeManifest.t) : json := JDict [
  ("goal_type", JStr (GoalTypeManifest.goal_type item));
  ("input_schema", JDict (GoalTypeManifest.input_schema item));
  ("agent", JStr (GoalTypeManifest.agent item));
  ("evaluation_suite", JStr (GoalTypeManifest.evaluation_suite item));
  ("default_policy", JStr (GoalTypeManifest.default_policy item));
  ("default_budget", JInt (GoalTypeManifest.default_budget item))].

Definition optional_item (name : string) (value : option string) : list (string * json) :=
  match value with Some s => [(name, JStr s)] | None => [] end.

Definition manifest_payload (m : CapabilityPackManifest.t) : list (string * json) :=
  [("api_version", JStr (CapabilityPackManifest.api_version m));
   ("pack_id", JStr (CapabilityPackManifest.pack_id m));
   ("version", JStr (CapabilityPackManifest.version m));
   ("python_entry_point", JStr (CapabilityPackManifest.python_entry_point m));
   ("goal_types", JList (goal_type_payload <$> CapabilityPackManifest.goal_types m));
   ("skills", str_list (CapabilityPackManifest.skills m));
   ("tools", str_list (CapabilityPackManifest.tools m));
   ("policies", str_list (CapabilityPackManifest.policies m));
   ("evaluation_suites", str_list (CapabilityPackManifest.evaluation_suites m));
   ("dependencies", JList ((fun d => JDict [("pack_id", JStr (PackDependency.pack_id d));
                                            ("version_spec", JStr (PackDependency.version_spec d))])
                             <$> CapabilityPackManifest.dependencies m))] ++
  optional_item "evaluation_subject" (CapabilityPackManifest.evaluation_subject m) ++
  optional_item "artifact_uri" (CapabilityPackManifest.artifact_uri m) ++
  optional_item "artifact_digest" (CapabilityPackManifest.artifact_digest m) ++
  optional_item "signature" (CapabilityPackManifest.signature m) ++
  optional_item "sbom_ref" (CapabilityPackManifest.sbom_ref m) ++
  optional_item "sbom_digest" (CapabilityPackManifest.sbom_digest m).

(** [payload.pop(field, None)] *)
Definition pop (field : string) (payload : list (string * json)) : list (string * json) :=
  alist_del field payload.

Definition canonical_unsigned_payload (m : CapabilityPackManifest.t) : list (string * json) :=
  pop "signature" (manifest_payload m).

Definition canonical (value : list (string * json)) : string :=
  dumps canonical_style (JDict value).

Definition manifest_content_digest (m : CapabilityPackManifest.t) : string :=
  sha256_hex (canonical (pop "sbom_ref" (pop "artifact_uri" (pop "sbom_digest"
    (pop "artifact_digest" (canonical_unsigned_payload m)))))).

Definition canonical_signature_bytes (m : CapabilityPackManifest.t) : list Z :=
  utf8 (canonical (canonical_unsigned_payload m)).

(** ** Versions *)

(** The components of a version's sort key; Python compares tuples item by
    item and refuses to order values of different types. *)
Inductive key_item := KInt (n : Z) | KStr (s : string).

#[export] Instance key_item_eq_dec : EqDecision key_item.
Proof. solve_decision. Defined.

Definition cmp_error {A} : res A :=
  raise TypeError "'<' not supported between instances of different types".

Definition cmp_str (s t : string) : comparison :=
  if str_ltb s t then Lt else if str_ltb t s then Gt else Eq.

Definition cmp_item (a b : key_item) : res comparison :=
  match a, b with
  | KInt m, KInt n => Ok (m ?= n)
  | KStr s, KStr t => Ok (cmp_str s t)
  | _, _ => cmp_error
  end.

Definition cmp_pair (a b : Z * key_item) : res comparison :=
  match a.1 ?= b.1 with Eq => cmp_item a.2 b.2 | c => Ok c end.

(** Tuple comparison. *)
Fixpoint cmp_list {A} (cmp : A → A → res comparison) (l1 l2 : list A) : res comparison :=
  match l1, l2 with
  | [], [] => Ok Eq
  | [], _ :: _ => Ok Lt
  | _ :: _, [] => Ok Gt
  | x :: l1', y :: l2' =>
      c ← cmp x y;
      match c with Eq => cmp_list cmp l1' l2' | _ => Ok c end
  end.

(** A version's key: the numbers of its core, 1 for a release and 0 for a
    prerelease, and the identifiers of the prerelease. *)
Record semver := SemVer { core : list Z; release : Z; identifiers : list (Z * key_item) }.

#[export] Instance semver_eq_dec : EqDecision semver.
Proof. solve_decision. Defined.

(** [int(part)] for a string of decimal digits. *)
Fixpoint int_of_digits (l : list ascii) (acc : Z) : option Z :=
  match l with
  | [] => Some acc
  | c :: l' => if is_digit c then int_of_digits l' (10 * acc + (ord c - 48)) else None
  end.

Definition parse_int (part : string) : res Z :=
  match chars part with
  | [] => raise ValueError "invalid literal for int() with base 10"
  | l => match int_of_digits l 0 with
         | Some n => Ok n
         | None => raise ValueError "invalid literal for int() with base 10"
         end
  end.

Definition identifier_key (item : string) : res (Z * key_item) :=
  if negb (empty item) && all is_digit (chars item)
  then n ← parse_int item; Ok (0, KInt n)
  else Ok (1, KStr item).

Definition semver_key (version : string) : res semver :=
  numbers ← mapM_res parse_int (split_on "."%char (before "-"%char version));
  let prerelease := after "-"%char version in
  if empty prerelease then Ok (SemVer numbers 1 [])
  else ids ← mapM_res identifier_key (split_on "."%char prerelease);
       Ok (SemVer numbers 0 ids).

(** Keys whose cores have the same number of parts compare part by part; a
    core of another length would put a number against the release flag, which
    never happens for semantic versions. *)
Definition cmp_semver (a b : semver) : res comparison :=
  c ← cmp_list (fun m n => Ok (m ?= n)) (core a ++ [release a]) (core b ++ [release b]);
  match c with
  | Eq => cmp_list cmp_pair (identifiers a) (identifiers b)
  | _ => Ok c
  end.

Definition holds (operator : string) (c : comparison) : bool :=
  match c with
  | Eq => mem operator ["="; ">="; "<="]
  | Gt => mem operator [">"; ">="]
  | Lt => mem operator ["<"; "<="]
  end.

Definition version_satisfies_one (item version : string) : res bool :=
  match spec_item item with
  | None => raise ManifestError ("dependency version spec is invalid: " +:+ item)
  | Some (op, target) =>
      let operator := if empty op then "=" else op in
      raise_if (negb (matched SEMVER version)) ManifestError
        ("version must use semantic versioning: " +:+ version) ;;
      if bool_decide (target = "*") then Ok (mem operator ["="; ">="; "<="; ">"; "<"])
      else
        left ← semver_key version;
        right ← semver_key target;
        c ← cmp_semver left right;
        Ok (holds operator c)
  end.

Definition version_satisfies (spec version : string) : res bool :=
  let comparators := split_space spec in
  raise_if (bool_decide (comparators = [])) ManifestError
    "dependency version spec is invalid: empty" ;;
  results ← mapM_res (fun item => version_satisfies_one item version) comparators;
  Ok (all id results).

Definition compare_versions (left right : string) : res Z :=
  key_left ← semver_key left;
  key_right ← semver_key right;
  c ← cmp_semver key_left key_right;
  Ok (match c with Lt => -1 | Gt => 1 | Eq => 0 end).

(** ** [==] on JSON-like values

    Numbers compare by value whatever their type, dictionaries whatever their
    order. *)

(** [n == f] for a finite float, exactly. *)
Definition int_float_eq (n : Z) (f : float) : bool :=
  match f with
  | S754_zero _ => n =? 0
  | S754_finite s m e =>
      let v := if s then Z.neg m else Z.pos m in
      if 0 <=? e then n =? v * 2 ^ e else n * 2 ^ (- e) =? v
  | _ => false
  end.

Definition as_int (v : json) : option Z :=
  match v with JInt n => Some n | JBool b => Some (if b then 1 else 0) | _ => None end.

Fixpoint py_eq (v w : json) : bool :=
  match v, w with
  | JNull, JNull => true
  | JStr s, JStr t => bool_decide (s = t)
  | JList l1, JList l2 =>
      (fix go l1 l2 := match l1, l2 with
                       | [], [] => true
                       | x :: l1', y :: l2' => py_eq x y && go l1' l2'
                       | _, _ => false
                       end) l1 l2
  | JDict d1, JDict d2 =>
      bool_decide (length d1 = length d2) &&
      (fix go d1 := match d1 with
                    | [] => true
                    | (k, x) :: d1' =>
                        match alist_get k d2 with Some y => py_eq x y | None => false end && go d1'
                    end) d1
  | JFloat f, JFloat g => feq f g
  | JFloat f, _ => match as_int w with Some n => int_float_eq n f | None => false end
  | _, JFloat g => match as_int v with Some n => int_float_eq n g | None => false end
  | _, _ => match as_int v, as_int w with Some m, Some n => m =? n | _, _ => false end
  end.
