(* ===== verification/Versions.v ===== *)
(** * The order of versions, and manifests read back

    Version keys are totally ordered, so what a dependency range accepts is an
    interval: [satisfying_versions_convex].  [manifest_round_trip]: the payload
    a manifest is stored as is read back as the same manifest. *)

From S2P Require Import Prelude PyStr PyDict Json Sha256 Regex Capability.
From Stdlib Require Import ZArith.

Open Scope string_scope.
Open Scope list_scope.
Open Scope Z_scope.

(** ** Comparisons that order the values of [P] totally *)

Record lawful {A} (P : A → Prop) (cmp : A → A → res comparison) : Prop := {
  law_total : ∀ x y, P x → P y → ∃ c, cmp x y = Ok c;
  law_refl : ∀ x, P x → cmp x x = Ok Eq;
  law_eq : ∀ x y, P x → P y → cmp x y = Ok Eq → x = y;
  law_opp : ∀ x y c, P x → P y → cmp x y = Ok c → cmp y x = Ok (CompOpp c);
  law_trans : ∀ x y z, P x → P y → P z → cmp x y = Ok Lt → cmp y z = Ok Lt → cmp x z = Ok Lt
}.

Lemma cmp_str_lawful : lawful (fun _ => True) (fun s t => Ok (cmp_str s t)).
Proof.
  assert (Hlt : ∀ s t, cmp_str s t = Lt ↔ str_ltb s t = true).
  { intros s t. unfold cmp_str. destruct (str_ltb s t); [done|]. by destruct (str_ltb t s). }
  split.
  - eauto.
  - intros s _. unfold cmp_str. by rewrite str_ltb_irrefl.
  - intros s t _ _. unfold cmp_str. destruct (str_ltb s t) eqn:E1; [done|].
    destruct (str_ltb t s) eqn:E2; [done|]. intros _. by apply str_ltb_total.
  - intros s t c _ _ [= <-]. f_equal. unfold cmp_str.
    destruct (str_ltb s t) eqn:E1, (str_ltb t s) eqn:E2; try done.
    pose proof (str_ltb_trans _ _ _ E1 E2). by rewrite str_ltb_irrefl in *.
  - intros s t r _ _ _ [= H1] [= H2]. f_equal. rewrite Hlt in *. eauto using str_ltb_trans.
Qed.

Lemma cmp_Z_lawful : lawful (fun _ => True) (fun m n : Z => Ok (m ?= n)).
Proof.
  split.
  - eauto.
  - intros n _. by rewrite Z.compare_refl.
  - intros m n _ _ [= H]. by apply Z.compare_eq.
  - intros m n c _ _ [= <-]. f_equal. apply Z.compare_antisym.
  - intros m n k _ _ _ [= H1] [= H2]. f_equal. rewrite Z.compare_lt_iff in *. lia.
Qed.

(** The identifiers of a prerelease: a number under 0, a text under 1. *)
Definition identifier_ok (x : Z * key_item) : Prop :=
  match x.2 with KInt _ => x.1 = 0 | KStr _ => x.1 = 1 end.

Lemma cmp_pair_lawful : lawful identifier_ok cmp_pair.
Proof.
  pose proof cmp_str_lawful as Hs. pose proof cmp_Z_lawful as Hz.
  unfold cmp_pair, identifier_ok. split.
  - intros [a [m|s]] [b [n|t]]; cbn; intros -> ->; cbn; eauto.
  - intros [a [m|s]]; cbn; intros ->; cbn; [by apply (law_refl _ _ Hz)|by apply (law_refl _ _ Hs)].
  - intros [a [m|s]] [b [n|t]]; cbn; intros -> ->; cbn; try done; intros E.
    + by apply (law_eq _ _ Hz) in E as ->.
    + by apply (law_eq _ _ Hs) in E as ->.
  - intros [a [m|s]] [b [n|t]] c; cbn; intros -> ->; cbn; try (by intros [= <-]).
    + by apply (law_opp _ _ Hz).
    + by apply (law_opp _ _ Hs).
  - intros [a [m|s]] [b [n|t]] [c [k|r]]; cbn; intros -> -> ->; cbn; try done.
    + by apply (law_trans _ _ Hz).
    + by apply (law_trans _ _ Hs).
Qed.

Lemma cmp_list_lawful {A} (P : A → Prop) cmp :
  lawful P cmp → lawful (Forall P) (cmp_list cmp).
Proof.
  intros H. split.
  - induction x as [|x l IH]; intros [|y k]; cbn; eauto.
    intros [Hx Hl]%list.Forall_cons [Hy Hk]%list.Forall_cons.
    destruct (law_total _ _ H x y Hx Hy) as [c ->]. cbn. destruct c; eauto.
  - induction x as [|x l IH]; cbn; [done|]. intros [Hx Hl]%list.Forall_cons.
    rewrite (law_refl _ _ H) by done. cbn. auto.
  - induction x as [|x l IH]; intros [|y k]; cbn; try done.
    intros [Hx Hl]%list.Forall_cons [Hy Hk]%list.Forall_cons.
    destruct (cmp x y) as [[]|] eqn:E; cbn; try done. intros E'.
    by rewrite (law_eq _ _ H x y), (IH k).
  - induction x as [|x l IH]; intros [|y k] c; cbn; try (by intros _ _ [= <-]).
    intros [Hx Hl]%list.Forall_cons [Hy Hk]%list.Forall_cons.
    destruct (cmp x y) as [d|] eqn:E; cbn; [|done].
    rewrite (law_opp _ _ H _ _ _ Hx Hy E). destruct d; cbn; [by apply IH|by intros [= <-]..].
  - induction x as [|x l IH]; intros [|y k] [|z r]; cbn; try done.
    intros [Hx Hl]%list.Forall_cons [Hy Hk]%list.Forall_cons [Hz Hr]%list.Forall_cons.
    destruct (cmp x y) as [[]|] eqn:E1; cbn; try done.
    + apply (law_eq _ _ H) in E1 as ->; [|done..].
      destruct (cmp y z) as [[]|] eqn:E2; cbn; try done. by apply IH.
    + intros _. destruct (cmp y z) as [[]|] eqn:E2; cbn; try done.
      * apply (law_eq _ _ H) in E2 as <-; [|done..]. by rewrite E1.
      * by rewrite (law_trans _ _ H x y z).
Qed.

(** A key of a version: what [semver_key] returns. *)
Definition semver_ok (a : semver) : Prop := Forall identifier_ok (identifiers a).

Lemma identifier_key_ok item k : identifier_key item = Ok k → identifier_ok k.
Proof. unfold identifier_key. destruct (_ && _); intros H; inv_ok; done. Qed.

Lemma semver_key_ok version k : semver_key version = Ok k → semver_ok k.
Proof.
  unfold semver_key. intros H. inv_ok. destruct (empty _); inv_ok; [constructor|].
  unfold semver_ok. cbn. apply mapM_res_ok in Hx0.
  induction Hx0; constructor; eauto using identifier_key_ok.
Qed.

Lemma cmp_semver_lawful : lawful semver_ok cmp_semver.
Proof.
  pose proof (cmp_list_lawful _ _ cmp_pair_lawful) as Hp.
  pose proof (cmp_list_lawful _ _ cmp_Z_lawful) as Hz.
  assert (Htt : ∀ l : list Z, Forall (fun _ => True) l) by (intros; by apply Forall_true).
  unfold cmp_semver. split.
  - intros a b Ha Hb.
    destruct (law_total _ _ Hz (core a ++ [release a]) (core b ++ [release b])) as [c ->]; [done..|].
    cbn. destruct c; eauto. by apply (law_total _ _ Hp).
  - intros a Ha. rewrite (law_refl _ _ Hz) by done. cbn. by apply (law_refl _ _ Hp).
  - intros [ca ra ia] [cb rb ib] Ha Hb. cbn.
    destruct (cmp_list _ (ca ++ _) _) as [[]|] eqn:E; cbn; try done. intros E'.
    apply (law_eq _ _ Hz) in E; [|done..]. apply (law_eq _ _ Hp) in E'; [|done..].
    apply app_inj_2 in E as [-> [= ->]]; [|done]. by subst.
  - intros a b c Ha Hb. destruct (cmp_list _ (core a ++ _) _) as [d|] eqn:E; cbn; [|done].
    rewrite (law_opp _ _ Hz _ _ d) by done. destruct d; cbn; [|by intros [= <-]..].
    by apply (law_opp _ _ Hp).
  - intros a b c Ha Hb Hc.
    destruct (cmp_list _ (core a ++ _) _) as [[]|] eqn:E1; cbn; try done.
    + apply (law_eq _ _ Hz) in E1 as ->; [|done..].
      destruct (cmp_list _ (core b ++ _) _) as [[]|] eqn:E2; cbn; try done.
      by apply (law_trans _ _ Hp).
    + intros _. destruct (cmp_list _ (core b ++ _) _) as [[]|] eqn:E2; cbn; try done.
      * apply (law_eq _ _ Hz) in E2 as <-; [|done..]. by rewrite E1.
      * by rewrite (law_trans _ _ Hz _ _ _ (Htt _) (Htt _) (Htt _) E1 E2).
Qed.

(** ** Ranges *)

Lemma holds_convex operator a b c t x y z : semver_ok a → semver_ok b → semver_ok c →
  semver_ok t →
  cmp_semver a t = Ok x → cmp_semver b t = Ok y → cmp_semver c t = Ok z →
  cmp_semver a b ≠ Ok Gt → cmp_semver b c ≠ Ok Gt →
  holds operator x = true → holds operator z = true → holds operator y = true.
Proof.
  pose proof cmp_semver_lawful as L. intros Ha Hb Hc Ht Hx Hy Hz Hab Hbc.
  destruct (law_total _ _ L a b Ha Hb) as [p Hp], (law_total _ _ L b c Hb Hc) as [q Hq].
  rewrite Hp in Hab. rewrite Hq in Hbc.
  destruct p; [apply (law_eq _ _ L) in Hp as <-; [|done..]; by replace y with x by congruence| |done].
  destruct q; [apply (law_eq _ _ L) in Hq as ->; [|done..]; by replace y with z by congruence| |done].
  intros Hhx Hhz. destruct y.
  - apply (law_eq _ _ L) in Hy as ->; [|done..]. apply (law_opp _ _ L) in Hq; [|done..].
    rewrite Hp in Hx. rewrite Hq in Hz. injection Hx as <-. injection Hz as <-.
    cbn [holds CompOpp] in *. bool_hyps. set_solver.
  - assert (cmp_semver a t = Ok Lt) by (by apply (law_trans _ _ L a b t)).
    by replace x with Lt in Hhx by congruence.
  - apply (law_opp _ _ L) in Hy; [|done..]. cbn [CompOpp] in Hy.
    pose proof (law_trans _ _ L t b c Ht Hb Hc Hy Hq) as H.
    apply (law_opp _ _ L) in H; [|done..]. cbn [CompOpp] in H.
    by replace z with Gt in Hhz by congruence.
Qed.

Lemma compare_versions_le a b ka kb n :
  semver_key a = Ok ka → semver_key b = Ok kb →
  compare_versions a b = Ok n → n <= 0 → cmp_semver ka kb ≠ Ok Gt.
Proof.
  unfold compare_versions. intros -> -> H Hn. cbn in H. inv_ok.
  intros E. rewrite E in Hx. injection Hx as <-. lia.
Qed.

Lemma version_key version :
  ∀ n other, compare_versions version other = Ok n ∨ compare_versions other version = Ok n →
  ∃ k, semver_key version = Ok k.
Proof. unfold compare_versions. intros n other [H|H]; inv_ok; eauto. Qed.

Lemma satisfies_one_convex item a b c m n :
  matched SEMVER b = true →
  compare_versions a b = Ok m → m <= 0 → compare_versions b c = Ok n → n <= 0 →
  version_satisfies_one item a = Ok true → version_satisfies_one item c = Ok true →
  version_satisfies_one item b = Ok true.
Proof.
  intros Hb Hab Hm Hbc Hn. unfold version_satisfies_one.
  destruct (spec_item item) as [[op target]|]; [|done]. rewrite Hb.
  destruct (version_key a m b) as [ka Ka]; [by left|].
  destruct (version_key b m a) as [kb Kb]; [by right|].
  destruct (version_key c n b) as [kc Kc]; [by right|].
  apply semver_key_ok in Ka as Oa, Kb as Ob, Kc as Oc.
  pose proof (compare_versions_le _ _ _ _ _ Ka Kb Hab Hm) as Hle1.
  pose proof (compare_versions_le _ _ _ _ _ Kb Kc Hbc Hn) as Hle2.
  rewrite Ka, Kb, Kc. clear Ka Kb Kc.
  destruct (matched SEMVER a); [|done]. destruct (matched SEMVER c); [|done].
  cbn [negb raise_if mbind res_bind]. case_bool_decide; [done|].
  destruct (semver_key target) as [kt|] eqn:Kt; [|done]. apply semver_key_ok in Kt.
  cbn [mbind res_bind].
  destruct (law_total _ _ cmp_semver_lawful ka kt) as [x Hx]; [done..|].
  destruct (law_total _ _ cmp_semver_lawful kb kt) as [y Hy]; [done..|].
  destruct (law_total _ _ cmp_semver_lawful kc kt) as [z Hz]; [done..|].
  rewrite Hx, Hy, Hz. cbn [mbind res_bind]. intros [= Ha] [= Hc]. f_equal.
  by eapply (holds_convex _ ka kb kc kt).
Qed.

(** ** Semantic versions have a key

    What the pattern of a version accepts, [semver_key] can read. *)

Section positions.
Context (u : unicode) (s : text).

Lemma star_cls_range f i j : matches u s (Star (Cls f)) i j →
  ∀ k, (i <= k < j)%nat → ∃ c, s !! k = Some c ∧ f c = true.
Proof.
  intros H%star_rtc. induction H as [i|i m j Him Hmj IH]; intros k Hk; [lia|].
  inversion Him as [|? ? c Hc Hf| | | | | |]; subst.
  destruct (decide (k = i)) as [->|]; [eauto|]. apply IH. lia.
Qed.

Lemma plus_cls_range f i j : matches u s (Plus (Cls f)) i j →
  (i < j)%nat ∧ ∀ k, (i <= k < j)%nat → ∃ c, s !! k = Some c ∧ f c = true.
Proof.
  intros H. inversion H as [| |? ? ? m ? H1 H2| | | | |]; subst.
  inversion H1 as [|? ? c Hc Hf| | | | | |]; subst.
  pose proof (matches_range _ _ _ _ _ H2). split; [lia|]. intros k Hk.
  destruct (decide (k = i)) as [->|]; [eauto|]. eapply star_cls_range; [done|lia].
Qed.

Lemma chr_at c i j : matches u s (Chr c) i j → j = S i ∧ s !! i = Some (ord c).
Proof.
  intros H. inversion H as [|? ? d Hd Hf| | | | | |]; subst. split; [done|].
  apply Z.eqb_eq in Hf. by subst.
Qed.
End positions.

(** The characters between two positions. *)
Lemma chars_between (l : list ascii) i j f :
  (i <= j <= length l)%nat → (∀ k, (i <= k < j)%nat → ∃ n, (ord <$> l) !! k = Some n ∧ f n = true) →
  ∃ w, drop i l = w ++ drop j l ∧ length w = (j - i)%nat ∧ Forall (fun c => f (ord c) = true) w.
Proof.
  intros Hij Hf. exists (take (j - i) (drop i l)). split_and!.
  - rewrite <- (take_drop (j - i) (drop i l)) at 1. rewrite drop_drop. do 2 f_equal. lia.
  - rewrite length_take, length_drop. lia.
  - apply Forall_forall. intros c (k & Hk)%list_elem_of_lookup.
    apply lookup_take_Some in Hk as [Hk Hlt]. rewrite lookup_drop in Hk.
    destruct (Hf (i + k)%nat ltac:(lia)) as (n & Hn & Hfn).
    rewrite list_lookup_fmap, Hk in Hn. cbn in Hn. by injection Hn as <-.
Qed.

Lemma digit_ord c : cp_digit latin (ord c) = is_digit c.
Proof.
  unfold cp_digit, cp_in, is_digit. cbn. by rewrite andb_false_r, orb_false_r.
Qed.

Lemma ord_inj c d : ord c = ord d → c = d.
Proof. intros H. rewrite <- (chr_ord c), <- (chr_ord d). by rewrite H. Qed.

Definition digits (w : list ascii) : Prop := w ≠ [] ∧ Forall (fun c => is_digit c = true) w.

(** The shape of a semantic version. *)
Lemma semver_shape v : matched SEMVER v = true → ∃ a b c rest,
  chars v = a ++ "."%char :: b ++ "."%char :: c ++ rest ∧ digits a ∧ digits b ∧ digits c ∧
  (rest = [] ∨ ∃ t, rest = "-"%char :: t).
Proof.
  unfold matched. rewrite fullmatch_spec. unfold text_of. rewrite length_fmap.
  set (l := chars v). intros H.
  assert (Hpart : ∀ i j, matches latin (ord <$> l) (Plus digit_re) i j → (j <= length l)%nat →
    ∃ w, drop i l = w ++ drop j l ∧ digits w).
  { intros i j Hm Hj. unfold digit_re in Hm. apply plus_cls_range in Hm as [Hlt Hf].
    destruct (chars_between l i j _ ltac:(lia) Hf) as (w & Hw & Hl & Hd). exists w.
    split; [done|]. split; [intros ->; cbn in Hl; lia|].
    eapply Forall_impl; [exact Hd|]. intros c. cbv beta. by rewrite digit_ord. }
  assert (Hchr : ∀ c i, (ord <$> l) !! i = Some (ord c) → drop i l = c :: drop (S i) l).
  { intros c i Hi. rewrite list_lookup_fmap in Hi. destruct (l !! i) as [d|] eqn:Ed; [|done].
    cbn in Hi. injection Hi as Hi%ord_inj. subst. by apply drop_S. }
  inversion H as [| |? ? ? i1 ? M1 H1| | | | |]; subst.
  inversion H1 as [| |? ? ? i2 ? M2 H2| | | | |]; subst.
  inversion H2 as [| |? ? ? i3 ? M3 H3| | | | |]; subst.
  inversion H3 as [| |? ? ? i4 ? M4 H4| | | | |]; subst.
  inversion H4 as [| |? ? ? i5 ? M5 H5| | | | |]; subst. clear H H1 H2 H3 H4.
  pose proof (matches_range _ _ _ _ _ H5) as R5. rewrite length_fmap in R5.
  assert (L5 : (i5 <= length l)%nat) by lia.
  pose proof (matches_range _ _ _ _ _ M5). pose proof (matches_range _ _ _ _ _ M4).
  pose proof (matches_range _ _ _ _ _ M3). pose proof (matches_range _ _ _ _ _ M2).
  apply chr_at in M2 as [-> C2], M4 as [-> C4].
  destruct (Hpart _ _ M1 ltac:(lia)) as (a & Ea & Da).
  destruct (Hpart _ _ M3 ltac:(lia)) as (b & Eb & Db).
  destruct (Hpart _ _ M5 L5) as (c & Ec & Dc).
  exists a, b, c, (drop i5 l). rewrite drop_0 in Ea.
  rewrite (Hchr _ _ C2), Eb, (Hchr _ _ C4), Ec in Ea. split_and!; try done. clear Ea.
  inversion H5 as [| | |? ? ? ? HE|? ? ? ? HT| | |]; subst.
  - left. inversion HE; subst. apply drop_all.
  - right. inversion HT as [| |? ? ? i6 ? M6 H6| | | | |]; subst.
    apply chr_at in M6 as [-> C6]. eauto.
Qed.

(** Reading the parts back. *)
Lemma before_stop c l t : c ∉ l → before c (of_chars (l ++ c :: t)) = of_chars l.
Proof.
  induction l as [|d l IH]; cbn; intros Hc.
  - by rewrite bool_decide_true.
  - rewrite bool_decide_false by set_solver. by rewrite IH by set_solver.
Qed.

Lemma before_none c l : c ∉ l → before c (of_chars l) = of_chars l.
Proof.
  induction l as [|d l IH]; cbn; intros Hc; [done|].
  rewrite bool_decide_false by set_solver. by rewrite IH by set_solver.
Qed.

Lemma split_when_stop sep l c t acc : Forall (fun d => sep d = false) l → sep c = true →
  split_when sep (l ++ c :: t) acc = of_chars (rev acc ++ l) :: split_when sep t [].
Proof.
  intros Hl Hc. revert acc. induction Hl as [|d l Hd Hl IH]; intros acc; cbn.
  - by rewrite Hc, app_nil_r.
  - rewrite Hd, IH. cbn. by rewrite <- app_assoc.
Qed.

Lemma split_when_end sep l acc : Forall (fun d => sep d = false) l →
  split_when sep l acc = [of_chars (rev acc ++ l)].
Proof.
  intros Hl. revert acc. induction Hl as [|d l Hd Hl IH]; intros acc; cbn.
  - by rewrite app_nil_r.
  - rewrite Hd, IH. cbn. by rewrite <- app_assoc.
Qed.

Lemma parse_digits w : digits w → ∃ n, parse_int (of_chars w) = Ok n.
Proof.
  intros [Hne Hd]. unfold parse_int. rewrite chars_of_chars.
  assert (∀ acc, ∃ n, int_of_digits w acc = Some n) as Hi.
  { clear Hne. induction Hd as [|c w Hc Hd IH]; intros acc; cbn; [eauto|]. by rewrite Hc. }
  destruct w as [|c w]; [done|]. destruct (Hi 0) as [n ->]. eauto.
Qed.

Lemma identifier_key_total item : ∃ k, identifier_key item = Ok k.
Proof.
  unfold identifier_key. destruct (_ && _) eqn:E; [|eauto]. bool_hyps.
  destruct (parse_digits (chars item)) as [n Hn].
  - split; [by destruct item|]. apply Forall_forall. intros c Hc. by rewrite all_true in *; eauto.
  - rewrite of_chars_chars in Hn. rewrite Hn. cbn. eauto.
Qed.

Lemma mapM_res_total {A B} (f : A → res B) l :
  (∀ x, x ∈ l → ∃ y, f x = Ok y) → ∃ ys, mapM_res f l = Ok ys.
Proof.
  induction l as [|x l IH]; intros Hf; cbn; [eauto|].
  destruct (Hf x) as [y ->]; [left|]. destruct IH as [ys ->]; [intros; apply Hf; by right|].
  cbn. eauto.
Qed.

Lemma digits_not c w : is_digit c = false → digits w → c ∉ w.
Proof. intros Hc [_ Hd] Hin. rewrite Forall_forall in Hd. apply Hd in Hin. congruence. Qed.

Lemma digits_no_dot w : digits w → Forall (fun d => bool_decide (d = "."%char) = false) w.
Proof.
  intros Hw. apply Forall_forall. intros d Hd. apply bool_decide_false. intros ->.
  by apply (digits_not "." w).
Qed.

Lemma semver_has_key v : matched SEMVER v = true → ∃ k, semver_key v = Ok k.
Proof.
  intros (a & b & c & rest & Hv & Ha & Hb & Hc & Hrest)%semver_shape. unfold semver_key.
  assert (Hbefore : before "-" v = of_chars (a ++ "."%char :: b ++ "."%char :: c)).
  { rewrite <- (of_chars_chars v), Hv.
    pose proof (digits_not "-" _ eq_refl Ha). pose proof (digits_not "-" _ eq_refl Hb).
    pose proof (digits_not "-" _ eq_refl Hc).
    assert (Hd : "-"%char ∉ a ++ "."%char :: b ++ "."%char :: c).
    { rewrite !elem_of_app, !elem_of_cons, !elem_of_app, !elem_of_cons.
      intros [?|[?|[?|[?|?]]]]; done. }
    destruct Hrest as [->|[t ->]].
    - rewrite app_nil_r. by apply before_none.
    - rewrite <- (before_stop "-" (a ++ "."%char :: b ++ "."%char :: c) t) by done.
      repeat rewrite <- ?app_assoc, <- ?app_comm_cons. done. }
  assert (Hsplit : ∀ l, split_on "." (of_chars l) = split_when (fun d => bool_decide (d = "."%char)) l [])
    by (intros l; unfold split_on; by rewrite chars_of_chars).
  rewrite Hbefore, Hsplit, split_when_stop, split_when_stop, split_when_end by (by auto using digits_no_dot).
  cbn [rev app mapM_res].
  destruct (parse_digits a Ha) as [na ->], (parse_digits b Hb) as [nb ->],
    (parse_digits c Hc) as [nc ->].
  cbn [mbind res_bind mret res_ret]. destruct (PyStr.empty _); [eauto|].
  destruct (mapM_res_total identifier_key (split_on "." (after "-" v))) as [ids ->];
    [intros; apply identifier_key_total|]. cbn. eauto.
Qed.

Lemma compare_versions_total a b : (∃ k, semver_key a = Ok k) → (∃ k, semver_key b = Ok k) →
  ∃ n, compare_versions a b = Ok n.
Proof.
  intros [ka Ha] [kb Hb]. unfold compare_versions. rewrite Ha, Hb. cbn [mbind res_bind].
  destruct (law_total _ _ cmp_semver_lawful ka kb) as [c ->]; eauto using semver_key_ok.
Qed.

Theorem satisfying_versions_convex spec a b c m n :
  matched SEMVER b = true →
  compare_versions a b = Ok m → m <= 0 → compare_versions b c = Ok n → n <= 0 →
  version_satisfies spec a = Ok true → version_satisfies spec c = Ok true →
  version_satisfies spec b = Ok true.
Proof.
  intros Hb Hab Hm Hbc Hn. unfold version_satisfies. intros Ha Hc.
  apply then_ok in Ha as [Hr Ha]. rewrite Hr. cbn [mbind res_bind].
  apply then_ok in Hc as [_ Hc].
  apply bind_ok in Ha as (ra & Ha%mapM_res_ok & [= Hta]).
  apply bind_ok in Hc as (rc & Hc%mapM_res_ok & [= Htc]).
  enough (∃ rb, mapM_res (fun item => version_satisfies_one item b) (split_space spec) = Ok rb ∧
    all id rb = true) as (rb & -> & Hrb) by (cbn; by rewrite Hrb).
  clear Hr. revert rc Hc Htc. induction Ha as [|item ra0 l ra Hia Ha IH]; intros rc Hc Htc.
  { by exists []. }
  inversion Hc as [|? rc0 ? rc' Hic Hc']; subst. cbn in Hta, Htc. bool_hyps.
  destruct (IH ltac:(done) rc' Hc' ltac:(done)) as (rb & Eb & Hrb).
  exists (true :: rb). unfold id in *. subst.
  split; [|done]. cbn [mapM_res].
  rewrite (satisfies_one_convex item a b c m n) by done. cbn [mbind res_bind]. by rewrite Eb.
Qed.

Lemma satisfying_versions_convex_witness :
  version_satisfies ">=1.2.0 <2.0.0" "1.9.0" = Ok true ∧
  version_satisfies ">=1.2.0 <2.0.0" "1.10.0-rc.2" = Ok true.
Proof.
  split; [vm_compute; reflexivity|].
  apply (satisfying_versions_convex ">=1.2.0 <2.0.0" "1.9.0" "1.10.0-rc.2" "1.11.0" (-1) (-1));
    vm_compute; congruence.
Defined.

(** ** A stored manifest is read back *)

Lemma require_identifier_ok value field s :
  require_identifier value field = Ok s ↔ value = Some (JStr s) ∧ matched IDENTIFIER s = true.
Proof.
  unfold require_identifier. split.
  - intros H. destruct value as [[]|]; inv_ok. by bool_hyps.
  - intros [-> Hm]. by rewrite Hm.
Qed.

Lemma require_string_list_ok value field l : require_string_list value field = Ok l →
  require_string_list (Some (str_list l)) field = Ok l.
Proof.
  unfold require_string_list. intros H. destruct value as [[]|]; inv_ok.
  assert (mapM_res (fun item => require_identifier (Some item) field) (JStr <$> l) = Ok l) as Hm.
  { apply mapM_res_ok in Hx. apply mapM_res_ok, Forall2_fmap_l.
    clear Hx0. induction Hx as [|x y xs ys Hxy _ IH]; constructor; [|done].
    apply require_identifier_ok in Hxy as [_ Hy]. by apply require_identifier_ok. }
  unfold str_list. rewrite Hm. cbn [mbind res_bind]. by rewrite Hx0.
Qed.

Definition optional_ok (p : re) (value : option string) : Prop :=
  match value with Some s => matched p s = true | None => True end.

Lemma optional_matching_ok p value message v :
  optional_matching p value message = Ok v → optional_ok p v.
Proof.
  unfold optional_matching. intros H. destruct value as [[]|]; inv_ok; try done.
  cbn. by apply negb_false_iff in Hx.
Qed.

Lemma optional_matching_again p v message : optional_ok p v →
  optional_matching p (JStr <$> v) message = Ok v.
Proof. destruct v as [s|]; [|done]. cbn. intros H. by rewrite H. Qed.

Section manifest_round_trip.
Context (check_schema : list (string * json) → res unit).

Lemma parse_dependency_ok item d : parse_dependency item = Ok d →
  parse_dependency (JDict [("pack_id", JStr (PackDependency.pack_id d));
                           ("version_spec", JStr (PackDependency.version_spec d))]) = Ok d.
Proof.
  unfold parse_dependency. destruct item as [| | | | | |m]; try done.
  destruct (alist_get "version_spec" m) as [[]|]; try done. intros H. inv_ok.
  apply require_identifier_ok in Hx as [_ Hx].
  pose proof H as Hd. unfold PackDependency.new in H. inv_ok.
  cbn [alist_get PackDependency.pack_id PackDependency.version_spec]. cbn.
  rewrite (proj2 (require_identifier_ok (Some (JStr x)) _ x)) by done. exact Hd.
Qed.

Lemma parse_budget_ok value n : parse_budget value = Ok n → parse_budget (Some (JInt n)) = Ok n.
Proof.
  unfold parse_budget. intros H. destruct value as [[| | | | | |]|]; try done; by inv_ok; rewrite Hx.
Qed.

Lemma parse_goal_type_ok item g : parse_goal_type check_schema item = Ok g →
  parse_goal_type check_schema (goal_type_payload g) = Ok g.
Proof.
  unfold parse_goal_type at 1. destruct item as [| | | | | |m]; try done. intros H.
  apply bind_ok in H as ([] & _ & H).
  destruct (alist_get "input_schema" m) as [[| | | | | |schema]|]; try done.
  apply bind_ok in H as ([] & Hs & H). apply bind_ok in H as (budget & Hb & H).
  apply bind_ok in H as (gt & [_ Hg]%require_identifier_ok & H).
  apply bind_ok in H as (agent & [_ Ha]%require_identifier_ok & H).
  apply bind_ok in H as (suite & [_ Hu]%require_identifier_ok & H).
  apply bind_ok in H as (policy & [_ Hp]%require_identifier_ok & H). injection H as <-.
  unfold goal_type_payload. cbn [GoalTypeManifest.goal_type GoalTypeManifest.input_schema
    GoalTypeManifest.agent GoalTypeManifest.evaluation_suite GoalTypeManifest.default_policy
    GoalTypeManifest.default_budget].
  unfold parse_goal_type. cbn [fmap list_fmap fst].
  change (subset_of _ goal_type_fields && _) with true. cbn [negb raise_if mbind res_bind].
  change (alist_get "input_schema" _) with (Some (JDict schema)). cbv iota. rewrite Hs.
  cbn [mbind res_bind]. change (alist_get "default_budget" _) with (Some (JInt budget)).
  rewrite (parse_budget_ok _ _ Hb). cbn [mbind res_bind].
  change (alist_get "goal_type" _) with (Some (JStr gt)).
  change (alist_get "agent" _) with (Some (JStr agent)).
  change (alist_get "evaluation_suite" _) with (Some (JStr suite)).
  change (alist_get "default_policy" _) with (Some (JStr policy)).
  unfold require_identifier. rewrite Hg, Ha, Hu, Hp. done.
Qed.

Lemma mapM_again {A B} (f : A → res B) (g : B → A) l ys :
  (∀ x y, f x = Ok y → f (g y) = Ok y) → mapM_res f l = Ok ys → mapM_res f (g <$> ys) = Ok ys.
Proof.
  intros Hf H. apply mapM_res_ok in H. apply mapM_res_ok, Forall2_fmap_l.
  induction H; constructor; eauto.
Qed.

(** [alist_get] of an optional member, and of what follows it. *)
Lemma alist_get_optional name key value l :
  alist_get key (optional_item name value ++ l) =
    if bool_decide (key = name) then
      match value with Some s => Some (JStr s) | None => alist_get key l end
    else alist_get key l.
Proof.
  destruct (decide (key = name)) as [->|Hne].
  - rewrite bool_decide_true by done. destruct value; [|done].
    cbn [optional_item app alist_get]. by rewrite decide_True.
  - rewrite bool_decide_false by done. destruct value; [|done].
    cbn [optional_item app alist_get]. by rewrite decide_False.
Qed.

(** What a parsed manifest has passed. *)
Record manifest_ok (m : CapabilityPackManifest.t) : Prop := {
  ok_api : CapabilityPackManifest.api_version m = "autonoesis/v1alpha1";
  ok_version : matched SEMVER (CapabilityPackManifest.version m) = true;
  ok_entry : matched ENTRY_POINT (CapabilityPackManifest.python_entry_point m) = true;
  ok_pack : matched IDENTIFIER (CapabilityPackManifest.pack_id m) = true;
  ok_root : module_root (CapabilityPackManifest.python_entry_point m) =
    dash_to_underscore (CapabilityPackManifest.pack_id m);
  ok_subject : optional_ok ENTRY_POINT (CapabilityPackManifest.evaluation_subject m);
  ok_subject_root : ∀ s, CapabilityPackManifest.evaluation_subject m = Some s →
    module_root s = dash_to_underscore (CapabilityPackManifest.pack_id m);
  ok_uri : optional_ok ARTIFACT_URI (CapabilityPackManifest.artifact_uri m);
  ok_digest : optional_ok SHA256_HEX (CapabilityPackManifest.artifact_digest m);
  ok_signature : optional_ok SIGNATURE_HEX (CapabilityPackManifest.signature m);
  ok_sbom : optional_ok ARTIFACT_URI (CapabilityPackManifest.sbom_ref m);
  ok_sbom_digest : optional_ok SHA256_HEX (CapabilityPackManifest.sbom_digest m);
  ok_dependencies : mapM_res parse_dependency ((fun d => JDict
    [("pack_id", JStr (PackDependency.pack_id d)); ("version_spec", JStr (PackDependency.version_spec d))])
      <$> CapabilityPackManifest.dependencies m) = Ok (CapabilityPackManifest.dependencies m);
  ok_dependency_ids : unique (PackDependency.pack_id <$> CapabilityPackManifest.dependencies m) = true;
  ok_goal_types : mapM_res (parse_goal_type check_schema)
    (goal_type_payload <$> CapabilityPackManifest.goal_types m) = Ok (CapabilityPackManifest.goal_types m);
  ok_some_goal : CapabilityPackManifest.goal_types m ≠ [];
  ok_goal_ids : unique (GoalTypeManifest.goal_type <$> CapabilityPackManifest.goal_types m) = true;
  ok_skills : require_string_list (Some (str_list (CapabilityPackManifest.skills m))) "skills" =
    Ok (CapabilityPackManifest.skills m);
  ok_tools : require_string_list (Some (str_list (CapabilityPackManifest.tools m))) "tools" =
    Ok (CapabilityPackManifest.tools m);
  ok_policies : require_string_list (Some (str_list (CapabilityPackManifest.policies m))) "policies" =
    Ok (CapabilityPackManifest.policies m);
  ok_suites : require_string_list (Some (str_list (CapabilityPackManifest.evaluation_suites m)))
    "evaluation_suites" = Ok (CapabilityPackManifest.evaluation_suites m)
}.

Lemma parse_manifest_ok raw m : parse_manifest check_schema raw = Ok m → manifest_ok m.
Proof.
  unfold parse_manifest. cbv zeta. intros H.
  apply bind_ok in H as ([] & _ & H). apply bind_ok in H as ([] & _ & H).
  apply bind_ok in H as (version & Hversion & H). apply bind_ok in H as (entry & Hentry & H).
  apply bind_ok in H as (pack_id & [_ Hpack]%require_identifier_ok & H).
  apply bind_ok in H as ([] & Hroot & H).
  apply bind_ok in H as (subject & Hsubject%optional_matching_ok & H).
  apply bind_ok in H as ([] & Hsroot & H).
  apply bind_ok in H as (uri & Huri%optional_matching_ok & H).
  apply bind_ok in H as (digest & Hdigest%optional_matching_ok & H).
  apply bind_ok in H as (signature & Hsig%optional_matching_ok & H).
  apply bind_ok in H as (sbom & Hsbom%optional_matching_ok & H).
  apply bind_ok in H as (sbom_digest & Hsd%optional_matching_ok & H).
  apply bind_ok in H as (deps & Hdeps & H). apply bind_ok in H as ([] & Hdu & H).
  apply bind_ok in H as (goals & Hgoals & H). apply bind_ok in H as ([] & Hgu & H).
  apply bind_ok in H as (skills & Hskills%require_string_list_ok & H).
  apply bind_ok in H as (tools & Htools%require_string_list_ok & H).
  apply bind_ok in H as (policies & Hpol%require_string_list_ok & H).
  apply bind_ok in H as (suites & Hsuites%require_string_list_ok & H). injection H as <-.
  apply raise_if_ok in Hroot, Hsroot, Hdu, Hgu. apply negb_false_iff in Hroot, Hdu, Hgu.
  apply bool_decide_eq_true in Hroot.
  constructor; cbn [CapabilityPackManifest.api_version CapabilityPackManifest.version
    CapabilityPackManifest.python_entry_point CapabilityPackManifest.pack_id
    CapabilityPackManifest.evaluation_subject CapabilityPackManifest.artifact_uri
    CapabilityPackManifest.artifact_digest CapabilityPackManifest.signature
    CapabilityPackManifest.sbom_ref CapabilityPackManifest.sbom_digest
    CapabilityPackManifest.dependencies CapabilityPackManifest.goal_types
    CapabilityPackManifest.skills CapabilityPackManifest.tools CapabilityPackManifest.policies
    CapabilityPackManifest.evaluation_suites]; try assumption.
  - done.
  - destruct (alist_get "version" raw) as [[]|]; try discriminate Hversion.
    destruct (matched SEMVER _) eqn:E; [|discriminate Hversion]. by injection Hversion as <-.
  - destruct (alist_get "python_entry_point" raw) as [[]|]; try discriminate Hentry.
    destruct (matched ENTRY_POINT _) eqn:E; [|discriminate Hentry]. by injection Hentry as <-.
  - intros s ->. by apply negb_false_iff, bool_decide_eq_true in Hsroot.
  - destruct (alist_get "dependencies" raw) as [[]|]; try discriminate Hdeps.
    + by eapply mapM_again; [apply parse_dependency_ok|].
    + by injection Hdeps as <-.
  - destruct (alist_get "goal_types" raw) as [[| | | | |[|g l]|]|]; try discriminate Hgoals.
    by eapply mapM_again; [apply parse_goal_type_ok|].
  - intros ->. destruct (alist_get "goal_types" raw) as [[| | | | |[|g l]|]|]; try discriminate Hgoals.
    apply mapM_res_ok in Hgoals. inversion Hgoals.
Qed.

(** The names of a payload are allowed, and none is missing. *)
Lemma payload_names m : negb (subset_of ((manifest_payload m).*1) allowed_fields) ||
  negb (subset_of required_fields ((manifest_payload m).*1)) = false.
Proof.
  destruct m as [? ? ? ? ? ? ? ? ? subject uri digest signature sbom sbom_digest ?].
  destruct subject, uri, digest, signature, sbom, sbom_digest; vm_compute; reflexivity.
Qed.

(** The optional members are there when they have a value. *)
Lemma payload_optional m :
  alist_get "evaluation_subject" (manifest_payload m) =
    JStr <$> CapabilityPackManifest.evaluation_subject m ∧
  alist_get "artifact_uri" (manifest_payload m) = JStr <$> CapabilityPackManifest.artifact_uri m ∧
  alist_get "artifact_digest" (manifest_payload m) = JStr <$> CapabilityPackManifest.artifact_digest m ∧
  alist_get "signature" (manifest_payload m) = JStr <$> CapabilityPackManifest.signature m ∧
  alist_get "sbom_ref" (manifest_payload m) = JStr <$> CapabilityPackManifest.sbom_ref m ∧
  alist_get "sbom_digest" (manifest_payload m) = JStr <$> CapabilityPackManifest.sbom_digest m.
Proof.
  destruct m as [? ? ? ? ? ? ? ? ? subject uri digest signature sbom sbom_digest ?].
  unfold manifest_payload. cbn [CapabilityPackManifest.evaluation_subject
    CapabilityPackManifest.artifact_uri CapabilityPackManifest.artifact_digest
    CapabilityPackManifest.signature CapabilityPackManifest.sbom_ref CapabilityPackManifest.sbom_digest].
  destruct subject, uri, digest, signature, sbom, sbom_digest; split_and!; reflexivity.
Qed.

#[local] Opaque matched SEMVER ENTRY_POINT IDENTIFIER ARTIFACT_URI SHA256_HEX SIGNATURE_HEX.

(** The payload a manifest is stored as is read back as the same manifest. *)
(** C24. The payload a parsed manifest is stored as is parsed back as the same
    manifest, goal types, dependencies and optional members included. *)
Theorem manifest_round_trip raw m : parse_manifest check_schema raw = Ok m →
  parse_manifest check_schema (manifest_payload m) = Ok m.
Proof.
  intros Hm%parse_manifest_ok. unfold parse_manifest. rewrite payload_names. cbv zeta.
  destruct (payload_optional m) as (-> & -> & -> & -> & -> & ->).
  change (alist_get "api_version" _) with (Some (JStr (CapabilityPackManifest.api_version m))).
  change (alist_get "version" _) with (Some (JStr (CapabilityPackManifest.version m))).
  change (alist_get "python_entry_point" _) with
    (Some (JStr (CapabilityPackManifest.python_entry_point m))).
  change (alist_get "pack_id" _) with (Some (JStr (CapabilityPackManifest.pack_id m))).
  change (alist_get "skills" _) with (Some (str_list (CapabilityPackManifest.skills m))).
  change (alist_get "tools" _) with (Some (str_list (CapabilityPackManifest.tools m))).
  change (alist_get "policies" _) with (Some (str_list (CapabilityPackManifest.policies m))).
  change (alist_get "evaluation_suites" _) with
    (Some (str_list (CapabilityPackManifest.evaluation_suites m))).
  change (alist_get "goal_types" _) with
    (Some (JList (goal_type_payload <$> CapabilityPackManifest.goal_types m))).
  change (alist_get "dependencies" _) with (Some (JList ((fun d => JDict
    [("pack_id", JStr (PackDependency.pack_id d)); ("version_spec", JStr (PackDependency.version_spec d))])
      <$> CapabilityPackManifest.dependencies m))).
  destruct Hm. rewrite ok_api0, bool_decide_true by done. cbn [negb raise_if mbind res_bind].
  rewrite ok_version0. cbn [mbind res_bind]. rewrite ok_entry0. cbn [mbind res_bind].
  rewrite (proj2 (require_identifier_ok _ _ _) (conj eq_refl ok_pack0)). cbn [mbind res_bind].
  rewrite (bool_decide_true (module_root _ = _)) by done. cbn [negb raise_if mbind res_bind].
  rewrite (optional_matching_again _ _ _ ok_subject0). cbn [mbind res_bind].
  assert (match CapabilityPackManifest.evaluation_subject m with
          | Some s => negb (bool_decide (module_root s =
                        dash_to_underscore (CapabilityPackManifest.pack_id m)))
          | None => false
          end = false) as ->.
  { destruct (CapabilityPackManifest.evaluation_subject m) as [s|] eqn:E; [|done].
    by rewrite bool_decide_true by auto. }
  cbn [raise_if mbind res_bind].
  rewrite (optional_matching_again _ _ _ ok_uri0). cbn [mbind res_bind].
  rewrite (optional_matching_again _ _ _ ok_digest0). cbn [mbind res_bind].
  rewrite (optional_matching_again _ _ _ ok_signature0). cbn [mbind res_bind].
  rewrite (optional_matching_again _ _ _ ok_sbom0). cbn [mbind res_bind].
  rewrite (optional_matching_again _ _ _ ok_sbom_digest0). cbn [mbind res_bind].
  rewrite ok_dependencies0. cbn [mbind res_bind]. rewrite ok_dependency_ids0.
  cbn [negb raise_if mbind res_bind].
  destruct (CapabilityPackManifest.goal_types m) as [|g gs] eqn:Eg; [done|].
  rewrite fmap_cons in ok_goal_types0 |- *. cbv iota. rewrite ok_goal_types0.
  cbn [mbind res_bind]. rewrite ok_goal_ids0. cbn [negb raise_if mbind res_bind].
  rewrite ok_skills0. cbn [mbind res_bind]. rewrite ok_tools0. cbn [mbind res_bind].
  rewrite ok_policies0. cbn [mbind res_bind]. rewrite ok_suites0. cbn [mbind res_bind].
  rewrite <- ok_api0, <- Eg. by destruct m.
Qed.
End manifest_round_trip.

(** A manifest with two goal types, a dependency and a signature. *)
Definition sample_goal_type (name : string) : json := JDict [
  ("goal_type", JStr name); ("input_schema", JDict [("type", JStr "object")]);
  ("agent", JStr "billing-agent"); ("evaluation_suite", JStr "billing-suite");
  ("default_policy", JStr "billing-policy"); ("default_budget", JInt 5)].

Definition sample_manifest : list (string * json) := [
  ("api_version", JStr "autonoesis/v1alpha1"); ("pack_id", JStr "billing-pack");
  ("version", JStr "1.2.0-rc.1"); ("python_entry_point", JStr "billing_pack.main:load");
  ("goal_types", JList [sample_goal_type "refund"; sample_goal_type "invoice"]);
  ("skills", JList [JStr "ledger"]); ("tools", JList []); ("policies", JList [JStr "billing-policy"]);
  ("evaluation_suites", JList [JStr "billing-suite"]);
  ("dependencies", JList [JDict [("version_spec", JStr ">=1.0.0 <2.0.0"); ("pack_id", JStr "base")]]);
  ("signature", JStr (of_chars (repeat "a"%char 128))); ("artifact_uri", JNull)].

Definition sample_parsed : res CapabilityPackManifest.t := parse_manifest (fun _ => Ok tt) sample_manifest.

Lemma sample_parses : match sample_parsed with
  | Ok m => bool_decide (GoalTypeManifest.goal_type <$> CapabilityPackManifest.goal_types m =
                         ["refund"; "invoice"])
  | Err _ => false
  end = true.
Proof. vm_compute. reflexivity. Qed.

Lemma manifest_round_trip_witness : ∃ m, sample_parsed = Ok m ∧
  GoalTypeManifest.goal_type <$> CapabilityPackManifest.goal_types m = ["refund"; "invoice"] ∧
  parse_manifest (fun _ => Ok tt) (manifest_payload m) = Ok m.
Proof.
  pose proof (manifest_round_trip (fun _ => Ok tt) sample_manifest) as H.
  change (parse_manifest (fun _ => Ok tt) sample_manifest) with sample_parsed in H.
  pose proof sample_parses as Hs. destruct sample_parsed as [m|]; [|discriminate Hs].
  exists m. split; [reflexivity|]. apply bool_decide_eq_true in Hs. split; [exact Hs|].
  exact (H m eq_refl).
Defined.
