(* ===== verification/Verification.v ===== *)
(** * packages/application: verification.py

    Evidence admission, the capture saga and the deletion record, and the
    verifier that decides outcomes by re-reading the authority.  The artifact
    store and the read-back are protocols: records of computations over the
    caller's state [S]. *)

From S2P Require Import Prelude PyStr PyDict Json Sha256 Effects Transitions Values Goals.
From S2P Require Import Execution ExecutionObjects Regex.
From Stdlib Require Import ZArith.

Open Scope string_scope.
Open Scope list_scope.
Open Scope Z_scope.

Module EvidenceCaptureStatus.
Inductive t := PENDING | COMMITTED | FAILED.
#[global] Instance t_eq_dec : EqDecision t.
Proof. solve_decision. Defined.
End EvidenceCaptureStatus.

Module EvidenceDeletionStatus.
Inductive t := REQUESTED | RETENTION_BLOCKED | DELETED | FAILED.
#[global] Instance t_eq_dec : EqDecision t.
Proof. solve_decision. Defined.
Definition value (x : t) : string :=
  match x with
  | REQUESTED => "requested" | RETENTION_BLOCKED => "retention_blocked"
  | DELETED => "deleted" | FAILED => "failed"
  end.
End EvidenceDeletionStatus.

Module EvidenceArtifactDescriptor.
Record t := mk {
  tenant_id : uuid;
  evidence_id : uuid;
  artifact_uri : string;
  content_digest : string;
  classification : DataClassification.t;
  size_bytes : Z;
  retained_until : datetime;
  version_id : option string
}.
End EvidenceArtifactDescriptor.

(** The content is a list of bytes. *)
Module AuthoritativeObservation.
Record t := mk {
  source : string;
  source_identity : string;
  reference : string;
  observed_state : string;
  content : list Z;
  criterion_met : option bool;
  captured_at : datetime;
  valid_until : datetime
}.

Definition post_init (o : t) : res unit :=
  raise_if (any blank [source o; source_identity o; reference o; observed_state o]) ValueError
    "authoritative observation identity and state must not be empty" ;;
  raise_if (is_naive (captured_at o) || is_naive (valid_until o)) ValueError
    "authoritative observation timestamps must be timezone-aware" ;;
  early ← dt_lt (valid_until o) (captured_at o);
  raise_if early ValueError "authoritative observation validity cannot precede capture".

Definition new (o : t) : res t := post_init o ;; Ok o.

Definition content_digest (o : t) : string := hexdigest (content o).
End AuthoritativeObservation.

Module OutcomeVerificationDecision.
Record t := mk {
  status : OutcomeStatus.t; verifier_version : string; verified_at : datetime
}.
End OutcomeVerificationDecision.

(** The [definition] dictionary of a capture saga, whose keys the application
    fixes. *)
Module CaptureDefinition.
Record t := mk {
  source : string;
  source_identity : string;
  source_reference : string;
  observed_state : string;
  captured_at : string;
  valid_until : string;
  retained_until : string;
  classification : string;
  size_bytes : Z;
  content_type : string;
  subject_refs : list SubjectRef.t
}.
#[global] Instance t_eq_dec : EqDecision t.
Proof. solve_decision. Defined.
End CaptureDefinition.

Module EvidenceCaptureSaga.
Record t := mk {
  tenant_id : uuid;
  evidence_id : uuid;
  run_id : uuid;
  action_id : uuid;
  criterion_id : string;
  source : string;
  artifact_uri : string;
  expected_digest : string;
  definition : CaptureDefinition.t;
  status : EvidenceCaptureStatus.t;
  failure_reason : option string
}.
#[global] Instance eta : Settable t := fun x =>
  mk (tenant_id x) (evidence_id x) (run_id x) (action_id x) (criterion_id x) (source x)
     (artifact_uri x) (expected_digest x) (definition x) (status x) (failure_reason x).
#[global] Instance t_eq_dec : EqDecision t.
Proof. solve_decision. Defined.
End EvidenceCaptureSaga.

Module EvidenceDeletionRecord.
Record t := mk {
  tenant_id : uuid;
  evidence_id : uuid;
  artifact_uri : string;
  requested_by : uuid;
  reason : string;
  requested_at : datetime;
  status : EvidenceDeletionStatus.t;
  deleted_at : option datetime;
  provider_version_id : option string;
  proof_digest : option string;
  failure_reason : option string
}.
#[global] Instance eta : Settable t := fun x =>
  mk (tenant_id x) (evidence_id x) (artifact_uri x) (requested_by x) (reason x) (requested_at x)
     (status x) (deleted_at x) (provider_version_id x) (proof_digest x) (failure_reason x).
End EvidenceDeletionRecord.

Module ArtifactDeletionReceipt.
Record t := mk {
  deleted_at : datetime; provider_version_id : option string; proof_digest : string
}.
End ArtifactDeletionReceipt.

(** ** Admission *)

Definition ci (s : string) : re := ci_lit (chars s).

Definition PII_PATTERNS (u : unicode) : list re :=
  let d := Cls (cp_digit u) in
  [Seq Boundary (Seq (Times 3 d) (Seq (Chr "-"%char) (Seq (Times 2 d) (Seq (Chr "-"%char)
     (Seq (Times 4 d) Boundary)))));
   Seq Boundary (Seq (Between 13 19 d) Boundary);
   Seq Boundary (Seq (Plus (Cls (fun n => cp_in 65 90 n || cp_in 97 122 n || cp_in 48 57 n ||
                                          OneOf "._%+-" n)))
     (Seq (Chr "@"%char)
     (Seq (Plus (Cls (fun n => cp_in 65 90 n || cp_in 97 122 n || cp_in 48 57 n || OneOf ".-" n)))
     (Seq (Chr "."%char)
     (Seq (Times 2 (Cls (fun n => cp_in 65 90 n || cp_in 97 122 n)))
     (Seq (Star (Cls (fun n => cp_in 65 90 n || cp_in 97 122 n))) Boundary))))))].

Definition SECRET_PATTERNS (u : unicode) : list re :=
  [Seq (Alt (Seq (ci "api") (Seq (Opt (Cls (OneOf "_-"))) (ci "key")))
       (Alt (ci "secret") (Alt (ci "token") (Alt (ci "password") (ci "credential")))))
     (Seq (Star (Cls (cp_space u))) (Seq (Cls (OneOf ":="))
       (Seq (Star (Cls (cp_space u))) (Plus (Cls (fun n => negb (cp_space u n)))))));
   Seq (Str "-----BEGIN ")
     (Seq (Opt (Alt (Str "RSA ") (Alt (Str "EC ") (Str "OPENSSH ")))) (Str "PRIVATE KEY-----"))].

Module EvidenceAdmissionPolicy.
Record t := mk { maximum_bytes : Z; reject_detected_secrets : bool }.

Definition default : t := mk 10485760 true.

Definition RANK (c : DataClassification.t) : Z :=
  match c with
  | DataClassification.PUBLIC => 0 | DataClassification.INTERNAL => 1
  | DataClassification.CONFIDENTIAL => 2 | DataClassification.RESTRICTED => 3
  end.

Definition admit_ (u : unicode) (p : t) (content : list Z) (declared maximum : DataClassification.t)
    (retention_days : Z) : res DataClassification.t :=
  raise_if (bool_decide (content = [])) EvidenceAdmissionRejected
    "evidence content must not be empty" ;;
  raise_if (maximum_bytes p <? Z.of_nat (length content)) EvidenceAdmissionRejected
    "evidence content exceeds the configured size limit" ;;
  raise_if (retention_days <=? 0) EvidenceAdmissionRejected
    "evidence retention must be positive" ;;
  let text := decode_utf8 content in
  detected ←
    (if any (search u text) (SECRET_PATTERNS u) then
       raise_if (reject_detected_secrets p) EvidenceAdmissionRejected
         "evidence content contains a detected secret" ;;
       Ok DataClassification.RESTRICTED
     else if any (search u text) (PII_PATTERNS u) then Ok DataClassification.CONFIDENTIAL
     else Ok DataClassification.INTERNAL);
  let effective := if RANK declared <? RANK detected then detected else declared in
  raise_if (RANK maximum <? RANK effective) EvidenceAdmissionRejected
    "evidence classification exceeds the Goal data policy" ;;
  Ok effective.

Theorem admission_classifies u p content declared maximum days c :
  admit_ u p content declared maximum days = Ok c →
  content ≠ [] ∧ Z.of_nat (length content) <= maximum_bytes p ∧ 0 < days ∧
  RANK declared <= RANK c <= RANK maximum ∧ 1 <= RANK c ∧
  (reject_detected_secrets p = true →
     ∀ r, r ∈ SECRET_PATTERNS u → ¬ ∃ i j, (i <= length (decode_utf8 content))%nat ∧
       matches u (decode_utf8 content) r i j) ∧
  ((∃ r i j, r ∈ PII_PATTERNS u ∧ (i <= length (decode_utf8 content))%nat ∧
       matches u (decode_utf8 content) r i j) → 2 <= RANK c).
Proof.
  unfold admit_. intros H.
  apply then_ok in H as [Hne H]. apply then_ok in H as [Hlen H]. apply then_ok in H as [Hd H].
  apply raise_if_ok in Hne, Hlen, Hd. bool_hyps.
  apply bind_ok in H as (detected & Hdet & H). apply then_ok in H as [Hmax [= <-]].
  apply raise_if_ok in Hmax. bool_hyps.
  set (e := if _ <? _ then _ else _) in *.
  assert (He : RANK declared <= RANK e ∧ RANK detected <= RANK e).
  { unfold e. destruct (Z.ltb_spec (RANK declared) (RANK detected)); lia. }
  split; [done|]. split; [lia|]. split; [lia|]. split; [lia|].
  destruct (any _ (SECRET_PATTERNS u)) eqn:Es.
  - destruct (reject_detected_secrets p); [done|]. injection Hdet as <-. cbn in He.
    split; [lia|]. split; [done|lia].
  - rewrite any_false in Es.
    assert (Hsec : reject_detected_secrets p = true → ∀ r, r ∈ SECRET_PATTERNS u →
      ¬ ∃ i j, (i <= length (decode_utf8 content))%nat ∧ matches u (decode_utf8 content) r i j).
    { intros _ r Hr Hm. specialize (Es r Hr). apply search_spec in Hm. congruence. }
    destruct (any _ (PII_PATTERNS u)) eqn:Ep; injection Hdet as <-; cbn in He.
    + split; [lia|]. split; [done|lia].
    + split; [lia|]. split; [done|]. intros (r & i & j & Hr & Hm).
      rewrite any_false in Ep. specialize (Ep r Hr).
      assert (search u (decode_utf8 content) r = true) by (apply search_spec; eauto). congruence.
Qed.

Lemma admission_classifies_witness :
  ∃ c, admit_ latin default (utf8 "contact: ada@example.org") DataClassification.PUBLIC
         DataClassification.RESTRICTED 30 = Ok c ∧
       RANK DataClassification.PUBLIC <= RANK c <= RANK DataClassification.RESTRICTED ∧ 1 <= RANK c.
Proof.
  exists DataClassification.CONFIDENTIAL.
  assert (H : admit_ latin default (utf8 "contact: ada@example.org") DataClassification.PUBLIC
    DataClassification.RESTRICTED 30 = Ok DataClassification.CONFIDENTIAL)
    by (vm_compute; reflexivity).
  split; [exact H|].
  destruct (admission_classifies _ _ _ _ _ _ _ H) as (_ & _ & _ & Hr & Hc & _).
  exact (conj Hr Hc).
Defined.

Example admit_refuses_secret :
  admit_ latin default (utf8 "Password = hunter2") DataClassification.PUBLIC
    DataClassification.RESTRICTED 30 =
  raise EvidenceAdmissionRejected "evidence content contains a detected secret".
Proof. vm_compute. reflexivity. Qed.
End EvidenceAdmissionPolicy.

(** ** Ports *)

Record artifact_store (S : Type) := ArtifactStore {
  describe : uuid → uuid → string → DataClassification.t → Z → datetime →
    M S EvidenceArtifactDescriptor.t;
  artifact_put : EvidenceArtifactDescriptor.t → list Z → string → M S EvidenceArtifactDescriptor.t;
  retrieve_verified : EvidenceArtifactDescriptor.t → M S (list Z);
  artifact_delete : EvidenceArtifactDescriptor.t → M S ArtifactDeletionReceipt.t
}.
Arguments describe {S} _.
Arguments artifact_put {S} _.
Arguments retrieve_verified {S} _.
Arguments artifact_delete {S} _.

Record authoritative_readback (S : Type) := AuthoritativeReadback {
  observe : string → uuid → list SubjectRef.t → SuccessCriterion.t →
    M S AuthoritativeObservation.t
}.
Arguments observe {S} _.

(** ** The verifier *)

Definition evidence_descriptor (item : Evidence.t) : EvidenceArtifactDescriptor.t := {|
  EvidenceArtifactDescriptor.tenant_id := Evidence.tenant_id item;
  EvidenceArtifactDescriptor.evidence_id := Evidence.evidence_id item;
  EvidenceArtifactDescriptor.artifact_uri := Evidence.reference item;
  EvidenceArtifactDescriptor.content_digest := Evidence.content_digest item;
  EvidenceArtifactDescriptor.classification := Evidence.classification item;
  EvidenceArtifactDescriptor.size_bytes := 0;
  EvidenceArtifactDescriptor.retained_until :=
    default (Evidence.valid_until item) (Evidence.retained_until item);
  EvidenceArtifactDescriptor.version_id := Evidence.artifact_version_id item |}.

(** Admissible as a candidate at the instant [now]. *)
Definition is_candidate (now : datetime) (item : Evidence.t) : res bool :=
  if negb (bool_decide (Evidence.capture_method item = EvidenceCaptureMethod.AUTHORITATIVE_READBACK))
  then Ok false
  else
    started ← dt_le (Evidence.valid_from item) now;
    current ← (if (started : bool) then dt_le now (Evidence.valid_until item) else Ok false);
    Ok ((current : bool) && bool_decide (Evidence.integrity item = EvidenceIntegrity.VERIFIED)).

Fixpoint filter_res {A} (f : A → res bool) (l : list A) : res (list A) :=
  match l with
  | [] => Ok []
  | x :: l' => b ← f x; rest ← filter_res f l'; Ok (if (b : bool) then x :: rest else rest)
  end.

(** The observation confirms what the evidence recorded. *)
Definition corroborates (subjects : list SubjectRef.t) (item : Evidence.t) (content : list Z)
    (observation : AuthoritativeObservation.t) : bool :=
  bool_decide (hexdigest content = Evidence.content_digest item) &&
  bool_decide (AuthoritativeObservation.content_digest observation =
               Evidence.content_digest item) &&
  bool_decide (AuthoritativeObservation.source_identity observation =
               Evidence.source_identity item) &&
  bool_decide (AuthoritativeObservation.reference observation = Evidence.source_reference item) &&
  bool_decide (AuthoritativeObservation.observed_state observation =
               Evidence.observed_state item) &&
  (bool_decide (Evidence.subject_refs item = []) ||
   bool_decide (Evidence.subject_refs item = subjects)).

Definition criterion_status (met : option bool) : OutcomeStatus.t :=
  match met with
  | Some true => OutcomeStatus.VERIFIED
  | Some false => OutcomeStatus.NOT_MET
  | None => OutcomeStatus.UNKNOWN
  end.

Section verifier.
Context {S : Type} (readback : authoritative_readback S) (artifacts : artifact_store S)
  (verifier_version : string).

Definition decision (status : OutcomeStatus.t) (now : datetime) : OutcomeVerificationDecision.t :=
  OutcomeVerificationDecision.mk status verifier_version now.

Definition read_back (tenant_id : uuid) (subjects : list SubjectRef.t)
    (criterion : SuccessCriterion.t) (item : Evidence.t)
    : M S (option (list Z * AuthoritativeObservation.t)) :=
  try_except (try_except
    (content ← retrieve_verified artifacts (evidence_descriptor item);
     observation ← observe readback (Evidence.source item) tenant_id subjects criterion;
     mret (Some (content, observation)))
    LookupError (fun _ => mret None)) ValueError (fun _ => mret None).

(** The loop over the candidates. *)
Fixpoint decide_candidates (tenant_id : uuid) (subjects : list SubjectRef.t)
    (criterion : SuccessCriterion.t) (candidates : list Evidence.t) (now : datetime)
    : M S OutcomeVerificationDecision.t :=
  match candidates with
  | [] => mret (decision OutcomeStatus.UNKNOWN now)
  | item :: candidates' =>
      r ← read_back tenant_id subjects criterion item;
      match r with
      | None => decide_candidates tenant_id subjects criterion candidates' now
      | Some (content, observation) =>
          if corroborates subjects item content observation
          then mret (decision (criterion_status
                                 (AuthoritativeObservation.criterion_met observation)) now)
          else decide_candidates tenant_id subjects criterion candidates' now
      end
  end.

(** [TrustedOutcomeVerifier.verify] *)
Definition verify (tenant_id : uuid) (subjects : list SubjectRef.t)
    (criterion : SuccessCriterion.t) (evidence : list Evidence.t) (now : datetime)
    : M S OutcomeVerificationDecision.t :=
  candidates ← lift (filter_res (is_candidate now) evidence);
  match candidates with
  | [] => mret (decision OutcomeStatus.UNKNOWN now)
  | _ => decide_candidates tenant_id subjects criterion candidates now
  end.

Lemma filter_res_elem {A} (f : A → res bool) l l' x :
  filter_res f l = Ok l' → x ∈ l' → x ∈ l ∧ f x = Ok true.
Proof.
  revert l'. induction l as [|y l IH]; intros l' H Hx; cbn in H.
  - injection H as <-. by apply elem_of_nil in Hx.
  - apply bind_ok in H as (b & Hb & H). apply bind_ok in H as (rest & Hr & [= <-]).
    destruct b.
    + apply elem_of_cons in Hx as [->|Hx]; [split; [left|done]|].
      destruct (IH _ Hr Hx). split; [by right|done].
    + destruct (IH _ Hr Hx). split; [by right|done].
Qed.

Lemma is_candidate_ok now item : is_candidate now item = Ok true →
  Evidence.capture_method item = EvidenceCaptureMethod.AUTHORITATIVE_READBACK ∧
  Evidence.integrity item = EvidenceIntegrity.VERIFIED ∧
  dt_le (Evidence.valid_from item) now = Ok true ∧ dt_le now (Evidence.valid_until item) = Ok true.
Proof.
  unfold is_candidate. case_bool_decide; cbn [negb]; [|done]. intros H1.
  apply bind_ok in H1 as (b & Hb & H1). apply bind_ok in H1 as (c & Hc & H1).
  injection H1 as H1. bool_hyps. subst. destruct b; [by split_and!|done].
Qed.

(** What the ports may answer: contents by descriptor, observations by source,
    tenant, subjects and criterion. *)
Context (may_retrieve : EvidenceArtifactDescriptor.t → list Z → Prop)
  (may_observe : string → uuid → list SubjectRef.t → SuccessCriterion.t →
     AuthoritativeObservation.t → Prop).

(** The grounds of a decision other than UNKNOWN: a piece of evidence that was
    captured from the authority and is current, whose stored bytes and whose
    fresh observation both have its digest. *)
Definition grounds (tenant : uuid) (subjects : list SubjectRef.t)
    (criterion : SuccessCriterion.t) (evidence : list Evidence.t) (now : datetime)
    (met : bool) : Prop :=
  ∃ item content observation, item ∈ evidence ∧
    Evidence.capture_method item = EvidenceCaptureMethod.AUTHORITATIVE_READBACK ∧
    Evidence.integrity item = EvidenceIntegrity.VERIFIED ∧
    dt_le (Evidence.valid_from item) now = Ok true ∧
    dt_le now (Evidence.valid_until item) = Ok true ∧
    may_retrieve (evidence_descriptor item) content ∧
    may_observe (Evidence.source item) tenant subjects criterion observation ∧
    corroborates subjects item content observation = true ∧
    AuthoritativeObservation.criterion_met observation = Some met.

Lemma read_back_ok tenant subjects criterion item (s : S) :
  (∀ d s, wp (retrieve_verified artifacts d) (fun c _ => may_retrieve d c) (fun _ _ => True) s) →
  (∀ src t subs crit s, wp (observe readback src t subs crit)
     (fun o _ => may_observe src t subs crit o) (fun _ _ => True) s) →
  wp (read_back tenant subjects criterion item)
    (fun r _ => match r with
                | Some (c, o) => may_retrieve (evidence_descriptor item) c ∧
                                 may_observe (Evidence.source item) tenant subjects criterion o
                | None => True
                end) (fun _ _ => True) s.
Proof.
  intros Hr Ho. unfold read_back. wp_step. wp_step. wp_step.
  eapply wp_mono; [apply Hr| |].
  - intros c s1 Hc. wp_step. eapply wp_mono; [apply Ho| |].
    + intros o s2 Hobs. by wp_step.
    + intros x s2 _. case_match; [by wp_step|]. case_match; [by wp_step|done].
  - intros x s1 _. case_match; [by wp_step|]. case_match; [by wp_step|done].
Qed.

Lemma verify_ok tenant subjects criterion evidence now (s : S) :
  (∀ d s, wp (retrieve_verified artifacts d) (fun c _ => may_retrieve d c) (fun _ _ => True) s) →
  (∀ src t subs crit s, wp (observe readback src t subs crit)
     (fun o _ => may_observe src t subs crit o) (fun _ _ => True) s) →
  wp (verify tenant subjects criterion evidence now)
    (fun d _ => OutcomeVerificationDecision.verified_at d = now ∧
       match OutcomeVerificationDecision.status d with
       | OutcomeStatus.VERIFIED => grounds tenant subjects criterion evidence now true
       | OutcomeStatus.NOT_MET => grounds tenant subjects criterion evidence now false
       | OutcomeStatus.UNKNOWN => True
       end) (fun _ _ => True) s.
Proof.
  intros Hr Ho. unfold verify. wp_step. wp_step; [|done]. intros candidates Hc.
  assert (Hcand : ∀ item, item ∈ candidates → item ∈ evidence ∧ is_candidate now item = Ok true)
    by (intros item; by apply filter_res_elem).
  clear Hc. destruct candidates as [|item0 items]; [by wp_step|].
  revert Hcand. generalize (item0 :: items). clear item0 items. intros candidates. revert s.
  induction candidates as [|item l IH]; intros s Hcand; cbn [decide_candidates]; [by wp_step|].
  wp_step. eapply wp_mono; [by apply read_back_ok| |done].
  assert (IH' : ∀ s', _) by (intros s'; apply (IH s'); intros; apply Hcand; by right).
  intros [[content observation]|] s' Hobs; [|apply IH'].
  destruct (corroborates _ _ _ _) eqn:Ec; [|apply IH'].
  wp_step. split; [done|]. cbn.
  destruct (Hcand item) as [Hin (Hm & Hi & Hf & Hu)%is_candidate_ok]; [left|].
  destruct (AuthoritativeObservation.criterion_met observation) as [[]|] eqn:Em; cbn; [..|done];
    exists item, content, observation; split_and!; done || naive_solver.
Qed.

Theorem outcome_needs_grounds tenant subjects criterion evidence now (s : S) :
  (∀ d s, wp (retrieve_verified artifacts d) (fun c _ => may_retrieve d c) (fun _ _ => True) s) →
  (∀ src t subs crit s, wp (observe readback src t subs crit)
     (fun o _ => may_observe src t subs crit o) (fun _ _ => True) s) →
  wp (verify tenant subjects criterion evidence now)
    (fun d _ => OutcomeVerificationDecision.verified_at d = now ∧
       match OutcomeVerificationDecision.status d with
       | OutcomeStatus.VERIFIED => grounds tenant subjects criterion evidence now true
       | OutcomeStatus.NOT_MET => grounds tenant subjects criterion evidence now false
       | OutcomeStatus.UNKNOWN => True
       end) (fun _ _ => True) s.
Proof. apply verify_ok. Qed.
End verifier.
