(* ===== verification/Uuids.v ===== *)
(** * [str()] of the values JSON can hold, and [uuid.UUID(text)]

    [py_str] is Python's [str(value)]: a string itself, and the [repr] of
    anything else.  [uuid_of_str] is the constructor of a UUID from its text,
    the inverse of [uuid_str] on 128 bits. *)

From S2P Require Import Prelude PyStr PyFloat Json Digests.
From Stdlib Require Import ZArith SpecFloat.

Open Scope string_scope.
Open Scope list_scope.
Open Scope Z_scope.

(** [str.isprintable] on one code point below 256. *)
Definition printable (n : Z) : bool :=
  ((32 <=? n) && (n <=? 126)) || ((161 <=? n) && negb (n =? 173)).

Definition repr_char (q : ascii) (c : ascii) : list ascii :=
  let n := ord c in
  if bool_decide (c = q) || (n =? 92) then [backslash; c]
  else if n =? 9 then [backslash; "t"%char]
  else if n =? 10 then [backslash; "n"%char]
  else if n =? 13 then [backslash; "r"%char]
  else if printable n then [c]
  else [backslash; "x"%char; hex_char (n / 16); hex_char (n mod 16)].

Definition repr_str (s : string) : string :=
  let q := if mem "'"%char (chars s) && negb (mem dquote (chars s)) then dquote else "'"%char in
  String q (of_chars (chars s ≫= repr_char q)) +:+ String q "".

Definition repr_float (f : float) : string :=
  match f with
  | S754_nan => "nan"
  | S754_infinity false => "inf"
  | S754_infinity true => "-inf"
  | _ => float_repr f
  end.

Fixpoint repr (v : json) : string :=
  match v with
  | JNull => "None"
  | JBool true => "True"
  | JBool false => "False"
  | JInt n => int_str n
  | JFloat f => repr_float f
  | JStr s => repr_str s
  | JList l => "[" +:+ join ", " (List.map repr l) +:+ "]"
  | JDict d =>
      "{" +:+ join ", " (List.map (fun kv => repr_str kv.1 +:+ ": " +:+ repr kv.2) d) +:+ "}"
  end.

Definition py_str (v : json) : string := match v with JStr s => s | _ => repr v end.

Example repr_nested :
  py_str (JDict [("it's", JList [JNull; JBool true; JStr "a"])]) = "{" +:+ String dquote "it's" +:+
    String dquote ": [None, True, 'a']}".
Proof. vm_compute. reflexivity. Qed.

(** * [uuid.UUID(text)]

    The constructor of the standard library from a text, and that it reads back
    what [str] writes. *)

Open Scope string_scope.
Open Scope list_scope.
Open Scope Z_scope.

(** [s.replace(p, "")]; [skip] characters belong to an occurrence of [p]. *)
Fixpoint remove_all (p l : list ascii) (skip : nat) : list ascii :=
  match l with
  | [] => []
  | c :: l' =>
      match skip with
      | S k => remove_all p l' k
      | O => if bool_decide (take (length p) l = p) then remove_all p l' (length p - 1)
             else c :: remove_all p l' 0
      end
  end.

Fixpoint drop_while (f : ascii → bool) (l : list ascii) : list ascii :=
  match l with
  | c :: l' => if f c then drop_while f l' else l
  | [] => []
  end.

(** [s.strip(chars)] *)
Definition strip_chars (f : ascii → bool) (l : list ascii) : list ascii :=
  reverse (drop_while f (reverse (drop_while f l))).

Definition is_brace (c : ascii) : bool := bool_decide (c ∈ ["{"%char; "}"%char]).

(** What may follow the digits read so far: whether the number may end here, and
    whether an underscore may come. *)
Fixpoint base16 (l : list ascii) (acc : Z) (ends underscore : bool) : option Z :=
  match l with
  | [] => if ends then Some acc else None
  | c :: l' =>
      if bool_decide (c = "_"%char) then if underscore then base16 l' acc false false else None
      else match hex_value c with
           | Some v => base16 l' (16 * acc + v) true true
           | None => None
           end
  end.

(** [int(s, 16)] *)
Definition int_16 (l : list ascii) : option Z :=
  let l := strip_chars is_space l in
  let '(sign, l) := match l with
                    | c :: l' => if bool_decide (c = "-"%char) then (-1, l')
                                 else if bool_decide (c = "+"%char) then (1, l') else (1, l)
                    | [] => (1, l)
                    end in
  Z.mul sign <$>
    match l with
    | z :: x :: l' =>
        if bool_decide (z = "0"%char) && bool_decide (x ∈ ["x"%char; "X"%char])
        then base16 l' 0 false true else base16 l 0 false false
    | _ => base16 l 0 false false
    end.

Definition uuid_of_str (s : string) : res uuid :=
  let hex := remove_all (chars "uuid:") (remove_all (chars "urn:") (chars s) 0) 0 in
  let hex := remove_all (chars "-") (strip_chars is_brace hex) 0 in
  raise_if (negb (bool_decide (length hex = 32%nat))) ValueError
    "badly formed hexadecimal UUID string" ;;
  match int_16 hex with
  | None => raise ValueError ("invalid literal for int() with base 16: '" +:+ of_chars hex +:+ "'")
  | Some n =>
      raise_if (negb ((0 <=? n) && (n <? 2 ^ 128))) ValueError
        "int is out of range (need a 128-bit value)" ;;
      Ok (Z.to_N n)
  end.

Example uuid_of_urn :
  uuid_of_str "urn:uuid:{00000000-0000-0000-0000-0000001234aF}" = Ok 1193135%N.
Proof. vm_compute. reflexivity. Qed.

Example uuid_of_junk : is_ok (uuid_of_str "00000000-0000-0000-0000-00000012345z") = false.
Proof. vm_compute. reflexivity. Qed.

(** ** The round trip *)

Lemma remove_absent c p l : c ∉ l → remove_all (c :: p) l 0 = l.
Proof.
  induction l as [|x l IH]; intros Hc; cbn [remove_all]; [done|].
  apply not_elem_of_cons in Hc as [Hx Hl].
  rewrite bool_decide_false by (cbn; congruence). by rewrite IH.
Qed.

Lemma remove_char c l : remove_all [c] l 0 = filter (.≠ c) l.
Proof.
  induction l as [|x l IH]; cbn [remove_all length take]; [done|].
  rewrite filter_cons. destruct (decide (x = c)) as [->|Hx].
  - rewrite bool_decide_true, decide_False by naive_solver. exact IH.
  - rewrite bool_decide_false, decide_True by congruence. by rewrite IH.
Qed.

Lemma drop_while_id f l : Forall (fun c => f c = false) l → drop_while f l = l.
Proof. destruct 1 as [|c l Hc Hl]; cbn; [done|]. by rewrite Hc. Qed.

Lemma strip_chars_id f l : Forall (fun c => f c = false) l → strip_chars f l = l.
Proof.
  intros H. unfold strip_chars. rewrite (drop_while_id f l H), drop_while_id.
  - apply reverse_involutive.
  - by rewrite Forall_reverse.
Qed.

(** A lower-case hexadecimal digit is none of the characters that mean something
    else to the parser. *)
Record hex_digit (c : ascii) : Prop := {
  hex_value_of : ∃ v, hex_value c = Some v;
  hex_not : c ∉ chars "urn:-{}_xX+";
  hex_no_space : is_space c = false
}.

Lemma hex_char_digit k : 0 <= k < 16 → hex_digit (hex_char k) ∧ hex_value (hex_char k) = Some k.
Proof.
  intros Hk. assert (H : k = 0 ∨ k = 1 ∨ k = 2 ∨ k = 3 ∨ k = 4 ∨ k = 5 ∨ k = 6 ∨ k = 7 ∨ k = 8 ∨
    k = 9 ∨ k = 10 ∨ k = 11 ∨ k = 12 ∨ k = 13 ∨ k = 14 ∨ k = 15) by lia.
  repeat destruct H as [-> | H]; try subst k; (split; [|reflexivity]);
    (split; [by eexists|by apply (bool_decide_unpack _)|reflexivity]).
Qed.

Lemma hex_digits_app w n s : hex_digits w n s = hex_digits w n "" +:+ s.
Proof.
  revert n s. induction w as [|w IH]; intros n s; cbn [hex_digits]; [by rewrite append_nil|].
  by rewrite IH, (IH _ (String _ "")), str_app_assoc.
Qed.

Lemma hex_digits_all w n : 0 <= n → Forall hex_digit (chars (hex_digits w n "")).
Proof.
  revert n. induction w as [|w IH]; intros n Hn; cbn [hex_digits]; [constructor|].
  rewrite hex_digits_app, chars_app. apply Forall_app_2; [apply IH, Z.div_pos; lia|].
  constructor; [|constructor]. apply hex_char_digit, Z.mod_pos_bound. lia.
Qed.

Lemma base16_app l l' acc e u : Forall hex_digit l → l ≠ [] → ∃ v,
  base16 (l ++ l') acc e u = base16 l' v true true ∧ base16 l acc e u = Some v.
Proof.
  intros Hl. revert acc e u. induction Hl as [|c l Hc Hl IH]; intros acc e u Hn; [done|].
  destruct Hc as [[v Hv] Hnot _]. cbn [base16 app].
  rewrite bool_decide_false by (intros ->; apply Hnot; by apply (bool_decide_unpack _)). rewrite Hv.
  destruct l as [|c' l]; [by eexists|]. by apply IH.
Qed.

Lemma base16_digits w n acc e u : 0 <= n → (w ≠ 0)%nat →
  base16 (chars (hex_digits w n "")) acc e u = Some (acc * 16 ^ Z.of_nat w + n mod 16 ^ Z.of_nat w).
Proof.
  revert n acc e u. induction w as [|w IH]; intros n acc e u Hn Hw; [done|]. cbn [hex_digits].
  rewrite hex_digits_app, chars_app. pose proof (Z.mod_pos_bound n 16 ltac:(lia)) as Hm.
  destruct (hex_char_digit (n mod 16) Hm) as [[_ Hnot _] Hv].
  assert (Hlast : ∀ a e u, base16 (chars (String (hex_char (n mod 16)) "")) a e u =
    Some (16 * a + n mod 16)).
  { intros a e' u'. cbn [chars base16]. rewrite Hv.
    by rewrite bool_decide_false by (intros E; apply Hnot; rewrite E; by apply (bool_decide_unpack _)). }
  rewrite Nat2Z.inj_succ, Z.pow_succ_r by lia.
  rewrite (Z.rem_mul_r n 16) by lia.
  destruct w as [|w]; [cbn [hex_digits chars app]; rewrite Hlast; cbn; f_equal; rewrite Z.mod_1_r; lia|].
  destruct (base16_app (chars (hex_digits (S w) (n / 16) "")) (chars (String (hex_char (n mod 16)) ""))
    acc e u) as (v & -> & Hp).
  - apply hex_digits_all, Z.div_pos; lia.
  - intros E. apply (f_equal length) in E. rewrite length_chars, hex_digits_length in E. cbn in E. lia.
  - rewrite IH in Hp by (try apply Z.div_pos; lia). injection Hp as <-. rewrite Hlast. f_equal. lia.
Qed.

(** The parts [str] separates by dashes. *)
Lemma ungroup (l : list ascii) : length l = 32%nat → Forall hex_digit l →
  filter (.≠ "-"%char) (take 8 l ++ "-"%char :: take 4 (drop 8 l) ++ "-"%char ::
    take 4 (drop 12 l) ++ "-"%char :: take 4 (drop 16 l) ++ "-"%char :: take 12 (drop 20 l)) = l.
Proof.
  intros Hl Hh.
  assert (Hf : ∀ l', Forall hex_digit l' → filter (.≠ "-"%char) l' = l').
  { intros l' H. induction H as [|c l' [_ Hnot _] _ IH]; [done|].
    rewrite filter_cons_True; [by rewrite IH|]. intros ->. apply Hnot. by apply (bool_decide_unpack _). }
  assert (Hs : ∀ i j, Forall hex_digit (take i (drop j l))) by (intros; by apply Forall_take, Forall_drop).
  assert (Hd : ∀ l', filter (.≠ "-"%char) ("-"%char :: l') = filter (.≠ "-"%char) l')
    by (intros; by rewrite filter_cons_False by naive_solver).
  rewrite !filter_app, !Hd, !filter_app, !Hd, !filter_app, !Hd, !filter_app, !Hd.
  rewrite !Hf by (apply Hs || by apply Forall_take).
  do 32 (destruct l as [|? l]; [discriminate|]). destruct l; [reflexivity|discriminate].
Qed.

(** A character of [str(u)]. *)
Lemma uuid_str_chars u c : c ∈ chars (uuid_str u) → c = "-"%char ∨ hex_digit c.
Proof.
  change (uuid_str u) with (group (uuid_hex u)). rewrite group_chars by apply uuid_hex_length.
  pose proof (hex_digits_all 32 (Z.of_N u) ltac:(lia)) as H. fold (uuid_hex u) in H.
  set (l := chars (uuid_hex u)) in *.
  assert (Hs : ∀ i j, c ∈ take i (drop j l) → hex_digit c).
  { intros i j. apply Forall_forall. by apply Forall_take, Forall_drop. }
  pose proof (Hs 8%nat 0%nat) as H0. rewrite drop_0 in H0.
  rewrite !elem_of_app, !elem_of_cons, !elem_of_app, !elem_of_cons, !elem_of_app, !elem_of_cons,
    !elem_of_app, !elem_of_cons.
  clearbody l. clear H. naive_solver.
Qed.

(** [UUID(str(u)) == u] *)
Lemma uuid_round_trip u : uuid_ok u → uuid_of_str (uuid_str u) = Ok u.
Proof.
  intros Hu. unfold uuid_of_str.
  assert (Ha : ∀ c, c ∈ chars "u{}" → c ∉ chars (uuid_str u)).
  { intros c Hc [-> | [_ Hnot _]]%uuid_str_chars; [by apply (bool_decide_pack _) in Hc|].
    apply Hnot. cbn in *. set_solver. }
  assert (Hr : ∀ p, remove_all ("u"%char :: p) (chars (uuid_str u)) 0 = chars (uuid_str u))
    by (intros p; apply remove_absent, Ha; by apply (bool_decide_unpack _)).
  cbn [chars]. rewrite !Hr.
  rewrite strip_chars_id; [|].
  2:{ apply Forall_forall. intros c Hc. unfold is_brace. apply bool_decide_eq_false. intros Hb.
      apply (Ha c); [|done]. by right. }
  rewrite remove_char. change (uuid_str u) with (group (uuid_hex u)).
  rewrite group_chars by apply uuid_hex_length.
  assert (Hl : length (chars (uuid_hex u)) = 32%nat) by (rewrite length_chars; apply uuid_hex_length).
  pose proof (hex_digits_all 32 (Z.of_N u) ltac:(lia)) as Hh. fold (uuid_hex u) in Hh.
  rewrite ungroup by done. rewrite Hl, bool_decide_true by done. cbn [negb raise_if mbind res_bind].
  assert (Hv : int_16 (chars (uuid_hex u)) = Some (Z.of_N u)).
  { unfold int_16. rewrite strip_chars_id by (eapply Forall_impl; [exact Hh|by intros c []]).
    pose proof (base16_digits 32 (Z.of_N u) 0 false false ltac:(lia) ltac:(done)) as Hb.
    fold (uuid_hex u) in Hb. unfold uuid_ok in Hu.
    rewrite Z.mod_small in Hb by (split; [lia|]; change (16 ^ Z.of_nat 32) with (Z.of_N (2 ^ 128)); lia).
    destruct (chars (uuid_hex u)) as [|c [|x l]]; [discriminate..|].
    inversion Hh as [|? ? [_ Hc _] Hh']; subst. inversion Hh' as [|? ? [_ Hx _] _]; subst.
    rewrite !(bool_decide_false (c = _)) by (intros ->; apply Hc; by apply (bool_decide_unpack _)).
    rewrite (bool_decide_false (x ∈ _)) by (intros [-> | [-> | []%elem_of_nil]%elem_of_cons]%elem_of_cons;
      apply Hx; by apply (bool_decide_unpack _)).
    rewrite andb_false_r, Hb. cbn. f_equal. lia. }
  rewrite Hv. unfold uuid_ok in Hu. rewrite (proj2 (Z.leb_le _ _)), (proj2 (Z.ltb_lt _ _)) by lia.
  cbn. by rewrite N2Z.id.
Qed.
