(* ===== verification/Harness.v ===== *)
(** * packages/evaluation: __init__.py, pipeline.py, suite_access.py

    The evaluation harness: the grader pipeline, the suite catalog that keeps
    protected cases from candidate generators, and [run_suite].  The subject
    executor and the graders are ports over a shared state [S]. *)

From S2P Require Import Prelude PyStr PyDict PyFloat Json Effects Capability EvaluationDomain.
From Stdlib Require Import ZArith.

Open Scope string_scope.
Open Scope list_scope.
Open Scope Z_scope.

Definition payload : Type := list (string * json).

Definition grader_status_value (s : GraderStatus.t) : string :=
  match s with
  | GraderStatus.PASS => "pass" | GraderStatus.FAIL => "fail"
  | GraderStatus.UNKNOWN => "unknown" | GraderStatus.INVALID => "invalid"
  end.

Definition grader_kind_value (k : GraderKind.t) : string :=
  match k with
  | GraderKind.DETERMINISTIC => "deterministic" | GraderKind.OUTCOME => "outcome"
  | GraderKind.TRAJECTORY => "trajectory" | GraderKind.LLM => "llm" | GraderKind.HUMAN => "human"
  end.

(** ** The grader pipeline *)

Section pipeline.
Context {S : Type}.

Definition grader : Type := EvaluationCase.t → payload → M S GraderResult.t.

Record GraderAssessment := {
  assessed_status : GraderStatus.t;
  assessed_score : option float;
  assessed_rationale : string;
  assessed_evidence : list string
}.

Record IndependentGrader := {
  bound_kind : GraderKind.t;
  bound_id : string;
  bound_version : string;
  backend : EvaluationCase.t → payload → M S GraderAssessment
}.

(** [IndependentGrader.__post_init__] *)
Definition independent_grader (g : IndependentGrader) : res IndependentGrader :=
  raise_if (PyStr.empty (bound_id g) || PyStr.empty (bound_version g)) ValueError
    "independent grader requires identity and version" ;;
  Ok g.

(** [IndependentGrader.grade] *)
Definition independent_grade (g : IndependentGrader) : grader := fun case actual_output =>
  assessment ← backend g case actual_output;
  lift (GraderResult.new {|
    GraderResult.trial_id := 0%N;
    GraderResult.grader_id := bound_id g;
    GraderResult.grader_version := bound_version g;
    GraderResult.score := assessed_score assessment;
    GraderResult.passed := match assessed_status assessment with
                           | GraderStatus.PASS => Some true
                           | GraderStatus.FAIL => Some false
                           | _ => None
                           end;
    GraderResult.rationale := assessed_rationale assessment;
    GraderResult.evidence_refs := assessed_evidence assessment;
    GraderResult.status := Some (assessed_status assessment);
    GraderResult.kind := bound_kind g |}).

(** [_PRIORITY] *)
Definition PRIORITY (k : GraderKind.t) : Z :=
  match k with
  | GraderKind.DETERMINISTIC => 0 | GraderKind.OUTCOME => 1 | GraderKind.TRAJECTORY => 2
  | GraderKind.LLM => 3 | GraderKind.HUMAN => 4
  end.

Record GraderStage := { stage_kind : GraderKind.t; stage_grader : grader }.

(** [sorted(kinds, key=_PRIORITY) == kinds] *)
Fixpoint in_priority_order (kinds : list GraderKind.t) : bool :=
  match kinds with
  | a :: ((b :: _) as rest) => (PRIORITY a <=? PRIORITY b) && in_priority_order rest
  | _ => true
  end.

(** [GraderPipeline.__post_init__] *)
Definition grader_pipeline (stages : list GraderStage) : res (list GraderStage) :=
  raise_if (bool_decide (length stages = 0%nat)) ValueError
    "grader pipeline requires at least one stage" ;;
  let kinds := stage_kind <$> stages in
  raise_if (negb (unique kinds)) ValueError "grader pipeline cannot repeat a stage kind" ;;
  raise_if (negb (in_priority_order kinds)) ValueError
    "grader stages must follow governance priority order" ;;
  Ok stages.

(** The loop of [GraderPipeline.grade], with the results and identities so far. *)
Fixpoint grade_stages (stages : list GraderStage) (case : EvaluationCase.t)
    (actual_output : payload) (results : list GraderResult.t) (identities : list string)
    : M S (list GraderResult.t) :=
  match stages with
  | [] => mret results
  | stage :: rest =>
      result ← stage_grader stage case actual_output;
      throw_if (negb (bool_decide (GraderResult.kind result = stage_kind stage))) ValueError
        ("grader " +:+ GraderResult.grader_id result +:+ " returned " +:+
         grader_kind_value (GraderResult.kind result) +:+ " for " +:+
         grader_kind_value (stage_kind stage) +:+ " stage") ;;
      throw_if (mem (GraderResult.grader_id result) identities) PermissionError
        "grader identities must be distinct across pipeline stages" ;;
      let results' := results ++ [result] in
      if negb (bool_decide (GraderResult.status result = Some GraderStatus.PASS))
      then mret results'
      else grade_stages rest case actual_output results' (GraderResult.grader_id result :: identities)
  end.

Definition pipeline_grade (stages : list GraderStage) (case : EvaluationCase.t)
    (actual_output : payload) : M S (list GraderResult.t) :=
  grade_stages stages case actual_output [] [].

(** ** Deterministic grading *)

(** The first expectation the output does not meet decides. *)
Definition meets (expected actual_output : payload) : bool :=
  all (fun kv => py_eq (default JNull (alist_get kv.1 actual_output)) kv.2) expected.

Definition deterministic_grade : grader := fun case actual_output =>
  let passed := meets (EvaluationCase.expected_outcome case) actual_output in
  trial_id ← uuid4;
  lift (GraderResult.new {|
    GraderResult.trial_id := trial_id;
    GraderResult.grader_id := "deterministic";
    GraderResult.grader_version := "1";
    GraderResult.score := Some (if passed then of_int 1 else fzero);
    GraderResult.passed := Some passed;
    GraderResult.rationale := "exact match check: " +:+ (if passed then "True" else "False");
    GraderResult.evidence_refs := [EvaluationCase.case_id case];
    GraderResult.status := None;
    GraderResult.kind := GraderKind.DETERMINISTIC |}).
End pipeline.
Arguments grader S : clear implicits.
Arguments GraderStage S : clear implicits.
Arguments IndependentGrader S : clear implicits.

(** ** The suite catalog *)

Module SuiteAccessRole.
Inductive t := CANDIDATE_GENERATOR | EVALUATION_HARNESS.
#[global] Instance t_eq_dec : EqDecision t.
Proof. solve_decision. Defined.
End SuiteAccessRole.

Module SuiteAccessContext.
Record t := mk { principal_id : uuid; roles : list SuiteAccessRole.t }.
End SuiteAccessContext.

Module PublicCaseDescriptor.
Record t := mk { case_id : string; tags : list string; weight : float; gating : bool }.
End PublicCaseDescriptor.

Module GeneratorSuiteView.
Record t := mk {
  suite_id : string; version : string; pass_threshold : float;
  public_cases : list PublicCaseDescriptor.t; protected_case_count : Z
}.
End GeneratorSuiteView.

Module HarnessSuite.
Record t := mk { suite : EvaluationSuite.t; loaded_by : uuid }.
End HarnessSuite.

Module EvaluationSuiteCatalog.
Definition t : Type := dict (string * string) EvaluationSuite.t.

Definition new (suites : list EvaluationSuite.t) : res t :=
  let by_key : t := dict_of_list
    ((fun s => ((EvaluationSuite.suite_id s, EvaluationSuite.version s), s)) <$> suites) in
  raise_if (negb (bool_decide (length (items by_key) = length suites))) ValueError
    "evaluation suites require unique id and version" ;;
  Ok by_key.

(** [_get] *)
Definition get (catalog : t) (suite_id version : string) : res EvaluationSuite.t :=
  match catalog !! (suite_id, version) with
  | Some suite => Ok suite
  | None => raise KeyError ("'evaluation suite not found: " +:+ suite_id +:+ "@" +:+ version +:+ "'")
  end.

Definition is_public (case : EvaluationCase.t) : bool :=
  bool_decide (EvaluationCase.visibility case = CaseVisibility.PUBLIC).

Definition describe_for_generator (catalog : t) (suite_id version : string)
    : res GeneratorSuiteView.t :=
  suite ← get catalog suite_id version;
  let public_cases := (fun case => PublicCaseDescriptor.mk (EvaluationCase.case_id case)
      (EvaluationCase.tags case) (EvaluationCase.weight case) (EvaluationCase.gating case)) <$>
    List.filter is_public (EvaluationSuite.cases suite) in
  Ok {|
    GeneratorSuiteView.suite_id := EvaluationSuite.suite_id suite;
    GeneratorSuiteView.version := EvaluationSuite.version suite;
    GeneratorSuiteView.pass_threshold := EvaluationSuite.pass_threshold suite;
    GeneratorSuiteView.public_cases := public_cases;
    GeneratorSuiteView.protected_case_count :=
      Z.of_nat (length (EvaluationSuite.cases suite)) - Z.of_nat (length public_cases) |}.

Definition load_for_harness (catalog : t) (suite_id version : string)
    (access : SuiteAccessContext.t) : res HarnessSuite.t :=
  raise_if (mem SuiteAccessRole.CANDIDATE_GENERATOR (SuiteAccessContext.roles access))
    PermissionError "candidate generator cannot read protected evaluation cases" ;;
  raise_if (negb (mem SuiteAccessRole.EVALUATION_HARNESS (SuiteAccessContext.roles access)))
    PermissionError "evaluation harness role is required" ;;
  suite ← get catalog suite_id version;
  Ok (HarnessSuite.mk suite (SuiteAccessContext.principal_id access)).
End EvaluationSuiteCatalog.

(** ** The harness *)

Module SubjectExecutionResult.
Record t := mk {
  subject_version_id : uuid;
  output_payload : payload;
  executor_id : string;
  evidence_refs : list string;
  environment_ref : string;
  model_ref : option string;
  tool_refs : list string;
  cost_microunits : Z
}.

Definition post_init (x : t) : res unit :=
  raise_if (PyStr.empty (executor_id x) || bool_decide (evidence_refs x = []) ||
            PyStr.empty (environment_ref x)) ValueError
    "subject execution requires executor, evidence, and environment" ;;
  raise_if (cost_microunits x <? 0) ValueError "subject execution cost cannot be negative".

Definition new (x : t) : res t := post_init x ;; Ok x.
End SubjectExecutionResult.

Module EvaluationHarness.
Section harness.
Context {S : Type}.

Definition executor : Type := uuid → payload → Z → M S SubjectExecutionResult.t.

Record t := mk {
  subject_executor : option executor;
  grader_pipeline : option (list (GraderStage S));
  harness_version : string
}.

(** [{kind.value: kind for kind in GraderKind}.get(name, GraderKind.DETERMINISTIC)] *)
Definition kind_of_name (name : string) : GraderKind.t :=
  default GraderKind.DETERMINISTIC
    (List.find (fun k => bool_decide (grader_kind_value k = name))
       [GraderKind.DETERMINISTIC; GraderKind.OUTCOME; GraderKind.TRAJECTORY; GraderKind.LLM;
        GraderKind.HUMAN]).

Definition new (subject_executor : option executor) (graders : list (string * grader S))
    (pipeline : option (list (GraderStage S))) (harness_version : string) : res t :=
  match pipeline, graders with
  | Some _, _ :: _ => raise ValueError "configure grader_pipeline or legacy graders, not both"
  | Some p, [] => Ok (mk subject_executor (Some p) harness_version)
  | None, _ :: _ =>
      stages ← Harness.grader_pipeline
        ((fun kv => {| stage_kind := kind_of_name kv.1; stage_grader := kv.2 |}) <$> graders);
      Ok (mk subject_executor (Some stages) harness_version)
  | None, [] => Ok (mk subject_executor None harness_version)
  end.

Definition total_cost (results : list TrialCaseResult.t) : Z :=
  foldl Z.add 0 (TrialCaseResult.cost_microunits <$> results).

(** [_invalid_trial] *)
Definition invalid_trial (h : t) (suite : EvaluationSuite.t) (subject_version_id tenant_id : uuid)
    (random_seed : Z) (started_at : datetime) (reason : string)
    (case_results : list TrialCaseResult.t) (trial_id : uuid) : M S Trial.t :=
  completed_at ← now;
  lift (Trial.new {|
    Trial.tenant_id := tenant_id;
    Trial.suite_id := EvaluationSuite.suite_id suite;
    Trial.suite_version := EvaluationSuite.version suite;
    Trial.subject_version_id := subject_version_id;
    Trial.harness_version := harness_version h;
    Trial.trial_id := trial_id;
    Trial.status := TrialStatus.INVALID;
    Trial.random_seed := Some random_seed;
    Trial.case_results := case_results;
    Trial.total_cost_microunits := total_cost case_results;
    Trial.failure_reason := Some reason;
    Trial.started_at := Some started_at;
    Trial.completed_at := Some completed_at;
    Trial.candidate_id := None |}).

(** The record of a case whose subject did not run. *)
Definition unexecuted (case : EvaluationCase.t) (case_seed : Z) (reason : string)
    : res TrialCaseResult.t :=
  TrialCaseResult.new {|
    TrialCaseResult.case_id := EvaluationCase.case_id case;
    TrialCaseResult.input_payload := EvaluationCase.input_payload case;
    TrialCaseResult.output_payload := None;
    TrialCaseResult.subject_executed := false;
    TrialCaseResult.grader_results := [];
    TrialCaseResult.evidence_refs := [];
    TrialCaseResult.executor_id := None;
    TrialCaseResult.environment_ref := None;
    TrialCaseResult.model_ref := None;
    TrialCaseResult.tool_refs := [];
    TrialCaseResult.random_seed := Some case_seed;
    TrialCaseResult.cost_microunits := 0;
    TrialCaseResult.failure_reason := Some reason |}.

(** The record of a case whose subject ran. *)
Definition executed (case : EvaluationCase.t) (case_seed : Z) (x : SubjectExecutionResult.t)
    (grades : list GraderResult.t) (reason : option string) : res TrialCaseResult.t :=
  TrialCaseResult.new {|
    TrialCaseResult.case_id := EvaluationCase.case_id case;
    TrialCaseResult.input_payload := EvaluationCase.input_payload case;
    TrialCaseResult.output_payload := Some (SubjectExecutionResult.output_payload x);
    TrialCaseResult.subject_executed := true;
    TrialCaseResult.grader_results := grades;
    TrialCaseResult.evidence_refs := SubjectExecutionResult.evidence_refs x;
    TrialCaseResult.executor_id := Some (SubjectExecutionResult.executor_id x);
    TrialCaseResult.environment_ref := Some (SubjectExecutionResult.environment_ref x);
    TrialCaseResult.model_ref := SubjectExecutionResult.model_ref x;
    TrialCaseResult.tool_refs := SubjectExecutionResult.tool_refs x;
    TrialCaseResult.random_seed := Some case_seed;
    TrialCaseResult.cost_microunits := SubjectExecutionResult.cost_microunits x;
    TrialCaseResult.failure_reason := reason |}.

(** [f"{type(exc).__name__}: {exc}"] *)
Definition describe_exn (x : exn) : string := class_name (exn_class x) +:+ ": " +:+ exn_msg x.

(** One case: its record, and why the trial ends with it, if it does. *)
Definition run_case (execute : executor) (stages : list (GraderStage S))
    (subject_version_id trial_id : uuid) (case : EvaluationCase.t) (case_seed : Z)
    : M S (TrialCaseResult.t * option string) :=
  execution ← try_all
    (x ← execute subject_version_id (EvaluationCase.input_payload case) case_seed; mret (inr x))
    (fun exc => mret (inl ("subject execution failed: " +:+ describe_exn exc)));
  let not_run reason :=
    result ← lift (unexecuted case case_seed reason); mret (result, Some reason) in
  match execution with
  | inl reason => not_run reason
  | inr x =>
      if negb (bool_decide (SubjectExecutionResult.subject_version_id x = subject_version_id))
      then not_run "executor returned output from a different subject version"
      else
        graded ← try_all
          (grades ← pipeline_grade stages case (SubjectExecutionResult.output_payload x);
           owned ← lift (mapM_res (fun g => GraderResult.new (g <| GraderResult.trial_id := trial_id |>))
                           grades);
           mret (inr owned))
          (fun exc => mret (inl ("grader execution failed: " +:+ describe_exn exc)));
        match graded with
        | inl reason =>
            result ← lift (executed case case_seed x [] (Some reason));
            mret (result, Some reason)
        | inr grades =>
            result ← lift (executed case case_seed x grades None);
            mret (result, None)
        end
  end.

(** The loop over the cases from [index]: all records, or the reason to stop. *)
Fixpoint run_cases (execute : executor) (stages : list (GraderStage S))
    (subject_version_id trial_id : uuid) (random_seed : Z) (index : Z)
    (cases : list EvaluationCase.t) (case_results : list TrialCaseResult.t)
    : M S (list TrialCaseResult.t * option string) :=
  match cases with
  | [] => mret (case_results, None)
  | case :: rest =>
      outcome ← run_case execute stages subject_version_id trial_id case (random_seed + index);
      let '(result, stopped) := outcome in
      match stopped with
      | Some reason => mret (case_results ++ [result], Some reason)
      | None => run_cases execute stages subject_version_id trial_id random_seed (index + 1) rest
                  (case_results ++ [result])
      end
  end.

(** The grader results with the case they belong to. *)
Definition all_grades (case_results : list TrialCaseResult.t)
    : list (TrialCaseResult.t * GraderResult.t) :=
  case_results ≫= fun r => (fun g => (r, g)) <$> TrialCaseResult.grader_results r.

(** The identity of the first grader that executed its case itself. *)
Definition identity_conflict (case_results : list TrialCaseResult.t) : option string :=
  (fun rg => GraderResult.grader_id rg.2) <$>
    List.find (fun rg => bool_decide (Some (GraderResult.grader_id rg.2) =
                                      TrialCaseResult.executor_id rg.1)) (all_grades case_results).

(** The first result that is neither a pass nor a failure. *)
Definition uncertain (case_results : list TrialCaseResult.t) : option GraderResult.t :=
  snd <$> List.find (fun rg => mem (GraderResult.status rg.2)
                       [Some GraderStatus.UNKNOWN; Some GraderStatus.INVALID])
            (all_grades case_results).

Definition case_passes (result : TrialCaseResult.t) : bool :=
  match TrialCaseResult.grader_results result with
  | [] => false
  | grades => all (fun g => bool_decide (GraderResult.status g = Some GraderStatus.PASS)) grades
  end.

(** [passed_weight / total_weight >= pass_threshold] *)
Definition weighted (suite : EvaluationSuite.t) (passes : list bool) : res bool :=
  let total_weight := float_sum (EvaluationCase.weight <$> EvaluationSuite.cases suite) in
  let passed_weight := float_sum ((fun cp : EvaluationCase.t * bool => EvaluationCase.weight cp.1) <$>
    List.filter snd (zip (EvaluationSuite.cases suite) passes)) in
  raise_if (feq total_weight fzero) (OtherError "ZeroDivisionError") "float division by zero" ;;
  Ok (fle (EvaluationSuite.pass_threshold suite) (fdiv passed_weight total_weight)).

Definition gating_failed (suite : EvaluationSuite.t) (passes : list bool) : bool :=
  any (fun cp : EvaluationCase.t * bool => EvaluationCase.gating cp.1 && negb cp.2)
    (zip (EvaluationSuite.cases suite) passes).

(** What the suite's verdict on complete records is. *)
Definition verdict (h : t) (suite : EvaluationSuite.t) (subject_version_id tenant_id : uuid)
    (random_seed : Z) (started_at : datetime) (trial_id : uuid)
    (case_results : list TrialCaseResult.t) : M S Trial.t :=
  let passes := case_passes <$> case_results in
  status ← (if gating_failed suite passes then mret TrialStatus.FAILED
            else heavy ← lift (weighted suite passes);
                 mret (if (heavy : bool) then TrialStatus.PASSED else TrialStatus.FAILED));
  completed_at ← now;
  lift (Trial.new {|
    Trial.tenant_id := tenant_id;
    Trial.suite_id := EvaluationSuite.suite_id suite;
    Trial.suite_version := EvaluationSuite.version suite;
    Trial.subject_version_id := subject_version_id;
    Trial.harness_version := harness_version h;
    Trial.trial_id := trial_id;
    Trial.status := status;
    Trial.random_seed := Some random_seed;
    Trial.case_results := case_results;
    Trial.total_cost_microunits := total_cost case_results;
    Trial.failure_reason := None;
    Trial.started_at := Some started_at;
    Trial.completed_at := Some completed_at;
    Trial.candidate_id := None |}).

(** [run_suite]; [suite] came from the catalog ([inr]) or not ([inl]). *)
Definition run_suite (h : t) (suite : EvaluationSuite.t + HarnessSuite.t)
    (subject_version_id tenant_id : uuid) (random_seed : Z) : M S Trial.t :=
  started_at ← now;
  trial_id ← uuid4;
  let resolved := match suite with inl s => s | inr loaded => HarnessSuite.suite loaded end in
  let invalid reason case_results :=
    invalid_trial h resolved subject_version_id tenant_id random_seed started_at reason
      case_results trial_id in
  let protected := match suite with
                   | inl s => any (fun c => negb (EvaluationSuiteCatalog.is_public c))
                                (EvaluationSuite.cases s)
                   | inr _ => false
                   end in
  if (protected : bool)
  then invalid "protected suite must be loaded through the evaluation catalog" []
  else
    match subject_executor h, grader_pipeline h with
    | None, _ => invalid "subject executor is not configured" []
    | _, None => invalid "no independent grader is configured" []
    | Some execute, Some stages =>
        outcome ← run_cases execute stages subject_version_id trial_id random_seed 0
          (EvaluationSuite.cases resolved) [];
        let '(case_results, stopped) := outcome in
        match stopped with
        | Some reason => invalid reason case_results
        | None =>
            match identity_conflict case_results with
            | Some who => invalid ("subject executor and grader share identity: " +:+ who)
                            case_results
            | None =>
                match uncertain case_results with
                | Some g =>
                    invalid ("grader returned " +:+
                      grader_status_value (default GraderStatus.UNKNOWN (GraderResult.status g)) +:+
                      ": " +:+ GraderResult.rationale g) case_results
                | None => verdict h resolved subject_version_id tenant_id random_seed started_at
                            trial_id case_results
                end
            end
        end
    end.
End harness.
Arguments t S : clear implicits.
Arguments executor S : clear implicits.
End EvaluationHarness.
