(* ===== verification/Rows.v ===== *)
(** * Rows and JSON columns

    What the codecs read: a row is a dictionary from column names to values, a
    value is JSON or, for a [DateTime] column, a timestamp.  Records are typed,
    so a value of another type than its field's is refused with [TypeError]
    here, where Python keeps it until something uses it.  The enumerations of
    the domain are read by their values. *)

From S2P Require Import Prelude PyStr PyDict PyFloat Json Transitions Values Goals Execution.
From S2P Require Import ExecutionObjects Digests Identity Improvement EvaluationDomain Calendar.
From S2P Require Import ContextDomain Verification Uuids Harness.
From Stdlib Require Import ZArith.

Open Scope string_scope.
Open Scope list_scope.
Open Scope Z_scope.

Inductive cell := Cell (v : json) | TimeCell (d : datetime).

Definition object : Type := list (string * json).
Definition row : Type := list (string * cell).

Definition type_error {A} : res A := raise TypeError "unexpected type".

(** [d[k]] *)
Definition at_key {V} (d : list (string * V)) (k : string) : res V :=
  match alist_get k d with
  | Some v => Ok v
  | None => raise KeyError (repr_str k)
  end.

(** [d.get(k)] and [d.get(k, v)] on an object *)
Definition get_or (d : object) (k : string) (v : json) : json := default v (alist_get k d).
Definition get (d : object) (k : string) : json := get_or d k JNull.

(** [not v] is [negb (truthy v)]. *)
Definition truthy (v : json) : bool :=
  match v with
  | JNull => false
  | JBool b => b
  | JInt n => negb (n =? 0)
  | JFloat f => negb (feq f fzero)
  | JStr s => negb (empty s)
  | JList l => negb (bool_decide (length l = 0%nat))
  | JDict d => negb (bool_decide (length d = 0%nat))
  end.

(** ** Typed views *)

Definition as_json (c : cell) : res json := match c with Cell v => Ok v | TimeCell _ => type_error end.
Definition as_time (c : cell) : res datetime :=
  match c with TimeCell d => Ok d | Cell _ => type_error end.
Definition as_opt_time (c : cell) : res (option datetime) :=
  match c with TimeCell d => Ok (Some d) | Cell JNull => Ok None | Cell _ => type_error end.

Definition as_str (v : json) : res string := match v with JStr s => Ok s | _ => type_error end.
Definition as_int (v : json) : res Z := match v with JInt n => Ok n | _ => type_error end.
Definition as_bool (v : json) : res bool := match v with JBool b => Ok b | _ => type_error end.
Definition as_float (v : json) : res float :=
  match v with JFloat f => Ok f | JInt n => Ok (of_int n) | _ => type_error end.
Definition as_list (v : json) : res (list json) := match v with JList l => Ok l | _ => type_error end.
Definition as_object (v : json) : res object := match v with JDict d => Ok d | _ => type_error end.

(** [None], or what [f] makes of the value. *)
Definition opt {A} (f : json → res A) (v : json) : res (option A) :=
  match v with JNull => Ok None | _ => Some <$> f v end.

(** [f(v) if v else None] *)
Definition if_truthy {A} (f : json → res A) (v : json) : res (option A) :=
  if truthy v then Some <$> f v else Ok None.

Definition as_strs (v : json) : res (list string) := l ← as_list v; mapM_res as_str l.
Definition as_uuid (v : json) : res uuid := s ← as_str v; uuid_of_str s.
Definition as_iso (v : json) : res datetime := s ← as_str v; fromisoformat s.

(** [tuple(f(item) for item in v)] *)
Definition each {A} (f : json → res A) (v : json) : res (list A) := l ← as_list v; mapM_res f l.
Definition each_object {A} (f : object → res A) (v : json) : res (list A) :=
  each (fun item => d ← as_object item; f d) v.

(** ** Enumerations *)

(** An enumeration whose class can be called with a value. *)
Class PyEnum (E : Type) := {
  enum_class : string;
  enum_value : E → string;
  enum_members : list E;
  enum_found : ∀ x, List.find (fun y => bool_decide (enum_value y = enum_value x)) enum_members = Some x
}.

Ltac solve_members := by intros [].

Definition as_enum {E} `{PyEnum E} (v : json) : res E :=
  let invalid shown := raise ValueError (shown +:+ " is not a valid " +:+ enum_class) in
  match v with
  | JStr s => match List.find (fun y => bool_decide (enum_value y = s)) enum_members with
              | Some y => Ok y
              | None => invalid (repr_str s)
              end
  | _ => invalid "value"
  end.

(** ** Columns *)

Section columns.
Context (r : row) (k : string).
Definition json_column : res json := c ← at_key r k; as_json c.
Definition str_column : res string := v ← json_column; as_str v.
Definition int_column : res Z := v ← json_column; as_int v.
Definition uuid_column : res uuid := v ← json_column; as_uuid v.
Definition enum_column {E} `{PyEnum E} : res E := v ← json_column; as_enum v.
Definition object_column : res object := v ← json_column; as_object v.
Definition time_column : res datetime := c ← at_key r k; as_time c.
End columns.

Section fields.
Context (d : object) (k : string).
Definition str_field : res string := v ← at_key d k; as_str v.
Definition int_field : res Z := v ← at_key d k; as_int v.
Definition strs_field : res (list string) := v ← at_key d k; as_strs v.
Definition uuid_field : res uuid := v ← at_key d k; as_uuid v.
Definition iso_field : res datetime := v ← at_key d k; as_iso v.
Definition enum_field {E} `{PyEnum E} : res E := v ← at_key d k; as_enum v.
Definition object_field : res object := v ← at_key d k; as_object v.
End fields.

(** ** Writing *)

Definition strs (l : list string) : json := JList (JStr <$> l).
Definition j_uuid (u : uuid) : json := JStr (uuid_str u).
Definition j_iso (d : datetime) : json := JStr (isoformat d).
Definition j_enum {E} `{PyEnum E} (x : E) : json := JStr (enum_value x).

(** [f(x) if x is not None else None] *)
Definition j_opt {A} (f : A → json) (o : option A) : json :=
  match o with Some x => f x | None => JNull end.

(** The columns of [r] that [cols] names have these values. *)
Definition has (r cols : row) : Prop := Forall (fun kv => alist_get kv.1 r = Some kv.2) cols.

(** ** What is written is read *)

Lemma at_key_has {V} (d : list (string * V)) k v : alist_get k d = Some v → at_key d k = Ok v.
Proof. unfold at_key. by intros ->. Qed.

Lemma mapM_res_id {A B} (f : B → res A) (g : A → B) l :
  (∀ x, x ∈ l → f (g x) = Ok x) → mapM_res f (g <$> l) = Ok l.
Proof.
  induction l as [|x l IH]; intros H; cbn; [done|].
  rewrite H by left. cbn. rewrite IH; [done|]. intros y Hy. apply H. by right.
Qed.

Lemma as_enum_value {E} `{PyEnum E} (x : E) : as_enum (j_enum x) = Ok x.
Proof. unfold as_enum, j_enum. by rewrite enum_found. Qed.

Lemma as_strs_strs l : as_strs (strs l) = Ok l.
Proof. unfold as_strs, strs. cbn. by apply mapM_res_id. Qed.

Lemma as_uuid_uuid u : uuid_ok u → as_uuid (j_uuid u) = Ok u.
Proof. apply uuid_round_trip. Qed.

Lemma as_iso_iso d : in_calendar d = true → as_iso (j_iso d) = Ok d.
Proof. apply isoformat_round_trip. Qed.

Lemma each_id {A} (f : json → res A) (g : A → json) l :
  (∀ x, x ∈ l → f (g x) = Ok x) → each f (JList (g <$> l)) = Ok l.
Proof. intros H. unfold each. cbn. by apply mapM_res_id. Qed.

Lemma each_object_id {A} (f : object → res A) (g : A → object) l :
  (∀ x, x ∈ l → f (g x) = Ok x) → each_object f (JList ((fun x => JDict (g x)) <$> l)) = Ok l.
Proof. intros H. apply each_id. intros x Hx. cbn. by apply H. Qed.

(** A text that is not empty is truthy. *)
Lemma truthy_str c s : truthy (JStr (String c s)) = true.
Proof. reflexivity. Qed.

Lemma if_truthy_opt {A} (f : json → res A) (g : A → json) o :
  (∀ x, o = Some x → truthy (g x) = true ∧ f (g x) = Ok x) → if_truthy f (j_opt g o) = Ok o.
Proof.
  intros H. unfold if_truthy, j_opt. destruct o as [x|]; [|done].
  by destruct (H x eq_refl) as [-> ->].
Qed.

Lemma opt_opt {A} (f : json → res A) (g : A → json) o :
  (∀ x, o = Some x → g x ≠ JNull ∧ f (g x) = Ok x) → opt f (j_opt g o) = Ok o.
Proof.
  intros H. unfold opt, j_opt. destruct o as [x|]; [|done].
  destruct (H x eq_refl) as [Hn ->]. by destruct (g x).
Qed.

(** * The enumerations of the columns

    The members and values of the string enumerations a column or a JSON field
    may hold, as calling the class with a value finds them. *)

Open Scope string_scope.
Open Scope list_scope.

#[export] Instance RunStatus_members : PyEnum RunStatus.t.
Proof.
  refine {| enum_class := "RunStatus"; enum_value := RunStatus.value;
    enum_members := [RunStatus.PENDING; RunStatus.RUNNING; RunStatus.BLOCKED;
      RunStatus.AWAITING_EVIDENCE; RunStatus.SUCCEEDED; RunStatus.FAILED; RunStatus.CANCELLED] |}.
  solve_members.
Defined.
#[export] Instance TaskStatus_members : PyEnum TaskStatus.t.
Proof.
  refine {| enum_class := "TaskStatus"; enum_value := TaskStatus.value;
    enum_members := [TaskStatus.PENDING; TaskStatus.READY; TaskStatus.RUNNING; TaskStatus.BLOCKED;
      TaskStatus.SUCCEEDED; TaskStatus.FAILED] |}.
  solve_members.
Defined.
#[export] Instance ActionStatus_members : PyEnum ActionStatus.t.
Proof.
  refine {| enum_class := "ActionStatus"; enum_value := ActionStatus.value;
    enum_members := [ActionStatus.PROPOSED; ActionStatus.AWAITING_APPROVAL; ActionStatus.AUTHORIZED;
      ActionStatus.EXECUTING; ActionStatus.SUCCEEDED; ActionStatus.FAILED; ActionStatus.DENIED;
      ActionStatus.UNKNOWN] |}.
  solve_members.
Defined.
#[export] Instance ActionAttemptStatus_members : PyEnum ActionAttemptStatus.t.
Proof.
  refine {| enum_class := "ActionAttemptStatus";
    enum_value x := match x with
      | ActionAttemptStatus.STARTED => "started" | ActionAttemptStatus.SUCCEEDED => "succeeded"
      | ActionAttemptStatus.FAILED => "failed" | ActionAttemptStatus.UNKNOWN => "unknown" end;
    enum_members := [ActionAttemptStatus.STARTED; ActionAttemptStatus.SUCCEEDED;
      ActionAttemptStatus.FAILED; ActionAttemptStatus.UNKNOWN] |}.
  solve_members.
Defined.
#[export] Instance BudgetUnit_members : PyEnum BudgetUnit.t.
Proof.
  refine {| enum_class := "BudgetUnit"; enum_value := BudgetUnit.value;
    enum_members := [BudgetUnit.COST_UNITS; BudgetUnit.TOKENS; BudgetUnit.USD_MICROS] |}.
  solve_members.
Defined.
#[export] Instance RiskLevel_members : PyEnum RiskLevel.t.
Proof.
  refine {| enum_class := "RiskLevel"; enum_value := RiskLevel.value;
    enum_members := [RiskLevel.L0_COMPUTE; RiskLevel.L1_READ; RiskLevel.L2_REVERSIBLE_WRITE;
      RiskLevel.L3_HIGH_IMPACT_WRITE; RiskLevel.L4_PRIVILEGED] |}.
  solve_members.
Defined.
#[export] Instance CompensationCapability_members : PyEnum CompensationCapability.t.
Proof.
  refine {| enum_class := "CompensationCapability";
    enum_value x := match x with
      | CompensationCapability.NONE => "none" | CompensationCapability.AVAILABLE => "available"
      | CompensationCapability.REQUIRED => "required" end;
    enum_members := [CompensationCapability.NONE; CompensationCapability.AVAILABLE;
      CompensationCapability.REQUIRED] |}.
  solve_members.
Defined.
#[export] Instance DataClassification_members : PyEnum DataClassification.t.
Proof.
  refine {| enum_class := "DataClassification"; enum_value := DataClassification.value;
    enum_members := [DataClassification.PUBLIC; DataClassification.INTERNAL;
      DataClassification.CONFIDENTIAL; DataClassification.RESTRICTED] |}.
  solve_members.
Defined.
#[export] Instance ExecutionMode_members : PyEnum ExecutionMode.t.
Proof.
  refine {| enum_class := "ExecutionMode"; enum_value := ExecutionMode.value;
    enum_members := [ExecutionMode.AUTONOMOUS; ExecutionMode.SUPERVISED; ExecutionMode.HUMAN_ONLY;
      ExecutionMode.SHADOW] |}.
  solve_members.
Defined.
#[export] Instance TrustLevel_members : PyEnum TrustLevel.t.
Proof.
  refine {| enum_class := "TrustLevel"; enum_value := TrustLevel.value;
    enum_members := [TrustLevel.UNTRUSTED; TrustLevel.ADVISORY; TrustLevel.AUTHORITATIVE] |}.
  solve_members.
Defined.
#[export] Instance FreshnessPolicy_members : PyEnum FreshnessPolicy.t.
Proof.
  refine {| enum_class := "FreshnessPolicy"; enum_value := FreshnessPolicy.value;
    enum_members := [FreshnessPolicy.STRICT; FreshnessPolicy.WARN; FreshnessPolicy.LAX] |}.
  solve_members.
Defined.
#[export] Instance MemoryStatus_members : PyEnum MemoryStatus.t.
Proof.
  refine {| enum_class := "MemoryStatus";
    enum_value x := match x with
      | MemoryStatus.PROPOSED => "proposed" | MemoryStatus.STABLE => "stable"
      | MemoryStatus.DELETED => "deleted" end;
    enum_members := [MemoryStatus.PROPOSED; MemoryStatus.STABLE; MemoryStatus.DELETED] |}.
  solve_members.
Defined.
#[export] Instance ApprovalStatus_members : PyEnum ApprovalStatus.t.
Proof.
  refine {| enum_class := "ApprovalStatus"; enum_value := ApprovalStatus.value;
    enum_members := [ApprovalStatus.PENDING; ApprovalStatus.APPROVED; ApprovalStatus.REJECTED;
      ApprovalStatus.EXPIRED] |}.
  solve_members.
Defined.
#[export] Instance GoalStatus_members : PyEnum GoalStatus.t.
Proof.
  refine {| enum_class := "GoalStatus";
    enum_value := GoalStatus.value;
    enum_members := [GoalStatus.DRAFT; GoalStatus.ACTIVE; GoalStatus.PAUSED; GoalStatus.SATISFIED; GoalStatus.FAILED; GoalStatus.CANCELLED] |}.
  solve_members.
Defined.
#[export] Instance RiskTier_members : PyEnum RiskTier.t.
Proof.
  refine {| enum_class := "RiskTier";
    enum_value := RiskTier.value;
    enum_members := [RiskTier.LOW; RiskTier.MEDIUM; RiskTier.HIGH; RiskTier.CRITICAL] |}.
  solve_members.
Defined.
#[export] Instance OutcomeStatus_members : PyEnum OutcomeStatus.t.
Proof.
  refine {| enum_class := "OutcomeStatus";
    enum_value := OutcomeStatus.value;
    enum_members := [OutcomeStatus.VERIFIED; OutcomeStatus.NOT_MET; OutcomeStatus.UNKNOWN] |}.
  solve_members.
Defined.
#[export] Instance EvidenceCaptureMethod_members : PyEnum EvidenceCaptureMethod.t.
Proof.
  refine {| enum_class := "EvidenceCaptureMethod";
    enum_value x := match x with | EvidenceCaptureMethod.AUTHORITATIVE_READBACK => "authoritative_readback" | EvidenceCaptureMethod.SIGNED_EVENT => "signed_event" | EvidenceCaptureMethod.SYSTEM_QUERY => "system_query" | EvidenceCaptureMethod.HUMAN_ATTESTATION => "human_attestation" end;
    enum_members := [EvidenceCaptureMethod.AUTHORITATIVE_READBACK; EvidenceCaptureMethod.SIGNED_EVENT; EvidenceCaptureMethod.SYSTEM_QUERY; EvidenceCaptureMethod.HUMAN_ATTESTATION] |}.
  solve_members.
Defined.
#[export] Instance EvidenceIntegrity_members : PyEnum EvidenceIntegrity.t.
Proof.
  refine {| enum_class := "EvidenceIntegrity";
    enum_value x := match x with | EvidenceIntegrity.VERIFIED => "verified" | EvidenceIntegrity.UNVERIFIED => "unverified" | EvidenceIntegrity.INVALID => "invalid" end;
    enum_members := [EvidenceIntegrity.VERIFIED; EvidenceIntegrity.UNVERIFIED; EvidenceIntegrity.INVALID] |}.
  solve_members.
Defined.
#[export] Instance ImprovementTarget_members : PyEnum ImprovementTarget.t.
Proof.
  refine {| enum_class := "ImprovementTarget";
    enum_value := ImprovementTarget.value;
    enum_members := [ImprovementTarget.AGENT_INSTRUCTION; ImprovementTarget.SKILL; ImprovementTarget.PROMPT_ASSET; ImprovementTarget.MODEL_ROUTE] |}.
  solve_members.
Defined.
#[export] Instance CandidateStatus_members : PyEnum CandidateStatus.t.
Proof.
  refine {| enum_class := "CandidateStatus";
    enum_value := CandidateStatus.value;
    enum_members := [CandidateStatus.DRAFT; CandidateStatus.EVALUATING; CandidateStatus.AWAITING_APPROVAL; CandidateStatus.APPROVED; CandidateStatus.REJECTED] |}.
  solve_members.
Defined.
#[export] Instance DeploymentStatus_members : PyEnum DeploymentStatus.t.
Proof.
  refine {| enum_class := "DeploymentStatus";
    enum_value := DeploymentStatus.value;
    enum_members := [DeploymentStatus.SHADOW; DeploymentStatus.CANARY; DeploymentStatus.STABLE; DeploymentStatus.FAILED; DeploymentStatus.ROLLED_BACK] |}.
  solve_members.
Defined.
#[export] Instance CaseVisibility_members : PyEnum CaseVisibility.t.
Proof.
  refine {| enum_class := "CaseVisibility";
    enum_value x := match x with | CaseVisibility.PUBLIC => "public" | CaseVisibility.HIDDEN => "hidden" | CaseVisibility.PRODUCTION_REPLAY => "production_replay" end;
    enum_members := [CaseVisibility.PUBLIC; CaseVisibility.HIDDEN; CaseVisibility.PRODUCTION_REPLAY] |}.
  solve_members.
Defined.
#[export] Instance GraderStatus_members : PyEnum GraderStatus.t.
Proof.
  refine {| enum_class := "GraderStatus";
    enum_value := grader_status_value;
    enum_members := [GraderStatus.PASS; GraderStatus.FAIL; GraderStatus.UNKNOWN; GraderStatus.INVALID] |}.
  solve_members.
Defined.
#[export] Instance GraderKind_members : PyEnum GraderKind.t.
Proof.
  refine {| enum_class := "GraderKind";
    enum_value := grader_kind_value;
    enum_members := [GraderKind.DETERMINISTIC; GraderKind.OUTCOME; GraderKind.TRAJECTORY; GraderKind.LLM; GraderKind.HUMAN] |}.
  solve_members.
Defined.
#[export] Instance TrialStatus_members : PyEnum TrialStatus.t.
Proof.
  refine {| enum_class := "TrialStatus";
    enum_value x := match x with | TrialStatus.PENDING => "pending" | TrialStatus.RUNNING => "running" | TrialStatus.PASSED => "passed" | TrialStatus.FAILED => "failed" | TrialStatus.INVALID => "invalid" end;
    enum_members := [TrialStatus.PENDING; TrialStatus.RUNNING; TrialStatus.PASSED; TrialStatus.FAILED; TrialStatus.INVALID] |}.
  solve_members.
Defined.
#[export] Instance AssetStage_members : PyEnum AssetStage.t.
Proof.
  refine {| enum_class := "AssetStage";
    enum_value x := match x with | AssetStage.CANDIDATE => "candidate" | AssetStage.STABLE => "stable" | AssetStage.RETIRED => "retired" end;
    enum_members := [AssetStage.CANDIDATE; AssetStage.STABLE; AssetStage.RETIRED] |}.
  solve_members.
Defined.
#[export] Instance EvidenceCaptureStatus_members : PyEnum EvidenceCaptureStatus.t.
Proof.
  refine {| enum_class := "EvidenceCaptureStatus";
    enum_value x := match x with | EvidenceCaptureStatus.PENDING => "pending" | EvidenceCaptureStatus.COMMITTED => "committed" | EvidenceCaptureStatus.FAILED => "failed" end;
    enum_members := [EvidenceCaptureStatus.PENDING; EvidenceCaptureStatus.COMMITTED; EvidenceCaptureStatus.FAILED] |}.
  solve_members.
Defined.
#[export] Instance EvidenceDeletionStatus_members : PyEnum EvidenceDeletionStatus.t.
Proof.
  refine {| enum_class := "EvidenceDeletionStatus"; enum_value := EvidenceDeletionStatus.value;
    enum_members := [EvidenceDeletionStatus.REQUESTED; EvidenceDeletionStatus.RETENTION_BLOCKED;
      EvidenceDeletionStatus.DELETED; EvidenceDeletionStatus.FAILED] |}.
  solve_members.
Defined.
