(* ===== verification/HarnessProofs.v ===== *)
(** * What a trial proves

    [run_suite] always answers with a trial, and a verdict in it is earned:
    every case was run by the fixed subject version and graded by distinct
    graders who did not run it, a passed case passed every stage of the
    pipeline, and the verdict follows from the gating cases and the weights. *)

From S2P Require Import Prelude PyStr PyDict PyFloat Json Effects Identity EvaluationDomain.
From S2P Require Import Harness.
From Stdlib Require Import ZArith.

Open Scope string_scope.
Open Scope list_scope.
Open Scope Z_scope.

#[local] Arguments SubjectExecutionResult.post_init : simpl never.

(** ** The pipeline *)

Definition passing (g : GraderResult.t) : Prop := GraderResult.status g = Some GraderStatus.PASS.

(** A result its constructor accepted. *)
Definition grade_valid (g : GraderResult.t) : Prop := GraderResult.new g = Ok g.

Record graded {S} (stages : list (GraderStage S)) (grades : list GraderResult.t) : Prop := {
  graded_some : stages ≠ [] → grades ≠ [];
  graded_kinds : (GraderResult.kind <$> grades) `prefix_of` (stage_kind <$> stages);
  graded_distinct : NoDup (GraderResult.grader_id <$> grades);
  graded_valid : Forall grade_valid grades;
  graded_all : Forall passing grades → GraderResult.kind <$> grades = stage_kind <$> stages
}.

Section pipeline.
Context {S : Type}.

Definition stages_valid (stages : list (GraderStage S)) : Prop :=
  ∀ stage case output s, stage ∈ stages →
    wp (stage_grader stage case output) (fun g _ => grade_valid g) (fun _ _ => True) s.

Lemma grade_stages_spec stages case output results identities s :
  stages_valid stages →
  wp (grade_stages stages case output results identities)
    (fun grades _ => ∃ new, grades = results ++ new ∧ graded stages new ∧
       ∀ g, g ∈ new → GraderResult.grader_id g ∉ identities)
    (fun _ _ => True) s.
Proof.
  revert results identities s.
  induction stages as [|stage stages IH]; intros results identities s Hv; cbn [grade_stages].
  { apply wp_ret. exists []. rewrite app_nil_r. split; [done|]. split; [|set_solver].
    constructor; cbn; try done; by constructor. }
  apply wp_bind. eapply wp_mono; [apply Hv; left| |done]. cbv beta. intros g s1 Hg.
  apply wp_bind, wp_throw_if; [intros Hk|done]. apply wp_bind, wp_throw_if; [intros Hid|done].
  bool_hyps. destruct (negb _) eqn:Est; bool_hyps.
  - apply wp_ret. exists [g]. split; [done|]. split; [|set_solver]. constructor; cbn.
    + done.
    + rewrite Hk. by apply prefix_cons, prefix_nil.
    + apply NoDup_singleton.
    + by constructor.
    + rewrite Forall_singleton. intros Hp. by destruct (Est Hp).
  - eapply wp_mono; [apply IH; intros ?????; apply Hv; by right| |done]. cbv beta.
    intros grades s2 (new & -> & [] & Hfresh). exists (g :: new). rewrite <- app_assoc.
    split; [done|]. split; [constructor; cbn|].
    + done.
    + rewrite Hk. by apply prefix_cons.
    + constructor; [|done]. intros (x & E & Hx)%list_elem_of_fmap.
      specialize (Hfresh x Hx). rewrite <- E in Hfresh. set_solver.
    + by constructor.
    + intros [_ Hp]%Forall_cons. rewrite Hk. f_equal. auto.
    + intros x [->|Hx]%elem_of_cons; [done|]. specialize (Hfresh x Hx). set_solver.
Qed.

Lemma pipeline_grade_spec stages case output s : stages_valid stages →
  wp (pipeline_grade stages case output) (fun grades _ => graded stages grades)
    (fun _ _ => True) s.
Proof.
  intros Hv. eapply wp_mono; [by apply grade_stages_spec| |done].
  cbv beta. by intros grades s' (new & -> & Hg & _).
Qed.
End pipeline.

(** ** One case *)

(** What the record of a case that went through says. *)
Record case_ran {S} (stages : list (GraderStage S)) (trial_id : uuid) (case : EvaluationCase.t)
    (seed : Z) (r : TrialCaseResult.t) : Prop := {
  ran_case : TrialCaseResult.case_id r = EvaluationCase.case_id case;
  ran_input : TrialCaseResult.input_payload r = EvaluationCase.input_payload case;
  ran_executed : TrialCaseResult.subject_executed r = true;
  ran_output : is_Some (TrialCaseResult.output_payload r);
  ran_executor : is_Some (TrialCaseResult.executor_id r);
  ran_seed : TrialCaseResult.random_seed r = Some seed;
  ran_grades : graded stages (TrialCaseResult.grader_results r);
  ran_trial : ∀ g, g ∈ TrialCaseResult.grader_results r → GraderResult.trial_id g = trial_id
}.

(** Every record, also of a case that ended the trial. *)
Definition record_fits (trial_id : uuid) (r : TrialCaseResult.t) : Prop :=
  0 <= TrialCaseResult.cost_microunits r ∧
  ∀ g, g ∈ TrialCaseResult.grader_results r → GraderResult.trial_id g = trial_id.

Definition cost_nonneg (r : TrialCaseResult.t) : Prop := 0 <= TrialCaseResult.cost_microunits r.

(** Changing the trial of a valid grade leaves everything else as it is. *)
Definition own (trial_id : uuid) (g : GraderResult.t) : GraderResult.t :=
  g <| GraderResult.trial_id := trial_id |>.

Lemma own_valid trial_id g : grade_valid g → GraderResult.new (own trial_id g) = Ok (own trial_id g).
Proof.
  unfold grade_valid, GraderResult.new.
  destruct g as [? ? ? score passed ? ? [st|] ?]; cbn; intros H; inv_ok;
    [|discriminate H].
  repeat match goal with H : _ = false |- _ => rewrite H; clear H end. cbn [raise_if mbind res_bind].
  change (GraderResult.inferred _) with
    (GraderResult.inferred (GraderResult.mk trial_id "" "" score passed "" [] (Some st)
       GraderKind.LLM)) in *.
  destruct (mem st _ && _); [done|]. by destruct (bool_decide _ && _).
Qed.

Lemma own_graded {S} (stages : list (GraderStage S)) trial_id grades :
  graded stages grades →
  mapM_res (fun g => GraderResult.new (own trial_id g)) grades = Ok (own trial_id <$> grades) ∧
  graded stages (own trial_id <$> grades).
Proof.
  intros [Hn Hk Hd Hv Ha]. split.
  - clear -Hv. induction Hv as [|g l Hg Hv IH]; [done|]. cbn [mapM_res fmap list_fmap].
    rewrite own_valid by done. cbn [mbind res_bind]. by rewrite IH.
  - assert (Hkinds : GraderResult.kind <$> (own trial_id <$> grades) = GraderResult.kind <$> grades).
    { rewrite <- list_fmap_compose. by apply list_fmap_ext. }
    assert (Hids : GraderResult.grader_id <$> (own trial_id <$> grades) =
      GraderResult.grader_id <$> grades) by (rewrite <- list_fmap_compose; by apply list_fmap_ext).
    constructor.
    + intros Hs E%fmap_nil_inv. by apply Hn in Hs.
    + by rewrite Hkinds.
    + by rewrite Hids.
    + apply Forall_fmap. eapply Forall_impl; [exact Hv|]. intros g Hg. by apply own_valid.
    + rewrite Forall_fmap. intros Hp. rewrite Hkinds. apply Ha.
      eapply Forall_impl; [exact Hp|]. done.
Qed.

Section harness.
Context {S : Type}.
Import EvaluationHarness.

(** The ports return what the constructors of their results accept. *)
Definition executor_valid (execute : executor S) : Prop := ∀ version input seed s,
  wp (execute version input seed)
    (fun x _ => SubjectExecutionResult.post_init x = Ok tt) (fun _ _ => True) s.

Lemma executed_ok case seed x grades reason :
  SubjectExecutionResult.post_init x = Ok tt →
  ∃ r, executed case seed x grades reason = Ok r ∧ TrialCaseResult.grader_results r = grades ∧
    0 <= TrialCaseResult.cost_microunits r ∧
    TrialCaseResult.case_id r = EvaluationCase.case_id case ∧
    TrialCaseResult.input_payload r = EvaluationCase.input_payload case ∧
    TrialCaseResult.subject_executed r = true ∧ is_Some (TrialCaseResult.output_payload r) ∧
    is_Some (TrialCaseResult.executor_id r) ∧ TrialCaseResult.random_seed r = Some seed.
Proof.
  unfold SubjectExecutionResult.post_init. intros H. inv_ok. bool_hyps.
  unfold executed, TrialCaseResult.new, TrialCaseResult.post_init. cbn.
  repeat match goal with
  | H : PyStr.empty ?e = false |- context [PyStr.empty ?e] => rewrite H
  end.
  rewrite bool_decide_false by done. cbn.
  destruct (Z.ltb_spec (SubjectExecutionResult.cost_microunits x) 0); [lia|]. cbn.
  eexists. split; [reflexivity|]. cbn. eauto 10.
Qed.

Lemma unexecuted_ok case seed reason : PyStr.empty reason = false →
  ∃ r, unexecuted case seed reason = Ok r ∧ TrialCaseResult.grader_results r = [] ∧
    TrialCaseResult.cost_microunits r = 0.
Proof.
  intros H. unfold unexecuted, TrialCaseResult.new, TrialCaseResult.post_init. cbn.
  rewrite H. cbn. eauto.
Qed.

Definition case_outcome (stages : list (GraderStage S)) trial_id case seed
    (o : TrialCaseResult.t * option string) : Prop :=
  record_fits trial_id o.1 ∧
  match o.2 with
  | None => case_ran stages trial_id case seed o.1
  | Some reason => PyStr.empty reason = false
  end.

Lemma run_case_spec execute stages version trial_id case seed s :
  executor_valid execute → stages_valid stages →
  wp (run_case execute stages version trial_id case seed)
    (fun o _ => case_outcome stages trial_id case seed o) (fun _ _ => False) s.
Proof.
  intros Hex Hst. unfold run_case.
  assert (Hnot : ∀ reason (s : S), PyStr.empty reason = false →
    wp (result ← lift (unexecuted case seed reason); mret (result, Some reason))
      (fun o _ => case_outcome stages trial_id case seed o) (fun _ _ => False) s).
  { intros reason s' Hr. destruct (unexecuted_ok case seed reason Hr) as (r & Er & Hg & Hc).
    rewrite Er. apply wp_bind, wp_lift; [|done]. intros ? [= <-]. apply wp_ret.
    split; [|done]. split; cbn; [lia|]. rewrite Hg. set_solver. }
  apply wp_bind, wp_try_all, wp_bind. eapply wp_mono; [apply Hex|..]; cbv beta.
  - intros x s1 Hx. apply wp_ret. destruct (negb _); [by apply Hnot|].
    apply wp_bind, wp_try_all, wp_bind. eapply wp_mono; [by apply pipeline_grade_spec|..]; cbv beta.
    + intros grades s2 Hg. destruct (own_graded stages trial_id grades Hg) as [Eo Ho].
      change (mapM_res (fun g => GraderResult.new (own trial_id g)) grades = Ok (own trial_id <$> grades))
        in Eo.
      apply wp_bind, wp_lift; [|intros ? E'; pose proof (eq_trans (eq_sym Eo) E') as E2; discriminate E2].
      intros owned E'. pose proof (eq_trans (eq_sym Eo) E') as E2. injection E2 as <-. apply wp_ret.
      destruct (executed_ok case seed x (own trial_id <$> grades) None Hx)
        as (r & Er & Hgr & Hc & ? & ? & ? & ? & ? & ?).
      apply wp_bind. rewrite Er. apply wp_lift; [|done]. intros ? [= <-]. apply wp_ret.
      assert (Ht : ∀ g, g ∈ TrialCaseResult.grader_results r → GraderResult.trial_id g = trial_id).
      { rewrite Hgr. by intros g (y & -> & _)%list_elem_of_fmap. }
      split; [by split|]. cbn. constructor; try done. by rewrite Hgr.
    + intros exc s2 _. apply wp_ret.
      destruct (executed_ok case seed x [] (Some ("grader execution failed: " +:+ describe_exn exc)) Hx)
        as (r & Er & Hgr & Hc & _).
      apply wp_bind. rewrite Er. apply wp_lift; [|done]. intros ? [= <-]. apply wp_ret.
      split; [|done]. split; [done|]. cbn. rewrite Hgr. set_solver.
  - intros exc s1 _. apply wp_ret. by apply Hnot.
Qed.

(** ** All cases *)

(** The records are of the cases, in order, with consecutive seeds. *)
Fixpoint all_ran (stages : list (GraderStage S)) trial_id (seed : Z)
    (cases : list EvaluationCase.t) (results : list TrialCaseResult.t) : Prop :=
  match cases, results with
  | [], [] => True
  | c :: cases', r :: results' =>
      case_ran stages trial_id c seed r ∧ all_ran stages trial_id (seed + 1) cases' results'
  | _, _ => False
  end.

Lemma run_cases_spec execute stages version trial_id seed index cases acc s :
  executor_valid execute → stages_valid stages →
  wp (run_cases execute stages version trial_id seed index cases acc)
    (fun o _ => ∃ new, o.1 = acc ++ new ∧ Forall (record_fits trial_id) new ∧
       match o.2 with
       | None => all_ran stages trial_id (seed + index) cases new
       | Some reason => PyStr.empty reason = false
       end) (fun _ _ => False) s.
Proof.
  intros Hex Hst. revert index acc s.
  induction cases as [|c cases IH]; intros index acc s; cbn [run_cases].
  { apply wp_ret. exists []. by rewrite app_nil_r. }
  apply wp_bind. eapply wp_mono; [by apply run_case_spec| |done]. cbv beta.
  intros [r [reason|]] s1 [Hr Ho]; cbn in Hr, Ho.
  - apply wp_ret. exists [r]. split; [done|]. split; [by constructor|done].
  - eapply wp_mono; [apply IH| |done]. cbv beta. intros [rs stopped] s2 (new & E & Hf & Hm).
    cbn in *. exists (r :: new). rewrite E, <- app_assoc. split; [done|].
    split; [by constructor|]. destruct stopped; [done|]. cbn. split; [done|].
    by replace (seed + index + 1) with (seed + (index + 1)) by lia.
Qed.

Lemma total_cost_nonneg trial_id results : Forall (record_fits trial_id) results →
  0 <= total_cost results.
Proof.
  unfold total_cost. assert (∀ l n, Forall (fun x => 0 <= x) l → 0 <= n → 0 <= foldl Z.add n l) as H.
  { induction l as [|x l IH]; intros n Hl Hn; cbn; [done|].
    apply Forall_cons in Hl as [Hx Hl]. apply IH; [done|lia]. }
  intros Hr. apply H; [|lia]. apply Forall_fmap. eapply Forall_impl; [exact Hr|]. by intros r [].
Qed.

(** ** The trial *)

Lemma case_passes_true r :
  case_passes r = true ↔
  TrialCaseResult.grader_results r ≠ [] ∧ Forall passing (TrialCaseResult.grader_results r).
Proof.
  unfold case_passes. destruct (TrialCaseResult.grader_results r) as [|g l]; [naive_solver|].
  rewrite all_true, Forall_forall. unfold passing. split.
  - intros H. split; [done|]. intros x Hx. specialize (H x Hx). by bool_hyps.
  - intros [_ H] x Hx. by apply bool_decide_eq_true, H.
Qed.

Lemma elem_of_all_grades results r g :
  (r, g) ∈ all_grades results ↔ r ∈ results ∧ g ∈ TrialCaseResult.grader_results r.
Proof.
  unfold all_grades. rewrite list_elem_of_bind. split.
  - intros (x & (y & [= -> ->] & Hy)%list_elem_of_fmap & Hx). done.
  - intros [Hr Hg]. exists r. split; [|done]. apply list_elem_of_fmap. eauto.
Qed.

Lemma all_ran_lookup stages trial_id seed cases results i c r :
  all_ran stages trial_id seed cases results → cases !! i = Some c → results !! i = Some r →
  case_ran stages trial_id c (seed + Z.of_nat i) r.
Proof.
  revert seed results i. induction cases as [|c' cases IH]; intros seed [|r' results] i; try done.
  cbn [all_ran]. intros [Hr Hall] Hc Hres. destruct i as [|i]; cbn in Hc, Hres.
  - simplify_eq. by rewrite Z.add_0_r.
  - replace (seed + Z.of_nat (Datatypes.S i)) with (seed + 1 + Z.of_nat i) by lia. by eapply IH.
Qed.

Lemma all_ran_length stages trial_id seed cases results :
  all_ran stages trial_id seed cases results → length results = length cases.
Proof.
  revert seed results. induction cases as [|c cases IH]; intros seed [|r results]; try done.
  cbn. intros [_ H]. f_equal. by eapply IH.
Qed.

Lemma all_ran_executed stages trial_id seed cases results r :
  all_ran stages trial_id seed cases results → r ∈ results →
  TrialCaseResult.subject_executed r = true.
Proof.
  intros H (i & Hi)%list_elem_of_lookup. pose proof (all_ran_length _ _ _ _ _ H) as Hl.
  destruct (cases !! i) as [c|] eqn:Ec.
  - eapply ran_executed. by eapply all_ran_lookup.
  - apply lookup_ge_None in Ec. apply lookup_lt_Some in Hi. lia.
Qed.

(** The gating cases decide first. *)
Lemma gating_failed_false suite results i c r :
  gating_failed suite (case_passes <$> results) = false →
  EvaluationSuite.cases suite !! i = Some c → results !! i = Some r →
  EvaluationCase.gating c = true → case_passes r = true.
Proof.
  unfold gating_failed. rewrite any_false. intros H Hc Hr Hg.
  assert (Hin : (c, case_passes r) ∈ zip (EvaluationSuite.cases suite) (case_passes <$> results)).
  { apply list_elem_of_lookup. exists i. apply lookup_zip_with_Some.
    exists c, (case_passes r). rewrite list_lookup_fmap, Hr. done. }
  specialize (H _ Hin). cbn in H. rewrite Hg in H. cbn in H. by bool_hyps.
Qed.

Section one_run.
Context (h : EvaluationHarness.t S) (suite : EvaluationSuite.t + HarnessSuite.t)
  (subject tenant : uuid) (seed : Z).

Definition resolved : EvaluationSuite.t :=
  match suite with inl s => s | inr loaded => HarnessSuite.suite loaded end.

(** What the trial says about what was run. *)
Definition trial_fits (x : Trial.t) : Prop :=
  Trial.tenant_id x = tenant ∧ Trial.suite_id x = EvaluationSuite.suite_id resolved ∧
  Trial.suite_version x = EvaluationSuite.version resolved ∧
  Trial.subject_version_id x = subject ∧ Trial.random_seed x = Some seed ∧
  Trial.candidate_id x = None.

(** The evidence a verdict rests on. *)
Record verdict_earned (x : Trial.t) : Prop := {
  earned_public : ∀ s c, suite = inl s → c ∈ EvaluationSuite.cases s →
    EvaluationCase.visibility c = CaseVisibility.PUBLIC;
  earned_cases : ∃ stages, grader_pipeline h = Some stages ∧
    all_ran stages (Trial.trial_id x) seed (EvaluationSuite.cases resolved) (Trial.case_results x);
  earned_independent : ∀ r g, r ∈ Trial.case_results x → g ∈ TrialCaseResult.grader_results r →
    TrialCaseResult.executor_id r ≠ Some (GraderResult.grader_id g) ∧
    GraderResult.status g ∉ [Some GraderStatus.UNKNOWN; Some GraderStatus.INVALID];
  earned_status : Trial.status x =
    if gating_failed resolved (case_passes <$> Trial.case_results x) then TrialStatus.FAILED
    else match weighted resolved (case_passes <$> Trial.case_results x) with
         | Ok true => TrialStatus.PASSED
         | _ => TrialStatus.FAILED
         end
}.

Definition trial_ok (x : Trial.t) : Prop :=
  trial_fits x ∧
  (Trial.status x = TrialStatus.INVALID ∧
     (∃ reason, Trial.failure_reason x = Some reason ∧ PyStr.empty reason = false) ∨
   verdict_earned x).

Definition zero_weight (x : exn) (_ : S) : Prop :=
  exn_class x = OtherError "ZeroDivisionError" ∧
  feq (float_sum (EvaluationCase.weight <$> EvaluationSuite.cases resolved)) fzero = true.

Lemma trial_new_verdict x trial_id : Trial.case_results x ≠ [] →
  Trial.status x ∈ [TrialStatus.PASSED; TrialStatus.FAILED] →
  (∀ r, r ∈ Trial.case_results x → TrialCaseResult.subject_executed r = true) →
  Trial.trial_id x = trial_id →
  Forall (record_fits trial_id) (Trial.case_results x) →
  Trial.total_cost_microunits x = total_cost (Trial.case_results x) →
  Trial.new x = Ok x.
Proof.
  intros Hne Hst Hex Hid Hfits Hcost. unfold Trial.new, Trial.post_init.
  pose proof (total_cost_nonneg _ _ Hfits). rewrite Hcost.
  destruct (Z.ltb_spec (total_cost (Trial.case_results x)) 0); [lia|]. cbn [raise_if mbind res_bind].
  rewrite (bool_decide_false (length _ = 0%nat)) by (by intros ?%nil_length_inv).
  assert (any (fun r => negb (TrialCaseResult.subject_executed r)) (Trial.case_results x) = false)
    as -> by (apply any_false; intros r Hr; by rewrite Hex).
  rewrite orb_false_l, andb_false_r. cbn [raise_if mbind res_bind].
  rewrite (proj2 (any_false _ (Trial.case_results x))).
  2: { intros r Hr. apply any_false. intros g Hg. rewrite Forall_forall in Hfits.
       destruct (Hfits r Hr) as [_ Hf]. rewrite (Hf g Hg), Hid. by rewrite bool_decide_true. }
  cbn [raise_if mbind res_bind].
  rewrite (bool_decide_false (Trial.status x = TrialStatus.INVALID)); [done|].
  intros E. rewrite E in Hst. by apply mem_true in Hst.
Qed.

Lemma invalid_trial_spec started reason results trial_id s :
  PyStr.empty reason = false → Forall (record_fits trial_id) results →
  wp (invalid_trial h resolved subject tenant seed started reason results trial_id)
    (fun x _ => trial_ok x) zero_weight s.
Proof.
  intros Hreason Hr. unfold invalid_trial. apply wp_bind, wp_now. intros t.
  unfold Trial.new, Trial.post_init. cbn. rewrite Hreason. cbn.
  pose proof (total_cost_nonneg _ _ Hr). destruct (Z.ltb_spec (total_cost results) 0); [lia|]. cbn.
  rewrite (proj2 (any_false _ _)); [cbn|].
  - apply wp_ret. split; [done|]. left. cbn. eauto.
  - intros r Hin. apply any_false. intros g Hg. rewrite Forall_forall in Hr.
    destruct (Hr r Hin) as [_ Hf]. rewrite (Hf g Hg). by rewrite bool_decide_true.
Qed.

Lemma verdict_spec stages started results trial_id s :
  EvaluationSuite.cases resolved ≠ [] → grader_pipeline h = Some stages →
  (∀ s c, suite = inl s → c ∈ EvaluationSuite.cases s →
     EvaluationCase.visibility c = CaseVisibility.PUBLIC) →
  Forall (record_fits trial_id) results →
  all_ran stages trial_id seed (EvaluationSuite.cases resolved) results →
  identity_conflict results = None → uncertain results = None →
  wp (verdict h resolved subject tenant seed started trial_id results)
    (fun x _ => trial_ok x) zero_weight s.
Proof.
  intros Hcases Hst Hpub Hfits Hran Hid Hun. unfold verdict.
  set (passes := case_passes <$> results).
  assert (Hne : results ≠ []).
  { intros ->. apply all_ran_length in Hran. by destruct (EvaluationSuite.cases resolved). }
  assert (Hgrades : ∀ r g, r ∈ results → g ∈ TrialCaseResult.grader_results r →
    TrialCaseResult.executor_id r ≠ Some (GraderResult.grader_id g) ∧
    GraderResult.status g ∉ [Some GraderStatus.UNKNOWN; Some GraderStatus.INVALID]).
  { intros r g Hr Hg. unfold identity_conflict, uncertain in *.
    pose proof (proj2 (elem_of_all_grades _ _ _) (conj Hr Hg)) as Hin.
    apply fmap_None in Hid, Hun. apply list_elem_of_In in Hin.
    pose proof (List.find_none _ _ Hid _ Hin) as H1. pose proof (List.find_none _ _ Hun _ Hin) as H2.
    cbn in H1, H2. bool_hyps. split; [congruence|done]. }
  assert (Hend : ∀ st s', st ∈ [TrialStatus.PASSED; TrialStatus.FAILED] →
    st = (if gating_failed resolved passes then TrialStatus.FAILED
          else match weighted resolved passes with
               | Ok true => TrialStatus.PASSED | _ => TrialStatus.FAILED end) →
    wp (completed_at ← now; lift (Trial.new {|
          Trial.tenant_id := tenant;
          Trial.suite_id := EvaluationSuite.suite_id resolved;
          Trial.suite_version := EvaluationSuite.version resolved;
          Trial.subject_version_id := subject;
          Trial.harness_version := harness_version h;
          Trial.trial_id := trial_id;
          Trial.status := st;
          Trial.random_seed := Some seed;
          Trial.case_results := results;
          Trial.total_cost_microunits := total_cost results;
          Trial.failure_reason := None;
          Trial.started_at := Some started;
          Trial.completed_at := Some completed_at;
          Trial.candidate_id := None |})) (fun x _ => trial_ok x) zero_weight s').
  { intros st s' Hin Hstatus. apply wp_bind, wp_now. intros completed.
    rewrite (trial_new_verdict _ trial_id); [|done|done|by intros; eapply all_ran_executed|done..].
    apply wp_lift; [|done]. intros ? [= <-]. split; [done|]. right.
    constructor; cbn; [done|by exists stages|done|done]. }
  apply wp_bind. destruct (gating_failed resolved passes) eqn:Eg.
  { apply wp_ret, Hend; [set_solver|done]. }
  apply wp_bind. destruct (weighted resolved passes) as [[]|x] eqn:Ew; apply wp_lift; try done.
  - intros ? [= <-]. apply wp_ret, Hend; [set_solver|done].
  - intros ? [= <-]. apply wp_ret, Hend; [set_solver|done].
  - intros ? [= <-]. unfold weighted in Ew. cbv zeta in Ew.
    destruct (feq _ fzero) eqn:Ez; [|done]. injection Ew as <-. done.
Qed.

Lemma run_suite_spec s :
  (∀ execute, subject_executor h = Some execute → executor_valid execute) →
  (∀ stages, grader_pipeline h = Some stages → stages_valid stages) →
  EvaluationSuite.cases resolved ≠ [] →
  wp (run_suite h suite subject tenant seed) (fun x _ => trial_ok x) zero_weight s.
Proof.
  intros Hex Hst Hcases. unfold run_suite. apply wp_bind, wp_now. intros started.
  apply wp_bind, wp_uuid4_any. intros trial_id. fold resolved. cbv zeta.
  destruct (match suite with inl _ => _ | inr _ => _ end) eqn:Ep.
  { by apply invalid_trial_spec. }
  destruct (subject_executor h) as [execute|] eqn:Eex; [|by apply invalid_trial_spec].
  destruct (grader_pipeline h) as [stages|] eqn:Est; [|by apply invalid_trial_spec].
  apply wp_bind. eapply wp_mono; [apply run_cases_spec; by auto| |done]. cbv beta.
  intros [results stopped] s1 (new & E & Hf & Hm). cbn in E, Hm. subst results.
  destruct stopped as [reason|]; [by apply invalid_trial_spec|].
  rewrite Z.add_0_r in Hm.
  destruct (identity_conflict new) eqn:Eid; [by apply invalid_trial_spec|].
  destruct (uncertain new) eqn:Eun; [by apply invalid_trial_spec|].
  eapply verdict_spec; [done..| |done|done|done|done].
  intros s' c Hs Hc. rewrite Hs in Ep. rewrite any_false in Ep. specialize (Ep c Hc).
  unfold EvaluationSuiteCatalog.is_public in Ep. by bool_hyps.
Qed.

(** A PASSED trial: all that was run and graded for it. *)
Definition pass_earned (x : Trial.t) : Prop :=
  ∃ stages, grader_pipeline h = Some stages ∧
    all_ran stages (Trial.trial_id x) seed (EvaluationSuite.cases resolved) (Trial.case_results x) ∧
    (∀ i c r, EvaluationSuite.cases resolved !! i = Some c → Trial.case_results x !! i = Some r →
       EvaluationCase.gating c = true →
       GraderResult.kind <$> TrialCaseResult.grader_results r = stage_kind <$> stages ∧
       Forall passing (TrialCaseResult.grader_results r)) ∧
    weighted resolved (case_passes <$> Trial.case_results x) = Ok true ∧
    (∀ r g, r ∈ Trial.case_results x → g ∈ TrialCaseResult.grader_results r →
       TrialCaseResult.executor_id r ≠ Some (GraderResult.grader_id g)).

Lemma verdict_pass x : verdict_earned x → Trial.status x = TrialStatus.PASSED → pass_earned x.
Proof.
  intros [_ (stages & Est & Hran) Hind Hs] Hp. rewrite Hs in Hp.
  destruct (gating_failed _ _) eqn:Eg; [done|].
  destruct (weighted _ _) as [[]|] eqn:Ew; try done.
  exists stages. split_and!; [done|done| |done|by intros r g Hr Hg; apply (Hind r g)].
  intros i c r Hc Hr Hg. pose proof (gating_failed_false _ _ _ _ _ Eg Hc Hr Hg) as Hpass.
  apply case_passes_true in Hpass as [_ Hpass]. split; [|done].
  by apply (graded_all _ _ (ran_grades _ _ _ _ _ (all_ran_lookup _ _ _ _ _ _ _ _ Hran Hc Hr))).
Qed.

(** Whatever the executor and the graders do, the suite is answered with a trial of
    the subject, unless the weights of its cases sum to zero; a PASSED trial was
    earned: every case ran, in order, every gating case passed every stage, no
    grader graded its own execution, and the passed weight reaches the threshold. *)
(** C15. Whatever the subject executor and the graders do, a suite is answered with a
    trial of the asked subject; a PASSED one was earned: every case ran in order,
    every gating case passed every stage, no grader graded its own execution, and the
    passed weight reaches the threshold. *)
Theorem passed_trial_is_earned s :
  (∀ execute, subject_executor h = Some execute → executor_valid execute) →
  (∀ stages, grader_pipeline h = Some stages → stages_valid stages) →
  EvaluationSuite.cases resolved ≠ [] →
  wp (run_suite h suite subject tenant seed)
    (fun x _ => trial_fits x ∧
       Trial.status x ∈ [TrialStatus.PASSED; TrialStatus.FAILED; TrialStatus.INVALID] ∧
       (Trial.status x = TrialStatus.PASSED → pass_earned x))
    zero_weight s.
Proof.
  intros H1 H2 H3. eapply wp_mono; [by apply run_suite_spec| |done]. cbv beta.
  intros x s' [Hf [[Hs _]|Hv]]; (split; [done|]).
  - rewrite Hs. split; [set_solver|done].
  - split; [|by apply verdict_pass]. rewrite (earned_status _ Hv).
    repeat case_match; set_solver.
Qed.
End one_run.
End harness.

(** ** The graders of the package *)

Lemma grader_new_valid x g : GraderResult.new x = Ok g → grade_valid g.
Proof.
  unfold grade_valid, GraderResult.new. destruct x as [? ? ? score passed ? ? st ?]. cbn.
  intros H. inv_ok.
  assert (Hi : ∀ s, GraderResult.inferred (GraderResult.mk trial_id grader_id grader_version score
    passed rationale evidence_refs s kind) = GraderResult.inferred (GraderResult.mk 0%N "" "" score
    passed "" [] None GraderKind.LLM)) by done.
  destruct st as [st|].
  - destruct (mem st _ && _) eqn:E1; [done|]. destruct (bool_decide _ && _) eqn:E2; [done|].
    injection H as <-. cbn.
    rewrite Hx, Hx0. cbn [raise_if mbind res_bind]. by rewrite E1, E2.
  - injection H as <-. cbn.
    rewrite Hx, Hx0. cbn [raise_if mbind res_bind]. rewrite !Hi.
    by destruct passed as [[]|].
Qed.

Lemma independent_grade_valid {S} (g : IndependentGrader S) case output (s : S) :
  (∀ c o s, wp (backend g c o) (fun _ _ => True) (fun _ _ => True) s) →
  wp (independent_grade g case output) (fun r _ => grade_valid r) (fun _ _ => True) s.
Proof.
  intros Hb. unfold independent_grade. apply wp_bind. eapply wp_mono; [apply Hb| |done].
  cbv beta. intros a s' _. apply wp_lift; [|done]. intros r Hr. by eapply grader_new_valid.
Qed.

Lemma deterministic_grade_valid {S} case output (s : S) :
  wp (deterministic_grade case output) (fun r _ => grade_valid r) (fun _ _ => True) s.
Proof.
  unfold deterministic_grade. apply wp_bind, wp_uuid4_any. intros u.
  apply wp_lift; [|done]. intros r Hr. by eapply grader_new_valid.
Qed.

(** ** A suite of two cases *)

Definition echo_executor : EvaluationHarness.executor unit := fun version input seed =>
  mret (SubjectExecutionResult.mk version (input ++ [("seed", JInt seed)]) "executor-1"
          ["evidence:1"] "env:1" None [] 5).

Definition echo_harness : EvaluationHarness.t unit :=
  EvaluationHarness.mk (Some echo_executor)
    (Some [{| stage_kind := GraderKind.DETERMINISTIC; stage_grader := deterministic_grade |}]) "2".

Definition echo_suite : EvaluationSuite.t :=
  EvaluationSuite.mk "echo" "1"
    [EvaluationCase.mk "a" [("x", JInt 1)] [("x", JInt 1)] [] CaseVisibility.PUBLIC (of_int 2) true;
     EvaluationCase.mk "b" [("x", JInt 2)] [("x", JInt 3)] [] CaseVisibility.PUBLIC (of_int 1) false]
    (of_decimal 6 (-1)).

Definition harness_env : env := Env (fun n => Aware (seconds (Z.of_nat n))) (fun n => N.of_nat (50 + n)).

Definition echo_run : res Trial.t * st unit :=
  EvaluationHarness.run_suite echo_harness (inl echo_suite) 20%N 7%N 3 harness_env (St tt 0 0).

Definition status_of (r : res Trial.t) : option TrialStatus.t :=
  match r with Ok x => Some (Trial.status x) | Err _ => None end.

Lemma echo_passes : status_of echo_run.1 = Some TrialStatus.PASSED.
Proof. vm_compute. reflexivity. Qed.

Lemma echo_executor_valid execute :
  EvaluationHarness.subject_executor echo_harness = Some execute → executor_valid execute.
Proof. intros [= <-] v i n s. by apply wp_ret. Qed.

Lemma echo_stages_valid stages :
  EvaluationHarness.grader_pipeline echo_harness = Some stages → stages_valid stages.
Proof.
  intros [= <-] stage c o s ->%list_elem_of_singleton. apply deterministic_grade_valid.
Qed.

Lemma passed_trial_is_earned_witness : ∃ x, echo_run.1 = Ok x ∧
  pass_earned echo_harness (inl echo_suite) 3 x.
Proof.
  pose proof echo_passes as Hp. pose proof (passed_trial_is_earned echo_harness (inl echo_suite)
    20%N 7%N 3 tt echo_executor_valid echo_stages_valid ltac:(discriminate) harness_env 0%nat 0%nat
    (fun _ => I)) as H.
  change (EvaluationHarness.run_suite _ _ _ _ _ _ _) with echo_run in H. revert Hp H.
  generalize echo_run. intros [[x|x] s] Hp H; [|discriminate Hp].
  exists x. split; [reflexivity|]. injection Hp as Hp. exact (proj2 (proj2 H) Hp).
Defined.

(** ** The catalog *)

(** A candidate generator learns the public cases and how many others there are;
    the suite itself only goes to the harness. *)
Lemma generator_sees_public_cases catalog suite_id version view :
  EvaluationSuiteCatalog.describe_for_generator catalog suite_id version = Ok view →
  ∃ suite, catalog !! (suite_id, version) = Some suite ∧
    (∀ c, c ∈ GeneratorSuiteView.public_cases view →
       ∃ case, case ∈ EvaluationSuite.cases suite ∧
         EvaluationCase.visibility case = CaseVisibility.PUBLIC ∧
         PublicCaseDescriptor.case_id c = EvaluationCase.case_id case) ∧
    GeneratorSuiteView.protected_case_count view =
      Z.of_nat (length (List.filter (fun case => negb (EvaluationSuiteCatalog.is_public case))
                          (EvaluationSuite.cases suite))).
Proof.
  unfold EvaluationSuiteCatalog.describe_for_generator, EvaluationSuiteCatalog.get.
  intros H. destruct (catalog !! _) as [suite|]; [|done]. cbn [mbind res_bind] in H.
  injection H as <-. exists suite. split; [done|]. cbn. split.
  - intros c (case & -> & Hin)%list_elem_of_fmap. apply elem_of_list_filter in Hin as [Hin Hp].
    exists case. unfold EvaluationSuiteCatalog.is_public in Hp. by bool_hyps.
  - rewrite length_fmap. induction (EvaluationSuite.cases suite) as [|c l IH]; [done|].
    cbn [List.filter]. destruct (EvaluationSuiteCatalog.is_public c); cbn [negb length]; lia.
Qed.

Lemma load_for_harness_role catalog suite_id version access loaded :
  EvaluationSuiteCatalog.load_for_harness catalog suite_id version access = Ok loaded →
  SuiteAccessRole.CANDIDATE_GENERATOR ∉ SuiteAccessContext.roles access ∧
  SuiteAccessRole.EVALUATION_HARNESS ∈ SuiteAccessContext.roles access ∧
  catalog !! (suite_id, version) = Some (HarnessSuite.suite loaded).
Proof.
  unfold EvaluationSuiteCatalog.load_for_harness, EvaluationSuiteCatalog.get. intros H. inv_ok.
  bool_hyps. destruct (catalog !! _); [|done]. by simplify_eq.
Qed.
