(* ===== verification/Isolation.v ===== *)
(** * packages/runtime-kernel: isolation.py

    The physical names of a tenant's resources, and telemetry records.  No name
    of one tenant is a name of another on the same surface, whatever the two
    deployments' prefixes are. *)

From S2P Require Import Prelude PyStr PyDict PyFloat Json Digests Uuids.
From Stdlib Require Import ZArith.

Open Scope string_scope.
Open Scope list_scope.
Open Scope Z_scope.

(** ** Labels *)

Definition is_lower_az (c : ascii) : bool := (97 <=? ord c) && (ord c <=? 122).
(** [[a-z0-9]] *)
Definition is_alnum (c : ascii) : bool := is_lower_az c || is_digit c.

(** [re.fullmatch(r"[a-z][c]{0,31}", s)] for a class [c] of characters *)
Definition bounded_label (rest : ascii → bool) (s : string) : bool :=
  match chars s with
  | c :: l => is_lower_az c && all rest l && (length l <=? 31)%nat
  | [] => false
  end.

(** [re.sub(r"[^a-z0-9]+", sep, s)] *)
Fixpoint separate (sep : ascii) (in_run : bool) (l : list ascii) : list ascii :=
  match l with
  | [] => []
  | c :: l =>
      if is_alnum c then c :: separate sep false l
      else if in_run then separate sep true l else sep :: separate sep true l
  end.

(** [_label], with the separator and its default *)
Definition label_with (separator : ascii) (value : string) : res string :=
  let normalized := of_chars (strip_chars (fun c => bool_decide (c = separator))
                      (separate separator false (chars (lower (strip value))))) in
  raise_if (empty normalized || (80 <? len normalized)) ValueError
    "logical namespace name must be non-empty and at most 80 characters" ;;
  Ok normalized.

Definition label (value : string) : res string := label_with "-" value.

(** ** Namespaces *)

Module IsolationRiskPool.
Inductive t := READ | WRITE | HIGH_RISK.
#[global] Instance t_eq_dec : EqDecision t.
Proof. solve_decision. Defined.

Definition value (x : t) : string :=
  match x with READ => "read" | WRITE => "write" | HIGH_RISK => "high-risk" end.

Definition from_risk_tier (risk_tier : string) : t :=
  let normalized := lower (strip risk_tier) in
  if mem normalized ["critical"; "high"] then HIGH_RISK
  else if mem normalized ["medium"; "write"] then WRITE else READ.
End IsolationRiskPool.

Module TenantNamespaces.
Record t := mk { tenant_id : uuid; prefix : string }.

Definition post_init (x : t) : res unit :=
  raise_if (negb (bounded_label (fun c => is_alnum c || bool_decide (c = "-"%char)) (prefix x)))
    ValueError "namespace prefix must be a bounded DNS-safe label".

Definition new (x : t) : res t := post_init x ;; Ok x.

(** [TenantNamespaces(tenant_id)] *)
Definition of_tenant (tenant_id : uuid) : t := mk tenant_id "autonoesis".

Section names.
Context (self : t).

Definition tenant_token : string := uuid_hex (tenant_id self).

Definition object_prefix (resource : string) : res string :=
  l ← label resource; Ok ("tenants/" +:+ uuid_str (tenant_id self) +:+ "/" +:+ l +:+ "/").

Definition cache_key (logical_key : string) : res string :=
  l ← label_with ":" logical_key;
  Ok (prefix self +:+ ":tenant:" +:+ uuid_str (tenant_id self) +:+ ":" +:+ l).

Definition search_index (logical_name : string) : res string :=
  l ← label logical_name; Ok (prefix self +:+ "-t-" +:+ tenant_token +:+ "-" +:+ l).

Definition vector_collection (logical_name : string) : res string :=
  l ← label_with "_" logical_name; Ok (prefix self +:+ "_t_" +:+ tenant_token +:+ "_" +:+ l).

Definition message_topic (logical_name : string) : res string :=
  l ← label_with "." logical_name;
  Ok (prefix self +:+ ".tenant." +:+ uuid_str (tenant_id self) +:+ "." +:+ l).

Definition workflow_namespace (risk_pool : IsolationRiskPool.t) : string :=
  prefix self +:+ "-t-" +:+ tenant_token +:+ "-" +:+ IsolationRiskPool.value risk_pool.

Definition workflow_task_queue (risk_pool : IsolationRiskPool.t) : string :=
  prefix self +:+ "-t-" +:+ tenant_token +:+ "-" +:+ IsolationRiskPool.value risk_pool.

Definition workflow_id (run_id : uuid) : string :=
  "tenant-" +:+ tenant_token +:+ "-goal-run-" +:+ uuid_str run_id.

Definition shadow_workflow_id (deployment_id request_id : uuid) (payload_digest : string) : res string :=
  raise_if (not_sha256_hex payload_digest) ValueError
    "shadow payload digest must be lowercase sha256 hex" ;;
  Ok ("tenant-" +:+ tenant_token +:+ "-shadow-" +:+ uuid_str deployment_id +:+ "-" +:+
      uuid_str request_id +:+ "-" +:+ String.substring 0 16 payload_digest).

Definition release_workflow_id (action : string) (target_id : uuid) (command_digest : string)
    : res string :=
  raise_if (negb (bounded_label (fun c => is_alnum c || bool_decide (c = "_"%char)) action))
    ValueError "release action must be a bounded snake_case label" ;;
  raise_if (not_sha256_hex command_digest) ValueError
    "release command digest must be lowercase sha256 hex" ;;
  Ok ("tenant-" +:+ tenant_token +:+ "-release-" +:+ action +:+ "-" +:+ uuid_str target_id +:+ "-" +:+
      String.substring 0 16 command_digest).

Definition worker_pool (risk_pool : IsolationRiskPool.t) : string :=
  prefix self +:+ "/tenant/" +:+ uuid_str (tenant_id self) +:+ "/" +:+ IsolationRiskPool.value risk_pool.

Definition telemetry_attributes : list (string * string) :=
  [("autonoesis.tenant.id", uuid_str (tenant_id self))].

Definition evaluation_dataset (logical_name : string) : res string :=
  l ← label logical_name;
  Ok (prefix self +:+ "/tenants/" +:+ uuid_str (tenant_id self) +:+ "/evaluations/" +:+ l).

Definition audit_export_prefix : res string := object_prefix "audit-exports".

Definition resource_registry (logical_name : string) (risk_pool : IsolationRiskPool.t)
    : res (list (string * string)) :=
  l ← label logical_name;
  object ← object_prefix logical_name;
  cache ← cache_key logical_name;
  search ← search_index logical_name;
  vector ← vector_collection logical_name;
  topic ← message_topic logical_name;
  dataset ← evaluation_dataset logical_name;
  audit ← audit_export_prefix;
  Ok [("object", object); ("cache", cache); ("search", search); ("vector", vector);
      ("topic", topic); ("workflow", workflow_namespace risk_pool);
      ("telemetry", prefix self +:+ "/tenants/" +:+ uuid_str (tenant_id self) +:+ "/telemetry/" +:+ l);
      ("evaluation_dataset", dataset); ("audit_export", audit)].
End names.
End TenantNamespaces.

Module TenantTelemetryRecord.
Record t := mk {
  tenant_id : uuid; signal_type : string; trace_id : string; payload : list (string * json)
}.

Definition post_init (x : t) : res unit :=
  raise_if (negb (mem (signal_type x) ["trace"; "log"; "metric"]) || blank (trace_id x)) ValueError
    "telemetry requires a supported signal type and trace identity".

Definition new (x : t) : res t := post_init x ;; Ok x.

Definition for_export (x : t) (requested_tenant : uuid) : res (list (string * json)) :=
  raise_if (negb (bool_decide (requested_tenant = tenant_id x))) LookupError
    "telemetry record was not found" ;;
  Ok [("tenant_id", JStr (uuid_str (tenant_id x)));
      ("signal_type", JStr (signal_type x));
      ("trace_id", JStr (trace_id x));
      ("payload", JDict (payload x));
      ("attributes", JDict (prod_map id JStr <$>
         TenantNamespaces.telemetry_attributes (TenantNamespaces.of_tenant (tenant_id x))))].
End TenantTelemetryRecord.

Example labels_are_normalized : label "  Order  Events! " = Ok "order-events".
Proof. vm_compute. reflexivity. Qed.

(** ** Names of different tenants *)

(** What a tenant has names for. *)
Inductive surface :=
  | Object (resource : string) | Cache (key : string) | Search (name : string)
  | Vector (name : string) | Topic (name : string) | Namespace (pool : IsolationRiskPool.t)
  | TaskQueue (pool : IsolationRiskPool.t) | RunWorkflow (run_id : uuid)
  | ShadowWorkflow (deployment_id request_id : uuid) (digest : string)
  | ReleaseWorkflow (action : string) (target_id : uuid) (digest : string)
  | WorkerPool (pool : IsolationRiskPool.t) | Dataset (name : string).

Import TenantNamespaces.

Definition name_on (ns : TenantNamespaces.t) (x : surface) : res string :=
  match x with
  | Object r => object_prefix ns r
  | Cache k => cache_key ns k
  | Search n => search_index ns n
  | Vector n => vector_collection ns n
  | Topic n => message_topic ns n
  | Namespace pool => Ok (workflow_namespace ns pool)
  | TaskQueue pool => Ok (workflow_task_queue ns pool)
  | RunWorkflow r => Ok (workflow_id ns r)
  | ShadowWorkflow d r digest => shadow_workflow_id ns d r digest
  | ReleaseWorkflow a t digest => release_workflow_id ns a t digest
  | WorkerPool pool => Ok (worker_pool ns pool)
  | Dataset n => evaluation_dataset ns n
  end.

(** Where names are looked up: workflow identifiers share one name space. *)
Definition system (x : surface) : nat :=
  match x with
  | Object _ => 0 | Cache _ => 1 | Search _ => 2 | Vector _ => 3 | Topic _ => 4
  | Namespace _ => 5 | TaskQueue _ => 6
  | RunWorkflow _ | ShadowWorkflow _ _ _ | ReleaseWorkflow _ _ _ => 7
  | WorkerPool _ => 8 | Dataset _ => 9
  end%nat.

Record valid (ns : TenantNamespaces.t) : Prop := {
  tenant_fits : uuid_ok (tenant_id ns);
  prefix_fits : post_init ns = Ok tt
}.

(** *** Characters *)

Lemma same_length_split {A} (p q r s : list A) : length p = length q → p ++ r = q ++ s → p = q ∧ r = s.
Proof. intros Hl E. by apply app_inj_1. Qed.

Lemma first_split {A} (x : A) (p q r s : list A) : x ∉ p → x ∉ q → p ++ x :: r = q ++ x :: s → p = q ∧ r = s.
Proof.
  revert q. induction p as [|a p IH]; intros [|b q] Hp Hq E; cbn in E; injection E as; subst.
  - done.
  - destruct Hq. left.
  - destruct Hp. left.
  - destruct (IH q) as [-> ->]; [| |done|done]; set_solver.
Qed.

Lemma prefix_chars ns : valid ns →
  (length (chars (prefix ns)) ≤ 32)%nat ∧
  ∀ c, c ∈ chars (prefix ns) → is_alnum c = true ∨ c = "-"%char.
Proof.
  intros [_ Hp]. unfold post_init in Hp. apply raise_if_ok, negb_false_iff in Hp.
  unfold bounded_label in Hp. destruct (chars (prefix ns)) as [|c l]; [done|].
  apply andb_true_iff in Hp as [[Hc Hl]%andb_true_iff Hn%Nat.leb_le]. split; [cbn; lia|].
  intros d [->|Hd]%elem_of_cons; [left; unfold is_alnum; by rewrite Hc|].
  rewrite all_true in Hl. specialize (Hl d Hd). apply orb_true_iff in Hl as [?|?%bool_decide_eq_true]; auto.
Qed.

Lemma prefix_without ns c : valid ns → is_alnum c = false → c ≠ "-"%char → c ∉ chars (prefix ns).
Proof. intros Hv Hc Hd Hin. apply (prefix_chars ns Hv) in Hin as [E| ->]; congruence. Qed.

Lemma uuid_chars_length u : length (chars (uuid_str u)) = 36%nat.
Proof.
  change (uuid_str u) with (group (uuid_hex u)). rewrite group_chars by apply uuid_hex_length.
  assert (length (chars (uuid_hex u)) = 32%nat) as Hl by (rewrite length_chars; apply uuid_hex_length).
  repeat first [rewrite length_app | rewrite length_cons | rewrite length_take | rewrite length_drop]. lia.
Qed.

Lemma hex_chars_length u : length (chars (uuid_hex u)) = 32%nat.
Proof. rewrite length_chars. apply uuid_hex_length. Qed.

Lemma hex_chars_digits u : Forall hex_digit (chars (uuid_hex u)).
Proof. apply hex_digits_all. lia. Qed.

(** *** The position of the tenant in a name *)

(** After a separator that no prefix contains. *)
Lemma token_after (x : ascii) m p q t t' r r' : x ∉ p → x ∉ q → length t = length t' →
  p ++ x :: m ++ t ++ r = q ++ x :: m ++ t' ++ r' → t = t'.
Proof.
  intros Hp Hq Hl E. apply first_split in E as [_ E]; [|done..]. apply app_inv_head in E.
  by apply same_length_split in E as [? _].
Qed.

(** After [-t-]: a longer prefix would end inside the other tenant's digits. *)
Lemma token_of_longer p q h h' r r' : (length p < length q)%nat → (length q ≤ 32)%nat →
  length h = 32%nat → Forall hex_digit h →
  p ++ chars "-t-" ++ h ++ r = q ++ chars "-t-" ++ h' ++ r' → False.
Proof.
  intros Hlt Hq Hh Hd E.
  assert (∀ i c, h !! i = Some c → c ≠ "-"%char ∧ c ≠ "t"%char) as Hno.
  { intros i c Hc. apply (Forall_lookup_1 _ _ _ _ Hd) in Hc as [[v Hv] Hnot _].
    split; intros ->; [by apply Hnot, (bool_decide_unpack _)|discriminate Hv]. }
  assert (∀ i, (p ++ chars "-t-" ++ h ++ r) !! (length q + i)%nat = (chars "-t-" ++ h' ++ r') !! i) as Hat.
  { intros i. rewrite E, lookup_app_r by lia. f_equal. lia. }
  set (d := (length q - length p)%nat).
  assert (∀ i, (chars "-t-" ++ h ++ r) !! (d + i)%nat = (chars "-t-" ++ h' ++ r') !! i) as Hat'.
  { intros i. rewrite <- Hat, (lookup_app_r p) by lia. f_equal. lia. }
  assert (1 ≤ d ≤ 32)%nat as Hb by (unfold d; lia). clearbody d.
  pose proof (Hat' 0%nat) as H0. pose proof (Hat' 1%nat) as H1.
  destruct d as [|[|[|k]]]; [lia|discriminate H0| |].
  - destruct h as [|c h]; [discriminate Hh|]. injection H1 as ->. by destruct (Hno 0%nat "t"%char).
  - change ((h ++ r) !! (k + 0)%nat = Some "-"%char) in H0. rewrite Nat.add_0_r in H0. rewrite lookup_app_l in H0 by (rewrite Hh; lia).
    by destruct (Hno _ _ H0).
Qed.

Lemma token_after_t p q h h' r r' : (length p ≤ 32)%nat → (length q ≤ 32)%nat →
  length h = 32%nat → length h' = 32%nat → Forall hex_digit h → Forall hex_digit h' →
  p ++ chars "-t-" ++ h ++ r = q ++ chars "-t-" ++ h' ++ r' → h = h'.
Proof.
  intros Hp Hq Hh Hh' Hd Hd' E. destruct (Nat.lt_trichotomy (length p) (length q)) as [Hl|[Hl|Hl]].
  - by destruct (token_of_longer p q h h' r r').
  - apply same_length_split in E as [_ E]; [|done]. apply app_inv_head in E.
    apply same_length_split in E as [? _]; [done|lia].
  - by destruct (token_of_longer q p h' h r' r).
Qed.

(** *** The theorem *)

Lemma uuid_token_after (x : ascii) m ns1 ns2 u v r r' : valid ns1 → valid ns2 →
  is_alnum x = false → x ≠ "-"%char → uuid_ok u → uuid_ok v →
  prefix ns1 +:+ String x m +:+ uuid_str u +:+ r = prefix ns2 +:+ String x m +:+ uuid_str v +:+ r' → u = v.
Proof.
  intros H1 H2 Hx Hd Hu Hv E. apply uuid_str_inj; [done..|]. apply (inj chars).
  apply (f_equal chars) in E. rewrite !chars_app in E. cbn [chars app] in E.
  apply (token_after x (chars m)) in E; [done|by apply prefix_without|by apply prefix_without|].
  by rewrite !uuid_chars_length.
Qed.

Lemma hex_token_after (x : ascii) m ns1 ns2 u v r r' : valid ns1 → valid ns2 →
  is_alnum x = false → x ≠ "-"%char → uuid_ok u → uuid_ok v →
  prefix ns1 +:+ String x m +:+ uuid_hex u +:+ r = prefix ns2 +:+ String x m +:+ uuid_hex v +:+ r' → u = v.
Proof.
  intros H1 H2 Hx Hd Hu Hv E. apply uuid_hex_inj; [done..|]. apply (inj chars).
  apply (f_equal chars) in E. rewrite !chars_app in E. cbn [chars app] in E.
  apply (token_after x (chars m)) in E; [done|by apply prefix_without|by apply prefix_without|].
  by rewrite !hex_chars_length.
Qed.

Lemma hex_token_after_t ns1 ns2 u v r r' : valid ns1 → valid ns2 → uuid_ok u → uuid_ok v →
  prefix ns1 +:+ "-t-" +:+ uuid_hex u +:+ r = prefix ns2 +:+ "-t-" +:+ uuid_hex v +:+ r' → u = v.
Proof.
  intros H1 H2 Hu Hv E. apply uuid_hex_inj; [done..|]. apply (inj chars).
  apply (f_equal chars) in E. rewrite !chars_app in E.
  apply token_after_t in E; [done|by apply prefix_chars|by apply prefix_chars|apply hex_chars_length|apply hex_chars_length
    |apply hex_chars_digits|apply hex_chars_digits].
Qed.

Lemma uuid_token_first u v r r' : uuid_ok u → uuid_ok v →
  uuid_str u +:+ r = uuid_str v +:+ r' → u = v.
Proof.
  intros Hu Hv E. apply uuid_str_inj; [done..|]. apply (inj chars).
  apply (f_equal chars) in E. rewrite !chars_app in E.
  apply same_length_split in E as [E _]; [done|by rewrite !uuid_chars_length].
Qed.

Lemma hex_token_first u v r r' : uuid_ok u → uuid_ok v →
  uuid_hex u +:+ r = uuid_hex v +:+ r' → u = v ∧ r = r'.
Proof.
  intros Hu Hv E. apply (f_equal chars) in E. rewrite !chars_app in E.
  apply same_length_split in E as [E Er]; [|by rewrite !hex_chars_length].
  split; [by apply uuid_hex_inj, (inj chars)|by apply (inj chars)].
Qed.

(** A name up to its tenant, then [rest]. *)
Definition shape (ns : TenantNamespaces.t) (x : surface) (rest : string) : string :=
  match system x with
  | 0 => "tenants/" +:+ uuid_str (tenant_id ns) +:+ rest
  | 1 => prefix ns +:+ ":tenant:" +:+ uuid_str (tenant_id ns) +:+ rest
  | 2 | 5 | 6 => prefix ns +:+ "-t-" +:+ uuid_hex (tenant_id ns) +:+ rest
  | 3 => prefix ns +:+ "_t_" +:+ uuid_hex (tenant_id ns) +:+ rest
  | 4 => prefix ns +:+ ".tenant." +:+ uuid_str (tenant_id ns) +:+ rest
  | 7 => "tenant-" +:+ uuid_hex (tenant_id ns) +:+ rest
  | 8 => prefix ns +:+ "/tenant/" +:+ uuid_str (tenant_id ns) +:+ rest
  | _ => prefix ns +:+ "/tenants/" +:+ uuid_str (tenant_id ns) +:+ rest
  end%nat.

Lemma Ok_inj {A} (a b : A) : Ok a = Ok b → a = b.
Proof. by intros [=]. Qed.

Lemma name_has_shape ns x name : name_on ns x = Ok name → ∃ rest, name = shape ns x rest.
Proof.
  destruct x; cbn [name_on]; intros E;
    repeat (apply bind_ok in E as (? & _ & E)); apply Ok_inj in E; rewrite <- E; eexists; reflexivity.
Qed.

Lemma shape_tenant ns1 ns2 x y r r' : valid ns1 → valid ns2 → system x = system y →
  shape ns1 x r = shape ns2 y r' → tenant_id ns1 = tenant_id ns2.
Proof.
  intros H1 H2 Hs. pose proof (tenant_fits _ H1) as U1. pose proof (tenant_fits _ H2) as U2.
  unfold shape. rewrite <- Hs. intros E.
  destruct (system x) as [|[|[|[|[|[|[|[|[|n]]]]]]]]].
  - apply str_app_inj_l in E. by eapply uuid_token_first.
  - by apply (uuid_token_after ":" "tenant:" ns1 ns2 _ _ r r').
  - by apply (hex_token_after_t ns1 ns2 _ _ r r').
  - by apply (hex_token_after "_" "t_" ns1 ns2 _ _ r r').
  - by apply (uuid_token_after "." "tenant." ns1 ns2 _ _ r r').
  - by apply (hex_token_after_t ns1 ns2 _ _ r r').
  - by apply (hex_token_after_t ns1 ns2 _ _ r r').
  - apply str_app_inj_l in E. by eapply hex_token_first.
  - by apply (uuid_token_after "/" "tenant/" ns1 ns2 _ _ r r').
  - by apply (uuid_token_after "/" "tenants/" ns1 ns2 _ _ r r').
Qed.

(** C13. Two names on the same surface (object store, cache, search index, vector
    collection, topic, workflow namespace, dataset, ...) that are equal belong to the
    same tenant, whatever the prefixes, logical names and risk pools are. *)
Theorem tenant_names_do_not_overlap ns1 ns2 x y name : valid ns1 → valid ns2 → system x = system y →
  name_on ns1 x = Ok name → name_on ns2 y = Ok name → tenant_id ns1 = tenant_id ns2.
Proof.
  intros H1 H2 Hs [r ->]%name_has_shape [r' E]%name_has_shape. by eapply shape_tenant.
Qed.

Definition first_tenant : TenantNamespaces.t := of_tenant 7%N.

Lemma tenant_names_do_not_overlap_witness :
  name_on first_tenant (Search "Orders") = Ok "autonoesis-t-00000000000000000000000000000007-orders" ∧
  tenant_id first_tenant = tenant_id (of_tenant 7%N).
Proof.
  split; [vm_compute; reflexivity|].
  apply (tenant_names_do_not_overlap first_tenant (of_tenant 7%N) (Search "Orders") (Search " orders")
    "autonoesis-t-00000000000000000000000000000007-orders"); try reflexivity; split; reflexivity.
Defined.

(** The tenant's own resource "audit-exports" has the name of its audit exports. *)
Example audit_exports_overlap : object_prefix first_tenant "Audit exports" = audit_export_prefix first_tenant.
Proof. vm_compute. reflexivity. Qed.
