(* ===== verification/Workflow.v ===== *)
(** * apps/worker: workflows.py and contracts.py

    The durable workflows.  Temporal runs one coroutine of a workflow at a time:
    a signal handler runs while the main coroutine waits for a condition or for
    an activity, and nothing runs between two waits.  What happens to a workflow
    is therefore a list of [event]s, each a batch of signals, the firing of the
    timer of a wait, or the answer of the activity that was called; a workflow
    reads it from its [inbox] and keeps the [history] of what happened and what
    it called.  When the inbox is empty a wait is [Blocked].

    An event that nobody waits for (a timer while an activity runs, an answer
    while a condition is awaited) is dropped.  Retries of an activity and the
    heartbeat are Temporal's: an [Answer] is the outcome after the retries. *)

From S2P Require Import Prelude PyStr PyDict PyFloat Json.
From Stdlib Require Import ZArith.

Open Scope string_scope.
Open Scope list_scope.
Open Scope Z_scope.

(** ** contracts.py *)

Module GoalRunInput.
Record t := mk {
  tenant_id : string;
  goal_id : string;
  run_id : string;
  deadline_epoch_seconds : float;
  requires_approval : bool;
  risk_tier : string;
  continuation_count : Z;
  max_continuations : Z
}.

Definition continued (x : t) : t :=
  mk (tenant_id x) (goal_id x) (run_id x) (deadline_epoch_seconds x) false (risk_tier x)
    (continuation_count x + 1) (max_continuations x).
End GoalRunInput.

Module CandidateLifecycleInput.
Record t := mk { tenant_id : string; candidate_id : string }.
End CandidateLifecycleInput.

Module RunIdentityInput.
Record t := mk { tenant_id : string; goal_id : string; run_id : string }.
End RunIdentityInput.

Module ApprovalLookupInput.
Record t := mk { tenant_id : string; run_id : string; approval_id : string }.
End ApprovalLookupInput.

Module ApprovalState.
Record t := mk { approval_id : string; status : string }.
End ApprovalState.

Module PromoteCandidateInput.
Record t := mk { tenant_id : string; candidate_id : string; stable_version_id : string }.
End PromoteCandidateInput.

Module ShadowPairInput.
Record t := mk {
  tenant_id : string; deployment_id : string; request_ref : string;
  input_payload : list (string * json)
}.
End ShadowPairInput.

Module ReleaseCommandInput.
Record t := mk {
  tenant_id : string;
  action : string;
  deployment_id : string;
  release_id : string;
  stable_version_id : string;
  candidate_percent : Z;
  salt : string;
  min_samples : Z;
  observation_seconds : Z;
  required_metrics : list string
}.
End ReleaseCommandInput.

(** ** Activities and events *)

(** [workflow.execute_activity(name, input)] *)
Inductive activity :=
  | PrepareRun (input : RunIdentityInput.t)
  | ExecuteRun (input : RunIdentityInput.t)
  | EvaluateRun (input : RunIdentityInput.t)
  | CancelRunActivity (input : RunIdentityInput.t) (reason : string)
  | TakeOverRunActivity (input : RunIdentityInput.t) (reason : string)
  | RejectRun (input : RunIdentityInput.t) (reason : string)
  | LoadApproval (input : ApprovalLookupInput.t)
  | EvaluateCandidate (input : CandidateLifecycleInput.t)
  | PromoteCandidate (input : PromoteCandidateInput.t)
  | ExecuteShadowPairActivity (input : ShadowPairInput.t)
  | ExecuteReleaseCommand (input : ReleaseCommandInput.t).

(** What an activity answers. *)
Inductive reply :=
  | Text (s : string)
  | Approval (x : ApprovalState.t)
  | Flag (b : bool)
  | Failure (x : exn).

Inductive signal :=
  | ApprovalDecided (approval_id : string)
  | Cancel (reason : string)
  | Pause
  | Resume
  | TakeOver (reason : string).

Inductive event :=
  | Signals (l : list signal)
  | TimerFires
  | Answer (r : reply).

(** What happened, oldest first. *)
Inductive entry :=
  | Received (s : signal)
  | Called (a : activity)
  | Answered (r : reply).

(** ** Workflows *)

(** How a run of a workflow ends; [OutOfFuel] never happens. *)
Inductive outcome (A : Type) :=
  | Done (a : A)
  | Raised (x : exn)
  | Blocked
  | ContinueAsNew (command : GoalRunInput.t)
  | OutOfFuel.
Arguments Done {A} a.
Arguments Raised {A} x.
Arguments Blocked {A}.
Arguments ContinueAsNew {A} command.
Arguments OutOfFuel {A}.

(** The instance's variables, what will happen, what happened. *)
Record execution (V : Type) := Execution { vars : V; inbox : list event; history : list entry }.
Arguments Execution {V} vars inbox history.
Arguments vars {V} _.
Arguments inbox {V} _.
Arguments history {V} _.

Definition W (V A : Type) := execution V → outcome A * execution V.

#[export] Instance W_ret {V} : MRet (W V) := fun A a s => (Done a, s).
#[export] Instance W_bind {V} : MBind (W V) := fun A B f m s =>
  match m s with
  | (Done a, s') => f a s'
  | (Raised x, s') => (Raised x, s')
  | (Blocked, s') => (Blocked, s')
  | (ContinueAsNew c, s') => (ContinueAsNew c, s')
  | (OutOfFuel, s') => (OutOfFuel, s')
  end.

Section workflows.
Context {V : Type} (on_signal : signal → V → V).

Definition stop {A} (o : outcome A) : W V A := fun s => (o, s).
Definition read : W V V := fun s => (Done (vars s), s).
Definition write (f : V → V) : W V unit := fun s =>
  (Done tt, Execution (f (vars s)) (inbox s) (history s)).

(** The handlers of a batch of signals. *)
Definition handle (l : list signal) (v : V) : V := foldl (fun v s => on_signal s v) v l.

(** Until the activity answers. *)
Fixpoint await_answer (events : list event) (v : V) (h : list entry) : option reply * execution V :=
  match events with
  | [] => (None, Execution v [] h)
  | Signals l :: events => await_answer events (handle l v) (h ++ (Received <$> l))
  | TimerFires :: events => await_answer events v h
  | Answer r :: events => (Some r, Execution v events (h ++ [Answered r]))
  end.

Definition execute_activity (a : activity) : W V reply := fun s =>
  match await_answer (inbox s) (vars s) (history s ++ [Called a]) with
  | (None, s') => (Blocked, s')
  | (Some (Failure x), s') => (Raised x, s')
  | (Some r, s') => (Done r, s')
  end.

(** [result_type=...]: an answer of another type is an error. *)
Definition wrong_type : exn := Exn TypeError "unexpected activity result".
Definition call_text (a : activity) : W V string :=
  r ← execute_activity a; match r with Text s => mret s | _ => stop (Raised wrong_type) end.
Definition call_approval (a : activity) : W V ApprovalState.t :=
  r ← execute_activity a; match r with Approval x => mret x | _ => stop (Raised wrong_type) end.
Definition call_flag (a : activity) : W V bool :=
  r ← execute_activity a; match r with Flag b => mret b | _ => stop (Raised wrong_type) end.

(** Until the condition holds, or the timer of the wait fires ([false]). *)
Fixpoint await_condition (condition : V → bool) (timed : bool) (events : list event) (v : V)
    (h : list entry) : option bool * execution V :=
  if condition v then (Some true, Execution v events h) else
  match events with
  | [] => (None, Execution v [] h)
  | Signals l :: events => await_condition condition timed events (handle l v) (h ++ (Received <$> l))
  | TimerFires :: events =>
      if timed then (Some false, Execution v events h) else await_condition condition timed events v h
  | Answer _ :: events => await_condition condition timed events v h
  end.

(** [workflow.wait_condition(condition, timeout=...)]; [false] is [TimeoutError]. *)
Definition wait_for (timed : bool) (condition : V → bool) : W V bool := fun s =>
  match await_condition condition timed (inbox s) (vars s) (history s) with
  | (None, s') => (Blocked, s')
  | (Some b, s') => (Done b, s')
  end.
End workflows.

(** ** The Run of a Goal *)

Module GoalRunWorkflow.
Record t := mk {
  approval_id : option string;
  cancel_reason : option string;
  takeover_reason : option string;
  paused : bool;
  resume_generation : Z;
  phase : string
}.

(** [__init__] *)
Definition init : t := mk None None None false 0 "pending".

Definition with_approval (x : option string) (v : t) : t :=
  mk x (cancel_reason v) (takeover_reason v) (paused v) (resume_generation v) (phase v).
Definition with_phase (x : string) (v : t) : t :=
  mk (approval_id v) (cancel_reason v) (takeover_reason v) (paused v) (resume_generation v) x.

(** The signal handlers. *)
Definition approval_decided (id : string) (v : t) : t :=
  if empty id then v else with_approval (Some id) v.
Definition cancel (reason : string) (v : t) : t :=
  mk (approval_id v) (Some (if empty reason then "cancelled_by_user" else reason))
    (takeover_reason v) (paused v) (resume_generation v) (phase v).
Definition pause (v : t) : t :=
  mk (approval_id v) (cancel_reason v) (takeover_reason v) true (resume_generation v) (phase v).
Definition resume (v : t) : t :=
  mk (approval_id v) (cancel_reason v) (takeover_reason v) false (resume_generation v + 1) (phase v).
Definition take_over (reason : string) (v : t) : t :=
  mk (approval_id v) (cancel_reason v) (Some (if empty reason then "manual_takeover" else reason))
    (paused v) (resume_generation v) (phase v).

Definition on_signal (s : signal) : t → t :=
  match s with
  | ApprovalDecided id => approval_decided id
  | Cancel reason => cancel reason
  | Pause => pause
  | Resume => resume
  | TakeOver reason => take_over reason
  end.

Notation WR := (W t).
Notation call := (call_text on_signal).
Notation wait := (wait_for on_signal true).

Section run.
Context (command : GoalRunInput.t).

Definition identity : RunIdentityInput.t :=
  RunIdentityInput.mk (GoalRunInput.tenant_id command) (GoalRunInput.goal_id command)
    (GoalRunInput.run_id command).

Definition set_phase (x : string) : WR unit := write (with_phase x).

Definition terminal_control_requested (v : t) : bool :=
  is_some (cancel_reason v) || is_some (takeover_reason v).

(** [_remaining]: the timeout of a wait in seconds. *)
Definition remaining (now : float) : float :=
  fmax (fsub (GoalRunInput.deadline_epoch_seconds command) now) (of_decimal 1 (-3)).

(** [_reject] and [_expire] *)
Definition reject (reason : string) : WR string :=
  set_phase "rejecting" ;;
  call (RejectRun identity reason) ;;
  set_phase "rejected" ;;
  mret "rejected".
Definition expire : WR string := reject "goal_business_deadline_expired".

(** The first two branches of [_apply_control]. *)
Definition apply_terminal (otherwise : WR (option string)) : WR (option string) :=
  v ← read;
  match cancel_reason v, takeover_reason v with
  | Some reason, _ =>
      set_phase "cancelling" ;;
      call (CancelRunActivity identity reason) ;;
      set_phase "cancelled" ;;
      mret (Some "cancelled")
  | None, Some reason =>
      set_phase "taking_over" ;;
      call (TakeOverRunActivity identity reason) ;;
      set_phase "taken_over" ;;
      mret (Some "taken_over")
  | None, None => otherwise
  end.

(** [_apply_control].  The wait of a paused workflow ends when it is not paused
    or a terminal control is requested, and nothing runs before the [while]
    tests [_paused] again: its body runs at most once.  The call of itself is
    made when a terminal control is requested. *)
Definition apply_control : WR (option string) :=
  apply_terminal (
    v ← read;
    if paused v then
      set_phase "paused" ;;
      woke ← wait (fun v => negb (paused v) || terminal_control_requested v);
      if (woke : bool) then
        v ← read;
        if terminal_control_requested v then apply_terminal (mret None) else mret None
      else p ← expire; mret (Some p)
    else mret None).

(** [_await_authoritative_approval]: every round reads an answer. *)
Fixpoint approval_rounds (fuel : nat) : WR (option string) :=
  match fuel with
  | O => stop OutOfFuel
  | S fuel =>
      woke ← wait (fun v => is_some (approval_id v) || is_some (cancel_reason v) ||
                            is_some (takeover_reason v) || paused v);
      if (woke : bool) then
        terminal ← apply_control;
        match terminal with
        | Some p => mret (Some p)
        | None =>
            v ← read;
            match approval_id v with
            | None => stop (Raised (Exn AssertionError ""))
            | Some id =>
                write (with_approval None) ;;
                state ← call_approval on_signal (LoadApproval (ApprovalLookupInput.mk
                          (GoalRunInput.tenant_id command) (GoalRunInput.run_id command) id));
                if bool_decide (ApprovalState.status state = "approved") then mret None
                else if mem (ApprovalState.status state) ["rejected"; "expired"] then
                  p ← reject ("approval_" +:+ ApprovalState.status state); mret (Some p)
                else approval_rounds fuel
            end
        end
      else p ← expire; mret (Some p)
  end.

Definition await_authoritative_approval : WR (option string) := fun s =>
  (set_phase "awaiting_approval" ;; approval_rounds (S (length (inbox s)))) s.

(** After [evaluate_run]: wait for progress, then continue as new. *)
Definition wait_for_progress : WR string :=
  set_phase "waiting_for_progress" ;;
  v ← read;
  let observed_generation := resume_generation v in
  woke ← wait (fun v => (observed_generation <? resume_generation v) || is_some (cancel_reason v) ||
                        is_some (takeover_reason v) || paused v);
  if (woke : bool) then
    terminal ← apply_control;
    match terminal with
    | Some p => mret p
    | None =>
        if GoalRunInput.max_continuations command <=? GoalRunInput.continuation_count command
        then reject "continue_as_new_limit_exhausted"
        else stop (ContinueAsNew (GoalRunInput.continued command))
    end
  else expire.

Definition execute_and_evaluate : WR string :=
  set_phase "executing" ;;
  call (ExecuteRun identity) ;;
  terminal ← apply_control;
  match terminal with
  | Some p => mret p
  | None =>
      set_phase "evaluating" ;;
      result ← call (EvaluateRun identity);
      if mem result ["succeeded"; "failed"; "cancelled"] then set_phase result ;; mret result
      else wait_for_progress
  end.

Definition run : WR string :=
  (if GoalRunInput.continuation_count command =? 0 then
     set_phase "planning" ;; call (PrepareRun identity) ;; mret tt
   else mret tt) ;;
  terminal ← apply_control;
  match terminal with
  | Some p => mret p
  | None =>
      terminal ← (if GoalRunInput.requires_approval command then await_authoritative_approval
                  else mret None);
      match terminal with
      | Some p => mret p
      | None => execute_and_evaluate
      end
  end.
End run.

(** A new run of the workflow starts with new variables and a new history. *)
Definition start (events : list event) : execution t := Execution init events [].

(** The runs of a workflow that continues as new, each with the events its
    predecessor had not read: how the last one ends, and their histories. *)
Fixpoint chain (fuel : nat) (command : GoalRunInput.t) (events : list event)
    : outcome string * list (list entry) :=
  match fuel with
  | O => (OutOfFuel, [])
  | S fuel =>
      match run command (start events) with
      | (ContinueAsNew next, s) =>
          let '(o, histories) := chain fuel next (inbox s) in (o, history s :: histories)
      | (o, s) => (o, [history s])
      end
  end.
End GoalRunWorkflow.

(** ** Candidates, shadow pairs and releases *)

Module CandidateLifecycleWorkflow.
Record t := mk { approval_id : option string; phase : string }.

Definition init : t := mk None "draft".

Definition on_signal (s : signal) (v : t) : t :=
  match s with ApprovalDecided id => mk (Some id) (phase v) | _ => v end.

Definition set_phase (x : string) : W t unit := write (fun v => mk (approval_id v) x).

Definition run (command : CandidateLifecycleInput.t) : W t string :=
  set_phase "evaluating" ;;
  passed ← call_flag on_signal (EvaluateCandidate command);
  if negb passed then set_phase "rejected" ;; mret "rejected" else
  set_phase "awaiting_approval" ;;
  wait_for on_signal false (fun v => is_some (approval_id v)) ;;
  call_text on_signal (PromoteCandidate (PromoteCandidateInput.mk
    (CandidateLifecycleInput.tenant_id command) (CandidateLifecycleInput.candidate_id command)
    (CandidateLifecycleInput.candidate_id command))) ;;
  set_phase "shadow" ;;
  mret "shadow".
End CandidateLifecycleWorkflow.

(** These two have no signals: their variable is the phase. *)
Definition no_signal (s : signal) (phase : string) : string := phase.

Module ShadowPairWorkflow.
Definition run (command : ShadowPairInput.t) : W string string :=
  write (fun _ => "executing") ;;
  comparison_id ← call_text no_signal (ExecuteShadowPairActivity command);
  write (fun _ => "recorded") ;;
  mret comparison_id.
End ShadowPairWorkflow.

Module ReleaseExecutionWorkflow.
Definition run (command : ReleaseCommandInput.t) : W string string :=
  write (fun _ => "executing") ;;
  outcome ← call_text no_signal (ExecuteReleaseCommand command);
  write (fun _ => "executed") ;;
  mret outcome.
End ReleaseExecutionWorkflow.
