(* ===== verification/WorkflowProofs.v ===== *)
(** * What a durable Run does and does not do

    [Calls P h]: every activity called in the history [h] was called after a
    past that [P] accepts.  A Run executes its writes at most once and before
    it evaluates; it calls nothing after it was cancelled, taken over or
    rejected; without an approval requirement it executes only while no control
    signal asks it to stop, with one only after the authoritative approval was
    loaded as approved. *)

From S2P Require Import Prelude PyStr PyDict PyFloat Json Workflow.
From Stdlib Require Import ZArith.

Import GoalRunWorkflow.
Open Scope string_scope.
Open Scope list_scope.
Open Scope Z_scope.

(** ** Histories *)

Definition is_terminal (a : activity) : bool :=
  match a with CancelRunActivity _ _ | TakeOverRunActivity _ _ | RejectRun _ _ => true | _ => false end.
Definition is_execute (a : activity) : bool := match a with ExecuteRun _ => true | _ => false end.

(** No activity of a kind was called. *)
Definition never (p : activity → bool) (h : list entry) : Prop := ∀ a, Called a ∈ h → p a = false.

(** A past asks for a pause that was not resumed. *)
Definition paused_in (h : list entry) : bool :=
  foldl (fun b e => match e with Received Pause => true | Received Resume => false | _ => b end) false h.

(** No signal of the past asks the Run to stop or to pause. *)
Record quiet (h : list entry) : Prop := {
  not_cancelled : ∀ reason, Received (Cancel reason) ∉ h;
  not_taken_over : ∀ reason, Received (TakeOver reason) ∉ h;
  not_paused : paused_in h = false
}.

(** A past that ends with an approval of the Run being loaded as approved: it
    was named by a signal and looked up while nothing asked the Run to stop. *)
Definition approved (c : GoalRunInput.t) (h : list entry) : Prop :=
  ∃ h1 id l x, h = h1 ++ Called (LoadApproval (ApprovalLookupInput.mk (GoalRunInput.tenant_id c)
                          (GoalRunInput.run_id c) id)) :: (Received <$> l) ++ [Answered (Approval x)] ∧
    ApprovalState.status x = "approved" ∧ Received (ApprovalDecided id) ∈ h1 ∧ quiet h1.

(** The pasts after which a Run may call an activity. *)
Definition governed (c : GoalRunInput.t) (h : list entry) (a : activity) : Prop :=
  never is_terminal h ∧
  match a with
  | PrepareRun i => i = identity c ∧ h = [] ∧ GoalRunInput.continuation_count c = 0
  | LoadApproval i => never is_execute h ∧ GoalRunInput.requires_approval c = true
  | ExecuteRun i => i = identity c ∧ never is_execute h ∧
      if GoalRunInput.requires_approval c then approved c h else quiet h
  | EvaluateRun i => i = identity c ∧ quiet h ∧ ∃ h1 h2 s, h = h1 ++ Called (ExecuteRun i) :: h2 ∧
      Answered (Text s) ∈ h2
  | CancelRunActivity i reason => i = identity c ∧ ∃ given, Received (Cancel given) ∈ h ∧
      reason = if empty given then "cancelled_by_user" else given
  | TakeOverRunActivity i reason => i = identity c ∧ (∀ r, Received (Cancel r) ∉ h) ∧
      ∃ given, Received (TakeOver given) ∈ h ∧ reason = if empty given then "manual_takeover" else given
  | RejectRun i reason => i = identity c
  | _ => False
  end.

Definition Calls (P : list entry → activity → Prop) (h : list entry) : Prop :=
  ∀ h1 a h2, h = h1 ++ Called a :: h2 → P h1 a.

Lemma Calls_nil P : Calls P [].
Proof. by intros [|? ?] a h2. Qed.

Lemma Calls_snoc P h e : Calls P h → (∀ a, e = Called a → P h a) → Calls P (h ++ [e]).
Proof.
  intros Hh He h1 a h2 E. destruct h2 as [|e' h2] using rev_ind.
  - apply app_inj_tail in E as [-> E]. by apply He.
  - rewrite app_comm_cons, app_assoc in E. apply app_inj_tail in E as [E _]. by eapply Hh.
Qed.

Lemma Calls_received P h l : Calls P h → Calls P (h ++ (Received <$> l)).
Proof.
  revert h. induction l as [|s l IH]; intros h Hh; cbn; [by rewrite app_nil_r|].
  replace (h ++ Received s :: (Received <$> l)) with ((h ++ [Received s]) ++ (Received <$> l))
    by by rewrite <- app_assoc.
  by apply IH, Calls_snoc.
Qed.

Lemma never_app p h h' : never p (h ++ h') ↔ never p h ∧ never p h'.
Proof. unfold never. setoid_rewrite elem_of_app. naive_solver. Qed.
Lemma never_received p l : never p (Received <$> l).
Proof. intros a (s & E & _)%list_elem_of_fmap. discriminate E. Qed.
Lemma never_answered p r : never p [Answered r].
Proof. by intros a ?%list_elem_of_singleton. Qed.
Lemma never_called p a : p a = false → never p [Called a].
Proof. intros Ha b E%list_elem_of_singleton. by injection E as ->. Qed.
#[export] Hint Resolve never_received never_answered never_called : workflow.

(** ** The variables follow the signals *)

Record tracks (v : t) (h : list entry) : Prop := {
  cancels : ∀ r, Received (Cancel r) ∈ h → is_some (cancel_reason v) = true;
  takes_over : ∀ r, Received (TakeOver r) ∈ h → is_some (takeover_reason v) = true;
  pauses : paused v = paused_in h;
  cancel_given : ∀ r, cancel_reason v = Some r → ∃ given, Received (Cancel given) ∈ h ∧
    r = if empty given then "cancelled_by_user" else given;
  takeover_given : ∀ r, takeover_reason v = Some r → ∃ given, Received (TakeOver given) ∈ h ∧
    r = if empty given then "manual_takeover" else given;
  approval_given : ∀ id, approval_id v = Some id → Received (ApprovalDecided id) ∈ h
}.

Lemma tracks_init : tracks init [].
Proof. by split; [intros r ?%elem_of_nil|intros r ?%elem_of_nil|..]. Qed.

Lemma in_snoc (e e' : entry) h : e ∈ h ++ [e'] ↔ e ∈ h ∨ e = e'.
Proof. by rewrite elem_of_app, list_elem_of_singleton. Qed.

Lemma paused_in_snoc h e : paused_in (h ++ [e]) =
  match e with Received Pause => true | Received Resume => false | _ => paused_in h end.
Proof. unfold paused_in. by rewrite foldl_app. Qed.

Lemma keeps_cancel id v : cancel_reason (approval_decided id v) = cancel_reason v.
Proof. unfold approval_decided. by case_match. Qed.
Lemma keeps_takeover id v : takeover_reason (approval_decided id v) = takeover_reason v.
Proof. unfold approval_decided. by case_match. Qed.

Lemma tracks_received v h s : tracks v h → tracks (on_signal s v) (h ++ [Received s]).
Proof.
  intros [Hc Ht Hp Hcg Htg Ha]. split; rewrite ?paused_in_snoc.
  - intros r [Hr|Hr]%in_snoc; [apply Hc in Hr; destruct s; cbn; unfold approval_decided; by repeat case_match|].
    by injection Hr as <-.
  - intros r [Hr|Hr]%in_snoc; [apply Ht in Hr; destruct s; cbn; unfold approval_decided; by repeat case_match|].
    by injection Hr as <-.
  - destruct s; cbn; try done. unfold approval_decided. by case_match.
  - intros r Hr. destruct s as [id|given| | |given]; cbn in Hr; rewrite ?keeps_cancel in Hr;
      try (destruct (Hcg r Hr) as (g & ? & ?); exists g; rewrite in_snoc; by auto).
    injection Hr as <-. exists given. rewrite in_snoc. auto.
  - intros r Hr. destruct s as [id|given| | |given]; cbn in Hr; rewrite ?keeps_takeover in Hr;
      try (destruct (Htg r Hr) as (g & ? & ?); exists g; rewrite in_snoc; by auto).
    injection Hr as <-. exists given. rewrite in_snoc. auto.
  - intros id' Hr. rewrite in_snoc. destruct s as [id|given| | |given]; cbn in Hr; auto.
    unfold approval_decided in Hr. case_match; [auto|]. injection Hr as <-. auto.
Qed.

Lemma tracks_handle v h l : tracks v h → tracks (handle on_signal l v) (h ++ (Received <$> l)).
Proof.
  revert v h. induction l as [|s l IH]; intros v h Hv; cbn; [by rewrite app_nil_r|].
  replace (h ++ Received s :: (Received <$> l)) with ((h ++ [Received s]) ++ (Received <$> l))
    by by rewrite <- app_assoc.
  by apply IH, tracks_received.
Qed.

Lemma tracks_other v h e : (∀ s, e ≠ Received s) → tracks v h → tracks v (h ++ [e]).
Proof.
  intros He [Hc Ht Hp Hcg Htg Ha]. split; rewrite ?paused_in_snoc.
  - intros r [Hr|Hr]%in_snoc; [eauto|by destruct (He (Cancel r))].
  - intros r [Hr|Hr]%in_snoc; [eauto|by destruct (He (TakeOver r))].
  - destruct e as [s| |]; [by destruct (He s)|done|done].
  - intros r Hr. destruct (Hcg r Hr) as (g & ? & ?). exists g. rewrite in_snoc. auto.
  - intros r Hr. destruct (Htg r Hr) as (g & ? & ?). exists g. rewrite in_snoc. auto.
  - intros id Hid. rewrite in_snoc. auto.
Qed.

Lemma tracks_phase v h x : tracks v h → tracks (with_phase x v) h.
Proof. by intros []. Qed.

(** A clear instance has a quiet past. *)
Definition clear (v : t) : Prop := terminal_control_requested v = false ∧ paused v = false.

Lemma clear_quiet v h : tracks v h → clear v → quiet h.
Proof.
  intros Hv [[Hc Ht]%orb_false_iff Hp]. split.
  - intros r Hr%(cancels _ _ Hv). congruence.
  - intros r Hr%(takes_over _ _ Hv). congruence.
  - by rewrite <- (pauses _ _ Hv).
Qed.

(** ** What a step does to an instance *)

Notation state := (execution t).

Lemma handle_app l l' v : handle on_signal (l ++ l') v = handle on_signal l' (handle on_signal l v).
Proof. apply foldl_app. Qed.

Lemma await_condition_spec cond timed events v h o s :
  await_condition on_signal cond timed events v h = (o, s) →
  ∃ l, vars s = handle on_signal l v ∧ history s = h ++ (Received <$> l) ∧
       (o = Some true → cond (vars s) = true).
Proof.
  revert v h. induction events as [|e events IH]; intros v h; cbn [await_condition].
  - case_match eqn:E; intros [= <- <-]; exists []; by rewrite app_nil_r.
  - case_match eqn:E; [intros [= <- <-]; exists []; by rewrite app_nil_r|].
    destruct e as [l| |r].
    + intros (l' & Hv & Hh & Hc)%IH. exists (l ++ l').
      by rewrite handle_app, fmap_app, app_assoc.
    + destruct timed; [intros [= <- <-]; exists []; by rewrite app_nil_r|apply IH].
    + apply IH.
Qed.

Lemma await_answer_spec events v h o s :
  await_answer on_signal events v h = (o, s) →
  ∃ l, vars s = handle on_signal l v ∧
       history s = h ++ (Received <$> l) ++ match o with Some r => [Answered r] | None => [] end.
Proof.
  revert v h. induction events as [|e events IH]; intros v h; cbn [await_answer].
  - intros [= <- <-]. exists []. cbn. by rewrite app_nil_r.
  - destruct e as [l| |r].
    + intros (l' & Hv & Hh)%IH. exists (l ++ l'). by rewrite handle_app, fmap_app, Hh, <- !app_assoc.
    + apply IH.
    + intros [= <- <-]. by exists [].
Qed.

(** The type of answer an activity is declared to have. *)
Definition declared (a : activity) (r : reply) : bool :=
  match a, r with
  | LoadApproval _, Approval _ | EvaluateCandidate _, Flag _ => true
  | LoadApproval _, _ | EvaluateCandidate _, _ => false
  | _, Text _ => true
  | _, _ => false
  end.

(** Why a Run raised: the activity it just called failed or answered something
    else than declared, or it was paused while it waited for the approval. *)
Definition blamed (x : exn) (h : list entry) : Prop :=
  (∃ h1 a l r, h = h1 ++ Called a :: (Received <$> l) ++ [Answered r] ∧
     (r = Failure x ∨ x = wrong_type ∧ declared a r = false)) ∨
  (x = Exn AssertionError "" ∧ Received Pause ∈ h ∧ never is_execute h).

(** Of an activity that answers a text. *)
Ltac answers_text := let x := fresh in let Hx := fresh in
  intros [x|x|x|x] Hx; [by destruct (Hx x)|done..].

(** [m] returns in [Q] or ends in [E], and what it raises is explained. *)
Definition post {A} (m : W t A) (Q : A → state → Prop) (E : state → Prop) (s : state) : Prop :=
  let '(o, s') := m s in
  match o with Done a => Q a s' | Raised x => E s' ∧ blamed x (history s') | _ => E s' end.

Lemma post_mono {A} (m : W t A) (Q Q' : A → state → Prop) (E E' : state → Prop) s :
  post m Q E s → (∀ a s', Q a s' → Q' a s') → (∀ s', E s' → E' s') → post m Q' E' s.
Proof. unfold post. intros Hm HQ HE. destruct (m s) as [[] s']; naive_solver. Qed.

Lemma post_ret {A} (a : A) (Q : A → state → Prop) E s : Q a s → post (mret a) Q E s.
Proof. done. Qed.
Lemma post_stop {A} (o : outcome A) (Q : A → state → Prop) (E : state → Prop) s :
  (∀ a, o ≠ Done a) → (∀ x, o = Raised x → blamed x (history s)) → E s → post (stop o) Q E s.
Proof. unfold post. cbn. intros Ho Hx HE. destruct o; auto. by destruct (Ho a). Qed.
Lemma post_read (Q : t → state → Prop) E s : Q (vars s) s → post read Q E s.
Proof. done. Qed.
Lemma post_write f (Q : unit → state → Prop) E s :
  Q tt (Execution (f (vars s)) (inbox s) (history s)) → post (write f) Q E s.
Proof. done. Qed.
Lemma post_bind {A B} (m : W t A) (f : A → W t B) (Q : B → state → Prop) E s :
  post m (fun a s' => post (f a) Q E s') E s → post (m ≫= f) Q E s.
Proof. unfold post, mbind, W_bind. by destruct (m s) as [[] s']. Qed.

(** No signal takes back the approval a signal named. *)
Lemma handle_approval l v : approval_id (handle on_signal l v) = None → approval_id v = None.
Proof.
  revert v. induction l as [|s l IH]; intros v; [done|]. intros H%IH. revert H.
  destruct s; cbn; try done. unfold approval_decided. by case_match.
Qed.

Lemma paused_received h : paused_in h = true → Received Pause ∈ h.
Proof.
  induction h as [|e h IH] using rev_ind; [done|]. rewrite paused_in_snoc, in_snoc.
  destruct e as [[]|a|x]; auto. done.
Qed.

(** The variables follow the past, and the calls of the past are governed. *)
Record fine (c : GoalRunInput.t) (s : state) : Prop := {
  follows : tracks (vars s) (history s);
  calls_fine : Calls (governed c) (history s)
}.

(** Only signals came between. *)
Definition idle (h : list entry) (s : state) : Prop := ∃ l, history s = h ++ (Received <$> l).

Section steps.
Context (c : GoalRunInput.t).

Lemma fine_phase x s : fine c s → fine c (Execution (with_phase x (vars s)) (inbox s) (history s)).
Proof. intros [Ht Hc]. split; [by apply tracks_phase|done]. Qed.

Lemma post_phase x (Q : unit → state → Prop) E s : fine c s →
  (∀ s', fine c s' → history s' = history s → vars s' = with_phase x (vars s) → Q tt s') →
  post (set_phase x) Q E s.
Proof. intros Hs HQ. apply post_write, HQ; [by apply fine_phase|done|done]. Qed.

Lemma post_wait cond (Q : bool → state → Prop) (E : state → Prop) s : fine c s →
  (∀ b s', fine c s' → idle (history s) s' → (b = true → cond (vars s') = true) →
     (approval_id (vars s') = None → approval_id (vars s) = None) → Q b s') →
  (∀ s', fine c s' → E s') → post (wait_for on_signal true cond) Q E s.
Proof.
  intros [Ht Hc] HQ HE. unfold post, wait_for.
  destruct (await_condition _ _ _ _ _ _) as [o s'] eqn:Ew.
  apply await_condition_spec in Ew as (l & Hv & Hh & Hb).
  assert (fine c s') as Hs'.
  { split; rewrite Hh; [rewrite Hv; by apply tracks_handle|by apply Calls_received]. }
  destruct o as [b|]; [|by apply HE].
  apply HQ; [done|by exists l|intros ->; by apply Hb|]. rewrite Hv. apply handle_approval.
Qed.

Lemma post_activity a (Q : reply → state → Prop) (E : state → Prop) s : fine c s → governed c (history s) a →
  (∀ r s' l, fine c s' → history s' = history s ++ Called a :: (Received <$> l) ++ [Answered r] → Q r s') →
  (∀ s', fine c s' → E s') → post (execute_activity on_signal a) Q E s.
Proof.
  intros [Ht Hc] Ha HQ HE. unfold post, execute_activity.
  destruct (await_answer _ _ _ _) as [o s'] eqn:Ew.
  apply await_answer_spec in Ew as (l & Hv & Hh).
  assert (tracks (vars s') (history s ++ [Called a] ++ (Received <$> l)) ∧
          Calls (governed c) (history s ++ [Called a] ++ (Received <$> l))) as [Ht' Hc'].
  { rewrite app_assoc, Hv. split.
    - by apply tracks_handle, tracks_other.
    - apply Calls_received, Calls_snoc; [done|]. by intros b [= <-]. }
  rewrite <- app_assoc, app_assoc in Hh.
  destruct o as [r|]; [|apply HE; split; rewrite Hh, app_nil_r, <- app_assoc; done].
  assert (fine c s') as Hs'.
  { split; rewrite Hh, <- app_assoc; [|].
    - rewrite app_assoc, app_assoc, <- (app_assoc (history s)). by apply tracks_other.
    - rewrite app_assoc, app_assoc, <- (app_assoc (history s)). by apply Calls_snoc. }
  rewrite <- app_assoc in Hh. cbn [app] in Hh.
  destruct r as [x|x|x|x]; try (by eapply HQ). split; [by apply HE|]. left. by eexists _, a, l, _; eauto.
Qed.

Lemma post_call a (Q : string → state → Prop) (E : state → Prop) s : fine c s → governed c (history s) a →
  (∀ r, (∀ x, r ≠ Text x) → declared a r = false) →
  (∀ r s' l, fine c s' →
     history s' = history s ++ Called a :: (Received <$> l) ++ [Answered (Text r)] → Q r s') →
  (∀ s', fine c s' → E s') → post (call_text on_signal a) Q E s.
Proof.
  intros Hs Ha Hd HQ HE. apply post_bind, post_activity; [done|done| |done].
  intros [r|x|b|x] s' l Hs' Hh; try (apply post_stop; [done| |by apply HE]; intros _ [= <-]; left;
    eexists _, a, l, _; split; [done|right; split; [done|by apply Hd]]).
  apply post_ret. by eapply HQ.
Qed.
End steps.

(** ** The parts of a Run *)

Lemma idle_refl s : idle (history s) s.
Proof. exists []. by rewrite app_nil_r. Qed.

Lemma idle_trans h s s' : idle h s → idle (history s) s' → idle h s'.
Proof. intros [l E] [l' E']. exists (l ++ l'). by rewrite E', E, fmap_app, app_assoc. Qed.

Lemma idle_never p h s : idle h s → never p h → never p (history s).
Proof. intros [l ->] Hh. apply never_app. split; [done|apply never_received]. Qed.

Section parts.
Context (c : GoalRunInput.t).
Notation ends_fine := (fun s => fine c s).
Notation unstopped s := (never is_terminal (history s)).

Lemma post_reject reason (Q : string → state → Prop) s : fine c s → unstopped s →
  (∀ s', fine c s' → Q "rejected" s') → post (reject c reason) Q ends_fine s.
Proof.
  intros Hs Ho HQ. apply post_bind, (post_phase c); [done|]. intros s1 Hs1 Hh1 _.
  apply post_bind, (post_call c); [done|by rewrite Hh1; split|answers_text| |done].
  intros _ s2 l Hs2 _. apply post_bind, (post_phase c); [done|]. intros s3 Hs3 _ _.
  by apply post_ret, HQ.
Qed.

Lemma post_terminal otherwise (Q : option string → state → Prop) s : fine c s → unstopped s →
  (∀ p s', fine c s' → Q (Some p) s') →
  (terminal_control_requested (vars s) = false → post otherwise Q ends_fine s) →
  post (apply_terminal c otherwise) Q ends_fine s.
Proof.
  intros Hs Ho HQ Hn. unfold apply_terminal. apply post_bind, post_read.
  unfold terminal_control_requested in Hn. pose proof (follows _ _ Hs) as Ht.
  destruct (cancel_reason (vars s)) as [r|] eqn:Ec; [|destruct (takeover_reason (vars s)) as [r|] eqn:Et].
  - apply post_bind, (post_phase c); [done|]. intros s1 Hs1 Hh1 _. apply post_bind, (post_call c); [done| |answers_text| |done].
    + rewrite Hh1. split; [done|]. split; [done|]. by apply (cancel_given _ _ Ht).
    + intros _ s2 l Hs2 _. apply post_bind, (post_phase c); [done|]. intros s3 Hs3 _ _. by apply post_ret, HQ.
  - apply post_bind, (post_phase c); [done|]. intros s1 Hs1 Hh1 _. apply post_bind, (post_call c); [done| |answers_text| |done].
    + rewrite Hh1. split; [done|]. split; [done|]. split; [|by apply (takeover_given _ _ Ht)].
      intros r' Hr'%(cancels _ _ Ht). by rewrite Ec in Hr'.
    + intros _ s2 l Hs2 _. apply post_bind, (post_phase c); [done|]. intros s3 Hs3 _ _. by apply post_ret, HQ.
  - by apply Hn.
Qed.

Lemma post_control (Q : option string → state → Prop) s : fine c s → unstopped s →
  (∀ p s', fine c s' → Q (Some p) s') →
  (∀ s', fine c s' → idle (history s) s' → clear (vars s') →
     terminal_control_requested (vars s) = false →
     (approval_id (vars s') = None → approval_id (vars s) = None) → Q None s') →
  post (apply_control c) Q ends_fine s.
Proof.
  intros Hs Ho HQ Hn. apply post_terminal; [done..|]. intros Ht. apply post_bind, post_read.
  destruct (paused (vars s)) eqn:Ep; [|apply post_ret, Hn; [done|apply idle_refl|done..]].
  apply post_bind, (post_phase c); [done|]. intros s1 Hs1 Hh1 Hv1.
  apply post_bind, (post_wait c); [done| |done]. intros b s2 Hs2 Hi Hb Hid. rewrite Hh1 in Hi.
  rewrite Hv1 in Hid.
  assert (unstopped s2) as Ho2 by by eapply idle_never.
  destruct b.
  - apply post_bind, post_read. destruct (terminal_control_requested (vars s2)) eqn:Et2.
    + apply post_terminal; [done..|]. intros E. congruence.
    + apply post_ret, Hn; [done|done| |done|done]. split; [done|]. specialize (Hb eq_refl).
      cbv beta in Hb. rewrite orb_false_r in Hb. by apply negb_true_iff.
  - apply post_bind, post_reject; [done..|]. intros s3 Hs3. by apply post_ret, HQ.
Qed.

(** A round of waiting for the approval. *)
Lemma post_rounds fuel (Q : option string → state → Prop) s : fine c s → unstopped s →
  never is_execute (history s) → GoalRunInput.requires_approval c = true →
  (∀ p s', fine c s' → Q (Some p) s') →
  (∀ s', fine c s' → unstopped s' → never is_execute (history s') → approved c (history s') → Q None s') →
  post (approval_rounds c fuel) Q ends_fine s.
Proof.
  intros Hs Ho Hx Hreq HQ Hn. revert s Hs Ho Hx. induction fuel as [|fuel IH]; intros s Hs Ho Hx; [exact Hs|].
  cbn [approval_rounds]. apply post_bind, (post_wait c); [done| |done]. intros b s1 Hs1 Hi1 Hb _.
  assert (unstopped s1 ∧ never is_execute (history s1)) as [Ho1 Hx1] by by split; eapply idle_never.
  destruct b; [|apply post_bind, post_reject; [done..|]; intros s2 Hs2; by apply post_ret, HQ].
  apply post_bind, post_control; [done|done|intros p s2 Hs2; by apply post_ret, HQ|].
  intros s2 Hs2 Hi2 Hclear Ht1 Hid. assert (unstopped s2 ∧ never is_execute (history s2)) as [Ho2 Hx2]
    by by split; eapply idle_never.
  apply post_bind, post_read. destruct (approval_id (vars s2)) as [id|] eqn:Eid.
  2: { apply post_stop; [done| |done]. intros _ [= <-]. right. split_and!; [done| |done].
       specialize (Hb eq_refl). cbv beta in Hb. rewrite (Hid eq_refl) in Hb.
       apply orb_false_iff in Ht1 as [Hc1 Hk1]. rewrite Hc1, Hk1 in Hb. cbn in Hb.
       rewrite (pauses _ _ (follows _ _ Hs1)) in Hb. destruct Hi2 as [l2 ->].
       apply elem_of_app. left. by apply paused_received. }
  apply post_bind, post_write. set (s3 := Execution _ _ _).
  assert (fine c s3) as Hs3.
  { destruct Hs2 as [[] ?]. split; [by split|done]. }
  apply post_bind, post_bind, (post_activity c); [done|by split| |done].
  intros r s4 l Hs4 Hh4. cbn in Hh4.
  assert (unstopped s4 ∧ never is_execute (history s4)) as [Ho4 Hx4].
  { rewrite Hh4. split; (apply never_app; split; [done|]); change (Called ?a :: ?l ++ ?r) with ([Called a] ++ l ++ r);
      rewrite !never_app; auto with workflow. }
  destruct r as [x|x|x|x];
    try (by apply post_stop; [|intros _ [= <-]; left; eexists _, _, l, _; split; [exact Hh4|right]|]).
  apply post_ret. case_bool_decide as Ea; [|case_match; [|by apply IH]].
  - apply post_ret, Hn; [done..|]. exists (history s2), id, l, x. split_and!; [done|done| |].
    + by apply (approval_given _ _ (follows _ _ Hs2)).
    + eapply clear_quiet; [apply (follows _ _ Hs2)|done].
  - apply post_bind, post_reject; [done..|]. intros s5 Hs5. by apply post_ret, HQ.
Qed.

Lemma post_progress (Q : string → state → Prop) s : fine c s → unstopped s →
  (∀ p s', fine c s' → Q p s') → post (wait_for_progress c) Q ends_fine s.
Proof.
  intros Hs Ho HQ. apply post_bind, (post_phase c); [done|]. intros s1 Hs1 Hh1 _.
  apply post_bind, post_read. cbv zeta. apply post_bind, (post_wait c); [done| |done].
  intros b s2 Hs2 Hi2 _ _. rewrite Hh1 in Hi2. assert (unstopped s2) as Ho2 by by eapply idle_never.
  destruct b; [|apply post_reject; auto].
  apply post_bind, post_control; [done|done|intros p s3 Hs3; by apply post_ret, HQ|].
  intros s3 Hs3 Hi3 _ _ _. assert (unstopped s3) as Ho3 by by eapply idle_never.
  case_match; [apply post_reject; auto|by apply post_stop].
Qed.

Lemma post_execute (Q : string → state → Prop) s : fine c s → unstopped s → never is_execute (history s) →
  (if GoalRunInput.requires_approval c then approved c (history s) else quiet (history s)) →
  (∀ p s', fine c s' → Q p s') → post (execute_and_evaluate c) Q ends_fine s.
Proof.
  intros Hs Ho Hx Ha HQ. apply post_bind, (post_phase c); [done|]. intros s1 Hs1 Hh1 _.
  apply post_bind, (post_call c); [done|rewrite Hh1; split; [done|]; by split_and!|answers_text| |done].
  intros r s2 l Hs2 Hh2.
  assert (unstopped s2) as Ho2.
  { rewrite Hh2, Hh1. apply never_app. split; [done|].
    change (Called ?a :: ?l ++ ?r) with ([Called a] ++ l ++ r). rewrite !never_app. auto with workflow. }
  apply post_bind, post_control; [done|done|intros p s3 Hs3; by apply post_ret, HQ|].
  intros s3 Hs3 [l3 Hh3] Hclear _ _. assert (unstopped s3) as Ho3 by (eapply idle_never; [by exists l3|done]).
  apply post_bind, (post_phase c); [done|]. intros s4 Hs4 Hh4 _.
  apply post_bind, (post_call c); [done| |answers_text| |done].
  - rewrite Hh4. split; [done|]. split_and!; [done|eapply clear_quiet; [apply (follows _ _ Hs3)|done]|].
    exists (history s1), ((Received <$> l) ++ [Answered (Text r)] ++ (Received <$> l3)), r.
    split; [rewrite Hh3, Hh2, <- app_assoc; cbn; by rewrite <- app_assoc|]. apply elem_of_app. right. left.
  - intros r' s5 l5 Hs5 Hh5.
    assert (unstopped s5) as Ho5.
    { rewrite Hh5, Hh4. apply never_app. split; [done|].
      change (Called ?a :: ?l ++ ?r) with ([Called a] ++ l ++ r). rewrite !never_app. auto with workflow. }
    destruct (mem r' _); [|by apply post_progress].
    apply post_bind, (post_phase c); [done|]. intros s6 Hs6 _ _. by apply post_ret, HQ.
Qed.

Lemma post_await (Q : option string → state → Prop) E s :
  post (set_phase "awaiting_approval" ;; approval_rounds c (S (length (inbox s)))) Q E s →
  post (await_authoritative_approval c) Q E s.
Proof. done. Qed.

Lemma run_fine events : post (run c) (fun _ s => fine c s) ends_fine (start events).
Proof.
  assert (fine c (start events)) as Hs by (split; [apply tracks_init|apply Calls_nil]).
  apply post_bind.
  apply (post_mono _ (fun _ s => fine c s ∧ unstopped s ∧ never is_execute (history s)) _ ends_fine); [| |done].
  - destruct (GoalRunInput.continuation_count c =? 0) eqn:E0.
    + apply post_bind, (post_phase c); [done|]. intros s1 Hs1 Hh1 _.
      apply post_bind, (post_call c); [done| |answers_text| |done].
      * rewrite Hh1. split; [by intros a ?%elem_of_nil|]. split_and!; [done|done|by apply Z.eqb_eq].
      * intros r s2 l Hs2 Hh2. apply post_ret. split; [done|]. rewrite Hh2, Hh1.
        change (history (start events) ++ Called ?a :: ?l ++ ?r) with ([Called a] ++ l ++ r).
        rewrite !never_app. auto with workflow.
    + apply post_ret. split_and!; [done|by intros a ?%elem_of_nil..].
  - intros _ s (Hs' & Ho & Hx).
    apply post_bind, post_control; [done|done|by intros p s1 Hs1; apply post_ret|].
    intros s1 Hs1 Hi1 Hclear _ _. assert (unstopped s1 ∧ never is_execute (history s1)) as [Ho1 Hx1]
      by by split; eapply idle_never.
    pose proof (clear_quiet _ _ (follows _ _ Hs1) Hclear) as Hq.
    apply post_bind. destruct (GoalRunInput.requires_approval c) eqn:Er.
    + apply post_await, post_bind, (post_phase c); [done|]. intros s2 Hs2 Hh2 _. rewrite <- Hh2 in Ho1, Hx1.
      apply post_rounds; [done..|by intros p s3 Hs3; apply post_ret|].
      intros s3 Hs3 Ho3 Hx3 Ha. apply post_execute; [done..|by rewrite Er|done].
    + apply post_ret. apply post_execute; [done..|by rewrite Er|done].
Qed.
End parts.

(** C10. In one execution of the Run workflow, from its start or from where it
    continued as new, and whatever signals, timeouts and answers it receives in
    whatever order: execute_run is called at most once, only after the approval it
    needs was loaded as approved or, when none is needed, while nothing asks to stop;
    evaluation is called only after it answered; and nothing is called after the
    activity that cancels, hands over or rejects the Run. *)
Theorem goal_run_is_governed c events : Calls (governed c) (history (snd (run c (start events)))).
Proof.
  pose proof (run_fine c events) as H. unfold post in H. destruct (run c (start events)) as [o s].
  destruct o as [a|x| | |]; [by apply (calls_fine _ _ H)|by apply (calls_fine _ _ (proj1 H))|..];
    by apply (calls_fine _ _ H).
Qed.

(** ** Runs end

    A turn is a timer that fires and, some time later, an activity that answers,
    whatever it answers.  Every wait of a Run ends with the next turn, and so
    does every call of an activity; only the lookups of approvals can be
    repeated, and each of them uses up a signal that named one. *)
Fixpoint turns (answers : list reply) : list event :=
  match answers with [] => [] | r :: l => TimerFires :: Answer r :: turns l end.

(** The signals that name an approval. *)
Definition names_approval (s : signal) : bool :=
  match s with ApprovalDecided _ => true | _ => false end.
Fixpoint approvals (events : list event) : nat :=
  match events with
  | [] => 0
  | Signals l :: events => length (List.filter names_approval l) + approvals events
  | _ :: events => approvals events
  end.

(** [n] turns more than approvals, one of which may be known already. *)
Definition turns_left (n : nat) (v : t) (events : list event) : Prop :=
  ∃ l, (n + approvals events + Nat.b2n (is_some (approval_id v)) ≤ length l)%nat ∧
       turns l `sublist_of` events.
Notation left_over k s := (turns_left k (vars s) (inbox s)).

(** The same after the timer of the next turn. *)
Definition answers_left (n : nat) (v : t) (events : list event) : Prop :=
  ∃ r l, (n + approvals events + Nat.b2n (is_some (approval_id v)) ≤ length l)%nat ∧
         Answer r :: turns l `sublist_of` events.

Lemma sublist_skip {A} (x y : A) l l' : x ≠ y → x :: l `sublist_of` y :: l' → x :: l `sublist_of` l'.
Proof. intros Hn H. inversion H; subst; done. Qed.

Lemma sublist_tail {A} (x : A) l l' : x :: l `sublist_of` l' → l `sublist_of` l'.
Proof. intros H. etransitivity; [|exact H]. by constructor. Qed.

Lemma sublist_rest {A} (x y : A) l l' : x :: l `sublist_of` y :: l' → l `sublist_of` l'.
Proof. intros H. inversion H; subst; [done|]. by eapply sublist_tail. Qed.

Lemma turns_left_less k v events : turns_left (S k) v events → turns_left k v events.
Proof. intros (l & Hl & Hs). exists l. split; [lia|done]. Qed.

Lemma turns_answers k v events : turns_left (S k) v events → answers_left k v events.
Proof.
  intros ([|r l] & Hl & Hs); cbn in Hl; [lia|]. exists r, l. split; [lia|].
  etransitivity; [|exact Hs]. by constructor.
Qed.

Lemma handle_approvals l v :
  (Nat.b2n (is_some (approval_id (handle on_signal l v))) ≤
     length (List.filter names_approval l) + Nat.b2n (is_some (approval_id v)))%nat.
Proof.
  revert v. induction l as [|s l IH]; intros v; [done|]. change (handle on_signal (s :: l) v)
    with (handle on_signal l (on_signal s v)). etransitivity; [apply IH|].
  destruct s; cbn; try done. unfold approval_decided. case_match; [lia|]. cbn. destruct (is_some _); cbn; lia.
Qed.

Lemma await_condition_ends cond events v h :
  let '(o, s) := await_condition on_signal cond true events v h in
  (length (inbox s) ≤ length events)%nat ∧
  ∀ k, turns_left (S k) v events → ∃ b, o = Some b ∧ left_over (if (b : bool) then S k else k) s.
Proof.
  revert v h. induction events as [|e events IH]; intros v h; cbn [await_condition].
  { destruct (cond v); (split; [done|]); intros k Hk; [by exists true|].
    destruct Hk as ([|r l] & Hl & Hs); cbn in Hl; [lia|]. by apply sublist_nil_r in Hs. }
  destruct (cond v); [by split; [|intros k Hk; exists true]|].
  destruct e as [l| |r].
  - specialize (IH (handle on_signal l v) (h ++ (Received <$> l))).
    destruct (await_condition _ _ _ _ _) as [o s]. destruct IH as [Hl Hk]. split; [cbn; lia|].
    intros k ([|r l'] & Hn & Hs); cbn in Hn; [lia|]. apply Hk. exists (r :: l').
    split; [pose proof (handle_approvals l v); cbn; lia|by apply sublist_skip in Hs].
  - split; [cbn; lia|]. intros k (l & Hn & Hs). exists false. split; [done|].
    destruct l as [|r l]; cbn in Hn; [lia|]. exists l. cbn. split; [lia|].
    apply sublist_rest in Hs. by eapply sublist_tail.
  - specialize (IH v h). destruct (await_condition _ _ _ _ _) as [o s]. destruct IH as [Hl Hk].
    split; [cbn; lia|]. intros k ([|r' l'] & Hn & Hs); cbn in Hn; [lia|]. apply Hk. exists (r' :: l').
    split; [cbn; lia|by apply sublist_skip in Hs].
Qed.

Lemma await_answer_ends events v h :
  let '(o, s) := await_answer on_signal events v h in
  (o ≠ None → (length (inbox s) < length events)%nat) ∧
  ∀ k, answers_left k v events → ∃ r, o = Some r ∧ left_over k s.
Proof.
  revert v h. induction events as [|e events IH]; intros v h; cbn [await_answer].
  { split; [done|]. intros k (r & l & _ & Hs). by apply sublist_nil_r in Hs. }
  destruct e as [l| |r].
  - specialize (IH (handle on_signal l v) (h ++ (Received <$> l))).
    destruct (await_answer _ _ _ _) as [o s]. destruct IH as [Hl Hk].
    split; [intros Ho; specialize (Hl Ho); cbn; lia|].
    intros k (r & l' & Hn & Hs). cbn in Hn. apply Hk. exists r, l'.
    split; [pose proof (handle_approvals l v); lia|by apply sublist_skip in Hs].
  - specialize (IH v h). destruct (await_answer _ _ _ _) as [o s]. destruct IH as [Hl Hk].
    split; [intros Ho; specialize (Hl Ho); cbn; lia|].
    intros k (r & l' & Hn & Hs). apply Hk. exists r, l'. split; [done|by apply sublist_skip in Hs].
  - split; [intros _; cbn; lia|]. intros k (r' & l' & Hn & Hs). exists r. split; [done|].
    exists l'. split; [done|by apply sublist_rest in Hs].
Qed.

(** [m] does not run out of fuel, nor blocks when [alive]. *)
Definition settles (alive : bool) {A} (m : W t A) (Q : A → state → Prop) (s : state) : Prop :=
  let '(o, s') := m s in
  match o with Done a => Q a s' | OutOfFuel => False | Blocked => alive = false | _ => True end.

Section settles.
Context (alive : bool).
Notation has k s := (alive = true → left_over k s).

Lemma has_less k s : has (S k) s → has k s.
Proof. intros H Ha. by apply turns_left_less, H. Qed.

Lemma settles_mono {A} (m : W t A) (Q Q' : A → state → Prop) s :
  settles alive m Q s → (∀ a s', Q a s' → Q' a s') → settles alive m Q' s.
Proof. unfold settles. intros Hm HQ. destruct (m s) as [[] s']; auto. Qed.

Lemma settles_ret {A} (a : A) (Q : A → state → Prop) s : Q a s → settles alive (mret a) Q s.
Proof. done. Qed.
Lemma settles_raise {A} x (Q : A → state → Prop) s : settles alive (stop (Raised x)) Q s.
Proof. done. Qed.
Lemma settles_continue {A} c (Q : A → state → Prop) s : settles alive (stop (ContinueAsNew c)) Q s.
Proof. done. Qed.
Lemma settles_read (Q : t → state → Prop) s : Q (vars s) s → settles alive read Q s.
Proof. done. Qed.
Lemma settles_phase x k (Q : unit → state → Prop) s : has k s →
  (∀ s', inbox s' = inbox s → has k s' → Q tt s') → settles alive (set_phase x) Q s.
Proof. intros Hs HQ. by apply HQ. Qed.
Lemma settles_bind {A B} (m : W t A) (f : A → W t B) (Q : B → state → Prop) s :
  settles alive m (fun a s' => settles alive (f a) Q s') s → settles alive (m ≫= f) Q s.
Proof. unfold settles, mbind, W_bind. by destruct (m s) as [[] s']. Qed.

Lemma settles_wait cond k (Q : bool → state → Prop) s : has (S k) s →
  (∀ (b : bool) s', (length (inbox s') ≤ length (inbox s))%nat → has (if b then S k else k) s' → Q b s') →
  settles alive (wait_for on_signal true cond) Q s.
Proof.
  intros Hs HQ. unfold settles, wait_for.
  pose proof (await_condition_ends cond (inbox s) (vars s) (history s)) as H.
  destruct (await_condition _ _ _ _ _ _) as [o s']. destruct H as [Hl Hk]. destruct o as [b|].
  - apply HQ; [done|]. intros Ha. by destruct (Hk k (Hs Ha)) as (b' & [= <-] & ?).
  - destruct alive; [|done]. by destruct (Hk k (Hs eq_refl)) as (b' & ? & ?).
Qed.

Lemma settles_activity a k (Q : reply → state → Prop) s : has (S k) s →
  (∀ r s', (length (inbox s') < length (inbox s))%nat → has k s' → Q r s') →
  settles alive (execute_activity on_signal a) Q s.
Proof.
  intros Hs HQ. unfold settles, execute_activity.
  pose proof (await_answer_ends (inbox s) (vars s) (history s ++ [Called a])) as H.
  destruct (await_answer _ _ _ _) as [o s']. destruct H as [Hl Hk]. destruct o as [r|].
  - assert (Q r s'); [|by destruct r]. apply HQ; [by apply Hl|].
    intros Ha. by destruct (Hk k (turns_answers _ _ _ (Hs Ha))) as (r' & _ & ?).
  - destruct alive; [|done]. by destruct (Hk k (turns_answers _ _ _ (Hs eq_refl))) as (b' & ? & ?).
Qed.

Lemma settles_call a k (Q : string → state → Prop) s : has (S k) s →
  (∀ r s', (length (inbox s') < length (inbox s))%nat → has k s' → Q r s') →
  settles alive (call_text on_signal a) Q s.
Proof.
  intros Hs HQ. apply settles_bind, (settles_activity a k); [done|].
  intros [r|x|b|x] s' Hl Hk; try apply settles_raise. by apply settles_ret, HQ.
Qed.

Context (c : GoalRunInput.t).

Lemma settles_reject reason k (Q : string → state → Prop) s : has (S k) s →
  (∀ p s', has k s' → Q p s') → settles alive (reject c reason) Q s.
Proof.
  intros Hs HQ. apply settles_bind, (settles_phase _ (S k)); [done|]. intros s1 _ H1.
  apply settles_bind, (settles_call _ k); [done|]. intros _ s2 _ H2.
  apply settles_bind, (settles_phase _ k); [done|]. intros s3 _ H3. by apply settles_ret, HQ.
Qed.

Lemma settles_terminal otherwise k (Q : option string → state → Prop) s : has (S k) s →
  (∀ p s', has k s' → Q (Some p) s') → settles alive otherwise Q s →
  settles alive (apply_terminal c otherwise) Q s.
Proof.
  intros Hs HQ Ho. apply settles_bind, settles_read.
  destruct (cancel_reason (vars s)) as [r|]; [|destruct (takeover_reason (vars s)) as [r|]; [|done]].
  all: apply settles_bind, (settles_phase _ (S k)); [done|]; intros s1 _ H1;
    apply settles_bind, (settles_call _ k); [done|]; intros _ s2 _ H2;
    apply settles_bind, (settles_phase _ k); [done|]; intros s3 _ H3; by apply settles_ret, HQ.
Qed.

Lemma settles_control k (Q : option string → state → Prop) s : has (S (S k)) s →
  (∀ p s', has k s' → Q (Some p) s') →
  (∀ s', (length (inbox s') ≤ length (inbox s))%nat → has (S (S k)) s' → Q None s') →
  settles alive (apply_control c) Q s.
Proof.
  intros Hs HQ Hn. apply (settles_terminal _ (S k)); [done|intros p s' H; by apply HQ, has_less|].
  apply settles_bind, settles_read. destruct (paused (vars s)); [|by apply settles_ret, Hn].
  apply settles_bind, (settles_phase _ (S (S k))); [done|]. intros s1 E1 H1.
  apply settles_bind, (settles_wait _ (S k)); [done|]. intros [] s2 Hl2 H2; rewrite E1 in Hl2.
  - apply settles_bind, settles_read. case_match; [|by apply settles_ret, Hn].
    apply (settles_terminal _ (S k)); [done| |by apply settles_ret, Hn].
    intros p s' H'. by apply HQ, has_less.
  - apply settles_bind, (settles_reject _ k); [done|]. intros p s3 H3. by apply settles_ret, HQ.
Qed.

(** Taking the approval that was named pays for its lookup. *)
Lemma settles_take k (Q : unit → state → Prop) s : has k s → is_some (approval_id (vars s)) = true →
  (∀ s', inbox s' = inbox s → has (S k) s' → Q tt s') → settles alive (write (with_approval None)) Q s.
Proof.
  intros Hs Ha HQ. apply HQ; [done|]. intros E. destruct (Hs E) as (l & Hl & Hsub).
  rewrite Ha in Hl. exists l. cbn in *. split; [lia|done].
Qed.

Lemma settles_rounds fuel k (Q : option string → state → Prop) s : has (S (S (S k))) s →
  (length (inbox s) < fuel)%nat →
  (∀ p s', has k s' → Q (Some p) s') → (∀ s', has (S (S (S k))) s' → Q None s') →
  settles alive (approval_rounds c fuel) Q s.
Proof.
  intros Hs Hf HQ Hn. revert s Hs Hf. induction fuel as [|fuel IH]; intros s Hs Hf; [lia|].
  cbn [approval_rounds]. apply settles_bind, (settles_wait _ (S (S k))); [done|]. intros [] s1 Hl1 H1.
  - apply settles_bind, (settles_control (S k)); [done| |].
    { intros p s2 H2. by apply settles_ret, HQ, has_less. }
    intros s2 Hl2 H2. apply settles_bind, settles_read.
    destruct (approval_id (vars s2)) as [id|] eqn:Eid; [|apply settles_raise].
    apply settles_bind, (settles_take (S (S (S k)))); [done|by rewrite Eid|]. intros s3 E3 H3.
    rewrite <- E3 in Hl2. apply settles_bind, settles_bind, (settles_activity _ (S (S (S k)))); [done|].
    intros r s4 Hl4 H4. destruct r as [x|x|x|x]; try apply settles_raise. apply settles_ret.
    case_bool_decide; [by apply settles_ret, Hn|]. case_match; [|apply IH; [done|lia]].
    apply settles_bind, (settles_reject _ (S (S k))); [done|]. intros p s5 H5.
    by apply settles_ret, HQ, has_less, has_less.
  - apply settles_bind, (settles_reject _ (S k)); [done|]. intros p s2 H2.
    by apply settles_ret, HQ, has_less.
Qed.

Lemma settles_progress (Q : string → state → Prop) s : has 3 s → (∀ p s', Q p s') →
  settles alive (wait_for_progress c) Q s.
Proof.
  intros Hs HQ. apply settles_bind, (settles_phase _ 3); [done|]. intros s1 _ H1.
  apply settles_bind, settles_read. cbv zeta. apply settles_bind, (settles_wait _ 2); [done|].
  intros [] s2 _ H2; [|by apply (settles_reject _ 1)].
  apply settles_bind, (settles_control 1); [done|by intros; apply settles_ret, HQ|].
  intros s3 _ H3. case_match; [by apply (settles_reject _ 2)|apply settles_continue].
Qed.

Lemma settles_execute (Q : string → state → Prop) s : has 5 s → (∀ p s', Q p s') →
  settles alive (execute_and_evaluate c) Q s.
Proof.
  intros Hs HQ. apply settles_bind, (settles_phase _ 5); [done|]. intros s1 _ H1.
  apply settles_bind, (settles_call _ 4); [done|]. intros _ s2 _ H2.
  apply settles_bind, (settles_control 2); [done|by intros; apply settles_ret, HQ|].
  intros s3 _ H3. apply settles_bind, (settles_phase _ 4); [done|]. intros s4 _ H4.
  apply settles_bind, (settles_call _ 3); [done|]. intros r s5 _ H5.
  case_match; [|by apply settles_progress]. apply settles_bind, (settles_phase _ 3); [done|].
  intros s6 _ _. by apply settles_ret, HQ.
Qed.

Lemma run_settles events : (alive = true → turns_left 6 init events) →
  settles alive (run c) (fun _ _ => True) (start events).
Proof.
  intros Hs. apply settles_bind.
  apply (settles_mono _ (fun _ s => has 5 s)).
  - case_match.
    + apply settles_bind, (settles_phase _ 6); [done|]. intros s1 _ H1.
      apply settles_bind, (settles_call _ 5); [done|]. intros r s2 _ H2. by apply settles_ret.
    + apply settles_ret. by apply has_less.
  - intros _ s H5. apply settles_bind, (settles_control 3); [done|by intros; apply settles_ret|].
    intros s1 _ H1. apply settles_bind. case_match.
    + unfold await_authoritative_approval.
      assert (settles alive (set_phase "awaiting_approval" ;; approval_rounds c (S (length (inbox s1))))
        (fun a s' => settles alive match a with Some p => mret p | None => execute_and_evaluate c end
                       (fun _ _ => True) s') s1) as H'; [|exact H'].
      apply settles_bind, (settles_phase _ 5); [done|]. intros s2 E2 H2. rewrite <- E2.
      apply (settles_rounds _ 2); [done|lia|by intros; apply settles_ret|].
      intros s3 H3. by apply settles_execute.
    + apply settles_ret. by apply settles_execute.
Qed.
End settles.

Lemma run_blamed c events x s : run c (start events) = (Raised x, s) → blamed x (history s).
Proof.
  intros H. pose proof (run_fine c events) as Hf. unfold post in Hf. rewrite H in Hf. apply Hf.
Qed.

(** C11. Whatever events one execution of the Run workflow receives, once they hold
    six more turns (the timers fire, then an activity answers) than approval signals
    it has ended: it returned, continued as new, or raised because the activity just
    called failed or answered something else than its declared type, or, before
    anything was executed, because a pause ended its wait for the approval. *)
Theorem goal_run_ends c events answers :
  turns answers `sublist_of` events → (6 + approvals events ≤ length answers)%nat →
  let '(o, s) := run c (start events) in
  match o with
  | Done _ | ContinueAsNew _ => True
  | Raised x => blamed x (history s)
  | Blocked | OutOfFuel => False
  end.
Proof.
  intros Hs Hl. pose proof (run_settles true c events) as H. unfold settles in H.
  pose proof (run_blamed c events) as Hb. destruct (run c _) as [o s].
  assert (turns_left 6 init events) as Ht by (exists answers; cbn in *; split; [lia|done]).
  specialize (H (fun _ => Ht)). destruct o; try done. by apply Hb.
Qed.

(** Pauses, approvals and answers among the turns. *)
Definition busy : list event :=
  [Signals [Pause]] ++ turns [Text "planned"; Text ""] ++ [Signals [Resume; ApprovalDecided "a"]] ++
  turns (Approval (ApprovalState.mk "a" "approved") :: replicate 5 (Text "running")).

Lemma goal_run_ends_witness :
  let '(o, s) := run (GoalRunInput.mk "t" "g" "r" (of_int 0) true "high" 0 2) (start busy) in
  match o with
  | Done _ | ContinueAsNew _ => True
  | Raised x => blamed x (history s)
  | Blocked | OutOfFuel => False
  end.
Proof.
  apply (goal_run_ends _ busy ([Text "planned"; Text ""] ++
    Approval (ApprovalState.mk "a" "approved") :: replicate 5 (Text "running"))).
  - unfold busy. repeat constructor.
  - vm_compute. lia.
Defined.

(** ** Continuing as new *)

(** A continuation is under the limit, and of the continued command. *)
Definition continues (c : GoalRunInput.t) (o : outcome string) : Prop :=
  ∀ c', o = ContinueAsNew c' →
    (GoalRunInput.continuation_count c < GoalRunInput.max_continuations c)%Z ∧ c' = GoalRunInput.continued c.

Definition within {A} (c : GoalRunInput.t) (m : W t A) : Prop :=
  ∀ s c' s', m s = (ContinueAsNew c', s') →
    (GoalRunInput.continuation_count c < GoalRunInput.max_continuations c)%Z ∧ c' = GoalRunInput.continued c.

Section continue.
Context (c : GoalRunInput.t).

Lemma within_ret {A} (a : A) : within c (mret a).
Proof. by intros s c' s' [=]. Qed.
Lemma within_raise {A} x : within c (stop (A := A) (Raised x)).
Proof. by intros s c' s' [=]. Qed.
Lemma within_fuel {A} : within c (stop (A := A) OutOfFuel).
Proof. by intros s c' s' [=]. Qed.
Lemma within_bind {A B} (m : W t A) (f : A → W t B) :
  within c m → (∀ a, within c (f a)) → within c (m ≫= f).
Proof.
  unfold within, mbind, W_bind. intros Hm Hf s c' s'. specialize (Hm s).
  destruct (m s) as [[] s1]; try (by intros [=]); [apply Hf|].
  intros [= <- <-]. by apply (Hm _ _ eq_refl).
Qed.
Lemma within_read : within c read.
Proof. by intros s c' s' [=]. Qed.
Lemma within_write f : within c (write f).
Proof. by intros s c' s' [=]. Qed.
Lemma within_wait cond : within c (wait_for on_signal true cond).
Proof. intros s c' s'. unfold wait_for. by destruct (await_condition _ _ _ _ _ _) as [[] ?]. Qed.
Lemma within_activity a : within c (execute_activity on_signal a).
Proof. intros s c' s'. unfold execute_activity. by destruct (await_answer _ _ _ _) as [[[]|] ?]. Qed.
End continue.

Create HintDb within.
#[local] Hint Resolve within_ret within_raise within_fuel within_read within_write within_wait
  within_activity : within.

(** Through binds and cases, to the primitives. *)
Ltac within := repeat first
  [ solve [auto with within] | apply within_bind; [|intros ?] | progress case_match ].

Section continue.
Context (c : GoalRunInput.t).

Lemma within_text a : within c (call_text on_signal a).
Proof. unfold call_text. within. Qed.
Lemma within_approval a : within c (call_approval on_signal a).
Proof. unfold call_approval. within. Qed.
#[local] Hint Resolve within_text within_approval : within.

Lemma within_reject reason : within c (reject c reason).
Proof. unfold reject, set_phase. within. Qed.
Lemma within_terminal m : within c m → within c (apply_terminal c m).
Proof. intros ?. unfold apply_terminal, set_phase. within. Qed.
#[local] Hint Resolve within_reject within_terminal : within.

Lemma within_control : within c (apply_control c).
Proof. apply within_terminal. unfold set_phase, expire. within. Qed.
#[local] Hint Resolve within_control : within.

Lemma within_rounds fuel : within c (approval_rounds c fuel).
Proof. induction fuel; cbn [approval_rounds]; unfold expire; within. Qed.
#[local] Hint Resolve within_rounds : within.

Lemma within_progress : within c (wait_for_progress c).
Proof.
  unfold wait_for_progress, set_phase, expire. within.
  intros s c' s' [= <- <-]. split; [lia|done].
Qed.
#[local] Hint Resolve within_progress : within.

Lemma within_run : within c (run c).
Proof.
  unfold run, execute_and_evaluate, await_authoritative_approval, set_phase. within.
  intros s c' s'. apply (within_bind c (write _)); within.
Qed.
End continue.

(** C12. A Run continues as new at most as often as its limit allows: the chain of its
    workflow runs ends without another continuation, after at most max_continuations -
    continuation_count + 1 histories. *)
Theorem goal_chain_is_bounded c events fuel :
  (Z.to_nat (GoalRunInput.max_continuations c - GoalRunInput.continuation_count c) < fuel)%nat →
  let '(o, histories) := chain fuel c events in
  match o with OutOfFuel | ContinueAsNew _ => False | _ => True end ∧
  (length histories ≤ S (Z.to_nat (GoalRunInput.max_continuations c - GoalRunInput.continuation_count c)))%nat.
Proof.
  revert c events. induction fuel as [|fuel IH]; intros c events Hf; [lia|]. cbn [chain].
  pose proof (run_settles false c events) as Hs. pose proof (within_run c (start events)) as Hw.
  unfold settles in Hs. destruct (run c (start events)) as [[] s]; try by (split; [|cbn; lia]).
  - destruct (Hw _ _ eq_refl) as [Hlt ->].
    specialize (IH (GoalRunInput.continued c) (inbox s)). cbn in IH.
    destruct (chain fuel _ _) as [o histories]. destruct IH as [Ho Hl]; [lia|]. split; [done|]. cbn; lia.
  - by destruct Hs.
Qed.

(** A Run that may continue twice and is told to. *)
Definition resumed : GoalRunInput.t := GoalRunInput.mk "t" "g" "r" (of_int 0) false "low" 0 2.
Definition progress : list event := [Answer (Text "done"); Answer (Text "running"); Signals [Resume]].

Lemma goal_chain_is_bounded_witness :
  let '(o, histories) := chain 3 resumed (Answer (Text "planned") :: progress ++ progress) in
  match o with OutOfFuel | ContinueAsNew _ => False | _ => True end ∧ (length histories ≤ 3)%nat.
Proof. apply (goal_chain_is_bounded resumed). cbn. lia. Defined.

Example resumed_continues :
  length (snd (chain 3 resumed (Answer (Text "planned") :: progress ++ progress))) = 3%nat.
Proof. vm_compute. reflexivity. Qed.

(** ** Two orders of events *)

Definition needs_approval (tenant goal id tier : string) (deadline : float) (most : Z) : GoalRunInput.t :=
  GoalRunInput.mk tenant goal id deadline true tier 0 most.

Theorem resume_breaks_approval_wait tenant goal id tier deadline most planned later :
  fst (run (needs_approval tenant goal id tier deadline most)
         (start ([Answer (Text planned); Signals [Pause]; Signals [Resume]] ++ later))) =
  Raised (Exn AssertionError "").
Proof. by destruct later. Qed.

(** A cancellation that arrives while the approval is looked up does not keep
    the Run from executing. *)
Example cancelled_lookup_executes :
  let c := needs_approval "t" "g" "r" "low" (of_int 0) 3 in
  let approved := ApprovalState.mk "a" "approved" in
  history (snd (run c (start [Answer (Text "planned"); Signals [ApprovalDecided "a"]; Signals [Cancel "stop"];
                              Answer (Approval approved)]))) =
  [Called (PrepareRun (identity c)); Answered (Text "planned"); Received (ApprovalDecided "a");
   Called (LoadApproval (ApprovalLookupInput.mk "t" "r" "a")); Received (Cancel "stop");
   Answered (Approval approved); Called (ExecuteRun (identity c))].
Proof. vm_compute. reflexivity. Qed.
