(* ===== verification/Codec.v ===== *)
(** * packages/adapters: persistence_codec.py

    The codecs between aggregates and the rows of the relational store: a
    [..._payload] is the JSON column of a record, a [..._from_row] reads the
    record back.  Arguments are evaluated in the order of the source; a tuple
    is a JSON list. *)

From S2P Require Import Prelude PyStr PyDict PyFloat Json Calendar Transitions Values Goals.
From S2P Require Import Execution ExecutionObjects Improvement EvaluationDomain ContextDomain Rows.
From Stdlib Require Import ZArith.

Open Scope string_scope.
Open Scope list_scope.
Open Scope Z_scope.

(** ** Transitions and runs *)

Definition transition_payload (item : StateTransition.t) : object := [
  ("from_status", JStr (StateTransition.from_status item));
  ("to_status", JStr (StateTransition.to_status item));
  ("occurred_at", j_iso (StateTransition.occurred_at item));
  ("reason", JStr (StateTransition.reason item));
  ("actor_id", j_uuid (StateTransition.actor_id item))].

Definition transition_of (item : object) : res StateTransition.t :=
  from_status ← str_field item "from_status";
  to_status ← str_field item "to_status";
  occurred_at ← iso_field item "occurred_at";
  reason ← str_field item "reason";
  actor_id ← uuid_field item "actor_id";
  StateTransition.new (StateTransition.mk from_status to_status occurred_at reason actor_id).

Definition transitions_from (payload : json) : res (list StateTransition.t) :=
  match payload with
  | JList _ => each_object transition_of payload
  | _ => Ok []
  end.

Definition transitions_payload (l : list StateTransition.t) : json :=
  JList ((fun item => JDict (transition_payload item)) <$> l).

Definition snapshot_payload (s : RunExecutionSnapshot.t) : object := [
  ("plan_id", j_uuid (RunExecutionSnapshot.plan_id s));
  ("context_snapshot_id", j_uuid (RunExecutionSnapshot.context_snapshot_id s));
  ("agent_version_id", j_uuid (RunExecutionSnapshot.agent_version_id s));
  ("skill_versions", strs (RunExecutionSnapshot.skill_versions s));
  ("tool_versions", strs (RunExecutionSnapshot.tool_versions s));
  ("model_route", JStr (RunExecutionSnapshot.model_route s));
  ("policy_version", JStr (RunExecutionSnapshot.policy_version s))].

Definition run_payload (run : Run.t) : object := [
  ("execution_snapshot", j_opt (fun s => JDict (snapshot_payload s)) (Run.execution_snapshot run));
  ("transitions", transitions_payload (Run.transitions run));
  ("deployment_id", j_opt j_uuid (Run.deployment_id run))].

Definition snapshot_of (v : json) : res RunExecutionSnapshot.t :=
  snapshot ← as_object v;
  plan_id ← uuid_field snapshot "plan_id";
  context_snapshot_id ← uuid_field snapshot "context_snapshot_id";
  agent_version_id ← uuid_field snapshot "agent_version_id";
  skill_versions ← strs_field snapshot "skill_versions";
  tool_versions ← strs_field snapshot "tool_versions";
  model_route ← str_field snapshot "model_route";
  policy_version ← str_field snapshot "policy_version";
  RunExecutionSnapshot.new (RunExecutionSnapshot.mk plan_id context_snapshot_id agent_version_id
    skill_versions tool_versions model_route policy_version).

(** [row[k] or {}] *)
Definition object_or_empty (v : json) : res object :=
  if truthy v then as_object v else Ok [].

Definition run_from_row (row : row) : res Run.t :=
  definition ← json_column row "definition";
  definition ← object_or_empty definition;
  tenant_id ← uuid_column row "tenant_id";
  goal_id ← uuid_column row "goal_id";
  agent_version_id ← uuid_column row "agent_version_id";
  execution_snapshot ← if_truthy snapshot_of (get definition "execution_snapshot");
  run_id ← uuid_column row "id";
  status ← enum_column row "status";
  optimistic_version ← int_column row "optimistic_version";
  created_at ← time_column row "created_at";
  transitions ← transitions_from (get definition "transitions");
  deployment_id ← if_truthy as_uuid (get definition "deployment_id");
  Run.new (Run.mk tenant_id goal_id agent_version_id execution_snapshot run_id status
    optimistic_version created_at transitions deployment_id).

(** ** Tasks and plans *)

Definition budget_payload (x : BudgetAmount.t) : object := [
  ("amount", JInt (BudgetAmount.amount x));
  ("unit", j_enum (BudgetAmount.unit x))].

Definition budget_of (estimated : object) : res BudgetAmount.t :=
  amount ← int_field estimated "amount";
  unit ← enum_field estimated "unit";
  BudgetAmount.new amount unit.

Definition task_payload (task : Task.t) : object := [
  ("name", JStr (Task.name task));
  ("completion_criterion", JStr (Task.completion_criterion task));
  ("depends_on", JList (j_uuid <$> Task.depends_on task));
  ("preconditions", strs (Task.preconditions task));
  ("estimated_cost", JDict (budget_payload (Task.estimated_cost task)));
  ("risk_level", j_enum (Task.risk_level task));
  ("compensation", j_enum (Task.compensation task));
  ("evidence_requirements", strs (Task.evidence_requirements task));
  ("transitions", transitions_payload (Task.transitions task))].

Definition task_from_row (row : row) : res Task.t :=
  definition ← object_column row "definition";
  estimated ← object_field definition "estimated_cost";
  tenant_id ← uuid_column row "tenant_id";
  run_id ← uuid_column row "run_id";
  name ← str_field definition "name";
  completion_criterion ← str_field definition "completion_criterion";
  depends ← at_key definition "depends_on";
  depends_on ← each as_uuid depends;
  preconditions ← strs_field definition "preconditions";
  estimated_cost ← budget_of estimated;
  risk_level ← enum_field definition "risk_level";
  compensation ← enum_field definition "compensation";
  evidence_requirements ← strs_field definition "evidence_requirements";
  task_id ← uuid_column row "id";
  status ← enum_column row "status";
  optimistic_version ← int_column row "optimistic_version";
  transitions ← transitions_from (get definition "transitions");
  Task.new (Task.mk tenant_id run_id name completion_criterion depends_on preconditions
    estimated_cost risk_level compensation evidence_requirements task_id status
    optimistic_version transitions).

Definition plan_from_rows (plan_row : row) (task_rows : list row) : res Plan.t :=
  tenant_id ← uuid_column plan_row "tenant_id";
  goal_id ← uuid_column plan_row "goal_id";
  run_id ← uuid_column plan_row "run_id";
  tasks ← mapM_res task_from_row task_rows;
  version ← int_column plan_row "version";
  plan_id ← uuid_column plan_row "id";
  Plan.new (Plan.mk tenant_id goal_id run_id tasks version plan_id).

(** ** Actions and attempts *)

Definition action_payload (action : Action.t) : res object :=
  parameters ← JsonObject.to_value (Action.parameters action);
  Ok [
  ("tool_name", JStr (Action.tool_name action));
  ("tool_version", JStr (Action.tool_version action));
  ("operation", JStr (Action.operation action));
  ("resource_scope", JStr (Action.resource_scope action));
  ("parameters", JDict parameters);
  ("risk_level", j_enum (Action.risk_level action));
  ("expected_effect", JStr (Action.expected_effect action));
  ("classification", j_enum (Action.classification action));
  ("execution_mode", j_enum (Action.execution_mode action));
  ("transitions", transitions_payload (Action.transitions action))].

Definition action_from_row (row : row) : res Action.t :=
  definition ← object_column row "definition";
  tenant_id ← uuid_column row "tenant_id";
  run_id ← uuid_column row "run_id";
  task_id ← uuid_column row "task_id";
  tool_name ← str_field definition "tool_name";
  tool_version ← str_field definition "tool_version";
  operation ← str_field definition "operation";
  resource_scope ← str_field definition "resource_scope";
  value ← object_field definition "parameters";
  parameters ← JsonObject.from_value value;
  risk_level ← enum_field definition "risk_level";
  idempotency_key ← str_column row "idempotency_key";
  expected_effect ← str_field definition "expected_effect";
  classification ← enum_field definition "classification";
  execution_mode ← enum_field definition "execution_mode";
  action_id ← uuid_column row "id";
  status ← enum_column row "status";
  optimistic_version ← int_column row "optimistic_version";
  transitions ← transitions_from (get definition "transitions");
  Action.new (Action.mk tenant_id run_id task_id tool_name tool_version operation resource_scope
    parameters risk_level idempotency_key expected_effect classification execution_mode action_id
    status optimistic_version transitions).

Definition action_attempt_payload (item : ActionAttempt.t) : object := [
  ("executor_identity", JStr (ActionAttempt.executor_identity item));
  ("failure_reason", j_opt JStr (ActionAttempt.failure_reason item));
  ("recorded_at", j_iso (ActionAttempt.recorded_at item))].

Definition action_attempt_from_row (row : row) : res ActionAttempt.t :=
  definition ← object_column row "definition";
  tenant_id ← uuid_column row "tenant_id";
  run_id ← uuid_column row "run_id";
  action_id ← uuid_column row "action_id";
  invocation_id ← uuid_column row "invocation_id";
  status ← enum_column row "status";
  idempotency_key ← str_column row "idempotency_key";
  receipt_ref ← str_column row "receipt_ref";
  executor_identity ← str_field definition "executor_identity";
  failure_reason ← opt as_str (get definition "failure_reason");
  attempt_id ← uuid_column row "id";
  recorded_at ← iso_field definition "recorded_at";
  ActionAttempt.new (ActionAttempt.mk tenant_id run_id action_id invocation_id status
    idempotency_key receipt_ref executor_identity failure_reason attempt_id recorded_at).

(** ** Memory and context *)

Definition memory_payload (item : MemoryRecord.t) : object := [
  ("classification", j_enum (MemoryRecord.classification item));
  ("purpose", JStr (MemoryRecord.purpose item));
  ("contains_pii", JBool (MemoryRecord.contains_pii item));
  ("conflict_keys", strs (MemoryRecord.conflict_keys item));
  ("source_trust", j_enum (MemoryRecord.source_trust item));
  ("created_at", j_iso (MemoryRecord.created_at item))].

(** [row.get(k, v)] *)
Definition column_or (row : row) (k : string) (v : json) : res json :=
  match alist_get k row with Some c => as_json c | None => Ok v end.

Definition memory_from_row (row : row) : res MemoryRecord.t :=
  definition ← column_or row "definition" JNull;
  definition ← object_or_empty definition;
  tenant_id ← uuid_column row "tenant_id";
  scope ← str_column row "scope";
  content ← str_column row "content";
  provenance ← json_column row "provenance";
  provenance ← as_strs provenance;
  confidence ← json_column row "confidence";
  confidence ← as_float confidence;
  expires_at ← time_column row "expires_at";
  approved_by ← uuid_column row "approved_by";
  classification ← as_enum (get_or definition "classification" (j_enum DataClassification.INTERNAL));
  purpose ← as_str (get_or definition "purpose" (JStr "run_context"));
  let contains_pii := truthy (get_or definition "contains_pii" (JBool false)) in
  conflict_keys ← as_strs (get_or definition "conflict_keys" (JList []));
  source_trust ← as_enum (get_or definition "source_trust" (j_enum TrustLevel.ADVISORY));
  status ← column_or row "status" (j_enum MemoryStatus.STABLE);
  status ← as_enum status;
  memory_id ← uuid_column row "id";
  created_at ← (if truthy (get definition "created_at") then iso_field definition "created_at"
                else time_column row "created_at");
  MemoryRecord.new (MemoryRecord.mk tenant_id scope content provenance confidence expires_at
    approved_by classification purpose contains_pii conflict_keys source_trust status memory_id
    created_at).

Definition fact_payload (fact : EnvironmentFact.t) : object := [
  ("fact_id", JStr (EnvironmentFact.fact_id fact));
  ("tenant_id", j_uuid (EnvironmentFact.tenant_id fact));
  ("source", JStr (EnvironmentFact.source fact));
  ("source_authority", JStr (EnvironmentFact.source_authority fact));
  ("subject", JStr (EnvironmentFact.subject fact));
  ("value", JDict (EnvironmentFact.value fact));
  ("observed_at", j_iso (EnvironmentFact.observed_at fact));
  ("valid_until", j_iso (EnvironmentFact.valid_until fact));
  ("trust", j_enum (EnvironmentFact.trust fact));
  ("classification", j_enum (EnvironmentFact.classification fact));
  ("freshness_policy", j_enum (EnvironmentFact.freshness_policy fact));
  ("allowed_roles", strs (sorted_strings (EnvironmentFact.allowed_roles fact)));
  ("allowed_purposes", strs (sorted_strings (EnvironmentFact.allowed_purposes fact)));
  ("visible_fields", strs (EnvironmentFact.visible_fields fact))].

Definition knowledge_payload (ref : KnowledgeRef.t) : object := [
  ("knowledge_id", JStr (KnowledgeRef.knowledge_id ref));
  ("tenant_id", j_uuid (KnowledgeRef.tenant_id ref));
  ("version", JStr (KnowledgeRef.version ref));
  ("source", JStr (KnowledgeRef.source ref));
  ("citation", JStr (KnowledgeRef.citation ref));
  ("trust", j_enum (KnowledgeRef.trust ref));
  ("classification", j_enum (KnowledgeRef.classification ref));
  ("allowed_roles", strs (sorted_strings (KnowledgeRef.allowed_roles ref)));
  ("allowed_purposes", strs (sorted_strings (KnowledgeRef.allowed_purposes ref)))].

Definition context_snapshot_payload (item : ContextSnapshot.t) : object := [
  ("environment_facts",
     JList ((fun fact => JDict (fact_payload fact)) <$> ContextSnapshot.environment_facts item));
  ("knowledge_refs",
     JList ((fun ref => JDict (knowledge_payload ref)) <$> ContextSnapshot.knowledge_refs item));
  ("memory_ids", JList (j_uuid <$> ContextSnapshot.memory_ids item));
  ("history_digest", JStr (ContextSnapshot.history_digest item));
  ("tool_versions", strs (ContextSnapshot.tool_versions item));
  ("policy_version", JStr (ContextSnapshot.policy_version item));
  ("conflicts", strs (ContextSnapshot.conflicts item));
  ("security_boundaries", strs (ContextSnapshot.security_boundaries item));
  ("content_digest", JStr (ContextSnapshot.content_digest item));
  ("created_at", j_iso (ContextSnapshot.created_at item))].

(** [UUID(item.get("tenant_id", row["tenant_id"]))] *)
Definition tenant_of (row : row) (item : object) : res uuid :=
  tenant ← json_column row "tenant_id";
  as_uuid (get_or item "tenant_id" tenant).

Definition fact_of (row : row) (fact : object) : res EnvironmentFact.t :=
  tenant_id ← tenant_of row fact;
  fact_id ← str_field fact "fact_id";
  source ← str_field fact "source";
  source_authority ← as_str (get_or fact "source_authority" (JStr source));
  subject ← str_field fact "subject";
  value ← object_field fact "value";
  observed_at ← iso_field fact "observed_at";
  valid_until ← iso_field fact "valid_until";
  trust ← enum_field fact "trust";
  classification ← as_enum (get_or fact "classification" (j_enum DataClassification.INTERNAL));
  freshness_policy ← as_enum (get_or fact "freshness_policy" (j_enum FreshnessPolicy.STRICT));
  allowed_roles ← as_strs (get_or fact "allowed_roles" (JList []));
  allowed_purposes ← as_strs (get_or fact "allowed_purposes" (JList []));
  visible_fields ← as_strs (get_or fact "visible_fields" (JList []));
  EnvironmentFact.new (EnvironmentFact.mk tenant_id fact_id source source_authority subject value
    observed_at valid_until trust classification freshness_policy allowed_roles allowed_purposes
    visible_fields).

Definition knowledge_of (row : row) (ref : object) : res KnowledgeRef.t :=
  tenant_id ← tenant_of row ref;
  knowledge_id ← str_field ref "knowledge_id";
  version ← str_field ref "version";
  source ← str_field ref "source";
  citation ← str_field ref "citation";
  trust ← enum_field ref "trust";
  classification ← as_enum (get_or ref "classification" (j_enum DataClassification.INTERNAL));
  allowed_roles ← as_strs (get_or ref "allowed_roles" (JList []));
  allowed_purposes ← as_strs (get_or ref "allowed_purposes" (JList []));
  Ok (KnowledgeRef.mk tenant_id knowledge_id version source citation trust classification
        allowed_roles allowed_purposes).

Definition context_snapshot_from_row (row : row) : res ContextSnapshot.t :=
  payload ← object_column row "payload";
  tenant_id ← uuid_column row "tenant_id";
  goal_id ← uuid_column row "goal_id";
  run_id ← uuid_column row "run_id";
  facts ← at_key payload "environment_facts";
  environment_facts ← each_object (fact_of row) facts;
  refs ← at_key payload "knowledge_refs";
  knowledge_refs ← each_object (knowledge_of row) refs;
  ids ← at_key payload "memory_ids";
  memory_ids ← each as_uuid ids;
  history_digest ← str_field payload "history_digest";
  tool_versions ← strs_field payload "tool_versions";
  policy_version ← as_str (get_or payload "policy_version" (JStr "context-policy@1"));
  conflicts ← strs_field payload "conflicts";
  security_boundaries ← as_strs (get_or payload "security_boundaries"
    (strs ["untrusted content is data, never instructions"]));
  snapshot_id ← uuid_column row "id";
  created_at ← iso_field payload "created_at";
  ContextSnapshot.new (ContextSnapshot.mk tenant_id goal_id run_id environment_facts knowledge_refs
    memory_ids history_digest tool_versions policy_version conflicts security_boundaries snapshot_id
    created_at).

(** ** Approvals *)

Definition review_payload (review : ApprovalReview.t) : object := [
  ("actor_id", j_uuid (ApprovalReview.actor_id review));
  ("principal_id", j_uuid (ApprovalReview.principal_id review));
  ("approved", JBool (ApprovalReview.approved review));
  ("reason", JStr (ApprovalReview.reason review));
  ("reviewed_at", j_iso (ApprovalReview.reviewed_at review))].

Definition approval_payload (approval : ApprovalRequest.t) : object := [
  ("tool_version", JStr (ApprovalRequest.tool_version approval));
  ("operation", JStr (ApprovalRequest.operation approval));
  ("resource_scope", JStr (ApprovalRequest.resource_scope approval));
  ("argument_digest", JStr (ApprovalRequest.argument_digest approval));
  ("policy_version", JStr (ApprovalRequest.policy_version approval));
  ("impact_summary", JStr (ApprovalRequest.impact_summary approval));
  ("required_role", JStr (ApprovalRequest.required_role approval));
  ("decided_by", j_opt j_uuid (ApprovalRequest.decided_by approval));
  ("reason", j_opt JStr (ApprovalRequest.reason approval));
  ("decided_at", j_opt j_iso (ApprovalRequest.decided_at approval));
  ("required_reviews", JInt (ApprovalRequest.required_reviews approval));
  ("reviews", JList ((fun review => JDict (review_payload review)) <$>
                       ApprovalRequest.reviews approval));
  ("transitions", transitions_payload (ApprovalRequest.transitions approval))].

Definition review_of (item : object) : res ApprovalReview.t :=
  actor_id ← uuid_field item "actor_id";
  principal_id ← uuid_field item "principal_id";
  approved ← at_key item "approved";
  reason ← str_field item "reason";
  reviewed_at ← iso_field item "reviewed_at";
  ApprovalReview.new actor_id principal_id (truthy approved) reason reviewed_at.

Definition approval_from_row (row : row) : res ApprovalRequest.t :=
  definition ← object_column row "definition";
  tenant_id ← uuid_column row "tenant_id";
  run_id ← uuid_column row "run_id";
  action_id ← uuid_column row "action_id";
  action_digest ← str_column row "action_digest";
  tool_version ← str_field definition "tool_version";
  operation ← str_field definition "operation";
  resource_scope ← str_field definition "resource_scope";
  argument_digest ← str_field definition "argument_digest";
  policy_version ← str_field definition "policy_version";
  impact_summary ← str_field definition "impact_summary";
  required_role ← str_field definition "required_role";
  expires_at ← time_column row "expires_at";
  approval_id ← uuid_column row "id";
  status ← enum_column row "status";
  decided_by ← if_truthy as_uuid (get definition "decided_by");
  reason ← opt as_str (get definition "reason");
  created_at ← time_column row "created_at";
  decided_at ← if_truthy as_iso (get definition "decided_at");
  optimistic_version ← int_column row "optimistic_version";
  transitions ← transitions_from (get definition "transitions");
  required_reviews ← as_int (get_or definition "required_reviews" (JInt 1));
  reviews ← each_object review_of (get_or definition "reviews" (JList []));
  ApprovalRequest.new (ApprovalRequest.mk tenant_id run_id action_id action_digest tool_version
    operation resource_scope argument_digest policy_version impact_summary required_role expires_at
    approval_id status decided_by reason created_at decided_at optimistic_version transitions
    required_reviews reviews).

(** ** Evidence and outcomes *)

Definition subject_payload (value : SubjectRef.t) : object := [
  ("system", JStr (SubjectRef.system value));
  ("subject_type", JStr (SubjectRef.subject_type value));
  ("subject_id", JStr (SubjectRef.subject_id value));
  ("version", j_opt JStr (SubjectRef.version value))].

Definition evidence_payload (item : Evidence.t) : object := [
  ("observed_state", JStr (Evidence.observed_state item));
  ("captured_at", j_iso (Evidence.captured_at item));
  ("source_reference", JStr (Evidence.source_reference item));
  ("subject_refs", JList ((fun value => JDict (subject_payload value)) <$> Evidence.subject_refs item));
  ("retained_until", j_opt j_iso (Evidence.retained_until item));
  ("artifact_version_id", j_opt JStr (Evidence.artifact_version_id item))].

Definition subject_of (value : object) : res SubjectRef.t :=
  system ← str_field value "system";
  subject_type ← str_field value "subject_type";
  subject_id ← str_field value "subject_id";
  version ← opt as_str (get value "version");
  SubjectRef.new system subject_type subject_id version.

Definition evidence_from_row (row : row) : res Evidence.t :=
  definition ← object_column row "definition";
  tenant_id ← uuid_column row "tenant_id";
  run_id ← uuid_column row "run_id";
  action_id ← uuid_column row "action_id";
  source ← str_column row "source";
  source_identity ← str_column row "source_identity";
  capture_method ← enum_column row "capture_method";
  reference ← str_column row "artifact_uri";
  observed_state ← str_field definition "observed_state";
  content_digest ← str_column row "content_digest";
  classification ← enum_column row "classification";
  valid_from ← time_column row "valid_from";
  valid_until ← time_column row "valid_until";
  integrity ← enum_column row "integrity";
  source_reference ← as_str (get_or definition "source_reference" (JStr ""));
  subject_refs ← each_object subject_of (get_or definition "subject_refs" (JList []));
  retained_until ← if_truthy as_iso (get definition "retained_until");
  artifact_version_id ← opt as_str (get definition "artifact_version_id");
  evidence_id ← uuid_column row "id";
  captured_at ← iso_field definition "captured_at";
  Evidence.new (Evidence.mk tenant_id run_id action_id source source_identity capture_method
    reference observed_state content_digest classification valid_from valid_until integrity
    source_reference subject_refs retained_until artifact_version_id evidence_id captured_at).

Definition outcome_payload (item : Outcome.t) : object := [
  ("evidence_ids", JList (j_uuid <$> Outcome.evidence_ids item));
  ("verified_at", j_opt j_iso (Outcome.verified_at item))].

Definition outcome_from_row (row : row) (evidence_items : list Evidence.t) : res Outcome.t :=
  payload ← object_column row "result";
  tenant_id ← uuid_column row "tenant_id";
  goal_id ← uuid_column row "goal_id";
  run_id ← uuid_column row "run_id";
  criterion_id ← str_column row "criterion_id";
  verifier_version ← str_column row "verifier_version";
  status ← enum_column row "status";
  outcome_id ← uuid_column row "id";
  verified_at ← if_truthy as_iso (get payload "verified_at");
  Outcome.new (Outcome.mk tenant_id goal_id run_id criterion_id verifier_version status
    evidence_items outcome_id verified_at).

(** ** Improvement *)

Definition proposal_payload (item : ImprovementProposal.t) : object := [
  ("evidence_refs", strs (ImprovementProposal.evidence_refs item));
  ("diagnosis", JStr (ImprovementProposal.diagnosis item));
  ("proposed_change", JStr (ImprovementProposal.proposed_change item));
  ("validation_suite_id", JStr (ImprovementProposal.validation_suite_id item));
  ("rollback_plan", JStr (ImprovementProposal.rollback_plan item));
  ("proposer_id", JStr (ImprovementProposal.proposer_id item))].

Definition proposal_from_row (row : row) : res ImprovementProposal.t :=
  payload ← object_column row "proposal";
  tenant_id ← uuid_column row "tenant_id";
  target ← enum_column row "target_type";
  target_version_id ← uuid_column row "target_version_id";
  evidence_refs ← strs_field payload "evidence_refs";
  diagnosis ← str_field payload "diagnosis";
  proposed_change ← str_field payload "proposed_change";
  validation_suite_id ← str_field payload "validation_suite_id";
  rollback_plan ← str_field payload "rollback_plan";
  proposer_id ← str_field payload "proposer_id";
  proposal_id ← uuid_column row "id";
  ImprovementProposal.new (ImprovementProposal.mk tenant_id target target_version_id evidence_refs
    diagnosis proposed_change validation_suite_id rollback_plan proposer_id proposal_id).

Definition candidate_payload (item : CandidateVersion.t) : object := [
  ("transitions", transitions_payload (CandidateVersion.transitions item));
  ("grader_principal_id", j_opt JStr (CandidateVersion.grader_principal_id item));
  ("approver_principal_id", j_opt JStr (CandidateVersion.approver_principal_id item));
  ("approval_reason", j_opt JStr (CandidateVersion.approval_reason item))].

Definition candidate_from_row (row : row) : res CandidateVersion.t :=
  definition ← object_column row "definition";
  tenant_id ← uuid_column row "tenant_id";
  proposal_id ← uuid_column row "proposal_id";
  baseline_version_id ← uuid_column row "baseline_version_id";
  artifact_ref ← str_column row "artifact_uri";
  artifact_digest ← str_column row "artifact_digest";
  suite_id ← str_column row "suite_id";
  suite_version ← str_column row "suite_version";
  generator_id ← str_column row "generator_id";
  candidate_id ← uuid_column row "id";
  status ← enum_column row "status";
  optimistic_version ← int_column row "optimistic_version";
  transitions ← transitions_from (get definition "transitions");
  grader_principal_id ← opt as_str (get definition "grader_principal_id");
  approver_principal_id ← opt as_str (get definition "approver_principal_id");
  approval_reason ← opt as_str (get definition "approval_reason");
  CandidateVersion.new (CandidateVersion.mk tenant_id proposal_id baseline_version_id artifact_ref
    artifact_digest suite_id suite_version generator_id candidate_id status optimistic_version
    transitions grader_principal_id approver_principal_id approval_reason).

Definition opt_time_column (r : row) (k : string) : res (option datetime) :=
  c ← at_key r k; as_opt_time c.

Definition observation_from_row (row : row) : res DeploymentObservation.t :=
  tenant_id ← uuid_column row "tenant_id";
  deployment_id ← uuid_column row "deployment_id";
  stage ← enum_column row "stage";
  metric ← str_column row "metric";
  sample_count ← int_column row "sample_count";
  breach_count ← int_column row "breach_count";
  last_value ← json_column row "last_value";
  last_value ← opt as_float last_value;
  first_sample_at ← opt_time_column row "first_sample_at";
  last_sample_at ← opt_time_column row "last_sample_at";
  observation_id ← uuid_column row "id";
  optimistic_version ← int_column row "optimistic_version";
  DeploymentObservation.new (DeploymentObservation.mk tenant_id deployment_id stage metric
    sample_count breach_count last_value first_sample_at last_sample_at observation_id
    optimistic_version).

Definition shadow_measurements_payload (item : ShadowMeasurements.t) : object := [
  ("outcome_score", JFloat (ShadowMeasurements.outcome_score item));
  ("cost_microunits", JInt (ShadowMeasurements.cost_microunits item));
  ("latency_ms", JFloat (ShadowMeasurements.latency_ms item));
  ("security_violations", JInt (ShadowMeasurements.security_violations item));
  ("human_corrections", JInt (ShadowMeasurements.human_corrections item));
  ("external_write_attempts", JInt (ShadowMeasurements.external_write_attempts item))].

(** [C( **d)]: only the fields of the class, and all that have no default. *)
Definition keywords (cls : string) (required optional : list string) (d : object) : res unit :=
  raise_if (any (fun k => negb (mem k (required ++ optional))) (fst <$> d)) TypeError
    (cls +:+ ".__init__() got an unexpected keyword argument") ;;
  raise_if (any (fun k => is_none (alist_get k d)) required) TypeError
    (cls +:+ ".__init__() missing a required argument").

(** [ShadowMeasurements( **v)] *)
Definition measurements_of (v : json) : res ShadowMeasurements.t :=
  d ← as_object v;
  keywords "ShadowMeasurements" ["outcome_score"; "cost_microunits"; "latency_ms"]
    ["security_violations"; "human_corrections"; "external_write_attempts"] d ;;
  outcome_score ← as_float (get d "outcome_score");
  cost_microunits ← as_int (get d "cost_microunits");
  latency_ms ← as_float (get d "latency_ms");
  security_violations ← as_int (get_or d "security_violations" (JInt 0));
  human_corrections ← as_int (get_or d "human_corrections" (JInt 0));
  external_write_attempts ← as_int (get_or d "external_write_attempts" (JInt 0));
  ShadowMeasurements.new (ShadowMeasurements.mk outcome_score cost_microunits latency_ms
    security_violations human_corrections external_write_attempts).

Definition shadow_comparison_from_row (row : row) : res ShadowComparison.t :=
  tenant_id ← uuid_column row "tenant_id";
  deployment_id ← uuid_column row "deployment_id";
  request_ref ← str_column row "request_ref";
  stable_version_id ← uuid_column row "stable_version_id";
  candidate_version_id ← uuid_column row "candidate_version_id";
  stable ← json_column row "stable_measurements";
  stable ← measurements_of stable;
  candidate ← json_column row "candidate_measurements";
  candidate ← measurements_of candidate;
  observed_at ← time_column row "observed_at";
  comparison_id ← uuid_column row "id";
  ShadowComparison.new (ShadowComparison.mk tenant_id deployment_id request_ref stable_version_id
    candidate_version_id stable candidate observed_at comparison_id).

(** ** Suites, evaluations and rollout *)

Definition case_payload (case : EvaluationCase.t) : object := [
  ("case_id", JStr (EvaluationCase.case_id case));
  ("input_payload", JDict (EvaluationCase.input_payload case));
  ("expected_outcome", JDict (EvaluationCase.expected_outcome case));
  ("tags", strs (EvaluationCase.tags case));
  ("visibility", j_enum (EvaluationCase.visibility case));
  ("weight", JFloat (EvaluationCase.weight case));
  ("gating", JBool (EvaluationCase.gating case))].

Definition suite_payload (item : EvaluationSuite.t) : object := [
  ("pass_threshold", JFloat (EvaluationSuite.pass_threshold item));
  ("cases", JList ((fun case => JDict (case_payload case)) <$> EvaluationSuite.cases item))].

Definition case_of (case : object) : res EvaluationCase.t :=
  case_id ← str_field case "case_id";
  input_payload ← as_object (get_or case "input_payload" (JDict []));
  expected_outcome ← as_object (get_or case "expected_outcome" (JDict []));
  tags ← as_strs (get_or case "tags" (JList []));
  visibility ← as_enum (get_or case "visibility" (JStr "public"));
  weight ← as_float (get_or case "weight" (JFloat (of_int 1)));
  gating ← as_bool (get_or case "gating" (JBool false));
  EvaluationCase.new (EvaluationCase.mk case_id input_payload expected_outcome tags visibility
    weight gating).

Definition suite_from_row (row : row) : res EvaluationSuite.t :=
  definition ← object_column row "definition";
  suite_id ← str_column row "suite_id";
  version ← str_column row "version";
  cases ← each_object case_of (get_or definition "cases" (JList []));
  pass_threshold ← as_float (get_or definition "pass_threshold" (JFloat (of_int 1)));
  EvaluationSuite.new (EvaluationSuite.mk suite_id version cases pass_threshold).

Definition evaluation_payload (item : CandidateEvaluation.t) : object := [
  ("decision", JStr (CandidateEvaluation.decision item));
  ("trial_ids", JList (j_uuid <$> CandidateEvaluation.trial_ids item));
  ("assessment", JDict (CandidateEvaluation.assessment item));
  ("grader_principal_id", JStr (CandidateEvaluation.grader_principal_id item));
  ("decided_at", j_opt j_iso (CandidateEvaluation.decided_at item))].

Definition evaluation_from_row (row : row) : res CandidateEvaluation.t :=
  tenant_id ← uuid_column row "tenant_id";
  candidate_id ← uuid_column row "candidate_id";
  decision ← str_column row "decision";
  ids ← json_column row "trial_ids";
  trial_ids ← each as_uuid ids;
  assessment ← object_column row "assessment";
  grader_principal_id ← str_column row "grader_principal_id";
  evaluation_id ← uuid_column row "id";
  decided_at ← match alist_get "created_at" row with
               | Some c => as_opt_time c
               | None => Ok None
               end;
  CandidateEvaluation.new (CandidateEvaluation.mk tenant_id candidate_id decision trial_ids
    assessment grader_principal_id evaluation_id decided_at).

Definition traffic_allocation_payload (item : TrafficAllocation.t) : object := [
  ("salt", JStr (TrafficAllocation.salt item));
  ("candidate_percent", JInt (TrafficAllocation.candidate_percent item))].

Definition traffic_allocation_from (definition : object) : res (option TrafficAllocation.t) :=
  match get definition "traffic_allocation" with
  | JNull => Ok None
  | v =>
      allocation ← as_object v;
      salt ← str_field allocation "salt";
      candidate_percent ← int_field allocation "candidate_percent";
      Some <$> TrafficAllocation.new (TrafficAllocation.mk salt candidate_percent)
  end.

Definition deployment_payload (item : Deployment.t) : object :=
  let payload := [("transitions", transitions_payload (Deployment.transitions item))] in
  match Deployment.traffic_allocation item with
  | Some x => payload ++ [("traffic_allocation", JDict (traffic_allocation_payload x))]
  | None => payload
  end.

Definition deployment_from_row (row : row) : res Deployment.t :=
  tenant_id ← uuid_column row "tenant_id";
  candidate_id ← uuid_column row "candidate_id";
  status ← enum_column row "status";
  deployment_id ← uuid_column row "id";
  optimistic_version ← int_column row "optimistic_version";
  definition ← object_column row "definition";
  transitions ← transitions_from (get definition "transitions");
  traffic_allocation ← traffic_allocation_from definition;
  Deployment.new (Deployment.mk tenant_id candidate_id status deployment_id optimistic_version
    transitions traffic_allocation).

Definition release_payload (item : Release.t) : object := [("approved_by", j_uuid (Release.approved_by item))].

Definition release_from_row (row : row) : res Release.t :=
  tenant_id ← uuid_column row "tenant_id";
  candidate_id ← uuid_column row "candidate_id";
  deployment_id ← uuid_column row "deployment_id";
  stable_version_id ← uuid_column row "stable_version_id";
  previous_stable_version_id ← uuid_column row "previous_stable_version_id";
  approved_by ← uuid_column row "approved_by";
  release_id ← uuid_column row "id";
  Ok (Release.mk tenant_id candidate_id deployment_id stable_version_id previous_stable_version_id
        approved_by release_id).

(** ** Trials *)

Definition grade_payload (grade : GraderResult.t) : object := [
  ("trial_id", j_uuid (GraderResult.trial_id grade));
  ("grader_id", JStr (GraderResult.grader_id grade));
  ("grader_version", JStr (GraderResult.grader_version grade));
  ("score", j_opt JFloat (GraderResult.score grade));
  ("passed", j_opt JBool (GraderResult.passed grade));
  ("rationale", JStr (GraderResult.rationale grade));
  ("evidence_refs", strs (GraderResult.evidence_refs grade));
  ("status", j_opt j_enum (GraderResult.status grade));
  ("kind", j_enum (GraderResult.kind grade))].

Definition case_result_payload (result : TrialCaseResult.t) : object := [
  ("case_id", JStr (TrialCaseResult.case_id result));
  ("input_payload", JDict (TrialCaseResult.input_payload result));
  ("output_payload", j_opt JDict (TrialCaseResult.output_payload result));
  ("subject_executed", JBool (TrialCaseResult.subject_executed result));
  ("evidence_refs", strs (TrialCaseResult.evidence_refs result));
  ("executor_id", j_opt JStr (TrialCaseResult.executor_id result));
  ("environment_ref", j_opt JStr (TrialCaseResult.environment_ref result));
  ("model_ref", j_opt JStr (TrialCaseResult.model_ref result));
  ("tool_refs", strs (TrialCaseResult.tool_refs result));
  ("random_seed", j_opt JInt (TrialCaseResult.random_seed result));
  ("cost_microunits", JInt (TrialCaseResult.cost_microunits result));
  ("failure_reason", j_opt JStr (TrialCaseResult.failure_reason result));
  ("grader_results", JList ((fun grade => JDict (grade_payload grade)) <$>
                              TrialCaseResult.grader_results result))].

Definition trial_payload (item : Trial.t) : object := [
  ("random_seed", j_opt JInt (Trial.random_seed item));
  ("total_cost_microunits", JInt (Trial.total_cost_microunits item));
  ("failure_reason", j_opt JStr (Trial.failure_reason item));
  ("started_at", j_opt j_iso (Trial.started_at item));
  ("completed_at", j_opt j_iso (Trial.completed_at item));
  ("case_results", JList ((fun result => JDict (case_result_payload result)) <$>
                            Trial.case_results item))].

Definition grade_of (grade : object) : res GraderResult.t :=
  trial_id ← uuid_field grade "trial_id";
  grader_id ← str_field grade "grader_id";
  grader_version ← str_field grade "grader_version";
  score ← opt as_float (get grade "score");
  passed ← opt as_bool (get grade "passed");
  rationale ← str_field grade "rationale";
  evidence_refs ← as_strs (get_or grade "evidence_refs" (JList []));
  status ← opt as_enum (get grade "status");
  kind ← as_enum (get_or grade "kind" (JStr "deterministic"));
  GraderResult.new (GraderResult.mk trial_id grader_id grader_version score passed rationale
    evidence_refs status kind).

Definition case_result_of (result : object) : res TrialCaseResult.t :=
  case_id ← str_field result "case_id";
  input_payload ← object_field result "input_payload";
  output_payload ← opt as_object (get result "output_payload");
  executed ← at_key result "subject_executed";
  subject_executed ← as_bool executed;
  grader_results ← each_object grade_of (get_or result "grader_results" (JList []));
  evidence_refs ← as_strs (get_or result "evidence_refs" (JList []));
  executor_id ← opt as_str (get result "executor_id");
  environment_ref ← opt as_str (get result "environment_ref");
  model_ref ← opt as_str (get result "model_ref");
  tool_refs ← as_strs (get_or result "tool_refs" (JList []));
  random_seed ← opt as_int (get result "random_seed");
  cost_microunits ← as_int (get_or result "cost_microunits" (JInt 0));
  failure_reason ← opt as_str (get result "failure_reason");
  TrialCaseResult.new (TrialCaseResult.mk case_id input_payload output_payload subject_executed
    grader_results evidence_refs executor_id environment_ref model_ref tool_refs random_seed
    cost_microunits failure_reason).

Definition trial_from_row (row : row) : res Trial.t :=
  payload ← column_or row "result" JNull;
  payload ← object_or_empty payload;
  tenant_id ← uuid_column row "tenant_id";
  suite_id ← str_column row "suite_id";
  suite_version ← str_column row "suite_version";
  subject_version_id ← uuid_column row "subject_version_id";
  harness_version ← str_column row "harness_version";
  trial_id ← uuid_column row "id";
  candidate ← column_or row "candidate_id" JNull;
  candidate_id ← if_truthy as_uuid candidate;
  status ← enum_column row "status";
  random_seed ← opt as_int (get payload "random_seed");
  case_results ← each_object case_result_of (get_or payload "case_results" (JList []));
  total_cost_microunits ← as_int (get_or payload "total_cost_microunits" (JInt 0));
  failure_reason ← opt as_str (get payload "failure_reason");
  started_at ← if_truthy as_iso (get payload "started_at");
  completed_at ← if_truthy as_iso (get payload "completed_at");
  Trial.new (Trial.mk tenant_id suite_id suite_version subject_version_id harness_version trial_id
    status random_seed case_results total_cost_microunits failure_reason started_at completed_at
    candidate_id).
