(* ===== verification/Inserts.v ===== *)
(** * packages/adapters: persistence.py, the values it writes

    The goal and agent codecs of [SqlAlchemyPlatformRepository], and for every
    aggregate the columns its [insert(...).values(...)] sets and those its
    [update(...).values(...)] replaces.  [now] is the reading of the clock the
    operation made. *)

From S2P Require Import Prelude PyStr PyDict PyFloat Json Calendar Transitions Values Goals.
From S2P Require Import Execution ExecutionObjects Identity Improvement EvaluationDomain.
From S2P Require Import ContextDomain AuditChain Isolation Rows Codec.
From Stdlib Require Import ZArith.

Open Scope string_scope.
Open Scope list_scope.
Open Scope Z_scope.

(** ** Agents and goals *)

Definition agent_payload (version : AgentVersion.t) : object :=
  let loop := AgentVersion.loop_policy version in [
  ("instruction", JStr (AgentVersion.instruction version));
  ("model_route", JStr (AgentVersion.model_route version));
  ("skill_ids", strs (AgentVersion.skill_ids version));
  ("tool_ids", strs (AgentVersion.tool_ids version));
  ("loop_policy", JDict [
     ("max_rounds", JInt (LoopPolicy.max_rounds loop));
     ("max_tokens", JInt (LoopPolicy.max_tokens loop));
     ("max_cost_units", JInt (LoopPolicy.max_cost_units loop));
     ("timeout_seconds", JInt (LoopPolicy.timeout_seconds loop))])].

(** [LoopPolicy( **loop)] *)
Definition loop_policy_of (loop : object) : res LoopPolicy.t :=
  keywords "LoopPolicy" ["max_rounds"; "max_tokens"; "max_cost_units"; "timeout_seconds"] [] loop ;;
  max_rounds ← int_field loop "max_rounds";
  max_tokens ← int_field loop "max_tokens";
  max_cost_units ← int_field loop "max_cost_units";
  timeout_seconds ← int_field loop "timeout_seconds";
  LoopPolicy.new (LoopPolicy.mk max_rounds max_tokens max_cost_units timeout_seconds).

Definition agent_from_row (row : row) : res AgentVersion.t :=
  definition ← object_column row "definition";
  loop ← object_field definition "loop_policy";
  tenant_id ← uuid_column row "tenant_id";
  agent_id ← uuid_column row "agent_id";
  version ← int_column row "version";
  instruction ← str_field definition "instruction";
  model_route ← str_field definition "model_route";
  skill_ids ← strs_field definition "skill_ids";
  tool_ids ← strs_field definition "tool_ids";
  loop_policy ← loop_policy_of loop;
  stage ← enum_column row "stage";
  agent_version_id ← uuid_column row "id";
  AgentVersion.new (AgentVersion.mk tenant_id agent_id version instruction model_route skill_ids
    tool_ids loop_policy stage agent_version_id).

Definition criterion_payload (item : SuccessCriterion.t) : object := [
  ("criterion_id", JStr (SuccessCriterion.criterion_id item));
  ("description", JStr (SuccessCriterion.description item));
  ("evidence_type", JStr (SuccessCriterion.evidence_type item))].

Definition goal_payload (goal : GoalContract.t) : res object :=
  input_payload ← JsonObject.to_value (GoalContract.input_payload goal);
  let policy := GoalContract.data_policy goal in
  Ok [
  ("statement", JStr (GoalContract.statement goal));
  ("desired_outcome", JStr (GoalContract.desired_outcome goal));
  ("subject_refs",
     JList ((fun ref => JDict (subject_payload ref)) <$> GoalContract.subject_refs goal));
  ("success_criteria",
     JList ((fun item => JDict (criterion_payload item)) <$> GoalContract.success_criteria goal));
  ("constraints", strs (GoalContract.constraints goal));
  ("risk_tier", j_enum (GoalContract.risk_tier goal));
  ("budget_limit", JDict (budget_payload (GoalContract.budget_limit goal)));
  ("deadline", j_iso (GoalContract.deadline goal));
  ("input_payload", JDict input_payload);
  ("delegation_id", j_opt j_uuid (GoalContract.delegation_id goal));
  ("data_policy", JDict [
     ("maximum_classification", j_enum (DataPolicy.maximum_classification policy));
     ("allowed_regions", strs (DataPolicy.allowed_regions policy));
     ("retention_days", JInt (DataPolicy.retention_days policy))]);
  ("execution_mode", j_enum (GoalContract.execution_mode goal));
  ("max_concurrent_runs", JInt (GoalContract.max_concurrent_runs goal));
  ("transitions", transitions_payload (GoalContract.transitions goal))].

(** [SubjectRef( **item)] and [SuccessCriterion( **item)] *)
Definition subject_ref_of (item : object) : res SubjectRef.t :=
  keywords "SubjectRef" ["system"; "subject_type"; "subject_id"] ["version"] item ;;
  subject_of item.
Definition criterion_of (item : object) : res SuccessCriterion.t :=
  keywords "SuccessCriterion" ["criterion_id"; "description"; "evidence_type"] [] item ;;
  criterion_id ← str_field item "criterion_id";
  description ← str_field item "description";
  evidence_type ← str_field item "evidence_type";
  SuccessCriterion.new criterion_id description evidence_type.

Definition data_policy_of (payload : object) : res DataPolicy.t :=
  policy ← as_object (get_or payload "data_policy" (JDict []));
  maximum_classification ←
    as_enum (get_or policy "maximum_classification" (j_enum DataClassification.INTERNAL));
  allowed_regions ← as_strs (get_or policy "allowed_regions" (JList []));
  retention_days ← as_int (get_or policy "retention_days" (JInt 30));
  DataPolicy.new maximum_classification allowed_regions retention_days.

Definition goal_from_row (row : row) : res GoalContract.t :=
  payload ← object_column row "contract";
  tenant_id ← uuid_column row "tenant_id";
  goal_type ← str_column row "goal_type";
  statement ← str_field payload "statement";
  desired_outcome ← str_field payload "desired_outcome";
  refs ← at_key payload "subject_refs";
  subject_refs ← each_object subject_ref_of refs;
  criteria ← at_key payload "success_criteria";
  success_criteria ← each_object criterion_of criteria;
  constraints ← strs_field payload "constraints";
  owner_id ← uuid_column row "owner_id";
  risk_tier ← enum_field payload "risk_tier";
  budget ← object_field payload "budget_limit";
  budget_limit ← budget_of budget;
  deadline ← iso_field payload "deadline";
  input ← object_field payload "input_payload";
  input_payload ← JsonObject.from_value input;
  delegation_id ← if_truthy as_uuid (get payload "delegation_id");
  data_policy ← data_policy_of payload;
  execution_mode ← as_enum (get_or payload "execution_mode" (j_enum ExecutionMode.SUPERVISED));
  max_concurrent_runs ← as_int (get_or payload "max_concurrent_runs" (JInt 1));
  goal_id ← uuid_column row "id";
  version ← int_column row "optimistic_version";
  status ← enum_column row "status";
  created_at ← time_column row "created_at";
  transitions ← transitions_from (get payload "transitions");
  GoalContract.new (GoalContract.mk tenant_id goal_type statement desired_outcome subject_refs
    success_criteria constraints owner_id risk_tier budget_limit deadline input_payload
    delegation_id data_policy execution_mode max_concurrent_runs goal_id version status created_at
    transitions).

(** ** Columns *)

Definition c_str (s : string) : cell := Cell (JStr s).
Definition c_uuid (u : uuid) : cell := Cell (j_uuid u).
Definition c_int (n : Z) : cell := Cell (JInt n).
Definition c_enum {E} `{PyEnum E} (x : E) : cell := Cell (j_enum x).
Definition c_object (d : object) : cell := Cell (JDict d).
Definition c_opt_time (o : option datetime) : cell :=
  match o with Some d => TimeCell d | None => Cell JNull end.

Definition agent_values (name : string) (version : AgentVersion.t) (now : datetime) : row := [
  ("id", c_uuid (AgentVersion.agent_version_id version));
  ("tenant_id", c_uuid (AgentVersion.tenant_id version));
  ("agent_id", c_uuid (AgentVersion.agent_id version));
  ("name", c_str name);
  ("version", c_int (AgentVersion.version version));
  ("stage", c_enum (AgentVersion.stage version));
  ("definition", c_object (agent_payload version));
  ("optimistic_version", c_int 1);
  ("created_at", TimeCell now)].

Definition goal_values (goal : GoalContract.t) : res row :=
  contract ← goal_payload goal;
  Ok [
  ("id", c_uuid (GoalContract.goal_id goal));
  ("tenant_id", c_uuid (GoalContract.tenant_id goal));
  ("goal_type", c_str (GoalContract.goal_type goal));
  ("owner_id", c_uuid (GoalContract.owner_id goal));
  ("status", c_enum (GoalContract.status goal));
  ("contract", c_object contract);
  ("optimistic_version", c_int (GoalContract.version goal));
  ("created_at", TimeCell (GoalContract.created_at goal))].

Definition goal_update (goal : GoalContract.t) (now : datetime) : res row :=
  contract ← goal_payload goal;
  Ok [
  ("status", c_enum (GoalContract.status goal));
  ("contract", c_object contract);
  ("optimistic_version", c_int (GoalContract.version goal));
  ("updated_at", TimeCell now)].

(** [TenantNamespaces(tenant).workflow_id(run)] *)
Definition workflow_id (tenant_id run_id : uuid) : string :=
  TenantNamespaces.workflow_id (TenantNamespaces.of_tenant tenant_id) run_id.

Definition run_values (run : Run.t) : row := [
  ("id", c_uuid (Run.run_id run));
  ("tenant_id", c_uuid (Run.tenant_id run));
  ("goal_id", c_uuid (Run.goal_id run));
  ("agent_version_id", c_uuid (Run.agent_version_id run));
  ("status", c_enum (Run.status run));
  ("temporal_workflow_id", c_str (workflow_id (Run.tenant_id run) (Run.run_id run)));
  ("definition", c_object (run_payload run));
  ("optimistic_version", c_int (Run.optimistic_version run));
  ("created_at", TimeCell (Run.created_at run))].

Definition run_update (run : Run.t) (now : datetime) : row := [
  ("status", c_enum (Run.status run));
  ("definition", c_object (run_payload run));
  ("optimistic_version", c_int (Run.optimistic_version run));
  ("updated_at", TimeCell now)].

Definition context_snapshot_values (snapshot : ContextSnapshot.t) : row := [
  ("id", c_uuid (ContextSnapshot.snapshot_id snapshot));
  ("tenant_id", c_uuid (ContextSnapshot.tenant_id snapshot));
  ("goal_id", c_uuid (ContextSnapshot.goal_id snapshot));
  ("run_id", c_uuid (ContextSnapshot.run_id snapshot));
  ("payload", c_object (context_snapshot_payload snapshot));
  ("content_digest", c_str (ContextSnapshot.content_digest snapshot));
  ("optimistic_version", c_int 1);
  ("created_at", TimeCell (ContextSnapshot.created_at snapshot))].

Definition memory_values (item : MemoryRecord.t) (now : datetime) : row := [
  ("id", c_uuid (MemoryRecord.memory_id item));
  ("tenant_id", c_uuid (MemoryRecord.tenant_id item));
  ("scope", c_str (MemoryRecord.scope item));
  ("content", c_str (MemoryRecord.content item));
  ("provenance", Cell (strs (MemoryRecord.provenance item)));
  ("confidence", Cell (JFloat (MemoryRecord.confidence item)));
  ("expires_at", TimeCell (MemoryRecord.expires_at item));
  ("approved_by", c_uuid (MemoryRecord.approved_by item));
  ("status", c_enum (MemoryRecord.status item));
  ("definition", c_object (memory_payload item));
  ("deleted_at", Cell JNull);
  ("optimistic_version", c_int 1);
  ("created_at", TimeCell now)].

Definition plan_values (plan : Plan.t) (now : datetime) : row := [
  ("id", c_uuid (Plan.plan_id plan));
  ("tenant_id", c_uuid (Plan.tenant_id plan));
  ("goal_id", c_uuid (Plan.goal_id plan));
  ("run_id", c_uuid (Plan.run_id plan));
  ("version", c_int (Plan.version plan));
  ("definition", c_object [("task_ids", JList (j_uuid <$> (Task.task_id <$> Plan.tasks plan)))]);
  ("optimistic_version", c_int 1);
  ("created_at", TimeCell now)].

Definition task_values (plan : Plan.t) (now : datetime) (task : Task.t) : row := [
  ("id", c_uuid (Task.task_id task));
  ("tenant_id", c_uuid (Task.tenant_id task));
  ("run_id", c_uuid (Task.run_id task));
  ("plan_id", c_uuid (Plan.plan_id plan));
  ("status", c_enum (Task.status task));
  ("definition", c_object (task_payload task));
  ("optimistic_version", c_int (Task.optimistic_version task));
  ("created_at", TimeCell now)].

Definition task_update (task : Task.t) (now : datetime) : row := [
  ("status", c_enum (Task.status task));
  ("definition", c_object (task_payload task));
  ("optimistic_version", c_int (Task.optimistic_version task));
  ("updated_at", TimeCell now)].

Definition action_values (action : Action.t) (now : datetime) : res row :=
  definition ← action_payload action;
  Ok [
  ("id", c_uuid (Action.action_id action));
  ("tenant_id", c_uuid (Action.tenant_id action));
  ("run_id", c_uuid (Action.run_id action));
  ("task_id", c_uuid (Action.task_id action));
  ("status", c_enum (Action.status action));
  ("idempotency_key", c_str (Action.idempotency_key action));
  ("action_digest", c_str (Action.canonical_digest action));
  ("definition", c_object definition);
  ("optimistic_version", c_int (Action.optimistic_version action));
  ("created_at", TimeCell now)].

(** The values [save_action] hands to [_save_versioned]. *)
Definition action_update (action : Action.t) : res row :=
  definition ← action_payload action;
  Ok [
  ("status", c_enum (Action.status action));
  ("action_digest", c_str (Action.canonical_digest action));
  ("definition", c_object definition)].

Definition action_attempt_values (attempt : ActionAttempt.t) : row := [
  ("id", c_uuid (ActionAttempt.attempt_id attempt));
  ("tenant_id", c_uuid (ActionAttempt.tenant_id attempt));
  ("run_id", c_uuid (ActionAttempt.run_id attempt));
  ("action_id", c_uuid (ActionAttempt.action_id attempt));
  ("invocation_id", c_uuid (ActionAttempt.invocation_id attempt));
  ("status", c_enum (ActionAttempt.status attempt));
  ("idempotency_key", c_str (ActionAttempt.idempotency_key attempt));
  ("receipt_ref", c_str (ActionAttempt.receipt_ref attempt));
  ("definition", c_object (action_attempt_payload attempt));
  ("optimistic_version", c_int 1);
  ("created_at", TimeCell (ActionAttempt.recorded_at attempt))].

Definition approval_values (approval : ApprovalRequest.t) : row := [
  ("id", c_uuid (ApprovalRequest.approval_id approval));
  ("tenant_id", c_uuid (ApprovalRequest.tenant_id approval));
  ("run_id", c_uuid (ApprovalRequest.run_id approval));
  ("action_id", c_uuid (ApprovalRequest.action_id approval));
  ("status", c_enum (ApprovalRequest.status approval));
  ("action_digest", c_str (ApprovalRequest.action_digest approval));
  ("expires_at", TimeCell (ApprovalRequest.expires_at approval));
  ("definition", c_object (approval_payload approval));
  ("optimistic_version", c_int (ApprovalRequest.optimistic_version approval));
  ("created_at", TimeCell (ApprovalRequest.created_at approval))].

Definition approval_update (approval : ApprovalRequest.t) : row := [
  ("status", c_enum (ApprovalRequest.status approval));
  ("definition", c_object (approval_payload approval));
  ("expires_at", TimeCell (ApprovalRequest.expires_at approval))].

Definition evidence_values (item : Evidence.t) : row := [
  ("id", c_uuid (Evidence.evidence_id item));
  ("tenant_id", c_uuid (Evidence.tenant_id item));
  ("run_id", c_uuid (Evidence.run_id item));
  ("action_id", c_uuid (Evidence.action_id item));
  ("source", c_str (Evidence.source item));
  ("source_identity", c_str (Evidence.source_identity item));
  ("capture_method", c_enum (Evidence.capture_method item));
  ("artifact_uri", c_str (Evidence.reference item));
  ("content_digest", c_str (Evidence.content_digest item));
  ("classification", c_enum (Evidence.classification item));
  ("valid_from", TimeCell (Evidence.valid_from item));
  ("valid_until", TimeCell (Evidence.valid_until item));
  ("integrity", c_enum (Evidence.integrity item));
  ("definition", c_object (evidence_payload item));
  ("optimistic_version", c_int 1);
  ("created_at", TimeCell (Evidence.captured_at item))].

Definition outcome_values (item : Outcome.t) (now : datetime) : row := [
  ("id", c_uuid (Outcome.outcome_id item));
  ("tenant_id", c_uuid (Outcome.tenant_id item));
  ("goal_id", c_uuid (Outcome.goal_id item));
  ("run_id", c_uuid (Outcome.run_id item));
  ("criterion_id", c_str (Outcome.criterion_id item));
  ("verifier_version", c_str (Outcome.verifier_version item));
  ("status", c_enum (Outcome.status item));
  ("result", c_object (outcome_payload item));
  ("optimistic_version", c_int 1);
  ("created_at", TimeCell now)].

Definition trial_values (trial : Trial.t) (now : datetime) : row := [
  ("id", c_uuid (Trial.trial_id trial));
  ("tenant_id", c_uuid (Trial.tenant_id trial));
  ("suite_id", c_str (Trial.suite_id trial));
  ("suite_version", c_str (Trial.suite_version trial));
  ("subject_version_id", c_uuid (Trial.subject_version_id trial));
  ("harness_version", c_str (Trial.harness_version trial));
  ("candidate_id", Cell (j_opt j_uuid (Trial.candidate_id trial)));
  ("status", c_enum (Trial.status trial));
  ("result", c_object (trial_payload trial));
  ("optimistic_version", c_int 1);
  ("created_at", TimeCell now)].

Definition suite_values (fresh tenant_id : uuid) (suite : EvaluationSuite.t) (now : datetime) : row := [
  ("id", c_uuid fresh);
  ("tenant_id", c_uuid tenant_id);
  ("suite_id", c_str (EvaluationSuite.suite_id suite));
  ("version", c_str (EvaluationSuite.version suite));
  ("definition", c_object (suite_payload suite));
  ("optimistic_version", c_int 1);
  ("created_at", TimeCell now)].

Definition evaluation_values (record : CandidateEvaluation.t) (now : datetime) : row := [
  ("id", c_uuid (CandidateEvaluation.evaluation_id record));
  ("tenant_id", c_uuid (CandidateEvaluation.tenant_id record));
  ("candidate_id", c_uuid (CandidateEvaluation.candidate_id record));
  ("decision", c_str (CandidateEvaluation.decision record));
  ("trial_ids", Cell (JList (j_uuid <$> CandidateEvaluation.trial_ids record)));
  ("assessment", c_object (CandidateEvaluation.assessment record));
  ("grader_principal_id", c_str (CandidateEvaluation.grader_principal_id record));
  ("optimistic_version", c_int 1);
  ("created_at", TimeCell now)].

Definition proposal_values (proposal : ImprovementProposal.t) (now : datetime) : row := [
  ("id", c_uuid (ImprovementProposal.proposal_id proposal));
  ("tenant_id", c_uuid (ImprovementProposal.tenant_id proposal));
  ("target_type", c_enum (ImprovementProposal.target proposal));
  ("target_version_id", c_uuid (ImprovementProposal.target_version_id proposal));
  ("proposal", c_object (proposal_payload proposal));
  ("optimistic_version", c_int 1);
  ("created_at", TimeCell now)].

Definition candidate_values (candidate : CandidateVersion.t) (now : datetime) : row := [
  ("id", c_uuid (CandidateVersion.candidate_id candidate));
  ("tenant_id", c_uuid (CandidateVersion.tenant_id candidate));
  ("proposal_id", c_uuid (CandidateVersion.proposal_id candidate));
  ("baseline_version_id", c_uuid (CandidateVersion.baseline_version_id candidate));
  ("status", c_enum (CandidateVersion.status candidate));
  ("artifact_uri", c_str (CandidateVersion.artifact_ref candidate));
  ("artifact_digest", c_str (CandidateVersion.artifact_digest candidate));
  ("suite_id", c_str (CandidateVersion.suite_id candidate));
  ("suite_version", c_str (CandidateVersion.suite_version candidate));
  ("generator_id", c_str (CandidateVersion.generator_id candidate));
  ("definition", c_object (candidate_payload candidate));
  ("optimistic_version", c_int (CandidateVersion.optimistic_version candidate));
  ("created_at", TimeCell now)].

Definition candidate_update (candidate : CandidateVersion.t) : row := [
  ("status", c_enum (CandidateVersion.status candidate));
  ("definition", c_object (candidate_payload candidate))].

Definition deployment_values (deployment : Deployment.t) (now : datetime) : row := [
  ("id", c_uuid (Deployment.deployment_id deployment));
  ("tenant_id", c_uuid (Deployment.tenant_id deployment));
  ("candidate_id", c_uuid (Deployment.candidate_id deployment));
  ("status", c_enum (Deployment.status deployment));
  ("definition", c_object (deployment_payload deployment));
  ("optimistic_version", c_int (Deployment.optimistic_version deployment));
  ("created_at", TimeCell now)].

Definition deployment_update (deployment : Deployment.t) : row := [
  ("status", c_enum (Deployment.status deployment));
  ("definition", c_object (deployment_payload deployment))].

Definition observation_values (x : DeploymentObservation.t) (now : datetime) : row := [
  ("id", c_uuid (DeploymentObservation.observation_id x));
  ("tenant_id", c_uuid (DeploymentObservation.tenant_id x));
  ("deployment_id", c_uuid (DeploymentObservation.deployment_id x));
  ("stage", c_enum (DeploymentObservation.stage x));
  ("metric", c_str (DeploymentObservation.metric x));
  ("sample_count", c_int (DeploymentObservation.sample_count x));
  ("breach_count", c_int (DeploymentObservation.breach_count x));
  ("last_value", Cell (j_opt JFloat (DeploymentObservation.last_value x)));
  ("first_sample_at", c_opt_time (DeploymentObservation.first_sample_at x));
  ("last_sample_at", c_opt_time (DeploymentObservation.last_sample_at x));
  ("optimistic_version", c_int (DeploymentObservation.optimistic_version x));
  ("created_at", TimeCell now)].

(** [set_] of the upsert *)
Definition observation_update (x : DeploymentObservation.t) (now : datetime) : row := [
  ("sample_count", c_int (DeploymentObservation.sample_count x));
  ("breach_count", c_int (DeploymentObservation.breach_count x));
  ("last_value", Cell (j_opt JFloat (DeploymentObservation.last_value x)));
  ("last_sample_at", c_opt_time (DeploymentObservation.last_sample_at x));
  ("optimistic_version", c_int (DeploymentObservation.optimistic_version x));
  ("updated_at", TimeCell now)].

Definition shadow_comparison_values (comparison : ShadowComparison.t) (now : datetime) : row := [
  ("id", c_uuid (ShadowComparison.comparison_id comparison));
  ("tenant_id", c_uuid (ShadowComparison.tenant_id comparison));
  ("deployment_id", c_uuid (ShadowComparison.deployment_id comparison));
  ("request_ref", c_str (ShadowComparison.request_ref comparison));
  ("stable_version_id", c_uuid (ShadowComparison.stable_version_id comparison));
  ("candidate_version_id", c_uuid (ShadowComparison.candidate_version_id comparison));
  ("stable_measurements", c_object (shadow_measurements_payload (ShadowComparison.stable comparison)));
  ("candidate_measurements",
     c_object (shadow_measurements_payload (ShadowComparison.candidate comparison)));
  ("observed_at", TimeCell (ShadowComparison.observed_at comparison));
  ("optimistic_version", c_int 1);
  ("created_at", TimeCell now)].

Definition release_values (release : Release.t) (stable_slot : cell) (now : datetime) : row := [
  ("id", c_uuid (Release.release_id release));
  ("tenant_id", c_uuid (Release.tenant_id release));
  ("candidate_id", c_uuid (Release.candidate_id release));
  ("deployment_id", c_uuid (Release.deployment_id release));
  ("stable_slot", stable_slot);
  ("stable_version_id", c_uuid (Release.stable_version_id release));
  ("previous_stable_version_id", c_uuid (Release.previous_stable_version_id release));
  ("approved_by", c_uuid (Release.approved_by release));
  ("active", Cell (JBool true));
  ("definition", c_object (release_payload release));
  ("optimistic_version", c_int 1);
  ("created_at", TimeCell now)].
