(* ===== verification/CodecProofs.v ===== *)
(** * What the repository writes, it reads back

    For every aggregate: a row that has the columns its insert set, with what an
    update replaced, decodes to the aggregate itself.  A record is storable
    ([..._ok]) when its constructor accepts it, its identifiers have 128 bits
    and its timestamps lie in Python's calendar; the order of a role set is the
    sorted one the payload writes. *)

From S2P Require Import Prelude PyStr PyDict PyFloat Json Transitions Values Goals Execution.
From S2P Require Import ExecutionObjects Digests Identity Improvement EvaluationDomain Calendar.
From S2P Require Import ContextDomain Uuids Rows Codec Inserts.
From Stdlib Require Import ZArith.

Open Scope string_scope.
Open Scope list_scope.
Open Scope Z_scope.

(** ** Reading one column or field *)

Definition iso_ok (d : datetime) : Prop := in_calendar d = true.

Section reading.
Context (r : row) (d : object) (k : string).

Lemma ok_bind {A B} (m : res A) (f : A → res B) a b : m = Ok a → f a = b → m ≫= f = b.
Proof. by intros -> <-. Qed.

Lemma json_column_at v : alist_get k r = Some (Cell v) → json_column r k = Ok v.
Proof. unfold json_column, at_key. by intros ->. Qed.
Lemma str_column_at s : alist_get k r = Some (c_str s) → str_column r k = Ok s.
Proof. intros H. unfold str_column. by rewrite (json_column_at _ H). Qed.
Lemma int_column_at n : alist_get k r = Some (c_int n) → int_column r k = Ok n.
Proof. intros H. unfold int_column. by rewrite (json_column_at _ H). Qed.
Lemma uuid_column_at u : alist_get k r = Some (c_uuid u) → uuid_ok u → uuid_column r k = Ok u.
Proof. intros H Hu. unfold uuid_column. rewrite (json_column_at _ H). by apply as_uuid_uuid. Qed.
Lemma enum_column_at {E} `{PyEnum E} (x : E) : alist_get k r = Some (c_enum x) →
  enum_column r k = Ok x.
Proof. intros H'. unfold enum_column. rewrite (json_column_at _ H'). apply as_enum_value. Qed.
Lemma object_column_at x : alist_get k r = Some (c_object x) → object_column r k = Ok x.
Proof. intros H. unfold object_column. by rewrite (json_column_at _ H). Qed.
Lemma time_column_at t : alist_get k r = Some (TimeCell t) → time_column r k = Ok t.
Proof. unfold time_column, at_key. by intros ->. Qed.
Lemma opt_time_column_at o : alist_get k r = Some (c_opt_time o) → opt_time_column r k = Ok o.
Proof. unfold opt_time_column, at_key. intros ->. by destruct o. Qed.
Lemma column_or_at v w : alist_get k r = Some (Cell v) → column_or r k w = Ok v.
Proof. unfold column_or. by intros ->. Qed.

Lemma at_key_at v : alist_get k d = Some v → at_key d k = Ok v.
Proof. apply at_key_has. Qed.
Lemma str_field_at s : alist_get k d = Some (JStr s) → str_field d k = Ok s.
Proof. intros H. unfold str_field. by rewrite (at_key_at _ H). Qed.
Lemma int_field_at n : alist_get k d = Some (JInt n) → int_field d k = Ok n.
Proof. intros H. unfold int_field. by rewrite (at_key_at _ H). Qed.
Lemma strs_field_at l : alist_get k d = Some (strs l) → strs_field d k = Ok l.
Proof. intros H. unfold strs_field. rewrite (at_key_at _ H). apply as_strs_strs. Qed.
Lemma uuid_field_at u : alist_get k d = Some (j_uuid u) → uuid_ok u → uuid_field d k = Ok u.
Proof. intros H Hu. unfold uuid_field. rewrite (at_key_at _ H). by apply as_uuid_uuid. Qed.
Lemma iso_field_at t : alist_get k d = Some (j_iso t) → iso_ok t → iso_field d k = Ok t.
Proof. intros H Ht. unfold iso_field. rewrite (at_key_at _ H). by apply as_iso_iso. Qed.
Lemma enum_field_at {E} `{PyEnum E} (x : E) : alist_get k d = Some (j_enum x) →
  enum_field d k = Ok x.
Proof. intros H'. unfold enum_field. rewrite (at_key_at _ H'). apply as_enum_value. Qed.
Lemma object_field_at x : alist_get k d = Some (JDict x) → object_field d k = Ok x.
Proof. intros H. unfold object_field. by rewrite (at_key_at _ H). Qed.
End reading.

(** ** Reading one value *)

Lemma truthy_uuid u : truthy (j_uuid u) = true.
Proof. reflexivity. Qed.
Lemma truthy_iso d : truthy (j_iso d) = true.
Proof.
  destruct d as [us|us]; unfold j_iso, isoformat, iso_us;
    by destruct (civil (us / 86400000000)) as [[y m] t].
Qed.

Lemma read_str v s : v = JStr s → as_str v = Ok s.
Proof. by intros ->. Qed.
Lemma read_int v n : v = JInt n → as_int v = Ok n.
Proof. by intros ->. Qed.
Lemma read_bool v b : v = JBool b → as_bool v = Ok b.
Proof. by intros ->. Qed.
Lemma read_float v f : v = JFloat f → as_float v = Ok f.
Proof. by intros ->. Qed.
Lemma read_object v x : v = JDict x → as_object v = Ok x.
Proof. by intros ->. Qed.
Lemma read_strs v l : v = strs l → as_strs v = Ok l.
Proof. intros ->. apply as_strs_strs. Qed.
Lemma read_enum {E} `{PyEnum E} v (x : E) : v = j_enum x → as_enum v = Ok x.
Proof. intros ->. apply as_enum_value. Qed.
Lemma read_uuid v u : v = j_uuid u → uuid_ok u → as_uuid v = Ok u.
Proof. intros ->. apply as_uuid_uuid. Qed.
Lemma read_uuids v l : v = JList (j_uuid <$> l) → Forall uuid_ok l → each as_uuid v = Ok l.
Proof. intros -> Hl. rewrite Forall_forall in Hl. apply each_id. intros u Hu. by apply as_uuid_uuid, Hl. Qed.

Lemma opt_str v o : v = j_opt JStr o → opt as_str v = Ok o.
Proof. intros ->. by apply opt_opt. Qed.
Lemma opt_int v o : v = j_opt JInt o → opt as_int v = Ok o.
Proof. intros ->. by apply opt_opt. Qed.
Lemma opt_bool v o : v = j_opt JBool o → opt as_bool v = Ok o.
Proof. intros ->. by apply opt_opt. Qed.
Lemma opt_float v o : v = j_opt JFloat o → opt as_float v = Ok o.
Proof. intros ->. by apply opt_opt. Qed.
Lemma opt_object v o : v = j_opt JDict o → opt as_object v = Ok o.
Proof. intros ->. by apply opt_opt. Qed.
Lemma opt_enum {E} `{PyEnum E} v (o : option E) : v = j_opt j_enum o → opt as_enum v = Ok o.
Proof. intros ->. apply opt_opt. intros x _. split; [done|]. apply as_enum_value. Qed.

(** An optional value satisfies [P]. *)
Definition if_some {A} (P : A → Prop) (o : option A) : Prop := ∀ x, o = Some x → P x.

Lemma truthy_opt_uuid v o : v = j_opt j_uuid o → if_some uuid_ok o → if_truthy as_uuid v = Ok o.
Proof. intros -> Ho. apply if_truthy_opt. intros u Hu. split; [done|]. by apply as_uuid_uuid, Ho. Qed.
Lemma truthy_opt_iso v o : v = j_opt j_iso o → if_some iso_ok o → if_truthy as_iso v = Ok o.
Proof.
  intros -> Ho. apply if_truthy_opt. intros u Hu. split; [apply truthy_iso|]. by apply as_iso_iso, Ho.
Qed.

Lemma read_objects {A} (f : object → res A) (g : A → object) (P : A → Prop) v l :
  v = JList ((fun x => JDict (g x)) <$> l) → (∀ x, P x → f (g x) = Ok x) → Forall P l →
  each_object f v = Ok l.
Proof. intros -> Hf Hl. rewrite Forall_forall in Hl. apply each_object_id. auto. Qed.

(** ** Automation *)

(** Splits what [has] says about a row into its columns. *)
Ltac split_columns H :=
  unfold has in H;
  repeat match type of H with
  | Forall _ (_ :: _) => let H' := fresh "Hc" in
      apply Forall_cons in H as [H' H]; cbn [fst snd] in H'
  end; clear H.

Ltac read_one :=
  first
  [ eapply uuid_column_at; [eassumption|assumption] | eapply str_column_at; eassumption
  | eapply int_column_at; eassumption | eapply enum_column_at; eassumption
  | eapply object_column_at; eassumption | eapply time_column_at; eassumption
  | eapply json_column_at; eassumption | eapply opt_time_column_at; eassumption
  | eapply column_or_at; eassumption
  | eapply str_field_at; reflexivity | eapply int_field_at; reflexivity
  | eapply strs_field_at; reflexivity | eapply uuid_field_at; [reflexivity|assumption]
  | eapply iso_field_at; [reflexivity|assumption] | eapply enum_field_at; reflexivity
  | eapply object_field_at; reflexivity
  | eapply opt_str; reflexivity | eapply opt_int; reflexivity | eapply opt_bool; reflexivity
  | eapply opt_float; reflexivity | eapply opt_object; reflexivity | eapply opt_enum; reflexivity
  | eapply truthy_opt_uuid; [reflexivity|assumption] | eapply truthy_opt_iso; [reflexivity|assumption]
  | eapply read_str; reflexivity | eapply read_int; reflexivity | eapply read_bool; reflexivity
  | eapply read_float; reflexivity | eapply read_object; reflexivity | eapply read_strs; reflexivity
  | eapply read_enum; reflexivity | eapply read_uuid; [reflexivity|assumption]
  | eapply read_uuids; [reflexivity|assumption]
  | eapply at_key_at; reflexivity ].

(** Reads until something needs a lemma of its own. *)
Ltac decode := repeat (eapply ok_bind; [solve [read_one | eauto with codec]|]; cbv beta).

Create HintDb codec.

(** ** Transitions and runs *)

Record transition_ok (t : StateTransition.t) : Prop := {
  transition_valid : StateTransition.new t = Ok t;
  transition_time : iso_ok (StateTransition.occurred_at t);
  transition_actor : uuid_ok (StateTransition.actor_id t)
}.

Lemma transition_round_trip t : transition_ok t → transition_of (transition_payload t) = Ok t.
Proof. intros [Hv Ht Ha]. unfold transition_of. decode. by destruct t. Qed.

Lemma transitions_round_trip v l : v = transitions_payload l → Forall transition_ok l →
  transitions_from v = Ok l.
Proof.
  intros -> Hl. unfold transitions_from, transitions_payload.
  eapply read_objects; [reflexivity|apply transition_round_trip|done].
Qed.

Record snapshot_ok (s : RunExecutionSnapshot.t) : Prop := {
  snapshot_valid : RunExecutionSnapshot.new s = Ok s;
  snapshot_plan : uuid_ok (RunExecutionSnapshot.plan_id s);
  snapshot_context : uuid_ok (RunExecutionSnapshot.context_snapshot_id s);
  snapshot_agent : uuid_ok (RunExecutionSnapshot.agent_version_id s)
}.

Lemma snapshot_round_trip v o : v = j_opt (fun s => JDict (snapshot_payload s)) o →
  if_some snapshot_ok o → if_truthy snapshot_of v = Ok o.
Proof.
  intros -> Ho. apply if_truthy_opt. intros s Hs. split; [done|].
  destruct (Ho s Hs) as [Hv Hp Hc Ha]. unfold snapshot_of. decode. by destruct s.
Qed.

Record run_ok (x : Run.t) : Prop := {
  run_valid : Run.new x = Ok x;
  run_tenant : uuid_ok (Run.tenant_id x);
  run_goal : uuid_ok (Run.goal_id x);
  run_agent : uuid_ok (Run.agent_version_id x);
  run_uuid : uuid_ok (Run.run_id x);
  run_snapshot : if_some snapshot_ok (Run.execution_snapshot x);
  run_transitions : Forall transition_ok (Run.transitions x);
  run_deployment : if_some uuid_ok (Run.deployment_id x)
}.

Lemma object_or_empty_at kv d : object_or_empty (JDict (kv :: d)) = Ok (kv :: d).
Proof. reflexivity. Qed.

#[export] Hint Extern 1 (transitions_from _ = Ok _) =>
  eapply transitions_round_trip; [reflexivity|assumption] : codec.
#[export] Hint Extern 1 (if_truthy snapshot_of _ = Ok _) =>
  eapply snapshot_round_trip; [reflexivity|assumption] : codec.
#[export] Hint Extern 1 (object_or_empty _ = Ok _) => reflexivity : codec.

Lemma run_round_trip x r : run_ok x → has r (run_values x) → run_from_row r = Ok x.
Proof.
  intros [] H. unfold run_values in H. split_columns H. unfold run_from_row. decode. by destruct x.
Qed.

(** ** Canonical JSON objects *)

(** A value the constructors of [JsonObject] build. *)
Definition json_object_ok (p : JsonObject.t) : Prop :=
  ∃ d, JsonObject.to_value p = Ok d ∧ JsonObject.from_value d = Ok p.

Lemma from_value_stable d x : json_wf (JDict d) → JsonObject.from_value d = Ok x → json_object_ok x.
Proof.
  intros Hwf H. destruct (from_value_ok d x Hwf H) as [Hv Hc].
  exists (sort_items (List.map (fun kv => (kv.1, normalize kv.2)) d)).
  split; [by apply to_value_canonical|].
  change (JDict (sort_items _)) with (normalize (JDict d)) in *.
  unfold JsonObject.from_value in H |- *. apply then_ok in H as [_ H].
  change (JDict (sort_items (List.map (fun kv => (kv.1, normalize kv.2)) d)))
    with (normalize (JDict d)).
  assert (E : validate_json (normalize (JDict d)) 0 = Ok tt)
    by (apply validate_json_ok, json_valid_normalize, Hv).
  rewrite E. cbn [mbind res_bind]. by rewrite dumps_normalize.
Qed.

(** ** Tasks and plans *)

Record task_ok (x : Task.t) : Prop := {
  task_valid : Task.new x = Ok x;
  task_tenant : uuid_ok (Task.tenant_id x);
  task_run : uuid_ok (Task.run_id x);
  task_uuid : uuid_ok (Task.task_id x);
  task_depends : Forall uuid_ok (Task.depends_on x);
  task_cost : 0 <= BudgetAmount.amount (Task.estimated_cost x);
  task_transitions : Forall transition_ok (Task.transitions x)
}.

Lemma budget_round_trip x : 0 <= BudgetAmount.amount x → budget_of (budget_payload x) = Ok x.
Proof.
  intros H. unfold budget_of. decode. destruct x as [n u]. unfold BudgetAmount.new, BudgetAmount.post_init.
  cbn in *. by rewrite (proj2 (Z.ltb_ge n 0)).
Qed.
#[export] Hint Resolve budget_round_trip : codec.

Lemma task_round_trip p now x r : task_ok x → has r (task_values p now x) → task_from_row r = Ok x.
Proof.
  intros [] H. unfold task_values in H. split_columns H. unfold task_from_row. decode. by destruct x.
Qed.

(** The rows of a plan's tasks, in the plan's order. *)
Record plan_ok (x : Plan.t) : Prop := {
  plan_valid : Plan.new x = Ok x;
  plan_tenant : uuid_ok (Plan.tenant_id x);
  plan_goal : uuid_ok (Plan.goal_id x);
  plan_run : uuid_ok (Plan.run_id x);
  plan_uuid : uuid_ok (Plan.plan_id x);
  plan_tasks : Forall task_ok (Plan.tasks x)
}.

Lemma plan_round_trip now x r rs : plan_ok x → has r (plan_values x now) →
  Forall2 (fun task r' => has r' (task_values x now task)) (Plan.tasks x) rs →
  plan_from_rows r rs = Ok x.
Proof.
  intros [? ? ? ? ? Ht] H Hrs. unfold plan_values in H. split_columns H. unfold plan_from_rows.
  assert (Htasks : mapM_res task_from_row rs = Ok (Plan.tasks x)).
  { apply mapM_res_ok. clear -Ht Hrs. induction Hrs as [|task r' l l' Hr _ IH]; [constructor|].
    apply Forall_cons in Ht as [? ?]. constructor; [by eapply task_round_trip|by apply IH]. }
  decode. by destruct x.
Qed.

(** ** Actions and attempts *)

Record action_ok (x : Action.t) : Prop := {
  action_valid : Action.new x = Ok x;
  action_tenant : uuid_ok (Action.tenant_id x);
  action_run : uuid_ok (Action.run_id x);
  action_task : uuid_ok (Action.task_id x);
  action_uuid : uuid_ok (Action.action_id x);
  action_parameters : json_object_ok (Action.parameters x);
  action_transitions : Forall transition_ok (Action.transitions x)
}.

Lemma action_round_trip now x cols r : action_ok x → action_values x now = Ok cols → has r cols →
  action_from_row r = Ok x.
Proof.
  intros [? ? ? ? ? (d & Hd & Hp)] Hc H. unfold action_values, action_payload in Hc.
  rewrite Hd in Hc. injection Hc as <-. split_columns H. unfold action_from_row. decode. by destruct x.
Qed.

Record attempt_ok (x : ActionAttempt.t) : Prop := {
  attempt_valid : ActionAttempt.new x = Ok x;
  attempt_tenant : uuid_ok (ActionAttempt.tenant_id x);
  attempt_run : uuid_ok (ActionAttempt.run_id x);
  attempt_action : uuid_ok (ActionAttempt.action_id x);
  attempt_invocation : uuid_ok (ActionAttempt.invocation_id x);
  attempt_uuid : uuid_ok (ActionAttempt.attempt_id x);
  attempt_time : iso_ok (ActionAttempt.recorded_at x)
}.

Lemma action_attempt_round_trip x r : attempt_ok x → has r (action_attempt_values x) →
  action_attempt_from_row r = Ok x.
Proof.
  intros [] H. unfold action_attempt_values in H. split_columns H. unfold action_attempt_from_row.
  decode. by destruct x.
Qed.

(** ** Memory and context *)

Record memory_ok (x : MemoryRecord.t) : Prop := {
  memory_valid : MemoryRecord.new x = Ok x;
  memory_tenant : uuid_ok (MemoryRecord.tenant_id x);
  memory_approver : uuid_ok (MemoryRecord.approved_by x);
  memory_uuid : uuid_ok (MemoryRecord.memory_id x);
  memory_created : iso_ok (MemoryRecord.created_at x)
}.

Lemma created_at_read d r t : get d "created_at" = j_iso t → alist_get "created_at" d = Some (j_iso t) →
  iso_ok t →
  (if truthy (get d "created_at") then iso_field d "created_at" else time_column r "created_at") = Ok t.
Proof. intros -> H Ht. rewrite truthy_iso. by apply iso_field_at. Qed.
#[export] Hint Extern 1 ((if truthy _ then _ else _) = Ok _) =>
  eapply created_at_read; [reflexivity|reflexivity|assumption] : codec.

Lemma memory_round_trip now x r : memory_ok x → has r (memory_values x now) →
  memory_from_row r = Ok x.
Proof.
  intros [] H. unfold memory_values in H. split_columns H. unfold memory_from_row. decode.
  by destruct x as [? ? ? ? ? ? ? ? ? []].
Qed.

(** A role set in the order the payload writes it. *)
Definition in_order (l : list string) : Prop := sorted_strings l = l.

Record fact_ok (x : EnvironmentFact.t) : Prop := {
  fact_valid : EnvironmentFact.new x = Ok x;
  fact_tenant : uuid_ok (EnvironmentFact.tenant_id x);
  fact_observed : iso_ok (EnvironmentFact.observed_at x);
  fact_until : iso_ok (EnvironmentFact.valid_until x);
  fact_roles : in_order (EnvironmentFact.allowed_roles x);
  fact_purposes : in_order (EnvironmentFact.allowed_purposes x)
}.

Record knowledge_ok (x : KnowledgeRef.t) : Prop := {
  knowledge_tenant : uuid_ok (KnowledgeRef.tenant_id x);
  knowledge_roles : in_order (KnowledgeRef.allowed_roles x);
  knowledge_purposes : in_order (KnowledgeRef.allowed_purposes x)
}.

Lemma tenant_read r item t u : json_column r "tenant_id" = Ok t →
  get_or item "tenant_id" t = j_uuid u → uuid_ok u → tenant_of r item = Ok u.
Proof. unfold tenant_of. intros -> H Hu. cbn. rewrite H. by apply as_uuid_uuid. Qed.

Lemma fact_round_trip r t x : json_column r "tenant_id" = Ok t → fact_ok x →
  fact_of r (fact_payload x) = Ok x.
Proof.
  intros Hr [? ? ? ? E1 E2]. unfold fact_of.
  eapply ok_bind; [by eapply (tenant_read _ _ _ (EnvironmentFact.tenant_id x))|].
  unfold fact_payload. rewrite E1, E2. decode. by destruct x.
Qed.

Lemma knowledge_round_trip r t x : json_column r "tenant_id" = Ok t → knowledge_ok x →
  knowledge_of r (knowledge_payload x) = Ok x.
Proof.
  intros Hr [? E1 E2]. unfold knowledge_of.
  eapply ok_bind; [by eapply (tenant_read _ _ _ (KnowledgeRef.tenant_id x))|].
  unfold knowledge_payload. rewrite E1, E2. decode. by destruct x.
Qed.

Record context_ok (x : ContextSnapshot.t) : Prop := {
  context_valid : ContextSnapshot.new x = Ok x;
  context_tenant : uuid_ok (ContextSnapshot.tenant_id x);
  context_goal : uuid_ok (ContextSnapshot.goal_id x);
  context_run : uuid_ok (ContextSnapshot.run_id x);
  context_uuid : uuid_ok (ContextSnapshot.snapshot_id x);
  context_facts : Forall fact_ok (ContextSnapshot.environment_facts x);
  context_knowledge : Forall knowledge_ok (ContextSnapshot.knowledge_refs x);
  context_memories : Forall uuid_ok (ContextSnapshot.memory_ids x);
  context_created : iso_ok (ContextSnapshot.created_at x)
}.

Lemma context_snapshot_round_trip x r : context_ok x → has r (context_snapshot_values x) →
  context_snapshot_from_row r = Ok x.
Proof.
  intros [] H. unfold context_snapshot_values in H. split_columns H.
  assert (Hr : json_column r "tenant_id" = Ok (j_uuid (ContextSnapshot.tenant_id x)))
    by (by apply json_column_at).
  unfold context_snapshot_from_row. decode.
  eapply ok_bind; [eapply read_objects;
    [reflexivity|intros y; by apply (fact_round_trip r _ y Hr)|assumption]|]. decode.
  eapply ok_bind; [eapply read_objects;
    [reflexivity|intros y; by apply (knowledge_round_trip r _ y Hr)|assumption]|].
  decode. by destruct x.
Qed.

(** ** Approvals *)

Record review_ok (x : ApprovalReview.t) : Prop := {
  review_reason : blank (ApprovalReview.reason x) || is_naive (ApprovalReview.reviewed_at x) = false;
  review_actor : uuid_ok (ApprovalReview.actor_id x);
  review_principal : uuid_ok (ApprovalReview.principal_id x);
  review_time : iso_ok (ApprovalReview.reviewed_at x)
}.

Lemma review_round_trip x : review_ok x → review_of (review_payload x) = Ok x.
Proof.
  intros [Hr ? ? ?]. unfold review_of. decode. unfold ApprovalReview.new, ApprovalReview.post_init.
  cbn. rewrite Hr. by destruct x as [? ? []].
Qed.
#[export] Hint Extern 1 (each_object review_of _ = Ok _) =>
  eapply read_objects; [reflexivity|apply review_round_trip|assumption] : codec.

Record approval_ok (x : ApprovalRequest.t) : Prop := {
  approval_valid : ApprovalRequest.new x = Ok x;
  approval_tenant : uuid_ok (ApprovalRequest.tenant_id x);
  approval_run : uuid_ok (ApprovalRequest.run_id x);
  approval_action : uuid_ok (ApprovalRequest.action_id x);
  approval_uuid : uuid_ok (ApprovalRequest.approval_id x);
  approval_decider : if_some uuid_ok (ApprovalRequest.decided_by x);
  approval_decided : if_some iso_ok (ApprovalRequest.decided_at x);
  approval_transitions : Forall transition_ok (ApprovalRequest.transitions x);
  approval_reviews : Forall review_ok (ApprovalRequest.reviews x)
}.

Lemma approval_round_trip x r : approval_ok x → has r (approval_values x) →
  approval_from_row r = Ok x.
Proof.
  intros [] H. unfold approval_values in H. split_columns H. unfold approval_from_row. decode.
  by destruct x.
Qed.

(** ** Evidence and outcomes *)

Definition subject_ok (x : SubjectRef.t) : Prop :=
  any blank [SubjectRef.system x; SubjectRef.subject_type x; SubjectRef.subject_id x] = false.

Lemma subject_round_trip x : subject_ok x → subject_of (subject_payload x) = Ok x.
Proof.
  unfold subject_ok. intros H. unfold subject_of. decode. unfold SubjectRef.new. rewrite H.
  by destruct x.
Qed.
#[export] Hint Extern 1 (each_object subject_of _ = Ok _) =>
  eapply read_objects; [reflexivity|apply subject_round_trip|assumption] : codec.

Record evidence_ok (x : Evidence.t) : Prop := {
  evidence_valid : Evidence.new x = Ok x;
  evidence_tenant : uuid_ok (Evidence.tenant_id x);
  evidence_run : uuid_ok (Evidence.run_id x);
  evidence_action : uuid_ok (Evidence.action_id x);
  evidence_uuid : uuid_ok (Evidence.evidence_id x);
  evidence_subjects : Forall subject_ok (Evidence.subject_refs x);
  evidence_retained : if_some iso_ok (Evidence.retained_until x);
  evidence_captured : iso_ok (Evidence.captured_at x)
}.

Lemma evidence_round_trip x r : evidence_ok x → has r (evidence_values x) →
  evidence_from_row r = Ok x.
Proof.
  intros [] H. unfold evidence_values in H. split_columns H. unfold evidence_from_row. decode.
  by destruct x.
Qed.

Record outcome_ok (x : Outcome.t) : Prop := {
  outcome_valid : Outcome.new x = Ok x;
  outcome_tenant : uuid_ok (Outcome.tenant_id x);
  outcome_goal : uuid_ok (Outcome.goal_id x);
  outcome_run : uuid_ok (Outcome.run_id x);
  outcome_uuid : uuid_ok (Outcome.outcome_id x);
  outcome_verified : if_some iso_ok (Outcome.verified_at x)
}.

(** [items] is the evidence of the outcome, in the outcome's order. *)
Lemma outcome_round_trip now x r : outcome_ok x → has r (outcome_values x now) →
  outcome_from_row r (Outcome.evidence x) = Ok x.
Proof.
  intros [] H. unfold outcome_values in H. split_columns H. unfold outcome_from_row. decode.
  by destruct x.
Qed.

(** * Round trips of the improvement, evaluation and rollout records, goals and agents

    Continues [CodecProofs]: proposals, candidates, evaluations, deployments
    and their observations, shadow comparisons, releases, suites and trials,
    then the goal contract and the agent version, whose codecs are in the
    repository itself. *)

Open Scope string_scope.
Open Scope list_scope.
Open Scope Z_scope.

#[export] Hint Extern 1 (keywords _ _ _ _ = Ok _) => reflexivity : codec.

(** ** Improvement *)

Record proposal_ok (x : ImprovementProposal.t) : Prop := {
  proposal_valid : ImprovementProposal.new x = Ok x;
  proposal_tenant : uuid_ok (ImprovementProposal.tenant_id x);
  proposal_target : uuid_ok (ImprovementProposal.target_version_id x);
  proposal_uuid : uuid_ok (ImprovementProposal.proposal_id x)
}.

Lemma proposal_round_trip now x r : proposal_ok x → has r (proposal_values x now) →
  proposal_from_row r = Ok x.
Proof.
  intros [] H. unfold proposal_values in H. split_columns H. unfold proposal_from_row. decode.
  by destruct x.
Qed.

Record candidate_ok (x : CandidateVersion.t) : Prop := {
  candidate_valid : CandidateVersion.new x = Ok x;
  candidate_tenant : uuid_ok (CandidateVersion.tenant_id x);
  candidate_proposal : uuid_ok (CandidateVersion.proposal_id x);
  candidate_baseline : uuid_ok (CandidateVersion.baseline_version_id x);
  candidate_uuid : uuid_ok (CandidateVersion.candidate_id x);
  candidate_transitions : Forall transition_ok (CandidateVersion.transitions x)
}.

Lemma candidate_round_trip now x r : candidate_ok x → has r (candidate_values x now) →
  candidate_from_row r = Ok x.
Proof.
  intros [] H. unfold candidate_values in H. split_columns H. unfold candidate_from_row. decode.
  by destruct x.
Qed.

(** ** Observations *)

Record observation_ok (x : DeploymentObservation.t) : Prop := {
  observation_valid : DeploymentObservation.new x = Ok x;
  observation_tenant : uuid_ok (DeploymentObservation.tenant_id x);
  observation_deployment : uuid_ok (DeploymentObservation.deployment_id x);
  observation_uuid : uuid_ok (DeploymentObservation.observation_id x)
}.

Lemma observation_round_trip now x r : observation_ok x → has r (observation_values x now) →
  observation_from_row r = Ok x.
Proof.
  intros [] H. unfold observation_values in H. split_columns H. unfold observation_from_row. decode.
  by destruct x.
Qed.

Lemma measurements_round_trip v x : v = JDict (shadow_measurements_payload x) →
  ShadowMeasurements.new x = Ok x → measurements_of v = Ok x.
Proof. intros -> Hv. unfold measurements_of. decode. by destruct x. Qed.
#[export] Hint Extern 1 (measurements_of _ = Ok _) =>
  eapply measurements_round_trip; [reflexivity|assumption] : codec.

Record shadow_ok (x : ShadowComparison.t) : Prop := {
  shadow_valid : ShadowComparison.new x = Ok x;
  shadow_stable : ShadowMeasurements.new (ShadowComparison.stable x) = Ok (ShadowComparison.stable x);
  shadow_candidate :
    ShadowMeasurements.new (ShadowComparison.candidate x) = Ok (ShadowComparison.candidate x);
  shadow_tenant : uuid_ok (ShadowComparison.tenant_id x);
  shadow_deployment : uuid_ok (ShadowComparison.deployment_id x);
  shadow_stable_version : uuid_ok (ShadowComparison.stable_version_id x);
  shadow_candidate_version : uuid_ok (ShadowComparison.candidate_version_id x);
  shadow_uuid : uuid_ok (ShadowComparison.comparison_id x)
}.

Lemma shadow_comparison_round_trip now x r : shadow_ok x → has r (shadow_comparison_values x now) →
  shadow_comparison_from_row r = Ok x.
Proof.
  intros [] H. unfold shadow_comparison_values in H. split_columns H.
  unfold shadow_comparison_from_row. decode. by destruct x.
Qed.

(** ** Suites and evaluations *)

Lemma case_round_trip x : EvaluationCase.new x = Ok x → case_of (case_payload x) = Ok x.
Proof. intros Hv. unfold case_of. decode. by destruct x. Qed.
#[export] Hint Extern 1 (each_object case_of _ = Ok _) =>
  eapply read_objects; [reflexivity|apply case_round_trip|assumption] : codec.

Record suite_ok (x : EvaluationSuite.t) : Prop := {
  suite_valid : EvaluationSuite.new x = Ok x;
  suite_cases : Forall (fun c => EvaluationCase.new c = Ok c) (EvaluationSuite.cases x)
}.

Lemma suite_round_trip fresh tenant now x r : suite_ok x → has r (suite_values fresh tenant x now) →
  suite_from_row r = Ok x.
Proof.
  intros [] H. unfold suite_values in H. split_columns H. unfold suite_from_row. decode.
  by destruct x.
Qed.

Record candidate_evaluation_ok (x : CandidateEvaluation.t) : Prop := {
  evaluation_valid : CandidateEvaluation.new x = Ok x;
  evaluation_tenant : uuid_ok (CandidateEvaluation.tenant_id x);
  evaluation_candidate : uuid_ok (CandidateEvaluation.candidate_id x);
  evaluation_uuid : uuid_ok (CandidateEvaluation.evaluation_id x);
  evaluation_trials : Forall uuid_ok (CandidateEvaluation.trial_ids x)
}.

(** The reader takes the time of the decision from the row's [created_at], the
    clock of the insert, not from the record. *)
Lemma evaluation_round_trip now x r : candidate_evaluation_ok x → has r (evaluation_values x now) →
  evaluation_from_row r = Ok (CandidateEvaluation.mk (CandidateEvaluation.tenant_id x)
    (CandidateEvaluation.candidate_id x) (CandidateEvaluation.decision x)
    (CandidateEvaluation.trial_ids x) (CandidateEvaluation.assessment x)
    (CandidateEvaluation.grader_principal_id x) (CandidateEvaluation.evaluation_id x) (Some now)).
Proof.
  intros [Hv] H. unfold evaluation_values in H. split_columns H. unfold evaluation_from_row. decode.
  match goal with H : alist_get "created_at" r = _ |- _ => rewrite H end. cbn.
  unfold CandidateEvaluation.new in *. apply then_ok in Hv as [Hv _]. destruct x.
  match goal with |- (?a ;; _) = _ => change a with (CandidateEvaluation.post_init
    (CandidateEvaluation.mk tenant_id candidate_id decision trial_ids assessment
       grader_principal_id evaluation_id decided_at)) end.
  by rewrite Hv.
Qed.

(** ** Deployments and releases *)

Lemma traffic_round_trip d x : get d "traffic_allocation" = JDict (traffic_allocation_payload x) →
  TrafficAllocation.new x = Ok x → traffic_allocation_from d = Ok (Some x).
Proof.
  unfold traffic_allocation_from. intros -> Hv. decode. destruct x.
  cbn [TrafficAllocation.salt TrafficAllocation.candidate_percent]. by rewrite Hv.
Qed.

Record deployment_ok (x : Deployment.t) : Prop := {
  deployment_valid : Deployment.new x = Ok x;
  deployment_tenant : uuid_ok (Deployment.tenant_id x);
  deployment_candidate : uuid_ok (Deployment.candidate_id x);
  deployment_uuid : uuid_ok (Deployment.deployment_id x);
  deployment_transitions : Forall transition_ok (Deployment.transitions x);
  deployment_traffic :
    if_some (fun a => TrafficAllocation.new a = Ok a) (Deployment.traffic_allocation x)
}.

Lemma deployment_payload_reads x : deployment_ok x →
  get (deployment_payload x) "transitions" = transitions_payload (Deployment.transitions x) ∧
  traffic_allocation_from (deployment_payload x) = Ok (Deployment.traffic_allocation x).
Proof.
  intros [_ _ _ _ _ Ht]. unfold deployment_payload.
  destruct (Deployment.traffic_allocation x) as [a|] eqn:E; split; try done.
  eapply traffic_round_trip; [reflexivity|by apply Ht].
Qed.

Lemma deployment_round_trip now x r : deployment_ok x → has r (deployment_values x now) →
  deployment_from_row r = Ok x.
Proof.
  intros Hx H. destruct (deployment_payload_reads x Hx) as [Ht Ha]. destruct Hx.
  unfold deployment_values in H. split_columns H. unfold deployment_from_row. decode.
  eapply ok_bind; [by eapply transitions_round_trip|].
  eapply ok_bind; [exact Ha|]. by destruct x.
Qed.

Record release_ok (x : Release.t) : Prop := {
  release_tenant : uuid_ok (Release.tenant_id x);
  release_candidate : uuid_ok (Release.candidate_id x);
  release_deployment : uuid_ok (Release.deployment_id x);
  release_stable : uuid_ok (Release.stable_version_id x);
  release_previous : uuid_ok (Release.previous_stable_version_id x);
  release_approver : uuid_ok (Release.approved_by x);
  release_uuid : uuid_ok (Release.release_id x)
}.

Lemma release_round_trip slot now x r : release_ok x → has r (release_values x slot now) →
  release_from_row r = Ok x.
Proof.
  intros [] H. unfold release_values in H. split_columns H. unfold release_from_row. decode.
  by destruct x.
Qed.

(** ** Trials *)

Record grade_ok (x : GraderResult.t) : Prop := {
  grade_valid : GraderResult.new x = Ok x;
  grade_trial : uuid_ok (GraderResult.trial_id x)
}.

Lemma grade_round_trip x : grade_ok x → grade_of (grade_payload x) = Ok x.
Proof. intros []. unfold grade_of. decode. by destruct x. Qed.
#[export] Hint Extern 1 (each_object grade_of _ = Ok _) =>
  eapply read_objects; [reflexivity|apply grade_round_trip|assumption] : codec.

Record case_result_ok (x : TrialCaseResult.t) : Prop := {
  case_result_valid : TrialCaseResult.new x = Ok x;
  case_result_grades : Forall grade_ok (TrialCaseResult.grader_results x)
}.

Lemma case_result_round_trip x : case_result_ok x → case_result_of (case_result_payload x) = Ok x.
Proof. intros []. unfold case_result_of. decode. by destruct x. Qed.
#[export] Hint Extern 1 (each_object case_result_of _ = Ok _) =>
  eapply read_objects; [reflexivity|apply case_result_round_trip|assumption] : codec.

Record trial_ok (x : Trial.t) : Prop := {
  trial_valid : Trial.new x = Ok x;
  trial_tenant : uuid_ok (Trial.tenant_id x);
  trial_subject : uuid_ok (Trial.subject_version_id x);
  trial_uuid : uuid_ok (Trial.trial_id x);
  trial_candidate : if_some uuid_ok (Trial.candidate_id x);
  trial_results : Forall case_result_ok (Trial.case_results x);
  trial_started : if_some iso_ok (Trial.started_at x);
  trial_completed : if_some iso_ok (Trial.completed_at x)
}.

Lemma trial_round_trip now x r : trial_ok x → has r (trial_values x now) → trial_from_row r = Ok x.
Proof.
  intros [] H. unfold trial_values in H. split_columns H. unfold trial_from_row. decode.
  by destruct x.
Qed.

(** ** Agents and goals *)

Lemma loop_round_trip loop x : loop = [
    ("max_rounds", JInt (LoopPolicy.max_rounds x)); ("max_tokens", JInt (LoopPolicy.max_tokens x));
    ("max_cost_units", JInt (LoopPolicy.max_cost_units x));
    ("timeout_seconds", JInt (LoopPolicy.timeout_seconds x))] → LoopPolicy.new x = Ok x →
  loop_policy_of loop = Ok x.
Proof. intros -> Hv. unfold loop_policy_of. decode. by destruct x. Qed.
#[export] Hint Extern 1 (loop_policy_of _ = Ok _) =>
  eapply loop_round_trip; [reflexivity|assumption] : codec.

Record agent_ok (x : AgentVersion.t) : Prop := {
  agent_valid : AgentVersion.new x = Ok x;
  agent_loop : LoopPolicy.new (AgentVersion.loop_policy x) = Ok (AgentVersion.loop_policy x);
  agent_tenant : uuid_ok (AgentVersion.tenant_id x);
  agent_agent : uuid_ok (AgentVersion.agent_id x);
  agent_uuid : uuid_ok (AgentVersion.agent_version_id x)
}.

Lemma agent_round_trip name now x r : agent_ok x → has r (agent_values name x now) →
  agent_from_row r = Ok x.
Proof.
  intros [] H. unfold agent_values in H. split_columns H. unfold agent_from_row. decode.
  by destruct x.
Qed.

Definition criterion_ok (x : SuccessCriterion.t) : Prop :=
  any blank [SuccessCriterion.criterion_id x; SuccessCriterion.description x;
             SuccessCriterion.evidence_type x] = false.

Lemma criterion_round_trip x : criterion_ok x → criterion_of (criterion_payload x) = Ok x.
Proof.
  unfold criterion_ok. intros H. unfold criterion_of. decode. unfold SuccessCriterion.new.
  rewrite H. by destruct x.
Qed.
#[export] Hint Extern 1 (each_object criterion_of _ = Ok _) =>
  eapply read_objects; [reflexivity|apply criterion_round_trip|assumption] : codec.

Lemma subject_ref_round_trip x : subject_ok x → subject_ref_of (subject_payload x) = Ok x.
Proof. intros H. unfold subject_ref_of.
  change (keywords _ _ _ _) with (Ok tt : res unit). by apply subject_round_trip. Qed.
#[export] Hint Extern 1 (each_object subject_ref_of _ = Ok _) =>
  eapply read_objects; [reflexivity|apply subject_ref_round_trip|assumption] : codec.

Lemma data_policy_round_trip d x : get_or d "data_policy" (JDict []) = JDict [
    ("maximum_classification", j_enum (DataPolicy.maximum_classification x));
    ("allowed_regions", strs (DataPolicy.allowed_regions x));
    ("retention_days", JInt (DataPolicy.retention_days x))] → DataPolicy.post_init x = Ok tt →
  data_policy_of d = Ok x.
Proof.
  unfold data_policy_of. intros -> Hv. unfold DataPolicy.new. cbv zeta. decode. by destruct x.
Qed.
#[export] Hint Extern 1 (data_policy_of _ = Ok _) =>
  eapply data_policy_round_trip; [reflexivity|assumption] : codec.

Record goal_ok (x : GoalContract.t) : Prop := {
  goal_valid : GoalContract.new x = Ok x;
  goal_tenant : uuid_ok (GoalContract.tenant_id x);
  goal_owner : uuid_ok (GoalContract.owner_id x);
  goal_uuid : uuid_ok (GoalContract.goal_id x);
  goal_subjects : Forall subject_ok (GoalContract.subject_refs x);
  goal_criteria : Forall criterion_ok (GoalContract.success_criteria x);
  goal_budget : 0 <= BudgetAmount.amount (GoalContract.budget_limit x);
  goal_deadline : iso_ok (GoalContract.deadline x);
  goal_input : json_object_ok (GoalContract.input_payload x);
  goal_delegation : if_some uuid_ok (GoalContract.delegation_id x);
  goal_policy : DataPolicy.post_init (GoalContract.data_policy x) = Ok tt;
  goal_transitions : Forall transition_ok (GoalContract.transitions x)
}.

Lemma goal_round_trip x cols r : goal_ok x → goal_values x = Ok cols → has r cols →
  goal_from_row r = Ok x.
Proof.
  intros [? ? ? ? ? ? ? ? (d & Hd & Hp)] Hc H. unfold goal_values, goal_payload in Hc.
  rewrite Hd in Hc. injection Hc as <-. split_columns H. unfold goal_from_row. decode. by destruct x.
Qed.
