(* ===== verification/Schema.v ===== *)
(** * packages/adapters: persistence_schema.py

    The relational schema as data: a table has typed columns with nullability
    and client-side default, its keys, references and checks.
    [table_holds t content r] is what a relational database documents about a
    table that was declared so: which contents satisfy the declaration.  A
    constraint one of whose columns is NULL is satisfied, as in SQL. *)

From S2P Require Import Prelude PyStr PyDict PyFloat Json Rows.
From Stdlib Require Import ZArith.

Open Scope string_scope.
Open Scope list_scope.
Open Scope Z_scope.

(** ** Cells have decidable equality *)

Fixpoint json_eqb (a b : json) : bool :=
  match a, b with
  | JNull, JNull => true
  | JBool x, JBool y => bool_decide (x = y)
  | JInt x, JInt y => x =? y
  | JFloat x, JFloat y => bool_decide (x = y)
  | JStr x, JStr y => bool_decide (x = y)
  | JList l, JList l' =>
      (fix go l l' := match l, l' with
                      | [], [] => true
                      | x :: l, y :: l' => json_eqb x y && go l l'
                      | _, _ => false
                      end) l l'
  | JDict d, JDict d' =>
      (fix go d d' := match d, d' with
                      | [], [] => true
                      | (k, x) :: d, (k', y) :: d' => bool_decide (k = k') && json_eqb x y && go d
    d'
                      | _, _ => false
                      end) d d'
  | _, _ => false
  end.

Lemma json_eqb_spec a b : json_eqb a b = true ↔ a = b.
Proof.
  revert b. induction a as [|x|x|x|x|l IH|d IH] using json_induction; intros [|y|y|y|y|l'|d'];
    cbn [json_eqb]; try done;
    try (rewrite bool_decide_eq_true; split; [by intros ->|by intros [= ->]]).
  - rewrite Z.eqb_eq. split; [by intros ->|by intros [= ->]].
  - transitivity (l = l'); [|split; [by intros ->|by intros [= ->]]].
    revert l'. induction IH as [|x l Hx _ IHl]; intros [|y l']; try done.
    rewrite andb_true_iff, Hx, IHl. split; [by intros [-> ->]|by intros [= -> ->]].
  - transitivity (d = d'); [|split; [by intros ->|by intros [= ->]]].
    revert d'. induction IH as [|[k x] d Hx _ IHd]; intros [|[k' y] d']; try done. cbn in Hx.
    rewrite !andb_true_iff, Hx, IHd, bool_decide_eq_true.
    split; [by intros [[-> ->] ->]|by intros [= -> -> ->]].
Qed.

#[export] Instance json_eq_dec : EqDecision json.
Proof. intros a b. refine (cast_if (decide (json_eqb a b = true)));
    by rewrite <- json_eqb_spec. Defined.

#[export] Instance cell_eq_dec : EqDecision cell.
Proof. solve_decision. Defined.

Notation NULL := (Cell JNull).

(** ** Tables *)

Inductive column_type :=
  | String_ (length : Z) | Text | JSON | DateTime | Integer | BigInteger | Boolean | Float.

Module Column.
Record t := mk { name : string; type : column_type; nullable : bool; default : option cell }.
End Column.


(** The arguments of [Table]: columns, [UniqueConstraint], a unique [Index]
    with a condition, [ForeignKeyConstraint], [CheckConstraint]. *)
Inductive item :=
  | Col (c : Column.t)
  | Unique (columns : list string)
  | UniqueWhere (columns : list string) (condition : row → bool)
  | Reference (columns : list string) (target : string) (keys : list string)
  | Checked (check : row → bool).

(** [Column(name, type, nullable=False)], [nullable=True], and a default *)
Definition required (name : string) (type : column_type) : item :=
  Col (Column.mk name type false None).
Definition optional (name : string) (type : column_type) : item :=
  Col (Column.mk name type true None).
Definition defaulted (name : string) (type : column_type) (v : json) : item :=
  Col (Column.mk name type false (Some (Cell v))).

Record table := Table { table_name : string; items : list item }.

Definition columns (t : table) : list Column.t :=
  omap (fun i => match i with Col c => Some c | _ => None end) (items t).
Definition column_names (t : table) : list string := Column.name <$> columns t.

(** ** What a declaration means *)

(** The content of a database: the rows of each table. *)
Notation content := (string → list row).

(** The value of a column; a column a row does not have is NULL. *)
Definition col (k : string) (r : row) : cell := default NULL (alist_get k r).
Definition cols (ks : list string) (r : row) : list cell := (fun k => col k r) <$> ks.
Definition has_null (ks : list string) (r : row) : bool := mem NULL (cols ks r).

Definition int_check (k : string) (p : Z → bool) (r : row) : bool :=
  match col k r with Cell (JInt n) => p n | _ => true end.
Definition float_check (k : string) (p : float → bool) (r : row) : bool :=
  match col k r with Cell (JFloat f) => p f | _ => true end.
Definition text_check (k : string) (p : string → bool) (r : row) : bool :=
  match col k r with Cell (JStr s) => p s | _ => true end.
Definition one_of (k : string) (values : list string) : row → bool := text_check k (fun s => mem s
    values).
Definition length_is (k : string) (n : Z) : row → bool := text_check k (fun s => len s =? n).

(** [b >= a] on timestamps *)
Definition ordered (a b : string) (r : row) : bool :=
  match col a r, col b r with
  | TimeCell (Aware x), TimeCell (Aware y) => x <=? y
  | _, _ => true
  end.

Definition keys_of (ks : list string) (rows : list row) : list (list cell) :=
  cols ks <$> List.filter (fun r => negb (has_null ks r)) rows.

Definition item_holds (d : content) (rows : list row) (i : item) : bool :=
  match i with
  | Col c => Column.nullable c || all (fun r => negb (bool_decide (col (Column.name c) r = NULL)))
    rows
  | Unique ks => unique (keys_of ks rows)
  | UniqueWhere ks condition =>
      unique (keys_of ks (List.filter condition rows))
  | Reference ks target keys =>
      all (fun r => has_null ks r || mem (cols ks r) (cols keys <$> d target)) rows
  | Checked p => all p rows
  end.

Definition table_holds (d : content) (t : table) : bool :=
  all (item_holds d (d (table_name t))) (items t).

(** A new row: what the statement sets, else the column's default, else NULL. *)
Definition complete (t : table) (values : row) : row :=
  (fun c => (Column.name c, match alist_get (Column.name c) values with
                            | Some v => v
                            | None => default NULL (Column.default c)
                            end)) <$> columns t.

(** The row an update leaves: the columns it sets, and the others. *)
Definition assign (values r : row) : row :=
  values ++ List.filter (fun kv => negb (mem kv.1 (fst <$> values))) r.

(** ** The tables *)

(** [tenant_table] *)
Definition tenant_table (name : string) (more : list item) : table := Table name (
  [required "id" (String_ 36); Unique ["id"];
   required "tenant_id" (String_ 36); Reference ["tenant_id"] "tenants" ["id"]] ++ more ++
  [defaulted "optimistic_version" Integer (JInt 1);
   required "created_at" DateTime;
   optional "updated_at" DateTime;
   Unique ["tenant_id"; "id"];
   Checked (int_check "optimistic_version" (fun n => 0 <? n))]).

Definition tenant_reference (local_column target_table : string) : item :=
  Reference ["tenant_id"; local_column] target_table ["tenant_id"; "id"].

Definition status_check (values : list string) : item := Checked (one_of "status" values).
Definition stage_check (values : list string) : item := Checked (one_of "stage" values).

(** The table objects of the module. *)
Module Tables.

Definition tenants : table := Table "tenants" [
  required "id" (String_ 36); Unique ["id"];
  required "name" (String_ 200);
  required "created_at" DateTime].
Definition platform_kill_switches : table := Table "platform_kill_switches" [
  required "id" (String_ 36); Unique ["id"];
  required "target" (String_ 32);
  required "reason" (String_ 1000);
  required "activated_by" (String_ 36);
  optional "deactivated_at" DateTime;
  required "created_at" DateTime;
  Checked (one_of "target" ["platform"]);
  UniqueWhere ["target"] (fun r => bool_decide (col "deactivated_at" r = NULL))].
Definition platform_audit_events : table := Table "platform_audit_events" [
  required "id" (String_ 36); Unique ["id"];
  required "actor_id" (String_ 36);
  required "principal_id" (String_ 36);
  required "event_type" (String_ 200);
  required "object_id" (String_ 200);
  required "correlation_id" (String_ 36);
  required "reason" (String_ 1000);
  required "created_at" DateTime].
Definition breakglass_alerts : table := Table "breakglass_alerts" [
  required "id" (String_ 36); Unique ["id"];
  required "authorization_id" (String_ 36);
  required "principal_id" (String_ 36);
  required "ticket" (String_ 300);
  required "event_type" (String_ 200);
  required "created_at" DateTime;
  optional "acknowledged_by" (String_ 36);
  optional "acknowledged_at" DateTime].

Definition capability_packs : table := tenant_table "capability_packs" [
  required "pack_id" (String_ 200);
  required "version" (String_ 64);
  required "manifest" JSON;
  defaulted "enabled" Boolean (JBool true);
  optional "artifact_digest" (String_ 64);
  optional "signature" Text;
  optional "sbom_ref" (String_ 500);
  optional "sbom_digest" (String_ 64);
  defaulted "revoked" Boolean (JBool false);
  optional "revoked_reason" (String_ 1000);
  Unique ["tenant_id"; "pack_id"; "version"]].
Definition capability_pack_channels : table := tenant_table "capability_pack_channels" [
  required "pack_id" (String_ 200);
  required "stable_version" (String_ 64);
  required "updated_by" (String_ 36);
  Unique ["tenant_id"; "pack_id"]].
Definition agent_versions : table := tenant_table "agent_versions" [
  required "agent_id" (String_ 36);
  required "name" (String_ 120);
  required "version" Integer;
  required "stage" (String_ 32);
  required "definition" JSON;
  Unique ["tenant_id"; "agent_id"; "version"];
  Unique ["tenant_id"; "name"; "version"];
  stage_check ["candidate"; "stable"; "retired"]].
Definition skill_versions : table := tenant_table "skill_versions" [
  required "skill_id" (String_ 200);
  required "version" (String_ 64);
  required "definition" JSON;
  Unique ["tenant_id"; "skill_id"; "version"]].
Definition tool_versions : table := tenant_table "tool_versions" [
  required "tool_id" (String_ 200);
  required "version" (String_ 64);
  required "definition" JSON;
  Unique ["tenant_id"; "tool_id"; "version"]].
Definition policy_versions : table := tenant_table "policy_versions" [
  required "policy_id" (String_ 200);
  required "version" (String_ 64);
  required "definition" JSON;
  Unique ["tenant_id"; "policy_id"; "version"]].
Definition budgets : table := tenant_table "budgets" [
  required "budget_id" (String_ 200);
  required "version" (String_ 64);
  required "definition" JSON;
  Unique ["tenant_id"; "budget_id"; "version"]].
Definition goals : table := tenant_table "goals" [
  required "goal_type" (String_ 200);
  required "owner_id" (String_ 36);
  required "status" (String_ 32);
  required "contract" JSON;
  status_check ["draft"; "active"; "paused"; "satisfied"; "failed"; "cancelled"]].
Definition runs : table := tenant_table "runs" [
  required "goal_id" (String_ 36);
  required "agent_version_id" (String_ 36);
  required "status" (String_ 32);
  optional "temporal_workflow_id" (String_ 200);
  required "definition" JSON;
  tenant_reference "goal_id" "goals";
  Unique ["tenant_id"; "temporal_workflow_id"];
  status_check ["pending"; "running"; "blocked"; "awaiting_evidence"; "succeeded"; "failed";
    "cancelled"]].
Definition plans : table := tenant_table "plans" [
  required "goal_id" (String_ 36);
  required "run_id" (String_ 36);
  required "version" Integer;
  required "definition" JSON;
  tenant_reference "goal_id" "goals";
  tenant_reference "run_id" "runs";
  Unique ["tenant_id"; "run_id"; "version"]].
Definition tasks : table := tenant_table "tasks" [
  required "run_id" (String_ 36);
  required "plan_id" (String_ 36);
  required "status" (String_ 32);
  required "definition" JSON;
  tenant_reference "run_id" "runs";
  tenant_reference "plan_id" "plans";
  status_check ["pending"; "ready"; "running"; "blocked"; "succeeded"; "failed"]].
Definition actions : table := tenant_table "actions" [
  required "run_id" (String_ 36);
  required "task_id" (String_ 36);
  required "status" (String_ 32);
  required "idempotency_key" (String_ 300);
  required "action_digest" (String_ 64);
  required "definition" JSON;
  tenant_reference "run_id" "runs";
  tenant_reference "task_id" "tasks";
  Unique ["tenant_id"; "idempotency_key"];
  Unique ["tenant_id"; "run_id"; "id"];
  status_check ["proposed"; "awaiting_approval"; "authorized"; "executing"; "succeeded"; "failed";
    "denied"; "unknown"]].
Definition action_attempts : table := tenant_table "action_attempts" [
  required "run_id" (String_ 36);
  required "action_id" (String_ 36);
  required "invocation_id" (String_ 36);
  required "status" (String_ 32);
  required "idempotency_key" (String_ 300);
  required "receipt_ref" (String_ 1000);
  required "definition" JSON;
  tenant_reference "run_id" "runs";
  tenant_reference "action_id" "actions";
  Reference ["tenant_id"; "run_id"; "action_id"] "actions" ["tenant_id"; "run_id"; "id"];
  Unique ["tenant_id"; "invocation_id"; "status"];
  Unique ["tenant_id"; "idempotency_key"];
  status_check ["started"; "succeeded"; "failed"; "unknown"]].
Definition approvals : table := tenant_table "approvals" [
  required "run_id" (String_ 36);
  required "action_id" (String_ 36);
  required "status" (String_ 32);
  required "action_digest" (String_ 64);
  required "expires_at" DateTime;
  required "definition" JSON;
  tenant_reference "run_id" "runs";
  tenant_reference "action_id" "actions";
  Reference ["tenant_id"; "run_id"; "action_id"] "actions" ["tenant_id"; "run_id"; "id"];
  status_check ["pending"; "approved"; "rejected"; "expired"]].
Definition context_snapshots : table := tenant_table "context_snapshots" [
  required "goal_id" (String_ 36);
  required "run_id" (String_ 36);
  required "payload" JSON;
  required "content_digest" (String_ 64);
  tenant_reference "goal_id" "goals";
  tenant_reference "run_id" "runs";
  Unique ["tenant_id"; "run_id"]].
Definition evidence : table := tenant_table "evidence" [
  required "run_id" (String_ 36);
  required "action_id" (String_ 36);
  required "source" (String_ 300);
  required "source_identity" (String_ 300);
  required "capture_method" (String_ 64);
  required "artifact_uri" (String_ 1000);
  required "content_digest" (String_ 64);
  required "classification" (String_ 32);
  required "valid_from" DateTime;
  required "valid_until" DateTime;
  required "integrity" (String_ 32);
  required "definition" JSON;
  tenant_reference "run_id" "runs";
  tenant_reference "action_id" "actions";
  Reference ["tenant_id"; "run_id"; "action_id"] "actions" ["tenant_id"; "run_id"; "id"];
  Checked (length_is "content_digest" 64);
  Checked (ordered "valid_from" "valid_until")].
Definition evidence_capture_sagas : table := tenant_table "evidence_capture_sagas" [
  required "evidence_id" (String_ 36);
  required "run_id" (String_ 36);
  required "action_id" (String_ 36);
  required "criterion_id" (String_ 200);
  required "source" (String_ 300);
  required "artifact_uri" (String_ 1000);
  required "expected_digest" (String_ 64);
  required "status" (String_ 32);
  required "definition" JSON;
  optional "failure_reason" (String_ 1000);
  tenant_reference "run_id" "runs";
  tenant_reference "action_id" "actions";
  Unique ["tenant_id"; "evidence_id"];
  Checked (length_is "expected_digest" 64);
  status_check ["pending"; "committed"; "failed"]].
Definition evidence_deletions : table := tenant_table "evidence_deletions" [
  required "evidence_id" (String_ 36);
  required "artifact_uri" (String_ 1000);
  required "requested_by" (String_ 36);
  required "reason" (String_ 1000);
  required "requested_at" DateTime;
  required "status" (String_ 32);
  optional "deleted_at" DateTime;
  optional "provider_version_id" (String_ 300);
  optional "proof_digest" (String_ 64);
  optional "failure_reason" (String_ 1000);
  tenant_reference "evidence_id" "evidence";
  Unique ["tenant_id"; "evidence_id"];
  Checked (length_is "proof_digest" 64);
  status_check ["requested"; "retention_blocked"; "deleted"; "failed"]].
Definition outcomes : table := tenant_table "outcomes" [
  required "goal_id" (String_ 36);
  required "run_id" (String_ 36);
  required "criterion_id" (String_ 200);
  required "verifier_version" (String_ 200);
  required "status" (String_ 32);
  required "result" JSON;
  tenant_reference "goal_id" "goals";
  tenant_reference "run_id" "runs";
  Unique ["tenant_id"; "run_id"; "criterion_id"];
  status_check ["verified"; "not_met"; "unknown"]].
Definition budget_ledger : table := tenant_table "budget_ledger" [
  required "run_id" (String_ 36);
  required "category" (String_ 64);
  required "amount" BigInteger;
  required "unit" (String_ 32);
  required "reference" (String_ 300);
  tenant_reference "run_id" "runs";
  Unique ["tenant_id"; "run_id"; "reference"];
  Checked (int_check "amount" (fun n => 0 <? n))].
Definition evaluation_trials : table := tenant_table "evaluation_trials" [
  required "suite_id" (String_ 200);
  required "suite_version" (String_ 64);
  required "subject_version_id" (String_ 36);
  required "harness_version" (String_ 200);
  optional "candidate_id" (String_ 36);
  required "status" (String_ 32);
  required "result" JSON;
  tenant_reference "candidate_id" "candidates";
  status_check ["pending"; "running"; "passed"; "failed"; "invalid"]].
Definition evaluation_suites : table := tenant_table "evaluation_suites" [
  required "suite_id" (String_ 200);
  required "version" (String_ 64);
  required "definition" JSON;
  Unique ["tenant_id"; "suite_id"; "version"]].
Definition deployment_observations : table := tenant_table "deployment_observations" [
  required "deployment_id" (String_ 36);
  required "stage" (String_ 32);
  required "metric" (String_ 300);
  required "sample_count" Integer;
  required "breach_count" Integer;
  optional "last_value" Float;
  optional "first_sample_at" DateTime;
  optional "last_sample_at" DateTime;
  tenant_reference "deployment_id" "deployments";
  Unique ["tenant_id"; "deployment_id"; "stage"; "metric"];
  Checked (one_of "stage" ["shadow"; "canary"; "stable"; "failed"; "rolled_back"])].
Definition shadow_comparisons : table := tenant_table "shadow_comparisons" [
  required "deployment_id" (String_ 36);
  required "request_ref" (String_ 500);
  required "stable_version_id" (String_ 36);
  required "candidate_version_id" (String_ 36);
  required "stable_measurements" JSON;
  required "candidate_measurements" JSON;
  required "observed_at" DateTime;
  tenant_reference "deployment_id" "deployments";
  Unique ["tenant_id"; "deployment_id"; "request_ref"]].
Definition candidate_evaluations : table := tenant_table "candidate_evaluations" [
  required "candidate_id" (String_ 36);
  required "decision" (String_ 32);
  required "trial_ids" JSON;
  required "assessment" JSON;
  required "grader_principal_id" (String_ 300);
  tenant_reference "candidate_id" "candidates";
  Checked (one_of "decision" ["met"; "not_met"; "insufficient_sample"])].
Definition environment_facts : table := tenant_table "environment_facts" [
  required "fact_key" (String_ 300);
  required "subject" (String_ 500);
  required "source" (String_ 500);
  required "source_authority" (String_ 500);
  required "classification" (String_ 32);
  required "freshness_policy" (String_ 32);
  required "observed_at" DateTime;
  required "valid_until" DateTime;
  required "value" JSON;
  required "acl" JSON].
Definition memory_records : table := tenant_table "memory_records" [
  required "scope" (String_ 300);
  required "content" Text;
  required "provenance" JSON;
  required "confidence" Float;
  required "expires_at" DateTime;
  required "approved_by" (String_ 36);
  required "status" (String_ 32);
  required "definition" JSON;
  optional "deleted_at" DateTime;
  Checked (float_check "confidence" (fun x => fle (of_int 0) x && fle x (of_int 1)));
  status_check ["proposed"; "stable"; "deleted"]].
Definition memory_ledger : table := tenant_table "memory_ledger" [
  required "memory_id" (String_ 36);
  required "kind" (String_ 32);
  required "actor_id" (String_ 36);
  required "metadata" JSON;
  Checked (one_of "kind" ["write"; "merge"; "delete"])].
Definition memory_deletion_edges : table := tenant_table "memory_deletion_edges" [
  required "parent_memory_id" (String_ 36);
  required "child_memory_id" (String_ 36);
  Unique ["tenant_id"; "parent_memory_id"; "child_memory_id"]].
Definition vector_index_projections : table := tenant_table "vector_index_projections" [
  required "memory_id" (String_ 36);
  required "content_digest" (String_ 64);
  required "index_version" (String_ 200);
  Unique ["tenant_id"; "memory_id"]].
Definition telemetry_records : table := tenant_table "telemetry_records" [
  required "signal_type" (String_ 32);
  required "trace_id" (String_ 64);
  required "payload" JSON;
  required "occurred_at" DateTime;
  Checked (one_of "signal_type" ["trace"; "log"; "metric"])].
Definition tenant_resource_namespaces : table := tenant_table "tenant_resource_namespaces" [
  required "resource_kind" (String_ 32);
  required "logical_name" (String_ 200);
  required "physical_namespace" (String_ 500);
  Unique ["tenant_id"; "resource_kind"; "logical_name"];
  Unique ["resource_kind"; "physical_namespace"];
  Checked (one_of "resource_kind" ["object"; "cache"; "search"; "vector"; "topic"; "workflow";
    "telemetry"; "evaluation_dataset"; "audit_export"])].
Definition improvement_proposals : table := tenant_table "improvement_proposals" [
  required "target_type" (String_ 64);
  required "target_version_id" (String_ 36);
  required "proposal" JSON].
Definition candidates : table := tenant_table "candidates" [
  required "proposal_id" (String_ 36);
  required "baseline_version_id" (String_ 36);
  required "status" (String_ 32);
  required "artifact_uri" (String_ 1000);
  required "artifact_digest" (String_ 64);
  required "suite_id" (String_ 200);
  required "suite_version" (String_ 64);
  required "generator_id" (String_ 300);
  required "definition" JSON;
  tenant_reference "proposal_id" "improvement_proposals";
  Unique ["tenant_id"; "proposal_id"; "artifact_uri"];
  status_check ["draft"; "evaluating"; "awaiting_approval"; "approved"; "rejected"]].
Definition deployments : table := tenant_table "deployments" [
  required "candidate_id" (String_ 36);
  required "status" (String_ 32);
  required "definition" JSON;
  tenant_reference "candidate_id" "candidates";
  status_check ["shadow"; "canary"; "stable"; "failed"; "rolled_back"]].
(** The condition [active] of the index [uq_releases_active_stable_slot] *)
Definition is_active (r : row) : bool := bool_decide (col "active" r = Cell (JBool true)).
Definition releases : table := tenant_table "releases" [
  required "candidate_id" (String_ 36);
  required "deployment_id" (String_ 36);
  required "stable_slot" (String_ 200);
  required "stable_version_id" (String_ 36);
  required "previous_stable_version_id" (String_ 36);
  required "approved_by" (String_ 36);
  defaulted "active" Boolean (JBool true);
  required "definition" JSON;
  tenant_reference "candidate_id" "candidates";
  tenant_reference "deployment_id" "deployments";
  UniqueWhere ["tenant_id"; "stable_slot"] is_active].
Definition audit_events : table := tenant_table "audit_events" [
  required "actor_id" (String_ 36);
  required "principal_id" (String_ 36);
  required "event_type" (String_ 200);
  required "object_type" (String_ 100);
  required "object_id" (String_ 200);
  required "correlation_id" (String_ 36);
  required "details" JSON;
  optional "sequence" BigInteger;
  optional "previous_digest" (String_ 64);
  optional "event_digest" (String_ 64);
  Unique ["tenant_id"; "sequence"];
  Unique ["tenant_id"; "event_digest"]].
Definition kill_switches : table := tenant_table "kill_switches" [
  required "dimension" (String_ 32);
  required "target" (String_ 300);
  required "reason" (String_ 1000);
  required "activated_by" (String_ 300);
  optional "deactivated_at" DateTime].
Definition outbox : table := tenant_table "outbox" [
  required "schema" (String_ 200);
  required "payload" JSON;
  optional "published_at" DateTime].
Definition inbox : table := tenant_table "inbox" [
  required "message_id" (String_ 36);
  required "processed_at" DateTime;
  Unique ["tenant_id"; "message_id"]].
Definition idempotency_records : table := tenant_table "idempotency_records" [
  optional "run_id" (String_ 36);
  optional "action_id" (String_ 36);
  optional "tool_name" (String_ 200);
  optional "tool_version" (String_ 64);
  required "idempotency_key" (String_ 300);
  required "request_digest" (String_ 64);
  optional "cost_units" BigInteger;
  optional "external_id" (String_ 300);
  required "status" (String_ 32);
  optional "response" JSON;
  Unique ["tenant_id"; "idempotency_key"];
  status_check ["pending"; "accepted"; "completed"; "failed"; "unknown"]].

(** [metadata]: the tables of the schema. *)
Definition schema : list table := [
  tenants; platform_kill_switches; platform_audit_events; breakglass_alerts; capability_packs;
  capability_pack_channels; agent_versions; skill_versions; tool_versions; policy_versions;
  budgets; goals; runs; plans; tasks; actions; action_attempts; approvals; context_snapshots;
  evidence; evidence_capture_sagas; evidence_deletions; outcomes; budget_ledger;
  evaluation_trials; evaluation_suites; deployment_observations; shadow_comparisons;
  candidate_evaluations; environment_facts; memory_records; memory_ledger;
  memory_deletion_edges; vector_index_projections; telemetry_records;
  tenant_resource_namespaces; improvement_proposals; candidates; deployments; releases;
  audit_events; kill_switches; outbox; inbox; idempotency_records].

End Tables.
