(* ===== verification/Database.v ===== *)
(** * The database behind the repositories, and sessions over it

    The relational database and SQLAlchemy are not part of the repository, so
    they are an interface here.  [Database] lists the statements the adapters
    execute; [DatabaseLaws] states what a relational database (PostgreSQL, the
    authoritative one) documents about them: an accepted statement changes the
    content of its table as it says and nothing else, the content always
    satisfies the declared constraints, and a statement that fits the column
    types and keeps the constraints is accepted.  No law says in which order
    rows come back: contents are compared up to permutation.

    A [session] is a connection with the transaction the application may have
    opened on it ([_TransactionAwareSessions]).  Transactions are serial. *)

From S2P Require Import Prelude PyStr PyDict PyFloat Json Rows Schema Effects.
From Stdlib Require Import ZArith.

Open Scope string_scope.
Open Scope list_scope.
Open Scope Z_scope.

Definition IntegrityError : exn_kind := OtherError "IntegrityError".
Definition DataError : exn_kind := OtherError "DataError".

(** ** Contents *)

(** Two databases have the same rows. *)
Definition same_rows (c c' : content) : Prop := ∀ n, c n ≡ₚ c' n.

(** [f] on the rows of [t]. *)
Definition on (t : table) (f : list row → list row) (c : content) : content :=
  fun n => if bool_decide (n = table_name t) then f (c n) else c n.

Definition add_row (t : table) (r : row) : content → content := on t (cons r).
Definition revise (t : table) (p : row → bool) (f : row → row) : content → content :=
  on t (List.map (fun r => if p r then f r else r)).
Definition remove (t : table) (p : row → bool) : content → content :=
  on t (List.filter (fun r => negb (p r))).

Definition consistent (c : content) : bool := all (table_holds c) Tables.schema.
Arguments consistent : simpl never.

(** The value of a column is of its type and size. *)
Definition fits_type (type : column_type) (v : cell) : bool :=
  match type, v with
  | _, Cell JNull => true
  | String_ n, Cell (JStr s) => len s <=? n
  | Text, Cell (JStr _) | JSON, Cell _ | Boolean, Cell (JBool _) => true
  | DateTime, TimeCell (Aware _) | Float, Cell (JFloat _) => true
  | Integer, Cell (JInt n) => (-2147483648 <=? n) && (n <=? 2147483647)
  | BigInteger, Cell (JInt n) => (-9223372036854775808 <=? n) && (n <=? 9223372036854775807)
  | _, _ => false
  end.

Definition fits (t : table) (r : row) : bool :=
  all (fun c => fits_type (Column.type c) (col (Column.name c) r)) (columns t).
Arguments fits : simpl never.

(** ** The interface *)

Class Database (DB : Type) := {
  rows_of : DB → content;
  (** [insert(t).values( **values)] *)
  insert_into : table → row → DB → res DB;
  (** [update(t).where(p).values(...)], and its [rowcount] *)
  update_where : table → (row → bool) → (row → row) → DB → res (DB * Z);
  (** [delete(t).where(p)] *)
  delete_where : table → (row → bool) → DB → res DB;
  (** [select(t).where(p)] *)
  select_where : table → (row → bool) → DB → list row
}.

Class DatabaseLaws (DB : Type) `{Database DB} : Prop := {
  database_consistent : ∀ d, consistent (rows_of d) = true;
  insert_into_ok : ∀ t v d d', insert_into t v d = Ok d' →
    same_rows (rows_of d') (add_row t (complete t v) (rows_of d));
  insert_into_accepts : ∀ t v d, fits t (complete t v) = true →
    consistent (add_row t (complete t v) (rows_of d)) = true →
    ∃ d', insert_into t v d = Ok d';
  insert_into_refuses : ∀ t v d x, insert_into t v d = Err x →
    exn_class x = IntegrityError ∨ exn_class x = DataError;
  update_where_ok : ∀ t p f d d' n, update_where t p f d = Ok (d', n) →
    same_rows (rows_of d') (revise t p f (rows_of d)) ∧
    n = Z.of_nat (length (List.filter p (rows_of d (table_name t))));
  update_where_accepts : ∀ t p f d,
    (∀ r, r ∈ rows_of d (table_name t) → p r = true → fits t (f r) = true) →
    consistent (revise t p f (rows_of d)) = true →
    ∃ d' n, update_where t p f d = Ok (d', n);
  delete_where_ok : ∀ t p d d', delete_where t p d = Ok d' →
    same_rows (rows_of d') (remove t p (rows_of d));
  select_where_rows : ∀ t p d,
    select_where t p d ≡ₚ List.filter p (rows_of d (table_name t))
}.

(** ** Sessions *)

Record session (DB : Type) := Session { database : DB; current : bool }.
Arguments Session {DB} database current.
Arguments database {DB} _.
Arguments current {DB} _.

Section sessions.
Context {DB : Type} `{Database DB}.
Notation MR := (M (session DB)).

Definition execute (f : DB → res DB) : MR unit :=
  s ← get; d ← lift (f (database s)); put (Session d (current s)).

Definition insert (t : table) (values : row) : MR unit := execute (insert_into t values).
Definition delete (t : table) (p : row → bool) : MR unit := execute (delete_where t p).
Definition update (t : table) (p : row → bool) (f : row → row) : MR Z :=
  s ← get; dn ← lift (update_where t p f (database s));
  put (Session dn.1 (current s)) ;; mret dn.2.
Definition select (t : table) (p : row → bool) : MR (list row) :=
  s ← get; mret (select_where t p (database s)).

(** [self._sessions.begin()]: the open transaction of the application, or one
    of its own. *)
Definition begin {A} (m : MR A) : MR A :=
  s ← get; if current s then m else transaction m.

(** [transaction] *)
Definition transaction_ {A} (m : MR A) : MR A :=
  s ← get;
  throw_if (current s) RuntimeError "nested Application transactions are not supported" ;;
  transaction (put (Session (database s) true) ;;
               a ← m;
               s' ← get; put (Session (database s') false) ;;
               mret a).
End sessions.

(** ** Results *)

(** [.one_or_none()], [.first()], [.one()] *)
Definition one_or_none {A} (rows : list A) : res (option A) :=
  match rows with
  | [] => Ok None
  | [r] => Ok (Some r)
  | _ => raise (OtherError "MultipleResultsFound") "Multiple rows were found when one or none was required"
  end.
Definition first (rows : list row) : option row := head rows.
Definition one (rows : list row) : res row :=
  r ← one_or_none rows;
  match r with
  | Some r => Ok r
  | None => raise (OtherError "NoResultFound") "No row was found when one was required"
  end.

(** [t.c.k == v] for each of [l] *)
Definition matches (l : row) (r : row) : bool :=
  all (fun kv => bool_decide (col kv.1 r = kv.2)) l.

(** ** Laws of contents *)

#[export] Instance same_rows_equivalence : Equivalence same_rows.
Proof.
  split; [by intros c n|by intros c c' H n|]. intros c1 c2 c3 H1 H2 n. by rewrite (H1 n).
Qed.

Lemma on_at t f c : on t f c (table_name t) = f (c (table_name t)).
Proof. unfold on. by rewrite bool_decide_eq_true_2. Qed.

Lemma on_other t f c n : n ≠ table_name t → on t f c n = c n.
Proof. unfold on. intros H. by rewrite bool_decide_eq_false_2. Qed.

Lemma filter_permutation (p : row → bool) l l' : l ≡ₚ l' → List.filter p l ≡ₚ List.filter p l'.
Proof.
  induction 1 as [|x l l' _ IH|x y l|l1 l2 l3 _ IH1 _ IH2]; cbn; [done| |..].
  - destruct (p x); by rewrite IH.
  - destruct (p x), (p y); try done. apply Permutation_swap.
  - by rewrite IH1.
Qed.

Lemma all_ext {A} (p q : A → bool) l : (∀ x, p x = q x) → all p l = all q l.
Proof. intros E. induction l as [|x l IH]; [done|]. unfold all in *. cbn. by rewrite E, IH. Qed.

Lemma all_permutation {A} (p : A → bool) l l' : l ≡ₚ l' → all p l = all p l'.
Proof.
  intros E. apply eq_true_iff_eq. rewrite !all_true. by setoid_rewrite E.
Qed.

Lemma keys_of_permutation ks l l' : l ≡ₚ l' → keys_of ks l ≡ₚ keys_of ks l'.
Proof. intros E. unfold keys_of. by rewrite (filter_permutation _ _ _ E). Qed.

Lemma unique_permutation {A} `{EqDecision A} (l l' : list A) : l ≡ₚ l' → unique l = unique l'.
Proof. intros E. apply bool_decide_ext. by rewrite E. Qed.

#[export] Instance table_holds_proper : Proper (same_rows ==> eq ==> eq) table_holds.
Proof.
  intros c c' E t _ <-. unfold table_holds. generalize (items t). intros l.
  induction l as [|i l IH]; [done|]. cbn. f_equal; [|exact IH].
  destruct i as [k|ks|ks p|ks target keys|p]; cbn.
  - f_equal. apply all_permutation, E.
  - apply unique_permutation, keys_of_permutation, E.
  - apply unique_permutation, keys_of_permutation, filter_permutation, E.
  - etransitivity; [apply all_permutation, E|]. apply all_ext. intros r.
    f_equal. apply bool_decide_ext. by rewrite (E target).
  - apply all_permutation, E.
Qed.

#[export] Instance consistent_proper : Proper (same_rows ==> eq) consistent.
Proof. intros c c' E. apply all_ext. intros t. by rewrite E. Qed.

#[export] Instance on_proper t f : Proper ((≡ₚ) ==> (≡ₚ)) f → Proper (same_rows ==> same_rows) (on t f).
Proof. intros Hf c c' E n. unfold on. case_bool_decide; [by rewrite (E n)|apply E]. Qed.

(** ** A concrete database

    The rows of each table in insertion order; a statement is refused when it
    does not fit the types or breaks a constraint. *)
Module MemoryDatabase.
Record t := mk { content_of : content; holds : consistent content_of = true }.

Lemma empty_consistent : consistent (fun _ => []) = true.
Proof. vm_compute. reflexivity. Qed.
Definition empty : t := mk (fun _ => []) empty_consistent.

Definition commit (c : content) : res t :=
  match decide (consistent c = true) with
  | left H => Ok (mk c H)
  | right _ => raise IntegrityError "constraint failed"
  end.

#[global] Instance memory_database : Database t := {|
  rows_of := content_of;
  insert_into tb v d :=
    raise_if (negb (fits tb (complete tb v))) DataError "value does not fit" ;;
    commit (add_row tb (complete tb v) (content_of d));
  update_where tb p f d :=
    let hit := List.filter p (content_of d (table_name tb)) in
    raise_if (negb (all (fun r => fits tb (f r)) hit)) DataError "value does not fit" ;;
    d' ← commit (revise tb p f (content_of d));
    Ok (d', Z.of_nat (length hit));
  delete_where tb p d := commit (remove tb p (content_of d));
  select_where tb p d := List.filter p (content_of d (table_name tb))
|}.

Lemma commit_ok c d : commit c = Ok d → content_of d = c.
Proof. unfold commit. case_decide; by intros [= <-]. Qed.
Lemma commit_accepts c : consistent c = true → ∃ d, commit c = Ok d.
Proof. unfold commit. case_decide; [eauto|done]. Qed.

#[global] Instance memory_database_laws : DatabaseLaws t.
Proof.
  split; cbn.
  - intros d. apply holds.
  - intros tb v d d' H. inv_ok. by rewrite (commit_ok _ _ H).
  - intros tb v d Hf Hc. rewrite Hf. cbn. by apply commit_accepts.
  - intros tb v d x [[_ ->]%raise_if_err|(? & _ & H)]%bind_err; [by right|].
    unfold commit in H. case_decide; [done|]. injection H as <-. by left.
  - intros tb p f d d' n H. inv_ok. apply commit_ok in Hx0. by rewrite Hx0.
  - intros tb p f d Hf Hc. destruct (commit_accepts _ Hc) as [d' Hd]. rewrite Hd.
    replace (all _ _) with true; [by eexists _, _|]. symmetry. apply all_true.
    intros r [Hr Hp]%elem_of_list_filter. by apply Hf.
  - intros tb p d d' H. by rewrite (commit_ok _ _ H).
  - done.
Qed.
End MemoryDatabase.
