(* ===== verification/RepositoryCore.v ===== *)
(** * packages/adapters: persistence.py, what the operations share

    Reading and writing rows, the audit chain and the outbox that every write
    appends to.  A reading of the clock, an identifier and a statement happen
    in the order of the source.

    [_scope_tenant] and the advisory lock of [_add_audit] change no row (the
    first names the tenant to the row-level security of the database, the
    second orders transactions) and are left out, as are the tracing spans. *)

From stdpp Require Import sorting.
From S2P Require Import Prelude PyStr PyDict PyFloat Json Uuids Calendar Transitions AuditChain.
From S2P Require Import Rows Codec Inserts Schema Effects Database.
From Stdlib Require Import ZArith.

Import Tables.
Open Scope string_scope.
Open Scope list_scope.
Open Scope Z_scope.

(** ** Ordering *)

Definition int_of (c : cell) : Z := match c with Cell (JInt n) => n | _ => 0 end.
Definition str_of (c : cell) : string := match c with Cell (JStr s) => s | _ => "" end.
Definition time_of (c : cell) : Z :=
  match c with TimeCell (Aware n) | TimeCell (Naive n) => n | _ => 0 end.

Definition is_null (k : string) (r : row) : bool := bool_decide (col k r = NULL).

(** [.order_by(...)]; rows that compare equal come in the order of the list. *)
Definition order_by (le : row → row → bool) (rows : list row) : list row :=
  @merge_sort _ (fun a b => le a b = true) (fun a b => decide (le a b = true)) rows.

(** [sequence.desc()] and [sequence.asc().nulls_first()] *)
Definition sequence_desc (a b : row) : bool := int_of (col "sequence" b) <=? int_of (col "sequence" a).
Definition sequence_asc (a b : row) : bool :=
  is_null "sequence" a ||
  (negb (is_null "sequence" b) && (int_of (col "sequence" a) <=? int_of (col "sequence" b))).
Definition created_asc (a b : row) : bool := time_of (col "created_at" a) <=? time_of (col "created_at" b).

(** ** Audit events *)

Definition c_opt {A} (f : A → json) (o : option A) : cell := Cell (j_opt f o).

Definition audit_values (chained : AuditEvent.t) (created_at : datetime) : row := [
  ("id", c_uuid (AuditEvent.event_id chained));
  ("tenant_id", c_uuid (AuditEvent.tenant_id chained));
  ("actor_id", c_uuid (AuditEvent.actor_id chained));
  ("principal_id", c_uuid (AuditEvent.principal_id chained));
  ("event_type", c_str (AuditEvent.event_type chained));
  ("object_type", c_str (AuditEvent.object_type chained));
  ("object_id", c_str (AuditEvent.object_id chained));
  ("correlation_id", c_uuid (AuditEvent.correlation_id chained));
  ("details", c_object (AuditEvent.details chained));
  ("sequence", c_opt JInt (AuditEvent.sequence chained));
  ("previous_digest", c_opt JStr (AuditEvent.previous_digest chained));
  ("event_digest", c_opt JStr (AuditEvent.event_digest chained));
  ("optimistic_version", c_int 1);
  ("created_at", TimeCell created_at)].

Definition audit_from_row (row : row) : res AuditEvent.t :=
  tenant_id ← uuid_column row "tenant_id";
  actor_id ← uuid_column row "actor_id";
  principal_id ← uuid_column row "principal_id";
  event_type ← str_column row "event_type";
  object_type ← str_column row "object_type";
  object_id ← str_column row "object_id";
  correlation_id ← uuid_column row "correlation_id";
  details ← object_column row "details";
  event_id ← uuid_column row "id";
  sequence ← json_column row "sequence";
  sequence ← opt as_int sequence;
  previous_digest ← json_column row "previous_digest";
  previous_digest ← opt as_str previous_digest;
  event_digest ← json_column row "event_digest";
  event_digest ← opt as_str event_digest;
  created_at ← time_column row "created_at";
  Ok (AuditEvent.mk tenant_id actor_id principal_id event_type object_type object_id correlation_id
        details event_id sequence previous_digest event_digest (Some created_at)).

Definition outbox_values (fresh : uuid) (audit : AuditEvent.t) (created_at : datetime) : row := [
  ("id", c_uuid fresh);
  ("tenant_id", c_uuid (AuditEvent.tenant_id audit));
  ("schema", c_str ("autonoesis." +:+ AuditEvent.event_type audit +:+ ".v1"));
  ("payload", c_object [
     ("event_type", JStr (AuditEvent.event_type audit));
     ("object_type", JStr (AuditEvent.object_type audit));
     ("object_id", JStr (AuditEvent.object_id audit));
     ("correlation_id", j_uuid (AuditEvent.correlation_id audit));
     ("audit_ref", j_opt JStr (AuditEvent.audit_ref audit));
     ("audit_sequence", j_opt JInt (AuditEvent.sequence audit));
     ("audit_digest", j_opt JStr (AuditEvent.event_digest audit));
     ("details", JDict (AuditEvent.details audit))]);
  ("optimistic_version", c_int 1);
  ("created_at", TimeCell created_at)].

(** The event of a fact the repository records about itself. *)
Definition fact_event (tenant_id actor : uuid) (event_type object_type : string)
    (object_id correlation_id event_id : uuid) (details : object) : AuditEvent.t :=
  AuditEvent.mk tenant_id actor actor event_type object_type (uuid_str object_id) correlation_id
    details event_id None None None None.

Section repository.
Context {DB : Type} `{Database DB}.
Notation MR := (M (session DB)).

Definition chained_rows (tenant_id : uuid) (r : row) : bool :=
  matches [("tenant_id", c_uuid tenant_id)] r && negb (is_null "sequence" r) &&
  negb (is_null "event_digest" r).

Definition add_audit (audit : AuditEvent.t) (created_at : datetime) : MR AuditEvent.t :=
  rows ← select audit_events (chained_rows (AuditEvent.tenant_id audit));
  previous ← lift (one_or_none (take 1 (order_by sequence_desc rows)));
  sequence ← lift match previous with
                  | Some row => n ← int_column row "sequence"; Ok (n + 1)
                  | None => Ok 1
                  end;
  previous_digest ← lift match previous with
                         | Some row => str_column row "event_digest"
                         | None => Ok genesis
                         end;
  chained ← lift (AuditEvent.chained audit sequence previous_digest created_at);
  insert audit_events (audit_values chained created_at) ;;
  mret chained.

Definition add_outbox (audit : AuditEvent.t) (created_at : datetime) : MR unit :=
  fresh ← uuid4;
  insert outbox (outbox_values fresh audit created_at).

Definition add_audit_and_outbox (audit : AuditEvent.t) (created_at : datetime) : MR AuditEvent.t :=
  chained ← add_audit audit created_at;
  add_outbox chained created_at ;;
  mret chained.

(** [actor_id or UUID(int=0)] and [details or {"version": version}] *)
Definition record_fact (tenant_id : uuid) (event_type object_type : string) (object_id : uuid)
    (version : Z) (created_at : datetime) (actor_id : option uuid) (details : option object)
    : MR unit :=
  correlation_id ← uuid4;
  event_id ← uuid4;
  add_audit_and_outbox
    (fact_event tenant_id (default 0%N actor_id) event_type object_type object_id correlation_id
       event_id (default [("version", JInt version)] details)) created_at ;;
  mret tt.

(** Without the keyword arguments. *)
Definition record (tenant_id : uuid) (event_type object_type : string) (object_id : uuid)
    (version : Z) (created_at : datetime) : MR unit :=
  record_fact tenant_id event_type object_type object_id version created_at None None.

Definition record_audit (audit : AuditEvent.t) : MR unit :=
  t ← now; begin (add_audit_and_outbox audit t ;; mret tt).

Definition list_audit_events (tenant_id : uuid) : MR (list AuditEvent.t) :=
  rows ← select audit_events (matches [("tenant_id", c_uuid tenant_id)]);
  lift (mapM_res audit_from_row (order_by sequence_asc rows)).

(** ** Rows *)

Definition row_of (object_id tenant_id : uuid) : row → bool :=
  matches [("id", c_uuid object_id); ("tenant_id", c_uuid tenant_id)].
Definition of_tenant (tenant_id : uuid) : row → bool := matches [("tenant_id", c_uuid tenant_id)].

(** The row of a select that must find one, or [RecordNotFound]. *)
Definition select_one (t : table) (p : row → bool) (missing : string) : MR row :=
  rows ← select t p;
  row ← lift (one_or_none rows);
  match row with
  | Some row => mret row
  | None => throw RecordNotFound missing
  end.

Definition get_row_in_session (t : table) (tenant_id object_id : uuid) : MR row :=
  select_one t (row_of object_id tenant_id)
    (table_name t +:+ " " +:+ uuid_str object_id +:+ " was not found").
Definition get_row := get_row_in_session.

Definition list_rows (t : table) (tenant_id : uuid) : MR (list row) := select t (of_tenant tenant_id).

(** The rows of an update that [_save_versioned] and the saves of goals, runs
    and tasks aim at. *)
Definition versioned (object_id tenant_id : uuid) (expected_version : Z) : row → bool :=
  matches [("id", c_uuid object_id); ("tenant_id", c_uuid tenant_id);
           ("optimistic_version", c_int expected_version)].

Definition update_versioned (t : table) (tenant_id object_id : uuid) (expected_version : Z)
    (values : row) (object_type : string) : MR unit :=
  rowcount ← update t (versioned object_id tenant_id expected_version) (assign values);
  throw_if (negb (rowcount =? 1)) ConcurrencyConflict (object_type +:+ " optimistic version changed").

Definition save_versioned (t : table) (tenant_id object_id : uuid) (expected_version new_version : Z)
    (values : row) (object_type : string) : MR unit :=
  time ← now;
  begin (
    update_versioned t tenant_id object_id expected_version
      (values ++ [("optimistic_version", c_int new_version); ("updated_at", TimeCell time)])
      object_type ;;
    record tenant_id (object_type +:+ ".updated") object_type object_id new_version time).

(** ** Configuration assets *)

Definition config_values (record_id : uuid) (tenant_id : uuid) (id_column asset_id version : string)
    (definition : object) (t : datetime) : row := [
  ("id", c_uuid record_id);
  ("tenant_id", c_uuid tenant_id);
  (id_column, c_str asset_id);
  ("version", c_str version);
  ("definition", c_object definition);
  ("optimistic_version", c_int 1);
  ("created_at", TimeCell t)].

Definition add_config_asset (tb : table) (id_column : string) (tenant_id : uuid) (asset_id : string)
    (definition : object) : MR object :=
  let version := py_str (get_or definition "version" (JStr "1")) in
  record_id ← uuid4;
  t ← now;
  begin (
    insert tb (config_values record_id tenant_id id_column asset_id version definition t) ;;
    record tenant_id (table_name tb +:+ ".created") (table_name tb) record_id 1 t) ;;
  mret [("asset_id", JStr asset_id); ("tenant_id", j_uuid tenant_id);
        ("version", JStr version); ("definition", JDict definition)].

Definition config_from_row (id_column : string) (row : row) : res object :=
  asset_id ← json_column row id_column;
  tenant_id ← json_column row "tenant_id";
  version ← json_column row "version";
  definition ← json_column row "definition";
  Ok [("asset_id", asset_id); ("tenant_id", tenant_id); ("version", version);
      ("definition", definition)].

Definition list_config_assets (tb : table) (id_column : string) (tenant_id : uuid)
    : MR (list object) :=
  rows ← list_rows tb tenant_id; lift (mapM_res (config_from_row id_column) rows).
End repository.
