(* ===== verification/RepositoryRuns.v ===== *)
(** * packages/adapters: persistence.py, packs to tasks

    The operations of [SqlAlchemyPlatformRepository] on capability packs,
    agents, configuration assets, goals, runs, context, memory, telemetry,
    namespaces, plans and tasks, each in its transaction. *)

From S2P Require Import Prelude PyStr PyDict PyFloat Json Calendar Transitions Values Goals.
From S2P Require Import Execution Identity ContextDomain Capability AuditChain Isolation Rows.
From S2P Require Import Codec Inserts Schema Effects Database RepositoryCore.
From Stdlib Require Import ZArith.

Import Tables.
Open Scope string_scope.
Open Scope list_scope.
Open Scope Z_scope.

Section repository.
Context {DB : Type} `{Database DB}.
Notation MR := (M (session DB)).

(** ** Capability packs *)

Definition pack_values (record_id tenant_id : uuid) (manifest : CapabilityPackManifest.t)
    (t : datetime) : row := [
  ("id", c_uuid record_id);
  ("tenant_id", c_uuid tenant_id);
  ("pack_id", c_str (CapabilityPackManifest.pack_id manifest));
  ("version", c_str (CapabilityPackManifest.version manifest));
  ("manifest", c_object (manifest_payload manifest));
  ("enabled", Cell (JBool true));
  ("artifact_digest", c_opt JStr (CapabilityPackManifest.artifact_digest manifest));
  ("signature", c_opt JStr (CapabilityPackManifest.signature manifest));
  ("sbom_ref", c_opt JStr (CapabilityPackManifest.sbom_ref manifest));
  ("sbom_digest", c_opt JStr (CapabilityPackManifest.sbom_digest manifest));
  ("optimistic_version", c_int 1);
  ("created_at", TimeCell t)].

Definition pack_row (tenant_id : uuid) (pack_id version : string) : row → bool :=
  matches [("tenant_id", c_uuid tenant_id); ("pack_id", c_str pack_id); ("version", c_str version)].

Definition install_pack (tenant_id : uuid) (manifest : CapabilityPackManifest.t)
    (actor_id : option uuid) : MR unit :=
  t ← now;
  record_id ← uuid4;
  let payload := manifest_payload manifest in
  let pack_id := CapabilityPackManifest.pack_id manifest in
  let version := CapabilityPackManifest.version manifest in
  begin (
    rows ← select capability_packs (pack_row tenant_id pack_id version);
    match first rows with
    | Some existing =>
        stored ← lift (json_column existing "manifest");
        throw_if (negb (py_eq stored (JDict payload))) ValueError
          ("capability pack content conflict: " +:+ pack_id +:+ "@" +:+ version +:+
           " is already installed with different signed content")
    | None =>
        insert capability_packs (pack_values record_id tenant_id manifest t) ;;
        record_fact tenant_id "capability_pack.installed" "capability_pack" record_id 1 t actor_id
          (Some [("digest", j_opt JStr (CapabilityPackManifest.artifact_digest manifest));
                 ("pack_id", JStr pack_id); ("version", JStr version)])
    end).

Section manifests.
(** [Draft202012Validator.check_schema] *)
Context (check_schema : list (string * json) → res unit).

Definition manifest_of (row : row) : res CapabilityPackManifest.t :=
  raw ← object_column row "manifest"; parse_manifest check_schema raw.

Definition pack_id_asc (a b : row) : bool :=
  negb (str_ltb (str_of (col "pack_id" b)) (str_of (col "pack_id" a))).

Definition list_capability_packs (tenant_id : uuid) (include_disabled : bool)
    : MR (list CapabilityPackManifest.t) :=
  rows ← select capability_packs (fun r =>
    matches [("tenant_id", c_uuid tenant_id); ("revoked", Cell (JBool false))] r &&
    (include_disabled || matches [("enabled", Cell (JBool true))] r));
  lift (mapM_res manifest_of (order_by pack_id_asc rows)).

Definition get_installed_pack (tenant_id : uuid) (pack_id version : string)
    : MR (option CapabilityPackManifest.t) :=
  rows ← select capability_packs (pack_row tenant_id pack_id version);
  match first rows with
  | None => mret None
  | Some row => manifest ← lift (manifest_of row); mret (Some manifest)
  end.

(** [session.scalar(select(t.c.k).where(p))] *)
Definition scalar (t : table) (k : string) (p : row → bool) : MR cell :=
  rows ← select t p; mret (match first rows with Some r => col k r | None => NULL end).

Definition is_pack_revoked (tenant_id : uuid) (pack_id version : string) : MR bool :=
  revoked ← scalar capability_packs "revoked" (pack_row tenant_id pack_id version);
  mret (match revoked with Cell v => truthy v | TimeCell _ => true end).

Definition pack_record_id (tenant_id : uuid) (pack_id version : string) : MR uuid :=
  rows ← select capability_packs (pack_row tenant_id pack_id version);
  match first rows with
  | None => throw RecordNotFound
      ("capability pack " +:+ pack_id +:+ "@" +:+ version +:+ " was not found")
  | Some row => lift (uuid_column row "id")
  end.

Definition by_id (record_id : uuid) : row → bool := matches [("id", c_uuid record_id)].

Definition set_pack_enabled (tenant_id : uuid) (pack_id version : string) (enabled : bool)
    (actor_id : uuid) (reason : string) : MR unit :=
  t ← now;
  begin (
    record_id ← pack_record_id tenant_id pack_id version;
    update capability_packs (by_id record_id)
      (assign [("enabled", Cell (JBool enabled)); ("updated_at", TimeCell t)]) ;;
    record_fact tenant_id
      (if enabled then "capability_pack.enabled" else "capability_pack.disabled")
      "capability_pack" record_id 1 t (Some actor_id)
      (Some [("pack_id", JStr pack_id); ("version", JStr version); ("reason", JStr reason)])).

Definition revoke_pack (tenant_id : uuid) (pack_id version : string) (actor_id : uuid)
    (reason : string) : MR unit :=
  t ← now;
  begin (
    record_id ← pack_record_id tenant_id pack_id version;
    update capability_packs (by_id record_id)
      (assign [("enabled", Cell (JBool false)); ("revoked", Cell (JBool true));
               ("revoked_reason", c_str reason); ("updated_at", TimeCell t)]) ;;
    record_fact tenant_id "capability_pack.revoked" "capability_pack" record_id 1 t (Some actor_id)
      (Some [("pack_id", JStr pack_id); ("version", JStr version); ("reason", JStr reason)])).

Definition channel_row (tenant_id : uuid) (pack_id : string) : row → bool :=
  matches [("tenant_id", c_uuid tenant_id); ("pack_id", c_str pack_id)].

Definition channel_values (record_id tenant_id : uuid) (pack_id version : string) (actor_id : uuid)
    (t : datetime) : row := [
  ("id", c_uuid record_id);
  ("tenant_id", c_uuid tenant_id);
  ("pack_id", c_str pack_id);
  ("stable_version", c_str version);
  ("updated_by", c_uuid actor_id);
  ("updated_at", TimeCell t)].

Definition set_stable_channel (tenant_id : uuid) (pack_id version : string) (actor_id : uuid)
    : MR unit :=
  t ← now;
  begin (
    delete capability_pack_channels (channel_row tenant_id pack_id) ;;
    record_id ← uuid4;
    insert capability_pack_channels (channel_values record_id tenant_id pack_id version actor_id t) ;;
    record_fact tenant_id "capability_pack.channel_updated" "capability_pack_channel" record_id 1 t
      (Some actor_id) (Some [("pack_id", JStr pack_id); ("stable_version", JStr version)])).

Definition get_stable_channel (tenant_id : uuid) (pack_id : string) : MR (option string) :=
  stable_version ← scalar capability_pack_channels "stable_version" (channel_row tenant_id pack_id);
  mret (match stable_version with Cell (JStr s) => Some s | _ => None end).

(** The first goal type of that name that the candidates declare, in order. *)
Definition find_goal_type (goal_type : string) (candidates : list CapabilityPackManifest.t)
    : option GoalTypeManifest.t :=
  List.find (fun goal => bool_decide (GoalTypeManifest.goal_type goal = goal_type))
    (candidates ≫= CapabilityPackManifest.goal_types).

(** [sorted(candidates, key=lambda item: compare_versions(item.version, "0.0.0"))] *)
Definition sort_by_comparison (candidates : list CapabilityPackManifest.t)
    : res (list CapabilityPackManifest.t) :=
  keyed ← mapM_res (fun item =>
    key ← compare_versions (CapabilityPackManifest.version item) "0.0.0"; Ok (key, item)) candidates;
  Ok (snd <$> @sorting.merge_sort _ (fun a b : Z * CapabilityPackManifest.t => a.1 <= b.1)
                (fun a b => decide (a.1 <= b.1)) keyed).

(** The loop over [sorted(by_pack)]; [manifests] keeps the order in which the
    packs were listed. *)
Fixpoint resolve_packs (tenant_id : uuid) (goal_type : string)
    (manifests : list CapabilityPackManifest.t) (pack_ids : list string)
    : MR GoalTypeManifest.t :=
  match pack_ids with
  | [] => throw RecordNotFound ("goal type " +:+ goal_type +:+ " was not found")
  | pack_id :: rest =>
      pinned ← get_stable_channel tenant_id pack_id;
      let candidates :=
        List.filter (fun m => bool_decide (CapabilityPackManifest.pack_id m = pack_id)) manifests in
      candidates ← match pinned with
                   | Some version => mret (List.filter (fun item =>
                       bool_decide (CapabilityPackManifest.version item = version)) candidates)
                   | None => lift (sort_by_comparison candidates)
                   end;
      match find_goal_type goal_type candidates with
      | Some goal => mret goal
      | None => resolve_packs tenant_id goal_type manifests rest
      end
  end.

Definition get_goal_type (tenant_id : uuid) (goal_type : string) : MR GoalTypeManifest.t :=
  manifests ← list_capability_packs tenant_id false;
  resolve_packs tenant_id goal_type manifests
    (sorted_strings (CapabilityPackManifest.pack_id <$> manifests)).
End manifests.

(** ** Agents and configuration assets *)

Definition add_agent (name : string) (version : AgentVersion.t) : MR unit :=
  t ← now;
  begin (
    insert agent_versions (agent_values name version t) ;;
    record (AgentVersion.tenant_id version) "agent_version.created" "agent_version"
      (AgentVersion.agent_version_id version) 1 t).

Definition list_agents (tenant_id : uuid) : MR (list (string * AgentVersion.t)) :=
  rows ← select agent_versions (of_tenant tenant_id);
  lift (mapM_res (fun row => name ← str_column row "name"; agent ← agent_from_row row;
                             Ok (name, agent)) rows).

Definition get_stable_agent (tenant_id : uuid) (agent_name : string) : MR AgentVersion.t :=
  row ← select_one agent_versions
    (matches [("tenant_id", c_uuid tenant_id); ("name", c_str agent_name);
              ("stage", c_enum AssetStage.STABLE)])
    ("stable agent " +:+ agent_name +:+ " was not found");
  lift (agent_from_row row).

Definition add_skill := add_config_asset skill_versions "skill_id".
Definition list_skills := list_config_assets skill_versions "skill_id".
Definition add_tool := add_config_asset tool_versions "tool_id".
Definition list_tools := list_config_assets tool_versions "tool_id".
Definition add_policy := add_config_asset policy_versions "policy_id".
Definition list_policies := list_config_assets policy_versions "policy_id".
Definition add_budget := add_config_asset budgets "budget_id".
Definition list_budgets := list_config_assets budgets "budget_id".

(** ** Goals and runs *)

Definition add_goal (goal : GoalContract.t) (audit : AuditEvent.t) : MR unit :=
  begin (
    values ← lift (goal_values goal);
    insert goals values ;;
    add_audit_and_outbox audit (GoalContract.created_at goal) ;;
    mret tt).

Definition get_goal (tenant_id goal_id : uuid) : MR GoalContract.t :=
  row ← select_one goals (row_of goal_id tenant_id)
    ("goal " +:+ uuid_str goal_id +:+ " was not found");
  lift (goal_from_row row).

Definition list_goals (tenant_id : uuid) : MR (list GoalContract.t) :=
  rows ← select goals (of_tenant tenant_id); lift (mapM_res goal_from_row rows).

Definition save_goal (goal : GoalContract.t) (expected_version : Z) (audit : AuditEvent.t)
    : MR unit :=
  begin (
    updated_at ← now;
    values ← lift (goal_update goal updated_at);
    update_versioned goals (GoalContract.tenant_id goal) (GoalContract.goal_id goal)
      expected_version values "goal" ;;
    t ← now;
    add_audit_and_outbox audit t ;;
    mret tt).

Definition add_run (run : Run.t) (audit : AuditEvent.t) : MR unit :=
  begin (
    insert runs (run_values run) ;;
    add_audit_and_outbox audit (Run.created_at run) ;;
    mret tt).

Definition get_run (tenant_id run_id : uuid) : MR Run.t :=
  row ← select_one runs (row_of run_id tenant_id) ("run " +:+ uuid_str run_id +:+ " was not found");
  lift (run_from_row row).

Definition save_run (run : Run.t) (expected_version : Z) (audit : option AuditEvent.t) : MR unit :=
  begin (
    updated_at ← now;
    update_versioned runs (Run.tenant_id run) (Run.run_id run) expected_version
      (run_update run updated_at) "run" ;;
    t ← now;
    match audit with
    | None => record (Run.tenant_id run) "run.updated" "run" (Run.run_id run)
                (Run.optimistic_version run) t
    | Some audit => add_audit_and_outbox audit t ;; mret tt
    end).

Definition list_runs (tenant_id : uuid) (goal_id : option uuid) : MR (list Run.t) :=
  rows ← select runs (fun r => of_tenant tenant_id r &&
    match goal_id with Some g => matches [("goal_id", c_uuid g)] r | None => true end);
  lift (mapM_res run_from_row rows).

(** ** Context and memory *)

Definition add_context_snapshot (snapshot : ContextSnapshot.t) : MR unit :=
  begin (
    insert context_snapshots (context_snapshot_values snapshot) ;;
    record (ContextSnapshot.tenant_id snapshot) "run.context_prepared" "context_snapshot"
      (ContextSnapshot.snapshot_id snapshot) 1 (ContextSnapshot.created_at snapshot)).

Definition get_context_snapshot (tenant_id run_id : uuid) : MR ContextSnapshot.t :=
  row ← select_one context_snapshots
    (matches [("tenant_id", c_uuid tenant_id); ("run_id", c_uuid run_id)])
    ("context for run " +:+ uuid_str run_id +:+ " was not found");
  lift (context_snapshot_from_row row).

Definition memory_ledger_values (fresh tenant_id : uuid) (memory_id : cell) (kind : string)
    (actor_id : uuid) (metadata : object) (t : datetime) : row := [
  ("id", c_uuid fresh);
  ("tenant_id", c_uuid tenant_id);
  ("memory_id", memory_id);
  ("kind", c_str kind);
  ("actor_id", c_uuid actor_id);
  ("metadata", c_object metadata);
  ("optimistic_version", c_int 1);
  ("created_at", TimeCell t)].

Definition add_memory (item : MemoryRecord.t) : MR unit :=
  throw_if (negb (bool_decide (MemoryRecord.status item = MemoryStatus.STABLE))) PermissionError
    "memory must pass the Write Gate before persistence" ;;
  t ← now;
  begin (
    insert memory_records (memory_values item t) ;;
    record (MemoryRecord.tenant_id item) "memory.recorded" "memory" (MemoryRecord.memory_id item) 1 t ;;
    fresh ← uuid4;
    insert memory_ledger (memory_ledger_values fresh (MemoryRecord.tenant_id item)
      (c_uuid (MemoryRecord.memory_id item)) "write" (MemoryRecord.approved_by item)
      [("classification", j_enum (MemoryRecord.classification item))] t)).

Definition get_memory (tenant_id memory_id : uuid) : MR MemoryRecord.t :=
  row ← get_row memory_records tenant_id memory_id; lift (memory_from_row row).

Definition list_memory (tenant_id : uuid) : MR (list MemoryRecord.t) :=
  rows ← list_rows memory_records tenant_id;
  lift (mapM_res memory_from_row (List.filter (is_null "deleted_at") rows)).

(** The recursive query: what the edges reach from [frontier], with [seen].
    One round per edge is enough ([affected_complete]). *)
Fixpoint affected (fuel : nat) (edges : list row) (seen : list cell) : list cell :=
  match fuel with
  | O => seen
  | S fuel =>
      let next := col "child_memory_id" <$>
        List.filter (fun e => mem (col "parent_memory_id" e) seen &&
                              negb (mem (col "child_memory_id" e) seen)) edges in
      affected fuel edges (seen ++ next)
  end.

Definition in_ (k : string) (values : list cell) (r : row) : bool := mem (col k r) values.

Definition delete_memory (tenant_id memory_id actor_id : uuid) : MR Z :=
  t ← now;
  begin (
    edges ← select memory_deletion_edges (of_tenant tenant_id);
    let rows := affected (length edges) edges [c_uuid memory_id] in
    existing ← select memory_records (fun r =>
      of_tenant tenant_id r && in_ "id" rows r && is_null "deleted_at" r);
    let existing := col "id" <$> existing in
    if bool_decide (existing = []) then mret 0 else
    update memory_records (fun r => of_tenant tenant_id r && in_ "id" existing r)
      (assign [("status", c_str "deleted"); ("deleted_at", TimeCell t)]) ;;
    delete vector_index_projections (fun r => of_tenant tenant_id r && in_ "memory_id" existing r) ;;
    for_each_m (fun deleted_id =>
      fresh ← uuid4;
      insert memory_ledger (memory_ledger_values fresh tenant_id deleted_id "delete" actor_id
        [("root_memory_id", j_uuid memory_id)] t)) existing ;;
    mret (Z.of_nat (length existing))).

(** ** Telemetry and namespaces *)

Definition telemetry_values (fresh : uuid) (item : TenantTelemetryRecord.t) (t : datetime) : row := [
  ("id", c_uuid fresh);
  ("tenant_id", c_uuid (TenantTelemetryRecord.tenant_id item));
  ("signal_type", c_str (TenantTelemetryRecord.signal_type item));
  ("trace_id", c_str (TenantTelemetryRecord.trace_id item));
  ("payload", c_object (TenantTelemetryRecord.payload item));
  ("occurred_at", TimeCell t);
  ("optimistic_version", c_int 1);
  ("created_at", TimeCell t)].

Definition add_telemetry (item : TenantTelemetryRecord.t) : MR unit :=
  t ← now;
  begin (fresh ← uuid4; insert telemetry_records (telemetry_values fresh item t)).

Definition telemetry_from_row (row : row) : res TenantTelemetryRecord.t :=
  tenant_id ← uuid_column row "tenant_id";
  signal_type ← str_column row "signal_type";
  trace_id ← str_column row "trace_id";
  payload ← object_column row "payload";
  TenantTelemetryRecord.new (TenantTelemetryRecord.mk tenant_id signal_type trace_id payload).

Definition list_telemetry (tenant_id : uuid) : MR (list TenantTelemetryRecord.t) :=
  rows ← list_rows telemetry_records tenant_id; lift (mapM_res telemetry_from_row rows).

Definition namespace_values (fresh tenant_id : uuid) (resource_kind logical_name physical_namespace : string)
    (t : datetime) : row := [
  ("id", c_uuid fresh);
  ("tenant_id", c_uuid tenant_id);
  ("resource_kind", c_str resource_kind);
  ("logical_name", c_str logical_name);
  ("physical_namespace", c_str physical_namespace);
  ("optimistic_version", c_int 1);
  ("created_at", TimeCell t)].

Definition register_tenant_namespace (tenant_id : uuid)
    (resource_kind logical_name physical_namespace : string) : MR object :=
  t ← now;
  begin (
    rows ← select tenant_resource_namespaces
      (matches [("tenant_id", c_uuid tenant_id); ("resource_kind", c_str resource_kind);
                ("logical_name", c_str logical_name)]);
    existing ← lift (one_or_none rows);
    match existing with
    | Some existing =>
        stored ← lift (json_column existing "physical_namespace");
        throw_if (negb (bool_decide (stored = JStr physical_namespace))) ConcurrencyConflict
          "tenant resource namespace is already frozen"
    | None =>
        fresh ← uuid4;
        insert tenant_resource_namespaces
          (namespace_values fresh tenant_id resource_kind logical_name physical_namespace t)
    end) ;;
  mret [("tenant_id", j_uuid tenant_id); ("resource_kind", JStr resource_kind);
        ("logical_name", JStr logical_name); ("physical_namespace", JStr physical_namespace)].

Definition list_tenant_namespaces (tenant_id : uuid) : MR (list object) :=
  rows ← list_rows tenant_resource_namespaces tenant_id;
  lift (mapM_res (fun row =>
    tenant_id ← json_column row "tenant_id";
    resource_kind ← json_column row "resource_kind";
    logical_name ← json_column row "logical_name";
    physical_namespace ← json_column row "physical_namespace";
    Ok [("tenant_id", tenant_id); ("resource_kind", resource_kind);
        ("logical_name", logical_name); ("physical_namespace", physical_namespace)]) rows).

(** ** Plans and tasks *)

Definition add_plan (plan : Plan.t) : MR unit :=
  t ← now;
  begin (
    insert plans (plan_values plan t) ;;
    for_each_m (fun task => insert tasks (task_values plan t task)) (Plan.tasks plan) ;;
    record (Plan.tenant_id plan) "plan.created" "plan" (Plan.plan_id plan) (Plan.version plan) t).

Definition get_plan (tenant_id plan_id : uuid) : MR Plan.t :=
  plan_row ← select_one plans (row_of plan_id tenant_id)
    ("plan " +:+ uuid_str plan_id +:+ " was not found");
  task_rows ← select tasks
    (matches [("plan_id", c_uuid plan_id); ("tenant_id", c_uuid tenant_id)]);
  lift (plan_from_rows plan_row task_rows).

Definition get_task (tenant_id task_id : uuid) : MR Task.t :=
  row ← get_row tasks tenant_id task_id; lift (task_from_row row).

(** The rows of a run, in the tables that have one. *)
Definition of_run (tenant_id run_id : uuid) : row → bool :=
  matches [("tenant_id", c_uuid tenant_id); ("run_id", c_uuid run_id)].

Definition list_tasks (tenant_id run_id : uuid) : MR (list Task.t) :=
  rows ← select tasks (of_run tenant_id run_id); lift (mapM_res task_from_row rows).

Definition save_task (task : Task.t) (expected_version : Z) : MR unit :=
  begin (
    updated_at ← now;
    update_versioned tasks (Task.tenant_id task) (Task.task_id task) expected_version
      (task_update task updated_at) "task" ;;
    t ← now;
    record (Task.tenant_id task) "task.updated" "task" (Task.task_id task)
      (Task.optimistic_version task) t).
End repository.
