(* ===== verification/RepositoryExecution.v ===== *)
(** * packages/adapters: persistence.py, actions to idempotency

    The operations of [SqlAlchemyPlatformRepository] on actions, approvals,
    evidence, outcomes, the budget ledger, evaluations, the candidate
    lifecycle and idempotency keys. *)

From S2P Require Import Prelude PyStr Effects PyDict PyFloat Json Transitions Values Goals.
From S2P Require Import Execution ExecutionObjects Identity Improvement EvaluationDomain Calendar.
From S2P Require Import AuditChain Verification Rows Codec Inserts Schema Database RepositoryCore.
From S2P Require Import RepositoryRuns.
From Stdlib Require Import ZArith.

Import Tables.
Open Scope string_scope.
Open Scope list_scope.
Open Scope Z_scope.

Section repository.
Context {DB : Type} `{Database DB}.
Notation MR := (M (session DB)).

(** ** Actions *)

Definition add_action (action : Action.t) : MR unit :=
  t ← now;
  begin (
    values ← lift (action_values action t);
    insert actions values ;;
    record (Action.tenant_id action) "action.proposed" "action" (Action.action_id action)
      (Action.optimistic_version action) t).

Definition get_action (tenant_id action_id : uuid) : MR Action.t :=
  row ← get_row actions tenant_id action_id; lift (action_from_row row).

Definition save_action (action : Action.t) (expected_version : Z) : MR unit :=
  values ← lift (action_update action);
  save_versioned actions (Action.tenant_id action) (Action.action_id action) expected_version
    (Action.optimistic_version action) values "action".

Definition list_actions (tenant_id run_id : uuid) : MR (list Action.t) :=
  rows ← select actions (of_run tenant_id run_id); lift (mapM_res action_from_row rows).

Definition add_action_attempt (attempt : ActionAttempt.t) : MR unit :=
  begin (
    insert action_attempts (action_attempt_values attempt) ;;
    record (ActionAttempt.tenant_id attempt) "action.attempt_recorded" "action_attempt"
      (ActionAttempt.attempt_id attempt) 1 (ActionAttempt.recorded_at attempt)).

Definition list_action_attempts (tenant_id action_id : uuid) : MR (list ActionAttempt.t) :=
  rows ← select action_attempts
    (matches [("tenant_id", c_uuid tenant_id); ("action_id", c_uuid action_id)]);
  lift (mapM_res action_attempt_from_row rows).

(** ** Approvals *)

(** The approval repeats the persisted action. *)
Definition binds (approval : ApprovalRequest.t) (action : Action.t) : bool :=
  bool_decide (Action.run_id action = ApprovalRequest.run_id approval) &&
  bool_decide (Action.canonical_digest action = ApprovalRequest.action_digest approval) &&
  bool_decide (Action.tool_version action = ApprovalRequest.tool_version approval) &&
  bool_decide (Action.operation action = ApprovalRequest.operation approval) &&
  bool_decide (Action.resource_scope action = ApprovalRequest.resource_scope approval) &&
  bool_decide (Action.parameter_digest action = ApprovalRequest.argument_digest approval).

Definition add_approval (approval : ApprovalRequest.t) : MR unit :=
  t ← now;
  begin (
    row ← get_row_in_session actions (ApprovalRequest.tenant_id approval)
            (ApprovalRequest.action_id approval);
    authoritative_action ← lift (action_from_row row);
    throw_if (negb (binds approval authoritative_action)) ValueError
      "approval must exactly bind the authoritative persisted Action" ;;
    insert approvals (approval_values approval) ;;
    record (ApprovalRequest.tenant_id approval) "approval.requested" "approval"
      (ApprovalRequest.approval_id approval) (ApprovalRequest.optimistic_version approval) t).

Definition get_approval (tenant_id approval_id : uuid) : MR ApprovalRequest.t :=
  row ← get_row approvals tenant_id approval_id; lift (approval_from_row row).

Definition list_approvals (tenant_id : uuid) : MR (list ApprovalRequest.t) :=
  rows ← list_rows approvals tenant_id; lift (mapM_res approval_from_row rows).

Definition save_approval (approval : ApprovalRequest.t) (expected_version : Z) : MR unit :=
  save_versioned approvals (ApprovalRequest.tenant_id approval) (ApprovalRequest.approval_id approval)
    expected_version (ApprovalRequest.optimistic_version approval) (approval_update approval)
    "approval".

(** ** Evidence *)

Definition add_evidence (item : Evidence.t) : MR unit :=
  t ← now;
  begin (
    insert evidence (evidence_values item) ;;
    record (Evidence.tenant_id item) "evidence.captured" "evidence" (Evidence.evidence_id item) 1 t).

Definition get_evidence (tenant_id evidence_id : uuid) : MR Evidence.t :=
  row ← get_row evidence tenant_id evidence_id; lift (evidence_from_row row).

Definition list_evidence (tenant_id : uuid) : MR (list Evidence.t) :=
  rows ← list_rows evidence tenant_id; lift (mapM_res evidence_from_row rows).

(** The [definition] dictionary of a saga, as the application builds it. *)
Definition capture_payload (x : CaptureDefinition.t) : object := [
  ("source", JStr (CaptureDefinition.source x));
  ("source_identity", JStr (CaptureDefinition.source_identity x));
  ("source_reference", JStr (CaptureDefinition.source_reference x));
  ("observed_state", JStr (CaptureDefinition.observed_state x));
  ("captured_at", JStr (CaptureDefinition.captured_at x));
  ("valid_until", JStr (CaptureDefinition.valid_until x));
  ("retained_until", JStr (CaptureDefinition.retained_until x));
  ("classification", JStr (CaptureDefinition.classification x));
  ("size_bytes", JInt (CaptureDefinition.size_bytes x));
  ("content_type", JStr (CaptureDefinition.content_type x));
  ("subject_refs", JList ((fun item => JDict (subject_payload item)) <$>
                            CaptureDefinition.subject_refs x))].

Definition capture_of (d : object) : res CaptureDefinition.t :=
  source ← str_field d "source";
  source_identity ← str_field d "source_identity";
  source_reference ← str_field d "source_reference";
  observed_state ← str_field d "observed_state";
  captured_at ← str_field d "captured_at";
  valid_until ← str_field d "valid_until";
  retained_until ← str_field d "retained_until";
  classification ← str_field d "classification";
  size_bytes ← int_field d "size_bytes";
  content_type ← str_field d "content_type";
  refs ← at_key d "subject_refs";
  subject_refs ← each_object subject_of refs;
  Ok (CaptureDefinition.mk source source_identity source_reference observed_state captured_at
        valid_until retained_until classification size_bytes content_type subject_refs).

Definition saga_values (saga : EvidenceCaptureSaga.t) (t : datetime) : row := [
  ("id", c_uuid (EvidenceCaptureSaga.evidence_id saga));
  ("tenant_id", c_uuid (EvidenceCaptureSaga.tenant_id saga));
  ("evidence_id", c_uuid (EvidenceCaptureSaga.evidence_id saga));
  ("run_id", c_uuid (EvidenceCaptureSaga.run_id saga));
  ("action_id", c_uuid (EvidenceCaptureSaga.action_id saga));
  ("criterion_id", c_str (EvidenceCaptureSaga.criterion_id saga));
  ("source", c_str (EvidenceCaptureSaga.source saga));
  ("artifact_uri", c_str (EvidenceCaptureSaga.artifact_uri saga));
  ("expected_digest", c_str (EvidenceCaptureSaga.expected_digest saga));
  ("status", c_enum (EvidenceCaptureSaga.status saga));
  ("definition", c_object (capture_payload (EvidenceCaptureSaga.definition saga)));
  ("failure_reason", c_opt JStr (EvidenceCaptureSaga.failure_reason saga));
  ("optimistic_version", c_int 1);
  ("created_at", TimeCell t)].

Definition evidence_row (tenant_id evidence_id : uuid) : row → bool :=
  matches [("tenant_id", c_uuid tenant_id); ("evidence_id", c_uuid evidence_id)].

(** The immutable columns of a saga. *)
Definition same_capture (existing : row) (saga : EvidenceCaptureSaga.t) : bool :=
  matches [("run_id", c_uuid (EvidenceCaptureSaga.run_id saga));
           ("action_id", c_uuid (EvidenceCaptureSaga.action_id saga));
           ("artifact_uri", c_str (EvidenceCaptureSaga.artifact_uri saga));
           ("expected_digest", c_str (EvidenceCaptureSaga.expected_digest saga));
           ("definition", c_object (capture_payload (EvidenceCaptureSaga.definition saga)))] existing.

Definition start_evidence_capture (saga : EvidenceCaptureSaga.t) : MR unit :=
  let tenant_id := EvidenceCaptureSaga.tenant_id saga in
  let evidence_id := EvidenceCaptureSaga.evidence_id saga in
  t ← now;
  begin (
    rows ← select evidence_capture_sagas (evidence_row tenant_id evidence_id);
    existing ← lift (one_or_none rows);
    match existing with
    | Some existing =>
        throw_if (negb (same_capture existing saga)) ConcurrencyConflict
          "Evidence capture id was reused with different immutable content"
    | None =>
        insert evidence_capture_sagas (saga_values saga t) ;;
        record tenant_id "evidence.capture_requested" "evidence" evidence_id 1 t
    end).

Definition saga_from_row (row : row) : res EvidenceCaptureSaga.t :=
  tenant_id ← uuid_column row "tenant_id";
  evidence_id ← uuid_column row "evidence_id";
  run_id ← uuid_column row "run_id";
  action_id ← uuid_column row "action_id";
  criterion_id ← str_column row "criterion_id";
  source ← str_column row "source";
  artifact_uri ← str_column row "artifact_uri";
  expected_digest ← str_column row "expected_digest";
  definition ← object_column row "definition";
  definition ← capture_of definition;
  status ← enum_column row "status";
  failure_reason ← json_column row "failure_reason";
  failure_reason ← opt as_str failure_reason;
  Ok (EvidenceCaptureSaga.mk tenant_id evidence_id run_id action_id criterion_id source artifact_uri
        expected_digest definition status failure_reason).

Definition get_evidence_capture (tenant_id evidence_id : uuid) : MR EvidenceCaptureSaga.t :=
  row ← get_row evidence_capture_sagas tenant_id evidence_id; lift (saga_from_row row).

(** [values( **values, optimistic_version=t.c.optimistic_version + 1)] *)
Definition bump (values : row) (r : row) : row :=
  assign (values ++ [("optimistic_version", c_int (int_of (col "optimistic_version" r) + 1))]) r.

Definition complete_evidence_capture (tenant_id evidence_id : uuid) : MR unit :=
  begin (
    t ← now;
    rowcount ← update evidence_capture_sagas
      (fun r => evidence_row tenant_id evidence_id r &&
                matches [("status", c_enum EvidenceCaptureStatus.PENDING)] r)
      (bump [("status", c_enum EvidenceCaptureStatus.COMMITTED); ("updated_at", TimeCell t)]);
    if rowcount =? 1 then mret tt else
    status ← scalar evidence_capture_sagas "status" (evidence_row tenant_id evidence_id);
    throw_if (negb (bool_decide (status = c_enum EvidenceCaptureStatus.COMMITTED)))
      ConcurrencyConflict "Evidence capture Saga is not pending").

Definition deletion_update (record : EvidenceDeletionRecord.t) (t : datetime) : row := [
  ("artifact_uri", c_str (EvidenceDeletionRecord.artifact_uri record));
  ("requested_by", c_uuid (EvidenceDeletionRecord.requested_by record));
  ("reason", c_str (EvidenceDeletionRecord.reason record));
  ("requested_at", TimeCell (EvidenceDeletionRecord.requested_at record));
  ("status", c_enum (EvidenceDeletionRecord.status record));
  ("deleted_at", c_opt_time (EvidenceDeletionRecord.deleted_at record));
  ("provider_version_id", c_opt JStr (EvidenceDeletionRecord.provider_version_id record));
  ("proof_digest", c_opt JStr (EvidenceDeletionRecord.proof_digest record));
  ("failure_reason", c_opt JStr (EvidenceDeletionRecord.failure_reason record));
  ("updated_at", TimeCell t)].

Definition deletion_values (record : EvidenceDeletionRecord.t) (t : datetime) : row := [
  ("id", c_uuid (EvidenceDeletionRecord.evidence_id record));
  ("tenant_id", c_uuid (EvidenceDeletionRecord.tenant_id record));
  ("evidence_id", c_uuid (EvidenceDeletionRecord.evidence_id record));
  ("optimistic_version", c_int 1);
  ("created_at", TimeCell (EvidenceDeletionRecord.requested_at record))] ++ deletion_update record t.

Definition record_evidence_deletion (record : EvidenceDeletionRecord.t) : MR unit :=
  let key := evidence_row (EvidenceDeletionRecord.tenant_id record)
               (EvidenceDeletionRecord.evidence_id record) in
  begin (
    existing ← scalar evidence_deletions "id" key;
    t ← now;
    if bool_decide (existing = NULL)
    then insert evidence_deletions (deletion_values record t)
    else update evidence_deletions key (bump (deletion_update record t)) ;; mret tt).

Definition deletion_from_row (row : row) : res EvidenceDeletionRecord.t :=
  tenant_id ← uuid_column row "tenant_id";
  evidence_id ← uuid_column row "evidence_id";
  artifact_uri ← str_column row "artifact_uri";
  requested_by ← uuid_column row "requested_by";
  reason ← str_column row "reason";
  requested_at ← time_column row "requested_at";
  status ← enum_column row "status";
  deleted_at ← opt_time_column row "deleted_at";
  provider_version_id ← json_column row "provider_version_id";
  provider_version_id ← opt as_str provider_version_id;
  proof_digest ← json_column row "proof_digest";
  proof_digest ← opt as_str proof_digest;
  failure_reason ← json_column row "failure_reason";
  failure_reason ← opt as_str failure_reason;
  Ok (EvidenceDeletionRecord.mk tenant_id evidence_id artifact_uri requested_by reason requested_at
        status deleted_at provider_version_id proof_digest failure_reason).

Definition get_evidence_deletion (tenant_id evidence_id : uuid) : MR EvidenceDeletionRecord.t :=
  row ← get_row evidence_deletions tenant_id evidence_id; lift (deletion_from_row row).

(** ** Outcomes *)

Definition add_outcome (item : Outcome.t) : MR unit :=
  t ← now;
  let evidence_ids := c_uuid <$> Outcome.evidence_ids item in
  begin (
    persisted_rows ← select evidence (fun r =>
      of_run (Outcome.tenant_id item) (Outcome.run_id item) r && in_ "id" evidence_ids r);
    let persisted_ids := col "id" <$> persisted_rows in
    throw_if (negb (subset_of evidence_ids persisted_ids && subset_of persisted_ids evidence_ids))
      ValueError "outcome evidence must be complete, integrity-verified, and persisted" ;;
    for_each_m (fun evidence_item =>
      row ← get_row_in_session evidence (Outcome.tenant_id item) (Evidence.evidence_id evidence_item);
      persisted ← lift (evidence_from_row row);
      throw_if (negb (bool_decide (persisted = evidence_item))) ValueError
        "outcome evidence must exactly match the authoritative persisted record")
      (Outcome.evidence item) ;;
    insert outcomes (outcome_values item t) ;;
    record (Outcome.tenant_id item) "outcome.recorded" "outcome" (Outcome.outcome_id item) 1 t).

(** The evidence a row of [outcomes] names, read record by record. *)
Definition outcome_evidence (tenant_id : uuid) (row : row) : MR (list Evidence.t) :=
  evidence_ids ← lift (result ← object_column row "result";
                       each as_uuid (get_or result "evidence_ids" (JList [])));
  mapM_m (get_evidence tenant_id) evidence_ids.

Definition get_outcome (tenant_id outcome_id : uuid) : MR Outcome.t :=
  row ← get_row outcomes tenant_id outcome_id;
  items ← outcome_evidence tenant_id row;
  lift (outcome_from_row row items).

Definition list_outcomes (tenant_id run_id : uuid) : MR (list Outcome.t) :=
  rows ← select outcomes (of_run tenant_id run_id);
  mapM_m (fun row => items ← outcome_evidence tenant_id row; lift (outcome_from_row row items)) rows.

(** ** The budget ledger *)

Definition budget_values (entry_id tenant_id run_id : uuid) (category : string)
    (amount : BudgetAmount.t) (reference : string) (t : datetime) : row := [
  ("id", c_uuid entry_id);
  ("tenant_id", c_uuid tenant_id);
  ("run_id", c_uuid run_id);
  ("category", c_str category);
  ("amount", c_int (BudgetAmount.amount amount));
  ("unit", c_enum (BudgetAmount.unit amount));
  ("reference", c_str reference);
  ("optimistic_version", c_int 1);
  ("created_at", TimeCell t)].

Definition record_budget_entry (tenant_id run_id : uuid) (category : string)
    (amount : BudgetAmount.t) (reference : string) : MR uuid :=
  entry_id ← uuid4;
  t ← now;
  begin (
    insert budget_ledger (budget_values entry_id tenant_id run_id category amount reference t) ;;
    record tenant_id "budget.recorded" "budget_entry" entry_id 1 t) ;;
  mret entry_id.

(** A ledger entry as listed: its columns. *)
Definition budget_entry_of (row : row) : Rows.row :=
  (fun k => (k, col k row)) <$> ["category"; "amount"; "unit"; "reference"; "created_at"].

Definition list_budget_entries (tenant_id run_id : uuid) : MR (list Rows.row) :=
  rows ← select budget_ledger (of_run tenant_id run_id); mret (budget_entry_of <$> rows).
End repository.

(** * packages/adapters: persistence.py, evaluation to idempotency

    The operations of [SqlAlchemyPlatformRepository] on trials, suites,
    evaluations, proposals, candidates, deployments, observations, shadow
    comparisons, releases and idempotency keys, with the upserts some of them
    are. *)

Import Tables.
Open Scope string_scope.
Open Scope list_scope.
Open Scope Z_scope.

Section repository.
Context {DB : Type} `{Database DB}.
Notation MR := (M (session DB)).

(** ** Upserts *)

(** The rows that [values] conflicts with on the unique columns [keys]. *)
Definition conflicting (t : table) (keys : list string) (values : row) (r : row) : bool :=
  bool_decide (cols keys r = cols keys (complete t values)).

(** [insert(t).values(...).on_conflict_do_nothing(keys)], and its [rowcount] *)
Definition insert_or_nothing (t : table) (keys : list string) (values : row) : MR Z :=
  rows ← select t (conflicting t keys values);
  match rows with
  | [] => insert t values ;; mret 1
  | _ => mret 0
  end.

(** [insert(t).values(...).on_conflict_do_update(keys, set_=...)] *)
Definition insert_or_update (t : table) (keys : list string) (values set_ : row) : MR unit :=
  rows ← select t (conflicting t keys values);
  match rows with
  | [] => insert t values
  | _ => update t (conflicting t keys values) (assign set_) ;; mret tt
  end.

(** ** Trials, suites and evaluations *)

Definition add_trial (trial : Trial.t) : MR unit :=
  t ← now;
  begin (
    insert evaluation_trials (trial_values trial t) ;;
    record (Trial.tenant_id trial) "trial.created" "trial" (Trial.trial_id trial) 1 t).

Definition list_trials (tenant_id : uuid) : MR (list Trial.t) :=
  rows ← list_rows evaluation_trials tenant_id; lift (mapM_res trial_from_row rows).

Definition add_suite (tenant_id : uuid) (suite : EvaluationSuite.t) : MR unit :=
  t ← now;
  begin (fresh ← uuid4; insert evaluation_suites (suite_values fresh tenant_id suite t)).

Definition get_suite (tenant_id : uuid) (suite_id version : string) : MR EvaluationSuite.t :=
  row ← select_one evaluation_suites
    (matches [("tenant_id", c_uuid tenant_id); ("suite_id", c_str suite_id);
              ("version", c_str version)])
    ("evaluation suite not found: " +:+ suite_id +:+ "@" +:+ version);
  lift (suite_from_row row).

Definition list_suites (tenant_id : uuid) : MR (list EvaluationSuite.t) :=
  rows ← list_rows evaluation_suites tenant_id; lift (mapM_res suite_from_row rows).

Definition of_candidate (tenant_id candidate_id : uuid) : row → bool :=
  matches [("tenant_id", c_uuid tenant_id); ("candidate_id", c_uuid candidate_id)].

Definition list_trials_for_candidate (tenant_id candidate_id : uuid) : MR (list Trial.t) :=
  rows ← select evaluation_trials (of_candidate tenant_id candidate_id);
  lift (mapM_res trial_from_row (order_by created_asc rows)).

Definition add_evaluation_record (record_ : CandidateEvaluation.t) : MR unit :=
  t ← now;
  begin (
    insert candidate_evaluations (evaluation_values record_ t) ;;
    record (CandidateEvaluation.tenant_id record_) "candidate.evaluated" "candidate_evaluation"
      (CandidateEvaluation.evaluation_id record_) 1 t).

Definition list_evaluation_records (tenant_id candidate_id : uuid)
    : MR (list CandidateEvaluation.t) :=
  rows ← select candidate_evaluations (of_candidate tenant_id candidate_id);
  lift (mapM_res evaluation_from_row (order_by created_asc rows)).

(** ** The candidate lifecycle *)

Definition add_proposal (proposal : ImprovementProposal.t) : MR unit :=
  t ← now;
  begin (
    insert improvement_proposals (proposal_values proposal t) ;;
    record (ImprovementProposal.tenant_id proposal) "improvement.proposed" "improvement_proposal"
      (ImprovementProposal.proposal_id proposal) 1 t).

Definition get_proposal (tenant_id proposal_id : uuid) : MR ImprovementProposal.t :=
  row ← get_row improvement_proposals tenant_id proposal_id; lift (proposal_from_row row).

Definition list_proposals (tenant_id : uuid) : MR (list ImprovementProposal.t) :=
  rows ← list_rows improvement_proposals tenant_id; lift (mapM_res proposal_from_row rows).

Definition add_candidate (candidate : CandidateVersion.t) : MR unit :=
  t ← now;
  begin (
    insert candidates (candidate_values candidate t) ;;
    record (CandidateVersion.tenant_id candidate) "candidate.created" "candidate"
      (CandidateVersion.candidate_id candidate) (CandidateVersion.optimistic_version candidate) t).

Definition get_candidate (tenant_id candidate_id : uuid) : MR CandidateVersion.t :=
  row ← get_row candidates tenant_id candidate_id; lift (candidate_from_row row).

Definition save_candidate (candidate : CandidateVersion.t) : MR unit :=
  save_versioned candidates (CandidateVersion.tenant_id candidate)
    (CandidateVersion.candidate_id candidate) (CandidateVersion.optimistic_version candidate - 1)
    (CandidateVersion.optimistic_version candidate) (candidate_update candidate) "candidate".

Definition add_deployment (deployment : Deployment.t) : MR unit :=
  t ← now;
  begin (
    insert deployments (deployment_values deployment t) ;;
    record (Deployment.tenant_id deployment) "deployment.started" "deployment"
      (Deployment.deployment_id deployment) (Deployment.optimistic_version deployment) t).

Definition get_deployment (tenant_id deployment_id : uuid) : MR Deployment.t :=
  row ← get_row deployments tenant_id deployment_id; lift (deployment_from_row row).

Definition list_deployments (tenant_id : uuid) (status : option DeploymentStatus.t)
    : MR (list Deployment.t) :=
  rows ← select deployments (fun r => of_tenant tenant_id r &&
    match status with Some s => matches [("status", c_enum s)] r | None => true end);
  lift (mapM_res deployment_from_row rows).

Definition save_deployment (deployment : Deployment.t) : MR unit :=
  save_versioned deployments (Deployment.tenant_id deployment)
    (Deployment.deployment_id deployment) (Deployment.optimistic_version deployment - 1)
    (Deployment.optimistic_version deployment) (deployment_update deployment) "deployment".

Definition get_observation (tenant_id deployment_id : uuid) (stage : DeploymentStatus.t)
    (metric : string) : MR (option DeploymentObservation.t) :=
  rows ← select deployment_observations
    (matches [("tenant_id", c_uuid tenant_id); ("deployment_id", c_uuid deployment_id);
              ("stage", c_enum stage); ("metric", c_str metric)]);
  row ← lift (one_or_none rows);
  match row with
  | None => mret None
  | Some row => item ← lift (observation_from_row row); mret (Some item)
  end.

Definition save_observation (observation : DeploymentObservation.t) : MR unit :=
  t ← now;
  begin (insert_or_update deployment_observations ["tenant_id"; "deployment_id"; "stage"; "metric"]
           (observation_values observation t) (observation_update observation t)).

Definition add_shadow_comparison (comparison : ShadowComparison.t) : MR unit :=
  t ← now;
  begin (insert shadow_comparisons (shadow_comparison_values comparison t)).

(** [order_by(observed_at, id)] *)
Definition observed_asc (a b : row) : bool :=
  let x := time_of (col "observed_at" a) in
  let y := time_of (col "observed_at" b) in
  (x <? y) || ((x =? y) && negb (str_ltb (str_of (col "id" b)) (str_of (col "id" a)))).

Definition list_shadow_comparisons (tenant_id deployment_id : uuid) : MR (list ShadowComparison.t) :=
  rows ← select shadow_comparisons
    (matches [("tenant_id", c_uuid tenant_id); ("deployment_id", c_uuid deployment_id)]);
  lift (mapM_res shadow_comparison_from_row (order_by observed_asc rows)).

(** ** Releases *)

Definition add_release (release : Release.t) : MR unit :=
  let tenant_id := Release.tenant_id release in
  t ← now;
  begin (
    rows ← select candidates (row_of (Release.candidate_id release) tenant_id);
    candidate_row ← lift (one_or_none rows);
    stable_slot ← match candidate_row with
                  | None => throw RecordNotFound "release candidate was not found"
                  | Some row => mret (col "baseline_version_id" row)
                  end;
    update releases (fun r =>
        matches [("tenant_id", c_uuid tenant_id); ("stable_slot", stable_slot)] r && is_active r)
      (assign [("active", Cell (JBool false)); ("updated_at", TimeCell t)]) ;;
    insert releases (release_values release stable_slot t) ;;
    record tenant_id "release.activated" "release" (Release.release_id release) 1 t).

Definition get_active_release (tenant_id release_id : uuid) : MR Release.t :=
  row ← select_one releases (fun r => row_of release_id tenant_id r && is_active r)
    ("active release " +:+ uuid_str release_id +:+ " was not found");
  lift (release_from_row row).

Definition list_releases (tenant_id : uuid) : MR (list Release.t) :=
  rows ← list_rows releases tenant_id; lift (mapM_res release_from_row rows).

(** ** Idempotency *)

Definition idempotency_row (tenant_id : uuid) (key : string) : row → bool :=
  matches [("tenant_id", c_uuid tenant_id); ("idempotency_key", c_str key)].

Definition get_idempotency (tenant_id : uuid) (key : string) (request_digest : option string)
    : MR (option uuid) :=
  rows ← select idempotency_records (fun r =>
    idempotency_row tenant_id key r && matches [("status", c_str "completed")] r);
  row ← lift (one_or_none rows);
  match row with
  | None => mret None
  | Some row =>
      throw_if match request_digest with
               | Some digest => negb (bool_decide (col "request_digest" row = c_str digest))
               | None => false
               end ConcurrencyConflict "idempotency key was reused with a different request" ;;
      external_id ← lift (uuid_column row "external_id");
      mret (Some external_id)
  end.

(** [request_digest or "0" * 64] *)
Definition digest_or_zero (request_digest : option string) : string :=
  match request_digest with
  | Some d => if empty d then AuditChain.genesis else d
  | None => AuditChain.genesis
  end.

Definition idempotency_values (fresh tenant_id : uuid) (key : string) (external_id : uuid)
    (request_digest : option string) (t : datetime) : row := [
  ("id", c_uuid fresh);
  ("tenant_id", c_uuid tenant_id);
  ("idempotency_key", c_str key);
  ("request_digest", c_str (digest_or_zero request_digest));
  ("external_id", c_uuid external_id);
  ("status", c_str "completed");
  ("response", Cell JNull);
  ("optimistic_version", c_int 1);
  ("created_at", TimeCell t)].

Definition put_idempotency (tenant_id : uuid) (key : string) (external_id : uuid)
    (request_digest : option string) : MR unit :=
  t ← now;
  begin (
    fresh ← uuid4;
    rowcount ← insert_or_nothing idempotency_records ["tenant_id"; "idempotency_key"]
                 (idempotency_values fresh tenant_id key external_id request_digest t);
    if negb (rowcount =? 0) then mret tt else
    rows ← select idempotency_records (idempotency_row tenant_id key);
    accepted ← lift (one rows);
    throw_if (negb (bool_decide (col "external_id" accepted = c_uuid external_id)) ||
              match request_digest with
              | Some digest => negb (bool_decide (col "request_digest" accepted = c_str digest))
              | None => false
              end) ConcurrencyConflict "idempotency key is already bound to a different result").
End repository.
