(* ===== verification/RepositoryLogic.v ===== *)
(** * Reasoning about the relational repositories

    [preserves F I m]: from any content in [I], with identifiers in [F], [m]
    leaves a content in [I], whether it returns or raises.  One rule per
    statement; [preserve] applies them.  The rules only use the laws of the
    database, so they hold of every database. *)

From S2P Require Import Prelude PyStr PyDict PyFloat Json Rows Schema Effects Database.
From S2P Require Import AuditChain Inserts RepositoryCore.
From Stdlib Require Import ZArith.

Open Scope string_scope.
Open Scope list_scope.
Open Scope Z_scope.

(** What holds after an error: the invariant itself, or nothing. *)
Class Weaker (I J : content → Prop) : Prop := weaker : ∀ c, I c → J c.
#[export] Instance weaker_refl I : Weaker I I.
Proof. by intros c. Qed.
#[export] Instance weaker_any I : Weaker I (fun _ => True).
Proof. by intros c. Qed.

Section statements.
Context {DB : Type} `{DatabaseLaws DB} (F : uuid → Prop).
Notation MR := (M (session DB)).

Definition content_now (s : session DB) : content := rows_of (database s).

Lemma wp_select t p (Q : list row → session DB → Prop) E s :
  (∀ rows, rows ≡ₚ List.filter p (content_now s (table_name t)) → Q rows s) →
  wpi F (select t p) Q E s.
Proof. intros HQ. apply wp_bind, wp_get, wp_ret, HQ, select_where_rows. Qed.

Lemma wp_insert t v (Q : unit → session DB → Prop) (E : exn → session DB → Prop) s :
  (∀ s', same_rows (content_now s') (add_row t (complete t v) (content_now s)) →
         current s' = current s → Q tt s') →
  (∀ x, exn_class x = IntegrityError ∨ exn_class x = DataError → E x s) →
  wpi F (insert t v) Q E s.
Proof.
  intros HQ HE. apply wp_bind, wp_get. apply wp_bind, wp_lift.
  - intros d Hd. apply wp_put. apply HQ; [|done]. by apply insert_into_ok.
  - intros x Hx. apply HE. by eapply insert_into_refuses.
Qed.

Lemma wp_update t p f (Q : Z → session DB → Prop) (E : exn → session DB → Prop) s :
  (∀ s', same_rows (content_now s') (revise t p f (content_now s)) → current s' = current s →
         Q (Z.of_nat (length (List.filter p (content_now s (table_name t))))) s') →
  (∀ x, E x s) → wpi F (update t p f) Q E s.
Proof.
  intros HQ HE. apply wp_bind, wp_get. apply wp_bind, wp_lift; [|auto].
  intros [d n] Hd. apply wp_bind, wp_put. apply wp_ret. cbn.
  apply update_where_ok in Hd as [Hd ->]. by apply HQ.
Qed.

Lemma wp_delete t p (Q : unit → session DB → Prop) (E : exn → session DB → Prop) s :
  (∀ s', same_rows (content_now s') (remove t p (content_now s)) → current s' = current s →
         Q tt s') →
  (∀ x, E x s) → wpi F (delete t p) Q E s.
Proof.
  intros HQ HE. apply wp_bind, wp_get. apply wp_bind, wp_lift; [|auto].
  intros d Hd. apply wp_put. apply HQ; [|done]. by apply delete_where_ok.
Qed.

Lemma wp_begin {A} (m : MR A) (Q : A → session DB → Prop) (E : exn → session DB → Prop) s :
  wpi F m Q (fun x s' => E x s' ∧ E x s) s → wpi F (begin m) Q E s.
Proof.
  intros Hm. apply wp_bind, wp_get. destruct (current s).
  - eapply wp_mono; [exact Hm|done|]. by intros x s' [? _].
  - apply wp_transaction. eapply wp_mono; [exact Hm|done|]. by intros x s' [_ ?].
Qed.

(** Outside a transaction an operation that raises changes nothing. *)
Lemma wp_begin_alone {A} (m : MR A) (Q : A → session DB → Prop) (E : exn → session DB → Prop) s :
  current s = false → wpi F m Q (fun x _ => E x s) s → wpi F (begin m) Q E s.
Proof. intros Hs Hm. apply wp_bind, wp_get. rewrite Hs. by apply wp_transaction. Qed.

(** ** Invariants of the content *)

Section preserves.
Context (I J : content → Prop) `{!Proper (same_rows ==> iff) I}.

(** [J] is what holds when [m] raises. *)
Definition preserves_or {A} (m : MR A) : Prop :=
  ∀ s, I (content_now s) →
    wpi F m (fun _ s' => I (content_now s')) (fun _ s' => J (content_now s')) s.

Lemma preserves_bind {A B} (m : MR A) (f : A → MR B) :
  preserves_or m → (∀ a, preserves_or (f a)) → preserves_or (m ≫= f).
Proof.
  intros Hm Hf s Hs. apply wp_bind. eapply wp_mono; [by apply Hm| |done].
  intros a s' Hs'. by apply Hf.
Qed.

Lemma preserves_ret {A} (a : A) : preserves_or (mret a).
Proof. intros s Hs. by apply wp_ret. Qed.
Lemma preserves_now : preserves_or now.
Proof. intros s Hs. by apply wp_now. Qed.
Lemma preserves_uuid4 {A} (f : uuid → MR A) : (∀ u, F u → preserves_or (f u)) → preserves_or (uuid4 ≫= f).
Proof. intros Hf s Hs. apply wp_bind, wp_uuid4. intros u Hu. by apply Hf. Qed.
Lemma preserves_select t p : preserves_or (select t p).
Proof. intros s Hs. by apply wp_select. Qed.
Lemma preserves_for_each {A} (f : A → MR unit) l :
  (∀ x, x ∈ l → preserves_or (f x)) → preserves_or (for_each_m f l).
Proof. intros Hf s Hs. apply wp_for_each; [done|]. intros x s' Hx Hs'. by apply Hf. Qed.

Context `{!Weaker I J}.

Lemma preserves_lift {A} (r : res A) : preserves_or (lift r).
Proof. intros s Hs. apply wp_lift; [done|]. intros _ _. by apply weaker. Qed.
Lemma preserves_bind_lift {A B} (r : res A) (f : A → MR B) :
  (∀ a, r = Ok a → preserves_or (f a)) → preserves_or (lift r ≫= f).
Proof.
  intros Hf s Hs. apply wp_bind, wp_lift; [|intros _ _; by apply weaker]. intros a Ha.
  by apply (Hf a Ha).
Qed.
Lemma preserves_throw {A} k msg : preserves_or (throw k msg : MR A).
Proof. apply preserves_lift. Qed.
Lemma preserves_throw_if b k msg : preserves_or (throw_if b k msg).
Proof. apply preserves_lift. Qed.

Lemma preserves_insert t v :
  (∀ c, I c → I (add_row t (complete t v) c)) → preserves_or (insert t v).
Proof. intros Hi s Hs. apply wp_insert; [|by intros; apply weaker]. intros s' -> _. by apply Hi. Qed.

Lemma preserves_update t p f : (∀ c, I c → I (revise t p f c)) → preserves_or (update t p f).
Proof. intros Hi s Hs. apply wp_update; [|by intros; apply weaker]. intros s' -> _. by apply Hi. Qed.

Lemma preserves_delete t p : (∀ c, I c → I (remove t p c)) → preserves_or (delete t p).
Proof. intros Hi s Hs. apply wp_delete; [|by intros; apply weaker]. intros s' -> _. by apply Hi. Qed.

Lemma preserves_begin {A} (m : MR A) : preserves_or m → preserves_or (begin m).
Proof.
  intros Hm s Hs. apply wp_begin. eapply wp_mono; [by apply Hm|done|].
  intros x s' Hs'. split; [done|by apply weaker].
Qed.

Lemma preserves_transaction {A} (m : MR A) : preserves_or m → preserves_or (transaction_ m).
Proof.
  intros Hm s Hs. apply wp_bind, wp_get. apply wp_bind, wp_throw_if;
    [intros _|by intros; apply weaker].
  apply wp_transaction, wp_bind, wp_put, wp_bind. eapply wp_mono; [by apply Hm| |by intros; apply weaker].
  intros a s' Hs'. apply wp_bind, wp_get. apply wp_bind, wp_put. by apply wp_ret.
Qed.

End preserves.
(** ** The transaction of the application

    [steady m]: [m] neither opens nor closes a transaction of the application. *)
Definition steady {A} (m : MR A) : Prop :=
  ∀ s, wpi F m (fun _ s' => current s' = current s) (fun _ s' => current s' = current s) s.

Lemma steady_bind {A B} (m : MR A) (f : A → MR B) : steady m → (∀ a, steady (f a)) → steady (m ≫= f).
Proof.
  intros Hm Hf s. apply wp_bind. eapply wp_mono; [apply Hm| |done].
  intros a s' <-. apply Hf.
Qed.
Lemma steady_ret {A} (a : A) : steady (mret a).
Proof. intros s. by apply wp_ret. Qed.
Lemma steady_lift {A} (r : res A) : steady (lift r).
Proof. intros s. by apply wp_lift. Qed.
Lemma steady_now : steady now.
Proof. intros s. by apply wp_now. Qed.
Lemma steady_uuid4 : steady uuid4.
Proof. intros s. by apply wp_uuid4. Qed.
Lemma steady_select t p : steady (select t p).
Proof. intros s. by apply wp_select. Qed.
Lemma steady_insert t v : steady (insert t v).
Proof. intros s. by apply wp_insert. Qed.
Lemma steady_update t p f : steady (update t p f).
Proof. intros s. by apply wp_update. Qed.
Lemma steady_delete t p : steady (delete t p).
Proof. intros s. by apply wp_delete. Qed.
Lemma steady_begin {A} (m : MR A) : steady m → steady (begin m).
Proof. intros Hm s. apply wp_begin. eapply wp_mono; [apply Hm|done|]. by intros x s' ->. Qed.
Lemma steady_for_each {A} (f : A → MR unit) l : (∀ x, steady (f x)) → steady (for_each_m f l).
Proof.
  intros Hf s. apply (wp_for_each _ _ _ (fun s' => current s' = current s)); [done|].
  intros x s' _ <-. apply Hf.
Qed.
End statements.

Notation preserves F I := (preserves_or F I I).

(** The function a program is a call of. *)
Ltac head_of m := lazymatch m with ?f _ => head_of f | _ => m end.

(** One step of a [preserves] goal. *)
Ltac preserve_step :=
  lazymatch goal with
  | |- preserves _ _ (uuid4 ≫= _) => apply preserves_uuid4; intros ? ?
  | |- preserves _ _ (lift _ ≫= _) => apply preserves_bind_lift; [apply _..|intros ? ?]
  | |- preserves _ _ (_ ≫= _) => apply preserves_bind; [|intros ?]
  | |- preserves _ _ (mret _) => apply preserves_ret
  | |- preserves _ _ (lift _) => apply preserves_lift; apply _
  | |- preserves _ _ (throw _ _) => apply preserves_throw; apply _
  | |- preserves _ _ (throw_if _ _ _) => apply preserves_throw_if; apply _
  | |- preserves _ _ now => apply preserves_now
  | |- preserves _ _ (select _ _) => apply preserves_select
  | |- preserves _ _ (begin _) => apply preserves_begin; [apply _..|]
  | |- preserves _ _ (for_each_m _ _) => apply preserves_for_each; intros ? ?
  | |- preserves _ _ (match ?x with _ => _ end) => destruct x eqn:?
  | |- preserves _ _ (let _ := _ in _) => cbv zeta
  end.

Ltac steady_step :=
  lazymatch goal with
  | |- steady _ (_ ≫= _) => apply steady_bind; [|intros ?]
  | |- steady _ (mret _) => apply steady_ret
  | |- steady _ (lift _) => apply steady_lift
  | |- steady _ (throw _ _) => apply steady_lift
  | |- steady _ (throw_if _ _ _) => apply steady_lift
  | |- steady _ now => apply steady_now
  | |- steady _ uuid4 => apply steady_uuid4
  | |- steady _ (select _ _) => apply steady_select
  | |- steady _ (insert _ _) => apply steady_insert
  | |- steady _ (update _ _ _) => apply steady_update
  | |- steady _ (delete _ _) => apply steady_delete
  | |- steady _ (begin _) => apply steady_begin
  | |- steady _ (for_each_m _ _) => apply steady_for_each; intros ?
  | |- steady _ (match ?x with _ => _ end) => destruct x
  | |- steady _ (let _ := _ in _) => cbv zeta
  | |- steady _ ?m => let f := head_of m in unfold f
  end.

(** What [add_row] and the like do to a table other than [n]. *)
Lemma add_row_other t r c n : n ≠ table_name t → add_row t r c n = c n.
Proof. apply on_other. Qed.
Lemma revise_other t p f c n : n ≠ table_name t → revise t p f c n = c n.
Proof. apply on_other. Qed.
Lemma remove_other t p c n : n ≠ table_name t → remove t p c n = c n.
Proof. apply on_other. Qed.
Lemma add_row_at t r c : add_row t r c (table_name t) = r :: c (table_name t).
Proof. apply on_at. Qed.
Lemma revise_at t p f c :
  revise t p f c (table_name t) = List.map (fun r => if p r then f r else r) (c (table_name t)).
Proof. apply on_at. Qed.
Lemma remove_at t p c :
  remove t p c (table_name t) = List.filter (fun r => negb (p r)) (c (table_name t)).
Proof. apply on_at. Qed.

(** ** Completed rows *)

(** A column the statement sets is as it says. *)
Lemma complete_get t v k : k ∈ column_names t → ∀ x, alist_get k v = Some x →
  alist_get k (complete t v) = Some x.
Proof.
  unfold complete, column_names. induction (columns t) as [|c l IH]; cbn; [by intros ?%elem_of_nil|].
  intros Hk x Hx. case_decide as E; [by rewrite <- E, Hx|]. apply IH; [|done].
  apply elem_of_cons in Hk as [->|]; [done|done].
Qed.

Lemma alist_get_key (v : row) k x : alist_get k v = Some x → k ∈ fst <$> v.
Proof.
  induction v as [|[k' y] v IH]; cbn; [done|]. case_decide as E; [subst; left|]. right. by apply IH.
Qed.

Lemma complete_has t v : unique (fst <$> v) = true → subset_of (fst <$> v) (column_names t) = true →
  has (complete t v) v.
Proof.
  rewrite unique_true, subset_of_true. intros Hn Hs. apply Forall_forall. intros [k x] Hx. cbn.
  apply complete_get; [apply Hs, list_elem_of_fmap; by exists (k, x)|].
  clear Hs. induction v as [|[k' x'] v IH]; [by apply elem_of_nil in Hx|].
  apply NoDup_cons in Hn as [Hk Hn]. cbn. apply elem_of_cons in Hx as [[= -> ->]|Hx].
  - by rewrite decide_True.
  - rewrite decide_False; [by apply IH|]. intros ->. apply Hk, list_elem_of_fmap.
    by exists (k', x).
Qed.

(** The columns of an updated row: those the statement sets, and the others. *)
Lemma alist_get_app (u v : row) k :
  alist_get k (u ++ v) = match alist_get k u with Some x => Some x | None => alist_get k v end.
Proof. induction u as [|[k' x] u IH]; [done|]. cbn. by case_decide. Qed.

Lemma alist_get_none (v : row) k : alist_get k v = None → k ∉ fst <$> v.
Proof.
  induction v as [|[k' x] v IH]; cbn; [intros _ ?%elem_of_nil; done|].
  case_decide as E; [done|]. intros Hv [->|Hk]%elem_of_cons; [done|]. by apply IH.
Qed.

Lemma assign_get v r k :
  alist_get k (assign v r) = match alist_get k v with Some x => Some x | None => alist_get k r end.
Proof.
  unfold assign. rewrite alist_get_app. destruct (alist_get k v) eqn:E; [done|].
  apply alist_get_none in E. induction r as [|[k' x] r IH]; [done|]. cbn.
  destruct (mem k' (fst <$> v)) eqn:Em; cbn; case_decide as Ek; subst; try done.
  apply mem_true in Em. done.
Qed.

Lemma col_has r k v : alist_get k r = Some v → col k r = v.
Proof. unfold col. by intros ->. Qed.

Lemma of_tenant_col t r : of_tenant t r = bool_decide (col "tenant_id" r = c_uuid t).
Proof. unfold of_tenant, matches, all. cbn [forallb fst snd]. apply andb_true_r. Qed.

(** ** Keys *)

Lemma fmap_inj_elem {A B} (f : A → B) l x y : NoDup (f <$> l) → x ∈ l → y ∈ l → f x = f y → x = y.
Proof.
  intros Hn [i Hi]%list_elem_of_lookup [j Hj]%list_elem_of_lookup E.
  assert (i = j) as ->; [|congruence].
  eapply NoDup_lookup; [exact Hn|by rewrite list_lookup_fmap, Hi|by rewrite list_lookup_fmap, Hj, E].
Qed.

(** Two rows of a table agree on a unique key only when they are the same. *)
Lemma unique_rows c t ks r r' : consistent c = true → t ∈ Tables.schema → Unique ks ∈ items t →
  r ∈ c (table_name t) → r' ∈ c (table_name t) → has_null ks r = false → cols ks r = cols ks r' →
  r = r'.
Proof.
  intros Hc Ht Hu Hr Hr' Hn E. unfold consistent in Hc. rewrite all_true in Hc.
  specialize (Hc t Ht). unfold table_holds in Hc. rewrite all_true in Hc. specialize (Hc _ Hu).
  cbn in Hc. apply unique_true in Hc. unfold keys_of in Hc.
  assert (Hn' : has_null ks r' = false) by (unfold has_null in *; by rewrite <- E).
  eapply fmap_inj_elem; [exact Hc| | |exact E]; apply elem_of_list_filter; by rewrite ?Hn, ?Hn'.
Qed.

(** A table has each row once: its identifiers are unique. *)
Lemma table_nodup c t : consistent c = true → t ∈ Tables.schema → Unique ["id"] ∈ items t →
  required "id" (String_ 36) ∈ items t → NoDup (c (table_name t)).
Proof.
  intros Hc Ht Hu Hq. unfold consistent in Hc. rewrite all_true in Hc.
  specialize (Hc t Ht). unfold table_holds in Hc. rewrite all_true in Hc.
  pose proof (Hc _ Hu) as Hk. specialize (Hc _ Hq). cbn in Hc, Hk. apply unique_true in Hk.
  rewrite all_true in Hc.
  assert (List.filter (fun r => negb (has_null ["id"] r)) (c (table_name t)) = c (table_name t)) as E.
  { revert Hc. clear. induction (c (table_name t)) as [|r l IH]; [done|]. intros Hc. cbn [List.filter].
    replace (has_null ["id"] r) with false; cbn [negb].
    - f_equal. apply IH. intros x Hx. apply Hc. by right.
    - symmetry. unfold has_null, cols. cbn. apply mem_false. rewrite list_elem_of_singleton.
      specialize (Hc r (list_elem_of_here _ _)). apply negb_true_iff, bool_decide_eq_false in Hc. congruence. }
  unfold keys_of in Hk. rewrite E in Hk. by apply NoDup_fmap_1 in Hk.
Qed.

Lemma only_row (p : row → bool) l r : NoDup l → r ∈ l → p r = true →
  (∀ r', r' ∈ l → p r' = true → r' = r) → List.filter p l = [r].
Proof.
  intros Hn Hr Hp Hu. induction l as [|x l IH]; [by apply elem_of_nil in Hr|].
  apply NoDup_cons in Hn as [Hx Hn]. cbn. apply elem_of_cons in Hr as [<-|Hr].
  - rewrite Hp. f_equal.
    destruct (List.filter p l) as [|y l'] eqn:E; [done|].
    assert (y ∈ List.filter p l) as [Hy Hpy]%elem_of_list_filter by (rewrite E; left).
    rewrite (Hu y) in Hy; [done|by right|done].
  - destruct (p x) eqn:Ex; [|apply IH; [done|done|]; intros; apply Hu; [by right|done]].
    rewrite (Hu x) in Hx; [done|by left|done].
Qed.
