(* ===== verification/RepositoryCommands.v ===== *)
(** * The audit chain of the relational store

    [chained_for own c]: the rows of the tenant [own] in [audit_events] are, in
    the order of their sequence numbers, events that verify as one chain.
    Appending an event of any tenant keeps it, so every operation of the
    repository does: [command] has a constructor for each operation that
    writes, and [run_history] runs them, alone or in a transaction of the
    application, past the ones that raise. *)

From stdpp Require Import sorting.
From S2P Require Import Prelude PyStr Effects PyDict PyFloat Json Sha256 Transitions Values Goals.
From S2P Require Import Execution ExecutionObjects Digests Identity Improvement EvaluationDomain.
From S2P Require Import Calendar ContextDomain AuditChain Capability Verification Uuids Rows.
From S2P Require Import Isolation Codec Inserts CodecProofs Schema Database RepositoryCore.
From S2P Require Import RepositoryRuns RepositoryExecution RepositoryLogic.
From Stdlib Require Import ZArith.

Import Tables.
Open Scope string_scope.
Open Scope list_scope.
Open Scope Z_scope.

(** ** Sorting *)

Lemma sorted_by_position {A} (R : A → A → Prop) l :
  (∀ i j a b, l !! i = Some a → l !! j = Some b → (i < j)%nat → R a b) → StronglySorted R l.
Proof.
  induction l as [|x l IH]; intros H; constructor.
  - apply IH. intros i j a b Hi Hj Hij. apply (H (S i) (S j)); [done|done|lia].
  - apply list.Forall_lookup. intros i y Hy. apply (H 0%nat (S i)); [done|done|lia].
Qed.

Lemma order_by_unique (le : row → row → bool) l rs :
  (∀ a b, le a b = true ∨ le b a = true) →
  (∀ a b c, le a b = true → le b c = true → le a c = true) →
  l ≡ₚ rs → StronglySorted (fun a b => le a b = true) rs →
  (∀ a b, a ∈ rs → b ∈ rs → le a b = true → le b a = true → a = b) →
  order_by le l = rs.
Proof.
  intros Htot Htrans Hp Hs Hanti. unfold order_by.
  assert (@merge_sort _ (fun a b => le a b = true) (fun a b => decide (le a b = true)) l ≡ₚ rs) as Hm
    by (by rewrite merge_sort_Permutation).
  eapply StronglySorted_unique_strong; [|apply StronglySorted_merge_sort; [exact Htrans|exact Htot]
                                        |exact Hs|exact Hm].
  intros a b Ha Hb. apply Hanti; [by rewrite <- Hm|done].
Qed.

(** ** Rows of a chain *)

Record stored_event (r : row) (e : AuditEvent.t) : Prop := {
  event_read : audit_from_row r = Ok e;
  event_number : ∃ n, AuditEvent.sequence e = Some n ∧ alist_get "sequence" r = Some (c_int n);
  event_hash : ∃ d, AuditEvent.event_digest e = Some d ∧ alist_get "event_digest" r = Some (c_str d)
}.

Definition tenant_chain (p : row → bool) (rows : list row) : Prop :=
  ∃ rs es, List.filter p rows ≡ₚ rs ∧ Forall2 stored_event rs es ∧
           verify_links genesis 1 es = Ok true.

Definition chained_for (own : uuid) (c : content) : Prop :=
  tenant_chain (of_tenant own) (c (table_name audit_events)).

#[export] Instance chained_for_proper own : Proper (same_rows ==> iff) (chained_for own).
Proof.
  assert (∀ c c', same_rows c c' → chained_for own c → chained_for own c') as Hi.
  { intros c c' E (rs & es & Hp & Hf & Hv). exists rs, es.
    split; [|done]. by rewrite <- Hp, (filter_permutation _ _ _ (E _)). }
  intros c c' E. split; apply Hi; [done|by symmetry].
Qed.

Lemma links_sequence previous n es i e :
  verify_links previous n es = Ok true → es !! i = Some e →
  AuditEvent.sequence e = Some (n + Z.of_nat i).
Proof.
  revert previous n i. induction es as [|e' es IH]; [done|]. intros previous n [|i] Hv Hi;
    apply verify_links_cons in Hv as (t & Hs & _ & _ & _ & _ & _ & _ & Hv).
  - injection Hi as <-. by rewrite Hs, Z.add_0_r.
  - rewrite (IH _ _ _ Hv Hi). f_equal. lia.
Qed.

Section chain.
Context (rs : list row) (es : list AuditEvent.t).
Hypothesis stored : Forall2 stored_event rs es.
Hypothesis links : verify_links genesis 1 es = Ok true.

(** The row at position [i] has the sequence number [1 + i]. *)
Lemma row_number i r : rs !! i = Some r → alist_get "sequence" r = Some (c_int (1 + Z.of_nat i)).
Proof using stored links.
  intros Hr. destruct (Forall2_lookup_l _ _ _ _ _ stored Hr) as (e & He & Hs).
  destruct (event_number _ _ Hs) as (n & Hn & ->).
  rewrite (links_sequence _ _ _ _ _ links He) in Hn. by injection Hn as <-.
Qed.

Lemma row_sequence i r : rs !! i = Some r →
  int_of (col "sequence" r) = 1 + Z.of_nat i ∧ is_null "sequence" r = false.
Proof using stored links. intros Hr. unfold is_null. by rewrite (col_has _ _ _ (row_number i r Hr)). Qed.

Lemma same_sequence a b : a ∈ rs → b ∈ rs →
  int_of (col "sequence" a) = int_of (col "sequence" b) → a = b.
Proof using stored links.
  intros [i Ha]%list_elem_of_lookup [j Hb]%list_elem_of_lookup E.
  destruct (row_sequence _ _ Ha) as [Ea _]. destruct (row_sequence _ _ Hb) as [Eb _].
  replace j with i in Hb by lia. congruence.
Qed.

(** [ORDER BY sequence] lists the chain. *)
Lemma ordered_chain l : l ≡ₚ rs → order_by sequence_asc l = rs.
Proof using stored links.
  intros Hp. apply order_by_unique; [| |done|..]; unfold sequence_asc.
  - intros a b. destruct (is_null "sequence" a), (is_null "sequence" b); cbn; auto. lia.
  - intros a b c. destruct (is_null "sequence" a), (is_null "sequence" b), (is_null "sequence" c);
      cbn; try done. lia.
  - apply sorted_by_position. intros i j a b Ha Hb Hij.
    destruct (row_sequence _ _ Ha) as [-> ->]. destruct (row_sequence _ _ Hb) as [-> ->]. cbn. lia.
  - intros a b Ha Hb H1 H2. apply same_sequence; [done..|].
    apply list_elem_of_lookup in Ha as [i Ha], Hb as [j Hb].
    destruct (row_sequence _ _ Ha) as [Ea Na]. destruct (row_sequence _ _ Hb) as [Eb Nb].
    rewrite Na, Nb in *. cbn in *. lia.
Qed.

(** [ORDER BY sequence DESC LIMIT 1] finds its last row. *)
Lemma latest_of_chain l : l ≡ₚ rs →
  one_or_none (take 1 (order_by sequence_desc l)) = Ok (last rs).
Proof using stored links.
  intros Hp. replace (order_by sequence_desc l) with (reverse rs).
  - destruct rs as [|r rs' _] using rev_ind; [done|]. by rewrite reverse_snoc, last_snoc.
  - symmetry. apply order_by_unique; [| |by rewrite reverse_Permutation|..]; unfold sequence_desc.
    + lia.
    + lia.
    + apply sorted_by_position. intros i j a b Ha Hb Hij.
      assert (Hl : ∀ k x, reverse rs !! k = Some x → (k < length rs)%nat)
        by (intros k x Hx; apply lookup_lt_Some in Hx; by rewrite length_reverse in Hx).
      pose proof (Hl _ _ Ha). pose proof (Hl _ _ Hb). rewrite reverse_lookup in Ha, Hb by done.
      destruct (row_sequence _ _ Ha) as [-> _]. destruct (row_sequence _ _ Hb) as [-> _].
      clear -Hij H H0. apply Z.leb_le. lia.
    + intros a b Ha Hb H1 H2. rewrite elem_of_reverse in Ha, Hb. apply same_sequence; [done..|]. lia.
Qed.
End chain.

(** ** Appending *)

Record audit_ok (x : AuditEvent.t) : Prop := {
  audit_tenant : uuid_ok (AuditEvent.tenant_id x);
  audit_actor : uuid_ok (AuditEvent.actor_id x);
  audit_principal : uuid_ok (AuditEvent.principal_id x);
  audit_correlation : uuid_ok (AuditEvent.correlation_id x);
  audit_event : uuid_ok (AuditEvent.event_id x)
}.

(** The stored row of a chained event reads back as the event. *)
Lemma chained_stored audit n previous t e r : audit_ok audit →
  AuditEvent.chained audit n previous t = Ok e → has r (audit_values e t) → stored_event r e.
Proof.
  intros [? ? ? ? ?] Hc H. unfold AuditEvent.chained in Hc. inv_ok.
  unfold audit_values in H. cbn [AuditEvent.tenant_id AuditEvent.actor_id AuditEvent.principal_id
    AuditEvent.correlation_id AuditEvent.event_id set_field] in H. split_columns H.
  split; [|by eexists|by eexists]. unfold audit_from_row. decode. done.
Qed.

Lemma audit_row_has e t : has (complete audit_events (audit_values e t)) (audit_values e t).
Proof. apply complete_has; reflexivity. Qed.

Lemma stored_chained rs es r : Forall2 stored_event rs es → last rs = Some r →
  ∃ e, last es = Some e ∧ stored_event r e.
Proof.
  intros Hf Hr. destruct rs as [|x rs _] using rev_ind; [done|]. rewrite last_snoc in Hr.
  injection Hr as ->. apply Forall2_app_inv_l in Hf as (es1 & es2 & _ & Hf & ->).
  apply Forall2_cons_inv_l in Hf as (e & es3 & He & Hf & ->). apply Forall2_nil_inv_l in Hf as ->.
  exists e. by rewrite last_snoc.
Qed.

(** What [_add_audit] reads of the last row is what [next_link] continues. *)
Lemma link_read rs es audit t : Forall2 stored_event rs es → verify_links genesis 1 es = Ok true →
  (sequence ← match last rs with
              | Some row => n ← int_column row "sequence"; Ok (n + 1)
              | None => Ok 1
              end;
   previous_digest ← match last rs with
                     | Some row => str_column row "event_digest"
                     | None => Ok genesis
                     end;
   AuditEvent.chained audit sequence previous_digest t) = next_link es audit t.
Proof.
  intros Hf Hv. unfold next_link. destruct (last rs) as [r|] eqn:Hr.
  - destruct (stored_chained _ _ _ Hf Hr) as (e & He & Hs). rewrite He.
    destruct (event_number _ _ Hs) as (n & Hn & Hcn). destruct (event_hash _ _ Hs) as (d & Hd & Hcd).
    rewrite (int_column_at _ _ _ Hcn), (str_column_at _ _ _ Hcd), Hn, Hd. cbn [mbind res_bind default].
    assert (empty d = false) as ->; [|done].
    apply last_Some in He as [es' ->]. apply verify_links_app in Hv as [_ Hv].
    apply verify_links_cons in Hv as (t' & _ & _ & _ & _ & _ & _ & Hd' & _).
    rewrite Hd in Hd'. injection Hd' as ->. apply sha256_hex_nonempty.
  - apply last_None in Hr as ->. apply Forall2_nil_inv_l in Hf as ->. done.
Qed.

(** One chain more: the rows of the tenant of [e], with its row. *)
Lemma chain_grows c e r rs es p : stored_event r e → p r = true →
  List.filter p c ≡ₚ rs → Forall2 stored_event rs es → verify_links genesis 1 (es ++ [e]) = Ok true →
  tenant_chain p (r :: c).
Proof.
  intros Hs Hp Hrs Hf Hv. exists (rs ++ [r]), (es ++ [e]). split_and!; [|by apply Forall2_app; [|constructor]|done].
  cbn. rewrite Hp, Hrs. by rewrite Permutation_cons_append.
Qed.

Section append.
Context {DB : Type} `{DatabaseLaws DB} (F : uuid → Prop).
Notation MR := (M (session DB)).

Lemma chained_rows_filter t l : Forall (fun r => of_tenant t r = true → chained_rows t r = true) l →
  List.filter (chained_rows t) l = List.filter (of_tenant t) l.
Proof.
  induction 1 as [|r l Hr _ IH]; [done|]. cbn [List.filter]. rewrite IH.
  destruct (of_tenant t r) eqn:E; [by rewrite Hr|].
  unfold chained_rows. change (matches _ r) with (of_tenant t r). by rewrite E.
Qed.

(** In a chained content, the rows [_add_audit] looks at are the chain. *)
Lemma chain_select t c rs es : List.filter (of_tenant t) c ≡ₚ rs → Forall2 stored_event rs es →
  List.filter (chained_rows t) c ≡ₚ rs.
Proof.
  intros Hp Hf. rewrite chained_rows_filter; [done|]. apply Forall_forall. intros r Hr Ht.
  assert (r ∈ rs) as [i Hi]%list_elem_of_lookup by (rewrite <- Hp; by apply elem_of_list_filter).
  destruct (Forall2_lookup_l _ _ _ _ _ Hf Hi) as (e & _ & Hs). unfold chained_rows, is_null.
  destruct (event_number _ _ Hs) as (n & _ & Hn). destruct (event_hash _ _ Hs) as (d & _ & Hd).
  change (matches _ r) with (of_tenant t r).
  by rewrite Ht, (col_has _ _ _ Hn), (col_has _ _ _ Hd).
Qed.

Lemma chained_tenant audit n previous t e : AuditEvent.chained audit n previous t = Ok e →
  AuditEvent.tenant_id e = AuditEvent.tenant_id audit.
Proof. unfold AuditEvent.chained. intros. by inv_ok. Qed.

(** An event of another tenant is no row of [own]. *)
Lemma other_chain own audit n previous t e c :
  c_uuid own ≠ c_uuid (AuditEvent.tenant_id audit) →
  AuditEvent.chained audit n previous t = Ok e → chained_for own c →
  chained_for own (add_row audit_events (complete audit_events (audit_values e t)) c).
Proof.
  intros Hne He (rs & es & Hp & Hfv). exists rs, es. split; [|done].
  rewrite add_row_at. cbn [List.filter].
  rewrite of_tenant_col, bool_decide_eq_false_2; [done|]. intros E. apply Hne.
  rewrite <- E, <- (chained_tenant _ _ _ _ _ He). reflexivity.
Qed.

Lemma own_chain own audit n previous t e c rs es :
  c_uuid own = c_uuid (AuditEvent.tenant_id audit) → audit_ok audit →
  AuditEvent.chained audit n previous t = Ok e →
  List.filter (of_tenant own) (c (table_name audit_events)) ≡ₚ rs → Forall2 stored_event rs es →
  verify_links genesis 1 (es ++ [e]) = Ok true →
  chained_for own (add_row audit_events (complete audit_events (audit_values e t)) c).
Proof.
  intros E Ha He Hp Hf Hv. unfold chained_for. rewrite add_row_at.
  pose proof (chained_stored _ _ _ _ _ _ Ha He (audit_row_has e t)) as Hst.
  apply (chain_grows _ e _ rs es); [done| |done..].
  rewrite of_tenant_col, bool_decide_eq_true_2; [done|]. rewrite E, <- (chained_tenant _ _ _ _ _ He).
  reflexivity.
Qed.

Lemma add_audit_chains own audit t s : audit_ok audit → chained_for own (content_now s) →
  wpi F (add_audit audit t) (fun _ s' => chained_for own (content_now s'))
    (fun _ s' => chained_for own (content_now s')) s.
Proof.
  intros Ha Hc. apply wp_bind, wp_select. intros rows Hrows.
  destruct (decide (c_uuid own = c_uuid (AuditEvent.tenant_id audit))) as [E|E].
  - pose proof Hc as (rs & es & Hp & Hf & Hv).
    pose proof (chain_select _ _ _ _ Hp Hf) as Hch.
    assert (rows ≡ₚ rs) as Hr.
    { rewrite Hrows, <- Hch. unfold chained_rows. by rewrite E. }
    pose proof (link_read rs es audit t Hf Hv) as Hlink.
    rewrite (latest_of_chain rs es Hf Hv rows Hr).
    apply wp_bind, wp_lift; [intros ? [= <-]|done].
    apply wp_bind, wp_lift; [intros sequence Hs|done]. rewrite Hs in Hlink. cbn [mbind res_bind] in Hlink.
    apply wp_bind, wp_lift; [intros digest Hd|done]. rewrite Hd in Hlink. cbn [mbind res_bind] in Hlink.
    apply wp_bind, wp_lift; [intros e He|done]. rewrite He in Hlink. symmetry in Hlink.
    apply wp_bind, wp_insert; [|done]. intros s' Hs' _. apply wp_ret. rewrite Hs'.
    eapply own_chain; [done..|by eapply link_verifies].
  - apply wp_bind, wp_lift; [intros latest _|done].
    apply wp_bind, wp_lift; [intros sequence _|done]. apply wp_bind, wp_lift; [intros digest _|done].
    apply wp_bind, wp_lift; [intros e He|done].
    apply wp_bind, wp_insert; [|done]. intros s' Hs' _. apply wp_ret. rewrite Hs'.
    by eapply other_chain.
Qed.
End append.

(** * Histories of the relational repository

    Every operation of [SqlAlchemyPlatformRepository] that writes, as a value,
    and the theorem over all histories of them: whatever transactions the
    application runs, alone or several operations in one, and wherever they
    raise, the audit events of every tenant list as one verified chain. *)

Import Tables.
Open Scope string_scope.
Open Scope list_scope.
Open Scope Z_scope.

(** The configuration tables with their id column. *)
Inductive config_kind := Skill | Tool | Policy | Budget.
Definition config_table (k : config_kind) : table :=
  match k with
  | Skill => skill_versions | Tool => tool_versions | Policy => policy_versions | Budget => budgets
  end.
Definition config_column (k : config_kind) : string :=
  match k with
  | Skill => "skill_id" | Tool => "tool_id" | Policy => "policy_id" | Budget => "budget_id"
  end.

Inductive command :=
  | RecordAudit (audit : AuditEvent.t)
  | InstallPack (tenant_id : uuid) (manifest : CapabilityPackManifest.t) (actor_id : option uuid)
  | SetPackEnabled (tenant_id : uuid) (pack_id version : string) (enabled : bool) (actor_id : uuid)
      (reason : string)
  | RevokePack (tenant_id : uuid) (pack_id version : string) (actor_id : uuid) (reason : string)
  | SetStableChannel (tenant_id : uuid) (pack_id version : string) (actor_id : uuid)
  | AddAgent (name : string) (version : AgentVersion.t)
  | AddConfig (kind : config_kind) (tenant_id : uuid) (asset_id : string) (definition : object)
  | AddGoal (goal : GoalContract.t) (audit : AuditEvent.t)
  | SaveGoal (goal : GoalContract.t) (expected_version : Z) (audit : AuditEvent.t)
  | AddRun (run : Run.t) (audit : AuditEvent.t)
  | SaveRun (run : Run.t) (expected_version : Z) (audit : option AuditEvent.t)
  | AddContextSnapshot (snapshot : ContextSnapshot.t)
  | AddMemory (item : MemoryRecord.t)
  | DeleteMemory (tenant_id memory_id actor_id : uuid)
  | AddTelemetry (item : TenantTelemetryRecord.t)
  | RegisterNamespace (tenant_id : uuid) (resource_kind logical_name physical_namespace : string)
  | AddPlan (plan : Plan.t)
  | SaveTask (task : Task.t) (expected_version : Z)
  | AddAction (action : Action.t)
  | SaveAction (action : Action.t) (expected_version : Z)
  | AddActionAttempt (attempt : ActionAttempt.t)
  | AddApproval (approval : ApprovalRequest.t)
  | SaveApproval (approval : ApprovalRequest.t) (expected_version : Z)
  | AddEvidence (item : Evidence.t)
  | StartEvidenceCapture (saga : EvidenceCaptureSaga.t)
  | CompleteEvidenceCapture (tenant_id evidence_id : uuid)
  | RecordEvidenceDeletion (record : EvidenceDeletionRecord.t)
  | AddOutcome (item : Outcome.t)
  | RecordBudgetEntry (tenant_id run_id : uuid) (category : string) (amount : BudgetAmount.t)
      (reference : string)
  | AddTrial (trial : Trial.t)
  | AddSuite (tenant_id : uuid) (suite : EvaluationSuite.t)
  | AddEvaluationRecord (record : CandidateEvaluation.t)
  | AddProposal (proposal : ImprovementProposal.t)
  | AddCandidate (candidate : CandidateVersion.t)
  | SaveCandidate (candidate : CandidateVersion.t)
  | AddDeployment (deployment : Deployment.t)
  | SaveDeployment (deployment : Deployment.t)
  | SaveObservation (observation : DeploymentObservation.t)
  | AddShadowComparison (comparison : ShadowComparison.t)
  | AddRelease (release : Release.t)
  | PutIdempotency (tenant_id : uuid) (key : string) (external_id : uuid)
      (request_digest : option string).

(** The tenant a command is for. *)
Definition tenant_of_command (c : command) : uuid :=
  match c with
  | RecordAudit audit => AuditEvent.tenant_id audit
  | InstallPack t _ _ | SetPackEnabled t _ _ _ _ _ | RevokePack t _ _ _ _ | SetStableChannel t _ _ _
  | AddConfig _ t _ _ | DeleteMemory t _ _ | RegisterNamespace t _ _ _ | CompleteEvidenceCapture t _
  | RecordBudgetEntry t _ _ _ _ | AddSuite t _ | PutIdempotency t _ _ _ => t
  | AddAgent _ version => AgentVersion.tenant_id version
  | AddGoal goal _ | SaveGoal goal _ _ => GoalContract.tenant_id goal
  | AddRun run _ | SaveRun run _ _ => Run.tenant_id run
  | AddContextSnapshot snapshot => ContextSnapshot.tenant_id snapshot
  | AddMemory item => MemoryRecord.tenant_id item
  | AddTelemetry item => TenantTelemetryRecord.tenant_id item
  | AddPlan plan => Plan.tenant_id plan
  | SaveTask task _ => Task.tenant_id task
  | AddAction action | SaveAction action _ => Action.tenant_id action
  | AddActionAttempt attempt => ActionAttempt.tenant_id attempt
  | AddApproval approval | SaveApproval approval _ => ApprovalRequest.tenant_id approval
  | AddEvidence item => Evidence.tenant_id item
  | StartEvidenceCapture saga => EvidenceCaptureSaga.tenant_id saga
  | RecordEvidenceDeletion record => EvidenceDeletionRecord.tenant_id record
  | AddOutcome item => Outcome.tenant_id item
  | AddTrial trial => Trial.tenant_id trial
  | AddEvaluationRecord record => CandidateEvaluation.tenant_id record
  | AddProposal proposal => ImprovementProposal.tenant_id proposal
  | AddCandidate candidate | SaveCandidate candidate => CandidateVersion.tenant_id candidate
  | AddDeployment deployment | SaveDeployment deployment => Deployment.tenant_id deployment
  | SaveObservation observation => DeploymentObservation.tenant_id observation
  | AddShadowComparison comparison => ShadowComparison.tenant_id comparison
  | AddRelease release => Release.tenant_id release
  end.

(** The identifiers an audit event of the command carries have 128 bits. *)
Definition command_ok (c : command) : Prop :=
  uuid_ok (tenant_of_command c) ∧
  match c with
  | RecordAudit audit | AddGoal _ audit | SaveGoal _ _ audit | AddRun _ audit
  | SaveRun _ _ (Some audit) => audit_ok audit
  | InstallPack _ _ actor_id => if_some uuid_ok actor_id
  | SetPackEnabled _ _ _ _ actor_id _ | RevokePack _ _ _ actor_id _
  | SetStableChannel _ _ _ actor_id => uuid_ok actor_id
  | _ => True
  end.

Section commands.
Context {DB : Type} `{DatabaseLaws DB}.
Notation MR := (M (session DB)).

Definition run_command (c : command) : MR unit :=
  match c with
  | RecordAudit audit => record_audit audit
  | InstallPack t manifest actor_id => install_pack t manifest actor_id
  | SetPackEnabled t pack_id version enabled actor_id reason =>
      set_pack_enabled t pack_id version enabled actor_id reason
  | RevokePack t pack_id version actor_id reason => revoke_pack t pack_id version actor_id reason
  | SetStableChannel t pack_id version actor_id => set_stable_channel t pack_id version actor_id
  | AddAgent name version => add_agent name version
  | AddConfig k t asset_id definition =>
      add_config_asset (config_table k) (config_column k) t asset_id definition ;; mret tt
  | AddGoal goal audit => add_goal goal audit
  | SaveGoal goal expected audit => save_goal goal expected audit
  | AddRun run audit => add_run run audit
  | SaveRun run expected audit => save_run run expected audit
  | AddContextSnapshot snapshot => add_context_snapshot snapshot
  | AddMemory item => add_memory item
  | DeleteMemory t memory_id actor_id => delete_memory t memory_id actor_id ;; mret tt
  | AddTelemetry item => add_telemetry item
  | RegisterNamespace t kind logical physical =>
      register_tenant_namespace t kind logical physical ;; mret tt
  | AddPlan plan => add_plan plan
  | SaveTask task expected => save_task task expected
  | AddAction action => add_action action
  | SaveAction action expected => save_action action expected
  | AddActionAttempt attempt => add_action_attempt attempt
  | AddApproval approval => add_approval approval
  | SaveApproval approval expected => save_approval approval expected
  | AddEvidence item => add_evidence item
  | StartEvidenceCapture saga => start_evidence_capture saga
  | CompleteEvidenceCapture t evidence_id => complete_evidence_capture t evidence_id
  | RecordEvidenceDeletion record => record_evidence_deletion record
  | AddOutcome item => add_outcome item
  | RecordBudgetEntry t run_id category amount reference =>
      record_budget_entry t run_id category amount reference ;; mret tt
  | AddTrial trial => add_trial trial
  | AddSuite t suite => add_suite t suite
  | AddEvaluationRecord record => add_evaluation_record record
  | AddProposal proposal => add_proposal proposal
  | AddCandidate candidate => add_candidate candidate
  | SaveCandidate candidate => save_candidate candidate
  | AddDeployment deployment => add_deployment deployment
  | SaveDeployment deployment => save_deployment deployment
  | SaveObservation observation => save_observation observation
  | AddShadowComparison comparison => add_shadow_comparison comparison
  | AddRelease release => add_release release
  | PutIdempotency t key external_id digest => put_idempotency t key external_id digest
  end.

Lemma command_steady F c : steady F (run_command c).
Proof. destruct c; cbn [run_command]; repeat steady_step. Qed.

(** ** Every command keeps the chains *)

Section chains.
Context (own : uuid).
Notation kept := (preserves uuid_ok (chained_for own)).

Lemma chain_kept_insert t v : table_name t ≠ "audit_events" → kept (insert t v).
Proof. intros Ht. apply preserves_insert; [apply _..|]. intros c Hc. unfold chained_for. by rewrite add_row_other. Qed.
Lemma chain_kept_update t p f : table_name t ≠ "audit_events" → kept (update t p f).
Proof. intros Ht. apply preserves_update; [apply _..|]. intros c Hc. unfold chained_for. by rewrite revise_other. Qed.
Lemma chain_kept_delete t p : table_name t ≠ "audit_events" → kept (delete t p).
Proof. intros Ht. apply preserves_delete; [apply _..|]. intros c Hc. unfold chained_for. by rewrite remove_other. Qed.

Lemma chain_kept_append audit t : audit_ok audit → kept (add_audit_and_outbox audit t).
Proof.
  intros Ha. apply preserves_bind; [intros s Hs; by apply add_audit_chains|]. intros e.
  unfold add_outbox. repeat preserve_step. by apply chain_kept_insert.
Qed.

Lemma chain_kept_fact tenant event_type object_type object_id version t actor details :
  uuid_ok tenant → if_some uuid_ok actor →
  kept (record_fact tenant event_type object_type object_id version t actor details).
Proof.
  intros Ht Ha. unfold record_fact. repeat preserve_step. apply chain_kept_append.
  assert (uuid_ok (default 0%N actor)) by (destruct actor; [by apply Ha|done]). by split.
Qed.

Lemma chain_kept_record tenant event_type object_type object_id version t : uuid_ok tenant →
  kept (record tenant event_type object_type object_id version t).
Proof. intros Ht. by apply chain_kept_fact. Qed.

Ltac kept_leaf :=
  lazymatch goal with
  | |- preserves _ _ (insert _ _) => apply chain_kept_insert; try discriminate
  | |- preserves _ _ (update _ _ _) => apply chain_kept_update; try discriminate
  | |- preserves _ _ (delete _ _) => apply chain_kept_delete; try discriminate
  | |- preserves _ _ (record _ _ _ _ _ _) => apply chain_kept_record
  | |- preserves _ _ (record_fact _ _ _ _ _ _ _ _) => apply chain_kept_fact
  | |- preserves _ _ (add_audit_and_outbox _ _) => apply chain_kept_append
  | |- preserves _ _ ?m => let f := head_of m in unfold f
  end.

Lemma command_keeps_chain c : command_ok c → kept (run_command c).
Proof.
  intros [Ht Hc].
  destruct c; cbn [run_command tenant_of_command] in *;
  repeat first [preserve_step | progress kept_leaf | done].
  - by intros ? [= <-].
  - by intros ? [= <-].
  - by intros ? [= <-].
  - by destruct kind.
Qed.

End chains.

(** ** Histories *)

(** An operation in a transaction of its own, or several in one transaction of
    the application.  One that raises changes nothing; the history goes on. *)
Inductive step := Alone (c : command) | Together (cs : list command).

Definition step_ok (x : step) : Prop :=
  match x with Alone c => command_ok c | Together cs => Forall command_ok cs end.

Definition run_step (x : step) : MR unit :=
  match x with
  | Alone c => run_command c
  | Together cs => transaction_ (for_each_m run_command cs)
  end.

Definition run_history (steps : list step) : MR unit :=
  for_each_m (fun x => try_all (run_step x) (fun _ => mret tt)) steps.

Lemma step_keeps_chain own x : step_ok x → preserves uuid_ok (chained_for own) (run_step x).
Proof.
  destruct x as [c|cs]; cbn; intros Hx; [by apply command_keeps_chain|].
  apply preserves_transaction; [apply _|]. apply preserves_for_each. intros c Hc. apply command_keeps_chain.
  rewrite Forall_forall in Hx. by apply Hx.
Qed.

Lemma wp_history I steps s : (∀ x, x ∈ steps → preserves uuid_ok I (run_step x)) →
  I (content_now s) →
  wpi uuid_ok (run_history steps) (fun _ s' => I (content_now s')) (fun _ _ => False) s.
Proof.
  intros Hk Hs. apply (wp_for_each _ _ _ (fun s => I (content_now s))); [done|].
  intros x s' Hx Hs'. apply wp_try_all. eapply wp_mono; [by apply Hk|done|].
  intros e s'' Hs''. by apply wp_ret.
Qed.

(** C30. Whatever the operations of the relational repository are run on a database
    whose tenant has no audit events, and whatever raises on the way, the events it
    then lists for the tenant verify as one hash chain from the genesis digest. *)
Theorem relational_audit_verifies steps tenant s :
  Forall step_ok steps →
  List.filter (of_tenant tenant) (content_now s (table_name audit_events)) = [] →
  wpi uuid_ok (run_history steps ;; list_audit_events tenant)
    (fun events _ => verify_links genesis 1 events = Ok true) (fun _ _ => False) s.
Proof.
  intros Hsteps Hs. apply wp_bind. eapply wp_mono.
  - apply (wp_history (chained_for tenant)).
    + intros x Hx. rewrite Forall_forall in Hsteps. by apply step_keeps_chain, Hsteps.
    + exists [], []. rewrite Hs. split_and!; [done|constructor|done].
  - intros ? s' (rs & es & Hp & Hf & Hv). apply wp_bind, wp_select. intros rows Hrows.
    rewrite (ordered_chain rs es Hf Hv rows) by (by rewrite Hrows).
    assert (mapM_res audit_from_row rs = Ok es) as ->.
    { apply mapM_res_ok. eapply Forall2_impl; [exact Hf|]. intros ? ?; apply event_read. }
    by apply wp_lift; [intros ? [= <-]|].
  - done.
Qed.
End commands.
