(* ===== verification/RepositoryTenants.v ===== *)
(** * Tenants of the relational repository do not touch each other

    Whatever a command of one tenant does, at whatever point it raises, the
    rows of every other tenant are the same afterwards, in every table. *)

From S2P Require Import Prelude PyStr PyDict PyFloat Json Calendar Digests Uuids Transitions.
From S2P Require Import Values Goals Execution ExecutionObjects Identity Improvement.
From S2P Require Import EvaluationDomain ContextDomain Capability Verification AuditChain.
From S2P Require Import Isolation Rows Codec Inserts CodecProofs Schema Effects Database.
From S2P Require Import RepositoryCore RepositoryRuns RepositoryExecution RepositoryLogic.
From S2P Require Import RepositoryCommands.
From Stdlib Require Import ZArith.

Import Tables.
Open Scope string_scope.
Open Scope list_scope.
Open Scope Z_scope.

(** The rows that do not belong to a tenant. *)
Definition foreign (t : uuid) (rows : list row) : list row :=
  List.filter (fun r => negb (of_tenant t r)) rows.

(** The identifiers of the pack rows are written as [str(uuid)] writes them:
    the updates of a pack find its row by identifier alone. *)
Definition pack_ids (c : content) : Prop :=
  ∀ r, r ∈ c (table_name capability_packs) → ∃ u, uuid_ok u ∧ col "id" r = c_uuid u.

Definition isolated (t : uuid) (before after : content) : Prop :=
  pack_ids after ∧ ∀ n, foreign t (after n) ≡ₚ foreign t (before n).

#[export] Instance isolated_proper t c0 : Proper (same_rows ==> iff) (isolated t c0).
Proof.
  assert (∀ c c', same_rows c c' → isolated t c0 c → isolated t c0 c') as Hi.
  { intros c c' E [Hp Hc]. split.
    - intros r Hr. rewrite <- (E _) in Hr. by apply Hp.
    - intros n. rewrite <- (Hc n). symmetry. apply filter_permutation, E. }
  intros c c' E. split; apply Hi; [done|by symmetry].
Qed.

(** The records a command names belong to its tenant. *)
Definition one_tenant (c : command) : Prop :=
  match c with
  | AddGoal goal audit | SaveGoal goal _ audit =>
      AuditEvent.tenant_id audit = GoalContract.tenant_id goal
  | AddRun run audit | SaveRun run _ (Some audit) => AuditEvent.tenant_id audit = Run.tenant_id run
  | AddPlan plan => Forall (fun task => Task.tenant_id task = Plan.tenant_id plan) (Plan.tasks plan)
  | _ => True
  end.

Ltac solve_in := repeat first [apply list_elem_of_here | apply list_elem_of_further].

(** ** Updated rows *)

Lemma assign_col v r k : alist_get k v = None → col k (assign v r) = col k r.
Proof. unfold col. intros Hv. by rewrite assign_get, Hv. Qed.

Lemma bump_col v r k : alist_get k v = None → k ≠ "optimistic_version" → col k (bump v r) = col k r.
Proof.
  intros Hv Hk. apply assign_col. induction v as [|[k' x] v IH]; cbn in *; [by rewrite decide_False|].
  case_decide; [done|by apply IH].
Qed.

Section isolation.
Context {DB : Type} `{DatabaseLaws DB} (t : uuid) (c0 : content).
Notation kept := (preserves_or (DB := DB) uuid_ok (isolated t c0) (isolated t c0)).

Lemma foreign_map p (f : row → row) l :
  (∀ r, r ∈ l → p r = true → of_tenant t r = true) →
  (∀ r, col "tenant_id" (f r) = col "tenant_id" r) →
  foreign t (List.map (fun r => if p r then f r else r) l) = foreign t l.
Proof.
  intros Hp Hf. induction l as [|r l IH]; [done|]. cbn [List.map]. unfold foreign in *. cbn [List.filter].
  rewrite IH by (intros r' Hr'; apply Hp; by right). destruct (p r) eqn:E; [|done].
  assert (of_tenant t r = true) as Hr by (apply Hp; [left|done]).
  assert (of_tenant t (f r) = true) as -> by (by rewrite of_tenant_col, Hf, <- of_tenant_col).
  by rewrite Hr.
Qed.

Lemma foreign_filter p l : (∀ r, p r = true → of_tenant t r = true) →
  foreign t (List.filter (fun r => negb (p r)) l) = foreign t l.
Proof.
  intros Hp. unfold foreign. induction l as [|r l IH]; [done|]. cbn [List.filter].
  destruct (p r) eqn:E; cbn [negb List.filter]; [by rewrite Hp, IH|by rewrite IH].
Qed.

(** ** Statements of the tenant *)

Definition tenant_row (tb : table) (v : row) : Prop :=
  col "tenant_id" (complete tb v) = c_uuid t ∧
  (table_name tb = table_name capability_packs →
   ∃ u, uuid_ok u ∧ col "id" (complete tb v) = c_uuid u).

Lemma isolated_insert tb v : tenant_row tb v → kept (insert tb v).
Proof.
  intros [Ht Hid]. apply preserves_insert; [apply _..|]. intros c [Hp Hc]. split.
  - intros r. destruct (decide (table_name capability_packs = table_name tb)) as [E|E].
    + rewrite E, add_row_at. intros [->|Hr]%elem_of_cons; [by apply Hid|].
      apply Hp. by rewrite E.
    + rewrite add_row_other by done. apply Hp.
  - intros n. rewrite <- Hc. destruct (decide (n = table_name tb)) as [->|E].
    + rewrite add_row_at. unfold foreign. cbn [List.filter]. by rewrite of_tenant_col, Ht, bool_decide_eq_true_2.
    + by rewrite add_row_other.
Qed.

Lemma isolated_revise tb p f c : (∀ r, r ∈ c (table_name tb) → p r = true → of_tenant t r = true) →
  (∀ r, col "tenant_id" (f r) = col "tenant_id" r) → (∀ r, col "id" (f r) = col "id" r) →
  isolated t c0 c → isolated t c0 (revise tb p f c).
Proof.
  intros Hp Hf Hid [Hpk Hc]. split.
  - intros r. destruct (decide (table_name capability_packs = table_name tb)) as [E|E].
    + rewrite E, revise_at. intros (r' & -> & Hr)%list_elem_of_fmap.
      destruct (Hpk r') as (u & Hu & Hr'); [by rewrite E|].
      exists u. split; [done|]. destruct (p r'); [by rewrite Hid|done].
    + rewrite revise_other by done. apply Hpk.
  - intros n. rewrite <- Hc. destruct (decide (n = table_name tb)) as [->|E].
    + rewrite revise_at. by rewrite foreign_map.
    + by rewrite revise_other.
Qed.

Lemma isolated_update tb p v : (∀ r, p r = true → of_tenant t r = true) →
  alist_get "tenant_id" v = None → alist_get "id" v = None → kept (update tb p (assign v)).
Proof.
  intros Hp Hf Hid. apply preserves_update; [apply _..|]. intros c.
  apply isolated_revise; [by auto|by intros; apply assign_col..].
Qed.

Lemma isolated_bump tb p v : (∀ r, p r = true → of_tenant t r = true) →
  alist_get "tenant_id" v = None → alist_get "id" v = None → kept (update tb p (bump v)).
Proof.
  intros Hp Hf Hid. apply preserves_update; [apply _..|]. intros c.
  apply isolated_revise; [by auto|by intros; apply bump_col..].
Qed.

Lemma isolated_delete tb p : (∀ r, p r = true → of_tenant t r = true) → kept (delete tb p).
Proof.
  intros Hp. apply preserves_delete; [apply _..|]. intros c [Hpk Hc]. split.
  - intros r. destruct (decide (table_name capability_packs = table_name tb)) as [E|E].
    + rewrite E, remove_at. intros [Hr _]%elem_of_list_filter. apply Hpk. by rewrite E.
    + rewrite remove_other by done. apply Hpk.
  - intros n. rewrite <- Hc. destruct (decide (n = table_name tb)) as [->|E].
    + rewrite remove_at. by rewrite foreign_filter.
    + by rewrite remove_other.
Qed.

Lemma isolated_audit audit time s : AuditEvent.tenant_id audit = t → isolated t c0 (content_now s) →
  wpi uuid_ok (add_audit audit time)
    (fun e s' => AuditEvent.tenant_id e = t ∧ isolated t c0 (content_now s'))
    (fun _ s' => isolated t c0 (content_now s')) s.
Proof.
  intros Ha Hs. apply wp_bind, wp_select. intros rows _.
  do 3 (apply wp_bind, wp_lift; [intros ? _|done]).
  apply wp_bind, wp_lift; [intros e He|done]. apply chained_tenant in He. rewrite Ha in He.
  apply wp_bind. eapply wp_mono.
  - refine (isolated_insert audit_events _ _ s Hs). split; [by rewrite <- He|done].
  - intros ? s' Hs'. by apply wp_ret.
  - done.
Qed.

Lemma isolated_append audit time : AuditEvent.tenant_id audit = t →
  kept (add_audit_and_outbox audit time).
Proof.
  intros Ha s Hs. apply wp_bind. eapply wp_mono; [by apply isolated_audit| |done].
  intros e s' [He Hs']. assert (kept (add_outbox e time ;; mret e)) as Hk; [|by apply Hk].
  unfold add_outbox. repeat preserve_step. apply isolated_insert. split; [by rewrite <- He|done].
Qed.

Lemma isolated_fact event_type object_type object_id version time actor details :
  kept (record_fact t event_type object_type object_id version time actor details).
Proof. unfold record_fact. repeat preserve_step. by apply isolated_append. Qed.

Lemma col_some r k v : col k r = v → v ≠ NULL → alist_get k r = Some v.
Proof. unfold col. destruct (alist_get k r); cbn; intros; congruence. Qed.

Lemma matches_cons k v l r : matches ((k, v) :: l) r = bool_decide (col k r = v) && matches l r.
Proof. reflexivity. Qed.

Lemma by_id_col u r : by_id u r = true → col "id" r = c_uuid u.
Proof. unfold by_id. rewrite matches_cons. by intros [Hb%bool_decide_eq_true _]%andb_true_iff. Qed.

Lemma pack_row_tenant u pack_id version r : pack_row u pack_id version r = true → of_tenant u r = true.
Proof.
  unfold pack_row. rewrite matches_cons, of_tenant_col. by intros [-> _]%andb_true_iff.
Qed.

(** ** Packs, which an update finds by the identifier it read *)

Lemma isolated_pack {A} pack_id version v (k : uuid → M (session DB) A) :
  alist_get "tenant_id" v = None → alist_get "id" v = None → (∀ u, kept (k u)) →
  kept (u ← pack_record_id t pack_id version;
        update capability_packs (by_id u) (assign v) ;; k u).
Proof.
  intros Ht Hid Hk s Hs. apply wp_bind. unfold pack_record_id. apply wp_bind, wp_select.
  intros rows Hrows. destruct rows as [|r rows]; cbn; [by apply wp_lift|].
  apply wp_lift; [intros u Hu|done].
  assert (r ∈ content_now s (table_name capability_packs) ∧
          pack_row t pack_id version r = true) as [Hr Hp].
  { apply elem_of_list_filter. rewrite <- Hrows. left. }
  assert (col "id" r = c_uuid u) as Hcol.
  { destruct Hs as [Hpk _]. destruct (Hpk r Hr) as (u' & Hu' & E). rewrite E. f_equal.
    assert (uuid_column r "id" = Ok u') as Hu'' by (apply uuid_column_at; [by apply col_some|done]).
    congruence. }
  apply wp_bind, wp_update; [|done]. intros s' Hs' _. apply Hk. rewrite Hs'. apply isolated_revise; [|by intros; apply assign_col..|done].
  intros r' Hr' Hby%by_id_col. assert (r = r') as <-; [|exact (pack_row_tenant _ _ _ _ Hp)].
  eapply (unique_rows _ capability_packs ["id"]); [apply database_consistent|..|done|done| |].
  - solve_in.
  - solve_in.
  - unfold has_null, cols. cbn [fmap list_fmap]. by rewrite Hcol.
  - unfold cols. cbn [fmap list_fmap]. by rewrite Hcol, Hby.
Qed.

Lemma matches_tenant l r : ("tenant_id", c_uuid t) ∈ l → matches l r = true → of_tenant t r = true.
Proof.
  unfold matches. rewrite all_true. intros Hl Hr. specialize (Hr _ Hl). by rewrite of_tenant_col.
Qed.

End isolation.

(** The rows a predicate of the tenant selects. *)
Ltac tenant_rows Hp :=
  cbv beta in Hp;
  first [exact Hp | by (eapply matches_tenant; [|exact Hp]; solve_in)
        |apply andb_true_iff in Hp as [Hp _]; tenant_rows Hp].

(** The columns of a statement whose values could fail. *)
Ltac values_of :=
  match goal with
  | He : ?e = Ok ?a |- context [?a] => let f := head_of e in unfold f in He; inv_ok; reflexivity
  end.

Ltac isolated_leaf :=
  lazymatch goal with
  | |- preserves _ _ (insert _ _) => apply isolated_insert; split; [first [done|values_of|idtac]|try discriminate]
  | |- preserves _ _ (update _ _ (assign _)) => apply isolated_update; [let Hp := fresh in intros ? Hp; try tenant_rows Hp|first [done|values_of|idtac]..]
  | |- preserves _ _ (update _ _ (bump _)) => apply isolated_bump; [let Hp := fresh in intros ? Hp; try tenant_rows Hp|done..]
  | |- preserves _ _ (delete _ _) => apply isolated_delete; let Hp := fresh in intros ? Hp; try tenant_rows Hp
  | |- preserves _ _ (record_fact _ _ _ _ _ _ _ _) => apply isolated_fact
  | |- preserves _ _ (add_audit_and_outbox _ _) => apply isolated_append
  | |- preserves _ _ ?m => let f := head_of m in unfold f
  end.

Section commands.
Context {DB : Type} `{DatabaseLaws DB} (c0 : content).

Lemma command_isolated c : command_ok c → one_tenant c →
  preserves uuid_ok (isolated (tenant_of_command c) c0) (run_command c).
Proof.
  intros [Hok _] Hone.
  destruct c; cbn [run_command tenant_of_command one_tenant] in *;
  repeat first [apply isolated_pack; [reflexivity..|intros ?] | preserve_step | progress isolated_leaf | done].
  - intros _. by exists u.
  - by destruct kind.
  - by destruct kind.
  - rewrite Forall_forall in Hone. by rewrite <- (Hone x) by done.
  - match goal with Hc : conflicting _ _ _ _ = true |- _ =>
      apply bool_decide_eq_true in Hc; injection Hc as Ht _ _ _ end.
    rewrite of_tenant_col, Ht. by apply bool_decide_eq_true.
Qed.

(** ** Histories of a tenant *)

Definition of_one_tenant (t : uuid) (c : command) : Prop :=
  command_ok c ∧ one_tenant c ∧ tenant_of_command c = t.

Definition commands_of (x : step) : list command :=
  match x with Alone c => [c] | Together cs => cs end.

Lemma step_isolated t x : Forall (of_one_tenant t) (commands_of x) →
  preserves uuid_ok (isolated t c0) (run_step x).
Proof.
  rewrite Forall_forall. intros Hx. destruct x as [c|cs]; cbn in *.
  - destruct (Hx c) as (Hok & Hone & <-); [left|]. by apply command_isolated.
  - apply preserves_transaction; [apply _|]. apply preserves_for_each. intros c Hc.
    destruct (Hx c Hc) as (Hok & Hone & <-). by apply command_isolated.
Qed.
End commands.

Section theorem.
Context {DB : Type} `{DatabaseLaws DB}.

(** C31. A history of operations of one tenant leaves every row of the other tenants
    in every table of the relational database as it was. *)
Theorem tenants_do_not_interfere steps t s :
  Forall (fun x => Forall (of_one_tenant t) (commands_of x)) steps →
  pack_ids (content_now s) →
  wpi uuid_ok (run_history (DB := DB) steps)
    (fun _ s' => ∀ n, foreign t (content_now s' n) ≡ₚ foreign t (content_now s n))
    (fun _ _ => False) s.
Proof.
  rewrite Forall_forall. intros Hsteps Hs. eapply wp_mono.
  - apply (wp_history (isolated t (content_now s))); [|by split].
    intros x Hx. apply step_isolated. by apply Hsteps.
  - by intros ? s' [_ Hc].
  - done.
Qed.
End theorem.
