(* ===== verification/RepositoryProofs.v ===== *)
(** * What the relational repository promises of single records

    [Persisted R] is the interface between the codecs and the statements: where
    the records of [R] live, the columns an insert writes and the reader that
    gives them back.  The theorems about records are proved against it. *)

From S2P Require Import Prelude PyStr PyDict PyFloat Json Calendar Digests Uuids Transitions.
From S2P Require Import Values Goals Execution ExecutionObjects Identity Improvement.
From S2P Require Import EvaluationDomain ContextDomain Capability Verification AuditChain.
From S2P Require Import Isolation Rows Codec Inserts CodecProofs Schema Effects Database.
From S2P Require Import RepositoryCore RepositoryRuns RepositoryExecution RepositoryLogic.
From S2P Require Import RepositoryCommands RepositoryTenants.
From Stdlib Require Import ZArith.

Import Tables.
Open Scope string_scope.
Open Scope list_scope.
Open Scope Z_scope.

(** ** One row *)

(** [r] is the row of the table that [p] selects, and the only one. *)
Definition the_row (tb : table) (p : row → bool) (r : row) (c : content) : Prop :=
  List.filter p (c (table_name tb)) = [r].

Lemma the_row_permutation tb p r c c' : c' (table_name tb) ≡ₚ c (table_name tb) →
  the_row tb p r c → the_row tb p r c'.
Proof.
  unfold the_row. intros E Hr. apply (filter_permutation p) in E. rewrite Hr in E.
  by apply Permutation_singleton_r.
Qed.

#[export] Instance the_row_proper tb p r : Proper (same_rows ==> iff) (the_row tb p r).
Proof. intros c c' E. split; apply the_row_permutation; by rewrite (E _). Qed.

(** The inserted row is the one its identifier selects. *)
Lemma the_row_inserted tb v id tenant c :
  consistent (add_row tb (complete tb v) c) = true → tb ∈ Tables.schema →
  Unique ["id"] ∈ items tb → required "id" (String_ 36) ∈ items tb →
  col "id" (complete tb v) = c_uuid id → col "tenant_id" (complete tb v) = c_uuid tenant →
  the_row tb (row_of id tenant) (complete tb v) (add_row tb (complete tb v) c).
Proof.
  intros Hc Ht Hu Hq Hid Hte. apply only_row.
  - by apply table_nodup.
  - rewrite add_row_at. left.
  - unfold row_of. rewrite !matches_cons, Hid, Hte. by rewrite !bool_decide_eq_true_2.
  - intros r' Hr' Hp. symmetry. eapply unique_rows; [exact Hc|exact Ht|exact Hu| |exact Hr'| |].
    + rewrite add_row_at. left.
    + unfold has_null, cols. cbn [fmap list_fmap]. by rewrite Hid.
    + unfold row_of in Hp. rewrite matches_cons in Hp.
      apply andb_true_iff in Hp as [Hp%bool_decide_eq_true _].
      unfold cols. cbn [fmap list_fmap]. by rewrite Hid, Hp.
Qed.

(** ** Statements on other tables *)

Definition only_about (n : string) (I : content → Prop) : Prop := ∀ c c', c' n ≡ₚ c n → I c → I c'.

Lemma the_row_only_about tb p r : only_about (table_name tb) (the_row tb p r).
Proof. intros c c'. apply the_row_permutation. Qed.

Section other.
Context {DB : Type} `{DatabaseLaws DB} (n : string) (I : content → Prop) (HI : only_about n I).
Notation kept := (preserves_or (DB := DB) uuid_ok I I).

#[local] Instance only_about_proper : Proper (same_rows ==> iff) I.
Proof. intros c c' E. split; apply HI; by rewrite (E n). Qed.

Lemma other_insert t v : n ≠ table_name t → kept (insert t v).
Proof. intros Hn. apply preserves_insert; [apply _..|]. intros c. apply HI. by rewrite add_row_other. Qed.
Lemma other_append audit t : n ≠ "audit_events" → n ≠ "outbox" → kept (add_audit_and_outbox audit t).
Proof.
  intros Ha Ho. unfold add_audit_and_outbox, add_audit, add_outbox.
  repeat preserve_step; by apply other_insert.
Qed.
Lemma other_append_only audit t : n ≠ "audit_events" → n ≠ "outbox" →
  kept (add_audit_and_outbox audit t ;; mret tt).
Proof. intros. preserve_step; [by apply other_append|by apply preserves_ret]. Qed.
Lemma other_record tenant event_type object_type object_id version t :
  n ≠ "audit_events" → n ≠ "outbox" → kept (record tenant event_type object_type object_id version t).
Proof. intros. unfold record, record_fact. repeat preserve_step; by apply other_append. Qed.
End other.

(** ** The interface of a record *)

Class Persisted (R : Type) := {
  home : table;
  key : R → uuid;
  owner : R → uuid;
  (** The columns an insert at some time writes. *)
  written : R → datetime → res row;
  read : row → res R;
  (** The records the codec keeps. *)
  storable : R → Prop;
  home_in_schema : home ∈ Tables.schema;
  home_unique : Unique ["id"] ∈ items home;
  home_required : required "id" (String_ 36) ∈ items home;
  home_private : table_name home ≠ "audit_events" ∧ table_name home ≠ "outbox";
  written_shape : ∀ x t v, written x t = Ok v →
    unique (fst <$> v) = true ∧ subset_of (fst <$> v) (column_names home) = true ∧
    alist_get "id" v = Some (c_uuid (key x)) ∧ alist_get "tenant_id" v = Some (c_uuid (owner x));
  written_encodes : ∀ x t, storable x → ∃ v, written x t = Ok v;
  written_read : ∀ x t v r, storable x → written x t = Ok v → has r v → read r = Ok x
}.

Section persisted.
Context {DB : Type} `{DatabaseLaws DB} {R : Type} `{Persisted R}.

(** The row is as an insert of [x] leaves it. *)
Definition row_written (x : R) (r : row) : Prop := ∃ t v, written x t = Ok v ∧ has r v.

(** [x] is stored: its identifier selects one row, the one an insert leaves. *)
Definition is_stored (x : R) (c : content) : Prop :=
  ∃ r, the_row home (row_of (key x) (owner x)) r c ∧ row_written x r.

Lemma is_stored_only_about x : only_about (table_name home) (is_stored x).
Proof. intros c c' E (r & Hr & Hx). exists r. split; [by eapply the_row_permutation|done]. Qed.

Lemma wp_added x t v (rest : M (session DB) unit) E s :
  written x t = Ok v → preserves uuid_ok (is_stored x) rest → (∀ e s', E e s') →
  wpi uuid_ok (insert home v ;; rest) (fun _ s' => is_stored x (content_now s')) E s.
Proof.
  intros Hv Hrest HE. destruct (written_shape x t v Hv) as (Hn & Hs & Hid & Hte).
  assert (∀ k y, alist_get k v = Some y → col k (complete home v) = y) as Hcol.
  { intros k y Hk. apply col_has, complete_get; [|done].
    apply subset_of_true in Hs. apply Hs. by eapply alist_get_key. }
  apply wp_bind, wp_insert; [|auto]. intros s' Hs' _.
  eapply wp_mono; [apply Hrest| |auto]; [|done].
  exists (complete home v). split; [|exists t, v; split; [done|by apply complete_has]].
  rewrite Hs'. apply the_row_inserted; auto using home_in_schema, home_unique, home_required.
  rewrite <- Hs'. apply database_consistent.
Qed.

Lemma wp_read_back x msg (Q : R → session DB → Prop) E s :
  is_stored x (content_now s) → storable x → Q x s →
  wpi uuid_ok (row ← select_one home (row_of (key x) (owner x)) msg; lift (read row)) Q E s.
Proof.
  intros (r & Hr & t & v & Hv & Hx) Hok HQ. pose proof (written_read x t v r Hok Hv Hx) as Hread.
  unfold select_one. apply wp_bind. apply wp_bind, wp_select.
  intros rows Hrows. rewrite Hr in Hrows. apply Permutation_singleton_r in Hrows as ->.
  apply wp_bind, wp_lift; [|done]. intros ? [= <-]. apply wp_ret.
  apply wp_lift; [|by rewrite Hread]. intros y Hy. congruence.
Qed.
End persisted.

(** ** The records *)

Lemma goal_encodes x : goal_ok x → ∃ v, goal_values x = Ok v.
Proof.
  intros [? ? ? ? ? ? ? ? (d & Hd & _) ? ? ?]. unfold goal_values, goal_payload. rewrite Hd. by eexists.
Qed.
Lemma action_encodes x t : action_ok x → ∃ v, action_values x t = Ok v.
Proof.
  intros [? ? ? ? ? (d & Hd & _)]. unfold action_values, action_payload. rewrite Hd. by eexists.
Qed.

Ltac solve_home := first [done | solve_in].

#[export] Instance goal_persisted : Persisted GoalContract.t.
Proof.
  refine (Build_Persisted _ goals GoalContract.goal_id GoalContract.tenant_id
            (fun x _ => goal_values x) goal_from_row goal_ok _ _ _ _ _ _ _); [solve_home..| | |].
  - intros x t v Hv. unfold goal_values in Hv. inv_ok. by split_and!.
  - intros x t Hx. by apply goal_encodes.
  - intros x t v r Hx Hv. by eapply goal_round_trip.
Defined.

#[export] Instance run_persisted : Persisted Run.t.
Proof.
  refine (Build_Persisted _ runs Run.run_id Run.tenant_id
            (fun x _ => Ok (run_values x)) run_from_row run_ok _ _ _ _ _ _ _); [solve_home..| | |].
  - intros x t v [= <-]. by split_and!.
  - intros x t Hx. by eexists.
  - intros x t v r Hx [= <-]. by apply run_round_trip.
Defined.

#[export] Instance context_snapshot_persisted : Persisted ContextSnapshot.t.
Proof.
  refine (Build_Persisted _ context_snapshots ContextSnapshot.snapshot_id ContextSnapshot.tenant_id
            (fun x _ => Ok (context_snapshot_values x)) context_snapshot_from_row context_ok _ _ _ _ _ _ _); [solve_home..| | |].
  - intros x t v [= <-]. by split_and!.
  - intros x t Hx. by eexists.
  - intros x t v r Hx [= <-]. by apply context_snapshot_round_trip.
Defined.

#[export] Instance memory_persisted : Persisted MemoryRecord.t.
Proof.
  refine (Build_Persisted _ memory_records MemoryRecord.memory_id MemoryRecord.tenant_id
            (fun x t => Ok (memory_values x t)) memory_from_row memory_ok _ _ _ _ _ _ _); [solve_home..| | |].
  - intros x t v [= <-]. by split_and!.
  - intros x t Hx. by eexists.
  - intros x t v r Hx [= <-]. by apply memory_round_trip.
Defined.

#[export] Instance action_persisted : Persisted Action.t.
Proof.
  refine (Build_Persisted _ actions Action.action_id Action.tenant_id
            (action_values) action_from_row action_ok _ _ _ _ _ _ _); [solve_home..| | |].
  - intros x t v Hv. unfold action_values in Hv. inv_ok. by split_and!.
  - intros x t Hx. by apply action_encodes.
  - intros x t v r Hx Hv. by eapply action_round_trip.
Defined.

#[export] Instance approval_persisted : Persisted ApprovalRequest.t.
Proof.
  refine (Build_Persisted _ approvals ApprovalRequest.approval_id ApprovalRequest.tenant_id
            (fun x _ => Ok (approval_values x)) approval_from_row approval_ok _ _ _ _ _ _ _); [solve_home..| | |].
  - intros x t v [= <-]. by split_and!.
  - intros x t Hx. by eexists.
  - intros x t v r Hx [= <-]. by apply approval_round_trip.
Defined.

#[export] Instance evidence_persisted : Persisted Evidence.t.
Proof.
  refine (Build_Persisted _ evidence Evidence.evidence_id Evidence.tenant_id
            (fun x _ => Ok (evidence_values x)) evidence_from_row evidence_ok _ _ _ _ _ _ _); [solve_home..| | |].
  - intros x t v [= <-]. by split_and!.
  - intros x t Hx. by eexists.
  - intros x t v r Hx [= <-]. by apply evidence_round_trip.
Defined.

#[export] Instance proposal_persisted : Persisted ImprovementProposal.t.
Proof.
  refine (Build_Persisted _ improvement_proposals ImprovementProposal.proposal_id ImprovementProposal.tenant_id
            (fun x t => Ok (proposal_values x t)) proposal_from_row proposal_ok _ _ _ _ _ _ _); [solve_home..| | |].
  - intros x t v [= <-]. by split_and!.
  - intros x t Hx. by eexists.
  - intros x t v r Hx [= <-]. by apply proposal_round_trip.
Defined.

#[export] Instance candidate_persisted : Persisted CandidateVersion.t.
Proof.
  refine (Build_Persisted _ candidates CandidateVersion.candidate_id CandidateVersion.tenant_id
            (fun x t => Ok (candidate_values x t)) candidate_from_row candidate_ok _ _ _ _ _ _ _); [solve_home..| | |].
  - intros x t v [= <-]. by split_and!.
  - intros x t Hx. by eexists.
  - intros x t v r Hx [= <-]. by apply candidate_round_trip.
Defined.

#[export] Instance deployment_persisted : Persisted Deployment.t.
Proof.
  refine (Build_Persisted _ deployments Deployment.deployment_id Deployment.tenant_id
            (fun x t => Ok (deployment_values x t)) deployment_from_row deployment_ok _ _ _ _ _ _ _); [solve_home..| | |].
  - intros x t v [= <-]. by split_and!.
  - intros x t Hx. by eexists.
  - intros x t v r Hx [= <-]. by apply deployment_round_trip.
Defined.

(** ** Adding a record *)

(** The records the commands below write, and whether the codec keeps them. *)
Definition record_ok (c : command) : Prop :=
  match c with
  | AddGoal x _ | SaveGoal x _ _ => goal_ok x
  | AddRun x _ | SaveRun x _ _ => run_ok x
  | AddMemory x => memory_ok x
  | AddAction x | SaveAction x _ => action_ok x
  | AddApproval x | SaveApproval x _ => approval_ok x
  | AddEvidence x => evidence_ok x
  | AddProposal x => proposal_ok x
  | AddCandidate x | SaveCandidate x => candidate_ok x
  | AddDeployment x | SaveDeployment x => deployment_ok x
  | _ => False
  end.

(** The command makes a record, it does not save one. *)
Definition is_add (c : command) : bool :=
  match c with
  | SaveGoal _ _ _ | SaveRun _ _ _ | SaveAction _ _ | SaveApproval _ _ | SaveCandidate _
  | SaveDeployment _ => false
  | _ => true
  end.

(** The record of the command is stored. *)
Definition record_stored (c : command) : content → Prop :=
  match c with
  | AddGoal x _ | SaveGoal x _ _ => is_stored x
  | AddRun x _ | SaveRun x _ _ => is_stored x
  | AddMemory x => is_stored x
  | AddAction x | SaveAction x _ => is_stored x
  | AddApproval x | SaveApproval x _ => is_stored x
  | AddEvidence x => is_stored x
  | AddProposal x => is_stored x
  | AddCandidate x | SaveCandidate x => is_stored x
  | AddDeployment x | SaveDeployment x => is_stored x
  | _ => fun _ => False
  end.

Section commands.
Context {DB : Type} `{DatabaseLaws DB}.
Notation MR := (M (session DB)).

(** Read the record by its identifier; is it the one of the command? *)
Definition reads_back (c : command) : MR Prop :=
  let same {A} (x : A) (m : MR A) : MR Prop := y ← m; mret (y = x) in
  match c with
  | AddGoal x _ | SaveGoal x _ _ => same x (get_goal (GoalContract.tenant_id x) (GoalContract.goal_id x))
  | AddRun x _ | SaveRun x _ _ => same x (get_run (Run.tenant_id x) (Run.run_id x))
  | AddMemory x => same x (get_memory (MemoryRecord.tenant_id x) (MemoryRecord.memory_id x))
  | AddAction x | SaveAction x _ => same x (get_action (Action.tenant_id x) (Action.action_id x))
  | AddApproval x | SaveApproval x _ =>
      same x (get_approval (ApprovalRequest.tenant_id x) (ApprovalRequest.approval_id x))
  | AddEvidence x => same x (get_evidence (Evidence.tenant_id x) (Evidence.evidence_id x))
  | AddProposal x =>
      same x (get_proposal (ImprovementProposal.tenant_id x) (ImprovementProposal.proposal_id x))
  | AddCandidate x | SaveCandidate x =>
      same x (get_candidate (CandidateVersion.tenant_id x) (CandidateVersion.candidate_id x))
  | AddDeployment x | SaveDeployment x =>
      same x (get_deployment (Deployment.tenant_id x) (Deployment.deployment_id x))
  | _ => mret False
  end.

Lemma stored_read c s : record_ok c → record_stored c (content_now s) →
  wpi uuid_ok (reads_back c) (fun same s' => same ∧ s' = s) (fun _ _ => False) s.
Proof.
  intros Hok Hc. destruct c; cbn in Hok; try done; cbn in Hc |- *; apply wp_bind;
    (apply (wp_read_back _ _ _ _ _ Hc Hok); by apply wp_ret).
Qed.

Lemma wp_select_one t p msg (Q : row → session DB → Prop) (E : exn → session DB → Prop) s :
  (∀ r, Q r s) → (∀ x, E x s) → wpi uuid_ok (select_one t p msg) Q E s.
Proof.
  intros HQ HE. apply wp_bind, wp_select. intros rows _. apply wp_bind, wp_lift; [|auto].
  intros [r|] _; [by apply wp_ret|by apply wp_lift].
Qed.

Ltac adding_step :=
  first [apply wp_begin_alone; [done|] | apply wp_bind, wp_now; intros ?
        |apply wp_bind, wp_throw_if; [intros _|done] | apply wp_bind, wp_lift; [intros ? ?|done]
        |apply wp_bind, wp_select_one; [intros ?|done]].

Ltac adding_rest :=
  repeat preserve_step;
  first [eapply other_append | eapply other_record | eapply other_insert]; try apply is_stored_only_about;
  done.

Ltac adding Hok :=
  let add x t v := refine (wp_added (DB := DB) x t v _ _ _ _ _ _) in
  lazymatch type of Hok with _ ?x =>
    lazymatch goal with
    | t : datetime |- wpi _ (insert _ ?v ≫= _) _ _ _ => add x t v
    | |- wpi _ (insert _ ?v ≫= _) _ _ _ => add x (Naive 0) v
    end
  end; [first [eassumption|reflexivity]|adding_rest|done].

Lemma add_stores c s : is_add c = true → record_ok c → current s = false →
  wpi uuid_ok (run_command c) (fun _ s' => record_stored c (content_now s')) (fun _ s' => s' = s) s.
Proof.
  intros Hadd Hok Hs. destruct c; try discriminate Hadd; cbn in Hok; try done;
    cbn [run_command record_stored];
    lazymatch goal with |- wpi _ ?m _ _ _ => let f := head_of m in unfold f end;
    repeat adding_step; adding Hok.
Qed.
End commands.
