(* ===== verification/RepositoryVersions.v ===== *)
(** * Optimistic concurrency of the relational repository

    A save is for the version its caller read.  Of two saves made for the same
    version only one takes effect; the other raises and changes nothing.  A
    save that returns leaves the row an insert of the record would have left. *)

From S2P Require Import Prelude PyStr Effects PyDict PyFloat Json Transitions Values Goals.
From S2P Require Import Execution ExecutionObjects Digests Identity Improvement EvaluationDomain.
From S2P Require Import Calendar ContextDomain AuditChain Capability Verification Uuids Rows.
From S2P Require Import Isolation Codec Inserts CodecProofs Schema Database RepositoryCore.
From S2P Require Import RepositoryRuns RepositoryExecution RepositoryLogic RepositoryCommands.
From S2P Require Import RepositoryTenants RepositoryProofs.
From Stdlib Require Import ZArith.

Import Tables.
Open Scope string_scope.
Open Scope list_scope.
Open Scope Z_scope.

(** No row of the table satisfies [p]. *)
Definition no_row (tb : table) (p : row → bool) (c : content) : Prop :=
  List.filter p (c (table_name tb)) = [].

Lemma no_row_only_about tb p : only_about (table_name tb) (no_row tb p).
Proof.
  unfold no_row. intros c c' E Hr. apply (filter_permutation p) in E. rewrite Hr in E.
  by apply Permutation_nil_r.
Qed.

(** A save replaces the version. *)
Lemma no_row_revised tb tenant id e u n c :
  alist_get "optimistic_version" u = Some (c_int n) → n ≠ e →
  no_row tb (versioned id tenant e) (revise tb (versioned id tenant e) (assign u) c).
Proof.
  intros Hu Hn. unfold no_row. rewrite revise_at. set (p := versioned id tenant e).
  induction (c (table_name tb)) as [|r l IH]; [done|]. cbn [List.map List.filter].
  destruct (p r) eqn:E; rewrite IH; [|by rewrite E].
  replace (p (assign u r)) with false; [done|]. symmetry. apply not_true_is_false. intros E'.
  unfold p, versioned in E, E'. rewrite !matches_cons in E, E'.
  apply andb_true_iff in E as [_ [_ [E%bool_decide_eq_true _]%andb_true_iff]%andb_true_iff].
  apply andb_true_iff in E' as [_ [_ [E'%bool_decide_eq_true _]%andb_true_iff]%andb_true_iff].
  unfold col in E'. rewrite assign_get, Hu in E'. cbn in E'.
  injection E' as E'. done.
Qed.

Section saves.
Context {DB : Type} `{DatabaseLaws DB}.
Notation MR := (M (session DB)).

Lemma revise_none tb p f c : no_row tb p c → ∀ n, revise tb p f c n = c n.
Proof.
  intros Hn n. destruct (decide (n = table_name tb)) as [->|E]; [|by apply revise_other].
  rewrite revise_at. unfold no_row in Hn. induction (c (table_name tb)) as [|r l IH]; [done|].
  cbn in *. destruct (p r); [done|]. by rewrite IH.
Qed.

(** An update that no row matches is accepted and counts no row. *)
Lemma wp_update_none tb p f (Q : Z → session DB → Prop) E s :
  no_row tb p (content_now s) → (∀ s', Q 0 s') → wpi uuid_ok (update tb p f) Q E s.
Proof.
  intros Hn HQ. apply wp_bind, wp_get. apply wp_bind, wp_lift.
  - intros [d n] Hd. apply wp_bind, wp_put. apply wp_ret. cbn.
    apply update_where_ok in Hd as [_ ->]. unfold no_row, content_now in Hn. by rewrite Hn.
  - intros x Hx. exfalso. destruct (update_where_accepts tb p f (database s)) as (d & n & Hd).
    + intros r Hr Hp. assert (r ∈ List.filter p (content_now s (table_name tb))) as Hin
        by by apply elem_of_list_filter.
      rewrite Hn in Hin. by apply elem_of_nil in Hin.
    + rewrite <- (database_consistent (database s)). apply consistent_proper. intros n.
      by rewrite revise_none.
    + congruence.
Qed.

(** What a stale save does: nothing, with [ConcurrencyConflict]. *)
Lemma wp_stale {A} tb tenant id e u kind (k : unit → MR A) (Q : A → session DB → Prop)
    (E : exn → session DB → Prop) s :
  no_row tb (versioned id tenant e) (content_now s) →
  (∀ x s', exn_class x = ConcurrencyConflict → E x s') →
  wpi uuid_ok (update_versioned tb tenant id e u kind ≫= k) Q E s.
Proof.
  intros Hn HE. unfold update_versioned. apply wp_bind. apply wp_bind, wp_update_none; [done|].
  intros s'. apply wp_lift; [done|]. intros x [= <-]. by apply HE.
Qed.

(** What a save that returns has seen and left. *)
Lemma wp_versioned tb tenant id e u kind (Q : unit → session DB → Prop) (E : exn → session DB → Prop) s :
  (∀ s' r, r ∈ content_now s (table_name tb) → versioned id tenant e r = true →
     same_rows (content_now s') (revise tb (versioned id tenant e) (assign u) (content_now s)) →
     Q tt s') →
  (∀ x s', E x s') → wpi uuid_ok (update_versioned tb tenant id e u kind) Q E s.
Proof.
  intros HQ HE. apply wp_bind, wp_update; [|auto]. intros s' Hs' _.
  destruct (List.filter _ _) as [|r l] eqn:E1; apply wp_throw_if; auto; cbn; [done|].
  intros _. assert (r ∈ List.filter (versioned id tenant e) (content_now s (table_name tb)))
    as [Hr Hp]%elem_of_list_filter by (rewrite E1; left).
  by eapply HQ.
Qed.
End saves.

(** ** The saves *)

Record target := Target {
  target_table : table; target_tenant : uuid; target_id : uuid;
  expected : Z; saved_version : Z }.

(** What a save aims at: table, tenant and identifier, the version it expects
    and the version it stores. *)
Definition save_target (c : command) : option target :=
  match c with
  | SaveGoal x e _ => Some (Target goals (GoalContract.tenant_id x) (GoalContract.goal_id x) e
                              (GoalContract.version x))
  | SaveRun x e _ => Some (Target runs (Run.tenant_id x) (Run.run_id x) e (Run.optimistic_version x))
  | SaveTask x e => Some (Target tasks (Task.tenant_id x) (Task.task_id x) e
                            (Task.optimistic_version x))
  | SaveAction x e => Some (Target actions (Action.tenant_id x) (Action.action_id x) e
                              (Action.optimistic_version x))
  | SaveApproval x e => Some (Target approvals (ApprovalRequest.tenant_id x)
                                (ApprovalRequest.approval_id x) e
                                (ApprovalRequest.optimistic_version x))
  | SaveCandidate x => Some (Target candidates (CandidateVersion.tenant_id x)
                               (CandidateVersion.candidate_id x)
                               (CandidateVersion.optimistic_version x - 1)
                               (CandidateVersion.optimistic_version x))
  | SaveDeployment x => Some (Target deployments (Deployment.tenant_id x) (Deployment.deployment_id x)
                                (Deployment.optimistic_version x - 1)
                                (Deployment.optimistic_version x))
  | _ => None
  end.

(** The record has an encoding. *)
Definition encodes (c : command) : Prop :=
  match c with
  | SaveGoal x _ _ => ∃ payload, goal_payload x = Ok payload
  | SaveAction x _ => ∃ payload, action_payload x = Ok payload
  | _ => True
  end.

Definition at_version (x : target) (e : Z) : row → bool := versioned (target_id x) (target_tenant x) e.

Section concurrency.
Context {DB : Type} `{DatabaseLaws DB}.
Notation MR := (M (session DB)).

Ltac saving_step :=
  first [apply wp_begin_alone; [done|] | apply wp_bind, wp_now; intros ? | apply wp_now; intros ?].

(** The encoding of the record fails only when it has none. *)
Lemma wp_encode {A} (r : res row) (k : row → MR A) (P : Prop) (Q : A → session DB → Prop)
    (E : exn → session DB → Prop) s :
  (P → ∃ v, r = Ok v) → (∀ v, r = Ok v → wpi uuid_ok (k v) Q E s) → (∀ x, ¬ P → E x s) →
  wpi uuid_ok (lift r ≫= k) Q E s.
Proof.
  intros HP Hk HE. apply wp_bind, wp_lift; [auto|]. intros x Hx. apply HE.
  intros [v Hv]%HP. congruence.
Qed.

Lemma goal_update_encodes x t : (∃ payload, goal_payload x = Ok payload) → ∃ v, goal_update x t = Ok v.
Proof. intros [p Hp]. unfold goal_update. rewrite Hp. by eexists. Qed.
Lemma action_update_encodes x : (∃ payload, action_payload x = Ok payload) → ∃ v, action_update x = Ok v.
Proof. intros [p Hp]. unfold action_update. rewrite Hp. by eexists. Qed.

Lemma stale_save c x s : save_target c = Some x → current s = false →
  no_row (target_table x) (at_version x (expected x)) (content_now s) →
  wpi uuid_ok (run_command (DB := DB) c) (fun _ _ => False)
    (fun e s' => s' = s ∧ (encodes c → exn_class e = ConcurrencyConflict)) s.
Proof.
  intros Hx Hs Hn. destruct c; simplify_eq/=;
  lazymatch goal with |- wpi _ ?m _ _ _ => let f := head_of m in unfold f end;
  unfold save_versioned; repeat saving_step;
  try (apply wp_stale; [exact Hn|by auto]).
  - eapply wp_encode; [apply goal_update_encodes| |by intros ? ?].
    intros v _. apply wp_stale; [exact Hn|by auto].
  - eapply wp_encode; [apply action_update_encodes| |by intros ? ?].
    intros v _. repeat saving_step. apply wp_stale; [exact Hn|by auto].
Qed.

(** A save that returns found its version, and left another. *)
Definition replaced (tb : table) (id tenant : uuid) (e : Z) (before after : content) : Prop :=
  no_row tb (versioned id tenant e) after ∧
  ∃ r, r ∈ before (table_name tb) ∧ versioned id tenant e r = true.

Lemma wp_fresh {A} tb tenant id e n u kind (k : unit → MR A) (E : exn → session DB → Prop) s :
  alist_get "optimistic_version" u = Some (c_int n) → n ≠ e →
  preserves uuid_ok (no_row tb (versioned id tenant e)) (k tt) → (∀ x s', E x s') →
  wpi uuid_ok (update_versioned tb tenant id e u kind ≫= k)
    (fun _ s' => replaced tb id tenant e (content_now s) (content_now s')) E s.
Proof.
  intros Hu Hn Hk HE. apply wp_bind, wp_versioned; [|auto]. intros s' r Hr Hp Hs'.
  eapply wp_mono; [apply Hk| |auto].
  - eapply no_row_only_about; [apply Hs'|]. by eapply no_row_revised.
  - intros ? s'' Hs''. split; [done|]. by exists r.
Qed.

Lemma app_get {V} (u v : list (string * V)) k :
  alist_get k (u ++ v) = match alist_get k u with Some x => Some x | None => alist_get k v end.
Proof. induction u as [|[k' x] u IH]; [done|]. cbn. by case_decide. Qed.

Ltac saving_rest :=
  repeat preserve_step;
  first [eapply other_append | eapply other_record]; try apply no_row_only_about; done.

Lemma fresh_save c x s : save_target c = Some x → saved_version x ≠ expected x → current s = false →
  wpi uuid_ok (run_command (DB := DB) c)
    (fun _ s' => replaced (target_table x) (target_id x) (target_tenant x) (expected x)
                   (content_now s) (content_now s'))
    (fun _ s' => s' = s) s.
Proof.
  intros Hx Hn Hs. destruct c; simplify_eq/=;
  lazymatch goal with |- wpi _ ?m _ _ _ => let f := head_of m in unfold f end;
  unfold save_versioned; repeat saving_step;
  repeat (apply wp_bind, wp_lift; [intros v Hv|done]); repeat saving_step;
  (eapply wp_fresh; [|exact Hn|saving_rest|done]); try reflexivity.
  - unfold goal_update in Hv. by inv_ok.
  - unfold action_update in Hv. by inv_ok.
Qed.

(** C33. Outside a transaction of the application, after a save that moves a record
    from the expected version to another one was accepted, a second save of the same
    record for the same expected version changes nothing and raises, with
    ConcurrencyConflict when the record it carries can be encoded. *)
Theorem stale_save_is_refused c c' x x' s :
  save_target c = Some x → save_target c' = Some x' → saved_version x ≠ expected x →
  target_table x' = target_table x → target_tenant x' = target_tenant x →
  target_id x' = target_id x → expected x' = expected x → current s = false →
  wpi uuid_ok (run_command c)
    (fun _ s' => wpi uuid_ok (run_command (DB := DB) c') (fun _ _ => False)
       (fun e s'' => s'' = s' ∧ (encodes c' → exn_class e = ConcurrencyConflict)) s')
    (fun _ s' => s' = s) s.
Proof.
  intros Hx Hx' Hn Etb Ete Eid Ee Hs. 
  eapply wp_mono; [apply wp_and; [by eapply fresh_save|apply command_steady]| |by intros ? ? [? _]].
  intros ? s' [[Hnone _] Hs']. eapply stale_save; [exact Hx'|by rewrite Hs'|].
  unfold at_version. by rewrite Etb, Ete, Eid, Ee.
Qed.
End concurrency.

(** * Saved records of the relational repository

    A save that returns leaves the row that reads as the saved record, when the
    record keeps the columns no save writes ([fixed]): the get that follows
    gives the record that was saved last. *)

Import Tables.
Open Scope string_scope.
Open Scope list_scope.
Open Scope Z_scope.

(** The interface of a record that is saved: what an update writes, and the
    columns it leaves. *)
Class Versioned (R : Type) `{Persisted R} := {
  changed : R → datetime → res row;
  fixed : R → row;
  changed_shape : ∀ x t u, changed x t = Ok u →
    alist_get "id" u = None ∧ alist_get "tenant_id" u = None;
  changed_covers : ∀ x x0 t t' v v0 u, fixed x = fixed x0 →
    written x0 t = Ok v0 → written x t = Ok v → changed x t' = Ok u →
    Forall (fun kv => ∃ z, alist_get kv.1 v0 = Some z ∧ default z (alist_get kv.1 u) = kv.2) v
}.

Lemma has_get r v k x : has r v → alist_get k v = Some x → alist_get k r = Some x.
Proof.
  unfold has. rewrite Forall_forall. intros Hr Hk. induction v as [|[k' y] v IH]; [done|]. cbn in Hk.
  case_decide as E; [|apply IH; [intros ? ?; apply Hr; by right|done]].
  subst. simplify_eq. by apply (Hr (k', x)); left.
Qed.

(** An update that leaves identifier and tenant, of the row they select. *)
Lemma the_row_revised tb id tenant q u r c : alist_get "id" u = None → alist_get "tenant_id" u = None →
  the_row tb (row_of id tenant) r c → q r = true →
  the_row tb (row_of id tenant) (assign u r) (revise tb q (assign u) c).
Proof.
  intros Hid Hte Hr Hq. unfold the_row in *. rewrite revise_at.
  assert (∀ r', row_of id tenant (assign u r') = row_of id tenant r') as Hsame.
  { intros r'. unfold row_of, matches, all. cbn. by rewrite !assign_col. }
  enough (∀ l, List.filter (row_of id tenant) (List.map (fun r => if q r then assign u r else r) l) =
               List.map (fun r => if q r then assign u r else r) (List.filter (row_of id tenant) l)) as E.
  { rewrite E, Hr. cbn. by rewrite Hq. }
  induction l as [|r' l IH]; [done|]. cbn [List.map List.filter]. rewrite IH.
  destruct (q r') eqn:E; rewrite ?Hsame; destruct (row_of id tenant r'); cbn; by rewrite ?E.
Qed.

Section versioned.
Context {DB : Type} `{DatabaseLaws DB} {R : Type} `{Versioned R}.

(** An updated row is as an insert of the new record leaves it. *)
Lemma changed_row (x x0 : R) t u r : fixed x = fixed x0 → storable x →
  changed x t = Ok u → row_written x0 r → row_written x (assign u r).
Proof.
  intros Hf Hx Hu (t0 & v0 & Hv0 & Hr). destruct (written_encodes x t0 Hx) as [v Hv]. exists t0, v. split; [done|].
  pose proof (changed_covers x x0 t0 t v v0 u Hf Hv0 Hv Hu) as Hc.
  eapply Forall_impl; [exact Hc|]. intros [k y] (z & Hz & <-). cbn in *.
  rewrite assign_get, (has_get r v0 k z) by done. by destruct (alist_get k u).
Qed.

Lemma wp_saved (x x0 : R) e u t kind (rest : unit → M (session DB) unit) (E : exn → session DB → Prop) s :
  fixed x = fixed x0 → storable x → changed x t = Ok u →
  is_stored x0 (content_now s) → key x0 = key x → owner x0 = owner x →
  preserves uuid_ok (is_stored x) (rest tt) → (∀ y s', E y s') →
  wpi uuid_ok (update_versioned home (owner x) (key x) e u kind ≫= rest)
    (fun _ s' => is_stored x (content_now s')) E s.
Proof.
  intros Hf Hx Hu (r & Hr & Hw) Ek Eo Hrest HE. rewrite Ek, Eo in Hr.
  destruct (changed_shape x t u Hu) as [Hid Hte].
  apply wp_bind, wp_versioned; [|auto]. intros s' r' Hr' Hp Hs'. eapply wp_mono; [apply Hrest|done|auto].
  assert (r' = r) as ->.
  { assert (r' ∈ List.filter (row_of (key x) (owner x)) (content_now s (table_name home))) as Hin.
    { apply elem_of_list_filter. split; [done|]. revert Hp. unfold versioned, row_of.
      rewrite !matches_cons. rewrite !andb_true_iff. naive_solver. }
    rewrite Hr in Hin. by apply list_elem_of_singleton in Hin. }
  exists (assign u r). split; [|by eapply changed_row].
  eapply the_row_permutation; [apply Hs'|]. by apply the_row_revised.
Qed.
End versioned.

(** ** The records *)

(** The columns [_save_versioned] adds. *)
Definition saved_columns (n : Z) (t : datetime) : row :=
  [("optimistic_version", c_int n); ("updated_at", TimeCell t)].

Ltac solve_cell :=
  lazymatch goal with |- default ?z ?o = ?c =>
    let o' := eval hnf in o in
    lazymatch o' with Some ?y => change (y = c) | None => change (z = c) end
  end; congruence.
Ltac solve_covers :=
  repeat (apply Forall_cons; split; [eexists; split; [cbn [fst]; reflexivity|cbn [fst snd]; solve_cell]|]);
  by apply Forall_nil.

Definition goal_fixed (x : GoalContract.t) : row :=
    [("id", c_uuid (GoalContract.goal_id x));
     ("tenant_id", c_uuid (GoalContract.tenant_id x));
     ("goal_type", c_str (GoalContract.goal_type x));
     ("owner_id", c_uuid (GoalContract.owner_id x));
     ("created_at", TimeCell (GoalContract.created_at x))].

#[export] Instance goal_versioned : Versioned GoalContract.t.
Proof.
  refine (Build_Versioned _ _ (fun x t => goal_update x t)
            goal_fixed _ _).
  - intros x t u Hu. unfold goal_update in *. by inv_ok.
  - intros x x0 t t' v v0 u Hf Hv0 Hv Hu. cbn in Hv0, Hv, Hu. unfold goal_update, goal_values in *. inv_ok.
    unfold goal_fixed in Hf. solve_covers.
Defined.

Definition run_fixed (x : Run.t) : row :=
    [("id", c_uuid (Run.run_id x));
     ("tenant_id", c_uuid (Run.tenant_id x));
     ("goal_id", c_uuid (Run.goal_id x));
     ("agent_version_id", c_uuid (Run.agent_version_id x));
     ("temporal_workflow_id", c_str (workflow_id (Run.tenant_id x) (Run.run_id x)));
     ("created_at", TimeCell (Run.created_at x))].

#[export] Instance run_versioned : Versioned Run.t.
Proof.
  refine (Build_Versioned _ _ (fun x t => Ok (run_update x t))
            run_fixed _ _).
  - intros x t u Hu. by inv_ok.
  - intros x x0 t t' v v0 u Hf Hv0 Hv Hu. cbn in Hv0, Hv, Hu. inv_ok.
    unfold run_fixed in Hf. solve_covers.
Defined.

Definition action_fixed (x : Action.t) : row :=
    [("id", c_uuid (Action.action_id x));
     ("tenant_id", c_uuid (Action.tenant_id x));
     ("run_id", c_uuid (Action.run_id x));
     ("task_id", c_uuid (Action.task_id x));
     ("idempotency_key", c_str (Action.idempotency_key x))].

#[export] Instance action_versioned : Versioned Action.t.
Proof.
  refine (Build_Versioned _ _ (fun x t => values ← action_update x; Ok (values ++ saved_columns (Action.optimistic_version x) t))
            action_fixed _ _).
  - intros x t u Hu. unfold action_update in *. by inv_ok.
  - intros x x0 t t' v v0 u Hf Hv0 Hv Hu. cbn in Hv0, Hv, Hu. unfold action_update, action_values in *. inv_ok.
    unfold action_fixed in Hf. solve_covers.
Defined.

Definition approval_fixed (x : ApprovalRequest.t) : row :=
    [("id", c_uuid (ApprovalRequest.approval_id x));
     ("tenant_id", c_uuid (ApprovalRequest.tenant_id x));
     ("run_id", c_uuid (ApprovalRequest.run_id x));
     ("action_id", c_uuid (ApprovalRequest.action_id x));
     ("action_digest", c_str (ApprovalRequest.action_digest x));
     ("created_at", TimeCell (ApprovalRequest.created_at x))].

#[export] Instance approval_versioned : Versioned ApprovalRequest.t.
Proof.
  refine (Build_Versioned _ _ (fun x t => Ok (approval_update x ++ saved_columns (ApprovalRequest.optimistic_version x) t))
            approval_fixed _ _).
  - intros x t u Hu. by inv_ok.
  - intros x x0 t t' v v0 u Hf Hv0 Hv Hu. cbn in Hv0, Hv, Hu. inv_ok.
    unfold approval_fixed in Hf. solve_covers.
Defined.

Definition candidate_fixed (x : CandidateVersion.t) : row :=
    [("id", c_uuid (CandidateVersion.candidate_id x));
     ("tenant_id", c_uuid (CandidateVersion.tenant_id x));
     ("proposal_id", c_uuid (CandidateVersion.proposal_id x));
     ("baseline_version_id", c_uuid (CandidateVersion.baseline_version_id x));
     ("artifact_uri", c_str (CandidateVersion.artifact_ref x));
     ("artifact_digest", c_str (CandidateVersion.artifact_digest x));
     ("suite_id", c_str (CandidateVersion.suite_id x));
     ("suite_version", c_str (CandidateVersion.suite_version x));
     ("generator_id", c_str (CandidateVersion.generator_id x))].

#[export] Instance candidate_versioned : Versioned CandidateVersion.t.
Proof.
  refine (Build_Versioned _ _ (fun x t => Ok (candidate_update x ++ saved_columns (CandidateVersion.optimistic_version x) t))
            candidate_fixed _ _).
  - intros x t u Hu. by inv_ok.
  - intros x x0 t t' v v0 u Hf Hv0 Hv Hu. cbn in Hv0, Hv, Hu. inv_ok.
    unfold candidate_fixed in Hf. solve_covers.
Defined.

Definition deployment_fixed (x : Deployment.t) : row :=
    [("id", c_uuid (Deployment.deployment_id x));
     ("tenant_id", c_uuid (Deployment.tenant_id x));
     ("candidate_id", c_uuid (Deployment.candidate_id x))].

#[export] Instance deployment_versioned : Versioned Deployment.t.
Proof.
  refine (Build_Versioned _ _ (fun x t => Ok (deployment_update x ++ saved_columns (Deployment.optimistic_version x) t))
            deployment_fixed _ _).
  - intros x t u Hu. by inv_ok.
  - intros x x0 t t' v v0 u Hf Hv0 Hv Hu. cbn in Hv0, Hv, Hu. inv_ok.
    unfold deployment_fixed in Hf. solve_covers.
Defined.

(** ** Reading what was written *)

(** [x0] is the stored record of which [x] is a later state. *)
Definition same_object {R} `{Versioned R} (x x0 : R) : Prop :=
  key x0 = key x ∧ owner x0 = owner x ∧ fixed x = fixed x0.

Definition saves_over {R} `{Versioned R} (x : R) (before : content) : Prop :=
  ∃ x0, is_stored x0 before ∧ same_object x x0.

(** A save is of an object that is stored. *)
Definition object_stored (c : command) (before : content) : Prop :=
  match c with
  | SaveGoal x _ _ => saves_over x before
  | SaveRun x _ _ => saves_over x before
  | SaveAction x _ => saves_over x before
  | SaveApproval x _ => saves_over x before
  | SaveCandidate x => saves_over x before
  | SaveDeployment x => saves_over x before
  | _ => True
  end.

Section commands.
Context {DB : Type} `{DatabaseLaws DB}.

Ltac saving_step :=
  first [apply wp_begin_alone; [done|] | apply wp_bind, wp_now; intros ?
        |apply wp_bind, wp_lift; [intros ? ?|done]].

Ltac saving_rest :=
  repeat preserve_step;
  first [eapply other_append | eapply other_record]; try apply is_stored_only_about; done.

Ltac saving Hok Hx0 :=
  let x0 := fresh "x0" in let Hs0 := fresh in let Ek := fresh in let Eo := fresh in let Ef := fresh in
  destruct Hx0 as (x0 & Hs0 & Ek & Eo & Ef);
  let save x t := refine (wp_saved (DB := DB) x x0 _ _ t _ _ _ _ Ef Hok _ Hs0 Ek Eo _ _) in
  lazymatch type of Hok with _ ?x =>
    lazymatch goal with t : datetime |- _ => save x t end
  end; [first [eassumption|reflexivity|cbn; match goal with He : _ = Ok _ |- _ => by rewrite He end]|saving_rest|done].

Lemma save_stores c s : record_ok c → object_stored c (content_now s) → is_add c = false →
  current s = false →
  wpi uuid_ok (run_command (DB := DB) c) (fun _ s' => record_stored c (content_now s'))
    (fun _ s' => s' = s) s.
Proof.
  intros Hok Hx0 Hadd Hs. destruct c; try discriminate Hadd; cbn in Hok, Hx0; cbn [run_command record_stored];
    lazymatch goal with |- wpi _ ?m _ _ _ => let f := head_of m in unfold f end;
    unfold save_versioned; repeat saving_step.
  - saving Hok Hx0.
  - saving Hok Hx0.
  - saving Hok Hx0.
  - saving Hok Hx0.
  - saving Hok Hx0.
  - saving Hok Hx0.
Qed.

(** C32. Outside a transaction of the application, when the relational repository has
    added a well-formed goal, run, memory, action, approval, evidence, proposal,
    candidate or deployment, or has saved a later state of a stored goal, run, action,
    approval, candidate or deployment that keeps the columns no save writes, its row
    holds that record and reading it back by tenant and identifier gives the same
    record and changes nothing; when it raises, the database is as before. *)
Theorem written_record_is_read c s : record_ok c → object_stored c (content_now s) → current s = false →
  wpi uuid_ok (run_command (DB := DB) c)
    (fun _ s' => record_stored c (content_now s') ∧
       wpi uuid_ok (reads_back c) (fun same s'' => same ∧ s'' = s') (fun _ _ => False) s')
    (fun _ s' => s' = s) s.
Proof.
  intros Hok Hx0 Hs. eapply (wp_mono _ _ (fun _ s' => record_stored c (content_now s'))).
  - destruct (is_add c) eqn:Hadd; [by apply add_stores|by apply save_stores].
  - intros ? s' Hs'. split; [done|]. by apply stored_read.
  - done.
Qed.
End commands.
