(* ===== verification/RepositoryMemory.v ===== *)
(** * Deleting a memory of the relational repository

    The recursive query finds exactly the memories that derive from the deleted
    one, and a deletion marks exactly those, of the tenant, not deleted yet. *)

From stdpp Require Import relations.
From S2P Require Import Prelude PyStr Effects PyDict PyFloat Json Transitions Values Goals.
From S2P Require Import Execution ExecutionObjects Digests Identity Improvement EvaluationDomain.
From S2P Require Import Calendar ContextDomain AuditChain Capability Verification Uuids Rows.
From S2P Require Import Isolation Codec Inserts CodecProofs Schema Database RepositoryCore.
From S2P Require Import RepositoryRuns RepositoryExecution RepositoryLogic RepositoryCommands.
From S2P Require Import RepositoryTenants RepositoryProofs RepositoryVersions.
From Stdlib Require Import ZArith.

Import Tables.
Open Scope string_scope.
Open Scope list_scope.
Open Scope Z_scope.

(** ** The recursive query *)

(** [y] derives from [x] by an edge of the list. *)
Definition derives (edges : list row) (x y : cell) : Prop :=
  ∃ e, e ∈ edges ∧ col "parent_memory_id" e = x ∧ col "child_memory_id" e = y.

Definition closed (edges : list row) (seen : list cell) : Prop :=
  ∀ x y, derives edges x y → x ∈ seen → y ∈ seen.

(** The edges whose child is still to be found. *)
Definition unseen (edges : list row) (seen : list cell) : list row :=
  List.filter (fun e => negb (mem (col "child_memory_id" e) seen)) edges.

Definition next_edges (edges : list row) (seen : list cell) : list row :=
  List.filter (fun e => mem (col "parent_memory_id" e) seen &&
                        negb (mem (col "child_memory_id" e) seen)) edges.

Lemma affected_step fuel edges seen :
  affected (S fuel) edges seen =
  affected fuel edges (seen ++ (col "child_memory_id" <$> next_edges edges seen)).
Proof. reflexivity. Qed.

Lemma unseen_closed edges seen : next_edges edges seen = [] → closed edges seen.
Proof.
  intros Hn x y (e & He & <- & <-) Hx. destruct (mem (col "child_memory_id" e) seen) eqn:E;
    [by apply mem_true|].
  assert (e ∈ next_edges edges seen) as Hin; [|rewrite Hn in Hin; by apply elem_of_nil in Hin].
  apply elem_of_list_filter. split; [done|]. rewrite E. by rewrite (proj2 (mem_true _ _) Hx).
Qed.

Lemma affected_closed_stays fuel edges seen : next_edges edges seen = [] →
  affected fuel edges seen = seen.
Proof.
  intros Hn. induction fuel as [|fuel IH]; [done|]. rewrite affected_step, Hn. cbn.
  by rewrite app_nil_r.
Qed.

Lemma closed_unseen edges seen : closed edges seen → next_edges edges seen = [].
Proof.
  intros Hc. destruct (next_edges edges seen) as [|e l] eqn:E; [done|].
  assert (e ∈ next_edges edges seen) as [He Hp]%elem_of_list_filter by (rewrite E; left).
  apply andb_true_iff in Hp as [Hx%mem_true Hy%negb_true_iff%mem_false]. exfalso. apply Hy.
  eapply Hc; [|exact Hx]. by exists e.
Qed.

Lemma affected_add n m edges seen : affected (n + m) edges seen = affected m edges (affected n edges seen).
Proof. revert seen. induction n as [|n IH]; intros seen; [done|]. apply IH. Qed.

(** Every round that finds something has fewer edges left. *)
Lemma unseen_decreases edges seen : next_edges edges seen ≠ [] →
  (length (unseen edges (seen ++ (col "child_memory_id" <$> next_edges edges seen))) <
   length (unseen edges seen))%nat.
Proof.
  intros Hn. destruct (next_edges edges seen) as [|e l] eqn:E; [done|].
  assert (e ∈ next_edges edges seen) as [He Hp]%elem_of_list_filter by (rewrite E; left).
  apply andb_true_iff in Hp as [_ Hp].
  set (seen' := seen ++ _). assert (col "child_memory_id" e ∈ seen') as Hin.
  { apply elem_of_app. right. left. }
  assert (∀ x, x ∈ seen → x ∈ seen') as Hsub by (intros; apply elem_of_app; by left).
  clearbody seen'. clear E Hn. unfold unseen.
  revert He. generalize edges. clear edges. intros edges. induction edges as [|e' edges IH]; [by intros ?%elem_of_nil|].
  assert (length (unseen edges seen') <= length (unseen edges seen))%nat as Hle.
  { clear -Hsub. unfold unseen. induction edges as [|x edges IH]; [done|]. cbn.
    destruct (mem (col "child_memory_id" x) seen) eqn:E; cbn.
    - rewrite (proj2 (mem_true _ _) (Hsub _ (proj1 (mem_true _ _) E))). done.
    - destruct (mem _ seen'); cbn; lia. }
  unfold unseen in Hle. intros [->|He]%elem_of_cons; cbn.
  - rewrite Hp. rewrite (proj2 (mem_true _ _) Hin). cbn. lia.
  - specialize (IH He). destruct (mem (col "child_memory_id" e') seen) eqn:E; cbn.
    + by rewrite (proj2 (mem_true _ _) (Hsub _ (proj1 (mem_true _ _) E))).
    + destruct (mem _ seen'); cbn; lia.
Qed.

Lemma affected_closed fuel edges seen : (length (unseen edges seen) <= fuel)%nat →
  closed edges (affected fuel edges seen).
Proof.
  revert seen. induction fuel as [|fuel IH]; intros seen Hf;
    (destruct (decide (next_edges edges seen = [])) as [E|E];
     [rewrite affected_closed_stays by done; by apply unseen_closed|]).
  - pose proof (unseen_decreases _ _ E). lia.
  - rewrite affected_step. apply IH. pose proof (unseen_decreases _ _ E). lia.
Qed.

Lemma affected_keeps fuel edges seen x : x ∈ seen → x ∈ affected fuel edges seen.
Proof.
  revert seen. induction fuel as [|fuel IH]; intros seen Hx; [done|]. rewrite affected_step.
  apply IH, elem_of_app. by left.
Qed.

Lemma affected_sound root fuel edges seen :
  (∀ x, x ∈ seen → rtc (derives edges) root x) →
  ∀ x, x ∈ affected fuel edges seen → rtc (derives edges) root x.
Proof.
  revert seen. induction fuel as [|fuel IH]; intros seen Hs x; [by apply Hs|]. rewrite affected_step.
  apply IH. intros y [Hy|Hy]%elem_of_app; [by apply Hs|].
  apply list_elem_of_fmap in Hy as (e & -> & [He Hp]%elem_of_list_filter).
  apply andb_true_iff in Hp as [Hp%mem_true _]. eapply rtc_r; [by apply Hs|]. by exists e.
Qed.

(** One round per edge finds exactly what derives from the root. *)
Lemma affected_reaches edges root x :
  x ∈ affected (length edges) edges [root] ↔ rtc (derives edges) root x.
Proof.
  split.
  - apply affected_sound. intros y ->%list_elem_of_singleton. done.
  - assert (closed edges (affected (length edges) edges [root])) as Hc.
    { apply affected_closed. apply List.filter_length_le. }
    assert (root ∈ affected (length edges) edges [root]) as Hr by (apply affected_keeps; left).
    revert Hc Hr. generalize (affected (length edges) edges [root]). intros l Hl Hr Hx. revert Hr. induction Hx as [y|y z w Hyz _ IH]; intros Hr; [done|]. apply IH. by eapply Hl.
Qed.

(** ** The deletion *)

Definition deleted (time : datetime) : row :=
  [("status", c_str "deleted"); ("deleted_at", TimeCell time)].

(** The memories a deletion of [root] is to mark: of the tenant, derived from
    the root by its edges, not deleted yet. *)
Definition doomed (t root : uuid) (c : content) (r : row) : Prop :=
  of_tenant t r = true ∧
  rtc (derives (List.filter (of_tenant t) (c (table_name memory_deletion_edges)))) (c_uuid root) (col "id" r) ∧
  col "deleted_at" r = NULL.

Lemma derives_permutation edges edges' x y : edges ≡ₚ edges' → derives edges x y → derives edges' x y.
Proof. intros E (e & He & H). exists e. split; [by rewrite <- E|done]. Qed.

Lemma rtc_derives edges edges' x y : edges ≡ₚ edges' → rtc (derives edges) x y → rtc (derives edges') x y.
Proof. intros E. apply rtc_subrel. intros a b. by apply derives_permutation. Qed.

Lemma not_null c t k type r : consistent c = true → t ∈ Tables.schema → required k type ∈ items t →
  r ∈ c (table_name t) → col k r ≠ NULL.
Proof.
  intros Hc Ht Hq Hr. unfold consistent in Hc. rewrite all_true in Hc. specialize (Hc t Ht).
  unfold table_holds in Hc. rewrite all_true in Hc. specialize (Hc _ Hq). cbn in Hc.
  rewrite all_true in Hc. specialize (Hc r Hr). by apply negb_true_iff, bool_decide_eq_false in Hc.
Qed.

(** Rows of a table are the same when their identifiers are. *)
Lemma same_id c t r r' : consistent c = true → t ∈ Tables.schema → Unique ["id"] ∈ items t →
  required "id" (String_ 36) ∈ items t → r ∈ c (table_name t) → r' ∈ c (table_name t) →
  col "id" r = col "id" r' → r = r'.
Proof.
  intros Hc Ht Hu Hq Hr Hr' E. eapply unique_rows; [exact Hc|exact Ht|exact Hu|exact Hr|exact Hr'| |].
  - pose proof (not_null c t "id" _ r Hc Ht Hq Hr) as Hn. unfold has_null, cols. cbn.
    apply mem_false. rewrite list_elem_of_singleton. congruence.
  - unfold cols. cbn [fmap list_fmap]. by rewrite E.
Qed.

Section deletion.
Context {DB : Type} `{DatabaseLaws DB} (t root : uuid).
Notation MR := (M (session DB)).

Section marking.
Context (s : session DB) (p : row → bool).
Notation memories := (content_now s (table_name memory_records)).
Context (Hp : ∀ r, r ∈ memories → p r = true ↔ doomed t root (content_now s) r).

Lemma doomed_rows edges :
  edges ≡ₚ List.filter (of_tenant t) (content_now s (table_name memory_deletion_edges)) →
  List.filter (fun r => of_tenant t r && in_ "id" (affected (length edges) edges [c_uuid root]) r &&
                        is_null "deleted_at" r) memories = List.filter p memories.
Proof.
  intros E. apply filter_ext_in. intros r Hr%list_elem_of_In. apply eq_true_iff_eq.
  rewrite Hp by done. unfold doomed, in_, is_null. rewrite !andb_true_iff, bool_decide_eq_true.
  rewrite mem_true, affected_reaches. split.
  - intros [[? ?] ?]. split_and!; [done| |done]. by eapply rtc_derives.
  - intros (? & ? & ?). split_and!; [done| |done]. by eapply rtc_derives.
Qed.

Lemma listed_rows ids : ids ≡ₚ col "id" <$> List.filter p memories →
  ∀ r, r ∈ memories → of_tenant t r && in_ "id" ids r = p r.
Proof.
  intros E r Hr. apply eq_true_iff_eq. unfold in_. rewrite andb_true_iff, mem_true.
  assert (col "id" r ∈ ids ↔ col "id" r ∈ col "id" <$> List.filter p memories) as -> by by rewrite E.
  rewrite list_elem_of_fmap. split.
  - intros [_ (m & Em & [Hm Hpm]%elem_of_list_filter)]. replace r with m; [done|].
    eapply (same_id (content_now s) memory_records); try done; [apply database_consistent|solve_in..].
  - intros Hpr. split; [by apply Hp in Hpr as [? _]|]. exists r. split; [done|].
    by apply elem_of_list_filter.
Qed.
End marking.

(** What the deletion leaves: the marked records, the projections of the rest. *)
Definition marked (p : row → bool) (time : datetime) (before after : content) : Prop :=
  after (table_name memory_records) ≡ₚ
    List.map (fun r => if p r then assign (deleted time) r else r) (before (table_name memory_records)) ∧
  after (table_name vector_index_projections) ≡ₚ
    List.filter (fun r => negb (of_tenant t r &&
      in_ "memory_id" (col "id" <$> List.filter p (before (table_name memory_records))) r))
      (before (table_name vector_index_projections)).

Lemma in_permutation k ids ids' r : ids ≡ₚ ids' → in_ k ids r = in_ k ids' r.
Proof. intros E. apply eq_true_iff_eq. unfold in_. by rewrite !mem_true, E. Qed.

Lemma marked_none p time c : List.filter p (c (table_name memory_records)) = [] → marked p time c c.
Proof.
  intros Hn. unfold marked. rewrite Hn. split.
  - revert Hn. generalize (c (table_name memory_records)). intros l Hn.
    induction l as [|r l IH]; [done|]. cbn in *. destruct (p r); [done|]. by rewrite <- IH.
  - generalize (c (table_name vector_index_projections)). intros l.
    induction l as [|r l IH]; [done|]. cbn. rewrite andb_false_r. cbn. by rewrite <- IH.
Qed.

Lemma marked_other p time c tb : table_name tb ≠ "memory_records" →
  table_name tb ≠ "vector_index_projections" →
  ∀ v c', marked p time c c' → marked p time c (add_row tb v c').
Proof. intros Hm Hv v c'. unfold marked. by rewrite !add_row_other by done. Qed.

Lemma marked_proper p time c : Proper (same_rows ==> iff) (marked p time c).
Proof. intros c1 c2 E. unfold marked. by rewrite (E _), (E (table_name vector_index_projections)). Qed.

Theorem deletion_marks_descendants actor p s :
  current s = false →
  (∀ r, r ∈ content_now s (table_name memory_records) → p r = true ↔ doomed t root (content_now s) r) →
  wpi uuid_ok (delete_memory t root actor)
    (fun n s' => n = Z.of_nat (length (List.filter p (content_now s (table_name memory_records)))) ∧
                 ∃ time, marked p time (content_now s) (content_now s'))
    (fun _ s' => s' = s) s.
Proof.
  intros Hs Hp. apply wp_bind, wp_now. intros time. apply wp_begin_alone; [done|].
  apply wp_bind, wp_select. intros edges Hedges. apply wp_bind, wp_select. intros rows Hrows.
  rewrite (doomed_rows s p Hp edges Hedges) in Hrows.
  cbv zeta. case_bool_decide as En.
  { apply fmap_nil_inv in En as ->. symmetry in Hrows. apply Permutation_nil_r in Hrows.
    apply wp_ret. rewrite Hrows. split; [done|]. exists time. by apply marked_none. }
  assert (col "id" <$> rows ≡ₚ col "id" <$> List.filter p (content_now s (table_name memory_records)))
    as Hids by by rewrite Hrows.
  pose proof (listed_rows s p Hp _ Hids) as Hlisted.
  set (ids := col "id" <$> rows) in *.
  apply wp_bind, wp_update; [|done]. intros s1 Hs1 _.
  apply wp_bind, wp_delete; [|done]. intros s2 Hs2 _. apply wp_bind.
  assert (marked p time (content_now s) (content_now s2)) as Hm.
  { unfold marked. rewrite (Hs2 _), (Hs2 (table_name vector_index_projections)).
    rewrite remove_other, remove_at by done. rewrite (Hs1 _), revise_at. split.
    - erewrite map_ext_in; [reflexivity|]. intros r Hr%list_elem_of_In. cbv beta.
      by rewrite (Hlisted r Hr).
    - rewrite (filter_permutation _ _ _ (Hs1 (table_name vector_index_projections))).
      rewrite revise_other by done. erewrite List.filter_ext; [reflexivity|]. intros r. cbv beta.
      by rewrite (in_permutation _ _ _ _ Hids). }
  eapply wp_mono.
  - apply (preserves_for_each uuid_ok (marked p time (content_now s)) (fun _ => True)); [|exact Hm].
    intros x _. preserve_step. apply preserves_insert; [apply marked_proper|apply _|].
    by apply marked_other.
  - intros ? s' Hs'. apply wp_ret. split; [|by exists time].
    unfold ids. by rewrite length_fmap, Hrows.
  - done.
Qed.
End deletion.

Theorem recursive_query_ends edges root extra :
  affected (length edges + extra) edges [root] = affected (length edges) edges [root] ∧
  ∀ x, x ∈ affected (length edges) edges [root] ↔ rtc (derives edges) root x.
Proof.
  split; [|intros x; apply affected_reaches]. rewrite affected_add. apply affected_closed_stays.
  apply closed_unseen, affected_closed. apply List.filter_length_le.
Qed.

(** * What an update of rows leaves

    An update of the row with one identifier changes that row and no other,
    and an update of columns that no constraint names keeps the database
    consistent. *)

Open Scope string_scope.
Open Scope list_scope.
Open Scope Z_scope.

(** An update selected by the identifier of a row that is there. *)
Lemma revise_row c t r p f : consistent c = true → t ∈ Tables.schema → Unique ["id"] ∈ items t →
  required "id" (String_ 36) ∈ items t → r ∈ c (table_name t) → p r = true →
  (∀ r', p r' = true → col "id" r' = col "id" r) →
  ∃ l, c (table_name t) ≡ₚ r :: l ∧ revise t p f c (table_name t) ≡ₚ f r :: l.
Proof.
  intros Hc Ht Hu Hq Hr Hp Hid.
  assert (NoDup (c (table_name t))) as Hn by by apply table_nodup.
  pose proof (λ r' Hr', same_id c t r' r Hc Ht Hu Hq Hr' Hr) as Hsame.
  apply elem_of_Permutation in Hr as [l El]. exists l. split; [done|].
  rewrite revise_at, (Permutation_map _ El). cbn [List.map]. rewrite Hp.
  assert (∀ r', r' ∈ l → p r' = false) as Hl.
  { intros r' Hr'. destruct (p r') eqn:E; [|done]. rewrite El in Hn.
    apply NoDup_cons in Hn as [Hn _]. destruct Hn. rewrite <- (Hsame r'); [done| |by apply Hid].
    rewrite El. by right. }
  assert (List.map (λ r', if p r' then f r' else r') l = l) as ->; [|done].
  rewrite <- (map_id l) at 2. apply map_ext_in. intros r' Hr'%list_elem_of_In. by rewrite Hl.
Qed.

(** ** Constraints *)

(** None of [names] is in [ks]. *)
Definition apart (ks names : list string) : bool := all (fun k => negb (mem k ks)) names.

Lemma apart_true ks names : apart ks names = true ↔ ∀ k, k ∈ names → k ∉ ks.
Proof. unfold apart. rewrite all_true. by setoid_rewrite negb_true_iff; setoid_rewrite mem_false. Qed.

(** The item of the table that is updated does not depend on the columns [ks]. *)
Definition untouched (ks : list string) (i : item) : Prop :=
  match i with
  | Col c => Column.nullable c || apart ks [Column.name c] = true
  | Unique names | Reference names _ _ => apart ks names = true
  | UniqueWhere names condition =>
      apart ks names = true ∧
      ∀ r r', (∀ k, k ∉ ks → col k r = col k r') → condition r = condition r'
  | Checked p => ∀ r r', (∀ k, k ∉ ks → col k r = col k r') → p r = p r'
  end.

Lemma all_map {A B} (p : B → bool) (f : A → B) (q : A → bool) l :
  (∀ x, p (f x) = q x) → all p (List.map f l) = all q l.
Proof.
  intros E. apply eq_true_iff_eq. rewrite !all_true. setoid_rewrite list_elem_of_In.
  setoid_rewrite in_map_iff. split.
  - intros Ha x Hx. rewrite <- E. apply Ha. by exists x.
  - intros Ha y (x & <- & Hx). rewrite E. by apply Ha.
Qed.

Section updates.
Context (ks : list string) (g : row → row) (Hg : ∀ r k, k ∉ ks → col k (g r) = col k r).

Lemma cols_kept names r : apart ks names = true → cols names (g r) = cols names r.
Proof.
  rewrite apart_true. intros Hn. unfold cols. apply list_fmap_ext. intros i k Hk%list_elem_of_lookup_2. auto.
Qed.

Lemma keys_kept names l : apart ks names = true → keys_of names (List.map g l) = keys_of names l.
Proof.
  intros Hn. unfold keys_of, has_null. induction l as [|r l IH]; [done|].
  cbn [List.map List.filter]. rewrite (cols_kept names r Hn).
  destruct (negb _); cbn [fmap list_fmap]; [|exact IH]. by rewrite (cols_kept names r Hn), IH.
Qed.

Lemma filter_kept (condition : row → bool) l : (∀ r, condition (g r) = condition r) →
  List.filter condition (List.map g l) = List.map g (List.filter condition l).
Proof.
  intros E. induction l as [|r l IH]; [done|]. cbn. rewrite E, IH. by destruct (condition r).
Qed.

(** References to other tables keep their targets. *)
Definition targets_kept (n : string) (i : item) : bool :=
  match i with
  | Reference _ target keys => negb (bool_decide (target = n)) || apart ks keys
  | _ => true
  end.

Lemma item_kept n d d' rows i :
  (∀ m, d' m = if bool_decide (m = n) then List.map g (d m) else d m) → targets_kept n i = true →
  item_holds d' rows i = item_holds d rows i.
Proof.
  intros Hd Hi. destruct i as [c|names|names q|names target keys|q]; try done. cbn in Hi |- *.
  apply orb_true_iff in Hi.
  apply all_ext. intros r. f_equal. rewrite Hd. case_bool_decide as E; [|done].
  destruct Hi as [Hi|Hi]; [discriminate Hi|].
  apply bool_decide_ext. rewrite !list_elem_of_fmap. setoid_rewrite list_elem_of_In.
  setoid_rewrite in_map_iff. split.
  - intros (? & E' & x & <- & Hx). exists x. rewrite cols_kept in E' by auto. done.
  - intros (x & E' & Hx). exists (g x). rewrite cols_kept by auto. split; [done|]. by exists x.
Qed.

Lemma own_item_kept d rows i : untouched ks i →
  item_holds d rows i = true → item_holds d (List.map g rows) i = true.
Proof.
  intros Hi. destruct i as [c|names|names q|names target keys|q]; cbn [untouched item_holds] in Hi |- *.
  - apply orb_true_iff in Hi as [->|Hi]; [done|]. rewrite apart_true in Hi. rewrite (all_map _ g (λ r, negb (bool_decide (col (Column.name c) r = NULL)))).
    + done.
    + intros r. rewrite Hg; [done|]. apply Hi. left.
  - by rewrite keys_kept.
  - destruct Hi as [Hk Hq]. rewrite filter_kept by (intros r; apply Hq; auto). by rewrite keys_kept.
  - rewrite (all_map _ g (λ r, has_null names r || mem (cols names r) (cols keys <$> d target))); [done|].
    intros r. unfold has_null. by rewrite cols_kept.
  - rewrite (all_map _ g q); [done|]. intros r. apply Hi. auto.
Qed.
End updates.

Lemma schema_names t t' : t ∈ Tables.schema → t' ∈ Tables.schema → table_name t' = table_name t → t' = t.
Proof.
  assert (NoDup (table_name <$> Tables.schema)) as Hn by by apply unique_true.
  intros Ht Ht' E. apply list_elem_of_lookup in Ht as [i Hi]. apply list_elem_of_lookup in Ht' as [j Hj].
  rewrite NoDup_alt in Hn. specialize (Hn j i (table_name t)).
  rewrite !list_lookup_fmap, Hi, Hj in Hn. cbn in Hn. rewrite E in Hn.
  specialize (Hn eq_refl eq_refl). congruence.
Qed.

(** An update of columns that no constraint names keeps the database consistent. *)
Lemma revise_consistent t p f ks c : consistent c = true →
  (∀ r k, k ∉ ks → col k (f r) = col k r) →
  Forall (untouched ks) (items t) →
  t ∈ Tables.schema →
  all (fun t' => all (targets_kept ks (table_name t)) (items t')) Tables.schema = true →
  consistent (revise t p f c) = true.
Proof.
  intros Hc Hf Ho Hn Ht. rewrite all_true in Ht.
  set (g := λ r, if p r then f r else r).
  assert (∀ r k, k ∉ ks → col k (g r) = col k r) as Hg.
  { intros r k Hk. unfold g. destruct (p r); auto. }
  unfold consistent in *. rewrite all_true in Hc |- *. intros t' Ht'.
  specialize (Hc t' Ht'). unfold table_holds in *. rewrite all_true in Hc |- *. intros i Hi.
  specialize (Hc i Hi). specialize (Ht t' Ht'). cbn beta in Ht.
  rewrite all_true in Ht.
  rewrite (item_kept ks g Hg (table_name t) c); [|done|by apply Ht].
  unfold revise, on. case_bool_decide as E; [|done].
  apply (own_item_kept ks g Hg); [|done]. rewrite Forall_forall in Ho. apply Ho. by rewrite <- (schema_names t t').
Qed.
