(* ===== verification/RepositoryOutbox.v ===== *)
(** * Every recorded event has its message

    An operation that raises changes nothing, and the audit events of the
    database and the messages of its outbox correspond one to one: no event is
    recorded without the message that announces it, no message announces an
    event that was not recorded, whatever raised in between.  Also: an
    idempotency key is bound once, and the insert of a stable channel is always
    refused. *)

From S2P Require Import Prelude PyStr Effects PyDict PyFloat Json Transitions Values Goals.
From S2P Require Import Execution ExecutionObjects Digests Identity Improvement EvaluationDomain.
From S2P Require Import Calendar ContextDomain AuditChain Capability Verification Uuids Rows.
From S2P Require Import Isolation Codec Inserts CodecProofs Schema Database RepositoryCore.
From S2P Require Import RepositoryRuns RepositoryExecution RepositoryLogic RepositoryCommands.
From S2P Require Import RepositoryTenants RepositoryProofs RepositoryVersions RepositoryMemory.
From Stdlib Require Import ZArith.

Import Tables.
Open Scope string_scope.
Open Scope list_scope.
Open Scope Z_scope.

(** ** Operations that raise *)

Section atomic.
Context {DB : Type} `{DatabaseLaws DB} (F : uuid → Prop).
Notation MR := (M (session DB)).

(** Without an open transaction, [m] changes nothing when it raises. *)
Definition atomic {A} (m : MR A) : Prop :=
  ∀ s, current s = false → wpi F m (fun _ _ => True) (fun _ s' => s' = s) s.

Lemma wp_anything {A} (m : MR A) s0 s : s0 = s →
  wpi F m (fun _ _ => True) (fun _ _ => s0 = s) s.
Proof. intros <- e n k Hk. by destruct (m e (St s0 n k)) as [[]]. Qed.

(** [m] changes nothing. *)
Definition reading {A} (m : MR A) : Prop := ∀ s, wpi F m (fun _ s' => s' = s) (fun _ s' => s' = s) s.

Lemma reading_now : reading now.
Proof. intros s. by apply wp_now. Qed.
Lemma reading_uuid4 : reading uuid4.
Proof. intros s. by apply wp_uuid4. Qed.
Lemma reading_lift {A} (r : res A) : reading (lift r).
Proof. intros s. by apply wp_lift. Qed.

Lemma atomic_bind {A B} (m : MR A) (f : A → MR B) : reading m → (∀ a, atomic (f a)) → atomic (m ≫= f).
Proof.
  intros Hm Hf s Hs. apply wp_bind. eapply wp_mono; [apply Hm| |done].
  intros a s' ->. by apply Hf.
Qed.
Lemma atomic_ret {A} (m : MR A) {B} (f : A → B) : atomic m → atomic (a ← m; mret (f a)).
Proof.
  intros Hm s Hs. apply wp_bind. eapply wp_mono; [by apply Hm| |done]. intros a s' _. by apply wp_ret.
Qed.
Lemma atomic_begin {A} (m : MR A) : atomic (begin m).
Proof.
  intros s Hs. apply wp_begin_alone; [done|]. by apply wp_anything.
Qed.
Lemma atomic_transaction {A} (m : MR A) : atomic (transaction_ m).
Proof.
  intros s Hs. apply wp_bind, wp_get. apply wp_bind, wp_throw_if; [intros _|done].
  apply wp_transaction. by apply wp_anything.
Qed.
End atomic.

Ltac atomic_step :=
  lazymatch goal with
  | |- atomic _ (begin _) => apply atomic_begin
  | |- atomic _ (_ ≫= (fun _ => mret _)) => apply atomic_ret
  | |- atomic _ (now ≫= _) => apply atomic_bind; [apply reading_now|intros ?]
  | |- atomic _ (uuid4 ≫= _) => apply atomic_bind; [apply reading_uuid4|intros ?]
  | |- atomic _ (lift _ ≫= _) => apply atomic_bind; [apply reading_lift|intros ?]
  | |- atomic _ (throw_if _ _ _ ≫= _) => apply atomic_bind; [apply reading_lift|intros ?]
  | |- atomic _ ?m => let f := head_of m in unfold f
  end.

Section steps.
Context {DB : Type} `{DatabaseLaws DB}.

Lemma step_atomic F x : atomic F (run_step (DB := DB) x).
Proof.
  destruct x as [c|cs]; [|apply atomic_transaction].
  destruct c; cbn [run_step run_command]; repeat atomic_step.
Qed.

Theorem failed_step_changes_nothing x s : current s = false →
  wpi (fun _ => True) (run_step (DB := DB) x) (fun _ _ => True) (fun _ s' => s' = s) s.
Proof. apply step_atomic. Qed.

(** The transaction a step opens is closed when it returns. *)
Lemma step_idle x s : current s = false →
  wpi uuid_ok (run_step (DB := DB) x) (fun _ s' => current s' = false) (fun _ _ => True) s.
Proof.
  intros Hs. destruct x as [c|cs]; cbn [run_step].
  - eapply wp_mono; [apply command_steady| |done]. by intros ? s' ->.
  - apply wp_bind, wp_get. apply wp_bind, wp_throw_if; [intros _|done].
    apply wp_transaction, wp_bind, wp_put, wp_bind.
    eapply wp_mono; [by apply wp_anything| |done]. intros ? s' _.
    apply wp_bind, wp_get. apply wp_bind, wp_put. by apply wp_ret.
Qed.
End steps.

(** ** Events and messages *)

(** Tenant, position and digest: of the row of an event, and in the message
    that announces it. *)
Definition event_key (r : row) : cell * cell * cell :=
  (col "tenant_id" r, col "sequence" r, col "event_digest" r).
Definition message_key (r : row) : cell * cell * cell :=
  match col "payload" r with
  | Cell (JDict d) => (col "tenant_id" r, Cell (Rows.get d "audit_sequence"), Cell (Rows.get d "audit_digest"))
  | _ => (NULL, NULL, NULL)
  end.

Definition announced (c : content) : Prop :=
  event_key <$> c (table_name audit_events) ≡ₚ message_key <$> c (table_name outbox).

#[export] Instance announced_proper : Proper (same_rows ==> iff) announced.
Proof. intros c c' E. unfold announced. by rewrite (E _), (E (table_name outbox)). Qed.

Section announcing.
Context {DB : Type} `{DatabaseLaws DB}.
Notation MR := (M (session DB)).
Notation kept := (preserves_or (DB := DB) uuid_ok announced (fun _ => True)).

Lemma announced_other tb f c : table_name tb ≠ "audit_events" → table_name tb ≠ "outbox" →
  announced c → announced (on tb f c).
Proof. intros Ha Ho. unfold announced. by rewrite !on_other by done. Qed.

Lemma announced_insert tb v : table_name tb ≠ "audit_events" → table_name tb ≠ "outbox" →
  kept (insert tb v).
Proof. intros Ha Ho. apply preserves_insert; [apply _..|]. intros c. by apply announced_other. Qed.
Lemma announced_update tb p f : table_name tb ≠ "audit_events" → table_name tb ≠ "outbox" →
  kept (update tb p f).
Proof. intros Ha Ho. apply preserves_update; [apply _..|]. intros c. by apply announced_other. Qed.
Lemma announced_delete tb p : table_name tb ≠ "audit_events" → table_name tb ≠ "outbox" →
  kept (delete tb p).
Proof. intros Ha Ho. apply preserves_delete; [apply _..|]. intros c. by apply announced_other. Qed.

(** The event and its message have the same key. *)
Lemma announced_keys chained u t c : announced c →
  announced (add_row outbox (complete outbox (outbox_values u chained t))
               (add_row audit_events (complete audit_events (audit_values chained t)) c)).
Proof.
  unfold announced. intros Hc. rewrite add_row_at, !add_row_other, add_row_at by done.
  rewrite add_row_other by done. rewrite !fmap_cons, Hc. done.
Qed.

Lemma announced_append audit t : kept (add_audit_and_outbox audit t).
Proof.
  intros s Hs. apply wp_bind. apply wp_bind, wp_select. intros rows _.
  do 4 (apply wp_bind, wp_lift; [intros ? _|done]).
  apply wp_bind, wp_insert; [|done]. intros s1 Hs1 _. apply wp_ret.
  apply wp_bind. apply wp_bind, wp_uuid4. intros u _.
  apply wp_insert; [|done]. intros s2 Hs2 _. apply wp_ret.
  rewrite Hs2. unfold add_row at 1. rewrite Hs1. by apply announced_keys.
Qed.

Ltac announced_leaf :=
  lazymatch goal with
  | |- preserves_or _ _ _ (insert _ _) => apply announced_insert; discriminate
  | |- preserves_or _ _ _ (update _ _ _) => apply announced_update; discriminate
  | |- preserves_or _ _ _ (delete _ _) => apply announced_delete; discriminate
  | |- preserves_or _ _ _ (add_audit_and_outbox _ _) => apply announced_append
  | |- preserves_or _ _ _ ?m => let f := head_of m in unfold f
  end.

Lemma command_announces c : kept (run_command c).
Proof.
  destruct c; cbn [run_command]; repeat first [preserve_step | progress announced_leaf].
  by destruct kind; apply announced_insert.
Qed.

Lemma step_announces x : kept (run_step x).
Proof.
  destruct x as [c|cs]; [apply command_announces|].
  apply preserves_transaction; [apply _|]. apply preserves_for_each. intros c _. apply command_announces.
Qed.

(** C34. However operations of the relational repository succeed or raise, alone or in
    a transaction of the application, its audit events and its outbox messages
    correspond one to one by tenant, position and digest. *)
Theorem every_event_is_announced steps s : current s = false → announced (content_now s) →
  wpi uuid_ok (run_history (DB := DB) steps) (fun _ s' => announced (content_now s')) (fun _ _ => False) s.
Proof.
  intros Hs Ha. eapply wp_mono.
  - apply (wp_for_each _ _ _ (fun s => current s = false ∧ announced (content_now s)) (fun _ _ => False));
      [done|].
    intros x s' _ [Hs' Ha']. apply wp_try_all.
    eapply wp_mono; [apply wp_and; [by apply step_atomic|apply wp_and; [by apply step_idle|by apply step_announces]]| |].
    + by intros ? s'' (_ & ? & ?).
    + intros e s'' [-> _]. by apply wp_ret.
  - by intros ? s' [_ ?].
  - done.
Qed.
End announcing.

(** * Idempotency keys of the relational repository

    A key is bound once: to the identifier and the request of the call that
    came first.  A later binding to another identifier, or under another
    request, raises [ConcurrencyConflict] and changes nothing. *)

Import Tables.
Open Scope string_scope.
Open Scope list_scope.
Open Scope Z_scope.

Lemma uuid_cells u v : uuid_ok u → uuid_ok v → c_uuid u = c_uuid v → u = v.
Proof.
  intros Hu Hv E. assert (j_uuid u = j_uuid v) as E' by (unfold c_uuid in E; congruence).
  apply as_uuid_uuid in Hu, Hv. congruence.
Qed.

(** The key is bound to [external_id] by a request with this digest. *)
Definition bound (t : uuid) (k : string) (external_id : uuid) (digest : option string) (c : content)
    : Prop :=
  ∃ r, the_row idempotency_records (idempotency_row t k) r c ∧
       col "external_id" r = c_uuid external_id ∧
       col "request_digest" r = c_str (digest_or_zero digest) ∧ col "status" r = c_str "completed".

Lemma filter_andb (p q : row → bool) l :
  List.filter (fun r => p r && q r) l = List.filter q (List.filter p l).
Proof.
  induction l as [|r l IH]; [done|]. cbn. destruct (p r); cbn; [|done]. by destruct (q r); rewrite IH.
Qed.

Lemma key_conflicts fresh t k e d time r :
  conflicting idempotency_records ["tenant_id"; "idempotency_key"]
    (idempotency_values fresh t k e d time) r = idempotency_row t k r.
Proof.
  unfold conflicting, idempotency_row. rewrite !matches_cons. unfold matches, all. cbn [forallb].
  rewrite andb_true_r. apply eq_true_iff_eq. rewrite andb_true_iff, !bool_decide_eq_true.
  unfold cols. cbn [fmap list_fmap]. change (col "tenant_id" (complete _ _)) with (c_uuid t).
  change (col "idempotency_key" (complete _ _)) with (c_str k).
  split; [by intros [= -> ->]|by intros [-> ->]].
Qed.

Section keys.
Context {DB : Type} `{DatabaseLaws DB}.
Notation MR := (M (session DB)).

Lemma select_keys fresh t k e d time c :
  List.filter (conflicting idempotency_records ["tenant_id"; "idempotency_key"]
                 (idempotency_values fresh t k e d time)) c = List.filter (idempotency_row t k) c.
Proof. apply List.filter_ext. intros r. apply key_conflicts. Qed.

Lemma put_binds t k e d s : no_row idempotency_records (idempotency_row t k) (content_now s) →
  current s = false →
  wpi uuid_ok (put_idempotency t k e d) (fun _ s' => bound t k e d (content_now s'))
    (fun _ s' => s' = s) s.
Proof.
  intros Hn Hs. apply wp_bind, wp_now. intros time. apply wp_begin_alone; [done|].
  apply wp_bind, wp_uuid4. intros u _. apply wp_bind. unfold insert_or_nothing.
  apply wp_bind, wp_select. intros rows Hrows. rewrite select_keys in Hrows. rewrite Hn in Hrows.
  apply Permutation_nil_r in Hrows as ->. apply wp_bind, wp_insert; [|done]. intros s' Hs' _.
  apply wp_ret. cbn. apply wp_ret.
  exists (complete idempotency_records (idempotency_values u t k e d time)). split; [|done].
  eapply the_row_permutation; [apply Hs'|]. unfold the_row. rewrite add_row_at. cbn [List.filter].
  rewrite <- key_conflicts with (fresh := u) (e := e) (d := d) (time := time) at 1.
  unfold conflicting at 1. rewrite bool_decide_eq_true_2 by done. f_equal. exact Hn.
Qed.

Lemma bound_get t k e d asked s : uuid_ok e → bound t k e d (content_now s) →
  wpi uuid_ok (get_idempotency t k asked)
    (fun found s' => s' = s ∧ found = Some e ∧ if_some (eq (digest_or_zero d)) asked)
    (fun x s' => s' = s ∧ exn_class x = ConcurrencyConflict ∧
                 ∃ digest, asked = Some digest ∧ digest ≠ digest_or_zero d) s.
Proof.
  intros Hu (r & Hr & He & Hd & Hst). apply wp_bind, wp_select. intros rows Hrows.
  rewrite filter_andb, Hr in Hrows. cbn [List.filter] in Hrows.
  rewrite matches_cons, Hst, bool_decide_eq_true_2 in Hrows by done. cbn in Hrows.
  apply Permutation_singleton_r in Hrows as ->. apply wp_bind, wp_lift; [|done]. intros ? [= <-].
  apply col_some in He; [|done]. apply (uuid_column_at r "external_id" e) in He; [|done].
  rewrite Hd. destruct asked as [digest|]; apply wp_bind, wp_throw_if; try done.
  - intros E%negb_false_iff%bool_decide_eq_true. injection E as E.
    apply wp_bind, wp_lift; [intros ? Hx|by rewrite He]. apply wp_ret. split_and!; [done|congruence|].
    by intros ? [= <-].
  - intros E%negb_true_iff%bool_decide_eq_false. split_and!; [done..|]. exists digest.
    split; [done|]. by intros ->.
  - intros _. apply wp_bind, wp_lift; [intros ? Hx|by rewrite He]. apply wp_ret.
    split_and!; [done|congruence|done].
Qed.

Lemma bound_put t k e d e' d' s : uuid_ok e → uuid_ok e' → bound t k e d (content_now s) →
  e' ≠ e → current s = false →
  wpi uuid_ok (put_idempotency t k e' d') (fun _ _ => False)
    (fun x s' => s' = s ∧ exn_class x = ConcurrencyConflict) s.
Proof.
  intros Hu Hu' (r & Hr & He & _ & _) Hn Hs. apply wp_bind, wp_now. intros time.
  apply wp_begin_alone; [done|]. apply wp_bind, wp_uuid4. intros u _. apply wp_bind.
  unfold insert_or_nothing. apply wp_bind, wp_select. intros rows Hrows.
  rewrite select_keys, Hr in Hrows. apply Permutation_singleton_r in Hrows as ->.
  apply wp_ret. cbn. apply wp_bind, wp_select. intros rows Hrows. rewrite Hr in Hrows.
  apply Permutation_singleton_r in Hrows as ->. apply wp_bind, wp_lift; [|done]. intros ? [= <-].
  rewrite He, bool_decide_eq_false_2; [by apply wp_throw_if|].
  intros E. apply Hn. symmetry. by apply uuid_cells.
Qed.

Theorem first_binding_wins t k e d e' d' asked s :
  uuid_ok e → uuid_ok e' → e' ≠ e → current s = false →
  no_row idempotency_records (idempotency_row t k) (content_now s) →
  wpi uuid_ok (put_idempotency (DB := DB) t k e d)
    (fun _ s' =>
       wpi uuid_ok (put_idempotency t k e' d') (fun _ _ => False)
         (fun x s'' => s'' = s' ∧ exn_class x = ConcurrencyConflict) s' ∧
       wpi uuid_ok (get_idempotency t k asked)
         (fun found s'' => s'' = s' ∧ found = Some e ∧ if_some (eq (digest_or_zero d)) asked)
         (fun x s'' => s'' = s' ∧ exn_class x = ConcurrencyConflict ∧
                       ∃ digest, asked = Some digest ∧ digest ≠ digest_or_zero d) s')
    (fun _ s' => s' = s) s.
Proof.
  intros Hu Hu' Hne Hs Hn. eapply wp_mono.
  - apply wp_and; [by apply put_binds|].
    assert (steady uuid_ok (put_idempotency (DB := DB) t k e d)) as Hst by (repeat steady_step).
    apply Hst.
  - intros ? s' [Hb Hs']. split; [|by apply bound_get].
    eapply (bound_put t k e d); [done..|by rewrite Hs'].
  - by intros x s' [-> _].
Qed.
End keys.

(** * The insert the schema refuses

    [set_stable_channel] gives the new row no [created_at], which has no
    default and may not be NULL. *)

Import Tables.
Open Scope string_scope.
Open Scope list_scope.
Open Scope Z_scope.

Theorem stable_channel_is_never_set {DB} `{DatabaseLaws DB} t pack_id version actor s :
  current s = false →
  wpi uuid_ok (set_stable_channel (DB := DB) t pack_id version actor) (fun _ _ => False)
    (fun _ s' => s' = s) s.
Proof.
  intros Hs. apply wp_bind, wp_now. intros d. apply wp_begin_alone; [done|].
  apply wp_bind, wp_delete; [|done]. intros s1 Hs1 _. apply wp_bind, wp_uuid4. intros u _.
  apply wp_bind, wp_insert; [|done]. intros s2 Hs2 _. exfalso.
  set (r := complete capability_pack_channels (channel_values u t pack_id version actor d)) in *.
  apply (not_null (content_now s2) capability_pack_channels "created_at" DateTime r).
  - apply database_consistent.
  - solve_in.
  - solve_in.
  - rewrite (Hs2 _), add_row_at. left.
  - reflexivity.
Qed.
