(* ===== verification/SqlKillSwitch.v ===== *)
(** * packages/adapters: kill_switch_store.py

    The kill switch stores over the relational database: the tenant's, whose
    rows of [kill_switches] block while they are not deactivated, and the
    platform's, for break-glass use, with its own audit rows and alerts.  Each
    operation has a transaction of its own ([Database.transaction] is that of
    [Effects]). *)

From S2P Require Import Prelude PyStr Effects PyDict Json Transitions Values Goals Digests.
From S2P Require Import Calendar Gateway KillSwitch Capability Uuids Rows Inserts CodecProofs.
From S2P Require Import Schema Database RepositoryCore RepositoryRuns RepositoryLogic.
From S2P Require Import RepositoryTenants RepositoryProofs RepositoryVersions RepositoryMemory.
From Stdlib Require Import ZArith.

Import Tables.
Open Scope string_scope.
Open Scope list_scope.
Open Scope Z_scope.

Definition dimension_value (d : KillSwitchDimension.t) : string :=
  match d with
  | KillSwitchDimension.PLATFORM => "platform"
  | KillSwitchDimension.TENANT => "tenant"
  | KillSwitchDimension.AGENT => "agent"
  | KillSwitchDimension.TOOL => "tool"
  | KillSwitchDimension.OPERATION => "operation"
  | KillSwitchDimension.PROVIDER => "provider"
  | KillSwitchDimension.CAPABILITY_PACK => "capability_pack"
  end.

#[export] Instance dimension_enum : PyEnum KillSwitchDimension.t.
Proof.
  refine {| enum_class := "KillSwitchDimension"; enum_value := dimension_value;
            enum_members := [KillSwitchDimension.PLATFORM; KillSwitchDimension.TENANT;
              KillSwitchDimension.AGENT; KillSwitchDimension.TOOL; KillSwitchDimension.OPERATION;
              KillSwitchDimension.PROVIDER; KillSwitchDimension.CAPABILITY_PACK] |}.
  solve_members.
Defined.

(** [deactivated_at.is_(None)] *)
Definition is_on (r : row) : bool := is_null "deactivated_at" r.

Definition switch_from_row (row : row) (deactivated_at : option datetime) : res KillSwitchRecord.t :=
  kill_switch_id ← uuid_column row "id";
  dimension ← enum_column row "dimension";
  target ← str_column row "target";
  reason ← str_column row "reason";
  activated_by ← str_column row "activated_by";
  activated_at ← time_column row "created_at";
  Ok (KillSwitchRecord.mk kill_switch_id dimension target reason activated_by activated_at
        deactivated_at).

Module SqlKillSwitchStore.
Section store.
Context {DB : Type} `{Database DB} (tenant : option uuid).
Notation MR := (M (session DB)).

(** [self._required_tenant()] *)
Definition required_tenant : res uuid :=
  match tenant with
  | None => raise ValueError "a tenant-scoped kill switch store is required"
  | Some t => Ok t
  end.

(** The tenant's switch of a dimension and target that is on. *)
Definition switched_on (t : uuid) (key : KillSwitchDimension.t * string) (r : row) : bool :=
  matches [("tenant_id", c_uuid t); ("dimension", c_enum key.1); ("target", c_str key.2)] r && is_on r.

(** [self._tenant_id or (UUID(query.tenant_id) if query.tenant_id else None)] *)
Definition query_tenant (query : KillSwitchQuery.t) : res uuid :=
  match tenant, KillSwitchQuery.tenant_id query with
  | Some t, _ => Ok t
  | None, Some s =>
      if empty s then raise ValueError "kill switch query requires tenant_id" else uuid_of_str s
  | None, None => raise ValueError "kill switch query requires tenant_id"
  end.

Definition is_blocked (query : KillSwitchQuery.t) : MR bool :=
  t ← lift (query_tenant query);
  let conditions := KillSwitchQuery.dimensions query in
  if bool_decide (conditions = []) then mret false else
  platform ← select platform_kill_switches is_on;
  match first platform with
  | Some _ => mret true
  | None =>
      rows ← select kill_switches (fun r => any (fun key => switched_on t key r) conditions);
      mret (is_some (first rows))
  end.

Definition switch_values (record : KillSwitchRecord.t) (t : uuid) (time : datetime) : row := [
  ("id", c_uuid (KillSwitchRecord.kill_switch_id record));
  ("tenant_id", c_uuid t);
  ("dimension", c_enum (KillSwitchRecord.dimension record));
  ("target", c_str (KillSwitchRecord.target record));
  ("reason", c_str (KillSwitchRecord.reason record));
  ("activated_by", c_str (KillSwitchRecord.activated_by record));
  ("deactivated_at", NULL);
  ("optimistic_version", c_int 1);
  ("created_at", TimeCell time)].

Definition not_platform (dimension : KillSwitchDimension.t) : res unit :=
  raise_if (bool_decide (dimension = KillSwitchDimension.PLATFORM)) PermissionError
    "platform switch requires the Break-glass store".

Definition activate (dimension : KillSwitchDimension.t) (target reason activated_by : string)
    : MR KillSwitchRecord.t :=
  t ← lift required_tenant;
  lift (not_platform dimension) ;;
  time ← now;
  kill_switch_id ← uuid4;
  let record := KillSwitchRecord.mk kill_switch_id dimension target reason activated_by time None in
  transaction (insert kill_switches (switch_values record t time)) ;;
  mret record.

Definition deactivate (dimension : KillSwitchDimension.t) (target : string)
    : MR (option KillSwitchRecord.t) :=
  t ← lift required_tenant;
  lift (not_platform dimension) ;;
  time ← now;
  transaction (
    rows ← select kill_switches (switched_on t (dimension, target));
    row ← lift (one_or_none (take 1 rows));
    match row with
    | None => mret None
    | Some row =>
        update kill_switches
          (fun r => bool_decide (col "id" r = col "id" row) && of_tenant t r)
          (assign [("deactivated_at", TimeCell time)]) ;;
        record ← lift (switch_from_row row (Some time));
        mret (Some record)
    end).

Definition list_active : MR (list KillSwitchRecord.t) :=
  t ← lift required_tenant;
  rows ← select kill_switches (fun r => of_tenant t r && is_on r);
  lift (mapM_res (fun row => switch_from_row row None) rows).
End store.
End SqlKillSwitchStore.

(** [s.partition(pattern)[2]] *)
Fixpoint drop_prefix (pattern s : string) : option string :=
  match pattern, s with
  | EmptyString, _ => Some s
  | String c p, String d s => if bool_decide (c = d) then drop_prefix p s else None
  | String _ _, EmptyString => None
  end.
Fixpoint after_text (pattern s : string) : string :=
  match drop_prefix pattern s with
  | Some rest => rest
  | None => match s with EmptyString => EmptyString | String _ s => after_text pattern s end
  end.

Module SqlPlatformKillSwitchStore.
Section store.
Context {DB : Type} `{Database DB}.
Notation MR := (M (session DB)).

Definition switch_values (switch_id : uuid) (reason : string) (actor_id : uuid) (time : datetime)
    : row := [
  ("id", c_uuid switch_id);
  ("target", c_str "platform");
  ("reason", c_str reason);
  ("activated_by", c_uuid actor_id);
  ("deactivated_at", NULL);
  ("created_at", TimeCell time)].

Definition audit_values (fresh : uuid) (event_type : string) (object_id : uuid) (reason : string)
    (actor_id principal_id correlation_id : uuid) (created_at : datetime) : row := [
  ("id", c_uuid fresh);
  ("actor_id", c_uuid actor_id);
  ("principal_id", c_uuid principal_id);
  ("event_type", c_str event_type);
  ("object_id", c_uuid object_id);
  ("correlation_id", c_uuid correlation_id);
  ("reason", c_str reason);
  ("created_at", TimeCell created_at)].

(** [reason.partition("ticket=")[2].partition(";")[0].strip() or "unavailable"] *)
Definition ticket_of (reason : string) : string :=
  let ticket := strip (before ";"%char (after_text "ticket=" reason)) in
  if empty ticket then "unavailable" else ticket.

Definition alert_values (fresh : uuid) (event_type : string) (object_id : uuid) (reason : string)
    (principal_id : uuid) (created_at : datetime) : row := [
  ("id", c_uuid fresh);
  ("authorization_id", c_uuid object_id);
  ("principal_id", c_uuid principal_id);
  ("ticket", c_str (ticket_of reason));
  ("event_type", c_str ("security.alert." +:+ event_type));
  ("created_at", TimeCell created_at);
  ("acknowledged_by", NULL);
  ("acknowledged_at", NULL)].

Definition audit (event_type : string) (object_id : uuid) (reason : string)
    (actor_id principal_id correlation_id : uuid) (created_at : datetime) : MR unit :=
  fresh ← uuid4;
  insert platform_audit_events
    (audit_values fresh event_type object_id reason actor_id principal_id correlation_id created_at) ;;
  fresh ← uuid4;
  insert breakglass_alerts
    (alert_values fresh event_type object_id reason principal_id created_at).

Definition activate (reason : string) (actor_id principal_id correlation_id : uuid)
    : MR KillSwitchRecord.t :=
  time ← now;
  switch_id ← uuid4;
  transaction (
    existing ← select platform_kill_switches is_on;
    throw_if (is_some (first existing)) ValueError "the platform kill switch is already active" ;;
    insert platform_kill_switches (switch_values switch_id reason actor_id time) ;;
    audit "platform.kill_switch.activated" switch_id reason actor_id principal_id correlation_id time) ;;
  mret (KillSwitchRecord.mk switch_id KillSwitchDimension.PLATFORM "platform" reason
          (uuid_str actor_id) time None).

Definition deactivate (reason : string) (actor_id principal_id correlation_id : uuid)
    : MR (option KillSwitchRecord.t) :=
  time ← now;
  row ← transaction (
    rows ← select platform_kill_switches is_on;
    row ← lift (one_or_none (take 1 rows));
    match row with
    | None => mret None
    | Some row =>
        update platform_kill_switches (fun r => bool_decide (col "id" r = col "id" row))
          (assign [("deactivated_at", TimeCell time)]) ;;
        switch_id ← lift (uuid_column row "id");
        audit "platform.kill_switch.deactivated" switch_id reason actor_id principal_id
          correlation_id time ;;
        mret (Some row)
    end);
  match row with
  | None => mret None
  | Some row =>
      switch_id ← lift (uuid_column row "id");
      reason ← lift (str_column row "reason");
      activated_by ← lift (str_column row "activated_by");
      activated_at ← lift (time_column row "created_at");
      mret (Some (KillSwitchRecord.mk switch_id KillSwitchDimension.PLATFORM "platform" reason
                    activated_by activated_at (Some time)))
  end.

(** [order_by(created_at, id)] *)
Definition recorded_asc (a b : row) : bool :=
  let x := time_of (col "created_at" a) in
  let y := time_of (col "created_at" b) in
  (x <? y) || ((x =? y) && negb (str_ltb (str_of (col "id" b)) (str_of (col "id" a)))).

Definition list_audit : MR (list row) :=
  rows ← select platform_audit_events (fun _ => true); mret (order_by recorded_asc rows).
End store.
End SqlPlatformKillSwitchStore.

(** * The relational kill switch counts

    Every activation adds a row and every deactivation turns one off, so the
    store blocks a target while more activations than deactivations of it are
    recorded: whenever the in-memory store would block, and longer. *)

Import Tables SqlKillSwitchStore.
Open Scope string_scope.
Open Scope list_scope.
Open Scope Z_scope.

(** The switches of a key that are on. *)
Definition on_count (t : uuid) (key : KillSwitchDimension.t * string) (c : content) : nat :=
  length (List.filter (switched_on t key) (c (table_name kill_switches))).

(** What the store counts: activations not yet taken back. *)
Definition pending (ops : list switch_op) (key : KillSwitchDimension.t * string) : nat :=
  foldl (fun n op =>
    match op with
    | Activate d target _ _ => if decide (key = (d, target)) then S n else n
    | Deactivate d target => if decide (key = (d, target)) then Nat.pred n else n
    end) 0%nat ops.

Lemma pending_snoc ops op key : pending (ops ++ [op]) key =
  match op with
  | Activate d target _ _ => if decide (key = (d, target)) then S (pending ops key) else pending ops key
  | Deactivate d target => if decide (key = (d, target)) then Nat.pred (pending ops key) else pending ops key
  end.
Proof. unfold pending. by rewrite foldl_app. Qed.

(** Where the in-memory store blocks, an activation is pending. *)
Lemma active_pending ops key : active_after ops key = true → (0 < pending ops key)%nat.
Proof.
  induction ops as [|op ops IH] using rev_ind; [done|]. rewrite active_after_snoc, pending_snoc.
  destruct op as [d target r b|d target]; cbn; case_decide; auto; lia || done.
Qed.

#[export] Instance on_count_proper t key : Proper (same_rows ==> eq) (on_count t key).
Proof.
  intros c c' E. unfold on_count. by rewrite (filter_permutation _ _ _ (E (table_name kill_switches))).
Qed.

Section counting.
Context {DB : Type} `{DatabaseLaws DB} (t : uuid).
Notation MR := (M (session DB)).

Definition counts (ops : list switch_op) (c : content) : Prop :=
  ∀ key, on_count t key c = pending ops key.

Lemma switched_key key key' r : switched_on t key r = true → switched_on t key' r = true → key = key'.
Proof.
  unfold switched_on. rewrite !matches_cons, !andb_true_iff, !bool_decide_eq_true.
  intros ((_ & Ed & Et & _) & _) ((_ & Ed' & Et' & _) & _). destruct key as [d g], key' as [d' g'].
  cbn in *. rewrite Et in Et'. rewrite Ed in Ed'. f_equal.
  - destruct d, d'; try done; discriminate Ed'.
  - unfold c_str in Et'. congruence.
Qed.

(** A new row counts for its key. *)
Lemma activate_counts record time ops d target reason by_ c :
  KillSwitchRecord.dimension record = d → KillSwitchRecord.target record = target →
  counts ops c →
  counts (ops ++ [Activate d target reason by_])
    (add_row kill_switches (complete kill_switches (switch_values record t time)) c).
Proof.
  intros Ed Et Hc key. rewrite pending_snoc, <- Hc. unfold on_count. rewrite add_row_at.
  cbn [List.filter]. set (r := complete _ _).
  assert (switched_on t (d, target) r = true) as Hr.
  { unfold switched_on. rewrite !matches_cons, !andb_true_iff, !bool_decide_eq_true.
    subst d target. unfold is_on, is_null. rewrite bool_decide_eq_true. by split_and!. }
  case_decide as Ek; [by rewrite Ek, Hr|].
  destruct (switched_on t key r) eqn:E; [|done]. destruct Ek. by eapply switched_key.
Qed.

(** The update of a deactivation turns off the row it read, and only that. *)
Lemma deactivate_counts ops d target r time c :
  consistent c = true → r ∈ c (table_name kill_switches) → switched_on t (d, target) r = true →
  counts ops c →
  counts (ops ++ [Deactivate d target])
    (revise kill_switches (fun r' => bool_decide (col "id" r' = col "id" r) && of_tenant t r')
       (assign [("deactivated_at", TimeCell time)]) c).
Proof.
  intros Hcons Hr Hon Hc key. rewrite pending_snoc, <- Hc.
  destruct (revise_row c kill_switches r (fun r' => bool_decide (col "id" r' = col "id" r) && of_tenant t r')
              (assign [("deactivated_at", TimeCell time)])) as (l & El & Er); [done|solve_in..|done| | |].
  { rewrite bool_decide_eq_true_2 by done. unfold switched_on in Hon.
    apply andb_true_iff in Hon as [Hon _]. eapply matches_tenant; [|exact Hon]. left. }
  { by intros r' [?%bool_decide_eq_true _]%andb_true_iff. }
  unfold on_count at 1. rewrite (filter_permutation _ _ _ Er). cbn [List.filter].
  assert (switched_on t key (assign [("deactivated_at", TimeCell time)] r) = false) as ->.
  { unfold switched_on, is_on, is_null. rewrite bool_decide_eq_false_2; [apply andb_false_r|].
    unfold col. by rewrite assign_get. }
  assert (on_count t key c = length (List.filter (switched_on t key) (r :: l))) as ->.
  { unfold on_count. by rewrite (filter_permutation _ _ _ El). }
  cbn [List.filter]. case_decide as Ek; [by rewrite Ek, Hon|].
  destruct (switched_on t key r) eqn:E; [|done]. destruct Ek. by eapply switched_key.
Qed.

(** ** Runs *)

Definition run_sql (op : switch_op) : MR unit :=
  match op with
  | Activate d target reason by_ => activate (Some t) d target reason by_ ;; mret tt
  | Deactivate d target => deactivate (Some t) d target ;; mret tt
  end.

(** What a run keeps: the counts, and the platform's switches. *)
Definition tallies (ops : list switch_op) (platform : list row) (s : session DB) : Prop :=
  counts ops (content_now s) ∧
  content_now s (table_name platform_kill_switches) ≡ₚ platform.

#[local] Instance counts_proper ops : Proper (same_rows ==> iff) (counts ops).
Proof. intros c c' E. unfold counts. by setoid_rewrite E. Qed.

Lemma activate_tallies ops platform d target reason by_ s :
  tallies ops platform s →
  wp (activate (Some t) d target reason by_)
    (fun _ => tallies (ops ++ [Activate d target reason by_]) platform) (fun _ _ => True) s.
Proof.
  intros [Hc Hp]. unfold activate. apply wp_bind, wp_lift; [|done]. intros _ [= <-].
  apply wp_bind, wp_lift; [|done]. intros [] _.
  apply wp_bind, wp_now. intros time. apply wp_bind, wp_uuid4. intros u _. cbv zeta.
  apply wp_bind, wp_transaction, wp_insert; [|done]. intros s' E _. apply wp_ret. split.
  - rewrite E. by apply activate_counts.
  - by rewrite (E _), add_row_other.
Qed.

Lemma deactivate_tallies ops platform d target s :
  tallies ops platform s →
  wp (deactivate (Some t) d target)
    (fun _ => tallies (ops ++ [Deactivate d target]) platform) (fun _ _ => True) s.
Proof.
  intros [Hc Hp]. unfold deactivate. apply wp_bind, wp_lift; [|done]. intros _ [= <-].
  apply wp_bind, wp_lift; [|done]. intros [] _.
  apply wp_bind, wp_now. intros time.
  apply wp_transaction, wp_bind, wp_select. intros rows Hrows.
  apply wp_bind, wp_lift; [|done]. intros [r|] Hr.
  - assert (r ∈ rows) as Hin.
    { destruct rows as [|r' rows]; [done|]. injection Hr as ->. left. }
    rewrite Hrows in Hin. apply elem_of_list_filter in Hin as [Hin Hon].
    apply wp_bind, wp_update; [|done]. intros s' E _.
    apply wp_bind, wp_lift; [|done]. intros record _. apply wp_ret. split.
    + rewrite E. apply deactivate_counts; try done. apply database_consistent.
    + by rewrite (E _), revise_other.
  - apply wp_ret. split; [|done]. intros key. rewrite pending_snoc.
    case_decide as Ek; [|apply Hc]. rewrite <- Hc. subst key. unfold on_count.
    rewrite <- Hrows. destruct rows; [done|discriminate Hr].
Qed.

Lemma run_tallies ops done_ platform s : tallies done_ platform s →
  wp (for_each_m run_sql ops) (fun _ => tallies (done_ ++ ops) platform) (fun _ _ => True) s.
Proof.
  revert done_ s. induction ops as [|op ops IH]; intros done_ s Hs; cbn [for_each_m].
  - apply wp_ret. by rewrite app_nil_r.
  - apply wp_bind. apply (wp_mono _ _ (fun _ => tallies (done_ ++ [op]) platform) _ (fun _ _ => True)); [| |done].
    + destruct op; cbn [run_sql]; apply wp_bind.
      * eapply wp_mono; [by apply activate_tallies| |done]. intros ? s' Hs'. by apply wp_ret.
      * eapply wp_mono; [by apply deactivate_tallies| |done]. intros ? s' Hs'. by apply wp_ret.
    + intros ? s' Hs'. replace (done_ ++ op :: ops) with ((done_ ++ [op]) ++ ops) by (by rewrite <- app_assoc).
      by apply IH.
Qed.

Lemma filtered_first (p : row → bool) (rows l : list row) :
  rows ≡ₚ List.filter p l → is_some (first rows) = true ↔ ∃ r, r ∈ l ∧ p r = true.
Proof.
  intros E. transitivity (∃ r, r ∈ rows).
  - destruct rows as [|r rows]; cbn; split; [done|by intros [? ?%elem_of_nil]| |done].
    intros _. exists r. left.
  - setoid_rewrite E. by setoid_rewrite elem_of_list_filter.
Qed.

Lemma on_count_pos key c :
  (0 < on_count t key c)%nat ↔ ∃ r, r ∈ c (table_name kill_switches) ∧ switched_on t key r = true.
Proof.
  unfold on_count. setoid_rewrite <- elem_of_list_filter.
  destruct (List.filter _ _) as [|r l]; cbn; split; [lia|by intros [? ?%elem_of_nil]| |lia].
  intros _. exists r. left.
Qed.

Lemma is_blocked_reads ops platform query s :
  tallies ops platform s →
  wp (is_blocked (Some t) query)
    (fun blocked _ => blocked = true ↔
       (∃ r, r ∈ platform ∧ is_on r = true) ∨
       ∃ key, key ∈ KillSwitchQuery.dimensions query ∧ (0 < pending ops key)%nat)
    (fun _ _ => False) s.
Proof.
  intros [Hc Hp]. unfold is_blocked. apply wp_bind, wp_lift; [|done]. intros _ [= <-]. cbv zeta.
  rewrite bool_decide_eq_false_2 by done.
  apply wp_bind, wp_select. intros rows Hrows. pose proof (filtered_first _ _ _ Hrows) as Hf.
  setoid_rewrite Hp in Hf. destruct (first rows) as [r|].
  - apply wp_ret. naive_solver.
  - apply wp_bind, wp_select. intros found Hfound. apply wp_ret.
    rewrite (filtered_first _ _ _ Hfound). setoid_rewrite any_true.
    setoid_rewrite <- Hc. setoid_rewrite on_count_pos.
    split; [intros (r & Hr & key & Hk & Hon)|intros [Hr%Hf|(key & Hk & r & Hr & Hon)]];
      [eauto 10|discriminate Hr|eauto 10].
Qed.

(** PROP. Whatever activations and clears a tenant makes, the relational store
    blocks a query while more activations than clears of one of its dimensions
    are recorded, or the platform is switched off; so it blocks whenever the
    last operation on a dimension was an activation, as the in-memory store does. *)
(** C37. In a database where the tenant has no switch on, after any activations and
    clears that return, the relational store counts for each dimension up at an
    activation and down, but not below zero, at a clear; it blocks exactly the queries
    with a dimension whose count is positive, and every query while the platform is
    switched off; so it blocks whenever the in-memory store would. *)
Theorem relational_switch_blocks ops query s :
  (∀ key, on_count t key (content_now s) = 0%nat) →
  wp (for_each_m run_sql ops)
    (fun _ s' => wp (is_blocked (Some t) query)
      (fun blocked _ =>
        (blocked = true ↔
          (∃ r, r ∈ content_now s (table_name platform_kill_switches) ∧ is_on r = true) ∨
          ∃ key, key ∈ KillSwitchQuery.dimensions query ∧ (0 < pending ops key)%nat) ∧
        ((∃ key, key ∈ KillSwitchQuery.dimensions query ∧ active_after ops key = true) →
         blocked = true))
      (fun _ _ => False) s')
    (fun _ _ => True) s.
Proof.
  intros Hs. eapply wp_mono; [apply (run_tallies ops [])| |done]; [by split|].
  intros [] s' Hs'. eapply wp_mono; [by apply is_blocked_reads| |done].
  intros blocked ? Hb. split; [exact Hb|]. intros (key & Hk & Ha). apply Hb.
  right. exists key. split; [done|]. by apply active_pending.
Qed.
End counting.
