(* ===== verification/Outbox.v ===== *)
(** * packages/adapters: outbox.py, and the envelope of packages/contracts

    Events leave through the outbox: a writer stores an envelope in the
    transaction that changes the data, a relay polls for the rows that are not
    published and hands them to a publisher, a consumer uses the inbox to
    handle a message once.

    The publisher and the handler are callbacks, so they are parameters that
    answer anything, also depending on what happened before.  The state is the
    session and the log of the calls: a transaction that raises undoes its
    writes and not the calls.  A LIMIT is not negative: the batch size is a
    [nat]. *)

From stdpp Require Import sorting.
From S2P Require Import Prelude PyStr PyDict Json Transitions Values Digests Calendar AuditChain.
From S2P Require Import Uuids Rows Inserts CodecProofs Schema Effects Database RepositoryCore.
From S2P Require Import RepositoryLogic RepositoryTenants RepositoryMemory.
From Stdlib Require Import ZArith.

Import Tables.
Open Scope string_scope.
Open Scope list_scope.
Open Scope Z_scope.

(** ** The envelope *)

(** What the field [classification] holds: the enumeration's member, or, after
    [_payload_to_envelope], the value as it was stored. *)
Inductive classification_value :=
  | Member (c : DataClassification.t)
  | Stored (v : json).

Module MessageEnvelope.
Record t := mk {
  schema : string;
  schema_version : Z;
  tenant_id : uuid;
  actor_id : uuid;
  payload : object;
  message_id : uuid;
  correlation_id : uuid;
  causation_id : option uuid;
  traceparent : option string;
  classification : classification_value;
  created_at : datetime
}.

(** [__post_init__] *)
Definition post_init (x : t) : res unit :=
  raise_if (empty (strip (schema x))) ValueError "schema must not be empty" ;;
  raise_if (schema_version x <? 1) ValueError "schema_version must be positive" ;;
  raise_if (is_naive (created_at x)) ValueError "created_at must be timezone-aware".

Definition checked (x : t) : res t := post_init x ;; Ok x.

(** The constructor with the defaults of the last six fields. *)
Definition new {S} (schema : string) (schema_version : Z) (tenant_id actor_id : uuid)
    (payload : object) : M S t :=
  message_id ← uuid4;
  correlation_id ← uuid4;
  created_at ← now;
  lift (checked (mk schema schema_version tenant_id actor_id payload message_id correlation_id
                   None None (Member DataClassification.INTERNAL) created_at)).
End MessageEnvelope.

(** [envelope.classification.value]: a string has no [value]. *)
Definition classification_json (c : classification_value) : res json :=
  match c with
  | Member c => Ok (j_enum c)
  | Stored _ => raise (OtherError "AttributeError") "'str' object has no attribute 'value'"
  end.

Definition envelope_to_payload (envelope : MessageEnvelope.t) : res object :=
  classification ← classification_json (MessageEnvelope.classification envelope);
  Ok [("schema", JStr (MessageEnvelope.schema envelope));
      ("schema_version", JInt (MessageEnvelope.schema_version envelope));
      ("tenant_id", j_uuid (MessageEnvelope.tenant_id envelope));
      ("actor_id", j_uuid (MessageEnvelope.actor_id envelope));
      ("payload", JDict (MessageEnvelope.payload envelope));
      ("message_id", j_uuid (MessageEnvelope.message_id envelope));
      ("correlation_id", j_uuid (MessageEnvelope.correlation_id envelope));
      ("causation_id", j_opt j_uuid (MessageEnvelope.causation_id envelope));
      ("traceparent", j_opt JStr (MessageEnvelope.traceparent envelope));
      ("classification", classification);
      ("created_at", j_iso (MessageEnvelope.created_at envelope))].

Definition payload_to_envelope (row : row) : res MessageEnvelope.t :=
  payload ← object_column row "payload";
  schema ← str_field payload "schema";
  schema_version ← int_field payload "schema_version";
  tenant_id ← uuid_field payload "tenant_id";
  actor_id ← uuid_field payload "actor_id";
  content ← object_field payload "payload";
  message_id ← uuid_field payload "message_id";
  correlation_id ← uuid_field payload "correlation_id";
  causation_id ← if_truthy as_uuid (Rows.get payload "causation_id");
  traceparent ← opt as_str (Rows.get payload "traceparent");
  created_at ← iso_field payload "created_at";
  MessageEnvelope.checked (MessageEnvelope.mk schema schema_version tenant_id actor_id content
    message_id correlation_id causation_id traceparent
    (Stored (get_or payload "classification" (JStr "internal"))) created_at).

(** ** The session and the world outside *)

Record outside (DB L : Type) := Outside { session_of : session DB; log : list L }.
Arguments Outside {DB L} session_of log.
Arguments session_of {DB L} _.
Arguments log {DB L} _.

Section outside.
Context {DB L : Type}.

(** A statement of the session. *)
Definition in_session {A} (m : M (session DB) A) : M (outside DB L) A := fun e s =>
  let '(r, s') := m e (St (session_of (data s)) (ticks s) (drawn s)) in
  (r, St (Outside (data s') (log (data s))) (ticks s') (drawn s')).

(** [async with self._sessions.begin()] *)
Definition begin_session {A} (m : M (outside DB L) A) : M (outside DB L) A := fun e s =>
  match m e s with
  | (Ok a, s') => (Ok a, s')
  | (Err x, s') =>
      (Err x, St (Outside (session_of (data s)) (log (data s'))) (ticks s') (drawn s'))
  end.
End outside.

Module OutboxWriter.
Section writer.
Context {DB : Type} `{Database DB}.

Definition outbox_values (fresh : uuid) (envelope : MessageEnvelope.t) (payload : object)
    (created_at : datetime) : row := [
  ("id", c_uuid fresh);
  ("tenant_id", c_uuid (MessageEnvelope.tenant_id envelope));
  ("schema", c_str (MessageEnvelope.schema envelope));
  ("payload", c_object payload);
  ("optimistic_version", c_int 1);
  ("created_at", TimeCell created_at)].

Definition publish (envelope : MessageEnvelope.t) : M (session DB) unit :=
  fresh ← uuid4;
  payload ← lift (envelope_to_payload envelope);
  created_at ← now;
  insert outbox (outbox_values fresh envelope payload created_at).
End writer.
End OutboxWriter.

Module OutboxRelay.
Section relay.
(** What was handed to the publisher, and whether it returned. *)
Notation calls := (list (MessageEnvelope.t * bool)).
Context {DB : Type} `{Database DB}.
Context (publisher : calls → MessageEnvelope.t → res unit) (batch_size : nat).
Notation MW := (M (outside DB (MessageEnvelope.t * bool))).

Definition call_publisher (envelope : MessageEnvelope.t) : MW unit :=
  w ← get;
  let answer := publisher (log w) envelope in
  put (Outside (session_of w) (log w ++ [(envelope, is_ok answer)])) ;;
  lift answer.

Definition pending (r : row) : bool := is_null "published_at" r.

Definition mark_published (row : row) : MW unit :=
  time ← now;
  in_session (
    update outbox (fun r => bool_decide (col "id" r = col "id" row))
      (assign [("published_at", TimeCell time)]) ;;
    mret tt).

(** [for row in rows], with the value of [published] *)
Fixpoint relay_rows (rows : list row) (published : Z) : MW Z :=
  match rows with
  | [] => mret published
  | row :: rest =>
      envelope ← lift (payload_to_envelope row);
      accepted ← try_all (call_publisher envelope ;; mret true) (fun _ => mret false);
      if (accepted : bool) then mark_published row ;; relay_rows rest (published + 1)
      else relay_rows rest published
  end.

Definition poll_and_publish : MW Z :=
  begin_session (
    rows ← in_session (select outbox pending);
    relay_rows (take batch_size (order_by created_asc rows)) 0).
End relay.
End OutboxRelay.

Module InboxConsumer.
Section consumer.
Context {DB : Type} `{Database DB}.
(** The handler's answers; the log is of the messages it handled. *)
Context (handler : list string → string → res unit).
Notation MW := (M (outside DB string)).

Definition call_handler (message_id : string) : MW unit :=
  w ← get;
  lift (handler (log w) message_id) ;;
  put (Outside (session_of w) (log w ++ [message_id])).

Definition inbox_values (row_id : uuid) (message_id : string) (time : datetime) : row := [
  ("id", c_uuid row_id);
  ("tenant_id", c_str "00000000-0000-0000-0000-000000000000");
  ("message_id", c_str message_id);
  ("processed_at", TimeCell time);
  ("optimistic_version", c_int 1);
  ("created_at", TimeCell time)].

Definition of_message (message_id : string) : row → bool := matches [("message_id", c_str message_id)].

Definition receive (message_id : string) : MW bool :=
  begin_session (
    existing ← in_session (select inbox (of_message message_id));
    if is_some (first existing) then mret false else
    row_id ← uuid4;
    time ← now;
    reserved ← try_except (in_session (insert inbox (inbox_values row_id message_id time)) ;; mret true)
                 IntegrityError (fun _ => mret false);
    if (reserved : bool) then call_handler message_id ;; mret true else mret false).
End consumer.
End InboxConsumer.

(** * The outbox delivers what was written

    What a writer stored is the envelope a relay hands to its publisher; with a
    publisher that works, polls empty the outbox and hand over each envelope
    once; with any publisher, a message marked as published was accepted by it.
    A message of the repositories has another payload, at which the relay
    stops.  The inbox handles a message at most once. *)

Import Tables.
Open Scope string_scope.
Open Scope list_scope.
Open Scope Z_scope.

(** ** Envelopes *)

(** The envelope a reader of the payload gets. *)
Definition as_stored (x : MessageEnvelope.t) : MessageEnvelope.t :=
  MessageEnvelope.mk (MessageEnvelope.schema x) (MessageEnvelope.schema_version x)
    (MessageEnvelope.tenant_id x) (MessageEnvelope.actor_id x) (MessageEnvelope.payload x)
    (MessageEnvelope.message_id x) (MessageEnvelope.correlation_id x) (MessageEnvelope.causation_id x)
    (MessageEnvelope.traceparent x)
    (match MessageEnvelope.classification x with Member c => Stored (j_enum c) | Stored v => Stored v end)
    (MessageEnvelope.created_at x).

(** What the types and [__post_init__] ensure of an envelope. *)
Record envelope_ok (x : MessageEnvelope.t) : Prop := {
  checks : MessageEnvelope.post_init x = Ok tt;
  tenant_fits : uuid_ok (MessageEnvelope.tenant_id x);
  actor_fits : uuid_ok (MessageEnvelope.actor_id x);
  message_fits : uuid_ok (MessageEnvelope.message_id x);
  correlation_fits : uuid_ok (MessageEnvelope.correlation_id x);
  causation_fits : if_some uuid_ok (MessageEnvelope.causation_id x);
  instant_fits : iso_ok (MessageEnvelope.created_at x)
}.

Theorem relayed_envelope_is_written fresh envelope payload time :
  envelope_ok envelope → envelope_to_payload envelope = Ok payload →
  payload_to_envelope (complete outbox (OutboxWriter.outbox_values fresh envelope payload time)) =
  Ok (as_stored envelope).
Proof.
  intros [Hc Ht Ha Hm Hr Hu Hd] Hp. unfold envelope_to_payload in Hp. inv_ok.
  unfold classification_json in Hx. destruct (MessageEnvelope.classification envelope) as [c|v] eqn:Ec; [|done].
  injection Hx as <-. unfold payload_to_envelope.
  eapply ok_bind; [by eapply object_column_at|]. decode.
  destruct envelope. cbn in Ec. subst.
  reflexivity.
Qed.

(** ** Sessions *)

Lemma order_by_rows le l : order_by le l ≡ₚ l.
Proof. apply merge_sort_Permutation. Qed.

Definition outside_now {DB L} `{Database DB} (w : outside DB L) : content := content_now (session_of w).

Section sessions.
Context {DB L : Type} (F : uuid → Prop).

Lemma wp_in_session {A} (m : M (session DB) A) (Q : A → outside DB L → Prop) (E : exn → outside DB L → Prop) w :
  wpi F m (fun a s => Q a (Outside s (log w))) (fun x s => E x (Outside s (log w))) (session_of w) →
  wpi F (in_session m) Q E w.
Proof.
  intros Hm e n k He. specialize (Hm e n k He). unfold in_session. cbn.
  by destruct (m e _) as [[a|x] s'].
Qed.

Lemma wp_begin_session {A} (m : M (outside DB L) A) (Q : A → outside DB L → Prop)
    (E : exn → outside DB L → Prop) w :
  wpi F m Q (fun x w' => E x (Outside (session_of w) (log w'))) w → wpi F (begin_session m) Q E w.
Proof.
  intros Hm e n k He. specialize (Hm e n k He). unfold begin_session. cbn.
  by destruct (m e _) as [[a|x] s'].
Qed.
End sessions.

(** ** Runs that end

    [ends m Q s]: with a clock that gives aware times, as [datetime.now(UTC)]
    does, [m] returns, in [Q]. *)

Section ends.
Context {DB L : Type} `{DatabaseLaws DB}.
Notation W := (outside DB L).
Notation MW := (M W).

Definition ends {A} (m : MW A) (Q : A → W → Prop) (s : W) : Prop :=
  ∀ e n k, (∀ j, is_naive (clock e j) = false) →
    match m e (St s n k) with
    | (Ok a, s') => Q a (data s')
    | (Err _, _) => False
    end.

Lemma ends_mono {A} (m : MW A) (Q Q' : A → W → Prop) s :
  ends m Q s → (∀ a s', Q a s' → Q' a s') → ends m Q' s.
Proof. intros Hm HQ e n k He. specialize (Hm e n k He). destruct (m _ _) as [[]]; auto. Qed.

Lemma ends_ret {A} (a : A) (Q : A → W → Prop) s : Q a s → ends (mret a) Q s.
Proof. by intros HQ e n k He. Qed.

Lemma ends_bind {A B} (m : MW A) (f : A → MW B) Q s :
  ends m (fun a s' => ends (f a) Q s') s → ends (m ≫= f) Q s.
Proof.
  intros Hm e n k He. specialize (Hm e n k He). unfold mbind, M_bind.
  destruct (m e _) as [[a|x] [d n' k']]; [|done]. by apply Hm.
Qed.

Lemma ends_lift {A} (r : res A) a (Q : A → W → Prop) s : r = Ok a → Q a s → ends (lift r) Q s.
Proof. by intros -> HQ e n k He. Qed.

Lemma ends_now (Q : datetime → W → Prop) s : (∀ t, is_naive t = false → Q t s) → ends now Q s.
Proof. intros HQ e n k He. by apply HQ. Qed.

Lemma ends_begin {A} (m : MW A) Q s : ends m Q s → ends (begin_session m) Q s.
Proof.
  intros Hm e n k He. specialize (Hm e n k He). unfold begin_session.
  by destruct (m e _) as [[a|x] s'].
Qed.

Lemma ends_try {A} (m : MW A) h Q s : ends m Q s → ends (try_all m h) Q s.
Proof.
  intros Hm e n k He. specialize (Hm e n k He). unfold try_all.
  by destruct (m e _) as [[a|x] s'].
Qed.

Lemma ends_select t p (Q : list row → W → Prop) s :
  (∀ rows, rows ≡ₚ List.filter p (outside_now s (table_name t)) → Q rows s) →
  ends (in_session (select t p)) Q s.
Proof.
  intros HQ e n k He. unfold in_session, select. cbn. destruct s as [d l]. apply HQ, select_where_rows.
Qed.

Lemma ends_update t p f (Q : unit → W → Prop) s :
  (∀ r, r ∈ outside_now s (table_name t) → p r = true → fits t (f r) = true) →
  consistent (revise t p f (outside_now s)) = true →
  (∀ w, same_rows (outside_now w) (revise t p f (outside_now s)) → log w = log s → Q tt w) →
  ends (in_session (update t p f ;; mret tt)) Q s.
Proof.
  intros Hf Hc HQ e n k He. destruct (update_where_accepts t p f (database (session_of s)) Hf Hc)
    as (d & m & Hd). pose proof (update_where_ok _ _ _ _ _ _ Hd) as [Hs _].
  cbv [in_session update mbind M_bind Effects.get lift put mret M_ret]. cbn.
  rewrite Hd. by apply HQ.
Qed.

(** *** Marking a message as published *)

Lemma published_fits r time : is_naive time = false → fits outbox r = true →
  fits outbox (assign [("published_at", TimeCell time)] r) = true.
Proof.
  intros Ht. unfold fits. rewrite !all_true. intros Hf c Hc. specialize (Hf c Hc).
  unfold col in *. rewrite assign_get. cbn [alist_get]. case_decide as E; [|done].
  assert (Column.type c = DateTime) as ->; [|by destruct time].
  revert E. repeat (apply elem_of_cons in Hc as [->|Hc]; [discriminate || done|]).
  by apply elem_of_nil in Hc.
Qed.

Lemma published_consistent p time c : consistent c = true →
  consistent (revise outbox p (assign [("published_at", TimeCell time)]) c) = true.
Proof.
  intros Hc. apply (revise_consistent _ _ _ ["published_at"]); [done|..].
  - intros r k Hk. unfold col. rewrite assign_get. cbn. rewrite decide_False; [done|].
    intros ->. apply Hk. left.
  - repeat (apply Forall_cons; split); try done. intros r r' E. cbn. unfold int_check.
    rewrite (E "optimistic_version"); [done|]. by intros ?%list_elem_of_singleton.
  - solve_in.
  - by vm_compute.
Qed.

(** Marking a row that [q] selects takes it out of the selected ones. *)
Lemma marked_row_leaves (q p : row → bool) r time c : consistent c = true →
  r ∈ List.filter q (c (table_name outbox)) → p r = true →
  (∀ r', p r' = true → col "id" r' = col "id" r) →
  q (assign [("published_at", TimeCell time)] r) = false →
  List.filter q (c (table_name outbox)) ≡ₚ
    r :: List.filter q (revise outbox p (assign [("published_at", TimeCell time)]) c (table_name outbox)).
Proof.
  intros Hc [Hr Hq]%elem_of_list_filter Hp Hid Hm.
  destruct (revise_row c outbox r p (assign [("published_at", TimeCell time)])) as (l & El & Er);
    [done|solve_in..|done|done|done|].
  rewrite (filter_permutation _ _ _ El), (filter_permutation _ _ _ Er).
  cbn [List.filter]. by rewrite Hq, Hm.
Qed.
End ends.

(** ** The relay *)

Section relay.
Context {DB : Type} `{DatabaseLaws DB}.
Context (publisher : list (MessageEnvelope.t * bool) → MessageEnvelope.t → res unit).
Context (batch_size : nat).
Notation W := (outside DB (MessageEnvelope.t * bool)).
Notation MW := (M W).

(** The messages that wait. *)
Definition waiting (c : content) : list row := List.filter OutboxRelay.pending (c (table_name outbox)).

#[local] Instance waiting_proper : Proper (same_rows ==> (≡ₚ)) waiting.
Proof. intros c c' E. unfold waiting. apply filter_permutation, E. Qed.

(** *** One message *)

(** The messages that wait can be marked and read. *)
Definition ready (c : content) : Prop :=
  ∀ r, r ∈ waiting c → fits outbox r = true ∧ ∃ envelope, payload_to_envelope r = Ok envelope.

Lemma published_waits_not r time p c : consistent c = true → r ∈ waiting c →
  (∀ r', p r' = true ↔ col "id" r' = col "id" r) →
  waiting c ≡ₚ r :: waiting (revise outbox p (assign [("published_at", TimeCell time)]) c).
Proof.
  intros Hc Hr Hp. apply marked_row_leaves; [done|done|by apply Hp|by intros r' ?%Hp|].
  apply bool_decide_eq_false_2. unfold col. by rewrite assign_get.
Qed.

Lemma mark_published_ends r (Q : unit → W → Prop) w :
  r ∈ waiting (outside_now w) → ready (outside_now w) →
  (∀ w', waiting (outside_now w) ≡ₚ r :: waiting (outside_now w') → ready (outside_now w') →
         log w' = log w → Q tt w') →
  ends (OutboxRelay.mark_published r) Q w.
Proof.
  intros Hr Hw HQ. pose proof (database_consistent (database (session_of w))) as Hc.
  set (p := fun r' => bool_decide (col "id" r' = col "id" r)).
  assert (∀ r', p r' = true ↔ col "id" r' = col "id" r) as Hp by (intros r'; apply bool_decide_eq_true).
  apply ends_bind, ends_now. intros time Ht. apply ends_update.
  - intros r' Hr' E%Hp. apply published_fits; [done|]. apply (Hw r').
    apply elem_of_list_filter in Hr as [Hr Hw']. apply elem_of_list_filter.
    rewrite (same_id (outside_now w) outbox r' r); try done; solve_in.
  - by apply published_consistent.
  - intros w' Hs Hl. pose proof (published_waits_not r time p _ Hc Hr Hp) as E. fold p in Hs.
    assert (waiting (outside_now w) ≡ₚ r :: waiting (outside_now w')) as E'.
    { etransitivity; [exact E|]. constructor. symmetry. by apply waiting_proper. }
    apply HQ; [done| |done]. intros r' Hr'. apply Hw. rewrite E'. by right.
Qed.

(** *** A publisher that works *)

Definition works : Prop := ∀ calls envelope, publisher calls envelope = Ok tt.

(** The calls for the messages of [rows]. *)
Definition handed (rows : list row) : list (MessageEnvelope.t * bool) :=
  omap (fun r => match payload_to_envelope r with Ok x => Some (x, true) | Err _ => None end) rows.

Lemma ends_call x (Q : unit → W → Prop) w : works →
  Q tt (Outside (session_of w) (log w ++ [(x, true)])) → ends (OutboxRelay.call_publisher publisher x) Q w.
Proof.
  intros Hp HQ e n k He. cbv [OutboxRelay.call_publisher mbind M_bind Effects.get lift put].
  cbn. by rewrite Hp.
Qed.

Lemma relay_rows_ends rows rest published w : works → ready (outside_now w) →
  waiting (outside_now w) ≡ₚ rows ++ rest →
  ends (OutboxRelay.relay_rows publisher rows published)
    (fun n w' => n = published + Z.of_nat (length rows) ∧ ready (outside_now w') ∧
                 waiting (outside_now w') ≡ₚ rest ∧ log w' = log w ++ handed rows) w.
Proof.
  intros Hp. revert published w. induction rows as [|r rows IH]; intros published w Hw E.
  { apply ends_ret. split_and!; [cbn; lia|done|done|by rewrite app_nil_r]. }
  assert (r ∈ waiting (outside_now w)) as Hr by (rewrite E; left).
  destruct (Hw r Hr) as (Hf & x & Hx). cbn [OutboxRelay.relay_rows].
  apply ends_bind. eapply ends_lift; [exact Hx|].
  apply ends_bind, ends_try, ends_bind, ends_call; [done|]. apply ends_ret.
  apply ends_bind, mark_published_ends; [done|done|]. intros w' E' Hw' Hl.
  eapply ends_mono; [apply IH; [done|]|].
  - apply (Permutation_cons_inv (a := r)). by rewrite <- E'.
  - intros m w'' (-> & Hw'' & E'' & Hl''). split_and!; [rewrite length_cons; lia|done|done|].
    rewrite Hl'', Hl. cbn. by rewrite Hx, <- app_assoc.
Qed.

Lemma poll_ends w : works → ready (outside_now w) →
  ends (OutboxRelay.poll_and_publish publisher batch_size)
    (fun n w' => ∃ batch rest, waiting (outside_now w) ≡ₚ batch ++ rest ∧
       length batch = Nat.min batch_size (length (waiting (outside_now w))) ∧
       n = Z.of_nat (length batch) ∧ ready (outside_now w') ∧
       waiting (outside_now w') ≡ₚ rest ∧ log w' = log w ++ handed batch) w.
Proof.
  intros Hp Hw. apply ends_begin, ends_bind, ends_select. intros rows Hrows.
  set (sorted := order_by created_asc rows).
  assert (sorted ≡ₚ waiting (outside_now w)) as Es.
  { trans rows; [apply order_by_rows|exact Hrows]. }
  eapply ends_mono; [eapply (relay_rows_ends _ (drop batch_size sorted)); [done|done|]|].
  - rewrite take_drop. by symmetry.
  - intros n w' (-> & Hw' & E' & Hl'). exists (take batch_size sorted), (drop batch_size sorted).
    split_and!; try done; [rewrite take_drop; by symmetry|].
    by rewrite length_take, (Permutation_length Es).
Qed.

(** So many polls, and how many messages they published. *)
Fixpoint polls (n : nat) : MW Z :=
  match n with
  | O => mret 0
  | S n => a ← OutboxRelay.poll_and_publish publisher batch_size; b ← polls n; mret (a + b)
  end.

Lemma handed_app l l' : handed (l ++ l') = handed l ++ handed l'.
Proof. apply omap_app. Qed.

Lemma handed_permutation l l' : l ≡ₚ l' → handed l ≡ₚ handed l'.
Proof. intros E. unfold handed. by rewrite E. Qed.

(** C35. With a publisher that works, and when each waiting message can be stored as
    published and reads as an envelope (the writer's do, the repository's do not), k
    polls with k times the batch size at least the number of waiting messages publish
    all of them: none waits any more, and the publisher was handed each one's envelope
    exactly once. *)
Theorem relay_publishes_everything k w : works → ready (outside_now w) →
  (length (waiting (outside_now w)) ≤ k * batch_size)%nat →
  ends (polls k)
    (fun n w' => n = Z.of_nat (length (waiting (outside_now w))) ∧
       waiting (outside_now w') = [] ∧
       ∃ calls, log w' = log w ++ calls ∧ calls ≡ₚ handed (waiting (outside_now w))) w.
Proof.
  intros Hp. revert w. induction k as [|k IH]; intros w Hw Hk; cbn [polls].
  { apply ends_ret. destruct (waiting _); [|cbn in Hk; lia]. split_and!; [done..|].
    exists []. by rewrite app_nil_r. }
  apply ends_bind. eapply ends_mono; [by apply poll_ends|].
  intros a w1 (batch & rest & E & Hb & -> & Hw1 & E1 & Hl1). pose proof (Permutation_length E) as Hn.
  rewrite length_app in Hn. apply ends_bind. eapply ends_mono; [apply IH; [done|]|].
  { rewrite (Permutation_length E1). lia. }
  intros b w2 (-> & Hz & calls & Hl2 & Ec). apply ends_ret. split_and!; [rewrite (Permutation_length E1); lia|done|].
  exists (handed batch ++ calls). split; [by rewrite Hl2, Hl1, <- app_assoc|].
  rewrite (handed_permutation _ _ E), handed_app, Ec. by rewrite (handed_permutation _ _ E1).
Qed.

(** *** Any publisher *)

(** What is marked as published was accepted. *)
Definition accepted (w : W) : Prop :=
  ∀ r x, r ∈ outside_now w (table_name outbox) → OutboxRelay.pending r = false →
    payload_to_envelope r = Ok x → (x, true) ∈ log w.

Lemma accepted_more w w' : outside_now w' = outside_now w → (∀ c, c ∈ log w → c ∈ log w') →
  accepted w → accepted w'.
Proof. intros E Hl Hw r x. rewrite E. intros Hr Hx Hp. apply Hl. by eapply Hw. Qed.

Lemma assigned_envelope time r :
  payload_to_envelope (assign [("published_at", TimeCell time)] r) = payload_to_envelope r.
Proof.
  unfold payload_to_envelope, object_column, json_column, at_key. by rewrite assign_get.
Qed.

(** The rows with the identifier of [r] have its payload. *)
Definition same_payload (w : W) (r : row) : Prop :=
  ∀ r', r' ∈ outside_now w (table_name outbox) → col "id" r' = col "id" r →
    payload_to_envelope r' = payload_to_envelope r.

(** What the loop keeps: the log grows. *)
Definition relaying (w0 : W) (rows : list row) (w : W) : Prop :=
  accepted w ∧ (∀ r, r ∈ rows → same_payload w r) ∧ log w0 ⊆ log w.

Lemma mark_published_relays w0 rows r x w F : r ∈ rows →
  payload_to_envelope r = Ok x → (x, true) ∈ log w → relaying w0 rows w →
  wpi F (OutboxRelay.mark_published r) (fun _ => relaying w0 rows) (fun _ w' => log w0 ⊆ log w') w.
Proof.
  intros Hr Hx Hl (Hw & Hp & Hg). apply wp_bind, wp_now. intros time. apply wp_in_session.
  apply wp_bind, wp_update; [|by intros _; destruct w].
  intros s' Hs _. apply wp_ret.
  assert (∀ r', r' ∈ content_now s' (table_name outbox) → ∃ r0,
    r0 ∈ outside_now w (table_name outbox) ∧ col "id" r' = col "id" r0 ∧
    payload_to_envelope r' = payload_to_envelope r0 ∧ (r' = r0 ∨ col "id" r0 = col "id" r)) as Hback.
  { intros r' Hr'. rewrite (Hs _), revise_at in Hr'.
    apply list_elem_of_In, in_map_iff in Hr' as (r0 & <- & Hr0). apply list_elem_of_In in Hr0.
    exists r0. case_bool_decide; [|by auto]. rewrite assigned_envelope. unfold col at 1.
    rewrite assign_get. by auto. }
  split_and!; [| |done].
  - intros r' x' (r0 & Hr0 & _ & Ep & [->|Eid])%Hback Hq Hx'; [by eapply Hw|].
    rewrite Ep, (Hp r Hr r0 Hr0 Eid) in Hx'. cbn. congruence.
  - intros r1 Hr1 r' (r0 & Hr0 & Ei & Ep & _)%Hback E. rewrite Ep. apply (Hp r1 Hr1 r0 Hr0). congruence.
Qed.

Lemma call_relays w0 rows x w F : relaying w0 rows w →
  wpi F (OutboxRelay.call_publisher publisher x)
    (fun _ w' => (x, true) ∈ log w' ∧ relaying w0 rows w') (fun _ w' => relaying w0 rows w') w.
Proof.
  intros (Hw & Hp & Hg). apply wp_bind, wp_get, wp_bind, wp_put.
  assert (∀ b, relaying w0 rows (Outside (session_of w) (log w ++ [(x, b)]))) as Hmore.
  { intros b. split_and!; [|done|].
    - apply (accepted_more w); [done| |exact Hw]. intros c Hc. apply elem_of_app. by left.
    - intros c Hc. apply elem_of_app. left. by apply Hg. }
  apply wp_lift; [|intros y Hy; apply Hmore].
  intros [] Hy. rewrite Hy. split; [|apply Hmore]. apply elem_of_app. right. left.
Qed.

Lemma relay_rows_relays w0 all_rows rows published w F : (∀ r, r ∈ rows → r ∈ all_rows) →
  relaying w0 all_rows w →
  wpi F (OutboxRelay.relay_rows publisher rows published)
    (fun _ => accepted) (fun _ w' => log w0 ⊆ log w') w.
Proof.
  revert published w. induction rows as [|r rows IH]; intros published w Hin Hw; cbn [OutboxRelay.relay_rows].
  { apply wp_ret. apply Hw. }
  assert (r ∈ all_rows ∧ ∀ r, r ∈ rows → r ∈ all_rows) as [Hr Hrows].
  { split; [apply Hin; left|]. intros r' Hr'. apply Hin. by right. }
  apply wp_bind, wp_lift; [|intros _ _; apply Hw]. intros x Hx.
  apply wp_bind, wp_try_all, wp_bind. eapply wp_mono; [by apply call_relays| |].
  - intros [] w1 [Hl Hw1]. apply wp_ret. apply wp_bind.
    eapply wp_mono; [by eapply mark_published_relays| |done]. intros [] w2 Hw2. by apply IH.
  - intros y w1 Hw1. apply wp_ret. by apply IH.
Qed.

(** C38. Whatever the publisher answers, a poll, returning or raising, keeps this:
    each message that is marked as published and reads as an envelope was handed to
    the publisher, which accepted it. *)
Theorem published_was_accepted w : accepted w →
  wp (OutboxRelay.poll_and_publish publisher batch_size) (fun _ => accepted) (fun _ => accepted) w.
Proof.
  intros Hw. apply wp_begin_session, wp_bind, wp_in_session, wp_select. intros rows Hrows.
  eapply wp_mono; [eapply (relay_rows_relays w (order_by created_asc rows))|done|].
  - intros r Hr. rewrite <- (take_drop batch_size (order_by created_asc rows)). apply elem_of_app. by left.
  - destruct w as [s l]. split_and!; [done| |done]. intros r Hr r' Hr' E. f_equal.
    eapply (same_id (content_now s) outbox); try done; [apply database_consistent|solve_in..|].
    assert (r ∈ rows) as Hr2 by by rewrite <- (order_by_rows created_asc rows).
    rewrite Hrows in Hr2. by apply elem_of_list_filter in Hr2 as [? _].
  - intros x w' Hl. by apply (accepted_more w).
Qed.

(** *** The messages of the repositories *)

(** Their payload has no schema. *)
Lemma repository_message_unread fresh audit time :
  payload_to_envelope (complete outbox (RepositoryCore.outbox_values fresh audit time)) =
  raise KeyError (repr_str "schema").
Proof. reflexivity. Qed.

Definition unreadable (r : row) : bool := negb (is_ok (payload_to_envelope r)).

(** The envelopes of the rows before the first unreadable one. *)
Fixpoint readable_before (rows : list row) : list MessageEnvelope.t :=
  match rows with
  | [] => []
  | r :: rest => match payload_to_envelope r with Ok x => x :: readable_before rest | Err _ => [] end
  end.

(** Whose envelopes the publisher was called with, whatever it answered. *)
Definition called (w : W) : list MessageEnvelope.t := (log w).*1.

Lemma call_publisher_calls x w F :
  wpi F (try_all (OutboxRelay.call_publisher publisher x ;; mret true) (fun _ => mret false))
    (fun _ w' => called w' = called w ++ [x]) (fun _ _ => False) w.
Proof.
  apply wp_try_all, wp_bind, wp_bind, wp_get, wp_bind, wp_put, wp_lift; intros; repeat apply wp_ret;
    unfold called; cbn; by rewrite fmap_app.
Qed.

Lemma mark_published_calls r w F :
  wpi F (OutboxRelay.mark_published r) (fun _ w' => called w' = called w) (fun _ w' => called w' = called w) w.
Proof.
  apply wp_bind, wp_now. intros time. apply wp_in_session.
  eapply wp_mono; [apply (wp_any _ _ (session_of w))|done|done].
Qed.

Lemma relay_rows_stops rows r published w F : r ∈ rows → unreadable r = true →
  wpi F (OutboxRelay.relay_rows publisher rows published) (fun _ _ => False)
    (fun _ w' => ∃ n, called w' = called w ++ take n (readable_before rows)) w.
Proof.
  intros Hr Hx. revert published w. induction rows as [|r' rows IH]; intros published w; [by apply elem_of_nil in Hr|].
  cbn [OutboxRelay.relay_rows readable_before]. apply wp_bind, wp_lift.
  2: { intros y Hy. exists 0%nat. by rewrite app_nil_r. }
  intros x Hx'. rewrite Hx'. apply elem_of_cons in Hr as [->|Hr]; [by unfold unreadable in Hx; rewrite Hx' in Hx|].
  assert (∀ w', called w' = called w ++ [x] → ∀ p,
    wpi F (OutboxRelay.relay_rows publisher rows p) (fun _ _ => False)
      (fun _ w'' => ∃ n, called w'' = called w ++ take n (x :: readable_before rows)) w') as Hrest.
  { intros w' Hw' p. eapply wp_mono; [by apply IH|done|]. intros y w'' [n Hn]. exists (S n).
    by rewrite Hn, Hw', <- app_assoc. }
  apply wp_bind. eapply wp_mono; [apply call_publisher_calls| |done]. intros [] w' Hw'; [|by apply Hrest].
  apply wp_bind. eapply wp_mono; [apply mark_published_calls| |].
  - intros [] w'' Hw''. apply Hrest. congruence.
  - intros y w'' Hw''. exists 1%nat. by rewrite Hw'', Hw'.
Qed.

(** The rows a poll reads. *)
Definition batch (w : W) : list row :=
  take batch_size (order_by created_asc (select_where outbox OutboxRelay.pending (database (session_of w)))).

(** C36. A poll whose batch holds the message of an audit event of the repository
    raises, marks no message as published, and has called the publisher, whatever it
    answers, at most for the messages of the batch before the first one that does not
    read as an envelope, in their order: the payload the repository writes is not the
    one the relay reads. *)
Theorem relay_stops_at_repository_events fresh audit time w :
  complete outbox (RepositoryCore.outbox_values fresh audit time) ∈ batch w →
  wp (OutboxRelay.poll_and_publish publisher batch_size) (fun _ _ => False)
    (fun _ w' => session_of w' = session_of w ∧
       ∃ n, called w' = called w ++ take n (readable_before (batch w))) w.
Proof.
  intros Hr. apply wp_begin_session, wp_bind, wp_in_session, wp_bind, wp_get, wp_ret.
  eapply wp_mono; [by eapply relay_rows_stops; [exact Hr|]|done|].
  intros x w' Hn. split; [done|]. destruct w. exact Hn.
Qed.
End relay.

(** ** The inbox *)

Definition nil_tenant : cell := c_str "00000000-0000-0000-0000-000000000000".

Section inbox.
Context {DB : Type} `{DatabaseLaws DB} (handler : list string → string → res unit).
Notation W := (outside DB string).

(** Handled messages have their row, and were handled once. *)
Definition handled (w : W) : Prop :=
  NoDup (log w) ∧ ∀ m, m ∈ log w →
    ∃ r, r ∈ outside_now w (table_name inbox) ∧ InboxConsumer.of_message m r = true.

(** The loop of a consumer: a message whose handling raised is dropped. *)
Definition consume (ids : list string) : M W unit :=
  for_each_m (fun m => try_all (InboxConsumer.receive handler m ;; mret tt) (fun _ => mret tt)) ids.

Lemma own_message u m time :
  InboxConsumer.of_message m (complete inbox (InboxConsumer.inbox_values u m time)) = true.
Proof. unfold InboxConsumer.of_message. by rewrite matches_cons, bool_decide_eq_true_2. Qed.

Lemma receive_handled m w : handled w →
  wp (InboxConsumer.receive handler m) (fun _ => handled) (fun _ => handled) w.
Proof.
  intros [Hn Hw]. destruct w as [s l]. cbn in Hn, Hw.
  apply wp_begin_session, wp_bind, wp_in_session, wp_select. intros rows Hrows.
  destruct (first rows) as [r|] eqn:Ef; cbn [is_some]; [by apply wp_ret|].
  assert (m ∉ l) as Hm.
  { intros (r & Hr & Hp)%Hw. assert (r ∈ rows) as Hin by by rewrite Hrows; apply elem_of_list_filter.
    destruct rows; [by apply elem_of_nil in Hin|discriminate Ef]. }
  apply wp_bind, wp_uuid4. intros u _. apply wp_bind, wp_now. intros time.
  apply wp_bind, wp_try, wp_bind, wp_in_session, wp_insert.
  - intros s' Hs _. apply wp_ret. apply wp_bind, wp_bind, wp_get. apply wp_bind, wp_lift; [|done].
    intros [] _. apply wp_put, wp_ret. split; cbn.
    + apply NoDup_app. split_and!; [done| |apply NoDup_singleton].
      by intros m' Hm' ->%list_elem_of_singleton.
    + intros m' Hm'. unfold outside_now. cbn. setoid_rewrite (Hs _). setoid_rewrite add_row_at.
      apply elem_of_app in Hm' as [Hm'|Hm'].
      * destruct (Hw m' Hm') as (r & Hr & Hp). exists r. split; [by right|done].
      * apply list_elem_of_singleton in Hm' as ->. eexists. split; [left|]. apply own_message.
  - intros x Hx. destruct (catches _ _); [|done]. apply wp_ret. by apply wp_ret.
Qed.

Theorem inbox_handles_once ids w : log w = [] →
  wp (consume ids) (fun _ w' => NoDup (log w')) (fun _ _ => False) w.
Proof.
  intros Hl. apply (wp_mono _ _ (fun _ => handled) _ (fun _ _ => False)); [|by intros ? w' [? _]|done].
  apply wp_for_each.
  - unfold handled. rewrite Hl. split; [constructor|]. by intros m ?%elem_of_nil.
  - intros m w' _ Hw'. apply wp_try_all, wp_bind. eapply wp_mono; [by apply receive_handled| |].
    + intros b w'' Hw''. by apply wp_ret.
    + intros x w'' Hw''. by apply wp_ret.
Qed.

(** A row of the inbox needs the tenant with the nil identifier. *)
Lemma inbox_needs_tenant c u m time : consistent c = true →
  complete inbox (InboxConsumer.inbox_values u m time) ∈ c (table_name inbox) →
  ∃ r, r ∈ c (table_name tenants) ∧ col "id" r = nil_tenant.
Proof.
  intros Hc Hr. unfold consistent in Hc. rewrite all_true in Hc.
  assert (inbox ∈ Tables.schema) as Ht by solve_in. specialize (Hc _ Ht).
  unfold table_holds in Hc. rewrite all_true in Hc.
  assert (Reference ["tenant_id"] "tenants" ["id"] ∈ items inbox) as Hi by solve_in.
  specialize (Hc _ Hi). cbn in Hc. rewrite all_true in Hc. specialize (Hc _ Hr).
  apply orb_true_iff in Hc as [Hc|Hc]; [discriminate Hc|]. apply mem_true in Hc.
  apply list_elem_of_fmap in Hc as (r & E & Hr'). exists r. split; [done|].
  unfold cols in E. cbn in E. injection E as E. by rewrite <- E.
Qed.

Theorem inbox_drops_every_message m w :
  (∀ r, r ∈ outside_now w (table_name tenants) → col "id" r ≠ nil_tenant) →
  wp (InboxConsumer.receive handler m) (fun processed w' => processed = false ∧ w' = w)
    (fun _ w' => w' = w) w.
Proof.
  intros Ht. destruct w as [s l].
  apply wp_begin_session, wp_bind, wp_in_session, wp_select. intros rows Hrows.
  destruct (is_some (first rows)); [by apply wp_ret|].
  apply wp_bind, wp_uuid4. intros u _. apply wp_bind, wp_now. intros time.
  apply wp_bind, wp_try, wp_bind, wp_in_session, wp_insert.
  - intros s' Hs _. exfalso.
    destruct (inbox_needs_tenant (content_now s') u m time) as (r & Hr & E).
    + apply database_consistent.
    + rewrite (Hs _), add_row_at. left.
    + rewrite (Hs _), add_row_other in Hr by done. by apply (Ht r).
  - intros x Hx. destruct (catches _ _); [|done]. apply wp_ret. by apply wp_ret.
Qed.
End inbox.
