(* ===== verification/RepositorySample.v ===== *)
(** * A relational repository at work

    A memory database with two tenants, on which the histories of the
    repository are run: the witnesses of the properties of the relational
    files, and evaluations that show what the operations return there. *)

From S2P Require Import Prelude PyStr Effects PyDict PyFloat Json Transitions Values Goals.
From S2P Require Import Execution ExecutionObjects Digests Identity Improvement EvaluationDomain.
From S2P Require Import Calendar ContextDomain Gateway KillSwitch AuditChain Capability.
From S2P Require Import Verification Uuids Rows Isolation Codec Inserts CodecProofs Schema.
From S2P Require Import Database RepositoryCore RepositoryRuns RepositoryExecution RepositoryLogic.
From S2P Require Import RepositoryCommands RepositoryTenants RepositoryProofs RepositoryVersions.
From S2P Require Import RepositoryMemory RepositoryOutbox SqlKillSwitch Outbox.
From Stdlib Require Import ZArith.

Import Tables.
Open Scope string_scope.
Open Scope list_scope.
Open Scope Z_scope.

Definition acme : uuid := 1%N.
Definition umbrella : uuid := 2%N.
Definition epoch : datetime := Aware 63871632000000000.

Definition tenant_values (t : uuid) (name : string) : row :=
  [("id", c_uuid t); ("name", c_str name); ("created_at", TimeCell epoch)].

Definition or_empty (r : res MemoryDatabase.t) : MemoryDatabase.t :=
  match r with Ok d => d | Err _ => MemoryDatabase.empty end.

(** Both tenants, and nothing else. *)
Definition seeded : MemoryDatabase.t :=
  or_empty (d ← insert_into tenants (tenant_values acme "acme") MemoryDatabase.empty;
            insert_into tenants (tenant_values umbrella "umbrella") d).

Definition started : session MemoryDatabase.t := Session seeded false.

(** A clock that stands still and identifiers that count up. *)
Definition counting : env := Env (fun _ => epoch) (fun n => (1000 + N.of_nat n)%N).

Definition run_on {A} (m : M (session MemoryDatabase.t) A) : res A * st (session MemoryDatabase.t) :=
  m counting (St started 0 0).

(** ** Records *)

Definition event (id t : uuid) (type : string) : AuditEvent.t :=
  AuditEvent.mk t 10%N 11%N type "goal" "g" 12%N [("reason", JStr "sample")] id None None None None.

Definition refund : GoalContract.t := {|
  GoalContract.tenant_id := acme; GoalContract.goal_type := "refund";
  GoalContract.statement := "refund order 42"; GoalContract.desired_outcome := "refunded";
  GoalContract.subject_refs := [SubjectRef.mk "erp" "order" "42" None];
  GoalContract.success_criteria := [SuccessCriterion.mk "refunded" "the order is refunded" "erp"];
  GoalContract.constraints := []; GoalContract.owner_id := 10%N;
  GoalContract.risk_tier := RiskTier.LOW;
  GoalContract.budget_limit := BudgetAmount.mk 100 BudgetUnit.COST_UNITS;
  GoalContract.deadline := Aware 63871632001000000; GoalContract.input_payload := JsonObject.mk "{}";
  GoalContract.delegation_id := None;
  GoalContract.data_policy := DataPolicy.mk DataClassification.INTERNAL [] 30;
  GoalContract.execution_mode := ExecutionMode.AUTONOMOUS; GoalContract.max_concurrent_runs := 1;
  GoalContract.goal_id := 20%N; GoalContract.version := 1; GoalContract.status := GoalStatus.DRAFT;
  GoalContract.created_at := epoch; GoalContract.transitions := []
|}.

Definition refund_active : GoalContract.t :=
  refund <| GoalContract.version := 2 |> <| GoalContract.status := GoalStatus.ACTIVE |>.

Ltac solve_goal_ok :=
  split; [vm_compute; reflexivity|vm_compute; reflexivity|vm_compute; reflexivity
         |vm_compute; reflexivity|repeat constructor|repeat constructor|cbn; lia|vm_compute; reflexivity
         |exists []; split; vm_compute; reflexivity|intros ? [=]|vm_compute; reflexivity|constructor].

Lemma refund_ok : goal_ok refund.
Proof. solve_goal_ok. Qed.

Lemma refund_active_ok : goal_ok refund_active.
Proof. solve_goal_ok. Qed.

Definition add_refund : command := AddGoal refund (event 13%N acme "goal.created").
Definition activate_refund (expected : Z) : command :=
  SaveGoal refund_active expected (event 14%N acme "goal.activated").

(** The goal is stored and activated; a second save for version 1 conflicts,
    and the audit log of the tenant has the two events that happened. *)
Example refund_history :
  match run_on (run_history [Alone add_refund; Alone (activate_refund 1); Alone (activate_refund 1)] ;;
                goal ← get_goal acme 20%N; events ← list_audit_events acme; mret (goal, events)) with
  | (Ok (goal, events), _) =>
      bool_decide (GoalContract.status goal = GoalStatus.ACTIVE) && (length events =? 2)%nat &&
      match verify_links genesis 1 events with Ok b => b | Err _ => false end
  | (Err _, _) => false
  end = true.
Proof. vm_compute. reflexivity. Qed.

Example stale_save_conflicts :
  match run_on (run_command add_refund ;; run_command (activate_refund 1) ;;
                run_command (activate_refund 1)) with
  | (Err x, _) => exn_class x
  | (Ok _, _) => RuntimeError
  end = ConcurrencyConflict.
Proof. vm_compute. reflexivity. Qed.

(** ** The witnesses *)

Lemma refund_command_ok : command_ok add_refund.
Proof. by split; [vm_compute|split; vm_compute]. Qed.

Lemma activate_refund_ok e : command_ok (activate_refund e).
Proof. by split; [vm_compute|split; vm_compute]. Qed.

Definition refund_steps : list step :=
  [Alone add_refund; Together [activate_refund 1; activate_refund 1]; Alone (activate_refund 1)].

Lemma relational_audit_verifies_witness :
  wpi uuid_ok (run_history refund_steps ;; list_audit_events acme)
    (fun events _ => verify_links genesis 1 events = Ok true) (fun _ _ => False) started.
Proof.
  apply (relational_audit_verifies refund_steps acme started); [|reflexivity].
  repeat constructor; try apply refund_command_ok; apply activate_refund_ok.
Defined.

Lemma tenants_do_not_interfere_witness :
  wpi uuid_ok (run_history refund_steps)
    (fun _ s' => ∀ n, foreign acme (content_now s' n) ≡ₚ foreign acme (content_now started n))
    (fun _ _ => False) started.
Proof.
  apply (tenants_do_not_interfere refund_steps acme started).
  - repeat constructor; try apply refund_command_ok; apply activate_refund_ok.
  - intros r Hr. by apply elem_of_nil in Hr.
Defined.

Lemma written_record_is_read_witness :
  wpi uuid_ok (run_command add_refund)
    (fun _ s' => record_stored add_refund (content_now s') ∧
       wpi uuid_ok (reads_back add_refund) (fun same s'' => same ∧ s'' = s') (fun _ _ => False) s')
    (fun _ s' => s' = started) started.
Proof. apply (written_record_is_read add_refund started); [apply refund_ok|exact I|reflexivity]. Defined.

(** The goal is in the database, so the first save is accepted. *)
Definition with_refund : session MemoryDatabase.t := data (snd (run_on (run_command add_refund))).

Lemma stale_save_is_refused_witness :
  is_ok (fst (run_command (activate_refund 1) counting (St with_refund 0 1))) = true ∧
  wpi uuid_ok (run_command (activate_refund 1))
    (fun _ s' => wpi uuid_ok (run_command (activate_refund 1)) (fun _ _ => False)
       (fun e s'' => s'' = s' ∧ (encodes (activate_refund 1) → exn_class e = ConcurrencyConflict)) s')
    (fun _ s' => s' = with_refund) with_refund.
Proof.
  split; [vm_compute; reflexivity|].
  eapply (stale_save_is_refused (activate_refund 1) (activate_refund 1)); first [discriminate|by vm_compute].
Defined.

Lemma failed_step_changes_nothing_witness :
  wpi (fun _ => True) (run_step (Alone add_refund)) (fun _ _ => True) (fun _ s' => s' = started) started.
Proof. apply (failed_step_changes_nothing (Alone add_refund) started). reflexivity. Defined.

Lemma every_event_is_announced_witness :
  wpi uuid_ok (run_history refund_steps) (fun _ s' => announced (content_now s')) (fun _ _ => False) started.
Proof.
  apply (every_event_is_announced refund_steps started); [reflexivity|].
  unfold announced. by vm_compute.
Defined.

Lemma first_binding_wins_witness :
  wpi uuid_ok (put_idempotency acme "k" 20%N None)
    (fun _ s' =>
       wpi uuid_ok (put_idempotency acme "k" 21%N None) (fun _ _ => False)
         (fun x s'' => s'' = s' ∧ exn_class x = ConcurrencyConflict) s' ∧
       wpi uuid_ok (get_idempotency acme "k" None)
         (fun found s'' => s'' = s' ∧ found = Some 20%N ∧ if_some (eq (digest_or_zero None)) None)
         (fun x s'' => s'' = s' ∧ exn_class x = ConcurrencyConflict ∧
                       ∃ digest, None = Some digest ∧ digest ≠ digest_or_zero None) s')
    (fun _ s' => s' = started) started.
Proof. apply (first_binding_wins acme "k" 20%N None 21%N None None started); done. Defined.

Definition note : MemoryRecord.t := {|
  MemoryRecord.tenant_id := acme; MemoryRecord.scope := "orders"; MemoryRecord.content := "order 42";
  MemoryRecord.provenance := ["erp"]; MemoryRecord.confidence := of_int 1;
  MemoryRecord.expires_at := Aware 63871632001000000; MemoryRecord.approved_by := 10%N;
  MemoryRecord.classification := DataClassification.INTERNAL; MemoryRecord.purpose := "refund";
  MemoryRecord.contains_pii := false; MemoryRecord.conflict_keys := [];
  MemoryRecord.source_trust := TrustLevel.AUTHORITATIVE; MemoryRecord.status := MemoryStatus.STABLE;
  MemoryRecord.memory_id := 30%N; MemoryRecord.created_at := epoch
|}.

Definition remembered : session MemoryDatabase.t := data (snd (run_on (run_command (AddMemory note)))).

Example note_deleted :
  fst (run_on (run_command (AddMemory note) ;; first ← delete_memory acme 30%N 10%N;
               again ← delete_memory acme 30%N 10%N; mret (first, again))) = Ok (1, 0).
Proof. vm_compute. reflexivity. Qed.

Lemma remembered_note r : r ∈ content_now remembered (table_name memory_records) →
  of_tenant acme r = true ∧ col "id" r = c_uuid 30%N ∧ col "deleted_at" r = NULL.
Proof.
  assert (forallb (fun r => of_tenant acme r && bool_decide (col "id" r = c_uuid 30%N) &&
                            bool_decide (col "deleted_at" r = NULL))
            (content_now remembered (table_name memory_records)) = true) as Ha by by vm_compute.
  rewrite forallb_forall in Ha. intros Hr%list_elem_of_In. apply Ha in Hr.
  apply andb_true_iff in Hr as [[? ?%bool_decide_eq_true]%andb_true_iff ?%bool_decide_eq_true].
  done.
Qed.

Lemma deletion_marks_descendants_witness :
  wpi uuid_ok (delete_memory acme 30%N 10%N)
    (fun n s' => n = Z.of_nat (length (List.filter (fun _ => true)
                   (content_now remembered (table_name memory_records)))) ∧
                 ∃ time, marked acme (fun _ => true) time (content_now remembered) (content_now s'))
    (fun _ s' => s' = remembered) remembered.
Proof.
  apply (deletion_marks_descendants acme 30%N 10%N (fun _ => true) remembered).
  - vm_compute. reflexivity.
  - intros r Hr. apply remembered_note in Hr as (Ht & Hid & Hd). split; [|done].
    intros _. split_and!; [done| |done]. rewrite Hid. reflexivity.
Defined.

Lemma stable_channel_is_never_set_witness :
  wpi uuid_ok (set_stable_channel acme "pack" "1.0.0" 10%N) (fun _ _ => False)
    (fun _ s' => s' = started) started.
Proof. apply (stable_channel_is_never_set acme "pack" "1.0.0" 10%N started). reflexivity. Defined.

(** ** The kill switch *)

Definition refund_tool : KillSwitchQuery.t :=
  KillSwitchQuery.mk None None (Some "refund") None None None.

Definition twice_on : list switch_op :=
  [Activate KillSwitchDimension.TOOL "refund" "first" "ops";
   Activate KillSwitchDimension.TOOL "refund" "second" "ops";
   Deactivate KillSwitchDimension.TOOL "refund"].

(** Activated twice and cleared once, the relational store still blocks, where
    the in-memory store does not; a second clear lifts the block. *)
Example cleared_once_still_blocks :
  let query := SqlKillSwitchStore.is_blocked (Some acme) refund_tool in
  fst (run_on (for_each_m (run_sql acme) twice_on ;; once ← query;
               run_sql acme (Deactivate KillSwitchDimension.TOOL "refund") ;; again ← query;
               mret (once, again))) = Ok (true, false) ∧
  fst ((for_each_m run_op twice_on ;; InMemoryKillSwitchStore.is_blocked refund_tool)
         counting (St ∅ 0 0)) = Ok false.
Proof. split; vm_compute; reflexivity. Qed.

Lemma relational_switch_blocks_witness :
  wp (for_each_m (run_sql acme) twice_on)
    (fun _ s' => wp (SqlKillSwitchStore.is_blocked (Some acme) refund_tool)
      (fun blocked _ =>
        (blocked = true ↔
          (∃ r, r ∈ content_now started (table_name platform_kill_switches) ∧ is_on r = true) ∨
          ∃ key, key ∈ KillSwitchQuery.dimensions refund_tool ∧ (0 < pending twice_on key)%nat) ∧
        ((∃ key, key ∈ KillSwitchQuery.dimensions refund_tool ∧ active_after twice_on key = true) →
         blocked = true))
      (fun _ _ => False) s')
    (fun _ _ => True) started.
Proof. apply (relational_switch_blocks acme twice_on refund_tool started). reflexivity. Defined.

(** * The outbox and the inbox at work

    On the memory database of [RepositorySample]: the witnesses of the
    properties of the outbox, and what happens to the messages of the
    repositories and in an inbox without the tenant its rows name. *)

Import Tables.
Open Scope string_scope.
Open Scope list_scope.
Open Scope Z_scope.

Definition envelope (n : N) : MessageEnvelope.t :=
  MessageEnvelope.mk "autonoesis.sample.v1" 1 acme 10%N [("n", JInt (Z.of_N n))] n 12%N None
    (Some "00-aa-bb-01") (Member DataClassification.INTERNAL) epoch.

Lemma envelope_is_ok : envelope_ok (envelope 40).
Proof. split; [..|by intros u [=]|]; vm_compute; reflexivity. Qed.

Lemma relayed_envelope_is_written_witness :
  ∃ payload, envelope_to_payload (envelope 40) = Ok payload ∧
    payload_to_envelope (complete outbox (OutboxWriter.outbox_values 50%N (envelope 40) payload epoch)) =
    Ok (as_stored (envelope 40)).
Proof.
  eexists. split; [vm_compute; reflexivity|].
  apply (relayed_envelope_is_written 50%N (envelope 40)); [apply envelope_is_ok|vm_compute; reflexivity].
Defined.

(** Three messages of a writer. *)
Definition written : session MemoryDatabase.t :=
  data (snd (run_on (for_each_m (fun n => OutboxWriter.publish (envelope n)) [40; 41; 42]%N))).
Definition written_outside : outside MemoryDatabase.t (MessageEnvelope.t * bool) := Outside written [].

Definition willing : list (MessageEnvelope.t * bool) → MessageEnvelope.t → res unit := fun _ _ => Ok tt.
(** Refuses the first call. *)
Definition reluctant (calls : list (MessageEnvelope.t * bool)) (_ : MessageEnvelope.t) : res unit :=
  raise_if (bool_decide (length calls = 0%nat)) RuntimeError "channel is down".

(** A refused message is retried by the next poll. *)
Example refused_is_retried :
  match (a ← OutboxRelay.poll_and_publish reluctant 100; b ← OutboxRelay.poll_and_publish reluctant 100;
         c ← OutboxRelay.poll_and_publish reluctant 100; mret (a, b, c))
          counting (St written_outside 0 0) with
  | (Ok counts, s) => Some (counts, snd <$> log (data s))
  | (Err _, _) => None
  end = Some ((2, 1, 0), [false; true; true; true]).
Proof. vm_compute. reflexivity. Qed.

Lemma written_ready : ready (outside_now written_outside).
Proof.
  intros r Hr.
  assert (all (fun r => fits outbox r && is_ok (payload_to_envelope r)) (waiting (outside_now written_outside)) = true)
    as Ha by by vm_compute.
  rewrite all_true in Ha. apply Ha, andb_true_iff in Hr as [Hf Hx]. split; [done|]. by apply is_ok_true.
Qed.

Lemma relay_publishes_everything_witness :
  length (waiting (outside_now written_outside)) = 3%nat ∧
  ends (polls willing 2 2)
    (fun n w' => n = Z.of_nat (length (waiting (outside_now written_outside))) ∧
       waiting (outside_now w') = [] ∧
       ∃ calls, log w' = log written_outside ++ calls ∧
         calls ≡ₚ handed (waiting (outside_now written_outside))) written_outside.
Proof.
  split; [vm_compute; reflexivity|].
  apply (relay_publishes_everything willing 2 2 written_outside); [done|apply written_ready|].
  replace (length _) with 3%nat by (vm_compute; reflexivity). lia.
Defined.

Lemma published_was_accepted_witness :
  wp (OutboxRelay.poll_and_publish reluctant 2) (fun _ => accepted) (fun _ => accepted) written_outside.
Proof.
  apply (published_was_accepted reluctant 2 written_outside). intros r x Hr Hp.
  assert (all OutboxRelay.pending (outside_now written_outside (table_name outbox)) = true) as Ha by by vm_compute.
  rewrite all_true in Ha. rewrite (Ha r Hr) in Hp. discriminate Hp.
Defined.

(** ** After an operation of the repository *)

Definition refunded : outside MemoryDatabase.t (MessageEnvelope.t * bool) :=
  Outside (data (snd (run_on (run_command add_refund)))) [].

Example goal_event_stops_the_relay :
  match OutboxRelay.poll_and_publish willing 100 counting (St refunded 0 0) with
  | (Err x, s) => exn_class x = KeyError ∧ log (data s) = []
  | (Ok _, _) => False
  end.
Proof. vm_compute. by split. Qed.

Definition refund_event : AuditEvent.t :=
  match AuditEvent.chained (event 13%N acme "goal.created") 1 genesis epoch with
  | Ok x => x | Err _ => event 13%N acme "goal.created"
  end.

(** With the message of a writer of the same instant, which a poll reads first. *)
Definition both_written : outside MemoryDatabase.t (MessageEnvelope.t * bool) :=
  Outside (data (snd (run_on (run_command add_refund ;; OutboxWriter.publish (envelope 40))))) [].

Lemma relay_stops_at_repository_events_witness :
  wp (OutboxRelay.poll_and_publish willing 100) (fun _ _ => False)
    (fun _ w' => session_of w' = session_of both_written ∧
       ∃ n, called w' = called both_written ++ take n [as_stored (envelope 40)]) both_written.
Proof.
  replace [as_stored (envelope 40)] with (readable_before (batch 100 both_written))
    by (vm_compute; reflexivity).
  apply (relay_stops_at_repository_events willing 100 1000%N refund_event epoch both_written).
  apply (list_elem_of_lookup_2 _ 1). vm_compute. reflexivity.
Defined.

(** ** The inbox *)

Definition no_failure : list string → string → res unit := fun _ _ => Ok tt.

(** Without the tenant the inbox names, no message is handled. *)
Example inbox_handles_nothing :
  match (a ← InboxConsumer.receive no_failure "m-1"; b ← InboxConsumer.receive no_failure "m-1"; mret (a, b))
          counting (St (Outside started []) 0 0) with
  | (Ok answers, s) => Some (answers, log (data s))
  | (Err _, _) => None
  end = Some ((false, false), []).
Proof. vm_compute. reflexivity. Qed.

(** With it, each is handled once. *)
Definition with_nil_tenant : session MemoryDatabase.t :=
  Session (or_empty (insert_into tenants (tenant_values 0%N "nil") MemoryDatabase.empty)) false.

Example inbox_handles_each_once :
  match (a ← InboxConsumer.receive no_failure "m-1"; b ← InboxConsumer.receive no_failure "m-1";
         c ← InboxConsumer.receive no_failure "m-2"; mret (a, b, c))
          counting (St (Outside with_nil_tenant []) 0 0) with
  | (Ok answers, s) => Some (answers, log (data s))
  | (Err _, _) => None
  end = Some ((true, false, true), ["m-1"; "m-2"]).
Proof. vm_compute. reflexivity. Qed.

Lemma inbox_handles_once_witness :
  wp (consume no_failure ["m-1"; "m-2"; "m-1"]) (fun _ w' => NoDup (log w')) (fun _ _ => False)
    (Outside with_nil_tenant []).
Proof. apply (inbox_handles_once no_failure ["m-1"; "m-2"; "m-1"] (Outside with_nil_tenant [])). reflexivity. Defined.

Lemma inbox_drops_every_message_witness :
  wp (InboxConsumer.receive no_failure "m-1") (fun processed w' => processed = false ∧ w' = Outside started [])
    (fun _ w' => w' = Outside started []) (Outside started []).
Proof.
  apply (inbox_drops_every_message no_failure "m-1" (Outside started [])). intros r Hr.
  assert (all (fun r => negb (bool_decide (col "id" r = nil_tenant)))
    (outside_now (L := string) (Outside started []) (table_name tenants)) = true) as Ha by by vm_compute.
  rewrite all_true in Ha. by apply Ha, negb_true_iff, bool_decide_eq_false in Hr.
Defined.
