(* ===== verification/Store.v ===== *)
(** * packages/adapters: memory.py, [InMemoryPlatformStore]

    The store is a record of dictionaries, one field per attribute of the
    class, in its order.  The state of a computation is a [world]: the store
    and, behind it, whatever state [X] the other ports keep.  A [transaction]
    that raises restores the store's attributes; it undoes nothing else.

    Listings follow the insertion order of the dictionaries, as in Python. *)

From S2P Require Import Prelude PyStr PyDict PyFloat Json Sha256 Effects Transitions Values Goals.
From S2P Require Import Execution ExecutionObjects Identity Improvement EvaluationDomain.
From S2P Require Import ContextDomain Calendar AuditChain Capability Verification Uuids.
From Stdlib Require Import ZArith.

Open Scope string_scope.
Open Scope list_scope.
Open Scope Z_scope.

Notation pack_key := (uuid * string * string)%type.

Module PackState.
Record t := mk { enabled : option bool; revoked : option bool }.
Definition initial : t := mk (Some true) (Some false).
(** [{}] *)
Definition none : t := mk None None.
Definition truthy (b : option bool) : bool := default false b.
End PackState.

(** A configuration asset. *)
Module ConfigAsset.
Record t := mk {
  asset_id : string; tenant_id : string; version : string; definition : list (string * json)
}.
End ConfigAsset.

Module BudgetEntry.
Record t := mk {
  entry_id : uuid; tenant_id : uuid; run_id : uuid; category : string; amount : Z;
  unit_ : string; reference : string; created_at : datetime
}.
End BudgetEntry.

Record store := Store {
  goals : dict uuid GoalContract.t;
  runs : dict uuid Run.t;
  context_snapshots : dict uuid ContextSnapshot.t;
  memories : dict uuid MemoryRecord.t;
  plans : dict uuid Plan.t;
  tasks : dict uuid Task.t;
  actions : dict uuid Action.t;
  action_attempts : dict uuid ActionAttempt.t;
  goal_types : dict string GoalTypeManifest.t;
  packs : dict string CapabilityPackManifest.t;
  tenant_goal_types : dict (uuid * string) GoalTypeManifest.t;
  tenant_packs : dict pack_key CapabilityPackManifest.t;
  pack_states : dict pack_key PackState.t;
  budget_entries : list BudgetEntry.t;
  pack_channels : dict (uuid * string) string;
  agents : dict (uuid * string) AgentVersion.t;
  skills : dict string ConfigAsset.t;
  tools : dict string ConfigAsset.t;
  policies : dict string ConfigAsset.t;
  budgets : dict string ConfigAsset.t;
  approvals : dict uuid ApprovalRequest.t;
  evidence : dict uuid Evidence.t;
  evidence_capture_sagas : dict uuid EvidenceCaptureSaga.t;
  evidence_deletions : dict uuid EvidenceDeletionRecord.t;
  outcomes : dict uuid Outcome.t;
  audits : list AuditEvent.t;
  proposals : dict uuid ImprovementProposal.t;
  candidates : dict uuid CandidateVersion.t;
  deployments : dict uuid Deployment.t;
  releases : dict uuid Release.t;
  trials : dict uuid Trial.t;
  candidate_evaluations : dict uuid CandidateEvaluation.t;
  suites : dict (uuid * string * string) EvaluationSuite.t;
  observations : dict (uuid * uuid * string * string) DeploymentObservation.t;
  shadow_comparisons : dict uuid ShadowComparison.t;
  idempotency : dict (uuid * string) uuid;
  idempotency_digests : dict (uuid * string) string
}.

#[export] Instance store_eta : Settable store := fun x =>
  Store (goals x) (runs x) (context_snapshots x) (memories x) (plans x) (tasks x) (actions x)
    (action_attempts x) (goal_types x) (packs x) (tenant_goal_types x) (tenant_packs x)
    (pack_states x) (budget_entries x) (pack_channels x) (agents x) (skills x) (tools x)
    (policies x) (budgets x) (approvals x) (evidence x) (evidence_capture_sagas x)
    (evidence_deletions x) (outcomes x) (audits x) (proposals x) (candidates x) (deployments x)
    (releases x) (trials x) (candidate_evaluations x) (suites x) (observations x)
    (shadow_comparisons x) (idempotency x) (idempotency_digests x).

Definition empty_store : store :=
  Store ∅ ∅ ∅ ∅ ∅ ∅ ∅ ∅ ∅ ∅ ∅ ∅ ∅ [] ∅ ∅ ∅ ∅ ∅ ∅ ∅ ∅ ∅ ∅ ∅ [] ∅ ∅ ∅ ∅ ∅ ∅ ∅ ∅ ∅ ∅ ∅.

Record world (X : Type) := World { db : store; ext : X }.
Arguments World {X} db ext.
Arguments db {X} _.
Arguments ext {X} _.

Section store_operations.
Context {X : Type}.
Notation MW := (M (world X)).

Definition query {A} (f : store → A) : MW A := w ← get; mret (f (db w)).
Definition update (f : store → store) : MW unit := modify (fun w => World (f (db w)) (ext w)).

(** [transaction]: when the block raises, every attribute is put back. *)
Definition transaction {A} (m : MW A) : MW A := fun e s =>
  match m e s with
  | (Ok a, s') => (Ok a, s')
  | (Err x, s') => (Err x, St (World (db (data s)) (ext (data s'))) (ticks s') (drawn s'))
  end.

(** [_assert_tenant] *)
Definition assert_tenant (expected actual : uuid) : MW unit :=
  throw_if (negb (bool_decide (expected = actual))) TenantBoundaryViolation
    "record belongs to a different tenant".

(** The shape of the [get_*] operations: the record of [id], if it exists and
    belongs to the tenant. *)
Definition fetch {A} (records : store → dict uuid A) (owner : A → uuid) (missing : string)
    (tenant_id id : uuid) : MW A :=
  d ← query records;
  match d !! id with
  | None => throw RecordNotFound missing
  | Some item => assert_tenant tenant_id (owner item) ;; mret item
  end.

Definition not_found (kind : string) (id : uuid) : string :=
  kind +:+ " " +:+ uuid_str id +:+ " was not found".

(** The shape of the [list_*] operations. *)
Definition list_where {A} (records : store → list A) (keep : A → bool) : MW (list A) :=
  l ← query records; mret (List.filter keep l).

(** ** Audits *)

Definition tenant_audits (tenant_id : uuid) (l : list AuditEvent.t) : list AuditEvent.t :=
  List.filter (fun item => bool_decide (AuditEvent.tenant_id item = tenant_id)) l.

Definition record_audit (audit : AuditEvent.t) : MW unit :=
  l ← query audits;
  t ← now;
  event ← lift (next_link (tenant_audits (AuditEvent.tenant_id audit) l) audit t);
  update (fun d => d <| audits := audits d ++ [event] |>).

Definition list_audit_events (tenant_id : uuid) : MW (list AuditEvent.t) :=
  list_where audits (fun item => bool_decide (AuditEvent.tenant_id item = tenant_id)).

(** ** Capability packs *)

Definition register_pack (manifest : CapabilityPackManifest.t) : MW unit :=
  update (fun d => d
    <| packs := <[CapabilityPackManifest.pack_id manifest := manifest]> (packs d) |>
    <| goal_types := foldl (fun acc g => <[GoalTypeManifest.goal_type g := g]> acc)
                       (goal_types d) (CapabilityPackManifest.goal_types manifest) |>).

Definition pack_is_listable (d : store) (key : pack_key) : bool :=
  let state := default PackState.initial (pack_states d !! key) in
  PackState.truthy (PackState.enabled state) && negb (PackState.truthy (PackState.revoked state)).

(** One iteration of the loop that resolves the channel of each pack. *)
Definition resolve_step (d : store) (tenant_id : uuid)
    (resolved : dict string CapabilityPackManifest.t)
    (entry : pack_key * CapabilityPackManifest.t)
    : res (dict string CapabilityPackManifest.t) :=
  let '((item_tenant, pack_id, version), item) := entry in
  if negb (bool_decide (item_tenant = tenant_id)) ||
     negb (pack_is_listable d (tenant_id, pack_id, version)) then Ok resolved
  else
    let pinned := pack_channels d !! (tenant_id, pack_id) in
    if match pinned with Some v => negb (bool_decide (version = v)) | None => false end
    then Ok resolved
    else match resolved !! pack_id with
         | None => Ok (<[pack_id := item]> resolved)
         | Some current =>
             newer ← (if is_none pinned
                      then c ← compare_versions version (CapabilityPackManifest.version current);
                           Ok (0 <? c)
                      else Ok false);
             Ok (if (newer : bool) then <[pack_id := item]> resolved else resolved)
         end.

Fixpoint foldl_res {A B} (f : B → A → res B) (acc : B) (l : list A) : res B :=
  match l with
  | [] => Ok acc
  | x :: l' => acc' ← f acc x; foldl_res f acc' l'
  end.

(** [_refresh_tenant_goal_types] *)
Definition refreshed (d : store) (tenant_id : uuid) : res (dict (uuid * string) GoalTypeManifest.t) :=
  resolved ← foldl_res (resolve_step d tenant_id) ∅ (items (tenant_packs d));
  let kept := Dict (List.filter (fun kv => negb (bool_decide (kv.1.1 = tenant_id)))
                      (items (tenant_goal_types d))) in
  Ok (foldl (fun acc (kv : string * CapabilityPackManifest.t) =>
         foldl (fun acc g => <[(tenant_id, GoalTypeManifest.goal_type g) := g]> acc) acc
           (CapabilityPackManifest.goal_types kv.2))
       kept (sort_items (items resolved))).

Definition refresh_tenant_goal_types (tenant_id : uuid) : MW unit :=
  d ← query id;
  index ← lift (refreshed d tenant_id);
  update (fun d => d <| tenant_goal_types := index |>).

Definition install_pack (tenant_id : uuid) (manifest : CapabilityPackManifest.t) : MW unit :=
  let pack_id := CapabilityPackManifest.pack_id manifest in
  let version := CapabilityPackManifest.version manifest in
  let key := (tenant_id, pack_id, version) in
  d ← query id;
  match tenant_packs d !! key with
  | Some existing =>
      throw_if (negb (py_eq (JDict (manifest_payload existing)) (JDict (manifest_payload manifest))))
        ValueError ("capability pack content conflict: " +:+ pack_id +:+ "@" +:+ version +:+
                    " is already installed with different signed content")
  | None =>
      update (fun d => d <| tenant_packs := <[key := manifest]> (tenant_packs d) |>
        <| pack_states := setdefault key PackState.initial (pack_states d) |>) ;;
      refresh_tenant_goal_types tenant_id
  end.

(** [sorted(self.tenant_packs.items())]: the keys are distinct. *)
Definition pack_key_ltb (a b : pack_key) : bool :=
  let '(t1, p1, v1) := a in let '(t2, p2, v2) := b in
  if (t1 <? t2)%N then true else if (t2 <? t1)%N then false
  else if str_ltb p1 p2 then true else if str_ltb p2 p1 then false else str_ltb v1 v2.

Fixpoint insert_by {A} (ltb : A → A → bool) (x : A) (l : list A) : list A :=
  match l with
  | [] => [x]
  | y :: l' => if ltb y x then y :: insert_by ltb x l' else x :: l
  end.

(** [sorted(l)], stable: an item stays before the equal items that follow it. *)
Definition sort_by {A} (ltb : A → A → bool) (l : list A) : list A := foldr (insert_by ltb) [] l.

Definition list_capability_packs (tenant_id : uuid) (include_disabled : bool)
    : MW (list CapabilityPackManifest.t) :=
  d ← query id;
  let tenant_items := snd <$> List.filter
    (fun kv : pack_key * CapabilityPackManifest.t =>
       bool_decide (kv.1.1.1 = tenant_id) &&
       (include_disabled || pack_is_listable d (tenant_id, kv.1.1.2, kv.1.2)))
    (sort_by (fun a b => pack_key_ltb a.1 b.1) (items (tenant_packs d))) in
  mret (match tenant_items with [] => values (packs d) | _ => tenant_items end).

Definition get_installed_pack (tenant_id : uuid) (pack_id version : string)
    : MW (option CapabilityPackManifest.t) :=
  query (fun d => tenant_packs d !! (tenant_id, pack_id, version)).

Definition is_pack_revoked (tenant_id : uuid) (pack_id version : string) : MW bool :=
  query (fun d => PackState.truthy (PackState.revoked
    (default PackState.none (pack_states d !! (tenant_id, pack_id, version))))).

(** [_require_pack] *)
Definition require_pack (tenant_id : uuid) (pack_id version : string) : MW unit :=
  d ← query tenant_packs;
  throw_if (is_none (d !! (tenant_id, pack_id, version))) RecordNotFound
    ("capability pack " +:+ pack_id +:+ "@" +:+ version +:+ " was not found").

(** [_record_pack_fact]: the event is appended as it is, not chained. *)
Definition record_pack_fact (tenant_id : uuid) (event_type pack_id version : string)
    (actor_id : uuid) (reason : option string) : MW unit :=
  correlation_id ← uuid4;
  event_id ← uuid4;
  update (fun d => d <| audits := audits d ++ [{|
    AuditEvent.tenant_id := tenant_id;
    AuditEvent.actor_id := actor_id;
    AuditEvent.principal_id := actor_id;
    AuditEvent.event_type := event_type;
    AuditEvent.object_type := "capability_pack";
    AuditEvent.object_id := pack_id +:+ "@" +:+ version;
    AuditEvent.correlation_id := correlation_id;
    AuditEvent.details := [("pack_id", JStr pack_id); ("version", JStr version)] ++
      match reason with
      | Some r => if empty r then [] else [("reason", JStr r)]
      | None => []
      end;
    AuditEvent.event_id := event_id;
    AuditEvent.sequence := None;
    AuditEvent.previous_digest := None;
    AuditEvent.event_digest := None;
    AuditEvent.created_at := None |}] |>).

Definition set_state (key : pack_key) (f : PackState.t → PackState.t) (d : store) : store :=
  d <| pack_states := <[key := f (default PackState.none (pack_states d !! key))]>
                        (pack_states d) |>.

Definition set_pack_enabled (tenant_id : uuid) (pack_id version : string) (enabled : bool)
    (actor_id : uuid) (reason : string) : MW unit :=
  require_pack tenant_id pack_id version ;;
  update (set_state (tenant_id, pack_id, version)
            (fun s => PackState.mk (Some enabled) (PackState.revoked s))) ;;
  record_pack_fact tenant_id
    (if enabled then "capability_pack.enabled" else "capability_pack.disabled")
    pack_id version actor_id (Some reason) ;;
  refresh_tenant_goal_types tenant_id.

Definition revoke_pack (tenant_id : uuid) (pack_id version : string) (actor_id : uuid)
    (reason : string) : MW unit :=
  require_pack tenant_id pack_id version ;;
  update (set_state (tenant_id, pack_id, version)
            (fun _ => PackState.mk (Some false) (Some true))) ;;
  record_pack_fact tenant_id "capability_pack.revoked" pack_id version actor_id (Some reason) ;;
  refresh_tenant_goal_types tenant_id.

Definition set_stable_channel (tenant_id : uuid) (pack_id version : string) (actor_id : uuid)
    : MW unit :=
  require_pack tenant_id pack_id version ;;
  update (fun d => d <| pack_channels := <[(tenant_id, pack_id) := version]> (pack_channels d) |>) ;;
  record_pack_fact tenant_id "capability_pack.channel_updated" pack_id version actor_id None ;;
  refresh_tenant_goal_types tenant_id.

Definition get_stable_channel (tenant_id : uuid) (pack_id : string) : MW (option string) :=
  query (fun d => pack_channels d !! (tenant_id, pack_id)).

Definition get_goal_type (tenant_id : uuid) (goal_type : string) : MW GoalTypeManifest.t :=
  d ← query id;
  match tenant_goal_types d !! (tenant_id, goal_type) with
  | Some item => mret item
  | None =>
      match goal_types d !! goal_type with
      | Some item => mret item
      | None => throw RecordNotFound ("goal type " +:+ goal_type +:+ " was not found")
      end
  end.

(** ** Agents *)

Definition add_agent (name : string) (version : AgentVersion.t) : MW unit :=
  update (fun d => d <| agents := <[(AgentVersion.tenant_id version, name) := version]> (agents d) |>).

Definition list_agents (tenant_id : uuid) : MW (list (string * AgentVersion.t)) :=
  d ← query agents;
  mret ((fun kv => (kv.1.2, kv.2)) <$>
    List.filter (fun kv => bool_decide (kv.1.1 = tenant_id)) (items d)).

Definition get_stable_agent (tenant_id : uuid) (agent_name : string) : MW AgentVersion.t :=
  d ← query agents;
  match d !! (tenant_id, agent_name) with
  | Some version => mret version
  | None => throw RecordNotFound ("stable agent " +:+ agent_name +:+ " was not found")
  end.

(** ** Goals, runs, snapshots, memories *)

Definition add_goal (goal : GoalContract.t) (audit : AuditEvent.t) : MW unit :=
  update (fun d => d <| goals := <[GoalContract.goal_id goal := goal]> (goals d) |>) ;;
  record_audit audit.

Definition get_goal (tenant_id goal_id : uuid) : MW GoalContract.t :=
  fetch goals GoalContract.tenant_id (not_found "goal" goal_id) tenant_id goal_id.

Definition list_goals (tenant_id : uuid) : MW (list GoalContract.t) :=
  list_where (fun d => values (goals d))
    (fun goal => bool_decide (GoalContract.tenant_id goal = tenant_id)).

Definition save_goal (goal : GoalContract.t) (expected_version : Z) (audit : AuditEvent.t)
    : MW unit :=
  current ← get_goal (GoalContract.tenant_id goal) (GoalContract.goal_id goal);
  throw_if (negb (bool_decide (GoalContract.version current = expected_version)))
    ConcurrencyConflict "goal optimistic version changed" ;;
  update (fun d => d <| goals := <[GoalContract.goal_id goal := goal]> (goals d) |>) ;;
  record_audit audit.

Definition add_run (run : Run.t) (audit : AuditEvent.t) : MW unit :=
  update (fun d => d <| runs := <[Run.run_id run := run]> (runs d) |>) ;;
  record_audit audit.

Definition get_run (tenant_id run_id : uuid) : MW Run.t :=
  fetch runs Run.tenant_id (not_found "run" run_id) tenant_id run_id.

Definition save_run (run : Run.t) (expected_version : Z) (audit : option AuditEvent.t) : MW unit :=
  current ← get_run (Run.tenant_id run) (Run.run_id run);
  throw_if (negb (bool_decide (Run.optimistic_version current = expected_version)))
    ConcurrencyConflict "run optimistic version changed" ;;
  update (fun d => d <| runs := <[Run.run_id run := run]> (runs d) |>) ;;
  match audit with Some audit => record_audit audit | None => mret tt end.

Definition list_runs (tenant_id : uuid) (goal_id : option uuid) : MW (list Run.t) :=
  list_where (fun d => values (runs d))
    (fun run => bool_decide (Run.tenant_id run = tenant_id) &&
       match goal_id with Some g => bool_decide (Run.goal_id run = g) | None => true end).

Definition for_run (tenant_id run_id : uuid) (item : ContextSnapshot.t) : bool :=
  bool_decide (ContextSnapshot.tenant_id item = tenant_id) &&
  bool_decide (ContextSnapshot.run_id item = run_id).

Definition add_context_snapshot (snapshot : ContextSnapshot.t) : MW unit :=
  d ← query context_snapshots;
  throw_if (any (for_run (ContextSnapshot.tenant_id snapshot) (ContextSnapshot.run_id snapshot))
              (values d))
    ConcurrencyConflict "run context snapshot already exists" ;;
  update (fun d => d <| context_snapshots :=
    <[ContextSnapshot.snapshot_id snapshot := snapshot]> (context_snapshots d) |>).

Definition get_context_snapshot (tenant_id run_id : uuid) : MW ContextSnapshot.t :=
  d ← query context_snapshots;
  match List.find (for_run tenant_id run_id) (values d) with
  | Some item => mret item
  | None => throw RecordNotFound ("context for run " +:+ uuid_str run_id +:+ " was not found")
  end.

Definition get_memory (tenant_id memory_id : uuid) : MW MemoryRecord.t :=
  fetch memories MemoryRecord.tenant_id (not_found "memory" memory_id) tenant_id memory_id.

Definition add_memory (item : MemoryRecord.t) : MW unit :=
  throw_if (negb (bool_decide (MemoryRecord.status item = MemoryStatus.STABLE))) PermissionError
    "memory must pass the Write Gate before persistence" ;;
  update (fun d => d <| memories := <[MemoryRecord.memory_id item := item]> (memories d) |>).

(** ** Plans, tasks, actions *)

Definition add_plan (plan : Plan.t) : MW unit :=
  update (fun d => d <| plans := <[Plan.plan_id plan := plan]> (plans d) |>
    <| tasks := foldl (fun acc task => <[Task.task_id task := task]> acc) (tasks d)
                  (Plan.tasks plan) |>).

Definition get_plan (tenant_id plan_id : uuid) : MW Plan.t :=
  plan ← fetch plans Plan.tenant_id (not_found "plan" plan_id) tenant_id plan_id;
  d ← query tasks;
  current ← lift (mapM_res (fun task => match d !! Task.task_id task with
                                        | Some x => Ok x
                                        | None => raise KeyError (uuid_str (Task.task_id task))
                                        end) (Plan.tasks plan));
  lift (Plan.new (Plan.mk (Plan.tenant_id plan) (Plan.goal_id plan) (Plan.run_id plan) current
                    (Plan.version plan) (Plan.plan_id plan))).

Definition get_task (tenant_id task_id : uuid) : MW Task.t :=
  fetch tasks Task.tenant_id (not_found "task" task_id) tenant_id task_id.

Definition list_tasks (tenant_id run_id : uuid) : MW (list Task.t) :=
  list_where (fun d => values (tasks d))
    (fun task => bool_decide (Task.tenant_id task = tenant_id) &&
                 bool_decide (Task.run_id task = run_id)).

Definition save_task (task : Task.t) (expected_version : Z) : MW unit :=
  current ← get_task (Task.tenant_id task) (Task.task_id task);
  throw_if (negb (bool_decide (Task.optimistic_version current = expected_version)))
    ConcurrencyConflict "task optimistic version changed" ;;
  update (fun d => d <| tasks := <[Task.task_id task := task]> (tasks d) |>).

Definition add_action (action : Action.t) : MW unit :=
  d ← query actions;
  throw_if (any (fun item =>
      bool_decide (Action.tenant_id item = Action.tenant_id action) &&
      bool_decide (Action.idempotency_key item = Action.idempotency_key action)) (values d))
    ConcurrencyConflict "action idempotency key already exists" ;;
  update (fun d => d <| actions := <[Action.action_id action := action]> (actions d) |>).

Definition get_action (tenant_id action_id : uuid) : MW Action.t :=
  fetch actions Action.tenant_id (not_found "action" action_id) tenant_id action_id.

Definition save_action (action : Action.t) (expected_version : Z) : MW unit :=
  current ← get_action (Action.tenant_id action) (Action.action_id action);
  throw_if (negb (bool_decide (Action.optimistic_version current = expected_version)))
    ConcurrencyConflict "action optimistic version changed" ;;
  update (fun d => d <| actions := <[Action.action_id action := action]> (actions d) |>).

Definition list_actions (tenant_id run_id : uuid) : MW (list Action.t) :=
  list_where (fun d => values (actions d))
    (fun action => bool_decide (Action.tenant_id action = tenant_id) &&
                   bool_decide (Action.run_id action = run_id)).

Definition add_action_attempt (attempt : ActionAttempt.t) : MW unit :=
  d ← query action_attempts;
  throw_if (any (fun item =>
      bool_decide (ActionAttempt.tenant_id item = ActionAttempt.tenant_id attempt) &&
      ((bool_decide (ActionAttempt.invocation_id item = ActionAttempt.invocation_id attempt) &&
        bool_decide (ActionAttempt.status item = ActionAttempt.status attempt)) ||
       bool_decide (ActionAttempt.idempotency_key item = ActionAttempt.idempotency_key attempt)))
      (values d))
    ConcurrencyConflict "action attempt already recorded" ;;
  update (fun d => d <| action_attempts :=
    <[ActionAttempt.attempt_id attempt := attempt]> (action_attempts d) |>).

Definition list_action_attempts (tenant_id action_id : uuid) : MW (list ActionAttempt.t) :=
  list_where (fun d => values (action_attempts d))
    (fun item => bool_decide (ActionAttempt.tenant_id item = tenant_id) &&
                 bool_decide (ActionAttempt.action_id item = action_id)).

(** ** Configuration assets *)

Definition config_asset (tenant_id : uuid) (asset_id : string) (definition : list (string * json))
    : ConfigAsset.t := {|
  ConfigAsset.asset_id := asset_id;
  ConfigAsset.tenant_id := uuid_str tenant_id;
  ConfigAsset.version := py_str (default (JStr "1") (alist_get "version" definition));
  ConfigAsset.definition := definition |}.

Definition config_key (tenant_id : uuid) (asset_id : string) : string :=
  uuid_str tenant_id +:+ ":" +:+ asset_id.

(** [_add_config] and [_list_config], for the collection [sel] of the store. *)
Definition add_config (write : (dict string ConfigAsset.t → dict string ConfigAsset.t) →
                               store → store)
    (tenant_id : uuid) (asset_id : string) (definition : list (string * json))
    : MW ConfigAsset.t :=
  let value := config_asset tenant_id asset_id definition in
  update (write (insert (config_key tenant_id asset_id) value)) ;;
  mret value.

Definition list_config (collection : store → dict string ConfigAsset.t) (tenant_id : uuid)
    : MW (list ConfigAsset.t) :=
  list_where (fun d => values (collection d))
    (fun item => bool_decide (ConfigAsset.tenant_id item = uuid_str tenant_id)).

Definition add_skill := add_config (fun f d => d <| skills := f (skills d) |>).
Definition list_skills := list_config skills.
Definition add_tool := add_config (fun f d => d <| tools := f (tools d) |>).
Definition list_tools := list_config tools.
Definition add_policy := add_config (fun f d => d <| policies := f (policies d) |>).
Definition list_policies := list_config policies.
Definition add_budget := add_config (fun f d => d <| budgets := f (budgets d) |>).
Definition list_budgets := list_config budgets.

(** ** Approvals *)

Definition list_approvals (tenant_id : uuid) : MW (list ApprovalRequest.t) :=
  list_where (fun d => values (approvals d))
    (fun item => bool_decide (ApprovalRequest.tenant_id item = tenant_id)).

Definition get_approval (tenant_id approval_id : uuid) : MW ApprovalRequest.t :=
  d ← query approvals;
  match d !! approval_id with
  | Some item =>
      throw_if (negb (bool_decide (ApprovalRequest.tenant_id item = tenant_id))) RecordNotFound
        "approval was not found" ;;
      mret item
  | None => throw RecordNotFound "approval was not found"
  end.

Definition add_approval (approval : ApprovalRequest.t) : MW unit :=
  update (fun d => d <| approvals :=
    <[ApprovalRequest.approval_id approval := approval]> (approvals d) |>).

Definition save_approval (approval : ApprovalRequest.t) (expected_version : Z) : MW unit :=
  current ← get_approval (ApprovalRequest.tenant_id approval) (ApprovalRequest.approval_id approval);
  throw_if (negb (bool_decide (ApprovalRequest.optimistic_version current = expected_version)))
    ConcurrencyConflict "approval optimistic version changed" ;;
  update (fun d => d <| approvals :=
    <[ApprovalRequest.approval_id approval := approval]> (approvals d) |>).

(** ** Evidence and outcomes *)

Definition add_evidence (item : Evidence.t) : MW unit :=
  action ← get_action (Evidence.tenant_id item) (Evidence.action_id item);
  throw_if (negb (bool_decide (Action.run_id action = Evidence.run_id item))) ValueError
    "evidence must bind the authoritative Action and Run" ;;
  update (fun d => d <| evidence := <[Evidence.evidence_id item := item]> (evidence d) |>).

Definition get_evidence (tenant_id evidence_id : uuid) : MW Evidence.t :=
  fetch evidence Evidence.tenant_id (not_found "evidence" evidence_id) tenant_id evidence_id.

Definition list_evidence (tenant_id : uuid) : MW (list Evidence.t) :=
  list_where (fun d => values (evidence d))
    (fun item => bool_decide (Evidence.tenant_id item = tenant_id)).

Definition start_evidence_capture (saga : EvidenceCaptureSaga.t) : MW unit :=
  d ← query evidence_capture_sagas;
  match d !! EvidenceCaptureSaga.evidence_id saga with
  | Some existing =>
      throw_if (negb (bool_decide (existing = saga))) ConcurrencyConflict
        "Evidence capture id was reused with different immutable content"
  | None =>
      update (fun d => d <| evidence_capture_sagas :=
        <[EvidenceCaptureSaga.evidence_id saga := saga]> (evidence_capture_sagas d) |>)
  end.

Definition get_evidence_capture (tenant_id evidence_id : uuid) : MW EvidenceCaptureSaga.t :=
  fetch evidence_capture_sagas EvidenceCaptureSaga.tenant_id "Evidence capture Saga was not found"
    tenant_id evidence_id.

Definition complete_evidence_capture (tenant_id evidence_id : uuid) : MW unit :=
  item ← get_evidence_capture tenant_id evidence_id;
  throw_if (negb (mem (EvidenceCaptureSaga.status item)
                    [EvidenceCaptureStatus.PENDING; EvidenceCaptureStatus.COMMITTED]))
    ConcurrencyConflict "Evidence capture Saga is not pending" ;;
  update (fun d => d <| evidence_capture_sagas :=
    <[evidence_id := item <| EvidenceCaptureSaga.status := EvidenceCaptureStatus.COMMITTED |>]>
      (evidence_capture_sagas d) |>).

Definition record_evidence_deletion (record : EvidenceDeletionRecord.t) : MW unit :=
  update (fun d => d <| evidence_deletions :=
    <[EvidenceDeletionRecord.evidence_id record := record]> (evidence_deletions d) |>).

Definition get_evidence_deletion (tenant_id evidence_id : uuid) : MW EvidenceDeletionRecord.t :=
  fetch evidence_deletions EvidenceDeletionRecord.tenant_id
    "Evidence deletion record was not found" tenant_id evidence_id.

Definition add_outcome (item : Outcome.t) : MW unit :=
  for_each_m (fun submitted =>
    persisted ← get_evidence (Outcome.tenant_id item) (Evidence.evidence_id submitted);
    throw_if (negb (bool_decide (persisted = submitted))) ValueError
      "outcome evidence must exactly match the authoritative persisted record")
    (Outcome.evidence item) ;;
  update (fun d => d <| outcomes := <[Outcome.outcome_id item := item]> (outcomes d) |>).

Definition get_outcome (tenant_id outcome_id : uuid) : MW Outcome.t :=
  fetch outcomes Outcome.tenant_id (not_found "outcome" outcome_id) tenant_id outcome_id.

Definition list_outcomes (tenant_id run_id : uuid) : MW (list Outcome.t) :=
  list_where (fun d => values (outcomes d))
    (fun item => bool_decide (Outcome.tenant_id item = tenant_id) &&
                 bool_decide (Outcome.run_id item = run_id)).

(** ** Budgets *)

Definition record_budget_entry (tenant_id run_id : uuid) (category : string)
    (amount : BudgetAmount.t) (reference : string) : MW uuid :=
  entry_id ← uuid4;
  created_at ← now;
  update (fun d => d <| budget_entries := budget_entries d ++
    [BudgetEntry.mk entry_id tenant_id run_id category (BudgetAmount.amount amount)
       (BudgetUnit.value (BudgetAmount.unit amount)) reference created_at] |>) ;;
  mret entry_id.

Definition list_budget_entries (tenant_id run_id : uuid)
    : MW (list (string * Z * string * string * datetime)) :=
  l ← list_where budget_entries (fun item => bool_decide (BudgetEntry.tenant_id item = tenant_id) &&
                                             bool_decide (BudgetEntry.run_id item = run_id));
  mret ((fun item => (BudgetEntry.category item, BudgetEntry.amount item, BudgetEntry.unit_ item,
                      BudgetEntry.reference item, BudgetEntry.created_at item)) <$> l).

(** ** Evaluation *)

Definition add_trial (trial : Trial.t) : MW unit :=
  update (fun d => d <| trials := <[Trial.trial_id trial := trial]> (trials d) |>).

Definition add_suite (tenant_id : uuid) (suite : EvaluationSuite.t) : MW unit :=
  update (fun d => d <| suites :=
    <[(tenant_id, EvaluationSuite.suite_id suite, EvaluationSuite.version suite) := suite]>
      (suites d) |>).

Definition get_suite (tenant_id : uuid) (suite_id version : string) : MW EvaluationSuite.t :=
  d ← query suites;
  match d !! (tenant_id, suite_id, version) with
  | Some suite => mret suite
  | None => throw RecordNotFound ("evaluation suite not found: " +:+ suite_id +:+ "@" +:+ version)
  end.

Definition list_suites (tenant_id : uuid) : MW (list EvaluationSuite.t) :=
  d ← query suites;
  mret (snd <$> List.filter
    (fun kv : uuid * string * string * EvaluationSuite.t => bool_decide (kv.1.1.1 = tenant_id))
    (items d)).

Definition list_trials (tenant_id : uuid) : MW (list Trial.t) :=
  list_where (fun d => values (trials d))
    (fun item => bool_decide (Trial.tenant_id item = tenant_id)).

Definition list_trials_for_candidate (tenant_id candidate_id : uuid) : MW (list Trial.t) :=
  list_where (fun d => values (trials d))
    (fun item => bool_decide (Trial.tenant_id item = tenant_id) &&
                 bool_decide (Trial.candidate_id item = Some candidate_id)).

Definition add_evaluation_record (record : CandidateEvaluation.t) : MW unit :=
  update (fun d => d <| candidate_evaluations :=
    <[CandidateEvaluation.evaluation_id record := record]> (candidate_evaluations d) |>).

Definition list_evaluation_records (tenant_id candidate_id : uuid)
    : MW (list CandidateEvaluation.t) :=
  list_where (fun d => values (candidate_evaluations d))
    (fun record => bool_decide (CandidateEvaluation.tenant_id record = tenant_id) &&
                   bool_decide (CandidateEvaluation.candidate_id record = candidate_id)).

(** ** Improvement *)

Definition get_observation (tenant_id deployment_id : uuid) (stage : DeploymentStatus.t)
    (metric : string) : MW (option DeploymentObservation.t) :=
  query (fun d => observations d !!
    (tenant_id, deployment_id, DeploymentStatus.value stage, metric)).

Definition save_observation (observation : DeploymentObservation.t) : MW unit :=
  update (fun d => d <| observations :=
    <[(DeploymentObservation.tenant_id observation,
       DeploymentObservation.deployment_id observation,
       DeploymentStatus.value (DeploymentObservation.stage observation),
       DeploymentObservation.metric observation) := observation]> (observations d) |>).

Definition add_shadow_comparison (comparison : ShadowComparison.t) : MW unit :=
  update (fun d => d <| shadow_comparisons :=
    <[ShadowComparison.comparison_id comparison := comparison]> (shadow_comparisons d) |>).

Definition list_shadow_comparisons (tenant_id deployment_id : uuid)
    : MW (list ShadowComparison.t) :=
  list_where (fun d => values (shadow_comparisons d))
    (fun item => bool_decide (ShadowComparison.tenant_id item = tenant_id) &&
                 bool_decide (ShadowComparison.deployment_id item = deployment_id)).

Definition add_proposal (proposal : ImprovementProposal.t) : MW unit :=
  update (fun d => d <| proposals :=
    <[ImprovementProposal.proposal_id proposal := proposal]> (proposals d) |>).

Definition get_proposal (tenant_id proposal_id : uuid) : MW ImprovementProposal.t :=
  fetch proposals ImprovementProposal.tenant_id "proposal was not found" tenant_id proposal_id.

Definition list_proposals (tenant_id : uuid) : MW (list ImprovementProposal.t) :=
  list_where (fun d => values (proposals d))
    (fun item => bool_decide (ImprovementProposal.tenant_id item = tenant_id)).

Definition list_releases (tenant_id : uuid) : MW (list Release.t) :=
  list_where (fun d => values (releases d))
    (fun item => bool_decide (Release.tenant_id item = tenant_id)).

Definition add_candidate (candidate : CandidateVersion.t) : MW unit :=
  update (fun d => d <| candidates :=
    <[CandidateVersion.candidate_id candidate := candidate]> (candidates d) |>).

Definition get_candidate (tenant_id candidate_id : uuid) : MW CandidateVersion.t :=
  fetch candidates CandidateVersion.tenant_id (not_found "candidate" candidate_id)
    tenant_id candidate_id.

Definition save_candidate := add_candidate.

Definition add_deployment (deployment : Deployment.t) : MW unit :=
  update (fun d => d <| deployments :=
    <[Deployment.deployment_id deployment := deployment]> (deployments d) |>).

Definition list_deployments (tenant_id : uuid) (status : option DeploymentStatus.t)
    : MW (list Deployment.t) :=
  d ← query deployments;
  mret (List.filter (fun item => bool_decide (Deployment.tenant_id item = tenant_id) &&
          match status with
          | Some s => bool_decide (Deployment.status item = s)
          | None => true
          end)
    (snd <$> sort_by (fun a b => (a.1 <? b.1)%N) (items d))).

Definition get_deployment (tenant_id deployment_id : uuid) : MW Deployment.t :=
  fetch deployments Deployment.tenant_id (not_found "deployment" deployment_id)
    tenant_id deployment_id.

Definition save_deployment := add_deployment.

Definition add_release (release : Release.t) : MW unit :=
  update (fun d => d <| releases := <[Release.release_id release := release]> (releases d) |>).

Definition get_active_release (tenant_id release_id : uuid) : MW Release.t :=
  fetch releases Release.tenant_id (not_found "release" release_id) tenant_id release_id.

(** ** Idempotency *)

Definition get_idempotency (tenant_id : uuid) (key : string) (request_digest : option string)
    : MW (option uuid) :=
  d ← query id;
  throw_if (match request_digest, idempotency_digests d !! (tenant_id, key) with
            | Some digest, Some accepted => negb (bool_decide (accepted = digest))
            | _, _ => false
            end) ConcurrencyConflict "idempotency key was reused with a different request" ;;
  mret (idempotency d !! (tenant_id, key)).

Definition put_idempotency (tenant_id : uuid) (key : string) (external_id : uuid)
    (request_digest : option string) : MW unit :=
  d ← query id;
  throw_if (match idempotency d !! (tenant_id, key) with
            | Some current =>
                negb (bool_decide (current = external_id)) ||
                match request_digest with
                | Some _ => negb (bool_decide (idempotency_digests d !! (tenant_id, key) =
                                               request_digest))
                | None => false
                end
            | None => false
            end) ConcurrencyConflict "idempotency key is already bound to a different result" ;;
  update (fun d => d <| idempotency := <[(tenant_id, key) := external_id]> (idempotency d) |>
    <| idempotency_digests :=
         <[(tenant_id, key) := match request_digest with
                               | Some s => if PyStr.empty s then genesis else s
                               | None => genesis
                               end]> (idempotency_digests d) |>).
End store_operations.
