(* ===== verification/Application.v ===== *)
(** * packages/application: execution.py and platform.py, commands and plumbing

    The command records of [GoalExecutionApplication], the ports it is
    constructed with, and the private helpers every use case goes through:
    roles, idempotency, audit events and cached reads.  The use cases
    themselves are in [RunCommands], [ActionCommands] and [EvidenceCommands].

    A port is a computation over the same [world] as the use case, so what a
    port does to the store while a use case waits for it (another command
    running, in the case of the gateway) is part of the model. *)

From S2P Require Import Prelude PyStr PyDict PyFloat Json Sha256 Effects Programs Transitions.
From S2P Require Import Values Goals Execution ExecutionObjects Identity ContextDomain Context.
From S2P Require Import Gateway AuditChain Capability Verification Regex Store.
From Stdlib Require Import ZArith.

Open Scope string_scope.
Open Scope list_scope.
Open Scope Z_scope.

Module CommandContext.
Record t := mk {
  identity : IdentityContext.t;
  correlation_id : uuid;
  causation_id : uuid;
  idempotency_key : string;
  request_digest : string
}.

Definition post_init (c : t) : res unit :=
  raise_if (blank (idempotency_key c) || (300 <? len (idempotency_key c))) ValueError
    "command idempotency key must be non-empty and bounded" ;;
  raise_if (not_sha256_hex (request_digest c)) ValueError
    "command request digest must be lowercase SHA-256".

Definition new (c : t) : res t := post_init c ;; Ok c.

Definition tenant (c : t) : uuid := IdentityContext.tenant_id (identity c).
Definition actor (c : t) : uuid := IdentityContext.actor_id (identity c).
End CommandContext.

(** ** Commands *)

Module CreateGoal.
Record t := mk {
  goal_type : string;
  statement : string;
  desired_outcome : string;
  subject_refs : list SubjectRef.t;
  success_criteria : list SuccessCriterion.t;
  constraints : list string;
  owner_id : uuid;
  risk_tier : RiskTier.t;
  budget_limit : option Z;
  deadline : datetime;
  input_payload : list (string * json);
  correlation_id : uuid;
  budget_unit : BudgetUnit.t;
  delegation_id : option uuid;
  maximum_classification : DataClassification.t;
  allowed_regions : list string;
  retention_days : Z;
  execution_mode : ExecutionMode.t;
  max_concurrent_runs : Z
}.
End CreateGoal.

Module ActivateGoal.
Record t := mk { goal_id : uuid; reason : string }.
End ActivateGoal.

Module RequestRun.
Record t := mk { goal_id : uuid }.
End RequestRun.

Module PrepareRunContext.
Record t := mk {
  run_id : uuid;
  environment_facts : list EnvironmentFact.t;
  knowledge_refs : list KnowledgeRef.t;
  memory_ids : list uuid;
  history_digest : string;
  tool_versions : list string;
  conflicts : list string;
  purpose : string;
  policy_version : string;
  maximum_classification : DataClassification.t;
  allowed_subjects : list string
}.
End PrepareRunContext.

Module TaskDefinition.
Record t := mk {
  name : string;
  completion_criterion : string;
  depends_on : list uuid;
  preconditions : list string;
  estimated_cost : BudgetAmount.t;
  risk_level : RiskLevel.t;
  compensation : CompensationCapability.t;
  evidence_requirements : list string;
  task_id : option uuid
}.
End TaskDefinition.

Module CreateValidatedPlan.
Record t := mk {
  run_id : uuid;
  tasks : list TaskDefinition.t;
  skill_versions : list string;
  tool_versions : list string;
  model_route : string;
  policy_version : string
}.
End CreateValidatedPlan.

Module StartTask.
Record t := mk { task_id : uuid }.
End StartTask.

Module CompleteTask.
Record t := mk { task_id : uuid; succeeded : bool; reason : string }.
End CompleteTask.

Module ProposeAction.
Record t := mk {
  task_id : uuid;
  tool_name : string;
  tool_version : string;
  operation : string;
  resource_scope : string;
  parameters : list (string * json);
  risk_level : RiskLevel.t;
  expected_effect : string;
  classification : DataClassification.t;
  execution_mode : ExecutionMode.t
}.
End ProposeAction.

Module RequestApproval.
Record t := mk {
  action_id : uuid;
  policy_version : string;
  impact_summary : string;
  required_role : string;
  expires_at : datetime
}.
End RequestApproval.

Module DecideApproval.
Record t := mk { approval_id : uuid; action_digest : string; approved : bool; reason : string }.
End DecideApproval.

Module AuthorizeActionAtExecutionTime.
Record t := mk {
  action_id : uuid;
  policy_version : string;
  policy_allowed : bool;
  policy_reason : string;
  approval_id : option uuid;
  agent_identity : string;
  delegation_ref : string;
  budget_ref : string;
  deadline : datetime;
  traceparent : string
}.
End AuthorizeActionAtExecutionTime.

Module ExecuteGovernedAction.
Record t := mk {
  action_id : uuid;
  approval_id : option uuid;
  policy_version : string;
  delegation_id : option string;
  cost_units : Z
}.
End ExecuteGovernedAction.

Module GovernedActionExecution.
Record t := mk { result : GatewayResult.t; attempt : ActionAttempt.t; evidence : Evidence.t }.
End GovernedActionExecution.

Module RecordActionAttempt.
Record t := mk {
  action_id : uuid;
  invocation_id : uuid;
  status : ActionAttemptStatus.t;
  receipt_ref : string;
  executor_identity : string;
  failure_reason : option string
}.
End RecordActionAttempt.

Module RecordEvidence.
Record t := mk { evidence : Evidence.t }.
End RecordEvidence.

Module CaptureAuthoritativeEvidence.
Record t := mk {
  run_id : uuid;
  action_id : uuid;
  criterion_id : string;
  source : string;
  declared_classification : DataClassification.t;
  content_type : string
}.
End CaptureAuthoritativeEvidence.

Module RequestEvidenceDeletion.
Record t := mk { evidence_id : uuid; reason : string }.
End RequestEvidenceDeletion.

Module ReconcileUnknownAction.
Record t := mk {
  action_id : uuid;
  invocation_id : uuid;
  succeeded : bool;
  receipt_ref : string;
  executor_identity : string;
  failure_reason : option string
}.
End ReconcileUnknownAction.

Module VerifyOutcome.
Record t := mk { run_id : uuid; criterion_id : string; evidence_ids : list uuid }.
End VerifyOutcome.

Module CompleteRun.
Record t := mk { run_id : uuid }.
End CompleteRun.

Module SatisfyOrFailGoal.
Record t := mk { goal_id : uuid; satisfied : bool; reason : string }.
End SatisfyOrFailGoal.

Module CancelRun.
Record t := mk { run_id : uuid; reason : string }.
End CancelRun.

Module FailRun.
Record t := mk { run_id : uuid; reason : string }.
End FailRun.

Module TakeOverRun.
Record t := mk { run_id : uuid; reason : string }.
End TakeOverRun.

(** ** Audit events *)

(** The objects the application files audit events about. *)
Inductive audited :=
  | OfGoal (x : GoalContract.t)
  | OfRun (x : Run.t)
  | OfSnapshot (x : ContextSnapshot.t)
  | OfTask (x : Task.t)
  | OfAction (x : Action.t)
  | OfApproval (x : ApprovalRequest.t)
  | OfAttempt (x : ActionAttempt.t)
  | OfEvidence (x : Evidence.t)
  | OfOutcome (x : Outcome.t).

(** [item.__class__.__name__.replace("Contract", "").lower()] *)
Definition object_type (item : audited) : string :=
  match item with
  | OfGoal _ => "goal" | OfRun _ => "run" | OfSnapshot _ => "contextsnapshot"
  | OfTask _ => "task" | OfAction _ => "action" | OfApproval _ => "approvalrequest"
  | OfAttempt _ => "actionattempt" | OfEvidence _ => "evidence" | OfOutcome _ => "outcome"
  end.

(** The attributes the audit looks for, as the object has them, each rendered
    with [str]. *)
Definition attributes (item : audited) : list (string * string) :=
  match item with
  | OfGoal x => [("goal_id", uuid_str (GoalContract.goal_id x))]
  | OfRun x => [("goal_id", uuid_str (Run.goal_id x)); ("run_id", uuid_str (Run.run_id x))]
  | OfSnapshot x =>
      [("goal_id", uuid_str (ContextSnapshot.goal_id x));
       ("run_id", uuid_str (ContextSnapshot.run_id x));
       ("snapshot_id", uuid_str (ContextSnapshot.snapshot_id x));
       ("policy_version", ContextSnapshot.policy_version x)]
  | OfTask x => [("run_id", uuid_str (Task.run_id x)); ("task_id", uuid_str (Task.task_id x))]
  | OfAction x =>
      [("run_id", uuid_str (Action.run_id x)); ("task_id", uuid_str (Action.task_id x));
       ("action_id", uuid_str (Action.action_id x)); ("tool_name", Action.tool_name x);
       ("tool_version", Action.tool_version x)]
  | OfApproval x =>
      [("run_id", uuid_str (ApprovalRequest.run_id x));
       ("action_id", uuid_str (ApprovalRequest.action_id x));
       ("approval_id", uuid_str (ApprovalRequest.approval_id x));
       ("policy_version", ApprovalRequest.policy_version x);
       ("tool_version", ApprovalRequest.tool_version x)]
  | OfAttempt x =>
      [("run_id", uuid_str (ActionAttempt.run_id x));
       ("action_id", uuid_str (ActionAttempt.action_id x));
       ("attempt_id", uuid_str (ActionAttempt.attempt_id x))]
  | OfEvidence x =>
      [("run_id", uuid_str (Evidence.run_id x)); ("action_id", uuid_str (Evidence.action_id x));
       ("evidence_id", uuid_str (Evidence.evidence_id x));
       ("source_identity", Evidence.source_identity x)]
  | OfOutcome x =>
      [("goal_id", uuid_str (Outcome.goal_id x)); ("run_id", uuid_str (Outcome.run_id x));
       ("outcome_id", uuid_str (Outcome.outcome_id x));
       ("criterion_id", Outcome.criterion_id x);
       ("verifier_version", Outcome.verifier_version x)]
  end.

Definition ID_NAMES : list string :=
  ["goal_id"; "run_id"; "snapshot_id"; "plan_id"; "task_id"; "action_id"; "approval_id";
   "attempt_id"; "evidence_id"; "outcome_id"].

Definition DETAIL_NAMES : list string :=
  ["goal_id"; "run_id"; "task_id"; "action_id"; "approval_id"; "criterion_id"; "policy_version";
   "verifier_version"; "source_identity"; "tool_name"; "tool_version"].

(** [getattr(item, name)] for each of the names it has, in order. *)
Definition present (names : list string) (item : audited) : list (string * string) :=
  omap (fun name => (fun v => (name, v)) <$> alist_get name (attributes item)) names.

(** The first of the names the item has. *)
Definition object_id (item : audited) : string :=
  match present ID_NAMES item with (_, v) :: _ => v | [] => "" end.

Definition audit_details (context : CommandContext.t) (item : audited) : list (string * json) :=
  [("causation_id", JStr (uuid_str (CommandContext.causation_id context)));
   ("idempotency_key", JStr (CommandContext.idempotency_key context))] ++
  ((fun nv => (nv.1, JStr nv.2)) <$> present DETAIL_NAMES item) ++
  match item with
  | OfOutcome x =>
      [("evidence_ids", JList ((fun u => JStr (uuid_str u)) <$> Outcome.evidence_ids x));
       ("outcome_status", JStr (OutcomeStatus.value (Outcome.status x)))]
  | _ => []
  end.

(** ** Ports *)

(** The gateway: its [allow_l4] setting and its own ports. *)
Record gateway (X : Type) := GatewayPorts {
  allow_l4 : bool;
  gateway_port : ∀ B, GatewayE B → M (world X) B
}.
Arguments allow_l4 {X} _.
Arguments gateway_port {X} _ _ _.

(** What [GoalExecutionApplication.__init__] receives besides the repository. *)
Record ports (X : Type) := Ports {
  catalog_goal_type : uuid → string → M (world X) GoalTypeManifest.t;
  catalog_agent : uuid → string → M (world X) AgentVersion.t;
  schema_error : list (string * json) → list (string * json) → option string;
  governed_gateway : option (gateway X);
  legacy_authorization_enabled : bool;
  evidence_artifacts : option (artifact_store (world X));
  readback_port : option (authoritative_readback (world X));
  evidence_policy : EvidenceAdmissionPolicy.t;
  unicode_table : unicode;
  shadow_write_guard : option (uuid → uuid → M (world X) unit);
  run_deployment_router : option (uuid → uuid → M (world X) (option uuid))
}.
Arguments catalog_goal_type {X} _.
Arguments catalog_agent {X} _.
Arguments schema_error {X} _.
Arguments governed_gateway {X} _.
Arguments legacy_authorization_enabled {X} _.
Arguments evidence_artifacts {X} _.
Arguments readback_port {X} _.
Arguments evidence_policy {X} _.
Arguments unicode_table {X} _.
Arguments shadow_write_guard {X} _.
Arguments run_deployment_router {X} _.

Definition OPERATORS : list string := ["platform_admin"; "tenant_admin"; "operator"; "worker"].

Section helpers.
Context {X : Type}.
Notation MW := (M (world X)).

(** [_require_any] *)
Definition require_any (context : CommandContext.t) (allowed : list string) : MW unit :=
  throw_if (negb (any (fun r => mem r allowed)
                    (IdentityContext.roles (CommandContext.identity context))))
    PermissionError "the current principal does not have the required role".

(** [_key] *)
Definition key_of (operation : string) (context : CommandContext.t) : string :=
  operation +:+ ":" +:+ CommandContext.idempotency_key context.

(** [_remember] and [_load_idempotency] *)
Definition remember (context : CommandContext.t) (key : string) (value : uuid) : MW unit :=
  put_idempotency (CommandContext.tenant context) key value
    (Some (CommandContext.request_digest context)).

Definition load_idempotency (context : CommandContext.t) (key : string) : MW (option uuid) :=
  get_idempotency (CommandContext.tenant context) key
    (Some (CommandContext.request_digest context)).

(** [_audit] *)
Definition audit (context : CommandContext.t) (event_type : string) (item : audited)
    : MW AuditEvent.t :=
  event_id ← uuid4;
  mret {|
    AuditEvent.tenant_id := CommandContext.tenant context;
    AuditEvent.actor_id := CommandContext.actor context;
    AuditEvent.principal_id := IdentityContext.principal_id (CommandContext.identity context);
    AuditEvent.event_type := event_type;
    AuditEvent.object_type := object_type item;
    AuditEvent.object_id := object_id item;
    AuditEvent.correlation_id := CommandContext.correlation_id context;
    AuditEvent.details := audit_details context item;
    AuditEvent.event_id := event_id;
    AuditEvent.sequence := None;
    AuditEvent.previous_digest := None;
    AuditEvent.event_digest := None;
    AuditEvent.created_at := None |}.

(** [await self._repository.record_audit(self._audit(...))] *)
Definition record (context : CommandContext.t) (event_type : string) (item : audited) : MW unit :=
  event ← audit context event_type item; record_audit event.

(** [_cached_goal], [_cached_run], [_cached_task] *)
Definition cached_goal (context : CommandContext.t) (key : string) (requested_id : uuid)
    : MW GoalContract.t :=
  cached ← load_idempotency context key;
  get_goal (CommandContext.tenant context) (default requested_id cached).

Definition cached_run (context : CommandContext.t) (key : string) (requested_id : uuid)
    : MW Run.t :=
  cached ← load_idempotency context key;
  get_run (CommandContext.tenant context) (default requested_id cached).

Definition cached_task (context : CommandContext.t) (key : string) (requested_id : uuid)
    : MW Task.t :=
  cached ← load_idempotency context key;
  get_task (CommandContext.tenant context) (default requested_id cached).

(** [_run_is_active] *)
Definition run_is_active (run : Run.t) : bool :=
  mem (Run.status run)
    [RunStatus.PENDING; RunStatus.RUNNING; RunStatus.BLOCKED; RunStatus.AWAITING_EVIDENCE].

(** [_action_target] *)
Definition action_target (status : ActionAttemptStatus.t) : option ActionStatus.t :=
  match status with
  | ActionAttemptStatus.STARTED => None
  | ActionAttemptStatus.SUCCEEDED => Some ActionStatus.SUCCEEDED
  | ActionAttemptStatus.FAILED => Some ActionStatus.FAILED
  | ActionAttemptStatus.UNKNOWN => Some ActionStatus.UNKNOWN
  end.

(** [_build_task] *)
Definition build_task (tenant_id run_id : uuid) (item : TaskDefinition.t) : MW Task.t :=
  task_id ← match TaskDefinition.task_id item with Some u => mret u | None => uuid4 end;
  lift (Task.new {|
    Task.tenant_id := tenant_id;
    Task.run_id := run_id;
    Task.name := TaskDefinition.name item;
    Task.completion_criterion := TaskDefinition.completion_criterion item;
    Task.depends_on := TaskDefinition.depends_on item;
    Task.preconditions := TaskDefinition.preconditions item;
    Task.estimated_cost := TaskDefinition.estimated_cost item;
    Task.risk_level := TaskDefinition.risk_level item;
    Task.compensation := TaskDefinition.compensation item;
    Task.evidence_requirements := TaskDefinition.evidence_requirements item;
    Task.task_id := task_id;
    Task.status := TaskStatus.PENDING;
    Task.optimistic_version := 1;
    Task.transitions := [] |}).

(** [item.transition_to(target, actor_id=context.identity.actor_id, reason=reason)] *)
Definition move_goal (context : CommandContext.t) (goal : GoalContract.t)
    (target : GoalStatus.t) (reason : string) : MW GoalContract.t :=
  t ← now;
  lift (GoalContract.transition_to goal target (CommandContext.actor context) reason None t).

Definition move_run (context : CommandContext.t) (run : Run.t) (target : RunStatus.t)
    (reason : string) : MW Run.t :=
  t ← now; lift (Run.transition_to run target (CommandContext.actor context) reason None t).

Definition move_task (context : CommandContext.t) (task : Task.t) (target : TaskStatus.t)
    (reason : string) : MW Task.t :=
  t ← now; lift (Task.transition_to task target (CommandContext.actor context) reason None t).

Definition move_action (context : CommandContext.t) (action : Action.t) (target : ActionStatus.t)
    (reason : string) : MW Action.t :=
  t ← now; lift (Action.transition_to action target (CommandContext.actor context) reason None t).
End helpers.

(** [a or b] on an optional string. *)
Definition or_str (a : option string) (b : string) : string :=
  match a with Some s => if empty s then b else s | None => b end.
