(* ===== verification/RunCommands.v ===== *)
(** * packages/application: execution.py, goals, runs and tasks

    The use cases that create and advance goals, runs, plans and tasks.  Each
    is one transaction, in the order of the source: roles, idempotency, reads,
    checks, transitions, writes, audit, remembered result. *)

From S2P Require Import Prelude PyStr PyDict PyFloat Json Sha256 Effects Transitions Values Goals.
From S2P Require Import Execution ExecutionObjects Identity ContextDomain Context AuditChain.
From S2P Require Import Capability Store Application.
From Stdlib Require Import ZArith.

Open Scope string_scope.
Open Scope list_scope.
Open Scope Z_scope.

Section run_commands.
Context {X : Type} (p : ports X).
Notation MW := (M (world X)).
Implicit Types (context : CommandContext.t).

Definition create_goal context (command : CreateGoal.t) : MW GoalContract.t :=
  require_any context OPERATORS ;;
  let key := key_of "create_goal" context in
  let tenant_id := CommandContext.tenant context in
  transaction (
    cached ← load_idempotency context key;
    match cached with
    | Some cached => get_goal tenant_id cached
    | None =>
        goal_type ← catalog_goal_type p tenant_id (CreateGoal.goal_type command);
        lift (validate_payload (schema_error p) goal_type (CreateGoal.input_payload command)) ;;
        budget_limit ← lift (BudgetAmount.new
          (match CreateGoal.budget_limit command with
           | Some n => if n =? 0 then GoalTypeManifest.default_budget goal_type else n
           | None => GoalTypeManifest.default_budget goal_type
           end) (CreateGoal.budget_unit command));
        input_payload ← lift (JsonObject.from_value (CreateGoal.input_payload command));
        data_policy ← lift (DataPolicy.new (CreateGoal.maximum_classification command)
          (CreateGoal.allowed_regions command) (CreateGoal.retention_days command));
        goal_id ← uuid4;
        created_at ← now;
        goal ← lift (GoalContract.new {|
          GoalContract.tenant_id := tenant_id;
          GoalContract.goal_type := CreateGoal.goal_type command;
          GoalContract.statement := CreateGoal.statement command;
          GoalContract.desired_outcome := CreateGoal.desired_outcome command;
          GoalContract.subject_refs := CreateGoal.subject_refs command;
          GoalContract.success_criteria := CreateGoal.success_criteria command;
          GoalContract.constraints := CreateGoal.constraints command;
          GoalContract.owner_id := CreateGoal.owner_id command;
          GoalContract.risk_tier := CreateGoal.risk_tier command;
          GoalContract.budget_limit := budget_limit;
          GoalContract.deadline := CreateGoal.deadline command;
          GoalContract.input_payload := input_payload;
          GoalContract.delegation_id := CreateGoal.delegation_id command;
          GoalContract.data_policy := data_policy;
          GoalContract.execution_mode := CreateGoal.execution_mode command;
          GoalContract.max_concurrent_runs := CreateGoal.max_concurrent_runs command;
          GoalContract.goal_id := goal_id;
          GoalContract.version := 1;
          GoalContract.status := GoalStatus.DRAFT;
          GoalContract.created_at := created_at;
          GoalContract.transitions := [] |});
        event ← audit context "goal.created" (OfGoal goal);
        add_goal goal event ;;
        remember context key (GoalContract.goal_id goal) ;;
        mret goal
    end).

Definition activate_goal context (command : ActivateGoal.t) : MW GoalContract.t :=
  require_any context OPERATORS ;;
  let key := key_of "activate_goal" context in
  transaction (
    goal ← cached_goal context key (ActivateGoal.goal_id command);
    if bool_decide (GoalContract.status goal = GoalStatus.ACTIVE) then
      remember context key (GoalContract.goal_id goal) ;;
      mret goal
    else
      active ← move_goal context goal GoalStatus.ACTIVE (ActivateGoal.reason command);
      event ← audit context "goal.activated" (OfGoal active);
      save_goal active (GoalContract.version goal) event ;;
      remember context key (GoalContract.goal_id active) ;;
      mret active).

Definition count {A} (f : A → bool) (l : list A) : Z := Z.of_nat (length (List.filter f l)).

Definition request_run context (command : RequestRun.t) : MW Run.t :=
  require_any context OPERATORS ;;
  let key := key_of "request_run" context in
  let tenant_id := CommandContext.tenant context in
  transaction (
    cached ← load_idempotency context key;
    match cached with
    | Some cached => get_run tenant_id cached
    | None =>
        goal ← get_goal tenant_id (RequestRun.goal_id command);
        runs ← list_runs tenant_id (Some (GoalContract.goal_id goal));
        t ← now;
        lift (GoalContract.assert_run_request_allowed goal (count run_is_active runs) None t) ;;
        goal_type ← catalog_goal_type p tenant_id (GoalContract.goal_type goal);
        agent ← catalog_agent p tenant_id (GoalTypeManifest.agent goal_type);
        run_id ← uuid4;
        deployment_id ← match run_deployment_router p with
                        | Some resolve => resolve tenant_id run_id
                        | None => mret None
                        end;
        created_at ← now;
        run ← lift (Run.new {|
          Run.tenant_id := tenant_id;
          Run.goal_id := GoalContract.goal_id goal;
          Run.agent_version_id := AgentVersion.agent_version_id agent;
          Run.execution_snapshot := None;
          Run.run_id := run_id;
          Run.status := RunStatus.PENDING;
          Run.optimistic_version := 1;
          Run.created_at := created_at;
          Run.transitions := [];
          Run.deployment_id := deployment_id |});
        event ← audit context "run.requested" (OfRun run);
        add_run run event ;;
        remember context key (Run.run_id run) ;;
        mret run
    end).

(** [tuple(sorted({*a, *b}))] *)
Definition merged (a b : list string) : list string := sorted_strings (remove_dups (a ++ b)).

Definition prepare_run_context context (command : PrepareRunContext.t) : MW ContextSnapshot.t :=
  require_any context OPERATORS ;;
  let key := key_of "prepare_run_context" context in
  let tenant_id := CommandContext.tenant context in
  transaction (
    cached ← load_idempotency context key;
    match cached with
    | Some _ => get_context_snapshot tenant_id (PrepareRunContext.run_id command)
    | None =>
        run ← get_run tenant_id (PrepareRunContext.run_id command);
        memories ← mapM_m (get_memory tenant_id) (PrepareRunContext.memory_ids command);
        assembled ← embed (assemble tenant_id
          (IdentityContext.roles (CommandContext.identity context))
          (PrepareRunContext.purpose command) (PrepareRunContext.maximum_classification command)
          (PrepareRunContext.allowed_subjects command) (Run.goal_id run) (Run.run_id run)
          (PrepareRunContext.environment_facts command) (PrepareRunContext.knowledge_refs command)
          memories (PrepareRunContext.history_digest command)
          (PrepareRunContext.tool_versions command) (PrepareRunContext.policy_version command));
        snapshot ←
          (if bool_decide (PrepareRunContext.conflicts command = []) then mret assembled
           else lift (ContextSnapshot.new (assembled <| ContextSnapshot.conflicts :=
                  merged (ContextSnapshot.conflicts assembled)
                         (PrepareRunContext.conflicts command) |>)));
        add_context_snapshot snapshot ;;
        record context "run.context_prepared" (OfSnapshot snapshot) ;;
        remember context key (ContextSnapshot.snapshot_id snapshot) ;;
        mret snapshot
    end).

Definition create_validated_plan context (command : CreateValidatedPlan.t) : MW Plan.t :=
  require_any context OPERATORS ;;
  let key := key_of "create_validated_plan" context in
  let tenant_id := CommandContext.tenant context in
  transaction (
    cached ← load_idempotency context key;
    match cached with
    | Some cached => get_plan tenant_id cached
    | None =>
        run ← get_run tenant_id (CreateValidatedPlan.run_id command);
        throw_if (negb (bool_decide (Run.status run = RunStatus.PENDING))) ValueError
          "a Plan can only be created for a pending Run" ;;
        snapshot ← get_context_snapshot tenant_id (Run.run_id run);
        tasks ← mapM_m (build_task tenant_id (Run.run_id run)) (CreateValidatedPlan.tasks command);
        plan_id ← uuid4;
        plan ← lift (Plan.new (Plan.mk tenant_id (Run.goal_id run) (Run.run_id run) tasks 1 plan_id));
        execution ← lift (RunExecutionSnapshot.new {|
          RunExecutionSnapshot.plan_id := Plan.plan_id plan;
          RunExecutionSnapshot.context_snapshot_id := ContextSnapshot.snapshot_id snapshot;
          RunExecutionSnapshot.agent_version_id := Run.agent_version_id run;
          RunExecutionSnapshot.skill_versions := CreateValidatedPlan.skill_versions command;
          RunExecutionSnapshot.tool_versions := CreateValidatedPlan.tool_versions command;
          RunExecutionSnapshot.model_route := CreateValidatedPlan.model_route command;
          RunExecutionSnapshot.policy_version := CreateValidatedPlan.policy_version command |});
        pending ← lift (Run.bind_execution run execution);
        bound ← move_run context pending RunStatus.RUNNING
                  "validated Plan and immutable execution snapshot bound";
        add_plan plan ;;
        event ← audit context "run.started" (OfRun bound);
        save_run bound (Run.optimistic_version run) (Some event) ;;
        remember context key (Plan.plan_id plan) ;;
        mret plan
    end).

Definition start_task context (command : StartTask.t) : MW Task.t :=
  require_any context OPERATORS ;;
  let key := key_of "start_task" context in
  transaction (
    task ← cached_task context key (StartTask.task_id command);
    if bool_decide (Task.status task = TaskStatus.RUNNING) then
      remember context key (Task.task_id task) ;;
      mret task
    else
      dependencies ← mapM_m (get_task (CommandContext.tenant context)) (Task.depends_on task);
      throw_if (any (fun item => negb (bool_decide (Task.status item = TaskStatus.SUCCEEDED)))
                  dependencies) ValueError
        "task dependencies must succeed before the task starts" ;;
      ready ← (if bool_decide (Task.status task = TaskStatus.PENDING)
               then move_task context task TaskStatus.READY "task dependencies satisfied"
               else mret task);
      started ← move_task context ready TaskStatus.RUNNING "task execution started";
      save_task started (Task.optimistic_version task) ;;
      record context "task.started" (OfTask started) ;;
      remember context key (Task.task_id started) ;;
      mret started).

Definition complete_task context (command : CompleteTask.t) : MW Task.t :=
  require_any context OPERATORS ;;
  throw_if (blank (CompleteTask.reason command)) ValueError "Task completion requires a reason" ;;
  let key := key_of "complete_task" context in
  transaction (
    task ← cached_task context key (CompleteTask.task_id command);
    let target := if CompleteTask.succeeded command then TaskStatus.SUCCEEDED
                  else TaskStatus.FAILED in
    if bool_decide (Task.status task = target) then
      remember context key (Task.task_id task) ;;
      mret task
    else
      throw_if (negb (bool_decide (Task.status task = TaskStatus.RUNNING))) ValueError
        "only a running Task can be completed" ;;
      completed ← move_task context task target (CompleteTask.reason command);
      save_task completed (Task.optimistic_version task) ;;
      record context ("task." +:+ TaskStatus.value target) (OfTask completed) ;;
      remember context key (Task.task_id completed) ;;
      mret completed).

(** ** Completion *)

Definition criteria (goal : GoalContract.t) : list string :=
  SuccessCriterion.criterion_id <$> GoalContract.success_criteria goal.

Definition is_verified (o : Outcome.t) : bool :=
  bool_decide (Outcome.status o = OutcomeStatus.VERIFIED).

Definition verified_criteria (outcomes : list Outcome.t) : list string :=
  Outcome.criterion_id <$> List.filter is_verified outcomes.

(** The target and the reason a run's outcomes call for. *)
Definition completion_target (goal : GoalContract.t) (outcomes : list Outcome.t)
    : RunStatus.t * string :=
  if subset_of (criteria goal) (verified_criteria outcomes) then
    (RunStatus.SUCCEEDED, "all required Outcomes verified")
  else if subset_of (criteria goal) (Outcome.criterion_id <$> outcomes) &&
          any (fun o => bool_decide (Outcome.status o = OutcomeStatus.NOT_MET)) outcomes then
    (RunStatus.FAILED, "one or more required Outcomes were not met")
  else (RunStatus.AWAITING_EVIDENCE, "required Outcomes remain unverified").

Definition complete_run context (command : CompleteRun.t) : MW Run.t :=
  require_any context OPERATORS ;;
  let key := key_of "complete_run" context in
  let tenant_id := CommandContext.tenant context in
  transaction (
    run ← cached_run context key (CompleteRun.run_id command);
    if mem (Run.status run) [RunStatus.SUCCEEDED; RunStatus.FAILED] then
      remember context key (Run.run_id run) ;;
      mret run
    else
      throw_if (negb (mem (Run.status run) [RunStatus.RUNNING; RunStatus.AWAITING_EVIDENCE]))
        ValueError "Run is not ready for completion evaluation" ;;
      goal ← get_goal tenant_id (Run.goal_id run);
      tasks ← list_tasks tenant_id (Run.run_id run);
      actions ← list_actions tenant_id (Run.run_id run);
      outcomes ← list_outcomes tenant_id (Run.run_id run);
      throw_if (any (fun task => negb (bool_decide (Task.status task = TaskStatus.SUCCEEDED))) tasks ||
                any (fun action => negb (bool_decide (Action.status action = ActionStatus.SUCCEEDED)))
                  actions) ValueError
        "Run tasks and Actions must succeed before completion" ;;
      let '(target, reason) := completion_target goal outcomes in
      if bool_decide (Run.status run = target) then
        remember context key (Run.run_id run) ;;
        mret run
      else
        updated ← move_run context run target reason;
        event ← audit context ("run." +:+ RunStatus.value target) (OfRun updated);
        save_run updated (Run.optimistic_version run) (Some event) ;;
        remember context key (Run.run_id updated) ;;
        mret updated).

(** The loop over the succeeded runs: some run has every criterion verified. *)
Fixpoint some_run_verified (tenant_id : uuid) (goal : GoalContract.t) (succeeded : list Run.t)
    : MW bool :=
  match succeeded with
  | [] => mret false
  | run :: succeeded' =>
      outcomes ← list_outcomes tenant_id (Run.run_id run);
      if subset_of (criteria goal) (verified_criteria outcomes) then mret true
      else some_run_verified tenant_id goal succeeded'
  end.

Definition satisfy_or_fail_goal context (command : SatisfyOrFailGoal.t) : MW GoalContract.t :=
  require_any context OPERATORS ;;
  throw_if (blank (SatisfyOrFailGoal.reason command)) ValueError
    "Goal terminal decision requires a reason" ;;
  let key := key_of "finish_goal" context in
  let tenant_id := CommandContext.tenant context in
  transaction (
    goal ← cached_goal context key (SatisfyOrFailGoal.goal_id command);
    if mem (GoalContract.status goal) [GoalStatus.SATISFIED; GoalStatus.FAILED] then
      remember context key (GoalContract.goal_id goal) ;;
      mret goal
    else
      runs ← list_runs tenant_id (Some (GoalContract.goal_id goal));
      target ←
        (if SatisfyOrFailGoal.satisfied command then
           let succeeded := List.filter
             (fun run => bool_decide (Run.status run = RunStatus.SUCCEEDED)) runs in
           throw_if (bool_decide (length succeeded = 0%nat)) ValueError
             "Goal satisfaction requires a succeeded Run" ;;
           enough ← some_run_verified tenant_id goal succeeded;
           throw_if (negb enough) ValueError "Goal satisfaction requires all required Outcomes" ;;
           mret GoalStatus.SATISFIED
         else
           throw_if (bool_decide (length runs = 0%nat) || any run_is_active runs) ValueError
             "Goal failure requires all Runs to be terminal" ;;
           mret GoalStatus.FAILED);
      updated ← move_goal context goal target (SatisfyOrFailGoal.reason command);
      event ← audit context ("goal." +:+ GoalStatus.value target) (OfGoal updated);
      save_goal updated (GoalContract.version goal) event ;;
      remember context key (GoalContract.goal_id updated) ;;
      mret updated).

(** [_transition_run] *)
Definition transition_run context (run_id : uuid) (target : RunStatus.t)
    (reason operation : string) : MW Run.t :=
  throw_if (blank reason) ValueError "Run transition requires a reason" ;;
  let key := key_of operation context in
  transaction (
    run ← cached_run context key run_id;
    if bool_decide (Run.status run = target) then
      remember context key (Run.run_id run) ;;
      mret run
    else
      updated ← move_run context run target reason;
      event ← audit context ("run." +:+ RunStatus.value target) (OfRun updated);
      save_run updated (Run.optimistic_version run) (Some event) ;;
      remember context key (Run.run_id updated) ;;
      mret updated).

Definition cancel_run context (command : CancelRun.t) : MW Run.t :=
  require_any context OPERATORS ;;
  transition_run context (CancelRun.run_id command) RunStatus.CANCELLED
    (CancelRun.reason command) "cancel_run".

Definition fail_run context (command : FailRun.t) : MW Run.t :=
  require_any context OPERATORS ;;
  transition_run context (FailRun.run_id command) RunStatus.FAILED
    (FailRun.reason command) "fail_run".

Definition take_over_run context (command : TakeOverRun.t) : MW Run.t :=
  require_any context ["platform_admin"; "tenant_admin"; "operator"] ;;
  transition_run context (TakeOverRun.run_id command) RunStatus.BLOCKED
    (TakeOverRun.reason command) "take_over_run".
End run_commands.
