(* ===== verification/ActionCommands.v ===== *)
(** * packages/application: execution.py, actions and approvals

    Proposing an action, asking for and deciding its approval, authorizing and
    executing it, recording attempts and reconciling unknown outcomes.
    [execute_governed_action] is the one use case that is not a single
    transaction: it reads, waits for the gateway, and writes what happened. *)

From S2P Require Import Prelude PyStr PyDict PyFloat Json Sha256 Effects Programs Transitions.
From S2P Require Import Values Goals Execution ExecutionObjects Gateway AuditChain.
From S2P Require Import Store Application.
From Stdlib Require Import ZArith.

Open Scope string_scope.
Open Scope list_scope.
Open Scope Z_scope.

(** [max(items, key=...)] over timestamps: the first of the latest. *)
Fixpoint latest {A} (at_ : A → datetime) (best : A) (l : list A) : res A :=
  match l with
  | [] => Ok best
  | x :: l' =>
      later ← dt_gt (at_ x) (at_ best);
      latest at_ (if (later : bool) then x else best) l'
  end.

Definition receipt_of_status (s : ActionStatus.t) : ToolResultStatus.t :=
  match s with
  | ActionStatus.SUCCEEDED => ToolResultStatus.SUCCEEDED
  | ActionStatus.FAILED => ToolResultStatus.FAILED
  | ActionStatus.DENIED => ToolResultStatus.REJECTED
  | _ => ToolResultStatus.UNKNOWN
  end.

Definition attempt_of_receipt (s : ToolResultStatus.t) : ActionAttemptStatus.t :=
  match s with
  | ToolResultStatus.SUCCEEDED => ActionAttemptStatus.SUCCEEDED
  | ToolResultStatus.ACCEPTED => ActionAttemptStatus.UNKNOWN
  | ToolResultStatus.UNKNOWN => ActionAttemptStatus.UNKNOWN
  | ToolResultStatus.FAILED => ActionAttemptStatus.FAILED
  | ToolResultStatus.REJECTED => ActionAttemptStatus.FAILED
  end.

Section action_commands.
Context {X : Type} (p : ports X).
Notation MW := (M (world X)).
Implicit Types (context : CommandContext.t).

Definition propose_action context (command : ProposeAction.t) : MW Action.t :=
  require_any context OPERATORS ;;
  let key := key_of "propose_action" context in
  let tenant_id := CommandContext.tenant context in
  transaction (
    cached ← load_idempotency context key;
    match cached with
    | Some cached => get_action tenant_id cached
    | None =>
        task ← get_task tenant_id (ProposeAction.task_id command);
        throw_if (negb (bool_decide (Task.status task = TaskStatus.RUNNING))) ValueError
          "Action proposal requires a running Task" ;;
        run ← get_run tenant_id (Task.run_id task);
        let tool_ref := ProposeAction.tool_name command +:+ "@" +:+
                        ProposeAction.tool_version command in
        throw_if (match Run.execution_snapshot run with
                  | None => true
                  | Some s => negb (mem tool_ref (RunExecutionSnapshot.tool_versions s))
                  end) PermissionError
          "Action tool version is not bound to the Run snapshot" ;;
        parameters ← lift (JsonObject.from_value (ProposeAction.parameters command));
        action_id ← uuid4;
        action ← lift (Action.new {|
          Action.tenant_id := tenant_id;
          Action.run_id := Task.run_id task;
          Action.task_id := Task.task_id task;
          Action.tool_name := ProposeAction.tool_name command;
          Action.tool_version := ProposeAction.tool_version command;
          Action.operation := ProposeAction.operation command;
          Action.resource_scope := ProposeAction.resource_scope command;
          Action.parameters := parameters;
          Action.risk_level := ProposeAction.risk_level command;
          Action.idempotency_key := CommandContext.idempotency_key context;
          Action.expected_effect := ProposeAction.expected_effect command;
          Action.classification := ProposeAction.classification command;
          Action.execution_mode := ProposeAction.execution_mode command;
          Action.action_id := action_id;
          Action.status := ActionStatus.PROPOSED;
          Action.optimistic_version := 1;
          Action.transitions := [] |});
        add_action action ;;
        record context "action.proposed" (OfAction action) ;;
        remember context key (Action.action_id action) ;;
        mret action
    end).

Definition request_approval context (command : RequestApproval.t) : MW ApprovalRequest.t :=
  require_any context OPERATORS ;;
  let key := key_of "request_approval" context in
  let tenant_id := CommandContext.tenant context in
  transaction (
    cached ← load_idempotency context key;
    match cached with
    | Some cached => get_approval tenant_id cached
    | None =>
        action ← get_action tenant_id (RequestApproval.action_id command);
        throw_if (negb (bool_decide (Action.status action = ActionStatus.PROPOSED))) ValueError
          "approval can only be requested for a proposed Action" ;;
        approval_id ← uuid4;
        created_at ← now;
        approval ← lift (ApprovalRequest.new {|
          ApprovalRequest.tenant_id := Action.tenant_id action;
          ApprovalRequest.run_id := Action.run_id action;
          ApprovalRequest.action_id := Action.action_id action;
          ApprovalRequest.action_digest := Action.canonical_digest action;
          ApprovalRequest.tool_version := Action.tool_version action;
          ApprovalRequest.operation := Action.operation action;
          ApprovalRequest.resource_scope := Action.resource_scope action;
          ApprovalRequest.argument_digest := Action.parameter_digest action;
          ApprovalRequest.policy_version := RequestApproval.policy_version command;
          ApprovalRequest.impact_summary := RequestApproval.impact_summary command;
          ApprovalRequest.required_role := RequestApproval.required_role command;
          ApprovalRequest.expires_at := RequestApproval.expires_at command;
          ApprovalRequest.approval_id := approval_id;
          ApprovalRequest.status := ApprovalStatus.PENDING;
          ApprovalRequest.decided_by := None;
          ApprovalRequest.reason := None;
          ApprovalRequest.created_at := created_at;
          ApprovalRequest.decided_at := None;
          ApprovalRequest.optimistic_version := 1;
          ApprovalRequest.transitions := [];
          ApprovalRequest.required_reviews :=
            if mem (Action.risk_level action)
                 [RiskLevel.L3_HIGH_IMPACT_WRITE; RiskLevel.L4_PRIVILEGED] then 2 else 1;
          ApprovalRequest.reviews := [] |});
        awaiting ← move_action context action ActionStatus.AWAITING_APPROVAL
                     "approval required before execution";
        add_approval approval ;;
        save_action awaiting (Action.optimistic_version action) ;;
        record context "approval.requested" (OfApproval approval) ;;
        remember context key (ApprovalRequest.approval_id approval) ;;
        mret approval
    end).

Definition decide_approval context (command : DecideApproval.t) : MW ApprovalRequest.t :=
  let key := key_of "decide_approval" context in
  let tenant_id := CommandContext.tenant context in
  transaction (
    cached ← load_idempotency context key;
    match cached with
    | Some cached => get_approval tenant_id cached
    | None =>
        approval ← get_approval tenant_id (DecideApproval.approval_id command);
        require_any context [ApprovalRequest.required_role approval; "tenant_admin";
                             "platform_admin"] ;;
        throw_if (negb (bool_decide (ApprovalRequest.action_digest approval =
                                     DecideApproval.action_digest command))) PermissionError
          "approval digest does not match the persisted request" ;;
        t ← now;
        decided ← lift (ApprovalRequest.decide approval (CommandContext.actor context)
          (DecideApproval.approved command) (DecideApproval.reason command)
          (Some (IdentityContext.principal_id (CommandContext.identity context))) t);
        save_approval decided (ApprovalRequest.optimistic_version approval) ;;
        (if mem (ApprovalRequest.status decided) [ApprovalStatus.REJECTED; ApprovalStatus.EXPIRED]
         then
           action ← get_action tenant_id (ApprovalRequest.action_id approval);
           denied ← move_action context action ActionStatus.DENIED
                      ("approval " +:+ ApprovalStatus.value (ApprovalRequest.status decided));
           save_action denied (Action.optimistic_version action)
         else mret tt) ;;
        record context ("approval." +:+ ApprovalStatus.value (ApprovalRequest.status decided))
          (OfApproval decided) ;;
        remember context key (ApprovalRequest.approval_id decided) ;;
        mret decided
    end).

(** The reason to deny, if there is one. *)
Definition denial (command : AuthorizeActionAtExecutionTime.t) (action : Action.t)
    (approval : option ApprovalRequest.t) : MW (option string) :=
  if negb (AuthorizeActionAtExecutionTime.policy_allowed command) then
    mret (Some (or_str (Some (AuthorizeActionAtExecutionTime.policy_reason command))
                  "policy denied execution"))
  else if is_write_risk (Action.risk_level action) then
    authorized ←
      match approval with
      | None => mret false
      | Some approval =>
          t ← now;
          lift (ApprovalRequest.authorizes approval action
                  (AuthorizeActionAtExecutionTime.policy_version command) None t)
      end;
    mret (if (authorized : bool) then None
          else Some "a current, exact-bound approval is required")
  else mret None.

Definition is_proposed (action : Action.t) : bool :=
  mem (Action.status action) [ActionStatus.PROPOSED; ActionStatus.AWAITING_APPROVAL].

(** The transaction of [authorize_action_at_execution_time]: an envelope, or
    the reason of the denial it recorded. *)
Definition authorize_or_deny context (command : AuthorizeActionAtExecutionTime.t) (key : string)
    : MW (ActionExecutionEnvelope.t + string) :=
  let tenant_id := CommandContext.tenant context in
  cached_invocation ← load_idempotency context key;
  action ← get_action tenant_id (AuthorizeActionAtExecutionTime.action_id command);
  approval ← match AuthorizeActionAtExecutionTime.approval_id command with
             | Some u => a ← get_approval tenant_id u; mret (Some a)
             | None => mret None
             end;
  denied_reason ← denial command action approval;
  match denied_reason with
  | Some reason =>
      (if is_proposed action then
         denied ← move_action context action ActionStatus.DENIED reason;
         save_action denied (Action.optimistic_version action) ;;
         record context "action.denied" (OfAction denied) ;;
         remember context key (Action.action_id denied)
       else mret tt) ;;
      mret (inr reason)
  | None =>
      current ←
        (if is_proposed action then
           authorized ← move_action context action ActionStatus.AUTHORIZED
             ("execution-time policy " +:+ AuthorizeActionAtExecutionTime.policy_version command
              +:+ " allowed");
           save_action authorized (Action.optimistic_version action) ;;
           record context "action.authorized" (OfAction authorized) ;;
           mret authorized
         else mret action);
      throw_if (negb (bool_decide (Action.status current = ActionStatus.AUTHORIZED))) ValueError
        "Action is not executable in its current state" ;;
      invocation_id ← uuid4;
      envelope ← lift (ActionExecutionEnvelope.from_action invocation_id current
        (CommandContext.actor context)
        (IdentityContext.principal_id (CommandContext.identity context))
        (AuthorizeActionAtExecutionTime.agent_identity command)
        (AuthorizeActionAtExecutionTime.delegation_ref command)
        (AuthorizeActionAtExecutionTime.budget_ref command)
        (AuthorizeActionAtExecutionTime.approval_id command)
        (AuthorizeActionAtExecutionTime.policy_version command)
        (AuthorizeActionAtExecutionTime.deadline command)
        (AuthorizeActionAtExecutionTime.traceparent command));
      match cached_invocation with
      | Some cached =>
          (* replace(envelope, invocation_id=cached_invocation) *)
          again ← lift (ActionExecutionEnvelope.from_action cached current
            (CommandContext.actor context)
            (IdentityContext.principal_id (CommandContext.identity context))
            (AuthorizeActionAtExecutionTime.agent_identity command)
            (AuthorizeActionAtExecutionTime.delegation_ref command)
            (AuthorizeActionAtExecutionTime.budget_ref command)
            (AuthorizeActionAtExecutionTime.approval_id command)
            (AuthorizeActionAtExecutionTime.policy_version command)
            (AuthorizeActionAtExecutionTime.deadline command)
            (AuthorizeActionAtExecutionTime.traceparent command));
          mret (inl again)
      | None =>
          remember context key (ActionExecutionEnvelope.invocation_id envelope) ;;
          mret (inl envelope)
      end
  end.

Definition authorize_action_at_execution_time context (command : AuthorizeActionAtExecutionTime.t)
    : MW ActionExecutionEnvelope.t :=
  throw_if (negb (legacy_authorization_enabled p)) RuntimeError
    "direct execution authorization is disabled; use execute_governed_action" ;;
  require_any context OPERATORS ;;
  t ← now;
  late ← lift (dt_le (AuthorizeActionAtExecutionTime.deadline command) t);
  throw_if late ValueError "execution authorization deadline has expired" ;;
  r ← transaction (authorize_or_deny context command (key_of "authorize_action" context));
  match r with
  | inl envelope => mret envelope
  | inr reason => throw PermissionError reason
  end.

(** ** Governed execution *)

(** What a repeated call returns, rebuilt from the durable facts. *)
Definition replay_execution context (cached : uuid) : MW GovernedActionExecution.t :=
  let tenant_id := CommandContext.tenant context in
  action ← get_action tenant_id cached;
  attempts ← list_action_attempts tenant_id (Action.action_id action);
  all_evidence ← list_evidence tenant_id;
  let items := List.filter
    (fun item => bool_decide (Evidence.action_id item = Action.action_id action)) all_evidence in
  match attempts, items with
  | a :: attempts', e :: items' =>
      attempt ← lift (latest ActionAttempt.recorded_at a attempts');
      evidence ← lift (latest Evidence.captured_at e items');
      mret (GovernedActionExecution.mk
        (GatewayResult.mk action
           (ToolReceipt.mk (ActionAttempt.receipt_ref attempt)
              (receipt_of_status (Action.status action)) []) true)
        attempt evidence)
  | _, _ => throw RuntimeError "cached governed execution is missing durable facts"
  end.

Definition authorization_context context (command : ExecuteGovernedAction.t)
    : AuthorizationContext.t :=
  let identity := CommandContext.identity context in {|
  AuthorizationContext.tenant_id := uuid_str (IdentityContext.tenant_id identity);
  AuthorizationContext.actor_id := uuid_str (IdentityContext.actor_id identity);
  AuthorizationContext.principal_id := uuid_str (IdentityContext.principal_id identity);
  AuthorizationContext.agent_id := or_str (IdentityContext.agent_id identity) "human-operator";
  AuthorizationContext.roles := ContextDomain.sorted_strings (IdentityContext.roles identity);
  AuthorizationContext.policy_version := ExecuteGovernedAction.policy_version command;
  AuthorizationContext.delegation_id := ExecuteGovernedAction.delegation_id command;
  AuthorizationContext.correlation_id := uuid_str (CommandContext.correlation_id context);
  AuthorizationContext.purpose := "governed_action" |}.

Definition receipt_reference (action : Action.t) (receipt : ToolReceipt.t) : string :=
  or_str (Some (ToolReceipt.external_id receipt))
    ("gateway://" +:+ ToolResultStatus.value (ToolReceipt.status receipt) +:+ "/" +:+
     uuid_str (Action.action_id action)).

(** The attempt that records the receipt. *)
Definition attempt_of (action : Action.t) (receipt : ToolReceipt.t) : MW ActionAttempt.t :=
  let status := attempt_of_receipt (ToolReceipt.status receipt) in
  invocation_id ← uuid4;
  attempt_id ← uuid4;
  recorded_at ← now;
  lift (ActionAttempt.new {|
    ActionAttempt.tenant_id := Action.tenant_id action;
    ActionAttempt.run_id := Action.run_id action;
    ActionAttempt.action_id := Action.action_id action;
    ActionAttempt.invocation_id := invocation_id;
    ActionAttempt.status := status;
    ActionAttempt.idempotency_key := Action.idempotency_key action;
    ActionAttempt.receipt_ref := receipt_reference action receipt;
    ActionAttempt.executor_identity :=
      "gateway:" +:+ Action.tool_name action +:+ "@" +:+ Action.tool_version action;
    ActionAttempt.failure_reason :=
      if bool_decide (status = ActionAttemptStatus.FAILED) then
        Some (default (ToolResultStatus.value (ToolReceipt.status receipt))
                (dict_of_list (ToolReceipt.output receipt) !! "reason"))
      else None;
    ActionAttempt.attempt_id := attempt_id;
    ActionAttempt.recorded_at := recorded_at |}).

Definition evidence_payload (receipt : ToolReceipt.t) : string :=
  dumps compact_style (JDict [
    ("external_id", JStr (ToolReceipt.external_id receipt));
    ("output", JList ((fun kv => JList [JStr kv.1; JStr kv.2]) <$> ToolReceipt.output receipt));
    ("status", JStr (ToolResultStatus.value (ToolReceipt.status receipt)))]).

(** The unverified evidence of the invocation. *)
Definition evidence_of (action : Action.t) (receipt : ToolReceipt.t) : MW Evidence.t :=
  t ← now;
  evidence_id ← uuid4;
  lift (Evidence.new {|
    Evidence.tenant_id := Action.tenant_id action;
    Evidence.run_id := Action.run_id action;
    Evidence.action_id := Action.action_id action;
    Evidence.source := "governed-tool-gateway";
    Evidence.source_identity := Action.tool_name action +:+ "@" +:+ Action.tool_version action;
    Evidence.capture_method := EvidenceCaptureMethod.SYSTEM_QUERY;
    Evidence.reference := receipt_reference action receipt;
    Evidence.observed_state := ToolResultStatus.value (ToolReceipt.status receipt);
    Evidence.content_digest := sha256_hex (evidence_payload receipt);
    Evidence.classification := Action.classification action;
    Evidence.valid_from := t;
    Evidence.valid_until := dt_add t (days 1);
    Evidence.integrity := EvidenceIntegrity.UNVERIFIED;
    Evidence.source_reference := "";
    Evidence.subject_refs := [];
    Evidence.retained_until := None;
    Evidence.artifact_version_id := None;
    Evidence.evidence_id := evidence_id;
    Evidence.captured_at := t |}).

(** The second transaction: what happened becomes durable, unless the action
    changed meanwhile. *)
Definition persist_execution context (key : string) (action : Action.t)
    (result : GatewayResult.t) (attempt : ActionAttempt.t) (evidence : Evidence.t) : MW unit :=
  transaction (
    current ← get_action (Action.tenant_id action) (Action.action_id action);
    throw_if (negb (bool_decide (Action.optimistic_version current =
                                 Action.optimistic_version action))) ConcurrencyConflict
      "Action changed while external execution was in flight" ;;
    save_action (GatewayResult.action result) (Action.optimistic_version action) ;;
    add_action_attempt attempt ;;
    add_evidence evidence ;;
    record context "action.governed_execution_recorded" (OfAttempt attempt) ;;
    record context "evidence.recorded" (OfEvidence evidence) ;;
    remember context key (Action.action_id action)).

Definition execute_governed_action context (command : ExecuteGovernedAction.t)
    : MW GovernedActionExecution.t :=
  require_any context OPERATORS ;;
  match governed_gateway p with
  | None => throw RuntimeError "a governed tool gateway is required for external execution"
  | Some g =>
      let key := key_of "execute_governed_action" context in
      let tenant_id := CommandContext.tenant context in
      first ← transaction (
        cached ← load_idempotency context key;
        match cached with
        | Some cached => r ← replay_execution context cached; mret (inl r)
        | None =>
            action ← get_action tenant_id (ExecuteGovernedAction.action_id command);
            approval ← match ExecuteGovernedAction.approval_id command with
                       | Some u => a ← get_approval tenant_id u; mret (Some a)
                       | None => mret None
                       end;
            mret (inr (action, approval))
        end);
      match first with
      | inl replayed => mret replayed
      | inr (action, approval) =>
          (if is_write_risk (Action.risk_level action) then
             match shadow_write_guard p with
             | Some assert_writable => assert_writable tenant_id (Action.run_id action)
             | None => mret tt
             end
           else mret tt) ;;
          result ← interp (gateway_port g)
            (Gateway.execute (allow_l4 g) (authorization_context context command) action approval
               (ExecuteGovernedAction.cost_units command));
          attempt ← attempt_of action (GatewayResult.receipt result);
          evidence ← evidence_of action (GatewayResult.receipt result);
          persist_execution context key action result attempt evidence ;;
          mret (GovernedActionExecution.mk result attempt evidence)
      end
  end.

(** ** Attempts and reconciliation *)

Definition record_action_attempt context (command : RecordActionAttempt.t) : MW Action.t :=
  require_any context OPERATORS ;;
  let key := key_of "record_action_attempt" context in
  let tenant_id := CommandContext.tenant context in
  transaction (
    cached ← load_idempotency context key;
    match cached with
    | Some cached => get_action tenant_id cached
    | None =>
        action ← get_action tenant_id (RecordActionAttempt.action_id command);
        throw_if (negb (mem (Action.status action)
                          [ActionStatus.AUTHORIZED; ActionStatus.EXECUTING])) ValueError
          "Action attempt requires execution-time authorization" ;;
        executing ← (if bool_decide (Action.status action = ActionStatus.AUTHORIZED)
                     then move_action context action ActionStatus.EXECUTING
                            "tool invocation started"
                     else mret action);
        updated ← match action_target (RecordActionAttempt.status command) with
                  | Some target =>
                      move_action context executing target
                        (or_str (RecordActionAttempt.failure_reason command)
                           ("tool receipt: " +:+ RecordActionAttempt.receipt_ref command))
                  | None => mret executing
                  end;
        attempt_id ← uuid4;
        recorded_at ← now;
        attempt ← lift (ActionAttempt.new {|
          ActionAttempt.tenant_id := Action.tenant_id action;
          ActionAttempt.run_id := Action.run_id action;
          ActionAttempt.action_id := Action.action_id action;
          ActionAttempt.invocation_id := RecordActionAttempt.invocation_id command;
          ActionAttempt.status := RecordActionAttempt.status command;
          ActionAttempt.idempotency_key := CommandContext.idempotency_key context;
          ActionAttempt.receipt_ref := RecordActionAttempt.receipt_ref command;
          ActionAttempt.executor_identity := RecordActionAttempt.executor_identity command;
          ActionAttempt.failure_reason :=
            match RecordActionAttempt.failure_reason command with
            | Some (String _ _ as r) => Some r
            | _ => if bool_decide (RecordActionAttempt.status command = ActionAttemptStatus.FAILED)
                   then Some "tool execution failed" else None
            end;
          ActionAttempt.attempt_id := attempt_id;
          ActionAttempt.recorded_at := recorded_at |});
        add_action_attempt attempt ;;
        save_action updated (Action.optimistic_version action) ;;
        record context "action.attempt_recorded" (OfAttempt attempt) ;;
        remember context key (Action.action_id updated) ;;
        mret updated
    end).

Definition reconcile_unknown_action context (command : ReconcileUnknownAction.t) : MW Action.t :=
  require_any context OPERATORS ;;
  let key := key_of "reconcile_unknown_action" context in
  let tenant_id := CommandContext.tenant context in
  let succeeded := ReconcileUnknownAction.succeeded command in
  transaction (
    cached ← load_idempotency context key;
    match cached with
    | Some cached => get_action tenant_id cached
    | None =>
        action ← get_action tenant_id (ReconcileUnknownAction.action_id command);
        throw_if (negb (bool_decide (Action.status action = ActionStatus.UNKNOWN))) ValueError
          "only an Unknown Action can be reconciled" ;;
        updated ← move_action context action
          (if succeeded then ActionStatus.SUCCEEDED else ActionStatus.FAILED)
          (or_str (ReconcileUnknownAction.failure_reason command)
             ("reconciled from " +:+ ReconcileUnknownAction.receipt_ref command));
        attempt_id ← uuid4;
        recorded_at ← now;
        attempt ← lift (ActionAttempt.new {|
          ActionAttempt.tenant_id := Action.tenant_id action;
          ActionAttempt.run_id := Action.run_id action;
          ActionAttempt.action_id := Action.action_id action;
          ActionAttempt.invocation_id := ReconcileUnknownAction.invocation_id command;
          ActionAttempt.status := if succeeded then ActionAttemptStatus.SUCCEEDED
                                  else ActionAttemptStatus.FAILED;
          ActionAttempt.idempotency_key := CommandContext.idempotency_key context;
          ActionAttempt.receipt_ref := ReconcileUnknownAction.receipt_ref command;
          ActionAttempt.executor_identity := ReconcileUnknownAction.executor_identity command;
          ActionAttempt.failure_reason :=
            match ReconcileUnknownAction.failure_reason command with
            | Some (String _ _ as r) => Some r
            | _ => if succeeded then None else Some "reconciliation reported failure"
            end;
          ActionAttempt.attempt_id := attempt_id;
          ActionAttempt.recorded_at := recorded_at |});
        add_action_attempt attempt ;;
        save_action updated (Action.optimistic_version action) ;;
        record context "action.reconciled" (OfAction updated) ;;
        remember context key (Action.action_id updated) ;;
        mret updated
    end).
End action_commands.
