(* ===== verification/EvidenceCommands.v ===== *)
(** * packages/application: execution.py, evidence and outcomes

    Recording evidence, the capture saga that turns an authoritative
    observation into an immutable artifact and a verified record, deletion with
    a tombstone, and the verification of outcomes. *)

From S2P Require Import Prelude PyStr PyDict PyFloat Json Sha256 Effects Transitions Values Goals.
From S2P Require Import Execution ExecutionObjects Calendar AuditChain Verification Store.
From S2P Require Import Application.
From Stdlib Require Import ZArith.

Open Scope string_scope.
Open Scope list_scope.
Open Scope Z_scope.

(** [DataClassification(value)] *)
Definition classification_of (value : string) : res DataClassification.t :=
  match List.find (fun c => bool_decide (DataClassification.value c = value))
          [DataClassification.PUBLIC; DataClassification.INTERNAL;
           DataClassification.CONFIDENTIAL; DataClassification.RESTRICTED] with
  | Some c => Ok c
  | None => raise ValueError ("'" +:+ value +:+ "' is not a valid DataClassification")
  end.

Definition find_criterion (criterion_id : string) (goal : GoalContract.t)
    : option SuccessCriterion.t :=
  List.find (fun item => bool_decide (SuccessCriterion.criterion_id item = criterion_id))
    (GoalContract.success_criteria goal).

(** A subject as the capture definition stores it: an empty version reads back
    as no version. *)
Definition reread_subject (s : SubjectRef.t) : res SubjectRef.t :=
  SubjectRef.new (SubjectRef.system s) (SubjectRef.subject_type s) (SubjectRef.subject_id s)
    (match SubjectRef.version s with
     | Some v => if empty v then None else Some v
     | None => None
     end).

Section evidence_commands.
Context {X : Type} (p : ports X).
Notation MW := (M (world X)).
Implicit Types (context : CommandContext.t).

Definition record_evidence context (command : RecordEvidence.t) : MW Evidence.t :=
  require_any context OPERATORS ;;
  let item := RecordEvidence.evidence command in
  throw_if (bool_decide (Evidence.integrity item = EvidenceIntegrity.VERIFIED)) ValueError
    "integrity-verified Evidence must be captured through authoritative readback" ;;
  throw_if (negb (bool_decide (Evidence.tenant_id item = CommandContext.tenant context)))
    PermissionError "Evidence tenant does not match command identity" ;;
  let key := key_of "record_evidence" context in
  transaction (
    cached ← load_idempotency context key;
    match cached with
    | Some cached => get_evidence (CommandContext.tenant context) cached
    | None =>
        action ← get_action (Evidence.tenant_id item) (Evidence.action_id item);
        throw_if (negb (bool_decide (Action.status action = ActionStatus.SUCCEEDED)) ||
                  negb (bool_decide (Action.run_id action = Evidence.run_id item))) ValueError
          "Evidence requires a succeeded authoritative Action" ;;
        add_evidence item ;;
        record context "evidence.recorded" (OfEvidence item) ;;
        remember context key (Evidence.evidence_id item) ;;
        mret item
    end).

(** [_commit_evidence_capture] *)
Definition commit_evidence_capture context (key : string) (saga : EvidenceCaptureSaga.t)
    (stored : EvidenceArtifactDescriptor.t) : MW Evidence.t :=
  let definition := EvidenceCaptureSaga.definition saga in
  captured_at ← lift (fromisoformat (CaptureDefinition.captured_at definition));
  retained_until ← lift (fromisoformat (CaptureDefinition.retained_until definition));
  subjects ← lift (mapM_res reread_subject (CaptureDefinition.subject_refs definition));
  classification ← lift (classification_of (CaptureDefinition.classification definition));
  valid_until ← lift (fromisoformat (CaptureDefinition.valid_until definition));
  evidence ← lift (Evidence.new {|
    Evidence.tenant_id := EvidenceCaptureSaga.tenant_id saga;
    Evidence.run_id := EvidenceCaptureSaga.run_id saga;
    Evidence.action_id := EvidenceCaptureSaga.action_id saga;
    Evidence.source := CaptureDefinition.source definition;
    Evidence.source_identity := CaptureDefinition.source_identity definition;
    Evidence.capture_method := EvidenceCaptureMethod.AUTHORITATIVE_READBACK;
    Evidence.reference := EvidenceArtifactDescriptor.artifact_uri stored;
    Evidence.observed_state := CaptureDefinition.observed_state definition;
    Evidence.content_digest := EvidenceArtifactDescriptor.content_digest stored;
    Evidence.classification := classification;
    Evidence.valid_from := captured_at;
    Evidence.valid_until := valid_until;
    Evidence.integrity := EvidenceIntegrity.VERIFIED;
    Evidence.source_reference := CaptureDefinition.source_reference definition;
    Evidence.subject_refs := subjects;
    Evidence.retained_until := Some retained_until;
    Evidence.artifact_version_id := EvidenceArtifactDescriptor.version_id stored;
    Evidence.evidence_id := EvidenceCaptureSaga.evidence_id saga;
    Evidence.captured_at := captured_at |});
  transaction (
    add_evidence evidence ;;
    complete_evidence_capture (CommandContext.tenant context) (Evidence.evidence_id evidence) ;;
    record context "evidence.authoritative_captured" (OfEvidence evidence) ;;
    remember context key (Evidence.evidence_id evidence)) ;;
  mret evidence.

(** The part of the capture that resumes a saga already started. *)
Definition resume_capture context (key : string) (artifacts : artifact_store (world X))
    (pending : EvidenceCaptureSaga.t) : MW Evidence.t :=
  let definition := EvidenceCaptureSaga.definition pending in
  classification ← lift (classification_of (CaptureDefinition.classification definition));
  retained_until ← lift (fromisoformat (CaptureDefinition.retained_until definition));
  let descriptor := {|
    EvidenceArtifactDescriptor.tenant_id := EvidenceCaptureSaga.tenant_id pending;
    EvidenceArtifactDescriptor.evidence_id := EvidenceCaptureSaga.evidence_id pending;
    EvidenceArtifactDescriptor.artifact_uri := EvidenceCaptureSaga.artifact_uri pending;
    EvidenceArtifactDescriptor.content_digest := EvidenceCaptureSaga.expected_digest pending;
    EvidenceArtifactDescriptor.classification := classification;
    EvidenceArtifactDescriptor.size_bytes := CaptureDefinition.size_bytes definition;
    EvidenceArtifactDescriptor.retained_until := retained_until;
    EvidenceArtifactDescriptor.version_id := None |} in
  content ← retrieve_verified artifacts descriptor;
  stored ← artifact_put artifacts descriptor content (CaptureDefinition.content_type definition);
  commit_evidence_capture context key pending stored.

Definition capture_definition (command : CaptureAuthoritativeEvidence.t) (goal : GoalContract.t)
    (observation : AuthoritativeObservation.t) (classification : DataClassification.t)
    (retained_until : datetime) : CaptureDefinition.t := {|
  CaptureDefinition.source := AuthoritativeObservation.source observation;
  CaptureDefinition.source_identity := AuthoritativeObservation.source_identity observation;
  CaptureDefinition.source_reference := AuthoritativeObservation.reference observation;
  CaptureDefinition.observed_state := AuthoritativeObservation.observed_state observation;
  CaptureDefinition.captured_at := isoformat (AuthoritativeObservation.captured_at observation);
  CaptureDefinition.valid_until := isoformat (AuthoritativeObservation.valid_until observation);
  CaptureDefinition.retained_until := isoformat retained_until;
  CaptureDefinition.classification := DataClassification.value classification;
  CaptureDefinition.size_bytes := Z.of_nat (length (AuthoritativeObservation.content observation));
  CaptureDefinition.content_type := CaptureAuthoritativeEvidence.content_type command;
  CaptureDefinition.subject_refs := GoalContract.subject_refs goal |}.

(** The part that observes the authority and starts a saga. *)
Definition begin_capture context (key : string) (artifacts : artifact_store (world X))
    (readback : authoritative_readback (world X)) (evidence_id : uuid)
    (command : CaptureAuthoritativeEvidence.t) : MW Evidence.t :=
  let tenant_id := CommandContext.tenant context in
  run ← get_run tenant_id (CaptureAuthoritativeEvidence.run_id command);
  goal ← get_goal tenant_id (Run.goal_id run);
  action ← get_action tenant_id (CaptureAuthoritativeEvidence.action_id command);
  throw_if (negb (bool_decide (Action.run_id action = Run.run_id run)) ||
            negb (bool_decide (Action.status action = ActionStatus.SUCCEEDED))) ValueError
    "authoritative Evidence requires a succeeded Action in the Run" ;;
  match find_criterion (CaptureAuthoritativeEvidence.criterion_id command) goal with
  | None => throw ValueError "Evidence criterion is not part of the Goal contract"
  | Some criterion =>
      observation ← observe readback (CaptureAuthoritativeEvidence.source command) tenant_id
        (GoalContract.subject_refs goal) criterion;
      let policy := GoalContract.data_policy goal in
      classification ← lift (EvidenceAdmissionPolicy.admit_ (unicode_table p) (evidence_policy p)
        (AuthoritativeObservation.content observation)
        (CaptureAuthoritativeEvidence.declared_classification command)
        (DataPolicy.maximum_classification policy) (DataPolicy.retention_days policy));
      let retained_until := dt_add (AuthoritativeObservation.captured_at observation)
                              (days (DataPolicy.retention_days policy)) in
      descriptor ← describe artifacts tenant_id evidence_id
        (AuthoritativeObservation.content_digest observation) classification
        (Z.of_nat (length (AuthoritativeObservation.content observation))) retained_until;
      let saga := {|
        EvidenceCaptureSaga.tenant_id := tenant_id;
        EvidenceCaptureSaga.evidence_id := evidence_id;
        EvidenceCaptureSaga.run_id := Run.run_id run;
        EvidenceCaptureSaga.action_id := Action.action_id action;
        EvidenceCaptureSaga.criterion_id := SuccessCriterion.criterion_id criterion;
        EvidenceCaptureSaga.source := CaptureAuthoritativeEvidence.source command;
        EvidenceCaptureSaga.artifact_uri := EvidenceArtifactDescriptor.artifact_uri descriptor;
        EvidenceCaptureSaga.expected_digest := EvidenceArtifactDescriptor.content_digest descriptor;
        EvidenceCaptureSaga.definition :=
          capture_definition command goal observation classification retained_until;
        EvidenceCaptureSaga.status := EvidenceCaptureStatus.PENDING;
        EvidenceCaptureSaga.failure_reason := None |} in
      start_evidence_capture saga ;;
      stored ← artifact_put artifacts descriptor (AuthoritativeObservation.content observation)
                 (CaptureAuthoritativeEvidence.content_type command);
      retrieve_verified artifacts stored ;;
      commit_evidence_capture context key saga stored
  end.

(** The identifier every capture under one idempotency key shares. *)
Definition capture_id context : uuid :=
  uuid5 NAMESPACE_URL ("autonoesis:evidence:" +:+ uuid_str (CommandContext.tenant context) +:+
                       ":" +:+ CommandContext.idempotency_key context).

Definition capture_authoritative_evidence context (command : CaptureAuthoritativeEvidence.t)
    : MW Evidence.t :=
  require_any context OPERATORS ;;
  match evidence_artifacts p, readback_port p with
  | Some artifacts, Some readback =>
      let key := key_of "capture_authoritative_evidence" context in
      let tenant_id := CommandContext.tenant context in
      cached ← load_idempotency context key;
      match cached with
      | Some cached => get_evidence tenant_id cached
      | None =>
          let evidence_id := capture_id context in
          pending ← try_except (saga ← get_evidence_capture tenant_id evidence_id; mret (Some saga))
                      LookupError (fun _ => mret None);
          match pending with
          | Some pending =>
              if bool_decide (EvidenceCaptureSaga.status pending = EvidenceCaptureStatus.COMMITTED)
              then get_evidence tenant_id evidence_id
              else resume_capture context key artifacts pending
          | None => begin_capture context key artifacts readback evidence_id command
          end
      end
  | _, _ => throw RuntimeError "authoritative Evidence capture is not configured"
  end.

(** ** Deletion *)

(** How the deletion ended, recorded on the tombstone. *)
Definition deletion_result (record : EvidenceDeletionRecord.t)
    (r : ArtifactDeletionReceipt.t + exn) : EvidenceDeletionRecord.t :=
  match r with
  | inl receipt =>
      record <| EvidenceDeletionRecord.status := EvidenceDeletionStatus.DELETED |>
        <| EvidenceDeletionRecord.deleted_at := Some (ArtifactDeletionReceipt.deleted_at receipt) |>
        <| EvidenceDeletionRecord.provider_version_id :=
             ArtifactDeletionReceipt.provider_version_id receipt |>
        <| EvidenceDeletionRecord.proof_digest :=
             Some (ArtifactDeletionReceipt.proof_digest receipt) |>
  | inr x =>
      if catches PermissionError (exn_class x) then
        record <| EvidenceDeletionRecord.status := EvidenceDeletionStatus.RETENTION_BLOCKED |>
          <| EvidenceDeletionRecord.failure_reason := Some (exn_msg x) |>
      else
        record <| EvidenceDeletionRecord.status := EvidenceDeletionStatus.FAILED |>
          <| EvidenceDeletionRecord.failure_reason := Some (class_name (exn_class x)) |>
  end.

Definition request_evidence_deletion context (command : RequestEvidenceDeletion.t)
    : MW EvidenceDeletionRecord.t :=
  require_any context ["platform_admin"; "tenant_admin"] ;;
  match evidence_artifacts p with
  | None => throw RuntimeError "Evidence artifact deletion is not configured"
  | Some artifacts =>
      throw_if (blank (RequestEvidenceDeletion.reason command)) ValueError
        "Evidence deletion reason must not be empty" ;;
      evidence ← get_evidence (CommandContext.tenant context)
                   (RequestEvidenceDeletion.evidence_id command);
      t ← now;
      let requested := {|
        EvidenceDeletionRecord.tenant_id := CommandContext.tenant context;
        EvidenceDeletionRecord.evidence_id := Evidence.evidence_id evidence;
        EvidenceDeletionRecord.artifact_uri := Evidence.reference evidence;
        EvidenceDeletionRecord.requested_by := CommandContext.actor context;
        EvidenceDeletionRecord.reason := RequestEvidenceDeletion.reason command;
        EvidenceDeletionRecord.requested_at := t;
        EvidenceDeletionRecord.status := EvidenceDeletionStatus.REQUESTED;
        EvidenceDeletionRecord.deleted_at := None;
        EvidenceDeletionRecord.provider_version_id := None;
        EvidenceDeletionRecord.proof_digest := None;
        EvidenceDeletionRecord.failure_reason := None |} in
      transaction (
        record_evidence_deletion requested ;;
        record context "evidence.deletion_requested" (OfEvidence evidence)) ;;
      r ← try_all (receipt ← artifact_delete artifacts (evidence_descriptor evidence);
                   mret (inl receipt))
            (fun x => mret (inr x));
      let final := deletion_result requested r in
      transaction (
        record_evidence_deletion final ;;
        record context ("evidence.deletion_" +:+
                        EvidenceDeletionStatus.value (EvidenceDeletionRecord.status final))
          (OfEvidence evidence)) ;;
      mret final
  end.

(** ** Outcomes *)

Definition verify_outcome context (command : VerifyOutcome.t) : MW Outcome.t :=
  require_any context OPERATORS ;;
  match readback_port p, evidence_artifacts p with
  | Some readback, Some artifacts =>
      let key := key_of "verify_outcome" context in
      let tenant_id := CommandContext.tenant context in
      transaction (
        cached ← load_idempotency context key;
        match cached with
        | Some cached => get_outcome tenant_id cached
        | None =>
            run ← get_run tenant_id (VerifyOutcome.run_id command);
            goal ← get_goal tenant_id (Run.goal_id run);
            match find_criterion (VerifyOutcome.criterion_id command) goal with
            | None => throw ValueError "Outcome criterion is not part of the Goal contract"
            | Some criterion =>
                items ← mapM_m (get_evidence tenant_id) (VerifyOutcome.evidence_ids command);
                throw_if (any (fun item => negb (bool_decide (Evidence.run_id item = Run.run_id run)))
                            items) ValueError
                  "Outcome Evidence must belong to the verified Run" ;;
                t ← now;
                d ← verify readback artifacts "trusted-readback@1" tenant_id
                      (GoalContract.subject_refs goal) criterion items t;
                outcome_id ← uuid4;
                outcome ← lift (Outcome.new {|
                  Outcome.tenant_id := tenant_id;
                  Outcome.goal_id := GoalContract.goal_id goal;
                  Outcome.run_id := Run.run_id run;
                  Outcome.criterion_id := VerifyOutcome.criterion_id command;
                  Outcome.verifier_version := OutcomeVerificationDecision.verifier_version d;
                  Outcome.status := OutcomeVerificationDecision.status d;
                  Outcome.evidence := items;
                  Outcome.outcome_id := outcome_id;
                  Outcome.verified_at := Some (OutcomeVerificationDecision.verified_at d) |});
                add_outcome outcome ;;
                record context "outcome.verified" (OfOutcome outcome) ;;
                remember context key (Outcome.outcome_id outcome) ;;
                mret outcome
            end
        end)
  | _, _ => throw RuntimeError "trusted Outcome verification is not configured"
  end.
End evidence_commands.
