(* ===== verification/Machine.v ===== *)
(** * The platform as a state machine

    What the commands promise, without how they do it: [change T] relates two
    stores that differ by one legal change made for a tenant in [T] - a goal
    that starts as a draft, a run that moves along its transition table and
    only succeeds when it was earned, an audit event that continues its
    tenant's chain.  [moves T] is any number of changes.  [store_ok] is the
    invariant of the machine.  [Platform] proves that every command of the
    application is a sequence of changes; [MachineInvariant] that changes keep
    the invariant.

    [may_retrieve] and [may_observe] are what the artifact store and the
    authoritative systems may answer, as in [Verification.grounds]. *)

From stdpp Require Import relations.
From S2P Require Import Prelude PyStr Effects PyDict Transitions Values Goals Execution.
From S2P Require Import ExecutionObjects History Digests ContextDomain AuditChain Verification.
From S2P Require Import Store Application RunCommands.
From Stdlib Require Import ZArith.

Open Scope string_scope.
Open Scope list_scope.
Open Scope Z_scope.

(** ** Writers: the store with one record put in its place *)

Definition put_goal (g : GoalContract.t) (d : store) : store :=
  d <| goals := <[GoalContract.goal_id g := g]> (goals d) |>.
Definition put_run (r : Run.t) (d : store) : store :=
  d <| runs := <[Run.run_id r := r]> (runs d) |>.
Definition put_snapshot (s : ContextSnapshot.t) (d : store) : store :=
  d <| context_snapshots := <[ContextSnapshot.snapshot_id s := s]> (context_snapshots d) |>.
Definition put_plan (p : Plan.t) (d : store) : store :=
  d <| plans := <[Plan.plan_id p := p]> (plans d) |>
    <| tasks := foldl (fun acc task => <[Task.task_id task := task]> acc) (tasks d)
                  (Plan.tasks p) |>.
Definition put_task (x : Task.t) (d : store) : store :=
  d <| tasks := <[Task.task_id x := x]> (tasks d) |>.
Definition put_action (a : Action.t) (d : store) : store :=
  d <| actions := <[Action.action_id a := a]> (actions d) |>.
Definition put_attempt (a : ActionAttempt.t) (d : store) : store :=
  d <| action_attempts := <[ActionAttempt.attempt_id a := a]> (action_attempts d) |>.
Definition put_approval (q : ApprovalRequest.t) (d : store) : store :=
  d <| approvals := <[ApprovalRequest.approval_id q := q]> (approvals d) |>.
Definition put_evidence (e : Evidence.t) (d : store) : store :=
  d <| evidence := <[Evidence.evidence_id e := e]> (evidence d) |>.
Definition put_saga (id : uuid) (s : EvidenceCaptureSaga.t) (d : store) : store :=
  d <| evidence_capture_sagas := <[id := s]> (evidence_capture_sagas d) |>.
Definition put_deletion (r : EvidenceDeletionRecord.t) (d : store) : store :=
  d <| evidence_deletions := <[EvidenceDeletionRecord.evidence_id r := r]> (evidence_deletions d) |>.
Definition put_outcome (o : Outcome.t) (d : store) : store :=
  d <| outcomes := <[Outcome.outcome_id o := o]> (outcomes d) |>.
Definition put_audit (e : AuditEvent.t) (d : store) : store := d <| audits := audits d ++ [e] |>.
Definition bind_key (tenant : uuid) (key : string) (id : uuid) (digest : string) (d : store)
    : store :=
  d <| idempotency := <[(tenant, key) := id]> (idempotency d) |>
    <| idempotency_digests := <[(tenant, key) := digest]> (idempotency_digests d) |>.

(** ** What has to be the case *)

(** The runs of a goal that still count against its limit. *)
Definition active_runs (d : store) (tenant goal_id : uuid) : Z :=
  count run_is_active (List.filter (fun run => bool_decide (Run.tenant_id run = tenant) &&
    bool_decide (Run.goal_id run = goal_id)) (values (runs d))).

(** Every success criterion of the goal has a VERIFIED outcome of the run. *)
Definition outcomes_verified (d : store) (r : Run.t) (g : GoalContract.t) : Prop :=
  ∀ c, c ∈ criteria g → ∃ k o, outcomes d !! k = Some o ∧
    Outcome.tenant_id o = Run.tenant_id r ∧ Outcome.run_id o = Run.run_id r ∧
    Outcome.criterion_id o = c ∧ Outcome.status o = OutcomeStatus.VERIFIED.

(** The run deserves to have succeeded. *)
Record run_earned (d : store) (r : Run.t) : Prop := {
  earned_tasks : ∀ k x, tasks d !! k = Some x → Task.tenant_id x = Run.tenant_id r →
    Task.run_id x = Run.run_id r → Task.status x = TaskStatus.SUCCEEDED;
  earned_actions : ∀ k a, actions d !! k = Some a → Action.tenant_id a = Run.tenant_id r →
    Action.run_id a = Run.run_id r → Action.status a = ActionStatus.SUCCEEDED;
  earned_outcomes : ∃ g, goals d !! Run.goal_id r = Some g ∧
    GoalContract.tenant_id g = Run.tenant_id r ∧ outcomes_verified d r g
}.

(** The goal deserves to be satisfied. *)
Definition goal_earned (d : store) (g : GoalContract.t) : Prop :=
  ∃ k r, runs d !! k = Some r ∧ Run.goal_id r = GoalContract.goal_id g ∧
    Run.tenant_id r = GoalContract.tenant_id g ∧ Run.status r = RunStatus.SUCCEEDED ∧
    outcomes_verified d r g.

(** The run is bound to a plan of its own. *)
Definition plan_bound (d : store) (r : Run.t) : Prop :=
  ∃ s p, Run.execution_snapshot r = Some s ∧ plans d !! RunExecutionSnapshot.plan_id s = Some p ∧
    Plan.run_id p = Run.run_id r ∧ Plan.tenant_id p = Run.tenant_id r.

(** The tool of the action is one the run was started with. *)
Definition tool_bound (d : store) (a : Action.t) : Prop :=
  ∃ r s, runs d !! Action.run_id a = Some r ∧ Run.tenant_id r = Action.tenant_id a ∧
    Run.execution_snapshot r = Some s ∧
    Action.tool_name a +:+ "@" +:+ Action.tool_version a ∈ RunExecutionSnapshot.tool_versions s.

(** The audit chain of a tenant continues without a gap. *)
Definition chain_ok (d : store) (tenant : uuid) : Prop :=
  verify_links genesis 1 (tenant_audits tenant (audits d)) = Ok true.

Section machine.
Context (may_retrieve : EvidenceArtifactDescriptor.t → list Z → Prop)
  (may_observe : string → uuid → list SubjectRef.t → SuccessCriterion.t →
     AuthoritativeObservation.t → Prop).

(** The grounds an outcome's status has in its evidence. *)
Definition outcome_grounded (d : store) (o : Outcome.t) : Prop :=
  ∃ r g c now, runs d !! Outcome.run_id o = Some r ∧ Run.tenant_id r = Outcome.tenant_id o ∧
    Run.goal_id r = Outcome.goal_id o ∧
    goals d !! Outcome.goal_id o = Some g ∧ GoalContract.tenant_id g = Outcome.tenant_id o ∧
    c ∈ GoalContract.success_criteria g ∧
    SuccessCriterion.criterion_id c = Outcome.criterion_id o ∧
    Outcome.verified_at o = Some now ∧
    match Outcome.status o with
    | OutcomeStatus.VERIFIED =>
        grounds may_retrieve may_observe (Outcome.tenant_id o) (GoalContract.subject_refs g) c
          (Outcome.evidence o) now true
    | OutcomeStatus.NOT_MET =>
        grounds may_retrieve may_observe (Outcome.tenant_id o) (GoalContract.subject_refs g) c
          (Outcome.evidence o) now false
    | OutcomeStatus.UNKNOWN => True
    end.

(** ** Changes *)

Inductive change (T : uuid → Prop) (d : store) : store → Prop :=
  | NewGoal g :
      T (GoalContract.tenant_id g) → newborn g → GoalContract.new g = Ok g →
      goals d !! GoalContract.goal_id g = None →
      change T d (put_goal g d)
  | MoveGoal g g' :
      T (GoalContract.tenant_id g) → goals d !! GoalContract.goal_id g = Some g →
      goal_step g g' →
      (GoalContract.status g' = GoalStatus.SATISFIED → goal_earned d g) →
      change T d (put_goal g' d)
  | NewRun r g :
      T (Run.tenant_id r) → newborn r → Run.execution_snapshot r = None →
      goals d !! Run.goal_id r = Some g → GoalContract.tenant_id g = Run.tenant_id r →
      GoalContract.status g = GoalStatus.ACTIVE →
      active_runs d (Run.tenant_id r) (Run.goal_id r) < GoalContract.max_concurrent_runs g →
      runs d !! Run.run_id r = None →
      change T d (put_run r d)
  | StartRun r s r1 r' :
      T (Run.tenant_id r) → runs d !! Run.run_id r = Some r →
      Run.bind_execution r s = Ok r1 → run_step r1 r' → Run.status r' = RunStatus.RUNNING →
      plan_bound d r' →
      change T d (put_run r' d)
  | MoveRun r r' :
      T (Run.tenant_id r) → runs d !! Run.run_id r = Some r → run_step r r' →
      Run.status r' ≠ RunStatus.RUNNING →
      (Run.status r' = RunStatus.SUCCEEDED → run_earned d r) →
      change T d (put_run r' d)
  | NewSnapshot s :
      T (ContextSnapshot.tenant_id s) →
      (∀ k x, context_snapshots d !! k = Some x →
         ContextSnapshot.tenant_id x = ContextSnapshot.tenant_id s →
         ContextSnapshot.run_id x ≠ ContextSnapshot.run_id s) →
      change T d (put_snapshot s d)
  | NewPlan p r :
      T (Plan.tenant_id p) → runs d !! Plan.run_id p = Some r →
      Run.tenant_id r = Plan.tenant_id p → Run.status r = RunStatus.PENDING →
      Plan.new p = Ok p → Forall newborn (Plan.tasks p) →
      plans d !! Plan.plan_id p = None →
      change T d (put_plan p d)
  | MoveTask x x' :
      T (Task.tenant_id x) → tasks d !! Task.task_id x = Some x → task_steps x x' →
      (Task.status x' = TaskStatus.RUNNING → ∀ u, u ∈ Task.depends_on x →
         ∃ y, tasks d !! u = Some y ∧ Task.tenant_id y = Task.tenant_id x ∧
           Task.status y = TaskStatus.SUCCEEDED) →
      change T d (put_task x' d)
  | NewAction a x r s :
      T (Action.tenant_id a) → newborn a → actions d !! Action.action_id a = None →
      tasks d !! Action.task_id a = Some x → Task.tenant_id x = Action.tenant_id a →
      Task.run_id x = Action.run_id a → Task.status x = TaskStatus.RUNNING →
      runs d !! Action.run_id a = Some r → Run.tenant_id r = Action.tenant_id a →
      Run.execution_snapshot r = Some s →
      Action.tool_name a +:+ "@" +:+ Action.tool_version a ∈ RunExecutionSnapshot.tool_versions s →
      (∀ k b, actions d !! k = Some b → Action.tenant_id b = Action.tenant_id a →
         Action.idempotency_key b ≠ Action.idempotency_key a) →
      change T d (put_action a d)
  | MoveAction a a' :
      T (Action.tenant_id a) → actions d !! Action.action_id a = Some a → action_steps a a' →
      change T d (put_action a' d)
  | NewAttempt b a :
      T (ActionAttempt.tenant_id b) →
      actions d !! ActionAttempt.action_id b = Some a →
      Action.tenant_id a = ActionAttempt.tenant_id b →
      Action.run_id a = ActionAttempt.run_id b →
      change T d (put_attempt b d)
  | NewApproval q a :
      T (ApprovalRequest.tenant_id q) → requested q →
      actions d !! ApprovalRequest.action_id q = Some a →
      ApprovalRequest.tenant_id q = Action.tenant_id a →
      ApprovalRequest.action_digest q = Action.canonical_digest a →
      approvals d !! ApprovalRequest.approval_id q = None →
      change T d (put_approval q d)
  | MoveApproval q q' approver approved why principal now :
      T (ApprovalRequest.tenant_id q) →
      approvals d !! ApprovalRequest.approval_id q = Some q →
      ApprovalRequest.decide q approver approved why principal now = Ok q' →
      change T d (put_approval q' d)
  | NewEvidence e a :
      T (Evidence.tenant_id e) → actions d !! Evidence.action_id e = Some a →
      Action.tenant_id a = Evidence.tenant_id e → Action.run_id a = Evidence.run_id e →
      (Evidence.integrity e = EvidenceIntegrity.VERIFIED →
         Evidence.capture_method e = EvidenceCaptureMethod.AUTHORITATIVE_READBACK) →
      change T d (put_evidence e d)
  | SaveSaga id s :
      T (EvidenceCaptureSaga.tenant_id s) → change T d (put_saga id s d)
  | SaveDeletion r :
      T (EvidenceDeletionRecord.tenant_id r) → change T d (put_deletion r d)
  | NewOutcome o :
      T (Outcome.tenant_id o) → Outcome.new o = Ok o →
      (∀ e, e ∈ Outcome.evidence o → evidence d !! Evidence.evidence_id e = Some e) →
      outcomes d !! Outcome.outcome_id o = None → outcome_grounded d o →
      change T d (put_outcome o d)
  | AppendAudit audit e now :
      T (AuditEvent.tenant_id audit) →
      next_link (tenant_audits (AuditEvent.tenant_id audit) (audits d)) audit now = Ok e →
      change T d (put_audit e d)
  | BindKey tenant key id digest :
      T tenant →
      (∀ v, idempotency d !! (tenant, key) = Some v →
         v = id ∧ idempotency_digests d !! (tenant, key) = Some digest) →
      change T d (bind_key tenant key id digest d).

Definition moves (T : uuid → Prop) : store → store → Prop := rtc (change T).

(** ** The invariant *)

(** Records are stored under their own identifiers, each identifier once. *)
Definition keyed {A} (id : A → uuid) (d : dict uuid A) : Prop :=
  dict_wf d ∧ ∀ k x, d !! k = Some x → id x = k.

Record store_ok (d : store) : Prop := {
  goals_keyed : keyed GoalContract.goal_id (goals d);
  runs_keyed : keyed Run.run_id (runs d);
  plans_keyed : keyed Plan.plan_id (plans d);
  tasks_keyed : keyed Task.task_id (tasks d);
  actions_keyed : keyed Action.action_id (actions d);
  approvals_keyed : keyed ApprovalRequest.approval_id (approvals d);
  evidence_keyed : keyed Evidence.evidence_id (evidence d);
  outcomes_keyed : keyed Outcome.outcome_id (outcomes d);
  goals_history : ∀ k g, goals d !! k = Some g → history_ok g;
  runs_history : ∀ k r, runs d !! k = Some r → history_ok r;
  tasks_history : ∀ k x, tasks d !! k = Some x → history_ok x;
  actions_history : ∀ k a, actions d !! k = Some a → history_ok a;
  runs_goal : ∀ k r, runs d !! k = Some r → ∃ g, goals d !! Run.goal_id r = Some g ∧
    GoalContract.tenant_id g = Run.tenant_id r;
  runs_bound : ∀ k r, runs d !! k = Some r →
    Run.status r = RunStatus.PENDING ∨ Run.status r = RunStatus.CANCELLED ∨ plan_bound d r;
  runs_limited : ∀ k g, goals d !! k = Some g →
    active_runs d (GoalContract.tenant_id g) k <= GoalContract.max_concurrent_runs g;
  runs_earned : ∀ k r, runs d !! k = Some r → Run.status r = RunStatus.SUCCEEDED → run_earned d r;
  goals_earned : ∀ k g, goals d !! k = Some g → GoalContract.status g = GoalStatus.SATISFIED →
    goal_earned d g;
  plans_valid : ∀ k p, plans d !! k = Some p → Plan.new p = Ok p;
  snapshots_unique : ∀ k1 s1 k2 s2, context_snapshots d !! k1 = Some s1 →
    context_snapshots d !! k2 = Some s2 →
    ContextSnapshot.tenant_id s1 = ContextSnapshot.tenant_id s2 →
    ContextSnapshot.run_id s1 = ContextSnapshot.run_id s2 → k1 = k2;
  actions_unique : ∀ k1 a1 k2 a2, actions d !! k1 = Some a1 → actions d !! k2 = Some a2 →
    Action.tenant_id a1 = Action.tenant_id a2 →
    Action.idempotency_key a1 = Action.idempotency_key a2 → k1 = k2;
  actions_bound : ∀ k a, actions d !! k = Some a → tool_bound d a;
  approvals_decided : ∀ k q, approvals d !! k = Some q → ∃ q0, requested q0 ∧ decided q0 q;
  evidence_authoritative : ∀ k e, evidence d !! k = Some e →
    Evidence.integrity e = EvidenceIntegrity.VERIFIED →
    Evidence.capture_method e = EvidenceCaptureMethod.AUTHORITATIVE_READBACK;
  outcomes_grounded : ∀ k o, outcomes d !! k = Some o → outcome_grounded d o;
  audits_chained : ∀ tenant, chain_ok d tenant
}.
End machine.

(** * How the store grows

    No change forgets: goals, runs, actions and approvals only move along
    their state machines, outcomes, plans and idempotency bindings are never
    altered, and the audit log is only appended to.  (Tasks and evidence are
    absent on purpose: [add_plan] and [add_evidence] overwrite what they find
    under an identifier.) *)

Open Scope string_scope.
Open Scope list_scope.
Open Scope Z_scope.

#[local] Arguments insert : simpl never.
#[local] Arguments lookup : simpl never.

(** ** Dictionaries under growth *)

Section growth.
Context {K A : Type} `{EqDecision K} (R : A → A → Prop).
Implicit Types (d : dict K A).

(** Every record of [d] is still in [d'], moved along [R]. *)
Definition grows d d' : Prop :=
  ∀ k x, d !! k = Some x → ∃ x', d' !! k = Some x' ∧ rtc R x x'.

Lemma grows_refl d : grows d d.
Proof. intros k x Hx. exists x. by split. Qed.

Lemma grows_trans d1 d2 d3 : grows d1 d2 → grows d2 d3 → grows d1 d3.
Proof.
  intros H12 H23 k x (y & Hy & Hxy)%H12. destruct (H23 k y Hy) as (z & Hz & Hyz).
  exists z. split; [done|by etrans].
Qed.

Lemma grows_fresh d k y : d !! k = None → grows d (<[k:=y]> d).
Proof.
  intros Hn k' x Hx. exists x. split; [|done].
  rewrite dict_lookup_insert_ne; [done|]. intros ->. congruence.
Qed.

Lemma grows_step d k y y' : d !! k = Some y → rtc R y y' → grows d (<[k:=y']> d).
Proof.
  intros Hy Hr k' x Hx. destruct (decide (k = k')) as [->|Hne].
  - exists y'. rewrite dict_lookup_insert. split; [done|]. by simplify_eq.
  - exists x. by rewrite dict_lookup_insert_ne.
Qed.
End growth.

(** A run moves by [transition_to] and [bind_execution]. *)
Definition run_moves (a b : Run.t) : Prop :=
  run_step a b ∨ ∃ s, Run.bind_execution a s = Ok b.

(** An approval moves by [decide]. *)
Definition approval_moves (a b : ApprovalRequest.t) : Prop :=
  ∃ approver approved why principal now,
    ApprovalRequest.decide a approver approved why principal now = Ok b.

Lemma bind_execution_ok r s r1 : Run.bind_execution r s = Ok r1 →
  r1 = r <| Run.execution_snapshot := Some s |> ∧ Run.status r = RunStatus.PENDING ∧
  ∀ s', Run.execution_snapshot r = Some s' → s' = s.
Proof.
  unfold Run.bind_execution, Run.new. intros H. inv_ok. bool_hyps.
  split; [done|]. split; [done|]. intros s' Hs'. rewrite Hs' in Hx0. by bool_hyps.
Qed.

(** What a run never changes, whatever its moves. *)
Lemma run_moves_fields a b : rtc run_moves a b →
  Run.run_id b = Run.run_id a ∧ Run.tenant_id b = Run.tenant_id a ∧
  Run.goal_id b = Run.goal_id a ∧
  (∀ s, Run.execution_snapshot a = Some s → Run.execution_snapshot b = Some s) ∧
  (RUN_TRANSITIONS (Run.status a) = [] → b = a).
Proof.
  induction 1 as [|a c b Hac _ IH]; [by split_and!|].
  destruct IH as (E1 & E2 & E3 & E4 & E5). destruct Hac as [Hs|[s Hs]].
  - pose proof Hs as (Ha & E & _)%run_step_ok.
    rewrite E in E1, E2, E3. cbn in *. split_and!; try done.
    + intros s Hsn. apply E4. by rewrite E.
    + intros Ht. by apply terminal_stuck in Ha.
  - apply bind_execution_ok in Hs as (-> & Hp & Hu). cbn in *. split_and!; try done.
    + intros s' Hs'. apply E4. f_equal. symmetry. by apply Hu.
    + rewrite Hp. done.
Qed.

Lemma goal_steps_fields a b : rtc goal_step a b →
  b = a <| GoalContract.status := GoalContract.status b |>
        <| GoalContract.version := GoalContract.version b |>
        <| GoalContract.transitions := GoalContract.transitions b |>.
Proof.
  induction 1 as [|a b c Hab _ IH]; [by destruct x|].
  apply goal_step_ok in Hab as [_ E]. rewrite IH, E at 1. done.
Qed.

(** The identifier of a decided approval is that of the request. *)
Lemma decide_identity q q' approver approved why principal now :
  ApprovalRequest.decide q approver approved why principal now = Ok q' →
  ApprovalRequest.approval_id q' = ApprovalRequest.approval_id q ∧
  ApprovalRequest.tenant_id q' = ApprovalRequest.tenant_id q.
Proof.
  unfold ApprovalRequest.decide, ApprovalRequest.new. intros H. inv_ok.
  do 2 (case_match; inv_ok; try done).
Qed.

Section machine_growth.
Context (may_retrieve : EvidenceArtifactDescriptor.t → list Z → Prop)
  (may_observe : string → uuid → list SubjectRef.t → SuccessCriterion.t →
     AuthoritativeObservation.t → Prop).
Notation change := (change may_retrieve may_observe).
Notation moves := (moves may_retrieve may_observe).

(** What every change preserves, every sequence of changes does. *)
Lemma moves_lift (P : store → store → Prop) T :
  (∀ d, P d d) → (∀ d1 d2 d3, P d1 d2 → P d2 d3 → P d1 d3) →
  (∀ d d', change T d d' → P d d') → ∀ d d', moves T d d' → P d d'.
Proof. intros Hr Ht Hc d d'. induction 1; eauto. Qed.

Lemma change_goals T d d' : change T d d' → grows goal_step (goals d) (goals d').
Proof.
  intros Hc. destruct Hc; cbn; try apply grows_refl.
  - by apply grows_fresh.
  - pose proof H1 as [_ E]%goal_step_ok. rewrite E. cbn. rewrite <- E.
    eapply grows_step; [done|by apply rtc_once].
Qed.

Lemma change_runs T d d' : change T d d' → grows run_moves (runs d) (runs d').
Proof.
  intros Hc. destruct Hc; cbn; try apply grows_refl.
  - by apply grows_fresh.
  - assert (Hm : rtc run_moves r r').
    { eapply rtc_l; [right; eauto|]. apply rtc_once. by left. }
    destruct (run_moves_fields _ _ Hm) as (-> & _). by eapply grows_step.
  - assert (Hm : rtc run_moves r r') by (apply rtc_once; by left).
    destruct (run_moves_fields _ _ Hm) as (-> & _). by eapply grows_step.
Qed.

Lemma change_actions T d d' : change T d d' → grows action_step (actions d) (actions d').
Proof.
  intros Hc. destruct Hc; cbn; try apply grows_refl.
  - by apply grows_fresh.
  - pose proof (action_steps_fields _ _ H1) as E. rewrite E. cbn. rewrite <- E.
    by eapply grows_step.
Qed.

Lemma change_approvals T d d' : change T d d' → grows approval_moves (approvals d) (approvals d').
Proof.
  intros Hc. destruct Hc; cbn; try apply grows_refl.
  - by apply grows_fresh.
  - pose proof H1 as [-> _]%decide_identity.
    eapply grows_step; [done|]. apply rtc_once. by repeat eexists.
Qed.

(** Outcomes, plans and idempotency bindings never change. *)
Lemma change_outcomes T d d' k o : change T d d' → outcomes d !! k = Some o →
  outcomes d' !! k = Some o.
Proof.
  intros Hc Ho. destruct Hc; cbn; try done.
  rewrite dict_lookup_insert_ne; [done|]. intros <-. congruence.
Qed.

Lemma change_plans T d d' k p : change T d d' → plans d !! k = Some p → plans d' !! k = Some p.
Proof.
  intros Hc Hp. destruct Hc; cbn; try done.
  rewrite dict_lookup_insert_ne; [done|]. intros <-. congruence.
Qed.

Lemma change_keys T d d' k v g : change T d d' →
  idempotency d !! k = Some v → idempotency_digests d !! k = Some g →
  idempotency d' !! k = Some v ∧ idempotency_digests d' !! k = Some g.
Proof.
  intros Hc Hv Hg. destruct Hc; cbn; try done.
  rewrite !dict_lookup_insert_Some.
  destruct (decide ((tenant, key) = k)) as [<-|Hne]; [|by split; right].
  destruct (H0 v Hv) as [-> Hd]. split; left; [done|]. split; [done|]. congruence.
Qed.

Lemma change_audits T d d' : change T d d' → ∃ l, audits d' = audits d ++ l.
Proof.
  intros Hc. destruct Hc; cbn; try (exists []; by rewrite app_nil_r). by eexists.
Qed.

(** The same for any number of changes. *)
Lemma moves_goals T d d' : moves T d d' → grows goal_step (goals d) (goals d').
Proof.
  apply (moves_lift (fun d d' => grows goal_step (goals d) (goals d'))).
  - intros. apply grows_refl.
  - intros d1 d2 d3. apply grows_trans.
  - apply change_goals.
Qed.

Lemma moves_runs T d d' : moves T d d' → grows run_moves (runs d) (runs d').
Proof.
  apply (moves_lift (fun d d' => grows run_moves (runs d) (runs d'))).
  - intros. apply grows_refl.
  - intros d1 d2 d3. apply grows_trans.
  - apply change_runs.
Qed.

Lemma moves_actions T d d' : moves T d d' → grows action_step (actions d) (actions d').
Proof.
  apply (moves_lift (fun d d' => grows action_step (actions d) (actions d'))).
  - intros. apply grows_refl.
  - intros d1 d2 d3. apply grows_trans.
  - apply change_actions.
Qed.

Lemma moves_approvals T d d' : moves T d d' → grows approval_moves (approvals d) (approvals d').
Proof.
  apply (moves_lift (fun d d' => grows approval_moves (approvals d) (approvals d'))).
  - intros. apply grows_refl.
  - intros d1 d2 d3. apply grows_trans.
  - apply change_approvals.
Qed.

Lemma moves_outcomes T d d' k o : moves T d d' → outcomes d !! k = Some o →
  outcomes d' !! k = Some o.
Proof. induction 1; eauto using change_outcomes. Qed.

Lemma moves_plans T d d' k p : moves T d d' → plans d !! k = Some p → plans d' !! k = Some p.
Proof. induction 1; eauto using change_plans. Qed.

Lemma moves_keys T d d' k v g : moves T d d' →
  idempotency d !! k = Some v → idempotency_digests d !! k = Some g →
  idempotency d' !! k = Some v ∧ idempotency_digests d' !! k = Some g.
Proof.
  induction 1 as [|d d1 d2 Hc _ IH]; [done|]. intros Hv Hg.
  destruct (change_keys _ _ _ _ _ _ Hc Hv Hg). by apply IH.
Qed.

Lemma moves_audits T d d' : moves T d d' → ∃ l, audits d' = audits d ++ l.
Proof.
  induction 1 as [d|d d1 d2 Hc _ [l IH]]; [exists []; by rewrite app_nil_r|].
  apply change_audits in Hc as [l' E]. exists (l' ++ l). by rewrite IH, E, app_assoc.
Qed.
End machine_growth.
