(* ===== verification/MachineInvariant.v ===== *)
(** * The invariant of the platform

    [change_ok]: every change of [Machine] keeps [store_ok], one lemma per
    clause of the invariant; [moves_ok] for any number of changes. *)

From stdpp Require Import relations.
From S2P Require Import Prelude PyStr Effects PyDict Transitions Values Goals Execution.
From S2P Require Import ExecutionObjects History Digests ContextDomain AuditChain Verification.
From S2P Require Import Store Application RunCommands Machine.
From Stdlib Require Import ZArith.

Open Scope string_scope.
Open Scope list_scope.
Open Scope Z_scope.

#[local] Arguments insert : simpl never.
#[local] Arguments lookup : simpl never.

Lemma keyed_insert {A} (id : A → uuid) (d : dict uuid A) x :
  keyed id d → keyed id (<[id x := x]> d).
Proof.
  intros [Hwf Hk]. split; [by apply dict_insert_wf|].
  intros k y [[<- <-]|[_ Hy]]%dict_lookup_insert_Some; [done|eauto].
Qed.

Lemma keyed_fill {A} (id : A → uuid) l (d : dict uuid A) :
  keyed id d → keyed id (foldl (fun acc y => <[id y := y]> acc) d l).
Proof.
  intros [Hwf Hk]. split; [by apply dict_fill_wf|].
  intros k x [Hx|[_ Hx]]%dict_fill_lookup; [eauto|done].
Qed.

(** ** Counting the active runs *)

Definition counted (tenant goal_id : uuid) (r : Run.t) : bool :=
  bool_decide (Run.tenant_id r = tenant) && bool_decide (Run.goal_id r = goal_id) &&
  run_is_active r.

Lemma active_runs_counted d tenant goal_id :
  active_runs d tenant goal_id =
  Z.of_nat (length (List.filter (counted tenant goal_id) (values (runs d)))).
Proof.
  unfold active_runs, count. f_equal. f_equal.
  induction (values (runs d)) as [|r l IH]; [done|]. cbn [List.filter].
  destruct (counted tenant goal_id r) eqn:E; unfold counted in E;
    destruct (bool_decide (_ = tenant) && _); cbn [andb List.filter] in *; rewrite ?E;
    congruence || by rewrite IH.
Qed.

Lemma counted_active t g r : counted t g r = true → run_is_active r = true.
Proof. unfold counted. intros. by bool_hyps. Qed.

Lemma active_runs_fresh d r t g : runs d !! Run.run_id r = None →
  active_runs (put_run r d) t g = active_runs d t g + (if counted t g r then 1 else 0).
Proof.
  intros Hn. rewrite !active_runs_counted. cbn. rewrite values_insert_fresh by done.
  rewrite List.filter_app, length_app. cbn [List.filter].
  destruct (counted t g r); cbn [length]; lia.
Qed.

(** A run that moves can only leave the active ones. *)
Lemma active_runs_moved d r r' t g :
  runs d !! Run.run_id r' = Some r → (counted t g r' = true → counted t g r = true) →
  active_runs (put_run r' d) t g <= active_runs d t g.
Proof.
  intros Hr Hc. rewrite !active_runs_counted. cbn.
  destruct (values_insert_present _ _ _ r' Hr) as (l1 & l2 & -> & ->).
  rewrite !List.filter_app, !length_app. cbn [List.filter].
  destruct (counted t g r'); [rewrite Hc by done; cbn [length]; lia|].
  destruct (counted t g r); cbn [length]; lia.
Qed.

Lemma run_moves_counted t g a b : rtc run_moves a b →
  counted t g b = true → counted t g a = true.
Proof.
  intros (_ & Et & Eg & _ & Hterm)%run_moves_fields. unfold counted. rewrite Et, Eg.
  intros [Hb Hact]%andb_true_iff. rewrite Hb. cbn [andb].
  unfold run_is_active in *. destruct (Run.status a) eqn:Ea; try done;
    rewrite Hterm in Hact by done; rewrite Ea in Hact; done.
Qed.

(** ** Chains *)

Lemma next_link_tenant previous audit now e : next_link previous audit now = Ok e →
  AuditEvent.tenant_id e = AuditEvent.tenant_id audit.
Proof.
  unfold next_link, AuditEvent.chained. intros H.
  destruct (last previous); inv_ok; done.
Qed.

Lemma tenant_audits_app t l1 l2 : tenant_audits t (l1 ++ l2) = tenant_audits t l1 ++ tenant_audits t l2.
Proof. apply List.filter_app. Qed.

Section invariant.
Context (may_retrieve : EvidenceArtifactDescriptor.t → list Z → Prop)
  (may_observe : string → uuid → list SubjectRef.t → SuccessCriterion.t →
     AuthoritativeObservation.t → Prop).
Notation change := (change may_retrieve may_observe).
Notation moves := (moves may_retrieve may_observe).
Notation store_ok := (store_ok may_retrieve may_observe).
Notation outcome_grounded := (outcome_grounded may_retrieve may_observe).

Section one_change.
Context (T : uuid → Prop) (d d' : store) (Hok : store_ok d) (Hc : change T d d').

Lemma change_keyed :
  keyed GoalContract.goal_id (goals d') ∧ keyed Run.run_id (runs d') ∧
  keyed Plan.plan_id (plans d') ∧ keyed Task.task_id (tasks d') ∧
  keyed Action.action_id (actions d') ∧
  keyed ApprovalRequest.approval_id (approvals d') ∧ keyed Evidence.evidence_id (evidence d') ∧
  keyed Outcome.outcome_id (outcomes d').
Proof.
  destruct Hok. destruct Hc; cbn; split_and!; try assumption; try by apply keyed_insert.
  by apply keyed_fill.
Qed.

Lemma change_history :
  (∀ k g, goals d' !! k = Some g → history_ok g) ∧ (∀ k r, runs d' !! k = Some r → history_ok r) ∧
  (∀ k x, tasks d' !! k = Some x → history_ok x) ∧
  (∀ k a, actions d' !! k = Some a → history_ok a).
Proof.
  pose proof (goals_history _ _ _ Hok) as Hg. pose proof (runs_history _ _ _ Hok) as Hr.
  pose proof (tasks_history _ _ _ Hok) as Hx. pose proof (actions_history _ _ _ Hok) as Ha.
  destruct Hc; cbn; split_and!; try assumption; intros k z Hz.
  all: try (apply dict_lookup_insert_Some in Hz as [[_ <-]|[_ Hz]]; [|by eauto]).
  - by apply newborn_history.
  - eapply advances_history; [by eapply Hg|by apply goal_step_ok].
  - by apply newborn_history.
  - apply bind_execution_ok in H1 as (-> & _).
    eapply advances_history; [|by apply run_step_ok].
    pose proof (Hr _ _ H0) as Hh. exact Hh.
  - eapply advances_history; [by eapply Hr|by apply run_step_ok].
  - apply dict_fill_lookup in Hz as [Hz|[Hz _]]; [by eauto|]. rewrite Forall_forall in H4.
    by apply newborn_history, H4.
  - eapply (steps_history task_step); [|done|by eapply Hx].
    intros a b Hab. by apply task_step_ok.
  - by apply newborn_history.
  - eapply (steps_history action_step); [|done|by eapply Ha].
    intros a1 b Hab. by apply action_step_ok.
Qed.

(** A goal of [d] in [d']: the same but for status, version and history. *)
Lemma change_goal k g : goals d !! k = Some g →
  ∃ g', goals d' !! k = Some g' ∧ rtc goal_step g g' ∧
    GoalContract.tenant_id g' = GoalContract.tenant_id g ∧
    GoalContract.goal_id g' = GoalContract.goal_id g ∧
    GoalContract.max_concurrent_runs g' = GoalContract.max_concurrent_runs g ∧
    GoalContract.success_criteria g' = GoalContract.success_criteria g ∧
    GoalContract.subject_refs g' = GoalContract.subject_refs g.
Proof.
  intros Hg. destruct (change_goals _ _ _ _ _ Hc k g Hg) as (g' & Hg' & Hs).
  exists g'. split; [done|]. split; [done|].
  apply goal_steps_fields in Hs as E. rewrite E. by split_and!.
Qed.

(** A run of [d'] is new or moved from one of [d]. *)
Lemma change_run k r2 : runs d' !! k = Some r2 →
  (∃ r, runs d !! k = Some r ∧ rtc run_moves r r2) ∨
  (runs d !! k = None ∧ newborn r2 ∧ goals d' = goals d ∧
   ∃ g, goals d !! Run.goal_id r2 = Some g ∧ GoalContract.tenant_id g = Run.tenant_id r2 ∧
     active_runs d (Run.tenant_id r2) (Run.goal_id r2) < GoalContract.max_concurrent_runs g).
Proof.
  intros Hr. destruct (runs d !! k) as [r|] eqn:E.
  - left. exists r. split; [done|].
    destruct (change_runs _ _ _ _ _ Hc k r E) as (? & ? & ?). by simplify_eq.
  - right. split; [done|]. destruct Hc; cbn in *; try congruence.
    + apply dict_lookup_insert_Some in Hr as [[<- <-]|[_ Hr]]; [|congruence]. eauto 10.
    + apply dict_lookup_insert_Some in Hr as [[<- <-]|[_ Hr]]; [|congruence].
      assert (Run.run_id r' = Run.run_id r) by (apply bind_execution_ok in H1 as (-> & _);
        apply run_step_ok in H2 as (_ & -> & _); done). congruence.
    + apply dict_lookup_insert_Some in Hr as [[<- <-]|[_ Hr]]; [|congruence].
      assert (Run.run_id r' = Run.run_id r) by (apply run_step_ok in H1 as (_ & -> & _); done).
      congruence.
Qed.

Lemma change_runs_goal k r : runs d' !! k = Some r → ∃ g, goals d' !! Run.goal_id r = Some g ∧
  GoalContract.tenant_id g = Run.tenant_id r.
Proof.
  intros [(r0 & Hr0 & Hm)|(_ & _ & -> & g & Hg & Ht & _)]%change_run; [|by eauto].
  destruct (runs_goal _ _ _ Hok _ _ Hr0) as (g & Hg & Ht).
  apply run_moves_fields in Hm as (_ & Et & Eg & _). rewrite Et, Eg.
  destruct (change_goal _ _ Hg) as (g' & ? & _ & ? & _). exists g'. split; [done|congruence].
Qed.

Lemma plan_bound_mono r : plan_bound d r → plan_bound d' r.
Proof.
  intros (s & p & Hs & Hp & Hr & Ht). exists s, p. split_and!; try done.
  by eapply change_plans.
Qed.

Lemma change_runs_bound k r : runs d' !! k = Some r →
  Run.status r = RunStatus.PENDING ∨ Run.status r = RunStatus.CANCELLED ∨ plan_bound d' r.
Proof.
  assert (Hold : ∀ k r, runs d !! k = Some r → Run.status r = RunStatus.PENDING ∨
    Run.status r = RunStatus.CANCELLED ∨ plan_bound d' r).
  { intros k0 r0 Hr0. destruct (runs_bound _ _ _ Hok _ _ Hr0) as [?|[?|?]]; auto using plan_bound_mono. }
  pose proof plan_bound_mono as Hmono. clear Hok.
  destruct Hc; cbn in *; try by apply Hold.
  all: intros [[_ <-]|[_ Hr]]%dict_lookup_insert_Some; [|by eapply Hold].
  - left. apply H0.
  - right. right. by apply Hmono.
  - right. pose proof H1 as (Ha & E & _)%run_step_ok. apply advances_status in Ha. cbn in Ha.
    destruct (Hold _ _ H0) as [Hp|[Hx|Hb]].
    + rewrite Hp in Ha. cbn in Ha. apply elem_of_cons in Ha as [?|Ha]; [done|].
      apply list_elem_of_singleton in Ha. by left.
    + rewrite Hx in Ha. by apply elem_of_nil in Ha.
    + right. destruct Hb as (s & p & ? & ? & ? & ?). exists s, p. rewrite E. by split_and!.
Qed.

Lemma change_runs_limited k g : goals d' !! k = Some g →
  active_runs d' (GoalContract.tenant_id g) k <= GoalContract.max_concurrent_runs g.
Proof.
  assert (Hle : ∀ g0, goals d !! k = Some g0 → GoalContract.tenant_id g0 = GoalContract.tenant_id g →
    GoalContract.max_concurrent_runs g0 = GoalContract.max_concurrent_runs g →
    active_runs d (GoalContract.tenant_id g) k <= GoalContract.max_concurrent_runs g).
  { intros g0 Hg0 <- <-. by apply (runs_limited _ _ _ Hok). }
  intros Hg. destruct (goals d !! k) as [g0|] eqn:E.
  - destruct (change_goal _ _ E) as (g1 & Hg1 & _ & Et & _ & Em & _).
    assert (g1 = g) as -> by congruence. specialize (Hle g0 eq_refl (eq_sym Et) (eq_sym Em)).
    pose proof change_run as Hrun. pose proof change_runs as Hgrow.
    specialize (Hgrow _ _ _ _ _ Hc). clear Hok.
    destruct Hc; cbn in *; try exact Hle.
    + rewrite active_runs_fresh by done. destruct (counted _ _ _) eqn:Ec; [|lia].
      apply andb_true_iff in Ec as [Ec _]. apply andb_true_iff in Ec as [Ec1 Ec2]. bool_hyps. subst k.
      assert (g1 = g0) as -> by congruence.
      replace (GoalContract.tenant_id g) with (Run.tenant_id r) by congruence. lia.
    + etrans; [|exact Hle]. destruct (Hgrow _ _ H0) as (? & Hi & Hm).
      assert (Ei : Run.run_id r' = Run.run_id r) by (apply bind_execution_ok in H1 as (-> & _);
        apply run_step_ok in H2 as (_ & -> & _); done).
      rewrite <- Ei, dict_lookup_insert in Hi. injection Hi as <-.
      apply (active_runs_moved d r r'); [by rewrite Ei|]. by apply run_moves_counted.
    + etrans; [|exact Hle]. destruct (Hgrow _ _ H0) as (? & Hi & Hm).
      assert (Ei : Run.run_id r' = Run.run_id r) by (apply run_step_ok in H1 as (_ & -> & _); done).
      rewrite <- Ei, dict_lookup_insert in Hi. injection Hi as <-.
      apply (active_runs_moved d r r'); [by rewrite Ei|]. by apply run_moves_counted.
  - pose proof (runs_goal _ _ _ Hok) as Hgoal. pose proof (runs_keyed _ _ _ Hok) as [Hwf _].
    clear Hok Hle. destruct Hc; cbn in *; try congruence.
    + apply dict_lookup_insert_Some in Hg as [[<- <-]|[_ Hg]]; [|congruence].
      rewrite active_runs_counted. cbn.
      destruct (List.filter _ _) as [|r l] eqn:Ef.
      * unfold GoalContract.new, GoalContract.post_init in H1. inv_ok. bool_hyps. cbn. lia.
      * assert (Hin : r ∈ r :: l) by left. rewrite <- Ef in Hin.
        apply elem_of_list_filter in Hin as [Hin Hcnt]. unfold counted in Hcnt. bool_hyps.
        apply values_lookup in Hin as [kr Hin]; [|done].
        destruct (Hgoal _ _ Hin) as (g1 & Hg1 & _). congruence.
    + apply dict_lookup_insert_Some in Hg as [[<- <-]|[_ Hg]]; [|congruence].
      apply goal_step_ok in H1 as [_ E1]. rewrite E1 in E. cbn in E. congruence.
Qed.

(** ** Deserved successes stay deserved *)

(** The tasks of a run that has succeeded are left alone. *)
Lemma earned_tasks_stay k r : runs d !! k = Some r → Run.status r = RunStatus.SUCCEEDED →
  run_earned d r → ∀ j x, tasks d' !! j = Some x → Task.tenant_id x = Run.tenant_id r →
  Task.run_id x = Run.run_id r → Task.status x = TaskStatus.SUCCEEDED.
Proof.
  intros Hr Hs He. pose proof (earned_tasks _ _ He) as Ht.
  pose proof (proj2 (runs_keyed _ _ _ Hok) _ _ Hr) as Ek. clear Hok He.
  destruct Hc; cbn in *; try exact Ht.
  - intros j x [Hx|[Hx _]]%dict_fill_lookup Etx Exr; [by eapply Ht|].
    destruct (plan_new_cases p) as [[Hv _]|[_ [msg Hm]]]; [|by rewrite H3 in Hm].
    apply (pv_owner _ Hv) in Hx as [_ Hx].
    assert (r0 = r) as -> by congruence. congruence.
  - intros j y [[_ <-]|[_ Hy]]%dict_lookup_insert_Some; [|exact (Ht _ _ Hy)]. intros E1 E2.
    pose proof (task_steps_fields _ _ H1) as E. rewrite E in E1, E2. cbn in E1, E2.
    specialize (Ht _ _ H0 E1 E2).
    assert (x' = x) as ->; [|done]. eapply (steps_terminal task_step); [|done|by cbn; rewrite Ht].
    intros a b. apply task_step_ok.
Qed.

(** So are its actions. *)
Lemma earned_actions_stay k r : runs d !! k = Some r → run_earned d r →
  ∀ j a, actions d' !! j = Some a → Action.tenant_id a = Run.tenant_id r →
  Action.run_id a = Run.run_id r → Action.status a = ActionStatus.SUCCEEDED.
Proof.
  intros Hr He. pose proof (earned_tasks _ _ He) as Ht. pose proof (earned_actions _ _ He) as Ha.
  clear Hok He. destruct Hc; cbn in *; try exact Ha.
  - intros j b [[_ <-]|[_ Hb]]%dict_lookup_insert_Some; [|exact (Ha _ _ Hb)]. intros E1 E2.
    rewrite (Ht (Action.task_id a) x) in H5; [done|done|congruence..].
  - intros j b [[_ <-]|[_ Hb]]%dict_lookup_insert_Some; [|exact (Ha _ _ Hb)]. intros E1 E2.
    pose proof (action_steps_fields _ _ H1) as E. rewrite E in E1, E2. cbn in E1, E2.
    specialize (Ha _ _ H0 E1 E2).
    assert (a' = a) as ->; [|done]. eapply (steps_terminal action_step); [|done|by cbn; rewrite Ha].
    intros x y. apply action_step_ok.
Qed.

Lemma verified_stay r g g' : GoalContract.success_criteria g' = GoalContract.success_criteria g →
  outcomes_verified d r g → outcomes_verified d' r g'.
Proof.
  intros E Hv c Hin. unfold criteria in Hin. rewrite E in Hin.
  destruct (Hv c Hin) as (j & o & Ho & ?). exists j, o. split; [|done]. by eapply change_outcomes.
Qed.

Lemma earned_stay k r : runs d !! k = Some r → Run.status r = RunStatus.SUCCEEDED →
  run_earned d r → run_earned d' r.
Proof.
  intros Hr Hs He. constructor.
  - by eapply earned_tasks_stay.
  - by eapply earned_actions_stay.
  - destruct (earned_outcomes _ _ He) as (g & Hg & Et & Hv).
    destruct (change_goal _ _ Hg) as (g' & Hg' & _ & Et' & _ & _ & Ec & _).
    exists g'. split; [done|]. split; [congruence|]. by eapply verified_stay.
Qed.

Lemma change_runs_earned k r : runs d' !! k = Some r → Run.status r = RunStatus.SUCCEEDED →
  run_earned d' r.
Proof.
  intros Hr Hs. destruct (change_run _ _ Hr) as [(r0 & Hr0 & Hm)|(_ & Hn & _)]; cycle 1.
  { destruct Hn as (E & _). cbn in E. congruence. }
  destruct (decide (Run.status r0 = RunStatus.SUCCEEDED)) as [Hs0|Hs0].
  { assert (r = r0) as ->.
    { apply run_moves_fields in Hm as (_ & _ & _ & _ & Ht). apply Ht. by rewrite Hs0. }
    eapply earned_stay; [done..|]. by eapply (runs_earned _ _ _ Hok). }
  pose proof (runs_keyed _ _ _ Hok) as Hkey. clear Hok.
  destruct Hc; cbn in *; try congruence;
    apply dict_lookup_insert_Some in Hr as [[<- <-]|[_ Hr]]; try congruence.
  apply run_step_ok in H1 as (_ & E & _). destruct (H3 Hs) as [H5 H6 H7].
  rewrite E. constructor; done.
Qed.

Lemma goal_earned_stay g g' : goal_earned d g → rtc goal_step g g' → goal_earned d' g'.
Proof.
  intros (k & r & Hr & Eg & Et & Hs & Hv) Hst%goal_steps_fields. exists k, r.
  destruct (change_runs _ _ _ _ _ Hc _ _ Hr) as (r' & Hr' & Hm).
  apply run_moves_fields in Hm as (_ & _ & _ & _ & Hterm).
  rewrite (Hterm ltac:(by rewrite Hs)) in Hr'.
  rewrite Hst. cbn. split_and!; try done. by eapply verified_stay.
Qed.

Lemma change_goals_earned k g : goals d' !! k = Some g →
  GoalContract.status g = GoalStatus.SATISFIED → goal_earned d' g.
Proof.
  intros Hg Hs. destruct (goals d !! k) as [g0|] eqn:E.
  - destruct (change_goal _ _ E) as (g1 & Hg1 & Hst & _). assert (g1 = g) as -> by congruence.
    destruct (decide (GoalContract.status g0 = GoalStatus.SATISFIED)) as [Hs0|Hs0].
    { eapply goal_earned_stay; [|done]. by eapply (goals_earned _ _ _ Hok). }
    pose proof goal_earned_stay as Hstay. clear Hok.
    assert (Hold : goals d' !! k = goals d !! k → False) by congruence.
    destruct Hc; cbn in *; try (by destruct (Hold eq_refl)).
    + destruct (decide (GoalContract.goal_id g1 = k)) as [<-|Hne]; [congruence|].
      by rewrite dict_lookup_insert_ne in Hold by done.
    + destruct (decide (GoalContract.goal_id g' = k)) as [<-|Hne];
        [|by rewrite dict_lookup_insert_ne in Hold by done].
      rewrite dict_lookup_insert in Hg. injection Hg as ->.
      eapply Hstay; [by apply H2|by apply rtc_once].
  - clear Hok. destruct Hc; cbn in *; try congruence;
      apply dict_lookup_insert_Some in Hg as [[<- <-]|[_ Hg]]; try congruence.
    + destruct H0 as (E0 & _). cbn in E0. congruence.
    + apply goal_step_ok in H1 as [_ E1]. rewrite E1 in E. cbn in E. congruence.
Qed.

Lemma change_actions_unique k1 a1 k2 a2 : actions d' !! k1 = Some a1 → actions d' !! k2 = Some a2 →
  Action.tenant_id a1 = Action.tenant_id a2 →
  Action.idempotency_key a1 = Action.idempotency_key a2 → k1 = k2.
Proof.
  pose proof (actions_unique _ _ _ Hok) as Hu. pose proof (actions_keyed _ _ _ Hok) as [_ Hkey].
  clear Hok. destruct Hc; cbn in *; try by apply Hu.
  all: intros [[<- <-]|[Hn1 H1']]%dict_lookup_insert_Some
         [[<- <-]|[Hn2 H2']]%dict_lookup_insert_Some Et Ei; try done.
  - by destruct (H10 _ _ H2').
  - by destruct (H10 _ _ H1').
  - by eapply Hu.
  - pose proof (action_steps_fields _ _ H1) as E. rewrite E in Et, Ei |- *. cbn in *. by eapply Hu.
  - pose proof (action_steps_fields _ _ H1) as E. rewrite E in Et, Ei |- *. cbn in *. by eapply Hu.
  - by eapply Hu.
Qed.

Lemma change_approvals_decided k q : approvals d' !! k = Some q →
  ∃ q0, requested q0 ∧ decided q0 q.
Proof.
  pose proof (approvals_decided _ _ _ Hok) as Hd. clear Hok.
  destruct Hc; cbn; try apply Hd; intros [[_ <-]|[_ Hq]]%dict_lookup_insert_Some; eauto.
  - exists q0. split; [done|constructor].
  - destruct (Hd _ _ H0) as (q1 & ? & ?). exists q1. split; [done|]. by econstructor.
Qed.

Lemma change_evidence k e : evidence d' !! k = Some e →
  Evidence.integrity e = EvidenceIntegrity.VERIFIED →
  Evidence.capture_method e = EvidenceCaptureMethod.AUTHORITATIVE_READBACK.
Proof.
  pose proof (evidence_authoritative _ _ _ Hok) as Hd. clear Hok.
  destruct Hc; cbn; try apply Hd; intros [[_ <-]|[_ Hq]]%dict_lookup_insert_Some; eauto.
Qed.

Lemma grounded_stay o : outcome_grounded d o → outcome_grounded d' o.
Proof.
  intros (r & g & c & now & Hr & Er & Erg & Hg & Et & Hin & Ec & Ev & Hgr).
  destruct (change_goal _ _ Hg) as (g' & Hg' & _ & Et' & _ & _ & Ecr & Esub).
  destruct (change_runs _ _ _ _ _ Hc _ r Hr) as (r' & Hr' & (_ & Er' & Erg' & _)%run_moves_fields).
  exists r', g', c, now. rewrite Ecr, Esub, Et', Er', Erg'. by split_and!.
Qed.

Lemma change_outcomes_grounded k o : outcomes d' !! k = Some o → outcome_grounded d' o.
Proof.
  assert (Hd : ∀ k o, outcomes d !! k = Some o → outcome_grounded d' o)
    by (intros; by eapply grounded_stay, (outcomes_grounded _ _ _ Hok)).
  pose proof grounded_stay as Hg. clear Hok.
  destruct Hc; cbn in *; try apply Hd; intros [[_ <-]|[_ Ho]]%dict_lookup_insert_Some; eauto.
Qed.

Lemma change_plans_valid k p : plans d' !! k = Some p → Plan.new p = Ok p.
Proof.
  pose proof (plans_valid _ _ _ Hok) as Hp. clear Hok.
  destruct Hc; cbn in *; try apply Hp; intros [[_ <-]|[_ Ho]]%dict_lookup_insert_Some; eauto.
Qed.

Lemma change_snapshots_unique k1 s1 k2 s2 : context_snapshots d' !! k1 = Some s1 →
  context_snapshots d' !! k2 = Some s2 →
  ContextSnapshot.tenant_id s1 = ContextSnapshot.tenant_id s2 →
  ContextSnapshot.run_id s1 = ContextSnapshot.run_id s2 → k1 = k2.
Proof.
  pose proof (snapshots_unique _ _ _ Hok) as Hs. clear Hok.
  destruct Hc; cbn in *; try apply Hs.
  intros [[<- <-]|[_ Ho1]]%dict_lookup_insert_Some [[<- <-]|[_ Ho2]]%dict_lookup_insert_Some Et Er.
  - done.
  - by destruct (H0 _ _ Ho2).
  - by destruct (H0 _ _ Ho1).
  - by eapply Hs.
Qed.

Lemma tool_bound_stay a : tool_bound d a → tool_bound d' a.
Proof.
  intros (r & s & Hr & Et & Es & Hin).
  destruct (change_runs _ _ _ _ _ Hc _ r Hr) as (r' & Hr' & (_ & Et' & _ & Hs & _)%run_moves_fields).
  exists r', s. rewrite Et'. split_and!; auto.
Qed.

Lemma change_actions_bound k a : actions d' !! k = Some a → tool_bound d' a.
Proof.
  assert (Hd : ∀ k a, actions d !! k = Some a → tool_bound d' a)
    by (intros; by eapply tool_bound_stay, (actions_bound _ _ _ Hok)).
  pose proof tool_bound_stay as Hs. clear Hok.
  destruct Hc; cbn in *; try apply Hd; intros [[_ <-]|[_ Ha]]%dict_lookup_insert_Some; eauto.
  - apply Hs. by exists r, s.
  - apply Hd in H0. apply action_steps_fields in H1. rewrite H1. exact H0.
Qed.

Lemma change_audits_chained tenant : chain_ok d' tenant.
Proof.
  pose proof (audits_chained _ _ _ Hok tenant) as Hch. clear Hok.
  destruct Hc; try exact Hch. unfold chain_ok in *.
  change (audits (put_audit e d)) with (audits d ++ [e]). rewrite tenant_audits_app.
  unfold tenant_audits at 2. cbn [List.filter].
  case_bool_decide as Ht; [|by rewrite app_nil_r].
  rewrite (next_link_tenant _ _ _ _ H0) in Ht. subst. by eapply link_verifies.
Qed.

Lemma change_ok : store_ok d'.
Proof.
  destruct change_keyed as (? & ? & ? & ? & ? & ? & ? & ?). destruct change_history as (? & ? & ? & ?).
  constructor; try assumption.
  - apply change_runs_goal.
  - apply change_runs_bound.
  - apply change_runs_limited.
  - apply change_runs_earned.
  - apply change_goals_earned.
  - apply change_plans_valid.
  - apply change_snapshots_unique.
  - apply change_actions_unique.
  - apply change_actions_bound.
  - apply change_approvals_decided.
  - apply change_evidence.
  - apply change_outcomes_grounded.
  - apply change_audits_chained.
Qed.
End one_change.

Lemma moves_ok T d d' : store_ok d → moves T d d' → store_ok d'.
Proof. intros Hok Hm. induction Hm; eauto using change_ok. Qed.

Lemma empty_store_ok : store_ok empty_store.
Proof.
  constructor; try (split; [apply dict_empty_wf|]); try (intros ? ? ?; done); done.
Qed.
End invariant.

(** * Tenant isolation in the store

    [unaffected t d d']: what tenant [t] owns is the same in [d] and [d'].
    Changes made for other tenants leave a tenant unaffected.  Tasks and
    evidence are not claimed: [add_plan] and [add_evidence] write under
    identifiers their callers choose (see [SamplePlatform]). *)

Open Scope string_scope.
Open Scope list_scope.
Open Scope Z_scope.

#[local] Arguments insert : simpl never.
#[local] Arguments lookup : simpl never.

(** The records of tenant [t] are the same in both dictionaries. *)
Definition same_records {A} (owner : A → uuid) (t : uuid) (d d' : dict uuid A) : Prop :=
  ∀ k x, owner x = t → d' !! k = Some x ↔ d !! k = Some x.

Lemma same_records_refl {A} (owner : A → uuid) t d : same_records owner t d d.
Proof. by intros k x. Qed.

Lemma same_records_insert {A} (owner : A → uuid) t (d : dict uuid A) k x :
  owner x ≠ t → (∀ y, d !! k = Some y → owner y ≠ t) → same_records owner t d (<[k:=x]> d).
Proof.
  intros Hx Hy k' z Hz. rewrite dict_lookup_insert_Some. split.
  - by intros [[-> ->]|[_ ?]].
  - intros H. right. split; [|done]. intros ->. by eapply Hy.
Qed.

Lemma same_records_fresh {A} (owner : A → uuid) t (d : dict uuid A) k x :
  owner x ≠ t → d !! k = None → same_records owner t d (<[k:=x]> d).
Proof. intros Hx Hn. apply same_records_insert; [done|]. intros y Hy. congruence. Qed.

Record unaffected (t : uuid) (d d' : store) : Prop := {
  same_goals : same_records GoalContract.tenant_id t (goals d) (goals d');
  same_runs : same_records Run.tenant_id t (runs d) (runs d');
  same_plans : same_records Plan.tenant_id t (plans d) (plans d');
  same_actions : same_records Action.tenant_id t (actions d) (actions d');
  same_approvals : same_records ApprovalRequest.tenant_id t (approvals d) (approvals d');
  same_outcomes : same_records Outcome.tenant_id t (outcomes d) (outcomes d');
  same_audits : tenant_audits t (audits d') = tenant_audits t (audits d);
  same_keys : ∀ key, idempotency d' !! (t, key) = idempotency d !! (t, key) ∧
    idempotency_digests d' !! (t, key) = idempotency_digests d !! (t, key)
}.

Lemma unaffected_refl t d : unaffected t d d.
Proof. by constructor; try apply same_records_refl. Qed.

Lemma unaffected_trans t d1 d2 d3 : unaffected t d1 d2 → unaffected t d2 d3 → unaffected t d1 d3.
Proof.
  assert (Htr : ∀ A (owner : A → uuid) a b c,
    same_records owner t a b → same_records owner t b c → same_records owner t a c).
  { intros A owner a b c H1 H2 k x Hx. by rewrite (H2 k x Hx), (H1 k x Hx). }
  intros [] []. constructor; try (by eapply Htr); [congruence|].
  intros key. destruct (same_keys0 key), (same_keys1 key). split; congruence.
Qed.

Section isolation.
Context (may_retrieve : EvidenceArtifactDescriptor.t → list Z → Prop)
  (may_observe : string → uuid → list SubjectRef.t → SuccessCriterion.t →
     AuthoritativeObservation.t → Prop) (T : uuid → Prop) (t : uuid) (Ht : ¬ T t).
Notation change := (change may_retrieve may_observe T).
Notation moves := (moves may_retrieve may_observe T).

Lemma other_owner {A} (owner : A → uuid) x : T (owner x) → owner x ≠ t.
Proof. by intros Hx <-. Qed.

Ltac elsewhere := constructor; try apply same_records_refl; try done; cbn.
Ltac moved E := apply same_records_insert; [rewrite E; by apply other_owner|];
  intros ? ?; simplify_eq; by apply other_owner.

Lemma change_unaffected d d' : change d d' → unaffected t d d'.
Proof.
  intros Hc. destruct Hc; elsewhere; try (apply same_records_fresh; [by apply other_owner|done]).
  - apply goal_step_ok in H1 as [_ E]. rewrite E. cbn. moved E.
  - apply bind_execution_ok in H1 as (E1 & _ & _). apply run_step_ok in H2 as (_ & E & _).
    rewrite E, E1. cbn. moved E.
  - apply run_step_ok in H1 as (_ & E & _). rewrite E. cbn. moved E.
  - apply action_steps_fields in H1 as E. rewrite E. cbn. moved E.
  - apply decide_identity in H1 as [E1 E]. rewrite E1. moved E.
  - change (tenant_audits t (audits d ++ [e]) = tenant_audits t (audits d)).
    rewrite tenant_audits_app. unfold tenant_audits at 2. cbn [List.filter].
    rewrite bool_decide_eq_false_2; [by rewrite app_nil_r|].
    rewrite (next_link_tenant _ _ _ _ H0). by apply other_owner.
  - intros key'. rewrite !dict_lookup_insert_ne; [done|..]; by intros [= -> _].
Qed.

Lemma moves_unaffected d d' : moves d d' → unaffected t d d'.
Proof.
  induction 1 as [|d d1 d2 Hc _ IH]; [apply unaffected_refl|].
  eapply unaffected_trans; [by apply change_unaffected|done].
Qed.
End isolation.
