(* ===== verification/StoreLogic.v ===== *)
(** * Reasoning about computations over the store

    [wpd F m Q E d]: run from any world whose store is [d], with identifiers in
    [F], [m] returns a value and a store in [Q] or raises in [E].  The state of
    the other ports is hidden: a port that leaves the store alone ([quiet]) is
    a step that changes nothing.  One rule per operation of the store and per
    helper of the application; [go] applies them. *)

From stdpp Require Import relations.
From S2P Require Import Prelude PyStr Effects Programs PyDict Transitions Values Goals Execution.
From S2P Require Import ExecutionObjects History Digests Identity ContextDomain Gateway AuditChain.
From S2P Require Import Capability Verification Store Application Machine.
From Stdlib Require Import ZArith.

Open Scope string_scope.
Open Scope list_scope.
Open Scope Z_scope.

Section logic.
Context {X : Type} (F : uuid → Prop).
Notation MW := (M (world X)).

Definition wpd {A} (m : MW A) (Q : A → store → Prop) (E : exn → store → Prop) (d : store) : Prop :=
  ∀ w, db w = d → wpi F m (fun a w' => Q a (db w')) (fun x w' => E x (db w')) w.

Lemma wpd_run {A} (m : MW A) Q E (w : world X) :
  wpd m Q E (db w) → wpi F m (fun a w' => Q a (db w')) (fun x w' => E x (db w')) w.
Proof. intros H. by apply H. Qed.

Lemma wpd_mono {A} (m : MW A) (Q Q' : A → store → Prop) (E E' : exn → store → Prop) d :
  wpd m Q E d → (∀ a d', Q a d' → Q' a d') → (∀ x d', E x d' → E' x d') → wpd m Q' E' d.
Proof. intros H HQ HE w Hw. eapply wp_mono; [by apply H|..]; cbv beta; auto. Qed.

Lemma wpd_bind {A B} (m : MW A) (f : A → MW B) Q E d :
  wpd m (fun a d' => wpd (f a) Q E d') E d → wpd (m ≫= f) Q E d.
Proof.
  intros H w Hw. apply wp_bind. eapply wp_mono; [by apply H|cbv beta|done].
  intros a w' Ha. by apply Ha.
Qed.

Lemma wpd_ret {A} (a : A) (Q : A → store → Prop) E d : Q a d → wpd (mret a) Q E d.
Proof. intros H w <-. by apply wp_ret. Qed.

Lemma wpd_lift {A} (r : res A) (Q : A → store → Prop) (E : exn → store → Prop) d :
  (∀ a, r = Ok a → Q a d) → (∀ x, r = Err x → E x d) → wpd (lift r) Q E d.
Proof. intros HQ HE w <-. by apply wp_lift. Qed.

Lemma wpd_throw {A} k msg (Q : A → store → Prop) (E : exn → store → Prop) d :
  E (Exn k msg) d → wpd (throw k msg) Q E d.
Proof. intros H w <-. by apply wp_throw. Qed.

Lemma wpd_throw_if b k msg (Q : unit → store → Prop) (E : exn → store → Prop) d :
  (b = false → Q tt d) → (b = true → E (Exn k msg) d) → wpd (throw_if b k msg) Q E d.
Proof. intros HQ HE w <-. by apply wp_throw_if. Qed.

Lemma wpd_now (Q : datetime → store → Prop) E d : (∀ t, Q t d) → wpd now Q E d.
Proof. intros H w <-. by apply wp_now. Qed.

Lemma wpd_uuid4 (Q : uuid → store → Prop) E d : (∀ u, F u → Q u d) → wpd uuid4 Q E d.
Proof. intros H w <-. by apply wp_uuid4. Qed.

Lemma wpd_embed {A} (m : M unit A) (Q : A → store → Prop) (E : exn → store → Prop) d :
  (∀ a e s s', m e s = (Ok a, s') → Q a d) → (∀ x, E x d) → wpd (embed m) Q E d.
Proof.
  intros HQ HE w <- e n k HF. unfold embed. destruct (m e _) as [[a|x] s'] eqn:Em; cbn; eauto.
Qed.

Lemma wpd_query {A} (f : store → A) (Q : A → store → Prop) E d : Q (f d) d → wpd (query f) Q E d.
Proof. intros H w <-. unfold query. apply wp_bind, wp_get, wp_ret. exact H. Qed.

Lemma wpd_update f (Q : unit → store → Prop) E d : Q tt (f d) → wpd (update f) Q E d.
Proof. intros H w <-. unfold update. apply wp_modify. exact H. Qed.

(** A transaction that raises leaves the store as it was. *)
Lemma wpd_transaction {A} (m : MW A) (Q : A → store → Prop) (E : exn → store → Prop) d :
  wpd m Q (fun _ _ => True) d → (∀ x, E x d) → wpd (transaction m) Q E d.
Proof.
  intros H HE w <- e n k HF. unfold transaction. specialize (H w eq_refl e n k HF).
  destruct (m e (St w n k)) as [[a|x] s']; [exact H|apply HE].
Qed.

Lemma wpd_try {A} (m : MW A) K h (Q : A → store → Prop) (E : exn → store → Prop) d :
  wpd m Q (fun x d' => if catches K (exn_class x) then wpd (h x) Q E d' else E x d') d →
  wpd (try_except m K h) Q E d.
Proof.
  intros H w Hw. apply wp_try. eapply wp_mono; [by apply H|done|cbv beta].
  intros x w'. case_match; [|done]. intros Hh. by apply Hh.
Qed.

Lemma wpd_try_all {A} (m : MW A) h (Q : A → store → Prop) (E : exn → store → Prop) d :
  wpd m Q (fun x d' => wpd (h x) Q E d') d → wpd (try_all m h) Q E d.
Proof.
  intros H w Hw. apply wp_try_all. eapply wp_mono; [by apply H|done|cbv beta].
  intros x w' Hh. by apply Hh.
Qed.

(** A loop that gathers a fact about each element. *)
Lemma wpd_mapM {A B} (f : A → MW B) (P : A → B → Prop) l (Q : list B → store → Prop) E d :
  (∀ x, x ∈ l → wpd (f x) (fun y d' => P x y ∧ d' = d) E d) →
  (∀ ys, Forall2 P l ys → Q ys d) → wpd (mapM_m f l) Q E d.
Proof.
  revert Q. induction l as [|x l IH]; intros Q Hf HQ; cbn [mapM_m].
  - apply wpd_ret. by apply HQ.
  - apply wpd_bind. eapply wpd_mono; [apply Hf; left| |done].
    intros y d' [Hy ->]. apply wpd_bind. apply IH; [intros z Hz; apply Hf; by right|].
    intros ys Hys. apply wpd_ret, HQ. by constructor.
Qed.

(** A loop that only checks. *)
Lemma wpd_for_each {A} (f : A → MW unit) l (Q : unit → store → Prop) E d :
  (∀ x, x ∈ l → wpd (f x) (fun _ d' => d' = d) E d) → Q tt d → wpd (for_each_m f l) Q E d.
Proof.
  intros Hf HQ. induction l as [|x l IH]; cbn [for_each_m]; [by apply wpd_ret|].
  apply wpd_bind. eapply wpd_mono; [apply Hf; left| |done].
  intros [] d' ->. apply IH. intros y Hy. apply Hf. by right.
Qed.

(** ** Ports *)

(** The computation leaves the store as it is. *)
Definition quiet_on {A} (m : MW A) (P : A → Prop) : Prop :=
  ∀ w, wp m (fun a w' => db w' = db w ∧ P a) (fun _ w' => db w' = db w) w.
Definition quiet {A} (m : MW A) : Prop := quiet_on m (fun _ => True).

Lemma wpd_quiet_on {A} (m : MW A) P (Q : A → store → Prop) (E : exn → store → Prop) d :
  quiet_on m P → (∀ a, P a → Q a d) → (∀ x, E x d) → wpd m Q E d.
Proof.
  intros Hm HQ HE w <- e n k _. specialize (Hm w e n k (fun _ => I)).
  destruct (m e (St w n k)) as [[a|x] s']; [destruct Hm as [-> HP]; auto|rewrite Hm; auto].
Qed.

Lemma wpd_quiet {A} (m : MW A) (Q : A → store → Prop) (E : exn → store → Prop) d :
  quiet m → (∀ a, Q a d) → (∀ x, E x d) → wpd m Q E d.
Proof. intros Hm HQ HE. eapply wpd_quiet_on; [exact Hm|auto..]. Qed.

(** ** Reads *)

Lemma wpd_fetch {A} (records : store → dict uuid A) owner missing t id (Q : A → store → Prop)
    (E : exn → store → Prop) d :
  (∀ x, records d !! id = Some x → owner x = t → Q x d) → (∀ x, E x d) →
  wpd (fetch records owner missing t id) Q E d.
Proof.
  intros HQ HE. unfold fetch. apply wpd_bind, wpd_query.
  destruct (records d !! id) as [x|] eqn:Hx; [|by apply wpd_throw].
  apply wpd_bind, wpd_throw_if; [intros Hb|done]. bool_hyps. by apply wpd_ret, HQ.
Qed.

Lemma wpd_get_approval t id (Q : ApprovalRequest.t → store → Prop) (E : exn → store → Prop) d :
  (∀ q, approvals d !! id = Some q → ApprovalRequest.tenant_id q = t → Q q d) → (∀ x, E x d) →
  wpd (get_approval t id) Q E d.
Proof.
  intros HQ HE. unfold get_approval. apply wpd_bind, wpd_query.
  destruct (approvals d !! id) as [x|] eqn:Hx; [|by apply wpd_throw].
  apply wpd_bind, wpd_throw_if; [intros Hb|done]. bool_hyps. by apply wpd_ret, HQ.
Qed.

Lemma wpd_list {A} (records : store → list A) keep (Q : list A → store → Prop) E d :
  Q (List.filter keep (records d)) d → wpd (list_where records keep) Q E d.
Proof. intros H. unfold list_where. apply wpd_bind, wpd_query, wpd_ret. exact H. Qed.

Lemma wpd_get_snapshot t id (Q : ContextSnapshot.t → store → Prop) (E : exn → store → Prop) d :
  (∀ x, Q x d) → (∀ x, E x d) → wpd (get_context_snapshot t id) Q E d.
Proof.
  intros HQ HE. unfold get_context_snapshot. apply wpd_bind, wpd_query.
  destruct (List.find _ _); [by apply wpd_ret|by apply wpd_throw].
Qed.

Lemma wpd_get_plan t id (Q : Plan.t → store → Prop) (E : exn → store → Prop) d :
  (∀ x, Q x d) → (∀ x, E x d) → wpd (get_plan t id) Q E d.
Proof.
  intros HQ HE. unfold get_plan. apply wpd_bind, wpd_fetch; [|done]. intros plan _ _.
  apply wpd_bind, wpd_query, wpd_bind, wpd_lift; [|done]. intros cur _. by apply wpd_lift.
Qed.

(** ** Idempotency *)

Lemma wpd_load context key (Q : option uuid → store → Prop) (E : exn → store → Prop) d :
  (∀ o, o = idempotency d !! (CommandContext.tenant context, key) → Q o d) →
  (∀ x, E x d) → wpd (load_idempotency context key) Q E d.
Proof.
  intros HQ HE. unfold load_idempotency, get_idempotency.
  apply wpd_bind, wpd_query, wpd_bind, wpd_throw_if; [|done]. intros _.
  apply wpd_ret. by apply HQ.
Qed.

(** ** Writes *)

Section writes.
Context (may_retrieve : EvidenceArtifactDescriptor.t → list Z → Prop)
  (may_observe : string → uuid → list SubjectRef.t → SuccessCriterion.t →
     AuthoritativeObservation.t → Prop) (T : uuid → Prop).
Notation change := (change may_retrieve may_observe T).

Lemma wpd_remember context key value (Q : unit → store → Prop) d :
  T (CommandContext.tenant context) → PyStr.empty (CommandContext.request_digest context) = false →
  (∀ d', change d d' → Q tt d') → wpd (remember context key value) Q (fun _ _ => True) d.
Proof.
  intros HT Hd HQ. unfold remember, put_idempotency.
  apply wpd_bind, wpd_query, wpd_bind, wpd_throw_if; [|done]. intros Hg.
  apply wpd_update, HQ. unfold id in Hg. rewrite Hd.
  apply BindKey; [done|]. intros v Hv. rewrite Hv in Hg. bool_hyps. by subst.
Qed.

(** An audit event is filed at the end of its tenant's chain. *)
Lemma wpd_record_audit audit (Q : unit → store → Prop) d :
  T (AuditEvent.tenant_id audit) →
  (∀ e d', change d d' → d' = put_audit e d → Q tt d') →
  wpd (record_audit audit) Q (fun _ _ => True) d.
Proof.
  intros HT HQ. unfold record_audit.
  apply wpd_bind, wpd_query, wpd_bind, wpd_now. intros t.
  apply wpd_bind, wpd_lift; [|done]. intros e He.
  apply wpd_update. apply (HQ e); [|done]. by eapply AppendAudit.
Qed.

Lemma wpd_audit context ev item (Q : AuditEvent.t → store → Prop) E d :
  (∀ e, AuditEvent.tenant_id e = CommandContext.tenant context → Q e d) →
  wpd (audit context ev item) Q E d.
Proof. intros HQ. unfold audit. apply wpd_bind, wpd_uuid4. intros u _. by apply wpd_ret, HQ. Qed.

Lemma wpd_record context ev item (Q : unit → store → Prop) d :
  T (CommandContext.tenant context) →
  (∀ e d', change d d' → d' = put_audit e d → Q tt d') →
  wpd (record context ev item) Q (fun _ _ => True) d.
Proof.
  intros HT HQ. unfold record. apply wpd_bind, wpd_audit. intros e He.
  apply wpd_record_audit; [by rewrite He|done].
Qed.
End writes.

(** ** Transitions *)

Lemma wpd_move_goal context g target reason (Q : GoalContract.t → store → Prop)
    (E : exn → store → Prop) d :
  (∀ g', goal_step g g' → GoalContract.status g' = target → Q g' d) → (∀ x, E x d) →
  wpd (move_goal context g target reason) Q E d.
Proof.
  intros HQ HE. unfold move_goal. apply wpd_bind, wpd_now. intros t.
  apply wpd_lift; [|auto]. intros g' Hg. apply HQ; [by repeat eexists|].
  unfold GoalContract.transition_to, GoalContract.new in Hg. by inv_ok.
Qed.

Lemma wpd_move_run context r target reason (Q : Run.t → store → Prop)
    (E : exn → store → Prop) d :
  (∀ r', run_step r r' → Run.status r' = target → Q r' d) → (∀ x, E x d) →
  wpd (move_run context r target reason) Q E d.
Proof.
  intros HQ HE. unfold move_run. apply wpd_bind, wpd_now. intros t.
  apply wpd_lift; [|auto]. intros r' Hr. apply HQ; [by repeat eexists|].
  unfold Run.transition_to, Run.new in Hr. by inv_ok.
Qed.

Lemma wpd_move_task context x target reason (Q : Task.t → store → Prop)
    (E : exn → store → Prop) d :
  (∀ x', task_step x x' → Task.status x' = target → Q x' d) → (∀ x, E x d) →
  wpd (move_task context x target reason) Q E d.
Proof.
  intros HQ HE. unfold move_task. apply wpd_bind, wpd_now. intros t.
  apply wpd_lift; [|auto]. intros x' Hx. apply HQ; [by repeat eexists|].
  unfold Task.transition_to, Task.new in Hx. by inv_ok.
Qed.

Lemma wpd_move_action context a target reason (Q : Action.t → store → Prop)
    (E : exn → store → Prop) d :
  (∀ a', action_step a a' → Action.status a' = target → Q a' d) → (∀ x, E x d) →
  wpd (move_action context a target reason) Q E d.
Proof.
  intros HQ HE. unfold move_action. apply wpd_bind, wpd_now. intros t.
  apply wpd_lift; [|auto]. intros a' Ha. apply HQ; [by repeat eexists|].
  unfold Action.transition_to, Action.new in Ha. by inv_ok.
Qed.
End logic.

(** One symbolic step of a transaction's body, where errors need no care. *)
Ltac go1 :=
  lazymatch goal with
  | |- wpd _ (mbind _ _) _ _ _ => apply wpd_bind
  | |- wpd _ (mret _) _ _ _ => apply wpd_ret
  | |- wpd _ (throw_if _ _ _) _ _ _ => apply wpd_throw_if; [|done]
  | |- wpd _ (throw _ _) _ _ _ => apply wpd_throw; done
  | |- wpd _ (lift _) _ _ _ => apply wpd_lift; [|done]
  | |- wpd _ now _ _ _ => apply wpd_now; intros ?
  | |- wpd _ uuid4 _ _ _ => apply wpd_uuid4; intros ? ?
  | |- wpd _ (load_idempotency _ _) _ _ _ => apply wpd_load; [|done]
  | |- wpd _ (audit _ _ _) _ _ _ => apply wpd_audit
  | |- wpd _ (get_goal _ _) _ _ _ => apply wpd_fetch; [|done]
  | |- wpd _ (get_run _ _) _ _ _ => apply wpd_fetch; [|done]
  | |- wpd _ (get_task _ _) _ _ _ => apply wpd_fetch; [|done]
  | |- wpd _ (get_action _ _) _ _ _ => apply wpd_fetch; [|done]
  | |- wpd _ (get_memory _ _) _ _ _ => apply wpd_fetch; [|done]
  | |- wpd _ (get_evidence _ _) _ _ _ => apply wpd_fetch; [|done]
  | |- wpd _ (get_outcome _ _) _ _ _ => apply wpd_fetch; [|done]
  | |- wpd _ (get_evidence_capture _ _) _ _ _ => apply wpd_fetch; [|done]
  | |- wpd _ (get_approval _ _) _ _ _ => apply wpd_get_approval; [|done]
  | |- wpd _ (get_context_snapshot _ _) _ _ _ => apply wpd_get_snapshot; [|done]
  | |- wpd _ (get_plan _ _) _ _ _ => apply wpd_get_plan; [|done]
  | |- wpd _ (list_runs _ _) _ _ _ => apply wpd_list
  | |- wpd _ (list_tasks _ _) _ _ _ => apply wpd_list
  | |- wpd _ (list_actions _ _) _ _ _ => apply wpd_list
  | |- wpd _ (list_outcomes _ _) _ _ _ => apply wpd_list
  | |- wpd _ (list_evidence _) _ _ _ => apply wpd_list
  | |- wpd _ (list_action_attempts _ _) _ _ _ => apply wpd_list
  | |- wpd _ (move_goal _ _ _ _) _ _ _ => apply wpd_move_goal; [|done]
  | |- wpd _ (move_run _ _ _ _) _ _ _ => apply wpd_move_run; [|done]
  | |- wpd _ (move_task _ _ _ _) _ _ _ => apply wpd_move_task; [|done]
  | |- wpd _ (move_action _ _ _ _) _ _ _ => apply wpd_move_action; [|done]
  end.
Ltac go := repeat (go1; cbv beta).

(** ** Runs that returned *)

(** What a loop of checks established when it returned. *)
Lemma run_for_each {S A} (f : A → M S unit) (P : A → Prop) l e s s' :
  (∀ x s', f x e s = (Ok tt, s') → P x ∧ s' = s) →
  for_each_m f l e s = (Ok tt, s') → Forall P l ∧ s' = s.
Proof.
  intros Hf. induction l as [|x l IH]; intros H; cbn [for_each_m] in H; inv_run; [done|].
  destruct a. apply Hf in Hr as [Hx ->]. apply IH in H as [Hl ->]. auto.
Qed.

Lemma run_query {X A} (f : store → A) e (s : st (world X)) a s' :
  query f e s = (Ok a, s') → a = f (db (data s)) ∧ s' = s.
Proof. unfold query, mbind, M_bind, get, mret, M_ret. by intros [= <- <-]. Qed.

Lemma run_fetch {X A} (records : store → dict uuid A) owner missing t id e (s : st (world X)) a s' :
  fetch records owner missing t id e s = (Ok a, s') →
  records (db (data s)) !! id = Some a ∧ owner a = t ∧ s' = s.
Proof.
  unfold fetch. intros H. inv_run. apply run_query in Hr as [-> ->].
  destruct (records (db (data s)) !! id) as [x|]; [|done]. unfold assert_tenant in H. inv_run.
  by bool_hyps.
Qed.

(** * What the application relies on

    [PortsOk] states what the commands assume of the code behind the ports:
    catalogues, routers, guards, artifact stores and authoritative systems
    leave the platform store alone and answer as [may_retrieve] and
    [may_observe] say; while the gateway is waited for, other commands may run,
    so its calls may change the store, by changes of the machine (the rely
    condition that [Platform] also guarantees). *)

Open Scope string_scope.
Open Scope list_scope.
Open Scope Z_scope.

(** An identifier that no record of the store has yet. *)
Definition unused (d : store) (u : uuid) : Prop :=
  goals d !! u = None ∧ runs d !! u = None ∧ plans d !! u = None ∧ actions d !! u = None ∧
  approvals d !! u = None ∧ outcomes d !! u = None.

Record artifacts_ok {X} (may_retrieve : EvidenceArtifactDescriptor.t → list Z → Prop)
    (a : artifact_store (world X)) : Prop := {
  describe_quiet : ∀ t e g c n r, quiet (describe a t e g c n r);
  put_quiet : ∀ x c k, quiet (artifact_put a x c k);
  retrieve_quiet : ∀ x, quiet_on (retrieve_verified a x) (may_retrieve x);
  delete_quiet : ∀ x, quiet (artifact_delete a x)
}.

Class PortsOk {X} (may_retrieve : EvidenceArtifactDescriptor.t → list Z → Prop)
    (may_observe : string → uuid → list SubjectRef.t → SuccessCriterion.t →
       AuthoritativeObservation.t → Prop) (T : uuid → Prop) (p : ports X) : Prop := {
  goal_type_quiet : ∀ t s, quiet (catalog_goal_type p t s);
  agent_quiet : ∀ t s, quiet (catalog_agent p t s);
  router_quiet : ∀ r t u, run_deployment_router p = Some r → quiet (r t u);
  guard_quiet : ∀ g t u, shadow_write_guard p = Some g → quiet (g t u);
  artifacts_quiet : ∀ a, evidence_artifacts p = Some a → artifacts_ok may_retrieve a;
  readback_quiet : ∀ r s t l c, readback_port p = Some r →
    quiet_on (observe r s t l c) (may_observe s t l c);
  gateway_moves : ∀ g B (c : GatewayE B) (w : world X), governed_gateway p = Some g →
    store_ok may_retrieve may_observe (db w) →
    wp (gateway_port g B c)
      (fun _ w' => moves may_retrieve may_observe T (db w) (db w'))
      (fun _ w' => moves may_retrieve may_observe T (db w) (db w')) w
}.

(** Several changes in a row. *)
Section chains.
Context {may_retrieve : EvidenceArtifactDescriptor.t → list Z → Prop}
  {may_observe : string → uuid → list SubjectRef.t → SuccessCriterion.t →
     AuthoritativeObservation.t → Prop} {T : uuid → Prop}.
Notation change := (change may_retrieve may_observe T).
Notation moves := (moves may_retrieve may_observe T).

Lemma moves_refl d : moves d d.
Proof. apply rtc_refl. Qed.

Lemma moves_cons d d1 d2 : change d d1 → moves d1 d2 → moves d d2.
Proof. apply rtc_l. Qed.

Lemma moves_one d d1 : change d d1 → moves d d1.
Proof. apply rtc_once. Qed.
End chains.

#[export] Hint Resolve moves_refl moves_one : moves.
