(* ===== verification/RunProofs.v ===== *)
(** * Goals, runs and tasks refine the machine

    Each use case of [RunCommands], started in a store that satisfies the
    invariant, either raises and leaves the store as it was, or changes it by
    changes of [Machine]. *)

From S2P Require Import Prelude PyStr PyDict Effects Transitions Values Goals Execution.
From S2P Require Import ExecutionObjects History Digests Identity Capability ContextDomain Context.
From S2P Require Import AuditChain Verification Store Application RunCommands Machine.
From S2P Require Import MachineInvariant StoreLogic.
From stdpp Require Import relations.
From Stdlib Require Import ZArith.

Open Scope string_scope.
Open Scope list_scope.
Open Scope Z_scope.

#[local] Arguments insert : simpl never.
#[local] Arguments lookup : simpl never.

Section run_proofs.
Context {X : Type} (p : ports X).
Context (may_retrieve : EvidenceArtifactDescriptor.t → list Z → Prop)
  (may_observe : string → uuid → list SubjectRef.t → SuccessCriterion.t →
     AuthoritativeObservation.t → Prop) (T : uuid → Prop)
  `{!PortsOk may_retrieve may_observe T p}.
Notation change := (change may_retrieve may_observe T).
Notation moves := (moves may_retrieve may_observe T).
Notation store_ok := (store_ok may_retrieve may_observe).

Context (d : store) (Hok : store_ok d) (context : CommandContext.t)
  (HT : T (CommandContext.tenant context))
  (Hdigest : PyStr.empty (CommandContext.request_digest context) = false).

Notation refines m := (wpd (X := X) (unused d) m (fun _ d' => moves d d') (fun _ d' => d' = d) d).

#[local] Notation remember_rule := (wpd_remember _ may_retrieve may_observe T).
#[local] Notation audit_rule := (wpd_record_audit _ may_retrieve may_observe T).
#[local] Notation record_rule := (wpd_record _ may_retrieve may_observe T).

(** The last step of every use case: the result is remembered. *)
Lemma refines_remember {A} key value (a : A) d1 :
  moves d d1 →
  wpd (X := X) (unused d) (remember context key value ;; mret a) (fun _ d' => moves d d')
    (fun _ _ => True) d1.
Proof.
  intros Hm. apply wpd_bind. apply remember_rule; [done|done|]. intros d2 Hc.
  apply wpd_ret. by eapply rtc_r.
Qed.

Lemma create_goal_refines command : refines (create_goal p context command).
Proof.
  unfold create_goal. go1; cbv beta. apply wpd_throw_if; [intros _|done].
  apply wpd_transaction; [|done]. go. intros o Ho. destruct o as [cached|].
  { go. intros g _ _. apply moves_refl. }
  go. apply (wpd_quiet _ _ _ _ _ (goal_type_quiet _ _)); [|done]. intros ty. go.
  intros _ _. go. intros budget _. go. intros payload _. go. intros policy _. go.
  intros goal Hgoal. pose proof Hgoal as Hnew. apply then_ok in Hnew as [_ [= <-]].
  go. intros e He. go. unfold add_goal. go.
  apply wpd_update. apply audit_rule; [by rewrite He|]. intros e' d' Hc _.
  apply refines_remember. eapply moves_cons; [|by apply moves_one].
  apply NewGoal; cbn; [done|done|done|by apply H].
Qed.

(** ** Saving a moved goal or run *)

Lemma wpd_save_goal g g' version audit (Q : unit → store → Prop) d1 :
  T (GoalContract.tenant_id g) → T (AuditEvent.tenant_id audit) →
  goals d1 !! GoalContract.goal_id g = Some g → goal_step g g' →
  (GoalContract.status g' = GoalStatus.SATISFIED → goal_earned d1 g) →
  (∀ d', moves d1 d' → Q tt d') →
  wpd (X := X) (unused d) (save_goal g' version audit) Q (fun _ _ => True) d1.
Proof.
  intros Hg Ha Hk Hs He HQ. unfold save_goal. go. intros cur _ _. go. intros _. go.
  apply wpd_update. apply audit_rule; [done|]. intros e d' Hc _. apply HQ.
  eapply moves_cons; [|by apply moves_one]. by eapply MoveGoal.
Qed.

Lemma wpd_save_run r r' version audit (Q : unit → store → Prop) d1 :
  T (Run.tenant_id r) → T (AuditEvent.tenant_id audit) →
  runs d1 !! Run.run_id r = Some r → run_step r r' → Run.status r' ≠ RunStatus.RUNNING →
  (Run.status r' = RunStatus.SUCCEEDED → run_earned d1 r) →
  (∀ d', moves d1 d' → Q tt d') →
  wpd (X := X) (unused d) (save_run r' version (Some audit)) Q (fun _ _ => True) d1.
Proof.
  intros Hg Ha Hk Hs Hr He HQ. unfold save_run. go. intros cur _ _. go. intros _. go.
  apply wpd_update. apply audit_rule; [done|]. intros e d' Hc _. apply HQ.
  eapply moves_cons; [|by apply moves_one]. by eapply MoveRun.
Qed.

(** A record read under its identifier is stored under it. *)
Lemma goal_here k g : goals d !! k = Some g → goals d !! GoalContract.goal_id g = Some g.
Proof. intros Hg. by rewrite (proj2 (goals_keyed _ _ _ Hok) _ _ Hg). Qed.
Lemma run_here k r : runs d !! k = Some r → runs d !! Run.run_id r = Some r.
Proof. intros Hr. by rewrite (proj2 (runs_keyed _ _ _ Hok) _ _ Hr). Qed.
Lemma task_here k x : tasks d !! k = Some x → tasks d !! Task.task_id x = Some x.
Proof. intros Hx. by rewrite (proj2 (tasks_keyed _ _ _ Hok) _ _ Hx). Qed.

Lemma activate_goal_refines command : refines (activate_goal context command).
Proof.
  unfold activate_goal. go1; cbv beta. apply wpd_throw_if; [intros _|done].
  apply wpd_transaction; [|done]. unfold cached_goal. go. intros o _. go. intros g Hg Ht.
  case_bool_decide; [apply refines_remember, moves_refl|].
  go. intros g' Hs Es. go. intros e He. go.
  apply (wpd_save_goal g); [by rewrite Ht|by rewrite He|by eapply goal_here|done|by rewrite Es|].
  intros d' Hm. by apply refines_remember.
Qed.

Lemma request_run_refines command : refines (request_run p context command).
Proof.
  unfold request_run. go1; cbv beta. apply wpd_throw_if; [intros _|done].
  apply wpd_transaction; [|done]. go. intros o _. destruct o as [cached|].
  { go. intros r _ _. apply moves_refl. }
  go. intros g Hg Ht. go. intros u Hallowed. go.
  apply (wpd_quiet _ _ _ _ _ (goal_type_quiet _ _)); [|done]. intros ty. go.
  apply (wpd_quiet _ _ _ _ _ (agent_quiet _ _)); [|done]. intros agent. go.
  assert (Hrouter : ∀ Q, (∀ a, Q a d) → wpd (unused d)
    match run_deployment_router p with
    | Some resolve => resolve (CommandContext.tenant context) u0
    | None => mret None
    end Q (fun _ _ => True) d).
  { intros Q HQ. destruct (run_deployment_router p) eqn:Er; [|by apply wpd_ret].
    apply (wpd_quiet _ _ _ _ _ (router_quiet _ _ _ Er)); auto. }
  apply Hrouter. intros dep. go. intros run Hrun. apply then_ok in Hrun as [_ [= <-]].
  go. intros e He. go. unfold add_run. go. apply wpd_update.
  apply audit_rule; [by rewrite He|]. intros e' d' Hc _.
  apply refines_remember. eapply moves_cons; [|by apply moves_one].
  unfold GoalContract.assert_run_request_allowed in Hallowed. inv_ok. bool_hyps.
  eapply NewRun; cbn; [done|done|done|by eapply goal_here|done|done| |by apply H].
  exact Hallowed.
Qed.

Lemma prepare_run_context_refines command : refines (prepare_run_context context command).
Proof.
  unfold prepare_run_context. go1; cbv beta. apply wpd_throw_if; [intros _|done].
  apply wpd_transaction; [|done]. go. intros o _. destruct o as [cached|].
  { go. intros r. apply moves_refl. }
  go. intros r Hr Ht. go. apply (wpd_mapM _ _ (fun _ _ => True)).
  { intros u _. go. by intros m _ _. }
  intros memories _. go. apply wpd_embed; [|done]. intros x0 e s s' Hx%assemble_tenant. go.
  set (sn := if bool_decide _ then _ else _).
  assert (Hsn : ∀ Q, (∀ x, ContextSnapshot.tenant_id x = CommandContext.tenant context → Q x d) →
    wpd (X := X) (unused d) sn Q (fun _ _ => True) d).
  { intros Q HQ. unfold sn. case_bool_decide; [by apply wpd_ret, HQ|].
    apply wpd_lift; [|done]. intros x Hnew. apply HQ.
    unfold ContextSnapshot.new in Hnew. by inv_ok. }
  apply Hsn. intros x Htx. go. unfold add_context_snapshot.
  apply wpd_bind, wpd_query. go. intros Hnone. apply wpd_update. go.
  apply record_rule; [done|]. intros e' d' Hc _. apply refines_remember.
  eapply moves_cons; [|by apply moves_one]. apply NewSnapshot; [by rewrite Htx|].
  intros k y Hy Ety Ery. rewrite any_false in Hnone.
  specialize (Hnone y (lookup_values _ _ _ Hy)). unfold for_run in Hnone.
  by rewrite !bool_decide_eq_true_2 in Hnone by done.
Qed.

(** A task built from its definition is newborn. *)
Lemma wpd_build_task tenant run_id item (Q : Task.t → store → Prop) d1 :
  (∀ x, newborn x → Q x d1) →
  wpd (X := X) (unused d) (build_task tenant run_id item) Q (fun _ _ => True) d1.
Proof.
  intros HQ. unfold build_task. apply wpd_bind.
  destruct (TaskDefinition.task_id item); [apply wpd_ret|apply wpd_uuid4; intros ? _];
    (apply wpd_lift; [|done]; intros x Hx; apply HQ; apply then_ok in Hx as [_ [= <-]]; done).
Qed.

Lemma create_validated_plan_refines command : refines (create_validated_plan context command).
Proof.
  unfold create_validated_plan. go1; cbv beta. apply wpd_throw_if; [intros _|done].
  apply wpd_transaction; [|done]. go. intros o _. destruct o as [cached|].
  { go. intros r. apply moves_refl. }
  go. intros r Hr Ht. go. intros Hp. bool_hyps. go. intros sn. go.
  apply (wpd_mapM _ _ (fun _ x => newborn x)).
  { intros item _. by apply wpd_build_task. }
  intros ts Hts. assert (Hnew : Forall newborn ts) by (clear -Hts; by induction Hts; constructor).
  go. intros plan Hplan.
  assert (Eplan : plan = Plan.mk (CommandContext.tenant context) (Run.goal_id r) (Run.run_id r)
    ts 1 u) by (by apply then_ok in Hplan as [_ [= <-]]).
  assert (Hplan' : Plan.new plan = Ok plan) by by rewrite Eplan in Hplan |- *.
  go. intros s Hs. go. intros pending Hpending. go.
  intros bound Hb Ebound. pose proof Hpending as (E1 & _ & _)%bind_execution_ok.
  pose proof Hb as (_ & E2 & _)%run_step_ok. go. unfold add_plan.
  apply wpd_update. go. intros e He. go. unfold save_run.
  assert (Hid : Run.run_id bound = Run.run_id r ∧ Run.tenant_id bound = Run.tenant_id r ∧
    Run.execution_snapshot bound = Some s) by by rewrite E2, E1.
  destruct Hid as (Hi1 & Hi2 & Hi3). go. intros cur _ _. go. intros _. go. apply wpd_update.
  apply audit_rule; [by rewrite He|]. intros e' d' Hc _. apply refines_remember.
  pose proof (run_here _ _ Hr) as Hr'.
  apply (moves_cons _ (put_plan plan d)); [|eapply moves_cons; [|by apply moves_one]].
  - apply (NewPlan _ _ T d plan r); [by rewrite Eplan..|done|exact Hplan'|by rewrite Eplan|].
    rewrite Eplan. by apply H.
  - eapply StartRun; [|exact Hr'|exact Hpending|exact Hb|done|]; [by rewrite Ht|].
    exists s, plan. split_and!; [done| |by rewrite Hi1, Eplan|by rewrite Hi2, Ht, Eplan].
    apply then_ok in Hs as [_ [= <-]]. cbn. apply dict_lookup_insert.
Qed.

Lemma wpd_save_task x x' version (Q : unit → store → Prop) :
  T (Task.tenant_id x) → tasks d !! Task.task_id x = Some x → task_steps x x' →
  (Task.status x' = TaskStatus.RUNNING → ∀ u, u ∈ Task.depends_on x →
     ∃ y, tasks d !! u = Some y ∧ Task.tenant_id y = Task.tenant_id x ∧
       Task.status y = TaskStatus.SUCCEEDED) →
  (∀ d', change d d' → Q tt d') →
  wpd (X := X) (unused d) (save_task x' version) Q (fun _ _ => True) d.
Proof.
  intros Hx Hk Hs He HQ. unfold save_task. go. intros cur _ _. go. intros _.
  apply wpd_update, HQ. by eapply MoveTask.
Qed.

Lemma start_task_refines command : refines (start_task context command).
Proof.
  unfold start_task. go1; cbv beta. apply wpd_throw_if; [intros _|done].
  apply wpd_transaction; [|done]. unfold cached_task. go. intros o _. go. intros x Hx Ht.
  case_bool_decide; [apply refines_remember, moves_refl|].
  go. apply (wpd_mapM _ _ (fun u y => tasks d !! u = Some y ∧
    Task.tenant_id y = CommandContext.tenant context)).
  { intros u _. go. by intros y Hy Ey. }
  intros deps Hdeps. go. intros Hdone. go.
  assert (Hready : ∀ Q, (∀ y, task_steps x y → Q y d) → wpd (X := X) (unused d)
    (if bool_decide (Task.status x = TaskStatus.PENDING)
     then move_task context x TaskStatus.READY "task dependencies satisfied"
     else mret x) Q (fun _ _ => True) d).
  { intros Q HQ. case_bool_decide; [|by apply wpd_ret, HQ, rtc_refl].
    go. intros y Hy _. apply HQ. by apply rtc_once. }
  apply Hready. intros y Hy. go. intros z Hz Ez. go.
  assert (Hxz : task_steps x z) by by eapply rtc_r.
  apply (wpd_save_task x); [by rewrite Ht|by eapply task_here|done| |].
  - intros _ u Hu. apply list_elem_of_lookup in Hu as [i Hi].
    destruct (Forall2_lookup_l _ _ _ _ _ Hdeps Hi) as (y' & Hy' & Hk & Ek).
    exists y'. split; [done|]. split; [congruence|].
    rewrite any_false in Hdone. apply list_elem_of_lookup_2, Hdone in Hy'. by bool_hyps.
  - intros d1 Hc1. go. apply record_rule; [done|]. intros e' d' Hc _. apply refines_remember.
    eapply moves_cons; [done|by apply moves_one].
Qed.

Lemma complete_task_refines command : refines (complete_task context command).
Proof.
  unfold complete_task. do 2 (go1; cbv beta; apply wpd_throw_if; [intros _|done]).
  apply wpd_transaction; [|done]. unfold cached_task. go. intros o _. go. intros x Hx Ht.
  case_bool_decide; [apply refines_remember, moves_refl|].
  go. intros _. go. intros z Hz Ez. go.
  apply (wpd_save_task x); [by rewrite Ht|by eapply task_here|by apply rtc_once| |].
  - rewrite Ez. by destruct (CompleteTask.succeeded command).
  - intros d1 Hc1. go. apply record_rule; [done|]. intros e' d' Hc _. apply refines_remember.
    eapply moves_cons; [done|by apply moves_one].
Qed.

(** ** Completion *)

(** The outcomes the application lists are those of the run in the store. *)
Lemma verified_outcomes r g :
  subset_of (criteria g) (verified_criteria (List.filter (fun o =>
    bool_decide (Outcome.tenant_id o = CommandContext.tenant context) &&
    bool_decide (Outcome.run_id o = Run.run_id r)) (values (outcomes d)))) = true →
  Run.tenant_id r = CommandContext.tenant context → outcomes_verified d r g.
Proof.
  intros Hs Ht c Hc. rewrite subset_of_true in Hs. apply Hs in Hc.
  apply list_elem_of_fmap in Hc as (o & -> & Ho).
  apply elem_of_list_filter in Ho as [Ho Hv]. apply elem_of_list_filter in Ho as [Ho Hw].
  unfold is_verified in Hv. bool_hyps.
  destruct (values_lookup _ _ (proj1 (outcomes_keyed _ _ _ Hok)) Ho) as [k Hk].
  exists k, o. split_and!; congruence.
Qed.

Lemma complete_run_refines command : refines (complete_run context command).
Proof.
  unfold complete_run. go1; cbv beta. apply wpd_throw_if; [intros _|done].
  apply wpd_transaction; [|done]. unfold cached_run. go. intros o _. go. intros r Hr Ht.
  destruct (mem _ _); [apply refines_remember, moves_refl|].
  go. intros _. go. intros g Hg Etg. go. intros Hall.
  apply orb_false_iff in Hall as [Htasks Hactions]. rewrite any_false in Htasks. rewrite any_false in Hactions.
  destruct (completion_target g _) as [target reason] eqn:Etarget.
  case_bool_decide; [apply refines_remember, moves_refl|].
  go. intros r' Hs Es. go. intros e He. go.
  apply (wpd_save_run r); [by rewrite Ht|by rewrite He|by eapply run_here|done| | |].
  - rewrite Es. intros ->. unfold completion_target in Etarget. by repeat case_match.
  - rewrite Es. intros ->. split.
    + intros k x Hx E1 E2.
      enough (negb (bool_decide (Task.status x = TaskStatus.SUCCEEDED)) = false) as Hs' by (by bool_hyps).
      apply Htasks, elem_of_list_filter. split; [by eapply lookup_values|].
      by rewrite !bool_decide_eq_true_2 by congruence.
    + intros k a Ha E1 E2.
      enough (negb (bool_decide (Action.status a = ActionStatus.SUCCEEDED)) = false)
        as Ha' by (by bool_hyps).
      apply Hactions, elem_of_list_filter. split; [by eapply lookup_values|].
      by rewrite !bool_decide_eq_true_2 by congruence.
    + exists g. split; [done|]. split; [congruence|].
      unfold completion_target in Etarget. case_match eqn:Ev; [|case_match; by simplify_eq].
      by apply verified_outcomes.
  - intros d' Hm. by apply refines_remember.
Qed.

Lemma wpd_some_run_verified g (succeeded : list Run.t) (Q : bool → store → Prop) :
  (∀ r, r ∈ succeeded → Run.tenant_id r = CommandContext.tenant context) →
  (∀ b, (b = true → ∃ r, r ∈ succeeded ∧ outcomes_verified d r g) → Q b d) →
  wpd (X := X) (unused d) (some_run_verified (CommandContext.tenant context) g succeeded) Q
    (fun _ _ => True) d.
Proof.
  induction succeeded as [|r l IH]; intros Ht HQ; cbn [some_run_verified].
  - apply wpd_ret. by apply HQ.
  - go. case_match eqn:Ev.
    + go. apply HQ. intros _. exists r. split; [by left|].
      apply verified_outcomes; [done|]. apply Ht. by left.
    + apply IH; [intros; apply Ht; by right|]. intros b Hb. apply HQ. intros Eb.
      destruct (Hb Eb) as (r' & Hin & Hv). exists r'. split; [by right|done].
Qed.

Lemma satisfy_or_fail_goal_refines command : refines (satisfy_or_fail_goal context command).
Proof.
  unfold satisfy_or_fail_goal. do 2 (go1; cbv beta; apply wpd_throw_if; [intros _|done]).
  apply wpd_transaction; [|done]. unfold cached_goal. go. intros o _. go. intros g Hg Ht.
  destruct (mem _ _); [apply refines_remember, moves_refl|].
  go. set (choose := if SatisfyOrFailGoal.satisfied command then _ else _).
  assert (Hchoose : ∀ Q, (∀ target, (target = GoalStatus.SATISFIED → goal_earned d g) →
    Q target d) → wpd (X := X) (unused d) choose Q (fun _ _ => True) d).
  { intros Q HQ. unfold choose. destruct (SatisfyOrFailGoal.satisfied command).
    - go. intros _. go. apply wpd_some_run_verified.
      { intros r Hr. apply elem_of_list_filter in Hr as [Hr _].
        apply elem_of_list_filter in Hr as [_ Hr]. by bool_hyps. }
      intros b Hb. go. intros En. go. apply HQ. intros _.
      destruct b; [|done]. destruct (Hb eq_refl) as (r & Hr & Hv).
      apply elem_of_list_filter in Hr as [Hr Hsr]. apply elem_of_list_filter in Hr as [Hr Hgr].
      bool_hyps. destruct (values_lookup _ _ (proj1 (runs_keyed _ _ _ Hok)) Hr) as [k Hk].
      exists k, r. split_and!; [done|done|congruence|done..].
    - go. intros _. go. by apply HQ. }
  apply Hchoose. intros target Htarget. go. intros g' Hs Es. go. intros e He. go.
  apply (wpd_save_goal g); [by rewrite Ht|by rewrite He|by eapply goal_here|done| |].
  { rewrite Es. exact Htarget. }
  intros d' Hm. by apply refines_remember.
Qed.

Lemma transition_run_refines run_id target reason operation :
  target ≠ RunStatus.RUNNING → target ≠ RunStatus.SUCCEEDED →
  refines (transition_run context run_id target reason operation).
Proof.
  intros Hr1 Hr2. unfold transition_run. go1; cbv beta. apply wpd_throw_if; [intros _|done].
  apply wpd_transaction; [|done]. unfold cached_run. go. intros o _. go. intros r Hr Ht.
  case_bool_decide; [apply refines_remember, moves_refl|].
  go. intros r' Hs Es. go. intros e He. go.
  apply (wpd_save_run r); [by rewrite Ht|by rewrite He|by eapply run_here|done|by rewrite Es| |].
  { by rewrite Es. }
  intros d' Hm. by apply refines_remember.
Qed.

Lemma cancel_run_refines command : refines (cancel_run context command).
Proof.
  unfold cancel_run. go1; cbv beta. apply wpd_throw_if; [intros _|done].
  by apply transition_run_refines.
Qed.

Lemma fail_run_refines command : refines (fail_run context command).
Proof.
  unfold fail_run. go1; cbv beta. apply wpd_throw_if; [intros _|done].
  by apply transition_run_refines.
Qed.

Lemma take_over_run_refines command : refines (take_over_run context command).
Proof.
  unfold take_over_run. go1; cbv beta. apply wpd_throw_if; [intros _|done].
  by apply transition_run_refines.
Qed.
End run_proofs.
