(* ===== verification/ActionProofs.v ===== *)
(** * Actions, approvals and executions refine the machine

    The use cases of [ActionCommands], as [RunProofs] does for the runs.  The
    governed execution is two transactions with the gateway between them: the
    store may have moved on meanwhile, by changes of the machine, and the
    second transaction only closes the action it has read. *)

From stdpp Require Import relations.
From S2P Require Import Prelude PyStr Effects Programs PyDict Transitions Values Goals Execution.
From S2P Require Import ExecutionObjects History Digests Identity ContextDomain Gateway.
From S2P Require Import GatewayProofs AuditChain Capability Verification Store Application.
From S2P Require Import RunCommands ActionCommands EvidenceCommands Machine MachineInvariant.
From S2P Require Import StoreLogic RunProofs.
From Stdlib Require Import ZArith.

Open Scope string_scope.
Open Scope list_scope.
Open Scope Z_scope.

#[local] Arguments insert : simpl never.
#[local] Arguments lookup : simpl never.

Section action_proofs.
Context {X : Type} (p : ports X).
Context (may_retrieve : EvidenceArtifactDescriptor.t → list Z → Prop)
  (may_observe : string → uuid → list SubjectRef.t → SuccessCriterion.t →
     AuthoritativeObservation.t → Prop) (T : uuid → Prop)
  `{Hports : !PortsOk may_retrieve may_observe T p}.
Notation change := (change may_retrieve may_observe T).
Notation moves := (moves may_retrieve may_observe T).
Notation store_ok := (store_ok may_retrieve may_observe).

Context (d : store) (Hok : store_ok d) (context : CommandContext.t)
  (HT : T (CommandContext.tenant context))
  (Hdigest : PyStr.empty (CommandContext.request_digest context) = false).

Notation refines m :=
  (wpd (X := X) (unused d) m (fun _ d' => moves d d') (fun _ d' => d' = d) d).
Notation refines_steps m :=
  (wpd (X := X) (unused d) m (fun _ d' => moves d d') (fun _ d' => moves d d') d).

#[local] Notation remember_rule := (wpd_remember _ may_retrieve may_observe T).
#[local] Notation record_rule := (wpd_record _ may_retrieve may_observe T).
#[local] Notation remembered := (refines_remember may_retrieve may_observe T d context HT Hdigest).

Lemma action_here k a : actions d !! k = Some a → actions d !! Action.action_id a = Some a.
Proof. intros Ha. by rewrite (proj2 (actions_keyed _ _ _ Hok) _ _ Ha). Qed.
Lemma approval_here k q : approvals d !! k = Some q →
  approvals d !! ApprovalRequest.approval_id q = Some q.
Proof. intros Hq. by rewrite (proj2 (approvals_keyed _ _ _ Hok) _ _ Hq). Qed.

(** The audit event and the remembered result that end a transaction. *)
Lemma refines_record_remember {A} event item key value (a : A) d1 :
  moves d d1 →
  wpd (X := X) (unused d) (record context event item)
    (fun _ => wpd (X := X) (unused d) (remember context key value ;; mret a) (fun _ d' => moves d d')
                (fun _ _ => True))
    (fun _ _ => True) d1.
Proof.
  intros Hm. apply record_rule; [done|]. intros e d2 Hc _. apply remembered.
  by eapply rtc_r.
Qed.

Lemma wpd_save_action a a' version (Q : unit → store → Prop) d1 :
  T (Action.tenant_id a) → actions d1 !! Action.action_id a = Some a → action_steps a a' →
  (change d1 (put_action a' d1) → Q tt (put_action a' d1)) →
  wpd (X := X) (unused d) (save_action a' version) Q (fun _ _ => True) d1.
Proof.
  intros Hx Hk Hs HQ. unfold save_action. go. intros cur _ _. go. intros _.
  apply wpd_update, HQ. by eapply MoveAction.
Qed.

Lemma propose_action_refines command : refines (propose_action context command).
Proof.
  unfold propose_action. go1; cbv beta. apply wpd_throw_if; [intros _|done].
  apply wpd_transaction; [|done]. go. intros o _. destruct o as [cached|].
  { go. intros a _ _. apply moves_refl. }
  go. intros x Hx Ht. go. intros Hrun. bool_hyps. go. intros r Hr Etr. go. intros Htool. go.
  intros params _. go. intros a Hnew. apply then_ok in Hnew as [_ [= Ea]]. go. unfold add_action.
  apply wpd_bind, wpd_query. go. intros Hkey. apply wpd_update. go.
  apply refines_record_remember. apply moves_one.
  destruct (Run.execution_snapshot r) as [s|] eqn:Es; [|done]. bool_hyps.
  rewrite any_false in Hkey.
  apply (NewAction _ _ T d a x r s); rewrite <- ?Ea; cbn; try done.
  - by apply H.
  - by eapply task_here.
  - intros k b Hb Eb Ek. specialize (Hkey b (lookup_values _ _ _ Hb)). rewrite <- Ea in Hkey.
    by rewrite !bool_decide_eq_true_2 in Hkey.
Qed.

Lemma request_approval_refines command : refines (request_approval context command).
Proof.
  unfold request_approval. go1; cbv beta. apply wpd_throw_if; [intros _|done].
  apply wpd_transaction; [|done]. go. intros o _. destruct o as [cached|].
  { go. intros q _ _. apply moves_refl. }
  go. intros a Ha Ht. go. intros Hp. go. intros q Hnew.
  pose proof Hnew as E. apply then_ok in E as [_ [= Eq]]. go. intros a' Hs Es. go.
  unfold add_approval. apply wpd_update. go.
  apply (wpd_save_action a); [by rewrite Ht|by eapply action_here|by apply rtc_once|].
  intros Hc1. go. apply refines_record_remember.
  eapply moves_cons; [|by apply moves_one].
  rewrite Eq in Hnew. apply (NewApproval _ _ T d q a).
  - rewrite <- Eq. cbn. by rewrite Ht.
  - split; [done|]. by rewrite <- Eq.
  - rewrite <- Eq. by eapply action_here.
  - by rewrite <- Eq.
  - by rewrite <- Eq.
  - rewrite <- Eq. by apply H.
Qed.

Lemma decide_approval_refines command : refines (decide_approval context command).
Proof.
  unfold decide_approval. apply wpd_transaction; [|done]. go. intros o _.
  destruct o as [cached|].
  { go. intros q _ _. apply moves_refl. }
  go. intros q Hq Ht. go. unfold require_any. apply wpd_throw_if; [intros _|done]. go.
  intros _. go. intros q' Hd. go. unfold save_approval. go. intros cur _ _. go. intros _.
  apply wpd_update. go.
  set (d1 := d <| approvals := _ |>).
  assert (Hc1 : change d d1).
  { eapply (MoveApproval _ _ T d q q'); [by rewrite Ht|by eapply approval_here|done]. }
  case_match; [go; intros a Ha Eta; go; intros a' Hs Es; go|go].
  - eapply (wpd_save_action a); [by rewrite Eta|by eapply action_here|by apply rtc_once|].
    intros Hc2. go. apply refines_record_remember. eapply moves_cons; [done|by apply moves_one].
  - apply refines_record_remember. by apply moves_one.
Qed.

(** ** Authorization *)

Lemma wpd_denial command a approval (Q : option string → store → Prop) :
  (∀ r, Q r d) → wpd (X := X) (unused d) (denial command a approval) Q (fun _ _ => True) d.
Proof.
  intros HQ. unfold denial. destruct (negb _); [by apply wpd_ret|].
  destruct (is_write_risk _); [|by apply wpd_ret]. apply wpd_bind.
  destruct approval as [q|]; go; [intros b _; go|]; apply HQ.
Qed.

Lemma authorize_or_deny_moves command key :
  wpd (X := X) (unused d) (authorize_or_deny context command key) (fun _ d' => moves d d')
    (fun _ _ => True) d.
Proof.
  unfold authorize_or_deny. go. intros o _. go. intros a Ha Ht. go.
  apply (wpd_mono _ _ (fun _ d' => d' = d) _ (fun _ _ => True)); [|intros q d' ->|done].
  { destruct (AuthorizeActionAtExecutionTime.approval_id command); go; [|done].
    intros q _ _. by go. }
  go. apply wpd_denial. intros [reason|].
  { destruct (is_proposed a); go; [|apply moves_refl]. intros a' Hs _. go.
    apply (wpd_save_action a); [by rewrite Ht|by eapply action_here|by apply rtc_once|].
    intros Hc1. go. apply record_rule; [done|]. intros e d2 Hc2 _. apply remember_rule; [done..|].
    intros d3 Hc3. go. do 2 (eapply moves_cons; [done|]). by apply moves_one. }
  go. apply (wpd_mono _ _ (fun _ d' => moves d d') _ (fun _ _ => True)); [|intros current d1 Hm|done].
  { destruct (is_proposed a); go; [|apply moves_refl]. intros a' Hs _. go.
    apply (wpd_save_action a); [by rewrite Ht|by eapply action_here|by apply rtc_once|].
    intros Hc1. go. apply record_rule; [done|]. intros e d2 Hc2 _. go.
    eapply moves_cons; [done|by apply moves_one]. }
  go. intros _. go. intros envelope _. destruct o as [cached|]; go.
  - by intros again _; go.
  - apply remember_rule; [done..|]. intros d2 Hc2. go. by eapply rtc_r.
Qed.

Lemma authorize_action_refines command : refines_steps (authorize_action_at_execution_time p context command).
Proof.
  unfold authorize_action_at_execution_time. apply wpd_bind, wpd_throw_if; [intros _|intros _; apply moves_refl].
  apply wpd_bind, wpd_throw_if; [intros _|intros _; apply moves_refl].
  apply wpd_bind, wpd_now; intros t. apply wpd_bind, wpd_lift; [intros late _|intros ? _; apply moves_refl].
  apply wpd_bind, wpd_throw_if; [intros _|intros _; apply moves_refl].
  apply wpd_bind. apply wpd_transaction; [|intros; apply moves_refl].
  eapply wpd_mono; [apply authorize_or_deny_moves|cbv beta|done].
  intros [envelope|reason] d' Hm; [by apply wpd_ret|by apply wpd_throw].
Qed.

(** ** Governed execution *)

(** While the gateway is waited for, the store moves by changes of the
    machine, and what it returns is an end of a run of its program. *)
Lemma wpd_gateway g {A} (program : prog GatewayE A) (Q : A → store → Prop)
    (E : exn → store → Prop) :
  governed_gateway p = Some g →
  (∀ a d' tr, moves d d' → Programs.runs program tr (Ok a) → Q a d') → (∀ x d', moves d d' → E x d') →
  wpd (unused d) (interp (gateway_port g) program) Q E d.
Proof.
  intros Hg HQ HE w <- e n k _.
  assert (Hk : keeps (fun w' => moves (db w) (db w')) (interp (gateway_port g) program)).
  { apply keeps_interp. intros B c w1 Hw1. eapply wp_mono.
    - apply (gateway_moves g B c w1 Hg). by eapply moves_ok.
    - cbv beta. intros _ w2 Hw2. by etrans.
    - cbv beta. intros _ w2 Hw2. by etrans. }
  specialize (Hk w (moves_refl _) e n k (fun _ => I)).
  destruct (interp _ program e _) as [r s'] eqn:Er. destruct (interp_runs _ _ _ _ _ _ Er) as [tr Htr].
  destruct r; eauto.
Qed.

Lemma replay_execution_moves cached :
  wpd (X := X) (unused d) (replay_execution context cached) (fun _ d' => d' = d)
    (fun _ _ => True) d.
Proof.
  unfold replay_execution. go. intros a _ _. go. destruct (List.filter _ _) as [|b bs]; [by go|].
  destruct (List.filter _ _) as [|e es]; [by go|]. go. intros ? _. go. by intros ? _; go.
Qed.

Lemma wpd_attempt_of a receipt (Q : ActionAttempt.t → store → Prop) (E : exn → store → Prop) d1 :
  (∀ b, ActionAttempt.tenant_id b = Action.tenant_id a → ActionAttempt.run_id b = Action.run_id a →
     ActionAttempt.action_id b = Action.action_id a → Q b d1) → (∀ x, E x d1) →
  wpd (X := X) (unused d) (attempt_of a receipt) Q E d1.
Proof.
  intros HQ HE. unfold attempt_of. do 2 (apply wpd_bind, wpd_uuid4; intros ? _).
  apply wpd_bind, wpd_now; intros t. apply wpd_lift; [|done].
  intros b Hb. apply HQ; by apply then_ok in Hb as [_ [= <-]].
Qed.

Lemma wpd_evidence_of a receipt (Q : Evidence.t → store → Prop) (E : exn → store → Prop) d1 :
  (∀ b, Evidence.tenant_id b = Action.tenant_id a → Evidence.run_id b = Action.run_id a →
     Evidence.action_id b = Action.action_id a →
     Evidence.integrity b ≠ EvidenceIntegrity.VERIFIED → Q b d1) → (∀ x, E x d1) →
  wpd (X := X) (unused d) (evidence_of a receipt) Q E d1.
Proof.
  intros HQ HE. unfold evidence_of. apply wpd_bind, wpd_now; intros t.
  apply wpd_bind, wpd_uuid4; intros ? _. apply wpd_lift; [|done].
  intros b Hb. apply HQ; by apply then_ok in Hb as [_ [= <-]].
Qed.

(** An action whose version has not changed has not changed. *)
Lemma action_unmoved d1 a a1 : moves d d1 → actions d !! Action.action_id a = Some a →
  actions d1 !! Action.action_id a = Some a1 →
  Action.optimistic_version a1 = Action.optimistic_version a → a1 = a.
Proof.
  intros Hm Ha Ha1 Ev. destruct (moves_actions _ _ _ _ _ Hm _ _ Ha) as (a2 & Ha2 & Hs).
  assert (a2 = a1) as -> by congruence.
  destruct (steps_version action_step (fun x y H => proj1 (action_step_ok x y H)) _ _ Hs)
    as [<-|Hv]; [done|]. cbn in Hv. lia.
Qed.

Lemma wpd_add_attempt b a (Q : unit → store → Prop) d1 :
  T (ActionAttempt.tenant_id b) → actions d1 !! ActionAttempt.action_id b = Some a →
  Action.tenant_id a = ActionAttempt.tenant_id b → Action.run_id a = ActionAttempt.run_id b →
  (change d1 (put_attempt b d1) → Q tt (put_attempt b d1)) →
  wpd (X := X) (unused d) (add_action_attempt b) Q (fun _ _ => True) d1.
Proof.
  intros Hb Ha Et Er HQ. unfold add_action_attempt. apply wpd_bind, wpd_query. go. intros _.
  apply wpd_update, HQ. by eapply NewAttempt.
Qed.

Lemma wpd_add_evidence x (Q : unit → store → Prop) d1 :
  T (Evidence.tenant_id x) →
  (Evidence.integrity x = EvidenceIntegrity.VERIFIED →
     Evidence.capture_method x = EvidenceCaptureMethod.AUTHORITATIVE_READBACK) →
  (change d1 (put_evidence x d1) → Q tt (put_evidence x d1)) →
  wpd (X := X) (unused d) (add_evidence x) Q (fun _ _ => True) d1.
Proof.
  intros Hx Hi HQ. unfold add_evidence. go. intros a Ha Et. go. intros Er. bool_hyps.
  apply wpd_update, HQ. by eapply NewEvidence.
Qed.

Lemma persist_execution_moves d1 key a result attempt evidence :
  moves d d1 → actions d !! Action.action_id a = Some a →
  Action.tenant_id a = CommandContext.tenant context →
  action_steps a (GatewayResult.action result) →
  ActionAttempt.tenant_id attempt = Action.tenant_id a →
  ActionAttempt.run_id attempt = Action.run_id a →
  ActionAttempt.action_id attempt = Action.action_id a →
  Evidence.tenant_id evidence = Action.tenant_id a →
  Evidence.integrity evidence ≠ EvidenceIntegrity.VERIFIED →
  wpd (X := X) (unused d) (persist_execution context key a result attempt evidence)
    (fun _ d' => moves d d') (fun _ d' => moves d d') d1.
Proof.
  intros Hm Ha Ht Hs Et Er Ea Eet Ei. unfold persist_execution.
  apply wpd_transaction; [|done]. go. intros cur Hcur _. go. intros Hv. bool_hyps. go.
  assert (cur = a) as -> by by eapply action_unmoved.
  pose proof (action_steps_fields _ _ Hs) as Ef.
  apply (wpd_save_action a); [by rewrite Ht|done|done|]. intros Hc1. go.
  apply (wpd_add_attempt _ (GatewayResult.action result)).
  - by rewrite Et, Ht.
  - unfold put_action. cbn. replace (ActionAttempt.action_id attempt)
      with (Action.action_id (GatewayResult.action result)) by by rewrite Ef, Ea.
    apply dict_lookup_insert.
  - by rewrite Ef, Et.
  - by rewrite Ef, Er.
  - intros Hc2. go. apply wpd_add_evidence; [by rewrite Eet, Ht|done|]. intros Hc3. go.
    apply record_rule; [done|]. intros ? d4 Hc4 _. go.
    apply record_rule; [done|]. intros ? d5 Hc5 _. apply remember_rule; [done..|].
    intros d6 Hc6. etrans; [exact Hm|]. do 5 (eapply moves_cons; [done|]). by apply moves_one.
Qed.

Lemma execute_governed_action_refines command :
  refines_steps (execute_governed_action p context command).
Proof.
  unfold execute_governed_action.
  apply wpd_bind, wpd_throw_if; [intros _|intros _; apply moves_refl].
  destruct (governed_gateway p) as [g|] eqn:Hg; [|apply wpd_throw, moves_refl].
  apply wpd_bind. apply (wpd_mono _ _ (fun r d' => d' = d ∧ match r with
    | inl _ => True
    | inr (a, _) => actions d !! Action.action_id a = Some a ∧
        Action.tenant_id a = CommandContext.tenant context end) _ (fun _ d' => moves d d'));
    [|intros [replayed|[a q]] d' [-> Ha]|done].
  { apply wpd_transaction; [|intros; apply moves_refl]. go. intros o _. destruct o as [cached|].
    - apply wpd_bind. eapply wpd_mono; [apply replay_execution_moves|cbv beta|done].
      intros r d' ->. by go.
    - go. intros a Ha Et. go. destruct (ExecuteGovernedAction.approval_id command); go.
      + intros q _ _. go. split_and!; [done|by eapply action_here|done].
      + split_and!; [done|by eapply action_here|done]. }
  { apply wpd_ret, moves_refl. }
  destruct Ha as [Ha Et]. apply wpd_bind.
  apply (wpd_mono _ _ (fun _ d' => d' = d) _ (fun _ d' => moves d d')); [|intros _ d' ->|done].
  { destruct (is_write_risk _); [|by apply wpd_ret].
    destruct (shadow_write_guard p) as [guard|] eqn:Eg; [|by apply wpd_ret].
    apply (wpd_quiet _ _ _ _ _ (guard_quiet _ _ _ Eg)); [done|]. intros; apply moves_refl. }
  apply wpd_bind, (wpd_gateway g); [done| |done]. intros result d1 tr Hm Htr.
  apply execute_decides in Htr as [_ Hs].
  apply wpd_bind, wpd_attempt_of; [|done]. intros attempt E1 E2 E3.
  apply wpd_bind, wpd_evidence_of; [|done]. intros ev E4 _ _ E5.
  apply wpd_bind. eapply wpd_mono; [by apply (persist_execution_moves d1)|cbv beta|done].
  intros _ d' Hd'. by apply wpd_ret.
Qed.

(** ** Attempts and reconciliation *)

(** The end of both use cases: the attempt, the action, the audit event. *)
Lemma refines_attempt {A} attempt a a' version event item key value (r : A) :
  actions d !! Action.action_id a = Some a → Action.tenant_id a = CommandContext.tenant context →
  ActionAttempt.tenant_id attempt = Action.tenant_id a →
  ActionAttempt.run_id attempt = Action.run_id a →
  ActionAttempt.action_id attempt = Action.action_id a → action_steps a a' →
  wpd (X := X) (unused d)
    (add_action_attempt attempt ;; save_action a' version ;; record context event item ;;
     remember context key value ;; mret r)
    (fun _ d' => moves d d') (fun _ _ => True) d.
Proof.
  intros Ha Et E1 E2 E3 Hs. go.
  apply (wpd_add_attempt _ a); [by rewrite E1, Et|by rewrite E3|done..|]. intros Hc1. go.
  apply (wpd_save_action a); [by rewrite Et|done|done|]. intros Hc2. go.
  apply refines_record_remember. eapply moves_cons; [done|by apply moves_one].
Qed.

Lemma wpd_new_attempt record (Q : ActionAttempt.t → store → Prop) :
  (∀ b, b = record → Q b d) →
  wpd (X := X) (unused d) (lift (ActionAttempt.new record)) Q (fun _ _ => True) d.
Proof.
  intros HQ. apply wpd_lift; [|done]. intros b Hb. apply then_ok in Hb as [_ [= <-]]. by apply HQ.
Qed.

Lemma record_action_attempt_refines command : refines (record_action_attempt context command).
Proof.
  unfold record_action_attempt. go1; cbv beta. apply wpd_throw_if; [intros _|done].
  apply wpd_transaction; [|done]. go. intros o _. destruct o as [cached|].
  { go. intros a _ _. apply moves_refl. }
  go. intros a Ha Et. go. intros _. go.
  apply (wpd_mono _ _ (fun a1 d' => d' = d ∧ action_steps a a1) _ (fun _ _ => True));
    [|intros a1 d' [-> H1]|done].
  { case_bool_decide; go; [|split; [done|apply rtc_refl]]. intros a1 Hs _.
    split; [done|by apply rtc_once]. }
  go. apply (wpd_mono _ _ (fun a2 d' => d' = d ∧ action_steps a a2) _ (fun _ _ => True));
    [|intros a2 d' [-> H2]|done].
  { destruct (action_target _); go; [|done]. intros a2 Hs _. split; [done|by eapply rtc_r]. }
  go1; cbv beta; go1. do 2 (go1; cbv beta). go1. apply wpd_new_attempt. intros b ->.
  apply (refines_attempt _ a); [by eapply action_here|done..].
Qed.

Lemma reconcile_unknown_action_refines command :
  refines (reconcile_unknown_action context command).
Proof.
  unfold reconcile_unknown_action. go1; cbv beta. apply wpd_throw_if; [intros _|done].
  apply wpd_transaction; [|done]. go. intros o _. destruct o as [cached|].
  { go. intros a _ _. apply moves_refl. }
  go. intros a Ha Et. go. intros _. go. intros a' Hs _.
  do 2 (go1; cbv beta; go1). go1. apply wpd_new_attempt. intros b ->.
  apply (refines_attempt _ a); [by eapply action_here|done..|by apply rtc_once].
Qed.
End action_proofs.

(** * Evidence and outcomes refine the machine

    The use cases of [EvidenceCommands].  The capture of authoritative evidence
    and the deletion of an artifact are sagas of several transactions with
    ports between them: every point they may stop at is reached by changes of
    the machine. *)

Open Scope string_scope.
Open Scope list_scope.
Open Scope Z_scope.

#[local] Arguments insert : simpl never.
#[local] Arguments lookup : simpl never.

Section evidence_proofs.
Context {X : Type} (p : ports X).
Context (may_retrieve : EvidenceArtifactDescriptor.t → list Z → Prop)
  (may_observe : string → uuid → list SubjectRef.t → SuccessCriterion.t →
     AuthoritativeObservation.t → Prop) (T : uuid → Prop)
  `{Hports : !PortsOk may_retrieve may_observe T p}.
Notation change := (change may_retrieve may_observe T).
Notation moves := (moves may_retrieve may_observe T).
Notation store_ok := (store_ok may_retrieve may_observe).

Context (d : store) (Hok : store_ok d) (context : CommandContext.t)
  (HT : T (CommandContext.tenant context))
  (Hdigest : PyStr.empty (CommandContext.request_digest context) = false).

Notation refines m :=
  (wpd (X := X) (unused d) m (fun _ d' => moves d d') (fun _ d' => d' = d) d).
Notation refines_steps m :=
  (wpd (X := X) (unused d) m (fun _ d' => moves d d') (fun _ d' => moves d d') d).

#[local] Notation remember_rule := (wpd_remember _ may_retrieve may_observe T).
#[local] Notation record_rule := (wpd_record _ may_retrieve may_observe T).
#[local] Notation remembered := (refines_remember may_retrieve may_observe T d context HT Hdigest).
#[local] Notation closed := (refines_record_remember may_retrieve may_observe T d context HT Hdigest).

Lemma record_evidence_refines command : refines (record_evidence context command).
Proof.
  unfold record_evidence. go1; cbv beta. apply wpd_throw_if; [intros _|done].
  go1; cbv beta. apply wpd_throw_if; [intros Hi|done]. go1; cbv beta.
  apply wpd_throw_if; [intros Ht|done]. bool_hyps.
  apply wpd_transaction; [|done]. go. intros o _. destruct o as [cached|].
  { go. intros a _ _. apply moves_refl. }
  go. intros a Ha Et. go. intros _. go.
  apply (wpd_add_evidence may_retrieve may_observe T); [by rewrite Ht|done|]. intros Hc1. go.
  apply closed. by apply moves_one.
Qed.

(** ** Capture *)

Lemma commit_evidence_capture_moves key saga stored d1 :
  moves d d1 → EvidenceCaptureSaga.tenant_id saga = CommandContext.tenant context →
  wpd (X := X) (unused d) (commit_evidence_capture context key saga stored)
    (fun _ d' => moves d d') (fun _ d' => moves d d') d1.
Proof.
  intros Hm Ht. unfold commit_evidence_capture.
  do 5 (apply wpd_bind, wpd_lift; [intros ? _|done]).
  apply wpd_bind, wpd_lift; [|done]. intros ev Hev. apply then_ok in Hev as [_ [= Eev]].
  apply wpd_bind. apply wpd_transaction; [|done]. go.
  apply (wpd_add_evidence may_retrieve may_observe T); [by rewrite <- Eev; cbn; rewrite Ht|by rewrite <- Eev|].
  intros Hc1. go. unfold complete_evidence_capture. go. intros item Hitem Et. go. intros _.
  apply wpd_update. go. apply record_rule; [done|]. intros e d2 Hc2 _. apply remember_rule; [done..|].
  intros d3 Hc3. go. etrans; [exact Hm|]. eapply moves_cons; [exact Hc1|].
  eapply moves_cons; [|eapply moves_cons; [exact Hc2|by apply moves_one]].
  eapply SaveSaga. cbn. by rewrite Et.
Qed.

Lemma resume_capture_moves key artifacts pending :
  artifacts_ok may_retrieve artifacts →
  EvidenceCaptureSaga.tenant_id pending = CommandContext.tenant context →
  wpd (X := X) (unused d) (resume_capture context key artifacts pending)
    (fun _ d' => moves d d') (fun _ d' => moves d d') d.
Proof.
  intros Ha Ht. unfold resume_capture. assert (moves d d) as Hr by apply moves_refl.
  do 2 (apply wpd_bind, wpd_lift; [intros ? _|done]).
  apply wpd_bind, (wpd_quiet_on _ _ _ _ _ _ (retrieve_quiet _ _ Ha _)); [|done]. intros content _.
  apply wpd_bind, (wpd_quiet _ _ _ _ _ (put_quiet _ _ Ha _ _ _)); [|done]. intros stored.
  by apply commit_evidence_capture_moves.
Qed.

Lemma begin_capture_moves key artifacts readback evidence_id command :
  artifacts_ok may_retrieve artifacts → readback_port p = Some readback →
  wpd (X := X) (unused d) (begin_capture p context key artifacts readback evidence_id command)
    (fun _ d' => moves d d') (fun _ d' => moves d d') d.
Proof.
  intros Ha Hb. unfold begin_capture. assert (moves d d) as Hr by apply moves_refl.
  apply wpd_bind, wpd_fetch; [|done]. intros r _ _.
  apply wpd_bind, wpd_fetch; [|done]. intros g _ _.
  apply wpd_bind, wpd_fetch; [|done]. intros a _ _.
  apply wpd_bind, wpd_throw_if; [intros _|done].
  destruct (find_criterion _ g) as [c|]; [|by apply wpd_throw].
  apply wpd_bind, (wpd_quiet_on _ _ _ _ _ _ (readback_quiet _ _ _ _ _ Hb)); [|done]. intros obs _.
  apply wpd_bind, wpd_lift; [|done]. intros cl _.
  apply wpd_bind, (wpd_quiet _ _ _ _ _ (describe_quiet _ _ Ha _ _ _ _ _ _)); [|done]. intros desc.
  apply wpd_bind. set (saga := EvidenceCaptureSaga.mk _ _ _ _ _ _ _ _ _ _ _).
  apply (wpd_mono _ _ (fun _ d' => moves d d') _ (fun _ d' => moves d d')); [|intros _ d1 Hm|done].
  { unfold start_evidence_capture. apply wpd_bind, wpd_query.
    destruct (_ !! _); [by apply wpd_throw_if|]. apply wpd_update, moves_one.
    by eapply (SaveSaga _ _ T d _ saga). }
  apply wpd_bind, (wpd_quiet _ _ _ _ _ (put_quiet _ _ Ha _ _ _)); [|done]. intros stored.
  apply wpd_bind, (wpd_quiet_on _ _ _ _ _ _ (retrieve_quiet _ _ Ha _)); [|done]. intros _ _.
  by apply commit_evidence_capture_moves.
Qed.

Lemma capture_authoritative_evidence_refines command :
  refines_steps (capture_authoritative_evidence p context command).
Proof.
  unfold capture_authoritative_evidence. assert (moves d d) as Hr by apply moves_refl.
  apply wpd_bind, wpd_throw_if; [intros _|done].
  destruct (evidence_artifacts p) as [artifacts|] eqn:Ea; [|by apply wpd_throw].
  destruct (readback_port p) as [readback|] eqn:Eb; [|by apply wpd_throw].
  pose proof (artifacts_quiet _ Ea) as Ha.
  apply wpd_bind, wpd_load; [|done]. intros o _. destruct o as [cached|].
  { by apply wpd_fetch. }
  apply wpd_bind. apply wpd_try. apply wpd_bind, wpd_fetch; [|intros x; case_match; [by apply wpd_ret, begin_capture_moves|done]].
  intros saga _ Ht. apply wpd_ret. case_bool_decide; [by apply wpd_fetch|].
  by apply resume_capture_moves.
Qed.

(** ** Deletion *)

Lemma request_evidence_deletion_refines command :
  refines_steps (request_evidence_deletion p context command).
Proof.
  unfold request_evidence_deletion. assert (moves d d) as Hr by apply moves_refl.
  apply wpd_bind, wpd_throw_if; [intros _|done].
  destruct (evidence_artifacts p) as [artifacts|] eqn:Ea; [|by apply wpd_throw].
  pose proof (artifacts_quiet _ Ea) as Ha.
  apply wpd_bind, wpd_throw_if; [intros _|done]. apply wpd_bind, wpd_fetch; [|done]. intros ev Hev Et.
  apply wpd_bind, wpd_now. intros t.
  assert (Hstep : ∀ r event item d1,
    EvidenceDeletionRecord.tenant_id r = CommandContext.tenant context → moves d d1 →
    wpd (X := X) (unused d) (transaction (record_evidence_deletion r ;; record context event item))
      (fun _ d' => moves d d') (fun _ d' => moves d d') d1).
  { intros r event item d1 Er Hm. apply wpd_transaction; [|done]. go. apply wpd_update.
    apply record_rule; [done|]. intros e d2 Hc _. etrans; [exact Hm|].
    eapply moves_cons; [|by apply moves_one]. eapply SaveDeletion. by rewrite Er. }
  apply wpd_bind. eapply wpd_mono; [by apply Hstep|cbv beta; intros _ d1 Hm|done].
  apply wpd_bind, wpd_try_all.
  apply wpd_bind, (wpd_quiet _ _ _ _ _ (delete_quiet _ _ Ha _)).
  - intros receipt. apply wpd_ret. apply wpd_bind. eapply wpd_mono; [by apply Hstep|cbv beta|done].
    intros _ d2 Hm2. by apply wpd_ret.
  - intros x. apply wpd_ret. apply wpd_bind. eapply wpd_mono; [apply Hstep; try done|cbv beta|done].
    + cbn. by destruct (catches _ _).
    + intros _ d2 Hm2. by apply wpd_ret.
Qed.

(** ** Outcomes *)

(** Verification leaves the store alone. *)
Lemma verify_keeps artifacts readback version tenant subjects c items t d1 :
  artifacts_ok may_retrieve artifacts → readback_port p = Some readback →
  keeps (fun w => db w = d1) (verify readback artifacts version tenant subjects c items t).
Proof.
  intros Ha Hb.
  assert (Hq : ∀ A (m : M (world X) A) P, quiet_on m P → keeps (fun w => db w = d1) m).
  { intros A m P Hm w <-. eapply wp_mono; [apply Hm|by intros ? ? [? _]|done]. }
  unfold verify. apply keeps_bind; [apply keeps_lift|]. intros candidates.
  destruct candidates as [|x l]; [apply keeps_ret|]. generalize (x :: l). clear x l.
  induction l as [|x l IH]; cbn [decide_candidates]; [apply keeps_ret|].
  apply keeps_bind.
  - unfold read_back. apply keeps_try; [apply keeps_try|]; [|intros; apply keeps_ret..].
    apply keeps_bind; [eapply Hq, (retrieve_quiet _ _ Ha)|intros content].
    apply keeps_bind; [eapply Hq, (readback_quiet _ _ _ _ _ Hb)|intros obs]. apply keeps_ret.
  - intros [[content obs]|]; [|done]. destruct (corroborates _ _ _ _); [apply keeps_ret|done].
Qed.

(** What a decision other than UNKNOWN rests on. *)
Definition decision_grounded subjects c items t (o : OutcomeVerificationDecision.t) : Prop :=
  OutcomeVerificationDecision.verified_at o = t ∧
  match OutcomeVerificationDecision.status o with
  | OutcomeStatus.VERIFIED =>
      grounds may_retrieve may_observe (CommandContext.tenant context) subjects c items t true
  | OutcomeStatus.NOT_MET =>
      grounds may_retrieve may_observe (CommandContext.tenant context) subjects c items t false
  | OutcomeStatus.UNKNOWN => True
  end.

Lemma verify_quiet_on artifacts readback version subjects c items t :
  artifacts_ok may_retrieve artifacts → readback_port p = Some readback →
  quiet_on (verify readback artifacts version (CommandContext.tenant context) subjects c items t)
    (decision_grounded subjects c items t).
Proof.
  intros Ha Hb w. eapply wp_mono.
  - apply wp_and; [apply (verify_ok _ _ _ may_retrieve may_observe)|
      apply (verify_keeps artifacts readback _ _ _ _ _ _ (db w)); done].
    + intros x s. eapply wp_mono; [apply (retrieve_quiet _ _ Ha)|by intros c' s' []|done].
    + intros src t' subs crit s.
      eapply wp_mono; [apply (readback_quiet _ _ _ _ _ Hb)|by intros c' s' []|done].
  - by intros v w' [? ?].
  - by intros x w' [? ?].
Qed.

Lemma verify_outcome_refines command : refines (verify_outcome p context command).
Proof.
  unfold verify_outcome. go1; cbv beta. apply wpd_throw_if; [intros _|done].
  destruct (readback_port p) as [readback|] eqn:Eb; [|by apply wpd_throw].
  destruct (evidence_artifacts p) as [artifacts|] eqn:Ea; [|by apply wpd_throw].
  pose proof (artifacts_quiet _ Ea) as Ha.
  apply wpd_transaction; [|done]. go. intros o _. destruct o as [cached|].
  { go. intros a _ _. apply moves_refl. }
  go. intros r Hr Et. go. intros g Hg Etg.
  destruct (find_criterion _ g) as [c|] eqn:Ec; [|by apply wpd_throw].
  apply find_some in Ec as [Hin Hc]. bool_hyps.
  go. apply (wpd_mapM _ _ (fun _ x => evidence d !! Evidence.evidence_id x = Some x)).
  { intros u _. go. intros x Hx _. split; [|done].
    by rewrite (proj2 (evidence_keyed _ _ _ Hok) _ _ Hx). }
  intros items Hitems. go. intros _. go.
  apply (wpd_quiet_on _ _ _ _ _ _ (verify_quiet_on _ _ _ _ _ _ _ Ha Eb)); [|done].
  intros v [Ev Hgr]. go. intros out Hout. pose proof Hout as E. apply then_ok in E as [_ [= Eo]].
  go. unfold add_outcome. go. apply wpd_for_each.
  { intros x Hx. go. intros y _ _. go. by intros _. }
  apply wpd_update. go. apply closed. apply moves_one. rewrite Eo in Hout.
  apply (NewOutcome _ _ T d out).
  - by rewrite <- Eo.
  - done.
  - rewrite <- Eo. cbn. clear -Hitems. induction Hitems as [|u x us xs Hx _ IH]; intros e He.
    + by apply elem_of_nil in He.
    + apply elem_of_cons in He as [->|He]; [done|by apply IH].
  - rewrite <- Eo. by apply H.
  - exists r, g, c, (OutcomeVerificationDecision.verified_at v). rewrite <- Eo. cbn.
    rewrite Ev. rewrite <- (proj2 (runs_keyed _ _ _ Hok) _ _ Hr) in Hr.
    rewrite (proj2 (goals_keyed _ _ _ Hok) _ _ Hg). split_and!; try done.
    by apply list_elem_of_In.
Qed.
End evidence_proofs.

(** * The application refines the machine

    [command A] are the use cases of [GoalExecutionApplication] that answer
    with an [A]; [run_command] runs one as written in [RunCommands],
    [ActionCommands] and [EvidenceCommands].  Every command, whether it
    returns or raises, takes the store through changes of [Machine] made for
    the tenant of its context ([command_refines]), so whatever sequence of
    commands is run, by whichever tenants, the store keeps the invariant
    ([reachable_invariant]) and the properties that follow from it. *)

Open Scope string_scope.
Open Scope list_scope.
Open Scope Z_scope.

#[local] Arguments insert : simpl never.
#[local] Arguments lookup : simpl never.

Inductive command : Type → Type :=
  | CCreateGoal (c : CreateGoal.t) : command GoalContract.t
  | CActivateGoal (c : ActivateGoal.t) : command GoalContract.t
  | CRequestRun (c : RequestRun.t) : command Run.t
  | CPrepareRunContext (c : PrepareRunContext.t) : command ContextSnapshot.t
  | CCreateValidatedPlan (c : CreateValidatedPlan.t) : command Plan.t
  | CStartTask (c : StartTask.t) : command Task.t
  | CCompleteTask (c : CompleteTask.t) : command Task.t
  | CProposeAction (c : ProposeAction.t) : command Action.t
  | CRequestApproval (c : RequestApproval.t) : command ApprovalRequest.t
  | CDecideApproval (c : DecideApproval.t) : command ApprovalRequest.t
  | CAuthorizeAction (c : AuthorizeActionAtExecutionTime.t) : command ActionExecutionEnvelope.t
  | CExecuteGovernedAction (c : ExecuteGovernedAction.t) : command GovernedActionExecution.t
  | CRecordActionAttempt (c : RecordActionAttempt.t) : command Action.t
  | CReconcileUnknownAction (c : ReconcileUnknownAction.t) : command Action.t
  | CRecordEvidence (c : RecordEvidence.t) : command Evidence.t
  | CCaptureEvidence (c : CaptureAuthoritativeEvidence.t) : command Evidence.t
  | CRequestEvidenceDeletion (c : RequestEvidenceDeletion.t) : command EvidenceDeletionRecord.t
  | CVerifyOutcome (c : VerifyOutcome.t) : command Outcome.t
  | CCompleteRun (c : CompleteRun.t) : command Run.t
  | CSatisfyOrFailGoal (c : SatisfyOrFailGoal.t) : command GoalContract.t
  | CCancelRun (c : CancelRun.t) : command Run.t
  | CFailRun (c : FailRun.t) : command Run.t
  | CTakeOverRun (c : TakeOverRun.t) : command Run.t.

Definition run_command {X A} (p : ports X) (context : CommandContext.t) (c : command A)
    : M (world X) A :=
  match c with
  | CCreateGoal c => create_goal p context c
  | CActivateGoal c => activate_goal context c
  | CRequestRun c => request_run p context c
  | CPrepareRunContext c => prepare_run_context context c
  | CCreateValidatedPlan c => create_validated_plan context c
  | CStartTask c => start_task context c
  | CCompleteTask c => complete_task context c
  | CProposeAction c => propose_action context c
  | CRequestApproval c => request_approval context c
  | CDecideApproval c => decide_approval context c
  | CAuthorizeAction c => authorize_action_at_execution_time p context c
  | CExecuteGovernedAction c => execute_governed_action p context c
  | CRecordActionAttempt c => record_action_attempt context c
  | CReconcileUnknownAction c => reconcile_unknown_action context c
  | CRecordEvidence c => record_evidence context c
  | CCaptureEvidence c => capture_authoritative_evidence p context c
  | CRequestEvidenceDeletion c => request_evidence_deletion p context c
  | CVerifyOutcome c => verify_outcome p context c
  | CCompleteRun c => complete_run context c
  | CSatisfyOrFailGoal c => satisfy_or_fail_goal context c
  | CCancelRun c => cancel_run context c
  | CFailRun c => fail_run context c
  | CTakeOverRun c => take_over_run context c
  end.

(** The commands that are more than one transaction. *)
Definition saga {A} (c : command A) : bool :=
  match c with
  | CAuthorizeAction _ | CExecuteGovernedAction _ | CCaptureEvidence _
  | CRequestEvidenceDeletion _ => true
  | _ => false
  end.

Lemma context_digest context : CommandContext.new context = Ok context →
  PyStr.empty (CommandContext.request_digest context) = false.
Proof.
  unfold CommandContext.new, CommandContext.post_init. intros H. inv_ok.
  unfold not_sha256_hex in *. destruct (CommandContext.request_digest context); [|done].
  by match goal with H : (_ || _) = false |- _ => vm_compute in H end.
Qed.

Section refinement.
Context {X : Type} (p : ports X).
Context (may_retrieve : EvidenceArtifactDescriptor.t → list Z → Prop)
  (may_observe : string → uuid → list SubjectRef.t → SuccessCriterion.t →
     AuthoritativeObservation.t → Prop).
Notation moves := (moves may_retrieve may_observe).
Notation store_ok := (store_ok may_retrieve may_observe).

Section one_command.
Context (T : uuid → Prop) `{Hports : !PortsOk may_retrieve may_observe T p} (d : store)
  (Hok : store_ok d) (context : CommandContext.t) (HT : T (CommandContext.tenant context))
  (Hc : CommandContext.new context = Ok context).

(** A command of one transaction changes the store by changes of the machine
    or, when it raises, not at all. *)
Lemma transactional_refines {A} (c : command A) : saga c = false →
  wpd (unused d) (run_command p context c) (fun _ d' => moves T d d') (fun _ d' => d' = d) d.
Proof.
  intros Hs. pose proof (context_digest context Hc) as Hd.
  destruct c; try discriminate Hs; cbn [run_command].
  - by apply create_goal_refines.
  - by apply activate_goal_refines.
  - by apply request_run_refines.
  - by apply prepare_run_context_refines.
  - by apply create_validated_plan_refines.
  - by apply start_task_refines.
  - by apply complete_task_refines.
  - by apply propose_action_refines.
  - by apply request_approval_refines.
  - by apply decide_approval_refines.
  - by apply record_action_attempt_refines.
  - by apply reconcile_unknown_action_refines.
  - by apply record_evidence_refines.
  - by apply verify_outcome_refines.
  - by apply complete_run_refines.
  - by apply satisfy_or_fail_goal_refines.
  - by apply cancel_run_refines.
  - by apply fail_run_refines.
  - by apply take_over_run_refines.
Qed.

Lemma any_command_refines {A} (c : command A) :
  wpd (unused d) (run_command p context c) (fun _ d' => moves T d d') (fun _ d' => moves T d d') d.
Proof.
  pose proof (context_digest context Hc) as Hd. destruct (saga c) eqn:Hs.
  - destruct c; try discriminate Hs; cbn [run_command].
    + by apply authorize_action_refines.
    + by apply execute_governed_action_refines.
    + by apply capture_authoritative_evidence_refines.
    + by apply request_evidence_deletion_refines.
  - eapply wpd_mono; [by apply transactional_refines|done|]. intros x d' ->. apply moves_refl.
Qed.
End one_command.
End refinement.
