(* ===== verification/Platform.v ===== *)
(** * The platform, whatever it is asked

    [reachable w0 w]: the world [w] results from [w0] by any commands, of any
    tenants, that returned or raised.  The properties of this file hold of
    every reachable world; they are the promises of [GoalExecutionApplication]
    to its callers. *)

From stdpp Require Import relations.
From S2P Require Import Prelude PyStr Effects Programs PyDict Transitions Values Goals Execution.
From S2P Require Import ExecutionObjects History Digests Identity ContextDomain Gateway.
From S2P Require Import GatewayProofs AuditChain Capability Verification Store Application.
From S2P Require Import RunCommands ActionCommands EvidenceCommands Machine MachineInvariant.
From S2P Require Import StoreLogic RunProofs ActionProofs.
From Stdlib Require Import ZArith.

Open Scope string_scope.
Open Scope list_scope.
Open Scope Z_scope.

#[local] Arguments insert : simpl never.
#[local] Arguments lookup : simpl never.

Section platform.
Context {X : Type} (p : ports X).

(** One command: the identifiers it draws are new to the store. *)
Inductive executes (w : world X) : world X → Prop :=
  | execute_command {A} (c : command A) context e n k r s :
      CommandContext.new context = Ok context → (∀ j, unused (db w) (ids e j)) →
      run_command p context c e (St w n k) = (r, s) → executes w (data s).

Definition reachable : world X → world X → Prop := rtc executes.

Context (may_retrieve : EvidenceArtifactDescriptor.t → list Z → Prop)
  (may_observe : string → uuid → list SubjectRef.t → SuccessCriterion.t →
     AuthoritativeObservation.t → Prop).
Notation moves := (moves may_retrieve may_observe).
Notation store_ok := (store_ok may_retrieve may_observe).

(** What a command does, read off its run. *)
Lemma command_run T `{Hports : !PortsOk may_retrieve may_observe T p} {A} (c : command A)
    context w e n k r s :
  store_ok (db w) → CommandContext.new context = Ok context → T (CommandContext.tenant context) →
  (∀ j, unused (db w) (ids e j)) → run_command p context c e (St w n k) = (r, s) →
  moves T (db w) (db (data s)).
Proof.
  intros Hok Hc HT He Hr.
  pose proof (any_command_refines p may_retrieve may_observe T (db w) Hok context HT Hc c
    w eq_refl e n k He) as H.
  rewrite Hr in H. by destruct r.
Qed.

Section reachable.
Context `{Hports : !PortsOk may_retrieve may_observe (fun _ => True) p} (w0 : world X)
  (Hok : store_ok (db w0)).

Lemma executes_moves w w' : store_ok (db w) → executes w w' → moves (fun _ => True) (db w) (db w').
Proof. intros Hw []. by eapply command_run. Qed.

Lemma reachable_moves w : reachable w0 w → moves (fun _ => True) (db w0) (db w).
Proof.
  intros Hr. induction Hr as [w|w w1 w2 Hs _ IH]; [apply moves_refl|].
  pose proof (executes_moves _ _ Hok Hs) as Hm. etrans; [done|].
  apply IH. by eapply moves_ok.
Qed.

Lemma reachable_ok w : reachable w0 w → store_ok (db w).
Proof. intros Hr. eapply moves_ok; [done|]. by apply reachable_moves. Qed.

(** ** Promises about every reachable world *)

(** C1. In every world the commands can reach, a SATISFIED Goal has, for each of its
    success criteria, a SUCCEEDED Run with a VERIFIED Outcome of that criterion and of
    the Goal's tenant, whose Evidence was captured by authoritative readback and was
    current when verified: the retrieved bytes had the recorded digest, and a fresh
    observation of the same subject, reference, state and digest said that the
    criterion is met. *)
Theorem satisfied_goal_rests_on_authority w k g c :
  reachable w0 w → goals (db w) !! k = Some g →
  GoalContract.status g = GoalStatus.SATISFIED → c ∈ criteria g →
  ∃ r o criterion now, runs (db w) !! Run.run_id r = Some r ∧
    Run.goal_id r = GoalContract.goal_id g ∧ Run.status r = RunStatus.SUCCEEDED ∧
    outcomes (db w) !! Outcome.outcome_id o = Some o ∧ Outcome.run_id o = Run.run_id r ∧
    Outcome.tenant_id o = GoalContract.tenant_id g ∧ Outcome.status o = OutcomeStatus.VERIFIED ∧
    Outcome.criterion_id o = c ∧
    criterion ∈ GoalContract.success_criteria g ∧ SuccessCriterion.criterion_id criterion = c ∧
    Outcome.verified_at o = Some now ∧
    grounds may_retrieve may_observe (GoalContract.tenant_id g) (GoalContract.subject_refs g)
      criterion (Outcome.evidence o) now true.
Proof.
  intros Hr Hg Hs Hc. pose proof (reachable_ok w Hr) as Hw.
  destruct (goals_earned _ _ _ Hw k g Hg Hs) as (kr & r & Hkr & Erg & Ert & Ers & Hv).
  destruct (Hv c Hc) as (ko & o & Ho & Eot & Eor & Eoc & Eos).
  destruct (outcomes_grounded _ _ _ Hw ko o Ho)
    as (r' & g' & cr & now & Hr' & _ & Erg' & Hg' & _ & Hin & Ecr & Ev & Hgr).
  rewrite Eos in Hgr. pose proof (proj2 (runs_keyed _ _ _ Hw) _ _ Hkr) as Ekr.
  rewrite <- (proj2 (outcomes_keyed _ _ _ Hw) _ _ Ho) in Ho.
  pose proof (proj2 (goals_keyed _ _ _ Hw) _ _ Hg) as Ekg. subst kr.
  assert (r' = r) as -> by congruence. assert (g' = g) as -> by congruence.
  exists r, o, cr, now. rewrite Eot, Ert in Hgr. split_and!; try done; congruence.
Qed.

(** C8. In every reachable world a SUCCEEDED Run has only SUCCEEDED tasks and actions,
    every criterion of its Goal has a VERIFIED Outcome of that Run, and the Run is
    bound to a valid Plan of its own. *)
Theorem succeeded_run_is_complete w k r :
  reachable w0 w → runs (db w) !! k = Some r → Run.status r = RunStatus.SUCCEEDED →
  (∀ u x, tasks (db w) !! u = Some x → Task.tenant_id x = Run.tenant_id r →
     Task.run_id x = k → Task.status x = TaskStatus.SUCCEEDED) ∧
  (∀ u a, actions (db w) !! u = Some a → Action.tenant_id a = Run.tenant_id r →
     Action.run_id a = k → Action.status a = ActionStatus.SUCCEEDED) ∧
  (∃ g, goals (db w) !! Run.goal_id r = Some g ∧ outcomes_verified (db w) r g) ∧
  (∃ s plan, Run.execution_snapshot r = Some s ∧
     plans (db w) !! RunExecutionSnapshot.plan_id s = Some plan ∧ Plan.run_id plan = k ∧
     Plan.new plan = Ok plan).
Proof.
  intros Hr Hk Hs. pose proof (reachable_ok w Hr) as Hw.
  pose proof (proj2 (runs_keyed _ _ _ Hw) _ _ Hk) as Ek. subst k.
  destruct (runs_earned _ _ _ Hw _ r Hk Hs) as [Ht Ha (g & Hg & _ & Ho)].
  split_and!; [exact Ht|exact Ha|by exists g|].
  destruct (runs_bound _ _ _ Hw _ r Hk) as [E|[E|(s & plan & Es & Hp & Ep & _)]]; [congruence..|].
  exists s, plan. split_and!; try done. by eapply (plans_valid _ _ _ Hw).
Qed.

Theorem active_runs_bounded w k g :
  reachable w0 w → goals (db w) !! k = Some g →
  active_runs (db w) (GoalContract.tenant_id g) k <= GoalContract.max_concurrent_runs g.
Proof. intros Hr. apply (runs_limited _ _ _ (reachable_ok w Hr)). Qed.

(** C19. In every reachable world the audit events of every tenant verify as one hash
    chain without gaps. *)
Theorem audit_trail_verifies w t :
  reachable w0 w →
  verify_audit_chain (tenant_audits t (audits (db w))) =
    Ok (bool_decide (tenant_audits t (audits (db w)) ≠ [])).
Proof.
  intros Hr. pose proof (audits_chained _ _ _ (reachable_ok w Hr) t) as H.
  unfold chain_ok in H. unfold verify_audit_chain. rewrite H. by destruct (tenant_audits _ _).
Qed.

Theorem stored_approval_is_four_eyes w k q :
  reachable w0 w → approvals (db w) !! k = Some q →
  ApprovalRequest.status q = ApprovalStatus.APPROVED →
  NoDup (ApprovalRequest.principals q) ∧
  Z.of_nat (length (ApprovalRequest.reviews q)) = ApprovalRequest.required_reviews q ∧
  Forall (fun r => ApprovalReview.approved r = true ∧
    dt_lt (ApprovalReview.reviewed_at r) (ApprovalRequest.expires_at q) = Ok true)
    (ApprovalRequest.reviews q).
Proof.
  intros Hr Hq Hs.
  destruct (approvals_decided _ _ _ (reachable_ok w Hr) k q Hq) as (q0 & Hq0 & Hd).
  destruct (decided_ok q0 q Hq0 Hd) as [_ Hnd Hbef Hap _ Ha].
  split_and!; [done|auto|]. apply Forall_and. split; [apply Hap; congruence|done].
Qed.

Theorem action_uses_bound_tool w k a :
  reachable w0 w → actions (db w) !! k = Some a →
  ∃ r s, runs (db w) !! Action.run_id a = Some r ∧ Run.tenant_id r = Action.tenant_id a ∧
    Run.execution_snapshot r = Some s ∧
    Action.tool_name a +:+ "@" +:+ Action.tool_version a ∈ RunExecutionSnapshot.tool_versions s ∧
    ∀ u b, actions (db w) !! u = Some b → Action.tenant_id b = Action.tenant_id a →
      Action.idempotency_key b = Action.idempotency_key a → u = k.
Proof.
  intros Hr Ha. pose proof (reachable_ok w Hr) as Hw.
  destruct (actions_bound _ _ _ Hw k a Ha) as (r & s & H1 & H2 & H3 & H4).
  exists r, s. split_and!; try done. intros u b Hb Et Ek. by eapply (actions_unique _ _ _ Hw).
Qed.

Theorem history_is_append_only w :
  reachable w0 w →
  (∃ l, audits (db w) = audits (db w0) ++ l) ∧
  (∀ k o, outcomes (db w0) !! k = Some o → outcomes (db w) !! k = Some o) ∧
  (∀ k g, goals (db w0) !! k = Some g → GOAL_TRANSITIONS (GoalContract.status g) = [] →
     goals (db w) !! k = Some g) ∧
  (∀ k r, runs (db w0) !! k = Some r → RUN_TRANSITIONS (Run.status r) = [] →
     runs (db w) !! k = Some r) ∧
  (∀ k a, actions (db w0) !! k = Some a → ACTION_TRANSITIONS (Action.status a) = [] →
     actions (db w) !! k = Some a).
Proof.
  intros Hr%reachable_moves. split_and!.
  - by eapply moves_audits.
  - intros k o. by eapply moves_outcomes.
  - intros k g Hg Ht. destruct (moves_goals _ _ _ _ _ Hr k g Hg) as (g' & Hg' & Hs).
    by rewrite <- (steps_terminal goal_step (fun x y H => proj1 (goal_step_ok x y H)) _ _ Hs Ht).
  - intros k r Hk Ht. destruct (moves_runs _ _ _ _ _ Hr k r Hk) as (r' & Hr' & Hs).
    apply run_moves_fields in Hs as (_ & _ & _ & _ & E). by rewrite <- E.
  - intros k a Ha Ht. destruct (moves_actions _ _ _ _ _ Hr k a Ha) as (a' & Ha' & Hs).
    by rewrite <- (steps_terminal action_step (fun x y H => proj1 (action_step_ok x y H)) _ _ Hs Ht).
Qed.
End reachable.

(** ** Promises about one command *)

(** C2. Every use case of GoalExecutionApplication, whether it returns or raises,
    takes the store through legal changes of the abstract machine made for the tenant
    of its context (new records, moves along the transition tables with their guards,
    links of the audit chain, key bindings) and through nothing else. *)
Theorem command_refines T `{Hports : !PortsOk may_retrieve may_observe T p} {A} (c : command A)
    context w :
  store_ok (db w) → CommandContext.new context = Ok context → T (CommandContext.tenant context) →
  wpi (unused (db w)) (run_command p context c)
    (fun _ w' => moves T (db w) (db w')) (fun _ w' => moves T (db w) (db w')) w.
Proof.
  intros Hok Hc HT.
  exact (any_command_refines p may_retrieve may_observe T (db w) Hok context HT Hc c w eq_refl).
Qed.

Theorem failed_transaction_changes_nothing `{Hports : !PortsOk may_retrieve may_observe (fun _ => True) p}
    {A} (c : command A) context w e n k x s :
  store_ok (db w) → CommandContext.new context = Ok context → saga c = false →
  (∀ j, unused (db w) (ids e j)) → run_command p context c e (St w n k) = (Err x, s) →
  db (data s) = db w.
Proof.
  intros Hok Hc Hs He Hr.
  pose proof (transactional_refines p may_retrieve may_observe (fun _ => True) (db w) Hok context I Hc
    c Hs w eq_refl e n k He) as H. by rewrite Hr in H.
Qed.

(** C21. A command of one tenant leaves the goals, runs, plans, actions, approvals,
    outcomes, audit events and idempotency bindings of every other tenant exactly as
    they were, and adds none. *)
Theorem command_leaves_other_tenants_alone context t
    `{Hports : !PortsOk may_retrieve may_observe (eq (CommandContext.tenant context)) p}
    {A} (c : command A) w e n k r s :
  store_ok (db w) → CommandContext.new context = Ok context → t ≠ CommandContext.tenant context →
  (∀ j, unused (db w) (ids e j)) → run_command p context c e (St w n k) = (r, s) →
  unaffected t (db w) (db (data s)).
Proof.
  intros Hok Hc Ht He Hr. eapply moves_unaffected; [|by eapply command_run].
  by intros <-.
Qed.
End platform.

(** * Commands may be repeated

    A command that creates a record binds its idempotency key to the record's
    identifier.  Repeated - at once, or after anything else has happened - it
    answers with that record and leaves the store alone; under the same key
    but another request digest it is refused. *)

Open Scope string_scope.
Open Scope list_scope.
Open Scope Z_scope.

#[local] Arguments insert : simpl never.
#[local] Arguments lookup : simpl never.

(** The operation a command's key is made of. *)
Definition operation {A} (c : command A) : option string :=
  match c with
  | CCreateGoal _ => Some "create_goal"
  | CActivateGoal _ => Some "activate_goal"
  | CRequestRun _ => Some "request_run"
  | CPrepareRunContext _ => Some "prepare_run_context"
  | CCreateValidatedPlan _ => Some "create_validated_plan"
  | CStartTask _ => Some "start_task"
  | CCompleteTask _ => Some "complete_task"
  | CProposeAction _ => Some "propose_action"
  | CRequestApproval _ => Some "request_approval"
  | CDecideApproval _ => Some "decide_approval"
  | CAuthorizeAction _ => Some "authorize_action"
  | CExecuteGovernedAction _ => Some "execute_governed_action"
  | CRecordActionAttempt _ => Some "record_action_attempt"
  | CReconcileUnknownAction _ => Some "reconcile_unknown_action"
  | CRecordEvidence _ => Some "record_evidence"
  | CCaptureEvidence _ => Some "capture_authoritative_evidence"
  | CRequestEvidenceDeletion _ => None
  | CVerifyOutcome _ => Some "verify_outcome"
  | CCompleteRun _ => Some "complete_run"
  | CSatisfyOrFailGoal _ => Some "finish_goal"
  | CCancelRun _ => Some "cancel_run"
  | CFailRun _ => Some "fail_run"
  | CTakeOverRun _ => Some "take_over_run"
  end.


Create HintDb commands.
#[local] Hint Unfold cached_goal cached_run cached_task authorize_or_deny transition_run
  create_goal activate_goal request_run prepare_run_context create_validated_plan start_task
  complete_task complete_run satisfy_or_fail_goal cancel_run fail_run take_over_run
  propose_action request_approval decide_approval authorize_action_at_execution_time
  execute_governed_action record_action_attempt reconcile_unknown_action record_evidence
  capture_authoritative_evidence verify_outcome require_any : commands.

Section idempotency.
Context {X : Type} (p : ports X) (F : uuid → Prop).
Notation wpd := (wpd (X := X) F).



Section one_command.
Context (may_retrieve : EvidenceArtifactDescriptor.t → list Z → Prop)
  (may_observe : string → uuid → list SubjectRef.t → SuccessCriterion.t →
     AuthoritativeObservation.t → Prop).
Notation store_ok := (store_ok may_retrieve may_observe).
Context (d : store) (Hok : store_ok d) (context : CommandContext.t).





(** The same key with another request digest. *)
Lemma wpd_load_conflict key digest (Q : option uuid → store → Prop) (E : exn → store → Prop) :
  idempotency_digests d !! (CommandContext.tenant context, key) = Some digest →
  digest ≠ CommandContext.request_digest context → (∀ x, E x d) →
  wpd (load_idempotency context key) Q E d.
Proof.
  intros Hd Hne HE. unfold load_idempotency, get_idempotency. apply wpd_bind, wpd_query.
  apply wpd_bind, wpd_throw_if; [|done]. unfold Datatypes.id. rewrite Hd.
  by rewrite bool_decide_eq_false_2.
Qed.

Ltac conflict :=
  lazymatch goal with
  | |- StoreLogic.wpd _ (transaction _) _ _ _ => apply wpd_transaction; [conflict|done]
  | |- StoreLogic.wpd _ (mbind _ (load_idempotency _ _)) _ _ _ =>
      apply wpd_bind; eapply wpd_load_conflict; [eassumption|done|done]
  | |- StoreLogic.wpd _ (mbind _ (lift _)) _ _ _ => apply wpd_bind, wpd_lift; [intros ? _|done]; conflict
  | |- StoreLogic.wpd _ (mbind _ now) _ _ _ => apply wpd_bind, wpd_now; intros ?; conflict
  | |- StoreLogic.wpd _ (mbind _ (throw_if _ _ _)) _ _ _ =>
      apply wpd_bind, wpd_throw_if; [intros _|done]; conflict
  | |- StoreLogic.wpd _ (mbind _ _) _ _ _ => apply wpd_bind; conflict
  | |- StoreLogic.wpd _ (throw _ _) _ _ _ => by apply wpd_throw
  | |- StoreLogic.wpd _ (match ?x with _ => _ end) _ _ _ => destruct x; conflict
  | |- _ => progress cbv zeta; conflict
  end.

Lemma conflicting_command {A} (c : command A) op digest :
  operation c = Some op →
  idempotency_digests d !! (CommandContext.tenant context, key_of op context) = Some digest →
  digest ≠ CommandContext.request_digest context →
  wpd (run_command p context c) (fun _ _ => False) (fun _ d' => d' = d) d.
Proof.
  intros Hop Hd Hne. destruct c; cbn in Hop; try discriminate Hop; injection Hop as <-; cbn [run_command];
    autounfold with commands; conflict.
Qed.
End one_command.

End idempotency.

Section repetition.
Context {X : Type} (p : ports X).
Context (may_retrieve : EvidenceArtifactDescriptor.t → list Z → Prop)
  (may_observe : string → uuid → list SubjectRef.t → SuccessCriterion.t →
     AuthoritativeObservation.t → Prop) (T : uuid → Prop).
Notation moves := (moves may_retrieve may_observe T).
Notation store_ok := (store_ok may_retrieve may_observe).


Theorem reused_key_is_refused {A} (c : command A) op digest context w e n k r s :
  operation c = Some op →
  idempotency_digests (db w) !! (CommandContext.tenant context, key_of op context) = Some digest →
  digest ≠ CommandContext.request_digest context →
  run_command p context c e (St w n k) = (r, s) →
  db (data s) = db w ∧ ∃ x, r = Err x.
Proof.
  intros Hop Hd Hne Hr.
  pose proof (conflicting_command p (fun _ => True) (db w) context c op digest Hop Hd Hne
    w eq_refl e n k (fun _ => I)) as H. rewrite Hr in H. destruct r as [a|x]; [done|].
  split; [done|by eexists].
Qed.
End repetition.
