(* ===== verification/SamplePlatform.v ===== *)
(** * A platform at work

    A concrete platform: a catalogue with one goal type, an artifact store that
    keeps one document and an authority that reports it.  [script] takes a goal
    from its draft to SATISFIED through fourteen commands; its run is the
    witness of the properties of [Platform]. *)

From stdpp Require Import relations.
From S2P Require Import Prelude PyStr Effects Programs PyDict PyFloat Json Sha256 Transitions.
From S2P Require Import Values Goals Execution ExecutionObjects History Digests Identity.
From S2P Require Import ContextDomain Context Gateway AuditChain Regex Capability Verification.
From S2P Require Import Store Application RunCommands ActionCommands EvidenceCommands Machine.
From S2P Require Import MachineInvariant StoreLogic ActionProofs Platform.
From Stdlib Require Import ZArith.

Open Scope string_scope.
Open Scope list_scope.
Open Scope Z_scope.

(** ** The ports *)

Definition the_goal_type : GoalTypeManifest.t :=
  GoalTypeManifest.mk "refund" [] "refund-agent" "refund-suite" "refund-policy" 100.

Definition the_agent (t : uuid) : AgentVersion.t := {|
  AgentVersion.tenant_id := t; AgentVersion.agent_id := 7%N; AgentVersion.version := 1;
  AgentVersion.instruction := "refund orders"; AgentVersion.model_route := "default";
  AgentVersion.skill_ids := []; AgentVersion.tool_ids := [];
  AgentVersion.loop_policy := LoopPolicy.mk 5 1000 100 60;
  AgentVersion.stage := AssetStage.STABLE; AgentVersion.agent_version_id := 8%N |}.

Definition the_document : list Z := utf8 "order 42: refunded".

Definition the_descriptor t e c : EvidenceArtifactDescriptor.t :=
  EvidenceArtifactDescriptor.mk t e "artifact://42" (hexdigest the_document) c
    (Z.of_nat (length the_document)) (Aware (seconds 900000)) None.

Definition the_artifacts : artifact_store (world unit) := {|
  describe := fun t e _ c _ _ => mret (the_descriptor t e c);
  artifact_put := fun d _ _ => mret d;
  retrieve_verified := fun _ => mret the_document;
  artifact_delete := fun _ => throw PermissionError "retention has not ended"
|}.

Definition the_observation : AuthoritativeObservation.t :=
  AuthoritativeObservation.mk "erp" "erp@prod" "order/42" "refunded" the_document (Some true)
    (Aware (seconds 10)) (Aware (seconds 800000)).

Definition the_readback : authoritative_readback (world unit) := {|
  observe := fun _ _ _ _ => mret the_observation
|}.

Definition the_ports : ports unit := {|
  catalog_goal_type := fun _ _ => mret the_goal_type;
  catalog_agent := fun t _ => mret (the_agent t);
  schema_error := fun _ _ => None;
  governed_gateway := None;
  legacy_authorization_enabled := true;
  evidence_artifacts := Some the_artifacts;
  readback_port := Some the_readback;
  evidence_policy := EvidenceAdmissionPolicy.default;
  unicode_table := latin;
  shadow_write_guard := None;
  run_deployment_router := None
|}.

Definition the_document_only : EvidenceArtifactDescriptor.t → list Z → Prop :=
  fun _ content => content = the_document.
Definition the_observation_only : string → uuid → list SubjectRef.t → SuccessCriterion.t →
    AuthoritativeObservation.t → Prop := fun _ _ _ _ o => o = the_observation.

Lemma port_returns {A} (a : A) (P : A → Prop) : P a → quiet_on (X := unit) (mret a) P.
Proof. intros Ha w. by apply wp_ret. Qed.

#[export] Instance the_ports_ok T : PortsOk the_document_only the_observation_only T the_ports.
Proof.
  constructor; cbn; try discriminate; intros; simplify_eq; try by apply port_returns.
  constructor; cbn; intros; try by apply port_returns. intros w. by apply wp_throw.
Qed.

(** ** Scripts *)

Definition tenant_a : uuid := 1%N.
Definition tenant_b : uuid := 2%N.

Record step := StepOf {
  step_type : Type; step_tenant : uuid; step_command : command step_type; step_actor : uuid
}.
Arguments StepOf {step_type} _ _ _.
Notation Step := (StepOf tenant_a).

(** The context of step [i]: its own idempotency key. *)
Definition context_of (i : Z) (tenant actor : uuid) : CommandContext.t := {|
  CommandContext.identity := IdentityContext.mk tenant actor actor ["tenant_admin"] None None "user";
  CommandContext.correlation_id := 3%N; CommandContext.causation_id := 4%N;
  CommandContext.idempotency_key := "key-" +:+ int_str i;
  CommandContext.request_digest := sha256_hex (int_str i) |}.

(** Step [i] draws the identifiers from [100 * i] on. *)
Definition env_of (i : Z) : env :=
  Env (fun n => Aware (seconds (1000 * i + Z.of_nat n))) (fun n => (Z.to_N (100 * i) + N.of_nat n)%N).

Definition below (b : uuid) {A} (d : dict uuid A) : bool := all (fun k => (k <? b)%N) (keys d).

Definition all_below (b : uuid) (d : store) : bool :=
  below b (goals d) && below b (runs d) && below b (plans d) && below b (actions d) &&
  below b (approvals d) && below b (outcomes d).

Lemma below_unused {A} b (d : dict uuid A) u : below b d = true → (b <= u)%N → d !! u = None.
Proof.
  unfold below. rewrite all_true. intros H Hu. destruct (d !! u) as [x|] eqn:E; [|done].
  apply dict_lookup_elem in E. assert (Hk : u ∈ keys d) by (apply list_elem_of_fmap; by exists (u, x)).
  apply H, N.ltb_lt in Hk. lia.
Qed.

Definition step_context (i : Z) (x : step) : CommandContext.t :=
  context_of i (step_tenant x) (step_actor x).

(** The script, as long as every step returns. *)
Fixpoint play (i : Z) (l : list step) (w : world unit) : option (world unit) :=
  match l with
  | [] => Some w
  | x :: l' =>
      if all_below (Z.to_N (100 * i)) (db w) &&
         is_ok (CommandContext.new (step_context i x))
      then match run_command the_ports (step_context i x) (step_command x)
                   (env_of i) (St w 0 0) with
           | (Ok _, s) => play (i + 1) l' (data s)
           | _ => None
           end
      else None
  end.

Lemma play_reachable l i w0 w w' : reachable the_ports w0 w → play i l w = Some w' →
  reachable the_ports w0 w'.
Proof.
  revert i w. induction l as [|x l IH]; intros i w Hr H; cbn [play] in H; [by injection H as <-|].
  destruct (all_below _ _ && _) eqn:E; [|done]. apply andb_true_iff in E as [Hb Hc].
  destruct (run_command _ _ _ _ _) as [[a|y] s] eqn:Er; [|done].
  eapply IH; [|exact H]. eapply rtc_r; [exact Hr|].
  eapply (execute_command _ _ (step_command x) (step_context i x) (env_of i));
    [|..|exact Er].
  - apply is_ok_true in Hc as [c Hc]. pose proof Hc as Ec. apply then_ok in Ec as [_ [= <-]]. done.
  - intros j. unfold all_below in Hb. repeat apply andb_true_iff in Hb as [Hb ?].
    split_and!; (eapply below_unused; [eassumption|]); cbn; lia.
Qed.

Definition start : world unit := World empty_store tt.

Definition subjects : list SubjectRef.t := [SubjectRef.mk "erp" "order" "42" None].

Definition the_create_goal : CreateGoal.t := {|
  CreateGoal.goal_type := "refund"; CreateGoal.statement := "refund order 42";
  CreateGoal.desired_outcome := "the customer has the money back";
  CreateGoal.subject_refs := subjects;
  CreateGoal.success_criteria := [SuccessCriterion.mk "refunded" "order is refunded" "erp"];
  CreateGoal.constraints := []; CreateGoal.owner_id := 5%N;
  CreateGoal.risk_tier := RiskTier.LOW; CreateGoal.budget_limit := Some 50;
  CreateGoal.deadline := Aware (seconds 900000); CreateGoal.input_payload := [];
  CreateGoal.correlation_id := 3%N; CreateGoal.budget_unit := BudgetUnit.COST_UNITS;
  CreateGoal.delegation_id := None;
  CreateGoal.maximum_classification := DataClassification.CONFIDENTIAL;
  CreateGoal.allowed_regions := ["eu"]; CreateGoal.retention_days := 30;
  CreateGoal.execution_mode := ExecutionMode.SUPERVISED; CreateGoal.max_concurrent_runs := 1 |}.

Definition the_task : TaskDefinition.t := {|
  TaskDefinition.name := "refund"; TaskDefinition.completion_criterion := "order is refunded";
  TaskDefinition.depends_on := []; TaskDefinition.preconditions := [];
  TaskDefinition.estimated_cost := BudgetAmount.mk 5 BudgetUnit.COST_UNITS;
  TaskDefinition.risk_level := RiskLevel.L3_HIGH_IMPACT_WRITE;
  TaskDefinition.compensation := CompensationCapability.AVAILABLE;
  TaskDefinition.evidence_requirements := ["erp"]; TaskDefinition.task_id := None |}.

(** Goal 100, run 300, task 500, action 700, approval 800. *)
Definition script_until_approval : list step := [
  Step (CCreateGoal the_create_goal) 5%N;
  Step (CActivateGoal (ActivateGoal.mk 100%N "go")) 5%N;
  Step (CRequestRun (RequestRun.mk 100%N)) 5%N;
  Step (CPrepareRunContext (PrepareRunContext.mk 300%N [] [] [] "none" ["erp.refund@1"] []
          "refund" "policy@1" DataClassification.INTERNAL [])) 5%N;
  Step (CCreateValidatedPlan (CreateValidatedPlan.mk 300%N [the_task] [] ["erp.refund@1"]
          "default" "policy@1")) 5%N;
  Step (CStartTask (StartTask.mk 500%N)) 5%N;
  Step (CProposeAction (ProposeAction.mk 500%N "erp.refund" "1" "post" "order/42" []
          RiskLevel.L3_HIGH_IMPACT_WRITE "money returned" DataClassification.INTERNAL
          ExecutionMode.SUPERVISED)) 5%N;
  Step (CRequestApproval (RequestApproval.mk 700%N "policy@1" "refund of 42" "approver"
          (Aware (seconds 100000)))) 5%N].

Definition the_digest : string :=
  match play 1 script_until_approval start with
  | Some w => match actions (db w) !! 700%N with
              | Some a => Action.canonical_digest a | None => "" end
  | None => ""
  end.

Definition the_evidence : uuid := capture_id (context_of 13 tenant_a 5%N).

Definition script : list step := script_until_approval ++ [
  Step (CDecideApproval (DecideApproval.mk 800%N the_digest true "checked")) 21%N;
  Step (CDecideApproval (DecideApproval.mk 800%N the_digest true "checked again")) 22%N;
  Step (CAuthorizeAction (AuthorizeActionAtExecutionTime.mk 700%N "policy@1" true "" (Some 800%N)
          "refund-agent" "none" "budget" (Aware (seconds 90000)) "00-trace")) 5%N;
  Step (CRecordActionAttempt (RecordActionAttempt.mk 700%N 1150%N ActionAttemptStatus.SUCCEEDED
          "receipt/1" "worker" None)) 5%N;
  Step (CCaptureEvidence (CaptureAuthoritativeEvidence.mk 300%N 700%N "refunded" "erp"
          DataClassification.INTERNAL "text/plain")) 5%N;
  Step (CVerifyOutcome (VerifyOutcome.mk 300%N "refunded" [the_evidence])) 5%N;
  Step (CCompleteTask (CompleteTask.mk 500%N true "done")) 5%N;
  Step (CCompleteRun (CompleteRun.mk 300%N)) 5%N;
  Step (CSatisfyOrFailGoal (SatisfyOrFailGoal.mk 100%N true "all outcomes verified")) 5%N].

(** ** What the script leaves behind *)

Definition ended (w : world unit) : bool :=
  match goals (db w) !! 100%N, runs (db w) !! 300%N, actions (db w) !! 700%N,
        approvals (db w) !! 800%N with
  | Some g, Some r, Some a, Some q =>
      bool_decide (GoalContract.status g = GoalStatus.SATISFIED) &&
      bool_decide (criteria g = ["refunded"]) &&
      bool_decide (Run.status r = RunStatus.SUCCEEDED) &&
      bool_decide (Action.status a = ActionStatus.SUCCEEDED) &&
      bool_decide (ApprovalRequest.status q = ApprovalStatus.APPROVED) &&
      bool_decide (ApprovalRequest.required_reviews q = 2) &&
      (10 <? Z.of_nat (length (tenant_audits tenant_a (audits (db w)))))
  | _, _, _, _ => false
  end.

Lemma script_ends : match play 1 script start with Some w => ended w | None => false end = true.
Proof. vm_compute. reflexivity. Qed.

Lemma script_reaches : ∃ w, reachable the_ports start w ∧ ended w = true.
Proof.
  pose proof script_ends as H. destruct (play 1 script start) as [w|] eqn:Ep; [|discriminate H].
  exists w. split; [|exact H]. eapply play_reachable; [apply rtc_refl|exact Ep].
Qed.

(** The end of the script, as the properties of [Platform] use it. *)
Lemma the_end : ∃ w g r a q, reachable the_ports start w ∧
  goals (db w) !! 100%N = Some g ∧ GoalContract.status g = GoalStatus.SATISFIED ∧
  criteria g = ["refunded"] ∧
  runs (db w) !! 300%N = Some r ∧ Run.status r = RunStatus.SUCCEEDED ∧
  actions (db w) !! 700%N = Some a ∧
  approvals (db w) !! 800%N = Some q ∧ ApprovalRequest.status q = ApprovalStatus.APPROVED ∧
  ApprovalRequest.required_reviews q = 2 ∧
  10 < Z.of_nat (length (tenant_audits tenant_a (audits (db w)))).
Proof.
  destruct script_reaches as (w & Hr & H).
  unfold ended in H. destruct (goals (db w) !! 100%N) as [g|] eqn:Eg; [|done].
  destruct (runs (db w) !! 300%N) as [r|] eqn:Er; [|done].
  destruct (actions (db w) !! 700%N) as [a|] eqn:Ea; [|done].
  destruct (approvals (db w) !! 800%N) as [q|] eqn:Eq; [|done].
  bool_hyps. exists w, g, r, a, q. by split_and!.
Qed.

Lemma start_ok : store_ok the_document_only the_observation_only (db start).
Proof. apply empty_store_ok. Qed.

Lemma satisfied_goal_rests_on_authority_witness : ∃ (w : world unit) g o criterion now,
  goals (db w) !! 100%N = Some g ∧ GoalContract.status g = GoalStatus.SATISFIED ∧
  outcomes (db w) !! Outcome.outcome_id o = Some o ∧ Outcome.status o = OutcomeStatus.VERIFIED ∧
  Outcome.criterion_id o = "refunded" ∧
  grounds the_document_only the_observation_only (GoalContract.tenant_id g)
    (GoalContract.subject_refs g) criterion (Outcome.evidence o) now true.
Proof.
  destruct the_end as (w & g & r & a & q & Hr & Hg & Hs & Hc & _).
  destruct (satisfied_goal_rests_on_authority the_ports the_document_only the_observation_only start
    start_ok w 100%N g "refunded" Hr Hg Hs)
    as (r' & o & c & now & _ & _ & _ & Ho & _ & _ & Hv & Hoc & _ & _ & _ & Hgr).
  - rewrite Hc. left.
  - exists w, g, o, c, now. split_and!; done.
Defined.

Lemma succeeded_run_is_complete_witness : ∃ (w : world unit) r, runs (db w) !! 300%N = Some r ∧
  (∃ g, goals (db w) !! Run.goal_id r = Some g ∧ outcomes_verified (db w) r g).
Proof.
  destruct the_end as (w & g & r & a & q & Hr & _ & _ & _ & Hk & Hs & _).
  exists w, r. split; [done|].
  exact (proj1 (proj2 (proj2 (succeeded_run_is_complete the_ports the_document_only
    the_observation_only start start_ok w 300%N r Hr Hk Hs)))).
Defined.

Lemma active_runs_bounded_witness : ∃ (w : world unit) g, goals (db w) !! 100%N = Some g ∧
  active_runs (db w) (GoalContract.tenant_id g) 100%N <= GoalContract.max_concurrent_runs g.
Proof.
  destruct the_end as (w & g & r & a & q & Hr & Hg & _). exists w, g. split; [done|].
  exact (active_runs_bounded the_ports the_document_only the_observation_only start start_ok
    w 100%N g Hr Hg).
Defined.

Lemma audit_trail_verifies_witness : ∃ (w : world unit),
  10 < Z.of_nat (length (tenant_audits tenant_a (audits (db w)))) ∧
  verify_audit_chain (tenant_audits tenant_a (audits (db w))) = Ok true.
Proof.
  destruct the_end as (w & g & r & a & q & Hr & _ & _ & _ & _ & _ & _ & _ & _ & _ & Hl).
  exists w. split; [done|].
  rewrite (audit_trail_verifies the_ports the_document_only the_observation_only start start_ok
    w tenant_a Hr).
  destruct (tenant_audits _ _); [cbn in Hl; lia|]. by rewrite bool_decide_eq_true_2.
Defined.

Lemma stored_approval_is_four_eyes_witness : ∃ (w : world unit) q, approvals (db w) !! 800%N = Some q ∧
  Z.of_nat (length (ApprovalRequest.reviews q)) = 2 ∧ NoDup (ApprovalRequest.principals q).
Proof.
  destruct the_end as (w & g & r & a & q & Hr & _ & _ & _ & _ & _ & _ & Hq & Hs & E2 & _).
  exists w, q. destruct (stored_approval_is_four_eyes the_ports the_document_only
    the_observation_only start start_ok w 800%N q Hr Hq Hs) as (Hn & Hl & _).
  split_and!; [done|congruence|done].
Defined.

Lemma action_uses_bound_tool_witness : ∃ (w : world unit) a r s, actions (db w) !! 700%N = Some a ∧
  runs (db w) !! Action.run_id a = Some r ∧ Run.execution_snapshot r = Some s.
Proof.
  destruct the_end as (w & g & r & a & q & Hr & _ & _ & _ & _ & _ & Ha & _).
  destruct (action_uses_bound_tool the_ports the_document_only the_observation_only start start_ok
    w 700%N a Hr Ha) as (r' & s & H1 & _ & H2 & _).
  exists w, a, r', s. split_and!; done.
Defined.

(** From the satisfied goal on, nothing the commands do takes it back. *)
Lemma history_is_append_only_witness : ∃ (w : world unit) g, GoalContract.status g = GoalStatus.SATISFIED ∧
  ∀ w', reachable the_ports w w' → goals (db w') !! 100%N = Some g.
Proof.
  destruct the_end as (w & g & r & a & q & Hr & Hg & Hs & _). exists w, g. split; [done|].
  intros w' Hw'.
  assert (Hok : store_ok the_document_only the_observation_only (db w))
    by exact (reachable_ok the_ports _ _ start start_ok w Hr).
  destruct (history_is_append_only the_ports the_document_only the_observation_only w Hok w' Hw')
    as (_ & _ & H & _).
  apply H; [done|]. by rewrite Hs.
Defined.

(** ** One command and its repetition *)

Definition context_a : CommandContext.t := context_of 1 tenant_a 5%N.
Definition create : command GoalContract.t := CCreateGoal the_create_goal.

Lemma context_a_ok : CommandContext.new context_a = Ok context_a.
Proof. vm_compute. reflexivity. Qed.

Lemma start_unused j : unused (db start) (ids (env_of 1) j).
Proof. by split_and!. Qed.

Lemma command_refines_witness :
  wpi (unused (db start)) (run_command the_ports context_a create)
    (fun _ w => moves the_document_only the_observation_only (eq tenant_a) (db start) (db w))
    (fun _ w => moves the_document_only the_observation_only (eq tenant_a) (db start) (db w)) start.
Proof.
  exact (command_refines the_ports the_document_only the_observation_only (eq tenant_a) create
    context_a start start_ok context_a_ok eq_refl).
Defined.

(** The goal to activate does not exist. *)
Lemma failed_transaction_changes_nothing_witness : ∃ x s,
  run_command the_ports context_a (CActivateGoal (ActivateGoal.mk 100%N "go")) (env_of 1)
    (St start 0 0) = (Err x, s) ∧ db (data s) = db start.
Proof.
  assert (H : ∃ x s, run_command the_ports context_a (CActivateGoal (ActivateGoal.mk 100%N "go"))
    (env_of 1) (St start 0 0) = (Err x, s)) by (eexists _, _; vm_compute; reflexivity).
  destruct H as (x & s & H). exists x, s. split; [exact H|].
  exact (failed_transaction_changes_nothing the_ports the_document_only the_observation_only
    (CActivateGoal (ActivateGoal.mk 100%N "go")) context_a start (env_of 1) 0 0 x s start_ok
    context_a_ok eq_refl start_unused H).
Defined.

(** The command, its repetition, and its key under another digest. *)
Definition context_b : CommandContext.t := {|
  CommandContext.identity := CommandContext.identity context_a;
  CommandContext.correlation_id := 3%N; CommandContext.causation_id := 4%N;
  CommandContext.idempotency_key := CommandContext.idempotency_key context_a;
  CommandContext.request_digest := sha256_hex "another request" |}.

Lemma repetition_runs :
  match run_command the_ports context_a create (env_of 1) (St start 0 0) with
  | (Ok _, s) =>
      match run_command the_ports context_a create (env_of 2) (St (data s) 0 0) with
      | (Ok _, _) =>
          bool_decide (idempotency_digests (db (data s)) !! (tenant_a, key_of "create_goal" context_b)
                       = Some (CommandContext.request_digest context_a)) &&
          negb (bool_decide (CommandContext.request_digest context_a =
                             CommandContext.request_digest context_b))
      | _ => false
      end
  | _ => false
  end = true.
Proof. vm_compute. reflexivity. Qed.

Lemma repetition : ∃ a1 s1 a2 s2,
  run_command the_ports context_a create (env_of 1) (St start 0 0) = (Ok a1, s1) ∧
  run_command the_ports context_a create (env_of 2) (St (data s1) 0 0) = (Ok a2, s2) ∧
  idempotency_digests (db (data s1)) !! (tenant_a, key_of "create_goal" context_b)
    = Some (CommandContext.request_digest context_a) ∧
  CommandContext.request_digest context_a ≠ CommandContext.request_digest context_b.
Proof.
  pose proof repetition_runs as H.
  destruct (run_command the_ports context_a create (env_of 1) _) as [[a1|] s1] eqn:E1;
    [|discriminate H].
  destruct (run_command the_ports context_a create (env_of 2) _) as [[a2|] s2] eqn:E2;
    [|discriminate H].
  apply andb_true_iff in H as [H1 H2]. apply bool_decide_eq_true in H1.
  apply negb_true_iff, bool_decide_eq_false in H2.
  exists a1, s1, a2, s2. split; [exact eq_refl|]. split; [exact E2|]. split; [exact H1|exact H2].
Qed.


Lemma command_leaves_other_tenants_alone_witness : ∃ a s,
  run_command the_ports context_a create (env_of 1) (St start 0 0) = (Ok a, s) ∧
  unaffected 2%N (db start) (db (data s)).
Proof.
  destruct repetition as (a & s & _ & _ & H & _). exists a, s. split; [exact H|].
  refine (command_leaves_other_tenants_alone the_ports the_document_only the_observation_only
    context_a 2%N create start (env_of 1) 0 0 (Ok a) s start_ok context_a_ok _ start_unused H).
  discriminate.
Defined.


Lemma reused_key_is_refused_witness : ∃ a s, ∀ r s',
  run_command the_ports context_a create (env_of 1) (St start 0 0) = (Ok a, s) ∧
  (run_command the_ports context_b create (env_of 2) (St (data s) 0 0) = (r, s') →
   ∃ x, r = Err x).
Proof.
  destruct repetition as (a & s & _ & _ & H & _ & Hd & Hne). exists a, s. intros r s'.
  split; [exact H|]. intros Hr.
  exact (proj2 (reused_key_is_refused the_ports create "create_goal"
    (CommandContext.request_digest context_a) context_b (data s) (env_of 2) 0 0 r s' eq_refl Hd
    Hne Hr)).
Defined.

(** The verifier over the sample ports. *)
Lemma outcome_needs_grounds_witness :
  wp (verify the_readback the_artifacts "trusted-readback@1" tenant_a subjects
        (SuccessCriterion.mk "refunded" "order is refunded" "erp") [] (Aware (seconds 20)))
    (fun d _ => OutcomeVerificationDecision.verified_at d = Aware (seconds 20) ∧
       match OutcomeVerificationDecision.status d with
       | OutcomeStatus.VERIFIED =>
           grounds the_document_only the_observation_only tenant_a subjects
             (SuccessCriterion.mk "refunded" "order is refunded" "erp") [] (Aware (seconds 20)) true
       | OutcomeStatus.NOT_MET =>
           grounds the_document_only the_observation_only tenant_a subjects
             (SuccessCriterion.mk "refunded" "order is refunded" "erp") [] (Aware (seconds 20)) false
       | OutcomeStatus.UNKNOWN => True
       end) (fun _ _ => True) start.
Proof.
  apply (outcome_needs_grounds the_readback the_artifacts); intros; by apply wp_ret.
Defined.

(** * What the store does not protect

    Runs of the platform that show where the code does less than it means to:
    a plan may take over the tasks of another run, evidence may be replaced
    under its identifier, an administrative pack fact breaks the audit chain
    of its tenant, and an explicit budget of zero is read as no budget. *)

Open Scope string_scope.
Open Scope list_scope.
Open Scope Z_scope.

(** What holds before a last step and what holds after it, tested by running
    the script. *)
Definition shows {A} (l : list step) (i : Z) (x : step) (look : store → option A)
    (before after : A → bool) : bool :=
  match play 1 l start with
  | Some w =>
      match play i [x] w with
      | Some w' =>
          match look (db w), look (db w') with
          | Some a, Some b => before a && after b
          | _, _ => false
          end
      | None => false
      end
  | None => false
  end.

Lemma shows_ok {A} l i x (look : store → option A) before after :
  shows l i x look before after = true →
  ∃ w w' a b, reachable the_ports start w ∧ reachable the_ports w w' ∧
    look (db w) = Some a ∧ look (db w') = Some b ∧ before a = true ∧ after b = true.
Proof.
  unfold shows. intros H. destruct (play 1 l start) as [w|] eqn:E1; [|discriminate H].
  destruct (play i [x] w) as [w'|] eqn:E2; [|discriminate H].
  destruct (look (db w)) as [a|] eqn:Ea; [|discriminate H].
  destruct (look (db w')) as [b|] eqn:Eb; [|discriminate H].
  apply andb_true_iff in H as [H1 H2]. exists w, w', a, b.
  split; [eapply play_reachable; [apply rtc_refl|exact E1]|].
  split; [eapply play_reachable; [apply rtc_refl|exact E2]|]. by split_and!.
Qed.

(** ** Plans *)

Definition taken_task : TaskDefinition.t := {|
  TaskDefinition.name := "mine"; TaskDefinition.completion_criterion := "done";
  TaskDefinition.depends_on := []; TaskDefinition.preconditions := [];
  TaskDefinition.estimated_cost := BudgetAmount.mk 5 BudgetUnit.COST_UNITS;
  TaskDefinition.risk_level := RiskLevel.L1_READ;
  TaskDefinition.compensation := CompensationCapability.NONE;
  TaskDefinition.evidence_requirements := ["erp"]; TaskDefinition.task_id := Some 500%N |}.

(** Tenant A works on task 500; tenant B plans a run with a task of the same
    identifier. *)
Definition two_tenants : list step := take 6 script_until_approval ++ [
  StepOf tenant_b (CCreateGoal the_create_goal) 6%N;
  StepOf tenant_b (CActivateGoal (ActivateGoal.mk 700%N "go")) 6%N;
  StepOf tenant_b (CRequestRun (RequestRun.mk 700%N)) 6%N;
  StepOf tenant_b (CPrepareRunContext (PrepareRunContext.mk 900%N [] [] [] "none" [] []
          "refund" "policy@1" DataClassification.INTERNAL [])) 6%N].

Theorem plan_takes_over_foreign_task : ∃ (w w' : world unit) a b,
  reachable the_ports start w ∧ reachable the_ports w w' ∧
  tasks (db w) !! 500%N = Some a ∧ tasks (db w') !! 500%N = Some b ∧
  Task.tenant_id a = tenant_a ∧ Task.status a = TaskStatus.RUNNING ∧
  Task.tenant_id b = tenant_b ∧ Task.status b = TaskStatus.PENDING.
Proof.
  destruct (shows_ok two_tenants 11 (StepOf tenant_b (CCreateValidatedPlan
    (CreateValidatedPlan.mk 900%N [taken_task] [] [] "default" "policy@1")) 6%N)
    (fun d => tasks d !! 500%N)
    (fun x => bool_decide (Task.tenant_id x = tenant_a) &&
              bool_decide (Task.status x = TaskStatus.RUNNING))
    (fun x => bool_decide (Task.tenant_id x = tenant_b) &&
              bool_decide (Task.status x = TaskStatus.PENDING)))
    as (w & w' & a & b & H1 & H2 & H3 & H4 & H5 & H6); [vm_compute; reflexivity|].
  apply andb_true_iff in H5 as [?%bool_decide_eq_true ?%bool_decide_eq_true].
  apply andb_true_iff in H6 as [?%bool_decide_eq_true ?%bool_decide_eq_true].
  exists w, w', a, b. by split_and!.
Qed.

(** ** Evidence *)

(** A record of the caller's own making, under the identifier of the captured
    evidence. *)
Definition forged : Evidence.t := {|
  Evidence.tenant_id := tenant_a; Evidence.run_id := 300%N; Evidence.action_id := 700%N;
  Evidence.source := "manual"; Evidence.source_identity := "someone";
  Evidence.capture_method := EvidenceCaptureMethod.SYSTEM_QUERY; Evidence.reference := "note";
  Evidence.observed_state := "not refunded"; Evidence.content_digest := sha256_hex "note";
  Evidence.classification := DataClassification.INTERNAL;
  Evidence.valid_from := Aware (seconds 1); Evidence.valid_until := Aware (seconds 2);
  Evidence.integrity := EvidenceIntegrity.UNVERIFIED; Evidence.source_reference := "";
  Evidence.subject_refs := []; Evidence.retained_until := None;
  Evidence.artifact_version_id := None; Evidence.evidence_id := the_evidence;
  Evidence.captured_at := Aware (seconds 1) |}.

Theorem evidence_is_replaced : ∃ (w w' : world unit) a b,
  reachable the_ports start w ∧ reachable the_ports w w' ∧
  evidence (db w) !! the_evidence = Some a ∧ evidence (db w') !! the_evidence = Some b ∧
  Evidence.integrity a = EvidenceIntegrity.VERIFIED ∧
  Evidence.integrity b = EvidenceIntegrity.UNVERIFIED.
Proof.
  destruct (shows_ok script 18 (Step (CRecordEvidence (RecordEvidence.mk forged)) 5%N)
    (fun d => evidence d !! the_evidence)
    (fun x => bool_decide (Evidence.integrity x = EvidenceIntegrity.VERIFIED))
    (fun x => bool_decide (Evidence.integrity x = EvidenceIntegrity.UNVERIFIED)))
    as (w & w' & a & b & H1 & H2 & H3 & H4 & H5 & H6); [vm_compute; reflexivity|].
  apply bool_decide_eq_true in H5, H6. exists w, w', a, b.
  split; [exact H1|]. split; [exact H2|]. split; [exact H3|]. split; [exact H4|]. by split.
Qed.

(** ** Budgets *)

Definition free_of_charge : CreateGoal.t :=
  CreateGoal.mk "refund" "refund order 42" "the customer has the money back" subjects
    [SuccessCriterion.mk "refunded" "order is refunded" "erp"] [] 5%N RiskTier.LOW (Some 0)
    (Aware (seconds 900000)) [] 3%N BudgetUnit.COST_UNITS None DataClassification.CONFIDENTIAL
    ["eu"] 30 ExecutionMode.SUPERVISED 1.

Theorem zero_budget_becomes_default :
  CreateGoal.budget_limit free_of_charge = Some 0 ∧
  match run_command the_ports context_a (CCreateGoal free_of_charge) (env_of 1) (St start 0 0) with
  | (Ok g, _) => BudgetAmount.amount (GoalContract.budget_limit g) =
                 GoalTypeManifest.default_budget the_goal_type
  | (Err _, _) => False
  end.
Proof. split; vm_compute; reflexivity. Qed.

(** ** Pack facts *)

Definition the_pack : CapabilityPackManifest.t :=
  CapabilityPackManifest.mk "1" "refunds" "1.0.0" "refunds:pack" [] [] [] [] [] None None None None
    None None [].

Definition with_pack : world unit :=
  World (empty_store <| tenant_packs := <[(tenant_a, "refunds", "1.0.0") := the_pack]> ∅ |>) tt.

(** A chain is broken by an event without a sequence number. *)
Lemma unchained_breaks t d l e : audits d = l ++ [e] → AuditEvent.tenant_id e = t →
  AuditEvent.sequence e = None → verify_audit_chain (tenant_audits t (audits d)) ≠ Ok true.
Proof.
  intros -> Ht Hs H. rewrite tenant_audits_app in H. unfold tenant_audits in H at 2.
  cbn [List.filter] in H. rewrite bool_decide_eq_true_2 in H by done.
  unfold verify_audit_chain in H. apply bind_ok in H as (b & Hb & H).
  injection H as H. apply andb_true_iff in H as [-> _].
  apply verify_links_app in Hb as [_ Hb]. apply verify_links_cons in Hb as (? & Es & _). congruence.
Qed.

Theorem pack_fact_breaks_the_chain {X} t pack_id version enabled actor reason (w : world X) e n k s :
  set_pack_enabled t pack_id version enabled actor reason e (St w n k) = (Ok tt, s) →
  verify_audit_chain (tenant_audits t (audits (db (data s)))) ≠ Ok true.
Proof.
  intros H.
  assert (Hw : wpd (X := X) (fun _ => True) (set_pack_enabled t pack_id version enabled actor reason)
    (fun _ d' => verify_audit_chain (tenant_audits t (audits d')) ≠ Ok true) (fun _ _ => True) (db w)).
  { unfold set_pack_enabled, require_pack, record_pack_fact, refresh_tenant_goal_types.
    apply wpd_bind, wpd_bind, wpd_query, wpd_throw_if; [intros _|done].
    apply wpd_bind, wpd_update, wpd_bind. go. apply wpd_update. cbv beta.
    apply wpd_bind, wpd_query. go. intros index _. apply wpd_update. 
    eapply unchained_breaks; reflexivity. }
  specialize (Hw w eq_refl e n k (fun _ => I)). by rewrite H in Hw.
Qed.

Lemma pack_fact_breaks_the_chain_witness : ∃ s,
  set_pack_enabled tenant_a "refunds" "1.0.0" false 5%N "retired" (env_of 1) (St with_pack 0 0)
    = (Ok tt, s) ∧
  verify_audit_chain (tenant_audits tenant_a (audits (db (data s)))) ≠ Ok true.
Proof.
  assert (H : ∃ s, set_pack_enabled tenant_a "refunds" "1.0.0" false 5%N "retired" (env_of 1)
    (St with_pack 0 0) = (Ok tt, s)) by (eexists; vm_compute; reflexivity).
  destruct H as (s & H). exists s. split; [exact H|].
  exact (pack_fact_breaks_the_chain tenant_a "refunds" "1.0.0" false 5%N "retired" with_pack
    (env_of 1) 0 0 s H).
Defined.
