(* ===== verification/Evolution.v ===== *)
(** * packages/application: evolution.py

    [CandidateLifecycleService]: proposals, candidates, their evaluation and
    approval, shadow and canary deployments, promotion and rollback.  The
    repository is [InMemoryPlatformStore] ([Store]); the improvement policy and
    the shadow runtime are ports. *)

From S2P Require Import Prelude PyStr PyDict PyFloat Json Effects Transitions Improvement.
From S2P Require Import EvaluationDomain Statistics AuditChain Uuids Store.
From Stdlib Require Import ZArith.

Open Scope string_scope.
Open Scope list_scope.
Open Scope Z_scope.

Module ProposeImprovement.
Record t := mk {
  target : string;
  target_version_id : uuid;
  evidence_refs : list string;
  diagnosis : string;
  proposed_change : string;
  validation_suite_id : string;
  rollback_plan : string
}.
End ProposeImprovement.

Module RegisterCandidate.
Record t := mk {
  proposal_id : uuid;
  baseline_version_id : uuid;
  artifact_ref : string;
  artifact_digest : string;
  suite_id : string;
  suite_version : string
}.
End RegisterCandidate.

Module PromotionPolicy.
Record t := mk { min_samples : Z; observation_seconds : Z; required_metrics : list string }.

Definition post_init (p : t) : res unit :=
  raise_if (min_samples p <? 1) ValueError "promotion policy requires a positive minimum sample" ;;
  raise_if (observation_seconds p <? 0) ValueError
    "promotion policy observation window cannot be negative".

Definition new (p : t) : res t := post_init p ;; Ok p.

(** [PromotionPolicy()] *)
Definition default : t := mk 1 0 [].
End PromotionPolicy.

Module RecordObservation.
Record t := mk {
  deployment_id : uuid;
  stage : DeploymentStatus.t;
  metric : string;
  value : float;
  operator : option GuardrailOperator.t;
  threshold : option float
}.

Definition post_init (c : t) : res unit :=
  raise_if (negb (Bool.eqb (is_none (operator c)) (is_none (threshold c)))) ValueError
    "guardrail operator and threshold must be provided together".

Definition new (c : t) : res t := post_init c ;; Ok c.
End RecordObservation.

Module ExecuteShadowPair.
Record t := mk { deployment_id : uuid; request_ref : string; input_payload : list (string * json) }.

Definition new (c : t) : res t :=
  raise_if (blank (request_ref c)) ValueError "shadow request reference is required" ;; Ok c.
End ExecuteShadowPair.

Definition optional_float (f : option float) : json :=
  match f with Some x => JFloat x | None => JNull end.

Definition assessment_payload (a : TrialConfidenceAssessment.t) : list (string * json) :=
  let policy := TrialConfidenceAssessment.policy a in
  [("decision", JStr (ConfidenceDecision.value (TrialConfidenceAssessment.decision a)));
   ("passed_trials", JInt (TrialConfidenceAssessment.passed_trials a));
   ("failed_trials", JInt (TrialConfidenceAssessment.failed_trials a));
   ("invalid_trials", JInt (TrialConfidenceAssessment.invalid_trials a));
   ("valid_trials", JInt (TrialConfidenceAssessment.valid_trials a));
   ("pass_rate", optional_float (TrialConfidenceAssessment.pass_rate a));
   ("lower_bound", optional_float (TrialConfidenceAssessment.lower_bound a));
   ("upper_bound", optional_float (TrialConfidenceAssessment.upper_bound a));
   ("confidence_level", JFloat (RepeatedTrialPolicy.confidence_level policy));
   ("pass_threshold", JFloat (RepeatedTrialPolicy.pass_threshold policy));
   ("min_valid_trials", JInt (RepeatedTrialPolicy.min_valid_trials policy));
   ("rationale", JStr (TrialConfidenceAssessment.rationale a))].

(** [_guardrail_breached] *)
Definition guardrail_breached (operator : option GuardrailOperator.t) (threshold : option float)
    (value : float) : bool :=
  match operator, threshold with
  | Some GuardrailOperator.LT, Some t => flt value t
  | Some GuardrailOperator.GT, Some t => flt t value
  | Some GuardrailOperator.LTE, Some t => fle value t
  | Some GuardrailOperator.GTE, Some t => fle t value
  | _, _ => false
  end.

(** [ImprovementTarget(raw)] *)
Definition improvement_target (raw : string) : res ImprovementTarget.t :=
  match List.find (fun x => bool_decide (ImprovementTarget.value x = raw))
          [ImprovementTarget.AGENT_INSTRUCTION; ImprovementTarget.SKILL;
           ImprovementTarget.PROMPT_ASSET; ImprovementTarget.MODEL_ROUTE] with
  | Some x => Ok x
  | None => raise ValueError (repr_str raw +:+ " is not a valid ImprovementTarget")
  end.

(** [asyncio.gather(a, b)]: both are run, and the first exception propagates. *)
Definition gather {S A B} (a : M S A) (b : M S B) : M S (A * B) := fun e s =>
  let '(ra, s1) := a e s in
  let '(rb, s2) := b e s1 in
  (match ra, rb with
   | Ok x, Ok y => Ok (x, y)
   | Err x, _ => Err x
   | _, Err y => Err y
   end, s2).

Module CandidateLifecycleService.
Section service.
Context {X : Type}.
Notation MW := (M (world X)).

(** [execute_shadow_subject]: tenant, deployment, version, request reference,
    input and whether external effects are enabled. *)
Definition shadow_runtime : Type :=
  uuid → uuid → uuid → string → list (string * json) → bool → MW ShadowMeasurements.t.

Context (normal_quantile : float → float).
(** [ImprovementTargetPolicy.assert_target_allowed], if configured *)
Context (improvement_policy : option (string → MW unit)).

(** [_forbid_disallowed_target] *)
Definition forbid_disallowed_target (raw_target : string) : MW ImprovementTarget.t :=
  lift (require_improvement_target_allowed raw_target) ;;
  match improvement_policy with Some assert_allowed => assert_allowed raw_target | None => mret tt end ;;
  lift (improvement_target raw_target).

Definition propose_improvement (identity : IdentityContext.t) (command : ProposeImprovement.t)
    : MW ImprovementProposal.t :=
  target ← forbid_disallowed_target (ProposeImprovement.target command);
  proposal_id ← uuid4;
  proposal ← lift (ImprovementProposal.new {|
    ImprovementProposal.tenant_id := IdentityContext.tenant_id identity;
    ImprovementProposal.target := target;
    ImprovementProposal.target_version_id := ProposeImprovement.target_version_id command;
    ImprovementProposal.evidence_refs := ProposeImprovement.evidence_refs command;
    ImprovementProposal.diagnosis := ProposeImprovement.diagnosis command;
    ImprovementProposal.proposed_change := ProposeImprovement.proposed_change command;
    ImprovementProposal.validation_suite_id := ProposeImprovement.validation_suite_id command;
    ImprovementProposal.rollback_plan := ProposeImprovement.rollback_plan command;
    ImprovementProposal.proposer_id := uuid_str (IdentityContext.principal_id identity);
    ImprovementProposal.proposal_id := proposal_id |});
  add_proposal proposal ;;
  mret proposal.

Definition register_candidate (identity : IdentityContext.t) (command : RegisterCandidate.t)
    : MW CandidateVersion.t :=
  proposal ← get_proposal (IdentityContext.tenant_id identity) (RegisterCandidate.proposal_id command);
  forbid_disallowed_target (ImprovementTarget.value (ImprovementProposal.target proposal)) ;;
  throw_if (negb (bool_decide (RegisterCandidate.suite_id command =
                               ImprovementProposal.validation_suite_id proposal))) ValueError
    ("candidate must be graded against the proposal's fixed validation suite: " +:+
     RegisterCandidate.suite_id command +:+ " != " +:+
     ImprovementProposal.validation_suite_id proposal) ;;
  candidate_id ← uuid4;
  candidate ← lift (CandidateVersion.new {|
    CandidateVersion.tenant_id := IdentityContext.tenant_id identity;
    CandidateVersion.proposal_id := RegisterCandidate.proposal_id command;
    CandidateVersion.baseline_version_id := RegisterCandidate.baseline_version_id command;
    CandidateVersion.artifact_ref := RegisterCandidate.artifact_ref command;
    CandidateVersion.artifact_digest := RegisterCandidate.artifact_digest command;
    CandidateVersion.suite_id := RegisterCandidate.suite_id command;
    CandidateVersion.suite_version := RegisterCandidate.suite_version command;
    CandidateVersion.generator_id := uuid_str (IdentityContext.principal_id identity);
    CandidateVersion.candidate_id := candidate_id;
    CandidateVersion.status := CandidateStatus.DRAFT;
    CandidateVersion.optimistic_version := 1;
    CandidateVersion.transitions := [];
    CandidateVersion.grader_principal_id := None;
    CandidateVersion.approver_principal_id := None;
    CandidateVersion.approval_reason := None |});
  add_candidate candidate ;;
  mret candidate.

Definition submit_for_evaluation (tenant_id candidate_id : uuid) : MW CandidateVersion.t :=
  candidate ← get_candidate tenant_id candidate_id;
  t ← now;
  candidate ← lift (CandidateVersion.transition_to candidate CandidateStatus.EVALUATING
                      SYSTEM_ACTOR_ID "system transition" None t);
  save_candidate candidate ;;
  mret candidate.

(** The trials executed the candidate itself, on its fixed suite. *)
Definition check_trial (candidate_id : uuid) (candidate : CandidateVersion.t) (trial : Trial.t)
    : res unit :=
  raise_if (negb (bool_decide (Trial.subject_version_id trial = candidate_id))) ValueError
    ("candidate evaluation trials must execute the candidate itself: trial " +:+
     uuid_str (Trial.trial_id trial) +:+ " executed " +:+ uuid_str (Trial.subject_version_id trial)) ;;
  raise_if (negb (bool_decide (Trial.suite_id trial = CandidateVersion.suite_id candidate) &&
                  bool_decide (Trial.suite_version trial = CandidateVersion.suite_version candidate)))
    ValueError
    ("candidate evaluation trials must use the candidate's fixed suite: trial " +:+
     uuid_str (Trial.trial_id trial) +:+ " used " +:+ Trial.suite_id trial +:+ "@" +:+
     Trial.suite_version trial).

(** Where the decision of the gate takes the candidate. *)
Definition evaluation_target (a : TrialConfidenceAssessment.t) : res CandidateStatus.t :=
  match TrialConfidenceAssessment.decision a with
  | ConfidenceDecision.MET => Ok CandidateStatus.AWAITING_APPROVAL
  | ConfidenceDecision.NOT_MET => Ok CandidateStatus.REJECTED
  | ConfidenceDecision.INSUFFICIENT_SAMPLE =>
      raise ValueError ("candidate evaluation evidence is incomplete: " +:+
                        TrialConfidenceAssessment.rationale a)
  end.

Definition complete_evaluation (identity : IdentityContext.t) (candidate_id : uuid)
    (policy : RepeatedTrialPolicy.t) : MW (CandidateVersion.t * CandidateEvaluation.t) :=
  let tenant_id := IdentityContext.tenant_id identity in
  candidate ← get_candidate tenant_id candidate_id;
  trials ← list_trials_for_candidate tenant_id candidate_id;
  lift (for_each (check_trial candidate_id candidate) trials) ;;
  assessment ← lift (assess normal_quantile policy trials);
  evaluation_id ← uuid4;
  record ← lift (CandidateEvaluation.new {|
    CandidateEvaluation.tenant_id := tenant_id;
    CandidateEvaluation.candidate_id := candidate_id;
    CandidateEvaluation.decision :=
      ConfidenceDecision.value (TrialConfidenceAssessment.decision assessment);
    CandidateEvaluation.trial_ids := Trial.trial_id <$> trials;
    CandidateEvaluation.assessment := assessment_payload assessment;
    CandidateEvaluation.grader_principal_id := uuid_str (IdentityContext.principal_id identity);
    CandidateEvaluation.evaluation_id := evaluation_id;
    CandidateEvaluation.decided_at := None |});
  add_evaluation_record record ;;
  target ← lift (evaluation_target assessment);
  t ← now;
  candidate ← lift (CandidateVersion.record_evaluation candidate target
                      (IdentityContext.principal_id identity) t);
  save_candidate candidate ;;
  mret (candidate, record).

Definition decide (identity : IdentityContext.t) (candidate_id : uuid) (approved : bool)
    (reason : string) : MW CandidateVersion.t :=
  candidate ← get_candidate (IdentityContext.tenant_id identity) candidate_id;
  let target := if approved then CandidateStatus.APPROVED else CandidateStatus.REJECTED in
  t ← now;
  candidate ← lift (CandidateVersion.record_approval candidate target
                      (IdentityContext.principal_id identity) reason t);
  save_candidate candidate ;;
  mret candidate.

(** The release is executed by someone who did not make, grade or approve the
    candidate. *)
Definition require_independent (identity : IdentityContext.t) (candidate : CandidateVersion.t)
    : MW unit :=
  throw_if (mem (Some (uuid_str (IdentityContext.principal_id identity)))
              [Some (CandidateVersion.generator_id candidate);
               CandidateVersion.grader_principal_id candidate;
               CandidateVersion.approver_principal_id candidate])
    PermissionError "release execution requires an independent principal".

Definition begin_shadow (identity : IdentityContext.t) (candidate_id : uuid) : MW Deployment.t :=
  candidate ← get_candidate (IdentityContext.tenant_id identity) candidate_id;
  require_independent identity candidate ;;
  t ← now;
  fresh ← uuid4;
  deployment ← lift (CandidateVersion.begin_deployment candidate (IdentityContext.actor_id identity)
                       "approved candidate entered shadow" fresh t);
  add_deployment deployment ;;
  mret deployment.

(** ** Observations *)

Definition record_observation (identity : IdentityContext.t) (command : RecordObservation.t)
    : MW DeploymentObservation.t :=
  let tenant_id := IdentityContext.tenant_id identity in
  let deployment_id := RecordObservation.deployment_id command in
  let stage := RecordObservation.stage command in
  let metric := RecordObservation.metric command in
  deployment ← get_deployment tenant_id deployment_id;
  throw_if (negb (bool_decide (Deployment.status deployment = stage))) ValueError
    ("observation stage " +:+ DeploymentStatus.value stage +:+ " does not match deployment status "
     +:+ DeploymentStatus.value (Deployment.status deployment)) ;;
  t ← now;
  existing ← get_observation tenant_id deployment_id stage metric;
  let breached := guardrail_breached (RecordObservation.operator command)
                    (RecordObservation.threshold command) (RecordObservation.value command) in
  observation ←
    match existing with
    | None =>
        observation_id ← uuid4;
        lift (DeploymentObservation.new {|
          DeploymentObservation.tenant_id := tenant_id;
          DeploymentObservation.deployment_id := deployment_id;
          DeploymentObservation.stage := stage;
          DeploymentObservation.metric := metric;
          DeploymentObservation.sample_count := 1;
          DeploymentObservation.breach_count := if breached then 1 else 0;
          DeploymentObservation.last_value := Some (RecordObservation.value command);
          DeploymentObservation.first_sample_at := Some t;
          DeploymentObservation.last_sample_at := Some t;
          DeploymentObservation.observation_id := observation_id;
          DeploymentObservation.optimistic_version := 1 |})
    | Some x =>
        lift (DeploymentObservation.new
          (x <| DeploymentObservation.sample_count := DeploymentObservation.sample_count x + 1 |>
             <| DeploymentObservation.breach_count :=
                  if breached then DeploymentObservation.breach_count x + 1 else 0 |>
             <| DeploymentObservation.last_value := Some (RecordObservation.value command) |>
             <| DeploymentObservation.last_sample_at := Some t |>))
    end;
  save_observation observation ;;
  mret observation.

(** The metrics of a shadow pair, in order. *)
Definition shadow_metrics (stable candidate : ShadowMeasurements.t) : list (string * float) :=
  [("outcome_score_delta", fsub (ShadowMeasurements.outcome_score candidate)
                                (ShadowMeasurements.outcome_score stable));
   ("cost_microunits_delta", of_int (ShadowMeasurements.cost_microunits candidate -
                                     ShadowMeasurements.cost_microunits stable));
   ("latency_ms_delta", fsub (ShadowMeasurements.latency_ms candidate)
                             (ShadowMeasurements.latency_ms stable));
   ("security_violations", of_int (ShadowMeasurements.security_violations candidate));
   ("human_corrections_delta", of_int (ShadowMeasurements.human_corrections candidate -
                                       ShadowMeasurements.human_corrections stable))].

Definition execute_shadow_pair (identity : IdentityContext.t) (command : ExecuteShadowPair.t)
    (runtime : shadow_runtime) : MW ShadowComparison.t :=
  let tenant_id := IdentityContext.tenant_id identity in
  deployment ← get_deployment tenant_id (ExecuteShadowPair.deployment_id command);
  throw_if (negb (bool_decide (Deployment.status deployment = DeploymentStatus.SHADOW))) ValueError
    "shadow pair execution requires a shadow deployment" ;;
  candidate ← get_candidate tenant_id (Deployment.candidate_id deployment);
  let execute version effects :=
    runtime tenant_id (Deployment.deployment_id deployment) version
      (ExecuteShadowPair.request_ref command) (ExecuteShadowPair.input_payload command) effects in
  results ← gather (execute (CandidateVersion.baseline_version_id candidate) true)
                   (execute (CandidateVersion.candidate_id candidate) false);
  let '(stable_result, candidate_result) := results in
  observed_at ← now;
  comparison_id ← uuid4;
  comparison ← lift (ShadowComparison.new {|
    ShadowComparison.tenant_id := tenant_id;
    ShadowComparison.deployment_id := Deployment.deployment_id deployment;
    ShadowComparison.request_ref := ExecuteShadowPair.request_ref command;
    ShadowComparison.stable_version_id := CandidateVersion.baseline_version_id candidate;
    ShadowComparison.candidate_version_id := CandidateVersion.candidate_id candidate;
    ShadowComparison.stable := stable_result;
    ShadowComparison.candidate := candidate_result;
    ShadowComparison.observed_at := observed_at;
    ShadowComparison.comparison_id := comparison_id |});
  add_shadow_comparison comparison ;;
  for_each_m (fun kv : string * float =>
      observation ← lift (RecordObservation.new {|
        RecordObservation.deployment_id := Deployment.deployment_id deployment;
        RecordObservation.stage := DeploymentStatus.SHADOW;
        RecordObservation.metric := kv.1;
        RecordObservation.value := kv.2;
        RecordObservation.operator := None;
        RecordObservation.threshold := None |});
      record_observation identity observation ;; mret tt)
    (shadow_metrics stable_result candidate_result) ;;
  mret comparison.

(** ** Promotion *)

Definition promote_to_canary (identity : IdentityContext.t) (deployment_id : uuid)
    (allocation : TrafficAllocation.t) : MW Deployment.t :=
  deployment ← get_deployment (IdentityContext.tenant_id identity) deployment_id;
  candidate ← get_candidate (IdentityContext.tenant_id identity) (Deployment.candidate_id deployment);
  require_independent identity candidate ;;
  t ← now;
  deployment ← lift (Deployment.enter_canary deployment allocation (IdentityContext.actor_id identity)
    ("canary entered with " +:+ int_str (TrafficAllocation.candidate_percent allocation) +:+
     "% deterministic candidate traffic") None t);
  save_deployment deployment ;;
  mret deployment.

Definition resolve_request_route (identity : IdentityContext.t) (deployment_id request_id : uuid)
    : MW (TrafficRoute.t * TrafficAllocation.t) :=
  deployment ← get_deployment (IdentityContext.tenant_id identity) deployment_id;
  route ← lift (Deployment.assign_request deployment (uuid_str request_id));
  match Deployment.traffic_allocation deployment with
  | None => throw ValueError "canary deployment carries no traffic allocation rule"
  | Some allocation => mret (route, allocation)
  end.

(** One required metric of the promotion gate. *)
Definition check_metric (deployment : Deployment.t) (policy : PromotionPolicy.t) (metric : string)
    : MW unit :=
  observation ← get_observation (Deployment.tenant_id deployment)
    (Deployment.deployment_id deployment) DeploymentStatus.CANARY metric;
  let missing count := throw ValueError
    ("missing evidence for required metric " +:+ repr_str metric +:+ ": " +:+ int_str count +:+
     " < " +:+ int_str (PromotionPolicy.min_samples policy) +:+ " samples") in
  match observation with
  | None => missing 0
  | Some x =>
      if DeploymentObservation.sample_count x <? PromotionPolicy.min_samples policy
      then missing (DeploymentObservation.sample_count x)
      else throw_if (is_none (DeploymentObservation.last_value x)) ValueError
             ("missing evidence for required metric " +:+ repr_str metric +:+ ": no sample value")
  end.

(** [_assert_promotion_gate] *)
Definition assert_promotion_gate (deployment : Deployment.t) (policy : PromotionPolicy.t)
    : MW unit :=
  match Deployment.entered_at deployment DeploymentStatus.CANARY with
  | None => throw ValueError "canary observation window has not started"
  | Some entered_at =>
      t ← now;
      us ← lift (dt_sub t entered_at);
      let elapsed := of_ratio us 1000000 in
      throw_if (flt elapsed (of_int (PromotionPolicy.observation_seconds policy))) ValueError
        ("canary observation window not elapsed: " +:+ float_fixed 1 elapsed +:+ "s < " +:+
         int_str (PromotionPolicy.observation_seconds policy) +:+ "s") ;;
      for_each_m (check_metric deployment policy) (PromotionPolicy.required_metrics policy)
  end.

Definition release_stable (identity : IdentityContext.t) (deployment_id stable_version_id : uuid)
    (policy : option PromotionPolicy.t) : MW Release.t :=
  deployment ← get_deployment (IdentityContext.tenant_id identity) deployment_id;
  throw_if (negb (bool_decide (Deployment.status deployment = DeploymentStatus.CANARY))) ValueError
    "only a canary deployment can promote to stable" ;;
  assert_promotion_gate deployment (default PromotionPolicy.default policy) ;;
  candidate ← get_candidate (IdentityContext.tenant_id identity) (Deployment.candidate_id deployment);
  t ← now;
  deployment ← lift (Deployment.transition_to deployment DeploymentStatus.STABLE
    (IdentityContext.actor_id identity) "canary gate passed" None t);
  fresh ← uuid4;
  release ← lift (Release.from_stable_deployment deployment stable_version_id
    (CandidateVersion.baseline_version_id candidate) (IdentityContext.actor_id identity) fresh);
  save_deployment deployment ;;
  add_release release ;;
  mret release.

(** ** Rollback *)

Definition rollback_deployment (identity : IdentityContext.t) (deployment_id : uuid)
    (reason : string) : MW Deployment.t :=
  throw_if (blank reason) ValueError "rollback requires a recorded reason" ;;
  deployment ← get_deployment (IdentityContext.tenant_id identity) deployment_id;
  t ← now;
  deployment ← lift (Deployment.transition_to deployment DeploymentStatus.ROLLED_BACK
    (IdentityContext.actor_id identity) (strip reason) None t);
  save_deployment deployment ;;
  mret deployment.

Definition rollback_if_breached (identity : IdentityContext.t) (deployment_id : uuid)
    (stage : DeploymentStatus.t) (metric : string) (min_consecutive : Z)
    : MW (option Deployment.t) :=
  observation ← get_observation (IdentityContext.tenant_id identity) deployment_id stage metric;
  match observation with
  | None => mret None
  | Some x =>
      if DeploymentObservation.breach_count x <? min_consecutive then mret None
      else
        deployment ← rollback_deployment identity deployment_id
          ("guardrail breach: " +:+ metric +:+ " breached " +:+
           int_str (DeploymentObservation.breach_count x) +:+ " consecutive samples");
        mret (Some deployment)
  end.

Definition rollback (identity : IdentityContext.t) (release_id : uuid) : MW Release.t :=
  release ← get_active_release (IdentityContext.tenant_id identity) release_id;
  deployment ← get_deployment (IdentityContext.tenant_id identity) (Release.deployment_id release);
  t ← now;
  deployment ← lift (Deployment.transition_to deployment DeploymentStatus.ROLLED_BACK
    (IdentityContext.actor_id identity) "release rollback requested" None t);
  save_deployment deployment ;;
  fresh ← uuid4;
  let rollback_release := Release.mk (IdentityContext.tenant_id identity)
    (Release.candidate_id release) (Release.deployment_id release)
    (Release.previous_stable_version_id release) (Release.stable_version_id release)
    (IdentityContext.actor_id identity) fresh in
  add_release rollback_release ;;
  mret rollback_release.
End service.
End CandidateLifecycleService.
