(* ===== verification/EvolutionProofs.v ===== *)
(** * What a release rests on

    Every operation of [CandidateLifecycleService] takes the store through the
    changes of [evo_change]; [evo_ok] is what they preserve: a candidate was
    evaluated on its proposal's suite by a grader who is not its generator and
    approved by someone who is neither, only approved candidates are deployed,
    and every release is of a deployment that went through its canary. *)

From stdpp Require Import relations.
From S2P Require Import Prelude PyStr Effects PyDict PyFloat Json Sha256 Transitions History.
From S2P Require Import Improvement EvaluationDomain Statistics AuditChain Uuids Store StoreLogic.
From S2P Require Import SamplePlatform Evolution.
From Stdlib Require Import ZArith.

Open Scope string_scope.
Open Scope list_scope.
Open Scope Z_scope.

#[local] Arguments insert : simpl never.
#[local] Arguments lookup : simpl never.

Section machine.
Context (normal_quantile : float → float).
Notation assess := (assess normal_quantile).

(** No record has this identifier. *)
Record fresh (d : store) (u : uuid) : Prop := {
  fresh_proposal : proposals d !! u = None;
  fresh_candidate : candidates d !! u = None;
  fresh_deployment : deployments d !! u = None;
  fresh_evaluation : candidate_evaluations d !! u = None;
  fresh_release : releases d !! u = None
}.

(** The trials the store holds for a candidate, oldest first. *)
Definition candidate_trials (d : store) (tenant_id candidate_id : uuid) : list Trial.t :=
  List.filter (fun item => bool_decide (Trial.tenant_id item = tenant_id) &&
                           bool_decide (Trial.candidate_id item = Some candidate_id))
    (values (Store.trials d)).

(** A stored evaluation of the candidate by [grader] met its policy, on all the
    trials the store then held for the candidate, each of which executed the
    candidate itself on its fixed suite. *)
Definition evaluated (d : store) (c : CandidateVersion.t) (grader : string) : Prop :=
  ∃ record policy trials later a,
    candidate_evaluations d !! CandidateEvaluation.evaluation_id record = Some record ∧
    CandidateEvaluation.candidate_id record = CandidateVersion.candidate_id c ∧
    CandidateEvaluation.tenant_id record = CandidateVersion.tenant_id c ∧
    CandidateEvaluation.grader_principal_id record = grader ∧
    CandidateEvaluation.decision record = "met" ∧
    CandidateEvaluation.trial_ids record = Trial.trial_id <$> trials ∧
    candidate_trials d (CandidateVersion.tenant_id c) (CandidateVersion.candidate_id c) =
      trials ++ later ∧
    assess policy trials = Ok a ∧
    TrialConfidenceAssessment.decision a = ConfidenceDecision.MET ∧
    ∀ trial, trial ∈ trials →
      Trial.subject_version_id trial = CandidateVersion.candidate_id c ∧
      Trial.suite_id trial = CandidateVersion.suite_id c ∧
      Trial.suite_version trial = CandidateVersion.suite_version c.

Record cand_ok (d : store) (c : CandidateVersion.t) : Prop := {
  cand_proposal : ∃ p, proposals d !! CandidateVersion.proposal_id c = Some p ∧
    ImprovementProposal.tenant_id p = CandidateVersion.tenant_id c ∧
    CandidateVersion.suite_id c = ImprovementProposal.validation_suite_id p;
  cand_graded : CandidateVersion.status c ∈ [CandidateStatus.AWAITING_APPROVAL; CandidateStatus.APPROVED] →
    ∃ g, CandidateVersion.grader_principal_id c = Some g ∧ g ≠ CandidateVersion.generator_id c ∧
      evaluated d c g;
  cand_approved : CandidateVersion.status c = CandidateStatus.APPROVED →
    ∃ a, CandidateVersion.approver_principal_id c = Some a ∧ a ≠ CandidateVersion.generator_id c ∧
      CandidateVersion.grader_principal_id c ≠ Some a
}.

Definition approved_candidate (d : store) (id tenant : uuid) : Prop :=
  ∃ c, candidates d !! id = Some c ∧ CandidateVersion.status c = CandidateStatus.APPROVED ∧
    CandidateVersion.tenant_id c = tenant.

Definition dep_ok (d : store) (x : Deployment.t) : Prop :=
  deployment_history_ok x ∧
  approved_candidate d (Deployment.candidate_id x) (Deployment.tenant_id x).

Definition rel_ok (d : store) (r : Release.t) : Prop :=
  ∃ x, deployments d !! Release.deployment_id r = Some x ∧
    crosses DeploymentStatus.CANARY (Deployment.transitions x) ∧
    Deployment.candidate_id x = Release.candidate_id r ∧
    Deployment.tenant_id x = Release.tenant_id r.

Record evo_ok (d : store) : Prop := {
  cands_keyed : ∀ k c, candidates d !! k = Some c → CandidateVersion.candidate_id c = k;
  cands_ok : ∀ k c, candidates d !! k = Some c → cand_ok d c;
  deps_keyed : ∀ k x, deployments d !! k = Some x → Deployment.deployment_id x = k;
  deps_ok : ∀ k x, deployments d !! k = Some x → dep_ok d x;
  rels_ok : ∀ k r, releases d !! k = Some r → rel_ok d r
}.

(** ** The changes *)

(** A candidate moves along its table, and grading and approving name the
    principal. *)
Definition cand_move (d : store) (c c' : CandidateVersion.t) : Prop :=
  advances c c' ∧ candidate_identity c' = candidate_identity c ∧
  (CandidateVersion.status c' = CandidateStatus.EVALUATING ∨
   (∃ g, CandidateVersion.grader_principal_id c' = Some g ∧ g ≠ CandidateVersion.generator_id c ∧
      (CandidateVersion.status c' = CandidateStatus.REJECTED ∨
       CandidateVersion.status c' = CandidateStatus.AWAITING_APPROVAL ∧ evaluated d c' g)) ∨
   (∃ a, CandidateVersion.approver_principal_id c' = Some a ∧ a ≠ CandidateVersion.generator_id c ∧
      CandidateVersion.grader_principal_id c ≠ Some a ∧
      CandidateVersion.grader_principal_id c' = CandidateVersion.grader_principal_id c ∧
      CandidateVersion.status c' ∈ [CandidateStatus.APPROVED; CandidateStatus.REJECTED])).

(** A deployment keeps its identity and extends its history. *)
Definition dep_move (x x' : Deployment.t) : Prop :=
  (deployment_history_ok x → deployment_history_ok x') ∧
  (∃ ts, Deployment.transitions x' = Deployment.transitions x ++ ts) ∧
  Deployment.tenant_id x' = Deployment.tenant_id x ∧
  Deployment.deployment_id x' = Deployment.deployment_id x ∧
  Deployment.candidate_id x' = Deployment.candidate_id x.

(** The records the invariant is about are the same. *)
Definition same_evolution (d d' : store) : Prop :=
  proposals d' = proposals d ∧ candidates d' = candidates d ∧ deployments d' = deployments d ∧
  candidate_evaluations d' = candidate_evaluations d ∧ releases d' = releases d ∧
  Store.trials d' = Store.trials d.

Inductive evo_change (d : store) : store → Prop :=
  | AddProposal p : proposals d !! ImprovementProposal.proposal_id p = None →
      evo_change d (d <| proposals := <[ImprovementProposal.proposal_id p := p]> (proposals d) |>)
  | AddCandidate c : candidates d !! CandidateVersion.candidate_id c = None →
      CandidateVersion.status c = CandidateStatus.DRAFT → cand_ok d c →
      evo_change d (d <| candidates := <[CandidateVersion.candidate_id c := c]> (candidates d) |>)
  | MoveCandidate c c' : candidates d !! CandidateVersion.candidate_id c' = Some c →
      cand_move d c c' →
      evo_change d (d <| candidates := <[CandidateVersion.candidate_id c' := c']> (candidates d) |>)
  | AddTrial x : Store.trials d !! Trial.trial_id x = None →
      evo_change d (d <| Store.trials := <[Trial.trial_id x := x]> (Store.trials d) |>)
  | AddEvaluation r : candidate_evaluations d !! CandidateEvaluation.evaluation_id r = None →
      evo_change d (d <| candidate_evaluations :=
        <[CandidateEvaluation.evaluation_id r := r]> (candidate_evaluations d) |>)
  | AddDeployment x : deployments d !! Deployment.deployment_id x = None → dep_ok d x →
      evo_change d (d <| deployments := <[Deployment.deployment_id x := x]> (deployments d) |>)
  | MoveDeployment x x' : deployments d !! Deployment.deployment_id x' = Some x → dep_move x x' →
      evo_change d (d <| deployments := <[Deployment.deployment_id x' := x']> (deployments d) |>)
  | AddRelease r : releases d !! Release.release_id r = None → rel_ok d r →
      evo_change d (d <| releases := <[Release.release_id r := r]> (releases d) |>)
  | Elsewhere d' : same_evolution d d' → evo_change d d'.

(** What stays true of the records others refer to. *)
Record evo_grows (d d' : store) : Prop := {
  grow_proposals : ∀ k p, proposals d !! k = Some p → proposals d' !! k = Some p;
  grow_evaluations : ∀ k r, candidate_evaluations d !! k = Some r →
    candidate_evaluations d' !! k = Some r;
  grow_approved : ∀ id t, approved_candidate d id t → approved_candidate d' id t;
  grow_deployments : ∀ k x, deployments d !! k = Some x → ∃ x', deployments d' !! k = Some x' ∧
    (∃ ts, Deployment.transitions x' = Deployment.transitions x ++ ts) ∧
    Deployment.tenant_id x' = Deployment.tenant_id x ∧
    Deployment.candidate_id x' = Deployment.candidate_id x;
  grow_trials : ∀ t id, ∃ later, candidate_trials d' t id = candidate_trials d t id ++ later
}.

Lemma insert_fresh_keeps {V} (m : dict uuid V) k k' v x :
  m !! k = None → m !! k' = Some x → <[k := v]> m !! k' = Some x.
Proof. intros Hk Hx. rewrite dict_lookup_insert_ne; [done|]. intros <-. congruence. Qed.

Lemma dep_stays (d : store) k x : deployments d !! k = Some x → ∃ x', deployments d !! k = Some x' ∧
  (∃ ts, Deployment.transitions x' = Deployment.transitions x ++ ts) ∧
  Deployment.tenant_id x' = Deployment.tenant_id x ∧
  Deployment.candidate_id x' = Deployment.candidate_id x.
Proof. intros H. exists x. split; [done|]. split; [|done]. exists []. by rewrite app_nil_r. Qed.

Lemma trials_stay d d' t id : Store.trials d' = Store.trials d →
  ∃ later, candidate_trials d' t id = candidate_trials d t id ++ later.
Proof. intros E. exists []. unfold candidate_trials. by rewrite E, app_nil_r. Qed.

Lemma trials_appended d x t id : Store.trials d !! Trial.trial_id x = None →
  ∃ later, candidate_trials (d <| Store.trials := <[Trial.trial_id x := x]> (Store.trials d) |>) t id =
    candidate_trials d t id ++ later.
Proof.
  intros Hn. unfold candidate_trials. cbn. rewrite values_insert_fresh by done.
  rewrite List.filter_app. by eexists.
Qed.

(** An approved candidate does not move any more. *)
Lemma approved_final d c c' : cand_move d c c' →
  CandidateVersion.status c ≠ CandidateStatus.APPROVED.
Proof.
  intros (Ha & _) E. apply (terminal_stuck c c'); [|done]. cbn. by rewrite E.
Qed.

Lemma evo_change_grows d d' : evo_change d d' → evo_grows d d'.
Proof.
  destruct 1 as [p Hn|c Hn Hs Hc|c c' Hc Hm|y Hn|r Hn|x Hn Hx|x x' Hx Hm|r Hn Hr
                |d' (E1 & E2 & E3 & E4 & E5 & E6)];
    constructor; cbn; intros; try assumption;
    eauto using insert_fresh_keeps, dep_stays, trials_stay, trials_appended.
  - destruct H as (y & Hy & Hst & Ht). exists y. split; [by apply insert_fresh_keeps|done].
  - destruct H as (y & Hy & Hst & Ht). exists y. split; [|done].
    cbn. rewrite dict_lookup_insert_ne; [done|]. intros <-. rewrite Hc in Hy. injection Hy as ->.
    by apply approved_final in Hm.
  - exists x0. split; [by apply insert_fresh_keeps|]. split; [|done].
    exists []. by rewrite app_nil_r.
  - destruct (decide (Deployment.deployment_id x' = k)) as [<-|Hne].
    + rewrite dict_lookup_insert. exists x'. assert (x0 = x) as -> by congruence.
      destruct Hm as (_ & ? & ? & _ & ?). done.
    + rewrite dict_lookup_insert_ne by done. by apply dep_stays.
  - by rewrite E1.
  - by rewrite E4.
  - unfold approved_candidate. by rewrite E2.
  - rewrite E3. by apply dep_stays.
Qed.

Lemma cand_ok_grows d d' c : evo_grows d d' → cand_ok d c → cand_ok d' c.
Proof.
  intros Hg [Hp Hgr Ha]. constructor; [| |done].
  - destruct Hp as (p & Hp & Hr). exists p. split; [by apply Hg|done].
  - intros Hs. destruct (Hgr Hs) as (g & H1 & H2 & (r & po & ts & l & a & Hr & E1 & E2 & E3 & E4 & E5 & Et & Hrest)).
    destruct (grow_trials _ _ Hg (CandidateVersion.tenant_id c) (CandidateVersion.candidate_id c)) as [l' El].
    exists g. split; [done|]. split; [done|]. exists r, po, ts, (l ++ l'), a.
    refine (conj _ (conj E1 (conj E2 (conj E3 (conj E4 (conj E5 (conj _ Hrest))))))).
    + by apply Hg.
    + by rewrite El, Et, app_assoc.
Qed.

Lemma evaluated_identity d c c' g : candidate_identity c' = candidate_identity c →
  evaluated d c g → evaluated d c' g.
Proof.
  unfold candidate_identity, evaluated. intros [= Et _ _ _ _ Es Ev _ Ei].
  rewrite Et, Es, Ev, Ei. done.
Qed.

Lemma dep_ok_grows d d' x : evo_grows d d' → dep_ok d x → dep_ok d' x.
Proof. intros Hg [H1 H2]. split; [done|by apply Hg]. Qed.

Lemma rel_ok_grows d d' r : evo_grows d d' → rel_ok d r → rel_ok d' r.
Proof.
  intros Hg (x & Hx & Hc & Hid & Ht). destruct (grow_deployments _ _ Hg _ _ Hx)
    as (x' & Hx' & (ts & Ets) & Et & Ec).
  exists x'. split; [done|]. rewrite Ets, Et, Ec. split; [|done].
  destruct Hc as (t & Hin & Hto). exists t. split; [set_solver|done].
Qed.

Lemma cand_move_ok d c c' : cand_ok d c → cand_move d c c' → cand_ok d c'.
Proof.
  intros [Hp Hg Ha] (Hadv & Hid & Hcase).
  assert (Hgen : CandidateVersion.generator_id c' = CandidateVersion.generator_id c)
    by (unfold candidate_identity in Hid; congruence).
  apply advances_status in Hadv. cbn in Hadv. constructor.
  - destruct Hp as (p & Hp & Ht & Hs). exists p. unfold candidate_identity in Hid.
    injection Hid as Ht' Hp' _ _ _ Hs' _ _ _. split_and!; congruence.
  - intros Hs. destruct Hcase as [E|[(g & Hgr & Hne & [E|[E He]])|(a & _ & _ & _ & Hgr & Hst)]].
    + rewrite E in Hs. by apply mem_true in Hs.
    + rewrite E in Hs. by apply mem_true in Hs.
    + exists g. rewrite Hgen. done.
    + destruct Hg as (g & H1 & H2 & H3).
      { apply elem_of_cons in Hst as [E|E%list_elem_of_singleton];
          [|rewrite E in Hs; by apply mem_true in Hs].
        rewrite E in Hadv. destruct (CandidateVersion.status c); try (by apply mem_true in Hadv).
        set_solver. }
      exists g. rewrite Hgen, Hgr. split_and!; [done..|by eapply evaluated_identity].
  - intros Hs. destruct Hcase as [E|[(g & _ & _ & [E|[E _]])|(a & Ea & Hne & Hng & Hgr & _)]];
      try congruence. exists a. by rewrite Hgen, Hgr.
Qed.

Lemma evo_change_ok d d' : evo_ok d → evo_change d d' → evo_ok d'.
Proof.
  intros Hok Hch. pose proof (evo_change_grows _ _ Hch) as Hg. destruct Hok as [Hck Hc Hdk Hd Hr].
  assert (Hold : (∀ k c, candidates d !! k = Some c → cand_ok d' c) ∧
    (∀ k x, deployments d !! k = Some x → dep_ok d' x) ∧
    (∀ k r, releases d !! k = Some r → rel_ok d' r))
    by (split_and!; eauto using cand_ok_grows, dep_ok_grows, rel_ok_grows).
  destruct Hold as (Hc' & Hd' & Hr').
  destruct Hch as [p Hn|c Hn Hs Hco|c c' Hcc Hm|y Hn|r Hn|x Hn Hx|x x' Hxx Hm|r Hn Hro
                  |d' (E1 & E2 & E3 & E4 & E5 & _)];
    constructor; cbn; try done; try (rewrite ?E2, ?E3, ?E5; done).
  - intros k y. rewrite dict_lookup_insert_Some. intros [[<- <-]|[_ ?]]; eauto.
  - intros k y. rewrite dict_lookup_insert_Some. intros [[<- <-]|[_ ?]]; eauto using cand_ok_grows.
  - intros k y. rewrite dict_lookup_insert_Some. intros [[<- <-]|[_ ?]]; eauto.
  - intros k y. rewrite dict_lookup_insert_Some. intros [[<- <-]|[_ ?]]; eauto.
    eapply cand_ok_grows; [exact Hg|]. eapply cand_move_ok; [by eapply Hc|done].
  - intros k y. rewrite dict_lookup_insert_Some. intros [[<- <-]|[_ ?]]; eauto.
  - intros k y. rewrite dict_lookup_insert_Some. intros [[<- <-]|[_ ?]]; eauto using dep_ok_grows.
  - intros k y. rewrite dict_lookup_insert_Some. intros [[<- <-]|[_ ?]]; eauto.
  - intros k y. rewrite dict_lookup_insert_Some. intros [[<- <-]|[_ ?]]; eauto.
    destruct Hm as (Hh & _ & Ht & _ & Hid). destruct (Hd' _ _ Hxx) as [Hx1 Hx2].
    split; [by apply Hh|]. by rewrite Ht, Hid.
  - intros k y. rewrite dict_lookup_insert_Some. intros [[<- <-]|[_ ?]]; eauto using rel_ok_grows.
Qed.

Lemma evo_changes_ok d d' : evo_ok d → rtc evo_change d d' → evo_ok d'.
Proof. intros Hok. induction 1; [done|]. eauto using evo_change_ok. Qed.

Lemma evo_changes_grow d d' : rtc evo_change d d' → evo_grows d d'.
Proof.
  induction 1 as [d|d d1 d2 Hs _ [IH1 IH2 IH3 IH4 IH5]].
  - constructor; eauto using dep_stays, trials_stay.
  - destruct (evo_change_grows _ _ Hs) as [H1 H2 H3 H4 H5]. constructor; eauto.
    2: { intros t id. destruct (H5 t id) as [l1 E1], (IH5 t id) as [l2 E2].
         exists (l1 ++ l2). by rewrite E2, E1, app_assoc. }
    intros k x Hx. destruct (H4 k x Hx) as (x1 & Hx1 & (ts1 & E1) & ? & ?).
    destruct (IH4 k x1 Hx1) as (x2 & Hx2 & (ts2 & E2) & ? & ?). exists x2. split; [done|].
    split; [exists (ts1 ++ ts2); by rewrite E2, E1, app_assoc|]. split; congruence.
Qed.

(** ** The operations *)

Section service.
Context {X : Type} (d : store) (Hok : evo_ok d).
Notation wpd := (wpd (X := X) (fresh d)).
Notation MW := (M (world X)).

(** The operation may raise anywhere: what it wrote before is legal, too. *)
Definition evolves {A} (m : MW A) (d1 : store) : Prop :=
  wpd m (fun _ d' => rtc evo_change d1 d') (fun _ d' => rtc evo_change d1 d') d1.

Lemma wpd_candidate t id (Q : CandidateVersion.t → store → Prop) (E : exn → store → Prop) d1 :
  (∀ c, candidates d1 !! id = Some c → CandidateVersion.tenant_id c = t → Q c d1) →
  (∀ x, E x d1) → wpd (get_candidate t id) Q E d1.
Proof. apply wpd_fetch. Qed.

Lemma wpd_deployment t id (Q : Deployment.t → store → Prop) (E : exn → store → Prop) d1 :
  (∀ x, deployments d1 !! id = Some x → Deployment.tenant_id x = t → Q x d1) →
  (∀ x, E x d1) → wpd (get_deployment t id) Q E d1.
Proof. apply wpd_fetch. Qed.

Lemma wpd_proposal t id (Q : ImprovementProposal.t → store → Prop) (E : exn → store → Prop) d1 :
  (∀ x, proposals d1 !! id = Some x → ImprovementProposal.tenant_id x = t → Q x d1) →
  (∀ x, E x d1) → wpd (get_proposal t id) Q E d1.
Proof. apply wpd_fetch. Qed.

Lemma wpd_release t id (Q : Release.t → store → Prop) (E : exn → store → Prop) d1 :
  (∀ x, releases d1 !! id = Some x → Release.tenant_id x = t → Q x d1) →
  (∀ x, E x d1) → wpd (get_active_release t id) Q E d1.
Proof. apply wpd_fetch. Qed.

(** The last write of an operation. *)
Lemma wpd_write {A} f (a : A) d1 d0 : rtc evo_change d0 d1 → evo_change d1 (f d1) →
  wpd (update f ;; mret a) (fun _ d' => rtc evo_change d0 d') (fun _ d' => rtc evo_change d0 d') d1.
Proof. intros H1 H2. apply wpd_bind, wpd_update, wpd_ret. by eapply rtc_r. Qed.

Import CandidateLifecycleService.

Context (policy : option (string → MW unit)).
Context (Hpolicy : ∀ f raw, policy = Some f → quiet (f raw)).

Lemma wpd_target raw (Q : ImprovementTarget.t → store → Prop) (E : exn → store → Prop) d1 :
  (∀ x, Q x d1) → (∀ x, E x d1) → wpd (forbid_disallowed_target policy raw) Q E d1.
Proof.
  intros HQ HE. unfold forbid_disallowed_target.
  apply wpd_bind, wpd_lift; [intros _ _|done]. apply wpd_bind.
  assert (H : wpd (lift (improvement_target raw)) Q E d1) by (apply wpd_lift; auto).
  destruct policy as [f|] eqn:Ep; [|by apply wpd_ret].
  apply wpd_quiet; [by eapply Hpolicy|done|done].
Qed.

Lemma propose_evolves identity c : evolves (propose_improvement policy identity c) d.
Proof.
  unfold propose_improvement. apply wpd_bind, wpd_target; [intros target|done].
  apply wpd_bind, wpd_uuid4. intros u Hu. apply wpd_bind, wpd_lift; [|done].
  intros p Hp. unfold ImprovementProposal.new in Hp. inv_ok.
  apply wpd_write; [done|]. by apply AddProposal, Hu.
Qed.

Lemma register_evolves identity c : evolves (register_candidate policy identity c) d.
Proof.
  unfold register_candidate. apply wpd_bind, wpd_proposal; [intros p Hp Ht|done].
  apply wpd_bind, wpd_target; [intros _|done]. apply wpd_bind, wpd_throw_if; [intros Hs|done].
  bool_hyps. apply wpd_bind, wpd_uuid4. intros u Hu. apply wpd_bind, wpd_lift; [|done].
  intros y Hy. unfold CandidateVersion.new in Hy. apply then_ok in Hy as [_ [= <-]].
  apply wpd_write; [done|]. apply AddCandidate; [apply Hu|done|]. constructor; cbn.
  - exists p. done.
  - intros Hin. by apply mem_true in Hin.
  - done.
Qed.

Lemma submit_evolves t id : evolves (submit_for_evaluation t id) d.
Proof.
  unfold submit_for_evaluation. apply wpd_bind, wpd_candidate; [intros c Hc Ht|done].
  apply wpd_bind, wpd_now. intros time. apply wpd_bind, wpd_lift; [|done]. intros c' Hc'.
  pose proof (candidate_transition_advances _ _ _ _ _ _ _ Hc').
  apply candidate_transition_identity in Hc' as (Hid & Hst & _).
  apply wpd_write; [done|]. apply MoveCandidate with c.
  - rewrite <- Hc. f_equal. rewrite <- (cands_keyed _ Hok _ _ Hc). unfold candidate_identity in Hid.
    congruence.
  - split; [done|]. split; [done|]. by left.
Qed.

(** The invariant holds wherever the operation has come to. *)
Lemma evolved_ok d1 : rtc evo_change d d1 → evo_ok d1.
Proof. by apply evo_changes_ok. Qed.

Lemma check_trials_sound id c trials u : for_each (check_trial id c) trials = Ok u →
  ∀ t, t ∈ trials → Trial.subject_version_id t = id ∧
    Trial.suite_id t = CandidateVersion.suite_id c ∧
    Trial.suite_version t = CandidateVersion.suite_version c.
Proof.
  rewrite for_each_ok, Forall_forall. intros H t Ht. specialize (H t Ht). unfold check_trial in H. inv_ok.
  by bool_hyps.
Qed.

Lemma complete_evolves identity id po :
  evolves (complete_evaluation normal_quantile identity id po) d.
Proof.
  unfold complete_evaluation. cbv zeta. apply wpd_bind, wpd_candidate; [intros c Hc Ht|done].
  apply wpd_bind, wpd_list. set (trials := List.filter _ _).
  apply wpd_bind, wpd_lift; [intros u Hu|done]. pose proof (check_trials_sound _ _ _ _ Hu) as Htr.
  apply wpd_bind, wpd_lift; [intros a Ha|done]. apply wpd_bind, wpd_uuid4. intros e He.
  apply wpd_bind, wpd_lift; [|done]. intros r Hr. unfold CandidateEvaluation.new in Hr.
  apply then_ok in Hr as [_ [= <-]]. set (r := CandidateEvaluation.mk _ _ _ _ _ _ _ _).
  apply wpd_bind, wpd_update. set (d1 := d <| candidate_evaluations := _ |>).
  assert (H1 : evo_change d d1) by (apply AddEvaluation, He).
  assert (Hr1 : rtc evo_change d d1) by (by apply rtc_once).
  apply wpd_bind, wpd_lift; [intros target Htarget|done]. apply wpd_bind, wpd_now. intros time.
  apply wpd_bind, wpd_lift; [|done]. intros c' Hc'.
  apply record_evaluation_ok in Hc' as (Hgen & Hadv & Hid & Hst & Hgr & _).
  apply wpd_write; [done|].
  assert (Hkey : CandidateVersion.candidate_id c' = id).
  { rewrite <- (cands_keyed _ Hok _ _ Hc). unfold candidate_identity in Hid. congruence. }
  apply MoveCandidate with c; [by rewrite Hkey|]. split; [done|]. split; [done|]. right. left.
  exists (uuid_str (IdentityContext.principal_id identity)). split; [done|]. split; [done|].
  unfold evaluation_target in Htarget. destruct (TrialConfidenceAssessment.decision a) eqn:Ed.
  - injection Htarget as <-. right. split; [done|].
    eapply evaluated_identity; [exact Hid|]. exists r, po, trials, [], a.
    pose proof (cands_keyed _ Hok _ _ Hc) as Hck. split_and!; try done; cbn.
    + apply dict_lookup_insert.
    + by rewrite app_nil_r, Hck, Ht.
    + intros t Hin. rewrite Hck. by apply Htr.
  - injection Htarget as <-. by left.
  - done.
Qed.

Lemma decide_evolves identity id approved reason : evolves (decide identity id approved reason) d.
Proof.
  unfold decide. apply wpd_bind, wpd_candidate; [intros c Hc Ht|done]. cbv zeta.
  apply wpd_bind, wpd_now. intros time. apply wpd_bind, wpd_lift; [|done]. intros c' Hc'.
  apply record_approval_ok in Hc' as (Hgen & Hng & Hadv & Hid & Hst & Hgr & Hap).
  apply wpd_write; [done|]. apply MoveCandidate with c.
  - rewrite <- Hc. f_equal. rewrite <- (cands_keyed _ Hok _ _ Hc). unfold candidate_identity in Hid.
    congruence.
  - split; [done|]. split; [done|]. right. right. eexists. split; [exact Hap|]. split_and!; try done.
    rewrite Hst. destruct approved; set_solver.
Qed.

Lemma begin_shadow_evolves identity id : evolves (begin_shadow identity id) d.
Proof.
  unfold begin_shadow, require_independent. apply wpd_bind, wpd_candidate; [intros c Hc Ht|done].
  apply wpd_bind, wpd_throw_if; [intros _|done]. apply wpd_bind, wpd_now. intros time.
  apply wpd_bind, wpd_uuid4. intros u Hu. apply wpd_bind, wpd_lift; [|done]. intros x Hx.
  apply begin_deployment_history in Hx as (Hst & Hh & Hten & Hcid & _ & Hid).
  apply wpd_write; [done|]. apply AddDeployment; [rewrite Hid; apply Hu|]. split; [done|].
  exists c. rewrite Hcid, (cands_keyed _ Hok _ _ Hc), Hten. done.
Qed.

(** ** Deployments *)

Lemma transition_moves x target actor reason at_ now x' :
  Deployment.transition_to x target actor reason at_ now = Ok x' → dep_move x x'.
Proof.
  intros H. split; [intros Hh; by apply (deployment_transition_history _ _ _ _ _ _ _ Hh H)|].
  unfold Deployment.transition_to, Deployment.new in H. inv_ok. cbn. eauto.
Qed.

Lemma enter_canary_moves x allocation actor reason at_ now x' :
  Deployment.enter_canary x allocation actor reason at_ now = Ok x' → dep_move x x'.
Proof.
  unfold Deployment.enter_canary. intros H. apply bind_ok in H as (y & Hy & H).
  apply transition_moves in Hy. unfold Deployment.new in H. by inv_ok.
Qed.

Lemma move_deployment d1 id x x' : evo_ok d1 → deployments d1 !! id = Some x → dep_move x x' →
  evo_change d1 (d1 <| deployments := <[Deployment.deployment_id x' := x']> (deployments d1) |>).
Proof.
  intros Hok1 Hx Hm. apply MoveDeployment with x; [|done].
  destruct Hm as (_ & _ & _ & -> & _). by rewrite (deps_keyed _ Hok1 _ _ Hx).
Qed.

Lemma promote_evolves identity id allocation : evolves (promote_to_canary identity id allocation) d.
Proof.
  unfold promote_to_canary, require_independent.
  apply wpd_bind, wpd_deployment; [intros x Hx Ht|done].
  apply wpd_bind, wpd_candidate; [intros c Hc Htc|done].
  apply wpd_bind, wpd_throw_if; [intros _|done]. apply wpd_bind, wpd_now. intros time.
  apply wpd_bind, wpd_lift; [|done]. intros x' Hx'.
  apply wpd_write; [done|]. eapply move_deployment; [done|done|by eapply enter_canary_moves].
Qed.

Lemma rollback_deployment_evolves identity id reason :
  evolves (rollback_deployment identity id reason) d.
Proof.
  unfold rollback_deployment. apply wpd_bind, wpd_throw_if; [intros _|done].
  apply wpd_bind, wpd_deployment; [intros x Hx Ht|done]. apply wpd_bind, wpd_now. intros time.
  apply wpd_bind, wpd_lift; [|done]. intros x' Hx'.
  apply wpd_write; [done|]. eapply move_deployment; [done|done|by eapply transition_moves].
Qed.

Lemma wpd_observation t id stage metric (Q : option DeploymentObservation.t → store → Prop) E d1 :
  (∀ o, Q o d1) → wpd (get_observation t id stage metric) Q E d1.
Proof. intros HQ. by apply wpd_query. Qed.

Lemma rollback_if_breached_evolves identity id stage metric n :
  evolves (rollback_if_breached identity id stage metric n) d.
Proof.
  unfold rollback_if_breached. apply wpd_bind, wpd_observation. intros [o|]; [|by apply wpd_ret].
  destruct (_ <? _); [by apply wpd_ret|]. apply wpd_bind.
  eapply wpd_mono; [apply rollback_deployment_evolves| |done]. intros x d' H. by apply wpd_ret.
Qed.

Lemma wpd_promotion_gate x po (Q : unit → store → Prop) (E : exn → store → Prop) d1 :
  Q tt d1 → (∀ e, E e d1) → wpd (assert_promotion_gate x po) Q E d1.
Proof.
  intros HQ HE. unfold assert_promotion_gate. destruct (Deployment.entered_at _ _); [|by apply wpd_throw].
  apply wpd_bind, wpd_now. intros time. apply wpd_bind, wpd_lift; [intros us _|done].
  apply wpd_bind, wpd_throw_if; [intros _|done]. apply wpd_for_each; [|done].
  intros metric _. unfold check_metric. apply wpd_bind, wpd_observation. intros [o|]; [|by apply wpd_throw].
  destruct (_ <? _); [by apply wpd_throw|]. by apply wpd_throw_if.
Qed.

Lemma release_evolves identity id version po : evolves (release_stable identity id version po) d.
Proof.
  unfold release_stable. apply wpd_bind, wpd_deployment; [intros x Hx Ht|done].
  apply wpd_bind, wpd_throw_if; [intros _|done]. apply wpd_bind, wpd_promotion_gate; [|done].
  apply wpd_bind, wpd_candidate; [intros c Hc Htc|done]. apply wpd_bind, wpd_now. intros time.
  apply wpd_bind, wpd_lift; [|done]. intros x' Hx'. pose proof (transition_moves _ _ _ _ _ _ _ Hx') as Hm.
  destruct (deps_ok _ Hok _ _ Hx) as [Hh _].
  destruct (deployment_transition_history _ _ _ _ _ _ _ Hh Hx') as (Hh' & Hst & _).
  apply wpd_bind, wpd_uuid4. intros u Hu. apply wpd_bind, wpd_lift; [|done]. intros r Hr.
  unfold Release.from_stable_deployment in Hr. apply then_ok in Hr as [_ [= <-]].
  apply wpd_bind, wpd_update. set (d1 := d <| deployments := _ |>).
  assert (H1 : evo_change d d1) by (by eapply move_deployment).
  apply wpd_write; [by apply rtc_once|]. apply AddRelease; [apply Hu|].
  exists x'. split; [apply dict_lookup_insert|]. split; [by apply stable_crosses_canary|done].
Qed.

Lemma rollback_evolves identity id : evolves (rollback identity id) d.
Proof.
  unfold rollback. apply wpd_bind, wpd_release; [intros r Hr Htr|done].
  apply wpd_bind, wpd_deployment; [intros x Hx Ht|done]. apply wpd_bind, wpd_now. intros time.
  apply wpd_bind, wpd_lift; [|done]. intros x' Hx'. pose proof (transition_moves _ _ _ _ _ _ _ Hx') as Hm.
  apply wpd_bind, wpd_update. set (d1 := d <| deployments := _ |>).
  assert (H1 : evo_change d d1) by (by eapply move_deployment).
  apply wpd_bind, wpd_uuid4. intros u Hu. cbv zeta.
  apply wpd_write; [by apply rtc_once|]. apply AddRelease; [apply Hu|].
  destruct (rel_ok_grows _ _ _ (evo_change_grows _ _ H1) (rels_ok _ Hok _ _ Hr)) as (y & Hy & Hcr & Hcid & Hten).
  exists y. cbn. rewrite <- Htr. done.
Qed.

(** ** Observations and shadow pairs *)

Lemma record_observation_elsewhere identity c d1 :
  wpd (record_observation identity c) (fun _ d' => same_evolution d1 d')
    (fun _ d' => same_evolution d1 d') d1.
Proof.
  unfold record_observation. cbv zeta. apply wpd_bind, wpd_deployment; [intros x Hx Ht|done].
  apply wpd_bind, wpd_throw_if; [intros _|done]. apply wpd_bind, wpd_now. intros time.
  apply wpd_bind, wpd_observation. intros o.
  assert (Hend : ∀ y, wpd (save_observation y ;; mret y) (fun _ d' => same_evolution d1 d')
    (fun _ d' => same_evolution d1 d') d1) by (intros y; apply wpd_bind, wpd_update, wpd_ret; done).
  apply wpd_bind. destruct o as [o|].
  - apply wpd_lift; [|done]. intros y _. apply Hend.
  - apply wpd_bind, wpd_uuid4. intros u _. apply wpd_lift; [|done]. intros y _. apply Hend.
Qed.

Lemma record_observation_evolves identity c : evolves (record_observation identity c) d.
Proof.
  eapply wpd_mono; [apply record_observation_elsewhere|..]; cbv beta;
    intros ? d' H; by apply rtc_once, Elsewhere.
Qed.

Lemma same_evolution_trans d1 d2 d3 :
  same_evolution d1 d2 → same_evolution d2 d3 → same_evolution d1 d3.
Proof. intros (? & ? & ? & ? & ? & ?) (? & ? & ? & ? & ? & ?). split_and!; congruence. Qed.

Lemma wpd_gather {A B} (m : MW A) (m' : MW B) (Q : A * B → store → Prop)
    (E : exn → store → Prop) d1 :
  quiet m → quiet m' → (∀ ab, Q ab d1) → (∀ x, E x d1) → wpd (gather m m') Q E d1.
Proof.
  intros Hm Hm' HQ HE w <- e n k _. unfold gather. specialize (Hm w e n k (fun _ => I)).
  destruct (m e (St w n k)) as [ra [w1 n1 k1]]. specialize (Hm' w1 e n1 k1 (fun _ => I)).
  destruct (m' e _) as [rb [w2 n2 k2]]. cbn [data] in *.
  assert (db w1 = db w) as E1 by (destruct ra; naive_solver).
  assert (db w2 = db w1) as E2 by (destruct rb; naive_solver).
  destruct ra, rb; rewrite E2, E1; auto.
Qed.

Lemma shadow_pair_evolves identity c runtime :
  (∀ t i v r p b, quiet (runtime t i v r p b)) → evolves (execute_shadow_pair identity c runtime) d.
Proof.
  intros Hr. unfold execute_shadow_pair. cbv zeta.
  apply wpd_bind, wpd_deployment; [intros x Hx Ht|done]. apply wpd_bind, wpd_throw_if; [intros _|done].
  apply wpd_bind, wpd_candidate; [intros y Hy Hty|done].
  apply wpd_bind, wpd_gather; [apply Hr..|intros [a b]|done].
  apply wpd_bind, wpd_now. intros time. apply wpd_bind, wpd_uuid4. intros u _.
  apply wpd_bind, wpd_lift; [intros z _|done]. apply wpd_bind, wpd_update.
  set (d1 := d <| shadow_comparisons := _ |>). assert (H1 : same_evolution d d1) by done.
  eapply (wpd_mono _ _ (fun _ d' => same_evolution d d') _ (fun _ d' => same_evolution d d'));
    [|by intros ? ? ?; apply rtc_once, Elsewhere..].
  apply wpd_bind. eapply (wpd_mono _ _ (fun _ d' => same_evolution d d') _
    (fun _ d' => same_evolution d d')); [|intros [] d' H; by apply wpd_ret|done].
  clearbody d1. revert d1 H1.
  induction (shadow_metrics a b) as [|kv l IH]; intros d1 H1; cbn [for_each_m]; [by apply wpd_ret|].
  do 2 apply wpd_bind. apply wpd_lift; [intros o _|done].
  apply wpd_bind. eapply wpd_mono; [apply record_observation_elsewhere|..]; cbv beta.
  - intros _ d2 H2. apply wpd_ret, IH. by eapply same_evolution_trans.
  - intros _ d2 H2. by eapply same_evolution_trans.
Qed.
End service.

(** ** Any sequence of operations *)

Section reachable.
Context {X : Type} (policy : option (string → M (world X) unit)).
Import CandidateLifecycleService.

(** [PersistTrial]: what the evaluation runtime adds for a candidate. *)
Inductive operation :=
  | Propose (c : ProposeImprovement.t)
  | Register (c : RegisterCandidate.t)
  | Submit (candidate_id : uuid)
  | PersistTrial (trial : Trial.t)
  | Complete (candidate_id : uuid) (policy : RepeatedTrialPolicy.t)
  | Decide (candidate_id : uuid) (approved : bool) (reason : string)
  | BeginShadow (candidate_id : uuid)
  | ShadowPair (c : ExecuteShadowPair.t) (runtime : @shadow_runtime X)
  | PromoteToCanary (deployment_id : uuid) (allocation : TrafficAllocation.t)
  | Observe (c : RecordObservation.t)
  | ReleaseStable (deployment_id version : uuid) (policy : option PromotionPolicy.t)
  | RollbackIfBreached (deployment_id : uuid) (stage : DeploymentStatus.t) (metric : string) (n : Z)
  | RollbackDeployment (deployment_id : uuid) (reason : string)
  | Rollback (release_id : uuid).

Definition run_operation (identity : IdentityContext.t) (op : operation) : M (world X) unit :=
  match op with
  | Propose c => propose_improvement policy identity c ;; mret tt
  | Register c => register_candidate policy identity c ;; mret tt
  | Submit id => submit_for_evaluation (IdentityContext.tenant_id identity) id ;; mret tt
  | PersistTrial trial => add_trial trial
  | Complete id po => complete_evaluation normal_quantile identity id po ;; mret tt
  | Decide id approved reason => decide identity id approved reason ;; mret tt
  | BeginShadow id => begin_shadow identity id ;; mret tt
  | ShadowPair c runtime => execute_shadow_pair identity c runtime ;; mret tt
  | PromoteToCanary id allocation => promote_to_canary identity id allocation ;; mret tt
  | Observe c => record_observation identity c ;; mret tt
  | ReleaseStable id version po => release_stable identity id version po ;; mret tt
  | RollbackIfBreached id stage metric n => rollback_if_breached identity id stage metric n ;; mret tt
  | RollbackDeployment id reason => rollback_deployment identity id reason ;; mret tt
  | Rollback id => rollback identity id ;; mret tt
  end.

(** The ports leave the store alone. *)
Definition policy_quiet : Prop := ∀ f raw, policy = Some f → quiet (f raw).
Definition operation_quiet (op : operation) : Prop :=
  match op with
  | ShadowPair _ runtime => ∀ t i v r p b, quiet (runtime t i v r p b)
  | _ => True
  end.

(** A new trial has an identifier of its own. *)
Definition operation_fresh (op : operation) (d : store) : Prop :=
  match op with
  | PersistTrial trial => Store.trials d !! Trial.trial_id trial = None
  | _ => True
  end.

Lemma operation_evolves identity op d :
  policy_quiet → operation_quiet op → operation_fresh op d → evo_ok d →
  evolves d (run_operation identity op) d.
Proof.
  intros Hp Hq Hf Hok.
  assert (Hend : ∀ A (m : M (world X) A), evolves d m d → evolves d (m ;; mret tt) d).
  { intros A m Hm. apply wpd_bind. eapply wpd_mono; [exact Hm| |done].
    intros a d' H. by apply wpd_ret. }
  destruct op; cbn [run_operation]; [apply Hend..| |apply Hend|apply Hend|apply Hend|apply Hend|
    apply Hend|apply Hend|apply Hend|apply Hend|apply Hend|apply Hend].
  - eapply propose_evolves; first [exact Hp|done].
  - eapply register_evolves; first [exact Hp|done].
  - eapply submit_evolves; first [exact Hp|done].
  - apply wpd_update. by apply rtc_once, AddTrial.
  - eapply complete_evolves; first [exact Hp|done].
  - eapply decide_evolves; first [exact Hp|done].
  - eapply begin_shadow_evolves; first [exact Hp|done].
  - eapply shadow_pair_evolves; first [exact Hp|done].
  - eapply promote_evolves; first [exact Hp|done].
  - eapply record_observation_evolves; first [exact Hp|done].
  - eapply release_evolves; first [exact Hp|done].
  - eapply rollback_if_breached_evolves; first [exact Hp|done].
  - eapply rollback_deployment_evolves; first [exact Hp|done].
  - eapply rollback_evolves; first [exact Hp|done].
Qed.

(** An operation ran with a generator of fresh identifiers, and returned or raised. *)
Inductive evo_step : world X → world X → Prop :=
  | EvoStep identity op e w n k r s' :
      operation_quiet op → operation_fresh op (db w) → (∀ j, fresh (db w) (ids e j)) →
      run_operation identity op e (St w n k) = (r, s') → evo_step w (data s').

Lemma evo_steps w w' : policy_quiet → evo_ok (db w) → rtc evo_step w w' →
  evo_ok (db w') ∧ rtc evo_change (db w) (db w').
Proof.
  intros Hp Hok Hs. revert Hok. induction Hs as [w|w w1 w2 Hstep _ IH]; intros Hok; [done|].
  destruct Hstep as [identity op e w n k r s' Hq Hn Hf Hrun].
  pose proof (operation_evolves identity op (db w) Hp Hq Hn Hok w eq_refl e n k Hf) as H.
  rewrite Hrun in H. assert (Hch : rtc evo_change (db w) (db (data s'))) by (by destruct r).
  destruct (IH (evo_changes_ok _ _ Hok Hch)) as [H1 H2]. split; [done|]. by etransitivity.
Qed.

(** Nothing was proposed, deployed or released yet. *)
Definition no_evolution (d : store) : Prop :=
  candidates d = ∅ ∧ deployments d = ∅ ∧ releases d = ∅.

Lemma no_evolution_ok d : no_evolution d → evo_ok d.
Proof. intros (Hc & Hd & Hr). constructor; rewrite ?Hc, ?Hd, ?Hr; by intros ?. Qed.

(** C14. From a store without candidates, deployments and releases, under a policy
    port that leaves the store alone and with identifiers that are new when they are
    drawn, and however the lifecycle operations are run: a release was made of a
    deployment that went through CANARY, of an APPROVED candidate of the same tenant;
    its evaluation on the suite its proposal fixed judged all the trials the store
    then held for the candidate, each of them an execution of the candidate itself on
    that suite, and they met the confidence policy; and its generator, grader and
    approver are three different principals. *)
Theorem release_was_governed w w' k r :
  policy_quiet → no_evolution (db w) → rtc evo_step w w' → releases (db w') !! k = Some r →
  ∃ x c p grader approver,
    deployments (db w') !! Release.deployment_id r = Some x ∧
    crosses DeploymentStatus.CANARY (Deployment.transitions x) ∧
    candidates (db w') !! Release.candidate_id r = Some c ∧
    CandidateVersion.status c = CandidateStatus.APPROVED ∧
    Deployment.tenant_id x = Release.tenant_id r ∧
    CandidateVersion.tenant_id c = Release.tenant_id r ∧
    proposals (db w') !! CandidateVersion.proposal_id c = Some p ∧
    CandidateVersion.suite_id c = ImprovementProposal.validation_suite_id p ∧
    CandidateVersion.grader_principal_id c = Some grader ∧
    CandidateVersion.approver_principal_id c = Some approver ∧
    NoDup [CandidateVersion.generator_id c; grader; approver] ∧
    evaluated (db w') c grader.
Proof.
  intros Hp Hw Hs Hr. destruct (evo_steps w w' Hp (no_evolution_ok _ Hw) Hs) as [Hok _].
  destruct (rels_ok _ Hok _ _ Hr) as (x & Hx & Hcr & Hcid & Hten).
  destruct (deps_ok _ Hok _ _ Hx) as [_ (c & Hc & Hst & Htc)].
  destruct (cands_ok _ Hok _ _ Hc) as [(p & Hpr & _ & Hsuite) Hg Ha].
  destruct (Hg ltac:(rewrite Hst; set_solver)) as (g & Eg & Hgen & Hev).
  destruct (Ha Hst) as (a & Ea & Hagen & Hag).
  exists x, c, p, g, a. rewrite <- Hcid. split_and!; try done; try congruence.
  repeat constructor; rewrite ?elem_of_cons, ?elem_of_nil; naive_solver.
Qed.
End reachable.
End machine.

(** ** The promotion gate *)

Section gate.
Context {X : Type}.
Import CandidateLifecycleService.

(** The evidence one required metric needs. *)
Definition metric_observed (d : store) (x : Deployment.t) (policy : PromotionPolicy.t)
    (metric : string) : Prop :=
  ∃ o v, observations d !! (Deployment.tenant_id x, Deployment.deployment_id x,
      DeploymentStatus.value DeploymentStatus.CANARY, metric) = Some o ∧
    PromotionPolicy.min_samples policy <= DeploymentObservation.sample_count o ∧
    DeploymentObservation.last_value o = Some v.

Lemma run_check_metric x policy metric e (s : st (world X)) s' :
  check_metric x policy metric e s = (Ok tt, s') →
  metric_observed (db (data s)) x policy metric ∧ s' = s.
Proof.
  unfold check_metric, get_observation. intros H. inv_run. apply run_query in Hr as [-> ->].
  destruct (observations _ !! _) as [o|] eqn:Eo; [|done].
  destruct (_ <? _) eqn:El; [done|]. inv_run. bool_hyps. split; [|done].
  destruct (DeploymentObservation.last_value o) as [v|] eqn:Ev; [|done].
  exists o, v. by bool_hyps.
Qed.

Lemma run_promotion_gate x policy e (s : st (world X)) s' :
  assert_promotion_gate x policy e s = (Ok tt, s') →
  db (data s') = db (data s) ∧
  (∃ entered us, Deployment.entered_at x DeploymentStatus.CANARY = Some entered ∧
     dt_sub (clock e (ticks s)) entered = Ok us ∧
     flt (of_ratio us 1000000) (of_int (PromotionPolicy.observation_seconds policy)) = false) ∧
  ∀ metric, metric ∈ PromotionPolicy.required_metrics policy →
    metric_observed (db (data s)) x policy metric.
Proof.
  unfold assert_promotion_gate. intros H.
  destruct (Deployment.entered_at _ _) as [entered|]; [|done].
  apply run_bind in H as (t & s1 & Ht & H). injection Ht as <- <-.
  apply run_bind in H as (us & s2 & Hus & H). apply run_lift in Hus as [Hus ->].
  apply run_bind in H as ([] & s3 & Hlt & H). apply (run_lift _ e) in Hlt as [Hlt ->].
  apply raise_if_ok in Hlt.
  apply (run_for_each _ (metric_observed (db (data s)) x policy)) in H as [Hm ->].
  - split; [done|]. split; [by exists entered, us|]. by apply Forall_forall.
  - intros metric s4 Hc. by apply run_check_metric in Hc.
Qed.

(** A release was made of a canary deployment whose observation window had passed
    and whose required metrics had been observed often enough; it is stored with
    the deployment in STABLE. *)
Theorem promotion_needs_evidence identity id version po e (s : st (world X)) r s' :
  release_stable identity id version po e s = (Ok r, s') →
  let d := db (data s) in
  let policy := default PromotionPolicy.default po in
  ∃ x entered us,
    deployments d !! id = Some x ∧ Deployment.tenant_id x = IdentityContext.tenant_id identity ∧
    Deployment.status x = DeploymentStatus.CANARY ∧
    Deployment.entered_at x DeploymentStatus.CANARY = Some entered ∧
    dt_sub (clock e (ticks s)) entered = Ok us ∧
    flt (of_ratio us 1000000) (of_int (PromotionPolicy.observation_seconds policy)) = false ∧
    (∀ metric, metric ∈ PromotionPolicy.required_metrics policy → metric_observed d x policy metric) ∧
    releases (db (data s')) !! Release.release_id r = Some r ∧
    ∃ x', deployments (db (data s')) !! Deployment.deployment_id x = Some x' ∧
      Deployment.status x' = DeploymentStatus.STABLE.
Proof.
  unfold release_stable. cbv zeta. intros H.
  apply run_bind in H as (x & s1 & Hx & H). apply run_fetch in Hx as (Hx & Ht & ->).
  apply run_bind in H as ([] & s2 & Hst & H). apply (run_lift _ e) in Hst as [Hst ->].
  apply raise_if_ok in Hst. apply run_bind in H as ([] & s3 & Hgate & H).
  apply run_promotion_gate in Hgate as (Edb & (entered & us & He & Hus & Hlt) & Hm).
  bool_hyps. apply run_bind in H as (c & s4 & Hc & H). apply run_fetch in Hc as (_ & _ & ->).
  apply run_bind in H as (t & s5 & Hnow & H). injection Hnow as <- <-.
  apply run_bind in H as (x' & s6 & Hx' & H). apply run_lift in Hx' as [Hx' ->].
  apply run_bind in H as (u & s7 & Hu & H). injection Hu as <- <-.
  apply run_bind in H as (r' & s8 & Hr & H). apply run_lift in Hr as [_ ->].
  apply run_bind in H as ([] & s9 & Hd & H). injection Hd as <-.
  apply run_bind in H as ([] & s10 & Hr & H). injection Hr as <-. injection H as -> <-.
  exists x, entered, us. split_and!; try done.
  - cbn. apply dict_lookup_insert.
  - exists x'. cbn. unfold Deployment.transition_to, Deployment.new in Hx'. inv_ok.
    split; [apply dict_lookup_insert|done].
Qed.
End gate.

(** * A candidate from its proposal to its release

    One proposal, one candidate, ten passed trials, an approval, a shadow and a
    canary deployment with one observed metric, and the release: the run that
    instantiates the properties of [EvolutionProofs], and a second release that
    the candidate's own generator makes. *)

Open Scope string_scope.
Open Scope list_scope.
Open Scope Z_scope.

Import CandidateLifecycleService.

Notation evo_operation := (@operation unit).
Notation no_policy := (@None (string → M (world unit) unit)).

Definition principal (p : uuid) : IdentityContext.t :=
  IdentityContext.mk tenant_a p p ["release-manager"] None None "access".

(** The generator, the grader, the approver and the release executor. *)
Definition generator : uuid := 51%N.
Definition grader : uuid := 52%N.
Definition approver : uuid := 53%N.
Definition executor : uuid := 54%N.

Definition green_case : TrialCaseResult.t :=
  TrialCaseResult.mk "case-1" [] (Some []) true [] ["trace/1"] (Some "executor") (Some "sandbox") None []
    None 0 None.
Definition candidate_trial (i : nat) : Trial.t :=
  Trial.mk tenant_a "refund-suite" "3" 200%N "harness@1" (N.of_nat (4000 + i)) TrialStatus.PASSED
    None [green_case] 0 None None None (Some 200%N).

Lemma candidate_trial_new i : Trial.new (candidate_trial i) = Ok (candidate_trial i).
Proof. reflexivity. Qed.

Definition the_promotion : PromotionPolicy.t := PromotionPolicy.mk 1 500 ["latency_ms"].

(** Proposal 100, candidate 200, evaluation 1400, deployment 1600. *)
Definition until_canary : list (uuid * evo_operation) := [
  (generator, Propose (ProposeImprovement.mk "prompt_asset" 9%N ["trace/1"] "answers are vague"
     "shorter prompt" "refund-suite" "restore version 9"));
  (generator, Register (RegisterCandidate.mk 100%N 9%N "artifact://prompt" (sha256_hex "prompt")
     "refund-suite" "3"));
  (generator, Submit 200%N)] ++
  ((fun i => (grader, PersistTrial (candidate_trial i))) <$> seq 1 10) ++ [
  (grader, Complete 200%N sample_policy);
  (approver, Decide 200%N true "better on every case");
  (executor, BeginShadow 200%N);
  (executor, PromoteToCanary 1600%N (TrafficAllocation.mk "salt" 5));
  (executor, Observe (RecordObservation.mk 1600%N DeploymentStatus.CANARY "latency_ms"
     (of_decimal 125 (-1)) None None))].

Definition all_unused (b : uuid) (d : store) : bool :=
  below b (proposals d) && below b (candidates d) && below b (deployments d) &&
  below b (candidate_evaluations d) && below b (releases d).

(** A new trial, and no pair, whose runtime might not be quiet. *)
Definition op_fine (op : evo_operation) (d : store) : bool :=
  match op with
  | PersistTrial trial => is_none (Store.trials d !! Trial.trial_id trial)
  | ShadowPair _ _ => false
  | _ => true
  end.

Lemma op_fine_ok op d : op_fine op d = true → operation_quiet op ∧ operation_fresh op d.
Proof. destruct op; try done. cbn. by destruct (Store.trials d !! _). Qed.

Lemma all_unused_fresh b d u : all_unused b d = true → (b <= u)%N → EvolutionProofs.fresh d u.
Proof.
  unfold all_unused. intros H Hu. repeat apply andb_true_iff in H as [H ?].
  constructor; by eapply below_unused.
Qed.

(** The operations, as long as every one returns. *)
Fixpoint evolve (i : Z) (l : list (uuid * evo_operation)) (w : world unit)
    : option (world unit) :=
  match l with
  | [] => Some w
  | (p, op) :: l' =>
      if all_unused (Z.to_N (100 * i)) (db w) && op_fine op (db w)
      then match run_operation quantile_95 no_policy (principal p) op (env_of i) (St w 0 0) with
           | (Ok _, s) => evolve (i + 1) l' (data s)
           | _ => None
           end
      else None
  end.

Lemma evolve_steps l i w w' : evolve i l w = Some w' → rtc (evo_step quantile_95 no_policy) w w'.
Proof.
  revert i w. induction l as [|[p op] l IH]; intros i w H; cbn [evolve] in H; [by injection H as <-|].
  destruct (all_unused _ _) eqn:E; [|done]. destruct (op_fine op (db w)) eqn:Ef; [|done].
  cbn [andb] in H. destruct (run_operation _ _ _ _ _ _) as [[a|y] s] eqn:Er; [|done].
  apply op_fine_ok in Ef as [Hq Hf]. eapply rtc_l; [|by eapply IH]. econstructor; [done|done| |exact Er].
  intros j. eapply all_unused_fresh; [exact E|]. cbn. lia.
Qed.

(** What [release_stable] answers in the canary world. *)
Definition in_canary : option (world unit) := evolve 1 until_canary start.
Definition release_by (p : uuid) (w : world unit) : res Release.t * st (world unit) :=
  release_stable (principal p) 1600%N 200%N (Some the_promotion) (env_of 19) (St w 0 0).

Definition canary_world : world unit := default start in_canary.

Lemma canary_world_reached : rtc (evo_step quantile_95 no_policy) start canary_world.
Proof.
  unfold canary_world. destruct in_canary as [w|] eqn:E; [|constructor].
  by eapply evolve_steps.
Qed.

Definition released_fine (p : uuid) : bool :=
  match release_by p canary_world with
  | (Ok r, s) =>
      bool_decide (Release.release_id r = 1900%N) &&
      bool_decide (CandidateVersion.generator_id <$> candidates (db (data s)) !! 200%N =
                   Some (uuid_str generator)) &&
      bool_decide (Release.candidate_id r = 200%N) &&
      is_some (releases (db (data s)) !! 1900%N) && all_unused 1900%N (db canary_world)
  | _ => false
  end.
Lemma executor_releases : released_fine executor = true.
Proof. vm_compute. reflexivity. Qed.
Lemma generator_releases : released_fine generator = true.
Proof. vm_compute. reflexivity. Qed.

Lemma released_spec p : released_fine p = true → ∃ r s,
  release_by p canary_world = (Ok r, s) ∧ Release.release_id r = 1900%N ∧
  Release.candidate_id r = 200%N ∧
  (∃ c, candidates (db (data s)) !! 200%N = Some c ∧
     CandidateVersion.generator_id c = uuid_str generator) ∧
  (∃ r', releases (db (data s)) !! 1900%N = Some r') ∧
  all_unused 1900%N (db canary_world) = true.
Proof.
  unfold released_fine. destruct (release_by p canary_world) as [[r|x] s]; [|done].
  intros [[[[Hk Hg]%andb_true_iff Hid]%andb_true_iff Hin]%andb_true_iff Hf]%andb_true_iff.
  apply bool_decide_eq_true in Hk, Hg, Hid. exists r, s.
  split; [reflexivity|]. split; [exact Hk|]. split; [exact Hid|]. split; [|split; [|exact Hf]]; clear Hf.
  - destruct (candidates (db (data s)) !! 200%N) as [c|]; [|discriminate Hg].
    injection Hg as Hg. by exists c.
  - destruct (releases _ !! _) as [r'|]; [by exists r'|discriminate Hin].
Qed.

#[local] Opaque canary_world.

Lemma ignore_result {S A} (m : M S A) e s a s' :
  m e s = (Ok a, s') → (m ;; mret tt) e s = (Ok tt, s').
Proof. unfold mbind, M_bind. by intros ->. Qed.

Lemma released_step p r s : release_by p canary_world = (Ok r, s) →
  all_unused 1900%N (db canary_world) = true →
  rtc (evo_step quantile_95 no_policy) start (data s).
Proof.
  intros Hr Hf. eapply rtc_r; [exact canary_world_reached|].
  eapply (EvoStep _ _ (principal p) (ReleaseStable 1600%N 200%N (Some the_promotion)) (env_of 19)
    canary_world 0 0 (Ok tt)); [exact I|exact I|..].
  - intros j. eapply all_unused_fresh; [exact Hf|]. cbn. lia.
  - cbn [run_operation]. by eapply ignore_result.
Qed.

Lemma no_policy_quiet : policy_quiet no_policy.
Proof. by intros f raw. Qed.
Lemma start_without_evolution : no_evolution (db start).
Proof. by split_and!. Qed.

Lemma generator_is_refused p c e (s : st (world unit)) :
  CandidateVersion.generator_id c = uuid_str p →
  (require_independent (principal p) c e s).1 =
    raise PermissionError "release execution requires an independent principal".
Proof.
  intros Hg. unfold require_independent. cbn [principal IdentityContext.principal_id]. rewrite Hg.
  unfold mem. rewrite bool_decide_true by apply list_elem_of_here. reflexivity.
Qed.

(** The generator of a candidate may release it: [release_stable] asks for no
    independent principal, unlike the shadow and the canary stage. *)
Theorem generator_may_release : ∃ w r s c,
  rtc (evo_step quantile_95 no_policy) start w ∧
  release_stable (principal generator) 1600%N 200%N (Some the_promotion) (env_of 19) (St w 0 0) =
    (Ok r, s) ∧
  candidates (db (data s)) !! Release.candidate_id r = Some c ∧
  CandidateVersion.generator_id c = uuid_str generator ∧
  (require_independent (principal generator) c (env_of 19) s).1 =
    raise PermissionError "release execution requires an independent principal".
Proof.
  destruct (released_spec _ generator_releases) as (r & s & Hr & _ & Hid & (c & Hc & Hg) & _ & _).
  exists canary_world, r, s, c. split; [exact canary_world_reached|]. split; [exact Hr|].
  rewrite Hid. split; [done|]. split; [done|].
  exact (generator_is_refused _ _ _ _ Hg).
Qed.

Lemma release_was_governed_witness : ∃ w r c,
  rtc (evo_step quantile_95 no_policy) start w ∧
  releases (db w) !! 1900%N = Some r ∧ candidates (db w) !! Release.candidate_id r = Some c ∧
  CandidateVersion.status c = CandidateStatus.APPROVED.
Proof.
  destruct (released_spec _ executor_releases) as (r0 & s & Hr & _ & _ & _ & (r & Hin) & Hf).
  pose proof (released_step _ _ _ Hr Hf) as Hs.
  destruct (release_was_governed _ _ _ _ _ _ no_policy_quiet start_without_evolution Hs Hin)
    as (x' & c & p & g & a & _ & _ & Hc & Hst & _).
  exists (data s), r, c. exact (conj Hs (conj Hin (conj Hc Hst))).
Defined.

Lemma promotion_needs_evidence_witness : ∃ r s x,
  release_by executor canary_world = (Ok r, s) ∧
  metric_observed (db canary_world) x the_promotion "latency_ms".
Proof.
  destruct (released_spec _ executor_releases) as (r & s & Hr & _).
  destruct (promotion_needs_evidence _ _ _ _ _ _ _ _ Hr)
    as (x & t & us & _ & _ & _ & _ & _ & _ & Hm & _).
  exists r, s, x. exact (conj Hr (Hm "latency_ms" (list_elem_of_here _ _))).
Defined.
