(* ===== verification/Activities.v ===== *)
(** * apps/worker: activities.py

    What the workflows of [Workflow] call.  An activity reads or changes the
    platform through the use cases of [GoalExecutionApplication] and of
    [CandidateLifecycleService], under a context that is a function of the
    operation and the Run: a retried activity presents the same idempotency
    keys.  [load_approval] is where a signal becomes authority, and
    [executed_run_was_approved] joins it to the workflow: a Run that needs an
    approval executes only if its store held one of that very Run.

    The planner, the executor, the candidate evaluator and the shadow runtime
    are plug-ins of the process: computations over the same world.  Heartbeats
    have no effect on it. *)

From stdpp Require Import relations.
From S2P Require Import Prelude PyStr PyDict PyFloat Json Sha256 Workflow WorkflowProofs.
From S2P Require Import Effects Transitions Values Goals Execution ExecutionObjects History.
From S2P Require Import Digests Identity Improvement EvaluationDomain Statistics ContextDomain.
From S2P Require Import AuditChain Verification Uuids Store Application RunCommands Machine.
From S2P Require Import MachineInvariant StoreLogic RunProofs ActionProofs Platform Evolution.
From Stdlib Require Import ZArith.

Open Scope string_scope.
Open Scope list_scope.
Open Scope Z_scope.

Module PreparedRunPlan.
Record t := mk {
  tasks : list TaskDefinition.t;
  skill_versions : list string;
  tool_versions : list string;
  model_route : string;
  policy_version : string
}.

(** [TaskDefinition("execute goal", "required Outcomes verified")] *)
Definition default_task : TaskDefinition.t :=
  TaskDefinition.mk "execute goal" "required Outcomes verified" [] []
    (BudgetAmount.mk 0 BudgetUnit.COST_UNITS) RiskLevel.L0_COMPUTE CompensationCapability.NONE [] None.

(** Without a planner. *)
Definition default : t :=
  mk [default_task] [] [] "configured-by-capability-pack" "development-policy@1".
End PreparedRunPlan.

Section activities.
Context {X : Type} (p : ports X).
Notation MW := (M (world X)).

(** [evolution]: whether a [CandidateLifecycleService] is configured. *)
Record dependencies := Dependencies {
  evolution : bool;
  planner : option (RunIdentityInput.t → MW PreparedRunPlan.t);
  executor : option (RunIdentityInput.t → Task.t → MW unit);
  candidate_evaluator : option (uuid → uuid → MW Trial.t);
  evaluation_policy : option RepeatedTrialPolicy.t;
  shadow_runtime : option (CandidateLifecycleService.shadow_runtime (X := X))
}.

(** [ApplicationError(..., non_retryable=True)] *)
Definition ApplicationError : exn_kind := OtherError "ApplicationError".

(** [_context] *)
Definition worker_context (tenant_id run_id operation : string) : res CommandContext.t :=
  correlation ← uuid_of_str run_id;
  tenant ← uuid_of_str tenant_id;
  CommandContext.new {|
    CommandContext.identity := IdentityContext.mk tenant 0%N 0%N ["worker"] (Some "temporal-worker")
                                 None "access";
    CommandContext.correlation_id := correlation;
    CommandContext.causation_id := correlation;
    CommandContext.idempotency_key := "temporal:" +:+ operation +:+ ":" +:+ run_id;
    CommandContext.request_digest := sha256_hex (operation +:+ String "010" run_id) |}.

(** [_worker_principal] *)
Definition worker_principal (duty tenant_id : string) : uuid :=
  uuid5 0%N (duty +:+ ":" +:+ tenant_id).

Section handlers.
Context (dep : dependencies).

Definition prepare_run (input : RunIdentityInput.t) : MW string :=
  let run_id := RunIdentityInput.run_id input in
  let tenant_id := RunIdentityInput.tenant_id input in
  prepared ← match planner dep with
             | Some prepare => prepare input
             | None => mret PreparedRunPlan.default
             end;
  context ← lift (worker_context tenant_id run_id "prepare-context");
  id ← lift (uuid_of_str run_id);
  prepare_run_context context {|
    PrepareRunContext.run_id := id;
    PrepareRunContext.environment_facts := [];
    PrepareRunContext.knowledge_refs := [];
    PrepareRunContext.memory_ids := [];
    PrepareRunContext.history_digest := "temporal:" +:+ run_id;
    PrepareRunContext.tool_versions := PreparedRunPlan.tool_versions prepared;
    PrepareRunContext.conflicts := [];
    PrepareRunContext.purpose := "run_context";
    PrepareRunContext.policy_version := "context-policy@1";
    PrepareRunContext.maximum_classification := DataClassification.INTERNAL;
    PrepareRunContext.allowed_subjects := [] |} ;;
  context ← lift (worker_context tenant_id run_id "create-plan");
  id ← lift (uuid_of_str run_id);
  create_validated_plan context {|
    CreateValidatedPlan.run_id := id;
    CreateValidatedPlan.tasks := PreparedRunPlan.tasks prepared;
    CreateValidatedPlan.skill_versions := PreparedRunPlan.skill_versions prepared;
    CreateValidatedPlan.tool_versions := PreparedRunPlan.tool_versions prepared;
    CreateValidatedPlan.model_route := PreparedRunPlan.model_route prepared;
    CreateValidatedPlan.policy_version := PreparedRunPlan.policy_version prepared |} ;;
  mret "planned".

(** [cancel_run] *)
Definition cancel_activity (input : RunIdentityInput.t) (reason : string) : MW string :=
  context ← lift (worker_context (RunIdentityInput.tenant_id input) (RunIdentityInput.run_id input)
                    "cancel");
  id ← lift (uuid_of_str (RunIdentityInput.run_id input));
  run ← cancel_run context (CancelRun.mk id reason);
  throw_if (negb (bool_decide (RunStatus.value (Run.status run) = "cancelled"))) ValueError
    "Application did not accept Run cancellation" ;;
  mret "cancelled".

(** [reject_run] *)
Definition reject_activity (input : RunIdentityInput.t) (reason : string) : MW string :=
  context ← lift (worker_context (RunIdentityInput.tenant_id input) (RunIdentityInput.run_id input)
                    "reject");
  id ← lift (uuid_of_str (RunIdentityInput.run_id input));
  run ← fail_run context (FailRun.mk id reason);
  throw_if (negb (bool_decide (RunStatus.value (Run.status run) = "failed"))) ValueError
    "Application did not accept Run rejection" ;;
  mret "rejected".

(** [take_over_run]: the reason is not used. *)
Definition take_over_activity (input : RunIdentityInput.t) (reason : string) : MW string :=
  tenant ← lift (uuid_of_str (RunIdentityInput.tenant_id input));
  id ← lift (uuid_of_str (RunIdentityInput.run_id input));
  run ← get_run tenant id;
  throw_if (negb (bool_decide (RunStatus.value (Run.status run) = "blocked"))) PermissionError
    "manual takeover must be authorized and persisted before signaling Workflow" ;;
  mret "taken_over".

Definition load_approval (input : ApprovalLookupInput.t) : MW ApprovalState.t :=
  tenant ← lift (uuid_of_str (ApprovalLookupInput.tenant_id input));
  id ← lift (uuid_of_str (ApprovalLookupInput.approval_id input));
  approval ← get_approval tenant id;
  run_id ← lift (uuid_of_str (ApprovalLookupInput.run_id input));
  throw_if (negb (bool_decide (ApprovalRequest.run_id approval = run_id))) PermissionError
    "Approval Signal does not belong to the Workflow Run" ;;
  mret (ApprovalState.mk (uuid_str (ApprovalRequest.approval_id approval))
          (ApprovalStatus.value (ApprovalRequest.status approval))).

(** One turn of the loop of [execute_run]. *)
Definition dispatch (input : RunIdentityInput.t) (task : Task.t) : MW unit :=
  task ←
    (if bool_decide (TaskStatus.value (Task.status task) = "pending") then
       context ← lift (worker_context (RunIdentityInput.tenant_id input) (RunIdentityInput.run_id input)
                         ("start-task:" +:+ uuid_str (Task.task_id task)));
       start_task context (StartTask.mk (Task.task_id task))
     else mret task);
  match executor dep with
  | Some execute =>
      if bool_decide (TaskStatus.value (Task.status task) = "running") then execute input task
      else mret tt
  | None => mret tt
  end.

Definition execute_run (input : RunIdentityInput.t) : MW string :=
  tenant ← lift (uuid_of_str (RunIdentityInput.tenant_id input));
  id ← lift (uuid_of_str (RunIdentityInput.run_id input));
  run ← get_run tenant id;
  if mem (Run.status run) [RunStatus.SUCCEEDED; RunStatus.FAILED; RunStatus.CANCELLED]
  then mret (RunStatus.value (Run.status run))
  else
    tasks ← list_tasks tenant id;
    for_each_m (dispatch input) tasks ;;
    mret "dispatched".

Definition evaluate_run (input : RunIdentityInput.t) : MW string :=
  let tenant_id := RunIdentityInput.tenant_id input in
  let run_id := RunIdentityInput.run_id input in
  run ← try_except
    (context ← lift (worker_context tenant_id run_id "complete-run");
     id ← lift (uuid_of_str run_id);
     complete_run context (CompleteRun.mk id))
    ValueError
    (fun _ =>
       tenant ← lift (uuid_of_str tenant_id);
       id ← lift (uuid_of_str run_id);
       get_run tenant id);
  (if bool_decide (RunStatus.value (Run.status run) = "succeeded") then
     context ← lift (worker_context tenant_id run_id "satisfy-goal");
     goal_id ← lift (uuid_of_str (RunIdentityInput.goal_id input));
     satisfy_or_fail_goal context
       (SatisfyOrFailGoal.mk goal_id true "verified Run satisfied Goal") ;;
     mret tt
   else mret tt) ;;
  mret (RunStatus.value (Run.status run)).

(** ** Candidates *)

Section evaluation.
Context (normal_quantile : float → float).

(** [RepeatedTrialPolicy(pass_threshold=0.8)] *)
Definition default_policy : RepeatedTrialPolicy.t :=
  RepeatedTrialPolicy.mk (of_decimal 8 (-1)) (of_decimal 95 (-2)) 10.

(** The attempts of [evaluate_candidate]: a Trial is run and persisted, and the
    evaluation completed with what there is. *)
Fixpoint evaluation_attempts (evaluate : uuid → uuid → MW Trial.t) (grader : IdentityContext.t)
    (candidate_id : uuid) (policy : RepeatedTrialPolicy.t) (attempts : nat) (last : string) : MW bool :=
  match attempts with
  | O => throw ApplicationError
           ("candidate evaluation evidence is incomplete after " +:+
            int_str (RepeatedTrialPolicy.min_valid_trials policy * 2) +:+ " attempts: " +:+ last)
  | S attempts =>
      trial ← evaluate (IdentityContext.tenant_id grader) candidate_id;
      trial ← lift (Trial.new (trial <| Trial.candidate_id := Some candidate_id |>));
      add_trial trial ;;
      ended ← try_except
        (x ← CandidateLifecycleService.complete_evaluation normal_quantile grader candidate_id policy;
         mret (inl (A := bool) (B := string)
           (bool_decide (CandidateVersion.status x.1 = CandidateStatus.AWAITING_APPROVAL))))
        ValueError (fun x => mret (inr (exn_msg x)));
      match ended with
      | inl accepted => mret accepted
      | inr last => evaluation_attempts evaluate grader candidate_id policy attempts last
      end
  end.

Definition evaluate_candidate (input : CandidateLifecycleInput.t) : MW bool :=
  let tenant := CandidateLifecycleInput.tenant_id input in
  let candidate := CandidateLifecycleInput.candidate_id input in
  tenant_id ← lift (uuid_of_str tenant);
  candidate_id ← lift (uuid_of_str candidate);
  match evolution dep, candidate_evaluator dep with
  | true, Some evaluate =>
      let policy := default default_policy (evaluation_policy dep) in
      CandidateLifecycleService.submit_for_evaluation tenant_id candidate_id ;;
      context ← lift (worker_context tenant candidate "evaluate-candidate");
      let identity := CommandContext.identity context in
      let grader := IdentityContext.mk (IdentityContext.tenant_id identity)
        (IdentityContext.actor_id identity) (worker_principal "grader" tenant) ["grader"]
        (IdentityContext.agent_id identity) (IdentityContext.subject identity)
        (IdentityContext.token_type identity) in
      evaluation_attempts evaluate grader candidate_id policy
        (Z.to_nat (RepeatedTrialPolicy.min_valid_trials policy * 2)) "no trial executed"
  | _, _ => throw ApplicationError "candidate evaluation is not configured; refusing synthetic pass"
  end.
End evaluation.

Definition promote_candidate (input : PromoteCandidateInput.t) : MW string :=
  if evolution dep then
    let tenant := PromoteCandidateInput.tenant_id input in
    tenant_id ← lift (uuid_of_str tenant);
    candidate_id ← lift (uuid_of_str (PromoteCandidateInput.candidate_id input));
    CandidateLifecycleService.begin_shadow
      (IdentityContext.mk tenant_id 0%N (worker_principal "release-executor" tenant)
         ["platform_admin"] (Some "temporal-release-executor") None "access") candidate_id ;;
    mret "shadow"
  else throw ApplicationError
    "candidate release service is not configured; refusing synthetic promotion".

Definition execute_shadow_pair (input : ShadowPairInput.t) : MW string :=
  match evolution dep, shadow_runtime dep with
  | true, Some runtime =>
      tenant_id ← lift (uuid_of_str (ShadowPairInput.tenant_id input));
      deployment_id ← lift (uuid_of_str (ShadowPairInput.deployment_id input));
      command ← lift (ExecuteShadowPair.new (ExecuteShadowPair.mk deployment_id
                        (ShadowPairInput.request_ref input) (ShadowPairInput.input_payload input)));
      comparison ← CandidateLifecycleService.execute_shadow_pair
        (IdentityContext.mk tenant_id 0%N 0%N ["shadow_executor"] (Some "temporal-shadow-worker")
           None "access") command runtime;
      mret (uuid_str (ShadowComparison.comparison_id comparison))
  | _, _ => throw ApplicationError
              "shadow execution runtime is not configured; refusing synthetic comparison"
  end.

Definition RELEASE_COMMAND_ACTIONS : list string :=
  ["enter_canary"; "release_stable"; "rollback_release"].

Definition execute_release_command (input : ReleaseCommandInput.t) : MW string :=
  let action := ReleaseCommandInput.action input in
  let tenant := ReleaseCommandInput.tenant_id input in
  throw_if (negb (evolution dep)) ApplicationError
    "release execution service is not configured; refusing synthetic release" ;;
  throw_if (negb (mem action RELEASE_COMMAND_ACTIONS)) ApplicationError
    ("unknown release command action: " +:+ action) ;;
  tenant_id ← lift (uuid_of_str tenant);
  let identity := IdentityContext.mk tenant_id 0%N (worker_principal "release-executor" tenant)
    ["release_executor"] (Some "temporal-release-executor") None "access" in
  if bool_decide (action = "enter_canary") then
    deployment_id ← lift (uuid_of_str (ReleaseCommandInput.deployment_id input));
    allocation ← lift (TrafficAllocation.new (TrafficAllocation.mk (ReleaseCommandInput.salt input)
                         (ReleaseCommandInput.candidate_percent input)));
    deployment ← CandidateLifecycleService.promote_to_canary identity deployment_id allocation;
    mret ("canary:" +:+ uuid_str (Deployment.deployment_id deployment))
  else if bool_decide (action = "release_stable") then
    deployment_id ← lift (uuid_of_str (ReleaseCommandInput.deployment_id input));
    version ← lift (uuid_of_str (ReleaseCommandInput.stable_version_id input));
    policy ← lift (PromotionPolicy.new (PromotionPolicy.mk (ReleaseCommandInput.min_samples input)
                     (ReleaseCommandInput.observation_seconds input)
                     (ReleaseCommandInput.required_metrics input)));
    release ← CandidateLifecycleService.release_stable identity deployment_id version (Some policy);
    mret ("stable:" +:+ uuid_str (Release.release_id release))
  else
    release_id ← lift (uuid_of_str (ReleaseCommandInput.release_id input));
    release ← CandidateLifecycleService.rollback identity release_id;
    mret ("rolled_back:" +:+ uuid_str (Release.release_id release)).
End handlers.
End activities.

(** ** From a signal to an approval *)

Section approvals.
Context {X : Type} (p : ports X).

(** What [load_approval] answers is stored. *)
Lemma run_load_approval input e (s : st (world X)) x s' : load_approval input e s = (Ok x, s') →
  ∃ id q, uuid_of_str (ApprovalLookupInput.approval_id input) = Ok id ∧
    uuid_of_str (ApprovalLookupInput.tenant_id input) = Ok (ApprovalRequest.tenant_id q) ∧
    uuid_of_str (ApprovalLookupInput.run_id input) = Ok (ApprovalRequest.run_id q) ∧
    approvals (db (data s)) !! id = Some q ∧
    ApprovalState.status x = ApprovalStatus.value (ApprovalRequest.status q) ∧ s' = s.
Proof.
  unfold load_approval, get_approval. intros H.
  apply run_bind in H as (t & s1 & Ht & H). apply run_lift in Ht as [Ht ->].
  apply run_bind in H as (id & s2 & Hid & H). apply run_lift in Hid as [Hid ->].
  apply run_bind in H as (q & s3 & Hq & H). apply run_bind in Hq as (d & s4 & Hd & Hq).
  apply run_query in Hd as [-> ->].
  destruct (approvals (db (data s)) !! id) as [q'|] eqn:Eq; [|done]. inv_run. bool_hyps. subst.
  exists id, q. by split_and!.
Qed.

Context (may_retrieve : EvidenceArtifactDescriptor.t → list Z → Prop)
  (may_observe : string → uuid → list SubjectRef.t → SuccessCriterion.t →
     AuthoritativeObservation.t → Prop)
  `{Hports : !PortsOk may_retrieve may_observe (fun _ => True) p} (w0 : world X)
  (Hok : store_ok may_retrieve may_observe (db w0)).

(** The answers to the approval lookups of a history are those of
    [load_approval], each in some reachable world. *)
Definition honest (h : list entry) : Prop := ∀ h1 i l x h2,
  h = h1 ++ Called (LoadApproval i) :: (Received <$> l) ++ Answered (Workflow.Approval x) :: h2 →
  ∃ w e n k s, reachable p w0 w ∧ load_approval i e (St w n k) = (Ok x, s).

(** C9. When a Run that requires approval is executed, some reachable world held an
    ApprovalRequest of that very tenant and Run that was APPROVED by as many distinct
    principals as it requires - provided the answers to the approval lookups are those
    of the load_approval activity. *)
Theorem executed_run_was_approved c events h1 i h2 :
  GoalRunInput.requires_approval c = true →
  history (snd (GoalRunWorkflow.run c (GoalRunWorkflow.start events))) = h1 ++ Called (ExecuteRun i) :: h2 →
  honest h1 →
  ∃ w k q, reachable p w0 w ∧ approvals (db w) !! k = Some q ∧
    uuid_of_str (GoalRunInput.tenant_id c) = Ok (ApprovalRequest.tenant_id q) ∧
    uuid_of_str (GoalRunInput.run_id c) = Ok (ApprovalRequest.run_id q) ∧
    ApprovalRequest.status q = ApprovalStatus.APPROVED ∧
    NoDup (ApprovalRequest.principals q) ∧
    Z.of_nat (length (ApprovalRequest.reviews q)) = ApprovalRequest.required_reviews q.
Proof.
  intros Hreq Hh Hhon. pose proof (run_fine c events) as H. unfold post in H.
  assert (Calls (governed c) (h1 ++ Called (ExecuteRun i) :: h2)) as Hc.
  { rewrite <- Hh. destruct (GoalRunWorkflow.run c _) as [o s]. destruct o; first [apply (calls_fine _ _ H)|apply (calls_fine _ _ (proj1 H))]. }
  destruct (Hc _ _ _ eq_refl) as (_ & _ & _ & Ha). rewrite Hreq in Ha.
  destruct Ha as (h0 & id & l & x & -> & Hst & _).
  destruct (Hhon h0 _ l x [] eq_refl) as (w & e & n & k & s & Hr & Hl).
  apply run_load_approval in Hl as (k' & q & _ & Ht & Hrun & Hq & E & _). rewrite Hst in E.
  assert (ApprovalRequest.status q = ApprovalStatus.APPROVED) as Hs by (by destruct (ApprovalRequest.status q)).
  destruct (approvals_decided _ _ _ (reachable_ok p may_retrieve may_observe w0 Hok w Hr) k' q Hq)
    as (q0 & Hq0 & Hd). destruct (decided_ok q0 q Hq0 Hd) as [_ Hnd _ _ _ Hfull].
  exists w, k', q. by split_and!; auto.
Qed.
End approvals.

(** ** The evaluation of a candidate *)

Section candidate.
Context {X : Type} (normal_quantile : float → float).

Lemma run_complete_evaluation identity id policy e (s : st (world X)) c r s' :
  CandidateLifecycleService.complete_evaluation normal_quantile identity id policy e s = (Ok (c, r), s') →
  candidates (db (data s')) !! CandidateVersion.candidate_id c = Some c ∧
  candidate_evaluations (db (data s')) !! CandidateEvaluation.evaluation_id r = Some r ∧
  CandidateEvaluation.candidate_id r = id ∧
  CandidateVersion.grader_principal_id c = Some (uuid_str (IdentityContext.principal_id identity)) ∧
  (CandidateVersion.status c = CandidateStatus.AWAITING_APPROVAL ∧ CandidateEvaluation.decision r = "met" ∨
   CandidateVersion.status c = CandidateStatus.REJECTED ∧ CandidateEvaluation.decision r = "not_met").
Proof.
  unfold CandidateLifecycleService.complete_evaluation. cbv zeta. intros H.
  apply run_bind in H as (c0 & s1 & Hc & H). apply run_fetch in Hc as (_ & _ & ->).
  apply run_bind in H as (trials & s2 & _ & H). apply run_bind in H as ([] & s3 & _ & H).
  apply run_bind in H as (a & s4 & Ha & H). apply run_bind in H as (u & s5 & _ & H).
  apply run_bind in H as (r0 & s6 & Hr & H). apply run_lift in Hr as [Hr ->].
  unfold CandidateEvaluation.new in Hr. apply then_ok in Hr as [_ [= <-]].
  set (r0 := CandidateEvaluation.mk _ _ _ _ _ _ _ _) in H.
  apply run_bind in H as ([] & s7 & Hadd & H). injection Hadd as <-.
  apply run_bind in H as (target & s8 & Htarget & H). apply run_lift in Htarget as [Htarget ->].
  apply run_bind in H as (time & s9 & Htime & H). injection Htime as <- <-.
  apply run_bind in H as (c1 & s10 & Hc & H). apply run_lift in Hc as [Hc ->].
  apply record_evaluation_ok in Hc as (_ & _ & _ & Hst & Hgr & _).
  apply run_bind in H as ([] & s11 & Hsave & H). injection Hsave as <-. injection H as <- <- <-.
  split; [apply dict_lookup_insert|]. split; [apply dict_lookup_insert|]. split_and!; [done..|].
  unfold CandidateLifecycleService.evaluation_target in Htarget. cbn. rewrite Hst.
  destruct (TrialConfidenceAssessment.decision a); [| |done]; injection Htarget as <-; auto.
Qed.
(** A candidate whose evaluation was completed for the grader. *)
Definition graded (grader : uuid) (id : uuid) (b : bool) (d : store) : Prop := ∃ c r,
  candidates d !! CandidateVersion.candidate_id c = Some c ∧
  candidate_evaluations d !! CandidateEvaluation.evaluation_id r = Some r ∧
  CandidateEvaluation.candidate_id r = id ∧
  CandidateVersion.grader_principal_id c = Some (uuid_str grader) ∧
  CandidateVersion.status c = (if b then CandidateStatus.AWAITING_APPROVAL else CandidateStatus.REJECTED) ∧
  CandidateEvaluation.decision r = if b then "met" else "not_met".

Lemma run_attempts evaluate grader id policy n last e (s : st (world X)) b s' :
  evaluation_attempts normal_quantile evaluate grader id policy n last e s = (Ok b, s') →
  graded (IdentityContext.principal_id grader) id b (db (data s')).
Proof.
  revert last s. induction n as [|n IH]; intros last s H; cbn [evaluation_attempts] in H; [done|].
  apply run_bind in H as (trial & s1 & _ & H). apply run_bind in H as (trial' & s2 & _ & H).
  apply run_bind in H as ([] & s3 & _ & H). apply run_bind in H as ([accepted|message] & s4 & Ht & H);
    [|by apply (IH message s4)].
  injection H as -> ->. unfold try_except in Ht.
  match type of Ht with match ?m with _ => _ end = _ => destruct m as [[o|x] s5] eqn:Eo end;
    [|by destruct (catches _ _)].
  injection Ht as -> ->. apply run_bind in Eo as ([c r] & s6 & Hc & Eo). injection Eo as <- <-.
  destruct (run_complete_evaluation _ _ _ _ _ _ _ _ Hc) as (H1 & H2 & H3 & H4 & [[H5 H6]|[H5 H6]]);
    exists c, r; cbn [fst]; rewrite H5; by split_and!.
Qed.

Theorem candidate_answer_is_graded dep input e (s : st (world X)) b s' :
  evaluate_candidate dep normal_quantile input e s = (Ok b, s') →
  evolution dep = true ∧ is_some (candidate_evaluator dep) = true ∧
  ∃ id, uuid_of_str (CandidateLifecycleInput.candidate_id input) = Ok id ∧
    graded (worker_principal "grader" (CandidateLifecycleInput.tenant_id input)) id b (db (data s')).
Proof.
  unfold evaluate_candidate. intros H.
  apply run_bind in H as (t & s1 & Ht & H). apply run_lift in Ht as [Ht ->].
  apply run_bind in H as (id & s2 & Hid & H). apply run_lift in Hid as [Hid ->].
  destruct (evolution dep); [|done]. destruct (candidate_evaluator dep) as [evaluate|]; [|done].
  apply run_bind in H as (c & s3 & _ & H). apply run_bind in H as (context & s4 & _ & H).
  split_and!; [done..|]. exists id. split; [done|]. by apply run_attempts in H.
Qed.
End candidate.

(** ** Samples *)

From S2P Require Import SamplePlatform EvolutionProofs.

(** The workflow of the sample's Run 300, whose approval 800 was given. *)
Definition the_run : GoalRunInput.t :=
  GoalRunInput.mk (uuid_str tenant_a) (uuid_str 100%N) (uuid_str 300%N) (of_int 900) true "low" 0 3.
Definition the_approval : ApprovalState.t := ApprovalState.mk (uuid_str 800%N) "approved".
Definition the_lookup : ApprovalLookupInput.t :=
  ApprovalLookupInput.mk (uuid_str tenant_a) (uuid_str 300%N) (uuid_str 800%N).
Definition the_events : list event :=
  [Answer (Text "planned"); Signals [ApprovalDecided (uuid_str 800%N)]; Answer (Workflow.Approval the_approval);
   Answer (Text "dispatched")].
Definition before_execution : list entry :=
  [Called (PrepareRun (GoalRunWorkflow.identity the_run)); Answered (Text "planned");
   Received (ApprovalDecided (uuid_str 800%N)); Called (LoadApproval the_lookup);
   Answered (Workflow.Approval the_approval)].

Lemma the_run_executes : ∃ rest, history (snd (GoalRunWorkflow.run the_run (GoalRunWorkflow.start the_events))) =
  before_execution ++ Called (ExecuteRun (GoalRunWorkflow.identity the_run)) :: rest.
Proof. eexists. vm_compute. reflexivity. Qed.

Definition loads (w : world unit) : bool :=
  match load_approval the_lookup (env_of 0) (St w 0 0) with
  | (Ok x, _) => bool_decide (ApprovalState.approval_id x = uuid_str 800%N) &&
                 bool_decide (ApprovalState.status x = "approved")
  | _ => false
  end.

Lemma script_loads : match play 1 script start with Some w => loads w | None => false end = true.
Proof. vm_compute. reflexivity. Qed.

Lemma before_execution_honest : honest the_ports start before_execution.
Proof.
  intros h1 i l x h2 E.
  assert (i = the_lookup ∧ x = the_approval) as [-> ->].
  { unfold before_execution in E. do 3 (destruct h1 as [|? h1]; [discriminate E|injection E as _ E]).
    destruct h1 as [|? h1].
    - injection E as <- E. split; [done|]. destruct l; [|discriminate E]. by injection E as <- _.
    - injection E as _ E. destruct h1 as [|? h1]; [discriminate E|injection E as _ E]. by destruct h1. }
  pose proof script_loads as H. destruct (play 1 script start) as [w|] eqn:Ep; [|discriminate H].
  unfold loads in H. destruct (load_approval _ _ _) as [[[a b]|x] s] eqn:El; [|discriminate H].
  cbv [ApprovalState.approval_id ApprovalState.status] in H. apply andb_true_iff in H as [Ha Hb].
  apply bool_decide_eq_true_1 in Ha, Hb. subst a b.
  exists w, (env_of 0), 0%nat, 0%nat, s. split; [eapply play_reachable; [apply rtc_refl|exact Ep]|].
  exact El.
Qed.

Lemma executed_run_was_approved_witness : ∃ (w : world unit) k q, approvals (db w) !! k = Some q ∧
  ApprovalRequest.status q = ApprovalStatus.APPROVED ∧ NoDup (ApprovalRequest.principals q).
Proof.
  destruct the_run_executes as [rest Hh].
  destruct (executed_run_was_approved the_ports the_document_only the_observation_only start start_ok
    the_run the_events _ _ _ eq_refl Hh before_execution_honest) as (w & k & q & _ & Hq & _ & _ & Hs & Hn & _).
  by exists w, k, q.
Defined.

(** The candidate 200 of the sample, evaluated by ten green Trials. *)
Definition registered : option (world unit) := evolve 1 (take 2 until_canary) start.
Definition green (t c : uuid) : M (world unit) Trial.t :=
  id ← uuid4; mret ((candidate_trial 1) <| Trial.trial_id := id |>).
Definition evaluator : dependencies (X := unit) := Dependencies true None None (Some green) (Some sample_policy) None.
Definition the_candidate : CandidateLifecycleInput.t := CandidateLifecycleInput.mk (uuid_str tenant_a) (uuid_str 200%N).

Lemma registered_is_accepted : match registered with
  | Some w => match evaluate_candidate evaluator quantile_95 the_candidate (env_of 9) (St w 0 0) with
              | (Ok b, _) => b
              | _ => false
              end
  | None => false
  end = true.
Proof. vm_compute. reflexivity. Qed.

Lemma candidate_answer_is_graded_witness : ∃ (w : world unit),
  graded (worker_principal "grader" (uuid_str tenant_a)) 200%N true (db w).
Proof.
  pose proof registered_is_accepted as H. destruct registered as [w|]; [|discriminate H].
  destruct (evaluate_candidate _ _ _ _ _) as [[b|x] s] eqn:E; [|discriminate H]. subst b.
  destruct (candidate_answer_is_graded quantile_95 _ _ _ _ _ _ E) as (_ & _ & id & Hid & Hg).
  replace (uuid_of_str _) with (Ok 200%N : res uuid) in Hid by (vm_compute; reflexivity).
  injection Hid as <-. by exists (data s).
Defined.
