(* ===== verification/EvolutionServices.v ===== *)
(** * packages/evolution: deployment.py, finops.py, slo.py, trials.py, replay.py

    The in-process services around the candidate lifecycle: a deployment
    pipeline with guardrails, cost tracking and budgets, error budgets and
    quantiles, repeated trials, replay and simulation.  A service object is the
    state of a computation; its methods read the clock and draw identifiers in
    the order of the source. *)

From S2P Require Import Prelude PyStr PyDict PyFloat Json Effects EvaluationDomain Execution.
From S2P Require Import Goals ContextDomain Transitions.
From Stdlib Require Import ZArith SpecFloat Sorted.

Open Scope string_scope.
Open Scope list_scope.
Open Scope Z_scope.

(** [d\[k\]] of a dictionary with UUID keys. *)
Definition item {S A} (d : dict uuid A) (k : uuid) : M S A :=
  match d !! k with
  | Some x => mret x
  | None => throw KeyError ("UUID('" +:+ uuid_str k +:+ "')")
  end.

(** ** deployment.py *)

Module DeploymentStage.
Inductive t := CANDIDATE | EVALUATING | SHADOW | CANARY | STABLE | ROLLED_BACK | FAILED.
#[global] Instance t_eq_dec : EqDecision t.
Proof. solve_decision. Defined.
End DeploymentStage.

Module TrafficSplit.
Inductive t := SHADOW | CANARY_5 | CANARY_10 | CANARY_25 | CANARY_50 | STABLE.
#[global] Instance t_eq_dec : EqDecision t.
Proof. solve_decision. Defined.
End TrafficSplit.

Module GuardrailThreshold.
Record t := mk {
  metric : string; operator : string; value : float; window_seconds : Z; consecutive_breaches : Z
}.

(** The condition of [check_guardrails]. *)
Definition breached (g : t) (x : float) : bool :=
  (bool_decide (operator g = "lt") && flt x (value g)) ||
  (bool_decide (operator g = "gt") && flt (value g) x) ||
  (bool_decide (operator g = "lte") && fle x (value g)) ||
  (bool_decide (operator g = "gte") && fle (value g) x).
End GuardrailThreshold.

Module GuardrailStatus.
Record t := mk {
  passed : bool; breached_metrics : list string; current_values : dict string float
}.
End GuardrailStatus.

Module ObservationWindow.
Record t := mk {
  stage : DeploymentStage.t; started_at : datetime; duration : Z; metrics_collected : Z
}.

Definition elapsed {S} (w : t) : M S Z := n ← now; lift (dt_sub n (started_at w)).
Definition is_complete {S} (w : t) : M S bool := x ← elapsed w; mret (duration w <=? x).
End ObservationWindow.

Module DeploymentRecord.
Record t := mk {
  deployment_id : uuid;
  candidate_id : uuid;
  stage : DeploymentStage.t;
  split : TrafficSplit.t;
  started_at : datetime;
  promoted_at : option datetime;
  rolled_back_at : option datetime;
  rollback_reason : string
}.
End DeploymentRecord.

Module DeploymentPipeline.
Import GuardrailThreshold.

(** Durations are in microseconds. *)
Record t := mk {
  guardrails : list GuardrailThreshold.t;
  shadow_duration : Z;
  canary_duration : Z;
  deployments : dict uuid DeploymentRecord.t;
  windows : dict uuid ObservationWindow.t;
  breach_counters : dict string Z
}.
#[global] Instance eta : Settable t := fun x =>
  mk (guardrails x) (shadow_duration x) (canary_duration x) (deployments x) (windows x)
    (breach_counters x).
Notation MP := (M t).

(** [__init__] *)
Definition init (guardrails : list GuardrailThreshold.t) (shadow canary : Z) : t :=
  mk guardrails shadow canary ∅ ∅ ∅.

Definition put_record (id : uuid) (x : DeploymentRecord.t) : MP unit :=
  modify (fun p => p <| deployments := <[id := x]> (deployments p) |>).
Definition put_window (id : uuid) (x : ObservationWindow.t) : MP unit :=
  modify (fun p => p <| windows := <[id := x]> (windows p) |>).

Definition get_deployment (id : uuid) : MP DeploymentRecord.t := p ← get; item (deployments p) id.
Definition get_window (id : uuid) : MP ObservationWindow.t := p ← get; item (windows p) id.

Definition promote_to_shadow (candidate_id : uuid) : MP DeploymentRecord.t :=
  id ← uuid4;
  t ← now;
  let record := DeploymentRecord.mk id candidate_id DeploymentStage.SHADOW TrafficSplit.SHADOW t
                  None None "" in
  put_record id record ;;
  p ← get;
  t ← now;
  put_window id (ObservationWindow.mk DeploymentStage.SHADOW t (shadow_duration p) 0) ;;
  mret record.

Definition promote_to_canary (id : uuid) (split : TrafficSplit.t) : MP DeploymentRecord.t :=
  record ← get_deployment id;
  t ← now;
  let record := DeploymentRecord.mk (DeploymentRecord.deployment_id record)
    (DeploymentRecord.candidate_id record) DeploymentStage.CANARY split
    (DeploymentRecord.started_at record) (Some t) None "" in
  put_record id record ;;
  p ← get;
  t ← now;
  put_window id (ObservationWindow.mk DeploymentStage.CANARY t (canary_duration p) 0) ;;
  mret record.

Definition promote_to_stable (id : uuid) : MP DeploymentRecord.t :=
  record ← get_deployment id;
  t ← now;
  let record := DeploymentRecord.mk (DeploymentRecord.deployment_id record)
    (DeploymentRecord.candidate_id record) DeploymentStage.STABLE TrafficSplit.STABLE
    (DeploymentRecord.started_at record) (Some t) None "" in
  put_record id record ;;
  mret record.

Definition rollback (id : uuid) (reason : string) : MP DeploymentRecord.t :=
  record ← get_deployment id;
  t ← now;
  let record := DeploymentRecord.mk (DeploymentRecord.deployment_id record)
    (DeploymentRecord.candidate_id record) DeploymentStage.ROLLED_BACK
    (DeploymentRecord.split record) (DeploymentRecord.started_at record) None (Some t) reason in
  put_record id record ;;
  mret record.

(** One guardrail: the counters and the metrics in breach so far. *)
Definition check_one (metrics : dict string float) (acc : dict string Z * list string)
    (g : GuardrailThreshold.t) : dict string Z * list string :=
  let '(counters, breaches) := acc in
  match metrics !! metric g with
  | None => (<[metric g := 0]> counters, breaches)
  | Some x =>
      if breached g x then
        let n := default 0 (counters !! metric g) + 1 in
        (<[metric g := n]> counters,
         if consecutive_breaches g <=? n then breaches ++ [metric g] else breaches)
      else (<[metric g := 0]> counters, breaches)
  end.

(** The deployment is not looked at. *)
Definition check_guardrails (id : uuid) (metrics : dict string float) : MP GuardrailStatus.t :=
  p ← get;
  let '(counters, breaches) := foldl (check_one metrics) (breach_counters p, []) (guardrails p) in
  modify (fun p => p <| breach_counters := counters |>) ;;
  mret (GuardrailStatus.mk (Nat.eqb (length breaches) 0) breaches metrics).

Definition auto_rollback_if_breached (id : uuid) (metrics : dict string float)
    : MP (option DeploymentRecord.t) :=
  status ← check_guardrails id metrics;
  if negb (GuardrailStatus.passed status) then
    record ← rollback id ("guardrail breach: " +:+ join ", " (GuardrailStatus.breached_metrics status));
    mret (Some record)
  else mret None.

(** *** What the counters count *)

(** The last [length] checks, newest first, that breached the guardrail. *)
Fixpoint streak (g : GuardrailThreshold.t) (newest_first : list (dict string float)) : Z :=
  match newest_first with
  | [] => 0
  | m :: past =>
      match m !! metric g with
      | Some x => if breached g x then streak g past + 1 else 0
      | None => 0
      end
  end.

(** A guardrail fires when it is in breach, for the required number of checks in a row. *)
Definition fires (newest_first : list (dict string float)) (g : GuardrailThreshold.t) : bool :=
  (0 <? streak g newest_first) && (consecutive_breaches g <=? streak g newest_first).

Definition counts (past : list (dict string float)) (counters : dict string Z)
    (g : GuardrailThreshold.t) : Prop := default 0 (counters !! metric g) = streak g past.

Lemma streak_nonneg g past : 0 <= streak g past.
Proof. induction past as [|m past IH]; cbn; [done|]. repeat case_match; lia. Qed.

Lemma check_one_counts m past g counters breaches : counts past counters g →
  let '(counters', breaches') := check_one m (counters, breaches) g in
  counts (m :: past) counters' g ∧
  (∀ k, k ≠ metric g → counters' !! k = counters !! k) ∧
  breaches' = breaches ++ (metric <$> List.filter (fires (m :: past)) [g]).
Proof.
  unfold counts, check_one, fires. intros Hc. cbn [streak List.filter].
  pose proof (streak_nonneg g past) as Hn.
  destruct (m !! metric g) as [x|]; [destruct (breached g x)|].
  - rewrite dict_lookup_insert, Hc. split; [done|]. split; [intros k Hk; by rewrite dict_lookup_insert_ne|].
    rewrite (proj2 (Z.ltb_lt 0 (streak g past + 1))) by lia. cbn. case_match; [done|by rewrite app_nil_r].
  - rewrite dict_lookup_insert. split; [done|]. split; [intros k Hk; by rewrite dict_lookup_insert_ne|].
    cbn. by rewrite app_nil_r.
  - rewrite dict_lookup_insert. split; [done|]. split; [intros k Hk; by rewrite dict_lookup_insert_ne|].
    cbn. by rewrite app_nil_r.
Qed.

Lemma checks_count m past gs counters breaches : NoDup (metric <$> gs) → Forall (counts past counters) gs →
  let '(counters', breaches') := foldl (check_one m) (counters, breaches) gs in
  Forall (counts (m :: past) counters') gs ∧
  (∀ k, k ∉ metric <$> gs → counters' !! k = counters !! k) ∧
  breaches' = breaches ++ (metric <$> List.filter (fires (m :: past)) gs).
Proof.
  revert counters breaches. induction gs as [|g gs IH]; intros counters breaches Hd Hc.
  { cbn. by rewrite app_nil_r. }
  cbn [foldl]. apply NoDup_cons in Hd as [Hg Hd]. apply Forall_cons in Hc as [Hcg Hc].
  pose proof (check_one_counts m past g counters breaches Hcg) as H1.
  destruct (check_one m (counters, breaches) g) as [c1 b1]. destruct H1 as (H1 & Hk & ->).
  assert (Forall (counts past c1) gs) as Hc1.
  { apply Forall_forall. intros h Hh. unfold counts. rewrite Hk.
    - rewrite Forall_forall in Hc. by apply Hc.
    - intros E. apply Hg. rewrite <- E. by apply list_elem_of_fmap_2. }
  specialize (IH c1 (breaches ++ (metric <$> List.filter (fires (m :: past)) [g])) Hd Hc1).
  destruct (foldl _ _ _) as [c2 b2]. destruct IH as (H2 & Hk2 & ->). split_and!.
  - apply Forall_cons. split; [|done]. unfold counts. rewrite Hk2; [exact H1|done].
  - intros k Hk'. rewrite fmap_cons, not_elem_of_cons in Hk'. destruct Hk' as [Hne Hk'].
    by rewrite Hk2, Hk by done.
  - rewrite <- app_assoc. f_equal. cbn [List.filter]. by case_match.
Qed.

Lemma check_run past id m e (s : st t) :
  NoDup (metric <$> guardrails (data s)) →
  Forall (counts past (breach_counters (data s))) (guardrails (data s)) →
  ∃ s', check_guardrails id m e s = (Ok (GuardrailStatus.mk
      (Nat.eqb (length (List.filter (fires (m :: past)) (guardrails (data s)))) 0)
      (metric <$> List.filter (fires (m :: past)) (guardrails (data s))) m), s') ∧
    guardrails (data s') = guardrails (data s) ∧
    Forall (counts (m :: past) (breach_counters (data s'))) (guardrails (data s')).
Proof.
  intros Hd Hc. pose proof (checks_count m past _ _ [] Hd Hc) as H.
  unfold check_guardrails, mbind, M_bind, get, modify, mret, M_ret.
  destruct (foldl _ _ _) as [c b]. destruct H as (H & _ & ->). cbn [app].
  eexists. split; [by rewrite length_fmap|]. by split.
Qed.

Lemma checks_run past before id m e (s : st t) :
  NoDup (metric <$> guardrails (data s)) →
  Forall (counts past (breach_counters (data s))) (guardrails (data s)) →
  let fired := List.filter (fires (m :: rev before.*2 ++ past)) (guardrails (data s)) in
  ∃ statuses s', mapM_m (fun c => check_guardrails c.1 c.2) (before ++ [(id, m)]) e s =
    (Ok (statuses ++ [GuardrailStatus.mk (Nat.eqb (length fired) 0) (metric <$> fired) m]), s').
Proof.
  revert past s. induction before as [|[id' m'] before IH]; intros past s Hd Hc; cbn [app mapM_m].
  - destruct (check_run past id m e s Hd Hc) as (s' & Hr & _ & _). exists [], s'.
    unfold mbind, M_bind. cbn [fst snd]. by rewrite Hr.
  - destruct (check_run past id' m' e s Hd Hc) as (s1 & Hr & Eg & Hc1).
    rewrite <- Eg in Hd. destruct (IH _ _ Hd Hc1) as (statuses & s2 & Hrest). rewrite Eg in Hrest.
    cbn [fmap list_fmap rev snd]. rewrite <- app_assoc. cbn [app].
    eexists (_ :: statuses), s2. unfold mbind, M_bind in *. cbn [fst snd]. rewrite Hr.
    rewrite Hrest. cbn. reflexivity.
Qed.

Theorem guardrails_count_streaks guardrails shadow canary before id m e n k :
  NoDup (metric <$> guardrails) →
  let fired := List.filter (fires (m :: rev before.*2)) guardrails in
  ∃ statuses s', mapM_m (fun c => check_guardrails c.1 c.2) (before ++ [(id, m)]) e
      (St (init guardrails shadow canary) n k) =
    (Ok (statuses ++ [GuardrailStatus.mk (Nat.eqb (length fired) 0) (metric <$> fired) m]), s').
Proof.
  intros Hd. destruct (checks_run [] before id m e (St (init guardrails shadow canary) n k)) as (l & s' & H).
  - done.
  - by apply Forall_true.
  - exists l, s'. by rewrite app_nil_r in H.
Qed.

Definition latency : GuardrailThreshold.t :=
  GuardrailThreshold.mk "latency_ms" "gt" (of_int 200) 300 2.
Definition slow : dict string float := dict_of_list [("latency_ms", of_int 250)].

Lemma guardrails_count_streaks_witness : ∃ statuses s',
  mapM_m (fun c => check_guardrails c.1 c.2) [(1%N, slow); (2%N, slow)]
    (Env (fun _ => Aware 0) (fun _ => 0%N)) (St (init [latency] 900 1800) 0 0) =
  (Ok (statuses ++ [GuardrailStatus.mk false ["latency_ms"] slow]), s').
Proof.
  apply (guardrails_count_streaks [latency] 900 1800 [(1%N, slow)] 2%N slow).
  by apply NoDup_singleton.
Defined.

(** One bad check of each of two deployments is a streak of two: the second is
    rolled back for the first one's breach. *)
Example streaks_are_shared :
  let e := Env (fun _ => Aware 0) (fun i => N.of_nat i) in
  match (a ← promote_to_shadow 7%N; b ← promote_to_shadow 8%N;
         first ← auto_rollback_if_breached (DeploymentRecord.deployment_id a) slow;
         second ← auto_rollback_if_breached (DeploymentRecord.deployment_id b) slow;
         mret (first, DeploymentRecord.stage <$> second)) e (St (init [latency] 900 1800) 0 0) with
  | (Ok x, _) => x = (None, Some DeploymentStage.ROLLED_BACK)
  | _ => False
  end.
Proof. vm_compute. reflexivity. Qed.

(** Nothing keeps a deployment that was rolled back, or one whose window is
    still open, from becoming stable. *)
Lemma anything_becomes_stable id x e (s : st t) : deployments (data s) !! id = Some x →
  ∃ r s', promote_to_stable id e s = (Ok r, s') ∧ DeploymentRecord.stage r = DeploymentStage.STABLE ∧
    deployments (data s') !! id = Some r.
Proof.
  intros Hx. unfold promote_to_stable, get_deployment, item, mbind, M_bind, get. cbn. rewrite Hx. cbn.
  eexists _, _. split; [reflexivity|]. split; [done|]. cbn. apply dict_lookup_insert.
Qed.
End DeploymentPipeline.

(** ** finops.py *)

Module CostCategory.
Inductive t := MODEL_TOKEN | TOOL_EXECUTION | SANDBOX_TIME | APPROVAL_WAIT | RETRY_WASTE.
#[global] Instance t_eq_dec : EqDecision t.
Proof. solve_decision. Defined.
(** [for c in CostCategory] *)
Definition all : list t := [MODEL_TOKEN; TOOL_EXECUTION; SANDBOX_TIME; APPROVAL_WAIT; RETRY_WASTE].
End CostCategory.

Module CostEntry.
Record t := mk {
  entry_id : uuid;
  category : CostCategory.t;
  amount : float;
  currency : string;
  description : string;
  run_id : uuid;
  action_id : option uuid;
  recorded_at : datetime
}.
End CostEntry.

Module GoalCostSummary.
Record t := mk {
  goal_id : uuid;
  total_cost : float;
  model_tokens : float;
  tool_executions : float;
  sandbox_time : float;
  approval_wait : float;
  retry_waste : float;
  run_count : Z;
  verified_outcome : bool;
  computed_at : datetime
}.

Definition cost_per_verified_outcome (x : t) : option float :=
  if negb (verified_outcome x) || (run_count x =? 0) then None
  else Some (fdiv (total_cost x) (of_int (run_count x))).
End GoalCostSummary.

Module CostTracker.
(** [goal_runs]: a set of runs per goal, here without repetition. *)
Record t := mk { entries : list CostEntry.t; goal_runs : dict uuid (list uuid) }.
#[global] Instance eta : Settable t := fun x => mk (entries x) (goal_runs x).
Definition init : t := mk [] ∅.

Definition record (entry : CostEntry.t) (x : t) : t := x <| entries := entries x ++ [entry] |>.

Definition link_run_to_goal (goal_id run_id : uuid) (x : t) : t :=
  let runs := default [] (goal_runs x !! goal_id) in
  x <| goal_runs := <[goal_id := if mem run_id runs then runs else runs ++ [run_id]]> (goal_runs x) |>.

(** The entries of the goal's runs. *)
Definition goal_entries (x : t) (goal_id : uuid) : list CostEntry.t :=
  List.filter (fun e => mem (CostEntry.run_id e) (default [] (goal_runs x !! goal_id))) (entries x).

(** [by_cat\[e.category\] += e.amount], from a zero for every category. *)
Definition by_category (l : list CostEntry.t) : dict CostCategory.t float :=
  foldl (fun d e => <[CostEntry.category e :=
                       fadd (default fzero (d !! CostEntry.category e)) (CostEntry.amount e)]> d)
    (dict_of_list ((fun c => (c, fzero)) <$> CostCategory.all)) l.

Definition summarize_goal {S} (x : t) (goal_id : uuid) : M S GoalCostSummary.t :=
  let l := goal_entries x goal_id in
  let by_cat := by_category l in
  let at_ c := default fzero (by_cat !! c) in
  t ← now;
  mret (GoalCostSummary.mk goal_id (float_sum (values by_cat)) (at_ CostCategory.MODEL_TOKEN)
    (at_ CostCategory.TOOL_EXECUTION) (at_ CostCategory.SANDBOX_TIME)
    (at_ CostCategory.APPROVAL_WAIT) (at_ CostCategory.RETRY_WASTE)
    (Z.of_nat (length (remove_dups (CostEntry.run_id <$> l)))) false t).

Definition budget_remaining {S} (x : t) (goal_id : uuid) (budget_limit : float) : M S (float * bool) :=
  summary ← summarize_goal x goal_id;
  let remaining := fsub budget_limit (GoalCostSummary.total_cost summary) in
  mret (remaining, flt fzero remaining).

(** [BudgetEnforcer.check_action] *)
Definition check_action {S} (x : t) (goal_id : uuid) (estimated_cost budget_limit : float)
    : M S (bool * string) :=
  r ← budget_remaining x goal_id budget_limit;
  let '(remaining, ok) := (r : float * bool) in
  if negb ok then mret (false, "budget exhausted: " +:+ float_fixed 2 remaining +:+ " remaining")
  else if flt remaining estimated_cost then
    mret (false, "estimated cost " +:+ float_fixed 2 estimated_cost +:+ " exceeds remaining " +:+
                 float_fixed 2 remaining)
  else mret (true, "ok").

(** *** What the summary sums *)

(** The entries of a category in the order they were recorded. *)
Definition spent (l : list CostEntry.t) (c : CostCategory.t) : float :=
  foldl fadd fzero (CostEntry.amount <$>
    List.filter (fun e => bool_decide (CostEntry.category e = c)) l).

Lemma in_all c : c ∈ CostCategory.all.
Proof. destruct c; cbn; set_solver. Qed.

Lemma by_category_snoc l e : by_category (l ++ [e]) = <[CostEntry.category e :=
  fadd (default fzero (by_category l !! CostEntry.category e)) (CostEntry.amount e)]> (by_category l).
Proof. unfold by_category. by rewrite foldl_app. Qed.

Lemma spent_snoc l e c : spent (l ++ [e]) c =
  if bool_decide (CostEntry.category e = c) then fadd (spent l c) (CostEntry.amount e) else spent l c.
Proof.
  unfold spent. rewrite List.filter_app, fmap_app, foldl_app. cbn [List.filter]. by case_bool_decide.
Qed.

Lemma by_category_spent l : by_category l = Dict ((fun c => (c, spent l c)) <$> CostCategory.all).
Proof.
  induction l as [|e l IH] using rev_ind; [reflexivity|]. rewrite by_category_snoc, IH.
  cbn [CostCategory.all fmap list_fmap]. rewrite !spent_snoc.
  by destruct (CostEntry.category e).
Qed.

(** What a goal has cost: the compensated sum of the five categories. *)
Definition bill (x : t) (goal_id : uuid) : float :=
  float_sum (spent (goal_entries x goal_id) <$> CostCategory.all).

Lemma by_category_values l : values (by_category l) = spent l <$> CostCategory.all.
Proof. by rewrite by_category_spent. Qed.
Lemma by_category_lookup l c : by_category l !! c = Some (spent l c).
Proof. rewrite by_category_spent. by destruct c. Qed.

Lemma summarize_run {S} x goal_id e (s : st S) : ∃ t runs s',
  summarize_goal x goal_id e s = (Ok (GoalCostSummary.mk goal_id (bill x goal_id)
    (spent (goal_entries x goal_id) CostCategory.MODEL_TOKEN)
    (spent (goal_entries x goal_id) CostCategory.TOOL_EXECUTION)
    (spent (goal_entries x goal_id) CostCategory.SANDBOX_TIME)
    (spent (goal_entries x goal_id) CostCategory.APPROVAL_WAIT)
    (spent (goal_entries x goal_id) CostCategory.RETRY_WASTE) runs false t), s').
Proof.
  unfold summarize_goal, bill. cbv zeta. rewrite by_category_values, !by_category_lookup.
  by eexists _, _, _.
Qed.

Theorem budget_gate_reads_the_bill {S} x goal_id cost limit e (s : st S) :
  let left_ := fsub limit (bill x goal_id) in
  (∃ summary s', summarize_goal x goal_id e s = (Ok summary, s') ∧
     GoalCostSummary.total_cost summary = bill x goal_id ∧
     GoalCostSummary.model_tokens summary = spent (goal_entries x goal_id) CostCategory.MODEL_TOKEN ∧
     GoalCostSummary.cost_per_verified_outcome summary = None) ∧
  ∃ why s', check_action x goal_id cost limit e s = (Ok (flt fzero left_ && negb (flt left_ cost), why), s').
Proof.
  cbv zeta. destruct (summarize_run x goal_id e s) as (t & n & s' & Hs).
  unfold check_action, budget_remaining, mbind, M_bind, mret, M_ret. rewrite Hs.
  cbn [GoalCostSummary.total_cost]. split; [by eexists _, _|].
  generalize (bill x goal_id) as b. intros b.
  destruct (flt fzero _); cbn [negb andb]; [|by eexists _, _].
  destruct (flt _ cost); by eexists _, _.
Qed.
End CostTracker.

(** ** slo.py *)

Module SLI.
Inductive t := OUTCOME_SUCCESS_RATE | ACTION_SUCCESS_RATE | ACTION_UNKNOWN_RATE
  | APPROVAL_LATENCY_P50 | APPROVAL_LATENCY_P95 | ROLLBACK_RATE | DUPLICATE_SIDE_EFFECT_RATE.
#[global] Instance t_eq_dec : EqDecision t.
Proof. solve_decision. Defined.
End SLI.

Module SLOTarget.
Record t := mk { sli : SLI.t; target : float; window : Z; operator : string }.
End SLOTarget.

Module SLOMeasurement.
Record t := mk {
  sli : SLI.t; value : float; window_start : datetime; window_end : datetime; sample_count : Z;
  recorded_at : datetime
}.
End SLOMeasurement.

Module ErrorBudget.
Record t := mk {
  sli : SLI.t; total_budget : float; consumed : float; remaining : float; exhausted : bool
}.
End ErrorBudget.

Module SLORegistry.
(** [_measurements] has a list for every indicator: here the recorded
    measurements, in order. *)
Record t := mk { targets : dict SLI.t SLOTarget.t; measurements : list SLOMeasurement.t }.
#[global] Instance eta : Settable t := fun x => mk (targets x) (measurements x).

Definition init (targets : list SLOTarget.t) : t :=
  mk (dict_of_list ((fun x => (SLOTarget.sli x, x)) <$> targets)) [].

Definition record (m : SLOMeasurement.t) (x : t) : t := x <| measurements := measurements x ++ [m] |>.

Definition measured (x : t) (sli : SLI.t) : list SLOMeasurement.t :=
  List.filter (fun m => bool_decide (SLOMeasurement.sli m = sli)) (measurements x).

(** The measurements whose window starts in the target's window. *)
Fixpoint recent (start : datetime) (l : list SLOMeasurement.t) : res (list SLOMeasurement.t) :=
  match l with
  | [] => Ok []
  | m :: l =>
      b ← dt_ge (SLOMeasurement.window_start m) start;
      rest ← recent start l;
      Ok (if b : bool then m :: rest else rest)
  end.

Definition weight (m : SLOMeasurement.t) : Z := Z.max (SLOMeasurement.sample_count m) 0.
Definition total_samples (l : list SLOMeasurement.t) : Z := foldl Z.add 0 (weight <$> l).
Definition weighted_value (l : list SLOMeasurement.t) : float :=
  fdiv (float_sum ((fun m => fmul (SLOMeasurement.value m) (of_int (weight m))) <$> l))
    (of_int (total_samples l)).

(** The amount by which a value misses the target. *)
Definition shortfall (target : SLOTarget.t) (value : float) : float :=
  if bool_decide (SLOTarget.operator target = "gte")
  then fmax fzero (fsub (SLOTarget.target target) value)
  else fmax fzero (fsub value (SLOTarget.target target)).

Definition compute_budget {S} (x : t) (sli : SLI.t) (at_ : option datetime) : M S ErrorBudget.t :=
  n ← match at_ with Some t => mret t | None => now end;
  match targets x !! sli with
  | None => mret (ErrorBudget.mk sli fzero fzero fzero true)
  | Some target =>
      l ← lift (recent (dt_add n (- SLOTarget.window target)) (measured x sli));
      let total_budget := fsub (of_int 1) (SLOTarget.target target) in
      if bool_decide (l = []) || (total_samples l =? 0)
      then mret (ErrorBudget.mk sli total_budget fzero total_budget false)
      else
        let consumed := fmin (shortfall target (weighted_value l)) (of_int 1) in
        let remaining := fmax fzero (fsub total_budget consumed) in
        mret (ErrorBudget.mk sli total_budget consumed remaining (fle remaining fzero))
  end.

Definition all_budgets {S} (x : t) : M S (list ErrorBudget.t) :=
  mapM_m (fun sli => compute_budget x sli None) (keys (targets x)).

Lemma fmax_nonneg a : fle fzero (fmax fzero a) = true.
Proof. unfold fmax. destruct (flt fzero a) eqn:E; [by apply flt_fle|reflexivity]. Qed.

Lemma fmax_exhausted a : fle (fmax fzero a) fzero = negb (flt fzero a).
Proof. unfold fmax. destruct (flt fzero a) eqn:E; [by apply flt_not_fle|reflexivity]. Qed.

Theorem budget_exhausted_by_shortfall {S} x sli target n l e (s : st S) :
  targets x !! sli = Some target →
  recent (dt_add n (- SLOTarget.window target)) (measured x sli) = Ok l →
  0 < total_samples l →
  let total := fsub (of_int 1) (SLOTarget.target target) in
  let spent := fmin (shortfall target (weighted_value l)) (of_int 1) in
  ∃ b, compute_budget x sli (Some n) e s = (Ok b, s) ∧
    ErrorBudget.total_budget b = total ∧ ErrorBudget.consumed b = spent ∧
    fle fzero (ErrorBudget.remaining b) = true ∧
    ErrorBudget.exhausted b = negb (flt fzero (fsub total spent)).
Proof.
  intros Ht Hl Hn. unfold compute_budget, mbind, M_bind, mret, M_ret, lift. rewrite Ht, Hl.
  rewrite bool_decide_eq_false_2 by (by intros ->). rewrite (proj2 (Z.eqb_neq _ _)) by lia. cbn [orb].
  eexists. split; [reflexivity|]. cbn [ErrorBudget.total_budget ErrorBudget.consumed ErrorBudget.remaining ErrorBudget.exhausted].
  split_and!; [done|done|apply fmax_nonneg|apply fmax_exhausted].
Qed.

Definition measurement (sli : SLI.t) (value : float) : SLOMeasurement.t :=
  SLOMeasurement.mk sli value (Aware (seconds 50)) (Aware (seconds 60)) 100 (Aware (seconds 60)).
Definition rollback_target : SLOTarget.t := SLOTarget.mk SLI.ROLLBACK_RATE (of_decimal 1 (-2)) (seconds 100) "lte".
Definition latency_target : SLOTarget.t := SLOTarget.mk SLI.APPROVAL_LATENCY_P95 (of_int 2) (seconds 100) "lte".
Definition sample : t :=
  record (measurement SLI.APPROVAL_LATENCY_P95 (of_int 1))
    (record (measurement SLI.ROLLBACK_RATE (of_decimal 9 (-1))) (init [rollback_target; latency_target])).

Lemma budget_exhausted_by_shortfall_witness : ∃ b,
  compute_budget (S := unit) sample SLI.ROLLBACK_RATE (Some (Aware (seconds 100)))
    (Env (fun _ => Aware 0) (fun _ => 0%N)) (St tt 0 0) = (Ok b, St tt 0 0) ∧ ErrorBudget.exhausted b = false.
Proof.
  destruct (budget_exhausted_by_shortfall sample SLI.ROLLBACK_RATE rollback_target (Aware (seconds 100))
    [measurement SLI.ROLLBACK_RATE (of_decimal 9 (-1))] (Env (fun _ => Aware 0) (fun _ => 0%N)) (St tt 0 0))
    as (b & Hb & _ & _ & _ & He); [vm_compute; reflexivity..|].
  exists b. split; [exact Hb|]. rewrite He. vm_compute. reflexivity.
Defined.

(** At most one rollback in a hundred is the target: with ninety the budget is
    not exhausted.  At most two seconds is the target: with one it is. *)
Example lte_budgets :
  let budget sli := match compute_budget (S := unit) sample sli (Some (Aware (seconds 100)))
      (Env (fun _ => Aware 0) (fun _ => 0%N)) (St tt 0 0) with
    | (Ok b, _) => Some (ErrorBudget.exhausted b)
    | _ => None
    end in
  budget SLI.ROLLBACK_RATE = Some false ∧ budget SLI.APPROVAL_LATENCY_P95 = Some true.
Proof. split; vm_compute; reflexivity. Qed.
End SLORegistry.

Module QuantileReport.
Record t := mk {
  metric : string; count : Z; min : float; max : float; mean : float; median : float;
  p90 : float; p95 : float; p99 : float
}.
End QuantileReport.

(** [sorted(values)], for values that are numbers. *)
Fixpoint insert_sorted (x : float) (l : list float) : list float :=
  match l with
  | [] => [x]
  | y :: l' => if flt x y then x :: l else y :: insert_sorted x l'
  end.
Definition sorted_floats (l : list float) : list float := foldl (fun acc x => insert_sorted x acc) [] l.

(** [int(x)] of a float. *)
Definition truncate (x : float) : res Z :=
  match x with
  | S754_zero _ => Ok 0
  | S754_finite neg p e =>
      let n := if 0 <=? e then Zpos p * 2 ^ e else Zpos p / 2 ^ (- e) in
      Ok (if neg then - n else n)
  | S754_infinity _ => raise (OtherError "OverflowError") "cannot convert float infinity to integer"
  | S754_nan => raise ValueError "cannot convert float NaN to integer"
  end.

Module QuantileCalculator.
(** [pct(p)] *)
Definition pct (sorted_vals : list float) (p : Z) : res float :=
  let n := Z.of_nat (length sorted_vals) in
  idx ← truncate (of_ratio (n * p) 100);
  Ok (nth (Z.to_nat (Z.min idx (n - 1))) sorted_vals fzero).

Definition compute (values : list float) (metric : string) : res QuantileReport.t :=
  if bool_decide (values = []) then
    Ok (QuantileReport.mk metric 0 fzero fzero fzero fzero fzero fzero fzero)
  else
    let sorted_vals := sorted_floats values in
    let n := Z.of_nat (length sorted_vals) in
    let mean := fdiv (float_sum sorted_vals) (of_int n) in
    median ← pct sorted_vals 50;
    p90 ← pct sorted_vals 90;
    p95 ← pct sorted_vals 95;
    p99 ← pct sorted_vals 99;
    Ok (QuantileReport.mk metric n (nth 0 sorted_vals fzero) (List.last sorted_vals fzero)
          mean median p90 p95 p99).

(** *** Quantiles are values *)

Lemma insert_sorted_perm x l : insert_sorted x l ≡ₚ x :: l.
Proof.
  induction l as [|y l IH]; [done|]. cbn [insert_sorted]. destruct (flt x y); [done|].
  rewrite IH. apply Permutation_swap.
Qed.

Lemma sorted_floats_perm l : sorted_floats l ≡ₚ l.
Proof.
  unfold sorted_floats. rewrite <- (app_nil_r l) at 2. generalize (@nil float) as acc.
  induction l as [|x l IH]; intros acc; [done|]. cbn [foldl app]. rewrite IH, insert_sorted_perm.
  apply Permutation_sym, Permutation_middle.
Qed.

Definition ascending : list float → Prop := StronglySorted (fun a b => fle a b = true).

Lemma insert_sorted_ascending x l : Forall (fun y => is_number y = true) (x :: l) →
  ascending l → ascending (insert_sorted x l).
Proof.
  intros [Hx Hl]%Forall_cons Hs. induction Hs as [|y l Hs IH Hy]; cbn [insert_sorted].
  - repeat constructor.
  - apply Forall_cons in Hl as [Hny Hl]. destruct (flt x y) eqn:E.
    + constructor; [by constructor|]. constructor; [by apply flt_fle|].
      eapply Forall_impl; [exact Hy|]. intros z. apply fle_trans. by apply flt_fle.
    + constructor; [by apply IH|]. rewrite insert_sorted_perm. constructor; [by apply flt_fle_total|done].
Qed.

Lemma sorted_floats_ascending l : Forall (fun y => is_number y = true) l → ascending (sorted_floats l).
Proof.
  unfold sorted_floats. intros Hl. assert (ascending []) as Ha by constructor. revert Ha.
  assert (Forall (fun y => is_number y = true) []) as Hn by constructor. revert Hn.
  generalize (@nil float) as acc. induction Hl as [|x l Hx Hl IH]; intros acc Hn Ha; [done|]. cbn [foldl].
  assert (Forall (fun y => is_number y = true) (x :: acc)) as Hc by by constructor.
  apply IH; [by rewrite insert_sorted_perm|by apply insert_sorted_ascending].
Qed.

Lemma of_ratio_nonneg n d i : 0 <= n → truncate (of_ratio n d) = Ok i → 0 <= i.
Proof.
  intros Hn. assert (∀ e m l, match binary_round_aux fprec femax false e m l with
    | S754_finite true _ _ => False | _ => True end) as Hr.
  { intros e m l. unfold binary_round_aux. by repeat case_match. }
  destruct n as [|p|p]; cbn; [by intros [= <-]| |done].
  unfold fdiv, SFdiv. destruct (SFdiv_core_binary _ _ _ _ _ _) as [[m e] l]. cbn.
  specialize (Hr m e l). destruct (binary_round_aux _ _ _ _ _ _) as [|[]| |[] q g]; cbn; try done;
    [by intros [= <-]..|]. intros [= <-]. case_match; [nia|]. apply Z.div_pos; [done|].
  apply Z.pow_pos_nonneg; lia.
Qed.

Lemma pct_in l k q : l ≠ [] → 0 <= k → pct l k = Ok q → q ∈ l.
Proof.
  intros Hl Hk H. unfold pct in H. inv_ok.
  match goal with H : truncate _ = Ok ?i |- _ => apply of_ratio_nonneg in H; [|lia]; rename i into idx end.
  apply list_elem_of_In, nth_In. destruct l as [|x l]; [done|]. cbn [length]. lia.
Qed.

Lemma first_le l v : ascending l → is_number v = true → v ∈ l → fle (nth 0 l fzero) v = true.
Proof.
  intros Ha Hv H. destruct Ha as [|x l Ha Hx]; [by apply elem_of_nil in H|]. cbn [nth].
  apply elem_of_cons in H as [->|H]; [by apply fle_refl|]. rewrite Forall_forall in Hx. by apply Hx.
Qed.

Lemma last_in l : l ≠ [] → List.last l fzero ∈ l.
Proof.
  intros Hl. destruct (exists_last Hl) as (l' & x & ->). rewrite last_last. apply elem_of_app. right. left.
Qed.

Lemma le_last l v : ascending l → is_number v = true → v ∈ l → fle v (List.last l fzero) = true.
Proof.
  induction 1 as [|x l Ha IH Hx]; intros Hv H; [by apply elem_of_nil in H|].
  destruct l as [|y l]; [apply list_elem_of_singleton in H as ->; by apply fle_refl|].
  change (List.last (x :: y :: l) fzero) with (List.last (y :: l) fzero).
  apply elem_of_cons in H as [->|H]; [|by apply IH]. rewrite Forall_forall in Hx. by apply Hx, last_in.
Qed.

Theorem quantiles_are_values values metric r :
  values ≠ [] → Forall (fun x => is_number x = true) values → compute values metric = Ok r →
  QuantileReport.count r = Z.of_nat (length values) ∧
  Forall (fun q => q ∈ values ∧ fle (QuantileReport.min r) q = true ∧ fle q (QuantileReport.max r) = true)
    [QuantileReport.min r; QuantileReport.median r; QuantileReport.p90 r; QuantileReport.p95 r;
     QuantileReport.p99 r; QuantileReport.max r] ∧
  ∀ v, v ∈ values → fle (QuantileReport.min r) v = true ∧ fle v (QuantileReport.max r) = true.
Proof.
  intros Hne Hn H. unfold compute in H. rewrite bool_decide_eq_false_2 in H by done.
  pose proof (sorted_floats_perm values) as Hp. pose proof (sorted_floats_ascending values Hn) as Ha.
  set (l := sorted_floats values) in *. clearbody l.
  assert (l ≠ []) as Hl by (intros ->; by apply Permutation_nil_l in Hp; subst).
  inv_ok. repeat match goal with H : pct _ _ = Ok _ |- _ => apply pct_in in H; [|done|lia] end.
  cbn [QuantileReport.count QuantileReport.min QuantileReport.max QuantileReport.median
       QuantileReport.p90 QuantileReport.p95 QuantileReport.p99].
  assert (∀ v, v ∈ l → fle (nth 0 l fzero) v = true ∧ fle v (List.last l fzero) = true) as Hb.
  { intros v Hv. assert (is_number v = true) as Hvn by (rewrite Forall_forall in Hn; apply Hn; by rewrite <- Hp).
    split; [by apply (first_le l)|by apply (le_last l)]. }
  split; [by rewrite (Permutation_length Hp)|]. split; [|intros v; rewrite <- Hp; apply Hb].
  assert (nth 0 l fzero ∈ l) as H0 by (destruct l; [done|left]).
  assert (List.last l fzero ∈ l) as H1 by by apply last_in.
  repeat (constructor; [split; [by rewrite <- Hp|by apply Hb]|]). constructor.
Qed.

Lemma quantiles_are_values_witness : ∃ r, compute (of_int <$> [30; 10; 20]) "score" = Ok r ∧
  fle (QuantileReport.min r) (of_int 20) = true ∧ fle (of_int 20) (QuantileReport.max r) = true.
Proof.
  destruct (compute (of_int <$> [30; 10; 20]) "score") as [r|x] eqn:E; [|vm_compute in E; discriminate E].
  destruct (quantiles_are_values (of_int <$> [30; 10; 20]) "score" r) as (_ & _ & H);
    [discriminate|repeat constructor|exact E|].
  exists r. split; [reflexivity|]. apply H. right. right. left.
Defined.
End QuantileCalculator.

(** ** trials.py *)

Module TrialStrategy.
Inductive t := REPEAT_N | UNTIL_CONFIDENCE | ADVERSARIAL | ABLATION.
#[global] Instance t_eq_dec : EqDecision t.
Proof. solve_decision. Defined.
End TrialStrategy.

Module TrialBatchConfig.
Record t := mk {
  suite : EvaluationSuite.t;
  subject_version_id : uuid;
  tenant_id : uuid;
  strategy : TrialStrategy.t;
  repeat_count : Z;
  min_confidence : float;
  max_trials : Z;
  random_seed : Z
}.
End TrialBatchConfig.

Module TrialBatchResult.
Record t := mk {
  batch_id : uuid; suite_id : string; trials : list Trial.t;
  total : Z; passed : Z; failed : Z; invalid : Z
}.

Definition pass_rate (x : t) : float :=
  if total x =? 0 then fzero else fdiv (of_int (passed x)) (of_int (total x)).
Definition is_confident (x : t) : bool := 5 <=? total x.
End TrialBatchResult.

Module TrialRunner.
Section runner.
Context {S : Type}.
(** [TrialHarness.run_suite]: suite, subject version, tenant and seed. *)
Definition harness : Type := EvaluationSuite.t → uuid → uuid → Z → M S Trial.t.

Section batch.
Context (h : option harness) (config : TrialBatchConfig.t).

Definition run_one (index : nat) : M S Trial.t :=
  let seed := TrialBatchConfig.random_seed config + Z.of_nat index in
  match h with
  | None =>
      trial_id ← uuid4;
      lift (Trial.new {|
        Trial.tenant_id := TrialBatchConfig.tenant_id config;
        Trial.suite_id := EvaluationSuite.suite_id (TrialBatchConfig.suite config);
        Trial.suite_version := EvaluationSuite.version (TrialBatchConfig.suite config);
        Trial.subject_version_id := TrialBatchConfig.subject_version_id config;
        Trial.harness_version := "unconfigured";
        Trial.trial_id := trial_id;
        Trial.status := TrialStatus.INVALID;
        Trial.random_seed := Some seed;
        Trial.case_results := [];
        Trial.total_cost_microunits := 0;
        Trial.failure_reason := Some "trial harness is not configured";
        Trial.started_at := None;
        Trial.completed_at := None;
        Trial.candidate_id := None |})
  | Some run_suite =>
      run_suite (TrialBatchConfig.suite config) (TrialBatchConfig.subject_version_id config)
        (TrialBatchConfig.tenant_id config) seed
  end.

(** The loop: trials so far and the three counters. *)
Definition tally (acc : list Trial.t * Z * Z * Z) (trial : Trial.t) : list Trial.t * Z * Z * Z :=
  let '(trials, passed, failed, invalid) := acc in
  match Trial.status trial with
  | TrialStatus.PASSED => (trials ++ [trial], passed + 1, failed, invalid)
  | TrialStatus.FAILED => (trials ++ [trial], passed, failed + 1, invalid)
  | _ => (trials ++ [trial], passed, failed, invalid + 1)
  end.

Fixpoint run_trials (indices : list nat) (acc : list Trial.t * Z * Z * Z) : M S (list Trial.t * Z * Z * Z) :=
  match indices with
  | [] => mret acc
  | index :: indices => trial ← run_one index; run_trials indices (tally acc trial)
  end.

Definition run_batch : M S TrialBatchResult.t :=
  acc ← run_trials (seq 0 (Z.to_nat (TrialBatchConfig.repeat_count config))) ([], 0, 0, 0);
  let '(trials, passed, failed, invalid) := (acc : list Trial.t * Z * Z * Z) in
  batch_id ← uuid4;
  mret (TrialBatchResult.mk batch_id (EvaluationSuite.suite_id (TrialBatchConfig.suite config)) trials
          (Z.of_nat (length trials)) passed failed invalid).

(** *** The counters count *)

Definition having (st : TrialStatus.t) (l : list Trial.t) : Z :=
  Z.of_nat (length (List.filter (fun x => bool_decide (Trial.status x = st)) l)).

Definition tallied (acc : list Trial.t * Z * Z * Z) : Prop :=
  let '(trials, passed, failed, invalid) := acc in
  passed = having TrialStatus.PASSED trials ∧ failed = having TrialStatus.FAILED trials ∧
  passed + failed + invalid = Z.of_nat (length trials).

Lemma having_snoc st l x : having st (l ++ [x]) = having st l + if bool_decide (Trial.status x = st) then 1 else 0.
Proof.
  unfold having. rewrite List.filter_app, length_app. cbn [List.filter]. case_bool_decide; cbn [length]; lia.
Qed.

Lemma tally_tallied acc x : tallied acc → tallied (tally acc x).
Proof.
  destruct acc as [[[l a] b] c]. unfold tally, tallied. intros (-> & -> & H).
  destruct (Trial.status x) eqn:E; rewrite !having_snoc, E, length_app; repeat (case_bool_decide; try congruence);
    split_and!; cbn [length]; lia.
Qed.

Lemma run_trials_tallied indices acc : tallied acc → ∀ e s,
  match run_trials indices acc e s with
  | (Ok acc', _) => tallied acc' ∧ (length acc'.1.1.1 = length acc.1.1.1 + length indices)%nat
  | _ => True
  end.
Proof.
  revert acc. induction indices as [|i indices IH]; intros acc Hacc e s; cbn [run_trials].
  { split; [done|]. cbn. lia. }
  unfold mbind, M_bind. destruct (run_one i e s) as [[x|x] s1]; [|done].
  specialize (IH (tally acc x) (tally_tallied _ _ Hacc) e s1).
  destruct (run_trials indices (tally acc x) e s1) as [[acc'|] s2]; [|done]. destruct IH as [H1 H2].
  split; [done|]. rewrite H2. destruct acc as [[[l a] b] c]. unfold tally. cbn [length fst].
  destruct (Trial.status x); cbn; rewrite length_app; cbn; lia.
Qed.

Theorem batch_adds_up e s r s' : run_batch e s = (Ok r, s') →
  TrialBatchResult.total r = Z.max 0 (TrialBatchConfig.repeat_count config) ∧
  TrialBatchResult.passed r + TrialBatchResult.failed r + TrialBatchResult.invalid r = TrialBatchResult.total r ∧
  TrialBatchResult.passed r = having TrialStatus.PASSED (TrialBatchResult.trials r) ∧
  TrialBatchResult.failed r = having TrialStatus.FAILED (TrialBatchResult.trials r).
Proof.
  unfold run_batch, mbind, M_bind, uuid4, mret, M_ret. set (indices := seq _ _).
  pose proof (run_trials_tallied indices ([], 0, 0, 0) ltac:(done) e s) as H.
  destruct (run_trials _ _ _ _) as [[[[[l a] b] c]|] s1]; [|done].
  destruct H as [(Ha & Hb & Hsum) Hl]. intros [= <- <-]. cbn in *. subst indices. rewrite length_seq in Hl.
  split_and!; [lia|done|done|done].
Qed.
End batch.
End runner.

(** Without a harness every Trial is INVALID. *)
Lemma batch_adds_up_witness : ∃ r : TrialBatchResult.t,
  TrialBatchResult.total r = 3 ∧ TrialBatchResult.passed r + TrialBatchResult.failed r + TrialBatchResult.invalid r = 3 ∧
  TrialBatchResult.passed r = 0.
Proof.
  set (config := TrialBatchConfig.mk (EvaluationSuite.mk "suite" "1" [] fzero) 1%N 2%N TrialStrategy.REPEAT_N
                   3 fzero 50 7).
  set (e := Env (fun _ => Aware 0) (fun i => N.of_nat i)).
  destruct (run_batch (S := unit) None config e (St tt 0 0)) as [[r|x] s] eqn:E;
    [|vm_compute in E; discriminate E].
  destruct (batch_adds_up None config e (St tt 0 0) r s E) as (Ht & Hs & _).
  exists r. split; [exact Ht|]. split; [rewrite Hs; exact Ht|]. vm_compute in E. by injection E as <- _.
Defined.
End TrialRunner.

(** ** replay.py *)

Module ReplayStatus.
Inductive t := RECORDED | REPLAYING | COMPLETED | DIVERGED | FAILED.
#[global] Instance t_eq_dec : EqDecision t.
Proof. solve_decision. Defined.
End ReplayStatus.

Module ReplayTrace.
Record t := mk {
  trace_id : uuid; run_id : uuid; plan : option Plan.t; snapshot : option ContextSnapshot.t;
  action_ids : list uuid; outcomes : list string; recorded_at : datetime
}.
End ReplayTrace.

Module ReplayResult.
Record t := mk {
  trace_id : uuid; status : ReplayStatus.t; matched_steps : Z; diverged_at_step : option Z;
  divergence_reason : string; replay_duration_ms : float
}.
End ReplayResult.

Module ReplayEngine.
Definition record {S} (run : Run.t) (plan : Plan.t) (snapshot : ContextSnapshot.t)
    (action_ids : list uuid) (outcomes : list string) : M S ReplayTrace.t :=
  trace_id ← uuid4;
  t ← now;
  mret (ReplayTrace.mk trace_id (Run.run_id run) (Some plan) (Some snapshot) action_ids outcomes t).

Definition replay (trace : ReplayTrace.t) : ReplayResult.t :=
  match ReplayTrace.plan trace, ReplayTrace.snapshot trace with
  | Some _, Some _ =>
      ReplayResult.mk (ReplayTrace.trace_id trace) ReplayStatus.COMPLETED
        (Z.of_nat (length (ReplayTrace.action_ids trace))) None "" fzero
  | _, _ =>
      ReplayResult.mk (ReplayTrace.trace_id trace) ReplayStatus.FAILED 0 None
        "missing plan or snapshot in trace" fzero
  end.

(** A replay never diverges: nothing is executed. *)
Lemma replay_never_diverges trace : ReplayResult.status (replay trace) ≠ ReplayStatus.DIVERGED ∧
  ReplayResult.diverged_at_step (replay trace) = None.
Proof. unfold replay. by repeat case_match. Qed.
End ReplayEngine.

Module SimulationScenario.
Inductive t := BASELINE | STRESS | ADVERSARIAL | EDGE_CASE | REGRESSION.
#[global] Instance t_eq_dec : EqDecision t.
Proof. solve_decision. Defined.
End SimulationScenario.

Module SimulationInput.
Record t := mk {
  scenario : SimulationScenario.t; modified_facts : list EnvironmentFact.t;
  injected_errors : list string; budget_override : option Z
}.
End SimulationInput.

Module SimulationResult.
Record t := mk {
  scenario : SimulationScenario.t; plan : Plan.t; expected_actions : Z; estimated_cost : Z;
  estimated_duration_seconds : float; risk_flags : list string
}.
End SimulationResult.

Module SimulationEngine.
(** The snapshot and the modified facts are not used; an override of 0 is no override. *)
Definition simulate (plan : Plan.t) (snapshot : ContextSnapshot.t) (scenario : SimulationInput.t)
    : SimulationResult.t :=
  let n := Z.of_nat (length (Plan.tasks plan)) in
  SimulationResult.mk (SimulationInput.scenario scenario) plan n (n * 10) (fmul (of_int n) (of_int 30))
    ((if bool_decide (SimulationInput.scenario scenario = SimulationScenario.ADVERSARIAL)
      then ["adversarial_input"] else []) ++
     (if bool_decide (SimulationInput.injected_errors scenario = []) then [] else ["error_injection"]) ++
     (match SimulationInput.budget_override scenario with
      | Some b => if negb (b =? 0) && (b <? 100) then ["tight_budget"] else []
      | None => []
      end)).
End SimulationEngine.
