(* ===== verification/PackCatalogue.v ===== *)
(** * packages/application: packs.py

    [CapabilityPackService]: packs are installed after the supply-chain
    verifier and the dependency check passed, and enabled, disabled, revoked
    and put on the stable channel afterwards.  The store behind it is
    [InMemoryPlatformStore] ([Store]); the verifier is a parameter, absent when
    none is configured. *)

From stdpp Require Import relations.
From S2P Require Import Prelude PyStr Effects PyDict Json AuditChain Capability Versions Store.
From S2P Require Import StoreLogic.
From Stdlib Require Import ZArith.

Open Scope string_scope.
Open Scope list_scope.
Open Scope Z_scope.

Module PackLifecycleCommand.
Record t := mk { pack_id : string; version : string; reason : string }.
End PackLifecycleCommand.

Module CapabilityPackService.
Section service.
Context {X : Type}.
Notation MW := (M (world X)).

(** [verifier]: [PackArtifactVerifier.verify_install], if configured. *)
Context (verifier : option (CapabilityPackManifest.t → MW unit)).

(** [_require_reason] *)
Definition require_reason (reason : string) : MW unit :=
  throw_if (blank reason) ValueError "pack lifecycle operations require a recorded reason".

(** One dependency of [manifest] against the packs the tenant lists. *)
Definition check_dependency (manifest : CapabilityPackManifest.t)
    (installed : dict string CapabilityPackManifest.t) (dependency : PackDependency.t) : MW unit :=
  let available := installed !! PackDependency.pack_id dependency in
  satisfied ← match available with
              | None => mret false
              | Some item => lift (version_satisfies (PackDependency.version_spec dependency)
                                     (CapabilityPackManifest.version item))
              end;
  throw_if (negb satisfied) ValueError
    ("capability pack " +:+ CapabilityPackManifest.pack_id manifest +:+ "@" +:+
     CapabilityPackManifest.version manifest +:+ " requires " +:+
     PackDependency.pack_id dependency +:+ " " +:+ PackDependency.version_spec dependency +:+
     ", found " +:+ match available with
                    | Some item => CapabilityPackManifest.version item
                    | None => "nothing"
                    end).

(** [{item.pack_id: item for item in listed}]: the last item of a pack stays. *)
Definition by_pack_id (listed : list CapabilityPackManifest.t)
    : dict string CapabilityPackManifest.t :=
  dict_of_list ((fun item => (CapabilityPackManifest.pack_id item, item)) <$> listed).

(** [_assert_dependencies_available] *)
Definition assert_dependencies_available (tenant_id : uuid) (manifest : CapabilityPackManifest.t)
    : MW unit :=
  listed ← list_capability_packs tenant_id false;
  for_each_m (check_dependency manifest (by_pack_id listed))
    (CapabilityPackManifest.dependencies manifest).

Definition check_dependent (pack_id version : string) (item : CapabilityPackManifest.t)
    (dependency : PackDependency.t) : MW unit :=
  if negb (bool_decide (PackDependency.pack_id dependency = pack_id)) then mret tt
  else
    satisfied ← lift (version_satisfies (PackDependency.version_spec dependency) version);
    throw_if (negb satisfied) ValueError
      ("capability pack " +:+ CapabilityPackManifest.pack_id item +:+ "@" +:+
       CapabilityPackManifest.version item +:+ " requires " +:+ pack_id +:+ " " +:+
       PackDependency.version_spec dependency +:+ "; channel " +:+ version +:+ " breaks it").

(** [_assert_no_dependent_breaks] *)
Definition assert_no_dependent_breaks (tenant_id : uuid) (pack_id version : string) : MW unit :=
  listed ← list_capability_packs tenant_id false;
  for_each_m (fun item => for_each_m (check_dependent pack_id version item)
                            (CapabilityPackManifest.dependencies item)) listed.

Definition install_pack (identity : IdentityContext.t) (manifest : CapabilityPackManifest.t)
    : MW CapabilityPackManifest.t :=
  match verifier with
  | None => throw PermissionError "capability pack verification is not configured"
  | Some verify_install =>
      verify_install manifest ;;
      assert_dependencies_available (IdentityContext.tenant_id identity) manifest ;;
      Store.install_pack (IdentityContext.tenant_id identity) manifest ;;
      mret manifest
  end.

Definition disable_pack (identity : IdentityContext.t) (command : PackLifecycleCommand.t)
    : MW unit :=
  require_reason (PackLifecycleCommand.reason command) ;;
  set_pack_enabled (IdentityContext.tenant_id identity) (PackLifecycleCommand.pack_id command)
    (PackLifecycleCommand.version command) false (IdentityContext.actor_id identity)
    (PackLifecycleCommand.reason command).

Definition enable_pack (identity : IdentityContext.t) (command : PackLifecycleCommand.t)
    : MW unit :=
  let tenant_id := IdentityContext.tenant_id identity in
  let pack_id := PackLifecycleCommand.pack_id command in
  let version := PackLifecycleCommand.version command in
  revoked ← is_pack_revoked tenant_id pack_id version;
  throw_if revoked PermissionError "a revoked capability pack cannot be re-enabled" ;;
  set_pack_enabled tenant_id pack_id version true (IdentityContext.actor_id identity)
    (if PyStr.empty (PackLifecycleCommand.reason command) then "pack re-enabled"
     else PackLifecycleCommand.reason command).

Definition revoke_pack (identity : IdentityContext.t) (command : PackLifecycleCommand.t)
    : MW unit :=
  require_reason (PackLifecycleCommand.reason command) ;;
  Store.revoke_pack (IdentityContext.tenant_id identity) (PackLifecycleCommand.pack_id command)
    (PackLifecycleCommand.version command) (IdentityContext.actor_id identity)
    (PackLifecycleCommand.reason command).

Definition set_stable_channel (identity : IdentityContext.t) (command : PackLifecycleCommand.t)
    : MW unit :=
  let tenant_id := IdentityContext.tenant_id identity in
  let pack_id := PackLifecycleCommand.pack_id command in
  let version := PackLifecycleCommand.version command in
  target ← get_installed_pack tenant_id pack_id version;
  match target with
  | None => throw ValueError
      ("capability pack " +:+ pack_id +:+ "@" +:+ version +:+ " is not installed")
  | Some manifest =>
      revoked ← is_pack_revoked tenant_id pack_id version;
      throw_if revoked PermissionError "a revoked capability pack cannot become stable" ;;
      assert_dependencies_available tenant_id manifest ;;
      assert_no_dependent_breaks tenant_id pack_id version ;;
      Store.set_stable_channel tenant_id pack_id version (IdentityContext.actor_id identity)
  end.

(** ** The operations as one type *)

Inductive operation :=
  | InstallPack (manifest : CapabilityPackManifest.t)
  | DisablePack (command : PackLifecycleCommand.t)
  | EnablePack (command : PackLifecycleCommand.t)
  | RevokePack (command : PackLifecycleCommand.t)
  | SetStableChannel (command : PackLifecycleCommand.t).

Definition run_operation (identity : IdentityContext.t) (op : operation) : MW unit :=
  match op with
  | InstallPack manifest => install_pack identity manifest ;; mret tt
  | DisablePack command => disable_pack identity command
  | EnablePack command => enable_pack identity command
  | RevokePack command => revoke_pack identity command
  | SetStableChannel command => set_stable_channel identity command
  end.
End service.
End CapabilityPackService.

(** * The catalogue of a tenant's capability packs

    The goal types a tenant can use are those of its selected packs: installed,
    enabled, not revoked, and the stable channel's version or else the greatest
    version.  [catalogue_ok] holds of the store after every
    operation of [CapabilityPackService], whatever it answers. *)

Open Scope string_scope.
Open Scope list_scope.
Open Scope Z_scope.

#[local] Arguments insert : simpl never.
#[local] Arguments lookup : simpl never.

Definition sortable (version : string) : Prop := ∃ k, semver_key version = Ok k.

(** [a] is at most [b]. *)
Definition version_le (a b : string) : Prop := ∃ n, compare_versions a b = Ok n ∧ n <= 0.

Lemma version_le_cmp a b ka kb : semver_key a = Ok ka → semver_key b = Ok kb →
  version_le a b ↔ cmp_semver ka kb ≠ Ok Gt.
Proof.
  intros Ha Hb. unfold version_le, compare_versions. rewrite Ha, Hb. cbn [mbind res_bind].
  destruct (law_total _ _ cmp_semver_lawful ka kb) as [c Hc]; [eauto using semver_key_ok..|].
  rewrite Hc. cbn. split.
  - intros (n & [= <-] & Hn) [= ->]. lia.
  - intros H. destruct c; [eexists; split; [done|lia]..|done].
Qed.

Lemma version_le_refl a : sortable a → version_le a a.
Proof.
  intros [k Hk]. rewrite (version_le_cmp a a k k) by done.
  rewrite (law_refl _ _ cmp_semver_lawful) by eauto using semver_key_ok. done.
Qed.

Lemma version_le_trans a b c :
  sortable a → sortable b → sortable c → version_le a b → version_le b c → version_le a c.
Proof.
  intros [ka Ha] [kb Hb] [kc Hc].
  rewrite (version_le_cmp a b ka kb), (version_le_cmp b c kb kc), (version_le_cmp a c ka kc) by done.
  pose proof (semver_key_ok _ _ Ha) as Oa. pose proof (semver_key_ok _ _ Hb) as Ob.
  pose proof (semver_key_ok _ _ Hc) as Oc. pose proof cmp_semver_lawful as L.
  intros H1 H2.
  destruct (law_total _ _ L ka kb) as [[] E1]; [done..|apply (law_eq _ _ L) in E1 as ->; done| |done].
  destruct (law_total _ _ L kb kc) as [[] E2]; [done..|apply (law_eq _ _ L) in E2 as <-; congruence| |done].
  by rewrite (law_trans _ _ L ka kb kc).
Qed.

(** A version that compares greater replaces the other as the maximum. *)
Lemma version_greater a b n : sortable a → sortable b →
  compare_versions a b = Ok n → (if 0 <? n then version_le b a else version_le a b).
Proof.
  intros [ka Ha] [kb Hb] Hc. destruct (0 <? n) eqn:En; [|exists n; split; [done|lia]].
  rewrite (version_le_cmp b a kb ka) by done. intros E.
  apply (law_opp _ _ cmp_semver_lawful) in E; [|eauto using semver_key_ok..]. cbn in E.
  unfold compare_versions in Hc. rewrite Ha, Hb in Hc. cbn [mbind res_bind] in Hc.
  rewrite E in Hc. injection Hc as <-. done.
Qed.

(** ** The packs of a store *)

Definition listable (d : store) (t : uuid) (p v : string) : Prop :=
  pack_is_listable d (t, p, v) = true.

Definition revoked (d : store) (k : pack_key) : Prop :=
  ∃ s, pack_states d !! k = Some s ∧ PackState.truthy (PackState.revoked s) = true.

(** The pack whose goal types the tenant uses. *)
Definition selected (d : store) (t : uuid) (p : string) (m : CapabilityPackManifest.t) : Prop :=
  ∃ v, tenant_packs d !! (t, p, v) = Some m ∧ listable d t p v ∧
    match pack_channels d !! (t, p) with
    | Some channel => v = channel
    | None => ∀ v' m', tenant_packs d !! (t, p, v') = Some m' → listable d t p v' →
        version_le v' v
    end.

(** Installed packs are filed under their own identifier and version, which has
    a place in the version order; revoked packs are not enabled. *)
Record packs_wf (d : store) : Prop := {
  packs_distinct : dict_wf (tenant_packs d);
  packs_keyed : ∀ t p v m, tenant_packs d !! (t, p, v) = Some m →
    CapabilityPackManifest.pack_id m = p ∧ CapabilityPackManifest.version m = v;
  packs_sortable : ∀ t p v m, tenant_packs d !! (t, p, v) = Some m → sortable v;
  packs_stateful : ∀ k m, tenant_packs d !! k = Some m → is_Some (pack_states d !! k);
  revoked_disabled : ∀ k s, pack_states d !! k = Some s →
    PackState.truthy (PackState.revoked s) = true → PackState.truthy (PackState.enabled s) = false
}.

(** ** Resolving the catalogue *)

Section resolution.
Context (d : store) (t : uuid) (Hwf : packs_wf d).

(** The entry counts: it is the tenant's, listable and not off the channel. *)
Definition eligible (p v : string) : Prop :=
  listable d t p v ∧ match pack_channels d !! (t, p) with Some c => v = c | None => True end.

Definition best (seen : list (pack_key * CapabilityPackManifest.t)) (p : string)
    (m : CapabilityPackManifest.t) : Prop :=
  ∃ v, ((t, p, v), m) ∈ seen ∧ eligible p v ∧
    (pack_channels d !! (t, p) = None →
     ∀ v' m', ((t, p, v'), m') ∈ seen → listable d t p v' → version_le v' v).

Definition resolves (seen : list (pack_key * CapabilityPackManifest.t))
    (r : dict string CapabilityPackManifest.t) : Prop :=
  dict_wf r ∧
  (∀ p m, r !! p = Some m → best seen p m) ∧
  (∀ p v m, ((t, p, v), m) ∈ seen → eligible p v → is_Some (r !! p)).

Lemma best_snoc_other seen p m k m' :
  best seen p m → (∀ v, k = (t, p, v) → ¬ eligible p v) → best (seen ++ [(k, m')]) p m.
Proof.
  intros (v & Hin & He & Hmax) Hk. exists v. split; [set_solver|]. split; [done|].
  intros Hc v' m'' [Hin'|Hin']%elem_of_app Hl; [by eapply Hmax|].
  apply list_elem_of_singleton in Hin'. injection Hin' as Hin' _.
  destruct (Hk v' (eq_sym Hin')). split; [done|]. by rewrite Hc.
Qed.

Lemma resolves_skip seen r k m' :
  resolves seen r → (∀ p v, k = (t, p, v) → ¬ eligible p v) → resolves (seen ++ [(k, m')]) r.
Proof.
  intros (Hw & Hs & Hc) Hk. split_and!; [done| |].
  - intros p m Hm. apply best_snoc_other; [by apply Hs|]. intros v Hv. by apply Hk.
  - intros p v m [Hin|Hin]%elem_of_app He; [by eapply Hc|].
    apply list_elem_of_singleton in Hin. injection Hin as Hin _.
    destruct (Hk p v (eq_sym Hin) He).
Qed.

Lemma resolves_set seen r p v m' : sortable v → resolves seen r → eligible p v →
  (pack_channels d !! (t, p) = None →
   ∀ w x, ((t, p, w), x) ∈ seen → listable d t p w → version_le w v) →
  resolves (seen ++ [((t, p, v), m')]) (<[p:=m']> r).
Proof.
  intros Sv (Hw & Hs & Hc) He Hmax. split_and!.
  - by apply dict_insert_wf.
  - intros q m Hm. apply dict_lookup_insert_Some in Hm as [[-> ->]|[Hne Hm]].
    + exists v. split; [set_solver|]. split; [done|].
      intros Hch w x [Hin|Hin]%elem_of_app Hl; [by eapply Hmax|].
      apply list_elem_of_singleton in Hin. injection Hin as -> _. by apply version_le_refl.
    + apply best_snoc_other; [by apply Hs|]. by intros w [= -> ->].
  - intros q w x Hin Hq. destruct (decide (q = p)) as [->|Hne].
    + rewrite dict_lookup_insert. eauto.
    + rewrite dict_lookup_insert_ne by done. apply elem_of_app in Hin as [Hin|Hin]; [by eapply Hc|].
      apply list_elem_of_singleton in Hin. by injection Hin as -> _ _.
Qed.

Lemma resolves_keep seen r p v m m' : resolves seen r → r !! p = Some m →
  best (seen ++ [((t, p, v), m')]) p m → resolves (seen ++ [((t, p, v), m')]) r.
Proof.
  intros (Hw & Hs & Hc) Hr Hb. split_and!; [done| |].
  - intros q x Hx. destruct (decide (q = p)) as [->|Hne]; [congruence|].
    apply best_snoc_other; [by apply Hs|]. by intros w [= -> ->].
  - intros q w x [Hx|Hx]%elem_of_app Hq; [by eapply Hc|].
    apply list_elem_of_singleton in Hx. injection Hx as -> -> _. eauto.
Qed.

(** An eligible entry of a pack without channel. *)
Lemma resolve_unpinned seen r p v m' : tenant_packs d !! (t, p, v) = Some m' →
  (∀ k x, (k, x) ∈ seen → tenant_packs d !! k = Some x) → resolves seen r →
  listable d t p v → pack_channels d !! (t, p) = None →
  ∃ r', match r !! p with
        | None => Ok (<[p:=m']> r)
        | Some current =>
            newer ← (c ← compare_versions v (CapabilityPackManifest.version current);
                     Ok (0 <? c));
            Ok (if (newer : bool) then <[p:=m']> r else r)
        end = Ok r' ∧ resolves (seen ++ [((t, p, v), m')]) r'.
Proof.
  intros Hk Hseen Hr Hl Hch. pose proof Hr as (Hw & Hs & Hc).
  pose proof (packs_sortable d Hwf _ _ _ _ Hk) as Sv.
  assert (Hel : ∀ w, listable d t p w → eligible p w) by (intros w Hw'; split; [done|by rewrite Hch]).
  destruct (r !! p) as [m|] eqn:Er; swap 1 2.
  { eexists. split; [done|]. apply resolves_set; auto.
    intros _ w x Hin Hlw. destruct (Hc p w x Hin (Hel w Hlw)) as [? H]. congruence. }
  destruct (Hs p m Er) as (u & Hin & Hu & Hmax). specialize (Hmax Hch).
  pose proof (Hseen _ _ Hin) as Hm. destruct (packs_keyed d Hwf _ _ _ _ Hm) as [_ ->].
  pose proof (packs_sortable d Hwf _ _ _ _ Hm) as Su.
  destruct (compare_versions_total v u Sv Su) as [n Hn]. rewrite Hn. cbn [mbind res_bind].
  pose proof (version_greater v u n Sv Su Hn) as Hle.
  eexists. split; [done|]. destruct (0 <? n).
  - apply resolves_set; auto. intros _ w y Hy Hlw.
    apply version_le_trans with u; [|done..|by eapply Hmax|done].
    eapply packs_sortable; [done|by apply Hseen].
  - apply resolves_keep with m; [done..|]. exists u. split; [set_solver|]. split; [done|].
    intros _ w y [Hy|Hy]%elem_of_app Hlw; [by eapply Hmax|].
    apply list_elem_of_singleton in Hy. injection Hy as -> _. done.
Qed.

Lemma resolve_step_spec seen r k m' :
  tenant_packs d !! k = Some m' → (∀ x, (k, x) ∉ seen) →
  (∀ k' x, (k', x) ∈ seen → tenant_packs d !! k' = Some x) → resolves seen r →
  ∃ r', resolve_step d t r (k, m') = Ok r' ∧ resolves (seen ++ [(k, m')]) r'.
Proof.
  destruct k as [[t' p] v]. intros Hk Hnew Hseen Hr.
  assert (Hskip : (∀ q w, (t', p, v) = (t, q, w) → ¬ eligible q w) →
    ∃ r', Ok r = Ok r' ∧ resolves (seen ++ [((t', p, v), m')]) r').
  { intros Hq. exists r. split; [done|]. by apply resolves_skip. }
  unfold resolve_step. cbn iota.
  destruct (bool_decide (t' = t)) eqn:Et; bool_hyps; cbn [negb orb]; swap 1 2.
  { apply Hskip. by intros ? ? [= -> -> ->]. }
  subst t'. destruct (pack_is_listable d (t, p, v)) eqn:El; cbn [negb]; swap 1 2.
  { apply Hskip. intros ? ? [= <- <-] [He _]. unfold listable in He. congruence. }
  destruct (pack_channels d !! (t, p)) as [c|] eqn:Ech; [|by apply resolve_unpinned].
  case_bool_decide as Ev; cbn [negb]; swap 1 2.
  { apply Hskip. intros ? ? [= <- <-] [_ He]. by rewrite Ech in He. }
  subst c. destruct (r !! p) as [m|] eqn:Er.
  - (* the channel's version is seen once *)
    destruct Hr as (_ & Hs & _). destruct (Hs p m Er) as (v' & Hin & [_ He] & _).
    rewrite Ech in He. subst v'. by apply Hnew in Hin.
  - eexists. split; [done|]. apply resolves_set; [by eapply packs_sortable|done| |].
    + split; [done|by rewrite Ech].
    + by rewrite Ech.
Qed.

Lemma resolve_all l seen r :
  (∀ k x, (k, x) ∈ seen ++ l → tenant_packs d !! k = Some x) → NoDup (seen ++ l).*1 →
  resolves seen r → ∃ r', foldl_res (resolve_step d t) r l = Ok r' ∧ resolves (seen ++ l) r'.
Proof.
  revert seen r. induction l as [|[k m] l IH]; intros seen r Hin Hnd Hr; cbn [foldl_res].
  { exists r. by rewrite app_nil_r. }
  destruct (resolve_step_spec seen r k m) as (r1 & -> & H1); [apply Hin; set_solver| | |done|].
  - intros x Hx. rewrite fmap_app in Hnd. apply NoDup_app in Hnd as (_ & Hd & _).
    destruct (Hd k); [apply list_elem_of_fmap; by exists (k, x)|]. cbn. left.
  - intros k' x Hx. apply Hin. set_solver.
  - cbn [mbind res_bind]. replace (seen ++ (k, m) :: l) with ((seen ++ [(k, m)]) ++ l) in *
      by (by rewrite <- app_assoc). by apply IH.
Qed.

Lemma resolve_spec : ∃ r, foldl_res (resolve_step d t) ∅ (items (tenant_packs d)) = Ok r ∧
  dict_wf r ∧ (∀ p m, r !! p = Some m → selected d t p m) ∧
  (∀ p m, selected d t p m → ∃ m', r !! p = Some m').
Proof.
  assert (Hel : ∀ k x, (k, x) ∈ items (tenant_packs d) ↔ tenant_packs d !! k = Some x).
  { intros k x. split; [by apply dict_elem_lookup, packs_distinct|by apply dict_lookup_elem]. }
  destruct (resolve_all (items (tenant_packs d)) [] ∅) as (r & Hr & Hw & Hs & Hc).
  - intros k x Hx. by apply Hel.
  - apply packs_distinct, Hwf.
  - split_and!; [apply dict_empty_wf|by intros|]. by intros p v m ?%elem_of_nil.
  - exists r. split_and!; [done|done| |].
    + intros p m Hm. destruct (Hs p m Hm) as (v & Hin & [Hl Hch] & Hmax). cbn in Hin, Hmax.
      exists v. split; [by apply Hel|]. split; [done|].
      destruct (pack_channels d !! (t, p)); [done|]. intros v' m' Hv'. eapply (Hmax eq_refl).
      by apply Hel.
    + intros p m (v & Hin & Hl & Hch). eapply (Hc p v m); [by apply Hel|]. split; [done|].
      by destruct (pack_channels d !! (t, p)).
Qed.
End resolution.

(** ** Refreshing the catalogue *)

(** The catalogue of tenant [t] is up to date. *)
Definition catalogue_ok (d : store) (t : uuid) : Prop :=
  (∀ g gt, tenant_goal_types d !! (t, g) = Some gt →
     ∃ p m, selected d t p m ∧ gt ∈ CapabilityPackManifest.goal_types m ∧
       GoalTypeManifest.goal_type gt = g) ∧
  (∀ p m, selected d t p m → ∃ m', selected d t p m' ∧
     ∀ gt, gt ∈ CapabilityPackManifest.goal_types m' →
       is_Some (tenant_goal_types d !! (t, GoalTypeManifest.goal_type gt))).

Definition packs_ok (d : store) : Prop := packs_wf d ∧ ∀ t, catalogue_ok d t.

Lemma foldl_concat {A B C} (f : B → A → B) (g : C → list A) (l : list C) acc :
  foldl (fun acc x => foldl f acc (g x)) acc l = foldl f acc (l ≫= g).
Proof.
  revert acc. induction l as [|x l IH]; intros acc; cbn; [done|]. by rewrite IH, foldl_app.
Qed.

Lemma refreshed_spec d t : packs_wf d → ∃ index, refreshed d t = Ok index ∧
  (∀ t' g, t' ≠ t → index !! (t', g) = tenant_goal_types d !! (t', g)) ∧
  catalogue_ok (d <| tenant_goal_types := index |>) t.
Proof.
  intros Hwf. destruct (resolve_spec d t Hwf) as (r & Hr & Hw & Hs & Hc).
  unfold refreshed. rewrite Hr. cbn [mbind res_bind]. eexists. split; [done|].
  rewrite (foldl_concat (fun acc g => <[(t, GoalTypeManifest.goal_type g) := g]> acc)
    (fun kv : string * CapabilityPackManifest.t => CapabilityPackManifest.goal_types kv.2)).
  set (l := sort_items (items r) ≫= _).
  set (kept := Dict _).
  set (index := foldl _ kept l).
  assert (Hkept : ∀ t' g, kept !! (t', g) =
    if bool_decide (t' = t) then None else tenant_goal_types d !! (t', g)).
  { intros t' g. unfold kept.
    pose proof (dict_filter_lookup (fun k : uuid * string => negb (bool_decide (k.1 = t)))
      (tenant_goal_types d) (t', g)) as E. cbn [fst] in E. etransitivity; [exact E|].
    by case_bool_decide. }
  assert (Hl : ∀ gt, gt ∈ l ↔ ∃ p m, r !! p = Some m ∧ gt ∈ CapabilityPackManifest.goal_types m).
  { intros gt. unfold l. rewrite list_elem_of_bind. split.
    - intros ([p m] & Hgt & Hin). rewrite sort_items_elem in Hin. exists p, m.
      split; [by apply dict_elem_lookup|done].
    - intros (p & m & Hp & Hgt). exists (p, m). rewrite sort_items_elem. split; [done|].
      by apply dict_lookup_elem. }
  split; [|split].
  - intros t' g Hne. unfold index.
    rewrite (dict_fill_other (fun g : GoalTypeManifest.t => (t, GoalTypeManifest.goal_type g)))
      by (intros x _ [= ? _]; done).
    by rewrite Hkept, bool_decide_false.
  - cbn. intros g gt Hg. unfold index in Hg.
    apply (dict_fill_lookup (fun g : GoalTypeManifest.t => (t, GoalTypeManifest.goal_type g)))
      in Hg as [Hg|[Hin Hid]].
    + rewrite Hkept, bool_decide_true in Hg by done. done.
    + injection Hid as Hid. apply Hl in Hin as (p & m & Hp & Hgt). exists p, m.
      split; [by apply Hs|done].
  - cbn. intros p m Hsel. destruct (Hc p m Hsel) as [m' Hm']. exists m'. split; [by apply Hs|].
    intros gt Hgt. unfold index.
    apply (dict_fill_present (fun g : GoalTypeManifest.t => (t, GoalTypeManifest.goal_type g))).
    right. exists gt. split; [|done]. apply Hl. by exists p, m'.
Qed.

(** ** The operations of the service *)

(** What no operation takes back: an installed pack stays as it is, a revoked
    one stays revoked and is not put on the stable channel any more. *)
Record advances (d d' : store) : Prop := {
  packs_stay : ∀ k m, tenant_packs d !! k = Some m → tenant_packs d' !! k = Some m;
  revoked_stays : ∀ k, revoked d k → revoked d' k;
  channel_not_revoked : ∀ t p v, revoked d (t, p, v) →
    pack_channels d' !! (t, p) = Some v → pack_channels d !! (t, p) = Some v;
  platform_types_stay : Store.goal_types d' = Store.goal_types d
}.

Lemma advances_refl d : advances d d.
Proof. by constructor. Qed.

Lemma advances_trans d1 d2 d3 : advances d1 d2 → advances d2 d3 → advances d1 d3.
Proof. intros [] []. constructor; auto. congruence. Qed.

(** The packs, states and channels of tenant [t] are the same. *)
Record same_packs (t : uuid) (d d' : store) : Prop := {
  same_tenant_packs : ∀ p v, tenant_packs d' !! (t, p, v) = tenant_packs d !! (t, p, v);
  same_states : ∀ p v, pack_states d' !! (t, p, v) = pack_states d !! (t, p, v);
  same_channels : ∀ p, pack_channels d' !! (t, p) = pack_channels d !! (t, p);
  same_goal_types : ∀ g, tenant_goal_types d' !! (t, g) = tenant_goal_types d !! (t, g)
}.

Lemma same_packs_sym t d d' : same_packs t d d' → same_packs t d' d.
Proof. intros []. by constructor. Qed.

Lemma same_selected t d d' p m : same_packs t d d' → selected d t p m → selected d' t p m.
Proof.
  intros [Hp Hs Hc _] (v & Hv & Hl & Hch).
  assert (Hlist : ∀ w, listable d' t p w ↔ listable d t p w)
    by (intros w; unfold listable, pack_is_listable; by rewrite Hs).
  exists v. rewrite Hp, Hlist, Hc. split_and!; [done..|].
  destruct (pack_channels d !! (t, p)); [done|]. intros w x. rewrite Hp, Hlist. apply Hch.
Qed.

Lemma same_catalogue t d d' : same_packs t d d' → catalogue_ok d t → catalogue_ok d' t.
Proof.
  intros H [Hs Hc]. pose proof (same_packs_sym _ _ _ H) as H'. split.
  - intros g gt. rewrite (same_goal_types _ _ _ H). intros (p & m & Hm & Hr)%Hs.
    exists p, m. split; [by eapply same_selected|done].
  - intros p m Hm. eapply same_selected in Hm; [|exact H'].
    destruct (Hc p m Hm) as (m' & Hm' & Hgt). exists m'. split; [by eapply same_selected|].
    intros gt. rewrite (same_goal_types _ _ _ H). apply Hgt.
Qed.

(** A change for tenant [t], before its catalogue is refreshed. *)
Definition pending (t : uuid) (d d' : store) : Prop :=
  packs_wf d' ∧ advances d d' ∧ ∀ t', t' ≠ t → same_packs t' d d'.

Lemma pending_audits t d d' l : pending t d d' → pending t d (d' <| audits := l |>).
Proof.
  intros ([] & [] & Hs). split; [by constructor|]. split; [by constructor|].
  intros t' Hne. by destruct (Hs t' Hne).
Qed.

Lemma pending_install t m d :
  packs_wf d → sortable (CapabilityPackManifest.version m) →
  let k : pack_key := (t, CapabilityPackManifest.pack_id m, CapabilityPackManifest.version m) in
  tenant_packs d !! k = None →
  pending t d (d <| tenant_packs := <[k := m]> (tenant_packs d) |>
                 <| pack_states := setdefault k PackState.initial (pack_states d) |>).
Proof.
  intros [] Hv k Hk.
  assert (Hst : ∀ (x : pack_key) s, setdefault k PackState.initial (pack_states d) !! x = Some s →
    pack_states d !! x = Some s ∨ x = k ∧ s = PackState.initial).
  { intros x s. unfold setdefault. destruct (pack_states d !! k); [intros; by left|].
    rewrite dict_lookup_insert_Some. intros [[<- <-]|[_ ?]]; auto. }
  assert (Hold : ∀ (x : pack_key) s, pack_states d !! x = Some s →
    setdefault k PackState.initial (pack_states d) !! x = Some s).
  { intros x s Hx. unfold setdefault. destruct (pack_states d !! k) eqn:E; [done|].
    rewrite dict_lookup_insert_ne; [done|]. intros <-. congruence. }
  split; [|split].
  - constructor; cbn.
    + by apply dict_insert_wf.
    + intros t' p v m'. rewrite dict_lookup_insert_Some. intros [[Hx ->]|[_ Hm]]; [|eauto].
      unfold k in Hx. by simplify_eq.
    + intros t' p v m'. rewrite dict_lookup_insert_Some. intros [[Hx ->]|[_ Hm]]; [|eauto].
      unfold k in Hx. by simplify_eq.
    + intros x m'. rewrite dict_lookup_insert_Some. intros [[<- <-]|[_ Hm]].
      * unfold setdefault. destruct (pack_states d !! k) eqn:E; [eauto|].
        rewrite dict_lookup_insert. eauto.
      * destruct (packs_stateful0 x m' Hm) as [s Hs]. eauto.
    + intros x s [Hs|[_ ->]]%Hst; [eauto|done].
  - constructor; cbn; [|intros x (s & Hs & Hr); exists s; auto|done|done].
    intros x m' Hm. rewrite dict_lookup_insert_ne; [done|]. intros <-. congruence.
  - intros t' Hne. assert (∀ p v, k ≠ (t', p, v)) as Hk' by (by intros p v [= ? ? ?]).
    constructor; cbn; [|..|done|done]; intros p v.
    + by rewrite dict_lookup_insert_ne.
    + unfold setdefault. destruct (pack_states d !! k); [done|]. by rewrite dict_lookup_insert_ne.
Qed.

Lemma pending_state t p v f d : packs_wf d →
  let s := default PackState.none (pack_states d !! (t, p, v)) in
  (PackState.truthy (PackState.revoked s) = true →
     PackState.truthy (PackState.revoked (f s)) = true) →
  (PackState.truthy (PackState.revoked (f s)) = true →
     PackState.truthy (PackState.enabled (f s)) = false) →
  pending t d (set_state (t, p, v) f d).
Proof.
  intros [] s Hmono Hoff. unfold set_state. fold s.
  assert (Hr : ∀ k, revoked d k → ∃ x, <[(t, p, v):=f s]> (pack_states d) !! k = Some x ∧
    PackState.truthy (PackState.revoked x) = true).
  { intros k (x & Hx & Hxr). destruct (decide (k = (t, p, v))) as [->|Hne].
    - rewrite dict_lookup_insert. exists (f s). split; [done|]. apply Hmono. unfold s. by rewrite Hx.
    - rewrite dict_lookup_insert_ne by done. eauto. }
  split; [|split].
  - constructor; cbn; [done..| |].
    + intros k m Hm. destruct (decide (k = (t, p, v))) as [->|Hne].
      * rewrite dict_lookup_insert. eauto.
      * rewrite dict_lookup_insert_ne by done. eauto.
    + intros k x. rewrite dict_lookup_insert_Some. intros [[_ <-]|[_ Hx]]; eauto.
  - constructor; cbn; [done|apply Hr|done|done].
  - intros t' Hne. constructor; cbn; [done| |done|done]. intros q w.
    rewrite dict_lookup_insert_ne; [done|]. by intros [= ? ? ?].
Qed.

Lemma pending_channel t p v d : packs_wf d → ¬ revoked d (t, p, v) →
  pending t d (d <| pack_channels := <[(t, p) := v]> (pack_channels d) |>).
Proof.
  intros [] Hr. split; [by constructor|]. split.
  - constructor; cbn; [done|done| |done]. intros t' q w Hw. rewrite dict_lookup_insert_Some.
    by intros [[[= -> ->] ->]|[_ ?]].
  - intros t' Hne. constructor; cbn; [done|done| |done]. intros q.
    rewrite dict_lookup_insert_ne; [done|]. by intros [= ? ?].
Qed.

Lemma revoked_spec d k :
  PackState.truthy (PackState.revoked (default PackState.none (pack_states d !! k))) = true ↔
  revoked d k.
Proof.
  unfold revoked. destruct (pack_states d !! k) as [s|]; cbn; split.
  - eauto.
  - by intros (x & [= <-] & ?).
  - done.
  - by intros (x & ? & _).
Qed.

Section operations.
Context {X : Type} (F : uuid → Prop).
Notation wpd := (wpd (X := X) F).

(** Nothing raises and the catalogue is up to date again. *)
Lemma wpd_refresh t d d' (Q : unit → store → Prop) (E : exn → store → Prop) :
  packs_ok d → pending t d d' →
  (∀ d'', packs_ok d'' → advances d d'' → Q tt d'') →
  wpd (refresh_tenant_goal_types t) Q E d'.
Proof.
  intros [_ Hcat] (Hwf & Hadv & Hsame) HQ. unfold refresh_tenant_goal_types.
  apply wpd_bind, wpd_query, wpd_bind. unfold id.
  destruct (refreshed_spec d' t Hwf) as (index & Hr & Hother & Hok). rewrite Hr.
  apply wpd_lift; [|done]. intros ? [= <-]. apply wpd_update, HQ.
  - split; [by destruct Hwf|]. intros t'. destruct (decide (t' = t)) as [->|Hne]; [done|].
    apply (same_catalogue t' d); [|apply Hcat]. destruct (Hsame t' Hne).
    constructor; cbn; [done..|]. intros g. by rewrite Hother.
  - by destruct Hadv.
Qed.

Lemma wpd_record_pack_fact t ev p v actor reason (Q : unit → store → Prop) E d :
  (∀ l, Q tt (d <| audits := l |>)) → wpd (record_pack_fact t ev p v actor reason) Q E d.
Proof.
  intros HQ. unfold record_pack_fact. apply wpd_bind, wpd_uuid4. intros u _.
  apply wpd_bind, wpd_uuid4. intros u' _. by apply wpd_update.
Qed.

Lemma wpd_require_pack t p v (Q : unit → store → Prop) (E : exn → store → Prop) d :
  (∀ m, tenant_packs d !! (t, p, v) = Some m → Q tt d) → (∀ x, E x d) →
  wpd (require_pack t p v) Q E d.
Proof.
  intros HQ HE. unfold require_pack. apply wpd_bind, wpd_query, wpd_throw_if; [|done].
  destruct (tenant_packs d !! (t, p, v)); [eauto|done].
Qed.

(** ** The service *)

Import CapabilityPackService.

Context (verifier : option (CapabilityPackManifest.t → M (world X) unit)).
Context (Hverifier : ∀ verify manifest, verifier = Some verify → quiet (verify manifest)).

(** A manifest the parser made: its version is a semantic version. *)
Definition operation_ok (op : operation) : Prop :=
  match op with
  | InstallPack m => matched SEMVER (CapabilityPackManifest.version m) = true
  | _ => True
  end.

Lemma wpd_list_packs t b (Q : list CapabilityPackManifest.t → store → Prop) E d :
  (∀ l, Q l d) → wpd (list_capability_packs t b) Q E d.
Proof. intros HQ. unfold list_capability_packs. by apply wpd_bind, wpd_query, wpd_ret. Qed.

Lemma wpd_dependencies t m (Q : unit → store → Prop) (E : exn → store → Prop) d :
  Q tt d → (∀ x, E x d) → wpd (assert_dependencies_available t m) Q E d.
Proof.
  intros HQ HE. unfold assert_dependencies_available. apply wpd_bind, wpd_list_packs. intros l.
  apply wpd_for_each; [|done]. intros dep _. unfold check_dependency. apply wpd_bind.
  destruct (by_pack_id l !! _); [apply wpd_lift|apply wpd_ret]; [|done|];
    intros; apply wpd_throw_if; done.
Qed.

Lemma wpd_dependents t p v (Q : unit → store → Prop) (E : exn → store → Prop) d :
  Q tt d → (∀ x, E x d) → wpd (assert_no_dependent_breaks t p v) Q E d.
Proof.
  intros HQ HE. unfold assert_no_dependent_breaks. apply wpd_bind, wpd_list_packs. intros l.
  apply wpd_for_each; [|done]. intros item _. apply wpd_for_each; [|done]. intros dep _.
  unfold check_dependent. destruct (negb _); [by apply wpd_ret|].
  apply wpd_bind, wpd_lift; [|done]. intros b _. by apply wpd_throw_if.
Qed.

Section one_operation.
Context (d : store) (Hok : packs_ok d).

Definition after (d' : store) : Prop := packs_ok d' ∧ advances d d'.

Lemma after_refl : after d.
Proof. split; [done|apply advances_refl]. Qed.

Lemma wpd_finish t ev p v actor reason d' :
  pending t d d' →
  wpd (record_pack_fact t ev p v actor reason ;; refresh_tenant_goal_types t)
    (fun _ => after) (fun _ => after) d'.
Proof.
  intros Hp. apply wpd_bind, wpd_record_pack_fact. intros l.
  eapply wpd_refresh; [exact Hok|by apply pending_audits|]. intros d'' H1 H2. by split.
Qed.

Lemma wpd_set_pack_enabled t p v b actor reason : (b = true → ¬ revoked d (t, p, v)) →
  wpd (set_pack_enabled t p v b actor reason) (fun _ => after) (fun _ => after) d.
Proof.
  intros Hb. unfold set_pack_enabled. pose proof Hok as [Hwf _].
  apply wpd_bind, wpd_require_pack; [|intros; apply after_refl]. intros m Hm.
  apply wpd_bind, wpd_update, wpd_finish, pending_state; [done|done|]. cbn.
  rewrite revoked_spec. intros Hr. destruct b; [|done]. by destruct (Hb eq_refl).
Qed.

Lemma wpd_revoke_pack t p v actor reason :
  wpd (Store.revoke_pack t p v actor reason) (fun _ => after) (fun _ => after) d.
Proof.
  unfold Store.revoke_pack. pose proof Hok as [Hwf _].
  apply wpd_bind, wpd_require_pack; [|intros; apply after_refl]. intros m Hm.
  apply wpd_bind, wpd_update, wpd_finish. by apply pending_state.
Qed.

Lemma wpd_set_stable_channel t p v actor : ¬ revoked d (t, p, v) →
  wpd (Store.set_stable_channel t p v actor) (fun _ => after) (fun _ => after) d.
Proof.
  intros Hr. unfold Store.set_stable_channel. pose proof Hok as [Hwf _].
  apply wpd_bind, wpd_require_pack; [|intros; apply after_refl]. intros m Hm.
  apply wpd_bind, wpd_update, wpd_finish. by apply pending_channel.
Qed.

Lemma wpd_store_install t m : sortable (CapabilityPackManifest.version m) →
  wpd (Store.install_pack t m) (fun _ => after) (fun _ => after) d.
Proof.
  intros Hv. unfold Store.install_pack. pose proof Hok as [Hwf _].
  apply wpd_bind, wpd_query. unfold id. case_match eqn:Em.
  - apply wpd_throw_if; intros; apply after_refl.
  - apply wpd_bind, wpd_update.
    eapply wpd_refresh; [exact Hok|by apply pending_install|]. intros d'' H1 H2. by split.
Qed.

Lemma operation_advances identity op : operation_ok op →
  wpd (run_operation verifier identity op) (fun _ => after) (fun _ => after) d.
Proof.
  intros Hop. pose proof after_refl as Hd.
  destruct op as [m|c|c|c|c]; cbn [run_operation] in *.
  - apply wpd_bind. unfold install_pack. destruct verifier as [verify|] eqn:Ev; [|by apply wpd_throw].
    apply wpd_bind, wpd_quiet; [by eapply Hverifier|intros []|done].
    apply wpd_bind, wpd_dependencies; [|done].
    apply wpd_bind. eapply wpd_mono; [apply wpd_store_install; by apply semver_has_key| |done].
    intros [] d' H. by do 2 apply wpd_ret.
  - unfold disable_pack, require_reason. apply wpd_bind, wpd_throw_if; [intros _|done].
    by apply wpd_set_pack_enabled.
  - unfold enable_pack, is_pack_revoked. apply wpd_bind, wpd_query.
    apply wpd_bind, wpd_throw_if; [intros Hr|done]. apply wpd_set_pack_enabled.
    rewrite <- revoked_spec. congruence.
  - unfold revoke_pack, require_reason. apply wpd_bind, wpd_throw_if; [intros _|done].
    apply wpd_revoke_pack.
  - unfold set_stable_channel, get_installed_pack, is_pack_revoked. apply wpd_bind, wpd_query.
    case_match; [|by apply wpd_throw].
    apply wpd_bind, wpd_query, wpd_bind, wpd_throw_if; [intros Hr|done].
    apply wpd_bind, wpd_dependencies; [|done]. apply wpd_bind, wpd_dependents; [|done].
    apply wpd_set_stable_channel. rewrite <- revoked_spec. congruence.
Qed.
End one_operation.
End operations.

(** ** Properties *)

Section reachable.
Import CapabilityPackService.
Context {X : Type} (verifier : option (CapabilityPackManifest.t → M (world X) unit)).

(** An operation ran, and returned or raised. *)
Inductive pack_step : world X → world X → Prop :=
  | PackStep identity op e w n k r s' :
      operation_ok op → run_operation verifier identity op e (St w n k) = (r, s') →
      pack_step w (data s').

(** The verifier leaves the store alone. *)
Definition verifier_quiet : Prop := ∀ verify manifest, verifier = Some verify → quiet (verify manifest).

Lemma pack_steps w w' : verifier_quiet → rtc pack_step w w' → packs_ok (db w) →
  packs_ok (db w') ∧ advances (db w) (db w').
Proof.
  intros Hv. induction 1 as [w|w w1 w2 [identity op e w0 n k r s' Hop Hrun] _ IH]; intros Hok.
  { split; [done|apply advances_refl]. }
  pose proof (operation_advances (fun _ => True) verifier Hv (db w0) Hok identity op Hop w0 eq_refl
    e n k (fun _ => I)) as H. rewrite Hrun in H.
  assert (after (db w0) (db (data s'))) as [H1 H2] by (by destruct r).
  destruct (IH H1) as [H3 H4]. split; [done|]. by eapply advances_trans.
Qed.

(** No pack was ever installed. *)
Definition no_packs (d : store) : Prop :=
  tenant_packs d = ∅ ∧ pack_states d = ∅ ∧ tenant_goal_types d = ∅.

Lemma no_packs_ok d : no_packs d → packs_ok d.
Proof.
  intros (Hp & Hs & Hg). split.
  - constructor; rewrite ?Hp, ?Hs; [apply dict_empty_wf|by intros ?..].
  - intros t. split; [rewrite Hg; by intros ?|]. intros p m (v & Hv & _). by rewrite Hp in Hv.
Qed.

(** C22. However packs with semantic versions are installed, enabled, disabled,
    revoked and pinned in a store that had none, a goal type that get_goal_type
    answers a tenant is offered by a listable version of an installed pack, the one
    its stable channel or the version order selects, or, when no pack offers it to the
    tenant, is the one registered for the whole platform before, which pack operations
    leave as it was; and every selected pack offers its goal types. *)
Theorem catalogue_governed w w' t : verifier_quiet → no_packs (db w) → rtc pack_step w w' →
  (∀ g gt e n k s', get_goal_type t g e (St w' n k) = (Ok gt, s') →
     (∃ p m, selected (db w') t p m ∧ gt ∈ CapabilityPackManifest.goal_types m ∧
        GoalTypeManifest.goal_type gt = g) ∨
     (tenant_goal_types (db w') !! (t, g) = None ∧ Store.goal_types (db w) !! g = Some gt)) ∧
  (∀ p m, selected (db w') t p m → ∃ m', selected (db w') t p m' ∧
     ∀ gt, gt ∈ CapabilityPackManifest.goal_types m' →
       is_Some (tenant_goal_types (db w') !! (t, GoalTypeManifest.goal_type gt))).
Proof.
  intros Hv Hw Hs. destruct (pack_steps w w' Hv Hs) as [[_ H] Ha]; [by apply no_packs_ok|].
  destruct (H t) as [Hg Hp]. split; [|exact Hp]. intros g gt e n k s' Hr.
  unfold get_goal_type in Hr. apply run_bind in Hr as (d & s1 & [-> ->]%run_query & Hr).
  cbn [data] in Hr. unfold id in Hr. destruct (tenant_goal_types (db w') !! (t, g)) as [x|] eqn:Ex.
  - injection Hr as -> _. left. by apply Hg.
  - right. split; [done|]. rewrite (platform_types_stay _ _ Ha) in Hr.
    destruct (Store.goal_types (db w) !! g) as [x|]; [by injection Hr as -> _|discriminate Hr].
Qed.

(** C23. A revoked pack version stays revoked and unlisted whatever happens later: it
    can no longer be enabled or made the stable channel, and its stored manifest is
    not replaced. *)
Theorem revoked_pack_is_final w w1 w2 t p v :
  verifier_quiet → no_packs (db w) → rtc pack_step w w1 → revoked (db w1) (t, p, v) →
  rtc pack_step w1 w2 →
  revoked (db w2) (t, p, v) ∧ ¬ listable (db w2) t p v ∧
  (∀ m, tenant_packs (db w1) !! (t, p, v) = Some m → tenant_packs (db w2) !! (t, p, v) = Some m) ∧
  (pack_channels (db w2) !! (t, p) = Some v → pack_channels (db w1) !! (t, p) = Some v) ∧
  ∀ identity reason e n k, IdentityContext.tenant_id identity = t →
    let c := PackLifecycleCommand.mk p v reason in
    (∃ x, run_operation verifier identity (EnablePack c) e (St w2 n k) = (Err x, St w2 n k)) ∧
    (∃ x, run_operation verifier identity (SetStableChannel c) e (St w2 n k) = (Err x, St w2 n k)).
Proof.
  intros Hv Hw Hs1 Hr Hs2. pose proof (no_packs_ok _ Hw) as H0.
  destruct (pack_steps w w1 Hv Hs1 H0) as [H1 _], (pack_steps w1 w2 Hv Hs2 H1) as [[Hwf _] Hadv].
  assert (Hr2 : revoked (db w2) (t, p, v)) by (by apply Hadv). pose proof Hr2 as (s & Es & Hrs).
  split; [done|]. split; [|split; [apply Hadv|split; [by apply Hadv|]]].
  - unfold listable, pack_is_listable. rewrite Es. cbn. by rewrite Hrs, andb_false_r.
  - intros identity reason e n k <- c. apply revoked_spec in Hr2. cbn [run_operation].
    unfold enable_pack, set_stable_channel, is_pack_revoked, get_installed_pack, query.
    unfold mbind, M_bind, get. cbn -[lookup]. rewrite Hr2. split; [eexists; reflexivity|].
    destruct (tenant_packs (db w2) !! _); cbn -[lookup]; rewrite ?Hr2; eexists; reflexivity.
Qed.
End reachable.

Lemma by_pack_id_spec listed p item :
  CapabilityPackService.by_pack_id listed !! p = Some item →
  item ∈ listed ∧ CapabilityPackManifest.pack_id item = p.
Proof.
  unfold CapabilityPackService.by_pack_id, dict_of_list.
  assert (∀ d, foldl (fun d (kv : string * CapabilityPackManifest.t) => <[kv.1:=kv.2]> d) d
    ((fun item => (CapabilityPackManifest.pack_id item, item)) <$> listed) =
    foldl (fun d item => <[CapabilityPackManifest.pack_id item:=item]> d) d listed) as ->.
  { induction listed as [|x l IH]; intros d; cbn; [done|]. by rewrite IH. }
  intros [H|H]%dict_fill_lookup; done.
Qed.

Section checks.
Context {X : Type}.
Import CapabilityPackService.

Lemma run_list_packs t b e (s : st (world X)) l s' :
  list_capability_packs t b e s = (Ok l, s') → list_capability_packs t b e s = (Ok l, s) ∧ s' = s.
Proof.
  intros H. pose proof H as H'. unfold list_capability_packs in H. inv_run.
  by apply run_query in Hr as [_ ->].
Qed.

Lemma run_dependencies t m e (s : st (world X)) s' :
  assert_dependencies_available t m e s = (Ok tt, s') →
  ∃ listed, list_capability_packs t false e s = (Ok listed, s) ∧
    Forall (fun dep => ∃ item, item ∈ listed ∧
      CapabilityPackManifest.pack_id item = PackDependency.pack_id dep ∧
      version_satisfies (PackDependency.version_spec dep)
        (CapabilityPackManifest.version item) = Ok true) (CapabilityPackManifest.dependencies m) ∧
    s' = s.
Proof.
  unfold assert_dependencies_available. intros H. inv_run.
  apply run_list_packs in Hr as [Hl ->]. exists a. split; [done|].
  eapply run_for_each; [|exact H]. intros dep s2 Hdep. unfold check_dependency in Hdep.
  destruct (by_pack_id a !! _) as [item|] eqn:Ei; inv_run; bool_hyps; [|done].
  apply by_pack_id_spec in Ei as [? ?]. split; [|done]. exists item. by subst.
Qed.

Lemma run_dependents t p v e (s : st (world X)) s' :
  assert_no_dependent_breaks t p v e s = (Ok tt, s') →
  ∃ listed, list_capability_packs t false e s = (Ok listed, s) ∧
    Forall (fun item => Forall (fun dep => PackDependency.pack_id dep = p →
      version_satisfies (PackDependency.version_spec dep) v = Ok true)
      (CapabilityPackManifest.dependencies item)) listed ∧ s' = s.
Proof.
  unfold assert_no_dependent_breaks. intros H. inv_run.
  apply run_list_packs in Hr as [Hl ->]. exists a. split; [done|].
  eapply run_for_each; [|exact H]. intros item s2 Hitem.
  eapply run_for_each; [|exact Hitem]. intros dep s4 Hdep. unfold check_dependent in Hdep.
  destruct (bool_decide _) eqn:Eb; cbn in Hdep; bool_hyps; inv_run; bool_hyps; [|done].
  split; [|done]. intros _. by subst.
Qed.

Lemma run_set_stable_channel t p v actor e (s : st (world X)) s' :
  Store.set_stable_channel t p v actor e s = (Ok tt, s') →
  pack_channels (db (data s')) !! (t, p) = Some v.
Proof.
  intros H. destruct s as [w n k].
  assert (wpd (X := X) (fun _ => True) (Store.set_stable_channel t p v actor)
    (fun _ d' => pack_channels d' !! (t, p) = Some v) (fun _ _ => True) (db w)) as Hw.
  { unfold Store.set_stable_channel. apply wpd_bind, wpd_require_pack; [intros m _|done].
    apply wpd_bind, wpd_update, wpd_bind, wpd_record_pack_fact. intros l.
    unfold refresh_tenant_goal_types. apply wpd_bind, wpd_query, wpd_bind, wpd_lift; [|done].
    intros index _. apply wpd_update. cbn. apply dict_lookup_insert. }
  specialize (Hw w eq_refl e n k (fun _ => I)). by rewrite H in Hw.
Qed.
End checks.

(** A pack that becomes stable: installed, not revoked, its dependencies listed in
    a version they accept, and accepted by every pack that depends on it. *)
Theorem stable_channel_is_consistent {X} identity c e (s : st (world X)) s' :
  CapabilityPackService.set_stable_channel identity c e s = (Ok tt, s') →
  let d := db (data s) in
  let t := IdentityContext.tenant_id identity in
  let p := PackLifecycleCommand.pack_id c in
  let v := PackLifecycleCommand.version c in
  ∃ m listed,
    tenant_packs d !! (t, p, v) = Some m ∧ ¬ revoked d (t, p, v) ∧
    list_capability_packs t false e s = (Ok listed, s) ∧
    (∀ dependency, dependency ∈ CapabilityPackManifest.dependencies m →
       ∃ item, item ∈ listed ∧
         CapabilityPackManifest.pack_id item = PackDependency.pack_id dependency ∧
         version_satisfies (PackDependency.version_spec dependency)
           (CapabilityPackManifest.version item) = Ok true) ∧
    (∀ item dependency, item ∈ listed → dependency ∈ CapabilityPackManifest.dependencies item →
       PackDependency.pack_id dependency = p →
       version_satisfies (PackDependency.version_spec dependency) v = Ok true) ∧
    pack_channels (db (data s')) !! (t, p) = Some v.
Proof.
  unfold CapabilityPackService.set_stable_channel, get_installed_pack, is_pack_revoked.
  intros H. cbv zeta. inv_run. apply run_query in Hr as [-> ->].
  destruct (tenant_packs _ !! _) as [m|] eqn:Em; [|done]. inv_run.
  apply run_query in Hr as [-> ->]. repeat match goal with a : () |- _ => destruct a end.
  apply run_dependencies in Hr1 as (listed & Hl & Hd & ->).
  apply run_dependents in Hr2 as (listed' & Hl' & Hd' & ->).
  rewrite Hl in Hl'. injection Hl' as <-. rewrite Forall_forall in Hd. rewrite Forall_forall in Hd'.
  exists m, listed. split_and!; [done| |done|done| |].
  - rewrite <- revoked_spec. congruence.
  - intros item dep Hi. specialize (Hd' item Hi). rewrite Forall_forall in Hd'. apply Hd'.
  - by eapply run_set_stable_channel.
Qed.

(** ** A tenant with two versions of a pack *)

Section sample.
Import CapabilityPackService.

Definition sample_goal_type (name agent : string) : GoalTypeManifest.t :=
  GoalTypeManifest.mk name [] agent "suite" "policy" 100.

Definition sample_pack (pack_id version agent : string) (dependencies : list PackDependency.t)
    : CapabilityPackManifest.t :=
  CapabilityPackManifest.mk "autonoesis/v1alpha1" pack_id version (pack_id +:+ ":pack")
    [sample_goal_type (pack_id +:+ ".report") agent] [] [] [] [] None None None None None None
    dependencies.

Definition base_9 := sample_pack "base" "1.9.0" "agent-9" [].
Definition base_10 := sample_pack "base" "1.10.0" "agent-10" [].
Definition app := sample_pack "app" "1.0.0" "agent-app" [PackDependency.mk "base" ">=1.2.0 <2.0.0"].
Definition new_app :=
  sample_pack "new-app" "1.0.0" "agent-new" [PackDependency.mk "base" ">=1.10.0"].

Definition someone : IdentityContext.t :=
  IdentityContext.mk 7%N 8%N 8%N ["pack-admin"] None None "access".
Definition ids_only : env := Env (fun _ => Aware 0) (fun n => N.of_nat n).
Definition accepting : option (CapabilityPackManifest.t → M (world unit) unit) :=
  Some (fun _ => mret tt).
Definition blank_world : st (world unit) := St (World empty_store tt) 0 0.

Fixpoint play_packs (ops : list operation) (s : st (world unit)) : st (world unit) :=
  match ops with
  | [] => s
  | op :: ops' => play_packs ops' (run_operation accepting someone op ids_only s).2
  end.

Lemma accepting_quiet : verifier_quiet accepting.
Proof. intros verify m [= <-] w. by apply wp_ret. Qed.

Lemma play_packs_reaches ops s : Forall operation_ok ops →
  rtc (pack_step accepting) (data s) (data (play_packs ops s)).
Proof.
  intros Hops. revert s. induction Hops as [|op ops Hop _ IH]; intros s; cbn; [constructor|].
  destruct (run_operation accepting someone op ids_only s) as [r s'] eqn:E. cbn.
  eapply rtc_l; [|apply IH]. destruct s as [w n k]. by econstructor.
Qed.

Definition two_versions : list operation :=
  [InstallPack base_9; InstallPack base_10; InstallPack app].
Definition then_stable : list operation :=
  [SetStableChannel (PackLifecycleCommand.mk "base" "1.9.0" "")].
Definition then_revoke : list operation :=
  [RevokePack (PackLifecycleCommand.mk "base" "1.10.0" "broken")].

Definition installed := play_packs two_versions blank_world.
Definition pinned := play_packs then_stable installed.
Definition withdrawn := play_packs then_revoke installed.

Lemma installed_reached : rtc (pack_step accepting) (data blank_world) (data installed).
Proof. apply play_packs_reaches. repeat constructor; vm_compute; reflexivity. Qed.

Lemma withdrawn_reached : rtc (pack_step accepting) (data installed) (data withdrawn).
Proof. apply play_packs_reaches. repeat constructor. Qed.

Lemma withdrawn_from_blank : rtc (pack_step accepting) (data blank_world) (data withdrawn).
Proof. etransitivity; [exact installed_reached|exact withdrawn_reached]. Qed.

Lemma blank_has_no_packs : no_packs (db (data blank_world)).
Proof. done. Qed.

Definition agent_of (s : st (world unit)) (g : string) : option string :=
  GoalTypeManifest.agent <$> tenant_goal_types (db (data s)) !! (7%N, g).

Example greatest_version_is_used : agent_of installed "base.report" = Some "agent-10".
Proof. vm_compute. reflexivity. Qed.

Example channel_is_used : agent_of pinned "base.report" = Some "agent-9".
Proof. vm_compute. reflexivity. Qed.

Example withdrawn_is_not_used : agent_of withdrawn "base.report" = Some "agent-9".
Proof. vm_compute. reflexivity. Qed.
End sample.

Lemma catalogue_governed_witness :
  ∃ p m gt, selected (db (data installed)) 7%N p m ∧
    gt ∈ CapabilityPackManifest.goal_types m ∧ GoalTypeManifest.agent gt = "agent-10".
Proof.
  destruct (catalogue_governed accepting _ _ 7%N accepting_quiet blank_has_no_packs
    installed_reached) as [H _].
  destruct (H "base.report" (sample_goal_type "base.report" "agent-10") ids_only 0%nat 0%nat
    (St (data installed) 0 0)) as [(p & m & Hm & Hgt & _)|[_ Hn]];
    [vm_compute; reflexivity| |vm_compute in Hn; discriminate Hn].
  exists p, m, (sample_goal_type "base.report" "agent-10"). exact (conj Hm (conj Hgt eq_refl)).
Defined.

Lemma revoked_pack_is_final_witness : ∃ w, rtc (pack_step accepting) (data installed) w ∧
  ¬ listable (db w) 7%N "base" "1.10.0".
Proof.
  exists (data withdrawn). split; [exact withdrawn_reached|].
  assert (Hr : revoked (db (data withdrawn)) (7%N, "base", "1.10.0"))
    by (apply revoked_spec; vm_compute; reflexivity).
  exact (proj1 (proj2 (revoked_pack_is_final accepting _ _ _ 7%N "base" "1.10.0" accepting_quiet
    blank_has_no_packs withdrawn_from_blank Hr
    (rtc_refl _ _)))).
Defined.

Lemma stable_channel_is_consistent_witness :
  pack_channels (db (data pinned)) !! (7%N, "base") = Some "1.9.0".
Proof.
  assert (H : CapabilityPackService.set_stable_channel someone
    (PackLifecycleCommand.mk "base" "1.9.0" "") ids_only installed = (Ok tt, pinned))
    by (vm_compute; reflexivity).
  destruct (stable_channel_is_consistent _ _ _ _ _ H) as (m & l & _ & _ & _ & _ & _ & Hc).
  exact Hc.
Defined.

(** The dependency check takes the listed version of a pack that comes last as a
    text: 1.9.0, although 1.10.0 is installed and in use. *)
Theorem dependency_check_uses_text_order :
  agent_of installed "base.report" = Some "agent-10" ∧
  version_satisfies ">=1.10.0" "1.10.0" = Ok true ∧
  (CapabilityPackService.run_operation accepting someone
     (CapabilityPackService.InstallPack new_app) ids_only installed).1 =
  raise ValueError "capability pack new-app@1.0.0 requires base >=1.10.0, found 1.9.0".
Proof. vm_compute. split_and!; reflexivity. Qed.
