(* ===== verification/ExecutionGateway.v ===== *)
(** * packages/adapters: execution_gateway.py

    What stands behind the ports of the tool gateway: the catalogue, the
    delegation store, the credential broker, the egress registry, the audit
    list, and the execution reservations, in memory and over the relational
    database.

    The relational reservations are in [SqlReservations].

    [Reservations] is what a reservation service promises the gateway: a key
    is acquired at most once and not forgotten.  [one_call_per_key] draws the
    conclusion for gateway calls that run concurrently: an idempotency key
    causes at most one external call.  This service and the relational one
    discharge the interface.

    References to a shared mutable object are indices into the list of the
    objects created so far. *)

From S2P Require Import Prelude PyStr PyDict Json Transitions Values Goals Execution.
From S2P Require Import ExecutionObjects Programs Identity Digests Uuids Rows Effects Gateway.
From S2P Require Import GatewayProofs.
From Stdlib Require Import ZArith.

Open Scope string_scope.
Open Scope list_scope.
Open Scope Z_scope.

(** [str(uuid4())] *)
Definition fresh_id {S} : M S string := u ← uuid4; mret (uuid_str u).

(** ** Catalogue, credentials and egress *)

Module StaticToolCatalog.
Notation t := (dict (string * string) ResolvedToolVersion.t).

Definition new (definitions : list ResolvedToolVersion.t) : t :=
  dict_of_list ((fun item =>
    ((ResolvedToolVersion.tool_name item, ResolvedToolVersion.version item), item)) <$> definitions).

Definition resolve (x : t) (tool_name version : string) : res ResolvedToolVersion.t :=
  match x !! (tool_name, version) with
  | Some item => Ok item
  | None => raise LookupError
      ("tool version " +:+ tool_name +:+ "@" +:+ version +:+ " is not registered")
  end.
End StaticToolCatalog.

Module EphemeralCredentialBroker.
(** [issue] of a broker whose leases live for [ttl] microseconds. *)
Definition issue {S} (ttl : Z) (tool : ResolvedToolVersion.t) : M S CredentialLease.t :=
  fresh ← fresh_id;
  time ← now;
  lift (CredentialLease.new (CredentialLease.mk ("lease://" +:+ fresh)
    (ResolvedToolVersion.credential_scope tool) (dt_add time ttl))).
End EphemeralCredentialBroker.

(** The adapter of a provider is code outside the boundary. *)
Record egress_adapter := EgressToolAdapter {
  adapter_execute : Action.t → CredentialLease.t → res ToolReceipt.t;
  adapter_verify : Action.t → ToolReceipt.t → res bool
}.

Module RegistryControlledEgress.
Notation t := (dict (string * string * string) egress_adapter).

Definition resolve (x : t) (tool : ResolvedToolVersion.t) : res egress_adapter :=
  match x !! (ResolvedToolVersion.tool_name tool, ResolvedToolVersion.version tool,
              ResolvedToolVersion.provider tool) with
  | Some adapter => Ok adapter
  | None => raise LookupError "tool is not registered in the controlled egress boundary"
  end.

Definition execute {S} (x : t) (action : Action.t) (tool : ResolvedToolVersion.t)
    (credential : CredentialLease.t) : M S ToolReceipt.t :=
  time ← now;
  expired ← lift (dt_le (CredentialLease.expires_at credential) time);
  throw_if expired PermissionError "egress credential expired before use" ;;
  throw_if (negb (bool_decide (CredentialLease.scope credential =
                               ResolvedToolVersion.credential_scope tool))) PermissionError
    "egress credential scope differs from tool definition" ;;
  adapter ← lift (resolve x tool);
  lift (adapter_execute adapter action credential).

Definition verify (x : t) (action : Action.t) (tool : ResolvedToolVersion.t)
    (receipt : ToolReceipt.t) : res bool :=
  adapter ← resolve x tool; adapter_verify adapter action receipt.
End RegistryControlledEgress.

Module InMemoryGatewayAudit.
Definition record (item : GatewayAuditRecord.t) : M (list GatewayAuditRecord.t) unit :=
  modify (fun records => records ++ [item]).
End InMemoryGatewayAudit.

(** ** Delegations in memory *)

(** A grant of a principal, or the pair of [grant]. *)
Inductive stored_grant :=
  | Scoped (grant : DelegationGrant.t)
  | Compatible (tool_name resource_prefix : string).

Definition is_admin (context : AuthorizationContext.t) : bool :=
  mem "platform_admin" (AuthorizationContext.roles context).

Module InMemoryDelegationStore.
Notation t := (dict string stored_grant).

Definition grant (delegation_id tool_name resource_prefix : string) : M t unit :=
  modify (fun grants => <[delegation_id := Compatible tool_name resource_prefix]> grants).

Definition grant_scoped (grant : DelegationGrant.t) : M t unit :=
  modify (fun grants => <[uuid_str (DelegationGrant.delegation_id grant) := Scoped grant]> grants).

Definition revoke (delegation_id : string) : M t unit :=
  grants ← get;
  match grants !! delegation_id with
  | Some (Scoped grant) =>
      time ← now;
      revoked ← lift (DelegationGrant.revoke grant None time);
      put (<[delegation_id := Scoped revoked]> grants)
  | _ => put (delete delegation_id grants)
  end.

Definition authorize (context : AuthorizationContext.t) (action : Action.t)
    (tool : ResolvedToolVersion.t) : M t bool :=
  match AuthorizationContext.delegation_id context with
  | None => mret (is_admin context)
  | Some delegation_id =>
      grants ← get;
      match grants !! delegation_id with
      | Some (Scoped grant) =>
          tenant ← lift (uuid_of_str (AuthorizationContext.tenant_id context));
          principal ← lift (uuid_of_str (AuthorizationContext.principal_id context));
          time ← now;
          lift (DelegationGrant.authorizes grant tenant principal
                  (ResolvedToolVersion.tool_name tool) (Action.resource_scope action)
                  (AuthorizationContext.purpose context) None time)
      | Some (Compatible tool_name resource_prefix) =>
          mret (bool_decide (tool_name = ResolvedToolVersion.tool_name tool) &&
                startswith (Action.resource_scope action) resource_prefix)
      | None => mret false
      end
  end.
End InMemoryDelegationStore.

(** ** What a reservation service promises *)

(** The identity of a reservation: tenant and idempotency key. *)
Definition key_of (request : ExecutionReservation.t) : string * string :=
  (ExecutionReservation.tenant_id request, ExecutionReservation.idempotency_key request).

Class Reservations (S : Type) := {
  reserve : ExecutionReservation.t → M S ReservationDecision.t;
  complete_reservation : string → string → ToolReceipt.t → M S unit;
  (** The key has been reserved. *)
  known : string * string → S → Prop
}.

(** The keys of [s] are still known in [s']. *)
Definition remembers {S} `{Reservations S} (s s' : S) : Prop := ∀ k, known k s → known k s'.

Class ReservationsLaws (S : Type) `{Reservations S} : Prop := {
  reserve_acquires : ∀ request s,
    wp (reserve request)
      (fun d s' => remembers s s' ∧
         (ReservationDecision.status d = ReservationStatus.ACQUIRED →
          ¬ known (key_of request) s ∧ known (key_of request) s'))
      (fun _ s' => remembers s s') s;
  complete_remembers : ∀ tenant_id reservation_id receipt s,
    wp (complete_reservation tenant_id reservation_id receipt)
      (fun _ s' => remembers s s') (fun _ s' => remembers s s') s
}.

(** One call on a service. *)
Inductive reservation_op :=
  | Reserving (request : ExecutionReservation.t)
  | Completing (tenant_id reservation_id : string) (receipt : ToolReceipt.t).

Definition call_op {S} `{Reservations S} (op : reservation_op) : M S (option ReservationDecision.t) :=
  match op with
  | Reserving request => d ← reserve request; mret (Some d)
  | Completing tenant_id id receipt => complete_reservation tenant_id id receipt ;; mret None
  end.

(** ** The reservations in memory *)

Module MemoryReservation.
Record t := mk {
  request : ExecutionReservation.t; reservation_id : string; receipt : option ToolReceipt.t
}.
End MemoryReservation.

Module InMemoryAtomicExecutionReservations.
Record t := mk {
  limit : Z;
  used : dict (string * string) Z;
  objects : list MemoryReservation.t;
  records : dict (string * string) nat;
  by_id : dict string nat
}.

Definition new (limit : Z) : t := mk limit ∅ [] ∅ ∅.

(** The object a reference leads to. *)
Definition deref (x : t) (i : nat) : res MemoryReservation.t :=
  match objects x !! i with
  | Some r => Ok r
  | None => raise RuntimeError "dangling reference"
  end.

Definition usage_key (request : ExecutionReservation.t) : string * string :=
  (ExecutionReservation.tenant_id request, ExecutionReservation.run_id request).

(** The answer for a key that is reserved. *)
Definition existing_decision (existing : MemoryReservation.t) (request : ExecutionReservation.t)
    : ReservationDecision.t :=
  if negb (bool_decide (ExecutionReservation.request_digest (MemoryReservation.request existing) =
                        ExecutionReservation.request_digest request)) then
    ReservationDecision.mk ReservationStatus.CONFLICT None None
  else match MemoryReservation.receipt existing with
  | None => ReservationDecision.mk ReservationStatus.IN_PROGRESS None None
  | Some receipt =>
      if mem (ToolReceipt.status receipt) [ToolResultStatus.ACCEPTED; ToolResultStatus.UNKNOWN] then
        ReservationDecision.mk ReservationStatus.UNKNOWN
          (Some (MemoryReservation.reservation_id existing)) None
      else ReservationDecision.mk ReservationStatus.CACHED
             (Some (MemoryReservation.reservation_id existing)) (Some receipt)
  end.

Definition reserve (request : ExecutionReservation.t) : M t ReservationDecision.t :=
  x ← get;
  match records x !! key_of request with
  | Some i =>
      existing ← lift (deref x i);
      mret (existing_decision existing request)
  | None =>
      let used_ := default 0 (used x !! usage_key request) in
      if limit x <? used_ + ExecutionReservation.cost_units request then
        mret (ReservationDecision.mk ReservationStatus.BUDGET_EXHAUSTED None None)
      else
        reservation_id ← fresh_id;
        let i := length (objects x) in
        put (mk (limit x)
               (<[usage_key request := used_ + ExecutionReservation.cost_units request]> (used x))
               (objects x ++ [MemoryReservation.mk request reservation_id None])
               (<[key_of request := i]> (records x))
               (<[reservation_id := i]> (by_id x))) ;;
        mret (ReservationDecision.mk ReservationStatus.ACQUIRED (Some reservation_id) None)
  end.

Definition complete (reservation_id : string) (receipt : ToolReceipt.t) : M t unit :=
  x ← get;
  i ← lift (at_key (items (by_id x)) reservation_id);
  record ← lift (deref x i);
  throw_if (match MemoryReservation.receipt record with
            | Some r => negb (bool_decide (r = receipt))
            | None => false
            end) RuntimeError "execution reservation is already completed" ;;
  put (mk (limit x) (used x)
         (<[i := MemoryReservation.mk (MemoryReservation.request record)
                   (MemoryReservation.reservation_id record) (Some receipt)]> (objects x))
         (records x) (by_id x)).
End InMemoryAtomicExecutionReservations.

#[export] Instance memory_reservations : Reservations InMemoryAtomicExecutionReservations.t := {|
  reserve := InMemoryAtomicExecutionReservations.reserve;
  complete_reservation _ := InMemoryAtomicExecutionReservations.complete;
  known k x := is_Some (InMemoryAtomicExecutionReservations.records x !! k)
|}.

(** ** Concurrent calls of the gateway *)

(** The tags of a list select one caller's elements. *)
Definition of_tag {A} (i : nat) (l : list (nat * A)) : list A :=
  omap (fun x => if decide (x.1 = i) then Some x.2 else None) l.

Definition count {A} (p : A → bool) (l : list A) : nat := length (List.filter p l).

Lemma count_app {A} (p : A → bool) l l' : count p (l ++ l') = (count p l + count p l')%nat.
Proof. unfold count. by rewrite List.filter_app, length_app. Qed.

Lemma count_zero {A} (p : A → bool) l : count p l = 0%nat ↔ ∀ x, x ∈ l → p x = false.
Proof.
  unfold count. induction l as [|a l IH]; cbn; [split; [by intros _ x ?%elem_of_nil|done]|].
  destruct (p a) eqn:E; cbn.
  - split; [done|]. intros H. specialize (H a ltac:(left)). congruence.
  - rewrite IH. split; [by intros H x [->|?]%elem_of_cons; auto|]. intros H x Hx. apply H. by right.
Qed.

Lemma count_pos {A} (p : A → bool) l x : x ∈ l → p x = true → (1 <= count p l)%nat.
Proof.
  intros Hx Hp. destruct (count p l) eqn:E; [|lia].
  rewrite (proj1 (count_zero p l) E x Hx) in Hp. done.
Qed.

(** The elements of one caller, and those of the others. *)
Lemma count_split {A} (p : A → bool) i (l : list (nat * A)) :
  count p l.*2 = (count p (of_tag i l) + count p (List.filter (fun x => negb (bool_decide (x.1 = i))) l).*2)%nat.
Proof.
  unfold count, of_tag. induction l as [|[j a] l IH]; cbn; [done|].
  case_decide as E; cbn.
  - rewrite bool_decide_eq_true_2 by done. cbn. destruct (p a); cbn; by rewrite IH.
  - rewrite bool_decide_eq_false_2 by done. cbn. destruct (p a); cbn; rewrite IH; lia.
Qed.

Lemma of_tag_others {A} i j (l : list (nat * A)) : i ≠ j →
  of_tag j (List.filter (fun x => negb (bool_decide (x.1 = i))) l) = of_tag j l.
Proof.
  intros Hne. unfold of_tag. induction l as [|[k a] l IH]; cbn; [done|].
  destruct (decide (k = i)) as [->|Hk].
  - rewrite bool_decide_eq_true_2 by done. cbn. rewrite decide_False by done. exact IH.
  - rewrite bool_decide_eq_false_2 by done. cbn. case_decide; by rewrite IH.
Qed.

(** What holds for each caller's elements holds for all of them. *)
Lemma count_by_tag {A} (p q : A → bool) (l : list (nat * A)) :
  (∀ i, (count p (of_tag i l) <= count q (of_tag i l))%nat) → (count p l.*2 <= count q l.*2)%nat.
Proof.
  remember (length l) as n eqn:En. revert l En.
  induction n as [n IH] using lt_wf_ind. intros l -> H. destruct l as [|[i a] l']; [done|].
  set (l := (i, a) :: l') in *.
  rewrite (count_split p i l), (count_split q i l).
  apply Nat.add_le_mono; [apply H|]. eapply IH; [|reflexivity|].
  - cbn. rewrite bool_decide_eq_true_2 by done. cbn. apply Nat.lt_succ_r, List.filter_length_le.
  - intros j. destruct (decide (i = j)) as [<-|Hne].
    + transitivity 0%nat; [|lia]. apply Nat.le_0_r, count_zero. intros x Hx. exfalso.
      apply list_elem_of_omap in Hx as ([k y] & Hy & E). cbn in E. case_decide; [|done]. subst.
      apply elem_of_list_filter in Hy as [_ Hy]. cbn in Hy. by rewrite bool_decide_eq_true_2 in Hy.
    + rewrite !of_tag_others by done. apply H.
Qed.

(** An answered reservation of the key. *)
Definition acquires (key : string * string) (ev : event (E := GatewayE)) : bool :=
  let 'existT B (c, r) := ev in
  match c in GatewayE B return res B → bool with
  | Reserve request => fun r =>
      match r with
      | Ok d => bool_decide (key_of request = key) &&
                bool_decide (ReservationDecision.status d = ReservationStatus.ACQUIRED)
      | Err _ => false
      end
  | _ => fun _ => false
  end r.

(** An external execution for the key. *)
Definition calls_out (key : string * string) (ev : event (E := GatewayE)) : bool :=
  match is_execute ev with
  | Some (action, _, _) =>
      bool_decide ((uuid_str (Action.tenant_id action), Action.idempotency_key action) = key)
  | None => false
  end.

Lemma count_executions key tr : (count (calls_out key) tr <= length (executions tr))%nat.
Proof.
  unfold count, executions. induction tr as [|ev tr IH]; cbn; [done|].
  unfold calls_out at 1. destruct (is_execute ev) as [[[a t] c]|]; cbn; [|done].
  case_bool_decide; cbn; lia.
Qed.

(** In any initial part of one call's trace, an external execution of the key
    has its reservation of the key. *)
Lemma call_acquires allow_l4 ctx action approval cost tr out part key :
  runs (execute allow_l4 ctx action approval cost) tr out → part `prefix_of` tr →
  (count (calls_out key) part <= count (acquires key) part)%nat.
Proof.
  intros H [rest ->]. destruct (execute_after _ _ _ _ _ _ _ H) as [Hl Ht].
  rewrite executions_app, length_app in Hl.
  pose proof (count_executions key part) as Hc.
  destruct (count (calls_out key) part) eqn:E; [lia|].
  assert (∃ ev, ev ∈ part ∧ calls_out key ev = true) as (ev & Hev & Hk).
  { destruct (List.filter (calls_out key) part) as [|ev l] eqn:Ef.
    - unfold count in E. rewrite Ef in E. discriminate E.
    - exists ev. apply elem_of_list_filter. rewrite Ef. left. }
  apply list_elem_of_split in Hev as (t1 & t2 & ->).
  unfold calls_out in Hk. destruct (is_execute ev) as [[[a t] c]|] eqn:Ex; [|done].
  apply bool_decide_eq_true in Hk.
  destruct (Ht t1 ev (t2 ++ rest) _ ltac:(by rewrite <- app_assoc) Ex) as (Hg & _ & Hs).
  destruct (go_reserved _ _ _ _ _ _ _ _ Hg) as (r & Hr & Hst).
  transitivity 1%nat; [lia|]. eapply count_pos; [apply elem_of_app; left; exact Hr|].
  cbn. rewrite Hst, !bool_decide_eq_true_2; [done..|]. rewrite <- Hk.
  unfold same_executable in Hs. destruct_and! Hs. unfold key_of. cbn. congruence.
Qed.

Section concurrent.
Context {S : Type} `{ReservationsLaws S}.

(** The service answers the reservation calls of a trace; between two calls
    others may change its state, but not forget keys. *)
Definition answers (s : S) (ev : event (E := GatewayE)) (s' : S) : Prop :=
  let 'existT B (c, r) := ev in
  match c in GatewayE B return res B → Prop with
  | Reserve request => fun r => ∃ e n k n' k', reserve request e (St s n k) = (r, St s' n' k')
  | Complete tenant_id reservation_id receipt => fun r => ∃ e n k n' k',
      complete_reservation tenant_id reservation_id receipt e (St s n k) = (r, St s' n' k')
  | _ => fun _ => remembers s s'
  end r.

Fixpoint served (s : S) (tr : list event) : Prop :=
  match tr with
  | [] => True
  | ev :: tr => ∃ s1 s2, remembers s s1 ∧ answers s1 ev s2 ∧ served s2 tr
  end.

Lemma answers_remembers s ev s' : answers s ev s' → remembers s s'.
Proof.
  destruct ev as [B [c r]], c; cbn; try done.
  - intros (e & n & k & n' & k' & E).
    pose proof (reserve_acquires request s e n k (fun _ => I)) as H1. rewrite E in H1.
    destruct r; [by destruct H1|exact H1].
  - intros (e & n & k & n' & k' & E).
    pose proof (complete_remembers tenant_id reservation_id receipt s e n k (fun _ => I)) as H1.
    rewrite E in H1. by destruct r.
Qed.

(** A key is acquired once, and not at all when it is known. *)
Lemma acquired_once key tr s : served s tr →
  (count (acquires key) tr <= 1)%nat ∧ (known key s → count (acquires key) tr = 0%nat).
Proof.
  revert s. induction tr as [|ev tr IH]; intros s Hs; cbn in Hs; [split; [apply Nat.le_0_l|done]|].
  destruct Hs as (s1 & s2 & H1 & H2 & Hs). specialize (IH s2 Hs) as [IH1 IH0].
  pose proof (answers_remembers _ _ _ H2) as Hm. unfold count. cbn.
  destruct (acquires key ev) eqn:Ea; cbn.
  - assert (¬ known key s1 ∧ known key s2) as [Hn Hk].
    { destruct ev as [B [c r]], c; try done. cbn in Ea, H2.
      destruct r as [d|]; [|done]. apply andb_true_iff in Ea as [Ek Ea].
      apply bool_decide_eq_true in Ek as <-. apply bool_decide_eq_true in Ea.
      destruct H2 as (e & n & k & n' & k' & E).
      pose proof (reserve_acquires request s1 e n k (fun _ => I)) as H2. rewrite E in H2.
      by apply H2. }
    specialize (IH0 Hk). unfold count in IH0. rewrite IH0. split; [done|].
    intros Hks. by apply H1 in Hks.
  - split; [exact IH1|]. intros Hks. apply IH0, Hm, H1, Hks.
Qed.

(** Any number of calls of the gateway, interleaved in any way and each cut off
    anywhere, against a service that keeps the interface: an idempotency key of a
    tenant causes at most one external call, and none when it was known before. *)
(** C4. Any number of gateway calls, interleaved in any way and each cut off anywhere,
    over any reservation service that keeps its interface: an idempotency key of a
    tenant causes at most one external call, and none when the key was known before.
    *)
Theorem one_call_per_key (allow_l4 : bool)
    (calls : nat → AuthorizationContext.t * Action.t * option ApprovalRequest.t * Z)
    (steps : list (nat * event)) (s : S) key :
  (∀ i, ∃ tr out, runs (let '(ctx, action, approval, cost) := calls i in
                        execute allow_l4 ctx action approval cost) tr out ∧
                  of_tag i steps `prefix_of` tr) →
  served s steps.*2 →
  (count (calls_out key) steps.*2 <= 1)%nat ∧
  (known key s → count (calls_out key) steps.*2 = 0%nat).
Proof.
  intros Hc Hs. destruct (acquired_once key _ _ Hs) as [Hone Hz].
  assert (count (calls_out key) steps.*2 <= count (acquires key) steps.*2)%nat as Hle.
  { apply count_by_tag. intros i. destruct (Hc i) as (tr & out & Hr & Hp).
    destruct (calls i) as [[[ctx action] approval] cost]. by eapply call_acquires. }
  split; [lia|]. intros Hk. specialize (Hz Hk). lia.
Qed.
End concurrent.

(** ** The reservations in memory keep their promise *)

Import InMemoryAtomicExecutionReservations.

(** What the reservations of a run cost. *)
Fixpoint spent (key : string * string) (l : list MemoryReservation.t) : Z :=
  match l with
  | [] => 0
  | r :: l =>
      (if decide (usage_key (MemoryReservation.request r) = key)
       then ExecutionReservation.cost_units (MemoryReservation.request r) else 0) + spent key l
  end.

Lemma granted_spent_snoc key l r : spent key (l ++ [r]) =
  spent key l + (if decide (usage_key (MemoryReservation.request r) = key)
                 then ExecutionReservation.cost_units (MemoryReservation.request r) else 0).
Proof. induction l as [|x l IH]; cbn; [lia|]. rewrite IH. lia. Qed.

Lemma spent_update key l i r r' : l !! i = Some r →
  MemoryReservation.request r' = MemoryReservation.request r →
  spent key (<[i := r']> l) = spent key l.
Proof.
  intros Hi E. revert i Hi. induction l as [|x l IH]; intros [|i]; cbn; try done.
  - intros [= ->]. by rewrite E.
  - intros Hi. by rewrite IH.
Qed.

(** The tables of the service fit together. *)
Record coherent (x : t) : Prop := {
  records_lead : ∀ k i, records x !! k = Some i →
    ∃ r, objects x !! i = Some r ∧ key_of (MemoryReservation.request r) = k;
  objects_are_recorded : ∀ i r, objects x !! i = Some r →
    records x !! key_of (MemoryReservation.request r) = Some i;
  used_is_spent : ∀ key, default 0 (used x !! key) = spent key (objects x);
  used_fits : ∀ key n, used x !! key = Some n → n <= limit x
}.

Lemma new_coherent n : coherent (new n).
Proof. by constructor. Qed.

(** A reservation of a fresh key. *)
Definition reserved (request : ExecutionReservation.t) (id : string) (x : t) : t :=
  mk (limit x)
    (<[usage_key request := default 0 (used x !! usage_key request) +
                            ExecutionReservation.cost_units request]> (used x))
    (objects x ++ [MemoryReservation.mk request id None])
    (<[key_of request := length (objects x)]> (records x))
    (<[id := length (objects x)]> (by_id x)).

Lemma reserved_coherent request id x : coherent x → records x !! key_of request = None →
  default 0 (used x !! usage_key request) + ExecutionReservation.cost_units request <= limit x →
  coherent (reserved request id x).
Proof.
  intros [H1 H2 H3 H4] Hn Hl. constructor; cbn.
  - intros k i [[<- <-]|[Hne Hk]]%dict_lookup_insert_Some.
    + eexists. by rewrite list_lookup_middle.
    + destruct (H1 k i Hk) as (r & Hr & E). exists r. split; [|done]. by apply lookup_app_l_Some.
  - intros i r [Hi|[Hi E]]%lookup_app_Some.
    + specialize (H2 i r Hi). rewrite dict_lookup_insert_ne; [done|]. intros E. congruence.
    + apply list_lookup_singleton_Some in E as [Ei <-]. cbn.
      rewrite dict_lookup_insert. f_equal. lia.
  - intros key. rewrite granted_spent_snoc. cbn. rewrite <- H3. case_decide as E.
    + subst. by rewrite dict_lookup_insert.
    + rewrite dict_lookup_insert_ne by done. lia.
  - intros key n [[<- <-]|[Hne Hk]]%dict_lookup_insert_Some; [done|]. by apply (H4 key).
Qed.

(** The object [i] has its receipt. *)
Definition finished (i : nat) (record : MemoryReservation.t) (receipt : ToolReceipt.t) (x : t) : t :=
  mk (limit x) (used x)
    (<[i := MemoryReservation.mk (MemoryReservation.request record)
              (MemoryReservation.reservation_id record) (Some receipt)]> (objects x))
    (records x) (by_id x).

Lemma finished_coherent i record receipt x : coherent x → objects x !! i = Some record →
  coherent (finished i record receipt x).
Proof.
  intros [H1 H2 H3 H4] Hi. constructor; cbn; [| | |done].
  - intros k j Hj. destruct (H1 k j Hj) as (r & Hr & E).
    destruct (decide (i = j)) as [<-|Hne].
    + eexists. rewrite list_lookup_insert_eq by (by eapply lookup_lt_Some).
      split; [reflexivity|]. cbn. congruence.
    + exists r. by rewrite list_lookup_insert_ne.
  - intros j r [(<- & <- & _)|[Hne Hj]]%list_lookup_insert_Some; cbn; by apply H2.
  - intros key. rewrite H3. symmetry. by eapply spent_update.
Qed.

(** The outcomes of [reserve] and [complete]. *)
Lemma wp_reserve F request x (Q : ReservationDecision.t → t → Prop) (E : exn → t → Prop) :
  (∀ i r, records x !! key_of request = Some i → objects x !! i = Some r →
     Q (existing_decision r request) x) →
  (∀ k, ¬ coherent x → E k x) →
  (records x !! key_of request = None →
   limit x < default 0 (used x !! usage_key request) + ExecutionReservation.cost_units request →
   Q (ReservationDecision.mk ReservationStatus.BUDGET_EXHAUSTED None None) x) →
  (records x !! key_of request = None →
   default 0 (used x !! usage_key request) + ExecutionReservation.cost_units request <= limit x →
   ∀ u, F u → Q (ReservationDecision.mk ReservationStatus.ACQUIRED (Some (uuid_str u)) None)
                (reserved request (uuid_str u) x)) →
  wpi F (InMemoryAtomicExecutionReservations.reserve request) Q E x.
Proof.
  intros H1 HE H2 H3. apply wp_bind, wp_get. cbn.
  destruct (records x !! key_of request) as [i|] eqn:Ek.
  - apply wp_bind, wp_lift; unfold deref; destruct (objects x !! i) as [r|] eqn:Er; try done.
    + intros ? [= <-]. apply wp_ret. by apply (H1 i r).
    + intros k _. apply HE. intros Hc. destruct (records_lead _ Hc _ _ Ek) as (r & Hr & _). congruence.
  - destruct (_ <? _) eqn:El.
    + apply wp_ret, H2; [done|]. by apply Z.ltb_lt.
    + apply wp_bind, wp_bind, wp_uuid4. intros u Hu. apply wp_ret, wp_bind, wp_put, wp_ret.
      apply H3; [done| |done]. by apply Z.ltb_ge.
Qed.

Lemma wp_complete F id receipt x (Q : unit → t → Prop) (E : exn → t → Prop) :
  (∀ i r, by_id x !! id = Some i → objects x !! i = Some r →
     (∀ rc, MemoryReservation.receipt r = Some rc → rc = receipt) →
     Q tt (finished i r receipt x)) →
  (¬ (∃ i r, by_id x !! id = Some i ∧ objects x !! i = Some r ∧ MemoryReservation.receipt r = None) →
   ∀ k, E k x) →
  wpi F (InMemoryAtomicExecutionReservations.complete id receipt) Q E x.
Proof.
  intros HQ HE. apply wp_bind, wp_get. cbn. apply wp_bind, wp_lift; unfold at_key;
    change (alist_get id _) with (by_id x !! id); destruct (by_id x !! id) as [i|] eqn:Ei; try done.
  - intros ? [= <-]. apply wp_bind, wp_lift; unfold deref; destruct (objects x !! i) as [r|] eqn:Er; try done.
    + intros ? [= <-]. apply wp_bind, wp_throw_if.
      * intros Hr. apply wp_put, (HQ i r); [done..|]. intros rc Erc. rewrite Erc in Hr.
        by apply negb_false_iff, bool_decide_eq_true in Hr.
      * intros Hr. apply HE. intros (i' & r' & [= <-] & Hr' & Hn). rewrite Er in Hr'.
        injection Hr' as <-. by rewrite Hn in Hr.
    + intros k _. apply HE. intros (i' & r' & [= <-] & Hr' & _). congruence.
  - intros k _. apply HE. by intros (i' & r' & ? & _).
Qed.

(** Callers drop what a call answers or raises. *)
Definition perform_op (op : reservation_op) : M t unit :=
  match op with
  | Reserving request => InMemoryAtomicExecutionReservations.reserve request ;; mret tt
  | Completing _ id receipt =>
      try_all (InMemoryAtomicExecutionReservations.complete id receipt) (fun _ => mret tt)
  end.

Lemma existing_not_acquired r request :
  ReservationDecision.status (existing_decision r request) ≠ ReservationStatus.ACQUIRED.
Proof.
  unfold existing_decision. case_bool_decide; [|done]. cbn.
  destruct (MemoryReservation.receipt r); [|done]. by destruct (mem _ _).
Qed.

#[export] Instance memory_reservations_laws : ReservationsLaws t.
Proof.
  split.
  - intros request x. apply wp_reserve.
    + intros i r Hk Hr. split; [by intros k|]. by intros ?%existing_not_acquired.
    + by intros _ _ k.
    + intros _ _. split; [by intros k|done].
    + intros Hn _ u _. split.
      * intros k [i Hk]. cbn. destruct (decide (key_of request = k)) as [<-|Hne].
        -- by rewrite dict_lookup_insert.
        -- rewrite dict_lookup_insert_ne by done. by exists i.
      * intros _. cbn. rewrite Hn, dict_lookup_insert. split; [by intros [? ?]|done].
  - intros tenant_id id receipt x. apply wp_complete; [by intros i r _ _ _ k|by intros _ k k'].
Qed.

Lemma perform_keeps_coherent op x n : coherent x ∧ limit x = n →
  wp (perform_op op) (fun _ x' => coherent x' ∧ limit x' = n) (fun _ _ => False) x.
Proof.
  intros [Hc Hl]. destruct op as [request|tenant id receipt]; cbn [perform_op].
  - apply wp_bind, wp_reserve; [intros; by apply wp_ret|done|intros; by apply wp_ret|].
    intros Hn Hfit u _. apply wp_ret. split; [by apply reserved_coherent|done].
  - apply wp_try_all, wp_complete; [|by intros; apply wp_ret].
    intros i r _ Hr _. split; [by apply finished_coherent|done].
Qed.

(** After any sequence of reservations and completions, whatever they asked for:
    the reservations granted to a run cost no more than the limit together, and no
    two of them have the same tenant and idempotency key. *)
(** C6. After any sequence of reservations and completions, whatever they asked for,
    the reservations granted to a run cost no more than the limit together, and no two
    of them have the same tenant and idempotency key. *)
Theorem reservations_fit_the_budget n ops :
  wp (for_each_m perform_op ops)
    (fun _ x => (∀ run, spent run (objects x) <= Z.max 0 n) ∧
                NoDup ((fun r => key_of (MemoryReservation.request r)) <$> objects x))
    (fun _ _ => False) (new n).
Proof.
  apply (wp_mono _ _ (fun _ x => coherent x ∧ limit x = n) _ (fun _ _ => False)); [| |done].
  - apply wp_for_each; [split; [apply new_coherent|done]|]. intros op x _. apply perform_keeps_coherent.
  - intros _ x [Hc Hl]. split.
    + intros run. rewrite <- (used_is_spent _ Hc). destruct (used x !! run) as [m|] eqn:E; cbn; [|lia].
      apply (used_fits _ Hc) in E. lia.
    + apply NoDup_alt. intros i j k Hi Hj.
      apply list_lookup_fmap_Some in Hi as (r & -> & Hr).
      apply list_lookup_fmap_Some in Hj as (r' & Ek & Hr').
      apply (objects_are_recorded _ Hc) in Hr, Hr'. congruence.
Qed.

(** What a later request of a completed reservation is told. *)
Definition replay (id : string) (receipt : ToolReceipt.t) : ReservationDecision.t :=
  if mem (ToolReceipt.status receipt) [ToolResultStatus.ACCEPTED; ToolResultStatus.UNKNOWN]
  then ReservationDecision.mk ReservationStatus.UNKNOWN (Some id) None
  else ReservationDecision.mk ReservationStatus.CACHED (Some id) (Some receipt).

(** The object [i], of this request, has its receipt. *)
Definition settled (i : nat) (request : ExecutionReservation.t) (id : string)
    (receipt : ToolReceipt.t) (x : t) : Prop :=
  coherent x ∧ objects x !! i = Some (MemoryReservation.mk request id (Some receipt)).

Lemma perform_keeps_settled op i request id receipt x : settled i request id receipt x →
  wp (perform_op op) (fun _ => settled i request id receipt) (fun _ _ => False) x.
Proof.
  intros Hs. pose proof Hs as [Hc Hi]. destruct op as [other|tenant id' receipt']; cbn [perform_op].
  - apply wp_bind, wp_reserve; [intros; by apply wp_ret|done|intros; by apply wp_ret|].
    intros Hn Hfit u _. apply wp_ret. split; [by apply reserved_coherent|]. by apply lookup_app_l_Some.
  - apply wp_try_all, wp_complete; [|by intros; apply wp_ret].
    intros j r _ Hr Hsame. split; [by apply finished_coherent|]. cbn.
    destruct (decide (i = j)) as [<-|Hne]; [|by rewrite list_lookup_insert_ne].
    rewrite list_lookup_insert_eq by (by eapply lookup_lt_Some). rewrite Hi in Hr.
    injection Hr as <-. cbn in *. by rewrite (Hsame receipt).
Qed.

(** Once a reservation was completed, every later request of its key is answered
    from its receipt, whatever was called in between and however often it asks: the
    receipt itself, or UNKNOWN when it left the effect open; a request with another
    digest is refused. *)
Theorem completed_is_replayed i request id receipt later again x :
  coherent x → by_id x !! id = Some i → objects x !! i = Some (MemoryReservation.mk request id None) →
  key_of again = key_of request →
  wp (InMemoryAtomicExecutionReservations.complete id receipt ;;
      for_each_m perform_op later ;;
      InMemoryAtomicExecutionReservations.reserve again)
    (fun d _ => d = if decide (ExecutionReservation.request_digest request =
                               ExecutionReservation.request_digest again) then replay id receipt
                    else ReservationDecision.mk ReservationStatus.CONFLICT None None)
    (fun k _ => False) x.
Proof.
  intros Hc Hb Hi Ek. apply wp_bind.
  apply (wp_mono _ _ (fun _ => settled i request id receipt) _ (fun _ _ => False)); [| |done].
  - apply wp_bind, wp_get. cbn. apply wp_bind, wp_lift; unfold at_key;
      change (alist_get id _) with (by_id x !! id); rewrite Hb; [|done]. intros ? [= <-].
    apply wp_bind, wp_lift; unfold deref; rewrite Hi; [|done]. intros ? [= <-].
    apply wp_bind, wp_throw_if; [|done]. intros _. apply wp_put. split.
    + apply (finished_coherent i _ receipt x Hc Hi).
    + cbn. by rewrite list_lookup_insert_eq by (by eapply lookup_lt_Some).
  - intros [] x' Hx'. apply wp_bind.
    apply (wp_mono _ _ (fun _ => settled i request id receipt) _ (fun _ _ => False)); [|intros [] x'' Hx''|done].
    { apply wp_for_each; [exact Hx'|]. intros op x1 _. apply perform_keeps_settled. }
    destruct Hx'' as [Hc'' Hi'']. pose proof (objects_are_recorded _ Hc'' _ _ Hi'') as Hr. cbn in Hr.
    rewrite <- Ek in Hr. apply wp_reserve; try done; try congruence.
    intros j r Hj Hr'. assert (j = i) as -> by congruence. rewrite Hi'' in Hr'. injection Hr' as <-.
    unfold existing_decision, replay. cbn. case_decide as E.
    + rewrite bool_decide_eq_true_2 by done. cbn. by destruct (mem _ _).
    + by rewrite bool_decide_eq_false_2.
Qed.

(** ** Samples *)

#[export] Instance decision_eq_dec : EqDecision ReservationDecision.t.
Proof. solve_decision. Defined.
#[export] Instance res_eq_dec {A} `{EqDecision A} : EqDecision (res A).
Proof. solve_decision. Defined.

(** Decides that the service in memory answers a trace, with these identifiers. *)
Fixpoint replays (e : env) (x : st t) (tr : list (event (E := GatewayE))) : bool :=
  match tr with
  | [] => true
  | existT B (c, r) :: tr =>
      match c in GatewayE B return res B → bool with
      | Reserve request => fun r =>
          let '(r', x') := InMemoryAtomicExecutionReservations.reserve request e x in
          bool_decide (r = r') && replays e x' tr
      | Complete _ id receipt => fun r =>
          let '(r', x') := InMemoryAtomicExecutionReservations.complete id receipt e x in
          bool_decide (r = r') && replays e x' tr
      | _ => fun _ => replays e x tr
      end r
  end.

Lemma replays_served e x tr : replays e x tr = true → served (data x) tr.
Proof.
  revert x. induction tr as [|[B [c r]] tr IH]; intros x; [done|].
  destruct c; cbn [replays served]; intros Hx;
    try (exists (data x), (data x); split_and!; [by intros k|by intros k|by apply IH]).
  - destruct (InMemoryAtomicExecutionReservations.reserve request e x) as [r' x'] eqn:E.
    apply andb_true_iff in Hx as [->%bool_decide_eq_true Hx].
    exists (data x), (data x'). split_and!; [by intros k| |by apply IH].
    exists e, (ticks x), (drawn x), (ticks x'), (drawn x'). by destruct x, x'.
  - destruct (InMemoryAtomicExecutionReservations.complete reservation_id receipt e x) as [r' x'] eqn:E.
    apply andb_true_iff in Hx as [->%bool_decide_eq_true Hx].
    exists (data x), (data x'). split_and!; [by intros k| |by apply IH].
    exists e, (ticks x), (drawn x), (ticks x'), (drawn x'). by destruct x, x'.
Qed.

(** Ports that allow everything, with this answer to the reservation. *)
Definition allowing (d : ReservationDecision.t) (B : Type) (c : GatewayE B) : res B :=
  match c in GatewayE B return res B with
  | Reserve _ => Ok d
  | c => permissive (Ok true) _ c
  end.

Definition sample_call : AuthorizationContext.t * Action.t * option ApprovalRequest.t * Z :=
  (sample_context, sample_action, Some sample_approval, 5).

Definition call_with (d : ReservationDecision.t) : list event * res GatewayResult.t :=
  trace_of (allowing d) (execute false sample_context sample_action (Some sample_approval) 5).

Definition first_answer : ReservationDecision.t :=
  ReservationDecision.mk ReservationStatus.ACQUIRED (Some (uuid_str 7%N)) None.
Definition second_answer : ReservationDecision.t :=
  ReservationDecision.mk ReservationStatus.IN_PROGRESS None None.

(** Two calls of the sample: the second runs while the first waits for its
    external call. *)
Definition interleaved : list (nat * event) :=
  (pair 0%nat <$> take 12 (call_with first_answer).1) ++
  (pair 1%nat <$> (call_with second_answer).1) ++
  (pair 0%nat <$> drop 12 (call_with first_answer).1).

Lemma interleaved_tags i : of_tag i interleaved =
  match i with
  | 0%nat => (call_with first_answer).1
  | 1%nat => (call_with second_answer).1
  | _ => []
  end.
Proof. destruct i as [|[|i]]; vm_compute; reflexivity. Qed.

Lemma one_call_per_key_witness :
  (count (calls_out (uuid_str (Action.tenant_id sample_action), Action.idempotency_key sample_action))
     interleaved.*2 <= 1)%nat.
Proof.
  apply (one_call_per_key (S := t) false (fun _ => sample_call) interleaved (new 100)
           (uuid_str (Action.tenant_id sample_action), Action.idempotency_key sample_action)).
  - intros i. rewrite interleaved_tags. destruct i as [|[|i]].
    + exists (call_with first_answer).1, (call_with first_answer).2.
      split; [exact (trace_of_runs _ _)|done].
    + exists (call_with second_answer).1, (call_with second_answer).2.
      split; [exact (trace_of_runs _ _)|done].
    + exists (call_with first_answer).1, (call_with first_answer).2.
      split; [exact (trace_of_runs _ _)|apply prefix_nil].
  - apply (replays_served (Env (fun _ => Aware 0) (fun _ => 7%N)) (St (new 100) 0 0)).
    vm_compute. reflexivity.
Defined.

Example interleaved_calls_once :
  count (calls_out (uuid_str (Action.tenant_id sample_action), Action.idempotency_key sample_action))
    interleaved.*2 = 1%nat.
Proof. vm_compute. reflexivity. Qed.

Definition sample_request (digest : string) : ExecutionReservation.t := {|
  ExecutionReservation.tenant_id := "t"; ExecutionReservation.run_id := "r";
  ExecutionReservation.action_id := "a"; ExecutionReservation.tool_name := "ledger";
  ExecutionReservation.tool_version := "1.0.0"; ExecutionReservation.idempotency_key := "k";
  ExecutionReservation.request_digest := digest; ExecutionReservation.cost_units := 5 |}.

Lemma completed_is_replayed_witness :
  wp (InMemoryAtomicExecutionReservations.complete "id" sample_receipt ;;
      for_each_m perform_op [Reserving (sample_request "other")] ;;
      InMemoryAtomicExecutionReservations.reserve (sample_request "d"))
    (fun d _ => d = ReservationDecision.mk ReservationStatus.CACHED (Some "id") (Some sample_receipt))
    (fun _ _ => False) (reserved (sample_request "d") "id" (new 10)).
Proof.
  apply (completed_is_replayed 0 (sample_request "d") "id" sample_receipt
           [Reserving (sample_request "other")] (sample_request "d")
           (reserved (sample_request "d") "id" (new 10))); [|reflexivity..].
  apply reserved_coherent; [apply new_coherent|reflexivity|discriminate].
Defined.
