(* ===== verification/SqlReservations.v ===== *)
(** * packages/adapters: execution_gateway.py, the relational reservations

    [PostgreSQLAtomicExecutionReservations]: a reservation is a row of
    [idempotency_records] and an entry of the budget ledger, written in one
    transaction.  It keeps the interface [Reservations], and simulates the
    service in memory, which the code calls the model of its semantics:
    [relational_reservations_refine_memory].

    The advisory lock of the key and the lock of the run's row make the
    transactions serial. *)

From S2P Require Import Prelude PyStr PyDict Json Transitions Values Goals Execution.
From S2P Require Import ExecutionObjects Programs Digests Uuids Rows Inserts CodecProofs Schema.
From S2P Require Import Effects Database RepositoryCore RepositoryRuns RepositoryLogic.
From S2P Require Import RepositoryTenants RepositoryProofs RepositoryVersions RepositoryMemory.
From S2P Require Import RepositorySample Gateway ExecutionGateway.
From Stdlib Require Import ZArith.

Import Tables.
Open Scope string_scope.
Open Scope list_scope.
Open Scope Z_scope.

(** ** The reservations over the relational database *)

Module PostgreSQLAtomicExecutionReservations.
Section store.
Context {DB : Type} `{Database DB}.
Notation MR := (M (session DB)).

(** The row of a tenant's key. *)
Definition key_row (key : string * string) : row → bool :=
  matches [("tenant_id", c_str key.1); ("idempotency_key", c_str key.2)].

(** [tuple(tuple(item) for item in response.get("output", ()))] *)
Definition output_of (response : object) : res (list (string * string)) :=
  match alist_get "output" response with
  | None => Ok []
  | Some v => each (fun item => pair ← as_strs item;
                      match pair with [k; v] => Ok (k, v) | _ => type_error end) v
  end.

(** [row["response"] or {}] *)
Definition response_of (row : row) : res object :=
  response ← json_column row "response";
  if truthy response then as_object response else Ok [].

(** The receipt of a finished row. *)
Definition stored_receipt (row : row) (status : string) : res ToolReceipt.t :=
  response ← response_of row;
  external_id ← json_column row "external_id";
  external_id ← opt as_str external_id;
  output ← output_of response;
  Ok (ToolReceipt.mk (default "" external_id)
    (if bool_decide (status = "completed") then ToolResultStatus.SUCCEEDED
     else ToolResultStatus.FAILED) output).

(** [_existing_decision] *)
Definition existing_decision (row : row) (request : ExecutionReservation.t)
    : res ReservationDecision.t :=
  digest ← str_column row "request_digest";
  if negb (bool_decide (digest = ExecutionReservation.request_digest request)) then
    Ok (ReservationDecision.mk ReservationStatus.CONFLICT None None)
  else
  version ← json_column row "tool_version";
  if negb (mem version [JNull; JStr (ExecutionReservation.tool_version request)]) then
    Ok (ReservationDecision.mk ReservationStatus.CONFLICT None None)
  else
  status ← str_column row "status";
  id ← str_column row "id";
  if bool_decide (status = "pending") then
    Ok (ReservationDecision.mk ReservationStatus.IN_PROGRESS (Some id) None)
  else if mem status ["unknown"; "accepted"] then
    Ok (ReservationDecision.mk ReservationStatus.UNKNOWN (Some id) None)
  else
  receipt ← stored_receipt row status;
  Ok (ReservationDecision.mk ReservationStatus.CACHED (Some id) (Some receipt)).

(** [int(contract["budget_limit"]["amount"])], in cost units. *)
Definition budget_of_contract (contract : json) : res Z :=
  match contract with
  | JDict contract =>
      budget ← object_field contract "budget_limit";
      unit ← str_field budget "unit";
      raise_if (negb (bool_decide (unit = "cost_units"))) ValueError
        "tool execution requires a cost_units Goal budget" ;;
      int_field budget "amount"
  | _ => raise LookupError "reservation Goal does not exist in the tenant"
  end.

(** The entries of the ledger the budget of a tenant's run counts. *)
Definition counted (run : string * string) : row → bool :=
  matches [("tenant_id", c_str run.1); ("run_id", c_str run.2); ("unit", c_str "cost_units")].

(** [coalesce(sum(amount), 0)] *)
Fixpoint total (rows : list row) : Z :=
  match rows with
  | [] => 0
  | r :: rows => int_of (col "amount" r) + total rows
  end.

Definition reservation_values (reservation_id : string) (request : ExecutionReservation.t)
    (time : datetime) : row := [
  ("id", c_str reservation_id);
  ("tenant_id", c_str (ExecutionReservation.tenant_id request));
  ("run_id", c_str (ExecutionReservation.run_id request));
  ("action_id", c_str (ExecutionReservation.action_id request));
  ("tool_name", c_str (ExecutionReservation.tool_name request));
  ("tool_version", c_str (ExecutionReservation.tool_version request));
  ("idempotency_key", c_str (ExecutionReservation.idempotency_key request));
  ("request_digest", c_str (ExecutionReservation.request_digest request));
  ("cost_units", c_int (ExecutionReservation.cost_units request));
  ("external_id", NULL);
  ("status", c_str "pending");
  ("response", NULL);
  ("optimistic_version", c_int 1);
  ("created_at", TimeCell time)].

Definition ledger_values (fresh reservation_id : string) (request : ExecutionReservation.t)
    (time : datetime) : row := [
  ("id", c_str fresh);
  ("tenant_id", c_str (ExecutionReservation.tenant_id request));
  ("run_id", c_str (ExecutionReservation.run_id request));
  ("category", c_str "reserve");
  ("amount", c_int (ExecutionReservation.cost_units request));
  ("unit", c_str "cost_units");
  ("reference", c_str ("tool-reservation:" +:+ reservation_id));
  ("optimistic_version", c_int 1);
  ("created_at", TimeCell time)].

(** A row by its tenant and identifier. *)
Definition keyed (tenant_id : string) (id : cell) : row → bool :=
  matches [("tenant_id", c_str tenant_id); ("id", id)].

(** The limit of the budget of the request's run. *)
Definition budget_limit (request : ExecutionReservation.t) : MR Z :=
  rows ← select runs (keyed (ExecutionReservation.tenant_id request)
                        (c_str (ExecutionReservation.run_id request)));
  run_row ← lift (one_or_none rows);
  match run_row with
  | None => throw LookupError "reservation Run does not exist in the tenant"
  | Some run_row =>
      rows ← select goals (keyed (ExecutionReservation.tenant_id request) (col "goal_id" run_row));
      contract ← lift (match first rows with
                       | Some goal => json_column goal "contract"
                       | None => Ok JNull
                       end);
      lift (budget_of_contract contract)
  end.

Definition reserve (request : ExecutionReservation.t) : MR ReservationDecision.t :=
  transaction (
    rows ← select idempotency_records (key_row (key_of request));
    existing ← lift (one_or_none rows);
    match existing with
    | Some row => lift (existing_decision row request)
    | None =>
        limit ← budget_limit request;
        rows ← select budget_ledger (counted (InMemoryAtomicExecutionReservations.usage_key request));
        if limit <? total rows + ExecutionReservation.cost_units request then
          mret (ReservationDecision.mk ReservationStatus.BUDGET_EXHAUSTED None None)
        else
          time ← now;
          reservation_id ← fresh_id;
          insert idempotency_records (reservation_values reservation_id request time) ;;
          fresh ← fresh_id;
          insert budget_ledger (ledger_values fresh reservation_id request time) ;;
          mret (ReservationDecision.mk ReservationStatus.ACQUIRED (Some reservation_id) None)
    end).

(** The status column of a completed reservation. *)
Definition status_of (s : ToolResultStatus.t) : string :=
  match s with
  | ToolResultStatus.SUCCEEDED => "completed"
  | ToolResultStatus.FAILED => "failed"
  | ToolResultStatus.REJECTED => "failed"
  | ToolResultStatus.UNKNOWN => "unknown"
  | ToolResultStatus.ACCEPTED => "accepted"
  end.

Definition response_payload (receipt : ToolReceipt.t) : object := [
  ("output", JList ((fun kv => strs [kv.1; kv.2]) <$> ToolReceipt.output receipt));
  ("status", JStr (ToolResultStatus.value (ToolReceipt.status receipt)))].

(** The row a completion leaves. *)
Definition completed (receipt : ToolReceipt.t) (time : datetime) (r : row) : row :=
  assign [
    ("status", c_str (status_of (ToolReceipt.status receipt)));
    ("external_id", if empty (ToolReceipt.external_id receipt) then NULL
                    else c_str (ToolReceipt.external_id receipt));
    ("response", c_object (response_payload receipt));
    ("optimistic_version", c_int (int_of (col "optimistic_version" r) + 1));
    ("updated_at", TimeCell time)] r.

Definition pending (tenant_id reservation_id : string) : row → bool :=
  matches [("id", c_str reservation_id); ("tenant_id", c_str tenant_id);
           ("status", c_str "pending")].

Definition complete (tenant_id reservation_id : string) (receipt : ToolReceipt.t) : MR unit :=
  transaction (
    time ← now;
    rowcount ← update idempotency_records (pending tenant_id reservation_id) (completed receipt time);
    throw_if (negb (rowcount =? 1)) RuntimeError "execution reservation was already finalized").
End store.
End PostgreSQLAtomicExecutionReservations.

Module Postgres := PostgreSQLAtomicExecutionReservations.

#[export] Instance postgres_reservations {DB} `{Database DB} : Reservations (session DB) := {|
  reserve := Postgres.reserve;
  complete_reservation := Postgres.complete;
  known k s := ∃ r, r ∈ rows_of (database s) (table_name idempotency_records) ∧
    Postgres.key_row k r = true
|}.


(** ** Rows of reservations *)

Import Postgres.
Module Memory := InMemoryAtomicExecutionReservations.

(** A receipt as it is read back: the status column does not tell a rejection
    from a failure. *)
Definition relational (receipt : ToolReceipt.t) : ToolReceipt.t :=
  match ToolReceipt.status receipt with
  | ToolResultStatus.REJECTED =>
      ToolReceipt.mk (ToolReceipt.external_id receipt) ToolResultStatus.FAILED
        (ToolReceipt.output receipt)
  | _ => receipt
  end.

(** What a reservation's row holds. *)
Definition reservation_columns (x : MemoryReservation.t) : row :=
  let request := MemoryReservation.request x in [
  ("id", c_str (MemoryReservation.reservation_id x));
  ("tenant_id", c_str (ExecutionReservation.tenant_id request));
  ("idempotency_key", c_str (ExecutionReservation.idempotency_key request));
  ("request_digest", c_str (ExecutionReservation.request_digest request));
  ("tool_version", c_str (ExecutionReservation.tool_version request))] ++
  match MemoryReservation.receipt x with
  | None => [("status", c_str "pending")]
  | Some receipt => [
      ("status", c_str (status_of (ToolReceipt.status receipt)));
      ("external_id", if empty (ToolReceipt.external_id receipt) then NULL
                      else c_str (ToolReceipt.external_id receipt));
      ("response", c_object (response_payload receipt))]
  end.

Lemma output_round_trip receipt : output_of (response_payload receipt) = Ok (ToolReceipt.output receipt).
Proof.
  destruct receipt as [external status output]. cbn. apply each_id.
  intros [k v] _. by rewrite as_strs_strs.
Qed.

(** A completed row gives its receipt back. *)
Lemma stored_receipt_columns r receipt :
  alist_get "external_id" r = Some (if empty (ToolReceipt.external_id receipt) then NULL
                                    else c_str (ToolReceipt.external_id receipt)) →
  alist_get "response" r = Some (c_object (response_payload receipt)) →
  stored_receipt r (status_of (ToolReceipt.status receipt)) =
  Ok (ToolReceipt.mk (ToolReceipt.external_id receipt)
        (match ToolReceipt.status receipt with
         | ToolResultStatus.SUCCEEDED => ToolResultStatus.SUCCEEDED
         | _ => ToolResultStatus.FAILED
         end) (ToolReceipt.output receipt)).
Proof.
  intros He Hresp. unfold stored_receipt.
  assert (response_of r = Ok (response_payload receipt)) as ->.
  { unfold response_of. by rewrite (json_column_at _ _ (JDict _) Hresp). }
  cbn [mbind res_bind]. pose proof (output_round_trip receipt) as Ho.
  destruct (empty _) eqn:E.
  - apply bool_decide_eq_true in E. rewrite (json_column_at _ _ JNull He). cbn [mbind res_bind opt].
    rewrite Ho, E. by destruct (ToolReceipt.status receipt).
  - rewrite (json_column_at _ _ (JStr _) He). cbn [mbind res_bind opt as_str fmap res_fmap]. rewrite Ho.
    by destruct (ToolReceipt.status receipt).
Qed.

(** The two answers agree: a pending row also tells its identity. *)
Definition agrees (d d' : ReservationDecision.t) : Prop :=
  ReservationDecision.status d' = ReservationDecision.status d ∧
  ReservationDecision.receipt d' = relational <$> ReservationDecision.receipt d ∧
  (ReservationDecision.status d ≠ ReservationStatus.IN_PROGRESS →
   ReservationDecision.reservation_id d' = ReservationDecision.reservation_id d).

(** Requests of one key with one digest name one tool version. *)
Definition digest_binds_version (x : MemoryReservation.t) (request : ExecutionReservation.t) : Prop :=
  ExecutionReservation.request_digest (MemoryReservation.request x) =
  ExecutionReservation.request_digest request →
  ExecutionReservation.tool_version (MemoryReservation.request x) =
  ExecutionReservation.tool_version request.

Lemma existing_agrees x r request : has r (reservation_columns x) → digest_binds_version x request →
  ∃ d, existing_decision r request = Ok d ∧ agrees (Memory.existing_decision x request) d.
Proof.
  intros Hr Hv. unfold has, reservation_columns in Hr. rewrite Forall_app in Hr.
  destruct Hr as [Hr Hs]. rewrite !Forall_cons in Hr. destruct Hr as (Hid & _ & _ & Hd & Hver & _).
  cbn in Hid, Hd, Hver.
  unfold existing_decision, Memory.existing_decision.
  rewrite (str_column_at _ _ _ Hd). cbn. case_bool_decide as E; cbn; [|by eexists].
  rewrite (json_column_at _ _ _ Hver). cbn.
  rewrite (proj2 (mem_true _ _)) by (rewrite (Hv E); right; left). cbn.
  destruct (MemoryReservation.receipt x) as [receipt|].
  - rewrite !Forall_cons in Hs. destruct Hs as (Hst & Hext & Hresp & _). cbn in Hst, Hext, Hresp.
    rewrite (str_column_at _ _ _ Hst), (str_column_at _ _ _ Hid).
    pose proof (stored_receipt_columns r receipt Hext Hresp) as Hrc.
    destruct receipt as [external status output]; destruct status; cbn [mbind res_bind status_of ToolReceipt.status] in *;
      rewrite ?Hrc; (eexists; split; [reflexivity|by split_and!]).
  - rewrite Forall_cons in Hs. destruct Hs as [Hst _]. cbn in Hst.
    rewrite (str_column_at _ _ _ Hst), (str_column_at _ _ _ Hid). by eexists.
Qed.


(** A new row, and the row a completion leaves. *)
Definition new_row (id : string) (request : ExecutionReservation.t) (time : datetime) : row :=
  Schema.complete idempotency_records (reservation_values id request time).

Lemma new_row_columns id request time :
  has (new_row id request time) (reservation_columns (MemoryReservation.mk request id None)).
Proof. repeat constructor. Qed.

Lemma completed_columns x receipt time r : has r (reservation_columns x) →
  MemoryReservation.receipt x = None →
  has (completed receipt time r)
    (reservation_columns (MemoryReservation.mk (MemoryReservation.request x)
                            (MemoryReservation.reservation_id x) (Some receipt))).
Proof.
  unfold has, reservation_columns. intros H E. rewrite E in H.
  cbn [app MemoryReservation.receipt MemoryReservation.request MemoryReservation.reservation_id] in *.
  rewrite !Forall_cons in *. destruct H as (H1 & H2 & H3 & H4 & H5 & _).
  unfold completed. split_and!; try (etransitivity; [apply assign_get|first [exact H1|exact H2|exact H3|exact H4|exact H5|reflexivity]]).
  constructor.
Qed.

Lemma completed_key receipt time r key : key_row key (completed receipt time r) = key_row key r.
Proof. unfold key_row, completed. by rewrite !matches_cons, !assign_col. Qed.

Lemma new_row_key id request time key :
  key_row key (new_row id request time) = bool_decide (key_of request = key).
Proof.
  unfold key_row. rewrite !matches_cons. unfold matches, all. cbn [forallb]. rewrite andb_true_r.
  apply eq_true_iff_eq. rewrite andb_true_iff, !bool_decide_eq_true.
  change (col "tenant_id" _) with (c_str (ExecutionReservation.tenant_id request)).
  change (col "idempotency_key" _) with (c_str (ExecutionReservation.idempotency_key request)).
  destruct key as [t k]. unfold key_of, c_str. cbn. split; [by intros [[= ->] [= ->]]|by intros [= -> ->]].
Qed.

(** An entry of the ledger, for the budgets. *)
Lemma entry_counted fresh id request time run :
  counted run (Schema.complete budget_ledger (ledger_values fresh id request time)) =
  bool_decide (Memory.usage_key request = run).
Proof.
  unfold counted. rewrite !matches_cons. unfold matches, all. cbn [forallb]. rewrite andb_true_r.
  apply eq_true_iff_eq. rewrite !andb_true_iff, !bool_decide_eq_true.
  change (col "tenant_id" _) with (c_str (ExecutionReservation.tenant_id request)).
  change (col "run_id" _) with (c_str (ExecutionReservation.run_id request)).
  destruct run as [t r]. unfold Memory.usage_key, c_str. cbn.
  split; [by intros [[= ->] [= ->]]|by intros [= -> ->]].
Qed.

#[export] Instance total_proper : Proper ((≡ₚ) ==> eq) total.
Proof. intros l l' E. induction E; cbn; lia. Qed.

(** ** The interface is kept *)

Section laws.
Context {DB : Type} `{DatabaseLaws DB}.
Notation MR := (M (session DB)).

(** A key that is known by the content. *)
Definition known_in (c : content) (key : string * string) : Prop :=
  ∃ r, r ∈ c (table_name idempotency_records) ∧ key_row key r = true.

Lemma known_rows c c' key : c' (table_name idempotency_records) ≡ₚ c (table_name idempotency_records) →
  known_in c key → known_in c' key.
Proof. intros E (r & Hr & Hk). exists r. by rewrite E. Qed.

(** The outcomes of [reserve]; [B] is what is known of the budget. *)
Lemma wp_relational_reserve request (B : Z → Prop) s
    (Q : ReservationDecision.t → session DB → Prop) (E : exn → session DB → Prop) :
  (∀ k, E k s) →
  wp (budget_limit request) (fun n s' => B n ∧ s' = s) (fun _ _ => True) s →
  (∀ r d, the_row idempotency_records (key_row (key_of request)) r (content_now s) →
     existing_decision r request = Ok d → Q d s) →
  (no_row idempotency_records (key_row (key_of request)) (content_now s) →
   ∀ n, B n →
   let used := total (List.filter (counted (Memory.usage_key request))
                        (content_now s (table_name budget_ledger))) in
   (n < used + ExecutionReservation.cost_units request →
    Q (ReservationDecision.mk ReservationStatus.BUDGET_EXHAUSTED None None) s) ∧
   (used + ExecutionReservation.cost_units request <= n →
    ∀ u fresh time s',
      same_rows (content_now s')
        (add_row budget_ledger (Schema.complete budget_ledger (ledger_values fresh (uuid_str u) request time))
          (add_row idempotency_records (new_row (uuid_str u) request time) (content_now s))) →
      Q (ReservationDecision.mk ReservationStatus.ACQUIRED (Some (uuid_str u)) None) s')) →
  wp (Postgres.reserve request) Q E s.
Proof.
  intros HE Hb He Hn. apply wp_transaction, wp_bind, wp_select. intros rows Hrows.
  apply wp_bind, wp_lift; [|by intros; apply HE]. intros existing Hx.
  destruct rows as [|r [|]]; try done; injection Hx as <-.
  - apply Permutation_nil_l in Hrows. symmetry in Hrows. specialize (Hn Hrows). apply wp_bind.
    eapply wp_mono; [exact Hb| |by intros; apply HE]. intros n s' [HB ->].
    apply wp_bind, wp_select. intros rows ->. destruct (Hn n HB) as [H1 H2].
    destruct (n <? _) eqn:El.
    + apply wp_ret, H1. by apply Z.ltb_lt.
    + apply Z.ltb_ge in El. apply wp_bind, wp_now. intros time.
      apply wp_bind, wp_bind, wp_uuid4_any. intros u. apply wp_ret.
      apply wp_bind, wp_insert; [|by intros; apply HE]. intros s1 Hs1 _.
      apply wp_bind, wp_bind, wp_uuid4_any. intros v. apply wp_ret.
      apply wp_bind, wp_insert; [|by intros; apply HE]. intros s2 Hs2 _.
      apply wp_ret, (H2 El u (uuid_str v) time). by rewrite Hs2, Hs1.
  - apply Permutation_singleton_l in Hrows. symmetry in Hrows. apply wp_lift; [|by intros; apply HE].
    intros d Hd. by apply (He r).
Qed.

Lemma budget_limit_reads request s :
  wp (budget_limit request) (fun n s' => True ∧ s' = s) (fun _ _ => True) s.
Proof.
  apply wp_bind, wp_select. intros rows _. apply wp_bind, wp_lift; [|done]. intros [r|] _.
  - apply wp_bind, wp_select. intros rows' _. apply wp_bind, wp_lift; [|done]. intros c _. by apply wp_lift.
  - by apply wp_throw.
Qed.

Lemma existing_decision_finished r request d : existing_decision r request = Ok d →
  ReservationDecision.status d ≠ ReservationStatus.ACQUIRED.
Proof.
  unfold existing_decision. intros (digest & _ & Hd)%bind_ok.
  destruct (negb _); [by injection Hd as <-|]. apply bind_ok in Hd as (version & _ & Hd).
  destruct (negb _); [by injection Hd as <-|]. apply bind_ok in Hd as (status & _ & Hd).
  apply bind_ok in Hd as (id & _ & Hd). destruct (bool_decide _); [by injection Hd as <-|].
  destruct (mem _ _); [by injection Hd as <-|]. apply bind_ok in Hd as (receipt & _ & Hd).
  by injection Hd as <-.
Qed.

Lemma no_row_unknown c key : no_row idempotency_records (key_row key) c → ¬ known_in c key.
Proof.
  intros Hn (r & Hr & Hk). assert (r ∈ List.filter (key_row key) (c (table_name idempotency_records))) as Hin
    by by apply elem_of_list_filter. unfold no_row in Hn. rewrite Hn in Hin. by apply elem_of_nil in Hin.
Qed.

#[export] Instance relational_reservations_laws : ReservationsLaws (session DB).
Proof.
  split.
  - intros request s. apply (wp_relational_reserve _ (fun _ => True)); [by intros k k'|apply budget_limit_reads|..].
    + intros r d _ Hd. split; [by intros k|]. intros Ha. by apply existing_decision_finished in Hd.
    + intros Hn n _ used. split; [by split; [intros k|]|]. intros _ u fresh time s' Hs'. set (id := uuid_str u) in *.
      assert (content_now s' (table_name idempotency_records) ≡ₚ
              new_row id request time :: content_now s (table_name idempotency_records)) as E.
      { rewrite (Hs' _), add_row_other, add_row_at by done. reflexivity. }
      split.
      * intros k (r & Hr & Hk). exists r. change (r ∈ content_now s' (table_name idempotency_records) ∧
          key_row k r = true). rewrite E. split; [by right|done].
      * intros _. split; [exact (no_row_unknown _ _ Hn)|]. exists (new_row id request time).
        change (new_row id request time ∈ content_now s' (table_name idempotency_records) ∧
          key_row (key_of request) (new_row id request time) = true).
        rewrite E, new_row_key, bool_decide_eq_true_2 by done. split; [left|done].
  - intros tenant_id id receipt s. apply wp_transaction, wp_bind, wp_now. intros time.
    apply wp_bind, wp_update; [|by intros k k']. intros s' Hs' _. apply wp_throw_if; [|by intros _ k].
    intros _ k (r & Hr & Hk). unfold known, postgres_reservations. change (known_in (content_now s') k).
    eexists. rewrite (Hs' _), revise_at. split; [apply list_elem_of_fmap_2, Hr|].
    cbn beta. case_match; [by rewrite completed_key|done].
Qed.

(** ** The service in memory is a model of it *)

(** The goal of the request's run has [n] cost units. *)
Definition budgeted (request : ExecutionReservation.t) (n : Z) (c : content) : Prop :=
  ∃ run goal contract,
    the_row runs (keyed (ExecutionReservation.tenant_id request)
                    (c_str (ExecutionReservation.run_id request))) run c ∧
    the_row goals (keyed (ExecutionReservation.tenant_id request) (col "goal_id" run)) goal c ∧
    json_column goal "contract" = Ok contract ∧ budget_of_contract contract = Ok n.

Lemma budgeted_limit request n s : budgeted request n (content_now s) →
  wp (budget_limit request) (fun n' s' => n' = n ∧ s' = s) (fun _ _ => True) s.
Proof.
  intros (run & goal & contract & Hr & Hg & Hc & Hn).
  apply wp_bind, wp_select. intros rows Hrows. unfold the_row in Hr. rewrite Hr in Hrows.
  apply Permutation_singleton_r in Hrows as ->. apply wp_bind, wp_lift; [|done]. intros ? [= <-].
  apply wp_bind, wp_select. intros rows Hrows. unfold the_row in Hg. rewrite Hg in Hrows.
  apply Permutation_singleton_r in Hrows as ->. cbn [first head]. rewrite Hc.
  apply wp_bind, wp_lift; [|done]. intros ? [= <-]. apply wp_lift; [|done]. intros ? E. split; [congruence|done].
Qed.

(** The content holds the reservations of [x]. *)
Record simulates (x : Memory.t) (c : content) : Prop := {
  sim_coherent : coherent x;
  sim_rows : ∀ i r, Memory.objects x !! i = Some r →
    ∃ w, the_row idempotency_records (key_row (key_of (MemoryReservation.request r))) w c ∧
         has w (reservation_columns r);
  sim_all : ∀ w, w ∈ c (table_name idempotency_records) →
    ∃ i r, Memory.objects x !! i = Some r ∧ key_row (key_of (MemoryReservation.request r)) w = true;
  sim_used : ∀ run,
    total (List.filter (counted run) (c (table_name budget_ledger))) = spent run (Memory.objects x);
  sim_ids : ∀ i r, Memory.objects x !! i = Some r →
    Memory.by_id x !! MemoryReservation.reservation_id r = Some i
}.

Lemma key_row_inj key key' w : key_row key w = true → key_row key' w = true → key = key'.
Proof.
  unfold key_row. rewrite !matches_cons, !andb_true_iff, !bool_decide_eq_true.
  intros (H1 & H2 & _) (H1' & H2' & _). destruct key, key'. cbn in *. unfold c_str in *. congruence.
Qed.

Lemma the_row_in tb p w c : the_row tb p w c → w ∈ c (table_name tb) ∧ p w = true.
Proof. intros Hw. apply elem_of_list_filter. unfold the_row in Hw. rewrite Hw. left. Qed.

(** The object of a row. *)
Lemma sim_object x c key w : simulates x c → the_row idempotency_records (key_row key) w c →
  ∃ i r, Memory.objects x !! i = Some r ∧ key_of (MemoryReservation.request r) = key ∧
         has w (reservation_columns r) ∧ Memory.records x !! key = Some i.
Proof.
  intros Hs Hw. destruct (the_row_in _ _ _ _ Hw) as [Hin Hk].
  destruct (sim_all _ _ Hs w Hin) as (i & r & Hr & Hk'). rewrite (key_row_inj _ _ _ Hk Hk') in *.
  destruct (sim_rows _ _ Hs i r Hr) as (w' & Hw' & Hc).
  assert (w' = w) as -> by (unfold the_row in *; congruence).
  exists i, r. split_and!; try done. exact (objects_are_recorded _ (sim_coherent _ _ Hs) _ _ Hr).
Qed.

Lemma sim_free x c key : simulates x c → no_row idempotency_records (key_row key) c →
  Memory.records x !! key = None.
Proof.
  intros Hs Hn. destruct (Memory.records x !! key) as [i|] eqn:E; [|done]. exfalso.
  destruct (records_lead _ (sim_coherent _ _ Hs) _ _ E) as (r & Hr & <-).
  destruct (sim_rows _ _ Hs i r Hr) as (w & Hw & _). unfold the_row, no_row in *. congruence.
Qed.

(** Rows that a revision keeps among those of [p]. *)
Lemma the_row_revise (tb : table) (p q : row → bool) (f : row → row) (w : row) (c : content) :
  (∀ r, p (f r) = p r) → the_row tb p w c →
  the_row tb p (if q w then f w else w) (revise tb q f c).
Proof.
  intros Hf Hw. unfold the_row in *. rewrite revise_at.
  change [if q w then f w else w] with (List.map (fun r => if q r then f r else r) [w]).
  rewrite <- Hw. generalize (c (table_name tb)). intros l.
  induction l as [|r l IH]; [done|]. cbn.
  replace (p (if q r then f r else r)) with (p r) by (by destruct (q r)).
  destruct (p r); cbn; by rewrite IH.
Qed.

(** A reservation of both services. *)
Lemma reserved_simulates x s s' request id fresh time :
  simulates x (content_now s) → Memory.records x !! key_of request = None →
  no_row idempotency_records (key_row (key_of request)) (content_now s) →
  default 0 (Memory.used x !! Memory.usage_key request) + ExecutionReservation.cost_units request
    <= Memory.limit x →
  same_rows (content_now s')
    (add_row budget_ledger (Schema.complete budget_ledger (ledger_values fresh id request time))
      (add_row idempotency_records (new_row id request time) (content_now s))) →
  simulates (reserved request id x) (content_now s').
Proof.
  intros Hs Hn Hno Hfit Hs'.
  assert (content_now s' (table_name idempotency_records) ≡ₚ
          new_row id request time :: content_now s (table_name idempotency_records)) as E.
  { rewrite (Hs' _), add_row_other, add_row_at by done. reflexivity. }
  assert (content_now s' (table_name budget_ledger) ≡ₚ
          Schema.complete budget_ledger (ledger_values fresh id request time) ::
          content_now s (table_name budget_ledger)) as El.
  { rewrite (Hs' _), add_row_at, add_row_other by done. reflexivity. }
  assert (∀ i r w, Memory.objects x !! i = Some r →
            the_row idempotency_records (key_row (key_of (MemoryReservation.request r))) w (content_now s) →
            the_row idempotency_records (key_row (key_of (MemoryReservation.request r))) w (content_now s')) as Hkeep.
  { intros i r w Hr Hw. unfold the_row in *. apply Permutation_singleton_r.
    rewrite (filter_permutation _ _ _ E). cbn [List.filter]. rewrite new_row_key, bool_decide_eq_false_2, Hw; [done|].
    intros Ek. rewrite Ek in Hn. rewrite (objects_are_recorded _ (sim_coherent _ _ Hs) _ _ Hr) in Hn. done. }
  constructor; cbn [reserved Memory.objects Memory.by_id Memory.records].
  - by apply reserved_coherent; [exact (sim_coherent _ _ Hs)|..].
  - intros i r [Hi|[Hi Er]]%lookup_app_Some.
    + destruct (sim_rows _ _ Hs i r Hi) as (w & Hw & Hc). exists w. split; [by eapply Hkeep|done].
    + apply list_lookup_singleton_Some in Er as [_ <-]. exists (new_row id request time). cbn.
      split; [|apply new_row_columns]. unfold the_row. apply Permutation_singleton_r.
      rewrite (filter_permutation _ _ _ E). cbn [List.filter].
      rewrite new_row_key, bool_decide_eq_true_2 by done. unfold no_row in Hno. by rewrite Hno.
  - intros w. rewrite E. intros [->|Hw]%elem_of_cons.
    + exists (length (Memory.objects x)). eexists. rewrite list_lookup_middle by done.
      split; [done|]. cbn [MemoryReservation.request]. by rewrite new_row_key, bool_decide_eq_true_2.
    + destruct (sim_all _ _ Hs w Hw) as (i & r & Hr & Hk). exists i, r.
      split; [by apply lookup_app_l_Some|done].
  - intros run. rewrite granted_spent_snoc, <- (sim_used _ _ Hs run), (filter_permutation _ _ _ El).
    cbn [List.filter MemoryReservation.request]. rewrite entry_counted.
    destruct (decide (Memory.usage_key request = run)) as [Eu|Eu].
    + rewrite bool_decide_eq_true_2 by done. cbn [total].
      change (int_of (col "amount" _)) with (ExecutionReservation.cost_units request). lia.
    + rewrite bool_decide_eq_false_2 by done. lia.
  - intros i r [Hi|[Hi Er]]%lookup_app_Some.
    + rewrite dict_lookup_insert_ne; [by apply (sim_ids _ _ Hs)|]. intros Eid.
      destruct (sim_rows _ _ Hs i r Hi) as (w & Hw & Hc).
      destruct (the_row_in _ _ _ _ Hw) as [Hin Hk].
      assert (new_row id request time = w) as <-.
      { eapply (same_id (content_now s') idempotency_records); try solve_in.
        - apply database_consistent.
        - rewrite E. left.
        - rewrite E. by right.
        - change (col "id" (new_row id request time)) with (c_str id). rewrite Eid. symmetry.
          apply col_has. exact (proj1 (proj1 (Forall_cons _ _ _) Hc)). }
      rewrite new_row_key in Hk. apply bool_decide_eq_true in Hk. rewrite Hk in Hn.
      by rewrite (objects_are_recorded _ (sim_coherent _ _ Hs) _ _ Hi) in Hn.
    + apply list_lookup_singleton_Some in Er as [Ei <-]. cbn. rewrite dict_lookup_insert. f_equal. lia.
Qed.

(** A completion of both services: the pending row [w] is that of the object [i]. *)
Lemma finished_simulates x s s' i r w tenant_id receipt time :
  let chosen := pending tenant_id (MemoryReservation.reservation_id r) in
  simulates x (content_now s) → Memory.objects x !! i = Some r → MemoryReservation.receipt r = None →
  the_row idempotency_records chosen w (content_now s) →
  the_row idempotency_records (key_row (key_of (MemoryReservation.request r))) w (content_now s) →
  has w (reservation_columns r) →
  same_rows (content_now s')
    (revise idempotency_records chosen (completed receipt time) (content_now s)) →
  simulates (finished i r receipt x) (content_now s').
Proof.
  intros chosen Hs Hi Hrc Hp Hw Hcols Hs'.
  assert (∀ key w', the_row idempotency_records (key_row key) w' (content_now s) →
            the_row idempotency_records (key_row key)
              (if chosen w' then completed receipt time w' else w') (content_now s')) as Hkeep.
  { intros key w' Hw'. rewrite Hs'. apply the_row_revise; [|done]. intros. apply completed_key. }
  assert (chosen w = true) as Hcw by by apply the_row_in in Hp as [_ ?].
  constructor; cbn [finished Memory.objects Memory.by_id Memory.records].
  - apply finished_coherent; [exact (sim_coherent _ _ Hs)|done].
  - intros j r' [(<- & <- & _)|[Hne Hj]]%list_lookup_insert_Some.
    + exists (completed receipt time w). split; [|by apply completed_columns].
      pose proof (Hkeep _ _ Hw) as Hk. by rewrite Hcw in Hk.
    + destruct (sim_rows _ _ Hs j r' Hj) as (w' & Hw' & Hc'). exists w'. split; [|done].
      pose proof (Hkeep _ _ Hw') as Hk. destruct (chosen w') eqn:E; [|done]. exfalso.
      assert (w' = w) as ->.
      { apply the_row_in in Hw' as [Hin _].
        assert (w' ∈ List.filter chosen (content_now s (table_name idempotency_records))) as Hf
          by by apply elem_of_list_filter.
        unfold the_row in Hp. rewrite Hp in Hf. by apply list_elem_of_singleton in Hf. }
      apply the_row_in in Hw as [_ Hw], Hw' as [_ Hw'].
      pose proof (key_row_inj _ _ _ Hw Hw') as Ek.
      pose proof (objects_are_recorded _ (sim_coherent _ _ Hs) _ _ Hi) as H1.
      pose proof (objects_are_recorded _ (sim_coherent _ _ Hs) _ _ Hj) as H2. congruence.
  - intros w'. rewrite (Hs' _), revise_at. intros (w0 & -> & Hw0)%list_elem_of_fmap.
    destruct (sim_all _ _ Hs w0 Hw0) as (j & r' & Hj & Hk).
    assert (key_row (key_of (MemoryReservation.request r'))
              (if chosen w0 then completed receipt time w0 else w0) = true) as Hk'
      by (destruct (chosen w0); by rewrite ?completed_key).
    destruct (decide (i = j)) as [<-|Hne].
    + exists i. eexists. rewrite list_lookup_insert_eq by (by eapply lookup_lt_Some).
      split; [reflexivity|]. cbn [MemoryReservation.request]. congruence.
    + exists j, r'. by rewrite list_lookup_insert_ne.
  - intros run. rewrite (spent_update _ _ _ r) by done. rewrite <- (sim_used _ _ Hs run).
    apply total_proper, filter_permutation. rewrite (Hs' (table_name budget_ledger)), revise_other; done.
  - intros j r' [(<- & <- & _)|[Hne Hj]]%list_lookup_insert_Some; cbn [MemoryReservation.reservation_id];
      by apply (sim_ids _ _ Hs).
Qed.

(** A pending row is that of an object without receipt. *)
Lemma pending_object r w tenant_id id : has w (reservation_columns r) → pending tenant_id id w = true →
  MemoryReservation.reservation_id r = id ∧ MemoryReservation.receipt r = None.
Proof.
  unfold pending, has, reservation_columns. rewrite !matches_cons, !andb_true_iff, !bool_decide_eq_true.
  rewrite Forall_app. intros [Hc Hst] (Hid & _ & Hs & _).
  apply Forall_cons in Hc as [Hc _]. apply col_has in Hc. cbn in Hc. rewrite Hid in Hc.
  unfold c_str in Hc. split; [congruence|].
  destruct (MemoryReservation.receipt r) as [receipt|]; [|done]. exfalso.
  apply Forall_cons in Hst as [Hst _]. apply col_has in Hst. cbn in Hst. rewrite Hs in Hst.
  destruct (ToolReceipt.status receipt); discriminate Hst.
Qed.

(** What an operation needs: a budget of the service's limit for the run of a
    request, and digests that tell tool versions apart. *)
Definition fair (op : reservation_op) (x : Memory.t) (c : content) : Prop :=
  match op with
  | Reserving request => budgeted request (Memory.limit x) c ∧
      ∀ i r, Memory.objects x !! i = Some r → key_of (MemoryReservation.request r) = key_of request →
             digest_binds_version r request
  | Completing _ _ _ => True
  end.

(** A total computation of the service in memory, with [u] as next identifier. *)
Lemma memory_runs {A} (m : M Memory.t A) (Q : A → Memory.t → Prop) u x :
  wpi (eq u) m Q (fun _ _ => False) x →
  ∃ e a x' n k, m e (St x 0 0) = (Ok a, St x' n k) ∧ Q a x'.
Proof.
  intros Hm. set (e := Env (fun _ => Aware 0) (fun _ => u)). specialize (Hm e 0%nat 0%nat (fun _ => eq_refl)).
  exists e. destruct (m e _) as [[a|x0] [x' n k]]; [|done]. by exists a, x', n, k.
Qed.

(** What the relational service answers, the service in memory answers too: each
    reservation or completion that the database accepts has a run of the in-memory
    service with the same decision (a rejected receipt comes back as failed, a pending
    reservation also tells its identity), and their states correspond again; one that
    raises changes nothing. *)
(** C5. For a Run whose Goal has a budget in cost units equal to the limit of the
    service in memory, and when a known key asked again under the same digest asks for
    the same tool version: each reservation or completion the relational service
    answers has a run of the service in memory with the same decision (a rejected
    receipt comes back as failed, a pending reservation also tells its identity), and
    their states correspond again; one that raises changes nothing. *)
Theorem relational_reservations_refine_memory op x s :
  simulates x (content_now s) → fair op x (content_now s) →
  wp (call_op op)
    (fun d s' => ∃ e d' x' n k, call_op op e (St x 0 0) = (Ok d', St x' n k) ∧
       option_relation agrees (fun _ => False) (fun _ => False) d' d ∧
       simulates x' (content_now s'))
    (fun _ s' => s' = s) s.
Proof.
  intros Hs Hfair. destruct op as [request|tenant_id id receipt]; cbn [call_op].
  - destruct Hfair as [Hb Hv]. apply wp_bind, (wp_relational_reserve _ (fun n => n = Memory.limit x)); [done|..].
    + eapply wp_mono; [by apply budgeted_limit| |done]. by intros n s' [-> ->].
    + intros w d Hw Hd. apply wp_ret.
      destruct (sim_object _ _ _ _ Hs Hw) as (i & r & Hr & Ek & Hc & Hi).
      destruct (existing_agrees r w request Hc (Hv i r Hr Ek)) as (d0 & Hd0 & Ha).
      assert (d0 = d) as -> by congruence.
      eapply (memory_runs _ _ 0%N). apply wp_bind, wp_reserve;
        [|intros k Hc'; by destruct (Hc' (sim_coherent _ _ Hs))|intros; congruence..].
      intros j r' Hj Hr'. apply wp_ret. assert (j = i) as -> by congruence.
      assert (r' = r) as -> by congruence. split; [exact Ha|exact Hs].
    + intros Hn n -> used. pose proof (sim_free _ _ _ Hs Hn) as Hk.
      assert (used = default 0 (Memory.used x !! Memory.usage_key request)) as Eu.
      { rewrite (used_is_spent _ (sim_coherent _ _ Hs)). apply (sim_used _ _ Hs). }
      rewrite Eu. split; [intros Hl; apply wp_ret|intros Hl u fresh time s' Hs'; apply wp_ret].
      * eapply (memory_runs _ _ 0%N). apply wp_bind, wp_reserve; try (intros; congruence || lia).
        -- intros k Hc. by apply Hc, (sim_coherent _ _ Hs).
        -- intros _ _. apply wp_ret. split; [by split_and!|done].
      * eapply (memory_runs _ _ u). apply wp_bind, wp_reserve; try (intros; congruence || lia).
        -- intros k Hc. by apply Hc, (sim_coherent _ _ Hs).
        -- intros _ _ u' <-. apply wp_ret. split; [by split_and!|].
           eapply reserved_simulates; [exact Hs|exact Hk|exact Hn|exact Hl|exact Hs'].
  - apply wp_bind, wp_transaction, wp_bind, wp_now. intros time. apply wp_bind, wp_update; [|done].
    intros s' Hs' _. apply wp_throw_if; [|done]. intros Hone%negb_false_iff%Z.eqb_eq. apply wp_ret.
    destruct (List.filter _ _) as [|w [|]] eqn:Ef; cbn in Hone; try lia.
    assert (the_row idempotency_records (pending tenant_id id) w (content_now s)) as Hp by exact Ef.
    destruct (the_row_in _ _ _ _ Hp) as [Hin Hpw].
    destruct (sim_all _ _ Hs w Hin) as (i & r & Hr & Hk).
    destruct (sim_rows _ _ Hs i r Hr) as (w' & Hw & Hc).
    assert (w' = w) as ->.
    { assert (w ∈ List.filter (key_row (key_of (MemoryReservation.request r)))
                (content_now s (table_name idempotency_records))) as Hf by by apply elem_of_list_filter.
      unfold the_row in Hw. rewrite Hw in Hf. by apply list_elem_of_singleton in Hf. }
    destruct (pending_object _ _ _ _ Hc Hpw) as [<- Hrc].
    eapply (memory_runs _ _ 0%N). apply wp_bind, wp_complete.
    + intros j r' Hj Hr' _. rewrite (sim_ids _ _ Hs i r Hr) in Hj. injection Hj as <-.
      rewrite Hr in Hr'. injection Hr' as <-. apply wp_ret. split; [done|].
      by eapply finished_simulates.
    + intros Hno. destruct Hno. exists i, r. split_and!; [|done..]. exact (sim_ids _ _ Hs i r Hr).
Qed.
End laws.

(** ** A sample reservation *)

Definition sample_run : row := [
  ("id", c_uuid 21%N); ("tenant_id", c_uuid acme); ("goal_id", c_uuid 20%N);
  ("agent_version_id", c_uuid 22%N); ("status", c_str "pending"); ("definition", Cell (JDict []));
  ("optimistic_version", c_int 1); ("created_at", TimeCell epoch)].

(** The sample database with the refund goal, of 100 cost units, and a run. *)
Definition with_run : session MemoryDatabase.t :=
  data (snd (run_on (RepositoryCommands.run_command add_refund ;; insert runs sample_run))).

Definition refund_request (cost_units : Z) : ExecutionReservation.t := {|
  ExecutionReservation.tenant_id := uuid_str acme; ExecutionReservation.run_id := uuid_str 21%N;
  ExecutionReservation.action_id := uuid_str 23%N; ExecutionReservation.tool_name := "ledger";
  ExecutionReservation.tool_version := "1.0.0"; ExecutionReservation.idempotency_key := "refund-42";
  ExecutionReservation.request_digest := "d"; ExecutionReservation.cost_units := cost_units |}.

Lemma with_run_simulates : simulates (Memory.new 100) (content_now with_run).
Proof.
  constructor; [apply new_coherent|intros i r Hr; discriminate Hr| | |intros i r Hr; discriminate Hr].
  - intros w Hw. assert (content_now with_run (table_name idempotency_records) = []) as E
      by (vm_compute; reflexivity).
    rewrite E in Hw. destruct (proj1 (elem_of_nil w) Hw).
  - intros run. assert (content_now with_run (table_name budget_ledger) = []) as E by (vm_compute; reflexivity).
    rewrite E. reflexivity.
Qed.

Lemma with_run_budgeted cost : budgeted (refund_request cost) 100 (content_now with_run).
Proof.
  do 3 eexists. split_and!; [vm_compute; reflexivity..|].
  vm_compute. reflexivity.
Qed.

Lemma relational_reservations_refine_memory_witness :
  wp (call_op (Reserving (refund_request 60)))
    (fun d s' => ∃ e d' x' n k, call_op (Reserving (refund_request 60)) e (St (Memory.new 100) 0 0) =
         (Ok d', St x' n k) ∧ option_relation agrees (fun _ => False) (fun _ => False) d' d ∧
       simulates x' (content_now s'))
    (fun _ s' => s' = with_run) with_run.
Proof.
  apply (relational_reservations_refine_memory (Reserving (refund_request 60)) (Memory.new 100) with_run).
  - exact with_run_simulates.
  - split; [exact (with_run_budgeted 60)|intros ? ? [=]].
Defined.

(** The budget of the sample carries one reservation of 60 units; a repeated
    request is told that the first is in progress, or its receipt. *)
Example sample_reservations :
  let statuses := d1 ← Postgres.reserve (refund_request 60);
    d2 ← Postgres.reserve (refund_request 60);
    d3 ← Postgres.reserve {|
      ExecutionReservation.tenant_id := uuid_str acme; ExecutionReservation.run_id := uuid_str 21%N;
      ExecutionReservation.action_id := uuid_str 23%N; ExecutionReservation.tool_name := "ledger";
      ExecutionReservation.tool_version := "1.0.0"; ExecutionReservation.idempotency_key := "refund-43";
      ExecutionReservation.request_digest := "d"; ExecutionReservation.cost_units := 60 |};
    Postgres.complete (uuid_str acme) (default "" (ReservationDecision.reservation_id d1))
      (ToolReceipt.mk "" ToolResultStatus.REJECTED [("reason", "closed")]) ;;
    d4 ← Postgres.reserve (refund_request 60);
    mret (ReservationDecision.status <$> [d1; d2; d3; d4], ReservationDecision.receipt d4) in
  fst (statuses counting (St with_run 0 0)) = Ok ([ReservationStatus.ACQUIRED;
      ReservationStatus.IN_PROGRESS; ReservationStatus.BUDGET_EXHAUSTED; ReservationStatus.CACHED],
    Some (ToolReceipt.mk "" ToolResultStatus.FAILED [("reason", "closed")])).
Proof. vm_compute. reflexivity. Qed.
