(* ===== verification/Authority.v ===== *)
(** * packages/adapters: governance.py, emergency_authorization.py, delegations

    Who may act: the policy adapters (the development policy and the two that
    ask an Open Policy Agent), with the policies of [infra/policies] they ask
    for; the relational delegations of execution_gateway.py; and the
    break-glass authorizations, in memory and relational.

    The HTTP client and the policy agent are outside: [post] answers a request
    with a decoded body or raises.  The two tables here are declared by
    migration 0007, so the declared constraints of [Schema] do not cover them. *)

From S2P Require Import Prelude PyStr PyDict Json Transitions Values Goals Execution.
From S2P Require Import ExecutionObjects Programs Identity Improvement Digests Uuids Rows Inserts.
From S2P Require Import Codec CodecProofs Schema Effects Database RepositoryCore RepositoryRuns.
From S2P Require Import RepositoryLogic RepositoryTenants RepositoryOutbox RepositorySample.
From S2P Require Import Gateway.
From S2P Require Import GatewayProofs ExecutionGateway.
From Stdlib Require Import ZArith.

Open Scope string_scope.
Open Scope list_scope.
Open Scope Z_scope.

(** ** Policies *)

(** [s.rstrip("/")] *)
Fixpoint rstrip_slash (s : string) : string :=
  match s with
  | EmptyString => EmptyString
  | String c s =>
      match rstrip_slash s with
      | EmptyString => if bool_decide (c = "/"%char) then EmptyString else String c EmptyString
      | s => String c s
      end
  end.

Module DevelopmentPolicy.
Definition authorize (context : AuthorizationContext.t) (action : Action.t) : PolicyDecision.t := {|
  PolicyDecision.allowed :=
    any (fun role => mem role ["platform_admin"; "tenant_admin"; "operator"])
      (AuthorizationContext.roles context);
  PolicyDecision.requires_approval :=
    negb (mem (RiskLevel.value (Action.risk_level action)) ["l0_compute"; "l1_read"]);
  PolicyDecision.reason := "development role policy";
  PolicyDecision.policy_version := AuthorizationContext.policy_version context |}.
End DevelopmentPolicy.

(** [x.get(k, default)] of a decoded value: only an object has [get]. *)
Definition json_get (x : json) (k : string) (otherwise : json) : res json :=
  match x with
  | JDict d => Ok (get_or d k otherwise)
  | _ => raise (OtherError "AttributeError") "object has no attribute 'get'"
  end.

(** [str(x)]; [repr_json] is that of the values that are not strings. *)
Definition py_str (repr_json : json → string) (x : json) : string :=
  match x with JStr s => s | x => repr_json x end.

Definition checked_version (policy_version : string) : res unit :=
  raise_if (blank policy_version) ValueError "OPA policy version must be immutable and non-empty".

Module OPAPolicyAdapter.
Record t := mk { base_url : string; policy_version : string; policy_path : string }.

Definition new (base_url policy_version policy_path : string) : res t :=
  checked_version policy_version ;; Ok (mk (rstrip_slash base_url) policy_version policy_path).

Definition payload (context : AuthorizationContext.t) (action : Action.t) : json :=
  JDict [("input", JDict [
    ("identity", JDict [
      ("tenant_id", JStr (AuthorizationContext.tenant_id context));
      ("actor_id", JStr (AuthorizationContext.actor_id context));
      ("principal_id", JStr (AuthorizationContext.principal_id context));
      ("agent_id", JStr (AuthorizationContext.agent_id context));
      ("roles", strs (AuthorizationContext.roles context))]);
    ("action", JDict [
      ("tool", JStr (Action.tool_name action));
      ("operation", JStr (Action.operation action));
      ("resource", JStr (Action.resource_scope action));
      ("risk", JStr (RiskLevel.value (Action.risk_level action)));
      ("parameter_digest", JStr (Action.parameter_digest action))])])].

Definition url (x : t) : string := base_url x +:+ "/v1/data/" +:+ policy_path x.

Definition authorize (post : string → json → res json) (repr_json : json → string) (x : t)
    (context : AuthorizationContext.t) (action : Action.t) : res PolicyDecision.t :=
  response ← post (url x) (payload context action);
  result ← json_get response "result" (JDict []);
  allowed ← json_get result "allowed" (JBool false);
  requires_approval ← json_get result "requires_approval" (JBool false);
  reason ← json_get result "reason" (JStr "OPA policy decision");
  Ok {| PolicyDecision.allowed := truthy allowed;
        PolicyDecision.requires_approval := truthy requires_approval;
        PolicyDecision.reason := py_str repr_json reason;
        PolicyDecision.policy_version := policy_version x |}.
End OPAPolicyAdapter.

Module OPAImprovementTargetPolicy.
Record t := mk { base_url : string; policy_version : string }.

Definition new (base_url policy_version : string) : res t :=
  checked_version policy_version ;; Ok (mk (rstrip_slash base_url) policy_version).

Definition payload (x : t) (raw_target : string) : json :=
  JDict [("input", JDict [("target", JStr raw_target); ("policy_version", JStr (policy_version x))])].

Definition url (x : t) : string := base_url x +:+ "/v1/data/autonoesis/improvement/allow".

Definition assert_target_allowed (post : string → json → res json) (repr_json : json → string)
    (x : t) (raw_target : string) : res unit :=
  response ← post (url x) (payload x raw_target);
  result ← json_get response "result" JNull;
  let denied reason := raise PermissionError
    ("improvement target denied by policy: " +:+
     (if truthy reason then py_str repr_json reason else "improvement policy decision is missing")) in
  match result with
  | JDict d => if truthy (get_or d "allowed" (JBool false)) then Ok tt else denied (get_or d "reason" JNull)
  | _ => denied JNull
  end.
End OPAImprovementTargetPolicy.

(** ** The policies of the repository *)

Module Rego.
(** [input.a.b], undefined where a step is missing. *)
Definition field (k : string) (x : json) : option json :=
  match x with JDict d => alist_get k d | _ => None end.

Definition input (body : json) : option json := field "input" body.

(** [input.identity.roles[_] in {...}] *)
Definition has_role (roles : list string) (body : json) : bool :=
  match (input body ≫= field "identity") ≫= field "roles" with
  | Some (JList l) => any (fun role => any (fun r => bool_decide (role = JStr r)) roles) l
  | _ => false
  end.

Definition in_set (x : option json) (l : list string) : bool :=
  match x with
  | Some x => any (fun r => bool_decide (x = JStr r)) l
  | None => false
  end.

Definition decision (allowed requires_approval : bool) (reason : string) : json :=
  JDict [("allowed", JBool allowed); ("requires_approval", JBool requires_approval);
         ("reason", JStr reason)].

(** action.rego: [allow] *)
Definition action_allow (body : json) : json :=
  let risk := (input body ≫= field "action") ≫= field "risk" in
  if has_role ["platform_admin"; "tenant_admin"; "operator"; "worker"] body then
    if in_set risk ["l0_compute"; "l1_read"] then decision true false "read-only action"
    else if in_set risk ["l2_reversible_write"; "l3_high_impact_write"]
      then decision true true "write requires approval"
    else decision false false "denied by default"
  else decision false false "denied by default".

Definition forbidden_targets : list string :=
  ["identity"; "delegation"; "tenant_isolation"; "policy_root"; "audit_retention";
   "kill_switch"; "production_code"; "infrastructure"].

(** improvement.rego: [allow] *)
Definition improvement_allow (body : json) : json :=
  let denied := JDict [("allowed", JBool false); ("reason", JStr "denied by default")] in
  match input body ≫= field "target" with
  | Some (JStr target) =>
      if negb (mem target forbidden_targets) && negb (blank target)
      then JDict [("allowed", JBool true); ("reason", JStr "target is improvable")]
      else denied
  | _ => denied
  end.
End Rego.

(** The agent answers a query of [url] with the policy's value: [{"result": ...}]. *)
Definition serves (post : string → json → res json) (url : string) (policy : json → json) : Prop :=
  ∀ body, post url body = Ok (JDict [("result", policy body)]).

(** ** Delegations over the relational database *)

(** SQL's [s LIKE pattern]: [%] is any text, [_] any character, a backslash
    takes the next character literally. *)
Fixpoint like (pattern s : list ascii) {struct pattern} : bool :=
  let literally c pattern :=
    match s with [] => false | d :: s => bool_decide (c = d) && like pattern s end in
  match pattern with
  | [] => bool_decide (s = [])
  | c :: pattern =>
      if bool_decide (c = "%"%char) then
        (fix somewhere s :=
           like pattern s || match s with [] => false | _ :: s => somewhere s end) s
      else if bool_decide (c = "_"%char) then
        match s with [] => false | _ :: s => like pattern s end
      else if bool_decide (c = "\"%char) then
        match pattern with [] => false | c :: pattern => literally c pattern end
      else literally c pattern
  end.

(** A table of migration 0007. *)
Definition identity_table (name : string) (more constraints : list item) : table := Table name (
  [required "id" (String_ 36); Unique ["id"];
   required "tenant_id" (String_ 36); Reference ["tenant_id"] "tenants" ["id"]] ++ more ++
  [required "created_at" DateTime; Unique ["tenant_id"; "id"]] ++ constraints).

(** [b > a] on timestamps *)
Definition later (a b : string) (r : row) : bool :=
  match col a r, col b r with
  | TimeCell (Aware x), TimeCell (Aware y) => x <? y
  | _, _ => true
  end.

(** [a <> b]; NULL is not compared. *)
Definition distinct (a b : string) (r : row) : bool :=
  is_null a r || is_null b r || negb (bool_decide (col a r = col b r)).

Definition delegations : table := identity_table "delegations"
  [required "grantor_principal_id" (String_ 36);
   required "delegate_principal_id" (String_ 36);
   required "tool_name" (String_ 300);
   required "resource_prefix" (String_ 1000);
   required "purpose" (String_ 500);
   required "expires_at" DateTime;
   optional "revoked_at" DateTime]
  [Checked (distinct "grantor_principal_id" "delegate_principal_id");
   Checked (later "created_at" "expires_at")].

Definition temporary_authorizations : table := identity_table "temporary_authorizations"
  [required "principal_id" (String_ 36);
   required "scope" (String_ 500);
   required "reason" (String_ 1000);
   required "expires_at" DateTime;
   optional "reviewed_by" (String_ 36);
   optional "reviewed_at" DateTime]
  [Checked (later "created_at" "expires_at");
   Checked (distinct "reviewed_by" "principal_id")].

(** [expires_at > now()] *)
Definition unexpired (time : datetime) (r : row) : bool :=
  match col "expires_at" r, time with
  | TimeCell (Aware x), Aware y => y <? x
  | _, _ => false
  end.

Module PostgreSQLDelegationStore.
Section store.
Context {DB : Type} `{Database DB}.
Notation MR := (M (session DB)).

Definition grant_values (grant : DelegationGrant.t) : row := [
  ("id", c_uuid (DelegationGrant.delegation_id grant));
  ("tenant_id", c_uuid (DelegationGrant.tenant_id grant));
  ("grantor_principal_id", c_uuid (DelegationGrant.grantor_principal_id grant));
  ("delegate_principal_id", c_uuid (DelegationGrant.delegate_principal_id grant));
  ("tool_name", c_str (DelegationGrant.tool_name grant));
  ("resource_prefix", c_str (DelegationGrant.resource_prefix grant));
  ("purpose", c_str (DelegationGrant.purpose grant));
  ("expires_at", TimeCell (DelegationGrant.expires_at grant));
  ("created_at", TimeCell (DelegationGrant.created_at grant))].

Definition grant (grant : DelegationGrant.t) : MR unit :=
  transaction (insert delegations (grant_values grant)).

Definition live (tenant_id delegation_id : uuid) (r : row) : bool :=
  matches [("tenant_id", c_uuid tenant_id); ("id", c_uuid delegation_id)] r && is_null "revoked_at" r.

(** [time] is the database's [now()]. *)
Definition revoke (tenant_id delegation_id : uuid) : MR unit :=
  transaction (
    time ← now;
    rowcount ← update delegations (live tenant_id delegation_id)
                 (assign [("revoked_at", TimeCell time)]);
    throw_if (negb (rowcount =? 1)) LookupError "active delegation was not found").

(** [:resource LIKE resource_prefix || '%'] *)
Definition covers (resource : string) (r : row) : bool :=
  match col "resource_prefix" r with
  | Cell (JStr prefix) => like (chars prefix ++ ["%"%char]) (chars resource)
  | _ => false
  end.

Definition authorizing (context : AuthorizationContext.t) (delegation_id : string)
    (action : Action.t) (tool : ResolvedToolVersion.t) (time : datetime) (r : row) : bool :=
  matches [("tenant_id", c_str (AuthorizationContext.tenant_id context));
           ("id", c_str delegation_id);
           ("delegate_principal_id", c_str (AuthorizationContext.principal_id context));
           ("tool_name", c_str (ResolvedToolVersion.tool_name tool))] r &&
  covers (Action.resource_scope action) r &&
  matches [("purpose", c_str (AuthorizationContext.purpose context))] r &&
  is_null "revoked_at" r && unexpired time r.

Definition authorize (context : AuthorizationContext.t) (action : Action.t)
    (tool : ResolvedToolVersion.t) : MR bool :=
  match AuthorizationContext.delegation_id context with
  | None => mret (is_admin context)
  | Some delegation_id =>
      transaction (
        time ← now;
        rows ← select delegations (authorizing context delegation_id action tool time);
        mret (is_some (first rows)))
  end.
End store.
End PostgreSQLDelegationStore.

(** ** Break-glass authorizations *)

Module InMemoryTemporaryAuthorizationStore.
Notation t := (dict uuid TemporaryAuthorization.t).

Definition issue (authorization : TemporaryAuthorization.t) : M t unit :=
  modify (fun x => <[TemporaryAuthorization.authorization_id authorization := authorization]> x).

Definition refused {S A} : M S A :=
  throw PermissionError "active scoped Break-glass authorization is required".

Definition require_active (tenant_id authorization_id principal_id : uuid) (scope : string)
    : M t TemporaryAuthorization.t :=
  x ← get;
  match x !! authorization_id with
  | None => refused
  | Some item =>
      if negb (bool_decide (TemporaryAuthorization.tenant_id item = tenant_id)) ||
         negb (bool_decide (TemporaryAuthorization.principal_id item = principal_id)) ||
         negb (bool_decide (TemporaryAuthorization.scope item = scope)) then refused
      else
        time ← now;
        expired ← lift (dt_le (TemporaryAuthorization.expires_at item) time);
        if (expired : bool) then refused else mret item
  end.

Definition review (tenant_id authorization_id reviewer : uuid) : M t TemporaryAuthorization.t :=
  x ← get;
  match x !! authorization_id with
  | Some item =>
      throw_if (negb (bool_decide (TemporaryAuthorization.tenant_id item = tenant_id))) LookupError
        "temporary authorization was not found" ;;
      time ← now;
      reviewed ← lift (TemporaryAuthorization.review item reviewer None time);
      put (<[authorization_id := reviewed]> x) ;;
      mret reviewed
  | None => throw LookupError "temporary authorization was not found"
  end.
End InMemoryTemporaryAuthorizationStore.

Module PostgreSQLTemporaryAuthorizationStore.
Section store.
Context {DB : Type} `{Database DB}.
Notation MR := (M (session DB)).

Definition authorization_values (x : TemporaryAuthorization.t) : row := [
  ("id", c_uuid (TemporaryAuthorization.authorization_id x));
  ("tenant_id", c_uuid (TemporaryAuthorization.tenant_id x));
  ("principal_id", c_uuid (TemporaryAuthorization.principal_id x));
  ("scope", c_str (TemporaryAuthorization.scope x));
  ("reason", c_str (TemporaryAuthorization.reason x));
  ("expires_at", TimeCell (TemporaryAuthorization.expires_at x));
  ("created_at", TimeCell (TemporaryAuthorization.created_at x))].

Definition issue (authorization : TemporaryAuthorization.t) : MR unit :=
  transaction (insert temporary_authorizations (authorization_values authorization)).

(** [_from_row] *)
Definition from_row (row : row) : res TemporaryAuthorization.t :=
  tenant_id ← uuid_column row "tenant_id";
  principal_id ← uuid_column row "principal_id";
  scope ← str_column row "scope";
  reason ← str_column row "reason";
  expires_at ← time_column row "expires_at";
  authorization_id ← uuid_column row "id";
  created_at ← time_column row "created_at";
  reviewed_by ← json_column row "reviewed_by";
  reviewed_by ← if_truthy as_uuid reviewed_by;
  reviewed_at ← opt_time_column row "reviewed_at";
  TemporaryAuthorization.new (TemporaryAuthorization.mk tenant_id principal_id scope reason
    expires_at authorization_id created_at reviewed_by reviewed_at).

Definition identified (tenant_id authorization_id : uuid) : row → bool :=
  matches [("tenant_id", c_uuid tenant_id); ("id", c_uuid authorization_id)].

Definition active (tenant_id authorization_id principal_id : uuid) (scope : string)
    (time : datetime) (r : row) : bool :=
  identified tenant_id authorization_id r &&
  matches [("principal_id", c_uuid principal_id); ("scope", c_str scope)] r && unexpired time r.

Definition require_active (tenant_id authorization_id principal_id : uuid) (scope : string)
    : MR TemporaryAuthorization.t :=
  time ← now;
  rows ← select temporary_authorizations (active tenant_id authorization_id principal_id scope time);
  row ← lift (one_or_none rows);
  match row with
  | None => InMemoryTemporaryAuthorizationStore.refused
  | Some row => lift (from_row row)
  end.

Definition review (tenant_id authorization_id reviewer : uuid) : MR TemporaryAuthorization.t :=
  transaction (
    rows ← select temporary_authorizations (identified tenant_id authorization_id);
    row ← lift (one_or_none rows);
    match row with
    | None => throw LookupError "temporary authorization was not found"
    | Some row =>
        item ← lift (from_row row);
        time ← now;
        reviewed ← lift (TemporaryAuthorization.review item reviewer None time);
        update temporary_authorizations (identified tenant_id authorization_id)
          (assign [("reviewed_by", c_uuid reviewer);
                   ("reviewed_at", c_opt_time (TemporaryAuthorization.reviewed_at reviewed))]) ;;
        mret reviewed
    end).
End store.
End PostgreSQLTemporaryAuthorizationStore.

(** ** What the policies allow *)

Lemma rego_has_role roles context action :
  Rego.has_role roles (OPAPolicyAdapter.payload context action) =
  any (fun role => mem role roles) (AuthorizationContext.roles context).
Proof.
  transitivity (any (fun role => any (fun r => bool_decide (role = JStr r)) roles)
    (JStr <$> AuthorizationContext.roles context)); [reflexivity|].
  induction (AuthorizationContext.roles context) as [|role l IH]; [done|]. cbn. f_equal; [|exact IH].
  apply eq_true_iff_eq. rewrite any_true, mem_true. setoid_rewrite bool_decide_eq_true.
  split; [by intros (r & Hr & [= ->])|]. intros Hr. by exists role.
Qed.

(** What the adapter makes of the repository's action policy. *)
Lemma opa_decides post repr_json x context action decision :
  serves post (OPAPolicyAdapter.url x) Rego.action_allow →
  OPAPolicyAdapter.authorize post repr_json x context action = Ok decision →
  PolicyDecision.allowed decision = true →
  (∃ role, role ∈ AuthorizationContext.roles context ∧
     role ∈ ["platform_admin"; "tenant_admin"; "operator"; "worker"]) ∧
  Action.risk_level action ≠ RiskLevel.L4_PRIVILEGED ∧
  (PolicyDecision.requires_approval decision = false →
   Action.risk_level action ∈ [RiskLevel.L0_COMPUTE; RiskLevel.L1_READ]).
Proof.
  intros Hs. unfold OPAPolicyAdapter.authorize. rewrite Hs. unfold Rego.action_allow.
  rewrite rego_has_role. destruct (any _ _) eqn:Er.
  - rewrite any_true in Er. destruct Er as (role & Hr & Hm%mem_true).
    change ((Rego.input (OPAPolicyAdapter.payload context action) ≫= Rego.field "action") ≫= Rego.field "risk")
      with (Some (JStr (RiskLevel.value (Action.risk_level action)))).
    destruct (Action.risk_level action); intros [= <-] Ha; try discriminate Ha;
      (split; [by exists role|]); (split; [done|]); intros Hq; try discriminate Hq; solve_in.
  - intros [= <-] Ha. discriminate Ha.
Qed.

(** With the repository's action policy behind the adapter, the gateway makes an
    external call only for a caller with one of the policy's roles, never for an L4
    action, even where the gateway itself allows them, and for a write only with an
    approval that authorizes this very action. *)
(** C7. With the repository's action policy behind the OPA adapter, the gateway makes
    an external call only for a caller with one of the policy's roles, never for an L4
    action, even where the gateway itself allows them, and for a write only with an
    approval that authorizes this very action. *)
Theorem opa_governs_execution post repr_json x allow_l4 ctx action approval cost tr out
    executing tool credential :
  serves post (OPAPolicyAdapter.url x) Rego.action_allow →
  runs (execute allow_l4 ctx action approval cost) tr out →
  (∀ r, Event (Policy ctx action) r ∈ tr → r = OPAPolicyAdapter.authorize post repr_json x ctx action) →
  (executing, tool, credential) ∈ executions tr →
  (∃ role, role ∈ AuthorizationContext.roles ctx ∧
     role ∈ ["platform_admin"; "tenant_admin"; "operator"; "worker"]) ∧
  Action.risk_level action ≠ RiskLevel.L4_PRIVILEGED ∧
  (Action.risk_level action ∉ [RiskLevel.L0_COMPUTE; RiskLevel.L1_READ] →
   ∃ q t, approval = Some q ∧ ApprovalRequest.decided_by q ≠ None ∧
     ApprovalRequest.authorizes q action (OPAPolicyAdapter.policy_version x) None t = Ok true).
Proof.
  intros Hs Hr Hp (ev & Hev & He)%list_elem_of_omap.
  apply list_elem_of_split in Hev as (before & later & ->).
  destruct (execute_after _ _ _ _ _ _ _ Hr) as [_ Ht].
  destruct (Ht before ev later _ eq_refl He) as (Hg & _). cbn [app] in Hg.
  destruct (go_policy _ _ _ _ _ _ _ _ Hg) as (decision & Hd & Ha & Hv & Hq).
  specialize (Hp _ ltac:(apply elem_of_app; left; exact Hd)). symmetry in Hp.
  destruct (opa_decides _ _ _ _ _ _ Hs Hp Ha) as (Hrole & H4 & Hread).
  split_and!; [done|done|]. intros Hw.
  assert (PolicyDecision.policy_version decision = OPAPolicyAdapter.policy_version x) as <-.
  { unfold OPAPolicyAdapter.authorize in Hp. inv_ok. done. }
  destruct (PolicyDecision.requires_approval decision) eqn:Eq.
  - destruct (Hq eq_refl) as (q & t & ? & ? & _ & ?). by exists q, t.
  - by destruct (Hw (Hread eq_refl)).
Qed.

Lemma improvement_policy x target :
  Rego.improvement_allow (OPAImprovementTargetPolicy.payload x target) =
  if negb (mem target Rego.forbidden_targets) && negb (blank target)
  then JDict [("allowed", JBool true); ("reason", JStr "target is improvable")]
  else JDict [("allowed", JBool false); ("reason", JStr "denied by default")].
Proof. reflexivity. Qed.

(** A target in the policy's spelling that the policy allows is not blank and
    passes the application's guard. *)
Theorem improvement_layers_agree post repr_json x target :
  serves post (OPAImprovementTargetPolicy.url x) Rego.improvement_allow →
  is_ok (OPAImprovementTargetPolicy.assert_target_allowed post repr_json x target) = true →
  lower (strip target) = target →
  require_improvement_target_allowed target = Ok tt ∧ target ≠ "".
Proof.
  intros Hs. unfold OPAImprovementTargetPolicy.assert_target_allowed.
  rewrite Hs, improvement_policy. unfold require_improvement_target_allowed.
  destruct (mem target Rego.forbidden_targets) eqn:Em; [by intros|].
  destruct (blank target) eqn:Eb; [by intros|]. intros _ ->.
  change FORBIDDEN_IMPROVEMENT_TARGETS with Rego.forbidden_targets. rewrite Em. split; [done|].
  by intros ->.
Qed.

(** The policy compares spellings, the application does not. *)
Example spelling_escapes_the_policy post repr_json x :
  serves post (OPAImprovementTargetPolicy.url x) Rego.improvement_allow →
  OPAImprovementTargetPolicy.assert_target_allowed post repr_json x "Kill_Switch" = Ok tt ∧
  is_ok (require_improvement_target_allowed "Kill_Switch") = false.
Proof.
  intros Hs. unfold OPAImprovementTargetPolicy.assert_target_allowed.
  rewrite Hs, improvement_policy. split; vm_compute; reflexivity.
Qed.

(** ** Delegations *)

(** A character that is not special in a pattern. *)
Definition plain (c : ascii) : Prop := c ≠ "%"%char ∧ c ≠ "_"%char ∧ c ≠ "\"%char.

Lemma like_plain p s : Forall plain (chars p) →
  like (chars p ++ ["%"%char]) (chars s) = startswith s p.
Proof.
  unfold startswith. revert s. induction p as [|c p IH]; intros s Hp.
  - induction s as [|d s IH]; [done|].
    transitivity (like (chars "" ++ ["%"%char]) (chars s)); [reflexivity|]. rewrite IH. by destruct s.
  - apply Forall_cons in Hp as [(H1 & H2 & H3) Hp]. cbn [chars app like].
    rewrite !bool_decide_eq_false_2 by done. destruct s as [|d s]; [done|]. cbn [chars String.prefix].
    rewrite IH by done. destruct (ascii_dec c d) as [->|Hne].
    + by rewrite bool_decide_eq_true_2.
    + by rewrite bool_decide_eq_false_2.
Qed.

Section delegations.
Context {DB : Type} `{DatabaseLaws DB}.
Notation MR := (M (session DB)).

(** The row of a grant. *)
Definition row_of_grant (g : DelegationGrant.t) (r : row) : Prop :=
  has r (PostgreSQLDelegationStore.grant_values g ++
         [("revoked_at", c_opt_time (DelegationGrant.revoked_at g))]).

(** A valid grant with a plain prefix and known times. *)
Definition grant_ok (g : DelegationGrant.t) : Prop :=
  uuid_ok (DelegationGrant.delegation_id g) ∧ uuid_ok (DelegationGrant.tenant_id g) ∧
  uuid_ok (DelegationGrant.delegate_principal_id g) ∧
  Forall plain (chars (DelegationGrant.resource_prefix g)) ∧
  is_naive (DelegationGrant.expires_at g) = false ∧ DelegationGrant.post_init g = Ok tt.

Lemma authorizing_row g r tenant principal context action tool time :
  row_of_grant g r → grant_ok g → is_naive time = false → uuid_ok tenant → uuid_ok principal →
  AuthorizationContext.tenant_id context = uuid_str tenant →
  AuthorizationContext.principal_id context = uuid_str principal →
  Ok (PostgreSQLDelegationStore.authorizing context (uuid_str (DelegationGrant.delegation_id g))
        action tool time r) =
  DelegationGrant.authorizes g tenant principal (ResolvedToolVersion.tool_name tool)
    (Action.resource_scope action) (AuthorizationContext.purpose context) None time.
Proof.
  intros Hr (Hid & Ht & Hd & Hp & He & _) Htime Hut Hup Ect Ecp.
  unfold row_of_grant, has, PostgreSQLDelegationStore.grant_values in Hr. cbn [app] in Hr.
  rewrite !Forall_cons in Hr. destruct Hr as (R1 & R2 & R3 & R4 & R5 & R6 & R7 & R8 & R9 & R10 & _).
  apply col_has in R1, R2, R4, R5, R6, R7, R8, R10. cbn [fst snd] in *.
  unfold PostgreSQLDelegationStore.authorizing, PostgreSQLDelegationStore.covers, unexpired, is_null,
    DelegationGrant.authorizes.
  rewrite !matches_cons, R1, R2, R4, R5, R6, R7, R8, R10, Ect, Ecp.
  cbn [c_str]. rewrite like_plain by done.
  destruct (DelegationGrant.expires_at g) as [x|x]; [|done]. destruct time as [y|y]; [|done].
  destruct (DelegationGrant.revoked_at g) as [z|]; cbn [c_opt_time is_some is_none negb].
  - rewrite (bool_decide_eq_false_2 (TimeCell z = NULL)) by done. f_equal.
    rewrite !andb_false_r. reflexivity.
  - cbn [default dt_lt mbind res_bind]. f_equal. apply eq_true_iff_eq.
    rewrite !andb_true_iff, !bool_decide_eq_true.
    change (c_str (uuid_str tenant)) with (c_uuid tenant).
    change (c_str (uuid_str principal)) with (c_uuid principal). split.
    + intros (((((E1%uuid_cells & _ & E2%uuid_cells & E3 & _) & Hc) & E4 & _) & _) & E5); [|done..].
      unfold c_str in E3, E4. split_and!; congruence.
    + intros (((((E5 & ->) & ->) & ->) & E6) & ->). by split_and!.
Qed.

(** The rows of a tenant's identifier, whatever the tenant. *)
Definition with_id (id : string) (r : row) : bool := bool_decide (col "id" r = c_str id).

(** The rows with identifier [id] are [r], or none. *)
Definition rows_are (tb : table) (id : string) (rows : list row) (c : content) : Prop :=
  List.filter (with_id id) (c (table_name tb)) = rows.

(** The database holds the scoped grants of the store in memory. *)
Definition grants_stored (grants : InMemoryDelegationStore.t) (c : content) : Prop :=
  ∀ id, match grants !! id with
        | Some (Scoped g) => id = uuid_str (DelegationGrant.delegation_id g) ∧ grant_ok g ∧
            ∃ r, rows_are delegations id [r] c ∧ row_of_grant g r
        | Some (Compatible _ _) => False
        | None => rows_are delegations id [] c
        end.

Lemma filter_narrow (p q : row → bool) l : (∀ r, q r = true → p r = true) →
  List.filter q l = List.filter q (List.filter p l).
Proof.
  intros Hq. induction l as [|r l IH]; [done|]. cbn. destruct (p r) eqn:Ep; cbn; rewrite IH; [done|].
  destruct (q r) eqn:E; [|done]. apply Hq in E. congruence.
Qed.

(** What selects among the rows with an identifier. *)
Lemma select_one tb id rows q s (sel : list row) :
  rows_are tb id rows (content_now s) → (∀ r, q r = true → with_id id r = true) →
  sel ≡ₚ List.filter q (content_now s (table_name tb)) → sel ≡ₚ List.filter q rows.
Proof. intros Hr Hq ->. rewrite (filter_narrow _ _ _ Hq). unfold rows_are in Hr. by rewrite Hr. Qed.

Lemma authorizing_id context id action tool time r :
  PostgreSQLDelegationStore.authorizing context id action tool time r = true → with_id id r = true.
Proof.
  unfold PostgreSQLDelegationStore.authorizing, with_id. rewrite !matches_cons, !andb_true_iff. tauto.
Qed.

(** For grants whose prefix has no pattern characters the two delegation stores give
    the same answer to every request at the same time, and neither raises. *)
(** C25. When both delegation stores hold the same well-formed grants, limited to a
    resource prefix without pattern characters, a request that names its tenant and
    principal as canonical UUID texts gets the same answer from both at the same time,
    from an aware clock, and neither raises. *)
Theorem delegation_stores_agree grants context action tool tenant principal s e n k :
  grants_stored grants (content_now s) → is_naive (clock e n) = false →
  uuid_ok tenant → uuid_ok principal →
  AuthorizationContext.tenant_id context = uuid_str tenant →
  AuthorizationContext.principal_id context = uuid_str principal →
  ∃ b, fst (PostgreSQLDelegationStore.authorize context action tool e (St s n k)) = Ok b ∧
       fst (InMemoryDelegationStore.authorize context action tool e (St grants n k)) = Ok b.
Proof.
  intros Hg Hc Hut Hup Et Ep.
  unfold PostgreSQLDelegationStore.authorize, InMemoryDelegationStore.authorize.
  destruct (AuthorizationContext.delegation_id context) as [id|] eqn:Ed; [|by eexists].
  specialize (Hg id). set (q := PostgreSQLDelegationStore.authorizing context id action tool (clock e n)).
  assert (∃ sel, fst (transaction (time ← now; rows ← select delegations
              (PostgreSQLDelegationStore.authorizing context id action tool time);
              mret (is_some (first rows))) e (St s n k)) = Ok (is_some (first sel)) ∧
            sel ≡ₚ List.filter q (content_now s (table_name delegations))) as (sel & -> & Hsel).
  { eexists. split; [reflexivity|]. apply select_where_rows. }
  unfold mbind at 1, M_bind at 1. cbn [Effects.get].
  destruct (grants !! id) as [[g|]|] eqn:Eg; [| done|].
  - destruct Hg as (-> & Hok & r & Hr & Hrow).
    apply (select_one _ _ _ _ _ _ Hr (authorizing_id _ _ _ _ _)) in Hsel.
    pose proof (authorizing_row g r tenant principal context action tool (clock e n) Hrow Hok Hc
                  Hut Hup Et Ep) as Ha. fold q in Ha.
    exists (q r). split.
    + change (sel ≡ₚ if q r then [r] else []) in Hsel. destruct (q r).
      * apply Permutation_singleton_r in Hsel as ->. done.
      * apply Permutation_nil_r in Hsel as ->. done.
    + unfold lift, mbind, M_bind, now. cbn. rewrite Eg, Et, Ep, !uuid_round_trip by done. cbn.
      by rewrite Ha.
  - exists false. apply (select_one _ _ _ _ _ _ Hg (authorizing_id _ _ _ _ _)) in Hsel.
    apply Permutation_nil_r in Hsel as ->. split; [done|]. cbn. by rewrite Eg.
Qed.

(** Rows with another identifier are left alone. *)
Lemma rows_are_other tb id rows c c' : rows_are tb id rows c →
  List.filter (with_id id) (c' (table_name tb)) ≡ₚ List.filter (with_id id) (c (table_name tb)) →
  (length rows <= 1)%nat → rows_are tb id rows c'.
Proof.
  unfold rows_are. intros -> E Hl. destruct rows as [|r [|]]; [| |cbn in Hl; lia].
  - by apply Permutation_nil_r in E.
  - by apply Permutation_singleton_r in E.
Qed.

Lemma filter_revise (p : row → bool) (f : row → row) l : (∀ r, p (f r) = p r) →
  List.filter p (List.map f l) = List.map f (List.filter p l).
Proof.
  intros Hf. induction l as [|r l IH]; [done|]. cbn. rewrite Hf. destruct (p r); cbn; by rewrite IH.
Qed.

Lemma grant_stored grants g s : grants_stored grants (content_now s) → grant_ok g →
  DelegationGrant.revoked_at g = None → grants !! uuid_str (DelegationGrant.delegation_id g) = None →
  wp (PostgreSQLDelegationStore.grant g)
    (fun _ s' => grants_stored (<[uuid_str (DelegationGrant.delegation_id g) := Scoped g]> grants)
                   (content_now s')) (fun _ s' => s' = s) s.
Proof.
  intros Hs Hok Hr Hn. apply wp_transaction, wp_insert; [|done]. intros s' Hs' _ id.
  assert (content_now s' (table_name delegations) ≡ₚ
          Schema.complete delegations (PostgreSQLDelegationStore.grant_values g) ::
          content_now s (table_name delegations)) as E by by rewrite (Hs' _), add_row_at.
  apply (filter_permutation (with_id id)) in E. cbn [List.filter] in E.
  unfold with_id at 2 in E. change (col "id" (Schema.complete _ _)) with
    (c_str (uuid_str (DelegationGrant.delegation_id g))) in E.
  pose proof (Hs id) as Hid.
  destruct (decide (uuid_str (DelegationGrant.delegation_id g) = id)) as [<-|Hne].
  - rewrite dict_lookup_insert. rewrite Hn in Hid. split_and!; [done..|].
    rewrite bool_decide_eq_true_2 in E by done. unfold rows_are in Hid. rewrite Hid in E.
    eexists. split; [by apply Permutation_singleton_r in E|].
    unfold row_of_grant. rewrite Hr. repeat constructor.
  - rewrite dict_lookup_insert_ne by done. rewrite bool_decide_eq_false_2 in E by (intros [= ?]; done).
    destruct (grants !! id) as [[g'|]|] eqn:Eg; [|done|by eapply rows_are_other; [done|done|cbn; lia]].
    destruct Hid as (-> & Hok' & r & Hrows & Hrow). split_and!; [done..|]. exists r.
    split; [by eapply rows_are_other; [done|done|cbn; lia]|done].
Qed.

(** The row a revocation leaves. *)
Lemma revoked_row g r time : row_of_grant g r →
  row_of_grant (g <| DelegationGrant.revoked_at := Some time |>)
    (assign [("revoked_at", TimeCell time)] r).
Proof.
  unfold row_of_grant, has, PostgreSQLDelegationStore.grant_values. cbn [app]. rewrite !Forall_cons.
  intros (R1 & R2 & R3 & R4 & R5 & R6 & R7 & R8 & R9 & R10 & _). cbn [fst snd] in *.
  split_and!; try (etransitivity; [apply assign_get|assumption || reflexivity]). constructor.
Qed.

Lemma live_id tenant id r : PostgreSQLDelegationStore.live tenant id r = true → with_id (uuid_str id) r = true.
Proof.
  unfold PostgreSQLDelegationStore.live, with_id. rewrite !matches_cons, !andb_true_iff. tauto.
Qed.

Lemma revoke_stored grants tenant id s s' e n k n' k' : grants_stored grants (content_now s) →
  PostgreSQLDelegationStore.revoke tenant id e (St s n k) = (Ok tt, St s' n' k') →
  ∃ grants' n'' k'', InMemoryDelegationStore.revoke (uuid_str id) e (St grants n k) =
    (Ok tt, St grants' n'' k'') ∧ grants_stored grants' (content_now s').
Proof.
  intros Hg Hrun.
  set (time := clock e n). set (live := PostgreSQLDelegationStore.live tenant id).
  assert (length (List.filter live (content_now s (table_name delegations))) = 1%nat ∧
          same_rows (content_now s')
            (revise delegations live (assign [("revoked_at", TimeCell time)]) (content_now s)))
    as [Hone Hs'].
  { unfold PostgreSQLDelegationStore.revoke, transaction in Hrun.
    match type of Hrun with (match ?m with _ => _ end) = _ => destruct m as [[[]|] s1] eqn:E end; [|done].
    injection Hrun as ->.
    apply run_bind in E as (time' & s2 & Ht & E). injection Ht as <- <-.
    apply run_bind in E as (rowcount & s3 & Hu & E). unfold update in Hu.
    apply run_bind in Hu as (s4 & s5 & Hget & Hu). injection Hget as <- <-.
    apply run_bind in Hu as ([d m] & s6 & Hd & Hu). apply run_lift in Hd as [Hd ->].
    apply run_bind in Hu as ([] & s7 & Hput & Hu). injection Hput as <-. injection Hu as <- <-.
    unfold throw_if in E. apply run_lift in E as [E%raise_if_ok Es]. injection Es as -> _ _.
    apply negb_false_iff, Z.eqb_eq in E. apply update_where_ok in Hd as [Hd Hm].
    split; [|exact Hd]. cbn [snd] in E. rewrite Hm in E. by apply (Nat2Z.inj _ 1). }
  destruct (List.filter live _) as [|r [|]] eqn:Ef; cbn in Hone; try lia.
  assert (r ∈ content_now s (table_name delegations) ∧ live r = true) as [Hr Hl]
    by (apply elem_of_list_filter; rewrite Ef; left).
  assert (∀ id', List.filter (with_id id') (content_now s' (table_name delegations)) ≡ₚ
            List.map (fun r => if live r then assign [("revoked_at", TimeCell time)] r else r)
              (List.filter (with_id id') (content_now s (table_name delegations)))) as E.
  { intros id'. rewrite (filter_permutation _ _ _ (Hs' (table_name delegations))), revise_at.
    rewrite filter_revise; [done|]. intros r'. destruct (live r'); [|done].
    unfold with_id. by rewrite assign_col. }
  pose proof (Hg (uuid_str id)) as Hid.
  assert (r ∈ List.filter (with_id (uuid_str id)) (content_now s (table_name delegations))) as Hin
    by (apply elem_of_list_filter; split; [done|by eapply live_id]).
  destruct (grants !! uuid_str id) as [[g|]|] eqn:Eg; [|done|].
  2: { unfold rows_are in Hid. rewrite Hid in Hin. by apply elem_of_nil in Hin. }
  destruct Hid as (Eid & Hok & r' & Hrows & Hrow). unfold rows_are in Hrows. rewrite Hrows in Hin.
  apply list_elem_of_singleton in Hin as <-.
  assert (DelegationGrant.revoke g None time = Ok (g <| DelegationGrant.revoked_at := Some time |>)) as Hrev.
  { unfold DelegationGrant.revoke, DelegationGrant.new. cbn [default].
    change (DelegationGrant.post_init (g <| DelegationGrant.revoked_at := Some time |>))
      with (DelegationGrant.post_init g). destruct Hok as (_ & _ & _ & _ & _ & ->). done. }
  do 3 eexists. split.
  { unfold InMemoryDelegationStore.revoke, mbind, M_bind, Effects.get, now, lift. cbn.
    rewrite Eg. cbn. fold time. rewrite Hrev. reflexivity. }
  intros id'. destruct (decide (uuid_str id = id')) as [<-|Hne].
  - rewrite dict_lookup_insert. split_and!; [done|exact Hok|].
    eexists. split; [|by apply revoked_row]. unfold rows_are. apply Permutation_singleton_r.
    rewrite E, Hrows. cbn. by rewrite Hl.
  - rewrite dict_lookup_insert_ne by done. specialize (Hg id').
    assert (List.filter (with_id id') (content_now s' (table_name delegations)) ≡ₚ
            List.filter (with_id id') (content_now s (table_name delegations))) as E'.
    { rewrite E, (List.map_ext_in _ (fun r => r)), List.map_id; [done|].
      intros r2 [Hr2 Hi2]%list_elem_of_In%elem_of_list_filter. destruct (live r2) eqn:El; [|done]. apply live_id in El. unfold with_id in *.
      apply bool_decide_eq_true in El, Hi2. destruct Hne. unfold c_str in *. congruence. }
    destruct (grants !! id') as [[g'|]|]; [|done|by eapply rows_are_other; [done|done|cbn; lia]].
    destruct Hg as (-> & Hok' & r2 & Hrows2 & Hrow2). split_and!; [done..|]. exists r2.
    split; [by eapply rows_are_other; [done|done|cbn; lia]|done].
Qed.

(** Once [revoke] returned, the delegation authorizes nothing, from the next
    call on; when it raises, nothing has changed. *)
(** C26. Once revoke returned, the delegation authorizes nothing, from the next call
    on; when it raises, nothing has changed. *)
Theorem revocation_takes_effect context action tool tenant id s :
  AuthorizationContext.tenant_id context = uuid_str tenant →
  AuthorizationContext.delegation_id context = Some (uuid_str id) →
  wp (PostgreSQLDelegationStore.revoke tenant id ;;
      PostgreSQLDelegationStore.authorize context action tool)
    (fun allowed _ => allowed = false) (fun _ s' => s' = s) s.
Proof.
  intros Et Ed. apply wp_bind, wp_transaction, wp_bind, wp_now. intros time.
  apply wp_bind, wp_update; [|done]. intros s' Hs' _. apply wp_throw_if; [|done]. intros _.
  unfold PostgreSQLDelegationStore.authorize. rewrite Ed.
  apply wp_transaction, wp_bind, wp_now. intros time'. apply wp_bind, wp_select. intros rows Hrows.
  apply wp_ret. destruct rows as [|r rows]; [done|]. exfalso.
  assert (r ∈ List.filter (PostgreSQLDelegationStore.authorizing context (uuid_str id) action tool time')
                (content_now s' (table_name delegations))) as Hr by (rewrite <- Hrows; left).
  apply elem_of_list_filter in Hr as [Hr Ha]. rewrite (Hs' _), revise_at in Hr.
  apply list_elem_of_fmap in Hr as (r0 & -> & _).
  unfold PostgreSQLDelegationStore.authorizing in Ha. rewrite !andb_true_iff in Ha.
  destruct Ha as ((((Hid & _) & _) & Hn) & _). rewrite !matches_cons, !andb_true_iff, !bool_decide_eq_true in Hid.
  destruct Hid as (H1 & H2 & _). rewrite Et in H1.
  destruct (PostgreSQLDelegationStore.live tenant id r0) eqn:El.
  - unfold is_null in Hn. apply bool_decide_eq_true in Hn. discriminate Hn.
  - unfold PostgreSQLDelegationStore.live in El. rewrite !matches_cons in El.
    change (c_uuid tenant) with (c_str (uuid_str tenant)) in El.
    change (c_uuid id) with (c_str (uuid_str id)) in El.
    rewrite H1, H2, Hn, !bool_decide_eq_true_2 in El by done. discriminate El.
Qed.
End delegations.

(** ** Break-glass authorizations *)

Section breakglass.
Context {DB : Type} `{DatabaseLaws DB}.
Notation MR := (M (session DB)).

(** The row of an authorization, reviewed or not. *)
Definition row_of_authorization (x : TemporaryAuthorization.t) (r : row) : Prop :=
  has r (PostgreSQLTemporaryAuthorizationStore.authorization_values x ++
         [("reviewed_by", Cell (j_opt j_uuid (TemporaryAuthorization.reviewed_by x)));
          ("reviewed_at", c_opt_time (TemporaryAuthorization.reviewed_at x))]).

Definition authorization_ok (x : TemporaryAuthorization.t) : Prop :=
  uuid_ok (TemporaryAuthorization.authorization_id x) ∧ uuid_ok (TemporaryAuthorization.tenant_id x) ∧
  uuid_ok (TemporaryAuthorization.principal_id x) ∧
  (∀ u, TemporaryAuthorization.reviewed_by x = Some u → uuid_ok u) ∧
  is_naive (TemporaryAuthorization.expires_at x) = false ∧ TemporaryAuthorization.post_init x = Ok tt.

(** The database holds the authorizations of the store in memory. *)
Definition authorizations_stored (items : InMemoryTemporaryAuthorizationStore.t) (c : content) : Prop :=
  ∀ id, uuid_ok id →
  match items !! id with
  | Some x => id = TemporaryAuthorization.authorization_id x ∧ authorization_ok x ∧
      ∃ r, rows_are temporary_authorizations (uuid_str id) [r] c ∧ row_of_authorization x r
  | None => rows_are temporary_authorizations (uuid_str id) [] c
  end.

Lemma eta_authorization x : x = TemporaryAuthorization.mk (TemporaryAuthorization.tenant_id x)
  (TemporaryAuthorization.principal_id x) (TemporaryAuthorization.scope x)
  (TemporaryAuthorization.reason x) (TemporaryAuthorization.expires_at x)
  (TemporaryAuthorization.authorization_id x) (TemporaryAuthorization.created_at x)
  (TemporaryAuthorization.reviewed_by x) (TemporaryAuthorization.reviewed_at x).
Proof. by destruct x. Qed.

Lemma authorization_round_trip x r : row_of_authorization x r → authorization_ok x →
  PostgreSQLTemporaryAuthorizationStore.from_row r = Ok x.
Proof.
  intros Hr (Hid & Ht & Hp & Hrev & _ & Hi).
  unfold row_of_authorization, has, PostgreSQLTemporaryAuthorizationStore.authorization_values in Hr.
  cbn [app] in Hr. rewrite !Forall_cons in Hr. cbn [fst snd] in Hr.
  destruct Hr as (R1 & R2 & R3 & R4 & R5 & R6 & R7 & R8 & R9 & _).
  unfold PostgreSQLTemporaryAuthorizationStore.from_row.
  rewrite (uuid_column_at _ _ _ R2), (uuid_column_at _ _ _ R3), (str_column_at _ _ _ R4),
    (str_column_at _ _ _ R5), (time_column_at _ _ _ R6), (uuid_column_at _ _ _ R1),
    (time_column_at _ _ _ R7), (json_column_at _ _ _ R8) by done.
  cbn [mbind res_bind]. rewrite (if_truthy_opt as_uuid j_uuid).
  - cbn [mbind res_bind]. rewrite (opt_time_column_at _ _ _ R9). cbn [mbind res_bind].
    rewrite <- (eta_authorization x). unfold TemporaryAuthorization.new. by rewrite Hi.
  - intros u Hu. split; [apply truthy_uuid|]. by apply as_uuid_uuid, Hrev.
Qed.

Lemma identified_row x r tenant id : row_of_authorization x r → authorization_ok x → uuid_ok tenant →
  id = TemporaryAuthorization.authorization_id x →
  PostgreSQLTemporaryAuthorizationStore.identified tenant id r =
  bool_decide (TemporaryAuthorization.tenant_id x = tenant).
Proof.
  intros Hr (Hid & Ht & _) Hu ->.
  unfold row_of_authorization, has, PostgreSQLTemporaryAuthorizationStore.authorization_values in Hr.
  cbn [app] in Hr. rewrite !Forall_cons in Hr. destruct Hr as (R1 & R2 & _).
  apply col_has in R1, R2. cbn [fst snd] in *.
  unfold PostgreSQLTemporaryAuthorizationStore.identified. rewrite !matches_cons, R1, R2.
  rewrite (bool_decide_eq_true_2 (c_uuid (TemporaryAuthorization.authorization_id x) = _)) by done.
  apply eq_true_iff_eq. rewrite !andb_true_iff, !bool_decide_eq_true.
  split; [intros [E _]; by apply uuid_cells|by intros ->].
Qed.

Lemma identified_id tenant id r :
  PostgreSQLTemporaryAuthorizationStore.identified tenant id r = true → with_id (uuid_str id) r = true.
Proof.
  unfold PostgreSQLTemporaryAuthorizationStore.identified, with_id.
  rewrite !matches_cons, !andb_true_iff. tauto.
Qed.

Lemma active_row x r tenant id principal scope time :
  row_of_authorization x r → authorization_ok x → uuid_ok tenant → uuid_ok principal →
  id = TemporaryAuthorization.authorization_id x → is_naive time = false →
  PostgreSQLTemporaryAuthorizationStore.active tenant id principal scope time r =
  bool_decide (TemporaryAuthorization.tenant_id x = tenant) &&
  bool_decide (TemporaryAuthorization.principal_id x = principal) &&
  bool_decide (TemporaryAuthorization.scope x = scope) &&
  match dt_le (TemporaryAuthorization.expires_at x) time with Ok b => negb b | Err _ => false end.
Proof.
  intros Hr Hok Hu Hup Hid Htime. unfold PostgreSQLTemporaryAuthorizationStore.active, unexpired.
  rewrite (identified_row x) by done. destruct Hok as (_ & _ & Hp & _ & He & _).
  unfold row_of_authorization, has, PostgreSQLTemporaryAuthorizationStore.authorization_values in Hr.
  cbn [app] in Hr. rewrite !Forall_cons in Hr. destruct Hr as (_ & _ & R3 & R4 & _ & R6 & _).
  apply col_has in R3, R4, R6. cbn [fst snd] in *. rewrite !matches_cons, R3, R4, R6.
  destruct (TemporaryAuthorization.expires_at x) as [m|]; [|done]. destruct time as [m'|]; [|done].
  cbn [dt_le]. rewrite Z.leb_antisym, negb_involutive.
  apply eq_true_iff_eq. rewrite !andb_true_iff, !bool_decide_eq_true.
  split.
  - intros ((Ht & E1%uuid_cells & E2 & _) & E); [|done..]. unfold c_str in E2. split_and!; congruence.
  - intros (((-> & ->) & ->) & E). by split_and!.
Qed.

Lemma active_id tenant id principal scope time r :
  PostgreSQLTemporaryAuthorizationStore.active tenant id principal scope time r = true →
  with_id (uuid_str id) r = true.
Proof.
  unfold PostgreSQLTemporaryAuthorizationStore.active. rewrite !andb_true_iff.
  intros [[Hi _] _]. by eapply identified_id.
Qed.

(** At the same time, the two break-glass stores grant the same requests, refuse the
    same requests and return the same authorizations. *)
Theorem breakglass_stores_agree items tenant id principal scope s e n k :
  authorizations_stored items (content_now s) → uuid_ok tenant → uuid_ok id → uuid_ok principal →
  is_naive (clock e n) = false →
  fst (PostgreSQLTemporaryAuthorizationStore.require_active tenant id principal scope e (St s n k)) =
  fst (InMemoryTemporaryAuthorizationStore.require_active tenant id principal scope e (St items n k)).
Proof.
  intros Hs Ht Hid Hp Hc. specialize (Hs id Hid).
  set (q := PostgreSQLTemporaryAuthorizationStore.active tenant id principal scope (clock e n)).
  assert (∃ sel, sel ≡ₚ List.filter q (content_now s (table_name temporary_authorizations)) ∧
            ((sel = [] → fst (PostgreSQLTemporaryAuthorizationStore.require_active tenant id principal
                                scope e (St s n k)) =
              raise PermissionError "active scoped Break-glass authorization is required") ∧
             (∀ r, sel = [r] → fst (PostgreSQLTemporaryAuthorizationStore.require_active tenant id
                                principal scope e (St s n k)) =
                PostgreSQLTemporaryAuthorizationStore.from_row r))) as (sel & Hsel & Hnone & Hone).
  { exists (select_where temporary_authorizations q (database s)). split; [apply select_where_rows|].
    unfold PostgreSQLTemporaryAuthorizationStore.require_active, select, mbind, M_bind, now, lift,
      Effects.get, mret, M_ret. cbn. fold q. split; [by intros ->|by intros r ->]. }
  unfold InMemoryTemporaryAuthorizationStore.require_active, mbind, M_bind, Effects.get. cbn [fst].
  cbn [data]. destruct (items !! id) as [x|] eqn:Ei.
  - destruct Hs as (Eid & Hok & r & Hr & Hrow).
    apply (select_one _ _ _ _ _ _ Hr (active_id _ _ _ _ _)) in Hsel.
    change (sel ≡ₚ if q r then [r] else []) in Hsel. subst q.
    rewrite (active_row x) in Hsel by done.
    case_bool_decide; cbn [andb orb negb] in *.
    2: { apply Permutation_nil_r in Hsel. by rewrite Hnone. }
    case_bool_decide; cbn [andb orb negb] in *.
    2: { apply Permutation_nil_r in Hsel. by rewrite Hnone. }
    case_bool_decide; cbn [andb orb negb] in *.
    2: { apply Permutation_nil_r in Hsel. by rewrite Hnone. }
    unfold now, lift. cbn. destruct (dt_le _ _) as [[|]|y] eqn:El; cbn in *.
    + apply Permutation_nil_r in Hsel. by rewrite Hnone.
    + apply Permutation_singleton_r in Hsel. rewrite (Hone r) by done.
      by rewrite (authorization_round_trip x).
    + destruct Hok as (_ & _ & _ & _ & He & _).
      by destruct (TemporaryAuthorization.expires_at x), (clock e n).
  - apply (select_one _ _ _ _ _ _ Hs (active_id _ _ _ _ _)) in Hsel.
    apply Permutation_nil_r in Hsel. by rewrite Hnone.
Qed.

Lemma issue_stored items x s : authorizations_stored items (content_now s) → authorization_ok x →
  TemporaryAuthorization.reviewed_by x = None → TemporaryAuthorization.reviewed_at x = None →
  items !! TemporaryAuthorization.authorization_id x = None →
  wp (PostgreSQLTemporaryAuthorizationStore.issue x)
    (fun _ s' => authorizations_stored (<[TemporaryAuthorization.authorization_id x := x]> items)
                   (content_now s')) (fun _ s' => s' = s) s.
Proof.
  intros Hs Hok Hb Ha Hn. apply wp_transaction, wp_insert; [|done]. intros s' Hs' _ id Hu.
  assert (content_now s' (table_name temporary_authorizations) ≡ₚ
          Schema.complete temporary_authorizations
            (PostgreSQLTemporaryAuthorizationStore.authorization_values x) ::
          content_now s (table_name temporary_authorizations)) as E by by rewrite (Hs' _), add_row_at.
  apply (filter_permutation (with_id (uuid_str id))) in E. cbn [List.filter] in E.
  unfold with_id at 2 in E. change (col "id" (Schema.complete _ _)) with
    (c_str (uuid_str (TemporaryAuthorization.authorization_id x))) in E.
  pose proof (Hs id Hu) as Hid.
  destruct (decide (TemporaryAuthorization.authorization_id x = id)) as [<-|Hne].
  - rewrite dict_lookup_insert. rewrite Hn in Hid. split_and!; [done..|].
    rewrite bool_decide_eq_true_2 in E by done. unfold rows_are in Hid. rewrite Hid in E.
    eexists. split; [by apply Permutation_singleton_r in E|].
    unfold row_of_authorization. rewrite Hb, Ha. repeat constructor.
  - rewrite dict_lookup_insert_ne by done. rewrite bool_decide_eq_false_2 in E
      by (intros Ec; apply Hne, uuid_cells; [by destruct Hok|done|exact Ec]).
    destruct (items !! id) as [x'|]; [|by eapply rows_are_other; [done|done|cbn; lia]].
    destruct Hid as (-> & Hok' & r & Hrows & Hrow). split_and!; [done..|]. exists r.
    split; [by eapply rows_are_other; [done|done|cbn; lia]|done].
Qed.

(** The row a review leaves. *)
Lemma reviewed_row x r reviewer time : row_of_authorization x r →
  row_of_authorization
    (x <| TemporaryAuthorization.reviewed_by := Some reviewer |>
       <| TemporaryAuthorization.reviewed_at := Some time |>)
    (assign [("reviewed_by", c_uuid reviewer); ("reviewed_at", TimeCell time)] r).
Proof.
  unfold row_of_authorization, has, PostgreSQLTemporaryAuthorizationStore.authorization_values.
  cbn [app]. rewrite !Forall_cons. intros (R1 & R2 & R3 & R4 & R5 & R6 & R7 & R8 & R9 & _).
  cbn [fst snd] in *.
  split_and!; try (etransitivity; [apply assign_get|assumption || reflexivity]). constructor.
Qed.

Lemma review_ok x reviewer time y : TemporaryAuthorization.review x reviewer None time = Ok y →
  reviewer ≠ TemporaryAuthorization.principal_id x ∧
  y = x <| TemporaryAuthorization.reviewed_by := Some reviewer |>
        <| TemporaryAuthorization.reviewed_at := Some time |>.
Proof.
  unfold TemporaryAuthorization.review, TemporaryAuthorization.new.
  intros ([] & Hb%raise_if_ok & Hn)%bind_ok. apply bool_decide_eq_false in Hb.
  by apply bind_ok in Hn as ([] & _ & [= <-]).
Qed.

(** A break-glass authorization is reviewed by someone else than its principal: a
    review that returns records an independent reviewer, in the database as the store
    in memory would, and one that raises, the principal's own among them, changes
    nothing. *)
(** C27. A break-glass authorization is reviewed by someone else than its principal: a
    review that returns records an independent reviewer, in the database as the store
    in memory would, and one that raises changes nothing. *)
Theorem breakglass_review_is_independent items tenant id reviewer s :
  authorizations_stored items (content_now s) → uuid_ok tenant → uuid_ok id → uuid_ok reviewer →
  wp (PostgreSQLTemporaryAuthorizationStore.review tenant id reviewer)
    (fun y s' => ∃ x, items !! id = Some x ∧ TemporaryAuthorization.tenant_id x = tenant ∧
       reviewer ≠ TemporaryAuthorization.principal_id x ∧
       TemporaryAuthorization.reviewed_by y = Some reviewer ∧
       authorizations_stored (<[id := y]> items) (content_now s'))
    (fun _ s' => s' = s) s.
Proof.
  intros Hs Ht Hid Hu. pose proof (Hs id Hid) as Hi.
  apply wp_transaction, wp_bind, wp_select. intros sel Hsel.
  destruct (items !! id) as [x|] eqn:Ei.
  2: { apply (select_one _ _ _ _ _ _ Hi (identified_id _ _)) in Hsel.
       apply Permutation_nil_r in Hsel as ->. apply wp_bind, wp_lift; [|done]. intros ? [= <-].
       by apply wp_throw. }
  destruct Hi as (Eid & Hok & r & Hr & Hrow).
  pose proof (select_one _ _ _ _ _ _ Hr (identified_id _ _) Hsel) as Hsel'. cbn [List.filter] in Hsel'.
  rewrite (identified_row x r tenant id Hrow Hok Ht Eid) in Hsel'.
  case_bool_decide as Et.
  2: { apply Permutation_nil_r in Hsel' as ->. apply wp_bind, wp_lift; [|done]. intros ? [= <-].
       by apply wp_throw. }
  apply Permutation_singleton_r in Hsel' as ->. apply wp_bind, wp_lift; [|done]. intros ? [= <-].
  rewrite (authorization_round_trip x r Hrow Hok). apply wp_bind, wp_lift; [|done]. intros ? [= <-].
  apply wp_bind, wp_now. intros time. apply wp_bind, wp_lift; [|done].
  intros y [Hne ->]%review_ok. apply wp_bind, wp_update; [|done]. intros s' Hs' _. apply wp_ret.
  exists x. split_and!; try done. intros id' Hid'.
  set (f := assign _) in Hs'.
  assert (∀ id', List.filter (with_id id') (content_now s' (table_name temporary_authorizations)) ≡ₚ
            List.map (fun r => if PostgreSQLTemporaryAuthorizationStore.identified tenant id r
                               then f r else r)
              (List.filter (with_id id') (content_now s (table_name temporary_authorizations)))) as E.
  { intros i. rewrite (filter_permutation _ _ _ (Hs' (table_name temporary_authorizations))), revise_at.
    rewrite filter_revise; [done|]. intros r'. destruct (_ tenant id r'); [|done].
    unfold with_id, f. by rewrite assign_col. }
  destruct (decide (id = id')) as [<-|Hne'].
  - rewrite dict_lookup_insert. split; [done|]. split.
    { destruct Hok as (? & ? & ? & ? & ? & Hp). split_and!; try done. by intros v [= <-]. }
    exists (f r). split; [|by apply reviewed_row]. unfold rows_are. apply Permutation_singleton_r.
    rewrite E. unfold rows_are in Hr. rewrite Hr. cbn [List.map].
    by rewrite (identified_row x r tenant id Hrow Hok Ht Eid), bool_decide_eq_true_2.
  - rewrite dict_lookup_insert_ne by done. specialize (Hs id' Hid').
    assert (List.filter (with_id (uuid_str id')) (content_now s' (table_name temporary_authorizations)) ≡ₚ
            List.filter (with_id (uuid_str id')) (content_now s (table_name temporary_authorizations))) as E'.
    { rewrite E, (List.map_ext_in _ (fun r => r)), List.map_id; [done|].
      intros r2 [Hr2 Hi2]%list_elem_of_In%elem_of_list_filter.
      destruct (_ tenant id r2) eqn:El; [|done]. apply identified_id in El. unfold with_id in *.
      apply bool_decide_eq_true in El, Hi2. destruct Hne'. rewrite El in Hi2. by apply uuid_cells. }
    destruct (items !! id') as [x'|]; [|by eapply rows_are_other; [done|done|cbn; lia]].
    destruct Hs as (-> & Hok' & r2 & Hrows2 & Hrow2). split_and!; [done..|]. exists r2.
    split; [by eapply rows_are_other; [done|done|cbn; lia]|done].
Qed.
End breakglass.

(** ** Samples *)

Definition opa : OPAPolicyAdapter.t := OPAPolicyAdapter.mk "http://opa" "policy-1" "autonoesis/action/allow".

(** An agent with the repository's policies. *)
Definition sample_post (url : string) (body : json) : res json :=
  Ok (JDict [("result", if bool_decide (url = OPAPolicyAdapter.url opa) then Rego.action_allow body
                        else Rego.improvement_allow body)]).

Definition sample_repr (x : json) : string := dumps default_style x.

(** The permissive ports, with the policy of the agent. *)
Definition with_opa (B : Type) (c : GatewayE B) : res B :=
  match c in GatewayE B return res B with
  | Policy ctx action => OPAPolicyAdapter.authorize sample_post sample_repr opa ctx action
  | c => permissive (Ok true) _ c
  end.

Definition opa_execution : list Programs.event * res GatewayResult.t :=
  trace_of with_opa (execute false sample_context sample_action (Some sample_approval) 5).

(** The events of an oracle's run carry its answers. *)
Lemma trace_of_answers {E A} (answer : ∀ B, E B → res B) (p : prog E A) :
  Forall (fun ev => let 'existT B (c, r) := ev in r = answer B c) (trace_of answer p).1.
Proof.
  induction p as [a|x|B c k IH]; cbn; [constructor..|]. specialize (IH (answer B c)).
  destruct (trace_of answer (k _)) as [tr out]. by constructor.
Qed.

Lemma opa_governs_execution_witness :
  ∃ executing tool credential, (executing, tool, credential) ∈ executions opa_execution.1 ∧
    ∃ q t, Some sample_approval = Some q ∧ ApprovalRequest.decided_by q ≠ None ∧
      ApprovalRequest.authorizes q sample_action "policy-1" None t = Ok true.
Proof.
  assert (length (executions opa_execution.1) = 1%nat) as El by (vm_compute; reflexivity).
  destruct (executions opa_execution.1) as [|[[executing tool] credential] l] eqn:E; [discriminate El|].
  exists executing, tool, credential. split; [left|].
  apply (opa_governs_execution sample_post sample_repr opa false sample_context sample_action
           (Some sample_approval) 5 opa_execution.1 opa_execution.2 executing tool credential).
  - intros body. reflexivity.
  - exact (trace_of_runs _ _).
  - intros r Hr. pose proof (trace_of_answers with_opa
      (execute false sample_context sample_action (Some sample_approval) 5)) as Ha.
    exact (proj1 (Forall_forall _ _) Ha _ Hr).
  - rewrite E. left.
  - intros Hr. apply mem_true in Hr. vm_compute in Hr. discriminate Hr.
Defined.

Definition sample_grant : DelegationGrant.t := {|
  DelegationGrant.tenant_id := acme; DelegationGrant.grantor_principal_id := 40%N;
  DelegationGrant.delegate_principal_id := 41%N; DelegationGrant.tool_name := "ledger";
  DelegationGrant.resource_prefix := "ledger/"; DelegationGrant.purpose := "refund";
  DelegationGrant.expires_at := Aware 63871632001000000; DelegationGrant.delegation_id := 42%N;
  DelegationGrant.created_at := epoch; DelegationGrant.revoked_at := None |}.

Definition granted : session MemoryDatabase.t :=
  data (snd (run_on (PostgreSQLDelegationStore.grant sample_grant))).

Definition sample_delegate : AuthorizationContext.t := {|
  AuthorizationContext.tenant_id := uuid_str acme; AuthorizationContext.actor_id := "actor";
  AuthorizationContext.principal_id := uuid_str 41%N; AuthorizationContext.agent_id := "agent";
  AuthorizationContext.roles := []; AuthorizationContext.policy_version := "policy-1";
  AuthorizationContext.delegation_id := Some (uuid_str 42%N); AuthorizationContext.correlation_id := "c";
  AuthorizationContext.purpose := "refund" |}.

Lemma sample_grant_ok : grant_ok sample_grant.
Proof.
  split_and!; try (vm_compute; reflexivity).
  repeat (constructor; [split_and!; intros [=]|]). constructor.
Qed.

Definition grants : InMemoryDelegationStore.t :=
  <[uuid_str (DelegationGrant.delegation_id sample_grant) := Scoped sample_grant]> ∅.

Lemma granted_stored : grants_stored grants (content_now granted).
Proof.
  assert (grants_stored ∅ (content_now started)) as H0.
  { intros id. unfold rows_are. change (content_now started (table_name delegations)) with (@nil row).
    reflexivity. }
  pose proof (grant_stored ∅ sample_grant started H0 sample_grant_ok eq_refl eq_refl) as Hw.
  specialize (Hw counting 0%nat 0%nat (fun _ => I)).
  assert (∃ s', PostgreSQLDelegationStore.grant sample_grant counting (St started 0 0) = (Ok tt, s') ∧
                data s' = granted) as (s' & E & Ed).
  { exists (snd (run_on (PostgreSQLDelegationStore.grant sample_grant))). split; [|reflexivity].
    change (run_on (PostgreSQLDelegationStore.grant sample_grant)) with
      (PostgreSQLDelegationStore.grant sample_grant counting (St started 0 0)).
    rewrite (surjective_pairing (PostgreSQLDelegationStore.grant _ _ _)) at 1. f_equal. }
  rewrite E in Hw. rewrite Ed in Hw. exact Hw.
Qed.

Lemma delegation_stores_agree_witness :
  ∃ b, fst (PostgreSQLDelegationStore.authorize sample_delegate sample_action sample_tool counting
              (St granted 0 0)) = Ok b ∧
       fst (InMemoryDelegationStore.authorize sample_delegate sample_action sample_tool counting
              (St grants 0 0)) = Ok b.
Proof.
  apply (delegation_stores_agree grants sample_delegate sample_action sample_tool acme 41%N granted
           counting 0 0 granted_stored); vm_compute; reflexivity.
Defined.

Lemma revocation_takes_effect_witness :
  wp (PostgreSQLDelegationStore.revoke acme 42%N ;;
      PostgreSQLDelegationStore.authorize sample_delegate sample_action sample_tool)
    (fun allowed _ => allowed = false) (fun _ s' => s' = granted) granted.
Proof.
  apply (revocation_takes_effect sample_delegate sample_action sample_tool acme 42%N granted);
    reflexivity.
Defined.

Definition sample_authorization : TemporaryAuthorization.t := {|
  TemporaryAuthorization.tenant_id := acme; TemporaryAuthorization.principal_id := 41%N;
  TemporaryAuthorization.scope := "kill-switch"; TemporaryAuthorization.reason := "incident 7";
  TemporaryAuthorization.expires_at := Aware 63871632001000000;
  TemporaryAuthorization.authorization_id := 43%N; TemporaryAuthorization.created_at := epoch;
  TemporaryAuthorization.reviewed_by := None; TemporaryAuthorization.reviewed_at := None |}.

Definition issued : session MemoryDatabase.t :=
  data (snd (run_on (PostgreSQLTemporaryAuthorizationStore.issue sample_authorization))).

Definition items : InMemoryTemporaryAuthorizationStore.t := <[43%N := sample_authorization]> ∅.

Lemma sample_authorization_ok : authorization_ok sample_authorization.
Proof.
  split; [vm_compute; reflexivity|]. split; [vm_compute; reflexivity|].
  split; [vm_compute; reflexivity|]. split; [intros u [=]|]. split; vm_compute; reflexivity.
Qed.

Lemma issued_stored : authorizations_stored items (content_now issued).
Proof.
  assert (authorizations_stored ∅ (content_now started)) as H0.
  { intros id _. unfold rows_are.
    change (content_now started (table_name temporary_authorizations)) with (@nil row). reflexivity. }
  pose proof (issue_stored ∅ sample_authorization started H0 sample_authorization_ok
                eq_refl eq_refl eq_refl) as Hw.
  specialize (Hw counting 0%nat 0%nat (fun _ => I)).
  assert (∃ s', PostgreSQLTemporaryAuthorizationStore.issue sample_authorization counting
                  (St started 0 0) = (Ok tt, s') ∧ data s' = issued) as (s' & E & Ed).
  { exists (snd (run_on (PostgreSQLTemporaryAuthorizationStore.issue sample_authorization))).
    split; [|reflexivity].
    change (run_on (PostgreSQLTemporaryAuthorizationStore.issue sample_authorization)) with
      (PostgreSQLTemporaryAuthorizationStore.issue sample_authorization counting (St started 0 0)).
    rewrite (surjective_pairing (PostgreSQLTemporaryAuthorizationStore.issue _ _ _)) at 1. f_equal. }
  rewrite E in Hw. rewrite Ed in Hw. exact Hw.
Qed.

Lemma breakglass_stores_agree_witness :
  fst (PostgreSQLTemporaryAuthorizationStore.require_active acme 43%N 41%N "kill-switch" counting
         (St issued 0 0)) =
  fst (InMemoryTemporaryAuthorizationStore.require_active acme 43%N 41%N "kill-switch" counting
         (St items 0 0)).
Proof.
  apply (breakglass_stores_agree items acme 43%N 41%N "kill-switch" issued counting 0 0 issued_stored);
    vm_compute; reflexivity.
Defined.

Lemma breakglass_review_is_independent_witness :
  wp (PostgreSQLTemporaryAuthorizationStore.review acme 43%N 44%N)
    (fun y s' => ∃ x, items !! 43%N = Some x ∧ TemporaryAuthorization.tenant_id x = acme ∧
       44%N ≠ TemporaryAuthorization.principal_id x ∧
       TemporaryAuthorization.reviewed_by y = Some 44%N ∧
       authorizations_stored (<[43%N := y]> items) (content_now s'))
    (fun _ s' => s' = issued) issued.
Proof.
  apply (breakglass_review_is_independent items acme 43%N 44%N issued issued_stored);
    vm_compute; reflexivity.
Defined.

(** A prefix with an underscore covers more in the database than in memory. *)
Example underscore_covers_more :
  like (chars "team_a/" ++ ["%"%char]) (chars "team-a/ledger") = true ∧
  startswith "team-a/ledger" "team_a/" = false.
Proof. split; reflexivity. Qed.
