(* ===== verification/Graders.v ===== *)
(** * packages/adapters: graders.py, evaluation_runtime.py

    The graders and subject runtimes behind the evaluation harness, and the
    evaluator of a candidate that puts them together.

    Model judges, read-backs, the audit store, the store's packs and
    candidates, imported Python attributes and the sandbox's child process are
    ports.  [passed_candidate_matched] follows a gating case of a PASSED trial
    down to the output of the runtime; [stages_out_of_order] shows a
    configuration that never evaluates. *)

From S2P Require Import Prelude PyStr PyDict PyFloat Json Values Identity AuditChain Uuids Rows.
From S2P Require Import Effects EvaluationDomain Improvement Capability Store Harness.
From S2P Require Import HarnessProofs.
From Stdlib Require Import ZArith.

Open Scope string_scope.
Open Scope list_scope.
Open Scope Z_scope.

(** ** Assessments *)

Definition graded_with (status : GraderStatus.t) (score : option float) (rationale : string)
    (evidence : list string) : GraderAssessment :=
  {| assessed_status := status; assessed_score := score; assessed_rationale := rationale;
     assessed_evidence := evidence |}.

(** PASS with 1.0 or FAIL with 0.0. *)
Definition decided (passed : bool) : string → list string → GraderAssessment :=
  graded_with (if passed then GraderStatus.PASS else GraderStatus.FAIL)
    (Some (if passed then of_int 1 else fzero)).

Definition undecided : string → list string → GraderAssessment :=
  graded_with GraderStatus.UNKNOWN None.

Definition backend_of (S : Type) : Type := EvaluationCase.t → payload → M S GraderAssessment.

(** [case.case_id] as the only reference. *)
Definition case_ref (case : EvaluationCase.t) : list string := [EvaluationCase.case_id case].

Module OutcomeGraderBackend.
Definition evaluate {S} (verify : EvaluationCase.t → payload → M S bool) : backend_of S :=
  fun case actual_output =>
  verified ← verify case actual_output;
  mret (decided verified
    (if (verified : bool) then "authoritative readback confirmed the expected outcome"
     else "authoritative readback contradicts the expected outcome") (case_ref case)).
End OutcomeGraderBackend.

(** ** The model judge *)

Definition MAX_JUDGE_RATIONALE_CHARS : Z := 2000.

(** [verdict[key]] *)
Definition subscript (verdict : json) (key : string) : res json :=
  match verdict with
  | JDict d => match alist_get key d with
               | Some v => Ok v
               | None => raise KeyError (repr_str key)
               end
  | JList _ => raise TypeError "list indices must be integers or slices, not str"
  | JStr _ => raise TypeError "string indices must be integers, not 'str'"
  | JInt _ => raise TypeError "'int' object is not subscriptable"
  | JFloat _ => raise TypeError "'float' object is not subscriptable"
  | JBool _ => raise TypeError "'bool' object is not subscriptable"
  | JNull => raise TypeError "'NoneType' object is not subscriptable"
  end.

Module LlmGraderBackend.
Section judge.
(** The judge, and the text of the JSON decoder's error. *)
Context {S : Type} (judge : EvaluationCase.t → payload → M S string) (decode_error : string → string)
  (rubric_version : string).

(** The two members of the verdict; every exception of these lines is caught. *)
Definition read_verdict (raw : string) : res (json * json) :=
  verdict ← match loads raw with
            | Some v => Ok v
            | None => raise (OtherError "JSONDecodeError") (decode_error raw)
            end;
  passed ← subscript verdict "passed";
  rationale ← subscript verdict "rationale";
  Ok (passed, rationale).

Definition assess (case : EvaluationCase.t) (raw : string) : GraderAssessment :=
  match read_verdict raw with
  | Err exc => undecided ("llm judge verdict is not a strict verdict object: " +:+ exn_msg exc)
                 (case_ref case)
  | Ok (JBool passed, JStr rationale) =>
      if empty rationale then
        undecided "llm judge verdict must carry a boolean passed and rationale" (case_ref case)
      else if MAX_JUDGE_RATIONALE_CHARS <? len rationale then
        undecided ("llm judge rationale exceeds " +:+ int_str MAX_JUDGE_RATIONALE_CHARS +:+
                   " characters") (case_ref case)
      else decided passed ("[rubric " +:+ rubric_version +:+ "] " +:+ rationale) (case_ref case)
  | Ok _ => undecided "llm judge verdict must carry a boolean passed and rationale" (case_ref case)
  end.

Definition evaluate : backend_of S := fun case actual_output =>
  raw ← judge case actual_output; mret (assess case raw).
End judge.
End LlmGraderBackend.

(** What the judge sends to a model adapter. *)
Module ModelRequest.
Record t := mk {
  instruction : string;
  input_text : string;
  required_capabilities : list string;
  data_region : string;
  risk_tier : string;
  max_output_tokens : Z
}.
End ModelRequest.

Module ModelGatewayJudge.
Definition instruction : string :=
  "You are an independent evaluation grader. Compare the actual output " +:+
  "against the expected outcome under the rubric and reply with exactly " +:+
  dq "one JSON object: {'passed': <bool>, 'rationale': <non-empty string>}.".

Definition input_text (rubric : string) (case : EvaluationCase.t) (actual_output : payload) : string :=
  dumps (Style false ", " ": ")
    (JDict [("case_id", JStr (EvaluationCase.case_id case)); ("rubric", JStr rubric);
            ("expected_outcome", JDict (EvaluationCase.expected_outcome case));
            ("actual_output", JDict actual_output)]).

(** [generate] is the adapter's, reduced to the text of its response. *)
Definition judge {S} (generate : string → ModelRequest.t → M S string) (model rubric : string)
    (case : EvaluationCase.t) (actual_output : payload) : M S string :=
  generate model {|
    ModelRequest.instruction := instruction;
    ModelRequest.input_text := input_text rubric case actual_output;
    ModelRequest.required_capabilities := ["json-output"];
    ModelRequest.data_region := "global";
    ModelRequest.risk_tier := "low";
    ModelRequest.max_output_tokens := 512 |}.
End ModelGatewayJudge.

(** The client a judge is built over. *)
Inductive judge_client :=
  | OpenAIClient (api_key : string) (base_url : option string)
  | AnthropicClient (api_key : string).

(** [judge_from_environment]: the client, the model and the rubric of the judge,
    over [os.getenv]. *)
Definition judge_from_environment (getenv : string → option string)
    : option (judge_client * string * string) :=
  let env name otherwise := default otherwise (getenv name) in
  let model := strip (env "AUTONOESIS_LLM_JUDGE_MODEL" "") in
  if empty model then None
  else
    let provider := lower (strip (env "AUTONOESIS_LLM_JUDGE_PROVIDER" "openai")) in
    let rubric := env "AUTONOESIS_LLM_JUDGE_RUBRIC" "default-rubric@1" in
    if bool_decide (provider = "openai") then
      let api_key := strip (env "OPENAI_API_KEY" "") in
      if empty api_key then None
      else
        let base_url := match getenv "OPENAI_BASE_URL" with
                        | Some url => if empty url then None else Some url
                        | None => None
                        end in
        Some (OpenAIClient api_key base_url, model, rubric)
    else if bool_decide (provider = "anthropic") then
      let api_key := strip (env "ANTHROPIC_API_KEY" "") in
      if empty api_key then None else Some (AnthropicClient api_key, model, rubric)
    else None.

(** ** Human decisions *)

Module HumanGraderBackend.
Definition evaluate {S} (decisions : dict string (bool * string)) (reviewer_id : string)
    : backend_of S := fun case _ =>
  mret (match decisions !! EvaluationCase.case_id case with
  | None => undecided "no recorded human decision for this case" (case_ref case)
  | Some (passed, rationale) =>
      if blank rationale then
        undecided "human decisions require a recorded rationale" (case_ref case)
      else decided passed ("[reviewer " +:+ reviewer_id +:+ "] " +:+ rationale)
             (case_ref case ++
              ["human://" +:+ reviewer_id +:+ "/" +:+ EvaluationCase.case_id case])
  end).
End HumanGraderBackend.

Definition HUMAN_DECISION_EVENT : string := "evaluation.human_decision".

(** [str(details.get(key) or "")] *)
Definition text_or_empty (details : payload) (key : string) : string :=
  match alist_get key details with
  | Some v => if truthy v then py_str v else ""
  | None => ""
  end.

Module AuditHumanDecisionSource.
(** The event is a decision about the case. *)
Definition concerns (case_id : string) (event : AuditEvent.t) : bool :=
  bool_decide (AuditEvent.event_type event = HUMAN_DECISION_EVENT) &&
  bool_decide (AuditEvent.object_id event = case_id).

(** [(a or b) >= (b or a)] *)
Definition not_older (a b : option datetime) : res bool :=
  match a, b with
  | Some t, Some u => dt_ge t u
  | Some t, None => dt_ge t t
  | None, Some u => dt_ge u u
  | None, None => raise TypeError
      "'>=' not supported between instances of 'NoneType' and 'NoneType'"
  end.

(** The loop over the events of the tenant. *)
Fixpoint latest_of (case_id : string) (events : list AuditEvent.t) (latest : option AuditEvent.t)
    : res (option AuditEvent.t) :=
  match events with
  | [] => Ok latest
  | event :: rest =>
      if negb (concerns case_id event) then latest_of case_id rest latest
      else match latest with
      | None => latest_of case_id rest (Some event)
      | Some current =>
          replace ← not_older (AuditEvent.created_at event) (AuditEvent.created_at current);
          latest_of case_id rest (if (replace : bool) then Some event else latest)
      end
  end.

(** The decision an event's details carry. *)
Definition decision_of (details : payload) : option (bool * string * string) :=
  let rationale := text_or_empty details "rationale" in
  let reviewer := text_or_empty details "reviewer" in
  match alist_get "passed" details with
  | Some (JBool passed) =>
      if blank rationale || empty reviewer then None else Some (passed, rationale, reviewer)
  | _ => None
  end.

Definition decision_for {S} (list_audit_events : uuid → M S (list AuditEvent.t))
    (tenant_id : uuid) (case_id : string) : M S (option (bool * string * string)) :=
  events ← list_audit_events tenant_id;
  latest ← lift (latest_of case_id events None);
  mret (latest ≫= fun event => decision_of (AuditEvent.details event)).
End AuditHumanDecisionSource.

Module RecordedHumanGraderBackend.
Definition evaluate {S} (decision_for : uuid → string → M S (option (bool * string * string)))
    (tenant_id : uuid) : backend_of S := fun case _ =>
  decision ← decision_for tenant_id (EvaluationCase.case_id case);
  mret (match decision with
  | None => undecided "no authority-recorded human decision for this case" (case_ref case)
  | Some (passed, rationale, reviewer) =>
      decided passed ("[reviewer " +:+ reviewer +:+ "] " +:+ rationale)
        (case_ref case ++
         ["audit://" +:+ HUMAN_DECISION_EVENT +:+ "/" +:+ EvaluationCase.case_id case])
  end).
End RecordedHumanGraderBackend.

(** The event of a decision; [recorded_at] is the text of the current time. *)
Definition record_human_decision (tenant_id : uuid) (case_id : string) (passed : bool)
    (rationale reviewer_principal : string) (event_id : uuid) (recorded_at : string)
    : AuditEvent.t :=
  AuditEvent.mk tenant_id 0%N 0%N HUMAN_DECISION_EVENT "evaluation_case" case_id 0%N
    [("passed", JBool passed); ("rationale", JStr rationale);
     ("reviewer", JStr reviewer_principal); ("recorded_at", JStr recorded_at)]
    event_id None None None None.

(** ** Trajectories *)

Module StaticTrajectorySource.
Definition trajectory_for {S} (trajectories : dict string (list TrajectoryStep.t))
    (tenant_id : uuid) (case_id : string) : M S (option (list TrajectoryStep.t)) :=
  mret (trajectories !! case_id).
End StaticTrajectorySource.

Module TrajectoryGraderBackend.
(** [{name: index for index, name in enumerate(names)}]: the last index wins. *)
Definition positions (names : list string) : dict string nat :=
  dict_of_list (imap (fun index name => (name, index)) names).

(** What a rule finds wrong with the positions. *)
Definition violation (at_ : dict string nat) (rule : TrajectoryRule.t) : option string :=
  let present name := is_some (at_ !! name) in
  if bool_decide (TrajectoryRule.rule_type rule = "required") &&
     negb (present (TrajectoryRule.step rule)) then
    Some ("required step missing: " +:+ TrajectoryRule.step rule)
  else if bool_decide (TrajectoryRule.rule_type rule = "forbidden") &&
          present (TrajectoryRule.step rule) then
    Some ("forbidden step present: " +:+ TrajectoryRule.step rule)
  else if bool_decide (TrajectoryRule.rule_type rule = "order") then
    match at_ !! TrajectoryRule.before rule, at_ !! TrajectoryRule.after rule with
    | Some i, Some j =>
        if (j <? i)%nat then
          Some ("order violated: " +:+ TrajectoryRule.before rule +:+ " after " +:+
                TrajectoryRule.after rule)
        else None
    | _, _ => None
    end
  else None.

(** The verdict on recorded steps. *)
Definition assess (rules : list TrajectoryRule.t) (case : EvaluationCase.t)
    (steps : list TrajectoryStep.t) : GraderAssessment :=
  match omap (violation (positions (TrajectoryStep.name <$> steps))) rules with
  | [] => decided true ("trajectory satisfies " +:+ int_str (Z.of_nat (length rules)) +:+
            " rule(s) over " +:+ int_str (Z.of_nat (length steps)) +:+ " steps") (case_ref case)
  | violations => decided false (join "; " violations) (case_ref case)
  end.

Definition evaluate {S} (trajectory_for : uuid → string → M S (option (list TrajectoryStep.t)))
    (tenant_id : uuid) (rules : list TrajectoryRule.t) : backend_of S := fun case _ =>
  match rules with
  | [] => mret (decided true "case declares no trajectory expectations" (case_ref case))
  | _ =>
      steps ← trajectory_for tenant_id (EvaluationCase.case_id case);
      match steps with
      | None | Some [] =>
          mret (undecided "no recorded trajectory for a case with trajectory rules" (case_ref case))
      | Some steps => mret (assess rules case steps)
      end
  end.
End TrajectoryGraderBackend.

(** ** Exact matches *)

Module ExactMatchGraderBackend.
Definition mismatches (expected actual_output : payload) : list string :=
  fst <$> List.filter
    (fun kv => negb (py_eq (default JNull (alist_get kv.1 actual_output)) kv.2)) expected.

Definition assess (case : EvaluationCase.t) (actual_output : payload) : GraderAssessment :=
  match mismatches (EvaluationCase.expected_outcome case) actual_output with
  | [] => decided true ("exact match on " +:+
            int_str (Z.of_nat (length (EvaluationCase.expected_outcome case))) +:+ " keys")
            (case_ref case)
  | l => decided false ("value mismatch on: " +:+ join ", " l) (case_ref case)
  end.

Definition evaluate {S} : backend_of S := fun case actual_output =>
  mret (assess case actual_output).
End ExactMatchGraderBackend.

(** ** Subject runtimes *)

(** [execute_artifact] of a runtime over the state [S]. *)
Definition runtime (S : Type) : Type :=
  string → uuid → uuid → payload → Z → M S SubjectExecutionResult.t.

(** The result every runtime builds. *)
Definition execution_result (executor_id environment_ref artifact_ref : string)
    (subject_version_id : uuid) (output_payload : payload) (random_seed : Z)
    : res SubjectExecutionResult.t :=
  SubjectExecutionResult.new (SubjectExecutionResult.mk subject_version_id output_payload executor_id
    ["subject://" +:+ artifact_ref +:+ "/seed/" +:+ int_str random_seed] environment_ref None [] 0).

(** A subject, after [_invoke] has awaited its outcome. *)
Definition subject_callable (S : Type) : Type := payload → Z → M S payload.

Module InProcessSubjectRuntime.
Definition register {S} (subjects : dict string (subject_callable S)) (artifact_ref : string)
    (subject : subject_callable S) : dict string (subject_callable S) :=
  <[artifact_ref := subject]> subjects.

Definition execute_artifact {S} (subjects : dict string (subject_callable S)) : runtime S :=
  fun artifact_ref tenant_id subject_version_id input_payload random_seed =>
  match subjects !! artifact_ref with
  | None => throw RuntimeError ("no subject runtime registered for " +:+ artifact_ref)
  | Some subject =>
      output_payload ← subject input_payload random_seed;
      lift (execution_result "in-process-subject-runtime@1" "runtime://in-process/1" artifact_ref
              subject_version_id output_payload random_seed)
  end.
End InProcessSubjectRuntime.

(** [artifact_ref.removeprefix("pack://").split("/")], two parts, neither empty. *)
Definition parse_pack_ref (artifact_ref : string) : res (string * string) :=
  let rest := if startswith artifact_ref "pack://"
              then of_chars (drop 7 (chars artifact_ref)) else artifact_ref in
  match split_on "/"%char rest with
  | [pack_id; version] =>
      raise_if (empty pack_id || empty version) RuntimeError
        ("pack artifact reference is malformed: " +:+ artifact_ref) ;;
      Ok (pack_id, version)
  | _ => raise RuntimeError ("pack artifact reference is malformed: " +:+ artifact_ref)
  end.

(** The entry point of the first listed pack of that name and version. *)
Definition entry_point (packs : list CapabilityPackManifest.t) (artifact_ref pack_id version : string)
    : res string :=
  match List.find (fun item => bool_decide (CapabilityPackManifest.pack_id item = pack_id) &&
                               bool_decide (CapabilityPackManifest.version item = version)) packs with
  | None => raise RuntimeError ("capability pack not registered: " +:+ artifact_ref)
  | Some manifest =>
      match CapabilityPackManifest.evaluation_subject manifest with
      | None => raise RuntimeError ("capability pack " +:+ pack_id +:+ "@" +:+ version +:+
                  " declares no evaluation subject")
      | Some subject => Ok subject
      end
  end.

Module PackSubjectRuntime.
(** The runtime keeps the callables it imported, by tenant and reference. *)
Record t (S : Type) := mk {
  subjects : dict (uuid * string) (subject_callable S);
  world : S
}.
Arguments mk {S} _ _.
Arguments subjects {S} _.
Arguments world {S} _.

Section runtime.
(** The packs of the store, and [getattr(import_module(module), attribute)]:
    a callable, something else ([None]), or an exception. *)
Context {S : Type} (list_capability_packs : uuid → M S (list CapabilityPackManifest.t))
  (import_attribute : string → string → res (option (subject_callable S))).

(** A call that does not concern the runtime's own dictionary. *)
Definition outside {A} (m : M S A) : M (t S) A := fun e s =>
  let '(r, s') := m e (St (world (data s)) (ticks s) (drawn s)) in
  (r, St (mk (subjects (data s)) (data s')) (ticks s') (drawn s')).

(** [except (ImportError, AttributeError)] *)
Definition unavailable (x : exn) : bool :=
  mem (exn_class x) [OtherError "ImportError"; OtherError "ModuleNotFoundError";
                     OtherError "AttributeError"].

Definition resolve (tenant_id : uuid) (artifact_ref : string) : M (t S) (subject_callable S) :=
  parts ← lift (parse_pack_ref artifact_ref);
  let '(pack_id, version) := parts in
  x ← get;
  match subjects x !! (tenant_id, artifact_ref) with
  | Some cached => mret cached
  | None =>
      packs ← outside (list_capability_packs tenant_id);
      entry ← lift (entry_point packs artifact_ref pack_id version);
      subject ← lift (match import_attribute (before ":"%char entry) (after ":"%char entry) with
                      | Ok found => Ok found
                      | Err exc =>
                          if unavailable exc then
                            raise RuntimeError ("evaluation subject unavailable for " +:+
                              artifact_ref +:+ ": " +:+ exn_msg exc)
                          else Err exc
                      end);
      match subject with
      | None => throw RuntimeError ("evaluation subject is not callable: " +:+ entry)
      | Some resolved =>
          modify (fun x => mk (<[(tenant_id, artifact_ref) := resolved]> (subjects x)) (world x)) ;;
          mret resolved
      end
  end.

Definition execute_artifact : runtime (t S) :=
  fun artifact_ref tenant_id subject_version_id input_payload random_seed =>
  subject ← resolve tenant_id artifact_ref;
  output_payload ← outside (subject input_payload random_seed);
  lift (execution_result "pack-subject-runtime@1" "runtime://pack-in-process/1" artifact_ref
          subject_version_id output_payload random_seed).
End runtime.
End PackSubjectRuntime.

Module SandboxedPackSubjectRuntime.
Definition MAX_SUBJECT_OUTPUT_BYTES : Z := 1048576.

(** What the child process did: it was killed at the timeout, or ended with an
    exit code, so many bytes of output, and the texts of its output, which may
    fail to decode, and of its errors. *)
Inductive child :=
  | TimedOut
  | Ended (returncode : Z) (stdout_bytes : Z) (stdout : res string) (stderr : string).

(** [_scrubbed_child_environment] *)
Definition SANDBOX_ENV_ALLOWLIST : list string := ["PATH"; "PYTHONPATH"; "LANG"; "HOME"; "TMPDIR"].

Definition scrubbed_child_environment (environ : list (string * string)) : list (string * string) :=
  List.filter (fun kv => mem kv.1 SANDBOX_ENV_ALLOWLIST) environ.

(** The line the child reads. *)
Definition command (input_payload : payload) (random_seed : Z) : string :=
  print default_style (JDict [("input_payload", JDict input_payload); ("random_seed", JInt random_seed)]).

(** From the end of the child to its output. *)
Definition output_of (decode_error : string → string) (timeout : float) (artifact_ref : string)
    (outcome : child) : res (payload * Z) :=
  match outcome with
  | TimedOut => raise RuntimeError ("sandboxed subject timed out after " +:+ float_repr timeout +:+
                  "s: " +:+ artifact_ref)
  | Ended returncode stdout_bytes stdout stderr =>
      raise_if (MAX_SUBJECT_OUTPUT_BYTES <? stdout_bytes) RuntimeError
        ("sandboxed subject output exceeded " +:+ int_str MAX_SUBJECT_OUTPUT_BYTES +:+
         " bytes for " +:+ artifact_ref) ;;
      raise_if (negb (returncode =? 0)) RuntimeError
        ("sandboxed subject failed for " +:+ artifact_ref +:+ " (exit " +:+ int_str returncode +:+
         "): " +:+ (if blank stderr then "no stderr" else strip stderr)) ;;
      text ← stdout;
      match loads text with
      | None => raise RuntimeError ("sandboxed subject output is not JSON: " +:+ decode_error text)
      | Some (JDict output_payload) => Ok (output_payload, returncode)
      | Some _ => raise RuntimeError "sandboxed subject output must be a JSON object"
      end
  end.

(** The child gets the module, the function, its environment and its command. *)
Definition execute_artifact {S}
    (list_capability_packs : uuid → M S (list CapabilityPackManifest.t))
    (spawn : string → string → list (string * string) → string → M S child)
    (decode_error : string → string) (environ : list (string * string)) (timeout : float)
    : runtime S := fun artifact_ref tenant_id subject_version_id input_payload random_seed =>
  parts ← lift (parse_pack_ref artifact_ref);
  let '(pack_id, version) := parts in
  packs ← list_capability_packs tenant_id;
  entry ← lift (entry_point packs artifact_ref pack_id version);
  outcome ← spawn (before ":"%char entry) (after ":"%char entry)
              (scrubbed_child_environment environ) (command input_payload random_seed);
  output ← lift (output_of decode_error timeout artifact_ref outcome);
  let '(output_payload, returncode) := output in
  lift (execution_result "sandboxed-pack-subject-runtime@1"
          ("runtime://pack-sandbox/process/1/exit/" +:+ int_str returncode) artifact_ref
          subject_version_id output_payload random_seed).
End SandboxedPackSubjectRuntime.

(** ** The evaluator of a candidate *)

(** The two reads of the store it needs. *)
Record candidate_store (S : Type) := CandidateStore {
  get_candidate : uuid → uuid → M S CandidateVersion.t;
  get_suite : uuid → string → string → M S EvaluationSuite.t
}.
Arguments get_candidate {S} _.
Arguments get_suite {S} _.

Module HarnessCandidateEvaluator.
Section evaluator.
Context {S : Type}.

Record t := mk {
  store : candidate_store S;
  subject_runtime : runtime S;
  harness_version : string;
  llm_judge : option (EvaluationCase.t → payload → M S string);
  llm_rubric_version : string;
  human_decisions : option (uuid → string → M S (option (bool * string * string)));
  trajectory_grader : option (backend_of S);
  decode_error : string → string
}.

(** [GraderStage(kind, IndependentGrader(kind, grader_id, version, backend))] *)
Definition stage (kind : GraderKind.t) (grader_id version : string) (backend : backend_of S)
    : res (GraderStage S) :=
  g ← independent_grader {| bound_kind := kind; bound_id := grader_id; bound_version := version;
                            Harness.backend := backend |};
  Ok {| stage_kind := kind; stage_grader := independent_grade g |}.

(** A stage for each port that is configured, in the order of the code. *)
Definition optional_stage {P} (port : option P) (build : P → res (GraderStage S))
    : res (list (GraderStage S)) :=
  match port with
  | Some p => st ← build p; Ok [st]
  | None => Ok []
  end.

Definition stages (x : t) (tenant_id : uuid) : res (list (GraderStage S)) :=
  deterministic ← stage GraderKind.DETERMINISTIC "rule-engine" "1" ExactMatchGraderBackend.evaluate;
  llm ← optional_stage (llm_judge x) (fun judge =>
    stage GraderKind.LLM "llm-judge" (llm_rubric_version x)
      (LlmGraderBackend.evaluate judge (decode_error x) (llm_rubric_version x)));
  trajectory ← optional_stage (trajectory_grader x)
    (stage GraderKind.TRAJECTORY "trajectory-rules" "1");
  human ← optional_stage (human_decisions x) (fun decisions =>
    stage GraderKind.HUMAN "human-review" "1" (RecordedHumanGraderBackend.evaluate decisions tenant_id));
  Ok ([deterministic] ++ llm ++ trajectory ++ human).

(** [_ArtifactBoundExecutor.execute] *)
Definition bound_executor (x : t) (tenant_id : uuid) (artifact_ref : string)
    : EvaluationHarness.executor S := fun subject_version_id input_payload random_seed =>
  subject_runtime x artifact_ref tenant_id subject_version_id input_payload random_seed.

(** [evaluate]; [random_seed] is [secrets.randbits(31)]. *)
Definition evaluate (x : t) (random_seed : Z) (tenant_id candidate_id : uuid) : M S Trial.t :=
  candidate ← get_candidate (store x) tenant_id candidate_id;
  suite ← get_suite (store x) tenant_id (CandidateVersion.suite_id candidate)
            (CandidateVersion.suite_version candidate);
  catalog ← lift (EvaluationSuiteCatalog.new [suite]);
  harness_suite ← lift (EvaluationSuiteCatalog.load_for_harness catalog
    (EvaluationSuite.suite_id suite) (EvaluationSuite.version suite)
    (SuiteAccessContext.mk candidate_id [SuiteAccessRole.EVALUATION_HARNESS]));
  stages ← lift (stages x tenant_id);
  pipeline ← lift (grader_pipeline stages);
  harness ← lift (EvaluationHarness.new
    (Some (bound_executor x tenant_id (CandidateVersion.artifact_ref candidate))) []
    (Some pipeline) (harness_version x));
  EvaluationHarness.run_suite harness (inr harness_suite) candidate_id tenant_id random_seed.
End evaluator.
Arguments t S : clear implicits.
End HarnessCandidateEvaluator.

(** ** The model judge is strict *)

(** Only a JSON object with a boolean [passed] and a rationale of 1 to 2000
    characters decides a case. *)
Lemma judge_decides rubric decode_error case raw (b : bool) :
  assessed_status (LlmGraderBackend.assess decode_error rubric case raw) =
    (if b then GraderStatus.PASS else GraderStatus.FAIL) ↔
  ∃ d rationale, loads raw = Some (JDict d) ∧ alist_get "passed" d = Some (JBool b) ∧
    alist_get "rationale" d = Some (JStr rationale) ∧ rationale ≠ "" ∧
    len rationale <= MAX_JUDGE_RATIONALE_CHARS.
Proof.
  unfold LlmGraderBackend.assess, LlmGraderBackend.read_verdict.
  assert (Hu : GraderStatus.UNKNOWN ≠ (if b then GraderStatus.PASS else GraderStatus.FAIL))
    by (by destruct b).
  destruct (loads raw) as [v|] eqn:El; cbn [mbind res_bind]; [|naive_solver].
  destruct v as [| | | | | |d]; cbn [subscript mbind res_bind]; try naive_solver.
  destruct (alist_get "passed" d) as [p|] eqn:Ep; cbn [mbind res_bind]; [|naive_solver].
  destruct (alist_get "rationale" d) as [r|] eqn:Er; cbn [mbind res_bind]; [|naive_solver].
  destruct p as [|b'| | | | |]; try naive_solver. destruct r as [| | | |r| |]; try naive_solver.
  destruct (PyStr.empty r) eqn:Ee; bool_hyps.
  { split; [naive_solver|]. intros (? & ? & [= <-] & _ & Hr & ? & _).
    simplify_eq/=. by apply bool_decide_eq_true in Ee. }
  destruct (Z.ltb_spec MAX_JUDGE_RATIONALE_CHARS (len r)) as [Hl|Hl].
  { split; [naive_solver|]. intros (? & ? & [= <-] & _ & Hr & _ & ?). simplify_eq/=. lia. }
  apply bool_decide_eq_false in Ee. split.
  - intros E. exists d, r. split_and!; try done. by destruct b, b'.
  - intros (? & ? & [= <-] & Hp & _). by simplify_eq/=.
Qed.

(** ** The latest human decision counts *)

Section decisions.
Context (case_id : string).
Notation concerns := (AuditHumanDecisionSource.concerns case_id).

(** The events about the case carry the time they were recorded. *)
Definition stamped (events : list AuditEvent.t) : Prop :=
  ∀ e, e ∈ events → concerns e = true → ∃ t, AuditEvent.created_at e = Some (Aware t).

(** [e] was recorded after [x], or at the same time. *)
Definition since (e x : AuditEvent.t) : Prop :=
  ∃ t u, AuditEvent.created_at e = Some (Aware t) ∧ AuditEvent.created_at x = Some (Aware u) ∧ u <= t.

(** Nothing about the case that follows [e] is as recent, nothing before it is
    more recent. *)
Definition is_latest (events : list AuditEvent.t) (e : AuditEvent.t) : Prop :=
  concerns e = true ∧ ∃ older newer, events = older ++ e :: newer ∧
    (∀ x, x ∈ older → concerns x = true → since e x) ∧
    (∀ x, x ∈ newer → concerns x = true → ¬ since x e).

Lemma is_latest_head events e : concerns e = true →
  (∀ x, x ∈ events → concerns x = true → ¬ since x e) → is_latest (e :: events) e.
Proof.
  intros Hc Hn. split; [done|]. exists [], events. split; [done|].
  split; [by intros y ?%elem_of_nil|done].
Qed.

Lemma is_latest_cons events x e :
  is_latest events e → (concerns x = true → since e x) → is_latest (x :: events) e.
Proof.
  intros (Hc & old & new & -> & Ho & Hn) Hx. split; [done|]. exists (x :: old), new.
  split; [done|]. split; [|done]. intros y [->|Hy]%elem_of_cons; auto.
Qed.

Lemma stamped_cons x events : stamped (x :: events) → stamped events.
Proof. intros H y Hy. apply H. by right. Qed.

(** The loop from a current decision keeps it, or finds a later one. *)
Lemma latest_of_from events : ∀ current t, stamped events →
  AuditEvent.created_at current = Some (Aware t) →
  AuditHumanDecisionSource.latest_of case_id events (Some current) = Ok (Some current) ∧
    (∀ x, x ∈ events → concerns x = true → ¬ since x current) ∨
  ∃ e, AuditHumanDecisionSource.latest_of case_id events (Some current) = Ok (Some e) ∧
    since e current ∧ is_latest events e.
Proof.
  induction events as [|x events IH]; intros current t Hs Et; cbn.
  { left. split; [done|]. by intros x ?%elem_of_nil. }
  pose proof (stamped_cons _ _ Hs) as Hs'. destruct (concerns x) eqn:Ex; cbn [negb].
  2: { destruct (IH current t Hs' Et) as [[E H]|(e & E & Hsince & He)].
       - left. split; [done|]. intros y [->|Hy]%elem_of_cons; [congruence|auto].
       - right. exists e. split; [done|]. split; [done|]. apply is_latest_cons; [done|congruence]. }
  destruct (Hs x (list_elem_of_here _ _) Ex) as (u & Eu). rewrite Et, Eu.
  cbn [AuditHumanDecisionSource.not_older dt_ge dt_le mbind res_bind].
  destruct (Z.leb_spec t u) as [Hle|Hlt].
  - right. destruct (IH x u Hs' Eu) as [[E H]|(e & E & Hsince & He)].
    + exists x. split; [done|]. split; [by exists u, t|]. by apply is_latest_head.
    + exists e. split; [done|]. split; [|by apply is_latest_cons].
      destruct Hsince as (a & b & Ea & Eb & ?). exists a, t. simplify_eq. eauto with lia.
  - destruct (IH current t Hs' Et) as [[E H]|(e & E & Hsince & He)].
    + left. split; [done|]. intros y [->|Hy]%elem_of_cons; [|auto].
      intros _ (a & b & Ea & Eb & ?). simplify_eq. lia.
    + right. exists e. split; [done|]. split; [done|]. apply is_latest_cons; [done|]. intros _.
      destruct Hsince as (a & b & Ea & Eb & ?). exists a, u. simplify_eq. eauto with lia.
Qed.

(** The loop returns the latest decision, or nothing when there is none. *)
Lemma latest_of_spec events : stamped events →
  (AuditHumanDecisionSource.latest_of case_id events None = Ok None ∧
     ∀ x, x ∈ events → concerns x = false) ∨
  ∃ e, AuditHumanDecisionSource.latest_of case_id events None = Ok (Some e) ∧ is_latest events e.
Proof.
  induction events as [|x events IH]; intros Hs; cbn.
  { left. split; [done|]. by intros x ?%elem_of_nil. }
  pose proof (stamped_cons _ _ Hs) as Hs'. destruct (concerns x) eqn:Ex; cbn [negb].
  - right. destruct (Hs x (list_elem_of_here _ _) Ex) as (u & Eu).
    destruct (latest_of_from events x u Hs' Eu) as [[E H]|(e & E & Hsince & He)].
    + exists x. split; [done|]. by apply is_latest_head.
    + exists e. split; [done|]. by apply is_latest_cons.
  - destruct (IH Hs') as [[E H]|(e & E & He)].
    + left. split; [done|]. intros y [->|Hy]%elem_of_cons; [done|auto].
    + right. exists e. split; [done|]. apply is_latest_cons; [done|congruence].
Qed.
End decisions.

(** The last event about the case wins when no earlier one is more recent. *)
Lemma latest_is_last case_id events e t :
  AuditHumanDecisionSource.concerns case_id e = true → AuditEvent.created_at e = Some (Aware t) →
  (∀ x, x ∈ events → AuditHumanDecisionSource.concerns case_id x = true →
     ∃ u, AuditEvent.created_at x = Some (Aware u) ∧ u <= t) →
  AuditHumanDecisionSource.latest_of case_id (events ++ [e]) None = Ok (Some e).
Proof.
  intros Hc Ht Hold.
  destruct (latest_of_spec case_id (events ++ [e])) as [[_ H]|(x & -> & Hx & old & new & E & Ho & Hn)].
  - intros x [Hx|Hx%list_elem_of_singleton]%elem_of_app Hcx; [|subst x; eauto].
    destruct (Hold x Hx Hcx) as (u & ? & _). eauto.
  - rewrite H in Hc; [done|]. apply elem_of_app. right. by left.
  - destruct (last new) as [y|] eqn:El.
    + apply last_Some in El as (new' & ->).
      rewrite app_comm_cons, app_assoc in E. apply app_inj_tail in E as [Eev <-].
      destruct (Hn e ltac:(apply elem_of_app; right; by left) Hc).
      destruct (Hold x) as (u & Eu & ?); [rewrite Eev; apply elem_of_app; right; by left|done|].
      by exists t, u.
    + apply last_None in El as ->. apply app_inj_tail in E as [_ ->]. done.
Qed.

(** Events about something else do not change the answer. *)
Lemma latest_of_app case_id events others latest :
  (∀ x, x ∈ others → AuditHumanDecisionSource.concerns case_id x = false) →
  AuditHumanDecisionSource.latest_of case_id (events ++ others) latest =
    AuditHumanDecisionSource.latest_of case_id events latest.
Proof.
  intros Ho. revert latest. induction events as [|x events IH]; intros latest; cbn.
  - induction others as [|x others IH]; [done|]. cbn. rewrite (Ho x) by left. cbn [negb].
    apply IH. intros y Hy. apply Ho. by right.
  - destruct (negb _); [apply IH|]. destruct latest as [current|]; [|apply IH].
    destruct (AuditHumanDecisionSource.not_older _ _) as [[]|]; cbn [mbind res_bind]; [apply IH..|done].
Qed.

Lemma text_or_empty_str details key text : alist_get key details = Some (JStr text) →
  text_or_empty details key = text.
Proof.
  intros E. unfold text_or_empty. rewrite E. cbn [truthy py_str].
  destruct (PyStr.empty text) eqn:Ee; [|done]. by apply bool_decide_eq_true in Ee as ->.
Qed.

Lemma decision_of_recorded (passed : bool) (rationale reviewer recorded_at : string) :
  blank rationale = false → reviewer ≠ "" →
  AuditHumanDecisionSource.decision_of
    [("passed", JBool passed); ("rationale", JStr rationale); ("reviewer", JStr reviewer);
     ("recorded_at", JStr recorded_at)] = Some (passed, rationale, reviewer).
Proof.
  intros Hb Hr. unfold AuditHumanDecisionSource.decision_of.
  rewrite (text_or_empty_str _ "rationale" rationale), (text_or_empty_str _ "reviewer" reviewer)
    by done.
  assert (PyStr.empty reviewer = false) as Hv by by apply bool_decide_eq_false.
  cbn [alist_get]. cbv zeta. rewrite Hb, Hv. by destruct passed.
Qed.

Lemma chained_keeps audit n previous t event : AuditEvent.chained audit n previous t = Ok event →
  AuditEvent.created_at event = Some t ∧ AuditEvent.event_type event = AuditEvent.event_type audit ∧
  AuditEvent.object_id event = AuditEvent.object_id audit ∧
  AuditEvent.tenant_id event = AuditEvent.tenant_id audit ∧
  AuditEvent.details event = AuditEvent.details audit.
Proof. unfold AuditEvent.chained. intros H. inv_ok. by destruct audit. Qed.

Lemma next_link_keeps previous audit t event : next_link previous audit t = Ok event →
  AuditEvent.created_at event = Some t ∧ AuditEvent.event_type event = AuditEvent.event_type audit ∧
  AuditEvent.object_id event = AuditEvent.object_id audit ∧
  AuditEvent.tenant_id event = AuditEvent.tenant_id audit ∧
  AuditEvent.details event = AuditEvent.details audit.
Proof. unfold next_link. destruct (last previous); by apply chained_keeps. Qed.

Section recorded.
Context {X : Type}.

Lemma decision_for_run tenant_id case_id e (s : st (world X)) event :
  AuditHumanDecisionSource.latest_of case_id (tenant_audits tenant_id (audits (db (data s)))) None =
    Ok (Some event) →
  AuditHumanDecisionSource.decision_for list_audit_events tenant_id case_id e s =
    (Ok (AuditHumanDecisionSource.decision_of (AuditEvent.details event)), s).
Proof.
  intros E. unfold AuditHumanDecisionSource.decision_for, mbind, M_bind.
  change (list_audit_events tenant_id e s) with
    (Ok (tenant_audits tenant_id (audits (db (data s)))), s).
  cbv beta iota. unfold lift. by rewrite E.
Qed.

(** A verdict recorded in the audit chain is the one the grader of the case
    reads and gives, until another decision about the case is recorded. *)
(** C17. A human verdict with a rationale that is not blank and a named reviewer,
    recorded in the tenant's audit chain at a time not before the decisions already
    recorded about the case, is the one the grader of the case reads back and gives,
    with its reviewer and rationale, until another decision about the case is
    recorded. *)
Theorem recorded_decision_is_graded tenant_id case output (passed : bool) rationale reviewer event_id
    recorded_at t e e' (s s' s'' : st (world X)) others :
  clock e (ticks s) = Aware t →
  (∀ x, x ∈ tenant_audits tenant_id (audits (db (data s))) →
     AuditHumanDecisionSource.concerns (EvaluationCase.case_id case) x = true →
     ∃ u, AuditEvent.created_at x = Some (Aware u) ∧ u <= t) →
  blank rationale = false → reviewer ≠ "" →
  record_audit (record_human_decision tenant_id (EvaluationCase.case_id case) passed rationale
    reviewer event_id recorded_at) e s = (Ok tt, s') →
  tenant_audits tenant_id (audits (db (data s''))) =
    tenant_audits tenant_id (audits (db (data s'))) ++ others →
  (∀ x, x ∈ others →
     AuditHumanDecisionSource.concerns (EvaluationCase.case_id case) x = false) →
  RecordedHumanGraderBackend.evaluate
    (AuditHumanDecisionSource.decision_for list_audit_events) tenant_id case output e' s'' =
  (Ok (decided passed ("[reviewer " +:+ reviewer +:+ "] " +:+ rationale)
         [EvaluationCase.case_id case;
          "audit://evaluation.human_decision/" +:+ EvaluationCase.case_id case]), s'').
Proof.
  intros Ht Hold Hb Hr H E Ho. unfold record_audit in H.
  apply run_bind in H as (l & s1 & Hl & H). injection Hl as <- <-.
  apply run_bind in H as (t' & s2 & Ht' & H). injection Ht' as <- <-. cbn in Ht. rewrite Ht in H.
  apply run_bind in H as (event & s3 & He & H). apply run_lift in He as [He ->].
  injection H as <-.
  change (tenant_audits tenant_id (audits (db (data s''))) =
          tenant_audits tenant_id (audits (db (data s)) ++ [event]) ++ others) in E.
  pose proof (next_link_keeps _ _ _ _ He) as (Hat & Hty & Hob & Hte & Hde).
  assert (Hall : tenant_audits tenant_id (audits (db (data s)) ++ [event]) =
    tenant_audits tenant_id (audits (db (data s))) ++ [event]).
  { unfold tenant_audits. rewrite List.filter_app. cbn [List.filter].
    by rewrite (bool_decide_true (AuditEvent.tenant_id event = tenant_id)). }
  rewrite Hall in E. unfold RecordedHumanGraderBackend.evaluate, mbind, M_bind.
  rewrite (decision_for_run _ _ _ _ event).
  - rewrite Hde. cbn [record_human_decision AuditEvent.details].
    by rewrite decision_of_recorded.
  - rewrite E, latest_of_app by done. apply (latest_is_last _ _ event t); [|done..].
    unfold AuditHumanDecisionSource.concerns. rewrite Hty, Hob. by rewrite !bool_decide_true by done.
Qed.
End recorded.

(** ** What a trajectory has to be *)

Lemma dict_of_list_snoc {K V} `{EqDecision K} (l : list (K * V)) k v :
  dict_of_list (l ++ [(k, v)]) = <[k := v]> (dict_of_list l).
Proof. unfold dict_of_list. by rewrite foldl_app. Qed.

Lemma positions_lookup names name i :
  TrajectoryGraderBackend.positions names !! name = Some i ↔
  names !! i = Some name ∧ ∀ j, names !! j = Some name → (j <= i)%nat.
Proof.
  unfold TrajectoryGraderBackend.positions. revert i.
  induction names as [|x names IH] using rev_ind; intros i.
  { cbn. rewrite dict_lookup_empty. split; [done|]. intros [? _]. by rewrite lookup_nil in *. }
  rewrite imap_app. cbn. rewrite dict_of_list_snoc, dict_lookup_insert_Some, IH. split.
  - intros [[-> <-]|[Hne [Hi Hmax]]].
    + split; [apply list_lookup_middle; lia|]. intros j Hj%lookup_lt_Some.
      rewrite length_app in Hj. cbn in Hj. lia.
    + split; [by apply lookup_app_l_Some|].
      intros j [Hj|[_ Hj]]%lookup_app_Some; [auto|]. by apply list_lookup_singleton_Some in Hj as [_ ->].
  - intros [[Hi|[Hge Hi]]%lookup_app_Some Hmax].
    + right. split; [|split; [done|]].
      * intros ->. specialize (Hmax (length names) (list_lookup_middle _ _ _ _ eq_refl)).
        apply lookup_lt_Some in Hi. lia.
      * intros j Hj. apply Hmax. by apply lookup_app_l_Some.
    + left. apply list_lookup_singleton_Some in Hi as [Hi ->]. split; [done|]. lia.
Qed.

Lemma positions_present names name :
  is_some (TrajectoryGraderBackend.positions names !! name) = true ↔ name ∈ names.
Proof.
  unfold TrajectoryGraderBackend.positions.
  induction names as [|x names IH] using rev_ind; [by split; [|intros ?%elem_of_nil]|].
  rewrite imap_app. cbn. rewrite dict_of_list_snoc, elem_of_app, list_elem_of_singleton.
  destruct (decide (x = name)) as [->|Hne].
  - rewrite dict_lookup_insert. cbn. naive_solver.
  - rewrite dict_lookup_insert_ne, IH by done. naive_solver.
Qed.

(** What a rule asks of the names of the recorded steps: [order] compares the
    last occurrences, and is met when one of the two steps is missing. *)
Definition rule_holds (names : list string) (rule : TrajectoryRule.t) : Prop :=
  (TrajectoryRule.rule_type rule = "required" → TrajectoryRule.step rule ∈ names) ∧
  (TrajectoryRule.rule_type rule = "forbidden" → TrajectoryRule.step rule ∉ names) ∧
  (TrajectoryRule.rule_type rule = "order" →
   ∀ i, names !! i = Some (TrajectoryRule.before rule) → TrajectoryRule.after rule ∈ names →
   ∃ j, (i <= j)%nat ∧ names !! j = Some (TrajectoryRule.after rule)).

Lemma violation_none names rule :
  TrajectoryGraderBackend.violation (TrajectoryGraderBackend.positions names) rule = None ↔
  rule_holds names rule.
Proof.
  unfold TrajectoryGraderBackend.violation, rule_holds.
  set (ty := TrajectoryRule.rule_type rule).
  pose proof (positions_present names (TrajectoryRule.step rule)) as Hp.
  destruct (decide (ty = "required")) as [E|Hr].
  { rewrite E. cbn. destruct (is_some _); cbn; [naive_solver|].
    split; [done|]. intros [H _]. specialize (H eq_refl). naive_solver. }
  rewrite (bool_decide_false (ty = "required")) by done. cbn [andb].
  destruct (decide (ty = "forbidden")) as [E|Hf].
  { rewrite E. cbn. destruct (is_some _); cbn; [|naive_solver].
    split; [done|]. intros (_ & H & _). destruct (H eq_refl). by apply Hp. }
  rewrite (bool_decide_false (ty = "forbidden")) by done. cbn [andb].
  destruct (decide (ty = "order")) as [E|Ho]; [|rewrite bool_decide_false by done; naive_solver].
  rewrite bool_decide_true by done.
  destruct (TrajectoryGraderBackend.positions names !! TrajectoryRule.before rule) as [i|] eqn:Ei.
  2: { split; [|done]. intros _. split_and!; [done..|]. intros _ i Hi _. exfalso.
       assert (TrajectoryRule.before rule ∈ names) as Hin%positions_present
         by by eapply list_elem_of_lookup_2. by rewrite Ei in Hin. }
  destruct (TrajectoryGraderBackend.positions names !! TrajectoryRule.after rule) as [j|] eqn:Ej.
  2: { split; [|done]. intros _. split_and!; [done..|]. intros _ k _ Hin%positions_present.
       by rewrite Ej in Hin. }
  apply positions_lookup in Ei as [Ei Himax], Ej as [Ej Hjmax].
  destruct (Nat.ltb_spec j i) as [Hlt|Hle].
  - split; [done|]. intros (_ & _ & H).
    destruct (H E i Ei (list_elem_of_lookup_2 _ _ _ Ej)) as (k & Hk & Hk2). apply Hjmax in Hk2. lia.
  - split; [|done]. intros _. split_and!; [done..|]. intros _ k Hk%Himax _. exists j. split; [lia|done].
Qed.

(** The grader passes a case exactly when it has no rules, or steps were
    recorded that meet all of them; rules without recorded steps stay UNKNOWN. *)
Theorem trajectory_verdict {S} trajectories tenant_id rules case output e (s : st S) :
  ∃ a, TrajectoryGraderBackend.evaluate (StaticTrajectorySource.trajectory_for trajectories)
         tenant_id rules case output e s = (Ok a, s) ∧
  let steps := default [] (trajectories !! EvaluationCase.case_id case) in
  (assessed_status a = GraderStatus.PASS ↔
     rules = [] ∨ (steps ≠ [] ∧ Forall (rule_holds (TrajectoryStep.name <$> steps)) rules)) ∧
  (assessed_status a = GraderStatus.UNKNOWN ↔ rules ≠ [] ∧ steps = []).
Proof.
  unfold TrajectoryGraderBackend.evaluate. destruct rules as [|rule rules].
  { eexists. split; [reflexivity|]. cbn. naive_solver. }
  unfold StaticTrajectorySource.trajectory_for, mbind, M_bind, mret, M_ret.
  destruct (trajectories !! EvaluationCase.case_id case) as [[|step steps]|] eqn:Et;
    [eexists; split; [reflexivity|]; cbn; naive_solver| |eexists; split; [reflexivity|]; cbn; naive_solver].
  eexists. split; [reflexivity|]. cbn [default]. unfold TrajectoryGraderBackend.assess.
  set (names := TrajectoryStep.name <$> step :: steps).
  assert (Hall : omap (TrajectoryGraderBackend.violation (TrajectoryGraderBackend.positions names))
      (rule :: rules) = [] ↔ Forall (rule_holds names) (rule :: rules)).
  { generalize (rule :: rules). clear. induction l as [|r l IH]; [by split|].
    cbn [omap list_omap]. rewrite Forall_cons, <- IH, <- violation_none.
    destruct (TrajectoryGraderBackend.violation _ _); naive_solver. }
  destruct (omap _ _) as [|v vs]; cbn; naive_solver.
Qed.

(** A rule that orders a step after one that never happened is met. *)
Example order_without_before :
  assessed_status (TrajectoryGraderBackend.assess [TrajectoryRule.mk "order" "" "approve" "pay"]
    (EvaluationCase.mk "c" [] [] [] CaseVisibility.PUBLIC (of_int 1) true)
    [TrajectoryStep.mk "tool" "pay" "succeeded" 0]) = GraderStatus.PASS.
Proof. vm_compute. reflexivity. Qed.

(** ** What a record says about the output *)

Section linked.
Context {S : Type} (stages : list (GraderStage S)).
Import EvaluationHarness.

(** What the pipeline's grades of an output say, whichever trial they belong to. *)
Context (P : EvaluationCase.t → payload → list GraderResult.t → Prop)
  (P_graded : ∀ case output s,
     wp (pipeline_grade stages case output) (fun grades _ => P case output grades)
       (fun _ _ => True) s)
  (P_owned : ∀ case output grades trial_id owned, P case output grades →
     mapM_res (fun g => GraderResult.new (g <| GraderResult.trial_id := trial_id |>)) grades =
       Ok owned → P case output owned).

(** The grades of the record are about the output it holds. *)
Definition about_output (case : EvaluationCase.t) (r : TrialCaseResult.t) : Prop :=
  TrialCaseResult.grader_results r = [] ∨
  ∃ output, TrialCaseResult.output_payload r = Some output ∧
    P case output (TrialCaseResult.grader_results r).

Definition all_about (cases : list EvaluationCase.t) (results : list TrialCaseResult.t) : Prop :=
  ∀ i c r, cases !! i = Some c → results !! i = Some r → about_output c r.

Lemma run_case_about execute version trial_id case seed s :
  wp (run_case execute stages version trial_id case seed)
    (fun o _ => about_output case o.1) (fun _ _ => True) s.
Proof.
  unfold run_case. apply wp_bind, wp_try_all, wp_bind.
  assert (Hnot : ∀ reason (s : S), wp (result ← lift (unexecuted case seed reason); mret (result, Some reason))
      (fun o _ => about_output case o.1) (fun _ _ => True) s).
  { intros reason s'. apply wp_bind, wp_lift; [|done]. intros r Hr. apply wp_ret. left.
    unfold unexecuted, TrialCaseResult.new in Hr. by inv_ok. }
  eapply wp_mono; [apply wp_any|..]; cbv beta.
  - intros x s1 _. apply wp_ret. destruct (negb _); [apply Hnot|].
    apply wp_bind, wp_try_all, wp_bind. eapply wp_mono; [apply P_graded|..]; cbv beta.
    + intros grades s2 Hg. apply wp_bind, wp_lift.
      * intros owned Ho. apply wp_ret, wp_bind, wp_lift; [|done]. intros r Hr. apply wp_ret. right.
        unfold executed, TrialCaseResult.new in Hr. inv_ok. cbn. eauto.
      * intros exc _. apply wp_ret, wp_bind, wp_lift; [|done]. intros r Hr. apply wp_ret. left.
        unfold executed, TrialCaseResult.new in Hr. by inv_ok.
    + intros exc s2 _. apply wp_ret, wp_bind, wp_lift; [|done]. intros r Hr. apply wp_ret. left.
      unfold executed, TrialCaseResult.new in Hr. by inv_ok.
  - intros exc s1 _. apply wp_ret, Hnot.
Qed.

Lemma run_cases_about execute version trial_id seed index cases acc s :
  wp (run_cases execute stages version trial_id seed index cases acc)
    (fun o _ => ∃ new, o.1 = acc ++ new ∧ all_about cases new) (fun _ _ => True) s.
Proof.
  revert index acc s. induction cases as [|c cases IH]; intros index acc s; cbn [run_cases].
  { apply wp_ret. exists []. rewrite app_nil_r. split; [done|]. by intros i ? ? ?. }
  apply wp_bind. eapply wp_mono; [apply run_case_about| |done]. cbv beta.
  intros [r [reason|]] s1 Hr; cbn in Hr.
  - apply wp_ret. exists [r]. split; [done|]. intros [|i] c' r' Hc Hr'; cbn in *; [by simplify_eq|done].
  - eapply wp_mono; [apply IH| |done]. cbv beta. intros [rs stopped] s2 (new & E & Hnew). cbn in E.
    exists (r :: new). cbn. rewrite E, <- app_assoc. split; [done|].
    intros [|i] c' r' Hc Hr'; cbn in *; [by simplify_eq|by eapply Hnew].
Qed.

Lemma run_suite_about h suite subject tenant seed s : grader_pipeline h = Some stages →
  wp (run_suite h suite subject tenant seed)
    (fun x _ => all_about (EvaluationSuite.cases (resolved suite)) (Trial.case_results x))
    (fun _ _ => True) s.
Proof.
  intros Hst. unfold run_suite. fold (resolved suite).
  apply wp_bind, wp_now. intros started. apply wp_bind, wp_uuid4_any. intros trial_id. cbv zeta.
  set (R := all_about (EvaluationSuite.cases (resolved suite))).
  assert (Hinv : ∀ reason results (s : S), R results →
    wp (invalid_trial h (resolved suite) subject tenant seed started reason results trial_id)
      (fun x _ => R (Trial.case_results x)) (fun _ _ => True) s).
  { intros reason results s' Hr. unfold invalid_trial. apply wp_bind, wp_now. intros t.
    apply wp_lift; [|done]. intros x Hx. unfold Trial.new in Hx. by inv_ok. }
  assert (Hnil : R []) by by intros i ? ? _ ?.
  destruct (match suite with inl _ => _ | inr _ => _ end); [by apply Hinv|].
  destruct (subject_executor h) as [execute|]; [|by apply Hinv]. rewrite Hst.
  apply wp_bind. eapply wp_mono; [apply run_cases_about| |done]. cbv beta.
  intros [results stopped] s1 (new & E & Hnew). cbn in E. subst results.
  destruct stopped as [reason|]; [by apply Hinv|].
  destruct (identity_conflict new); [by apply Hinv|].
  destruct (uncertain new); [by apply Hinv|].
  unfold verdict. apply wp_bind. eapply wp_mono; [apply wp_any| |done]. cbv beta.
  intros status s2 _. apply wp_bind, wp_now. intros completed. apply wp_lift; [|done].
  intros x Hx. unfold Trial.new in Hx. by inv_ok.
Qed.
End linked.

(** ** The evaluator's stages *)

Lemma mismatches_none expected actual_output :
  ExactMatchGraderBackend.mismatches expected actual_output = [] ↔
  ∀ key value, (key, value) ∈ expected →
    py_eq (default JNull (alist_get key actual_output)) value = true.
Proof.
  unfold ExactMatchGraderBackend.mismatches. split.
  - intros E%fmap_nil_inv key value Hin. apply not_false_iff_true. intros Hf.
    assert ((key, value) ∈ ([] : payload)) as ?%elem_of_nil; [|done].
    rewrite <- E. apply elem_of_list_filter. split; [done|]. cbn [fst snd]. by rewrite Hf.
  - intros H. induction expected as [|[k v] expected IH]; [done|]. cbn [List.filter fst snd].
    rewrite H by left. cbn [negb]. apply IH. intros k' v' Hin. apply H. by right.
Qed.

Lemma exact_match_pass case actual_output :
  assessed_status (ExactMatchGraderBackend.assess case actual_output) = GraderStatus.PASS ↔
  ExactMatchGraderBackend.mismatches (EvaluationCase.expected_outcome case) actual_output = [].
Proof. unfold ExactMatchGraderBackend.assess. by destruct (ExactMatchGraderBackend.mismatches _ _). Qed.

(** The first grade is the exact match of the output. *)
Definition exact_first (case : EvaluationCase.t) (output : payload) (grades : list GraderResult.t)
    : Prop :=
  ∃ g rest, grades = g :: rest ∧
    GraderResult.status g = Some (assessed_status (ExactMatchGraderBackend.assess case output)).

Lemma new_keeps_status x g st : GraderResult.new x = Ok g → GraderResult.status x = Some st →
  GraderResult.status g = Some st.
Proof.
  unfold GraderResult.new. intros H E. inv_ok. rewrite E in H.
  repeat case_match; by simplify_eq.
Qed.

Lemma exact_first_owned case output grades trial_id owned : exact_first case output grades →
  mapM_res (fun g => GraderResult.new (g <| GraderResult.trial_id := trial_id |>)) grades = Ok owned →
  exact_first case output owned.
Proof.
  intros (g & rest & -> & E) H. cbn [mapM_res] in H. inv_ok. do 2 eexists. split; [done|].
  by eapply new_keeps_status.
Qed.

Lemma grade_stages_prefix {S} (stages : list (GraderStage S)) case output results identities s :
  wp (grade_stages stages case output results identities)
    (fun grades _ => results `prefix_of` grades) (fun _ _ => True) s.
Proof.
  revert results identities s.
  induction stages as [|stage stages IH]; intros results identities s; cbn [grade_stages].
  { by apply wp_ret. }
  apply wp_bind. eapply wp_mono; [apply wp_any| |done]. intros g s1 _.
  apply wp_bind, wp_throw_if; [intros _|done]. apply wp_bind, wp_throw_if; [intros _|done].
  destruct (negb _); [apply wp_ret; by apply prefix_app_r|].
  eapply wp_mono; [apply IH| |done]. intros grades s2 [l ->]. rewrite <- app_assoc. by eexists.
Qed.

Definition exact_stage {S} : GraderStage S := {|
  stage_kind := GraderKind.DETERMINISTIC;
  stage_grader := independent_grade {| bound_kind := GraderKind.DETERMINISTIC;
    bound_id := "rule-engine"; bound_version := "1";
    Harness.backend := ExactMatchGraderBackend.evaluate |} |}.

Lemma exact_first_graded {S} (stages : list (GraderStage S)) case output s :
  wp (pipeline_grade (exact_stage :: stages) case output)
    (fun grades _ => exact_first case output grades) (fun _ _ => True) s.
Proof.
  unfold pipeline_grade. cbn [grade_stages stage_grader exact_stage].
  unfold independent_grade. apply wp_bind. cbn [Harness.backend]. apply wp_bind, wp_ret, wp_lift; [|done].
  intros g Hg. pose proof (new_keeps_status _ _ _ Hg eq_refl) as Hs.
  apply wp_bind, wp_throw_if; [intros _|done]. apply wp_bind, wp_throw_if; [intros _|done].
  destruct (negb _).
  - apply wp_ret. by exists g, [].
  - eapply wp_mono; [apply grade_stages_prefix| |done]. intros grades s2 [l ->]. by exists g, l.
Qed.

Section evaluator.
Context {S : Type} (x : HarnessCandidateEvaluator.t S).
Import HarnessCandidateEvaluator.

(** The kinds of the stages the configuration asks for, in the order of the code. *)
Definition configured : list GraderKind.t :=
  [GraderKind.DETERMINISTIC] ++
  (if llm_judge x then [GraderKind.LLM] else []) ++
  (if trajectory_grader x then [GraderKind.TRAJECTORY] else []) ++
  (if human_decisions x then [GraderKind.HUMAN] else []).

Lemma stage_valid kind id version b (st : GraderStage S) : stage kind id version b = Ok st →
  stage_kind st = kind ∧ stages_valid [st].
Proof.
  unfold stage, independent_grader. intros H. inv_ok. split; [done|].
  intros y case output s ->%list_elem_of_singleton. apply independent_grade_valid.
  intros ???. apply wp_any.
Qed.

Lemma stages_valid_app (l l' : list (GraderStage S)) :
  stages_valid l → stages_valid l' → stages_valid (l ++ l').
Proof. intros H H' st c o s [Hin|Hin]%elem_of_app; auto. Qed.

(** Every configuration with a rubric version has its stages, the exact match
    first. *)
Lemma stages_built tenant_id : PyStr.empty (llm_rubric_version x) = false →
  ∃ l, stages x tenant_id = Ok (exact_stage :: l) ∧
    stage_kind <$> (exact_stage :: l) = configured ∧ stages_valid (exact_stage :: l).
Proof.
  intros Hr. unfold stages, configured, optional_stage.
  assert (Hstage : ∀ kind id version (b : backend_of S), PyStr.empty id = false → PyStr.empty version = false →
    ∃ st, stage kind id version b = Ok st).
  { intros kind id version b Hi Hv. unfold stage, independent_grader. cbn. rewrite Hi, Hv. eauto. }
  assert (Hexact : stages_valid [exact_stage (S := S)]) by by eapply (stage_valid _ "rule-engine" "1").
  change (stage GraderKind.DETERMINISTIC "rule-engine" "1" ExactMatchGraderBackend.evaluate)
    with (Ok (exact_stage (S := S))). cbn [mbind res_bind].
  assert (Hopt : ∀ P (port : option P) (build : P → res (GraderStage S)) kind,
    (∀ p, ∃ st, build p = Ok st ∧ stage_kind st = kind ∧ stages_valid [st]) →
    ∃ l, match port with Some p => st ← build p; Ok [st] | None => Ok [] end = Ok l ∧
      stage_kind <$> l = (if port then [kind] else []) ∧ stages_valid l).
  { intros P [p|] build kind Hb.
    - destruct (Hb p) as (st & -> & <- & Hv). exists [st]. done.
    - exists []. split_and!; [done..|]. by intros y c o s ?%elem_of_nil. }
  destruct (Hopt _ (llm_judge x) (fun judge => stage GraderKind.LLM "llm-judge" (llm_rubric_version x)
      (LlmGraderBackend.evaluate judge (decode_error x) (llm_rubric_version x))) GraderKind.LLM)
    as (l1 & -> & E1 & V1).
  { intros p. edestruct Hstage as [st Hst]; [..|exists st; split; [exact Hst|by eapply stage_valid]]; done. }
  cbn [mbind res_bind].
  destruct (Hopt _ (trajectory_grader x) (stage GraderKind.TRAJECTORY "trajectory-rules" "1")
      GraderKind.TRAJECTORY) as (l2 & -> & E2 & V2).
  { intros p. edestruct Hstage as [st Hst]; [..|exists st; split; [exact Hst|by eapply stage_valid]]; done. }
  cbn [mbind res_bind].
  destruct (Hopt _ (human_decisions x) (fun decisions => stage GraderKind.HUMAN "human-review" "1"
      (RecordedHumanGraderBackend.evaluate decisions tenant_id)) GraderKind.HUMAN)
    as (l3 & -> & E3 & V3).
  { intros p. edestruct Hstage as [st Hst]; [..|exists st; split; [exact Hst|by eapply stage_valid]]; done. }
  cbn [mbind res_bind].
  exists (l1 ++ l2 ++ l3). split; [done|]. split.
  - rewrite fmap_cons, !fmap_app, E1, E2, E3. done.
  - change (exact_stage :: l1 ++ l2 ++ l3) with ([exact_stage] ++ l1 ++ l2 ++ l3).
    by repeat apply stages_valid_app.
Qed.

(** The governance order wants the trajectory before the model judge. *)
Lemma configured_order (l : list (GraderStage S)) : stage_kind <$> l = configured →
  grader_pipeline l =
    if llm_judge x then
      if trajectory_grader x then
        raise ValueError "grader stages must follow governance priority order"
      else Ok l
    else Ok l.
Proof.
  intros E. unfold grader_pipeline. rewrite E. unfold configured.
  assert (length l ≠ 0%nat) as Hl.
  { rewrite <- (length_fmap stage_kind), E. unfold configured. cbn. lia. }
  rewrite bool_decide_false by done. cbn [raise_if mbind res_bind].
  destruct (llm_judge x), (trajectory_grader x), (human_decisions x); vm_compute; reflexivity.
Qed.

(** What the catalog of one suite gives the harness. *)
Lemma catalog_loads suite candidate_id :
  (catalog ← EvaluationSuiteCatalog.new [suite];
   EvaluationSuiteCatalog.load_for_harness catalog (EvaluationSuite.suite_id suite)
     (EvaluationSuite.version suite)
     (SuiteAccessContext.mk candidate_id [SuiteAccessRole.EVALUATION_HARNESS])) =
  Ok (HarnessSuite.mk suite candidate_id).
Proof.
  unfold EvaluationSuiteCatalog.new. cbv zeta. rewrite bool_decide_true by done.
  cbn [negb raise_if mbind res_bind].
  unfold EvaluationSuiteCatalog.load_for_harness, EvaluationSuiteCatalog.get.
  cbn [SuiteAccessContext.roles SuiteAccessContext.principal_id].
  change (mem SuiteAccessRole.CANDIDATE_GENERATOR [SuiteAccessRole.EVALUATION_HARNESS]) with false.
  change (mem SuiteAccessRole.EVALUATION_HARNESS [SuiteAccessRole.EVALUATION_HARNESS]) with true.
  cbn [negb raise_if mbind res_bind]. change (dict_of_list _) with
    (<[(EvaluationSuite.suite_id suite, EvaluationSuite.version suite) := suite]>
       (∅ : dict (string * string) EvaluationSuite.t)).
  pose proof (dict_lookup_insert (∅ : dict (string * string) EvaluationSuite.t)
    (EvaluationSuite.suite_id suite, EvaluationSuite.version suite) suite) as E.
  by destruct (_ !! _) as [y|]; [injection E as ->|].
Qed.

(** What the store answers for the candidate: the suite it was made for. *)
Definition suite_of_candidate (tenant_id candidate_id : uuid) (suite : EvaluationSuite.t) (s : S)
    : Prop :=
  wp (get_candidate (store x) tenant_id candidate_id)
    (fun candidate => wp (get_suite (store x) tenant_id (CandidateVersion.suite_id candidate)
       (CandidateVersion.suite_version candidate)) (fun answer _ => answer = suite)
       (fun _ _ => False))
    (fun _ _ => False) s.

(** The suite is loaded and the stages are built; [Q] is about the run. *)
Lemma evaluate_spec seed tenant_id candidate_id suite (Q : Trial.t → S → Prop) E s :
  PyStr.empty (llm_rubric_version x) = false →
  suite_of_candidate tenant_id candidate_id suite s →
  (∀ l artifact_ref s', stages x tenant_id = Ok l → stage_kind <$> l = configured →
     (∃ rest, l = exact_stage :: rest) → stages_valid l →
     wp (pipeline ← lift (grader_pipeline l);
         EvaluationHarness.run_suite
           (EvaluationHarness.mk (Some (bound_executor x tenant_id artifact_ref)) (Some pipeline)
              (harness_version x))
           (inr (HarnessSuite.mk suite candidate_id)) candidate_id tenant_id seed) Q E s') →
  wp (evaluate x seed tenant_id candidate_id) Q E s.
Proof.
  intros Hr Hstore H. unfold evaluate.
  apply wp_bind. eapply wp_mono; [exact Hstore| |done]. cbv beta. intros candidate s1 Hsuite.
  apply wp_bind. eapply wp_mono; [exact Hsuite| |done]. cbv beta. intros ? s2 ->.
  destruct (stages_built tenant_id Hr) as (rest & Est & Ek & Hv).
  pose proof (catalog_loads suite candidate_id) as Hl.
  destruct (EvaluationSuiteCatalog.new [suite]) as [catalog|]; [|discriminate Hl].
  cbn [mbind res_bind] in Hl.
  apply wp_bind, wp_lift; [|done]. intros ? [= <-]. apply wp_bind. rewrite Hl.
  apply wp_lift; [|done]. intros ? [= <-]. apply wp_bind. rewrite Est.
  apply wp_lift; [|done]. intros ? [= <-].
  apply (H _ (CandidateVersion.artifact_ref candidate) s2 Est Ek (ex_intro _ rest eq_refl) Hv).
Qed.

(** A configuration with a model judge and a trajectory grader never evaluates:
    the stages are not in governance order. *)
(** C18. A candidate evaluator with both a model judge and a trajectory grader never
    evaluates: it raises ValueError, since it lists the stages against the governance
    order. *)
Theorem stages_out_of_order seed tenant_id candidate_id suite s :
  is_some (llm_judge x) = true → is_some (trajectory_grader x) = true →
  PyStr.empty (llm_rubric_version x) = false →
  suite_of_candidate tenant_id candidate_id suite s →
  wp (evaluate x seed tenant_id candidate_id) (fun _ _ => False)
    (fun exc _ => exc = Exn ValueError "grader stages must follow governance priority order") s.
Proof.
  intros Hj Ht Hr Hstore. eapply evaluate_spec; [done..|].
  intros l ref s' _ Ek _ _. rewrite (configured_order l Ek).
  destruct (llm_judge x); [|done]. destruct (trajectory_grader x); [|done].
  apply wp_bind, wp_lift; [done|]. by intros ? [= <-].
Qed.

(** Otherwise a candidate whose suite is found gets a trial of itself on that
    suite; when it PASSED, every case was run, and every gating case was graded
    by all that is configured and its output meets each expectation of the case. *)
(** C16. With not both a model judge and a trajectory grader configured, a rubric
    version, and runtimes that answer valid subject results, a candidate whose suite
    is found and has cases gets a trial of itself on that suite, unless the weights of
    the suite add up to zero; when the trial PASSED, every case was run, every gating
    case was graded by all the configured stages, and the runtime's output of it meets
    each expectation of the case. *)
Theorem passed_candidate_matched seed tenant_id candidate_id suite s :
  is_none (llm_judge x) || is_none (trajectory_grader x) = true →
  PyStr.empty (llm_rubric_version x) = false →
  suite_of_candidate tenant_id candidate_id suite s → EvaluationSuite.cases suite ≠ [] →
  (∀ artifact_ref, executor_valid (bound_executor x tenant_id artifact_ref)) →
  wp (evaluate x seed tenant_id candidate_id)
    (fun t _ => Trial.tenant_id t = tenant_id ∧ Trial.subject_version_id t = candidate_id ∧
       Trial.suite_id t = EvaluationSuite.suite_id suite ∧
       Trial.suite_version t = EvaluationSuite.version suite ∧
       (Trial.status t = TrialStatus.PASSED →
        ∀ i c, EvaluationSuite.cases suite !! i = Some c →
        ∃ r output, Trial.case_results t !! i = Some r ∧
          TrialCaseResult.case_id r = EvaluationCase.case_id c ∧
          TrialCaseResult.output_payload r = Some output ∧
          (EvaluationCase.gating c = true →
           GraderResult.kind <$> TrialCaseResult.grader_results r = configured ∧
           ∀ key value, (key, value) ∈ EvaluationCase.expected_outcome c →
             py_eq (default JNull (alist_get key output)) value = true)))
    (fun exc _ => exn_class exc = OtherError "ZeroDivisionError" ∧
       feq (float_sum (EvaluationCase.weight <$> EvaluationSuite.cases suite)) fzero = true) s.
Proof.
  intros Hone Hr Hstore Hcases Hex. eapply evaluate_spec; [done..|].
  intros l ref s' _ Ek [rest ->] Hv. rewrite (configured_order _ Ek).
  assert ((if llm_judge x then if trajectory_grader x then raise ValueError
      "grader stages must follow governance priority order" else Ok (exact_stage :: rest)
      else Ok (exact_stage :: rest)) = Ok (exact_stage :: rest)) as ->.
  { by destruct (llm_judge x), (trajectory_grader x). }
  apply wp_bind, wp_lift; [|done]. intros ? [= <-].
  eapply wp_mono; [apply wp_and; [apply run_suite_spec|apply (run_suite_about (exact_stage :: rest) exact_first)]|..];
    cbv beta.
  - by intros execute [= <-].
  - by intros st [= <-].
  - exact Hcases.
  - intros case output s1. apply exact_first_graded.
  - intros case output grades trial_id owned. apply exact_first_owned.
  - done.
  - intros t s1 [[(Htenant & Hid & Hversion & Hsubject & _) Hok] Habout].
    split_and!; [exact Htenant|exact Hsubject|exact Hid|exact Hversion|].
    intros Hp i c Hc. destruct Hok as [[Hinv _]|Hearned]; [congruence|].
    apply verdict_pass in Hearned as (st & Est & Hran & Hgate & _); [|exact Hp].
    injection Est as <-.
    assert (is_Some (Trial.case_results t !! i)) as [r Hri].
    { apply lookup_lt_is_Some. rewrite (all_ran_length _ _ _ _ _ Hran). by eapply lookup_lt_Some. }
    pose proof (all_ran_lookup _ _ _ _ _ _ _ _ Hran Hc Hri) as Hrec.
    destruct (ran_output _ _ _ _ _ Hrec) as [output Ho]. exists r, output.
    split_and!; [done|exact (ran_case _ _ _ _ _ Hrec)|done|]. intros Hg.
    destruct (Hgate i c r Hc Hri Hg) as [Hkinds Hpass]. split; [by rewrite Hkinds|].
    apply mismatches_none, exact_match_pass.
    destruct (Habout i c r Hc Hri) as [E|(output' & Ho' & g & gs & Eg & Hst)].
    { rewrite E in Hkinds. discriminate Hkinds. }
    rewrite Ho in Ho'. injection Ho' as <-. rewrite Eg in Hpass.
    apply Forall_cons in Hpass as [Hpass _]. unfold passing in Hpass. congruence.
  - by intros exc s1 [Hz _].
Qed.
End evaluator.

(** ** The runtimes behind it *)

Lemma result_valid executor_id environment_ref artifact_ref version output seed result :
  execution_result executor_id environment_ref artifact_ref version output seed = Ok result →
  SubjectExecutionResult.post_init result = Ok tt ∧
  SubjectExecutionResult.subject_version_id result = version ∧
  SubjectExecutionResult.output_payload result = output.
Proof.
  unfold execution_result, SubjectExecutionResult.new.
  destruct (SubjectExecutionResult.post_init _) as [[]|] eqn:E; [|done]. by intros [= <-].
Qed.

Lemma wp_result {S} (Q : SubjectExecutionResult.t → S → Prop) executor_id environment_ref
    artifact_ref version output seed s :
  (∀ result, SubjectExecutionResult.post_init result = Ok tt → Q result s) →
  wp (lift (execution_result executor_id environment_ref artifact_ref version output seed)) Q
    (fun _ _ => True) s.
Proof. intros H. apply wp_lift; [|done]. intros result (Hv & _)%result_valid. auto. Qed.

Lemma in_process_valid {S} (subjects : dict string (subject_callable S)) artifact_ref tenant_id :
  executor_valid (InProcessSubjectRuntime.execute_artifact subjects artifact_ref tenant_id).
Proof.
  intros version input seed s. unfold InProcessSubjectRuntime.execute_artifact.
  destruct (subjects !! artifact_ref) as [subject|]; [|by apply wp_throw].
  apply wp_bind. eapply wp_mono; [apply wp_any| |done]. intros output s1 _. by apply wp_result.
Qed.

Lemma pack_runtime_valid {S} packs load artifact_ref tenant_id :
  executor_valid (PackSubjectRuntime.execute_artifact (S := S) packs load artifact_ref tenant_id).
Proof.
  intros version input seed s. unfold PackSubjectRuntime.execute_artifact.
  apply wp_bind. eapply wp_mono; [apply wp_any| |done]. intros subject s1 _.
  apply wp_bind. eapply wp_mono; [apply wp_any| |done]. intros output s2 _. by apply wp_result.
Qed.

(** What the sandbox hands on is the JSON object that a child printed, within
    the limit, before it ended with exit code 0. *)
Lemma sandbox_output decode_error timeout artifact_ref outcome output code :
  SandboxedPackSubjectRuntime.output_of decode_error timeout artifact_ref outcome = Ok (output, code) →
  ∃ bytes text stderr, outcome = SandboxedPackSubjectRuntime.Ended 0 bytes (Ok text) stderr ∧
    bytes <= SandboxedPackSubjectRuntime.MAX_SUBJECT_OUTPUT_BYTES ∧
    loads text = Some (JDict output) ∧ code = 0.
Proof.
  destruct outcome as [|returncode bytes stdout stderr]; [done|].
  unfold SandboxedPackSubjectRuntime.output_of.
  destruct (Z.ltb_spec SandboxedPackSubjectRuntime.MAX_SUBJECT_OUTPUT_BYTES bytes); [done|].
  destruct (Z.eqb_spec returncode 0) as [->|]; [|done]. cbn [negb raise_if mbind res_bind].
  destruct stdout as [text|]; [|done]. cbn [mbind res_bind].
  destruct (loads text) as [[]|] eqn:El; try done. intros [= <- <-]. eauto 10.
Qed.

Lemma sandbox_valid {S} packs spawn decode_error environ timeout artifact_ref tenant_id :
  executor_valid (SandboxedPackSubjectRuntime.execute_artifact (S := S) packs spawn decode_error
    environ timeout artifact_ref tenant_id).
Proof.
  intros version input seed s. unfold SandboxedPackSubjectRuntime.execute_artifact.
  apply wp_bind, wp_lift; [|done]. intros [pack_id pack_version] _.
  apply wp_bind. eapply wp_mono; [apply wp_any| |done]. intros listed s1 _.
  apply wp_bind, wp_lift; [|done]. intros entry _.
  apply wp_bind. eapply wp_mono; [apply wp_any| |done]. intros outcome s2 _.
  apply wp_bind, wp_lift; [|done]. intros [output code] _. by apply wp_result.
Qed.

(** The in-process pack runtime asks the store once: a subject it has imported
    runs whatever the packs of the tenant are by then. *)
Lemma imported_subject_runs {S} packs load tenant_id artifact_ref parts subject e
    (s : st (PackSubjectRuntime.t S)) :
  parse_pack_ref artifact_ref = Ok parts →
  PackSubjectRuntime.subjects (data s) !! (tenant_id, artifact_ref) = Some subject →
  PackSubjectRuntime.resolve packs load tenant_id artifact_ref e s = (Ok subject, s).
Proof.
  intros Hp Hs. unfold PackSubjectRuntime.resolve, mbind, M_bind, lift. rewrite Hp.
  destruct parts as [pack_id version]. unfold get. by rewrite Hs.
Qed.

(** ** A candidate, its suite and its graders *)

Definition sample_candidate : CandidateVersion.t :=
  CandidateVersion.mk 7%N 30%N 31%N "pack://echo/1.0.0" (of_chars (repeat "a"%char 64)) "echo" "1"
    "generator" 20%N CandidateStatus.EVALUATING 1 [] None None None.

(** The subject doubles [x]. *)
Definition doubling : subject_callable unit := fun input _ =>
  mret (match alist_get "x" input with
        | Some (JInt n) => [("y", JInt (2 * n)); ("trace", JStr "doubled")]
        | _ => []
        end).

Definition doubling_suite : EvaluationSuite.t :=
  EvaluationSuite.mk "echo" "1"
    [EvaluationCase.mk "two" [("x", JInt 2)] [("y", JInt 4)] [] CaseVisibility.HIDDEN (of_int 2) true;
     EvaluationCase.mk "three" [("x", JInt 3)] [("y", JInt 7)] [] CaseVisibility.PUBLIC (of_int 1) false]
    (of_decimal 6 (-1)).

Definition sample_evaluator (trajectory : option (backend_of unit)) : HarnessCandidateEvaluator.t unit := {|
  HarnessCandidateEvaluator.store :=
    CandidateStore unit (fun _ _ => mret sample_candidate) (fun _ _ _ => mret doubling_suite);
  HarnessCandidateEvaluator.subject_runtime :=
    InProcessSubjectRuntime.execute_artifact
      (InProcessSubjectRuntime.register ∅ "pack://echo/1.0.0" doubling);
  HarnessCandidateEvaluator.harness_version := "2";
  HarnessCandidateEvaluator.llm_judge :=
    Some (fun _ _ => mret (dq "{'passed': true, 'rationale': 'as expected'}"));
  HarnessCandidateEvaluator.llm_rubric_version := "default-rubric@1";
  HarnessCandidateEvaluator.human_decisions := None;
  HarnessCandidateEvaluator.trajectory_grader := trajectory;
  HarnessCandidateEvaluator.decode_error := fun _ => "Expecting value: line 1 column 1 (char 0)"
|}.

Definition sample_trial : res Trial.t * st unit :=
  HarnessCandidateEvaluator.evaluate (sample_evaluator None) 11 7%N 20%N harness_env (St tt 0 0).

Example sample_trial_passes : status_of sample_trial.1 = Some TrialStatus.PASSED.
Proof. vm_compute. reflexivity. Qed.

Lemma sample_suite trajectory :
  suite_of_candidate (sample_evaluator trajectory) 7%N 20%N doubling_suite tt.
Proof. by do 2 apply wp_ret. Qed.

Lemma passed_candidate_matched_witness : ∃ t, sample_trial.1 = Ok t ∧
  ∃ r output, Trial.case_results t !! 0%nat = Some r ∧
    TrialCaseResult.output_payload r = Some output ∧
    GraderResult.kind <$> TrialCaseResult.grader_results r =
      [GraderKind.DETERMINISTIC; GraderKind.LLM] ∧
    py_eq (default JNull (alist_get "y" output)) (JInt 4) = true.
Proof.
  pose proof (passed_candidate_matched (sample_evaluator None) 11 7%N 20%N doubling_suite tt eq_refl
    eq_refl (sample_suite None) ltac:(discriminate)
    (fun ref => in_process_valid _ ref 7%N) harness_env 0%nat 0%nat (fun _ => I)) as H.
  pose proof sample_trial_passes as Hp.
  change (HarnessCandidateEvaluator.evaluate _ _ _ _ _ _) with sample_trial in H. revert Hp H.
  generalize sample_trial. intros [[t|exc] s] Hp H; [|discriminate Hp].
  exists t. split; [reflexivity|]. injection Hp as Hp.
  destruct H as (_ & _ & _ & _ & H).
  destruct (H Hp 0%nat _ eq_refl) as (r & output & Hr & _ & Ho & Hg).
  destruct (Hg eq_refl) as [Hk He]. exists r, output. split; [exact Hr|]. split; [exact Ho|].
  split; [exact Hk|]. apply He. left.
Defined.

Definition misordered : HarnessCandidateEvaluator.t unit :=
  sample_evaluator (Some (TrajectoryGraderBackend.evaluate
    (StaticTrajectorySource.trajectory_for ∅) 7%N [])).

Lemma stages_out_of_order_witness :
  (HarnessCandidateEvaluator.evaluate misordered 11 7%N 20%N harness_env (St tt 0 0)).1 =
  raise ValueError "grader stages must follow governance priority order".
Proof.
  pose proof (stages_out_of_order misordered 11 7%N 20%N doubling_suite tt eq_refl eq_refl
    eq_refl (sample_suite _) harness_env 0%nat 0%nat (fun _ => I)) as H. revert H.
  destruct (HarnessCandidateEvaluator.evaluate _ _ _ _ _ _) as [[t|exc] s]; [intros []|].
  intros ->. reflexivity.
Defined.

(** A reviewer's verdict on the first case, over a rejected one. *)
Definition decision_env (n : Z) : env := Env (fun _ => Aware (seconds n)) (fun _ => 0%N).

Definition first_case : EvaluationCase.t :=
  EvaluationCase.mk "two" [] [] [] CaseVisibility.PUBLIC (of_int 1) true.

Definition decide_case (passed : bool) (rationale reviewer : string) (n : Z)
    (s : st (world unit)) : st (world unit) :=
  (record_audit (record_human_decision 7%N "two" passed rationale reviewer (Z.to_N n) "2026-01-01")
     (decision_env n) s).2.

Definition rejected_state : st (world unit) :=
  decide_case false "wrong total" "principal-a" 10 (St (World empty_store tt) 0 0).

Lemma recorded_decision_is_graded_witness :
  RecordedHumanGraderBackend.evaluate
    (AuditHumanDecisionSource.decision_for list_audit_events) 7%N first_case []
    (decision_env 30) (decide_case true "recomputed by hand" "principal-b" 20 rejected_state) =
  (Ok (decided true "[reviewer principal-b] recomputed by hand"
         ["two"; "audit://evaluation.human_decision/two"]),
   decide_case true "recomputed by hand" "principal-b" 20 rejected_state).
Proof.
  apply (recorded_decision_is_graded 7%N first_case [] true "recomputed by hand" "principal-b" 20%N
    "2026-01-01" (seconds 20) (decision_env 20) (decision_env 30) rejected_state
    (decide_case true "recomputed by hand" "principal-b" 20 rejected_state) _ []).
  - reflexivity.
  - intros x Hx _. vm_compute in Hx. apply list_elem_of_singleton in Hx as ->.
    exists 10000000. vm_compute. split; [reflexivity|discriminate].
  - vm_compute. reflexivity.
  - discriminate.
  - vm_compute. reflexivity.
  - rewrite app_nil_r. reflexivity.
  - intros x Hx. apply elem_of_nil in Hx. destruct Hx.
Defined.
